(* ===== verification/_CoqProject ===== *)
-Q . S2P
Prelude.v
Params.v
Spinlock.v
KString.v
Path.v
Sleeplock.v
Virtio.v
Bio.v
Kmem.v
Ring.v
Uart.v
Console.v
Fsys.v
Blocks.v
BlocksProof.v
Bmap.v
Dinode.v
FileData.v
Trunc.v
Vfs.v
Dirs.v
Pipe.v
File.v
Sysfile.v
DirsProof.v
VfsProof.v
Lookup.v
Kalloc.v
Vm.v
VmProof.v
VmMap.v
VmSpace.v
VmCopy.v
KmemVm.v
FsDemo.v
FsSpec.v
PipeProof.v
ConsoleProof.v
Exec.v
Proc.v
ProcProof.v
ProcSpec.v
Sh.v
ShProof.v
ShPrint.v
Umalloc.v
UmallocProof.v
UmallocSpec.v
Grep.v
Printf.v
Kprintf.v
Ulib.v
Kernel.v
FsFrames.v
KernelProof.v
KernelSpec.v
Asm.v
AsmKernel.v
Initcode.v
Mkfs.v
MkfsProof.v
MkfsImage.v
MkfsSpec.v
ShRun.v
Start.v
MkfsMount.v
Rand.v
Kvm.v
VirtioInit.v
FirstProc.v
Main.v
BootFs.v
Calls.v
UserMains.v
ShMain.v
Machine.v
UsertestsFs.v
UsertestsMore.v
Usertests.v
UsertestsRun.v
