(* ===== verification/Prelude.v ===== *)
(** * xv6-fs-lab: a verification development

    A model in Rocq of the operating system in [src/] (a small Unix for RISC-V
    with a virtual file system layer, its user programs and the program that makes its
    disk image), and theorems about the model.  Definitions keep the names of
    the C functions they translate; where two functions of the source have the
    same name the model's name has a prefix, or lives in another file.

    ** The style of the model

    - C integers are [Z] at their width: [uint], [uint64], [int], ... of this
      file write out the wrap-around.  Bytes are [Z] below 256, buffers are lists of
      bytes, a pointer is an address or an index of a table.
    - Stateful code is in the monad [K S A := S -> res (A * S)] of this file.  [Ok]
      is a normal return; [Panic] a call of [panic]; [Fault] an access that the
      machine traps or that is undefined in C; [Blocked] a thread that would sleep; [OutOfFuel] a
      loop that was not given enough rounds.  [zoom] runs code of one
      component on the state of a larger one.
    - A component sees another through a type class: [DiskDriver] ([Virtio] to
      [Bio]), [BufCache] ([Bio] to the file system), [KMem] ([Kmem], discharged over
      the real page tables in [KmemVm]), [UartDev] (the chip), [PlicDev] (the
      interrupt controller), [FsRefs] (file system to process table, discharged in [ProcSpec]), [VirtioMmio] and [VirtioBlk]
      (the registers of the disk, and how it serves requests).  Each has laws, and an
      instance that satisfies them.
    - Hardware and the linker are parameters: the virtio device, the UART, the
      interrupt controller, address translation of the assembly code, addresses of symbols.

    ** The parts, and where they are

    - Foundations: [Prelude] (integers, the monad, list lemmas, tactics, the hint
      database [frames]), [Params] ([src/kernel/param.h] and other constants), [KString]
      ([src/kernel/string.c] on a byte memory), [Ring] (ring buffers with 32-bit counters).
    - Locks: [Spinlock] ([src/kernel/spinlock.c], instruction by instruction on any
      number of CPUs), [Sleeplock] ([src/kernel/sleeplock.c]).
    - Disk: [Virtio] and [VirtioInit] ([src/kernel/virtio_disk.c], requests and start-up), [Bio]
      ([src/kernel/fs/xv6fs/bio.c], the linked list by its pointers).
    - File system: [Fsys] (the shared tables), [Blocks] (blocks and file contents of
      [src/kernel/fs/xv6fs/fs.c]), [Dirs] (its directories, path walk), [Path] ([skipelem]),
      [Vfs] ([src/kernel/fs/fs.c]), [Pipe] ([src/kernel/fs/pipe.c]), [File] ([src/kernel/fs/file.c]),
      [Sysfile] ([src/kernel/fs/sysfile.c] and the arguments of [src/kernel/syscall.c]), [Exec]
      ([src/kernel/fs/exec.c]).  Proofs: [BlocksProof], [Bmap], [Dinode], [FileData], [Trunc], [DirsProof],
      [VfsProof], [Lookup], [PipeProof], [FsSpec]; examples: [FsDemo] and the end of [FsSpec].
    - Memory: [Kalloc] ([src/kernel/kalloc.c]), [Vm] ([src/kernel/vm.c]); proofs in [VmProof],
      [VmMap], [VmSpace], [VmCopy], [Kvm] (the address space of the kernel); [KmemVm] joins them with the file system.
    - Devices: [Uart] ([src/kernel/uart.c]), [Console] ([src/kernel/console.c]), [ConsoleProof],
      [Kprintf] ([src/kernel/printf.c]).
    - Processes: [Proc] ([src/kernel/proc.c]), [ProcProof], [ProcSpec].
    - The kernel as a whole: [Kernel] ([src/kernel/syscall.c], [sysproc.c], [trap.c], [plic.c] over one state that
      joins processes, file system, console and the control registers of the harts), [FsFrames] (what the file system and the console leave alone), [KernelProof],
      [KernelSpec].
    - Assembly and boot: [Asm] ([src/kernel/trampoline.S], [swtch.S], [kernelvec.S], [entry.S],
      [src/user/usys.pl]), [AsmKernel] (the trampoline around [Kernel]), [Start]
      ([src/kernel/start.c]), [Main] ([src/kernel/main.c] with [kvminit] and [kvminithart], on the state of the whole
      kernel), [FirstProc] (the address space of the first process), [Initcode] ([initcode] and [src/user/initcode.S]).
    - User space: [Sh], [ShProof], [ShPrint], [ShRun] ([src/user/sh.c]), [Umalloc], [UmallocProof],
      [UmallocSpec] ([src/user/umalloc.c]), [Ulib] ([src/user/ulib.c]), [Printf] ([src/user/printf.c]),
      [Grep] ([src/user/grep.c]), [Rand] (the random numbers of [src/user/grind.c]).
    - Programs as trees of system calls (interaction trees): [Calls] (the calls of [src/user/user.h], running a program against any
      kernel, and a logic for what it can ask for), [UserMains] ([init.c], [cat.c], [wc.c], [grep.c], [echo.c], [ls.c],
      [kill.c], [ln.c], [mkdir.c], [rm.c], [zombie.c]), [ShMain] (the shell from [main] on), [UsertestsFs],
      [UsertestsMore], [Usertests] ([src/user/usertests.c]), [Machine] (such programs as processes of
      [Kernel], through [usertrap] and the scheduler), [UsertestsRun] (tests on that machine).
    - The image: [Mkfs], [MkfsProof], [MkfsImage], [MkfsSpec] ([src/mkfs/mkfs.c]), [MkfsMount] (the kernel mounts
      it), [BootFs] (from power-on to the first file).

    ** What the theorems show

    - Files: what is written is read back, other files keep their contents, writes that cannot be are
      rejected ([FsSpec]); names are added, removed and resolved as the directory tree on the disk says, and
      the last [iput] of an unlinked inode gives its blocks back ([FsSpec], [Lookup]); the blocks under them
      are allocated and freed exactly ([FsSpec]).  The image of mkfs holds the files it was given, in the format the kernel reads
      ([MkfsSpec] uses the decoders of [Dinode] and [Blocks]); mounted, every file is found by its path and reads back ([MkfsMount]).
    - Boot: [main] on hart 0 runs through all the init functions without a panic and leaves the kernel's page table, the first process and a
      disk that is ready; the other harts follow ([Main], [Kvm], [VirtioInit]).  Joined with mkfs and the file system: a machine that is
      switched on with the image on its disk finds and reads every file whose name can be found ([BootFs]).
    - Disk: [bread] returns what is on the disk and [bwrite] puts it there, through the real driver, the
      descriptor rings, the notification of the device and its interrupt ([Bio], [Virtio]).  The blocks are those of the disk: [dd_size] and [bc_size] come from the capacity of the device.
    - Memory: page allocator as a stack, address spaces that grow and shrink page by page, copies across them ([Kalloc], [VmSpace],
      [VmCopy]); the heap of a user program cut into chunks that never overlap ([UmallocSpec]).
    - Concurrency and time: mutual exclusion of spin locks, the invariant of the process table, no lost
      wakeup at exit, a scheduler without starvation, [sleep] that ends, a timer that is always rearmed
      ([Spinlock], [ProcSpec], [KernelSpec], [Start]).
    - Control: a system call seen from user space, kernel traps and context switches keep the registers they must
      ([AsmKernel], [Asm]); the first process executes /init ([Initcode]).
    - Streams: a pipe is a byte stream in bounded storage under any interleaving of its calls, errors included ([PipeProof]); the console edits lines as its
      specification ([ConsoleProof]).
    - The shell: its parser stops on every line and inverts printing, and the programs it starts find the
      descriptors that the command says ([ShProof], [ShPrint], [ShRun]); whatever the kernel answers, its loop does for each line of the input
      what the line asks for ([ShMain]).
    - Libraries and programs: printf and its numbers, memmove, grep and its matcher, wc ([Printf], [Kprintf], [Ulib],
      [Grep], [UserMains]); cat copies and init keeps one shell against any kernel ([UserMains]); the messages of the tests fit their formats and types but for seven tests ([misprints]), and
      three of the tests pass on the machine ([Usertests], [UsertestsRun]).
    - Flaws of the code are theorems too: [kill_zero_kills_next_child], [geti_resets_count], [malloc_wraps],
      [grep_stops_at_long_line], [percent_l_truncates], [usertests_skips], [formats_short].

    ** Fuel

    A loop over a table or a range has as many rounds as the table or range has entries ([list_fuel] is one more than the
    buffers of the cache; [dir_fuel] one more than the entries of the directory; a block loop one round for every block the
    call can touch; [rounds] and [parse_fuel] of the parser come from the length of the line).  Theorems say that these are enough: they conclude [Ok], never
    [OutOfFuel].  Loops without a bound in the source take their fuel as an argument, and their theorems ask for enough of it: the spins on a
    device ([wait_idle], [wait_disk], by a hypothesis or a law on the device), [strlen] and its like (more than the length of the string);
    [wait_started] of the harts that wait, which ends as [Blocked] when [started] is still 0; [drive] and [wp] of [Calls], whose theorems hold for
    every number of nodes, and [run] of [Machine], 10000 steps for the tests that are run.  [kvmmake] needs 334 free pages and [main] 352; the theorems
    state them as hypotheses on the memory.

    ** Not modelled

    - [procdump] and most messages on the console, which change no state of the model: among them what [stati] and [forkret] print.
    - Memory ordering weaker than interleaving: the fences are no-ops.
    - [p->lock], [wait_lock], [pr.lock] and the like around each operation: an operation of [Proc], [File] and [Kprintf] is one step; what a spin
      lock guarantees is proved in [Spinlock].
    - The test [mem] of [src/user/usertests.c], which works on the lists of [malloc] in its own memory (a parameter of [Usertests]), and the tests [grind.c] beyond its
      random numbers, [forktest.c] and [stressfs.c], which make the same calls.
    - In [Machine], interrupts between the calls of a program: a process gives up the CPU where it sleeps or exits. *)

From stdpp Require Import base numbers list list_numbers gmap strings.
From Stdlib Require Import ZArith Lia.

#[global] Open Scope Z_scope.
#[export] Set Default Proof Using "Type".

(** ** Machine integers

    The C types of [src/kernel/types.h] are integers kept at their width:
    [uchar], [ushort], [uint], [uint64] reduce modulo a power of two, [short]
    and [int] are read back as two's complement. *)

Definition uchar (x : Z) : Z := x mod 2 ^ 8.
Definition ushort (x : Z) : Z := x mod 2 ^ 16.
Definition uint (x : Z) : Z := x mod 2 ^ 32.
Definition uint64 (x : Z) : Z := x mod 2 ^ 64.
Definition to_signed (w x : Z) : Z :=
  let y := x mod 2 ^ w in if 2 ^ (w - 1) <=? y then y - 2 ^ w else y.
Definition schar (x : Z) : Z := to_signed 8 x.
Definition short (x : Z) : Z := to_signed 16 x.
Definition int (x : Z) : Z := to_signed 32 x.

Lemma uint_small x : 0 <= x < 2 ^ 32 -> uint x = x.
Proof. apply Z.mod_small. Qed.
Lemma uint64_small x : 0 <= x < 2 ^ 64 -> uint64 x = x.
Proof. apply Z.mod_small. Qed.
Lemma ushort_small x : 0 <= x < 2 ^ 16 -> ushort x = x.
Proof. apply Z.mod_small. Qed.
Lemma uchar_small x : 0 <= x < 2 ^ 8 -> uchar x = x.
Proof. apply Z.mod_small. Qed.
Lemma uint_range x : 0 <= uint x < 2 ^ 32.
Proof. by apply Z.mod_pos_bound. Qed.
Lemma uint64_range x : 0 <= uint64 x < 2 ^ 64.
Proof. by apply Z.mod_pos_bound. Qed.
Lemma uchar_range x : 0 <= uchar x < 2 ^ 8.
Proof. by apply Z.mod_pos_bound. Qed.
Lemma ushort_range x : 0 <= ushort x < 2 ^ 16.
Proof. by apply Z.mod_pos_bound. Qed.

Lemma to_signed_small w x :
  0 < w -> - 2 ^ (w - 1) <= x < 2 ^ (w - 1) -> to_signed w x = x.
Proof.
  intros Hw Hx. unfold to_signed.
  assert (Hp : 2 ^ w = 2 * 2 ^ (w - 1)).
  { rewrite <- Z.pow_succ_r by lia. f_equal. lia. }
  destruct (decide (0 <= x)) as [Hp0|Hn].
  - rewrite Z.mod_small by lia. case_match eqn:E; [apply Z.leb_le in E; lia|done].
  - replace (x mod 2 ^ w) with (x + 2 ^ w)
      by (rewrite <- (Z.mod_unique x (2 ^ w) (-1) (x + 2 ^ w)); lia).
    case_match eqn:E; [lia|apply Z.leb_gt in E; lia].
Qed.
Lemma int_small x : - 2 ^ 31 <= x < 2 ^ 31 -> int x = x.
Proof. intros. apply to_signed_small; simpl; lia. Qed.
Lemma short_small x : - 2 ^ 15 <= x < 2 ^ 15 -> short x = x.
Proof. intros. apply to_signed_small; simpl; lia. Qed.

(** ** Outcomes and the state monad

    A kernel routine returns a value, stops in [panic], dereferences a null or
    unmapped pointer ([Fault]), has to wait for another thread ([Blocked]), or
    runs out of the fuel a loop without a static bound is given ([OutOfFuel]).
    Theorems about a routine that is given fuel show the last never happens. *)

Inductive res (A : Type) : Type :=
| Ok (a : A)
| Panic (msg : string)
| Fault (what : string)
| Blocked (chan : string)
| OutOfFuel.
Arguments Ok {A} a.
Arguments Panic {A} msg.
Arguments Fault {A} what.
Arguments Blocked {A} chan.
Arguments OutOfFuel {A}.

Definition res_bind {A B} (r : res A) (f : A -> res B) : res B :=
  match r with
  | Ok a => f a
  | Panic m => Panic m
  | Fault m => Fault m
  | Blocked c => Blocked c
  | OutOfFuel => OutOfFuel
  end.

Definition K (S A : Type) : Type := S -> res (A * S).

#[export] Instance K_ret {S} : MRet (K S) := fun A a s => Ok (a, s).
#[export] Instance K_bind {S} : MBind (K S) :=
  fun A B f m s => res_bind (m s) (fun p => f p.1 p.2).

Definition get {S} : K S S := fun s => Ok (s, s).
Definition gets {S A} (f : S -> A) : K S A := fun s => Ok (f s, s).
Definition modify {S} (f : S -> S) : K S unit := fun s => Ok (tt, f s).
Definition panic {S A} (msg : string) : K S A := fun _ => Panic msg.
Definition fault {S A} (msg : string) : K S A := fun _ => Fault msg.
Definition blocked {S A} (c : string) : K S A := fun _ => Blocked c.
Definition out_of_fuel {S A} : K S A := fun _ => OutOfFuel.

(** Running a routine of a component on the component's part of a larger state. *)
Definition zoom {S T A} (get_part : S -> T) (set_part : T -> S -> S) (m : K T A) : K S A :=
  fun s => res_bind (m (get_part s)) (fun p => Ok (p.1, set_part p.2 s)).

Lemma bind_ok {S A B} (m : K S A) (f : A -> K S B) s a s' :
  m s = Ok (a, s') -> (m ≫= f) s = f a s'.
Proof. intros H. unfold mbind, K_bind. by rewrite H. Qed.
Lemma bind_panic {S A B} (m : K S A) (f : A -> K S B) s msg :
  m s = Panic msg -> (m ≫= f) s = Panic msg.
Proof. intros H. unfold mbind, K_bind. by rewrite H. Qed.
Lemma bind_get {S B} (f : S -> K S B) s : (get ≫= f) s = f s s.
Proof. done. Qed.
Lemma bind_gets {S A B} (g : S -> A) (f : A -> K S B) s : (gets g ≫= f) s = f (g s) s.
Proof. done. Qed.
Lemma bind_modify {S B} (g : S -> S) (f : unit -> K S B) s : (modify g ≫= f) s = f tt (g s).
Proof. done. Qed.
Lemma bind_ret {S A B} (a : A) (f : A -> K S B) s : (mret a ≫= f) s = f a s.
Proof. done. Qed.
Lemma zoom_ok {S T A} (g : S -> T) (p : T -> S -> S) (m : K T A) s a t :
  m (g s) = Ok (a, t) -> zoom g p m s = Ok (a, p t s).
Proof. intros H. unfold zoom. by rewrite H. Qed.

(** Taking a successful run apart. *)
Lemma bind_inv {S A B} (m : K S A) (f : A -> K S B) s b s' :
  (m ≫= f) s = Ok (b, s') -> exists a s1, m s = Ok (a, s1) /\ f a s1 = Ok (b, s').
Proof.
  unfold mbind, K_bind. destruct (m s) as [[a s1]|?|?|?|]; simpl; try done. intros H. by exists a, s1.
Qed.
Lemma zoom_inv {S T A} (g : S -> T) (p : T -> S -> S) (m : K T A) s a s' :
  zoom g p m s = Ok (a, s') -> exists t, m (g s) = Ok (a, t) /\ s' = p t s.
Proof. unfold zoom. destruct (m (g s)) as [[b t]|?|?|?|]; simpl; try done. intros [= <- <-]. by exists t. Qed.

(** ** Byte lists

    Buffers, disk blocks and C structures are lists of bytes (a byte is an
    integer in [0, 256)); [sub] and [splice] read and overwrite a range,
    [le_decode] and [le_encode] are the little-endian views. *)

Definition byte_ok (b : Z) : Prop := 0 <= b < 256.
Definition bytes_ok (l : list Z) : Prop := Forall byte_ok l.

Definition zlen {A} (l : list A) : Z := Z.of_nat (length l).
Definition znth (l : list Z) (i : Z) : Z := l !!! Z.to_nat i.
Definition zupd {A} (l : list A) (i : Z) (x : A) : list A := <[Z.to_nat i := x]> l.
Definition sub {A} (l : list A) (off len : Z) : list A :=
  take (Z.to_nat len) (drop (Z.to_nat off) l).
Definition splice {A} (l : list A) (off : Z) (l' : list A) : list A :=
  take (Z.to_nat off) l ++ l' ++ drop (Z.to_nat off + length l') l.

Fixpoint le_decode (l : list Z) : Z :=
  match l with
  | [] => 0
  | b :: l => b + 256 * le_decode l
  end.
Fixpoint le_encode (n : nat) (v : Z) : list Z :=
  match n with
  | O => []
  | S n => v mod 256 :: le_encode n (v / 256)
  end.

Definition load (n : nat) (l : list Z) (off : Z) : Z := le_decode (sub l off (Z.of_nat n)).
Definition store (n : nat) (l : list Z) (off v : Z) : list Z := splice l off (le_encode n v).
Abbreviation load16 := (load 2).
Abbreviation load32 := (load 4).
Abbreviation load64 := (load 8).
Abbreviation store16 := (store 2).
Abbreviation store32 := (store 4).
Abbreviation store64 := (store 8).

Lemma length_sub {A} (l : list A) off len :
  0 <= off -> 0 <= len -> off + len <= zlen l -> length (sub l off len) = Z.to_nat len.
Proof. unfold sub, zlen. intros. rewrite length_take, length_drop. lia. Qed.

Lemma length_splice {A} (l l' : list A) off :
  0 <= off -> off + zlen l' <= zlen l -> length (splice l off l') = length l.
Proof.
  unfold splice, zlen. intros. rewrite !length_app, length_take, length_drop. lia.
Qed.

Lemma zlen_splice {A} (l l' : list A) off :
  0 <= off -> off + zlen l' <= zlen l -> zlen (splice l off l') = zlen l.
Proof. intros. unfold zlen. by rewrite length_splice. Qed.

Lemma lookup_splice {A} (l l' : list A) off i :
  0 <= off -> off + zlen l' <= zlen l ->
  splice l off l' !! i =
  if decide (off <= Z.of_nat i < off + zlen l') then l' !! (i - Z.to_nat off)%nat else l !! i.
Proof.
  unfold splice, zlen. intros H0 H1. case_decide as Hd.
  - rewrite lookup_app_r by (rewrite length_take; lia).
    rewrite lookup_app_l by (rewrite length_take; lia).
    f_equal. rewrite length_take. lia.
  - destruct (decide (Z.of_nat i < off)).
    + rewrite lookup_app_l by (rewrite length_take; lia).
      apply lookup_take_lt. lia.
    + rewrite lookup_app_r by (rewrite length_take; lia).
      rewrite lookup_app_r by (rewrite length_take; lia).
      rewrite lookup_drop. f_equal. rewrite length_take. lia.
Qed.

Lemma sub_splice_same {A} (l l' : list A) off :
  0 <= off -> off + zlen l' <= zlen l -> sub (splice l off l') off (zlen l') = l'.
Proof.
  unfold sub, splice, zlen. intros.
  rewrite drop_app_length' by (rewrite length_take; lia).
  rewrite Nat2Z.id. by rewrite take_app_length.
Qed.

Lemma lookup_sub {A} (l : list A) off len i :
  0 <= off ->
  sub l off len !! i = if decide (Z.of_nat i < len) then l !! (Z.to_nat off + i)%nat else None.
Proof.
  intros. unfold sub. case_decide.
  - rewrite lookup_take_lt by lia. by rewrite lookup_drop.
  - apply lookup_take_ge. lia.
Qed.

Lemma sub_splice_disj {A} (l l' : list A) off off' len :
  0 <= off -> off + zlen l' <= zlen l -> 0 <= off' ->
  off' + len <= off \/ off + zlen l' <= off' ->
  sub (splice l off l') off' len = sub l off' len.
Proof.
  intros ??? Hd. apply list_eq. intros i. rewrite !lookup_sub by lia.
  case_decide; [|done]. rewrite lookup_splice by lia. case_decide; [lia|done].
Qed.

Lemma sub_full {A} (l : list A) : sub l 0 (zlen l) = l.
Proof. unfold sub, zlen. rewrite drop_0, Nat2Z.id. by apply take_ge. Qed.

Lemma sub_app_adj {A} (l : list A) off n m :
  0 <= off -> 0 <= n -> 0 <= m -> off + n + m <= zlen l ->
  sub l off (n + m) = sub l off n ++ sub l (off + n) m.
Proof.
  unfold sub. intros. rewrite !Z2Nat.inj_add by lia.
  rewrite <- take_take_drop. by rewrite drop_drop.
Qed.

Lemma bytes_ok_app l l' : bytes_ok (l ++ l') <-> bytes_ok l /\ bytes_ok l'.
Proof. apply Forall_app. Qed.
Lemma bytes_ok_replicate n b : byte_ok b -> bytes_ok (replicate n b).
Proof. intros H. by apply Forall_replicate. Qed.
Lemma bytes_ok_sub l off len : bytes_ok l -> bytes_ok (sub l off len).
Proof. intros. by apply Forall_take, Forall_drop. Qed.
Lemma bytes_ok_splice l off l' : bytes_ok l -> bytes_ok l' -> bytes_ok (splice l off l').
Proof.
  intros. unfold splice. rewrite !bytes_ok_app.
  split_and!; [by apply Forall_take|done|by apply Forall_drop].
Qed.

Lemma length_le_encode n v : length (le_encode n v) = n.
Proof. revert v. induction n; simpl; auto. Qed.
Lemma bytes_ok_le_encode n v : bytes_ok (le_encode n v).
Proof.
  unfold bytes_ok. revert v. induction n as [|n IH]; intros v; simpl; [by constructor|].
  constructor; [by apply Z.mod_pos_bound|apply IH].
Qed.

Lemma le_decode_encode n v : le_decode (le_encode n v) = v mod 2 ^ (8 * Z.of_nat n).
Proof.
  revert v. induction n as [|n IH]; intros v.
  - simpl. by rewrite Z.mod_1_r.
  - simpl le_encode. simpl le_decode. rewrite IH.
    replace (8 * Z.of_nat (S n)) with (8 + 8 * Z.of_nat n) by lia.
    rewrite Z.pow_add_r by lia. change (2 ^ 8) with 256.
    rewrite Z.rem_mul_r by lia. done.
Qed.

Lemma le_decode_range l : bytes_ok l -> 0 <= le_decode l < 2 ^ (8 * zlen l).
Proof.
  unfold zlen. induction 1 as [|b l Hb _ IH]; simpl; [lia|].
  replace (8 * Z.of_nat (S (length l))) with (8 + 8 * Z.of_nat (length l)) by lia.
  rewrite Z.pow_add_r by lia. change (2 ^ 8) with 256. unfold byte_ok in Hb. lia.
Qed.

Lemma le_encode_decode l : bytes_ok l -> le_encode (length l) (le_decode l) = l.
Proof.
  induction 1 as [|b l Hb _ IH]; simpl; [done|]. unfold byte_ok in Hb.
  rewrite (Z.mul_comm 256). rewrite Z.mod_add by lia. rewrite Z.div_add by lia.
  rewrite (Z.mod_small b), (Z.div_small b), Z.add_0_l by lia. by rewrite IH.
Qed.

Lemma load_store_same n l off v :
  0 <= off -> off + Z.of_nat n <= zlen l ->
  load n (store n l off v) off = v mod 2 ^ (8 * Z.of_nat n).
Proof.
  intros. unfold load, store.
  assert (Hl : zlen (le_encode n v) = Z.of_nat n) by (unfold zlen; by rewrite length_le_encode).
  rewrite <- Hl at 1. rewrite sub_splice_same by lia. apply le_decode_encode.
Qed.

Lemma load_store_disj n m l off off' v :
  0 <= off -> off + Z.of_nat n <= zlen l -> 0 <= off' ->
  off' + Z.of_nat m <= off \/ off + Z.of_nat n <= off' ->
  load m (store n l off v) off' = load m l off'.
Proof.
  intros. unfold load, store. f_equal. apply sub_splice_disj; try lia.
  all: unfold zlen in *; rewrite length_le_encode; lia.
Qed.

Lemma length_store n l off v :
  0 <= off -> off + Z.of_nat n <= zlen l -> length (store n l off v) = length l.
Proof. intros. unfold store. apply length_splice; unfold zlen in *; rewrite ?length_le_encode; lia. Qed.

Lemma zlen_store n l off v :
  0 <= off -> off + Z.of_nat n <= zlen l -> zlen (store n l off v) = zlen l.
Proof. intros. unfold zlen. by rewrite length_store. Qed.

Lemma bytes_ok_store n l off v : bytes_ok l -> bytes_ok (store n l off v).
Proof. intros. apply bytes_ok_splice; [done|apply bytes_ok_le_encode]. Qed.

Lemma load_range n l off : bytes_ok l -> 0 <= load n l off < 2 ^ (8 * Z.of_nat n).
Proof.
  intros H. pose proof (le_decode_range _ (bytes_ok_sub l off (Z.of_nat n) H)) as Hr.
  unfold load. split; [lia|]. eapply Z.lt_le_trans; [apply Hr|].
  apply Z.pow_le_mono_r; [lia|]. unfold zlen, sub. rewrite length_take. lia.
Qed.

Lemma zlen_nonneg {A} (l : list A) : 0 <= zlen l.
Proof. unfold zlen. lia. Qed.
Lemma zlen_app {A} (l l' : list A) : zlen (l ++ l') = zlen l + zlen l'.
Proof. unfold zlen. rewrite length_app. lia. Qed.
Lemma zlen_replicate {A} n (x : A) : zlen (replicate n x) = Z.of_nat n.
Proof. unfold zlen. by rewrite length_replicate. Qed.
Lemma zlen_sub {A} (l : list A) off len :
  0 <= off -> 0 <= len -> off + len <= zlen l -> zlen (sub l off len) = len.
Proof. intros. unfold zlen at 1. rewrite length_sub by lia. lia. Qed.

Lemma splice_splice_adj {A} (l a b : list A) k :
  0 <= k -> k + zlen a + zlen b <= zlen l -> splice (splice l k a) (k + zlen a) b = splice l k (a ++ b).
Proof.
  intros Hk Hl. pose proof (zlen_nonneg a). pose proof (zlen_nonneg b). apply list_eq. intros i.
  rewrite (lookup_splice (splice l k a)), (lookup_splice l (a ++ b)) by (rewrite ?zlen_splice, ?zlen_app; lia).
  rewrite lookup_splice by lia. rewrite zlen_app. unfold zlen in *. repeat case_decide; try lia; try done.
  - rewrite lookup_app_r by lia. f_equal. lia.
  - rewrite lookup_app_l by lia. done.
Qed.

Lemma znth_splice l l' off i :
  0 <= off -> off + zlen l' <= zlen l -> 0 <= i ->
  znth (splice l off l') i =
  if decide (off <= i < off + zlen l') then znth l' (i - off) else znth l i.
Proof.
  intros. unfold znth. rewrite !list_lookup_total_alt. rewrite lookup_splice by lia.
  rewrite Z2Nat.id by lia. case_decide; [|done]. do 2 f_equal. lia.
Qed.

Lemma znth_sub l off len i :
  0 <= off -> 0 <= i < len -> znth (sub l off len) i = znth l (off + i).
Proof.
  intros. unfold znth. rewrite !list_lookup_total_alt. rewrite lookup_sub by lia.
  rewrite decide_True by lia. do 2 f_equal. lia.
Qed.

Lemma znth_zupd_eq l i x : 0 <= i < zlen l -> znth (zupd l i x) i = x.
Proof.
  intros. unfold znth, zupd, zlen in *. rewrite list_lookup_total_insert_eq; [done|lia].
Qed.
Lemma znth_zupd_ne l i j x : 0 <= i -> 0 <= j -> i <> j -> znth (zupd l i x) j = znth l j.
Proof.
  intros. unfold znth, zupd. rewrite list_lookup_total_insert_ne; [done|lia].
Qed.
Lemma zlen_zupd {A} (l : list A) i x : zlen (zupd l i x) = zlen l.
Proof. unfold zlen, zupd. by rewrite length_insert. Qed.
Lemma bytes_ok_zupd l i x : bytes_ok l -> byte_ok x -> bytes_ok (zupd l i x).
Proof. intros. by apply Forall_insert. Qed.
Lemma bytes_ok_znth l i : bytes_ok l -> byte_ok (znth l i).
Proof.
  intros H. unfold znth. rewrite list_lookup_total_alt.
  destruct (l !! Z.to_nat i) eqn:E; simpl.
  - by eapply Forall_lookup_1 in E.
  - unfold byte_ok. simpl. lia.
Qed.

Lemma znth_ext l l' :
  zlen l = zlen l' -> (forall i, 0 <= i < zlen l -> znth l i = znth l' i) -> l = l'.
Proof.
  unfold zlen, znth. intros Hlen H. apply list_eq_same_length with (n := length l'); [lia|lia|].
  intros i x y Hi Hx Hy. specialize (H (Z.of_nat i)). rewrite Nat2Z.id in H.
  rewrite !list_lookup_total_alt, Hx, Hy in H. simpl in H. apply H. lia.
Qed.

Lemma list_alter_twice {A} (f g : A -> A) i (l : list A) : alter g i (alter f i l) = alter (g ∘ f) i l.
Proof. revert i. induction l as [|x l IH]; intros [|i]; simpl; [done..|]. f_equal. apply IH. Qed.

Lemma list_filter_true {A} (P : A -> Prop) `{!forall x, Decision (P x)} (l : list A) :
  (forall x, x ∈ l -> P x) -> filter P l = l.
Proof.
  induction l as [|x l IH]; intros HP; [done|].
  rewrite filter_cons_True by (apply HP; set_solver). f_equal. apply IH. set_solver.
Qed.

(** ** Automation

    [kernel] gathers the length and range facts of byte lists. *)
Create HintDb kernel.
Create Rewrite HintDb kernel.
#[export] Hint Resolve bytes_ok_sub bytes_ok_splice bytes_ok_store bytes_ok_le_encode
  bytes_ok_zupd bytes_ok_znth zlen_nonneg : kernel.
#[export] Hint Rewrite @zlen_app @zlen_replicate @length_le_encode @length_app
  @length_replicate @zlen_zupd : kernel.

(** Case analysis on the boolean comparisons of the C conditions. *)
Ltac zbool :=
  repeat match goal with
  | H : (_ && _)%bool = true |- _ => apply andb_prop in H as [? ?]
  | H : (_ && _)%bool = false |- _ => apply andb_false_iff in H
  | H : (_ || _)%bool = false |- _ => apply orb_false_elim in H as [? ?]
  | H : (_ || _)%bool = true |- _ => apply orb_true_iff in H
  | H : (_ =? _) = true |- _ => apply Z.eqb_eq in H
  | H : (_ =? _) = false |- _ => apply Z.eqb_neq in H
  | H : (_ <? _) = true |- _ => apply Z.ltb_lt in H
  | H : (_ <? _) = false |- _ => apply Z.ltb_ge in H
  | H : (_ <=? _) = true |- _ => apply Z.leb_le in H
  | H : (_ <=? _) = false |- _ => apply Z.leb_gt in H
  | H : negb _ = true |- _ => apply negb_true_iff in H
  | H : negb _ = false |- _ => apply negb_false_iff in H
  end.

(** Simplify a chain of monadic steps. *)
Ltac ksimpl := repeat first [rewrite bind_get | rewrite bind_gets | rewrite bind_modify | rewrite bind_ret].
Ltac kinv H := apply bind_inv in H as (? & ? & ? & H).
Ltac kstep H := rewrite (bind_ok _ _ _ _ _ H).
Ltac kunfold := unfold mret, K_ret, mbind, K_bind, get, gets, modify in *.
