(* ===== verification/Params.v ===== *)
(** * Constants

    The numeric parameters of [src/kernel/param.h], [src/kernel/buf.h],
    [src/kernel/stat.h], [src/kernel/xv6_fcntl.h], [src/kernel/fs/xv6fs/fs.h]
    and [src/kernel/fs/xv6fs/file.h] that the components share. *)

From Stdlib Require Import ZArith.
From S2P Require Import Prelude.

(** param.h *)
Definition NPROC : Z := 64.
Definition NCPU : Z := 8.
Definition NOFILE : Z := 16.
Definition NFILE : Z := 100.
Definition NINODE : Z := 50.
Definition NDENTRY : Z := 114.
Definition NDEV : Z := 10.
Definition ROOTDEV : Z := 1.
Definition MAXARG : Z := 32.
Definition MAXOPBLOCKS : Z := 10.
Definition LOGSIZE : Z := MAXOPBLOCKS * 3.
Definition NBUF : Z := MAXOPBLOCKS * 3.
Definition FSSIZE : Z := 2000.
Definition MAXPATH : Z := 128.

(** buf.h, fs.h *)
Definition BSIZE : Z := 1024.
Definition ROOTINO : Z := 1.
Definition FSMAGIC : Z := 0x10203040.
Definition NDIRECT : Z := 12.
Definition NINDIRECT : Z := BSIZE / 4.
Definition MAXFILE : Z := NDIRECT + NINDIRECT.
Definition sizeof_dinode : Z := 64.
Definition IPB : Z := BSIZE / sizeof_dinode.
Definition BPB : Z := BSIZE * 8.
Definition sizeof_dentry : Z := 16.

(** stat.h *)
Definition T_DIR : Z := 1.
Definition T_FILE : Z := 2.
Definition T_DEVICE : Z := 3.

(** xv6_fcntl.h *)
Definition O_RDONLY : Z := 0x000.
Definition O_WRONLY : Z := 0x001.
Definition O_RDWR : Z := 0x002.
Definition O_CREATE : Z := 0x200.
Definition O_TRUNC : Z := 0x400.

(** file.h *)
Definition FD_NONE : Z := 0.
Definition FD_PIPE : Z := 1.
Definition FD_INODE : Z := 2.
Definition FD_DEVICE : Z := 3.
Definition CONSOLE : Z := 1.
