(* ===== verification/Spinlock.v ===== *)
(** * Spin locks

    [src/kernel/spinlock.c]: [acquire] and [release] with their atomic swap, and the
    nesting of [push_off] and [pop_off] that keeps interrupts off while a CPU holds a
    lock.  The routines run on the CPU [h]; a spin that finds the lock taken is a
    [Blocked] outcome.  The interleaved machine runs the same actions one at a time on
    all CPUs. *)

From stdpp Require Import base numbers list list_numbers gmap strings.
From Stdlib Require Import ZArith Lia.
From S2P Require Import Prelude Params.

Record spinlock := mk_spinlock { locked : Z; lk_cpu : option nat }.
(** [struct cpu] with the interrupt-enable bit of [sstatus]. *)
Record cpu := mk_cpu { noff : Z; intena : bool; intr : bool }.
#[export] Instance cpu_inhabited : Inhabited cpu := populate (mk_cpu 0 false false).

Record smp := mk_smp { lk : spinlock; harts : list cpu }.

Definition set_lk (l : spinlock) (s : smp) : smp := mk_smp l (harts s).
Definition set_hart (h : nat) (c : cpu) (s : smp) : smp := mk_smp (lk s) (<[h := c]> (harts s)).
Definition on_hart {A} (h : nat) (m : K cpu A) : K smp A := zoom (fun s => harts s !!! h) (set_hart h) m.

Definition initlock : K smp unit := modify (set_lk (mk_spinlock 0 None)).

Definition push_off : K cpu unit :=
  modify (fun c => mk_cpu (int (noff c + 1)) (if noff c =? 0 then intr c else intena c) false).

Definition pop_off : K cpu unit :=
  c ← get;
  if intr c then panic "pop_off - interruptible"
  else if noff c <? 1 then panic "pop_off"
  else
    let n := noff c - 1 in
    modify (fun c => mk_cpu n (intena c) (if (n =? 0) && intena c then true else intr c)).

Definition holding (h : nat) (s : smp) : bool := negb (locked (lk s) =? 0) && bool_decide (lk_cpu (lk s) = Some h).

(** The parts of [acquire] and [release] that happen at once. *)
Definition acquire_check (h : nat) : K smp unit := s ← get; if holding h s then panic "acquire" else mret tt.
(** [__sync_lock_test_and_set(&lk->locked, 1)]: the old value. *)
Definition test_and_set : K smp Z := s ← get; modify (set_lk (mk_spinlock 1 (lk_cpu (lk s))));; mret (locked (lk s)).
Definition record_cpu (h : nat) : K smp unit := modify (fun s => set_lk (mk_spinlock (locked (lk s)) (Some h)) s).
Definition release_check (h : nat) : K smp unit := s ← get; if holding h s then mret tt else panic "release".
Definition clear_cpu : K smp unit := modify (fun s => set_lk (mk_spinlock (locked (lk s)) None) s).
(** [__sync_lock_release(&lk->locked)] *)
Definition lock_release : K smp unit := modify (fun s => set_lk (mk_spinlock 0 (lk_cpu (lk s))) s).

Definition acquire (h : nat) : K smp unit :=
  on_hart h push_off;;
  acquire_check h;;
  old ← test_and_set;
  if negb (old =? 0) then blocked "spinlock" else record_cpu h.

Definition release (h : nat) : K smp unit :=
  release_check h;;
  clear_cpu;;
  lock_release;;
  on_hart h pop_off.

(** ** Nesting of [push_off] and [pop_off] *)

(** Interrupts are off inside a [push_off]. *)
Definition cpu_ok (c : cpu) : Prop := 0 <= noff c /\ (0 < noff c -> intr c = false).

(** Matched calls, in any nesting. *)
Inductive call := Push | Pop.
Inductive balanced : list call -> Prop :=
| bal_nil : balanced []
| bal_nest l l' : balanced l -> balanced l' -> balanced (Push :: l ++ Pop :: l').

Fixpoint run_calls (l : list call) : K cpu unit :=
  match l with
  | [] => mret tt
  | Push :: l => push_off;; run_calls l
  | Pop :: l => pop_off;; run_calls l
  end.

Fixpoint depth (l : list call) : Z := match l with [] => 0 | _ :: l => 1 + depth l end.

Lemma depth_app l l' : depth (l ++ l') = depth l + depth l'.
Proof. induction l as [|x l IH]; simpl; [done|]. rewrite IH. lia. Qed.
Lemma depth_nonneg l : 0 <= depth l.
Proof. induction l; simpl; lia. Qed.

Lemma run_calls_app l l' c : run_calls (l ++ l') c = (run_calls l;; run_calls l') c.
Proof.
  revert c. induction l as [|[] l IH]; intros c; simpl; [done|..].
  - unfold push_off, mbind, K_bind, modify in *. simpl. apply IH.
  - unfold mbind, K_bind in *. destruct (pop_off c) as [[u c']|?|?|?|]; simpl; try done; apply IH.
Qed.

Lemma run_balanced l c :
  balanced l -> cpu_ok c -> noff c + depth l < 2 ^ 31 ->
  exists c', run_calls l c = Ok (tt, c') /\ cpu_ok c' /\ noff c' = noff c /\ intr c' = intr c /\ (0 < noff c -> intena c' = intena c).
Proof.
  intros Hb. revert c. induction Hb as [|l l' Hb IH Hb' IH']; intros c [Hn Hi] Hd; [by exists c|].
  simpl in Hd. rewrite depth_app in Hd. simpl in Hd. pose proof (depth_nonneg l). pose proof (depth_nonneg l').
  cbn [run_calls]. unfold push_off at 1. ksimpl. rewrite int_small by lia.
  set (c1 := mk_cpu _ _ _). rewrite run_calls_app.
  destruct (IH c1) as (c2 & He2 & [Hn2 Hi2] & Hnf2 & Hin2 & Hen2); [split; simpl; [lia|done]|simpl; lia|]. simpl in Hnf2, Hin2.
  assert (Hen2' : intena c2 = if noff c =? 0 then intr c else intena c) by (apply Hen2; simpl; lia).
  kstep He2. cbn [run_calls]. set (c3 := mk_cpu (noff c) (if noff c =? 0 then intr c else intena c) (if (noff c =? 0) && (if noff c =? 0 then intr c else intena c) then true else false)).
  assert (He3 : pop_off c2 = Ok (tt, c3)).
  { unfold pop_off. ksimpl. rewrite Hi2, (proj2 (Z.ltb_ge _ _)) by lia. unfold modify. rewrite Hnf2, Hen2', Hin2. by replace (noff c + 1 - 1) with (noff c) by lia. }
  kstep He3.
  assert (Hc3 : cpu_ok c3 /\ noff c3 = noff c /\ intr c3 = intr c /\ (0 < noff c -> intena c3 = intena c)).
  { unfold c3, cpu_ok. simpl. destruct (noff c =? 0) eqn:E; zbool; simpl.
    - destruct (intr c); simpl; split_and!; try done; lia.
    - rewrite Hi by lia. split_and!; try done; lia. }
  destruct Hc3 as (Hok3 & Hn3 & Hi3 & Hen3). destruct (IH' c3) as (c4 & He4 & Hok4 & Hn4 & Hi4 & Hen4); [done|rewrite Hn3; lia|].
  exists c4. rewrite Hn4, Hi4, Hn3, Hi3. split_and!; try done. intros Hp. rewrite Hen4 by (rewrite Hn3; lia). by apply Hen3.
Qed.

(** Matched [push_off] and [pop_off], in any nesting, never panic and leave the CPU
    as they found it: the same depth, and interrupts on exactly if they were on before. *)
Theorem push_pop_restore l c :
  balanced l -> cpu_ok c -> noff c + depth l < 2 ^ 31 ->
  exists c', run_calls l c = Ok (tt, c') /\ noff c' = noff c /\ intr c' = intr c /\ (0 < noff c -> intena c' = intena c).
Proof. intros Hb Hc Hd. destruct (run_balanced l c Hb Hc Hd) as (c' & He & _ & H). by exists c'. Qed.

Lemma push_pop_restore_witness : exists c', run_calls [Push; Push; Pop; Push; Pop; Pop] (mk_cpu 0 false true) = Ok (tt, c') /\ intr c' = true.
Proof.
  destruct (push_pop_restore [Push; Push; Pop; Push; Pop; Pop] (mk_cpu 0 false true)) as (c' & He & _ & Hi & _).
  - apply (bal_nest [Push; Pop; Push; Pop] []); [|constructor]. apply (bal_nest [] [Push; Pop]); [constructor|]. apply (bal_nest [] []); constructor.
  - split; simpl; lia.
  - vm_compute. reflexivity.
  - exists c'. split; [exact He|exact Hi].
Defined.

(** ** Mutual exclusion *)

(** Where a CPU is in [acquire], the critical section, or [release]. *)
Inductive pc := Outside | Checking | Spinning | Swapped | Critical | Releasing | Cleared.
#[export] Instance pc_eq : EqDecision pc.
Proof. solve_decision. Defined.

(** One action of CPU [h]: the next place and what it does to the machine. *)
Definition action (h : nat) (p : pc) : K smp pc :=
  match p with
  | Outside => on_hart h push_off;; mret Checking
  | Checking => acquire_check h;; mret Spinning
  | Spinning => old ← test_and_set; mret (if old =? 0 then Swapped else Spinning)
  | Swapped => record_cpu h;; mret Critical
  | Critical => release_check h;; mret Releasing
  | Releasing => clear_cpu;; mret Cleared
  | Cleared => lock_release;; on_hart h pop_off;; mret Outside
  end.

Inductive smp_step : list pc * smp -> list pc * smp -> Prop :=
| smp_action h p p' pcs s s' : pcs !! h = Some p -> action h p s = Ok (p', s') -> smp_step (pcs, s) (<[h := p']> pcs, s').

Inductive smp_reach (x : list pc * smp) : list pc * smp -> Prop :=
| smp_refl : smp_reach x x
| smp_trans y z : smp_reach x y -> smp_step y z -> smp_reach x z.

Definition owns_lock (p : pc) : bool := match p with Swapped | Critical | Releasing | Cleared => true | _ => false end.
Definition named (p : pc) : bool := match p with Critical | Releasing => true | _ => false end.

Record smp_ok (pcs : list pc) (s : smp) : Prop := {
  so_len : length (harts s) = length pcs;
  so_free : locked (lk s) = 0 -> forall h p, pcs !! h = Some p -> owns_lock p = false;
  so_locked : locked (lk s) = 0 \/ locked (lk s) = 1;
  so_one h h' p p' : pcs !! h = Some p -> pcs !! h' = Some p' -> owns_lock p = true -> owns_lock p' = true -> h = h';
  so_cpu h : lk_cpu (lk s) = Some h <-> exists p, pcs !! h = Some p /\ named p = true;
  so_hart h p c : pcs !! h = Some p -> harts s !! h = Some c -> cpu_ok c /\ noff c = if decide (p = Outside) then 0 else 1;
}.

Lemma lookup_pc (pcs : list pc) h p h' q :
  <[h := p]> pcs !! h' = Some q -> (h' = h /\ q = p) \/ (h' <> h /\ pcs !! h' = Some q).
Proof. intros [[-> [-> _]]|[? ?]]%list_lookup_insert_Some; [by left|by right]. Qed.

(** A CPU that moves without touching the lock, and keeps what it owns. *)
Lemma smp_ok_move pcs s h p p' s' :
  smp_ok pcs s -> pcs !! h = Some p -> owns_lock p' = owns_lock p -> named p' = named p -> lk s' = lk s ->
  length (harts s') = length (harts s) ->
  (forall h' c, harts s' !! h' = Some c -> if decide (h' = h) then cpu_ok c /\ noff c = (if decide (p' = Outside) then 0 else 1) else harts s !! h' = Some c) ->
  smp_ok (<[h := p']> pcs) s'.
Proof.
  intros [Hl Hf Hlk H1 Hc Hh] Hp Ho Hn Hs Hlen Hhart. split.
  - by rewrite length_insert, Hlen.
  - rewrite Hs. intros H0 h' q [[-> ->]|[_ Hq]]%lookup_pc; [rewrite Ho; by eapply Hf|by eapply Hf].
  - by rewrite Hs.
  - intros h1 h2 p1 p2 [[-> ->]|[N1 P1]]%lookup_pc [[-> ->]|[N2 P2]]%lookup_pc; rewrite ?Ho; intros O1 O2; try done.
    + by eapply H1.
    + by eapply H1.
    + by eapply H1.
  - intros h'. rewrite Hs, Hc. destruct (decide (h' = h)) as [->|Hne].
    + rewrite list_lookup_insert_eq by (by eapply lookup_lt_Some). split; intros (q & Hq & Hnq).
      * simplify_eq. exists p'. by rewrite Hn.
      * simplify_eq. exists p. by rewrite <- Hn.
    + by rewrite list_lookup_insert_ne.
  - intros h' q c [[-> ->]|[Hne Hq]]%lookup_pc Hcx; specialize (Hhart _ _ Hcx); [by rewrite decide_True in Hhart|].
    rewrite decide_False in Hhart by done. by eapply Hh.
Qed.

(** The lock changes hands: CPU [h] takes it, names itself, unnames itself or gives it up. *)
Lemma smp_ok_lock pcs s h p p' s' :
  smp_ok pcs s -> pcs !! h = Some p -> harts s' = harts s -> p <> Outside -> p' <> Outside ->
  (locked (lk s') = 0 \/ locked (lk s') = 1) ->
  (forall h' q, h' <> h -> pcs !! h' = Some q -> owns_lock q = false) ->
  (locked (lk s') = 0 -> owns_lock p' = false) ->
  lk_cpu (lk s') = (if named p' then Some h else None) ->
  smp_ok (<[h := p']> pcs) s'.
Proof.
  intros [Hl Hf Hlk H1 Hc Hh] Hp Hs Hpo Hpo' Hlk' Hoth Hfree Hcpu. split.
  - by rewrite length_insert, Hs.
  - intros H0 h' q [[-> ->]|[Hne Hq]]%lookup_pc; [by apply Hfree|by eapply Hoth].
  - done.
  - intros h1 h2 p1 p2 [[-> ->]|[N1 P1]]%lookup_pc [[-> ->]|[N2 P2]]%lookup_pc O1 O2; try done.
    + by rewrite (Hoth _ _ N2 P2) in O2.
    + by rewrite (Hoth _ _ N1 P1) in O1.
    + by rewrite (Hoth _ _ N1 P1) in O1.
  - intros h'. rewrite Hcpu. destruct (decide (h' = h)) as [->|Hne].
    + rewrite list_lookup_insert_eq by (by eapply lookup_lt_Some). destruct (named p') eqn:En.
      * split; [intros _; by exists p'|done].
      * split; [done|]. intros (q & [= <-] & Hq). congruence.
    + rewrite list_lookup_insert_ne by done. destruct (named p') eqn:En.
      * split; [intros [= <-]; done|]. intros (q & Hq & Hnq). pose proof (Hoth _ _ Hne Hq) as Ho. destruct q; done.
      * split; [done|]. intros (q & Hq & Hnq). pose proof (Hoth _ _ Hne Hq) as Ho. destruct q; done.
  - intros h' q c [[-> ->]|[Hne Hq]]%lookup_pc; rewrite Hs; intros Hcx; [|by eapply Hh].
    destruct (Hh _ _ _ Hp Hcx) as [Hok Hn]. split; [done|]. rewrite decide_False in Hn by done. by rewrite decide_False.
Qed.

Lemma acquire_check_ok pcs s h p : smp_ok pcs s -> pcs !! h = Some p -> named p = false -> holding h s = false.
Proof.
  intros [_ _ _ _ Hc _] Hp Hn. unfold holding. rewrite bool_decide_eq_false_2; [apply andb_false_r|].
  intros (q & Hq & Hnq)%Hc. simplify_eq. congruence.
Qed.

(** Every action is possible, none panics, and the invariant holds after it. *)
Lemma action_ok pcs s h p :
  smp_ok pcs s -> pcs !! h = Some p -> exists p' s', action h p s = Ok (p', s') /\ smp_ok (<[h := p']> pcs) s'.
Proof.
  intros Hok Hp. pose proof Hok as [Hl Hf Hlk H1 Hc Hh]. pose proof (lookup_lt_Some _ _ _ Hp) as Hlt.
  destruct (lookup_lt_is_Some_2 (harts s) h) as [c Hcx]; [by rewrite Hl|]. destruct (Hh _ _ _ Hp Hcx) as [[Hn0 Hni] Hn].
  assert (Htot : harts s !!! h = c) by by apply list_lookup_total_correct.
  assert (Hown : owns_lock p = true -> forall h' q, h' <> h -> pcs !! h' = Some q -> owns_lock q = false).
  { intros Ho h' q Hne Hq. destruct (owns_lock q) eqn:E; [|done]. destruct Hne. by eapply H1. }
  destruct p; cbn [action].
  - rewrite decide_True in Hn by done. eexists Checking, _. split.
    { rewrite (bind_ok _ _ s tt (set_hart h (mk_cpu 1 (intr c) false) s)); [done|]. unfold on_hart. apply zoom_ok. rewrite Htot. unfold push_off, modify. by rewrite Hn. }
    apply (smp_ok_move pcs s h Outside); try done; [simpl; by rewrite length_insert|].
    intros h' c'. simpl. intros [[-> [<- _]]|[Hne Hc']]%list_lookup_insert_Some; [by rewrite decide_True|by rewrite decide_False].
  - exists Spinning, s. split; [unfold acquire_check; cbn; unfold mbind, K_bind, get; simpl; by rewrite (acquire_check_ok pcs s h Checking)|].
    apply (smp_ok_move pcs s h Checking); try done. intros h' c' Hc'. destruct (decide (h' = h)) as [->|]; [exact (Hh _ _ _ Hp Hc')|done].
  - exists (if locked (lk s) =? 0 then Swapped else Spinning), (set_lk (mk_spinlock 1 (lk_cpu (lk s))) s). split; [done|]. destruct Hlk as [H0|H0]; rewrite H0; simpl.
    + apply (smp_ok_lock pcs s h Spinning); try done; [by right|intros h' q _ Hq; by eapply Hf|].
      destruct (lk_cpu (lk s)) as [x|] eqn:E; [|done]. exfalso. destruct (proj1 (Hc x) eq_refl) as (q & Hq & Hnq). pose proof (Hf H0 _ _ Hq). by destruct q.
    + apply (smp_ok_move pcs s h Spinning); try done; [unfold set_lk; simpl; rewrite <- H0; by destruct s as [[] ?]|].
      intros h' c' Hc'. destruct (decide (h' = h)) as [->|]; [exact (Hh _ _ _ Hp Hc')|done].
  - eexists Critical, _. split; [done|]. apply (smp_ok_lock pcs s h Swapped); try done; [by apply Hown|].
    simpl. intros H0. by pose proof (Hf H0 _ _ Hp).
  - exists Releasing, s. assert (Hhold : holding h s = true).
    { unfold holding. rewrite bool_decide_eq_true_2 by (apply Hc; by exists Critical). destruct Hlk as [H0| ->]; [by pose proof (Hf H0 _ _ Hp)|done]. }
    split; [unfold release_check, mbind, K_bind, get; simpl; by rewrite Hhold|].
    apply (smp_ok_move pcs s h Critical); try done. intros h' c' Hc'. destruct (decide (h' = h)) as [->|]; [exact (Hh _ _ _ Hp Hc')|done].
  - eexists Cleared, _. split; [done|]. apply (smp_ok_lock pcs s h Releasing); try done; [by apply Hown|].
    simpl. intros H0. by pose proof (Hf H0 _ _ Hp).
  - rewrite decide_False in Hn by done. set (s1 := set_lk (mk_spinlock 0 (lk_cpu (lk s))) s).
    assert (Hok1 : smp_ok (<[h := Checking]> pcs) s1).
    { apply (smp_ok_lock pcs s h Cleared); try done; [by left|by apply Hown|]. simpl. destruct (lk_cpu (lk s)) as [x|] eqn:E; [|done]. exfalso.
      destruct (proj1 (Hc x) eq_refl) as (q & Hq & Hnq). assert (x = h) as -> by (apply (H1 x h q Cleared); try done; by destruct q). by simplify_eq. }
    eexists Outside, _. split.
    { unfold lock_release. rewrite bind_modify. fold s1. rewrite (bind_ok _ _ s1 tt (set_hart h (mk_cpu 0 (intena c) (if intena c then true else intr c)) s1)); [done|].
      unfold on_hart. apply zoom_ok. simpl. rewrite Htot. unfold pop_off. ksimpl. rewrite Hni, (proj2 (Z.ltb_ge _ _)) by lia. unfold modify. rewrite (Hni ltac:(lia)), Hn. done. }
    rewrite <- (list_insert_insert_eq pcs h Outside Checking). apply (smp_ok_move (<[h := Checking]> pcs) s1 h Checking); try done.
    + by apply list_lookup_insert_eq.
    + simpl. by rewrite length_insert.
    + intros h' c'. simpl. intros [[-> [<- _]]|[Hne Hc']]%list_lookup_insert_Some; [|by rewrite decide_False]. rewrite decide_True by done.
      split; [|done]. split; simpl; [lia|lia].
Qed.

(** All CPUs outside, the lock free, interrupts in any state. *)
Definition smp_start (n : nat) (ints : list bool) : list pc * smp :=
  (replicate n Outside, mk_smp (mk_spinlock 0 None) ((fun b => mk_cpu 0 false b) <$> ints)).

Lemma smp_start_ok n ints : length ints = n -> smp_ok (smp_start n ints).1 (smp_start n ints).2.
Proof.
  intros Hl. split; simpl.
  - by rewrite length_fmap, length_replicate.
  - by intros _ h p [-> _]%lookup_replicate.
  - by left.
  - by intros h h' p p' [-> _]%lookup_replicate.
  - intros h. split; [done|]. by intros (p & [-> _]%lookup_replicate & ?).
  - intros h p c [-> _]%lookup_replicate. rewrite list_lookup_fmap. intros (b & _ & ->)%fmap_Some. split; [split; simpl; lia|done].
Qed.

Lemma smp_reach_ok x y : smp_reach x y -> smp_ok x.1 x.2 -> smp_ok y.1 y.2.
Proof.
  induction 1 as [|y z _ IH Hs]; intros Hx; [done|]. specialize (IH Hx). destruct Hs as [h p p' pcs s s' Hp Ha]. simpl in *.
  destruct (action_ok pcs s h p IH Hp) as (p1 & s1 & Ha1 & Hok). rewrite Ha in Ha1. by simplify_eq.
Qed.

(** Run the actions of the CPUs in a given order. *)
Fixpoint run_harts (hs : list nat) (x : list pc * smp) : option (list pc * smp) :=
  match hs with
  | [] => Some x
  | h :: hs =>
      match x.1 !! h with
      | Some p => match action h p x.2 with Ok (p', s') => run_harts hs (<[h := p']> x.1, s') | _ => None end
      | None => None
      end
  end.
Lemma run_harts_reach hs x y : run_harts hs x = Some y -> smp_reach x y.
Proof.
  assert (Htr : forall x y z, smp_step x y -> smp_reach y z -> smp_reach x z).
  { intros a b c Hab. induction 1 as [|d e _ IH Hde]; [eapply smp_trans; [apply smp_refl|done]|by eapply smp_trans]. }
  revert x. induction hs as [|h hs IH]; intros [pcs s]; simpl; [intros [= <-]; apply smp_refl|].
  destruct (pcs !! h) as [p|] eqn:Ep; [|done]. destruct (action h p s) as [[p' s']|?|?|?|] eqn:Ea; try done.
  intros H. eapply Htr; [by eapply smp_action|by apply IH].
Qed.

(** C13: a spin lock excludes: in every state that any interleaving of [acquire]s and
    [release]s reaches on any number of CPUs, at most one CPU is in the critical section,
    it runs with interrupts off, it is the one [holding] tells, and no CPU's next action
    can panic. *)
Theorem spinlock_excludes n ints pcs s :
  length ints = n -> smp_reach (smp_start n ints) (pcs, s) ->
  (forall h h', pcs !! h = Some Critical -> pcs !! h' = Some Critical -> h = h') /\
  (forall h, pcs !! h = Some Critical -> holding h s = true /\ forall c, harts s !! h = Some c -> intr c = false) /\
  (forall h p, pcs !! h = Some p -> exists p' s', action h p s = Ok (p', s')).
Proof.
  intros Hl Hr. pose proof (smp_reach_ok _ _ Hr (smp_start_ok n ints Hl)) as Hok. simpl in Hok. split_and!.
  - intros h h' H1 H2. by apply (so_one _ _ Hok h h' Critical Critical).
  - intros h Hh. split.
    + unfold holding. rewrite bool_decide_eq_true_2 by (apply (so_cpu _ _ Hok); by exists Critical).
      destruct (so_locked _ _ Hok) as [H0| ->]; [by pose proof (so_free _ _ Hok H0 _ _ Hh)|done].
    + intros c Hc. destruct (so_hart _ _ Hok _ _ _ Hh Hc) as [[_ Hi] Hn]. apply Hi. rewrite Hn. simpl. lia.
  - intros h p Hp. destruct (action_ok pcs s h p Hok Hp) as (p' & s' & Ha & _). by exists p', s'.
Qed.

Lemma spinlock_excludes_witness : exists pcs s, smp_reach (smp_start 2 [true; false]) (pcs, s) /\ pcs !! 0%nat = Some Critical /\
  pcs !! 1%nat = Some Spinning /\ holding 0 s = true.
Proof.
  assert (H : exists pcs s, smp_reach (smp_start 2 [true; false]) (pcs, s) /\ pcs = [Critical; Spinning]).
  { destruct (run_harts [0; 1; 0; 1; 0; 1; 0]%nat (smp_start 2 [true; false])) as [[pcs s]|] eqn:E; [|by vm_compute in E].
    exists pcs, s. split; [by eapply run_harts_reach|]. vm_compute in E. by injection E as <- _. }
  destruct H as (pcs & s & Hr & ->). exists [Critical; Spinning], s. split; [exact Hr|]. split; [reflexivity|]. split; [reflexivity|].
  destruct (spinlock_excludes 2 [true; false] [Critical; Spinning] s eq_refl Hr) as (_ & H & _). apply (H 0%nat). reflexivity.
Defined.
