(* ===== verification/KString.v ===== *)
(** * Byte-addressed memory and the kernel's string library

    Physical memory is a finite map from addresses to bytes (an address that
    was never written reads as zero).  On it, [src/kernel/string.c]: [memset],
    [memcmp], [memmove], [memcpy], [strncmp], [strncpy], [safestrcpy] and
    [strlen], each with the loop of the source.  [char] is unsigned on RISC-V. *)

From stdpp Require Import base numbers list list_numbers gmap strings.
From Stdlib Require Import ZArith Lia.
From S2P Require Import Prelude.

(** ** Memory *)

Abbreviation mem := (gmap Z Z).
Definition rd (m : mem) (a : Z) : Z := default 0 (m !! a).
Definition wr (m : mem) (a v : Z) : mem := <[a := v]> m.

Lemma rd_wr m a v b : rd (wr m a v) b = if decide (b = a) then v else rd m b.
Proof.
  unfold rd, wr. rewrite lookup_insert. case_decide; case_decide; simpl; congruence.
Qed.
Lemma rd_wr_eq m a v : rd (wr m a v) a = v.
Proof. rewrite rd_wr. by rewrite decide_True. Qed.
Lemma rd_wr_ne m a v b : b <> a -> rd (wr m a v) b = rd m b.
Proof. intros. rewrite rd_wr. by rewrite decide_False. Qed.

(** The [n] bytes at address [a]. *)
Definition rd_bytes (m : mem) (a : Z) (n : nat) : list Z := (fun i => rd m (a + i)) <$> seqZ 0 (Z.of_nat n).

Fixpoint wr_bytes (m : mem) (a : Z) (l : list Z) : mem :=
  match l with
  | [] => m
  | b :: l => wr_bytes (wr m a b) (a + 1) l
  end.

Lemma length_rd_bytes m a n : length (rd_bytes m a n) = n.
Proof. unfold rd_bytes. rewrite length_fmap, length_seqZ. lia. Qed.

Lemma lookup_rd_bytes m a n i : (i < n)%nat -> rd_bytes m a n !! i = Some (rd m (a + Z.of_nat i)).
Proof.
  intros. unfold rd_bytes. rewrite list_lookup_fmap, lookup_seqZ_lt by lia. done.
Qed.

Lemma rd_wr_bytes m a l b :
  rd (wr_bytes m a l) b =
  if decide (a <= b < a + zlen l) then znth l (b - a) else rd m b.
Proof.
  revert m a. induction l as [|x l IH]; intros m a; simpl.
  - rewrite decide_False; [done|]. unfold zlen. simpl. lia.
  - rewrite IH. unfold zlen in *. simpl length. case_decide; case_decide; try lia.
    + unfold znth. replace (Z.to_nat (b - a)) with (S (Z.to_nat (b - (a + 1)))) by lia. done.
    + assert (b = a) as -> by lia. rewrite rd_wr_eq. by rewrite Z.sub_diag.
    + rewrite rd_wr_ne; [done|lia].
Qed.

Lemma rd_bytes_wr_bytes m a l : rd_bytes (wr_bytes m a l) a (length l) = l.
Proof.
  apply list_eq_same_length with (n := length l); [done|by rewrite length_rd_bytes|].
  intros i x y Hi Hx Hy. rewrite lookup_rd_bytes in Hx by done. simplify_eq.
  rewrite rd_wr_bytes. rewrite decide_True by (unfold zlen; lia).
  unfold znth. rewrite list_lookup_total_alt.
  replace (Z.to_nat (a + Z.of_nat i - a)) with i by lia. by rewrite Hy.
Qed.

(** ** The string library *)

Fixpoint memset_loop (k : nat) (m : mem) (cdst c i : Z) : mem :=
  match k with
  | O => m
  | S k => memset_loop k (wr m (cdst + i) (uchar c)) cdst c (i + 1)
  end.
Definition memset (m : mem) (dst c n : Z) : mem := memset_loop (Z.to_nat n) m dst c 0.

Fixpoint memcmp_loop (k : nat) (m : mem) (s1 s2 : Z) : Z :=
  match k with
  | O => 0
  | S k => if rd m s1 =? rd m s2 then memcmp_loop k m (s1 + 1) (s2 + 1) else rd m s1 - rd m s2
  end.
Definition memcmp (m : mem) (v1 v2 n : Z) : Z := memcmp_loop (Z.to_nat n) m v1 v2.

(** [while(n-- > 0) *d++ = *s++;] *)
Fixpoint move_up (k : nat) (m : mem) (d s : Z) : mem :=
  match k with
  | O => m
  | S k => move_up k (wr m d (rd m s)) (d + 1) (s + 1)
  end.
(** [while(n-- > 0) *--d = *--s;] *)
Fixpoint move_down (k : nat) (m : mem) (d s : Z) : mem :=
  match k with
  | O => m
  | S k => move_down k (wr m (d - 1) (rd m (s - 1))) (d - 1) (s - 1)
  end.
Definition memmove (m : mem) (dst src n : Z) : mem :=
  if n =? 0 then m
  else if (src <? dst) && (dst <? src + n)
       then move_down (Z.to_nat n) m (dst + n) (src + n)
       else move_up (Z.to_nat n) m dst src.
Definition memcpy (m : mem) (dst src n : Z) : mem := memmove m dst src n.

Fixpoint strncmp_loop (n : nat) (m : mem) (p q : Z) : Z :=
  match n with
  | O => 0
  | S n' =>
      if negb (rd m p =? 0) && (rd m p =? rd m q) then strncmp_loop n' m (p + 1) (q + 1)
      else uchar (rd m p) - uchar (rd m q)
  end.
Definition strncmp (m : mem) (p q n : Z) : Z := strncmp_loop (Z.to_nat n) m p q.

(** [while(n-- > 0 && ( *s++ = *t++ ) != 0);] returns the memory, what is left of [n], and [s]. *)
Fixpoint strncpy_copy (n : nat) (m : mem) (s t : Z) : mem * nat * Z :=
  match n with
  | O => (m, O, s)
  | S n => let c := rd m t in
           let m := wr m s c in
           if c =? 0 then (m, n, s + 1) else strncpy_copy n m (s + 1) (t + 1)
  end.
(** [while(n-- > 0) *s++ = 0;] *)
Fixpoint strncpy_pad (n : nat) (m : mem) (s : Z) : mem :=
  match n with
  | O => m
  | S n => strncpy_pad n (wr m s 0) (s + 1)
  end.
Definition strncpy (m : mem) (s t n : Z) : mem :=
  let '(m, n, s) := strncpy_copy (Z.to_nat n) m s t in strncpy_pad n m s.

Definition safestrcpy (m : mem) (s t n : Z) : mem :=
  if n <=? 0 then m
  else let '(m, _, s) := strncpy_copy (Z.to_nat (n - 1)) m s t in wr m s 0.

(** The loop has no bound in the source: [fuel] bounds the bytes examined. *)
Fixpoint strlen_loop (fuel : nat) (m : mem) (s n : Z) : option Z :=
  match fuel with
  | O => None
  | S fuel => if rd m (s + n) =? 0 then Some n else strlen_loop fuel m s (n + 1)
  end.
Definition strlen (fuel : nat) (m : mem) (s : Z) : option Z := strlen_loop fuel m s 0.

(** ** What they compute *)

(** The string at [p], cut at its first NUL or after [n] bytes. *)
Fixpoint cstr (n : nat) (m : mem) (p : Z) : list Z :=
  match n with
  | O => []
  | S n => if rd m p =? 0 then [] else rd m p :: cstr n m (p + 1)
  end.

Lemma rd_memset_loop k m cdst c i a :
  rd (memset_loop k m cdst c i) a =
  if decide (cdst + i <= a < cdst + i + Z.of_nat k) then uchar c else rd m a.
Proof.
  revert m i. induction k as [|k IH]; intros m i; simpl.
  - by rewrite decide_False by lia.
  - rewrite IH, rd_wr. repeat case_decide; done || lia.
Qed.

(** [memset] fills exactly the [n] bytes at [dst] with the low byte of [c]. *)
Theorem memset_fills m dst c n a :
  0 <= n -> rd (memset m dst c n) a = if decide (dst <= a < dst + n) then uchar c else rd m a.
Proof.
  intros. unfold memset. rewrite rd_memset_loop. repeat case_decide; done || lia.
Qed.

Lemma rd_move_up k m d s a :
  d <= s \/ s + Z.of_nat k <= d ->
  rd (move_up k m d s) a =
  if decide (d <= a < d + Z.of_nat k) then rd m (s + (a - d)) else rd m a.
Proof.
  revert m d s. induction k as [|k IH]; intros m d s Hov; simpl.
  - by rewrite decide_False by lia.
  - rewrite IH by lia. rewrite !rd_wr. repeat case_decide; try lia; try done.
    all: f_equal; lia.
Qed.

Lemma rd_move_down k m d s a :
  s <= d ->
  rd (move_down k m d s) a =
  if decide (d - Z.of_nat k <= a < d) then rd m (s - (d - a)) else rd m a.
Proof.
  revert m d s. induction k as [|k IH]; intros m d s Hov; simpl.
  - by rewrite decide_False by lia.
  - rewrite IH by lia. rewrite !rd_wr. repeat case_decide; try lia; try done.
    all: f_equal; lia.
Qed.

Lemma rd_memmove m dst src n a :
  0 <= n ->
  rd (memmove m dst src n) a = if decide (dst <= a < dst + n) then rd m (src + (a - dst)) else rd m a.
Proof.
  intros. unfold memmove. case_match eqn:E0; zbool.
  { rewrite decide_False by lia. done. }
  case_match eqn:E1; zbool.
  - rewrite rd_move_down by lia. repeat case_decide; try lia; try done. f_equal; lia.
  - rewrite rd_move_up by (destruct E1; zbool; lia). repeat case_decide; done || lia.
Qed.

(** Whatever the overlap of the two ranges, [memmove] leaves the old
    contents of the [n] source bytes at [dst] and every other byte as it was. *)
Theorem memmove_copies m dst src n a :
  0 <= n ->
  rd (memmove m dst src n) a = if decide (dst <= a < dst + n) then rd m (src + (a - dst)) else rd m a.
Proof. apply rd_memmove. Qed.

(** The overlapping move of [ "abcd" ] two bytes up, in a four-byte buffer at 0. *)
Lemma memmove_copies_witness :
  rd (memmove (wr_bytes ∅ 0 [97; 98; 99; 100]) 2 0 4) 4 = 99.
Proof. rewrite (memmove_copies _ 2 0 4 4 ltac:(lia)). reflexivity. Defined.

Lemma memcpy_copies_disjoint m dst src n :
  0 <= n -> rd_bytes (memcpy m dst src n) dst (Z.to_nat n) = rd_bytes m src (Z.to_nat n).
Proof.
  intros. unfold rd_bytes, memcpy. apply list_fmap_ext. intros i x Hi.
  apply lookup_seqZ in Hi as [-> Hi]. rewrite rd_memmove by lia.
  rewrite decide_True by lia. f_equal. lia.
Qed.

Lemma memcmp_loop_zero k m s1 s2 :
  memcmp_loop k m s1 s2 = 0 <-> rd_bytes m s1 k = rd_bytes m s2 k.
Proof.
  assert (Hc : forall j a, rd_bytes m a (S j) = rd m a :: rd_bytes m (a + 1) j).
  { intros j a. unfold rd_bytes. rewrite seqZ_cons by lia. rewrite fmap_cons. f_equal; [f_equal; lia|].
    replace (Z.pred (Z.of_nat (S j))) with (Z.of_nat j) by lia.
    change (Z.succ 0) with (1 + 0). rewrite <- fmap_add_seqZ, <- list_fmap_compose.
    apply list_fmap_ext. intros i x _. simpl. f_equal. lia. }
  revert s1 s2. induction k as [|k IH]; intros s1 s2; [done|].
  rewrite !Hc. simpl. case_match eqn:E; zbool.
  - rewrite IH, E. split; [congruence|]. by intros [= ->].
  - split; [lia|]. by intros [= ? ?].
Qed.

Lemma strncmp_loop_zero n m p q :
  (forall a, byte_ok (rd m a)) ->
  strncmp_loop n m p q = 0 <-> cstr n m p = cstr n m q.
Proof.
  intros Hb. revert p q. induction n as [|n IH]; intros p q; [done|]. simpl.
  pose proof (Hb p) as Hp. pose proof (Hb q) as Hq. unfold byte_ok in *.
  destruct (rd m p =? 0) eqn:Ep; destruct (rd m q =? 0) eqn:Eq; simpl; zbool.
  - rewrite Ep, Eq. done.
  - rewrite Ep. rewrite (uchar_small (rd m q)) by (simpl; lia).
    split; [change (uchar 0) with 0; lia|done].
  - rewrite Eq. case_match eqn:E; zbool; [lia|].
    rewrite (uchar_small (rd m p)) by (simpl; lia).
    split; [change (uchar 0) with 0; lia|done].
  - case_match eqn:E; zbool.
    + rewrite IH, E. split; [congruence|]. by intros [= ->].
    + rewrite !uchar_small by (simpl; lia). split; [lia|]. by intros [= ? ?].
Qed.

(** [strncmp] answers 0 exactly when the two strings, cut at their first
    NUL or after [n] bytes, are equal. *)
Theorem strncmp_eq m p q n :
  (forall a, byte_ok (rd m a)) ->
  strncmp m p q n = 0 <-> cstr (Z.to_nat n) m p = cstr (Z.to_nat n) m q.
Proof. intros. by apply strncmp_loop_zero. Qed.

Lemma byte_ok_wr_bytes m a l :
  (forall b, byte_ok (rd m b)) -> bytes_ok l -> forall b, byte_ok (rd (wr_bytes m a l) b).
Proof. intros Hm Hl b. rewrite rd_wr_bytes. case_decide; [by apply bytes_ok_znth|done]. Qed.

Lemma byte_ok_empty b : byte_ok (rd ∅ b).
Proof. unfold byte_ok, rd. rewrite lookup_empty. simpl. lia. Qed.

(** The names [usr] and [usr] compared with 14 bytes, the second followed by other bytes. *)
Lemma strncmp_eq_witness :
  strncmp (wr_bytes ∅ 16 [117; 115; 114; 0; 117; 115; 114; 0; 9]) 16 20 14 = 0.
Proof.
  apply (strncmp_eq _ 16 20 14); [|reflexivity].
  apply byte_ok_wr_bytes; [apply byte_ok_empty|].
  repeat constructor; vm_compute; congruence.
Defined.

(** Copying at most [n] bytes of the string at [t], cut at its NUL and zero-padded to [n]. *)
Definition padded (n : nat) (m : mem) (t : Z) : list Z :=
  let c := cstr n m t in c ++ replicate (n - length c) 0.

Lemma length_cstr n m p : (length (cstr n m p) <= n)%nat.
Proof. revert p. induction n; intros p; simpl; [lia|]. case_match; simpl; [lia|]. specialize (IHn (p + 1)). lia. Qed.

Lemma length_padded n m t : length (padded n m t) = n.
Proof. unfold padded. rewrite length_app, length_replicate. pose proof (length_cstr n m t). lia. Qed.

Lemma cstr_wr_outside n m p a v :
  a < p \/ p + Z.of_nat n <= a -> cstr n (wr m a v) p = cstr n m p.
Proof.
  revert p. induction n as [|n IH]; intros p Ha; [done|]. simpl.
  rewrite rd_wr_ne by lia. case_match; [done|]. f_equal. apply IH. lia.
Qed.

Lemma strncpy_pad_bytes k m s :
  strncpy_pad k m s = wr_bytes m s (replicate k 0).
Proof. revert m s. induction k; intros m s; simpl; auto. Qed.

Lemma wr_bytes_app m a l l' : wr_bytes m a (l ++ l') = wr_bytes (wr_bytes m a l) (a + zlen l) l'.
Proof.
  revert m a. induction l as [|x l IH]; intros m a; simpl.
  - unfold zlen. simpl. by rewrite Z.add_0_r.
  - rewrite IH. f_equal. unfold zlen. simpl. lia.
Qed.

(** What [strncpy_copy] leaves: the string with its NUL if it fits, what is left of [n], the cursor. *)
Lemma strncpy_copy_spec n m s t :
  s + Z.of_nat n <= t \/ t + Z.of_nat n <= s ->
  let c := cstr n m t in
  strncpy_copy n m s t =
  if (length c <? n)%nat
  then (wr_bytes m s (c ++ [0]), (n - length c - 1)%nat, s + zlen c + 1)
  else (wr_bytes m s c, O, s + zlen c).
Proof.
  revert m s t. induction n as [|n IH]; intros m s t Hd; simpl.
  - unfold zlen. simpl. by rewrite Z.add_0_r.
  - case_match eqn:E; zbool.
    + rewrite E. simpl. unfold zlen. simpl. f_equal; [f_equal; lia|lia].
    + specialize (IH (wr m s (rd m t)) (s + 1) (t + 1)). simpl in IH.
      rewrite IH by lia. rewrite cstr_wr_outside by lia. simpl.
      change (S (length ?x) <? S ?y)%nat with (length x <? y)%nat.
      clear IH. destruct (length _ <? n)%nat; unfold zlen; simpl; f_equal; lia.
Qed.

Lemma strncpy_bytes m s t n :
  0 <= n -> s + n <= t \/ t + n <= s ->
  strncpy m s t n = wr_bytes m s (padded (Z.to_nat n) m t).
Proof.
  intros Hn Hd. unfold strncpy. pose proof (strncpy_copy_spec (Z.to_nat n) m s t) as H.
  simpl in H. rewrite H by lia. clear H. unfold padded.
  pose proof (length_cstr (Z.to_nat n) m t) as Hl.
  destruct (length _ <? Z.to_nat n)%nat eqn:E.
  - apply Nat.ltb_lt in E. rewrite strncpy_pad_bytes.
    replace (s + zlen (cstr (Z.to_nat n) m t) + 1) with
      (s + zlen (cstr (Z.to_nat n) m t ++ [0])) by (unfold zlen; rewrite length_app; simpl; lia).
    rewrite <- wr_bytes_app, <- app_assoc. do 2 f_equal.
    change ([0] ++ replicate ?k 0) with (replicate (S k) 0). f_equal. lia.
  - apply Nat.ltb_ge in E. simpl.
    replace (Z.to_nat n - length (cstr (Z.to_nat n) m t))%nat with O by lia.
    by rewrite app_nil_r.
Qed.

(** On ranges that do not overlap, [strncpy] writes exactly [n] bytes at
    [s]: the string at [t] cut at its NUL, then zeros; it touches nothing else. *)
Theorem strncpy_writes m s t n a :
  0 <= n -> s + n <= t \/ t + n <= s ->
  rd (strncpy m s t n) a =
  if decide (s <= a < s + n) then znth (padded (Z.to_nat n) m t) (a - s) else rd m a.
Proof.
  intros Hn Hd. rewrite strncpy_bytes, rd_wr_bytes by done. unfold zlen.
  rewrite length_padded. repeat case_decide; done || lia.
Qed.

(** Copying the name [sh] with [DIRSIZ] bytes over a buffer of ones. *)
Lemma strncpy_writes_witness :
  rd (strncpy (memset (wr_bytes ∅ 100 [115; 104; 0; 7]) 0 1 20) 0 100 14) 3 = 0.
Proof.
  rewrite (strncpy_writes _ 0 100 14 3); [reflexivity|lia|lia].
Defined.

Lemma safestrcpy_bytes m s t n :
  0 < n -> s + n <= t \/ t + n <= s ->
  exists tail, safestrcpy m s t n = wr_bytes m s (cstr (Z.to_nat (n - 1)) m t ++ tail) /\
    (tail = [0] \/ tail = [0; 0]) /\ zlen (cstr (Z.to_nat (n - 1)) m t ++ tail) <= n.
Proof.
  intros Hn Hd. unfold safestrcpy. rewrite (proj2 (Z.leb_gt n 0)) by lia.
  pose proof (strncpy_copy_spec (Z.to_nat (n - 1)) m s t) as H. simpl in H.
  rewrite H by lia. clear H.
  pose proof (length_cstr (Z.to_nat (n - 1)) m t) as Hl.
  destruct (length _ <? Z.to_nat (n - 1))%nat eqn:E.
  - apply Nat.ltb_lt in E. exists [0; 0]. split; [|split; [by right|]].
    + change [0; 0] with ([0] ++ [0]). rewrite app_assoc, (wr_bytes_app m s (_ ++ [0])).
      rewrite zlen_app. change (zlen [0]) with 1. by rewrite Z.add_assoc.
    + unfold zlen. rewrite length_app. simpl. lia.
  - apply Nat.ltb_ge in E. exists [0]. split; [|split; [by left|]].
    + by rewrite wr_bytes_app.
    + unfold zlen. rewrite length_app. simpl. lia.
Qed.

Lemma cstr_wr_bytes n m s c tl :
  Forall (fun b => b <> 0) c -> (length c < n)%nat -> cstr n (wr_bytes m s (c ++ 0 :: tl)) s = c.
Proof.
  revert n m s. induction c as [|x c IH]; intros n m s Hnz Hlen.
  - destruct n; [simpl in Hlen; lia|]. simpl.
    rewrite rd_wr_bytes, decide_False by lia. by rewrite rd_wr_eq.
  - destruct n; [simpl in Hlen; lia|]. apply Forall_cons in Hnz as [Hx Hnz]. simpl.
    rewrite rd_wr_bytes, decide_False by lia. rewrite rd_wr_eq.
    rewrite (proj2 (Z.eqb_neq x 0)) by done. f_equal. apply IH; [done|simpl in Hlen; lia].
Qed.

Lemma cstr_nonzero n m p : Forall (fun b => b <> 0) (cstr n m p).
Proof.
  revert p. induction n; intros p; simpl; [constructor|].
  case_match eqn:E; zbool; constructor; auto.
Qed.

(** With room for [n > 0] bytes, [safestrcpy] leaves at [s] a NUL-terminated
    string of at most [n - 1] bytes, the string at [t] cut to fit, and writes
    nothing outside the [n] bytes at [s]. *)
Theorem safestrcpy_terminates m s t n :
  0 < n -> s + n <= t \/ t + n <= s ->
  cstr (Z.to_nat n) (safestrcpy m s t n) s = cstr (Z.to_nat (n - 1)) m t /\
  (forall a, ~ (s <= a < s + n) -> rd (safestrcpy m s t n) a = rd m a).
Proof.
  intros Hn Hd. destruct (safestrcpy_bytes m s t n Hn Hd) as (tl & -> & Htl & Hlen).
  pose proof (length_cstr (Z.to_nat (n - 1)) m t). split.
  - assert (exists tl', tl = 0 :: tl') as [tl' ->] by (destruct Htl as [-> | ->]; eauto).
    apply cstr_wr_bytes; [apply cstr_nonzero|lia].
  - intros a Ha. rewrite rd_wr_bytes, decide_False by lia. done.
Qed.

(** A process name of 16 bytes taken from [ "initcode" ]. *)
Lemma safestrcpy_terminates_witness :
  cstr 16 (safestrcpy (wr_bytes ∅ 64 [105; 110; 105; 116; 99; 111; 100; 101; 0]) 0 64 16) 0 =
  [105; 110; 105; 116; 99; 111; 100; 101].
Proof.
  destruct (safestrcpy_terminates (wr_bytes ∅ 64 [105; 110; 105; 116; 99; 111; 100; 101; 0]) 0 64 16)
    as [H _]; [lia|lia|]. exact H.
Defined.

Lemma strlen_loop_spec fuel m s n k :
  0 <= k -> (forall i, n <= i < n + k -> rd m (s + i) <> 0) -> rd m (s + n + k) = 0 ->
  (Z.to_nat k < fuel)%nat -> strlen_loop fuel m s n = Some (n + k).
Proof.
  revert n k. induction fuel as [|fuel IH]; intros n k Hk Hnz H0 Hf; [lia|]. simpl.
  destruct (decide (k = 0)) as [->|].
  - rewrite <- Z.add_assoc, Z.add_0_r in H0. rewrite H0. by rewrite Z.add_0_r.
  - rewrite (proj2 (Z.eqb_neq _ 0)) by (apply Hnz; lia).
    rewrite (IH (n + 1) (k - 1)); [f_equal; lia|lia| | |lia].
    + intros i Hi. apply Hnz. lia.
    + rewrite <- H0. f_equal. lia.
Qed.

(** [strlen] returns the index of the first NUL once the fuel covers it. *)
Lemma strlen_first_nul fuel m s k :
  0 <= k -> (forall i, 0 <= i < k -> rd m (s + i) <> 0) -> rd m (s + k) = 0 ->
  (Z.to_nat k < fuel)%nat -> strlen fuel m s = Some k.
Proof.
  intros. unfold strlen. rewrite (strlen_loop_spec fuel m s 0 k); [done|done|done| |done].
  by rewrite Z.add_0_r.
Qed.
