(* ===== verification/Path.v ===== *)
(** * Path names

    [skipelem] of [src/kernel/fs/fs.c].  A NUL-terminated path is the list of
    the bytes before its NUL, so [*path == 0] is the empty list; [name] is the
    caller's buffer of [DIRSIZ] bytes.  [path_elems] is the reference reading of
    a path, the non-empty pieces between slashes. *)

From stdpp Require Import base numbers list list_numbers gmap strings.
From Stdlib Require Import ZArith Lia.
From S2P Require Import Prelude.

Definition DIRSIZ : Z := 14.
Definition slash : Z := 47.

(** [while( *path == '/' ) path++;] *)
Fixpoint skip_slashes (path : list Z) : list Z :=
  match path with
  | c :: path' => if c =? slash then skip_slashes path' else path
  | [] => []
  end.

(** [while( *path != '/' && *path != 0 ) path++;]: what is passed over, and the rest. *)
Fixpoint span_elem (path : list Z) : list Z * list Z :=
  match path with
  | c :: path' => if c =? slash then ([], path)
                  else let '(s, rest) := span_elem path' in (c :: s, rest)
  | [] => ([], [])
  end.

Definition skipelem (path name : list Z) : option (list Z * list Z) :=
  let path := skip_slashes path in
  match path with
  | [] => None
  | _ =>
      let '(s, path) := span_elem path in
      let len := zlen s in
      let name := if DIRSIZ <=? len then splice name 0 (sub s 0 DIRSIZ)
                  else zupd (splice name 0 s) len 0 in
      Some (skip_slashes path, name)
  end.

(** The reference: split at every slash, drop the empty pieces. *)
Fixpoint split_slash (path : list Z) : list (list Z) :=
  match path with
  | [] => [[]]
  | c :: path' =>
      if c =? slash then [] :: split_slash path'
      else match split_slash path' with
           | e :: es => (c :: e) :: es
           | [] => [[c]]
           end
  end.
Definition nonempty (e : list Z) : bool := match e with [] => false | _ => true end.
Definition path_elems (path : list Z) : list (list Z) := List.filter nonempty (split_slash path).

(** The C string in a name buffer: the bytes before its first NUL. *)
Fixpoint cname (name : list Z) : list Z :=
  match name with
  | c :: name' => if c =? 0 then [] else c :: cname name'
  | [] => []
  end.

Lemma split_slash_nonnil p : split_slash p <> [].
Proof. destruct p; simpl; [done|]. case_match; [done|]. by case_match. Qed.

Lemma path_elems_skip p : path_elems (skip_slashes p) = path_elems p.
Proof.
  induction p as [|c p IH]; [done|]. simpl. case_match eqn:E; [|done].
  rewrite IH. unfold path_elems. simpl. by rewrite E.
Qed.

Lemma skip_slashes_head p c q : skip_slashes p = c :: q -> c <> slash.
Proof.
  induction p as [|x p IH]; [done|]. simpl. destruct (x =? slash) eqn:E; [exact IH|].
  intros [= <- <-]. zbool. done.
Qed.

Lemma skip_slashes_length p : (length (skip_slashes p) <= length p)%nat.
Proof. induction p; simpl; [done|]. case_match; simpl; lia. Qed.

Lemma span_elem_app p : let '(s, r) := span_elem p in p = s ++ r.
Proof.
  induction p as [|c p IH]; [done|]. simpl. destruct (c =? slash); [done|].
  destruct (span_elem p). simpl. by rewrite IH.
Qed.

Lemma span_elem_split p :
  let '(s, r) := span_elem p in
  exists es, split_slash p = s :: es /\ List.filter nonempty es = path_elems r.
Proof.
  induction p as [|c p IH]; [by exists []|]. simpl. destruct (c =? slash) eqn:E.
  - exists (split_slash p). split; [done|]. unfold path_elems. simpl. by rewrite E.
  - destruct (span_elem p) as [s r]. destruct IH as (es & -> & Hes). by exists es.
Qed.

Lemma span_elem_nonnil c p : c <> slash -> exists s r, span_elem (c :: p) = (c :: s, r).
Proof. intros H. simpl. rewrite (proj2 (Z.eqb_neq _ _)) by done. destruct (span_elem p). eauto. Qed.

Lemma cname_short s l :
  Forall (fun c => c <> 0) s -> zlen s < zlen l -> cname (zupd (splice l 0 s) (zlen s) 0) = s.
Proof.
  intros Hnz Hlen. unfold zupd, splice, zlen in *. simpl. rewrite Nat2Z.id.
  destruct (drop (length s) l) as [|y ys] eqn:E.
  { apply (f_equal length) in E. rewrite length_drop in E. simpl in E. lia. }
  rewrite insert_app_r_alt by lia. rewrite Nat.sub_diag. simpl. clear Hlen E l.
  induction Hnz as [|c s Hc _ IH]; simpl; [done|].
  rewrite (proj2 (Z.eqb_neq c 0)) by done. by rewrite IH.
Qed.

Lemma cname_full s l :
  Forall (fun c => c <> 0) s -> zlen s = zlen l -> cname (splice l 0 s) = s.
Proof.
  intros Hnz Hlen. unfold splice, zlen in *. simpl.
  rewrite drop_ge by lia. rewrite app_nil_r. clear Hlen.
  induction Hnz as [|c s Hc _ IH]; simpl; [done|].
  rewrite (proj2 (Z.eqb_neq c 0)) by done. by rewrite IH.
Qed.

Lemma skipelem_none path name : skipelem path name = None <-> path_elems path = [].
Proof.
  rewrite <- path_elems_skip. unfold skipelem.
  destruct (skip_slashes path) as [|c p] eqn:E; [done|].
  apply skip_slashes_head in E as Hc.
  destruct (span_elem_nonnil c p Hc) as (s & r & Hs). rewrite Hs.
  pose proof (span_elem_split (c :: p)) as H. rewrite Hs in H. destruct H as (es & He & _).
  unfold path_elems. rewrite He. done.
Qed.

Lemma skipelem_some path name rest name' :
  Forall (fun c => c <> 0) path -> zlen name = DIRSIZ ->
  skipelem path name = Some (rest, name') ->
  exists e, path_elems path = e :: path_elems rest /\ cname name' = take (Z.to_nat DIRSIZ) e /\
    zlen name' = DIRSIZ /\ (forall q, rest <> slash :: q) /\ (length rest < length path)%nat /\
    Forall (fun c => c <> 0) rest.
Proof.
  intros Hnz Hname. rewrite <- path_elems_skip. unfold skipelem.
  assert (Hsk : Forall (fun c => c <> 0) (skip_slashes path)).
  { clear -Hnz. induction Hnz; simpl; [constructor|]. case_match; [done|by constructor]. }
  pose proof (skip_slashes_length path) as Hl.
  destruct (skip_slashes path) as [|c p] eqn:E; [done|].
  apply skip_slashes_head in E as Hc.
  destruct (span_elem_nonnil c p Hc) as (s & r & Hs). rewrite Hs.
  pose proof (span_elem_split (c :: p)) as H. rewrite Hs in H. destruct H as (es & He & Hf).
  pose proof (span_elem_app (c :: p)) as Happ. rewrite Hs in Happ. rewrite Happ in Hsk.
  apply Forall_app in Hsk as [Hse Hre].
  intros [= <- <-]. exists (c :: s). split_and!.
  - unfold path_elems at 1. rewrite He. simpl. by rewrite Hf, path_elems_skip.
  - unfold DIRSIZ in *. case_match eqn:E1; zbool.
    + unfold sub. rewrite drop_0. apply cname_full; [by apply Forall_take|].
      unfold zlen in *. rewrite length_take. lia.
    + rewrite cname_short; [|done|lia]. rewrite take_ge; [done|]. unfold zlen in E1. lia.
  - unfold DIRSIZ in *. case_match eqn:E1; zbool.
    + rewrite zlen_splice; rewrite ?zlen_sub; lia.
    + rewrite zlen_zupd, zlen_splice; lia.
  - intros q Hq. by apply skip_slashes_head in Hq.
  - pose proof (skip_slashes_length r). apply (f_equal length) in Happ.
    rewrite length_app in Happ. simpl in *. lia.
  - clear -Hre. induction Hre; simpl; [constructor|]. case_match; [done|by constructor].
Qed.

(** [skipelem] takes a path apart as its reference reading does.  It
    answers 0 exactly when no element is left; otherwise it stores the next
    element, cut to [DIRSIZ] bytes, and returns a strictly shorter path with
    no leading slash that holds the remaining elements. *)
Theorem skipelem_next path name :
  Forall (fun c => c <> 0) path -> zlen name = DIRSIZ ->
  match skipelem path name with
  | None => path_elems path = []
  | Some (rest, name') =>
      exists e, path_elems path = e :: path_elems rest /\
        cname name' = take (Z.to_nat DIRSIZ) e /\ zlen name' = DIRSIZ /\
        (forall q, rest <> slash :: q) /\ (length rest < length path)%nat
  end.
Proof.
  intros Hnz Hname. destruct (skipelem path name) as [[rest name']|] eqn:E.
  - destruct (skipelem_some path name rest name' Hnz Hname E) as (e & ? & ? & ? & ? & ? & ?). eauto 10.
  - by apply skipelem_none in E.
Qed.

(** [skipelem("///a//bb", name) = "bb", setting name = "a"], from the source's comment. *)
Lemma skipelem_next_witness :
  exists name', skipelem [47; 47; 47; 97; 47; 47; 98; 98] (replicate 14 1) = Some ([98; 98], name') /\
    cname name' = [97].
Proof.
  pose proof (skipelem_next [47; 47; 47; 97; 47; 47; 98; 98] (replicate 14 1)) as H.
  vm_compute skipelem in H. destruct H as (e & He & Hn & _); [repeat constructor; lia|reflexivity|].
  eexists. split; [reflexivity|]. revert Hn. vm_compute in He. injection He as <-. exact id.
Defined.
