(* ===== verification/Sleeplock.v ===== *)
(** * Sleep locks

    [src/kernel/sleeplock.c], seen by one process: [mypid] is [myproc()->pid],
    and a lock held by another process makes [acquiresleep] sleep, the outcome
    [Blocked].  The spinlock [lk->lk] that makes each operation atomic is
    modelled, with the interleavings of several CPUs, in [Spinlock]. *)

From stdpp Require Import base numbers list strings.
From Stdlib Require Import ZArith Lia.
From S2P Require Import Prelude.

Record sleeplock := mk_sleeplock { locked : Z; lk_pid : Z }.
#[export] Instance sleeplock_inhabited : Inhabited sleeplock := populate (mk_sleeplock 0 0).
#[export] Instance sleeplock_eq : EqDecision sleeplock.
Proof. solve_decision. Defined.

Definition initsleeplock : sleeplock := mk_sleeplock 0 0.

(** The waiting loop: the caller sleeps as long as [lk->locked]. *)
Definition acquiresleep (mypid : Z) : K sleeplock unit :=
  lk ← get;
  if negb (locked lk =? 0) then blocked "sleeplock"
  else modify (fun _ => mk_sleeplock 1 mypid).

Definition releasesleep : K sleeplock unit := modify (fun _ => mk_sleeplock 0 0).

Definition holdingsleep (mypid : Z) (lk : sleeplock) : bool :=
  negb (locked lk =? 0) && (lk_pid lk =? mypid).

Lemma acquiresleep_free mypid lk :
  locked lk = 0 -> acquiresleep mypid lk = Ok (tt, mk_sleeplock 1 mypid).
Proof. unfold acquiresleep. ksimpl. by intros ->. Qed.

Lemma holdingsleep_spec mypid lk :
  holdingsleep mypid lk = true <-> locked lk <> 0 /\ lk_pid lk = mypid.
Proof. unfold holdingsleep. rewrite andb_true_iff, negb_true_iff, Z.eqb_neq, Z.eqb_eq. done. Qed.
