(* ===== verification/Virtio.v ===== *)
(** * The virtio disk driver

    [src/kernel/virtio_disk.c]: the descriptor table shared with the device,
    its allocation ([alloc_desc], [free_desc], [free_chain], [alloc3_desc]), a
    block transfer ([virtio_disk_rw]) and the completion interrupt
    ([virtio_disk_intr]).  The device itself is not part of the repository: it
    is the parameter [device], and [VirtioBlk] states what the virtio
    specification requires of it for one pending request. *)

From stdpp Require Import base numbers list list_numbers gmap strings.
From Stdlib Require Import ZArith Lia.
From S2P Require Import Prelude Params.

(** ** Data: src/kernel/virtio.h and [struct disk] *)

Definition NUM : Z := 8.
Definition VRING_DESC_F_NEXT : Z := 1.
Definition VRING_DESC_F_WRITE : Z := 2.
Definition VIRTIO_BLK_T_IN : Z := 0.
Definition VIRTIO_BLK_T_OUT : Z := 1.
Definition VIRTIO_MMIO_QUEUE_NOTIFY : Z := 0x050.
Definition VIRTIO_MMIO_INTERRUPT_STATUS : Z := 0x060.
Definition VIRTIO_MMIO_INTERRUPT_ACK : Z := 0x064.

(** What a descriptor's address points at: [disk.ops[i]], [b->data], [disk.info[i].status]. *)
Inductive dma :=
| NoAddr
| OpAddr (i : Z)
| DataAddr (b : Z)
| StatusAddr (i : Z).

Record virtq_desc := mk_desc { d_addr : dma; d_len : Z; d_flags : Z; d_next : Z }.
Record virtio_blk_req := mk_req { r_type : Z; r_reserved : Z; r_sector : Z }.

(** The fields of [struct buf] the driver uses. *)
Record dbuf := mk_dbuf { db_blockno : Z; db_disk : Z; db_data : list Z }.

#[export] Instance virtq_desc_inhabited : Inhabited virtq_desc := populate (mk_desc NoAddr 0 0 0).
#[export] Instance virtio_blk_req_inhabited : Inhabited virtio_blk_req := populate (mk_req 0 0 0).
#[export] Instance dbuf_inhabited : Inhabited dbuf := populate (mk_dbuf 0 0 []).

(** [struct disk], the buffers it points to, the sectors the device stores, and the two
    registers of the device a transfer uses: the queue number the driver has notified and the
    device has not looked at yet, and the interrupt the device holds up. *)
Record disk := mk_disk {
  desc : list virtq_desc;
  avail_ring : list Z;
  avail_idx : Z;
  used_ring : list Z;
  used_ring_idx : Z;
  free : list Z;
  used_idx : Z;
  info_b : list (option Z);
  info_status : list Z;
  ops : list virtio_blk_req;
  bufs : gmap Z dbuf;
  sectors : gmap Z (list Z);
  queue_notify : option Z;
  interrupt_status : Z;
}.

Definition set_desc f (s : disk) := mk_disk (f (desc s)) (avail_ring s) (avail_idx s) (used_ring s)
  (used_ring_idx s) (free s) (used_idx s) (info_b s) (info_status s) (ops s) (bufs s) (sectors s) (queue_notify s) (interrupt_status s).
Definition set_avail r i (s : disk) := mk_disk (desc s) r i (used_ring s)
  (used_ring_idx s) (free s) (used_idx s) (info_b s) (info_status s) (ops s) (bufs s) (sectors s) (queue_notify s) (interrupt_status s).
Definition set_used r i (s : disk) := mk_disk (desc s) (avail_ring s) (avail_idx s) r
  i (free s) (used_idx s) (info_b s) (info_status s) (ops s) (bufs s) (sectors s) (queue_notify s) (interrupt_status s).
Definition set_free f (s : disk) := mk_disk (desc s) (avail_ring s) (avail_idx s) (used_ring s)
  (used_ring_idx s) (f (free s)) (used_idx s) (info_b s) (info_status s) (ops s) (bufs s) (sectors s) (queue_notify s) (interrupt_status s).
Definition set_used_idx i (s : disk) := mk_disk (desc s) (avail_ring s) (avail_idx s) (used_ring s)
  (used_ring_idx s) (free s) i (info_b s) (info_status s) (ops s) (bufs s) (sectors s) (queue_notify s) (interrupt_status s).
Definition set_info_b f (s : disk) := mk_disk (desc s) (avail_ring s) (avail_idx s) (used_ring s)
  (used_ring_idx s) (free s) (used_idx s) (f (info_b s)) (info_status s) (ops s) (bufs s) (sectors s) (queue_notify s) (interrupt_status s).
Definition set_info_status f (s : disk) := mk_disk (desc s) (avail_ring s) (avail_idx s) (used_ring s)
  (used_ring_idx s) (free s) (used_idx s) (info_b s) (f (info_status s)) (ops s) (bufs s) (sectors s) (queue_notify s) (interrupt_status s).
Definition set_ops f (s : disk) := mk_disk (desc s) (avail_ring s) (avail_idx s) (used_ring s)
  (used_ring_idx s) (free s) (used_idx s) (info_b s) (info_status s) (f (ops s)) (bufs s) (sectors s) (queue_notify s) (interrupt_status s).
Definition set_bufs f (s : disk) := mk_disk (desc s) (avail_ring s) (avail_idx s) (used_ring s)
  (used_ring_idx s) (free s) (used_idx s) (info_b s) (info_status s) (ops s) (f (bufs s)) (sectors s) (queue_notify s) (interrupt_status s).
Definition set_sectors f (s : disk) := mk_disk (desc s) (avail_ring s) (avail_idx s) (used_ring s)
  (used_ring_idx s) (free s) (used_idx s) (info_b s) (info_status s) (ops s) (bufs s) (f (sectors s)) (queue_notify s) (interrupt_status s).
Definition set_queue_notify v (s : disk) := mk_disk (desc s) (avail_ring s) (avail_idx s) (used_ring s)
  (used_ring_idx s) (free s) (used_idx s) (info_b s) (info_status s) (ops s) (bufs s) (sectors s) v (interrupt_status s).
Definition set_interrupt_status v (s : disk) := mk_disk (desc s) (avail_ring s) (avail_idx s) (used_ring s)
  (used_ring_idx s) (free s) (used_idx s) (info_b s) (info_status s) (ops s) (bufs s) (sectors s) (queue_notify s) v.

Definition get_desc (s : disk) (i : Z) : virtq_desc := desc s !!! Z.to_nat i.
Definition get_buf (s : disk) (b : Z) : dbuf := default (mk_dbuf 0 0 []) (bufs s !! b).

(** The registers: a notification waits for the device, an acknowledgement takes the bits
    written out of the interrupt status. *)
Definition write_reg (r v : Z) (s : disk) : disk :=
  if r =? VIRTIO_MMIO_QUEUE_NOTIFY then set_queue_notify (Some (uint v)) s
  else if r =? VIRTIO_MMIO_INTERRUPT_ACK then set_interrupt_status (Z.ldiff (interrupt_status s) (uint v)) s
  else s.
Definition read_reg (r : Z) (s : disk) : Z :=
  if r =? VIRTIO_MMIO_INTERRUPT_STATUS then interrupt_status s else 0.

(** ** Descriptors *)

Fixpoint alloc_desc_loop (k : nat) (i : Z) : K disk Z :=
  match k with
  | O => mret (-1)
  | S k => s ← get;
           if negb (znth (free s) i =? 0)
           then modify (set_free (fun l => zupd l i 0));; mret i
           else alloc_desc_loop k (i + 1)
  end.
Definition alloc_desc : K disk Z := alloc_desc_loop (Z.to_nat NUM) 0.

(** [wakeup(&disk.free[0])] only concerns sleeping processes and leaves this state alone. *)
Definition free_desc (i : Z) : K disk unit :=
  s ← get;
  if NUM <=? i then panic "free_desc 1"
  else if negb (znth (free s) i =? 0) then panic "free_desc 2"
  else modify (set_desc (fun l => zupd l i (mk_desc NoAddr 0 0 0)));;
       modify (set_free (fun l => zupd l i 1)).

Fixpoint free_chain (fuel : nat) (i : Z) : K disk unit :=
  match fuel with
  | O => out_of_fuel
  | S fuel =>
      s ← get;
      let flag := d_flags (get_desc s i) in
      let nxt := d_next (get_desc s i) in
      free_desc i;;
      if negb (Z.land flag VRING_DESC_F_NEXT =? 0) then free_chain fuel nxt else mret tt
  end.

(** The [for(j = 0; j < i; j++) free_desc(idx[j])] of the failure path. *)
Fixpoint free_descs (idx : list Z) : K disk unit :=
  match idx with
  | [] => mret tt
  | i :: idx => free_desc i;; free_descs idx
  end.
(** [None] is the return value -1, [Some idx] is 0 with the array filled in. *)
Fixpoint alloc3_loop (k : nat) (idx : list Z) : K disk (option (list Z)) :=
  match k with
  | O => mret (Some idx)
  | S k => i ← alloc_desc;
           if i <? 0 then free_descs idx;; mret None
           else alloc3_loop k (idx ++ [i])
  end.
Definition alloc3_desc : K disk (option (list Z)) := alloc3_loop 3 [].

(** ** Transfers *)

Section Driver.
Context (device : disk -> disk).

(** The loop over the used ring; [k] is the number of entries the device has added. *)
Fixpoint intr_loop (k : nat) : K disk unit :=
  match k with
  | O => mret tt
  | S k =>
      s ← get;
      if used_idx s =? used_ring_idx s then mret tt
      else
        let id := znth (used_ring s) (used_idx s mod NUM) in
        if negb (znth (info_status s) id =? 0) then panic "virtio_disk_intr status"
        else match info_b s !!! Z.to_nat id with
             | None => fault "virtio_disk_intr: null b"
             | Some b =>
                 modify (set_bufs (fun m => <[b := mk_dbuf (db_blockno (get_buf s b)) 0 (db_data (get_buf s b))]> m));;
                 modify (fun s => set_used_idx (ushort (used_idx s + 1)) s);;
                 intr_loop k
             end
  end.
Definition virtio_disk_intr : K disk unit :=
  status ← gets (read_reg VIRTIO_MMIO_INTERRUPT_STATUS);
  modify (write_reg VIRTIO_MMIO_INTERRUPT_ACK (Z.land status 0x3));;
  s ← get; intr_loop (Z.to_nat (ushort (used_ring_idx s - used_idx s))).

(** [while(b->disk == 1) sleep(b, &disk.vdisk_lock);]: the device works on the queue, and the
    thread that sleeps is woken by the completion interrupt when the device raises one. *)
Fixpoint wait_disk (fuel : nat) (b : Z) : K disk unit :=
  s ← get;
  if db_disk (get_buf s b) =? 1 then
    match fuel with
    | O => out_of_fuel
    | S fuel =>
        modify device;; s ← get;
        if interrupt_status s =? 0 then blocked "disk" else virtio_disk_intr;; wait_disk fuel b
    end
  else mret tt.

(** Formatting the three descriptors of a request. *)
Definition format_request (idx : list Z) (b sector : Z) (write : bool) : K disk unit :=
  let i0 := znth idx 0 in let i1 := znth idx 1 in let i2 := znth idx 2 in
  modify (set_ops (fun l => zupd l i0
    (mk_req (if write then VIRTIO_BLK_T_OUT else VIRTIO_BLK_T_IN) 0 sector)));;
  modify (set_desc (fun l => zupd l i0 (mk_desc (OpAddr i0) 16 VRING_DESC_F_NEXT i1)));;
  modify (set_desc (fun l => zupd l i1 (mk_desc (DataAddr b) BSIZE
    (Z.lor (if write then 0 else VRING_DESC_F_WRITE) VRING_DESC_F_NEXT) i2)));;
  modify (set_info_status (fun l => zupd l i0 0xff));;
  modify (set_desc (fun l => zupd l i2 (mk_desc (StatusAddr i0) 1 VRING_DESC_F_WRITE 0))).

(** [virtio_disk_rw] up to and with the notification of the device: the chain's head, or [None]
    where the source goes to sleep for a descriptor. *)
Definition submit (b : Z) (write : bool) : K disk (option Z) :=
  s ← get;
  let sector := uint (db_blockno (get_buf s b) * (BSIZE / 512)) in
  r ← alloc3_desc;
  match r with
  | None => mret None
  | Some idx =>
      let i0 := znth idx 0 in
      format_request idx b sector write;;
      modify (fun s => set_bufs (fun m => <[b := mk_dbuf (db_blockno (get_buf s b)) 1 (db_data (get_buf s b))]> m) s);;
      modify (set_info_b (fun l => <[Z.to_nat i0 := Some b]> l));;
      modify (fun s => set_avail (zupd (avail_ring s) (avail_idx s mod NUM) i0) (avail_idx s) s);;
      modify (fun s => set_avail (avail_ring s) (ushort (avail_idx s + 1)) s);;
      modify (write_reg VIRTIO_MMIO_QUEUE_NOTIFY 0);;
      mret (Some i0)
  end.

Definition virtio_disk_rw (fuel : nat) (b : Z) (write : bool) : K disk unit :=
  r ← submit b write;
  match r with
  | None => blocked "disk.free"
  | Some i0 =>
      wait_disk fuel b;;
      modify (set_info_b (fun l => <[Z.to_nat i0 := None]> l));;
      free_chain (S (Z.to_nat NUM)) i0
  end.

End Driver.

(** ** The device's side of the contract *)

Definition sector_of (s : disk) (n : Z) : list Z := default (replicate 512 0) (sectors s !! n).
(** The block the file system calls [bno]: two consecutive sectors. *)
Definition block_of (s : disk) (bno : Z) : list Z := sector_of s (2 * bno) ++ sector_of s (2 * bno + 1).

(** Exactly one request is on the queue, with chain head [i], and the driver has notified
    the device of queue 0. *)
Definition pending (s : disk) (i : Z) : Prop :=
  queue_notify s = Some 0 /\
  avail_idx s = ushort (used_ring_idx s + 1) /\
  znth (avail_ring s) (used_ring_idx s mod NUM) = i.

(** A three-descriptor block request: header, data in buffer [b], status byte. *)
Definition request (s : disk) (i b : Z) (write : bool) (sector : Z) : Prop :=
  exists j k,
    get_desc s i = mk_desc (OpAddr i) 16 VRING_DESC_F_NEXT j /\
    get_desc s j = mk_desc (DataAddr b) BSIZE
      (Z.lor (if write then 0 else VRING_DESC_F_WRITE) VRING_DESC_F_NEXT) k /\
    get_desc s k = mk_desc (StatusAddr i) 1 VRING_DESC_F_WRITE 0 /\
    ops s !!! Z.to_nat i = mk_req (if write then VIRTIO_BLK_T_OUT else VIRTIO_BLK_T_IN) 0 sector.

(** The device finishes the request with head [i]: the status byte, the head appended to the
    used ring, the notification consumed and the interrupt for used buffers (bit 0) raised. *)
Definition completed (i status : Z) (s : disk) : disk :=
  set_queue_notify None (set_interrupt_status (Z.lor (interrupt_status s) 1)
    (set_used (zupd (used_ring s) (used_ring_idx s mod NUM) i) (ushort (used_ring_idx s + 1))
      (set_info_status (fun l => zupd l i status) s))).

(** The state after the device has served the request: the data moved, a zero status byte. *)
Definition served (s : disk) (i b : Z) (write : bool) (sector : Z) : disk :=
  let d := get_buf s b in
  completed i 0
      (if write
       then set_sectors (fun m => <[sector + 1 := sub (db_data d) 512 512]>
                                    (<[sector := sub (db_data d) 0 512]> m)) s
       else set_bufs (fun m => <[b := mk_dbuf (db_blockno d) (db_disk d)
                                        (sector_of s sector ++ sector_of s (sector + 1))]> m) s).

(** A device with [capacity] sectors: it serves the request it has been notified of when both
    sectors of the block lie on the disk.  Nothing is said of a device that was not notified,
    and nothing of a request beyond the capacity, which the specification forbids a driver. *)
Class VirtioBlk (capacity : Z) (device : disk -> disk) : Prop :=
  device_serves : forall s i b write sector,
    pending s i -> request s i b write sector -> 0 <= sector -> sector + 1 < capacity ->
    device s = served s i b write sector.

(** The driver at rest: every descriptor free and zero, nothing on the rings. *)
Record idle (s : disk) : Prop := {
  idle_desc : desc s = replicate 8 (mk_desc NoAddr 0 0 0);
  idle_free : free s = replicate 8 1;
  idle_used : used_ring_idx s = avail_idx s;
  idle_seen : used_idx s = avail_idx s;
  idle_idx : 0 <= avail_idx s < 2 ^ 16;
  idle_avail_len : length (avail_ring s) = 8%nat;
  idle_used_len : length (used_ring s) = 8%nat;
  idle_info_len : length (info_b s) = 8%nat;
  idle_status_len : length (info_status s) = 8%nat;
  idle_ops_len : length (ops s) = 8%nat;
  idle_intr : interrupt_status s = 0;
}.

(** ** Properties *)

Lemma ushort_succ_ne x : 0 <= x < 2 ^ 16 -> ushort (x + 1) <> x.
Proof.
  intros. unfold ushort. destruct (decide (x = 2 ^ 16 - 1)) as [->|]; [done|].
  rewrite Z.mod_small; lia.
Qed.

Lemma ushort_succ_diff x : 0 <= x < 2 ^ 16 -> ushort (ushort (x + 1) - x) = 1.
Proof.
  intros. unfold ushort. rewrite Zminus_mod_idemp_l. by replace (x + 1 - x) with 1 by lia.
Qed.

(** One served request is seen by exactly one round of the interrupt loop. *)
Lemma virtio_disk_intr_one s i b :
  0 <= used_idx s < 2 ^ 16 ->
  used_ring_idx s = ushort (used_idx s + 1) ->
  znth (used_ring s) (used_idx s mod NUM) = i ->
  znth (info_status s) i = 0 -> info_b s !!! Z.to_nat i = Some b -> interrupt_status s = 1 ->
  virtio_disk_intr s =
  Ok (tt, set_used_idx (used_ring_idx s)
        (set_bufs (fun m => <[b := mk_dbuf (db_blockno (get_buf s b)) 0 (db_data (get_buf s b))]> m)
          (set_interrupt_status 0 s))).
Proof.
  intros Hr Hu Hi Hs Hb H1. unfold virtio_disk_intr, read_reg, write_reg. kunfold. simpl. rewrite H1. simpl.
  rewrite Hu, ushort_succ_diff by done. simpl. kunfold. simpl.
  rewrite Hu. rewrite (proj2 (Z.eqb_neq _ _)) by (symmetry; intros E; by apply ushort_succ_ne in E).
  rewrite Hi, Hs, Hb. simpl. unfold modify, mret, K_ret. done.
Qed.

(** The outcome of a transfer of buffer [b]. *)
Definition transferred (s : disk) (b : Z) (write : bool) (s' : disk) : Prop :=
  let d := get_buf s b in
  idle s' /\
  (if write
   then bufs s' = <[b := mk_dbuf (db_blockno d) 0 (db_data d)]> (bufs s) /\
        sectors s' = <[2 * db_blockno d + 1 := sub (db_data d) 512 512]>
                       (<[2 * db_blockno d := sub (db_data d) 0 512]> (sectors s))
   else bufs s' = <[b := mk_dbuf (db_blockno d) 0 (block_of s (db_blockno d))]> (bufs s) /\
        sectors s' = sectors s).

(** The queue with the request on it. *)
Definition queued (s : disk) (b : Z) (write : bool) : disk :=
  let d := get_buf s b in
  mk_disk
    ([mk_desc (OpAddr 0) 16 VRING_DESC_F_NEXT 1;
      mk_desc (DataAddr b) BSIZE (Z.lor (if write then 0 else VRING_DESC_F_WRITE) VRING_DESC_F_NEXT) 2;
      mk_desc (StatusAddr 0) 1 VRING_DESC_F_WRITE 0] ++ replicate 5 (mk_desc NoAddr 0 0 0))
    (zupd (avail_ring s) (avail_idx s mod NUM) 0) (ushort (avail_idx s + 1))
    (used_ring s) (used_ring_idx s) [0; 0; 0; 1; 1; 1; 1; 1] (used_idx s)
    (<[O := Some b]> (info_b s)) (zupd (info_status s) 0 0xff)
    (zupd (ops s) 0 (mk_req (if write then VIRTIO_BLK_T_OUT else VIRTIO_BLK_T_IN) 0
                       (uint (db_blockno d * (BSIZE / 512)))))
    (<[b := mk_dbuf (db_blockno d) 1 (db_data d)]> (bufs s)) (sectors s) (Some 0) (interrupt_status s).

Lemma submit_idle s b write : idle s -> submit b write s = Ok (Some 0, queued s b write).
Proof.
  intros [Hd Hf _ _ _ _ _ _ _ _ _]. destruct s; simpl in *; subst. by destruct write.
Qed.

Lemma get_buf_insert s b d : bufs s !! b = Some d -> get_buf s b = d.
Proof. unfold get_buf. by intros ->. Qed.

Lemma queued_get_buf s b write :
  get_buf (queued s b write) b = mk_dbuf (db_blockno (get_buf s b)) 1 (db_data (get_buf s b)).
Proof. apply get_buf_insert. simpl. apply lookup_insert_eq. Qed.

Lemma queued_request s b write :
  idle s ->
  pending (queued s b write) 0 /\
  request (queued s b write) 0 b write (uint (db_blockno (get_buf s b) * (BSIZE / 512))).
Proof.
  intros Hs. split; [split; [done|split]|].
  - simpl. by rewrite (idle_used s Hs).
  - simpl. rewrite (idle_used s Hs). apply znth_zupd_eq. unfold zlen. rewrite (idle_avail_len s Hs).
    apply Z.mod_pos_bound. done.
  - exists 1, 2. split_and!; [done|done|done|]. unfold queued, zupd. simpl.
    rewrite list_lookup_total_insert_eq; [done|]. rewrite (idle_ops_len s Hs). lia.
Qed.

(** Freeing the chain of the request gives every descriptor back. *)
Lemma free_chain_queued s b write s1 :
  desc s1 = desc (queued s b write) -> free s1 = [0; 0; 0; 1; 1; 1; 1; 1] ->
  free_chain (S (Z.to_nat NUM)) 0 s1 =
  Ok (tt, set_free (fun _ => replicate 8 1) (set_desc (fun _ => replicate 8 (mk_desc NoAddr 0 0 0)) s1)).
Proof. destruct s1. simpl. intros -> ->. by destruct write. Qed.

Section Correct.
Context (capacity : Z) (device : disk -> disk) `{HD : VirtioBlk capacity device}.

(** Waiting for the queued request. *)
Lemma wait_disk_queued fuel b write s :
  idle s -> 2 * db_blockno (get_buf s b) + 1 < capacity -> 0 <= db_blockno (get_buf s b) < 2 ^ 31 ->
  let sector := uint (db_blockno (get_buf s b) * (BSIZE / 512)) in
  let s2 := served (queued s b write) 0 b write sector in
  wait_disk device (S fuel) b (queued s b write) =
  Ok (tt, set_used_idx (used_ring_idx s2)
        (set_bufs (fun m => <[b := mk_dbuf (db_blockno (get_buf s2 b)) 0 (db_data (get_buf s2 b))]> m)
          (set_interrupt_status 0 s2))).
Proof using HD.
  intros Hs Hcap Hb31 sector s2.
  assert (Hsec : sector = 2 * db_blockno (get_buf s b)).
  { unfold sector. change (BSIZE / 512) with 2. rewrite uint_small; lia. }
  simpl wait_disk. ksimpl.
  rewrite queued_get_buf. simpl.
  destruct (queued_request s b write Hs) as [Hp Hr].
  ksimpl. rewrite (HD _ 0 b write sector Hp Hr ltac:(lia) ltac:(lia)). fold s2.
  destruct Hs as [_ _ Hused Hseen Hidx La Lu Li Ls Lo Hint].
  assert (Hup : interrupt_status s2 = 1) by (unfold s2, served, queued; destruct write; simpl; by rewrite Hint).
  rewrite Hup. simpl.
  rewrite (bind_ok _ _ _ _ _ (virtio_disk_intr_one s2 0 b
    ltac:(unfold s2, served, queued; destruct write; simpl; lia)
    ltac:(unfold s2, served, queued; destruct write; simpl; congruence)
    ltac:(unfold s2, served, queued; destruct write; simpl; rewrite Hused, Hseen;
          apply znth_zupd_eq; unfold zlen; rewrite Lu; by apply Z.mod_pos_bound)
    ltac:(unfold s2, served, queued; destruct write; simpl;
          apply znth_zupd_eq; rewrite zlen_zupd; unfold zlen; rewrite Ls; lia)
    ltac:(unfold s2, served, queued; destruct write; simpl;
          apply list_lookup_total_insert_eq; rewrite Li; lia)
    Hup)).
  destruct fuel; simpl wait_disk; ksimpl;
    rewrite (get_buf_insert (set_used_idx _ _) b _ (lookup_insert_eq _ _ _)); done.
Qed.

Lemma virtio_disk_rw_idle fuel b write s :
  idle s -> 2 * db_blockno (get_buf s b) + 1 < capacity -> 0 <= db_blockno (get_buf s b) < 2 ^ 31 ->
  (0 < fuel)%nat ->
  exists s', virtio_disk_rw device fuel b write s = Ok (tt, s') /\ transferred s b write s'.
Proof using HD.
  intros Hs Hcap Hb Hfuel. destruct fuel as [|fuel]; [lia|].
  unfold virtio_disk_rw. rewrite (bind_ok _ _ _ _ _ (submit_idle s b write Hs)).
  rewrite (bind_ok _ _ _ _ _ (wait_disk_queued fuel b write s Hs Hcap Hb)). ksimpl.
  destruct Hs as [_ _ Hused Hseen Hidx La Lu Li Ls Lo Hint].
  set (d := get_buf s b) in *.
  assert (Hsec : uint (db_blockno d * (BSIZE / 512)) = 2 * db_blockno d).
  { change (BSIZE / 512) with 2. rewrite uint_small; lia. }
  rewrite Hsec. pose proof (ushort_range (used_ring_idx s + 1)) as Hu.
  eexists. split; [by apply (free_chain_queued s b write); destruct write|]. destruct write.
  all: split; [split|]; simpl; rewrite ?length_insert; unfold zupd; rewrite ?length_insert;
    try done; try congruence; try (rewrite <- Hused; lia).
  all: rewrite (get_buf_insert _ b _ (lookup_insert_eq _ _ _)), ?queued_get_buf; simpl.
  all: rewrite ?insert_insert_eq; done.
Qed.

End Correct.

(** C19: for a device of [capacity] sectors that serves, as the virtio
    specification says, the requests it has been notified of, a transfer of a
    block of the disk started with the driver at rest terminates: the device is
    notified and its interrupt is acknowledged; a read leaves in the buffer the
    two sectors of its block, a write stores the buffer there, every descriptor
    is free again, the rings agree and no interrupt is left up, so the next
    transfer can start. *)
Theorem virtio_disk_rw_transfers capacity device fuel b write s :
  VirtioBlk capacity device -> idle s ->
  2 * db_blockno (get_buf s b) + 1 < capacity -> 0 <= db_blockno (get_buf s b) < 2 ^ 31 -> (0 < fuel)%nat ->
  exists s', virtio_disk_rw device fuel b write s = Ok (tt, s') /\ transferred s b write s'.
Proof. intros HD. by apply virtio_disk_rw_idle. Qed.

(** A device that reports an error in the status byte stops the kernel: the interrupt handler
    panics before the buffer is handed back. *)
Theorem virtio_disk_rw_error device fuel b write status s :
  idle s -> (0 < fuel)%nat -> status <> 0 ->
  (forall s i, pending s i -> device s = completed i status s) ->
  virtio_disk_rw device fuel b write s = Panic "virtio_disk_intr status".
Proof.
  intros Hs Hf Hst Hdev. destruct fuel as [|fuel]; [lia|]. destruct (queued_request s b write Hs) as [Hp _].
  unfold virtio_disk_rw. rewrite (bind_ok _ _ _ _ _ (submit_idle s b write Hs)).
  assert (Hw : wait_disk device (S fuel) b (queued s b write) = Panic "virtio_disk_intr status");
    [|kunfold; by rewrite Hw].
  simpl wait_disk. ksimpl. rewrite queued_get_buf. simpl. ksimpl. rewrite (Hdev _ 0 Hp).
  destruct Hs as [_ _ Hused Hseen Hidx La Lu Li Ls Lo Hint]. set (s2 := completed _ _ _).
  assert (Hup : interrupt_status s2 = 1) by (simpl; by rewrite Hint). rewrite Hup. simpl.
  unfold virtio_disk_intr, read_reg, write_reg. kunfold. simpl. rewrite Hused, Hseen, Hint, ushort_succ_diff by done. simpl. kunfold. simpl.
  rewrite Hused, Hseen. rewrite (proj2 (Z.eqb_neq _ _)) by (symmetry; intros E; by apply ushort_succ_ne in E).
  rewrite znth_zupd_eq by (unfold zlen; rewrite Lu; by apply Z.mod_pos_bound).
  rewrite znth_zupd_eq by (rewrite zlen_zupd; unfold zlen; rewrite Ls; lia).
  by rewrite (proj2 (Z.eqb_neq _ _) Hst).
Qed.

(** A device that follows the specification, with the given number of sectors. *)
Definition sized_device (capacity : Z) (s : disk) : disk :=
  let i := znth (avail_ring s) (used_ring_idx s mod NUM) in
  let r := ops s !!! Z.to_nat i in
  match queue_notify s, d_addr (get_desc s (d_next (get_desc s i))) with
  | Some 0, DataAddr b =>
      if r_sector r + 1 <? capacity then served s i b (r_type r =? VIRTIO_BLK_T_OUT) (r_sector r)
      else completed i 1 s
  | _, _ => s
  end.

Instance sized_device_ok capacity : VirtioBlk capacity (sized_device capacity).
Proof.
  intros s i b write sector (Hn & _ & Hi) (j & k & Hdi & Hdj & Hdk & Hop) H0 H1.
  unfold sized_device. rewrite Hn, Hi, Hdi. simpl. rewrite Hdj, Hop. simpl.
  rewrite (proj2 (Z.ltb_lt _ _) H1). by destruct write.
Qed.

(** The disk of the examples: the [FSSIZE] blocks of [fs.img]. *)
Definition spec_device : disk -> disk := sized_device (2 * FSSIZE).

#[export] Instance spec_device_ok : VirtioBlk (2 * FSSIZE) spec_device := sized_device_ok _.

(** A driver at rest with one buffer (pointer 7) for block 3, full of ones. *)
Definition disk0 : disk :=
  mk_disk (replicate 8 (mk_desc NoAddr 0 0 0)) (replicate 8 0) 65535 (replicate 8 0) 65535
    (replicate 8 1) 65535 (replicate 8 None) (replicate 8 0) (replicate 8 (mk_req 0 0 0))
    {[ 7 := mk_dbuf 3 0 (replicate 1024 1) ]} ∅ None 0.

Lemma virtio_disk_rw_transfers_witness :
  exists s', virtio_disk_rw spec_device 1 7 true disk0 = Ok (tt, s') /\ block_of s' 3 = replicate 1024 1.
Proof.
  destruct (virtio_disk_rw_transfers (2 * FSSIZE) spec_device 1 7 true disk0 _) as (s' & He & _ & _ & Hs).
  - by split.
  - vm_compute; congruence.
  - split; vm_compute; congruence.
  - lia.
  - exists s'. split; [exact He|]. unfold block_of, sector_of. rewrite Hs. vm_compute. reflexivity.
Defined.

(** ** Descriptor accounting *)

(** Allocated descriptors. *)
Definition in_use (s : disk) : nat := length (List.filter (fun f => f =? 0) (free s)).

Lemma in_use_free l i :
  0 <= i < zlen l -> znth l i = 0 ->
  length (List.filter (fun f => f =? 0) l) = S (length (List.filter (fun f => f =? 0) (zupd l i 1))).
Proof.
  unfold zlen, znth, zupd. intros Hi. assert (Z.to_nat i < length l)%nat as Hn by lia. clear Hi.
  revert Hn. generalize (Z.to_nat i) as n. induction l as [|x l IH]; intros n Hn Hz; simpl in *; [lia|].
  destruct n as [|n]; simpl in *.
  - by rewrite Hz.
  - destruct (x =? 0); simpl; rewrite (IH n) by (done || lia); done.
Qed.

Lemma free_chain_fuel fuel i s :
  length (free s) = 8%nat -> 0 <= i -> (forall j, 0 <= d_next (get_desc s j)) ->
  (in_use s < fuel)%nat -> free_chain fuel i s <> OutOfFuel.
Proof.
  revert i s. induction fuel as [|fuel IH]; intros i s Hlen Hi Hnext Hf; [lia|].
  simpl. ksimpl. unfold free_desc. kunfold. simpl.
  destruct (NUM <=? i) eqn:E1; [done|]. destruct (negb (znth (free s) i =? 0)) eqn:E2; [done|].
  unfold NUM in *. zbool. simpl. case_match; [|done]. apply IH; simpl.
  - unfold zupd. by rewrite length_insert.
  - apply Hnext.
  - intros j. unfold get_desc, zupd. simpl. rewrite list_lookup_total_alt, list_lookup_insert.
    case_decide; [simpl; lia|]. rewrite <- list_lookup_total_alt. apply Hnext.
  - unfold in_use in *. simpl. rewrite (in_use_free (free s) i) in Hf by (unfold zlen; lia || done). lia.
Qed.

Lemma filter_length {A} (f : A -> bool) l : (length (List.filter f l) <= length l)%nat.
Proof. induction l; simpl; [done|]. case_match; simpl; lia. Qed.

(** [free_chain] stops on every descriptor table, a cyclic chain included:
    each round frees a descriptor that was in use or panics, so nine rounds
    are always enough. *)
Theorem free_chain_stops i s :
  length (free s) = 8%nat -> 0 <= i -> (forall j, 0 <= d_next (get_desc s j)) ->
  free_chain (S (Z.to_nat NUM)) i s <> OutOfFuel.
Proof.
  intros Hlen Hi Hn. apply free_chain_fuel; try done. unfold in_use.
  pose proof (filter_length (fun f => f =? 0) (free s)). change (S (Z.to_nat NUM)) with 9%nat. lia.
Qed.

(** A descriptor that is its own successor: the second round panics. *)
Lemma free_chain_stops_witness :
  free_chain (S (Z.to_nat NUM)) 0
    (set_desc (fun l => zupd l 0 (mk_desc NoAddr 0 1 0)) (set_free (fun l => zupd l 0 0) disk0)) <> OutOfFuel.
Proof.
  apply (free_chain_stops 0); [done|lia|].
  intros j. unfold get_desc. destruct (Z.to_nat j) as [|[|[|[|[|[|[|[|n]]]]]]]]; vm_compute; try congruence.
Defined.

Lemma alloc_desc_loop_spec k i s :
  0 <= i -> i + Z.of_nat k = zlen (free s) ->
  (exists j, i <= j < zlen (free s) /\ znth (free s) j <> 0 /\
     alloc_desc_loop k i s = Ok (j, set_free (fun l => zupd l j 0) s)) \/
  ((forall j, i <= j < zlen (free s) -> znth (free s) j = 0) /\ alloc_desc_loop k i s = Ok (-1, s)).
Proof.
  revert i. induction k as [|k IH]; intros i Hi Hk; simpl.
  - right. split; [|done]. intros j Hj. lia.
  - ksimpl. destruct (negb (znth (free s) i =? 0)) eqn:E; zbool.
    + left. exists i. split; [lia|]. done.
    + destruct (IH (i + 1)) as [(j & Hj & Hnz & ->)|[Hall ->]]; [lia|lia| |].
      * left. exists j. split; [lia|]. done.
      * right. split; [|done]. intros j Hj. destruct (decide (j = i)) as [->|]; [done|]. apply Hall. lia.
Qed.

(** The invariant of the descriptor table: free flags are 0 or 1, free descriptors are zero. *)
Definition table_ok (s : disk) : Prop :=
  length (free s) = 8%nat /\ length (desc s) = 8%nat /\
  forall i, 0 <= i < NUM ->
    (znth (free s) i = 0 \/ znth (free s) i = 1) /\
    (znth (free s) i = 1 -> get_desc s i = mk_desc NoAddr 0 0 0).

Definition mark (idx fr : list Z) : list Z := foldl (fun l i => zupd l i 0) fr idx.

#[global] Arguments mark : simpl never.

Lemma length_mark idx fr : length (mark idx fr) = length fr.
Proof.
  revert fr. induction idx as [|i idx IH]; intros fr; [done|]. simpl.
  unfold mark in *. simpl. rewrite IH. unfold zupd. by rewrite length_insert.
Qed.

Lemma znth_mark idx fr j :
  Forall (fun i => 0 <= i < zlen fr) idx -> 0 <= j ->
  znth (mark idx fr) j = if decide (j ∈ idx) then 0 else znth fr j.
Proof.
  revert fr. induction idx as [|i idx IH]; intros fr Hr Hj.
  - rewrite decide_False; [done|]. apply not_elem_of_nil.
  - apply Forall_cons in Hr as [Hi Hr]. unfold mark in *. simpl. rewrite IH; [|by rewrite zlen_zupd|done].
    destruct (decide (j = i)) as [->|Hne].
    + rewrite (decide_True (P := i ∈ i :: idx)) by apply elem_of_cons, or_introl, eq_refl.
      case_decide; [done|]. by apply znth_zupd_eq.
    + rewrite znth_zupd_ne by lia. apply decide_ext. rewrite elem_of_cons. tauto.
Qed.

Lemma set_free_id s fr : free s = fr -> set_free (fun _ => fr) s = s.
Proof. destruct s. simpl. by intros ->. Qed.

Lemma free_desc_ok i s :
  i < NUM -> znth (free s) i = 0 ->
  free_desc i s = Ok (tt, set_free (fun l => zupd l i 1)
                            (set_desc (fun l => zupd l i (mk_desc NoAddr 0 0 0)) s)).
Proof.
  intros Hi Hz. unfold free_desc. ksimpl. rewrite (proj2 (Z.leb_gt NUM i)) by done. by rewrite Hz.
Qed.

Lemma free_descs_mark idx s :
  table_ok s -> NoDup idx -> Forall (fun i => 0 <= i < NUM /\ znth (free s) i = 1) idx ->
  free_descs idx (set_free (fun _ => mark idx (free s)) s) = Ok (tt, s).
Proof.
  intros (Hlf & Hld & Hok). induction idx as [|i idx IH]; intros Hnd Hr.
  - simpl. unfold mret, K_ret. do 2 f_equal. by apply set_free_id.
  - apply NoDup_cons in Hnd as [Hni Hnd]. apply Forall_cons in Hr as [[Hi H1] Hr].
    assert (Hb : Forall (fun i => 0 <= i < zlen (free s)) (i :: idx)).
    { constructor; [unfold zlen, NUM in *; lia|]. eapply Forall_impl; [exact Hr|].
      intros x [? _]. unfold zlen, NUM in *. simpl in *. lia. }
    change (free_descs (i :: idx)) with (free_desc i;; free_descs idx).
    assert (Hz : znth (mark (i :: idx) (free s)) i = 0).
    { rewrite znth_mark by (done || lia). rewrite decide_True; [done|].
      apply elem_of_cons, or_introl, eq_refl. }
    kstep (free_desc_ok i (set_free (fun _ => mark (i :: idx) (free s)) s) ltac:(lia) Hz).
    unfold NUM in *. rewrite <- IH by done. f_equal. destruct s as [de ? ? ? ? fr ? ? ? ? ? ? ? ?]; unfold set_free, set_desc; simpl in *. f_equal.
    + unfold zupd. apply list_insert_id. destruct (Hok i Hi) as [_ Hd]. specialize (Hd H1).
      unfold get_desc in Hd. simpl in Hd. rewrite <- Hd. apply list_lookup_lookup_total_lt. lia.
    + apply znth_ext.
      * rewrite zlen_zupd. unfold zlen. by rewrite !length_mark.
      * intros j Hj. rewrite zlen_zupd in Hj. unfold zlen in Hj. rewrite length_mark in Hj.
        rewrite (znth_mark idx) by first [lia | by apply Forall_cons in Hb as [_ Hb]].
        destruct (decide (j = i)) as [->|Hne].
        -- rewrite znth_zupd_eq by (unfold zlen; rewrite length_mark; lia).
           rewrite decide_False by done. done.
        -- rewrite znth_zupd_ne by lia. rewrite (znth_mark (i :: idx)) by (done || lia).
           apply decide_ext. rewrite elem_of_cons. tauto.
Qed.

Lemma set_free_set_free f g s : set_free f (set_free g s) = set_free (fun l => f (g l)) s.
Proof. done. Qed.

(** The loop invariant of [alloc3_desc]: what was free and is taken is [idx]. *)
Lemma alloc3_loop_spec k idx s r s' :
  table_ok s -> NoDup idx -> Forall (fun i => 0 <= i < NUM /\ znth (free s) i = 1) idx ->
  alloc3_loop k idx (set_free (fun _ => mark idx (free s)) s) = Ok (r, s') ->
  match r with
  | None => s' = s
  | Some idx' => length idx' = (length idx + k)%nat /\ NoDup idx' /\
      Forall (fun i => 0 <= i < NUM /\ znth (free s) i = 1) idx' /\
      s' = set_free (fun _ => mark idx' (free s)) s
  end.
Proof.
  intros Hok. revert idx. induction k as [|k IH]; intros idx Hnd Hr.
  - unfold alloc3_loop, mret, K_ret. intros [= <- <-]. split_and!; auto with lia.
  - simpl. set (s1 := set_free _ s) in *.
    assert (Hlen : zlen (free s1) = 8) by (unfold zlen; simpl; rewrite length_mark; destruct Hok; lia).
    destruct (alloc_desc_loop_spec (Z.to_nat NUM) 0 s1) as [(j & Hj & Hnz & Ha)|[Hall Ha]];
      [lia|by rewrite Hlen| |].
    + unfold alloc_desc at 1. kstep Ha. rewrite (proj2 (Z.ltb_ge j 0)) by lia.
      assert (Hb : Forall (fun i => 0 <= i < zlen (free s)) idx).
      { eapply Forall_impl; [exact Hr|]. intros x [? _]. destruct Hok. unfold zlen, NUM in *. lia. }
      simpl in Hnz. rewrite znth_mark in Hnz by (done || lia).
      case_decide as Hin; [done|].
      assert (znth (free s) j = 1) by (destruct Hok as (_ & _ & Hok); unfold NUM in *; destruct (Hok j) as [[]]; lia).
      intros He. specialize (IH (idx ++ [j])). unfold mark at 1 in IH. rewrite foldl_app in IH.
      assert (Hnd' : NoDup (idx ++ [j])).
      { apply NoDup_app. split_and!; [done| |apply NoDup_singleton].
        intros x Hx ->%list_elem_of_singleton. done. }
      apply IH in He; [|done|apply Forall_app; split; [done|repeat constructor; unfold NUM in *; lia]].
      destruct r; [|done]. rewrite length_app in He. simpl in He.
      replace (length idx + S k)%nat with (length idx + 1 + k)%nat by lia. done.
    + unfold alloc_desc at 1. kstep Ha. simpl. kstep (free_descs_mark idx s Hok Hnd Hr).
      unfold mret, K_ret. by intros [= <- <-].
Qed.

(** [alloc3_desc] either takes three distinct descriptors that were free,
    marking exactly those, or fails and gives back whatever it had taken, so
    the driver's state is the one it started from. *)
Theorem alloc3_desc_all_or_nothing s r s' :
  table_ok s -> alloc3_desc s = Ok (r, s') ->
  match r with
  | None => s' = s
  | Some idx => length idx = 3%nat /\ NoDup idx /\
      Forall (fun i => 0 <= i < NUM /\ znth (free s) i = 1) idx /\
      s' = set_free (fun _ => mark idx (free s)) s
  end.
Proof.
  intros Hok He. apply (alloc3_loop_spec 3 [] s r s' Hok); [constructor|constructor|].
  rewrite set_free_id by done. exact He.
Qed.

(** Two descriptors left: the third allocation fails. *)
Lemma alloc3_desc_all_or_nothing_witness :
  let s := set_free (fun _ => [0; 0; 1; 0; 0; 0; 1; 0]) disk0 in alloc3_desc s = Ok (None, s).
Proof.
  set (s := set_free _ disk0).
  assert (Ht : table_ok s).
  { split; [done|split; [done|]]. intros i Hi. unfold NUM in Hi.
    assert (i = 0 \/ i = 1 \/ i = 2 \/ i = 3 \/ i = 4 \/ i = 5 \/ i = 6 \/ i = 7) as Hc by lia.
    unfold znth, get_desc, s. repeat destruct Hc as [->|Hc]; subst; simpl; auto. }
  destruct (alloc3_desc s) as [[r s']| | | |] eqn:E; [|vm_compute in E; congruence..].
  pose proof (alloc3_desc_all_or_nothing s r s' Ht E) as H.
  destruct r; [vm_compute in E; congruence|]. simpl. congruence.
Defined.

(** ** What the driver promises the buffer cache

    A disk of [dd_size] blocks: [dd_block d n] is the block a read of number [n] returns.
    [virtio_rw b write n data] transfers the block [n] with the buffer at [b]
    holding [data], and returns the buffer's contents afterwards. *)

Class DiskDriver (D : Type) : Type := virtio_rw : Z -> bool -> Z -> list Z -> K D (list Z).

Definition block_ok (l : list Z) : Prop := zlen l = BSIZE /\ bytes_ok l.

Class DiskDriverLaws (D : Type) `{DiskDriver D} : Type := {
  dd_inv : D -> Prop;
  dd_block : D -> Z -> list Z;
  dd_size : Z;
  dd_size_max : dd_size <= 2 ^ 31;
  dd_block_ok d n : dd_inv d -> block_ok (dd_block d n);
  dd_read d b n data : dd_inv d -> 0 <= n < dd_size ->
    exists d', virtio_rw b false n data d = Ok (dd_block d n, d') /\ dd_inv d' /\
      forall m, dd_block d' m = dd_block d m;
  dd_write d b n data : dd_inv d -> 0 <= n < dd_size -> block_ok data ->
    exists d', virtio_rw b true n data d = Ok (data, d') /\ dd_inv d' /\
      forall m, dd_block d' m = if decide (m = n) then data else dd_block d m;
}.

Section Implements.
Context (capacity : Z) (device : disk -> disk) `{HD : VirtioBlk capacity device}.

#[export] Instance virtio_driver : DiskDriver disk := fun b write n data =>
  modify (set_bufs (fun m => <[b := mk_dbuf n 0 data]> m));;
  virtio_disk_rw device 1 b write;;
  gets (fun s => db_data (get_buf s b)).

Definition sectors_ok (s : disk) : Prop :=
  forall n l, sectors s !! n = Some l -> zlen l = 512 /\ bytes_ok l.

Lemma sector_of_ok s n : sectors_ok s -> zlen (sector_of s n) = 512 /\ bytes_ok (sector_of s n).
Proof using Type.
  intros Hs. unfold sector_of. destruct (sectors s !! n) eqn:E; cbn [default]; [by eapply Hs|].
  split; [done|]. apply bytes_ok_replicate. done.
Qed.

Lemma block_of_ok s n : sectors_ok s -> block_ok (block_of s n).
Proof using Type.
  intros Hs. destruct (sector_of_ok s (2 * n) Hs), (sector_of_ok s (2 * n + 1) Hs).
  split; unfold block_of; [rewrite zlen_app; unfold BSIZE; lia|by apply bytes_ok_app].
Qed.

Lemma idle_set_bufs f s : idle s -> idle (set_bufs f s).
Proof using Type. intros []. by split. Qed.

#[export] Instance virtio_driver_laws : DiskDriverLaws disk.
Proof using HD.
  refine {| dd_inv := fun s => idle s /\ sectors_ok s; dd_block := block_of; dd_size := Z.min (capacity / 2) (2 ^ 31) |}.
  - lia.
  - intros d n [_ Hs]. by apply block_of_ok.
  - intros d b n data [Hi Hs] Hn. unfold virtio_rw, virtio_driver. ksimpl.
    set (d1 := set_bufs _ d).
    assert (Hg : get_buf d1 b = mk_dbuf n 0 data) by (apply get_buf_insert, lookup_insert_eq).
    destruct (virtio_disk_rw_idle capacity device 1 b false d1) as (d2 & He & Hi2 & Hb & Hsec);
      [by apply idle_set_bufs|rewrite Hg; simpl; pose proof (Z.mul_div_le capacity 2); lia|rewrite Hg; simpl; lia|lia|]. kstep He.
    rewrite Hg in Hb. exists d2. unfold gets. rewrite (get_buf_insert d2 b _ ltac:(rewrite Hb; apply lookup_insert_eq)).
    split; [done|]. simpl in Hsec. split; [split; [done|]|].
    + intros m l. rewrite Hsec. apply Hs.
    + intros m. unfold block_of, sector_of. by rewrite Hsec.
  - intros d b n data [Hi Hs] Hn [Hlen Hok]. unfold virtio_rw, virtio_driver. ksimpl.
    set (d1 := set_bufs _ d).
    assert (Hg : get_buf d1 b = mk_dbuf n 0 data) by (apply get_buf_insert, lookup_insert_eq).
    destruct (virtio_disk_rw_idle capacity device 1 b true d1) as (d2 & He & Hi2 & Hb & Hsec);
      [by apply idle_set_bufs|rewrite Hg; simpl; pose proof (Z.mul_div_le capacity 2); lia|rewrite Hg; simpl; lia|lia|]. kstep He.
    rewrite Hg in Hb, Hsec. exists d2. unfold gets.
    rewrite (get_buf_insert d2 b _ ltac:(rewrite Hb; apply lookup_insert_eq)).
    split; [done|]. simpl in Hsec. unfold BSIZE in Hlen. split; [split; [done|]|].
    + intros m l. rewrite Hsec, !lookup_insert. repeat case_decide; intros E; simplify_eq;
        [| |by eapply Hs]; (split; [by rewrite zlen_sub by lia|auto with kernel]).
    + intros m. unfold block_of, sector_of. rewrite Hsec, !lookup_insert.
      destruct (decide (m = n)) as [->|]; repeat case_decide; try lia; [|done].
      cbn [default]. rewrite <- (sub_full data) at 3. rewrite Hlen.
      symmetry. apply (sub_app_adj data 0 512 512); lia.
Defined.
End Implements.
