(* ===== verification/Bio.v ===== *)
(** * The buffer cache

    [src/kernel/fs/xv6fs/bio.c].  [struct buf] is a record; a [struct buf *] is
    an index of the array [bcache.buf], and [&bcache.head] is the index [NBUF].
    The list of buffers is the code's own, threaded through [prev] and [next].
    The disk below is any [DiskDriver].  One process runs; its pid is [curpid].
    [BufCache] and [BufCacheLaws] state what the cache promises its clients, and
    [bio_laws] shows that this code keeps the promise. *)

From stdpp Require Import base numbers list list_numbers gmap strings sorting.
From Stdlib Require Import ZArith Lia.
From S2P Require Import Prelude Params Sleeplock Virtio.

Record buf := mk_buf {
  valid : Z;
  b_dev : Z;
  blockno : Z;
  b_lock : sleeplock;
  refcnt : Z;
  prev : Z;
  next : Z;
  b_data : list Z;
}.
#[export] Instance buf_inhabited : Inhabited buf :=
  populate (mk_buf 0 0 0 initsleeplock 0 0 0 (replicate 1024 0)).

Definition set_valid v b := mk_buf v (b_dev b) (blockno b) (b_lock b) (refcnt b) (prev b) (next b) (b_data b).
Definition set_lock v b := mk_buf (valid b) (b_dev b) (blockno b) v (refcnt b) (prev b) (next b) (b_data b).
Definition set_refcnt v b := mk_buf (valid b) (b_dev b) (blockno b) (b_lock b) v (prev b) (next b) (b_data b).
Definition set_prev v b := mk_buf (valid b) (b_dev b) (blockno b) (b_lock b) (refcnt b) v (next b) (b_data b).
Definition set_next v b := mk_buf (valid b) (b_dev b) (blockno b) (b_lock b) (refcnt b) (prev b) v (b_data b).
Definition set_data v b := mk_buf (valid b) (b_dev b) (blockno b) (b_lock b) (refcnt b) (prev b) (next b) v.

Definition head : Z := NBUF.

(** The loops over the list run at most once per buffer and once for the head. *)
Definition list_fuel : nat := 31.

Section Bio.
Context {D : Type} `{DD : DiskDriver D}.

Record bcache := mk_bcache {
  dsk : D;
  bbuf : list buf;   (* bcache.buf, then bcache.head *)
  curpid : Z;
}.

Definition getb (s : bcache) (i : Z) : buf := bbuf s !!! Z.to_nat i.
Definition updb (i : Z) (f : buf -> buf) (s : bcache) : bcache :=
  mk_bcache (dsk s) (alter f (Z.to_nat i) (bbuf s)) (curpid s).
Definition set_dsk (d : D) (s : bcache) : bcache := mk_bcache d (bbuf s) (curpid s).

Definition acquire_buf (b : Z) : K bcache unit :=
  s ← get;
  zoom (fun s => b_lock (getb s b)) (fun lk => updb b (set_lock lk)) (acquiresleep (curpid s)).
Definition release_buf (b : Z) : K bcache unit :=
  zoom (fun s => b_lock (getb s b)) (fun lk => updb b (set_lock lk)) releasesleep.

Definition binit_step (b : Z) : K bcache unit :=
  s ← get;
  modify (updb b (set_next (next (getb s head))));;
  modify (updb b (set_prev head));;
  modify (updb b (set_lock initsleeplock));;
  s ← get;
  modify (updb (next (getb s head)) (set_prev b));;
  modify (updb head (set_next b)).
Fixpoint binit_loop (n : nat) (b : Z) : K bcache unit :=
  match n with
  | O => mret tt
  | S n => binit_step b;; binit_loop n (b + 1)
  end.
Definition binit : K bcache unit :=
  modify (updb head (set_prev head));;
  modify (updb head (set_next head));;
  binit_loop (Z.to_nat NBUF) 0.

(** [for(b = bcache.head.next; b != &bcache.head; b = b->next)] with the match on
    device and block number. *)
Fixpoint find_cached (fuel : nat) (s : bcache) (dev bno b : Z) : res (option Z) :=
  match fuel with
  | O => OutOfFuel
  | S fuel =>
      if b =? head then Ok None
      else if (b_dev (getb s b) =? dev) && (blockno (getb s b) =? bno) then Ok (Some b)
      else find_cached fuel s dev bno (next (getb s b))
  end.

(** [for(b = bcache.head.prev; b != &bcache.head; b = b->prev)] for [refcnt == 0]. *)
Fixpoint find_unused (fuel : nat) (s : bcache) (b : Z) : res (option Z) :=
  match fuel with
  | O => OutOfFuel
  | S fuel =>
      if b =? head then Ok None
      else if refcnt (getb s b) =? 0 then Ok (Some b)
      else find_unused fuel s (prev (getb s b))
  end.

Definition lift {A} (f : bcache -> res A) : K bcache A :=
  fun s => res_bind (f s) (fun a => Ok (a, s)).

Definition recycle (dev bno : Z) (b : buf) : buf :=
  mk_buf 0 dev bno (b_lock b) 1 (prev b) (next b) (b_data b).

Definition bget (dev bno : Z) : K bcache Z :=
  c ← lift (fun s => find_cached list_fuel s dev bno (next (getb s head)));
  match c with
  | Some b =>
      modify (updb b (fun x => set_refcnt (uint (refcnt x + 1)) x));;
      acquire_buf b;;
      mret b
  | None =>
      u ← lift (fun s => find_unused list_fuel s (prev (getb s head)));
      match u with
      | Some b =>
          modify (updb b (recycle dev bno));;
          acquire_buf b;;
          mret b
      | None => panic "bget: no buffers"
      end
  end.

(** [virtio_disk_rw(b, write)] on the buffer [b]. *)
Definition disk_rw (b : Z) (write : bool) : K bcache unit :=
  s ← get;
  data ← zoom dsk set_dsk (virtio_rw b write (blockno (getb s b)) (b_data (getb s b)));
  modify (updb b (set_data data)).

Definition bread (dev bno : Z) : K bcache Z :=
  b ← bget dev bno;
  s ← get;
  if valid (getb s b) =? 0
  then disk_rw b false;; modify (updb b (set_valid 1));; mret b
  else mret b.

Definition bwrite (b : Z) : K bcache unit :=
  s ← get;
  if negb (holdingsleep (curpid s) (b_lock (getb s b))) then panic "bwrite"
  else disk_rw b true.

(** [b->next->prev = b->prev; b->prev->next = b->next;] *)
Definition unlink (b : Z) : K bcache unit :=
  s ← get;
  modify (updb (next (getb s b)) (set_prev (prev (getb s b))));;
  s ← get;
  modify (updb (prev (getb s b)) (set_next (next (getb s b)))).

(** [b] becomes the first of the list: the four assignments that link it behind the head. *)
Definition push_front (b : Z) : K bcache unit :=
  s ← get;
  modify (updb b (set_next (next (getb s head))));;
  modify (updb b (set_prev head));;
  s ← get;
  modify (updb (next (getb s head)) (set_prev b));;
  modify (updb head (set_next b)).

Definition brelse (b : Z) : K bcache unit :=
  s ← get;
  if negb (holdingsleep (curpid s) (b_lock (getb s b))) then panic "brelse"
  else
    release_buf b;;
    modify (updb b (fun x => set_refcnt (uint (refcnt x - 1)) x));;
    s ← get;
    if refcnt (getb s b) =? 0 then unlink b;; push_front b else mret tt.

Definition bpin (b : Z) : K bcache unit :=
  modify (updb b (fun x => set_refcnt (uint (refcnt x + 1)) x)).
Definition bunpin (b : Z) : K bcache unit :=
  modify (updb b (fun x => set_refcnt (uint (refcnt x - 1)) x)).
End Bio.
Arguments bcache D : clear implicits.

(** ** Doubly linked lists *)

Definition upd (f : Z -> Z) (i v : Z) : Z -> Z := fun j => if decide (j = i) then v else f j.

(** [path nx pv x l y]: following [nx] from [x] passes through [l] and arrives at
    [y], and [pv] leads back. *)
Fixpoint path (nx pv : Z -> Z) (x : Z) (l : list Z) (y : Z) : Prop :=
  match l with
  | [] => nx x = y /\ pv y = x
  | a :: l => nx x = a /\ pv a = x /\ path nx pv a l y
  end.

Lemma path_ext nx pv nx' pv' x l y :
  (forall j, j ∈ x :: l -> nx' j = nx j) -> (forall j, j ∈ l ++ [y] -> pv' j = pv j) ->
  path nx pv x l y -> path nx' pv' x l y.
Proof.
  revert x. induction l as [|a l IH]; simpl; intros x Hn Hp.
  - rewrite Hn, Hp by set_solver. done.
  - intros (? & ? & H). rewrite Hn, Hp by set_solver. split_and!; [done..|].
    apply IH; [set_solver..|done].
Qed.

Lemma path_pred nx pv x l1 b l2 y : path nx pv x (l1 ++ b :: l2) y -> pv b ∈ x :: l1.
Proof.
  revert x. induction l1 as [|a l1 IH]; simpl; intros x; [intros (_ & -> & _); set_solver|].
  intros (_ & _ & H). apply IH in H. set_solver.
Qed.

Lemma path_succ nx pv x l1 b l2 y : path nx pv x (l1 ++ b :: l2) y -> nx b ∈ l2 ++ [y].
Proof.
  revert x. induction l1 as [|a l1 IH]; simpl; intros x; [|by intros (_ & _ & H%IH)].
  intros (_ & _ & H). destruct l2; simpl in *; destruct H; subst; set_solver.
Qed.

(** [b->next->prev = b->prev; b->prev->next = b->next] takes [b] out. *)
Lemma path_unlink nx pv x l1 b l2 y :
  path nx pv x (l1 ++ b :: l2) y -> NoDup (x :: l1 ++ b :: l2) -> y ∉ l1 ++ b :: l2 ->
  path (upd nx (pv b) (nx b)) (upd pv (nx b) (pv b)) x (l1 ++ l2) y.
Proof.
  revert x. induction l1 as [|a l1 IH]; simpl; intros x Hp Hd Hy.
  - destruct Hp as (Hx & -> & Hb). apply NoDup_cons in Hd as [Hxb Hd].
    destruct l2 as [|c l2]; simpl in *.
    + destruct Hb as [-> _]. unfold upd. by rewrite !decide_True.
    + destruct Hb as (-> & _ & Hc). unfold upd at 1 2. rewrite !decide_True by done.
      split_and!; [done..|]. apply NoDup_cons in Hd as [? Hd]. apply NoDup_cons in Hd as [? _].
      apply (path_ext nx pv); [| |done]; intros j Hj; unfold upd; rewrite decide_False; set_solver.
  - destruct Hp as (Hx & Ha & Hp). pose proof (path_pred _ _ _ _ _ _ _ Hp) as Hpb.
    pose proof (path_succ _ _ _ _ _ _ _ Hp) as Hsb.
    apply NoDup_cons in Hd as [Hxd Hd]. split_and!.
    + unfold upd. rewrite decide_False; [done|]. intros ->. apply Hxd. set_solver.
    + unfold upd. rewrite decide_False; [done|]. intros ->.
      apply NoDup_cons in Hd as [Had _]. set_solver.
    + apply IH; [done..|set_solver].
Qed.

(** [b->next = x->next; b->prev = x; x->next->prev = b; x->next = b] puts [b] after [x]. *)
Lemma path_insert nx pv b l y :
  path nx pv y l y -> NoDup (y :: l) -> b ∉ y :: l ->
  path (upd (upd nx b (nx y)) y b) (upd (upd pv b y) (nx y) b) y (b :: l) y.
Proof.
  intros Hp Hd Hb. simpl. assert (Hyb : y <> b) by set_solver.
  assert (Hn : nx y ∈ l ++ [y]) by (destruct l; simpl in *; destruct Hp; subst; set_solver).
  assert (Hnb : b <> nx y) by set_solver.
  split_and!; [by unfold upd; rewrite decide_True| |].
  { unfold upd. rewrite decide_False, decide_True by done. done. }
  apply NoDup_cons in Hd as [Hyl Hd].
  destruct l as [|c l]; simpl in *.
  - destruct Hp as [Hy _]. unfold upd. rewrite Hy.
    rewrite decide_False, !decide_True by done. done.
  - destruct Hp as (-> & Hc & Hp). apply NoDup_cons in Hd as [Hcl Hd].
    split_and!; [unfold upd; by rewrite decide_False, decide_True by done|
                 unfold upd; by rewrite decide_True|].
    apply (path_ext nx pv); [| |done]; intros j Hj; unfold upd; rewrite !decide_False; set_solver.
Qed.

(** ** The cache's state *)

Section Invariant.
Context {D : Type} `{DD : DiskDriver D}.
Implicit Types s : bcache D.

Definition nxt s (i : Z) : Z := next (getb s i).
Definition prv s (i : Z) : Z := prev (getb s i).
Definition ring s (l : list Z) : Prop := path (nxt s) (prv s) head l head.
Definition slot (i : Z) : Prop := 0 <= i <= NBUF.
Definition sized s : Prop := length (bbuf s) = 31%nat.

Lemma sized_updb i f s : sized s -> sized (updb i f s).
Proof using Type. unfold sized, updb. simpl. by rewrite length_alter. Qed.

Lemma getb_updb i f s j :
  sized s -> slot i -> slot j -> getb (updb i f s) j = if decide (j = i) then f (getb s j) else getb s j.
Proof using Type.
  unfold sized, slot, getb, updb. change NBUF with 30. intros Hs Hi Hj. simpl. case_decide.
  - subst. rewrite list_lookup_total_alter, decide_True; [done|lia].
  - rewrite list_lookup_total_alter, decide_False; [done|lia].
Qed.

(** Two states that differ in the links only. *)
Definition strip (b : buf) : buf := set_prev 0 (set_next 0 b).
Definition same_but_links s s' : Prop :=
  dsk s' = dsk s /\ curpid s' = curpid s /\ (sized s -> sized s') /\
  (sized s -> forall i, slot i -> strip (getb s' i) = strip (getb s i)).

Lemma same_but_links_trans s1 s2 s3 :
  same_but_links s1 s2 -> same_but_links s2 s3 -> same_but_links s1 s3.
Proof using Type.
  intros (? & ? & ? & Ha) (? & ? & ? & Hb). split_and!; [congruence..|auto|].
  intros. rewrite Hb, Ha by auto. done.
Qed.

Lemma same_but_links_updb i f s :
  slot i -> (forall b, strip (f b) = strip b) -> same_but_links s (updb i f s).
Proof using Type.
  intros Hi Hf. split_and!; [done..|apply sized_updb|].
  intros Hs j Hj. rewrite getb_updb by done. case_decide; [by rewrite Hf|done].
Qed.

(** The links after the four kinds of write. *)
Lemma nxt_set_next i v s j : sized s -> slot i -> slot j -> nxt (updb i (set_next v) s) j = upd (nxt s) i v j.
Proof using Type. intros. unfold nxt, upd. rewrite getb_updb by done. by case_decide. Qed.
Lemma nxt_set_prev i v s j : sized s -> slot i -> slot j -> nxt (updb i (set_prev v) s) j = nxt s j.
Proof using Type. intros. unfold nxt. rewrite getb_updb by done. by case_decide. Qed.
Lemma prv_set_prev i v s j : sized s -> slot i -> slot j -> prv (updb i (set_prev v) s) j = upd (prv s) i v j.
Proof using Type. intros. unfold prv, upd. rewrite getb_updb by done. by case_decide. Qed.
Lemma prv_set_next i v s j : sized s -> slot i -> slot j -> prv (updb i (set_next v) s) j = prv s j.
Proof using Type. intros. unfold prv. rewrite getb_updb by done. by case_decide. Qed.

Lemma slot_head : slot head.
Proof using Type. unfold slot, head. by change NBUF with 30. Qed.

Lemma ring_updb i f s l :
  sized s -> slot i -> Forall slot l -> (forall b, next (f b) = next b /\ prev (f b) = prev b) ->
  ring s l -> ring (updb i f s) l.
Proof using Type.
  intros Hs Hi Hl Hf. rewrite Forall_forall in Hl. pose proof slot_head.
  apply path_ext; intros j Hj; unfold nxt, prv; rewrite getb_updb; try done; try (case_decide; [apply Hf|done]).
  all: set_solver.
Qed.

Lemma ring_next_slot s l : Forall slot l -> ring s l -> slot (nxt s head).
Proof using Type.
  intros Hl. destruct l as [|a l]; intros [-> _]; [apply slot_head|by inversion Hl].
Qed.

Lemma unlink_ok b s l1 l2 :
  sized s -> Forall slot (l1 ++ b :: l2) -> NoDup (head :: l1 ++ b :: l2) ->
  ring s (l1 ++ b :: l2) ->
  exists s', unlink b s = Ok (tt, s') /\ same_but_links s s' /\ ring s' (l1 ++ l2).
Proof using Type.
  intros Hs Hl Hd Hr. pose proof slot_head. pose proof (path_succ _ _ _ _ _ _ _ Hr) as Hsb.
  pose proof (path_pred _ _ _ _ _ _ _ Hr) as Hpb. rewrite Forall_forall in Hl.
  assert (Hsl : forall j, j ∈ head :: l1 ++ b :: l2 -> slot j) by set_solver.
  assert (Hb : slot b) by (apply Hsl; set_solver).
  assert (Hnb : slot (nxt s b)) by (apply Hsl; clear -Hsb; set_solver).
  assert (Hpb' : slot (prv s b)) by (apply Hsl; clear -Hpb; set_solver).
  assert (Hne : b <> nxt s b).
  { apply NoDup_cons in Hd as [? Hd]. apply NoDup_app in Hd as (_ & ? & Hd).
    apply NoDup_cons in Hd as [? _]. intros E. rewrite <- E in Hsb.
    apply elem_of_app in Hsb as [?|Hsb%list_elem_of_singleton]; [done|].
    clear Hl Hsl. set_solver. }
  unfold unlink. ksimpl. fold (nxt s b) (prv s b).
  set (s1 := updb _ _ s). assert (Hs1 : sized s1) by by apply sized_updb.
  assert (Hn1 : next (getb s1 b) = nxt s b) by by apply (nxt_set_prev (nxt s b)).
  assert (Hp1 : prev (getb s1 b) = prv s b).
  { fold (prv s1 b). unfold s1. rewrite prv_set_prev by done. unfold upd. by rewrite decide_False. }
  rewrite Hn1, Hp1. eexists. split; [reflexivity|]. split.
  { eapply same_but_links_trans; apply same_but_links_updb; done. }
  eapply path_ext; [| |apply (path_unlink _ _ _ _ _ _ _ Hr Hd); apply NoDup_cons in Hd; tauto].
  - intros j Hj. assert (slot j) by set_solver. rewrite nxt_set_next by done.
    unfold upd, s1. by rewrite nxt_set_prev.
  - intros j Hj. assert (slot j) by set_solver. rewrite prv_set_next by done.
    unfold s1. by rewrite prv_set_prev.
Qed.

Lemma push_front_ok b s l :
  sized s -> slot b -> Forall slot l -> NoDup (head :: l) -> b ∉ head :: l -> ring s l ->
  exists s', push_front b s = Ok (tt, s') /\ same_but_links s s' /\ ring s' (b :: l).
Proof using Type.
  intros Hs Hb Hl Hd Hbl Hr. pose proof slot_head. pose proof (ring_next_slot s l Hl Hr) as Hn.
  rewrite Forall_forall in Hl. unfold push_front. ksimpl. fold (nxt s head).
  set (s1 := updb b _ s). assert (Hs1 : sized s1) by by apply sized_updb.
  set (s2 := updb b _ s1). assert (Hs2 : sized s2) by by apply sized_updb.
  assert (Hn2 : next (getb s2 head) = nxt s head).
  { fold (nxt s2 head). unfold s2, s1. rewrite nxt_set_prev, nxt_set_next by done.
    unfold upd. rewrite decide_False; [done|set_solver]. }
  rewrite Hn2. set (s3 := updb _ _ s2). assert (Hs3 : sized s3) by by apply sized_updb.
  eexists. split; [reflexivity|]. split.
  { repeat (eapply same_but_links_trans; [|apply same_but_links_updb; done]). done. }
  eapply path_ext; [| |apply (path_insert _ _ b _ _ Hr Hd Hbl)].
  - intros j Hj. assert (slot j) by set_solver.
    rewrite nxt_set_next by done. unfold upd at 1 2. case_decide; [done|].
    unfold s3, s2, s1. by rewrite !nxt_set_prev, nxt_set_next.
  - intros j Hj. assert (slot j) by set_solver. rewrite prv_set_next by done.
    unfold s3. rewrite prv_set_prev by done. unfold upd at 1 2. case_decide; [done|].
    unfold s2. rewrite prv_set_prev by done. unfold upd. case_decide; [done|].
    unfold s1. by rewrite prv_set_next.
Qed.
End Invariant.

(** ** What the cache promises the file system

    [bc_inv b held] is the invariant of a cache in which the running process holds
    the buffers [held], pairs of a buffer and its block number.  [bc_block] is the
    disk's contents, of [bc_size] blocks.  A clean buffer may be released, and a block it does not hold
    may be read as long as a buffer is left. *)

Class BufCache (B : Type) : Type := {
  bc_bread : Z -> Z -> K B Z;
  bc_bwrite : Z -> K B unit;
  bc_brelse : Z -> K B unit;
  bc_data : B -> Z -> list Z;
  bc_set_data : Z -> list Z -> K B unit;
}.

Class BufCacheLaws (B : Type) `{BufCache B} : Type := {
  bc_inv : B -> list (Z * Z) -> Prop;
  bc_block : B -> Z -> list Z;
  bc_size : Z;
  bc_size_max : bc_size <= 2 ^ 31;
  bc_block_ok b h n : bc_inv b h -> block_ok (bc_block b n);
  bc_data_ok b h p n : bc_inv b h -> (p, n) ∈ h -> block_ok (bc_data b p);
  bc_held_inj b h p q n : bc_inv b h -> (p, n) ∈ h -> (q, n) ∈ h -> p = q;
  bc_held_fun b h p n m : bc_inv b h -> (p, n) ∈ h -> (p, m) ∈ h -> n = m;
  bc_bread_ok b h n : bc_inv b h -> zlen h < NBUF -> 0 <= n < bc_size -> n ∉ h.*2 ->
    exists p b', bc_bread ROOTDEV n b = Ok (p, b') /\ bc_inv b' ((p, n) :: h) /\
      (p ∉ h.*1) /\ bc_data b' p = bc_block b n /\
      (forall q, q ∈ h.*1 -> bc_data b' q = bc_data b q) /\ (forall m, bc_block b' m = bc_block b m);
  bc_set_ok b h p n l : bc_inv b h -> (p, n) ∈ h -> block_ok l ->
    exists b', bc_set_data p l b = Ok (tt, b') /\ bc_inv b' h /\ bc_data b' p = l /\
      (forall q, q ∈ h.*1 -> q <> p -> bc_data b' q = bc_data b q) /\ (forall m, bc_block b' m = bc_block b m);
  bc_bwrite_ok b h p n : bc_inv b h -> (p, n) ∈ h ->
    exists b', bc_bwrite p b = Ok (tt, b') /\ bc_inv b' h /\
      (forall q, q ∈ h.*1 -> bc_data b' q = bc_data b q) /\
      (forall m, bc_block b' m = if decide (m = n) then bc_data b p else bc_block b m);
  bc_brelse_ok b h h' p n : bc_inv b h -> h ≡ₚ (p, n) :: h' -> bc_data b p = bc_block b n ->
    exists b', bc_brelse p b = Ok (tt, b') /\ bc_inv b' h' /\
      (forall q, q ∈ h'.*1 -> bc_data b' q = bc_data b q) /\ (forall m, bc_block b' m = bc_block b m);
}.

Section Implements.
Context {D : Type} `{DD : DiskDriver D, DL : !DiskDriverLaws D}.
Implicit Types s : bcache D.

#[export] Instance bio : BufCache (bcache D) := {
  bc_bread := bread;
  bc_bwrite := bwrite;
  bc_brelse := brelse;
  bc_data s p := b_data (getb s p);
  bc_set_data p l := modify (updb p (set_data l));
}.

Definition held_buf (pid n : Z) (b : buf) : Prop :=
  0 <= n < dd_size /\ b_dev b = ROOTDEV /\ blockno b = n /\ valid b = 1 /\ refcnt b = 1 /\
  b_lock b = mk_sleeplock 1 pid /\ block_ok (b_data b).
Definition free_buf (d : D) (b : buf) : Prop :=
  refcnt b = 0 /\ locked (b_lock b) = 0 /\
  (valid b <> 0 -> valid b = 1 /\ b_dev b = ROOTDEV /\ b_data b = dd_block d (blockno b)).
Definition bufp (p : Z) : Prop := 0 <= p < NBUF.

Definition lru s (l : list Z) : Prop := l ≡ₚ seqZ 0 NBUF /\ ring s l.

Record binv s (h : list (Z * Z)) : Prop := {
  bi_disk : dd_inv (dsk s);
  bi_sized : sized s;
  bi_lru : exists l, lru s l;
  bi_nodup : NoDup h.*1;
  bi_held : forall p n, (p, n) ∈ h -> bufp p /\ held_buf (curpid s) n (getb s p);
  bi_free : forall p, bufp p -> p ∉ h.*1 -> free_buf (dsk s) (getb s p);
  bi_uniq : forall p q, bufp p -> bufp q ->
    b_dev (getb s p) = ROOTDEV -> b_dev (getb s q) = ROOTDEV ->
    blockno (getb s p) = blockno (getb s q) -> p = q;
}.

Lemma lru_elem s l p : lru s l -> p ∈ l <-> bufp p.
Proof using Type. intros [Hp _]. rewrite Hp, elem_of_seqZ. unfold bufp. lia. Qed.
Lemma bufp_slot p : bufp p -> slot p.
Proof using Type. unfold bufp, slot. lia. Qed.
Lemma lru_slots s l : lru s l -> Forall slot l.
Proof using Type. intros H. apply Forall_forall. intros p. rewrite (lru_elem s) by done. apply bufp_slot. Qed.
Lemma lru_nodup s l : lru s l -> NoDup (head :: l).
Proof using Type.
  intros H. apply NoDup_cons. rewrite (lru_elem s) by done. unfold bufp, head. split; [lia|].
  destruct H as [H _]. rewrite H. apply NoDup_seqZ.
Qed.
Lemma lru_length s l : lru s l -> length l = 30%nat.
Proof using Type. intros [H _]. by rewrite H, length_seqZ. Qed.

(** The forward scan returns a buffer that matches, or there is none. *)
Lemma find_cached_ok s dev bno l x fuel :
  path (nxt s) (prv s) x l head -> head ∉ l -> (length l < fuel)%nat ->
  exists r, find_cached fuel s dev bno (nxt s x) = Ok r /\
    match r with
    | Some b => b ∈ l /\ b_dev (getb s b) = dev /\ blockno (getb s b) = bno
    | None => forall b, b ∈ l -> ~ (b_dev (getb s b) = dev /\ blockno (getb s b) = bno)
    end.
Proof using Type.
  revert x fuel. induction l as [|a l IH]; simpl; intros x fuel Hp Hh Hf; (destruct fuel as [|fuel]; [lia|]).
  - destruct Hp as [-> _]. exists None. split; [done|]. set_solver.
  - destruct Hp as (-> & _ & Hp). simpl. rewrite (proj2 (Z.eqb_neq _ _)) by set_solver.
    destruct ((b_dev (getb s a) =? dev) && (blockno (getb s a) =? bno)) eqn:E.
    + exists (Some a). zbool. split_and!; [done|set_solver|done..].
    + destruct (IH a fuel Hp) as ([b|] & He & Hr); [set_solver|lia|..].
      * exists (Some b). split; [done|]. set_solver.
      * exists None. split; [done|]. intros b [->|Hb]%elem_of_cons; [|by apply Hr].
        intros [??]. zbool. lia.
Qed.

(** The backward scan returns the least recently used of the unused buffers. *)
Lemma find_unused_ok s l y fuel :
  path (nxt s) (prv s) head l y -> head ∉ l -> (length l < fuel)%nat ->
  exists r, find_unused fuel s (prv s y) = Ok r /\
    match r with
    | Some b => exists l1 l2, l = l1 ++ b :: l2 /\ refcnt (getb s b) = 0 /\
                  Forall (fun q => refcnt (getb s q) <> 0) l2
    | None => Forall (fun q => refcnt (getb s q) <> 0) l
    end.
Proof using Type.
  revert y fuel. induction l as [|a l IH] using rev_ind; intros y fuel Hp Hh Hf;
    (destruct fuel as [|fuel]; [lia|]).
  - destruct Hp as [_ ->]. by exists None.
  - rewrite length_app in Hf. simpl in Hf.
    assert (Ha : prv s y = a /\ path (nxt s) (prv s) head l a).
    { clear -Hp. revert Hp. generalize head. induction l as [|c l IH]; simpl; [tauto|].
      intros x (? & ? & H). apply IH in H. tauto. }
    destruct Ha as [-> Hp']. simpl. rewrite (proj2 (Z.eqb_neq _ _)) by set_solver.
    destruct (refcnt (getb s a) =? 0) eqn:E; zbool.
    + exists (Some a). split; [done|]. exists l, []. by split_and!.
    + destruct (IH a fuel Hp') as ([b|] & He & Hr); [set_solver|lia|..].
      * destruct Hr as (l1 & l2 & -> & ? & ?). exists (Some b). split; [done|].
        exists l1, (l2 ++ [a]). rewrite <- app_assoc. split_and!; [done..|]. apply Forall_app; split; [done|].
        by constructor.
      * exists None. split; [done|]. apply Forall_app; split; [done|by constructor].
Qed.

Lemma updb_compose i f g s : updb i g (updb i f s) = updb i (g ∘ f) s.
Proof using Type. unfold updb. simpl. by rewrite list_alter_twice. Qed.

Lemma getb_updb_eq b f s : sized s -> bufp b -> getb (updb b f s) b = f (getb s b).
Proof using Type. intros Hs Hb%bufp_slot. rewrite getb_updb by done. by rewrite decide_True. Qed.
Lemma getb_updb_ne b f s q : sized s -> bufp b -> bufp q -> q <> b -> getb (updb b f s) q = getb s q.
Proof using Type. intros Hs Hb%bufp_slot Hq%bufp_slot Hne. rewrite getb_updb by done. by rewrite decide_False. Qed.

Definition keeps_links (f : buf -> buf) : Prop := forall b, next (f b) = next b /\ prev (f b) = prev b.

Lemma lru_updb b f s l : sized s -> bufp b -> keeps_links f -> lru s l -> lru (updb b f s) l.
Proof using Type.
  intros Hs Hb Hf Hl. split; [apply Hl|].
  apply ring_updb; [done|by apply bufp_slot|by eapply lru_slots|done|apply Hl].
Qed.

Lemma acquire_buf_ok b s :
  locked (b_lock (getb s b)) = 0 ->
  acquire_buf b s = Ok (tt, updb b (set_lock (mk_sleeplock 1 (curpid s))) s).
Proof using Type. intros Hl. unfold acquire_buf. ksimpl. by erewrite zoom_ok by by apply acquiresleep_free. Qed.

Lemma some_unused s h l :
  binv s h -> zlen h < NBUF -> lru s l -> ~ Forall (fun q => refcnt (getb s q) <> 0) l.
Proof using Type.
  intros Hi Hh Hl Hall. rewrite Forall_forall in Hall.
  assert (Hsub : l ⊆ h.*1).
  { intros p Hp. destruct (decide (p ∈ h.*1)) as [|Hn]; [done|]. exfalso.
    apply (Hall p Hp). refine (proj1 (bi_free _ _ Hi p _ Hn)). by apply (lru_elem s l). }
  apply NoDup_submseteq in Hsub; [|apply (lru_nodup s) in Hl; by apply NoDup_cons in Hl as [_ Hl]].
  apply submseteq_length in Hsub. rewrite length_fmap, (lru_length s l Hl) in Hsub.
  unfold zlen in Hh. change NBUF with 30 in Hh. lia.
Qed.

(** The buffer [bget] returns: not held before, locked and referenced once now,
    and of the block asked for. *)
Lemma bget_ok s h n :
  binv s h -> zlen h < NBUF -> n ∉ h.*2 ->
  exists b f, bget ROOTDEV n s = Ok (b, updb b f s) /\ bufp b /\ (b ∉ h.*1) /\ keeps_links f /\
    (let x := f (getb s b) in
     b_dev x = ROOTDEV /\ blockno x = n /\ refcnt x = 1 /\ b_lock x = mk_sleeplock 1 (curpid s) /\
     (valid x <> 0 -> valid x = 1 /\ b_data x = dd_block (dsk s) n)) /\
    (forall q, bufp q -> q <> b -> b_dev (getb s q) = ROOTDEV -> blockno (getb s q) <> n).
Proof using Type.
  intros Hi Hh Hn. destruct (bi_lru _ _ Hi) as [l Hl]. pose proof (bi_sized _ _ Hi) as Hs.
  pose proof (lru_nodup _ _ Hl) as Hd. apply NoDup_cons in Hd as [Hhd Hd].
  pose proof (lru_length _ _ Hl) as Hlen. destruct Hl as [Hperm Hr].
  assert (Hl : lru s l) by done.
  destruct (find_cached_ok s ROOTDEV n l head list_fuel Hr Hhd) as (r & Hf & Hspec);
    [rewrite Hlen; unfold list_fuel; lia|].
  unfold bget. rewrite (bind_ok _ _ s r s); [|unfold lift; fold (nxt s head); by rewrite Hf].
  destruct r as [b|].
  - destruct Hspec as (Hb & Hdev & Hbno). apply (lru_elem s) in Hb; [|done].
    assert (Hfree : b ∉ h.*1).
    { intros ([p m] & -> & Hp)%list_elem_of_fmap. simpl in *.
      destruct (bi_held _ _ Hi p m Hp) as (_ & _ & _ & Hm & _). apply Hn.
      apply list_elem_of_fmap. exists (p, m). split; [simpl; congruence|done]. }
    destruct (bi_free _ _ Hi b Hb Hfree) as (Hrc & Hlk & Hdata).
    ksimpl. erewrite bind_ok by (apply acquire_buf_ok; rewrite getb_updb_eq by done; exact Hlk).
    rewrite updb_compose. eexists b, _. split; [reflexivity|]. split_and!; try done.
    + by simpl; rewrite Hrc.
    + simpl. rewrite <- Hbno. intros Hv. by destruct (Hdata Hv) as (? & _ & ?).
    + intros q Hq Hqb Hqd Hqn. apply Hqb, (bi_uniq _ _ Hi q b); congruence.
  - destruct (find_unused_ok s l head list_fuel Hr Hhd) as (r & Hu & Hspec2);
      [rewrite Hlen; unfold list_fuel; lia|].
    rewrite (bind_ok _ _ s r s); [|unfold lift; fold (prv s head); by rewrite Hu].
    destruct r as [b|]; [|by destruct (some_unused s h l Hi Hh Hl)].
    destruct Hspec2 as (l1 & l2 & Hl12 & Hrc & _).
    assert (Hb : bufp b) by (apply (lru_elem s l b Hl); rewrite Hl12; set_solver).
    assert (Hfree : b ∉ h.*1).
    { intros ([p m] & -> & Hp)%list_elem_of_fmap. simpl in *.
      destruct (bi_held _ _ Hi p m Hp) as (_ & _ & _ & _ & _ & Hr1 & _). lia. }
    destruct (bi_free _ _ Hi b Hb Hfree) as (_ & Hlk & _).
    ksimpl. erewrite bind_ok by (apply acquire_buf_ok; rewrite getb_updb_eq by done; exact Hlk).
    rewrite updb_compose. eexists b, _. split; [reflexivity|]. split_and!; try done.
    intros q Hq _ Hqd Hqn. apply (Hspec q); [by apply (lru_elem s)|done].
Qed.

Lemma binv_acquire s h b n f :
  binv s h -> bufp b -> b ∉ h.*1 -> keeps_links f -> held_buf (curpid s) n (f (getb s b)) ->
  (forall q, bufp q -> q <> b -> b_dev (getb s q) = ROOTDEV -> blockno (getb s q) <> n) ->
  binv (updb b f s) ((b, n) :: h).
Proof using Type.
  intros Hi Hb Hbh Hf Hheld Huniq. pose proof (bi_sized _ _ Hi) as Hs.
  assert (Hg : forall q, bufp q -> getb (updb b f s) q = if decide (q = b) then f (getb s q) else getb s q).
  { intros. apply getb_updb; [done|by apply bufp_slot..]. }
  split.
  - apply Hi.
  - by apply sized_updb.
  - destruct (bi_lru _ _ Hi) as [l Hl]. exists l. by apply lru_updb.
  - simpl. apply NoDup_cons. split; [done|apply Hi].
  - intros p m [[= -> ->]|Hp]%elem_of_cons; [rewrite Hg, decide_True by done; by split|].
    destruct (bi_held _ _ Hi p m Hp) as [Hbp ?]. rewrite Hg by done.
    rewrite decide_False; [done|]. intros ->. apply Hbh, list_elem_of_fmap. by exists (b, m).
  - simpl. intros p Hp Hpn. rewrite Hg by done. rewrite decide_False by set_solver.
    apply Hi; [done|set_solver].
  - intros p q Hp Hq. rewrite !Hg by done. destruct Hheld as (_ & Hd & Hn & _).
    repeat case_decide; subst; intros Hdp Hdq Heq; try done.
    + exfalso. apply (Huniq q); congruence.
    + exfalso. apply (Huniq p); congruence.
    + by apply (bi_uniq _ _ Hi).
Qed.

Lemma binv_set_dsk s h d :
  dd_inv d -> (forall m, dd_block d m = dd_block (dsk s) m) -> binv s h -> binv (set_dsk d s) h.
Proof using Type.
  intros Hd Hm Hi. destruct Hi as [? ? ? ? ? Hf ?]. split; try done.
  intros p Hp Hn. destruct (Hf p Hp Hn) as (? & ? & Hv). split_and!; [done..|].
  intros Hv1. destruct (Hv Hv1) as (? & ? & ?). rewrite Hm. done.
Qed.

(** The buffer returned holds the block; nothing else changes. *)
Lemma bread_ok s h n :
  binv s h -> zlen h < NBUF -> 0 <= n < dd_size -> n ∉ h.*2 ->
  exists p s', bread ROOTDEV n s = Ok (p, s') /\ binv s' ((p, n) :: h) /\
    (p ∉ h.*1) /\ b_data (getb s' p) = dd_block (dsk s) n /\
    (forall q, q ∈ h.*1 -> getb s' q = getb s q) /\
    (forall m, dd_block (dsk s') m = dd_block (dsk s) m).
Proof using Type.
  intros Hi Hh Hn0 Hn. pose proof (bi_sized _ _ Hi) as Hs.
  destruct (bget_ok s h n Hi Hh Hn) as (b & f & Hbg & Hb & Hbh & Hf & Hx & Hu).
  destruct Hx as (Hdev & Hbno & Hrc & Hlk & Hdat).
  assert (Hother : forall g q, q ∈ h.*1 -> getb (updb b g s) q = getb s q).
  { intros g q Hq. pose proof Hq as ([q' m] & -> & Hq')%list_elem_of_fmap.
    apply getb_updb_ne; [done..| |set_solver]. by apply (bi_held _ _ Hi) in Hq' as [? _]. }
  unfold bread. kstep Hbg. ksimpl. rewrite getb_updb_eq by done.
  destruct (valid (f (getb s b)) =? 0) eqn:Hv; zbool.
  - destruct (dd_read (dsk s) b n (b_data (f (getb s b))) (bi_disk _ _ Hi) Hn0) as (d & Hd & Hdi & Hdb).
    unfold disk_rw. set (s1 := updb b f s).
    assert (Hz : zoom dsk set_dsk (virtio_rw b false (blockno (getb s1 b)) (b_data (getb s1 b))) s1 =
                 Ok (dd_block (dsk s) n, set_dsk d s1)).
    { unfold s1. rewrite getb_updb_eq, Hbno by done. by apply zoom_ok. }
    unfold mbind at 1, K_bind at 1. ksimpl. kstep Hz. unfold modify at 1. cbn [res_bind fst snd]. ksimpl.
    eexists b, _. split; [reflexivity|].
    change (updb b (set_valid 1) (updb b (set_data (dd_block (dsk s) n)) (set_dsk d s1)))
      with (set_dsk d (updb b (set_valid 1) (updb b (set_data (dd_block (dsk s) n)) (updb b f s)))).
    rewrite !updb_compose. split_and!.
    + apply binv_set_dsk; [done..|]. apply binv_acquire; try done.
      split_and!; try done; try lia; apply dd_block_ok, Hi.
    + done.
    + change (getb (set_dsk d ?t) b) with (getb t b). by rewrite getb_updb_eq by done.
    + intros q Hq. by apply Hother.
    + done.
  - destruct (Hdat Hv) as [Hv1 Hd1]. eexists b, _. split; [reflexivity|]. split_and!.
    + apply binv_acquire; try done. split_and!; try done; try lia; rewrite Hd1; apply dd_block_ok, Hi.
    + done.
    + by rewrite getb_updb_eq by done.
    + intros q Hq. by apply Hother.
    + done.
Qed.

Lemma held_bufp s h p n : binv s h -> (p, n) ∈ h -> bufp p.
Proof using Type. intros Hi Hp. by apply (bi_held _ _ Hi) in Hp as [? _]. Qed.

Lemma held_inj s h p q n : binv s h -> (p, n) ∈ h -> (q, n) ∈ h -> p = q.
Proof using Type.
  intros Hi Hp Hq. apply (bi_held _ _ Hi) in Hp as (? & _ & ? & ? & _).
  apply (bi_held _ _ Hi) in Hq as (? & _ & ? & ? & _). apply (bi_uniq _ _ Hi); congruence.
Qed.

Lemma held_fun s h p n m : binv s h -> (p, n) ∈ h -> (p, m) ∈ h -> n = m.
Proof using Type.
  intros Hi Hp Hq. apply (bi_held _ _ Hi) in Hp as (? & _ & ? & ? & _).
  apply (bi_held _ _ Hi) in Hq as (? & _ & ? & ? & _). congruence.
Qed.

(** Changing the data of a held buffer keeps the invariant. *)
Lemma binv_set_data s h p n l :
  binv s h -> (p, n) ∈ h -> block_ok l -> binv (updb p (set_data l) s) h.
Proof using Type.
  intros Hi Hp Hl. pose proof (bi_sized _ _ Hi) as Hs. pose proof (held_bufp _ _ _ _ Hi Hp) as Hb.
  assert (Hg : forall q, bufp q ->
    getb (updb p (set_data l) s) q = if decide (q = p) then set_data l (getb s q) else getb s q).
  { intros. apply getb_updb; [done|by apply bufp_slot..]. }
  split; [apply Hi|by apply sized_updb| |apply Hi|..].
  - destruct (bi_lru _ _ Hi) as [k Hk]. exists k. by apply lru_updb.
  - intros q m Hq. destruct (bi_held _ _ Hi q m Hq) as [? Hh]. split; [done|]. rewrite Hg by done.
    case_decide; [|done]. unfold held_buf in *. simpl. tauto.
  - intros q Hq Hn. rewrite Hg by done. rewrite decide_False; [by apply Hi|].
    intros ->. apply Hn, list_elem_of_fmap. by exists (p, n).
  - intros q r Hq Hr. rewrite !Hg by done.
    repeat case_decide; subst; simpl; apply (bi_uniq _ _ Hi); done.
Qed.

Lemma bwrite_ok s h p n :
  binv s h -> (p, n) ∈ h ->
  exists s', bwrite p s = Ok (tt, s') /\ binv s' h /\
    (forall q, q ∈ h.*1 -> getb s' q = getb s q) /\
    (forall m, dd_block (dsk s') m = if decide (m = n) then b_data (getb s p) else dd_block (dsk s) m).
Proof using Type.
  intros Hi Hp. pose proof (bi_sized _ _ Hi) as Hs.
  destruct (bi_held _ _ Hi p n Hp) as (Hb & Hn & Hdev & Hbno & Hv & Hr & Hl & Hok).
  destruct (dd_write (dsk s) p n (b_data (getb s p)) (bi_disk _ _ Hi) Hn Hok) as (d & Hd & Hdi & Hdb).
  assert (Hid : updb p (set_data (b_data (getb s p))) (set_dsk d s) = set_dsk d s).
  { unfold updb, set_dsk. simpl. f_equal. apply list_eq. intros i. rewrite list_lookup_alter.
    unfold getb. case_decide; [subst|done]. destruct (bbuf s !! Z.to_nat p) as [[]|] eqn:E; simpl; [|done].
    by rewrite (list_lookup_total_correct _ _ _ E). }
  exists (set_dsk d s). split; [|split_and!].
  - unfold bwrite. ksimpl. rewrite Hl. unfold holdingsleep. simpl. rewrite Z.eqb_refl. simpl.
    unfold disk_rw. ksimpl. rewrite Hbno. erewrite bind_ok by by apply zoom_ok. unfold modify. by rewrite Hid.
  - split; try apply Hi; [done|]. intros q Hq Hqn.
    destruct (bi_free _ _ Hi q Hq Hqn) as (? & ? & Hvq). split_and!; [done..|].
    intros Hv1. destruct (Hvq Hv1) as (? & Hdq & Hdat). split_and!; [done..|].
    change (dsk (set_dsk d s)) with d. rewrite Hdb, decide_False; [done|]. intros E.
    apply Hqn, list_elem_of_fmap. exists (p, n). split; [|done].
    simpl. apply (bi_uniq _ _ Hi q p); [done..|].
    transitivity n; [exact E|done].
  - done.
  - done.
Qed.

Lemma binv_same_but_links s s' h :
  binv s h -> same_but_links s s' -> (exists l, lru s' l) -> binv s' h.
Proof using Type.
  intros Hi (Hd & Hc & Hsz & Hg) Hl. pose proof (bi_sized _ _ Hi) as Hs.
  assert (Hf : forall q, bufp q -> valid (getb s' q) = valid (getb s q) /\ b_dev (getb s' q) = b_dev (getb s q) /\
    blockno (getb s' q) = blockno (getb s q) /\ b_lock (getb s' q) = b_lock (getb s q) /\
    refcnt (getb s' q) = refcnt (getb s q) /\ b_data (getb s' q) = b_data (getb s q)).
  { intros q Hq%bufp_slot. specialize (Hg Hs q Hq). unfold strip in Hg.
    destruct (getb s' q), (getb s q). simpl in *. by simplify_eq. }
  split; [rewrite Hd; apply Hi|auto|done|apply Hi|..].
  - intros p n Hp. destruct (bi_held _ _ Hi p n Hp) as [Hb Hh]. split; [done|].
    unfold held_buf in *.
    destruct (Hf p Hb) as (-> & -> & -> & -> & -> & ->). by rewrite Hc.
  - intros p Hp Hn. pose proof (bi_free _ _ Hi p Hp Hn) as Hfr. unfold free_buf in *.
    destruct (Hf p Hp) as (-> & -> & -> & -> & -> & ->). by rewrite Hd.
  - intros p q Hp Hq. destruct (Hf p Hp) as (_ & -> & -> & _), (Hf q Hq) as (_ & -> & -> & _).
    by apply (bi_uniq _ _ Hi).
Qed.

(** Giving a clean buffer back: unlocked, unreferenced, still the copy of its block. *)
Lemma binv_give_back s h h' p n f :
  binv s h -> h ≡ₚ (p, n) :: h' -> b_data (getb s p) = dd_block (dsk s) n -> keeps_links f ->
  (forall b, valid (f b) = valid b /\ b_dev (f b) = b_dev b /\ blockno (f b) = blockno b /\
             b_data (f b) = b_data b) ->
  refcnt (f (getb s p)) = 0 -> locked (b_lock (f (getb s p))) = 0 ->
  binv (updb p f s) h'.
Proof using Type.
  intros Hi Hh Hclean Hf Hkeep Hr Hl. pose proof (bi_sized _ _ Hi) as Hs.
  assert (Hp : (p, n) ∈ h) by (rewrite Hh; set_solver).
  destruct (bi_held _ _ Hi p n Hp) as (Hb & Hn & Hdev & Hbno & Hv & _).
  pose proof (bi_nodup _ _ Hi) as Hnd. rewrite Hh in Hnd. simpl in Hnd. apply NoDup_cons in Hnd as [Hpn Hnd].
  assert (Hg : forall q, bufp q -> getb (updb p f s) q = if decide (q = p) then f (getb s q) else getb s q).
  { intros. apply getb_updb; [done|by apply bufp_slot..]. }
  split; [apply Hi|by apply sized_updb| |done|..].
  - destruct (bi_lru _ _ Hi) as [k Hk]. exists k. by apply lru_updb.
  - intros q m Hq. destruct (bi_held _ _ Hi q m) as [Hbq Hhq]; [rewrite Hh; set_solver|]. split; [done|].
    rewrite Hg by done. rewrite decide_False; [done|]. intros ->. apply Hpn, list_elem_of_fmap. by exists (p, m).
  - intros q Hq Hqn. rewrite Hg by done. case_decide as E; [subst q|].
    + destruct (Hkeep (getb s p)) as (Hk1 & Hk2 & Hk3 & Hk4). split_and!; [done..|].
      rewrite Hk1, Hk2, Hk3, Hk4, Hbno. done.
    + apply Hi; [done|]. rewrite Hh. simpl. set_solver.
  - intros q r Hq Hr'. rewrite !Hg by done. destruct (Hkeep (getb s p)) as (_ & Hk2 & Hk3 & _).
    repeat case_decide; subst; rewrite ?Hk2, ?Hk3; apply (bi_uniq _ _ Hi); done.
Qed.

(** The list after [brelse]: the buffer is the most recently used. *)
Lemma brelse_ok s h h' p n l :
  binv s h -> h ≡ₚ (p, n) :: h' -> b_data (getb s p) = dd_block (dsk s) n -> lru s l ->
  exists s', brelse p s = Ok (tt, s') /\ binv s' h' /\
    (forall q, q ∈ h'.*1 -> b_data (getb s' q) = b_data (getb s q)) /\
    (forall m, dd_block (dsk s') m = dd_block (dsk s) m) /\
    lru s' (p :: filter (fun q => q <> p) l).
Proof using Type.
  intros Hi Hh Hclean Hl. pose proof (bi_sized _ _ Hi) as Hs.
  assert (Hp : (p, n) ∈ h) by (rewrite Hh; set_solver).
  destruct (bi_held _ _ Hi p n Hp) as (Hb & Hn & Hdev & Hbno & Hv & Hr & Hlk & Hok).
  set (f := fun x => set_refcnt (uint (refcnt x - 1)) (set_lock (mk_sleeplock 0 0) x)).
  set (s1 := updb p f s).
  assert (Hi1 : binv s1 h').
  { apply (binv_give_back s h h' p n); try done. unfold f. simpl. by rewrite Hr. }
  assert (Hl1 : lru s1 l) by by apply lru_updb.
  assert (Hpl : p ∈ l) by by apply (lru_elem s1 l p).
  apply list_elem_of_split in Hpl as (l1 & l2 & ->).
  pose proof (lru_nodup _ _ Hl1) as Hd. pose proof (lru_slots _ _ Hl1) as Hsl.
  destruct (unlink_ok p s1 l1 l2 (bi_sized _ _ Hi1) Hsl Hd (proj2 Hl1)) as (s2 & Hu & Hsb2 & Hr2).
  apply NoDup_cons in Hd as [Hhd Hd]. apply NoDup_app in Hd as (Hd1 & Hd12 & Hd2).
  apply NoDup_cons in Hd2 as [Hpl2 Hd2]. apply Forall_app in Hsl as [Hsl1 Hsl2].
  apply Forall_cons in Hsl2 as [_ Hsl2].
  destruct (push_front_ok p s2 (l1 ++ l2)) as (s3 & Hpf & Hsb3 & Hr3); try done.
  { apply Hsb2, Hi1. } { by apply bufp_slot. } { by apply Forall_app. }
  { apply NoDup_cons. split; [set_solver|]. apply NoDup_app. split_and!; [done| |done]. set_solver. }
  { set_solver. }
  pose proof (same_but_links_trans _ _ _ Hsb2 Hsb3) as Hsb.
  assert (Hfil : filter (fun q => q <> p) (l1 ++ p :: l2) = l1 ++ l2).
  { rewrite filter_app, filter_cons_False, !list_filter_true by (auto || set_solver). done. }
  assert (Hl3 : lru s3 (p :: l1 ++ l2)).
  { split; [|done]. rewrite Permutation_middle. apply Hl1. }
  exists s3. split_and!.
  - unfold brelse. ksimpl. rewrite Hlk. unfold holdingsleep. simpl. rewrite Z.eqb_refl. simpl.
    erewrite bind_ok by reflexivity. ksimpl. rewrite updb_compose. fold s1.
    change (updb p (_ ∘ _) s) with s1.
    unfold s1 at 1. rewrite getb_updb_eq by done. unfold f. simpl. rewrite Hr. change (uint (1 - 1) =? 0) with true.
    cbv iota. by kstep Hu.
  - by apply (binv_same_but_links s1); [..|exists (p :: l1 ++ l2)].
  - intros q Hq. pose proof Hq as ([q' m] & -> & Hq')%list_elem_of_fmap.
    pose proof (held_bufp _ _ _ _ Hi1 Hq') as Hbq. simpl.
    destruct Hsb as (_ & _ & _ & Hsb).
    specialize (Hsb (bi_sized _ _ Hi1) q' (bufp_slot _ Hbq)). transitivity (b_data (getb s1 q')).
    + by apply (f_equal b_data) in Hsb.
    + unfold s1. rewrite getb_updb by (done || by apply bufp_slot). by case_decide.
  - intros m. by rewrite (proj1 Hsb).
  - by rewrite Hfil.
Qed.

#[export] Instance bio_laws : BufCacheLaws (bcache D).
Proof using DL.
  refine {| bc_inv := binv; bc_block := fun s => dd_block (dsk s); bc_size := dd_size |}.
  - apply dd_size_max.
  - intros s h n Hi. apply dd_block_ok, Hi.
  - intros s h p n Hi Hp. apply (bi_held _ _ Hi p n Hp).
  - apply held_inj.
  - apply held_fun.
  - intros s h n Hi Hh Hn Hnh. destruct (bread_ok s h n Hi Hh Hn Hnh) as (p & s' & ? & ? & ? & ? & Hq & ?).
    exists p, s'. split_and!; try done. intros q Hqh. simpl. by rewrite Hq.
  - intros s h p n l Hi Hp Hl. pose proof (bi_sized _ _ Hi) as Hs.
    pose proof (held_bufp _ _ _ _ Hi Hp) as Hb. eexists. split; [reflexivity|].
    split_and!; [by apply (binv_set_data s h p n)|simpl; by rewrite getb_updb_eq| |done].
    intros q ([q' m] & -> & Hq')%list_elem_of_fmap Hqp. simpl in *. rewrite getb_updb_ne; try done.
    by eapply held_bufp.
  - intros s h p n Hi Hp. destruct (bwrite_ok s h p n Hi Hp) as (s' & ? & ? & Hq & ?).
    exists s'. split_and!; try done. intros q Hqh. simpl. by rewrite Hq.
  - intros s h h' p n Hi Hh Hc. destruct (bi_lru _ _ Hi) as [l Hl].
    destruct (brelse_ok s h h' p n l Hi Hh Hc Hl) as (s' & ? & ? & ? & ? & _). by exists s'.
Defined.

(** The buffers as the loader leaves them: all zero. *)
Definition boot_bufs : list buf := replicate 31 inhabitant.

Lemma binit_ok (d : D) (pid : Z) :
  dd_inv d ->
  exists s', binit (mk_bcache d boot_bufs pid) = Ok (tt, s') /\ binv s' [] /\
    lru s' (reverse (seqZ 0 NBUF)).
Proof using Type.
  intros Hd. eexists. split; [vm_compute; reflexivity|].
  match goal with |- binv ?s _ /\ _ => set (s' := s) end.
  assert (Hall : forall p, bufp p -> valid (getb s' p) = 0 /\ refcnt (getb s' p) = 0 /\
    b_lock (getb s' p) = initsleeplock /\ b_dev (getb s' p) = 0).
  { intros p Hp. apply (elem_of_seqZ 0 NBUF) in Hp. revert p Hp. apply Forall_forall.
    vm_compute seqZ. repeat constructor. }
  assert (Hl : lru s' (reverse (seqZ 0 NBUF))).
  { split; [apply reverse_Permutation|]. vm_compute. repeat split. }
  split; [|done]. split; try done.
  - by eexists.
  - constructor.
  - intros p n Hp. by apply elem_of_nil in Hp.
  - intros p Hp _. destruct (Hall p Hp) as (Hv & Hr & Hk & _). split_and!; [done|by rewrite Hk|]. by rewrite Hv.
  - intros p q Hp Hq. destruct (Hall p Hp) as (_ & _ & _ & ->). done.
Qed.

(** [binit] builds the list of all the buffers, in the order 29, ..., 0, and
    establishes the cache's invariant with no buffer held. *)
Theorem binit_establishes (d : D) (pid : Z) :
  dd_inv d ->
  exists s', binit (mk_bcache d boot_bufs pid) = Ok (tt, s') /\ binv s' [] /\
    lru s' (reverse (seqZ 0 NBUF)).
Proof using Type. apply binit_ok. Qed.

(** C17: [bread] of a block of the disk that the process does not hold, with a buffer to spare,
    returns a buffer locked for the process that holds the block's contents;
    held buffers, the disk and the invariant are kept. *)
Theorem bread_returns_block (s : bcache D) (h : list (Z * Z)) (n : Z) :
  binv s h -> zlen h < NBUF -> 0 <= n < dd_size -> n ∉ h.*2 ->
  exists p s', bread ROOTDEV n s = Ok (p, s') /\ binv s' ((p, n) :: h) /\
    b_data (getb s' p) = dd_block (dsk s) n /\
    (forall q, q ∈ h.*1 -> getb s' q = getb s q) /\
    (forall m, dd_block (dsk s') m = dd_block (dsk s) m).
Proof using Type.
  intros Hi Hh Hn Hnh. destruct (bread_ok s h n Hi Hh Hn Hnh) as (p & s' & ? & ? & _ & ? & ? & ?).
  by exists p, s'.
Qed.

(** A process that holds nothing else overwrites a whole block. *)
Definition overwrite (n : Z) (l : list Z) : K (bcache D) unit :=
  b ← bread ROOTDEV n; modify (updb b (set_data l));; bwrite b;; brelse b.

(** C18: bread, change, [bwrite], [brelse]: afterwards a [bread] of the block returns the
    new contents and a [bread] of any other block of the disk what it returned before. *)
Theorem bwrite_then_bread (s : bcache D) (n : Z) (l : list Z) :
  binv s [] -> 0 <= n < dd_size -> block_ok l ->
  exists s', overwrite n l s = Ok (tt, s') /\ binv s' [] /\
    forall m, 0 <= m < dd_size ->
      exists p s'', bread ROOTDEV m s' = Ok (p, s'') /\
        b_data (getb s'' p) = if decide (m = n) then l else dd_block (dsk s) m.
Proof using Type.
  intros Hi Hn Hl.
  destruct (bread_ok s [] n Hi) as (p & s1 & He1 & Hi1 & _ & _ & _ & Hb1); [done..|by apply not_elem_of_nil|].
  assert (Hp : (p, n) ∈ [(p, n)]) by by apply list_elem_of_singleton.
  pose proof (binv_set_data s1 [(p, n)] p n l Hi1 Hp Hl) as Hi2.
  destruct (bwrite_ok _ _ p n Hi2 Hp) as (s3 & He3 & Hi3 & Hq3 & Hb3).
  rewrite getb_updb_eq in Hb3 by (apply Hi1 || by eapply held_bufp). simpl in Hb3.
  destruct (bi_lru _ _ Hi3) as [k Hk].
  destruct (brelse_ok s3 _ [] p n k Hi3 ltac:(done)) as (s4 & He4 & Hi4 & _ & Hb4 & _); [|done|].
  { rewrite Hb3, decide_True by done. rewrite Hq3 by set_solver.
    by rewrite getb_updb_eq by (apply Hi1 || by eapply held_bufp). }
  exists s4. split; [|split; [done|]].
  { unfold overwrite. kstep He1. ksimpl. by kstep He3. }
  intros m Hm. destruct (bread_ok s4 [] m Hi4) as (q & s5 & ? & _ & _ & Hd & _);
    [done..|by apply not_elem_of_nil|].
  exists q, s5. split; [done|]. by rewrite Hd, Hb4, Hb3, Hb1.
Qed.

(** When the block is not cached, [bget] takes the least recently used of the
    buffers nobody references: every buffer behind it in the list is in use. *)
Theorem bget_recycles_lru (s : bcache D) (h : list (Z * Z)) (l : list Z) (n : Z) :
  binv s h -> zlen h < NBUF -> lru s l ->
  (forall p, bufp p -> b_dev (getb s p) = ROOTDEV -> blockno (getb s p) <> n) ->
  exists b s' l1 l2, bget ROOTDEV n s = Ok (b, s') /\ l = l1 ++ b :: l2 /\
    refcnt (getb s b) = 0 /\ Forall (fun q => refcnt (getb s q) <> 0) l2 /\
    valid (getb s' b) = 0 /\ lru s' l.
Proof using Type.
  intros Hi Hh Hl Hmiss. pose proof (bi_sized _ _ Hi) as Hs.
  pose proof (lru_nodup _ _ Hl) as Hd. apply NoDup_cons in Hd as [Hhd Hd].
  pose proof (lru_length _ _ Hl) as Hlen.
  destruct (find_cached_ok s ROOTDEV n l head list_fuel (proj2 Hl) Hhd) as (r & Hf & Hspec);
    [rewrite Hlen; unfold list_fuel; lia|].
  destruct r as [b|].
  { destruct Hspec as (Hb & Hdev & Hbn). apply (lru_elem s) in Hb; [|done]. by destruct (Hmiss b Hb Hdev). }
  destruct (find_unused_ok s l head list_fuel (proj2 Hl) Hhd) as (r & Hu & Hspec2);
    [rewrite Hlen; unfold list_fuel; lia|].
  destruct r as [b|]; [|by destruct (some_unused s h l Hi Hh Hl)].
  destruct Hspec2 as (l1 & l2 & Hl12 & Hrc & Hl2).
  assert (Hb : bufp b) by (apply (lru_elem s l b Hl); rewrite Hl12; set_solver).
  assert (Hlk : locked (b_lock (getb s b)) = 0).
  { destruct (decide (b ∈ h.*1)) as [Hbh|Hbh]; [|by apply (bi_free _ _ Hi b Hb Hbh)].
    apply list_elem_of_fmap in Hbh as ([p m] & -> & Hp).
    destruct (bi_held _ _ Hi p m Hp) as (_ & _ & _ & _ & _ & Hr1 & _). simpl in *. lia. }
  assert (Hg : bget ROOTDEV n s = Ok (b, updb b (set_lock (mk_sleeplock 1 (curpid s))) (updb b (recycle ROOTDEV n) s))).
  { unfold bget. rewrite (bind_ok _ _ s None s); [|unfold lift; fold (nxt s head); by rewrite Hf].
    rewrite (bind_ok _ _ s (Some b) s); [|unfold lift; fold (prv s head); by rewrite Hu]. ksimpl.
    by erewrite bind_ok by (apply acquire_buf_ok; rewrite getb_updb_eq by done; exact Hlk). }
  eexists b, _, l1, l2. split; [exact Hg|]. rewrite updb_compose.
  split_and!; [done..|by rewrite getb_updb_eq|by apply lru_updb].
Qed.
End Implements.

(** ** Witnesses: the cache over the driver of [Virtio] and a device that serves it *)

Section Witnesses.
#[local] Instance spec_driver : DiskDriver disk := virtio_driver spec_device.
#[local] Instance spec_driver_laws : DiskDriverLaws disk := virtio_driver_laws (2 * FSSIZE) spec_device.

Definition booted : bcache disk :=
  match binit (mk_bcache disk0 boot_bufs 1) with Ok (_, s) => s | _ => mk_bcache disk0 [] 0 end.

Lemma disk0_inv : dd_inv disk0.
Proof. split; [by split|]. intros n l. change (sectors disk0) with (∅ : gmap Z (list Z)). by rewrite lookup_empty. Qed.

Lemma booted_inv : binv booted [] /\ lru booted (reverse (seqZ 0 NBUF)).
Proof.
  destruct (binit_ok disk0 1 disk0_inv) as (s' & He & Hi). unfold booted. rewrite He. exact Hi.
Qed.

Lemma binit_establishes_witness :
  exists s', binit (mk_bcache disk0 boot_bufs 1) = Ok (tt, s') /\ binv s' [].
Proof. destruct (binit_establishes disk0 1 disk0_inv) as (s' & He & Hi & _). exists s'. exact (conj He Hi). Defined.

Lemma bread_returns_block_witness :
  exists p s', bread ROOTDEV 1 booted = Ok (p, s') /\ b_data (getb s' p) = dd_block (dsk booted) 1.
Proof.
  destruct (bread_returns_block booted [] 1 (proj1 booted_inv)) as (p & s' & He & _ & Hd & _);
    [reflexivity|split; [lia|reflexivity]|by apply not_elem_of_nil|]. exists p, s'. exact (conj He Hd).
Defined.

Lemma bwrite_then_bread_witness :
  exists s', overwrite 5 (replicate 1024 7) booted = Ok (tt, s') /\
    exists p s'', bread ROOTDEV 5 s' = Ok (p, s'') /\ b_data (getb s'' p) = replicate 1024 7.
Proof.
  destruct (bwrite_then_bread booted 5 (replicate 1024 7) (proj1 booted_inv)) as (s' & He & _ & Hr);
    [split; [lia|reflexivity]|split; [reflexivity|by apply bytes_ok_replicate]|].
  exists s'. split; [exact He|]. destruct (Hr 5) as (p & s'' & He' & Hd); [split; [lia|reflexivity]|]. exists p, s''.
  rewrite decide_True in Hd by reflexivity. exact (conj He' Hd).
Defined.

Lemma bget_recycles_lru_witness : exists s', bget ROOTDEV 9 booted = Ok (0, s') /\ valid (getb s' 0) = 0.
Proof.
  destruct (bget_recycles_lru booted [] (reverse (seqZ 0 NBUF)) 9 (proj1 booted_inv))
    as (b & s' & l1 & l2 & He & _ & _ & _ & Hv & _); [reflexivity|apply booted_inv| |].
  - intros p Hp. apply (elem_of_seqZ 0 NBUF) in Hp. revert p Hp.
    apply (Forall_forall (fun p => b_dev (getb booted p) = ROOTDEV -> blockno (getb booted p) <> 9)).
    vm_compute seqZ. repeat (constructor; [vm_compute; discriminate|]). constructor.
  - assert (b = 0) as ->; [|exists s'; exact (conj He Hv)].
    assert (He0 : fst <$> (match bget ROOTDEV 9 booted with Ok p => Some p | _ => None end) = Some 0)
      by (vm_compute; reflexivity).
    rewrite He in He0. by injection He0.
Defined.
End Witnesses.
