(* ===== verification/Kmem.v ===== *)
(** * What the memory subsystem promises the file system

    The file system sees memory through [kalloc] and [kfree]
    ([src/kernel/kalloc.c]) and through [either_copyout] and [either_copyin]
    ([src/kernel/proc.c]), which reach a user address when their flag is set and
    a kernel address otherwise.  [Vm] implements this interface. *)

From stdpp Require Import base numbers list gmap strings.
From Stdlib Require Import ZArith Lia.
From S2P Require Import Prelude.

(** [km_in] returns the C result and the bytes that reached the destination before
    it returned: all of them when the result is 0, a prefix when it is -1; [km_str] is
    [copyinstr] from the running process, likewise.
    [km_scratch] is the stack address of the callers' local [struct xv6fs_dentry de]. *)
Class KMem (M : Type) : Type := {
  km_kalloc : K M Z;
  km_kfree : Z -> K M unit;
  km_out : bool -> Z -> list Z -> K M Z;
  km_in : bool -> Z -> Z -> K M (Z * list Z);
  km_str : Z -> Z -> K M (Z * list Z);
  km_read : M -> bool -> Z -> Z -> list Z;
  km_scratch : Z;
}.

(** A single byte of user memory can be moved at any address: the copy succeeds or fails, and a
    failed copy changes nothing.  [km_ok m user a n]: the [n] bytes at [a] can be read and written; [km_live m p]:
    the page [p] is allocated; [km_avail m n]: at least [n] pages are free. *)
Class KMemLaws (M : Type) `{KMem M} : Type := {
  km_inv : M -> Prop;
  km_ok : M -> bool -> Z -> Z -> Prop;
  km_live : M -> Z -> Prop;
  km_avail : M -> nat -> Prop;
  km_read_len m user a n : 0 <= n -> zlen (km_read m user a n) = n;
  km_read_ok m user a n : km_inv m -> km_ok m user a n -> bytes_ok (km_read m user a n);
  km_scratch_range : 0 <= km_scratch < 2 ^ 63;
  km_scratch_ok m : km_inv m -> km_ok m false km_scratch 16;
  km_out_ok m user a n k l :
    km_inv m -> km_ok m user a n -> 0 <= k -> k + zlen l <= n -> bytes_ok l ->
    exists m', km_out user (a + k) l m = Ok (0, m') /\ km_inv m' /\
      km_read m' user a n = splice (km_read m user a n) k l /\
      (forall u b j, km_ok m u b j -> km_ok m' u b j) /\ (forall p, km_live m' p <-> km_live m p) /\
      (forall n, km_avail m n -> km_avail m' n);
  km_in_ok m user a n k len :
    km_inv m -> km_ok m user a n -> 0 <= k -> 0 <= len -> k + len <= n ->
    km_in user (a + k) len m = Ok ((0, sub (km_read m user a n) k len), m);
  km_kalloc_ok m : km_inv m ->
    exists p m', km_kalloc m = Ok (p, m') /\ km_inv m' /\
      (forall u b j, km_ok m u b j -> km_ok m' u b j /\ km_read m' u b j = km_read m u b j) /\
      (p <> 0 -> ~ km_live m p /\ forall q, km_live m' q <-> q = p \/ km_live m q) /\
      (p = 0 -> m' = m) /\
      (forall n, km_avail m (S n) -> p <> 0 /\ km_avail m' n);
  km_avail_le m n : km_avail m (S n) -> km_avail m n;
  km_kfree_ok m p : km_inv m -> km_live m p ->
    exists m', km_kfree p m = Ok (tt, m') /\ km_inv m' /\
      (forall u b j, km_ok m u b j -> km_ok m' u b j /\ km_read m' u b j = km_read m u b j) /\
      (forall q, km_live m' q <-> q <> p /\ km_live m q) /\
      (forall n, km_avail m n -> km_avail m' (S n));
  km_in_byte m a : km_inv m -> 0 <= a < 2 ^ 64 ->
    km_in true a 1 m = Ok ((0, km_read m true a 1), m) /\ bytes_ok (km_read m true a 1) \/
    exists l, km_in true a 1 m = Ok ((-1, l), m);
  km_out_byte m a c : km_inv m -> 0 <= a < 2 ^ 64 -> byte_ok c ->
    km_out true a [c] m = Ok (-1, m) \/
    exists m', km_out true a [c] m = Ok (0, m') /\ km_inv m' /\ (forall u b j, km_ok m u b j -> km_ok m' u b j) /\
      forall b, km_read m' true b 1 = if decide (b = a) then [c] else km_read m true b 1;
}.

(** The same pages are allocated and no fewer are free. *)
Definition mframe {M} `{KL : KMemLaws M} (m m' : M) : Prop :=
  (forall p, km_live m' p <-> km_live m p) /\ (forall n, km_avail m n -> km_avail m' n).
Lemma mframe_refl {M} `{KL : KMemLaws M} (m : M) : mframe m m.
Proof. by split. Qed.
Lemma mframe_trans {M} `{KL : KMemLaws M} (m1 m2 m3 : M) : mframe m1 m2 -> mframe m2 m3 -> mframe m1 m3.
Proof. intros [H1 H2] [H3 H4]. split; [intros p; by rewrite H3, H1|auto]. Qed.
