(* ===== verification/Ring.v ===== *)
(** * Ring buffers

    The pipe of [src/kernel/fs/pipe.c], the transmit buffer of [src/kernel/uart.c]
    and the input buffer of [src/kernel/console.c] are arrays of a power-of-two
    size [N] indexed by counters that only grow, wrap around at their width and are
    reduced modulo [N] on access.  [ring] reads such a buffer as a queue. *)

From stdpp Require Import base numbers list list_numbers.
From Stdlib Require Import ZArith Lia.
From S2P Require Import Prelude.

(** The [n] bytes from index [r] on. *)
Definition ring (N : Z) (buf : list Z) (r n : Z) : list Z := (fun i => znth buf ((r + i) mod N)) <$> seqZ 0 n.

Lemma zlen_ring N buf r n : 0 <= n -> zlen (ring N buf r n) = n.
Proof. intros. unfold zlen, ring. rewrite length_fmap, length_seqZ. lia. Qed.

Lemma ring_nil N buf r n : n <= 0 -> ring N buf r n = [].
Proof. intros. unfold ring. by rewrite seqZ_nil. Qed.

Lemma ring_cons N buf r n : 0 < n -> ring N buf r n = znth buf (r mod N) :: ring N buf (r + 1) (n - 1).
Proof.
  intros. unfold ring. rewrite (seqZ_cons 0 n) by lia. cbn [fmap list_fmap]. rewrite Z.add_0_r. f_equal.
  change (Z.succ 0) with (1 + 0). replace (Z.pred n) with (n - 1) by lia. rewrite <- (fmap_add_seqZ 1 0 (n - 1)).
  rewrite <- list_fmap_compose. apply list_fmap_ext. intros i x _. simpl. do 2 f_equal. lia.
Qed.

Lemma ring_snoc N buf r n : 0 <= n -> ring N buf r (n + 1) = ring N buf r n ++ [znth buf ((r + n) mod N)].
Proof. intros. unfold ring. rewrite seqZ_app by lia. by rewrite fmap_app. Qed.

Lemma ring_wrap N W buf r n : 0 < N -> (N | W) -> 0 < W -> ring N buf (r mod W) n = ring N buf r n.
Proof.
  intros HN HW HW0. unfold ring. apply list_fmap_ext. intros i x _. f_equal.
  rewrite (Z.add_mod (r mod W)), (Z.add_mod r) by lia. do 2 f_equal. by apply Z.mod_mod_divide.
Qed.

Lemma bytes_ok_ring N buf r n : bytes_ok buf -> bytes_ok (ring N buf r n).
Proof.
  intros Hb. unfold bytes_ok, ring. rewrite Forall_fmap. apply Forall_forall. intros i _. by apply bytes_ok_znth.
Qed.

(** A write past the end of the queue is a push. *)
Lemma ring_upd_out N buf r n k c :
  0 < N -> zlen buf = N -> 0 <= n <= k -> k < N -> ring N (zupd buf ((r + k) mod N) c) r n = ring N buf r n.
Proof.
  intros HN Hl Hn Hk. unfold ring. apply list_fmap_ext. intros j x Hj. apply lookup_seqZ in Hj as [-> Hj].
  pose proof (Z.mod_pos_bound (r + k) N HN). pose proof (Z.mod_pos_bound (r + (0 + Z.of_nat j)) N HN).
  destruct (decide ((r + k) mod N = (r + (0 + Z.of_nat j)) mod N)) as [E|]; [|by apply znth_zupd_ne; [apply Z.mod_pos_bound..|]].
  exfalso. pose proof (Z.div_mod (r + k) N ltac:(lia)) as H1. pose proof (Z.div_mod (r + (0 + Z.of_nat j)) N ltac:(lia)) as H2.
  rewrite E in H1. set (q := (r + k) / N) in *. set (q' := (r + (0 + Z.of_nat j)) / N) in *.
  assert (N * (q - q') = k - Z.of_nat j) by lia. assert (q - q' = 0) by nia. nia.
Qed.

Lemma ring_push N buf r n c :
  0 < N -> zlen buf = N -> 0 <= n < N -> ring N (zupd buf ((r + n) mod N) c) r (n + 1) = ring N buf r n ++ [c].
Proof.
  intros HN Hl Hn. rewrite ring_snoc, ring_upd_out by lia. pose proof (Z.mod_pos_bound (r + n) N HN).
  by rewrite znth_zupd_eq by lia.
Qed.

(** The number of bytes between two counters of width [W]. *)
Definition dist (W r w : Z) : Z := (w - r) mod W.

Lemma dist_range W r w : 0 < W -> 0 <= dist W r w < W.
Proof. apply Z.mod_pos_bound. Qed.
Lemma dist_same W r : dist W r r = 0.
Proof. unfold dist. by rewrite Z.sub_diag. Qed.
Lemma dist_zero W r w : 0 < W -> 0 <= r < W -> 0 <= w < W -> dist W r w = 0 -> w = r.
Proof.
  unfold dist. intros HW Hr Hw H. apply Z.mod_divide in H; [|lia]. destruct H as [q H]. assert (q = 0) by nia. lia.
Qed.
Lemma dist_inc_w W r w : 0 < W -> dist W r w + 1 < W -> dist W r ((w + 1) mod W) = dist W r w + 1.
Proof.
  unfold dist. intros HW H. rewrite Zminus_mod_idemp_l. replace (w + 1 - r) with (w - r + 1) by lia.
  rewrite <- Zplus_mod_idemp_l. rewrite Z.mod_small; pose proof (Z.mod_pos_bound (w - r) W HW); lia.
Qed.
Lemma dist_inc_r W r w : 0 < W -> 0 < dist W r w -> dist W ((r + 1) mod W) w = dist W r w - 1.
Proof.
  unfold dist. intros HW H. rewrite Zminus_mod_idemp_r. replace (w - (r + 1)) with (w - r - 1) by lia.
  rewrite <- Zminus_mod_idemp_l. rewrite Z.mod_small; pose proof (Z.mod_pos_bound (w - r) W HW); lia.
Qed.
Lemma dist_dec_w W r w : 0 < W -> 0 < dist W r w -> dist W r ((w - 1) mod W) = dist W r w - 1.
Proof.
  unfold dist. intros HW H. rewrite Zminus_mod_idemp_l. replace (w - 1 - r) with (w - r - 1) by lia.
  rewrite <- Zminus_mod_idemp_l. rewrite Z.mod_small; pose proof (Z.mod_pos_bound (w - r) W HW); lia.
Qed.
(** The index of the next byte to write, from the index of the next byte to read. *)
Lemma dist_index N W r w : 0 < N -> (N | W) -> 0 < W -> (r + dist W r w) mod N = w mod N.
Proof.
  intros HN [q Hq] HW. unfold dist. rewrite Hq. rewrite <- Zplus_mod_idemp_r.
  rewrite (Z.mul_comm q N), Z.rem_mul_r by nia. rewrite (Z.mul_comm N), Z.mod_add by lia.
  rewrite Z.mod_mod by lia. rewrite Zplus_mod_idemp_r. f_equal. lia.
Qed.
