(* ===== verification/Uart.v ===== *)
(** * The UART driver

    [src/kernel/uart.c]: the transmit buffer of the 16550 and the routines that
    drain it into the device.  The device is a parameter: reading a register may
    change its state, writing one does.  Callers hold [uart_tx_lock]; a sleep on
    a full buffer is a [Blocked] outcome. *)

From stdpp Require Import base numbers list list_numbers gmap strings.
From Stdlib Require Import ZArith Lia.
From S2P Require Import Prelude Ring.

Definition RHR : Z := 0.
Definition THR : Z := 0.
Definition IER : Z := 1.
Definition IER_RX_ENABLE : Z := Z.shiftl 1 0.
Definition IER_TX_ENABLE : Z := Z.shiftl 1 1.
Definition FCR : Z := 2.
Definition FCR_FIFO_ENABLE : Z := Z.shiftl 1 0.
Definition FCR_FIFO_CLEAR : Z := Z.shiftl 3 1.
Definition LCR : Z := 3.
Definition LCR_EIGHT_BITS : Z := Z.shiftl 3 0.
Definition LCR_BAUD_LATCH : Z := Z.shiftl 1 7.
Definition LSR : Z := 5.
Definition LSR_RX_READY : Z := Z.shiftl 1 0.
Definition LSR_TX_IDLE : Z := Z.shiftl 1 5.
Definition UART_TX_BUF_SIZE : Z := 32.

(** The device: its registers, one byte each. *)
Class UartDev (U : Type) : Type := {
  read_reg : Z -> U -> Z * U;
  write_reg : Z -> Z -> U -> U;
}.

(** What the driver relies on (16550 data sheet): [sent] is what was handed to the
    transmitter, [received] what waits in the receiver; reading the line status
    changes neither, a byte written to THR is sent, RHR takes the oldest byte
    received, and bit 0 of LSR tells whether there is one. *)
Class UartDevLaws (U : Type) `{UartDev U} : Type := {
  sent : U -> list Z;
  received : U -> list Z;
  lsr_sent d : sent (read_reg LSR d).2 = sent d;
  lsr_received d : received (read_reg LSR d).2 = received d;
  thr_sent c d : sent (write_reg THR c d) = sent d ++ [uchar c];
  thr_received c d : received (write_reg THR c d) = received d;
  lsr_ready d : Z.land (read_reg LSR d).1 1 = 0 <-> received d = [];
  rhr_take c l d : received d = c :: l ->
    (read_reg RHR d).1 = c /\ received (read_reg RHR d).2 = l /\ sent (read_reg RHR d).2 = sent d;
  received_ok d : bytes_ok (received d);
}.

Record uart (U : Type) := mk_uart {
  udev : U;
  uart_tx_buf : list Z;
  uart_tx_w : Z;
  uart_tx_r : Z;
  panicked : bool;
}.
Arguments mk_uart {U}.
Arguments udev {U}.
Arguments uart_tx_buf {U}.
Arguments uart_tx_w {U}.
Arguments uart_tx_r {U}.
Arguments panicked {U}.

Section Uart.
Context {U : Type} `{UD : UartDev U}.
Abbreviation T := (uart U).

Definition set_udev (d : U) (u : T) : T := mk_uart d (uart_tx_buf u) (uart_tx_w u) (uart_tx_r u) (panicked u).
Definition set_tx_r (v : Z) (u : T) : T := mk_uart (udev u) (uart_tx_buf u) (uart_tx_w u) v (panicked u).

Definition ReadReg (reg : Z) : K T Z := fun u => let '(v, d) := read_reg reg (udev u) in Ok (v, set_udev d u).
Definition WriteReg (reg v : Z) : K T unit := modify (fun u => set_udev (write_reg reg (uchar v) (udev u)) u).

Definition uartinit : K T unit :=
  WriteReg IER 0x00;;
  WriteReg LCR LCR_BAUD_LATCH;;
  WriteReg 0 0x03;;
  WriteReg 1 0x00;;
  WriteReg LCR LCR_EIGHT_BITS;;
  WriteReg FCR (Z.lor FCR_FIFO_ENABLE FCR_FIFO_CLEAR);;
  WriteReg IER (Z.lor IER_TX_ENABLE IER_RX_ENABLE).

(** Each round takes a byte out of the buffer, so there are at most as many as bytes. *)
Fixpoint uartstart_loop (fuel : nat) : K T unit :=
  match fuel with
  | O => out_of_fuel
  | S fuel =>
      u ← get;
      if uart_tx_w u =? uart_tx_r u then mret tt
      else
        lsr ← ReadReg LSR;
        if Z.land lsr LSR_TX_IDLE =? 0 then mret tt
        else
          u ← get;
          let c := znth (uart_tx_buf u) (uart_tx_r u mod UART_TX_BUF_SIZE) in
          modify (set_tx_r (uint64 (uart_tx_r u + 1)));;
          WriteReg THR c;;
          uartstart_loop fuel
  end.
Definition uartstart : K T unit :=
  u ← get; uartstart_loop (S (Z.to_nat (uint64 (uart_tx_w u - uart_tx_r u)))).

Definition uartputc (c : Z) : K T unit :=
  u ← get;
  if panicked u then blocked "panicked"
  else if uart_tx_w u =? uint64 (uart_tx_r u + UART_TX_BUF_SIZE) then blocked "uart_tx_r"
  else
    modify (fun u => mk_uart (udev u) (zupd (uart_tx_buf u) (uart_tx_w u mod UART_TX_BUF_SIZE) (uchar c))
                       (uint64 (uart_tx_w u + 1)) (uart_tx_r u) (panicked u));;
    uartstart.

(** The spin on LSR: [fuel] bounds how often the register is read. *)
Fixpoint wait_idle (fuel : nat) : K T unit :=
  match fuel with
  | O => out_of_fuel
  | S fuel => lsr ← ReadReg LSR; if Z.land lsr LSR_TX_IDLE =? 0 then wait_idle fuel else mret tt
  end.
Definition uartputc_sync (fuel : nat) (c : Z) : K T unit :=
  u ← get;
  if panicked u then blocked "panicked" else wait_idle fuel;; WriteReg THR c.

Definition uartgetc : K T Z :=
  lsr ← ReadReg LSR;
  if negb (Z.land lsr 0x01 =? 0) then ReadReg RHR else mret (-1).
End Uart.

(** ** The transmit queue *)

Section Queue.
Context {U : Type} `{UD : UartDev U, UL : !UartDevLaws U}.
Implicit Types u : uart U.

Definition tx_count u : Z := dist (2 ^ 64) (uart_tx_r u) (uart_tx_w u).
Definition tx_queue u : list Z := ring UART_TX_BUF_SIZE (uart_tx_buf u) (uart_tx_r u) (tx_count u).

Record uart_ok u : Prop := {
  uk_len : zlen (uart_tx_buf u) = UART_TX_BUF_SIZE;
  uk_bytes : bytes_ok (uart_tx_buf u);
  uk_w : 0 <= uart_tx_w u < 2 ^ 64;
  uk_r : 0 <= uart_tx_r u < 2 ^ 64;
  uk_count : tx_count u <= UART_TX_BUF_SIZE;
}.

(** Everything given to the driver: on the line already, or still in the buffer. *)
Definition output u : list Z := sent (udev u) ++ tx_queue u.

Lemma uart_div : (UART_TX_BUF_SIZE | 2 ^ 64).
Proof. by exists (2 ^ 59). Qed.

Lemma tx_empty u : uart_ok u -> (uart_tx_w u =? uart_tx_r u) = (tx_count u =? 0).
Proof using Type.
  intros [_ _ Hw Hr _]. destruct (uart_tx_w u =? uart_tx_r u) eqn:E; zbool.
  - unfold tx_count. rewrite E, dist_same. done.
  - symmetry. apply Z.eqb_neq. intros Hz. apply E. by apply (dist_zero (2 ^ 64)).
Qed.

(** One byte out of the buffer. *)
Lemma tx_pop u :
  uart_ok u -> 0 < tx_count u ->
  let u' := set_tx_r (uint64 (uart_tx_r u + 1)) u in
  uart_ok u' /\ tx_count u' = tx_count u - 1 /\ tx_queue u = znth (uart_tx_buf u) (uart_tx_r u mod UART_TX_BUF_SIZE) :: tx_queue u'.
Proof using Type.
  intros [Hl Hb Hw Hr Hc] Hpos u'.
  assert (Hc' : tx_count u' = tx_count u - 1) by (apply (dist_inc_r (2 ^ 64)); [lia|done]).
  split; [split; try done; [apply uint64_range|rewrite Hc'; unfold u'; simpl; lia]|]. split; [done|].
  unfold tx_queue. rewrite ring_cons by done. f_equal. rewrite Hc'. unfold u', set_tx_r, uint64. simpl.
  symmetry. by apply ring_wrap; [|apply uart_div|].
Qed.

Lemma uartstart_loop_ok fuel u :
  uart_ok u -> (Z.to_nat (tx_count u) < fuel)%nat ->
  exists u', uartstart_loop fuel u = Ok (tt, u') /\ uart_ok u' /\ output u' = output u /\ received (udev u') = received (udev u) /\
    panicked u' = panicked u /\ (tx_queue u' = [] \/ exists d, Z.land (read_reg LSR d).1 LSR_TX_IDLE = 0 /\ udev u' = (read_reg LSR d).2).
Proof using Type.
  revert u. induction fuel as [|fuel IH]; intros u Hok Hf; [lia|]. cbn [uartstart_loop]. ksimpl. rewrite tx_empty by done.
  destruct (tx_count u =? 0) eqn:E; zbool.
  { exists u. split_and!; try done. left. unfold tx_queue. rewrite E. by apply ring_nil. }
  pose proof (dist_range (2 ^ 64) (uart_tx_r u) (uart_tx_w u) ltac:(lia)) as Hd. fold (tx_count u) in Hd.
  set (u1 := set_udev (read_reg LSR (udev u)).2 u).
  assert (Hrd : ReadReg LSR u = Ok ((read_reg LSR (udev u)).1, u1)) by (unfold ReadReg, u1; by destruct (read_reg LSR (udev u))).
  kstep Hrd. assert (Ho1 : output u1 = output u) by (unfold output, u1; simpl; by rewrite lsr_sent).
  destruct (Z.land _ LSR_TX_IDLE =? 0) eqn:Ei; zbool.
  { exists u1. split_and!; try done; [by destruct Hok; split|apply lsr_received|right; by exists (udev u)]. }
  ksimpl. assert (Hok1 : uart_ok u1) by (by destruct Hok; split).
  destruct (tx_pop u1 Hok1 ltac:(change (tx_count u1) with (tx_count u); lia)) as (Hok2 & Hc2 & Hq2).
  set (c := znth _ _) in *. set (u2 := set_tx_r _ u1) in *.
  unfold WriteReg at 1. ksimpl. set (u3 := set_udev _ u2).
  destruct (IH u3) as (u' & He & Hok' & Ho & Hrx & Hp & Hend).
  { by destruct Hok2; split. } { change (tx_count u3) with (tx_count u2). rewrite Hc2. change (tx_count u1) with (tx_count u). lia. }
  exists u'. split_and!; try done.
  - rewrite Ho, <- Ho1. unfold output. rewrite Hq2. change (tx_queue u3) with (tx_queue u2). unfold u3. simpl. rewrite thr_sent.
    rewrite (uchar_small (uchar c)) by apply uchar_range. rewrite uchar_small by (apply bytes_ok_znth; apply Hok). by rewrite <- app_assoc.
  - rewrite Hrx. unfold u3. simpl. rewrite thr_received. apply lsr_received.
Qed.

Lemma uartstart_ok u :
  uart_ok u ->
  exists u', uartstart u = Ok (tt, u') /\ uart_ok u' /\ output u' = output u /\ received (udev u') = received (udev u) /\
    panicked u' = panicked u /\ (tx_queue u' = [] \/ exists d, Z.land (read_reg LSR d).1 LSR_TX_IDLE = 0 /\ udev u' = (read_reg LSR d).2).
Proof using Type. intros Hok. unfold uartstart. ksimpl. apply uartstart_loop_ok; [done|]. unfold tx_count, dist, uint64. lia. Qed.

Lemma uartputc_ok u c :
  uart_ok u -> panicked u = false ->
  if decide (tx_count u = UART_TX_BUF_SIZE) then uartputc c u = Blocked "uart_tx_r"
  else exists u', uartputc c u = Ok (tt, u') /\ uart_ok u' /\ output u' = output u ++ [uchar c] /\
    received (udev u') = received (udev u) /\ panicked u' = false.
Proof using Type.
  intros Hok Hp. pose proof Hok as [Hl Hb Hw Hr Hc]. unfold uartputc. ksimpl. rewrite Hp.
  pose proof (dist_range (2 ^ 64) (uart_tx_r u) (uart_tx_w u) ltac:(lia)) as Hd. fold (tx_count u) in Hd.
  assert (Hfull : (uart_tx_w u =? uint64 (uart_tx_r u + UART_TX_BUF_SIZE)) = bool_decide (tx_count u = UART_TX_BUF_SIZE)).
  { unfold tx_count, dist, UART_TX_BUF_SIZE in *. case_bool_decide as E; [apply Z.eqb_eq|apply Z.eqb_neq].
    - rewrite <- E. unfold uint64. rewrite Zplus_mod_idemp_r, Zplus_minus. by rewrite Z.mod_small.
    - intros Ew. apply E. rewrite Ew at 1. unfold uint64. rewrite Zminus_mod_idemp_l, Z.add_simpl_l. done. }
  rewrite Hfull. case_bool_decide as E; [by rewrite decide_True|]. rewrite decide_False by done. ksimpl.
  set (u1 := mk_uart _ _ _ _ _).
  assert (Hc1 : tx_count u1 = tx_count u + 1) by (apply (dist_inc_w (2 ^ 64) (uart_tx_r u) (uart_tx_w u)); unfold UART_TX_BUF_SIZE in *; fold (tx_count u); lia).
  assert (Hq1 : tx_queue u1 = tx_queue u ++ [uchar c]).
  { unfold tx_queue. rewrite Hc1. unfold u1. simpl. rewrite <- (dist_index UART_TX_BUF_SIZE (2 ^ 64) (uart_tx_r u)); [|done|apply uart_div|done].
    fold (tx_count u). apply ring_push; unfold UART_TX_BUF_SIZE in *; lia. }
  destruct (uartstart_ok u1) as (u' & He & Hok' & Ho & Hrx & Hp' & _).
  { split; [by unfold u1; simpl; rewrite zlen_zupd|apply bytes_ok_zupd; [done|apply uchar_range]|apply uint64_range|done|rewrite Hc1; lia]. }
  exists u'. split; [done|]. split; [done|]. rewrite Ho. unfold output at 1. rewrite Hq1. unfold u1 at 1. simpl. rewrite app_assoc. split; [done|].
  split; [by rewrite Hrx|by rewrite Hp'].
Qed.
End Queue.
