(* ===== verification/Console.v ===== *)
(** * The console

    [src/kernel/console.c]: the input line discipline ([consoleintr]), reads and
    writes of the console device ([consoleread], [consolewrite]), and [uartintr]
    of [src/kernel/uart.c], which feeds it.  Memory is reached through the
    interface [KMem]; [procdump] is another component's routine, given as an
    argument; a sleep on an empty buffer is a [Blocked] outcome. *)

From stdpp Require Import base numbers list list_numbers gmap strings.
From Stdlib Require Import ZArith Lia.
From S2P Require Import Prelude Ring Uart Kmem.

Definition BACKSPACE : Z := 0x100.
(** [C(x)]: control-x is [x - '@']. *)
Definition Ctrl (x : Z) : Z := x - 64.
Definition ctrl_D : Z := Ctrl 68.
Definition ctrl_H : Z := Ctrl 72.
Definition ctrl_P : Z := Ctrl 80.
Definition ctrl_U : Z := Ctrl 85.
Definition newline : Z := 10.
Definition INPUT_BUF_SIZE : Z := 128.

Record console (U : Type) := mk_console {
  cons_buf : list Z;
  cons_r : Z;
  cons_w : Z;
  cons_e : Z;
  cuart : uart U;
}.
Arguments mk_console {U}.
Arguments cons_buf {U}.
Arguments cons_r {U}.
Arguments cons_w {U}.
Arguments cons_e {U}.
Arguments cuart {U}.

Section Console.
Context {U M : Type} `{UD : UartDev U} `{KM : KMem M}.
Abbreviation C := (console U).
(** How often [uartputc_sync] may find the transmitter busy; [procdump]; [killed(myproc())]. *)
Context (spin : nat) (procdump : K C unit) (killed : bool).

Definition set_cons_r (v : Z) (c : C) : C := mk_console (cons_buf c) v (cons_w c) (cons_e c) (cuart c).
Definition set_cons_w (v : Z) (c : C) : C := mk_console (cons_buf c) (cons_r c) v (cons_e c) (cuart c).
Definition set_cons_e (v : Z) (c : C) : C := mk_console (cons_buf c) (cons_r c) (cons_w c) v (cuart c).
Definition set_cuart (u : uart U) (c : C) : C := mk_console (cons_buf c) (cons_r c) (cons_w c) (cons_e c) u.
Definition on_uart {A} (m : K (uart U) A) : K C A := zoom cuart set_cuart m.

Definition consputc (c : Z) : K C unit :=
  if c =? BACKSPACE then
    on_uart (uartputc_sync spin 8);; on_uart (uartputc_sync spin 32);; on_uart (uartputc_sync spin 8)
  else on_uart (uartputc_sync spin c).

(** [cons.e--] with a backspace on the screen. *)
Definition erase : K C unit := modify (fun s => set_cons_e (uint (cons_e s - 1)) s);; consputc BACKSPACE.

(** At most one round for each byte typed since the last commit. *)
Fixpoint kill_line (fuel : nat) : K C unit :=
  match fuel with
  | O => out_of_fuel
  | S fuel =>
      s ← get;
      if negb (cons_e s =? cons_w s) && negb (znth (cons_buf s) (uint (cons_e s - 1) mod INPUT_BUF_SIZE) =? newline)
      then erase;; kill_line fuel
      else mret tt
  end.

Definition consoleintr (c : Z) : K C unit :=
  if c =? ctrl_P then procdump
  else if c =? ctrl_U then s ← get; kill_line (S (Z.to_nat (uint (cons_e s - cons_w s))))
  else if (c =? ctrl_H) || (c =? 0x7f) then
    s ← get; if negb (cons_e s =? cons_w s) then erase else mret tt
  else
    s ← get;
    if negb (c =? 0) && (uint (cons_e s - cons_r s) <? INPUT_BUF_SIZE) then
      let c := if c =? 13 then newline else c in
      consputc c;;
      modify (fun s => mk_console (zupd (cons_buf s) (cons_e s mod INPUT_BUF_SIZE) (uchar c)) (cons_r s) (cons_w s)
                         (uint (cons_e s + 1)) (cuart s));;
      s ← get;
      if (c =? newline) || (c =? ctrl_D) || (uint (cons_e s - cons_r s) =? INPUT_BUF_SIZE)
      then modify (fun s => set_cons_w (cons_e s) s)
      else mret tt
    else mret tt.

Definition consoleinit : K C unit := on_uart uartinit.

(** One round per character the device has received; [fuel] bounds their number. *)
Fixpoint uartintr_loop (fuel : nat) : K C unit :=
  match fuel with
  | O => out_of_fuel
  | S fuel =>
      c ← on_uart uartgetc;
      if c =? -1 then mret tt else consoleintr c;; uartintr_loop fuel
  end.
Definition uartintr (fuel : nat) : K C unit := uartintr_loop fuel;; on_uart uartstart.

(** ** Reads and writes, with the memory of the process *)

Abbreviation CM := (C * M)%type.
Definition on_cons {A} (m : K C A) : K CM A := zoom fst (fun c s => (c, s.2)) m.
Definition on_mem {A} (m : K M A) : K CM A := zoom snd (fun x s => (s.1, x)) m.

Fixpoint consolewrite_loop (fuel : nat) (user_src : bool) (src n i : Z) : K CM Z :=
  match fuel with
  | O => out_of_fuel
  | S fuel =>
      if negb (i <? n) then mret i
      else
        r ← on_mem (km_in user_src (uint64 (src + i)) 1);
        if fst r =? -1 then mret i
        else on_cons (on_uart (uartputc (znth (snd r) 0)));; consolewrite_loop fuel user_src src n (i + 1)
  end.
Definition consolewrite (user_src : bool) (src n : Z) : K CM Z := consolewrite_loop (S (Z.to_nat n)) user_src src n 0.

Fixpoint consoleread_loop (fuel : nat) (user_dst : bool) (dst target n : Z) : K CM Z :=
  match fuel with
  | O => out_of_fuel
  | S fuel =>
      if negb (0 <? n) then mret (int (target - n))
      else
        s ← get;
        if cons_r s.1 =? cons_w s.1 then if killed then mret (-1) else blocked "cons.r"
        else
          let c := znth (cons_buf s.1) (cons_r s.1 mod INPUT_BUF_SIZE) in
          on_cons (modify (set_cons_r (uint (cons_r s.1 + 1))));;
          if c =? ctrl_D then
            (if uint n <? target then on_cons (modify (fun s => set_cons_r (uint (cons_r s - 1)) s)) else mret tt);;
            mret (int (target - n))
          else
            r ← on_mem (km_out user_dst dst [uchar c]);
            if r =? -1 then mret (int (target - n))
            else if c =? newline then mret (int (target - (n - 1)))
            else consoleread_loop fuel user_dst (uint64 (dst + 1)) target (n - 1)
  end.
Definition consoleread (user_dst : bool) (dst n : Z) : K CM Z :=
  consoleread_loop (S (Z.to_nat n)) user_dst dst (uint n) n.
End Console.

(** ** The line discipline as lists

    [committed] is what a read can take, [editing] the line being typed. *)

Section Spec.
Context {U : Type} `{UD : UartDev U, UL : !UartDevLaws U}.
Implicit Types s : console U.

Definition committed s : list Z := ring INPUT_BUF_SIZE (cons_buf s) (cons_r s) (dist (2 ^ 32) (cons_r s) (cons_w s)).
Definition editing s : list Z := ring INPUT_BUF_SIZE (cons_buf s) (cons_w s) (dist (2 ^ 32) (cons_w s) (cons_e s)).

Record cons_ok s : Prop := {
  ck_len : zlen (cons_buf s) = INPUT_BUF_SIZE;
  ck_bytes : bytes_ok (cons_buf s);
  ck_r : 0 <= cons_r s < 2 ^ 32;
  ck_w : 0 <= cons_w s < 2 ^ 32;
  ck_e : 0 <= cons_e s < 2 ^ 32;
  ck_room : dist (2 ^ 32) (cons_r s) (cons_w s) + dist (2 ^ 32) (cons_w s) (cons_e s) <= INPUT_BUF_SIZE;
  ck_line : Forall (fun c => c <> newline) (editing s);
}.

(** What one typed character does to the two lists. *)
Definition type_char (c : Z) (st : list Z * list Z) : list Z * list Z :=
  let '(com, ed) := st in
  if c =? ctrl_P then st
  else if c =? ctrl_U then (com, [])
  else if (c =? ctrl_H) || (c =? 0x7f) then (com, take (length ed - 1) ed)
  else if (c =? 0) || (INPUT_BUF_SIZE <=? zlen com + zlen ed) then st
  else
    let c := if c =? 13 then newline else c in
    let ed := ed ++ [c] in
    if (c =? newline) || (c =? ctrl_D) || (zlen com + zlen ed =? INPUT_BUF_SIZE) then (com ++ ed, []) else (com, ed).

(** What a read of [n] bytes takes: [None] when it has to wait. *)
Fixpoint read_line (first : bool) (n : nat) (l : list Z) : option (list Z * list Z) :=
  match n with
  | O => Some ([], l)
  | S n =>
      match l with
      | [] => None
      | c :: l =>
          if c =? ctrl_D then Some ([], if first then l else c :: l)
          else if c =? newline then Some ([c], l)
          else match read_line false n l with Some (d, rest) => Some (c :: d, rest) | None => None end
      end
  end.
End Spec.
