(* ===== verification/Fsys.v ===== *)
(** * The file system's state

    The tables and objects that [src/kernel/fs] shares between its files:
    [struct inode], [struct dentry], [struct file] and [struct super_block] of
    [vfs.h], [struct xv6fs_inode] and the on-disk layout of [xv6fs/file.h] and
    [xv6fs/fs.h], [itable] and [dtable] of [fs.c], [ftable] of [file.c].

    A [struct inode *] is an index of [itable], a [struct file *] an index of
    [ftable]; objects that the code allocates with [kalloc] live in [heap] under
    the address of their page.  [op] pointers all lead to the one operations
    table [xv6fs_ops], so a pointer is either null or not.  The state is that of
    one running process, with its [cwd], [ofile] and pid. *)

From stdpp Require Import base numbers list list_numbers gmap strings.
From Stdlib Require Import ZArith Lia.
From S2P Require Import Prelude Params KString Path Sleeplock Virtio Bio Kmem.

(** ** Data *)

Record xv6fs_super_block := mk_sb {
  magic : Z; sb_size : Z; nblocks : Z; ninodes : Z;
  nlog : Z; logstart : Z; inodestart : Z; bmapstart : Z;
}.

(** [struct xv6fs_inode]; [inum], [ref], [lock] and [valid] are never used. *)
Record xv6fs_inode := mk_xi {
  xi_dev : Z; xi_type : Z; xi_major : Z; xi_minor : Z; xi_nlink : Z; xi_size : Z;
  addrs : list Z;
}.
Definition set_addrs (l : list Z) (ip : xv6fs_inode) : xv6fs_inode :=
  mk_xi (xi_dev ip) (xi_type ip) (xi_major ip) (xi_minor ip) (xi_nlink ip) (xi_size ip) l.
(** A page cleared by [memset]. *)
Definition xi_zero : xv6fs_inode := mk_xi 0 0 0 0 0 0 (replicate 13 0).

Record inode := mk_inode {
  i_op : bool;
  i_sb : bool;
  inum : Z; ref : Z; i_lock : sleeplock; type : Z; dev : Z; size : Z; nlink : Z;
  private : Z;
}.
#[export] Instance inode_inhabited : Inhabited inode :=
  populate (mk_inode false false 0 0 initsleeplock 0 0 0 0 0).

Definition set_i_op v i := mk_inode v (i_sb i) (inum i) (ref i) (i_lock i) (type i) (dev i) (size i) (nlink i) (private i).
Definition set_i_sb v i := mk_inode (i_op i) v (inum i) (ref i) (i_lock i) (type i) (dev i) (size i) (nlink i) (private i).
Definition set_inum v i := mk_inode (i_op i) (i_sb i) v (ref i) (i_lock i) (type i) (dev i) (size i) (nlink i) (private i).
Definition set_ref v i := mk_inode (i_op i) (i_sb i) (inum i) v (i_lock i) (type i) (dev i) (size i) (nlink i) (private i).
Definition set_i_lock v i := mk_inode (i_op i) (i_sb i) (inum i) (ref i) v (type i) (dev i) (size i) (nlink i) (private i).
Definition set_type v i := mk_inode (i_op i) (i_sb i) (inum i) (ref i) (i_lock i) v (dev i) (size i) (nlink i) (private i).
Definition set_dev v i := mk_inode (i_op i) (i_sb i) (inum i) (ref i) (i_lock i) (type i) v (size i) (nlink i) (private i).
Definition set_size v i := mk_inode (i_op i) (i_sb i) (inum i) (ref i) (i_lock i) (type i) (dev i) v (nlink i) (private i).
Definition set_nlink v i := mk_inode (i_op i) (i_sb i) (inum i) (ref i) (i_lock i) (type i) (dev i) (size i) v (private i).
Definition set_private v i := mk_inode (i_op i) (i_sb i) (inum i) (ref i) (i_lock i) (type i) (dev i) (size i) (nlink i) v.

Record dentry := mk_dentry {
  d_op : bool; d_parent : option Z; d_name : list Z; d_inode : option Z; d_ismount : Z; d_deleted : Z;
  d_ref : Z; d_private : Z;
}.
#[export] Instance dentry_inhabited : Inhabited dentry :=
  populate (mk_dentry false None (replicate 14 0) None 0 0 0 0).

Record file := mk_file {
  f_op : bool; f_ref : Z; f_off : Z; readable : Z; writable : Z; f_inode : option Z; f_private : Z;
}.
#[export] Instance file_inhabited : Inhabited file := populate (mk_file false 0 0 0 0 None 0).

Definition PIPESIZE : Z := 512.
Record pipe := mk_pipe { p_data : list Z; nread : Z; nwrite : Z; readopen : Z; writeopen : Z }.

(** What a page handed out by [kalloc] is used for.  [HFile] is the
    [struct xv6fs_inode] that [xv6fs_open] hangs on a file, [HPage] a buffer of bytes. *)
Inductive kobj :=
| HInode (ip : xv6fs_inode)
| HFile (type major : Z)
| HDentry (d : dentry)
| HPipe (p : pipe)
| HPage (l : list Z).

Record fsys (B M : Type) := mk_fsys {
  bc : B;
  mm : M;
  sb : xv6fs_super_block;
  itable : list inode;
  dtable : list dentry;
  heap : gmap Z kobj;
  ftable : list file;
  cwd : option Z;
  ofile : list (option Z);
  fpid : Z;
}.
Arguments mk_fsys {B M}.
Arguments bc {B M}.
Arguments mm {B M}.
Arguments sb {B M}.
Arguments itable {B M}.
Arguments dtable {B M}.
Arguments heap {B M}.
Arguments ftable {B M}.
Arguments cwd {B M}.
Arguments ofile {B M}.
Arguments fpid {B M}.

Section Access.
Context {B M : Type} `{BC : BufCache B} `{KM : KMem M}.
Abbreviation F := (fsys B M).

Definition set_bc (b : B) (s : F) : F := mk_fsys b (mm s) (sb s) (itable s) (dtable s) (heap s) (ftable s) (cwd s) (ofile s) (fpid s).
Definition set_mm (m : M) (s : F) : F := mk_fsys (bc s) m (sb s) (itable s) (dtable s) (heap s) (ftable s) (cwd s) (ofile s) (fpid s).
Definition set_sb v (s : F) : F := mk_fsys (bc s) (mm s) v (itable s) (dtable s) (heap s) (ftable s) (cwd s) (ofile s) (fpid s).
Definition set_itable f (s : F) : F := mk_fsys (bc s) (mm s) (sb s) (f (itable s)) (dtable s) (heap s) (ftable s) (cwd s) (ofile s) (fpid s).
Definition set_dtable f (s : F) : F := mk_fsys (bc s) (mm s) (sb s) (itable s) (f (dtable s)) (heap s) (ftable s) (cwd s) (ofile s) (fpid s).
Definition set_heap f (s : F) : F := mk_fsys (bc s) (mm s) (sb s) (itable s) (dtable s) (f (heap s)) (ftable s) (cwd s) (ofile s) (fpid s).
Definition set_ftable f (s : F) : F := mk_fsys (bc s) (mm s) (sb s) (itable s) (dtable s) (heap s) (f (ftable s)) (cwd s) (ofile s) (fpid s).
Definition set_cwd v (s : F) : F := mk_fsys (bc s) (mm s) (sb s) (itable s) (dtable s) (heap s) (ftable s) v (ofile s) (fpid s).
Definition set_ofile f (s : F) : F := mk_fsys (bc s) (mm s) (sb s) (itable s) (dtable s) (heap s) (ftable s) (cwd s) (f (ofile s)) (fpid s).

Definition on_bc {A} (m : K B A) : K F A := zoom bc set_bc m.
Definition on_mm {A} (m : K M A) : K F A := zoom mm set_mm m.

Definition fs_bread (d n : Z) : K F Z := on_bc (bc_bread d n).
Definition fs_bwrite (b : Z) : K F unit := on_bc (bc_bwrite b).
Definition fs_brelse (b : Z) : K F unit := on_bc (bc_brelse b).
Definition bp_data (b : Z) : K F (list Z) := gets (fun s => bc_data (bc s) b).
Definition bp_set (b : Z) (l : list Z) : K F unit := on_bc (bc_set_data b l).

Definition geti (s : F) (i : Z) : inode := itable s !!! Z.to_nat i.
Definition updi (i : Z) (f : inode -> inode) : K F unit := modify (set_itable (alter f (Z.to_nat i))).

(** [inode->private] as a [struct xv6fs_inode]. *)
Definition get_xi (p : Z) : K F xv6fs_inode :=
  s ← get;
  match heap s !! p with
  | Some (HInode ip) => mret ip
  | _ => fault "inode->private"
  end.
Definition put_xi (p : Z) (ip : xv6fs_inode) : K F unit := modify (set_heap (insert p (HInode ip))).

(** [kalloc()], then [memset] or field writes through the result: a null pointer faults. *)
Definition kalloc_obj (o : kobj) : K F Z :=
  p ← on_mm km_kalloc;
  if p =? 0 then fault "kalloc returned 0"
  else modify (set_heap (insert p o));; mret p.
Definition kfree_obj (p : Z) : K F unit :=
  on_mm (km_kfree p);; modify (set_heap (delete p)).
End Access.

(** Two states with the same components are equal; [fsys_ext] leaves the components that differ. *)
Lemma fsys_eq {B M} (s s' : fsys B M) :
  bc s = bc s' -> mm s = mm s' -> sb s = sb s' -> itable s = itable s' -> dtable s = dtable s' -> heap s = heap s' ->
  ftable s = ftable s' -> cwd s = cwd s' -> ofile s = ofile s' -> fpid s = fpid s' -> s = s'.
Proof. destruct s, s'; simpl. intros. by subst. Qed.

Ltac fsys_ext :=
  apply fsys_eq;
  cbn [bc mm sb itable dtable heap ftable cwd ofile fpid
       set_bc set_mm set_sb set_itable set_dtable set_heap set_ftable set_cwd set_ofile];
  try reflexivity.
