(* ===== verification/Blocks.v ===== *)
(** * Blocks and file contents

    The block layer and the inode-content layer of [src/kernel/fs/xv6fs/fs.c]:
    [readsb], [bzero], [balloc], [bfree], [bmap], [xv6fs_iupdate],
    [xv6fs_itrunc], [xv6fs_readi] and [xv6fs_writei].  Machine integers keep
    their width: [int] and [uint] wrap as in the source.  [printf] only reaches
    the console and is left out. *)

From stdpp Require Import base numbers list list_numbers gmap strings.
From Stdlib Require Import ZArith Lia.
From S2P Require Import Prelude Params Virtio Bio Kmem Fsys.

Section Blocks.
Context {B M : Type} `{BC : BufCache B} `{KM : KMem M}.
Abbreviation F := (fsys B M).

Definition BBLOCK (b : Z) (sb : xv6fs_super_block) : Z := uint (b / BPB + bmapstart sb).
Definition IBLOCK (i : Z) (sb : xv6fs_super_block) : Z := uint (i / IPB + inodestart sb).

(** [memmove(sb, bp->data, sizeof( *sb))]: eight little-endian words. *)
Definition decode_sb (data : list Z) : xv6fs_super_block :=
  mk_sb (load32 data 0) (load32 data 4) (load32 data 8) (load32 data 12)
        (load32 data 16) (load32 data 20) (load32 data 24) (load32 data 28).

Definition readsb (dev : Z) : K F unit :=
  bp ← fs_bread dev 1;
  data ← bp_data bp;
  modify (set_sb (decode_sb data));;
  fs_brelse bp.

Definition xv6fs_fsinit : K F unit :=
  readsb ROOTDEV;;
  s ← get;
  if negb (magic (sb s) =? FSMAGIC) then panic "invalid file system" else mret tt.

Definition bzero (dev bno : Z) : K F unit :=
  bp ← fs_bread dev (uint bno);
  data ← bp_data bp;
  bp_set bp (splice data 0 (replicate (Z.to_nat BSIZE) 0));;
  fs_bwrite bp;;
  fs_brelse bp.

(** [data[bi/8] & m], [data[bi/8] |= m] and [data[bi/8] &= ~m] with [m = 1 << (bi % 8)]. *)
Definition bit_mask (bi : Z) : Z := Z.shiftl 1 (bi mod 8).
Definition bit_free (data : list Z) (bi : Z) : bool := Z.land (znth data (bi / 8)) (bit_mask bi) =? 0.
Definition bit_set (data : list Z) (bi : Z) : list Z :=
  zupd data (bi / 8) (uchar (Z.lor (znth data (bi / 8)) (bit_mask bi))).
Definition bit_clear (data : list Z) (bi : Z) : list Z :=
  zupd data (bi / 8) (uchar (Z.land (znth data (bi / 8)) (Z.lnot (bit_mask bi)))).

(** [for(bi = 0; bi < BPB && b + bi < sb.size; bi++)] up to the first clear bit;
    [k] is the number of rounds left until [bi == BPB]. *)
Fixpoint balloc_scan (k : nat) (data : list Z) (size b bi : Z) : option Z :=
  match k with
  | O => None
  | S k =>
      if negb (uint (b + bi) <? size) then None
      else if bit_free data bi then Some bi
      else balloc_scan k data size b (bi + 1)
  end.

(** [for(b = 0; b < sb.size; b += BPB)] *)
Fixpoint balloc_loop (fuel : nat) (dev b : Z) : K F Z :=
  match fuel with
  | O => out_of_fuel
  | S fuel =>
      s ← get;
      if negb (uint b <? sb_size (sb s)) then mret 0
      else
        bp ← fs_bread dev (BBLOCK b (sb s));
        data ← bp_data bp;
        match balloc_scan (Z.to_nat BPB) data (sb_size (sb s)) b 0 with
        | Some bi =>
            bp_set bp (bit_set data bi);;
            fs_bwrite bp;;
            fs_brelse bp;;
            bzero dev (b + bi);;
            mret (uint (b + bi))
        | None =>
            fs_brelse bp;;
            balloc_loop fuel dev (int (b + BPB))
        end
  end.
(** One round per block of the bit map, and one to leave. *)
Definition balloc (dev : Z) : K F Z :=
  s ← get;
  balloc_loop (Z.to_nat (sb_size (sb s) / BPB) + 2) dev 0.

Definition bfree (dev b : Z) : K F unit :=
  s ← get;
  bp ← fs_bread dev (BBLOCK b (sb s));
  data ← bp_data bp;
  let bi := b mod BPB in
  if bit_free data bi then panic "freeing free block"
  else
    bp_set bp (bit_clear data bi);;
    fs_bwrite bp;;
    fs_brelse bp.

(** [if((addr = ip->addrs[k]) == 0){ addr = balloc(ip->dev); if(addr == 0) return 0;
    ip->addrs[k] = addr; }], which [bmap] does for a direct block and for the
    indirect block; [p] is the address of [ip]. *)
Definition addr_slot (p k : Z) : K F Z :=
  ip ← get_xi p;
  let addr := znth (addrs ip) k in
  if addr =? 0 then
    addr ← balloc (xi_dev ip);
    if addr =? 0 then mret 0
    else put_xi p (set_addrs (zupd (addrs ip) k addr) ip);; mret addr
  else mret addr.

(** Entry [bn] of the indirect block [addr]. *)
Definition bmap_entry (p addr bn : Z) : K F Z :=
  ip ← get_xi p;
  bp ← fs_bread (xi_dev ip) addr;
  a ← bp_data bp;
  let addr := load32 a (4 * bn) in
  if addr =? 0 then
    addr ← balloc (xi_dev ip);
    (if negb (addr =? 0) then bp_set bp (store32 a (4 * bn) addr);; fs_bwrite bp else mret tt);;
    fs_brelse bp;;
    mret addr
  else fs_brelse bp;; mret addr.

Definition bmap (p bn : Z) : K F Z :=
  if bn <? NDIRECT then addr_slot p bn
  else
    let bn := bn - NDIRECT in
    if bn <? NINDIRECT then
      addr ← addr_slot p NDIRECT;
      if addr =? 0 then mret 0 else bmap_entry p addr bn
    else panic "bmap: out of range".

(** The on-disk inode at offset [o] of its block. *)
Definition encode_addrs (l : list Z) : list Z := concat (le_encode 4 <$> l).
Definition encode_dinode (o : Z) (i : inode) (ip : xv6fs_inode) (data : list Z) : list Z :=
  let data := store16 data o (type i) in
  let data := store16 data (o + 2) (xi_major ip) in
  let data := store16 data (o + 4) (xi_minor ip) in
  let data := store16 data (o + 6) (nlink i) in
  let data := store32 data (o + 8) (size i) in
  splice data (o + 12) (encode_addrs (addrs ip)).

Definition xv6fs_iupdate (ino : Z) : K F unit :=
  s ← get;
  let i := geti s ino in
  bp ← fs_bread (dev i) (IBLOCK (inum i) (sb s));
  ip ← get_xi (private i);
  data ← bp_data bp;
  bp_set bp (encode_dinode (inum i mod IPB * sizeof_dinode) i ip data);;
  fs_bwrite bp;;
  fs_brelse bp.

(** [for(i = 0; i < NDIRECT; i++)] of [xv6fs_itrunc]; [k] rounds are left. *)
Fixpoint itrunc_direct (k : nat) (dv p i : Z) : K F unit :=
  match k with
  | O => mret tt
  | S k =>
      ip ← get_xi p;
      (if negb (znth (addrs ip) i =? 0)
       then bfree dv (znth (addrs ip) i);; put_xi p (set_addrs (zupd (addrs ip) i 0) ip)
       else mret tt);;
      itrunc_direct k dv p (i + 1)
  end.
(** [for(j = 0; j < NINDIRECT; j++)] *)
Fixpoint itrunc_indirect (k : nat) (dv bp j : Z) : K F unit :=
  match k with
  | O => mret tt
  | S k =>
      a ← bp_data bp;
      (if negb (load32 a (4 * j) =? 0) then bfree dv (load32 a (4 * j)) else mret tt);;
      itrunc_indirect k dv bp (j + 1)
  end.

Definition xv6fs_itrunc (ino : Z) : K F unit :=
  s ← get;
  let i := geti s ino in
  let p := private i in
  itrunc_direct (Z.to_nat NDIRECT) (dev i) p 0;;
  ip ← get_xi p;
  (if negb (znth (addrs ip) NDIRECT =? 0) then
     bp ← fs_bread (dev i) (znth (addrs ip) NDIRECT);
     itrunc_indirect (Z.to_nat NINDIRECT) (dev i) bp 0;;
     fs_brelse bp;;
     bfree (dev i) (znth (addrs ip) NDIRECT);;
     put_xi p (set_addrs (zupd (addrs ip) NDIRECT 0) ip)
   else mret tt);;
  updi ino (set_size 0);;
  xv6fs_iupdate ino.

(** The loop of [xv6fs_readi]; every round moves at least one byte. *)
Fixpoint readi_loop (fuel : nat) (ino : Z) (user : bool) (dst off n tot : Z) : K F Z :=
  match fuel with
  | O => out_of_fuel
  | S fuel =>
      if negb (tot <? n) then mret tot
      else
        s ← get;
        addr ← bmap (private (geti s ino)) (off / BSIZE);
        if addr =? 0 then mret tot
        else
          s ← get;
          bp ← fs_bread (dev (geti s ino)) addr;
          let m := Z.min (n - tot) (BSIZE - off mod BSIZE) in
          data ← bp_data bp;
          r ← on_mm (km_out user dst (sub data (off mod BSIZE) m));
          fs_brelse bp;;
          if r =? -1 then mret (uint (-1))
          else readi_loop fuel ino user (uint64 (dst + m)) (uint (off + m)) n (uint (tot + m))
  end.

Definition xv6fs_readi (ino : Z) (user : bool) (dst off n : Z) : K F Z :=
  s ← get;
  let sz := size (geti s ino) in
  if (sz <? off) || (uint (off + n) <? off) then mret 0
  else
    let n := if sz <? uint (off + n) then uint (sz - off) else n in
    tot ← readi_loop (S (Z.to_nat n)) ino user dst off n 0;
    mret (int tot).

(** The loop of [xv6fs_writei] returns [tot] and [off]. *)
Fixpoint writei_loop (fuel : nat) (ino : Z) (user : bool) (src off n tot : Z) : K F (Z * Z) :=
  match fuel with
  | O => out_of_fuel
  | S fuel =>
      if negb (tot <? n) then mret (tot, off)
      else
        s ← get;
        addr ← bmap (private (geti s ino)) (off / BSIZE);
        if addr =? 0 then mret (tot, off)
        else
          s ← get;
          bp ← fs_bread (dev (geti s ino)) addr;
          let m := Z.min (n - tot) (BSIZE - off mod BSIZE) in
          '(r, bytes) ← on_mm (km_in user src m);
          data ← bp_data bp;
          bp_set bp (splice data (off mod BSIZE) bytes);;
          if r =? -1 then fs_brelse bp;; mret (tot, off)
          else
            fs_bwrite bp;;
            fs_brelse bp;;
            writei_loop fuel ino user (uint64 (src + m)) (uint (off + m)) n (uint (tot + m))
  end.

Definition xv6fs_writei (ino : Z) (user : bool) (src off n : Z) : K F Z :=
  s ← get;
  if (size (geti s ino) <? off) || (uint (off + n) <? off) then mret (-1)
  else if MAXFILE * BSIZE <? uint (off + n) then mret (-1)
  else
    '(tot, off) ← writei_loop (S (Z.to_nat n)) ino user src off n 0;
    s ← get;
    (if size (geti s ino) <? off then updi ino (set_size off) else mret tt);;
    xv6fs_iupdate ino;;
    mret (int tot).
End Blocks.
