(* ===== verification/BlocksProof.v ===== *)
(** * The block allocator: bit map and buffers

    Lemmas on the bit map of [Blocks] and the specification of [bzero], [balloc]
    and [bfree] over any buffer cache that keeps [BufCacheLaws]. *)

From stdpp Require Import base numbers list list_numbers gmap strings.
From Stdlib Require Import ZArith Lia.
From S2P Require Import Prelude Params Virtio Bio Kmem Fsys Blocks.

(** ** Bits of a bit map block *)

Lemma land_mask x k : 0 <= k -> (Z.land x (Z.shiftl 1 k) =? 0) = negb (Z.testbit x k).
Proof.
  intros Hk. rewrite Z.shiftl_1_l. destruct (Z.testbit x k) eqn:E; simpl.
  - apply Z.eqb_neq. intros H0. apply (f_equal (fun y => Z.testbit y k)) in H0.
    rewrite Z.land_spec, E, Z.pow2_bits_true, Z.bits_0 in H0 by done. done.
  - apply Z.eqb_eq, Z.bits_inj'. intros j Hj. rewrite Z.land_spec, Z.bits_0.
    destruct (decide (j = k)) as [->|]; [by rewrite E|].
    rewrite Z.pow2_bits_false by done. apply andb_false_r.
Qed.

Lemma testbit_uchar x k : 0 <= k < 8 -> Z.testbit (uchar x) k = Z.testbit x k.
Proof. intros. unfold uchar. by rewrite Z.mod_pow2_bits_low by lia. Qed.

Definition bit (data : list Z) (bi : Z) : bool := Z.testbit (znth data (bi / 8)) (bi mod 8).

Lemma bit_free_bit data bi : bit_free data bi = negb (bit data bi).
Proof. apply land_mask. by apply Z.mod_pos_bound. Qed.

Lemma bit_upd data bi bj v :
  zlen data = BSIZE -> 0 <= bi < BPB -> 0 <= bj < BPB ->
  (forall k, 0 <= k < 8 -> k <> bi mod 8 -> Z.testbit v k = Z.testbit (znth data (bi / 8)) k) ->
  bit (zupd data (bi / 8) (uchar v)) bj = if decide (bj = bi) then Z.testbit v (bi mod 8) else bit data bj.
Proof.
  unfold BPB, BSIZE, bit. intros Hl Hi Hj Hv.
  assert (0 <= bi / 8 < 1024) by (split; [apply Z.div_pos; lia|apply Z.div_lt_upper_bound; lia]).
  assert (0 <= bj / 8) by (apply Z.div_pos; lia).
  pose proof (Z.mod_pos_bound bi 8 ltac:(lia)). pose proof (Z.mod_pos_bound bj 8 ltac:(lia)).
  pose proof (Z.div_mod bi 8 ltac:(lia)). pose proof (Z.div_mod bj 8 ltac:(lia)).
  destruct (decide (bj / 8 = bi / 8)) as [E|E].
  - rewrite E, znth_zupd_eq by lia. rewrite testbit_uchar by lia. case_decide; [by subst|].
    apply Hv; [lia|]. lia.
  - rewrite znth_zupd_ne by lia. rewrite decide_False; [done|]. congruence.
Qed.

Lemma bit_bit_set data bi bj :
  zlen data = BSIZE -> 0 <= bi < BPB -> 0 <= bj < BPB ->
  bit (bit_set data bi) bj = if decide (bj = bi) then true else bit data bj.
Proof.
  intros Hl Hi Hj. pose proof (Z.mod_pos_bound bi 8 ltac:(lia)). unfold bit_set, bit_mask.
  rewrite bit_upd; [|done..|]; rewrite Z.shiftl_1_l.
  - case_decide; [|done]. rewrite Z.lor_spec, Z.pow2_bits_true by lia. apply orb_true_r.
  - intros k Hk Hne. rewrite Z.lor_spec, Z.pow2_bits_false by lia. apply orb_false_r.
Qed.

Lemma bit_bit_clear data bi bj :
  zlen data = BSIZE -> 0 <= bi < BPB -> 0 <= bj < BPB ->
  bit (bit_clear data bi) bj = if decide (bj = bi) then false else bit data bj.
Proof.
  intros Hl Hi Hj. pose proof (Z.mod_pos_bound bi 8 ltac:(lia)). unfold bit_clear, bit_mask.
  rewrite bit_upd; [|done..|]; rewrite Z.shiftl_1_l.
  - case_decide; [|done]. rewrite Z.land_spec, Z.lnot_spec, Z.pow2_bits_true by lia. apply andb_false_r.
  - intros k Hk Hne. rewrite Z.land_spec, Z.lnot_spec, Z.pow2_bits_false by lia. apply andb_true_r.
Qed.

Lemma byte_ok_uchar x : byte_ok (uchar x).
Proof. unfold byte_ok. apply (uchar_range x). Qed.

Lemma block_ok_zupd data i x : block_ok data -> byte_ok x -> block_ok (zupd data i x).
Proof. intros [Hl Hb] Hx. split; [by rewrite zlen_zupd|auto with kernel]. Qed.
Lemma block_ok_bit_set data bi : block_ok data -> block_ok (bit_set data bi).
Proof. intros. apply block_ok_zupd; [done|apply byte_ok_uchar]. Qed.
Lemma block_ok_bit_clear data bi : block_ok data -> block_ok (bit_clear data bi).
Proof. intros. apply block_ok_zupd; [done|apply byte_ok_uchar]. Qed.
Lemma block_ok_zero : block_ok (replicate (Z.to_nat BSIZE) 0).
Proof. split; [by rewrite zlen_replicate|by apply bytes_ok_replicate]. Qed.
Lemma block_ok_splice data off l :
  block_ok data -> bytes_ok l -> 0 <= off -> off + zlen l <= BSIZE -> block_ok (splice data off l).
Proof. intros [Hl Hb] Hx ? ?. split; [rewrite zlen_splice; lia|auto with kernel]. Qed.
#[export] Hint Resolve block_ok_bit_set block_ok_bit_clear block_ok_zero : kernel.

(** The scan of one bit map block finds the first clear bit of a block below [size]. *)
Lemma balloc_scan_ok k data sz b bi :
  0 <= b -> 0 <= bi -> b + bi + Z.of_nat k < 2 ^ 32 ->
  match balloc_scan k data sz b bi with
  | Some r => bi <= r < bi + Z.of_nat k /\ b + r < sz /\ bit data r = false /\
              forall j, bi <= j < r -> bit data j = true
  | None => forall j, bi <= j < bi + Z.of_nat k -> b + j < sz -> bit data j = true
  end.
Proof.
  revert bi. induction k as [|k IH]; simpl; intros bi Hb Hbi Hk; [intros j; lia|].
  rewrite uint_small by lia. destruct (b + bi <? sz) eqn:E; simpl; zbool; [|intros j; lia].
  rewrite bit_free_bit. destruct (bit data bi) eqn:Eb; simpl.
  - specialize (IH (bi + 1) Hb ltac:(lia) ltac:(lia)).
    destruct (balloc_scan k data sz b (bi + 1)) as [r|].
    + destruct IH as (? & ? & ? & Hj). split_and!; try lia; [done|]. intros j ?.
      destruct (decide (j = bi)) as [->|]; [done|]. apply Hj. lia.
    + intros j ??. destruct (decide (j = bi)) as [->|]; [done|]. apply IH; lia.
  - split_and!; try lia; try done.
Qed.

(** ** Buffers of the file system *)

Section Alloc.
Context {B M : Type} `{BC : BufCache B, BL : !BufCacheLaws B} `{KM : KMem M}.
Implicit Types s : fsys B M.

Definition blk s (n : Z) : list Z := bc_block (bc s) n.
Definition binv s (h : list (Z * Z)) : Prop := bc_inv (bc s) h.

(** [keep h s s']: only the buffer cache changed, and not the data of the buffers of [h]. *)
Definition keep (h : list (Z * Z)) s s' : Prop :=
  (exists b, s' = set_bc b s) /\ forall q, q ∈ h.*1 -> bc_data (bc s') q = bc_data (bc s) q.

Lemma keep_refl h s : keep h s s.
Proof using Type. split; [exists (bc s); by destruct s|done]. Qed.
Lemma keep_trans h s1 s2 s3 : keep h s1 s2 -> keep h s2 s3 -> keep h s1 s3.
Proof using Type.
  intros [[b1 ->] H1] [[b2 ->] H2]. split; [by exists b2|]. intros q Hq. by rewrite H2, H1.
Qed.
Lemma keep_cons p h s s' : keep (p :: h) s s' -> keep h s s'.
Proof using Type. intros [? H]. split; [done|]. intros q Hq. apply H. set_solver. Qed.

Lemma keep_sb h s s' : keep h s s' -> sb s' = sb s.
Proof using Type. by intros [[b ->] _]. Qed.
Lemma keep_heap h s s' : keep h s s' -> heap s' = heap s.
Proof using Type. by intros [[b ->] _]. Qed.
Lemma keep_itable h s s' : keep h s s' -> itable s' = itable s.
Proof using Type. by intros [[b ->] _]. Qed.
Lemma keep_mm h s s' : keep h s s' -> mm s' = mm s.
Proof using Type. by intros [[b ->] _]. Qed.

Lemma blk_ok s h n : binv s h -> block_ok (blk s n).
Proof using Type. apply bc_block_ok. Qed.

Lemma bread_spec s h n :
  binv s h -> zlen h < NBUF -> 0 <= n < bc_size -> n ∉ h.*2 ->
  exists p s', fs_bread ROOTDEV n s = Ok (p, s') /\ keep h s s' /\ binv s' ((p, n) :: h) /\
    (p ∉ h.*1) /\ bc_data (bc s') p = blk s n /\ forall m, blk s' m = blk s m.
Proof using Type.
  intros Hi Hl Hn Hh. destruct (bc_bread_ok _ _ _ Hi Hl Hn Hh) as (p & b & He & Hi' & Hp & Hd & Hq & Hm).
  exists p, (set_bc b s). split_and!; try done; [by apply zoom_ok|]. split; [by exists b|done].
Qed.

Lemma brelse_spec s h p n :
  binv s ((p, n) :: h) -> bc_data (bc s) p = blk s n ->
  exists s', fs_brelse p s = Ok (tt, s') /\ keep h s s' /\ binv s' h /\ forall m, blk s' m = blk s m.
Proof using Type.
  intros Hi Hc. destruct (bc_brelse_ok _ _ h p n Hi ltac:(done) Hc) as (b & He & Hi' & Hq & Hm).
  exists (set_bc b s). split_and!; try done; [by apply zoom_ok|]. split; [by exists b|done].
Qed.

(** Change the data, write it, release the buffer. *)
Lemma bwrite_spec s h p n l :
  binv s ((p, n) :: h) -> p ∉ h.*1 -> block_ok l ->
  exists s1 s2 s', bp_set p l s = Ok (tt, s1) /\ fs_bwrite p s1 = Ok (tt, s2) /\
    fs_brelse p s2 = Ok (tt, s') /\ keep h s s' /\ binv s' h /\
    forall m, blk s' m = if decide (m = n) then l else blk s m.
Proof using Type.
  intros Hi Hp Hl. assert (Hpn : (p, n) ∈ (p, n) :: h) by set_solver.
  destruct (bc_set_ok _ _ p n l Hi Hpn Hl) as (b1 & He1 & Hi1 & Hd1 & Hq1 & Hm1).
  destruct (bc_bwrite_ok _ _ p n Hi1 Hpn) as (b2 & He2 & Hi2 & Hq2 & Hm2).
  destruct (bc_brelse_ok _ _ h p n Hi2 ltac:(done)) as (b3 & He3 & Hi3 & Hq3 & Hm3).
  { rewrite Hm2, decide_True by done. apply Hq2. set_solver. }
  exists (set_bc b1 s), (set_bc b2 s), (set_bc b3 s). split_and!; try done.
  - by apply zoom_ok.
  - apply (zoom_ok bc set_bc _ (set_bc b1 s)). done.
  - apply (zoom_ok bc set_bc _ (set_bc b2 s)). done.
  - split; [by exists b3|]. intros q Hq. simpl. rewrite Hq3 by done.
    rewrite Hq2 by set_solver. apply Hq1; set_solver.
  - intros m. unfold blk. simpl. rewrite Hm3, Hm2, Hm1, Hd1. done.
Qed.

Lemma bzero_spec s h n :
  binv s h -> zlen h < NBUF -> 0 <= n < bc_size -> n ∉ h.*2 ->
  exists s', bzero ROOTDEV n s = Ok (tt, s') /\ keep h s s' /\ binv s' h /\
    forall m, blk s' m = if decide (m = n) then replicate (Z.to_nat BSIZE) 0 else blk s m.
Proof using Type.
  intros Hi Hl Hn Hh. destruct (bread_spec s h n Hi Hl Hn Hh) as (p & s1 & He & Hk & Hi1 & Hp & Hd & Hb).
  assert (Hz : splice (blk s n) 0 (replicate (Z.to_nat BSIZE) 0) = replicate (Z.to_nat BSIZE) 0).
  { destruct (blk_ok s h n Hi) as [Hlen _]. unfold splice. rewrite take_0, length_replicate, drop_ge; [by rewrite app_nil_r|].
    unfold zlen, BSIZE in Hlen. change (Z.to_nat BSIZE) with (Z.to_nat 1024). lia. }
  destruct (bwrite_spec s1 h p n (replicate (Z.to_nat BSIZE) 0) Hi1 Hp block_ok_zero)
    as (s2 & s3 & s' & He1 & He2 & He3 & Hk' & Hi' & Hb').
  exists s'. split_and!; [|by eapply keep_trans|done|].
  - unfold bzero. rewrite uint_small by (pose proof bc_size_max; lia). kstep He. unfold bp_data. ksimpl. rewrite Hd, Hz.
    kstep He1. by kstep He2.
  - intros m. by rewrite Hb', Hb.
Qed.

(** ** The layout of the disk and the bit map *)

(** First block behind the boot block, super block, log, inodes and bit map. *)
Definition meta_end (sb : xv6fs_super_block) : Z := bmapstart sb + sb_size sb / BPB + 1.

Record sb_ok (sb : xv6fs_super_block) : Prop := {
  sbo_size : 0 < sb_size sb < 2 ^ 31 - BPB;
  sbo_disk : sb_size sb <= bc_size;
  sbo_inodes : 1 < inodestart sb /\ 0 <= ninodes sb /\ inodestart sb + ninodes sb / IPB + 1 <= bmapstart sb;
  sbo_meta : meta_end sb <= sb_size sb;
}.

Definition used s (b : Z) : bool := bit (blk s (BBLOCK b (sb s))) (b mod BPB).

Record fs_ok s (h : list (Z * Z)) : Prop := {
  fo_inv : binv s h;
  fo_sb : sb_ok (sb s);
  fo_meta : forall b, 0 <= b < meta_end (sb s) -> used s b = true;
}.

(** The held buffers are in use, are not bit map blocks, and leave room for another. *)
Definition held_ok s (h : list (Z * Z)) : Prop :=
  zlen h < NBUF /\
  forall n, n ∈ h.*2 -> 0 <= n < sb_size (sb s) /\ used s n = true /\
    ~ (bmapstart (sb s) <= n < meta_end (sb s)).

Lemma BBLOCK_eq sb b : sb_ok sb -> 0 <= b < sb_size sb -> BBLOCK b sb = b / BPB + bmapstart sb.
Proof using Type.
  intros [Hs _ Hi Hm] Hb. unfold BBLOCK, meta_end in *.
  assert (b / BPB <= sb_size sb / BPB) by (apply Z.div_le_mono; [done|lia]).
  assert (0 <= b / BPB) by (apply Z.div_pos; [lia|done]).
  assert (0 <= ninodes sb / IPB) by (apply Z.div_pos; [lia|done]).
  apply uint_small. unfold BPB, BSIZE in *. lia.
Qed.

Lemma BBLOCK_range sb b : sb_ok sb -> 0 <= b < sb_size sb -> bmapstart sb <= BBLOCK b sb < meta_end sb.
Proof using Type.
  intros Hs Hb. rewrite BBLOCK_eq by done. unfold meta_end.
  assert (b / BPB <= sb_size sb / BPB) by (apply Z.div_le_mono; [done|lia]).
  assert (0 <= b / BPB) by (apply Z.div_pos; [lia|done]). lia.
Qed.

Lemma sb_meta_pos sb : sb_ok sb -> 0 < bmapstart sb < meta_end sb /\ meta_end sb <= sb_size sb <= bc_size /\ sb_size sb < 2 ^ 31.
Proof using Type.
  intros [? ? (? & ? & ?) ?]. assert (0 <= ninodes sb / IPB) by (apply Z.div_pos; [lia|done]).
  assert (0 <= sb_size sb / BPB) by (apply Z.div_pos; [lia|done]).
  unfold meta_end, BPB, BSIZE in *. lia.
Qed.

Lemma used_ext s s' c : sb s' = sb s -> (forall m, blk s' m = blk s m) -> used s' c = used s c.
Proof using Type. intros Hs Hb. unfold used. by rewrite Hs, Hb. Qed.

(** Writing one bit map block with the bit of one block changed. *)
Lemma used_flip s s' b v data :
  sb_ok (sb s) -> sb s' = sb s -> 0 <= b < sb_size (sb s) ->
  blk s' (BBLOCK b (sb s)) = data ->
  (forall m, bmapstart (sb s) <= m < meta_end (sb s) -> m <> BBLOCK b (sb s) -> blk s' m = blk s m) ->
  (forall j, 0 <= j < BPB -> bit data j = if decide (j = b mod BPB) then v else bit (blk s (BBLOCK b (sb s))) j) ->
  forall c, 0 <= c < sb_size (sb s) -> used s' c = if decide (c = b) then v else used s c.
Proof using Type.
  intros Hs Hsb Hb Hd Hm Hj c Hc. unfold used. rewrite Hsb.
  pose proof (Z.mod_pos_bound c BPB ltac:(done)). pose proof (Z.mod_pos_bound b BPB ltac:(done)).
  pose proof (Z.div_mod c BPB ltac:(done)). pose proof (Z.div_mod b BPB ltac:(done)).
  destruct (decide (c / BPB = b / BPB)) as [E|E].
  - assert (HB : BBLOCK c (sb s) = BBLOCK b (sb s)) by (rewrite !BBLOCK_eq by done; lia).
    rewrite HB, Hd, Hj by lia. do 2 case_decide; subst; try done; lia.
  - rewrite decide_False by congruence. rewrite Hm; [done|by apply BBLOCK_range|].
    rewrite !BBLOCK_eq by done. lia.
Qed.

(** What [balloc] does when it finds the free block [b + bi] in the bit map block of [b]. *)
Lemma balloc_take s h p i bi s1 :
  fs_ok s h -> held_ok s h -> 0 <= i -> 0 <= bi < BPB -> i * BPB + bi < sb_size (sb s) ->
  let b := i * BPB + bi in
  let n := BBLOCK (i * BPB) (sb s) in
  bit (blk s n) bi = false ->
  keep h s s1 -> binv s1 ((p, n) :: h) -> p ∉ h.*1 -> (forall m, blk s1 m = blk s m) ->
  exists s2 s3 s4 s', bp_set p (bit_set (blk s n) bi) s1 = Ok (tt, s2) /\ fs_bwrite p s2 = Ok (tt, s3) /\
    fs_brelse p s3 = Ok (tt, s4) /\ bzero ROOTDEV b s4 = Ok (tt, s') /\ keep h s s' /\
    fs_ok s' h /\ meta_end (sb s) <= b /\ used s b = false /\ blk s' b = replicate (Z.to_nat BSIZE) 0 /\
    (forall m, m <> b -> ~ (bmapstart (sb s) <= m < meta_end (sb s)) -> blk s' m = blk s m) /\
    (forall c, 0 <= c < sb_size (sb s) -> used s' c = if decide (c = b) then true else used s c).
Proof using Type.
  intros Hok [Hhl Hh] Hi Hbi Hsz b n Hbit Hk Hi1 Hp Hb1.
  destruct Hok as [Hinv Hsb Hmeta]. pose proof (sb_meta_pos _ Hsb) as Hpos.
  assert (Hbr : 0 <= b < sb_size (sb s)) by (unfold b, BPB, BSIZE in *; lia).
  assert (Hmod : b mod BPB = bi) by (unfold b; rewrite Z.add_comm, Z.mod_add by done; by apply Z.mod_small).
  assert (Hdiv : b / BPB = i) by (unfold b; rewrite Z.div_add_l by done; rewrite (Z.div_small bi) by lia; lia).
  assert (Hn : BBLOCK b (sb s) = n).
  { unfold n. rewrite !BBLOCK_eq by (done || unfold BPB, BSIZE in *; lia). by rewrite Hdiv, Z.div_mul. }
  assert (Hfree : used s b = false) by (unfold used; by rewrite Hn, Hmod).
  assert (Hbm : meta_end (sb s) <= b).
  { destruct (decide (b < meta_end (sb s))); [|lia]. rewrite Hmeta in Hfree by lia. done. }
  pose proof (BBLOCK_range _ b Hsb Hbr) as Hnr. rewrite Hn in Hnr.
  pose proof (blk_ok s h n Hinv) as Hdok.
  destruct (bwrite_spec s1 h p n (bit_set (blk s n) bi) Hi1 Hp ltac:(auto with kernel))
    as (s2 & s3 & s4 & He2 & He3 & He4 & Hk4 & Hi4 & Hb4).
  destruct (bzero_spec s4 h b Hi4 Hhl) as (s' & He' & Hk' & Hi' & Hb'); [lia| |].
  { intros Hbh. destruct (Hh b Hbh) as (_ & Hu & _). congruence. }
  assert (Hkk : keep h s s') by (eapply keep_trans; [done|by eapply keep_trans]).
  pose proof (keep_sb _ _ _ Hkk) as Hsb'.
  assert (Hblk : forall m, blk s' m = if decide (m = b) then replicate (Z.to_nat BSIZE) 0
                              else if decide (m = n) then bit_set (blk s n) bi else blk s m).
  { intros m. by rewrite Hb', Hb4, Hb1. }
  assert (Hu : forall c, 0 <= c < sb_size (sb s) -> used s' c = if decide (c = b) then true else used s c).
  { apply (used_flip s s' b true (bit_set (blk s n) bi)); try done; rewrite Hn.
    - rewrite Hblk, decide_False, decide_True by (done || lia). done.
    - intros m Hm Hmn. rewrite Hblk, !decide_False by (done || lia). done.
    - intros j Hj. rewrite Hmod. apply bit_bit_set; [apply Hdok|done..]. }
  exists s2, s3, s4, s'. split_and!; try done.
  - split; [done|by rewrite Hsb'|]. rewrite Hsb'. intros c Hc. rewrite Hu by lia.
    case_decide; [done|by apply Hmeta].
  - rewrite Hblk. by rewrite decide_True.
  - intros m Hm Hmb. rewrite Hblk, !decide_False; [done| |done]. intros ->. by apply Hmb.
Qed.

(** The result of [balloc]: the lowest free block, now in use and zeroed; or 0 when
    every block is in use. *)
Definition balloc_post (h : list (Z * Z)) s (r : Z) s' : Prop :=
  keep h s s' /\ fs_ok s' h /\
  ((r = 0 /\ (forall m, blk s' m = blk s m) /\ forall c, 0 <= c < sb_size (sb s) -> used s c = true) \/
   (meta_end (sb s) <= r < sb_size (sb s) /\ used s r = false /\ (forall c, 0 <= c < r -> used s c = true) /\
    blk s' r = replicate (Z.to_nat BSIZE) 0 /\
    (forall m, m <> r -> ~ (bmapstart (sb s) <= m < meta_end (sb s)) -> blk s' m = blk s m) /\
    (forall c, 0 <= c < sb_size (sb s) -> used s' c = if decide (c = r) then true else used s c))).

Lemma fs_ok_ext h h' s s' :
  fs_ok s h -> sb s' = sb s -> (forall m, blk s' m = blk s m) -> binv s' h' -> fs_ok s' h'.
Proof using Type.
  intros [? ? Hm] Hsb Hb Hi. split; [done|by rewrite Hsb|]. rewrite Hsb. intros b ?.
  rewrite (used_ext s s') by done. by apply Hm.
Qed.

Lemma held_ok_ext h s s' :
  held_ok s h -> sb s' = sb s -> (forall m, blk s' m = blk s m) -> held_ok s' h.
Proof using Type.
  intros [? Hh] Hsb Hb. split; [done|]. intros n Hn. rewrite Hsb, (used_ext s s') by done. by apply Hh.
Qed.

Lemma balloc_loop_spec fuel i s h :
  fs_ok s h -> held_ok s h -> 0 <= i ->
  (forall c, 0 <= c < i * BPB -> c < sb_size (sb s) -> used s c = true) ->
  (sb_size (sb s) / BPB + 1 - i < Z.of_nat fuel)%Z -> i <= sb_size (sb s) / BPB + 1 ->
  exists r s', balloc_loop fuel ROOTDEV (i * BPB) s = Ok (r, s') /\ balloc_post h s r s'.
Proof using Type.
  revert i s. induction fuel as [|fuel IH]; intros i s Hok Hh Hi Hall Hf Hif; [lia|].
  pose proof (fo_sb _ _ Hok) as Hsb. pose proof (sbo_size _ Hsb) as Hsz.
  pose proof (Z.div_mod (sb_size (sb s)) BPB ltac:(done)) as Hdm.
  pose proof (Z.mod_pos_bound (sb_size (sb s)) BPB ltac:(done)) as Hmb.
  assert (Hbnd : 0 <= i * BPB <= sb_size (sb s) + BPB) by (unfold BPB, BSIZE in *; lia).
  cbn [balloc_loop]. ksimpl. rewrite uint_small by (unfold BPB, BSIZE in *; lia).
  destruct (i * BPB <? sb_size (sb s)) eqn:Hlt; cbn [negb]; zbool.
  2:{ exists 0, s. split; [done|]. split_and!; [apply keep_refl|done|]. left.
      split_and!; [done..|]. intros c Hc. apply Hall; lia. }
  set (n := BBLOCK (i * BPB) (sb s)).
  pose proof (BBLOCK_range _ (i * BPB) Hsb ltac:(lia)) as Hn. fold n in Hn.
  pose proof (sb_meta_pos _ Hsb) as Hpos.
  assert (Hnb : n = i + bmapstart (sb s)) by (unfold n; rewrite BBLOCK_eq, Z.div_mul by (done || lia); lia).
  assert (Hnh : n ∉ h.*2). { intros Hx. destruct Hh as [_ Hh]. by destruct (Hh n Hx) as (_ & _ & ?). }
  destruct (bread_spec s h n (fo_inv _ _ Hok) (proj1 Hh) ltac:(lia) Hnh)
    as (p & s1 & He1 & Hk1 & Hi1 & Hp & Hd & Hb1).
  kstep He1. unfold bp_data. ksimpl. rewrite Hd.
  pose proof (balloc_scan_ok (Z.to_nat BPB) (blk s n) (sb_size (sb s)) (i * BPB) 0
    ltac:(lia) ltac:(lia) ltac:(unfold BPB, BSIZE in *; lia)) as Hscan.
  assert (Hused : forall j, 0 <= j < BPB -> i * BPB + j < sb_size (sb s) ->
            used s (i * BPB + j) = bit (blk s n) j).
  { intros j Hj Hjs. unfold used. rewrite BBLOCK_eq by (done || unfold BPB, BSIZE in *; lia).
    rewrite Z.div_add_l, (Z.div_small j), Z.add_0_r, <- Hnb by (done || lia).
    by rewrite Z.add_comm, Z.mod_add, Z.mod_small by (done || lia). }
  destruct (balloc_scan _ _ _ _ _) as [bi|].
  - destruct Hscan as (Hbi & Hbs & Hbf & Hbelow). rewrite Z2Nat.id in Hbi by done.
    destruct (balloc_take s h p i bi s1) as (s2 & s3 & s4 & s' & He2 & He3 & He4 & He5 & Hk & Hok' & Hm & Hu & Hz & Hfr & Hus);
      try done; try lia.
    exists (i * BPB + bi), s'. split.
    + kstep He2. kstep He3. kstep He4. kstep He5. unfold mret, K_ret.
      by rewrite uint_small by (unfold BPB, BSIZE in *; lia).
    + split_and!; [done..|]. right. split_and!; try done; try lia.
      intros c Hc. destruct (decide (c < i * BPB)); [apply Hall; lia|].
      replace c with (i * BPB + (c - i * BPB)) by lia. rewrite Hused by lia. apply Hbelow. lia.
  - rewrite Z2Nat.id in Hscan by done.
    destruct (brelse_spec s1 h p n Hi1 ltac:(by rewrite Hd, Hb1)) as (s2 & He2 & Hk2 & Hi2 & Hb2).
    assert (Hk : keep h s s2) by by eapply keep_trans.
    assert (Hb : forall m, blk s2 m = blk s m) by (intros; by rewrite Hb2, Hb1).
    pose proof (keep_sb _ _ _ Hk) as Hsb2. kstep He2.
    replace (int (i * BPB + BPB)) with ((i + 1) * BPB) by (rewrite int_small by (unfold BPB, BSIZE in *; lia); lia).
    destruct (IH (i + 1) s2) as (r & s' & He' & Hpost).
    + by eapply fs_ok_ext.
    + by eapply held_ok_ext.
    + lia.
    + rewrite Hsb2. intros c Hc Hcs. rewrite (used_ext s s2) by done.
      destruct (decide (c < i * BPB)); [apply Hall; lia|].
      replace c with (i * BPB + (c - i * BPB)) by lia. rewrite Hused by lia. apply Hscan; lia.
    + rewrite Hsb2. lia.
    + rewrite Hsb2. unfold BPB, BSIZE in *. lia.
    + exists r, s'. split; [done|]. destruct Hpost as (Hk' & Hok' & Hcase). rewrite Hsb2 in Hcase.
      split_and!; [by eapply keep_trans|done|].
      destruct Hcase as [(-> & Hm & Hu)|(? & Hu & Hlow & Hz & Hfr & Hus)]; [left|right].
      * split_and!; [done|intros; by rewrite Hm|]. intros c Hc. rewrite <- (used_ext s s2) by done. by apply Hu.
      * rewrite (used_ext s s2) in Hu by done. split_and!; try done; try lia.
        -- intros c Hc. rewrite <- (used_ext s s2) by done. by apply Hlow.
        -- intros m Hm Hnm. rewrite Hfr; done.
        -- intros c Hc. rewrite Hus, (used_ext s s2) by done. done.
Qed.

Lemma balloc_spec s h :
  fs_ok s h -> held_ok s h ->
  exists r s', balloc ROOTDEV s = Ok (r, s') /\ balloc_post h s r s'.
Proof using Type.
  intros Hok Hh. pose proof (sbo_size _ (fo_sb _ _ Hok)).
  assert (0 <= sb_size (sb s) / BPB) by (apply Z.div_pos; [lia|done]).
  unfold balloc. ksimpl. apply (balloc_loop_spec _ 0); try done; try lia.
Qed.

(** [bfree] of a block in use clears its bit and nothing else. *)
Lemma bfree_spec s h b :
  fs_ok s h -> held_ok s h -> meta_end (sb s) <= b < sb_size (sb s) -> used s b = true ->
  exists s', bfree ROOTDEV b s = Ok (tt, s') /\ keep h s s' /\ fs_ok s' h /\
    (forall m, ~ (bmapstart (sb s) <= m < meta_end (sb s)) -> blk s' m = blk s m) /\
    (forall c, 0 <= c < sb_size (sb s) -> used s' c = if decide (c = b) then false else used s c).
Proof using Type.
  intros Hok Hh Hb Hu. pose proof (fo_sb _ _ Hok) as Hsb. pose proof (sb_meta_pos _ Hsb) as Hpos.
  pose proof (Z.mod_pos_bound b BPB ltac:(done)) as Hmb.
  assert (Hb0 : 0 <= b < sb_size (sb s)) by lia.
  set (n := BBLOCK b (sb s)). pose proof (BBLOCK_range _ b Hsb Hb0) as Hn. fold n in Hn.
  assert (Hnh : n ∉ h.*2). { intros Hx. destruct Hh as [_ Hh]. by destruct (Hh n Hx) as (_ & _ & ?). }
  destruct (bread_spec s h n (fo_inv _ _ Hok) (proj1 Hh) ltac:(lia) Hnh)
    as (p & s1 & He1 & Hk1 & Hi1 & Hp & Hd & Hb1).
  pose proof (blk_ok s h n (fo_inv _ _ Hok)) as Hdok.
  destruct (bwrite_spec s1 h p n (bit_clear (blk s n) (b mod BPB)) Hi1 Hp ltac:(auto with kernel))
    as (s2 & s3 & s' & He2 & He3 & He4 & Hk4 & Hi4 & Hb4).
  assert (Hk : keep h s s') by by eapply keep_trans. pose proof (keep_sb _ _ _ Hk) as Hsb'.
  assert (Hblk : forall m, blk s' m = if decide (m = n) then bit_clear (blk s n) (b mod BPB) else blk s m).
  { intros m. by rewrite Hb4, Hb1. }
  assert (Hus : forall c, 0 <= c < sb_size (sb s) -> used s' c = if decide (c = b) then false else used s c).
  { apply (used_flip s s' b false (bit_clear (blk s n) (b mod BPB))); try done; fold n.
    - rewrite Hblk. by rewrite decide_True.
    - intros m Hm Hmn. rewrite Hblk. by rewrite decide_False.
    - intros j Hj. apply bit_bit_clear; [apply Hdok|done..]. }
  exists s'. split_and!; try done.
  - unfold bfree. ksimpl. fold n. kstep He1. unfold bp_data. ksimpl. rewrite Hd, bit_free_bit.
    unfold used in Hu. fold n in Hu. rewrite Hu. simpl. kstep He2. by kstep He3.
  - split; [done|by rewrite Hsb'|]. rewrite Hsb'. intros c Hc. rewrite Hus by lia.
    rewrite decide_False by lia. by apply Hok.
  - intros m Hm. rewrite Hblk, decide_False; [done|]. intros ->. by apply Hm.
Qed.
End Alloc.
