(* ===== verification/Bmap.v ===== *)
(** * From a file's block numbers to disk blocks

    The mapping an inode's [addrs] define ([iaddr]), its well-formedness, and the
    specification of [bmap]: the block of [bn] if there is one, else a fresh,
    zeroed block added to the mapping, else 0 on a full disk. *)

From stdpp Require Import base numbers list list_numbers gmap strings.
From Stdlib Require Import ZArith Lia.
From S2P Require Import Prelude Params Virtio Bio Kmem Fsys Blocks BlocksProof.

Section Bmap.
Context {B M : Type} `{BC : BufCache B, BL : !BufCacheLaws B} `{KM : KMem M}.
Implicit Types s : fsys B M.

(** The indirect block, and the disk block of the file's block [bn]; 0 for none. *)
Definition indirect (ip : xv6fs_inode) : Z := znth (addrs ip) NDIRECT.
Definition iaddr s (ip : xv6fs_inode) (bn : Z) : Z :=
  if bn <? NDIRECT then znth (addrs ip) bn
  else if indirect ip =? 0 then 0
  else load32 (blk s (indirect ip)) (4 * (bn - NDIRECT)).

Definition data_block s (n : Z) : Prop := meta_end (sb s) <= n < sb_size (sb s) /\ used s n = true.

Record ino_ok s (ip : xv6fs_inode) : Prop := {
  io_dev : xi_dev ip = ROOTDEV;
  io_len : zlen (addrs ip) = NDIRECT + 1;
  io_data : forall bn, 0 <= bn < MAXFILE -> iaddr s ip bn <> 0 -> data_block s (iaddr s ip bn);
  io_ind : indirect ip <> 0 -> data_block s (indirect ip);
  io_inj : forall bn bn', 0 <= bn < MAXFILE -> 0 <= bn' < MAXFILE ->
    iaddr s ip bn <> 0 -> iaddr s ip bn = iaddr s ip bn' -> bn = bn';
  io_ind_ne : forall bn, 0 <= bn < MAXFILE -> indirect ip <> 0 -> iaddr s ip bn <> indirect ip;
}.

(** [s'] differs from [s] in the buffer cache and in the inode object at [p]. *)
Definition only_ino s (p : Z) (ip' : xv6fs_inode) s' : Prop :=
  exists b, s' = set_bc b (set_heap (insert p (HInode ip')) s).

(** Blocks in use keep their contents, but for the bit map and the block [x]. *)
Definition preserved s s' (x : Z) : Prop :=
  (forall m, data_block s m -> m <> x -> blk s' m = blk s m) /\
  (forall m, 0 <= m < bmapstart (sb s) -> blk s' m = blk s m) /\
  (forall m, 0 <= m < sb_size (sb s) -> used s m = true -> used s' m = true).

Lemma load32_zero off : load32 (replicate (Z.to_nat BSIZE) 0) off = 0.
Proof using Type.
  unfold load, sub. generalize (Z.to_nat off) (Z.to_nat (Z.of_nat 4)) (Z.to_nat BSIZE). intros o n k.
  rewrite drop_replicate, take_replicate. generalize (n `min` (k - o))%nat. clear.
  intros k. induction k; simpl; lia.
Qed.

Lemma data_block_pos s h n : fs_ok s h -> data_block s n -> 0 < n < bc_size /\ n < 2 ^ 31 /\ bmapstart (sb s) < n.
Proof using Type. intros Hok [Hn _]. pose proof (sb_meta_pos _ (fo_sb _ _ Hok)). lia. Qed.

Lemma data_block_mono s s' h x n :
  fs_ok s h -> sb s' = sb s -> preserved s s' x -> data_block s n -> data_block s' n.
Proof using Type.
  intros Hok Hsb (_ & _ & Hu) Hn. pose proof (data_block_pos _ _ _ Hok Hn) as Hp.
  destruct Hn as [Hn Hus]. split; [by rewrite Hsb|]. apply Hu; [lia|done].
Qed.

Lemma preserved_refl s x : preserved s s x.
Proof using Type. by split_and!. Qed.

Lemma preserved_trans s1 s2 s3 h x y z :
  fs_ok s1 h -> sb s2 = sb s1 -> preserved s1 s2 x -> preserved s2 s3 y ->
  (forall m, data_block s1 m -> m <> z -> m <> x /\ m <> y) -> preserved s1 s3 z.
Proof using Type.
  intros Hok Hsb H12 H23 Hz. pose proof (sb_meta_pos _ (fo_sb _ _ Hok)) as Hp.
  pose proof H12 as (Hd1 & Hm1 & Hu1). destruct H23 as (Hd2 & Hm2 & Hu2). rewrite Hsb in *. split_and!.
  - intros m Hm Hmz. destruct (Hz m Hm Hmz). rewrite Hd2; [by apply Hd1| |done].
    by eapply data_block_mono.
  - intros m Hm. rewrite Hm2 by lia. by apply Hm1.
  - intros m Hm Hu. apply Hu2; [done|]. by apply Hu1.
Qed.

Lemma preserved_weaken s s' x h : fs_ok s h -> preserved s s' 0 -> preserved s s' x.
Proof using Type.
  intros Hok (Hd & Hm & Hu). split_and!; [|done..]. intros m Hdm _. apply Hd; [done|].
  pose proof (data_block_pos _ _ _ Hok Hdm). lia.
Qed.

Lemma balloc_preserved h s r s' : balloc_post h s r s' -> fs_ok s h -> preserved s s' 0.
Proof using Type.
  intros (Hk & _ & Hcase) Hok. pose proof (sb_meta_pos _ (fo_sb _ _ Hok)) as Hp.
  pose proof (keep_sb _ _ _ Hk) as Hsb.
  destruct Hcase as [(_ & Hm & _)|(Hr & Hf & _ & _ & Hm & Hu)]; split_and!.
  - intros; apply Hm.
  - intros; apply Hm.
  - intros m Hx. by rewrite (used_ext s s') by done.
  - intros m [Hx Hxu] _. apply Hm; [congruence|lia].
  - intros m Hx. apply Hm; lia.
  - intros m Hx Hxu. rewrite Hu by lia. by case_decide.
Qed.

Lemma balloc_data_block h s r s' : balloc_post h s r s' -> r <> 0 -> data_block s' r.
Proof using Type.
  intros (Hk & Hok & Hcase) Hr. pose proof (keep_sb _ _ _ Hk) as Hsb.
  pose proof (sb_meta_pos _ (fo_sb _ _ Hok)) as Hp. rewrite Hsb in Hp.
  destruct Hcase as [(? & _)|(Hx & _ & _ & _ & _ & Hu)]; [done|]. split; [by rewrite Hsb|].
  rewrite Hu by lia. by rewrite decide_True.
Qed.

Lemma only_ino_id s p ip b :
  heap s !! p = Some (HInode ip) -> only_ino s p ip (set_bc b s).
Proof using Type. intros Hp. exists b. unfold set_heap, set_bc. simpl. by rewrite insert_id. Qed.

Lemma only_ino_refl s p ip : heap s !! p = Some (HInode ip) -> only_ino s p ip s.
Proof using Type. intros Hp. apply (only_ino_id s p ip (bc s)) in Hp. by destruct s. Qed.

Lemma only_ino_trans s1 s2 s3 p ip2 ip3 :
  only_ino s1 p ip2 s2 -> only_ino s2 p ip3 s3 -> only_ino s1 p ip3 s3.
Proof using Type.
  intros [b ->] [b' ->]. exists b'. unfold set_heap, set_bc. simpl. by rewrite insert_insert_eq.
Qed.

Lemma only_ino_sb s p ip s' : only_ino s p ip s' -> sb s' = sb s.
Proof using Type. by intros [b ->]. Qed.
Lemma only_ino_heap s p ip s' : only_ino s p ip s' -> heap s' !! p = Some (HInode ip).
Proof using Type. intros [b ->]. simpl. apply lookup_insert_eq. Qed.

(** ** Adding a block to an inode *)

Lemma ino_ok_add s s' h ip ip' bn r :
  fs_ok s h -> ino_ok s ip -> sb s' = sb s -> preserved s s' (indirect ip) ->
  xi_dev ip' = xi_dev ip -> zlen (addrs ip') = zlen (addrs ip) -> indirect ip' = indirect ip ->
  (forall bn', 0 <= bn' < MAXFILE -> bn' <> bn -> iaddr s' ip' bn' = iaddr s ip bn') ->
  iaddr s' ip' bn = r -> used s r = false -> data_block s' r -> ino_ok s' ip'.
Proof using Type.
  intros Hok [Hd Hl Hdat Hind Hinj Hne] Hsb Hpres Hd' Hl' Hi' Hoth Hr Hfresh Hdr.
  assert (Hold : forall b, 0 <= b < MAXFILE -> iaddr s ip b <> r \/ r = 0).
  { intros b Hb. destruct (decide (iaddr s ip b = 0)) as [E|E]; [destruct (decide (r = 0)); [by right|left; congruence]|].
    left. intros E'. destruct (Hdat b Hb E) as [_ Hu]. congruence. }
  assert (Hr0 : r <> 0). { destruct Hdr as [Hdr _]. rewrite Hsb in Hdr. pose proof (sb_meta_pos _ (fo_sb _ _ Hok)). lia. }
  split; [congruence..| | | |].
  - intros b Hb. destruct (decide (b = bn)) as [->|E]; [by rewrite Hr|]. rewrite Hoth by done.
    intros Hnz. by eapply data_block_mono; [..|by apply Hdat].
  - rewrite Hi'. intros Hnz. by eapply data_block_mono; [..|by apply Hind].
  - intros b b' Hb Hb'. destruct (decide (b = bn)) as [->|E], (decide (b' = bn)) as [->|E']; try done.
    + rewrite Hr, Hoth by done. destruct (Hold b' Hb'); congruence.
    + rewrite Hr, Hoth by done. destruct (Hold b Hb); congruence.
    + rewrite !Hoth by done. by apply Hinj.
  - intros b Hb. rewrite Hi'. intros Hnz. destruct (decide (b = bn)) as [->|E].
    + rewrite Hr. destruct (Hind Hnz) as [_ Hu]. congruence.
    + rewrite Hoth by done. by apply Hne.
Qed.

Lemma ino_ok_add_indirect s s' h ip ip' r :
  fs_ok s h -> ino_ok s ip -> sb s' = sb s -> preserved s s' 0 ->
  xi_dev ip' = xi_dev ip -> zlen (addrs ip') = zlen (addrs ip) -> indirect ip' = r ->
  (forall bn, 0 <= bn < MAXFILE -> iaddr s' ip' bn = iaddr s ip bn) ->
  used s r = false -> data_block s' r -> ino_ok s' ip'.
Proof using Type.
  intros Hok [Hd Hl Hdat Hind Hinj Hne] Hsb Hpres Hd' Hl' Hi' Hsame Hfresh Hdr.
  assert (Hr0 : r <> 0). { destruct Hdr as [Hdr _]. rewrite Hsb in Hdr. pose proof (sb_meta_pos _ (fo_sb _ _ Hok)). lia. }
  split; [congruence..| | | |].
  - intros b Hb. rewrite Hsame by done. intros Hnz. by eapply data_block_mono; [..|by apply Hdat].
  - by rewrite Hi'.
  - intros b b' Hb Hb'. rewrite !Hsame by done. by apply Hinj.
  - intros b Hb _. rewrite Hi', Hsame by done. intros E. rewrite <- E in Hr0.
    destruct (Hdat b Hb Hr0) as [_ Hu]. congruence.
Qed.

Definition full s : Prop := forall c, 0 <= c < sb_size (sb s) -> used s c = true.

Lemma keep_nil s b : keep [] s (set_bc b s).
Proof using Type. split; [by exists b|]. intros q Hq. by apply elem_of_nil in Hq. Qed.

Lemma get_xi_ok s p ip : heap s !! p = Some (HInode ip) -> get_xi p s = Ok (ip, s).
Proof using Type. intros Hp. unfold get_xi. ksimpl. by rewrite Hp. Qed.

Lemma held_ok_nil s : held_ok s [].
Proof using Type. split; [done|]. intros n Hn. by apply elem_of_nil in Hn. Qed.

Lemma fs_ok_set_heap s h f : fs_ok s h -> fs_ok (set_heap f s) h.
Proof using Type. intros [? ? ?]. by split. Qed.

(** A slot of [addrs]: the address it holds, or a fresh one stored in it, or none on a full disk. *)
Definition slot_post s (p k : Z) (ip : xv6fs_inode) (r : Z) s' (ip' : xv6fs_inode) : Prop :=
  only_ino s p ip' s' /\ fs_ok s' [] /\ preserved s s' 0 /\
  (((r <> 0 \/ full s) /\ r = znth (addrs ip) k /\ ip' = ip /\ forall m, blk s' m = blk s m) \/
   (znth (addrs ip) k = 0 /\ used s r = false /\ data_block s' r /\
    ip' = set_addrs (zupd (addrs ip) k r) ip /\ blk s' r = replicate (Z.to_nat BSIZE) 0)).

Lemma addr_slot_spec s p ip k :
  fs_ok s [] -> heap s !! p = Some (HInode ip) -> xi_dev ip = ROOTDEV ->
  exists r s' ip', addr_slot p k s = Ok (r, s') /\ slot_post s p k ip r s' ip'.
Proof using Type.
  intros Hok Hp Hdev. unfold addr_slot. kstep (get_xi_ok s p ip Hp).
  destruct (znth (addrs ip) k =? 0) eqn:Ea; zbool.
  2:{ exists (znth (addrs ip) k), s, ip. split; [done|]. split_and!; [|done|apply preserved_refl|].
      - by apply only_ino_refl.
      - left. split_and!; [by left|done..]. }
  rewrite Hdev. destruct (balloc_spec s [] Hok (held_ok_nil s)) as (r & s1 & He & Hpost). kstep He.
  pose proof (balloc_preserved _ _ _ _ Hpost Hok) as Hpres.
  pose proof (balloc_data_block _ _ _ _ Hpost) as Hdat. pose proof Hpost as ([[b ->] _] & Hok1 & Hcase).
  destruct (r =? 0) eqn:Er; zbool.
  - exists 0, (set_bc b s), ip. split; [done|]. split_and!; [by apply only_ino_id|done..|].
    destruct Hcase as [(_ & Hm & Hfull)|(Hr & _)]; [|pose proof (sb_meta_pos _ (fo_sb _ _ Hok)); lia].
    left. split_and!; [by right|done..].
  - destruct Hcase as [(? & _)|(Hr & Hu & _ & Hz & _)]; [done|].
    eexists r, _, _. split; [reflexivity|]. split_and!; [by exists b|by apply fs_ok_set_heap|done|].
    right. split_and!; [done|done|by apply Hdat|done|done].
Qed.

Lemma iaddr_ext s s' ip bn :
  (indirect ip <> 0 -> blk s' (indirect ip) = blk s (indirect ip)) -> iaddr s' ip bn = iaddr s ip bn.
Proof using Type.
  intros Hb. unfold iaddr. destruct (bn <? NDIRECT); [done|].
  destruct (indirect ip =? 0) eqn:E; [done|]. zbool. by rewrite Hb.
Qed.

Lemma ino_ok_ext s s' h ip :
  fs_ok s h -> ino_ok s ip -> sb s' = sb s -> preserved s s' 0 -> ino_ok s' ip.
Proof using Type.
  intros Hok Hio Hsb Hpres. pose proof Hio as [Hd Hl Hdat Hind Hinj Hne].
  assert (Hia : forall bn, iaddr s' ip bn = iaddr s ip bn).
  { intros bn. apply iaddr_ext. intros Hnz. apply (proj1 Hpres); [by apply Hind|done]. }
  split; [done..| | | |]; intros *; rewrite ?Hia; try done.
  - intros Hb Hnz. by eapply data_block_mono; [..|by apply Hdat].
  - intros Hnz. by eapply data_block_mono; [..|by apply Hind].
  - apply Hinj.
  - apply Hne.
Qed.

(** The result of [bmap]. *)
Definition bmap_post s (p : Z) (ip : xv6fs_inode) (bn r : Z) s' (ip' : xv6fs_inode) : Prop :=
  only_ino s p ip' s' /\ fs_ok s' [] /\ ino_ok s' ip' /\ preserved s s' (indirect ip) /\
  (indirect ip' = indirect ip \/ used s (indirect ip') = false) /\
  ip' = set_addrs (addrs ip') ip /\
  (forall bn', 0 <= bn' < MAXFILE -> bn' <> bn -> iaddr s' ip' bn' = iaddr s ip bn') /\
  iaddr s' ip' bn = r /\
  ((iaddr s ip bn <> 0 /\ r = iaddr s ip bn /\ ip' = ip /\ forall m, blk s' m = blk s m) \/
   (iaddr s ip bn = 0 /\ r = 0 /\ full s') \/
   (iaddr s ip bn = 0 /\ used s r = false /\ data_block s' r /\ blk s' r = replicate (Z.to_nat BSIZE) 0)).

Lemma full_ext s s' : sb s' = sb s -> (forall m, blk s' m = blk s m) -> full s -> full s'.
Proof using Type. intros Hsb Hb Hf c. rewrite Hsb, (used_ext s s') by done. apply Hf. Qed.

Lemma bmap_direct s p ip bn :
  fs_ok s [] -> heap s !! p = Some (HInode ip) -> ino_ok s ip -> 0 <= bn < NDIRECT ->
  exists r s' ip', bmap p bn s = Ok (r, s') /\ bmap_post s p ip bn r s' ip'.
Proof using Type.
  intros Hok Hp Hio Hbn. pose proof (io_len _ _ Hio) as Hlen. unfold bmap.
  rewrite (proj2 (Z.ltb_lt _ _)) by lia.
  destruct (addr_slot_spec s p ip bn Hok Hp (io_dev _ _ Hio)) as (r & s' & ip' & He & Hon & Hok' & Hpres & Hcase).
  pose proof (only_ino_sb _ _ _ _ Hon) as Hsb.
  assert (Hd : forall x y, iaddr x y bn = znth (addrs y) bn).
  { intros x y. unfold iaddr. by rewrite (proj2 (Z.ltb_lt _ _)) by lia. }
  exists r, s', ip'. split; [done|].
  destruct Hcase as [(Hr & Hrz & -> & Hm)|(Hz & Hfresh & Hdr & -> & Hzero)].
  - assert (Hia : forall b, iaddr s' ip b = iaddr s ip b) by (intros; by apply iaddr_ext).
    split_and!; try done.
    + by apply (ino_ok_ext s s' [] ip).
    + by eapply preserved_weaken.
    + by left.
    + by destruct ip.
    + rewrite Hia, Hd. done.
    + rewrite Hd. destruct (decide (r = 0)); [right; left|left]; split_and!; try congruence; try done.
      apply (full_ext s); [done..|]. by destruct Hr.
  - set (ip' := set_addrs (zupd (addrs ip) bn r) ip) in *.
    assert (Hind : indirect ip' = indirect ip).
    { unfold indirect, ip'. simpl. apply znth_zupd_ne; unfold NDIRECT in *; lia. }
    assert (Hoth : forall b, 0 <= b < MAXFILE -> b <> bn -> iaddr s' ip' b = iaddr s ip b).
    { intros b Hb Hne. unfold iaddr. rewrite Hind. destruct (b <? NDIRECT) eqn:E; zbool.
      - unfold ip'. simpl. apply znth_zupd_ne; lia.
      - destruct (indirect ip =? 0) eqn:E'; [done|]. zbool. f_equal. apply (proj1 Hpres); [by apply Hio|done]. }
    assert (Hbn' : iaddr s' ip' bn = r).
    { rewrite Hd. unfold ip'. simpl. apply znth_zupd_eq. unfold NDIRECT in *. lia. }
    assert (Hpres' : preserved s s' (indirect ip)) by by eapply preserved_weaken.
    split_and!; try done.
    + eapply (ino_ok_add s s' [] ip ip' bn r); try done. unfold ip'. simpl. by rewrite zlen_zupd.
    + by left.
    + right; right. by rewrite Hd.
Qed.

Lemma iaddr_indirect s ip k :
  0 <= k -> indirect ip <> 0 -> iaddr s ip (NDIRECT + k) = load32 (blk s (indirect ip)) (4 * k).
Proof using Type.
  intros Hk Hnz. unfold iaddr. rewrite (proj2 (Z.ltb_ge _ _)) by lia.
  rewrite (proj2 (Z.eqb_neq _ _)) by done. f_equal. lia.
Qed.

Lemma load32_store32_other a i j v :
  zlen a = BSIZE -> 0 <= i < NINDIRECT -> 0 <= j < NINDIRECT -> i <> j ->
  load32 (store32 a (4 * i) v) (4 * j) = load32 a (4 * j).
Proof using Type.
  intros Hl Hi Hj Hij. change NINDIRECT with 256 in *. unfold BSIZE in Hl.
  apply load_store_disj; lia.
Qed.

Lemma load32_store32 a i v :
  zlen a = BSIZE -> 0 <= i < NINDIRECT -> 0 <= v < 2 ^ 32 -> load32 (store32 a (4 * i) v) (4 * i) = v.
Proof using Type.
  intros Hl Hi Hv. change NINDIRECT with 256 in *. unfold BSIZE in Hl.
  rewrite load_store_same by lia. apply Z.mod_small. lia.
Qed.

(** Writing a block outside the bit map keeps the allocation state. *)
Lemma used_bmap s s' c :
  sb_ok (sb s) -> sb s' = sb s -> (forall m, bmapstart (sb s) <= m < meta_end (sb s) -> blk s' m = blk s m) ->
  0 <= c < sb_size (sb s) -> used s' c = used s c.
Proof using Type. intros Hok Hsb Hb Hc. unfold used. rewrite Hsb, Hb; [done|]. by apply BBLOCK_range. Qed.

Lemma fs_ok_write s s' h h' n :
  fs_ok s h -> sb s' = sb s -> ~ (bmapstart (sb s) <= n < meta_end (sb s)) ->
  (forall m, m <> n -> blk s' m = blk s m) -> binv s' h' -> fs_ok s' h'.
Proof using Type.
  intros Hok Hsb Hn Hb Hi. pose proof (fo_sb _ _ Hok) as Hs. pose proof (sb_meta_pos _ Hs) as Hp.
  split; [done|by rewrite Hsb|]. rewrite Hsb. intros b Hbr.
  rewrite (used_bmap s s') by (try done; try lia; intros; apply Hb; lia). by apply Hok.
Qed.

Lemma preserved_write s s' h n l :
  fs_ok s h -> sb s' = sb s -> data_block s n ->
  (forall m, blk s' m = if decide (m = n) then l else blk s m) -> preserved s s' n.
Proof using Type.
  intros Hok Hsb Hn Hb. pose proof (fo_sb _ _ Hok) as Hs. pose proof (sb_meta_pos _ Hs) as Hp.
  destruct Hn as [Hn _]. split_and!.
  - intros m _ Hne. rewrite Hb. by rewrite decide_False.
  - intros m Hm. rewrite Hb, decide_False; [done|lia].
  - intros m Hm. rewrite (used_bmap s s'); try done. intros c Hc. rewrite Hb, decide_False; [done|lia].
Qed.

(** Nothing but the buffers changed: the block there was, or none on a full disk. *)
Lemma bmap_post_same s p ip bn s' :
  fs_ok s [] -> heap s !! p = Some (HInode ip) -> ino_ok s ip ->
  keep [] s s' -> binv s' [] -> (forall m, blk s' m = blk s m) -> iaddr s ip bn <> 0 \/ full s ->
  bmap_post s p ip bn (iaddr s ip bn) s' ip.
Proof using Type.
  intros Hok Hp Hio Hk Hi Hb Hor. pose proof (keep_sb _ _ _ Hk) as Hsb.
  assert (Hpres : preserved s s' 0).
  { split_and!; [done..|]. intros m _. by rewrite (used_ext s s'). }
  assert (Hia : forall b, iaddr s' ip b = iaddr s ip b) by (intros; by apply iaddr_ext).
  destruct Hk as [[b ->] _]. split_and!; try done.
  - by apply only_ino_id.
  - by eapply (fs_ok_ext [] []).
  - by apply (ino_ok_ext s _ [] ip).
  - by eapply preserved_weaken.
  - by left.
  - by destruct ip.
  - destruct (decide (iaddr s ip bn = 0)) as [E|E]; [right; left|by left].
    split_and!; [done..|]. apply (full_ext s); [done..|]. by destruct Hor.
Qed.

(** A fresh block [r], taken by [balloc] between [s] and [s2], becomes entry [k] of the indirect block. *)
Lemma bmap_post_entry s p ip k r s2 s' :
  fs_ok s [] -> heap s !! p = Some (HInode ip) -> ino_ok s ip -> indirect ip <> 0 -> 0 <= k < NINDIRECT ->
  iaddr s ip (NDIRECT + k) = 0 -> used s r = false -> preserved s s2 0 -> data_block s2 r ->
  blk s2 r = replicate (Z.to_nat BSIZE) 0 -> sb s2 = sb s -> (exists h, fs_ok s2 h) ->
  keep [] s s' -> binv s' [] ->
  (forall m, blk s' m = if decide (m = indirect ip) then store32 (blk s (indirect ip)) (4 * k) r else blk s2 m) ->
  bmap_post s p ip (NDIRECT + k) r s' ip.
Proof using Type.
  intros Hok Hp Hio Hnz Hk Hz Hfresh Hp02 Hdr Hzero Hsb2 [h Hok2'] Hkeep Hi Hb. set (n := indirect ip) in *.
  pose proof (io_ind _ _ Hio Hnz) as Hnd. fold n in Hnd. pose proof (keep_sb _ _ _ Hkeep) as Hsb.
  pose proof (data_block_pos _ _ _ Hok Hnd) as Hn. pose proof (blk_ok s [] n (fo_inv _ _ Hok)) as [Hlen _].
  assert (Hnd2 : data_block s2 n) by (by eapply (data_block_mono s s2)).
  assert (Hsb' : sb s' = sb s2) by congruence.
  pose proof (preserved_write s2 s' h n _ Hok2' Hsb' Hnd2 Hb) as Hp23.
  assert (Hpres : preserved s s' n).
  { eapply (preserved_trans s s2 s' [] 0 n); try done. intros m Hm Hne. split; [|done].
    pose proof (data_block_pos _ _ _ Hok Hm). lia. }
  assert (Hok' : fs_ok s' []).
  { eapply (fs_ok_write s2 s' h [] n); try done.
    - destruct Hnd2. lia.
    - intros m Hm. rewrite Hb. by rewrite decide_False. }
  assert (Hnr : n <> r) by (destruct Hnd; congruence).
  assert (Hr32 : 0 <= r < 2 ^ 32) by (pose proof (data_block_pos _ _ _ Hok2' Hdr); lia).
  assert (Hia : forall j, 0 <= j < NINDIRECT ->
            iaddr s' ip (NDIRECT + j) = if decide (j = k) then r else iaddr s ip (NDIRECT + j)).
  { intros j Hj. rewrite !iaddr_indirect by (done || lia). fold n. rewrite Hb, decide_True by done.
    case_decide; [subst; by apply load32_store32|by apply load32_store32_other]. }
  assert (Hoth : forall b, 0 <= b < MAXFILE -> b <> NDIRECT + k -> iaddr s' ip b = iaddr s ip b).
  { intros b Hb0 Hne. destruct (decide (b < NDIRECT)).
    - unfold iaddr. by rewrite (proj2 (Z.ltb_lt _ _)) by lia.
    - replace b with (NDIRECT + (b - NDIRECT)) by lia. rewrite Hia by (unfold MAXFILE in *; lia).
      rewrite decide_False by lia. done. }
  assert (Hdr' : data_block s' r) by (by eapply (data_block_mono s2 s' h)).
  assert (Hr : iaddr s' ip (NDIRECT + k) = r) by (rewrite Hia by done; by rewrite decide_True).
  split_and!; try done.
  - destruct Hkeep as [[b ->] _]. by apply only_ino_id.
  - by eapply (ino_ok_add s s' [] ip ip (NDIRECT + k) r).
  - by left.
  - by destruct ip.
  - right; right. split_and!; try done. rewrite Hb, decide_False by done. done.
Qed.

Lemma bmap_entry_spec s p ip k :
  fs_ok s [] -> heap s !! p = Some (HInode ip) -> ino_ok s ip -> indirect ip <> 0 -> 0 <= k < NINDIRECT ->
  exists r s', bmap_entry p (indirect ip) k s = Ok (r, s') /\ bmap_post s p ip (NDIRECT + k) r s' ip.
Proof using Type.
  intros Hok Hp Hio Hnz Hk. set (n := indirect ip).
  pose proof (io_ind _ _ Hio Hnz) as Hnd. fold n in Hnd.
  pose proof (data_block_pos _ _ _ Hok Hnd) as Hn. pose proof (blk_ok s [] n (fo_inv _ _ Hok)) as [Hlen Hbytes].
  destruct (bread_spec s [] n (fo_inv _ _ Hok) ltac:(done) ltac:(lia)) as (bp & s1 & He1 & Hk1 & Hi1 & Hbp & Hd & Hb1);
    [by apply not_elem_of_nil|].
  pose proof (keep_sb _ _ _ Hk1) as Hsb1.
  unfold bmap_entry. kstep (get_xi_ok s p ip Hp). rewrite (io_dev _ _ Hio). fold n. kstep He1.
  unfold bp_data. ksimpl. rewrite Hd. pose proof (iaddr_indirect s ip k ltac:(lia) Hnz) as Hia. fold n in Hia.
  rewrite <- Hia. destruct (iaddr s ip (NDIRECT + k) =? 0) eqn:E; zbool.
  2:{ destruct (brelse_spec s1 [] bp n Hi1 ltac:(by rewrite Hd, Hb1)) as (s2 & He2 & Hk2 & Hi2 & Hb2). kstep He2.
      eexists _, s2. split; [reflexivity|]. apply bmap_post_same; try done; [by eapply keep_trans| |by left].
      intros. by rewrite Hb2, Hb1. }
  assert (Hok1 : fs_ok s1 [(bp, n)]) by by eapply (fs_ok_ext []).
  assert (Hh1 : held_ok s1 [(bp, n)]).
  { split; [done|]. intros m ->%list_elem_of_singleton. rewrite Hsb1, (used_ext s s1) by done.
    destruct Hnd as [Hnr Hnu]. split; [|split; [done|]]; simpl; lia. }
  destruct (balloc_spec s1 _ Hok1 Hh1) as (r & s2 & He2 & Hpost). kstep He2.
  pose proof (balloc_preserved _ _ _ _ Hpost Hok1) as Hp12.
  pose proof (balloc_data_block _ _ _ _ Hpost) as Hdr. pose proof Hpost as (Hk2 & Hok2 & Hcase).
  pose proof (keep_sb _ _ _ Hk2) as Hsb2.
  assert (Hp02 : preserved s s2 0).
  { apply (preserved_trans s s1 s2 [] 0 0 0); [done|done| |done|done].
    split_and!; [done..|]. intros m _. by rewrite (used_ext s s1). }
  assert (Hd2 : bc_data (bc s2) bp = blk s n).
  { rewrite <- Hd. apply Hk2. apply list_elem_of_fmap. exists (bp, n). split; [done|by apply list_elem_of_singleton]. }
  pose proof (fo_inv _ _ Hok2) as Hi2. pose proof (keep_trans [] _ _ _ Hk1 (keep_cons _ _ _ _ Hk2)) as Hk02.
  destruct (r =? 0) eqn:Er; zbool; cbn [negb].
  - assert (Hn2 : blk s2 n = blk s n) by (apply (proj1 Hp02); [done|lia]).
    destruct (brelse_spec s2 [] bp n Hi2 ltac:(by rewrite Hd2, Hn2)) as (s3 & He3 & Hk3 & Hi3 & Hb3).
    ksimpl. kstep He3. eexists _, s3. split; [reflexivity|].
    destruct Hcase as [(_ & Hm & Hfull)|(Hr & _)]; [|pose proof (sb_meta_pos _ (fo_sb _ _ Hok1)); lia].
    rewrite Er, <- E. apply bmap_post_same; try done; [by eapply keep_trans|intros; by rewrite Hb3, Hm, Hb1|].
    right. by apply (full_ext s1).
  - destruct Hcase as [(? & _)|(Hr & Hu & _ & Hz & _)]; [done|].
    assert (Hr32 : 0 <= r < 2 ^ 32) by (pose proof (sb_meta_pos _ (fo_sb _ _ Hok1)); lia).
    destruct (bwrite_spec s2 [] bp n (store32 (blk s n) (4 * k) r) Hi2 Hbp) as (s3 & s4 & s' & He3 & He4 & He5 & Hk5 & Hi5 & Hb5).
    { split; [by rewrite zlen_store by (change NINDIRECT with 256 in *; unfold BSIZE in *; lia)|auto with kernel]. }
    erewrite bind_ok by (kstep He3; exact He4). kstep He5. eexists r, s'. split; [reflexivity|].
    apply (bmap_post_entry s p ip k r s2 s'); try done.
    + by rewrite <- (used_ext s s1).
    + by apply Hdr.
    + congruence.
    + eauto.
    + by eapply keep_trans.
Qed.

(** After a step from [s] to [s1] that only prepares the indirect block. *)
Lemma bmap_post_trans s s1 p ip ip1 bn r s' :
  fs_ok s [] -> ino_ok s ip -> only_ino s p ip1 s1 -> ip1 = set_addrs (addrs ip1) ip -> preserved s s1 0 ->
  (forall b, 0 <= b < MAXFILE -> iaddr s1 ip1 b = iaddr s ip b) -> 0 <= bn < MAXFILE ->
  (indirect ip1 = indirect ip /\ ip1 = ip /\ (forall m, blk s1 m = blk s m) \/
   iaddr s ip bn = 0 /\ used s (indirect ip1) = false) ->
  bmap_post s1 p ip1 bn r s' ip1 -> bmap_post s p ip bn r s' ip1.
Proof using Type.
  intros Hok Hio Hon1 Hset Hp1 Hia Hbn Hind (Hon & Hok' & Hio' & Hp & Hi' & _ & Hoth & Hr & Hcase).
  pose proof (only_ino_sb _ _ _ _ Hon1) as Hsb1.
  assert (Hfresh : forall x, used s1 x = false -> 0 <= x < sb_size (sb s) -> used s x = false).
  { intros x Hx Hxr. destruct (used s x) eqn:E; [|done]. apply Hp1 in E; [congruence|done]. }
  split_and!; try done.
  - by eapply only_ino_trans.
  - eapply (preserved_trans s s1 s' [] 0 (indirect ip1)); try done.
    intros m Hm Hne. pose proof (data_block_pos _ _ _ Hok Hm). split; [lia|].
    destruct Hind as [[-> _]|[_ Hf]]; [done|]. destruct Hm. congruence.
  - destruct Hind as [(? & _)|[_ Hf]]; [by left|by right].
  - intros b Hb Hne. by rewrite Hoth, Hia.
  - rewrite Hia in Hcase by done. destruct Hcase as [(Hnz & Hr' & _ & Hb)|[Hcase|(Hz & Hu & Hdr & Hz0)]].
    + left. destruct Hind as [(_ & -> & Hb1)|[? _]]; [|done]. split_and!; try done.
      intros. by rewrite Hb.
    + by right; left.
    + right; right. split_and!; try done. apply Hfresh; [done|].
      pose proof (only_ino_sb _ _ _ _ Hon) as Hsb'. pose proof (data_block_pos _ _ _ Hok' Hdr) as [? _].
      destruct Hdr as [Hdr _]. rewrite Hsb', Hsb1 in Hdr. lia.
Qed.

Lemma iaddr_no_indirect s ip bn : NDIRECT <= bn -> indirect ip = 0 -> iaddr s ip bn = 0.
Proof using Type.
  intros Hb Hz. unfold iaddr. rewrite (proj2 (Z.ltb_ge _ _)) by lia. by rewrite Hz.
Qed.

Lemma bmap_spec s p ip bn :
  fs_ok s [] -> heap s !! p = Some (HInode ip) -> ino_ok s ip -> 0 <= bn < MAXFILE ->
  exists r s' ip', bmap p bn s = Ok (r, s') /\ bmap_post s p ip bn r s' ip'.
Proof using Type.
  intros Hok Hp Hio Hbn. destruct (decide (bn < NDIRECT)) as [Hlt|Hge]; [apply bmap_direct; try done; lia|].
  unfold bmap. rewrite (proj2 (Z.ltb_ge _ _)), (proj2 (Z.ltb_lt (bn - NDIRECT) NINDIRECT)) by (unfold MAXFILE in *; lia).
  destruct (addr_slot_spec s p ip NDIRECT Hok Hp (io_dev _ _ Hio)) as (r & s1 & ip1 & He & Hon & Hok1 & Hp1 & Hcase).
  kstep He. pose proof (only_ino_heap _ _ _ _ Hon) as Hh1. pose proof (only_ino_sb _ _ _ _ Hon) as Hsb1.
  fold (indirect ip) in Hcase. set (k := bn - NDIRECT).
  assert (Hk : 0 <= k < NINDIRECT) by (unfold k, MAXFILE in *; lia).
  assert (Ebn : bn = NDIRECT + k) by (unfold k; lia). clearbody k. subst bn.
  destruct Hcase as [(Hor & -> & -> & Hm)|(Hz & Hfresh & Hdr & -> & Hzero)].
  - assert (Hia : forall b, iaddr s1 ip b = iaddr s ip b) by (intros; by apply iaddr_ext).
    destruct (indirect ip =? 0) eqn:E; zbool.
    + exists 0, s1, ip. split; [done|]. rewrite <- (iaddr_no_indirect s ip (NDIRECT + k)) at 1 by (done || lia).
      destruct Hor as [?|Hfull]; [done|]. destruct Hon as [b ->]. unfold set_heap. 
      rewrite insert_id by done. apply bmap_post_same; try done; [apply (keep_nil s b)|apply Hok1|by right].
    + destruct (bmap_entry_spec s1 p ip k Hok1 Hh1) as (r & s' & He' & Hpost); try done.
      { by apply (ino_ok_ext s s1 []). }
      exists r, s', ip. split; [done|]. eapply (bmap_post_trans s s1); try done; [by destruct ip|by left].
  - set (ip1 := set_addrs (zupd (addrs ip) NDIRECT r) ip) in *.
    assert (Hi1 : indirect ip1 = r).
    { unfold indirect, ip1. simpl. apply znth_zupd_eq. rewrite (io_len _ _ Hio). unfold NDIRECT. lia. }
    pose proof (data_block_pos _ _ _ Hok1 Hdr) as Hrp.
    assert (Hia : forall b, 0 <= b < MAXFILE -> iaddr s1 ip1 b = iaddr s ip b).
    { intros b Hb. destruct (decide (b < NDIRECT)).
      - unfold iaddr, ip1. rewrite (proj2 (Z.ltb_lt _ _)) by lia. simpl. apply znth_zupd_ne; lia.
      - rewrite (iaddr_no_indirect s ip) by (done || lia). replace b with (NDIRECT + (b - NDIRECT)) by lia.
        rewrite iaddr_indirect by (rewrite ?Hi1; lia). rewrite Hi1, Hzero. apply load32_zero. }
    rewrite (proj2 (Z.eqb_neq r 0)) by lia.
    destruct (bmap_entry_spec s1 p ip1 k Hok1 Hh1) as (r' & s' & He' & Hpost); [| |done|].
    { eapply (ino_ok_add_indirect s s1 [] ip ip1 r); try done. unfold ip1. simpl. by rewrite zlen_zupd. }
    { rewrite Hi1. lia. }
    rewrite Hi1 in He'. exists r', s', ip1. split; [done|]. eapply (bmap_post_trans s s1); try done.
    right. rewrite Hi1. split; [|done]. apply iaddr_no_indirect; [lia|done].
Qed.
End Bmap.
