(* ===== verification/Dinode.v ===== *)
(** * On-disk inodes

    [struct dinode] of [src/kernel/fs/xv6fs/fs.h] as it lies in its block: the
    reads that [xv6fs_geti], [xv6fs_update_lock] and [xv6fs_ialloc] do through
    [struct dinode *dip], the round trip with what [xv6fs_iupdate] writes, and
    the specification of [xv6fs_iupdate]. *)

From stdpp Require Import base numbers list list_numbers gmap strings.
From Stdlib Require Import ZArith Lia.
From S2P Require Import Prelude Params Virtio Bio Kmem Fsys Blocks BlocksProof Bmap.

Record dinode := mk_dinode {
  di_type : Z; di_major : Z; di_minor : Z; di_nlink : Z; di_size : Z; di_addrs : list Z;
}.

(** The inode at byte [o] of a block. *)
Definition decode_addrs (data : list Z) (o : Z) : list Z :=
  (fun k => load32 data (o + 4 * k)) <$> seqZ 0 (NDIRECT + 1).
Definition decode_dinode (data : list Z) (o : Z) : dinode :=
  mk_dinode (short (load16 data o)) (short (load16 data (o + 2))) (short (load16 data (o + 4)))
    (short (load16 data (o + 6))) (load32 data (o + 8)) (decode_addrs data (o + 12)).

Definition dinode_off (inum : Z) : Z := inum mod IPB * sizeof_dinode.

(** ** Round trip *)

Lemma length_encode_addrs l : length (encode_addrs l) = (4 * length l)%nat.
Proof.
  induction l as [|x l IH]; [done|]. change (encode_addrs (x :: l)) with (le_encode 4 x ++ encode_addrs l).
  rewrite length_app, IH, length_le_encode. simpl. lia.
Qed.

Lemma zlen_encode_addrs l : zlen (encode_addrs l) = 4 * zlen l.
Proof. unfold zlen. rewrite length_encode_addrs. lia. Qed.

Lemma bytes_ok_encode_addrs l : bytes_ok (encode_addrs l).
Proof.
  unfold encode_addrs. induction l as [|x l IH]; [constructor|].
  cbn [fmap list_fmap concat]. apply bytes_ok_app. split; [apply bytes_ok_le_encode|done].
Qed.

Lemma sub_encode_addrs l k :
  0 <= k < zlen l -> sub (encode_addrs l) (4 * k) 4 = le_encode 4 (znth l k).
Proof.
  revert k. induction l as [|x l IH]; intros k Hk; [unfold zlen in Hk; simpl in Hk; lia|].
  change (encode_addrs (x :: l)) with (le_encode 4 x ++ encode_addrs l).
  destruct (decide (k = 0)) as [->|].
  - unfold sub. change (Z.to_nat (4 * 0)) with O. rewrite drop_0, take_app_length'; [done|].
    by rewrite length_le_encode.
  - unfold sub. rewrite drop_app_ge by (rewrite length_le_encode; lia).
    rewrite length_le_encode. replace (Z.to_nat (4 * k) - 4)%nat with (Z.to_nat (4 * (k - 1))) by lia.
    fold (sub (encode_addrs l) (4 * (k - 1)) 4). rewrite IH by (unfold zlen in *; simpl in *; lia).
    f_equal. unfold znth. replace (Z.to_nat k) with (S (Z.to_nat (k - 1))) by lia. done.
Qed.

Lemma sub_splice_inner {A} (l l' : list A) off off' len :
  0 <= off -> off + zlen l' <= zlen l -> 0 <= off' -> 0 <= len -> off' + len <= zlen l' ->
  sub (splice l off l') (off + off') len = sub l' off' len.
Proof.
  intros. apply list_eq. intros i. rewrite !lookup_sub by lia. case_decide; [|done].
  rewrite lookup_splice by lia. rewrite decide_True by lia. f_equal. lia.
Qed.

Lemma znth_decode_addrs data o k : 0 <= k <= NDIRECT -> znth (decode_addrs data o) k = load32 data (o + 4 * k).
Proof.
  intros Hk. unfold znth, decode_addrs, NDIRECT in *. apply list_lookup_total_correct.
  rewrite list_lookup_fmap, lookup_seqZ_lt by lia. cbn [fmap option_fmap option_map]. do 2 f_equal. lia.
Qed.

Lemma zlen_decode_addrs data o : zlen (decode_addrs data o) = NDIRECT + 1.
Proof. unfold decode_addrs, zlen. rewrite length_fmap, length_seqZ. done. Qed.

(** The fields of an inode in memory as they go to the disk. *)
Definition dinode_of (i : inode) (ip : xv6fs_inode) : dinode :=
  mk_dinode (type i) (xi_major ip) (xi_minor ip) (nlink i) (size i) (addrs ip).

Definition is_short (x : Z) : Prop := - 2 ^ 15 <= x < 2 ^ 15.
Definition is_uint (x : Z) : Prop := 0 <= x < 2 ^ 32.
(** The C types of the fields. *)
Definition fields_ok (i : inode) (ip : xv6fs_inode) : Prop :=
  is_short (type i) /\ is_short (xi_major ip) /\ is_short (xi_minor ip) /\ is_short (nlink i) /\
  is_uint (size i) /\ zlen (addrs ip) = NDIRECT + 1 /\ Forall is_uint (addrs ip).

Lemma short_load_store x : is_short x -> short (x mod 2 ^ (8 * Z.of_nat 2)) = x.
Proof.
  intros Hx. unfold short, to_signed. change (8 * Z.of_nat 2) with 16. rewrite Z.mod_mod by done.
  by apply (short_small x).
Qed.

Lemma load_splice_disj n l l' off off' :
  0 <= off -> off + zlen l' <= zlen l -> 0 <= off' ->
  off' + Z.of_nat n <= off \/ off + zlen l' <= off' ->
  load n (splice l off l') off' = load n l off'.
Proof. intros. unfold load. by rewrite sub_splice_disj by lia. Qed.

(** Lengths and loads through a nest of stores. *)
Ltac zl :=
  lazymatch goal with
  | |- context [zlen (store ?n ?x ?o ?v)] => rewrite (zlen_store n x o v); [zl|zl|zl]
  | _ => rewrite ?zlen_encode_addrs; lia
  end.
Ltac through_stores :=
  repeat first [rewrite load_splice_disj by zl | rewrite load_store_same by zl | rewrite load_store_disj by zl].

Lemma zlen_encode_dinode o i ip data :
  0 <= o -> o + sizeof_dinode <= zlen data -> zlen (addrs ip) = NDIRECT + 1 ->
  zlen (encode_dinode o i ip data) = zlen data.
Proof.
  intros Ho Hl Ha. unfold encode_dinode, sizeof_dinode, NDIRECT in *. rewrite zlen_splice by zl. zl.
Qed.

Lemma bytes_ok_encode_dinode o i ip data : bytes_ok data -> bytes_ok (encode_dinode o i ip data).
Proof. intros. unfold encode_dinode. apply bytes_ok_splice; [auto 8 with kernel|apply bytes_ok_encode_addrs]. Qed.

Lemma decode_encode_dinode o i ip data :
  0 <= o -> o + sizeof_dinode <= zlen data -> fields_ok i ip ->
  decode_dinode (encode_dinode o i ip data) o = dinode_of i ip.
Proof.
  intros Ho Hl (Ht & Hma & Hmi & Hnl & Hsz & Ha & Hau). unfold decode_dinode, dinode_of, sizeof_dinode, NDIRECT in *.
  f_equal; [..|apply (znth_ext (decode_addrs _ _)); [by rewrite zlen_decode_addrs|]].
  1-5: unfold encode_dinode; through_stores; try (by apply short_load_store).
  - apply Z.mod_small. apply Hsz.
  - rewrite zlen_decode_addrs. unfold NDIRECT. intros k Hk. rewrite znth_decode_addrs by (unfold NDIRECT; lia).
    unfold encode_dinode, load. rewrite sub_splice_inner by zl.
    change (Z.of_nat 4) with 4. rewrite (sub_encode_addrs (addrs ip) k) by lia. rewrite le_decode_encode.
    apply Z.mod_small. rewrite Forall_forall in Hau. apply Hau. unfold znth.
    apply list_elem_of_lookup_total. exists (Z.to_nat k). unfold zlen in Ha. split; [lia|done].
Qed.

Lemma decode_encode_dinode_other o o' i ip data :
  0 <= o -> o + sizeof_dinode <= zlen data -> zlen (addrs ip) = NDIRECT + 1 ->
  0 <= o' -> o' + sizeof_dinode <= o \/ o + sizeof_dinode <= o' ->
  decode_dinode (encode_dinode o i ip data) o' = decode_dinode data o'.
Proof.
  intros Ho Hl Ha Ho' Hd. unfold decode_dinode, sizeof_dinode, NDIRECT in *.
  f_equal; [..|apply (znth_ext (decode_addrs _ _)); [by rewrite !zlen_decode_addrs|]].
  1-5: unfold encode_dinode; through_stores; done.
  rewrite zlen_decode_addrs. unfold NDIRECT. intros k Hk. rewrite !znth_decode_addrs by (unfold NDIRECT; lia).
  unfold encode_dinode. by through_stores.
Qed.

(** ** [xv6fs_iupdate] *)

Section Iupdate.
Context {B M : Type} `{BC : BufCache B, BL : !BufCacheLaws B} `{KM : KMem M}.
Implicit Types s : fsys B M.

(** The inode [n] on the disk. *)
Definition disk_inode s (n : Z) : dinode := decode_dinode (blk s (IBLOCK n (sb s))) (dinode_off n).

Definition inum_ok (sb : xv6fs_super_block) (n : Z) : Prop := 0 <= n < ninodes sb /\ ninodes sb < 2 ^ 31.

Lemma IBLOCK_range sb n : sb_ok sb -> inum_ok sb n ->
  IBLOCK n sb = n / IPB + inodestart sb /\ 0 < IBLOCK n sb < bmapstart sb.
Proof using Type.
  intros Hs [Hn _]. pose proof (sb_meta_pos _ Hs). destruct (sbo_inodes _ Hs) as (? & ? & ?).
  assert (n / IPB <= ninodes sb / IPB) by (apply Z.div_le_mono; [done|lia]).
  assert (0 <= n / IPB) by (apply Z.div_pos; [lia|done]).
  unfold IBLOCK. rewrite uint_small by lia. lia.
Qed.

Lemma dinode_off_range n : 0 <= dinode_off n /\ dinode_off n + sizeof_dinode <= BSIZE.
Proof using Type.
  unfold dinode_off. pose proof (Z.mod_pos_bound n IPB ltac:(done)).
  change IPB with 16 in *. unfold sizeof_dinode, BSIZE. lia.
Qed.

(** Only the block of the inode changes. *)
Lemma iupdate_write s ino ip :
  fs_ok s [] -> dev (geti s ino) = ROOTDEV -> heap s !! private (geti s ino) = Some (HInode ip) ->
  zlen (addrs ip) = NDIRECT + 1 -> inum_ok (sb s) (inum (geti s ino)) ->
  let n := IBLOCK (inum (geti s ino)) (sb s) in
  exists s', xv6fs_iupdate ino s = Ok (tt, s') /\ keep [] s s' /\ fs_ok s' [] /\
    forall m, blk s' m = if decide (m = n)
                         then encode_dinode (dinode_off (inum (geti s ino))) (geti s ino) ip (blk s n)
                         else blk s m.
Proof using Type.
  intros Hok Hdev Hp Ha Hinum n. pose proof (fo_sb _ _ Hok) as Hsb. pose proof (sb_meta_pos _ Hsb) as Hpos.
  destruct (IBLOCK_range _ _ Hsb Hinum) as [_ Hn]. fold n in Hn.
  pose proof (blk_ok s [] n (fo_inv _ _ Hok)) as [Hlen Hbytes].
  destruct (dinode_off_range (inum (geti s ino))) as [Ho1 Ho2].
  destruct (bread_spec s [] n (fo_inv _ _ Hok) ltac:(done) ltac:(lia)) as (bp & s1 & He1 & Hk1 & Hi1 & Hbp & Hd & Hb1);
    [by apply not_elem_of_nil|].
  destruct (bwrite_spec s1 [] bp n (encode_dinode (dinode_off (inum (geti s ino))) (geti s ino) ip (blk s n)) Hi1 Hbp)
    as (s2 & s3 & s' & He2 & He3 & He4 & Hk4 & Hi4 & Hb4).
  { split; [by rewrite zlen_encode_dinode by lia|by apply bytes_ok_encode_dinode]. }
  pose proof (keep_trans _ _ _ _ Hk1 Hk4) as Hk. pose proof (keep_sb _ _ _ Hk) as Hsb'.
  assert (Hb : forall m, blk s' m = if decide (m = n)
     then encode_dinode (dinode_off (inum (geti s ino))) (geti s ino) ip (blk s n) else blk s m).
  { intros m. by rewrite Hb4, Hb1. }
  exists s'. split_and!; [|done| |done].
  - unfold xv6fs_iupdate. ksimpl. rewrite Hdev. fold n. kstep He1.
    rewrite (bind_ok _ _ _ _ _ (get_xi_ok s1 _ ip ltac:(by rewrite (keep_heap _ _ _ Hk1)))).
    unfold bp_data. ksimpl. rewrite Hd. kstep He2. by kstep He3.
  - apply (fs_ok_write s s' [] [] n); [done|done|lia| |done]. intros m Hm. rewrite Hb. by rewrite decide_False.
Qed.

Lemma iblock_off_inj n n' sb : sb_ok sb -> inum_ok sb n -> inum_ok sb n' -> n <> n' ->
  IBLOCK n sb = IBLOCK n' sb ->
  dinode_off n' + sizeof_dinode <= dinode_off n \/ dinode_off n + sizeof_dinode <= dinode_off n'.
Proof using Type.
  intros Hs Hn Hn' Hne. destruct (IBLOCK_range _ _ Hs Hn) as [-> _], (IBLOCK_range _ _ Hs Hn') as [-> _].
  intros E. unfold dinode_off. change IPB with 16 in *. unfold sizeof_dinode.
  pose proof (Z.div_mod n 16 ltac:(done)). pose proof (Z.div_mod n' 16 ltac:(done)). lia.
Qed.

(** The inode on the disk becomes the one in memory; every other inode and every
    block outside the inode blocks stays. *)
Lemma iupdate_ok s ino ip :
  fs_ok s [] -> dev (geti s ino) = ROOTDEV -> heap s !! private (geti s ino) = Some (HInode ip) ->
  fields_ok (geti s ino) ip -> inum_ok (sb s) (inum (geti s ino)) ->
  exists s', xv6fs_iupdate ino s = Ok (tt, s') /\ keep [] s s' /\ fs_ok s' [] /\
    disk_inode s' (inum (geti s ino)) = dinode_of (geti s ino) ip /\
    (forall n, inum_ok (sb s) n -> n <> inum (geti s ino) -> disk_inode s' n = disk_inode s n) /\
    (forall m, ~ (inodestart (sb s) <= m < bmapstart (sb s)) -> blk s' m = blk s m).
Proof using Type.
  intros Hok Hdev Hp Hfld Hinum. pose proof (fo_sb _ _ Hok) as Hsb.
  assert (Ha : zlen (addrs ip) = NDIRECT + 1) by apply Hfld.
  destruct (iupdate_write s ino ip Hok Hdev Hp Ha Hinum) as (s' & He & Hk & Hok' & Hb).
  set (n := IBLOCK (inum (geti s ino)) (sb s)) in *. pose proof (keep_sb _ _ _ Hk) as Hsb'.
  pose proof (blk_ok s [] n (fo_inv _ _ Hok)) as [Hlen _].
  destruct (dinode_off_range (inum (geti s ino))) as [Ho1 Ho2].
  destruct (IBLOCK_range _ _ Hsb Hinum) as [Hn1 Hn2]. fold n in Hn1, Hn2.
  exists s'. split_and!; try done.
  - unfold disk_inode. rewrite Hsb'. fold n. rewrite Hb, decide_True by done.
    apply decode_encode_dinode; [done|lia|done].
  - intros k Hk' Hne. unfold disk_inode. rewrite Hsb', Hb. case_decide as E; [|done]. rewrite E.
    destruct (dinode_off_range k). apply decode_encode_dinode_other; try done; try lia.
    eapply iblock_off_inj; done.
  - intros m Hm. rewrite Hb, decide_False; [done|]. intros ->. apply Hm. split; [|lia].
    rewrite Hn1. assert (0 <= inum (geti s ino) / IPB) by (apply Z.div_pos; [apply Hinum|done]). lia.
Qed.
End Iupdate.
