(* ===== verification/FileData.v ===== *)
(** * Reading and writing files

    The contents of a file as a function from offsets to bytes ([fbyte]), what it
    means for an open inode to be well formed ([file_ok]), and the correctness of
    [xv6fs_readi], [xv6fs_writei], [xv6fs_iupdate] and [xv6fs_itrunc]. *)

From stdpp Require Import base numbers list list_numbers gmap strings.
From Stdlib Require Import ZArith Lia.
From S2P Require Import Prelude Params Virtio Bio Kmem Fsys Blocks BlocksProof Bmap Dinode.

Section FileData.
Context {B M : Type} `{BC : BufCache B, BL : !BufCacheLaws B} `{KM : KMem M, KL : !KMemLaws M}.
Implicit Types s : fsys B M.

(** Byte [i] of the file. *)
Definition fbyte s (ip : xv6fs_inode) (i : Z) : Z := znth (blk s (iaddr s ip (i / BSIZE))) (i mod BSIZE).

(** Every block that starts below [hi] is there. *)
Definition no_holes s (ip : xv6fs_inode) (hi : Z) : Prop :=
  forall bn, 0 <= bn -> bn * BSIZE < hi -> iaddr s ip bn <> 0.

Record file_ok s (ino : Z) (ip : xv6fs_inode) : Prop := {
  fk_ino : 0 <= ino < zlen (itable s);
  fk_dev : dev (geti s ino) = ROOTDEV;
  fk_heap : heap s !! private (geti s ino) = Some (HInode ip);
  fk_ip : ino_ok s ip;
  fk_inum : inum_ok (sb s) (inum (geti s ino));
  fk_short : is_short (type (geti s ino)) /\ is_short (nlink (geti s ino)) /\
    is_short (xi_major ip) /\ is_short (xi_minor ip);
  fk_size : 0 <= size (geti s ino) <= MAXFILE * BSIZE;
  fk_holes : no_holes s ip (size (geti s ino));
}.

(** [s'] differs from [s] in the buffers and the memory only, and no block changed. *)
Definition rsame s s' : Prop :=
  (exists b m, s' = set_bc b (set_mm m s)) /\ fs_ok s' [] /\ (forall n, blk s' n = blk s n) /\
  mframe (mm s) (mm s').

Lemma rsame_refl s : fs_ok s [] -> rsame s s.
Proof using Type. intros. split; [exists (bc s), (mm s); by destruct s|]. split_and!; [done..|apply mframe_refl]. Qed.

Lemma rsame_trans s1 s2 s3 : rsame s1 s2 -> rsame s2 s3 -> rsame s1 s3.
Proof using Type.
  intros ((b & m & ->) & _ & Hb & Hm) ((b' & m' & ->) & Hok & Hb' & Hm'). split; [by exists b', m'|]. split; [done|].
  split; [intros n; by rewrite Hb', Hb|by eapply mframe_trans].
Qed.

Lemma rsame_iaddr s s' ip bn : rsame s s' -> iaddr s' ip bn = iaddr s ip bn.
Proof using Type. intros (_ & _ & Hb & _). by apply iaddr_ext. Qed.
Lemma rsame_fbyte s s' ip i : rsame s s' -> fbyte s' ip i = fbyte s ip i.
Proof using Type. intros Hr. unfold fbyte. rewrite (rsame_iaddr s s' ip) by done. by rewrite (proj1 (proj2 (proj2 Hr))). Qed.
Lemma rsame_sb s s' : rsame s s' -> sb s' = sb s.
Proof using Type. by intros ((b & m & ->) & _). Qed.

Lemma rsame_ino_ok s s' ip : fs_ok s [] -> rsame s s' -> ino_ok s ip -> ino_ok s' ip.
Proof using Type.
  intros Hok Hr Hio. pose proof (rsame_sb _ _ Hr) as Hsb. apply (ino_ok_ext s s' []); try done.
  destruct Hr as (_ & _ & Hb & _). split_and!; [done..|]. intros m _. by rewrite (used_ext s s').
Qed.

Lemma rsame_file_ok s s' ino ip : fs_ok s [] -> rsame s s' -> file_ok s ino ip -> file_ok s' ino ip.
Proof using Type.
  intros Hok Hr [? ? ? Hio ? ? ? Hh]. pose proof (rsame_ino_ok s s' ip Hok Hr Hio) as Hio'.
  pose proof (rsame_iaddr s s' ip) as Hia. pose proof Hr as ((b & m & ->) & _).
  split; try done. intros bn. rewrite Hia by done. apply Hh.
Qed.

(** A block of the file that is there: [bmap] returns it. *)
Lemma bmap_present s ino ip bn :
  fs_ok s [] -> file_ok s ino ip -> 0 <= bn < MAXFILE -> iaddr s ip bn <> 0 ->
  exists s', bmap (private (geti s ino)) bn s = Ok (iaddr s ip bn, s') /\ rsame s s' /\ mm s' = mm s.
Proof using Type.
  intros Hok Hf Hbn Hnz. destruct (bmap_spec s _ ip bn Hok (fk_heap _ _ _ Hf) (fk_ip _ _ _ Hf) Hbn)
    as (r & s' & ip' & He & Hon & Hok' & _ & _ & _ & _ & _ & _ & Hcase).
  destruct Hcase as [(_ & -> & -> & Hb)|[[? _]|[? _]]]; [|done..].
  exists s'. split; [done|]. destruct Hon as [b ->]. split; [|done]. split; [|split_and!; [done..|apply mframe_refl]].
  exists b, (mm s). unfold set_heap, set_bc, set_mm. simpl. by rewrite insert_id by apply Hf.
Qed.

Lemma div_range off hi : 0 <= off < hi -> hi <= MAXFILE * BSIZE -> 0 <= off / BSIZE < MAXFILE.
Proof using Type.
  intros. split; [apply Z.div_pos; [lia|done]|]. apply Z.div_lt_upper_bound; [done|]. lia.
Qed.

(** One round of the loop of [readi]: the bytes of the block from [off] on. *)
Lemma fbyte_block s ip off j :
  0 <= off -> 0 <= j -> off mod BSIZE + j < BSIZE ->
  fbyte s ip (off + j) = znth (blk s (iaddr s ip (off / BSIZE))) (off mod BSIZE + j).
Proof using Type.
  intros Ho Hj Hm. unfold fbyte. pose proof (Z.div_mod off BSIZE ltac:(done)) as Hd.
  pose proof (Z.mod_pos_bound off BSIZE ltac:(done)).
  replace (off + j) with (off mod BSIZE + j + off / BSIZE * BSIZE) by lia.
  by rewrite Z.div_add, Z.mod_add, Z.div_small, Z.mod_small by (done || lia).
Qed.

Lemma bc_data_blk_release s p n h :
  binv s ((p, n) :: h) -> bc_data (bc s) p = blk s n -> forall m,
  exists s', fs_brelse p (set_mm m s) = Ok (tt, s') /\ keep h (set_mm m s) s' /\ binv s' h /\
    forall k, blk s' k = blk s k.
Proof using Type. intros Hi Hd m. by destruct (brelse_spec (set_mm m s) h p n Hi Hd) as (s' & ? & ? & ? & ?); exists s'. Qed.

Lemma readi_loop_spec fuel s ino ip user dst N off n tot :
  fs_ok s [] -> file_ok s ino ip -> km_inv (mm s) -> km_ok (mm s) user dst N ->
  0 <= dst -> dst + N < 2 ^ 64 -> 0 <= off -> 0 <= tot <= n -> n <= N -> off + n <= size (geti s ino) ->
  n - tot < Z.of_nat fuel ->
  exists s', readi_loop fuel ino user (dst + tot) (off + tot) n tot s = Ok (n, s') /\ rsame s s' /\
    km_inv (mm s') /\ (forall u b j, km_ok (mm s) u b j -> km_ok (mm s') u b j) /\
    (forall i, 0 <= i < N -> znth (km_read (mm s') user dst N) i =
       if decide (tot <= i < n) then fbyte s ip (off + i) else znth (km_read (mm s) user dst N) i).
Proof using Type.
  revert s tot. induction fuel as [|fuel IH]; intros s tot Hok Hf Hmi Hmo Hd HdN Hoff Ht HnN Hsz Hfuel; [lia|].
  cbn [readi_loop]. destruct (tot <? n) eqn:Hlt; cbn [negb]; zbool.
  2:{ assert (tot = n) as -> by lia. exists s. split; [done|]. split_and!; try done.
      - by apply rsame_refl.
      - intros i Hi. by rewrite decide_False by lia. }
  ksimpl. pose proof (fk_size _ _ _ Hf) as Hsize.
  pose proof (div_range (off + tot) (size (geti s ino)) ltac:(lia) ltac:(lia)) as Hbn.
  pose proof (Z.div_mod (off + tot) BSIZE ltac:(done)) as Hdm.
  pose proof (Z.mod_pos_bound (off + tot) BSIZE ltac:(done)) as Hmb.
  assert (Hnz : iaddr s ip ((off + tot) / BSIZE) <> 0) by (apply (fk_holes _ _ _ Hf); lia).
  destruct (bmap_present s ino ip _ Hok Hf Hbn Hnz) as (s1 & He1 & Hr1 & Hm1). kstep He1.
  rewrite (proj2 (Z.eqb_neq _ _)) by done. ksimpl.
  pose proof (rsame_file_ok _ _ _ _ Hok Hr1 Hf) as Hf1. rewrite (fk_dev _ _ _ Hf1).
  set (n1 := iaddr s ip ((off + tot) / BSIZE)) in *.
  pose proof (io_data _ _ (fk_ip _ _ _ Hf) _ Hbn Hnz) as Hdat. fold n1 in Hdat.
  pose proof (data_block_pos _ _ _ Hok Hdat) as Hpos. pose proof Hr1 as (Hex1 & Hok1 & Hb1 & Hmf1).
  destruct (bread_spec s1 [] n1 (fo_inv _ _ Hok1) ltac:(done) ltac:(lia)) as (bp & s2 & He2 & Hk2 & Hi2 & _ & Hd2 & Hb2);
    [by apply not_elem_of_nil|].
  kstep He2. unfold bp_data. ksimpl. rewrite Hd2, Hb1.
  set (m := Z.min (n - tot) (BSIZE - (off + tot) mod BSIZE)).
  assert (Hm : 0 < m <= n - tot /\ (off + tot) mod BSIZE + m <= BSIZE) by (unfold m; lia).
  pose proof (blk_ok s [] n1 (fo_inv _ _ Hok)) as [Hlen Hbytes].
  pose proof (keep_mm _ _ _ Hk2) as Hm2.
  destruct (km_out_ok (mm s2) user dst N tot (sub (blk s n1) ((off + tot) mod BSIZE) m)) as
    (mm' & Hout & Hmi' & Hview & Hmo' & Hmf'); [by rewrite Hm2, Hm1..|lia|rewrite zlen_sub by lia; lia|auto with kernel|].
  erewrite bind_ok by (apply zoom_ok; exact Hout).
  destruct (bc_data_blk_release s2 bp n1 [] Hi2 ltac:(by rewrite Hd2, Hb2) mm') as (s3 & He3 & Hk3 & Hi3 & Hb3).
  kstep He3. cbn [Z.eqb]. change (MAXFILE * BSIZE) with 274432 in Hsize.
  rewrite !uint_small, uint64_small by lia.
  assert (Hr3 : rsame s s3).
  { destruct Hk3 as [[b3 ->] _], Hk2 as [[b2 ->] _], Hex1 as (b1 & m1 & ->).
    split; [by exists b3, mm'|]. split; [|split; [intros; by rewrite Hb3, Hb2, Hb1|]].
    - eapply (fs_ok_ext [] [] s); try done. intros; by rewrite Hb3, Hb2, Hb1.
    - by apply (mframe_trans _ _ _ Hmf1). }
  destruct (IH s3 (tot + m)) as (s' & He' & Hr' & Hmi3 & Hmo3 & Hv'); try done; try lia.
  { apply Hr3. }
  { by apply (rsame_file_ok s s3). }
  { destruct Hk3 as [[b3 ->] _]. done. }
  { destruct Hk3 as [[b3 ->] _]. apply Hmo'. by rewrite Hm2, Hm1. }
  { destruct Hr3 as ((b3 & m3 & ->) & _). done. }
  exists s'. rewrite <- !Z.add_assoc in *. split; [done|]. split_and!; [by eapply rsame_trans|done| |].
  { intros u b j Hj. apply Hmo3. destruct Hk3 as [[b3 ->] _]. apply Hmo'. by rewrite Hm2, Hm1. }
  intros i Hi. rewrite Hv' by done. rewrite (rsame_fbyte s s3) by done.
  assert (Hmm3 : mm s3 = mm') by (by destruct Hk3 as [[b3 ->] _]). rewrite Hmm3, Hview, Hm2, Hm1.
  rewrite znth_splice by (rewrite ?zlen_sub, ?km_read_len by lia; lia). rewrite zlen_sub by lia.
  repeat case_decide; try lia; try done.
  rewrite znth_sub by lia. replace (off + i) with (off + tot + (i - tot)) by lia.
  by rewrite fbyte_block by lia.
Qed.

(** How many bytes a read of [n] bytes at [off] returns; a sum that wraps around
    the 32-bit offsets returns none. *)
Definition read_count (sz off n : Z) : Z :=
  if (sz <? off) || (2 ^ 32 <=? off + n) then 0 else Z.min n (sz - off).

Lemma readi_ok s ino ip user dst off n :
  fs_ok s [] -> file_ok s ino ip -> km_inv (mm s) -> km_ok (mm s) user dst n ->
  0 <= dst -> dst + n < 2 ^ 64 -> 0 <= off < 2 ^ 32 -> 0 <= n < 2 ^ 32 ->
  let cnt := read_count (size (geti s ino)) off n in
  exists s', xv6fs_readi ino user dst off n s = Ok (cnt, s') /\ rsame s s' /\ km_inv (mm s') /\
    (forall u b j, km_ok (mm s) u b j -> km_ok (mm s') u b j) /\
    (forall i, 0 <= i < n -> znth (km_read (mm s') user dst n) i =
       if decide (i < cnt) then fbyte s ip (off + i) else znth (km_read (mm s) user dst n) i).
Proof using Type.
  intros Hok Hf Hmi Hmo Hd Hdn Ho Hn cnt. unfold xv6fs_readi, cnt, read_count. ksimpl.
  pose proof (fk_size _ _ _ Hf) as Hsz. change (MAXFILE * BSIZE) with 274432 in Hsz.
  set (sz := size (geti s ino)) in *.
  assert (Hsame : rsame s s) by by apply rsame_refl.
  assert (Hw : (uint (off + n) <? off) = (2 ^ 32 <=? off + n)).
  { destruct (2 ^ 32 <=? off + n) eqn:E; zbool.
    - apply Z.ltb_lt. unfold uint. rewrite <- (Z.mod_add _ (-1)) by done. rewrite Z.mod_small; lia.
    - apply Z.ltb_ge. rewrite uint_small; lia. }
  rewrite Hw. destruct ((sz <? off) || (2 ^ 32 <=? off + n)) eqn:E; zbool.
  { exists s. split; [done|]. split_and!; try done. intros i Hi. by rewrite decide_False by lia. }
  rewrite uint_small by lia.
  replace (if sz <? off + n then uint (sz - off) else n) with (Z.min n (sz - off)).
  2:{ destruct (sz <? off + n) eqn:E'; zbool; [rewrite uint_small by lia|]; lia. }
  set (c := Z.min n (sz - off)). assert (Hc : 0 <= c <= n /\ off + c <= sz) by (unfold c; lia).
  destruct (readi_loop_spec (S (Z.to_nat c)) s ino ip user dst n off c 0) as (s' & He & Hr & Hmi' & Hmo' & Hv);
    try done; try lia.
  rewrite !Z.add_0_r in He. kstep He. exists s'. split; [|split_and!; try done].
  - unfold mret, K_ret. by rewrite int_small by lia.
  - intros i Hi. rewrite Hv by done. do 2 case_decide; try done; lia.
Qed.

(** ** Writing *)

(** Blocks in use that are not the file's. *)
Definition foreign s (ip : xv6fs_inode) (m : Z) : Prop :=
  data_block s m /\ m <> indirect ip /\ forall bn, 0 <= bn < MAXFILE -> m <> iaddr s ip bn.

(** From [s] to [s'] the file's inode object [ip] became [ip'], and no other block in use changed. *)
Definition wpost s (p : Z) (ip : xv6fs_inode) s' (ip' : xv6fs_inode) : Prop :=
  only_ino s p ip' s' /\ fs_ok s' [] /\ ino_ok s' ip' /\ ip' = set_addrs (addrs ip') ip /\
  (forall m, foreign s ip m -> foreign s' ip' m /\ blk s' m = blk s m) /\
  (forall m, 0 <= m < bmapstart (sb s) -> blk s' m = blk s m).

Lemma wpost_trans s1 s2 s3 p ip1 ip2 ip3 :
  wpost s1 p ip1 s2 ip2 -> wpost s2 p ip2 s3 ip3 -> wpost s1 p ip1 s3 ip3.
Proof using Type.
  intros (Hon & Hok & Hio & Hs & Hf & Hm) (Hon' & Hok' & Hio' & Hs' & Hf' & Hm').
  pose proof (only_ino_sb _ _ _ _ Hon) as Hsb. split_and!; try done.
  - by eapply only_ino_trans.
  - rewrite Hs', Hs. done.
  - intros m Hfm. destruct (Hf m Hfm) as [Hfm' Hb]. destruct (Hf' m Hfm') as [? Hb']. split; [done|].
    by rewrite Hb', Hb.
  - intros m Hmr. rewrite Hm', Hm by (rewrite ?Hsb; done). done.
Qed.

Lemma bmap_wpost s p ip bn r s' ip' :
  fs_ok s [] -> 0 <= bn < MAXFILE -> bmap_post s p ip bn r s' ip' -> wpost s p ip s' ip'.
Proof using Type.
  intros Hok Hbn (Hon & Hok' & Hio' & Hp & Hi' & Hset & Hoth & Hr & Hcase).
  pose proof (only_ino_sb _ _ _ _ Hon) as Hsb. split_and!; try done; [|apply (proj1 (proj2 Hp))].
  intros m (Hd & Hi & Hb). split; [|by apply (proj1 Hp)]. split_and!.
  - by eapply (data_block_mono s s').
  - destruct Hi' as [->|Hu]; [done|]. destruct Hd. congruence.
  - intros b Hbr. destruct (decide (b = bn)) as [->|]; [|rewrite Hoth by done; by apply Hb].
    rewrite Hr. destruct Hcase as [(_ & -> & _)|[(_ & -> & _)|(_ & Hu & _)]].
    + by apply Hb.
    + pose proof (data_block_pos _ _ _ Hok Hd). lia.
    + destruct Hd. congruence.
Qed.

(** Writing the file's block [bn]. *)
Lemma block_write s p ip bn s' l :
  fs_ok s [] -> heap s !! p = Some (HInode ip) -> ino_ok s ip -> 0 <= bn < MAXFILE -> iaddr s ip bn <> 0 ->
  keep [] s s' -> binv s' [] ->
  (forall m, blk s' m = if decide (m = iaddr s ip bn) then l else blk s m) ->
  wpost s p ip s' ip /\ (forall b, 0 <= b < MAXFILE -> iaddr s' ip b = iaddr s ip b) /\
  (forall i, 0 <= i < MAXFILE * BSIZE -> iaddr s ip (i / BSIZE) <> 0 ->
     fbyte s' ip i = if decide (i / BSIZE = bn) then znth l (i mod BSIZE) else fbyte s ip i).
Proof using Type.
  intros Hok Hp Hio Hbn Hnz Hk Hi Hb. set (r := iaddr s ip bn) in *.
  pose proof (io_data _ _ Hio bn Hbn Hnz) as Hdat. fold r in Hdat. pose proof (keep_sb _ _ _ Hk) as Hsb.
  pose proof (preserved_write s s' [] r l Hok Hsb Hdat Hb) as Hpres.
  assert (Hir : indirect ip <> 0 -> indirect ip <> r) by (intros Hi0 E; symmetry in E; by apply (io_ind_ne _ _ Hio bn Hbn Hi0)).
  assert (Hia : forall b, iaddr s' ip b = iaddr s ip b).
  { intros b. apply iaddr_ext. intros Hi0. rewrite Hb. rewrite decide_False by auto. done. }
  assert (Hmono : forall m, data_block s m -> data_block s' m) by (intros m; by eapply (data_block_mono s s')).
  split_and!; try done; [split_and!|].
  - destruct Hk as [[b ->] _]. by apply only_ino_id.
  - apply (fs_ok_write s s' [] [] r); try done.
    + destruct Hdat. lia.
    + intros m Hm. rewrite Hb. by rewrite decide_False.
  - destruct Hio as [Hd Hl Hdt Hind Hinj Hne]. split; try done.
    + intros b Hbr. rewrite Hia. auto.
    + auto.
    + intros b b' Hb1 Hb2. rewrite !Hia. by apply Hinj.
    + intros b Hb1. rewrite Hia. by apply Hne.
  - by destruct ip.
  - intros m (Hd & Hmi & Hmb). split.
    + split_and!; [auto|done|]. intros b Hbr. rewrite Hia. by apply Hmb.
    + rewrite Hb. rewrite decide_False by by apply Hmb. done.
  - intros m Hm. by apply (proj1 (proj2 Hpres)).
  - intros i Hir' Hinz. unfold fbyte. rewrite Hia, Hb.
    pose proof (div_range i _ Hir' ltac:(done)) as Hbi. case_decide as E; case_decide as E'; try done.
    + exfalso. apply E'. by apply (io_inj _ _ Hio).
    + exfalso. apply E. by rewrite E'.
Qed.

(** [bmap] keeps the contents of the blocks that are there. *)
Lemma bmap_fbyte s p ip bn r s' ip' i :
  fs_ok s [] -> ino_ok s ip -> bmap_post s p ip bn r s' ip' ->
  0 <= i < MAXFILE * BSIZE -> iaddr s ip (i / BSIZE) <> 0 ->
  iaddr s' ip' (i / BSIZE) = iaddr s ip (i / BSIZE) /\ fbyte s' ip' i = fbyte s ip i.
Proof using Type.
  intros Hok Hio (_ & _ & _ & Hp & _ & _ & Hoth & Hr & Hcase) Hi Hnz.
  pose proof (div_range i _ Hi ltac:(done)) as Hbi.
  assert (Hia : iaddr s' ip' (i / BSIZE) = iaddr s ip (i / BSIZE)).
  { destruct (decide (i / BSIZE = bn)) as [E|E]; [|by apply Hoth]. rewrite E in *.
    destruct Hcase as [(_ & Hr' & _)|[[? _]|[? _]]]; [congruence|done..]. }
  split; [done|]. unfold fbyte. rewrite Hia. f_equal. apply (proj1 Hp); [by apply (io_data _ _ Hio)|].
  intros E. destruct (decide (indirect ip = 0)); [congruence|]. by apply (io_ind_ne _ _ Hio (i / BSIZE)).
Qed.

Lemma only_ino_geti s p ip s' ino : only_ino s p ip s' -> geti s' ino = geti s ino /\ mm s' = mm s /\ sb s' = sb s.
Proof using Type. by intros [b ->]. Qed.

(** One round of the loop of [writei] on a disk that is not full. *)
Lemma writei_round s ino p ip user src n off tot hi r s1 ip1 m :
  fs_ok s [] -> heap s !! p = Some (HInode ip) -> ino_ok s ip -> dev (geti s ino) = ROOTDEV ->
  km_inv (mm s) -> km_ok (mm s) user src n -> 0 <= tot < n -> 0 <= off ->
  off + n <= MAXFILE * BSIZE -> off + tot <= hi -> hi <= MAXFILE * BSIZE -> no_holes s ip hi ->
  bmap_post s p ip ((off + tot) / BSIZE) r s1 ip1 -> r <> 0 ->
  m = Z.min (n - tot) (BSIZE - (off + tot) mod BSIZE) ->
  exists bp s2 s3 s4 s', fs_bread ROOTDEV r s1 = Ok (bp, s2) /\
    on_mm (km_in user (src + tot) m) s2 = Ok ((0, sub (km_read (mm s) user src n) tot m), s2) /\
    bp_set bp (splice (bc_data (bc s2) bp) ((off + tot) mod BSIZE) (sub (km_read (mm s) user src n) tot m)) s2 = Ok (tt, s3) /\
    fs_bwrite bp s3 = Ok (tt, s4) /\ fs_brelse bp s4 = Ok (tt, s') /\ wpost s p ip s' ip1 /\
    no_holes s' ip1 (Z.max hi (off + tot + m)) /\
    (forall i, 0 <= i < Z.max hi (off + tot + m) -> fbyte s' ip1 i =
       if decide (off + tot <= i < off + tot + m) then znth (km_read (mm s) user src n) (i - off) else fbyte s ip i).
Proof using Type.
  intros Hok Hp Hio Hdev Hmi Hmo Ht Hoff Hmax Hhi Hhm Hnh Hpost Hr0 Hm.
  pose proof (div_range (off + tot) (off + n) ltac:(lia) Hmax) as Hbn. set (bn := (off + tot) / BSIZE) in *.
  pose proof (Z.div_mod (off + tot) BSIZE ltac:(done)) as Hdm. fold bn in Hdm.
  pose proof (Z.mod_pos_bound (off + tot) BSIZE ltac:(done)) as Hmb.
  assert (Hmr : 0 < m <= n - tot /\ (off + tot) mod BSIZE + m <= BSIZE) by lia.
  pose proof (bmap_wpost s p ip bn r s1 ip1 Hok Hbn Hpost) as Hw1.
  pose proof (fun i => bmap_fbyte s p ip bn r s1 ip1 i Hok Hio Hpost) as Hfb1.
  pose proof Hpost as (Hon1 & Hok1 & Hio1 & _ & _ & _ & Hoth1 & Hr1 & Hcase).
  pose proof (only_ino_heap _ _ _ _ Hon1) as Hp1. destruct (only_ino_geti _ _ _ _ ino Hon1) as (_ & Hmm1 & Hsb1).
  assert (Hnz1 : iaddr s1 ip1 bn <> 0) by congruence.
  pose proof (io_data _ _ Hio1 bn Hbn Hnz1) as Hdat. rewrite Hr1 in Hdat.
  pose proof (data_block_pos _ _ _ Hok1 Hdat) as Hpos.
  destruct (bread_spec s1 [] r (fo_inv _ _ Hok1) ltac:(done) ltac:(lia)) as (bp & s2 & He2 & Hk2 & Hi2 & Hbp & Hd2 & Hb2);
    [by apply not_elem_of_nil|].
  pose proof (keep_mm _ _ _ Hk2) as Hmm2. set (v := km_read (mm s) user src n).
  assert (Hv : zlen v = n) by (apply km_read_len; lia).
  assert (Hvb : bytes_ok v) by by apply km_read_ok.
  pose proof (blk_ok s1 [] r (fo_inv _ _ Hok1)) as Hbok. pose proof (proj1 Hbok) as Hblen.
  assert (Hsub : zlen (sub v tot m) = m) by (apply zlen_sub; lia).
  destruct (bwrite_spec s2 [] bp r (splice (blk s1 r) ((off + tot) mod BSIZE) (sub v tot m)) Hi2 Hbp)
    as (s3 & s4 & s' & He3 & He4 & He5 & Hk5 & Hi5 & Hb5).
  { apply block_ok_splice; [done|auto with kernel|lia|lia]. }
  assert (Hb' : forall k, blk s' k = if decide (k = iaddr s1 ip1 bn)
            then splice (blk s1 r) ((off + tot) mod BSIZE) (sub v tot m) else blk s1 k).
  { intros k. rewrite Hr1, Hb5. case_decide; [done|apply Hb2]. }
  destruct (block_write s1 p ip1 bn s' _ Hok1 Hp1 Hio1 Hbn Hnz1 (keep_trans _ _ _ _ Hk2 Hk5) Hi5 Hb') as (Hw2 & Hia2 & Hfb2).
  exists bp, s2, s3, s4, s'. rewrite Hd2. split_and!; try done.
  - unfold on_mm, zoom. rewrite Hmm2, Hmm1, (km_in_ok (mm s) user src n tot m) by (done || lia). simpl.
    f_equal. f_equal. destruct Hk2 as [[b ->] _]. unfold set_mm, set_bc. simpl. destruct Hon1 as [b1 ->]. done.
  - by eapply wpost_trans.
  - intros b Hb0 Hbh. assert (Hbr : 0 <= b < MAXFILE) by (split; [done|]; unfold BSIZE, MAXFILE in *; lia).
    rewrite Hia2 by done. destruct (decide (b = bn)) as [->|Hne]; [done|]. rewrite Hoth1 by done.
    apply Hnh; [done|]. destruct (decide (b * BSIZE < hi)); [done|]. unfold BSIZE in *. lia.
  - intros i Hi. assert (Hir : 0 <= i < MAXFILE * BSIZE) by lia.
    pose proof (Z.div_mod i BSIZE ltac:(done)) as Hdi. pose proof (Z.mod_pos_bound i BSIZE ltac:(done)) as Hmi2.
    assert (Hinz : iaddr s1 ip1 (i / BSIZE) <> 0).
    { destruct (decide (i / BSIZE = bn)) as [->|Hne]; [done|]. rewrite Hoth1 by (done || by apply (div_range i _ Hir)).
      apply Hnh; [apply (div_range i _ Hir); done|]. unfold BSIZE in *. lia. }
    rewrite Hfb2 by done. destruct (decide (i / BSIZE = bn)) as [E|E].
    + rewrite znth_splice by lia. rewrite Hsub. assert (Hin : i - (off + tot) = i mod BSIZE - (off + tot) mod BSIZE) by (rewrite E in Hdi; lia).
      do 2 case_decide; try lia.
      * rewrite znth_sub by lia. f_equal. lia.
      * assert (Hold : iaddr s ip (i / BSIZE) <> 0) by (apply Hnh; unfold BSIZE in *; lia).
        rewrite <- (proj2 (Hfb1 i Hir Hold)). unfold fbyte. by rewrite E, Hr1.
    + rewrite decide_False by (unfold BSIZE in *; lia). apply Hfb1; [done|].
      apply Hnh; [apply (div_range i _ Hir); done|]. unfold BSIZE in *. lia.
Qed.

Lemma no_holes_at s ip hi i : no_holes s ip hi -> 0 <= i < hi -> iaddr s ip (i / BSIZE) <> 0.
Proof using Type.
  intros Hn Hi. apply Hn; [apply Z.div_pos; [lia|done]|].
  pose proof (Z.div_mod i BSIZE ltac:(done)). pose proof (Z.mod_pos_bound i BSIZE ltac:(done)). lia.
Qed.

Lemma writei_loop_spec fuel s ino p ip user src off n tot hi :
  fs_ok s [] -> private (geti s ino) = p -> heap s !! p = Some (HInode ip) -> ino_ok s ip ->
  dev (geti s ino) = ROOTDEV -> km_inv (mm s) -> km_ok (mm s) user src n ->
  0 <= src -> src + n < 2 ^ 64 -> 0 <= tot <= n -> 0 <= off -> off + n <= MAXFILE * BSIZE ->
  off + tot <= hi -> hi <= MAXFILE * BSIZE -> no_holes s ip hi -> n - tot < Z.of_nat fuel ->
  exists t s' ip', writei_loop fuel ino user (src + tot) (off + tot) n tot s = Ok ((t, off + t), s') /\
    tot <= t <= n /\ (t < n -> full s' /\ hi <= off + t) /\ wpost s p ip s' ip' /\ no_holes s' ip' (Z.max hi (off + t)) /\
    (forall i, 0 <= i < Z.max hi (off + t) -> fbyte s' ip' i =
       if decide (off + tot <= i < off + t) then znth (km_read (mm s) user src n) (i - off) else fbyte s ip i).
Proof using Type.
  revert s ip tot hi. induction fuel as [|fuel IH];
    intros s ip tot hi Hok Hpv Hp Hio Hdev Hmi Hmo Hsrc Hsn Ht Hoff Hmax Hhi Hhm Hnh Hfuel; [lia|].
  cbn [writei_loop]. destruct (tot <? n) eqn:Hlt; cbn [negb]; zbool.
  2:{ assert (tot = n) as -> by lia. exists n, s, ip. split; [done|]. rewrite Z.max_l by lia.
      split_and!; try done; try lia.
      - split_and!; try done; [by apply only_ino_refl|by destruct ip].
      - intros i Hi. by rewrite decide_False by lia. }
  ksimpl. rewrite Hpv. pose proof (div_range (off + tot) (off + n) ltac:(lia) Hmax) as Hbn.
  destruct (bmap_spec s p ip _ Hok Hp Hio Hbn) as (r & s1 & ip1 & He1 & Hpost). kstep He1.
  pose proof (bmap_wpost _ _ _ _ _ _ _ Hok Hbn Hpost) as Hw1. pose proof (proj1 Hw1) as Hon1.
  destruct (only_ino_geti _ _ _ _ ino Hon1) as (Hgi & Hmm1 & Hsb1).
  destruct (r =? 0) eqn:Er; zbool.
  - subst r. exists tot, s1, ip1. split; [done|]. rewrite Z.max_l by lia.
    pose proof Hpost as (_ & _ & _ & _ & _ & _ & _ & _ & Hcase).
    destruct Hcase as [(? & ? & _)|[(Hz & _ & Hfull)|(_ & _ & Hdb & _)]]; [congruence| |
      pose proof (data_block_pos _ _ _ (proj1 (proj2 Hpost)) Hdb); lia].
    assert (Hfb : forall i, 0 <= i < hi -> iaddr s1 ip1 (i / BSIZE) = iaddr s ip (i / BSIZE) /\ fbyte s1 ip1 i = fbyte s ip i).
    { intros i Hi. apply (bmap_fbyte s p ip _ 0 s1 ip1 i Hok Hio Hpost); [lia|].
      pose proof (Z.div_mod i BSIZE ltac:(done)). pose proof (Z.mod_pos_bound i BSIZE ltac:(done)).
      apply Hnh; [apply Z.div_pos; [lia|done]|lia]. }
    split_and!; try done; try lia.
    + intros _. split; [done|]. destruct (decide (off + tot < hi)) as [Hlt'|]; [|lia].
      destruct (no_holes_at s ip hi (off + tot) Hnh ltac:(lia) Hz).
    + intros b Hb Hbh. destruct (Hfb (b * BSIZE)) as [Hia _]; [unfold BSIZE in *; lia|].
      rewrite Z.div_mul in Hia by done. rewrite Hia. by apply Hnh.
    + intros i Hi. rewrite decide_False by lia. by apply Hfb.
  - set (m := Z.min (n - tot) (BSIZE - (off + tot) mod BSIZE)).
    destruct (writei_round s ino p ip user src n off tot hi r s1 ip1 m) as
      (bp & s2 & s3 & s4 & s5 & He2 & He3 & He4 & He5 & He6 & Hw & Hnh5 & Hfb5); try done; try lia.
    pose proof (Z.mod_pos_bound (off + tot) BSIZE ltac:(done)) as Hmb.
    assert (Hm : 0 < m <= n - tot) by (unfold m; lia). change (MAXFILE * BSIZE) with 274432 in *.
    ksimpl. rewrite Hgi, Hdev. kstep He2. kstep He3. unfold bp_data. ksimpl. kstep He4. cbn [Z.eqb].
    kstep He5. kstep He6. rewrite !uint_small, uint64_small by lia.
    pose proof Hw as (Hon5 & Hok5 & Hio5 & _). pose proof (only_ino_heap _ _ _ _ Hon5) as Hp5.
    destruct (only_ino_geti _ _ _ _ ino Hon5) as (Hg5 & Hmm5 & _).
    destruct (IH s5 ip1 (tot + m) (Z.max hi (off + tot + m))) as (t & s' & ip' & He' & Ht' & Hfull & Hw' & Hnh' & Hfb');
      rewrite ?Hg5, ?Hmm5; try done; try lia.
    replace (Z.max (Z.max hi (off + tot + m)) (off + t)) with (Z.max hi (off + t)) in * by lia.
    exists t, s', ip'. rewrite <- !Z.add_assoc in *. split; [done|].
    split_and!; try done; try lia; [intros Hx; destruct (Hfull Hx); split; [done|lia]|by eapply wpost_trans|].
    intros i Hi. rewrite Hfb', Hmm5 by done. repeat case_decide; try lia; try done.
    + rewrite Hfb5 by lia. by rewrite decide_True by lia.
    + rewrite Hfb5 by lia. by rewrite decide_False by lia.
Qed.

Lemma ino_ok_uint s h ip : fs_ok s h -> ino_ok s ip -> Forall is_uint (addrs ip).
Proof using Type.
  intros Hok Hio. apply Forall_forall. intros x [k Hk]%list_elem_of_lookup.
  pose proof (io_len _ _ Hio) as Hl. pose proof (lookup_lt_Some _ _ _ Hk) as Hlt. unfold zlen, NDIRECT in Hl.
  assert (Hx : x = znth (addrs ip) (Z.of_nat k)).
  { unfold znth. rewrite Nat2Z.id. symmetry. by apply list_lookup_total_correct. }
  unfold is_uint. destruct (decide (x = 0)) as [->|Hnz]; [lia|].
  assert (Hd : data_block s x); [|pose proof (data_block_pos _ _ _ Hok Hd); lia].
  destruct (decide (k = 12)%nat) as [->|].
  - rewrite Hx in *. by apply (io_ind _ _ Hio).
  - assert (Hi : iaddr s ip (Z.of_nat k) = x).
    { unfold iaddr. rewrite (proj2 (Z.ltb_lt _ _)) by (unfold NDIRECT; lia). done. }
    rewrite <- Hi. apply (io_data _ _ Hio); [change MAXFILE with 268; lia|congruence].
Qed.

Lemma geti_alter s ino f j :
  0 <= ino < zlen (itable s) -> 0 <= j ->
  geti (set_itable (alter f (Z.to_nat ino)) s) j = if decide (j = ino) then f (geti s ino) else geti s j.
Proof using Type.
  intros Hi Hj. unfold geti, zlen in *. simpl. rewrite list_lookup_total_alter.
  repeat case_decide; subst; try done; try lia; tauto || lia.
Qed.

(** What is left of [s] after a write to [ino]: the inode's size, its object, the buffers. *)
Definition only_file s (ino p sz : Z) (ip' : xv6fs_inode) s' : Prop :=
  exists b, s' = set_bc b (set_itable (alter (set_size sz) (Z.to_nat ino)) (set_heap (insert p (HInode ip')) s)).

Lemma set_size_id i : set_size (size i) i = i.
Proof using Type. by destruct i. Qed.

Lemma list_alter_id' {A} `{!Inhabited A} (f : A -> A) (l : list A) k : f (l !!! k) = l !!! k -> alter f k l = l.
Proof using Type.
  intros Hf. apply list_eq. intros i. rewrite list_lookup_alter. case_decide; [subst|done].
  destruct (l !! i) eqn:E; simpl; [|done]. by rewrite (list_lookup_total_correct _ _ _ E) in Hf; rewrite Hf.
Qed.

(** The inode's size is set to the larger of the old size and the end of the write. *)
Lemma set_size_max s ino off :
  (if size (geti s ino) <? off then updi ino (set_size off) else mret tt) s =
  Ok (tt, set_itable (alter (set_size (Z.max (size (geti s ino)) off)) (Z.to_nat ino)) s).
Proof using Type.
  destruct (size (geti s ino) <? off) eqn:E; zbool.
  - rewrite Z.max_r by lia. done.
  - rewrite Z.max_l by lia. unfold mret, K_ret, set_itable.
    rewrite (list_alter_id' (set_size (size (geti s ino)))) by apply set_size_id. by destruct s.
Qed.

(** [upper s s']: the bit map and the data blocks are the same. *)
Definition upper s s' : Prop := sb s' = sb s /\ forall m, bmapstart (sb s) <= m -> blk s' m = blk s m.

Section Upper.
Context (s s' : fsys B M) (h : list (Z * Z)) (Hok : fs_ok s h) (Hup : upper s s').

Lemma upper_used c : 0 <= c < sb_size (sb s) -> used s' c = used s c.
Proof using Hok Hup. intros Hc. apply used_bmap; [apply Hok|apply Hup| |done]. intros m Hm. apply Hup. lia. Qed.

Lemma upper_data_block m : data_block s' m <-> data_block s m.
Proof using Hok Hup.
  pose proof (sb_meta_pos _ (fo_sb _ _ Hok)). unfold data_block. rewrite (proj1 Hup).
  split; intros [Hm Hu]; (split; [done|]); [rewrite <- upper_used by lia|rewrite upper_used by lia]; done.
Qed.

Lemma upper_data m : data_block s m -> blk s' m = blk s m.
Proof using Hok Hup. intros Hm. apply Hup. pose proof (data_block_pos _ _ _ Hok Hm). lia. Qed.

Lemma upper_full : full s -> full s'.
Proof using Hok Hup. intros Hf c. rewrite (proj1 Hup). intros Hc. rewrite upper_used by done. by apply Hf. Qed.

Context (ip : xv6fs_inode) (Hio : ino_ok s ip).

Lemma upper_iaddr bn : iaddr s' ip bn = iaddr s ip bn.
Proof using Hok Hup Hio. apply iaddr_ext. intros Hnz. apply upper_data. by apply (io_ind _ _ Hio). Qed.

Lemma upper_ino_ok : ino_ok s' ip.
Proof using Hok Hup Hio.
  destruct Hio as [Hd Hl Hdt Hind Hinj Hne]. split; try done.
  - intros b Hbr. rewrite upper_iaddr, upper_data_block. by apply Hdt.
  - rewrite upper_data_block. done.
  - intros b b' Hb Hb'. rewrite !upper_iaddr. by apply Hinj.
  - intros b Hb. rewrite upper_iaddr. by apply Hne.
Qed.

Lemma upper_fbyte i : 0 <= i < MAXFILE * BSIZE -> iaddr s ip (i / BSIZE) <> 0 -> fbyte s' ip i = fbyte s ip i.
Proof using Hok Hup Hio.
  intros Hi Hnz. unfold fbyte. rewrite upper_iaddr, upper_data; [done|].
  apply (io_data _ _ Hio); [|done]. by apply (div_range i _ Hi).
Qed.

Lemma upper_foreign m : foreign s ip m -> foreign s' ip m /\ blk s' m = blk s m.
Proof using Hok Hup Hio.
  intros (Hd & Hi & Hb). split; [|by apply upper_data]. split_and!; [by apply upper_data_block|done|].
  intros bn Hbn. rewrite upper_iaddr. by apply Hb.
Qed.

Lemma upper_no_holes hi : no_holes s ip hi -> no_holes s' ip hi.
Proof using Hok Hup Hio. intros Hn bn. rewrite upper_iaddr. apply Hn. Qed.
End Upper.

Lemma writei_ok s ino ip user src off n :
  fs_ok s [] -> file_ok s ino ip -> km_inv (mm s) -> km_ok (mm s) user src n ->
  0 <= src -> src + n < 2 ^ 64 -> 0 <= off <= size (geti s ino) -> 0 <= n -> off + n <= MAXFILE * BSIZE ->
  exists t s' ip', xv6fs_writei ino user src off n s = Ok (t, s') /\ 0 <= t <= n /\ (t < n -> full s' /\ size (geti s ino) <= off + t) /\
    fs_ok s' [] /\ file_ok s' ino ip' /\
    only_file s ino (private (geti s ino)) (Z.max (size (geti s ino)) (off + t)) ip' s' /\
    ip' = set_addrs (addrs ip') ip /\
    (forall i, 0 <= i < Z.max (size (geti s ino)) (off + t) -> fbyte s' ip' i =
       if decide (off <= i < off + t) then znth (km_read (mm s) user src n) (i - off) else fbyte s ip i) /\
    disk_inode s' (inum (geti s ino)) = dinode_of (geti s' ino) ip' /\
    (forall k, inum_ok (sb s) k -> k <> inum (geti s ino) -> disk_inode s' k = disk_inode s k) /\
    (forall m, foreign s ip m -> foreign s' ip' m /\ blk s' m = blk s m).
Proof using Type.
  intros Hok Hf Hmi Hmo Hsrc Hsn Hoff Hn Hmax. pose proof (fk_size _ _ _ Hf) as Hsz.
  unfold xv6fs_writei. ksimpl. change (MAXFILE * BSIZE) with 274432 in *.
  rewrite uint_small by lia. rewrite (proj2 (Z.ltb_ge _ off)), (proj2 (Z.ltb_ge (off + n) off)), (proj2 (Z.ltb_ge 274432 _)) by lia.
  cbn [orb]. destruct (writei_loop_spec (S (Z.to_nat n)) s ino _ ip user src off n 0 (size (geti s ino)) Hok eq_refl
    (fk_heap _ _ _ Hf) (fk_ip _ _ _ Hf) (fk_dev _ _ _ Hf)) as (t & s1 & ip1 & He1 & Ht & Hfull & Hw & Hnh & Hfb);
    try done; try (change (MAXFILE * BSIZE) with 274432; lia); [apply Hf|].
  rewrite (Z.add_0_r src), (Z.add_0_r off) in He1. rewrite (Z.add_0_r off) in Hfb. kstep He1. pose proof Hw as (Hon & Hok1 & Hio1 & Hset & Hfor & Hmeta).
  destruct (only_ino_geti _ _ _ _ ino Hon) as (Hgi & Hmm & Hsb).
  ksimpl. rewrite (bind_ok _ _ _ _ _ (set_size_max s1 ino (off + t))). rewrite Hgi.
  set (sz := Z.max (size (geti s ino)) (off + t)) in *.
  set (s2 := set_itable (alter (set_size sz) (Z.to_nat ino)) s1).
  assert (Hino : 0 <= ino < zlen (itable s1)) by (destruct Hon as [b ->]; apply Hf).
  assert (Hg2 : geti s2 ino = set_size sz (geti s ino)).
  { unfold s2. rewrite geti_alter by (done || lia). by rewrite decide_True, Hgi by done. }
  assert (Hok2 : fs_ok s2 []) by (by destruct Hok1; split).
  assert (Hio2 : ino_ok s2 ip1) by (by destruct Hio1; split).
  destruct (fk_short _ _ _ Hf) as (Hs1 & Hs2 & Hs3 & Hs4).
  assert (Hmm1 : xi_major ip1 = xi_major ip /\ xi_minor ip1 = xi_minor ip) by (rewrite Hset; done).
  destruct Hmm1 as [Hma Hmi1].
  destruct (iupdate_ok s2 ino ip1 Hok2) as (s' & He' & Hk' & Hok' & Hdi & Hdo & Hblk).
  { rewrite Hg2. apply Hf. }
  { rewrite Hg2. simpl. by apply only_ino_heap in Hon. }
  { rewrite Hg2. split_and!; simpl; try done; [by rewrite Hma|by rewrite Hmi1|unfold is_uint; lia|apply Hio1|].
    by eapply ino_ok_uint. }
  { rewrite Hg2. simpl. change (sb s2) with (sb s1). rewrite Hsb. apply Hf. }
  kstep He'. change (sb s2) with (sb s1) in *. rewrite Hsb in *. rewrite Hg2 in Hdi, Hdo. simpl in Hdi, Hdo.
  pose proof (keep_sb _ _ _ Hk') as Hsb'. change (sb s2) with (sb s1) in Hsb'.
  pose proof (sb_meta_pos _ (fo_sb _ _ Hok)) as Hmp.
  assert (Hup : upper s1 s') by (split; [by rewrite Hsb'|]; rewrite Hsb; intros m Hm; apply Hblk; lia).
  assert (Hof : only_file s ino (private (geti s ino)) sz ip1 s').
  { destruct Hk' as [[b' ->] _], Hon as [b1 ->]. by exists b'. }
  assert (Hg' : geti s' ino = set_size sz (geti s ino)) by (destruct Hk' as [[b' ->] _]; exact Hg2).
  assert (Hszr : 0 <= sz <= 274432) by (unfold sz; lia).
  exists t, s', ip1. split; [unfold mret, K_ret; by rewrite int_small by lia|].
  split_and!; try done; try lia.
  - intros Hlt. destruct (Hfull Hlt). split; [|done]. by eapply (upper_full s1 s' []).
  - destruct (upper_ino_ok s1 s' [] Hok1 Hup ip1 Hio1). split; rewrite ?Hg'; simpl; try apply Hf; try done.
    + destruct Hk' as [[b' ->] _]. simpl. unfold zlen. rewrite length_alter. done.
    + rewrite (keep_heap _ _ _ Hk'). by apply only_ino_heap in Hon.
    + rewrite Hsb', Hsb. apply Hf.
    + by rewrite Hma, Hmi1.
    + by apply (upper_no_holes s1 s' []).
  - intros i Hi. rewrite (upper_fbyte s1 s' [] Hok1 Hup ip1 Hio1); [by apply Hfb| |by eapply no_holes_at].
    change (MAXFILE * BSIZE) with 274432. lia.
  - by rewrite Hg'.
  - intros k Hki Hne. rewrite Hdo by done. unfold disk_inode. change (sb s2) with (sb s1). rewrite Hsb.
    f_equal. apply Hmeta. destruct (IBLOCK_range _ k (fo_sb _ _ Hok) Hki). lia.
  - intros m Hm. destruct (Hfor m Hm) as [Hm1 Hb1].
    destruct (upper_foreign s1 s' [] Hok1 Hup ip1 Hio1 m Hm1) as [? Hb2]. split; [done|]. by rewrite Hb2, Hb1.
Qed.
End FileData.
