(* ===== verification/Trunc.v ===== *)
(** * Truncating a file

    Correctness of [xv6fs_itrunc]: it frees exactly the blocks of the file. *)

From stdpp Require Import base numbers list list_numbers gmap strings.
From Stdlib Require Import ZArith Lia.
From S2P Require Import Prelude Params Virtio Bio Kmem Fsys Blocks BlocksProof Bmap Dinode FileData.

(** Arithmetic with the sizes of [fs.h]. *)
Ltac sizes := change MAXFILE with 268 in *; change NINDIRECT with 256 in *; change NDIRECT with 12 in *; lia.

Section Trunc.
Context {B M : Type} `{BC : BufCache B, BL : !BufCacheLaws B} `{KM : KMem M, KL : !KMemLaws M}.
Implicit Types s : fsys B M.

(** From [s0] to [s] the blocks [fr] were freed and nothing outside the bit map changed. *)
Definition freed (h : list (Z * Z)) s0 (fr : list Z) s : Prop :=
  fs_ok s h /\ sb s = sb s0 /\
  (forall m, ~ (bmapstart (sb s0) <= m < meta_end (sb s0)) -> blk s m = blk s0 m) /\
  (forall c, 0 <= c < sb_size (sb s0) -> used s c = used s0 c && bool_decide (c ∉ fr)).

Lemma freed_step h s0 fr s b :
  freed h s0 fr s -> held_ok s0 h -> (forall n, n ∈ h.*2 -> n ∉ fr) -> data_block s0 b -> b ∉ fr ->
  exists s', bfree ROOTDEV b s = Ok (tt, s') /\ keep h s s' /\ freed h s0 (b :: fr) s'.
Proof using Type.
  intros (Hok & Hsb & Hb & Hu) [Hhl Hh] Hhf Hd Hnf. pose proof (sb_meta_pos _ (fo_sb _ _ Hok)) as Hp.
  rewrite Hsb in Hp. destruct Hd as [Hdr Hdu].
  destruct (bfree_spec s h b Hok) as (s' & He & Hk & Hok' & Hb' & Hu').
  - split; [done|]. intros n Hn. destruct (Hh n Hn) as (? & Hun & ?). rewrite Hsb. split_and!; try done; try lia.
    rewrite Hu, Hun by lia. rewrite bool_decide_eq_true_2; [done|by apply Hhf].
  - by rewrite Hsb.
  - rewrite Hu, Hdu by lia. by rewrite bool_decide_eq_true_2.
  - exists s'. split_and!; try done. split_and!; try done.
    + by rewrite (keep_sb _ _ _ Hk).
    + intros m Hm. rewrite Hb' by by rewrite Hsb. by apply Hb.
    + intros c Hc. rewrite Hu' by by rewrite Hsb. rewrite Hu by done. case_decide as E.
      * subst. rewrite bool_decide_eq_false_2 by set_solver. by rewrite andb_false_r.
      * f_equal. apply bool_decide_ext. set_solver.
Qed.

(** The blocks among the addresses [l]. *)
Definition nz (l : list Z) : list Z := filter (fun a => a <> 0) l.

Lemma nz_cons_zero l : nz (0 :: l) = nz l.
Proof using Type. unfold nz. by rewrite filter_cons_False by auto. Qed.
Lemma nz_cons a l : a <> 0 -> nz (a :: l) = a :: nz l.
Proof using Type. unfold nz. intros. by rewrite filter_cons_True. Qed.

Lemma itrunc_indirect_spec k j s0 s bp n fr (a : list Z) :
  freed [(bp, n)] s0 fr s -> held_ok s0 [(bp, n)] -> bc_data (bc s) bp = a ->
  let l := (fun i => load32 a (4 * (j + i))) <$> seqZ 0 (Z.of_nat k) in
  NoDup (n :: nz l ++ fr) -> Forall (data_block s0) (nz l) ->
  exists s', itrunc_indirect k ROOTDEV bp j s = Ok (tt, s') /\ keep [(bp, n)] s s' /\
    freed [(bp, n)] s0 (reverse (nz l) ++ fr) s'.
Proof using Type.
  revert j s fr. induction k as [|k IH]; intros j s fr Hf Hh Ha l Hnd Hdb.
  { exists s. split; [done|]. split; [apply keep_refl|done]. }
  assert (Hl : l = load32 a (4 * j) :: ((fun i => load32 a (4 * (j + 1 + i))) <$> seqZ 0 (Z.of_nat k))).
  { unfold l. rewrite seqZ_cons by lia. cbn [fmap list_fmap].
    apply (f_equal2 cons); [f_equal; lia|].
    replace (Z.pred (Z.of_nat (S k))) with (Z.of_nat k) by lia. change (Z.succ 0) with (1 + 0).
    rewrite <- (fmap_add_seqZ 1 0), <- list_fmap_compose. apply list_fmap_ext. intros ? i _. unfold compose. f_equal. lia. }
  cbn [itrunc_indirect]. unfold bp_data. ksimpl. rewrite Ha. clearbody l. subst l.
  set (l' := (fun i => load32 a (4 * (j + 1 + i))) <$> seqZ 0 (Z.of_nat k)) in *.
  destruct (load32 a (4 * j) =? 0) eqn:E; cbn [negb]; zbool.
  - ksimpl. rewrite E, nz_cons_zero in *. apply IH; try done.
  - rewrite nz_cons in * by done. set (b := load32 a (4 * j)) in *.
    apply Forall_cons in Hdb as [Hb Hdb]. apply NoDup_cons in Hnd as [Hn Hnd]. cbn [app] in Hnd, Hn.
    apply NoDup_cons in Hnd as [Hbl Hnd].
    destruct (freed_step [(bp, n)] s0 fr s b Hf Hh) as (s1 & He1 & Hk1 & Hf1); [|done|set_solver|].
    { intros m ->%list_elem_of_singleton. simpl. set_solver. }
    kstep He1. destruct (IH (j + 1) s1 (b :: fr)) as (s' & He' & Hk' & Hf'); try done.
    + rewrite <- Ha. apply Hk1. set_solver.
    + apply NoDup_cons. split; [set_solver|]. apply NoDup_app in Hnd as (Hnd1 & Hnd2 & Hnd3).
      apply NoDup_app. split_and!; [done| |apply NoDup_cons; split; [set_solver|done]]. set_solver.
    + exists s'. split; [done|]. split; [by eapply keep_trans|]. rewrite reverse_cons, <- app_assoc. done.
Qed.

Lemma znth_app_mid (pre l : list Z) a : znth (pre ++ a :: l) (zlen pre) = a.
Proof using Type.
  unfold znth, zlen. rewrite Nat2Z.id. apply list_lookup_total_correct. by apply list_lookup_middle.
Qed.
Lemma zupd_app_mid (pre l : list Z) a x : zupd (pre ++ a :: l) (zlen pre) x = pre ++ x :: l.
Proof using Type. unfold zupd, zlen. rewrite Nat2Z.id. by rewrite insert_app_r_alt, Nat.sub_diag by done. Qed.

Lemma itrunc_direct_spec s0 l s p ip pre post fr :
  heap s !! p = Some (HInode ip) -> addrs ip = pre ++ l ++ post ->
  freed [] s0 fr s -> NoDup (nz l ++ fr) -> Forall (data_block s0) (nz l) ->
  exists s', itrunc_direct (length l) ROOTDEV p (zlen pre) s = Ok (tt, s') /\
    only_ino s p (set_addrs (pre ++ replicate (length l) 0 ++ post) ip) s' /\
    freed [] s0 (reverse (nz l) ++ fr) s'.
Proof using Type.
  revert s ip pre fr. induction l as [|a l IH]; intros s ip pre fr Hp Ha Hf Hnd Hdb.
  { exists s. split; [done|]. split; [|done]. cbn [length replicate app] in *. rewrite <- Ha.
    replace (set_addrs (addrs ip) ip) with ip by by destruct ip. by apply only_ino_refl. }
  change (addrs ip = pre ++ a :: l ++ post) in Ha.
  cbn [length itrunc_direct]. kstep (get_xi_ok s p ip Hp). rewrite Ha, znth_app_mid.
  assert (Hlen : zlen pre + 1 = zlen (pre ++ [0])) by by rewrite zlen_app.
  assert (Hrep : forall tl, pre ++ replicate (S (length l)) 0 ++ tl = (pre ++ [0]) ++ replicate (length l) 0 ++ tl).
  { intros tl. by rewrite <- app_assoc. }
  destruct (a =? 0) eqn:E; cbn [negb]; zbool.
  - subst a. ksimpl. rewrite nz_cons_zero in *. rewrite Hlen.
    destruct (IH s ip (pre ++ [0]) fr) as (s' & He & Hon & Hf'); try done.
    { rewrite Ha. by rewrite <- app_assoc. }
    exists s'. by rewrite Hrep.
  - rewrite nz_cons in * by done. cbn [app] in *. apply NoDup_cons in Hnd as [Han Hnd].
    apply Forall_cons in Hdb as [Hda Hdb].
    destruct (freed_step [] s0 fr s a Hf (held_ok_nil s0)) as (s1 & He1 & Hk1 & Hf1);
      [intros n Hn; by apply elem_of_nil in Hn|done|set_solver|].
    set (ip1 := set_addrs (pre ++ 0 :: l ++ post) ip).
    set (s2 := set_heap (insert p (HInode ip1)) s1).
    assert (Hs2 : (bfree ROOTDEV a;; put_xi p (set_addrs (zupd (pre ++ a :: l ++ post) (zlen pre) 0) ip)) s = Ok (tt, s2)).
    { kstep He1. by rewrite zupd_app_mid. }
    kstep Hs2. rewrite Hlen.
    destruct (IH s2 ip1 (pre ++ [0]) (a :: fr)) as (s' & He & Hon & Hf').
    + apply lookup_insert_eq.
    + simpl. by rewrite <- app_assoc.
    + destruct Hf1 as (Hok1 & ? & ? & ?). split_and!; try done. by apply fs_ok_set_heap.
    + apply NoDup_app in Hnd as (Hnd1 & Hnd2 & Hnd3). apply NoDup_app. split_and!; [done| |apply NoDup_cons; split; [set_solver|done]].
      set_solver.
    + done.
    + exists s'. split; [done|]. rewrite Hrep. split.
      * destruct Hk1 as [[b ->] _]. eapply only_ino_trans; [|exact Hon]. by exists b.
      * by rewrite reverse_cons, <- app_assoc.
Qed.

(** The blocks of a file. *)
Definition owns s (ip : xv6fs_inode) (c : Z) : Prop :=
  c <> 0 /\ (c = indirect ip \/ exists bn, 0 <= bn < MAXFILE /\ c = iaddr s ip bn).

Definition entries s (ip : xv6fs_inode) (from n : Z) : list Z := (fun k => iaddr s ip (from + k)) <$> seqZ 0 n.

Lemma elem_of_nz_entries s ip from n c :
  c ∈ nz (entries s ip from n) <-> c <> 0 /\ exists k, from <= k < from + n /\ c = iaddr s ip k.
Proof using Type.
  unfold nz, entries. rewrite list_elem_of_filter, list_elem_of_fmap. split.
  - intros [Hc (k & -> & Hk%elem_of_seqZ)]. split; [done|]. exists (from + k). split; [lia|done].
  - intros [Hc (k & Hk & ->)]. split; [done|]. exists (k - from). split; [f_equal; lia|]. apply elem_of_seqZ. lia.
Qed.

Lemma NoDup_nz_entries s ip from n :
  ino_ok s ip -> 0 <= from -> from + n <= MAXFILE -> NoDup (nz (entries s ip from n)).
Proof using Type.
  intros Hio Hfrom Hn. unfold nz, entries.
  assert (Hr : forall k, k ∈ seqZ 0 n -> 0 <= from + k < MAXFILE) by (intros k Hk%elem_of_seqZ; lia).
  pose proof (NoDup_seqZ 0 n) as Hnd. induction Hnd as [|k l Hk Hnd IH]; [constructor|]. cbn [fmap list_fmap].
  rewrite filter_cons. case_decide as Hz; [|apply IH; set_solver]. apply NoDup_cons. split; [|apply IH; set_solver].
  intros [_ (k' & He & Hk')%list_elem_of_fmap]%list_elem_of_filter.
  assert (from + k = from + k'); [|assert (k = k') as -> by lia; done].
  apply (io_inj _ _ Hio); [apply Hr; set_solver..|done|done].
Qed.

Lemma Forall_nz_entries s ip from n :
  ino_ok s ip -> 0 <= from -> from + n <= MAXFILE -> Forall (data_block s) (nz (entries s ip from n)).
Proof using Type.
  intros Hio Hfrom Hn. apply Forall_forall. intros c [Hc (k & Hk & ->)]%elem_of_nz_entries.
  apply (io_data _ _ Hio); [lia|done].
Qed.

Lemma addrs_split s ip : ino_ok s ip -> addrs ip = entries s ip 0 NDIRECT ++ [indirect ip].
Proof using Type.
  intros Hio. pose proof (io_len _ _ Hio) as Hl. apply znth_ext.
  { rewrite zlen_app, Hl. unfold entries, zlen. rewrite length_fmap, length_seqZ. done. }
  rewrite Hl. intros k Hk. unfold NDIRECT in *. destruct (decide (k = 12)) as [->|Hne].
  - unfold znth at 2. rewrite list_lookup_total_alt, lookup_app_r; unfold entries; rewrite length_fmap, length_seqZ; [done|lia].
  - unfold znth at 2. rewrite list_lookup_total_alt, lookup_app_l; unfold entries; [|rewrite length_fmap, length_seqZ; lia].
    rewrite list_lookup_fmap, lookup_seqZ_lt by lia. simpl. unfold iaddr.
    rewrite (proj2 (Z.ltb_lt _ _)) by (unfold NDIRECT; lia). f_equal. lia.
Qed.

Lemma length_entries s ip from n : 0 <= n -> length (entries s ip from n) = Z.to_nat n.
Proof using Type. intros. unfold entries. by rewrite length_fmap, length_seqZ. Qed.

Lemma freed_nil s : fs_ok s [] -> freed [] s [] s.
Proof using Type.
  intros Hok. split_and!; try done. intros c Hc. rewrite bool_decide_eq_true_2 by apply not_elem_of_nil. by rewrite andb_true_r.
Qed.

(** The indirect block: its entries are freed, then the block itself. *)
Lemma itrunc_indirect_ok s0 s ip fr :
  ino_ok s0 ip -> indirect ip <> 0 -> fs_ok s0 [] -> freed [] s0 fr s ->
  (forall c, c ∈ fr -> c <> indirect ip /\ c ∉ nz (entries s0 ip NDIRECT NINDIRECT)) -> NoDup fr ->
  exists bp s1 s2 s3 s', fs_bread ROOTDEV (indirect ip) s = Ok (bp, s1) /\
    itrunc_indirect (Z.to_nat NINDIRECT) ROOTDEV bp 0 s1 = Ok (tt, s2) /\ fs_brelse bp s2 = Ok (tt, s3) /\
    bfree ROOTDEV (indirect ip) s3 = Ok (tt, s') /\ keep [] s s' /\
    freed [] s0 (indirect ip :: reverse (nz (entries s0 ip NDIRECT NINDIRECT)) ++ fr) s'.
Proof using Type.
  intros Hio Hnz Hok0 Hf Hfr Hnd. pose proof (io_ind _ _ Hio Hnz) as Hd. set (n := indirect ip) in *.
  pose proof (data_block_pos _ _ _ Hok0 Hd) as Hpos. pose proof Hf as (Hok & Hsb & Hb & Hu).
  pose proof (sb_meta_pos _ (fo_sb _ _ Hok0)) as Hmp.
  destruct (bread_spec s [] n (fo_inv _ _ Hok) ltac:(done) ltac:(lia)) as (bp & s1 & He1 & Hk1 & Hi1 & _ & Hd1 & Hb1);
    [by apply not_elem_of_nil|].
  pose proof (keep_sb _ _ _ Hk1) as Hsb1.
  assert (Hf1 : freed [(bp, n)] s0 fr s1).
  { split_and!; [by eapply (fs_ok_ext [])|congruence|intros; rewrite Hb1; auto|].
    intros c Hc. rewrite (used_ext s s1) by done. by apply Hu. }
  assert (Hh : held_ok s0 [(bp, n)]).
  { split; [done|]. intros m ->%list_elem_of_singleton. simpl. destruct Hd. split_and!; try done; lia. }
  assert (Hn : blk s n = blk s0 n) by (apply Hb; destruct Hd; lia).
  assert (Hent : (fun i => load32 (blk s0 n) (4 * (0 + i))) <$> seqZ 0 (Z.of_nat (Z.to_nat NINDIRECT)) = entries s0 ip NDIRECT NINDIRECT).
  { unfold entries. change (Z.of_nat (Z.to_nat NINDIRECT)) with NINDIRECT. apply list_fmap_ext.
    intros i x Hx%list_elem_of_lookup_2%elem_of_seqZ. rewrite iaddr_indirect by (done || lia). by rewrite Z.add_0_l. }
  destruct (itrunc_indirect_spec (Z.to_nat NINDIRECT) 0 s0 s1 bp n fr (blk s0 n) Hf1 Hh) as (s2 & He2 & Hk2 & Hf2).
  { by rewrite Hd1. }
  { rewrite Hent. apply NoDup_cons. split.
    - intros [[_ (k & Hk & Hx)]%elem_of_nz_entries|Hx]%elem_of_app; [|by destruct (Hfr n Hx)].
      symmetry in Hx. revert Hx. apply (io_ind_ne _ _ Hio); [sizes|done].
    - apply NoDup_app. split_and!; [by apply NoDup_nz_entries| |done]. intros c Hc Hc'. by destruct (Hfr c Hc'). }
  { rewrite Hent. by apply Forall_nz_entries. }
  rewrite Hent in Hf2. set (il := entries s0 ip NDIRECT NINDIRECT) in *.
  pose proof Hf2 as (Hok2 & Hsb2 & Hb2 & Hu2).
  assert (Hn2 : blk s2 n = blk s0 n) by (apply Hb2; destruct Hd; lia).
  destruct (brelse_spec s2 [] bp n (fo_inv _ _ Hok2)) as (s3 & He3 & Hk3 & Hi3 & Hb3).
  { rewrite Hn2, <- Hn, <- Hd1. apply Hk2. by apply list_elem_of_singleton. }
  assert (Hf3 : freed [] s0 (reverse (nz il) ++ fr) s3).
  { split_and!; [by eapply (fs_ok_ext [(bp, n)]); [|apply (keep_sb _ _ _ Hk3)|..]|by rewrite (keep_sb _ _ _ Hk3)|intros; rewrite Hb3; auto|].
    intros c Hc. rewrite (used_ext s2 s3) by (done || apply (keep_sb _ _ _ Hk3)). by apply Hu2. }
  destruct (freed_step [] s0 _ s3 n Hf3 (held_ok_nil s0)) as (s' & He' & Hk' & Hf').
  { intros m Hm. by apply elem_of_nil in Hm. }
  { done. }
  { unfold il. rewrite elem_of_app, elem_of_reverse, elem_of_nz_entries. intros [[_ (k & Hk & Hx)]|Hx]; [|by destruct (Hfr n Hx)].
    symmetry in Hx. revert Hx. apply (io_ind_ne _ _ Hio); [sizes|done]. }
  exists bp, s1, s2, s3, s'. split_and!; try done.
  eapply keep_trans; [exact Hk1|]. eapply keep_trans; [by eapply keep_cons|]. by eapply keep_trans.
Qed.

Definition no_addrs (ip : xv6fs_inode) : xv6fs_inode := set_addrs (replicate 13 0) ip.

(** The code of [xv6fs_itrunc] before the size is reset. *)
Definition itrunc_blocks (dv p : Z) : K (fsys B M) unit :=
  itrunc_direct (Z.to_nat NDIRECT) dv p 0;;
  ip ← get_xi p;
  (if negb (znth (addrs ip) NDIRECT =? 0) then
     bp ← fs_bread dv (znth (addrs ip) NDIRECT);
     itrunc_indirect (Z.to_nat NINDIRECT) dv bp 0;;
     fs_brelse bp;;
     bfree dv (znth (addrs ip) NDIRECT);;
     put_xi p (set_addrs (zupd (addrs ip) NDIRECT 0) ip)
   else mret tt).

Lemma itrunc_split ino s :
  xv6fs_itrunc ino s =
  (itrunc_blocks (dev (geti s ino)) (private (geti s ino));; updi ino (set_size 0);; xv6fs_iupdate ino) s.
Proof using Type.
  unfold xv6fs_itrunc, itrunc_blocks, mbind, K_bind. cbn [get res_bind fst snd].
  destruct (itrunc_direct _ _ _ _ s) as [[[] s1]| | | |]; cbn [res_bind fst snd]; try done.
  destruct (get_xi _ s1) as [[ip s2]| | | |]; cbn [res_bind fst snd]; try done.
Qed.

Lemma itrunc_blocks_ok s p ip :
  fs_ok s [] -> heap s !! p = Some (HInode ip) -> ino_ok s ip ->
  exists s' fr, itrunc_blocks ROOTDEV p s = Ok (tt, s') /\ only_ino s p (no_addrs ip) s' /\
    freed [] s fr s' /\ forall c, c ∈ fr <-> owns s ip c.
Proof using Type.
  intros Hok Hp Hio. pose proof (addrs_split s ip Hio) as Ha. set (dl := entries s ip 0 NDIRECT) in *.
  destruct (itrunc_direct_spec s dl s p ip [] [indirect ip] []) as (s1 & He1 & Hon1 & Hf1).
  { done. } { exact Ha. } { by apply freed_nil. }
  { rewrite app_nil_r. by apply NoDup_nz_entries. } { by apply Forall_nz_entries. }
  unfold dl in He1, Hon1. rewrite length_entries in He1, Hon1 by done. rewrite app_nil_r in Hf1.
  set (ip1 := set_addrs _ ip) in Hon1. change (zlen []) with 0 in He1.
  unfold itrunc_blocks. kstep He1. kstep (get_xi_ok s1 p ip1 (only_ino_heap _ _ _ _ Hon1)).
  assert (Hi1 : znth (addrs ip1) NDIRECT = indirect ip) by (by apply (znth_app_mid (replicate 12 0))).
  rewrite Hi1. destruct (indirect ip =? 0) eqn:E; cbn [negb]; zbool.
  - exists s1, (reverse (nz dl)). split; [done|]. split_and!; [|done|].
    + unfold ip1 in Hon1. rewrite E in Hon1. exact Hon1.
    + intros c. unfold dl. rewrite elem_of_reverse, elem_of_nz_entries. unfold owns. split.
      * intros [Hc (k & Hk & ->)]. split; [done|]. right. exists k. split; [sizes|done].
      * intros [Hc [->|(k & Hk & ->)]]; [done|]. split; [done|]. exists k. split; [|done].
        destruct (decide (k < NDIRECT)); [lia|]. by rewrite iaddr_no_indirect in Hc by (done || lia).
  - destruct (itrunc_indirect_ok s s1 ip (reverse (nz dl))) as (bp & s2 & s3 & s4 & s5 & He2 & He3 & He4 & He5 & Hk5 & Hf5); try done.
    { intros c [Hc (k & Hk & Hx)]%elem_of_reverse%elem_of_nz_entries. split.
      - subst c. apply (io_ind_ne _ _ Hio); [sizes|done].
      - rewrite elem_of_nz_entries. intros [_ (k' & Hk' & Hx')]. assert (k = k'); [|lia].
        apply (io_inj _ _ Hio); [sizes..|congruence|congruence]. }
    { rewrite (reverse_Permutation (nz dl)). by apply NoDup_nz_entries. }
    kstep He2. kstep He3. kstep He4. kstep He5. eexists _, _. split; [reflexivity|]. split_and!.
    + destruct Hk5 as [[b5 ->] _], Hon1 as [b1 ->]. exists b5. unfold set_heap, set_bc. simpl.
      rewrite insert_insert_eq. do 2 f_equal. 
    + destruct Hf5 as (Hok5 & ? & ? & ?). split_and!; try done. by apply fs_ok_set_heap.
    + intros c. rewrite elem_of_cons, elem_of_app, !elem_of_reverse. unfold dl. rewrite !elem_of_nz_entries. unfold owns.
      split.
      * intros [->|[[Hc (k & Hk & ->)]|[Hc (k & Hk & ->)]]]; [by split; [|left]|..]; (split; [done|right; exists k]).
        all: split; [sizes|done].
      * intros [Hc [->|(k & Hk & ->)]]; [by left|right]. destruct (decide (k < NDIRECT)); [right|left].
        all: split; [done|exists k]; split; [sizes|done].
Qed.

Lemma no_addrs_iaddr s ip bn : 0 <= bn < MAXFILE -> iaddr s (no_addrs ip) bn = 0.
Proof using Type.
  intros Hb. unfold iaddr, indirect, no_addrs. simpl. destruct (bn <? NDIRECT) eqn:E; zbool; [|done].
  unfold znth. rewrite list_lookup_total_alt. replace (replicate 13 0) with ([0;0;0;0;0;0;0;0;0;0;0;0;0] : list Z) by done.
  destruct (Z.to_nat bn) as [|k] eqn:Ek; [done|]. do 12 (destruct k as [|k]; [done|]). sizes.
Qed.

Lemma no_addrs_ok s ip : xi_dev ip = ROOTDEV -> ino_ok s (no_addrs ip).
Proof using Type.
  intros Hd. pose proof (no_addrs_iaddr s ip) as Hia. split; try done.
  - intros bn Hb. by rewrite Hia.
  - intros bn bn' Hb Hb'. by rewrite Hia.
Qed.

(** The file is empty and its blocks are free; blocks of other files stay as they were. *)
Lemma itrunc_ok s ino ip :
  fs_ok s [] -> file_ok s ino ip ->
  exists s', xv6fs_itrunc ino s = Ok (tt, s') /\ fs_ok s' [] /\ file_ok s' ino (no_addrs ip) /\
    only_file s ino (private (geti s ino)) 0 (no_addrs ip) s' /\
    (forall c, 0 <= c < sb_size (sb s) -> used s' c = true <-> used s c = true /\ ~ owns s ip c) /\
    disk_inode s' (inum (geti s ino)) = dinode_of (geti s' ino) (no_addrs ip) /\
    (forall k, inum_ok (sb s) k -> k <> inum (geti s ino) -> disk_inode s' k = disk_inode s k) /\
    (forall m, meta_end (sb s) <= m -> blk s' m = blk s m).
Proof using Type.
  intros Hok Hf. destruct (itrunc_blocks_ok s _ ip Hok (fk_heap _ _ _ Hf) (fk_ip _ _ _ Hf)) as (s1 & fr & He1 & Hon & Hfr & Hown).
  destruct (only_ino_geti _ _ _ _ ino Hon) as (Hgi & _ & Hsb). pose proof (sb_meta_pos _ (fo_sb _ _ Hok)) as Hmp.
  pose proof Hfr as (Hok1 & _ & Hb1 & Hu1). set (s2 := set_itable (alter (set_size 0) (Z.to_nat ino)) s1).
  assert (Hino : 0 <= ino < zlen (itable s1)) by (destruct Hon as [b ->]; apply Hf).
  assert (Hg2 : geti s2 ino = set_size 0 (geti s ino)).
  { unfold s2. rewrite geti_alter by (done || lia). by rewrite decide_True, Hgi by done. }
  assert (Hok2 : fs_ok s2 []) by (by destruct Hok1; split).
  destruct (fk_short _ _ _ Hf) as (Hs1 & Hs2 & Hs3 & Hs4).
  destruct (iupdate_ok s2 ino (no_addrs ip) Hok2) as (s' & He' & Hk' & Hok' & Hdi & Hdo & Hblk).
  { rewrite Hg2. apply Hf. }
  { rewrite Hg2. simpl. by apply only_ino_heap in Hon. }
  { rewrite Hg2. split_and!; simpl; try done. by repeat constructor. }
  { rewrite Hg2. simpl. change (sb s2) with (sb s1). rewrite Hsb. apply Hf. }
  change (sb s2) with (sb s1) in *. rewrite Hsb in *. rewrite Hg2 in Hdi, Hdo. simpl in Hdi, Hdo.
  pose proof (keep_sb _ _ _ Hk') as Hsb'. change (sb s2) with (sb s1) in Hsb'. rewrite Hsb in Hsb'.
  assert (Hg' : geti s' ino = set_size 0 (geti s ino)) by (destruct Hk' as [[b' ->] _]; exact Hg2).
  exists s'. split_and!; try done.
  - rewrite itrunc_split, (fk_dev _ _ _ Hf). kstep He1. unfold updi. ksimpl. exact He'.
  - destruct (no_addrs_ok s' ip (io_dev _ _ (fk_ip _ _ _ Hf))). split; rewrite ?Hg'; simpl; try apply Hf; try done.
    + destruct Hk' as [[b' ->] _]. simpl. unfold zlen. by rewrite length_alter.
    + rewrite (keep_heap _ _ _ Hk'). by apply only_ino_heap in Hon.
    + rewrite Hsb'. apply Hf.
    + intros bn ??. unfold BSIZE in *. lia.
  - destruct Hk' as [[b' ->] _], Hon as [b1 ->]. by exists b'.
  - intros c Hc. rewrite (used_bmap s1 s'); [|rewrite Hsb; apply Hok|by rewrite Hsb', Hsb| |by rewrite Hsb].
    + rewrite Hu1 by done. rewrite andb_true_iff, bool_decide_eq_true. by rewrite Hown.
    + rewrite Hsb. intros m Hm. rewrite Hblk by lia. done.
  - by rewrite Hg'.
  - intros k Hki Hne. rewrite Hdo by done. unfold disk_inode. change (sb s2) with (sb s1). rewrite Hsb.
    f_equal. apply Hb1. destruct (IBLOCK_range _ k (fo_sb _ _ Hok) Hki). lia.
  - intros m Hm. rewrite Hblk by lia. apply Hb1. lia.
Qed.
End Trunc.
