(* ===== verification/Vfs.v ===== *)
(** * Inodes

    The inode table of [src/kernel/fs/fs.c] ([iinit], [dgetblank], [dfree], [iget],
    [idup], [ilock], [iunlock], [iput], [iunlockput], [stati]) and the operations of
    [src/kernel/fs/xv6fs/fs.c] behind them ([xv6fs_geti], [xv6fs_update_lock],
    [xv6fs_release_inode], [xv6fs_free_inode]).  Directories and path lookup are in
    [Dirs].  A call through an [op] pointer that is null faults. *)

From stdpp Require Import base numbers list list_numbers gmap strings.
From Stdlib Require Import ZArith Lia.
From S2P Require Import Prelude Params KString Path Sleeplock Virtio Bio Kmem Fsys Blocks Dinode.

Section Vfs.
Context {B M : Type} `{BC : BufCache B} `{KM : KMem M}.
Abbreviation F := (fsys B M).

Definition iinit : K F unit := modify (set_itable (fmap (set_i_lock initsleeplock))).

(** ** The dentry table *)

Fixpoint dgetblank_loop (l : list dentry) (i : Z) : option Z :=
  match l with
  | [] => None
  | d :: l => if d_ref d =? 0 then Some i else dgetblank_loop l (i + 1)
  end.
Definition set_d_ref v d := mk_dentry (d_op d) (d_parent d) (d_name d) (d_inode d) (d_ismount d) (d_deleted d) v (d_private d).
Definition dgetblank : K F (option Z) :=
  s ← get;
  match dgetblank_loop (dtable s) 0 with
  | Some i => modify (set_dtable (alter (set_d_ref 1) (Z.to_nat i)));; mret (Some i)
  | None => mret None
  end.
Definition dfree (i : Z) : K F unit :=
  modify (set_dtable (alter (fun _ => mk_dentry false None (replicate 14 0) None 0 0 0 0) (Z.to_nat i))).

(** ** The inode table *)

(** The scan of [iget]: the entry that matches, or the first free one. *)
Fixpoint iget_loop (l : list inode) (dv num i : Z) (empty : option Z) : bool * option Z :=
  match l with
  | [] => (false, empty)
  | ip :: l =>
      if (0 <? ref ip) && (dev ip =? dv) && (inum ip =? num) then (true, Some i)
      else iget_loop l dv num (i + 1)
             (match empty with Some _ => empty | None => if ref ip =? 0 then Some i else None end)
  end.
Definition iget (dv num : Z) : K F Z :=
  s ← get;
  match iget_loop (itable s) dv num 0 None with
  | (true, Some i) => updi i (fun ip => set_ref (int (ref ip + 1)) ip);; mret i
  | (_, None) => panic "iget: no inodes"
  | (false, Some i) =>
      updi i (fun ip => set_private 0 (set_ref 1 (set_inum num (set_dev dv ip))));;
      mret i
  end.

Definition idup (ip : Z) : K F Z := updi ip (fun i => set_ref (int (ref i + 1)) i);; mret ip.

(** The part common to [xv6fs_geti] and [xv6fs_update_lock]: read the inode [num]
    from the disk into a fresh [struct xv6fs_inode] and into the table entry. *)
Definition load_inode (ino dv num : Z) : K F unit :=
  p ← kalloc_obj (HInode xi_zero);
  updi ino (set_private p);;
  s ← get;
  bp ← fs_bread dv (IBLOCK num (sb s));
  data ← bp_data bp;
  let di := decode_dinode data (dinode_off num) in
  put_xi p (mk_xi dv (di_type di) (di_major di) (di_minor di) (di_nlink di) (di_size di) (di_addrs di));;
  updi ino (fun i => set_ref 1 (set_dev dv (set_size (di_size di) (set_nlink (di_nlink di) (set_type (di_type di) i)))));;
  fs_brelse bp.

Definition xv6fs_geti (dv num : Z) (inc_ref : bool) : K F Z :=
  ino ← iget dv num;
  (if inc_ref then mret tt else updi ino (fun i => set_ref (int (ref i - 1)) i));;
  s ← get;
  (if private (geti s ino) =? 0 then load_inode ino dv num else mret tt);;
  mret ino.

Definition xv6fs_update_lock (ino : Z) : K F unit :=
  s ← get; load_inode ino (dev (geti s ino)) (inum (geti s ino)).

(** [ip->op->f(...)] *)
Definition call_op {A} (ino : Z) (f : K F A) : K F A :=
  s ← get; if i_op (geti s ino) then f else fault "ip->op".

Definition lock_inode (ino : Z) : K F unit :=
  s ← get; zoom (fun s => i_lock (geti s ino)) (fun lk => set_itable (alter (set_i_lock lk) (Z.to_nat ino))) (acquiresleep (fpid s)).
Definition unlock_inode (ino : Z) : K F unit :=
  zoom (fun s => i_lock (geti s ino)) (fun lk => set_itable (alter (set_i_lock lk) (Z.to_nat ino))) releasesleep.

Definition ilock (ip : option Z) : K F unit :=
  match ip with
  | None => panic "ilock"
  | Some ino =>
      s ← get;
      if ref (geti s ino) <? 1 then panic "ilock"
      else
        lock_inode ino;;
        s ← get;
        if private (geti s ino) =? 0 then call_op ino (xv6fs_update_lock ino) else mret tt
  end.

Definition iunlock (ip : option Z) : K F unit :=
  match ip with
  | None => panic "iunlock: no inode"
  | Some ino =>
      s ← get;
      let held := holdingsleep (fpid s) (i_lock (geti s ino)) in
      if negb held || (ref (geti s ino) <? 1) then
        if held then panic "iunlock: no lock"
        else if ref (geti s ino) <? 1 then panic "iunlock: no ref"
        else panic "iunlock"
      else unlock_inode ino
  end.

(** [xv6fs_release_inode] and [xv6fs_free_inode] have the same body. *)
Definition xv6fs_release_inode (ino : Z) : K F unit :=
  s ← get;
  if negb (private (geti s ino) =? 0) then
    kfree_obj (private (geti s ino));;
    updi ino (set_private 0);;
    updi ino (set_type 0)
  else mret tt.
Definition xv6fs_free_inode (ino : Z) : K F unit := xv6fs_release_inode ino.

Definition iput (ino : Z) : K F unit :=
  s ← get;
  if private (geti s ino) =? 0 then mret tt
  else
    (if (ref (geti s ino) =? 1) && (nlink (geti s ino) =? 0) then
       lock_inode ino;;
       updi ino (set_type 0);;
       call_op ino (xv6fs_itrunc ino);;
       call_op ino (xv6fs_iupdate ino);;
       call_op ino (xv6fs_free_inode ino);;
       unlock_inode ino
     else mret tt);;
    s ← get;
    (if (ref (geti s ino) =? 1) && (0 <? nlink (geti s ino)) then
       lock_inode ino;;
       call_op ino (xv6fs_iupdate ino);;
       call_op ino (xv6fs_release_inode ino);;
       unlock_inode ino
     else mret tt);;
    updi ino (fun i => set_ref (int (ref i - 1)) i).

Definition iunlockput (ip : option Z) : K F unit :=
  iunlock ip;;
  match ip with Some ino => iput ino | None => fault "iput(0)" end.

Record stat := mk_stat { st_dev : Z; st_ino : Z; st_type : Z; st_nlink : Z; st_size : Z }.
(** What [stati] stores; the two lines it prints, left from debugging, are not modelled. *)
Definition stati (ino : Z) : K F stat :=
  s ← get; let i := geti s ino in mret (mk_stat (int (dev i)) (inum i) (type i) (nlink i) (size i)).
End Vfs.
