(* ===== verification/Dirs.v ===== *)
(** * Directories and path walk

    [xv6fs_ialloc], [xv6fs_dirlookup], [xv6fs_link], [xv6fs_unlink],
    [xv6fs_isdirempty], [xv6fs_create] and [xv6fs_mount] of
    [src/kernel/fs/xv6fs/fs.c]; [namex], [namei], [nameiparent] and [fsinit] of
    [src/kernel/fs/fs.c].  The local [struct xv6fs_dentry de] lies at
    [km_scratch]: a little-endian [ushort inum] and [DIRSIZ] bytes of name. *)

From stdpp Require Import base numbers list list_numbers gmap strings.
From Stdlib Require Import ZArith Lia.
From S2P Require Import Prelude Params KString Path Sleeplock Virtio Bio Kmem Fsys Blocks Dinode Vfs.

(** ** Names

    A name is the bytes of its buffer.  The string functions of [KString] run on a
    memory that holds the two buffers. *)
Definition name_mem (s t : list Z) : gmap Z Z := wr_bytes (wr_bytes ∅ 0 s) 64 t.
Definition namecmp (s t : list Z) : Z := strncmp (name_mem s t) 0 64 DIRSIZ.
(** [strncpy(dst, t, DIRSIZ)]: what [dst] holds afterwards. *)
Definition copy_name (t : list Z) : list Z :=
  rd_bytes (strncpy (name_mem (replicate 14 0) t) 0 64 DIRSIZ) 0 14.

Definition de_inum (de : list Z) : Z := load16 de 0.
Definition de_name (de : list Z) : list Z := sub de 2 DIRSIZ.
Definition mk_de (num : Z) (name : list Z) : list Z := le_encode 2 num ++ name.

(** A page from [kalloc] is full of 5s: the fields [dirlookup] does not set. *)
Definition junk_dentry (op : bool) (ino dp : Z) (name : list Z) : dentry :=
  mk_dentry op (Some dp) name (Some ino) 5 5 0x05050505 0x0505050505050505.

Section Dirs.
Context {B M : Type} `{BC : BufCache B} `{KM : KMem M}.
Abbreviation F := (fsys B M).

Fixpoint ialloc_loop (fuel : nat) (num : Z) : K F (option Z) :=
  match fuel with
  | O => out_of_fuel
  | S fuel =>
      s ← get;
      if negb (uint num <? ninodes (sb s)) then mret None
      else
        bp ← fs_bread ROOTDEV (IBLOCK num (sb s));
        data ← bp_data bp;
        let o := dinode_off num in
        if short (load16 data o) =? 0 then
          bp_set bp (store16 (splice data o (replicate 64 0)) o 3);;
          fs_bwrite bp;;
          fs_brelse bp;;
          ip ← xv6fs_geti ROOTDEV num true;
          updi ip (set_i_op true);;
          updi ip (set_i_sb true);;
          s ← get;
          (if private (geti s ip) =? 0
           then p ← kalloc_obj (HInode xi_zero); updi ip (set_private p)
           else mret tt);;
          mret (Some ip)
        else
          fs_brelse bp;;
          ialloc_loop fuel (num + 1)
  end.
(** At most one round per inode and one to leave. *)
Definition xv6fs_ialloc : K F (option Z) :=
  s ← get; ialloc_loop (S (Z.to_nat (ninodes (sb s)))) 1.

(** [xv6fs_readi(dp, 0, &de, off, sizeof(de)) != sizeof(de)] panics with [msg]. *)
Definition read_de (dp off : Z) (msg : string) : K F (list Z) :=
  r ← xv6fs_readi dp false km_scratch off sizeof_dentry;
  if negb (r =? sizeof_dentry) then panic msg
  else gets (fun s => km_read (mm s) false km_scratch sizeof_dentry).

(** Rounds of a loop over the entries of a directory: one per entry, one to leave. *)
Definition dir_fuel (s : F) (dp : Z) : nat := S (Z.to_nat ((size (geti s dp) + 15) / 16)).

(** The entry [num] matches: [kalloc] a dentry and fill it in. *)
Definition dir_hit (dp num : Z) (name : list Z) : K F Z :=
  p ← on_mm km_kalloc;
  s ← get;
  ino ← xv6fs_geti (dev (geti s dp)) num true;
  s ← get;
  updi ino (set_i_op (i_op (geti s dp)));;
  s ← get;
  if p =? 0 then fault "kalloc returned 0"
  else
    modify (set_heap (insert p (HDentry (junk_dentry (i_op (geti s dp)) ino dp (copy_name name)))));;
    mret p.

Fixpoint dirlookup_loop (fuel : nat) (dp : Z) (name : list Z) (off : Z) : K F Z :=
  match fuel with
  | O => out_of_fuel
  | S fuel =>
      s ← get;
      if negb (off <? size (geti s dp)) then mret 0
      else
        de ← read_de dp off "dirlookup read";
        if de_inum de =? 0 then dirlookup_loop fuel dp name (uint (off + sizeof_dentry))
        else if namecmp name (de_name de) =? 0 then dir_hit dp (de_inum de) name
        else dirlookup_loop fuel dp name (uint (off + sizeof_dentry))
  end.
Definition xv6fs_dirlookup (dp : Z) (name : list Z) : K F Z :=
  s ← get;
  if negb (type (geti s dp) =? T_DIR) then panic "dirlookup not DIR"
  else dirlookup_loop (dir_fuel s dp) dp name 0.

(** The scan for a free entry: [off] of the first one, or the end of the directory. *)
Fixpoint link_scan (fuel : nat) (dp off : Z) : K F Z :=
  match fuel with
  | O => out_of_fuel
  | S fuel =>
      s ← get;
      if negb (uint off <? size (geti s dp)) then mret off
      else
        de ← read_de dp (uint off) "dirlink read";
        if de_inum de =? 0 then mret off
        else link_scan fuel dp (int (off + sizeof_dentry))
  end.

(** [de->inode] through the address of a dentry page. *)
Definition get_dentry (p : Z) : K F dentry :=
  s ← get; match heap s !! p with Some (HDentry d) => mret d | _ => fault "dentry" end.

(** [xv6fs_link(target)]; the caller's dentry comes by value. *)
Definition xv6fs_link (target : dentry) : K F Z :=
  match d_parent target, d_inode target with
  | Some dp, Some son =>
      let name := copy_name (d_name target) in
      dd ← xv6fs_dirlookup dp name;
      old ← (if dd =? 0 then mret None else d ← get_dentry dd; mret (d_inode d));
      match old with
      | Some ino => iput ino;; mret (-1)
      | None =>
          s ← get;
          off ← link_scan (dir_fuel s dp) dp 0;
          s ← get;
          on_mm (km_out false km_scratch (mk_de (inum (geti s son)) (copy_name name)));;
          r ← xv6fs_writei dp false km_scratch (uint off) sizeof_dentry;
          if negb (r =? sizeof_dentry) then mret (-1) else mret 0
      end
  | _, _ => fault "dentry->parent"
  end.

Fixpoint unlink_loop (fuel : nat) (dp : Z) (name : list Z) (off : Z) : K F Z :=
  match fuel with
  | O => out_of_fuel
  | S fuel =>
      s ← get;
      if negb (off <? size (geti s dp)) then mret 0
      else
        de ← read_de dp off "dirlink read in unlink";
        (if namecmp name (de_name de) =? 0 then
           on_mm (km_out false km_scratch (replicate 16 0));;
           r ← xv6fs_writei dp false km_scratch off sizeof_dentry;
           if negb (r =? sizeof_dentry) then panic "unlink write" else mret tt
         else mret tt);;
        unlink_loop fuel dp name (uint (off + sizeof_dentry))
  end.
Definition xv6fs_unlink (d : dentry) : K F Z :=
  match d_parent d with
  | Some dp => s ← get; unlink_loop (dir_fuel s dp) dp (copy_name (d_name d)) 0
  | None => fault "dentry->parent"
  end.

Definition xv6fs_create (target : dentry) (ty major minor : Z) : K F Z :=
  match d_inode target with
  | Some ino =>
      s ← get;
      ip ← get_xi (private (geti s ino));
      put_xi (private (geti s ino))
        (mk_xi (xi_dev ip) (xi_type ip) (short major) (short minor) (xi_nlink ip) (xi_size ip) (addrs ip));;
      mret 0
  | None => fault "target->inode"
  end.

Fixpoint isdirempty_loop (fuel : nat) (dir off : Z) : K F bool :=
  match fuel with
  | O => out_of_fuel
  | S fuel =>
      s ← get;
      if negb (uint off <? size (geti s dir)) then mret true
      else
        de ← read_de dir (uint off) "isdirempty: readi";
        if negb (de_inum de =? 0) then mret false
        else isdirempty_loop fuel dir (int (off + sizeof_dentry))
  end.
Definition xv6fs_isdirempty (dir : Z) : K F bool :=
  s ← get; isdirempty_loop (dir_fuel s dir) dir (2 * sizeof_dentry).

(** The page of the super block is only written: it is not looked at again. *)
Definition xv6fs_mount : K F unit :=
  p ← on_mm km_kalloc;
  if p =? 0 then fault "kalloc returned 0"
  else ino ← xv6fs_geti ROOTDEV ROOTINO true; updi ino (set_i_op true).
Definition fsinit : K F unit := xv6fs_fsinit;; xv6fs_mount.

(** ** Path walk *)

Fixpoint namex_loop (fuel : nat) (parent : bool) (path name : list Z) (ip : Z) : K F (option Z * list Z) :=
  match fuel with
  | O => out_of_fuel
  | S fuel =>
      match skipelem path name with
      | None => if parent then iput ip;; mret (None, name) else mret (Some ip, name)
      | Some (path, name) =>
          ilock (Some ip);;
          s ← get;
          if negb (type (geti s ip) =? T_DIR) then iunlockput (Some ip);; mret (None, name)
          else if parent && match path with [] => true | _ => false end
          then iunlock (Some ip);; mret (Some ip, name)
          else
            de ← call_op ip (xv6fs_dirlookup ip name);
            next ← (if de =? 0 then mret None else d ← get_dentry de; mret (d_inode d));
            match next with
            | None => iunlockput (Some ip);; mret (None, name)
            | Some next => iunlockput (Some ip);; namex_loop fuel parent path name next
            end
      end
  end.

(** Each round takes an element off the path. *)
Definition namex (path : list Z) (parent : bool) (name : list Z) : K F (option Z * list Z) :=
  ip ← (match path with
        | c :: _ => if c =? slash then iget ROOTDEV ROOTINO
                    else s ← get; match cwd s with Some ip => idup ip | None => fault "cwd" end
        | [] => s ← get; match cwd s with Some ip => idup ip | None => fault "cwd" end
        end);
  namex_loop (S (length path)) parent path name ip.

(** [name] is an uninitialised local of [namei]; it is only written. *)
Definition namei (path : list Z) : K F (option Z) :=
  r ← namex path false (replicate 14 0); mret (fst r).
Definition nameiparent (path name : list Z) : K F (option Z * list Z) := namex path true name.
End Dirs.
