(* ===== verification/Pipe.v ===== *)
(** * Pipes

    [src/kernel/fs/pipe.c] without [pipealloc] (in [File]).  A pipe is an object of
    the heap.  The loops of [pipewrite] and [piperead] run until they return or
    reach [sleep]: [pipewrite_run] and [piperead_run] tell which, so that a sleeping
    process can be resumed where it stopped.  [pi->lock] is held from one sleep to
    the next; [killed] is [killed(myproc())]. *)

From stdpp Require Import base numbers list list_numbers gmap strings.
From Stdlib Require Import ZArith Lia.
From S2P Require Import Prelude Params KString Path Sleeplock Virtio Bio Kmem Fsys.

Definition set_p_data (l : list Z) (w : Z) (p : pipe) : pipe := mk_pipe l (nread p) w (readopen p) (writeopen p).
Definition set_nread (r : Z) (p : pipe) : pipe := mk_pipe (p_data p) r (nwrite p) (readopen p) (writeopen p).

(** Asleep having done [i] bytes, or returned. *)
Inductive run := Slept (i : Z) | Returned (r : Z).

Section Pipe.
Context {B M : Type} `{BC : BufCache B} `{KM : KMem M}.
Abbreviation F := (fsys B M).
Context (killed : bool).

Definition get_pipe (pi : Z) : K F pipe :=
  s ← get; match heap s !! pi with Some (HPipe p) => mret p | _ => fault "pipe" end.
Definition put_pipe (pi : Z) (p : pipe) : K F unit := modify (set_heap (insert pi (HPipe p))).

Definition pipeclose (pi writable : Z) : K F unit :=
  p ← get_pipe pi;
  let p := if negb (writable =? 0) then mk_pipe (p_data p) (nread p) (nwrite p) (readopen p) 0
           else mk_pipe (p_data p) (nread p) (nwrite p) 0 (writeopen p) in
  put_pipe pi p;;
  if (readopen p =? 0) && (writeopen p =? 0) then kfree_obj pi else mret tt.

(** From the top of the loop with [i] bytes written; a round writes a byte or leaves. *)
Fixpoint pipewrite_run (fuel : nat) (pi addr n i : Z) : K F run :=
  match fuel with
  | O => out_of_fuel
  | S fuel =>
      if negb (i <? n) then mret (Returned i)
      else
        p ← get_pipe pi;
        if (readopen p =? 0) || killed then mret (Returned (-1))
        else if nwrite p =? uint (nread p + PIPESIZE) then mret (Slept i)
        else
          r ← on_mm (km_in true (uint64 (addr + i)) 1);
          if fst r =? -1 then mret (Returned i)
          else
            put_pipe pi (set_p_data (zupd (p_data p) (nwrite p mod PIPESIZE) (znth (snd r) 0)) (uint (nwrite p + 1)) p);;
            pipewrite_run fuel pi addr n (i + 1)
  end.
Definition pipewrite (pi addr n : Z) : K F Z :=
  r ← pipewrite_run (S (Z.to_nat n)) pi addr n 0;
  match r with Slept _ => blocked "nwrite" | Returned r => mret r end.

Fixpoint piperead_loop (fuel : nat) (pi addr n i : Z) : K F Z :=
  match fuel with
  | O => out_of_fuel
  | S fuel =>
      if negb (i <? n) then mret i
      else
        p ← get_pipe pi;
        if nread p =? nwrite p then mret i
        else
          let ch := znth (p_data p) (nread p mod PIPESIZE) in
          put_pipe pi (set_nread (uint (nread p + 1)) p);;
          r ← on_mm (km_out true (uint64 (addr + i)) [ch]);
          if r =? -1 then mret i else piperead_loop fuel pi addr n (i + 1)
  end.
(** A reader that wakes up starts again from the top. *)
Definition piperead_run (pi addr n : Z) : K F run :=
  p ← get_pipe pi;
  if (nread p =? nwrite p) && negb (writeopen p =? 0) then
    if killed then mret (Returned (-1)) else mret (Slept 0)
  else r ← piperead_loop (S (Z.to_nat n)) pi addr n 0; mret (Returned r).
Definition piperead (pi addr n : Z) : K F Z :=
  r ← piperead_run pi addr n;
  match r with Slept _ => blocked "nread" | Returned r => mret r end.
End Pipe.
