(* ===== verification/File.v ===== *)
(** * Open files

    The file table of [src/kernel/fs/file.c], [xv6fs_open] and [xv6fs_close] of
    [src/kernel/fs/xv6fs/fs.c] and [pipealloc] of [src/kernel/fs/pipe.c].  A
    [struct file *] is an index of [ftable].  The state of a system call is the
    file system with the console, which reads and writes of a device reach through
    [devsw]; the calling process has a trapframe, a size, a name and a killed flag. *)

From stdpp Require Import base numbers list list_numbers gmap strings.
From Stdlib Require Import ZArith Lia.
From S2P Require Import Prelude Params KString Path Sleeplock Virtio Bio Kmem Ring Uart Console Fsys Blocks Dinode Vfs Dirs Pipe.

Record kst (B M U : Type) := mk_kst {
  k_fs : fsys B M;
  k_cons : console U;
  k_tf : list Z;
  k_sz : Z;
  k_name : list Z;
  k_killed : bool;
}.
Arguments mk_kst {B M U}.
Arguments k_fs {B M U}.
Arguments k_cons {B M U}.
Arguments k_tf {B M U}.
Arguments k_sz {B M U}.
Arguments k_name {B M U}.
Arguments k_killed {B M U}.

Definition f_set_ref v f := mk_file (f_op f) v (f_off f) (readable f) (writable f) (f_inode f) (f_private f).
Definition f_set_off v f := mk_file (f_op f) (f_ref f) v (readable f) (writable f) (f_inode f) (f_private f).
Definition f_set_op v f := mk_file v (f_ref f) (f_off f) (readable f) (writable f) (f_inode f) (f_private f).
Definition f_set_inode v f := mk_file (f_op f) (f_ref f) (f_off f) (readable f) (writable f) v (f_private f).
Definition f_set_mode r w f := mk_file (f_op f) (f_ref f) (f_off f) r w (f_inode f) (f_private f).
Definition f_set_private v f := mk_file (f_op f) (f_ref f) (f_off f) (readable f) (writable f) (f_inode f) v.

Section File.
Context {B M : Type} `{BC : BufCache B} `{KM : KMem M}.
Abbreviation F := (fsys B M).

Definition getf (s : F) (f : Z) : file := ftable s !!! Z.to_nat f.
Definition updf (f : Z) (g : file -> file) : K F unit := modify (set_ftable (alter g (Z.to_nat f))).

Definition fileinit : K F unit := modify (set_ftable (fmap (fun f => f_set_ref 0 (f_set_private 0 f)))).

Fixpoint filealloc_loop (l : list file) (i : Z) : option Z :=
  match l with
  | [] => None
  | f :: l => if f_ref f =? 0 then Some i else filealloc_loop l (i + 1)
  end.
Definition filealloc : K F (option Z) :=
  s ← get;
  match filealloc_loop (ftable s) 0 with
  | Some i => updf i (f_set_ref 1);; mret (Some i)
  | None => mret None
  end.

Definition filedup (f : Z) : K F unit :=
  s ← get;
  if f_ref (getf s f) <? 1 then panic "filedup" else updf f (fun x => f_set_ref (int (f_ref x + 1)) x).

(** [!(mode & O_WRONLY)] and [(mode & O_WRONLY) || (mode & O_RDWR)] *)
Definition mode_readable (mode : Z) : Z := if Z.land mode O_WRONLY =? 0 then 1 else 0.
Definition mode_writable (mode : Z) : Z := if (Z.land mode O_WRONLY =? 0) && (Z.land mode O_RDWR =? 0) then 0 else 1.

Definition xv6fs_open (ino mode : Z) : K F (option Z) :=
  s ← get;
  ip ← get_xi (private (geti s ino));
  if (xi_type ip =? T_DEVICE) && ((xi_major ip <? 0) || (NDEV <=? xi_major ip)) then mret None
  else
    r ← filealloc;
    match r with
    | None => mret None
    | Some f =>
        p ← kalloc_obj (if xi_type ip =? T_DEVICE then HFile FD_DEVICE (xi_major ip) else HFile FD_INODE 0);
        (if xi_type ip =? T_DEVICE then mret tt else updf f (f_set_off 0));;
        updf f (f_set_inode (Some ino));;
        updf f (f_set_private p);;
        updf f (f_set_mode (mode_readable mode) (mode_writable mode));;
        mret (Some f)
    end.

Definition xv6fs_close (f : Z) : K F unit :=
  s ← get;
  if f_ref (getf s f) <? 1 then panic "fileclose"
  else
    let ref := int (f_ref (getf s f) - 1) in
    updf f (f_set_ref ref);;
    if 0 <? ref then mret tt
    else
      updf f (f_set_ref 0);;
      s ← get;
      let x := getf s f in
      match f_inode x with
      | None => if negb (f_private x =? 0) then pipeclose (f_private x) (writable x) else fault "iput(0)"
      | Some ino => iput ino;; s ← get; kfree_obj (f_private (getf s f))
      end.

Definition fileclose (f : Z) : K F unit :=
  s ← get; if f_op (getf s f) then xv6fs_close f else fault "f->op".

(** [pipealloc]; the type of a pipe goes to the inode of the table entry, whatever it is. *)
Definition pipe_end (f r w pi : Z) : K F unit :=
  s ← get;
  match f_inode (getf s f) with
  | None => fault "f->inode"
  | Some ino => updi ino (set_type FD_PIPE);; updf f (f_set_mode r w);; updf f (f_set_private pi)
  end.
Definition pipealloc : K F (option (Z * Z)) :=
  f0 ← filealloc;
  match f0 with
  | None => mret None
  | Some f0 =>
      f1 ← filealloc;
      match f1 with
      | None => fileclose f0;; mret None
      | Some f1 =>
          pi ← on_mm km_kalloc;
          if pi =? 0 then fileclose f0;; fileclose f1;; mret None
          else
            (* the page is full of 5s *)
            modify (set_heap (insert pi (HPipe (mk_pipe (replicate (Z.to_nat PIPESIZE) 5) 0 0 1 1))));;
            pipe_end f0 1 0 pi;;
            pipe_end f1 0 1 pi;;
            mret (Some (f0, f1))
      end
  end.

(** [struct stat]: 4 bytes of padding, whatever was on the stack, precede the size. *)
Definition stat_bytes (pad : list Z) (st : stat) : list Z :=
  le_encode 4 (st_dev st) ++ le_encode 4 (st_ino st) ++ le_encode 2 (st_type st) ++ le_encode 2 (st_nlink st) ++
  take 4 pad ++ le_encode 8 (st_size st).
Definition filestat (pad : list Z) (f addr : Z) : K F Z :=
  s ← get;
  let ip := f_inode (getf s f) in
  ilock ip;;
  match ip with
  | None => panic "ilock"
  | Some ino =>
      st ← stati ino;
      iunlock ip;;
      r ← on_mm (km_out true addr (stat_bytes pad st));
      if r <? 0 then mret (-1) else mret 0
  end.
End File.

(** ** Reads and writes, which may go to the console *)

Section IO.
Context {B M U : Type} `{BC : BufCache B} `{KM : KMem M} `{UD : UartDev U}.
Abbreviation S := (kst B M U).

Definition set_k_fs (x : fsys B M) (s : S) : S := mk_kst x (k_cons s) (k_tf s) (k_sz s) (k_name s) (k_killed s).
Definition set_k_cons (x : console U) (s : S) : S := mk_kst (k_fs s) x (k_tf s) (k_sz s) (k_name s) (k_killed s).
Definition on_fs {A} (m : K (fsys B M) A) : K S A := zoom k_fs set_k_fs m.
Definition on_console {A} (m : K (console U * M) A) : K S A :=
  zoom (fun s => (k_cons s, mm (k_fs s))) (fun x s => set_k_fs (set_mm x.2 (k_fs s)) (set_k_cons x.1 s)) m.

Definition fileread (f addr n : Z) : K S Z :=
  s ← gets k_fs;
  if readable (getf s f) =? 0 then mret (-1)
  else
    match f_inode (getf s f) with
    | None => fault "f->inode"
    | Some ino =>
        if type (geti s ino) =? FD_DEVICE then k ← gets k_killed; on_console (consoleread k true addr n)
        else on_fs (
          ilock (Some ino);;
          r ← call_op ino (xv6fs_readi ino true addr (uint (f_off (getf s f))) (uint n));
          let r := int r in
          (if 0 <? r then updf f (fun x => f_set_off (int (f_off x + r)) x) else mret tt);;
          iunlock (Some ino);;
          mret r)
    end.

Definition file_max : Z := (MAXOPBLOCKS - 1 - 1 - 2) / 2 * BSIZE.

(** A round writes at least a byte or is the last. *)
Fixpoint filewrite_loop (fuel : nat) (f ino addr n i : Z) : K (fsys B M) Z :=
  match fuel with
  | O => out_of_fuel
  | Datatypes.S fuel =>
      if negb (i <? n) then mret i
      else
        let n1 := n - i in
        let n1 := if file_max <? n1 then file_max else n1 in
        ilock (Some ino);;
        s ← get;
        r ← call_op ino (xv6fs_writei ino true (uint64 (addr + i)) (uint (f_off (getf s f))) (uint n1));
        let r := int r in
        (if 0 <? r then updf f (fun x => f_set_off (int (f_off x + r)) x) else mret tt);;
        iunlock (Some ino);;
        if negb (r =? n1) then mret i else filewrite_loop fuel f ino addr n (i + r)
  end.

Definition filewrite (f addr n : Z) : K S Z :=
  s ← gets k_fs;
  if writable (getf s f) =? 0 then mret (-1)
  else
    match f_inode (getf s f) with
    | None => fault "f->inode"
    | Some ino =>
        if type (geti s ino) =? FD_DEVICE then on_console (consolewrite true addr n)
        else on_fs (i ← filewrite_loop (Datatypes.S (Z.to_nat n)) f ino addr n 0; mret (if i =? n then n else -1))
    end.
End IO.
