(* ===== verification/Sysfile.v ===== *)
(** * File-system calls

    Argument fetching of [src/kernel/syscall.c] and the system calls of
    [src/kernel/fs/sysfile.c] ([sys_exec] is in [Exec]).  The arguments are in the
    saved registers of the trapframe: its words, in the order of
    [struct trapframe] in [src/kernel/proc.h].  A [char[MAXPATH]] buffer is the bytes
    that [argstr] left in it; its string is what precedes the first NUL. *)

From stdpp Require Import base numbers list list_numbers gmap strings.
From Stdlib Require Import ZArith Lia.
From S2P Require Import Prelude Params KString Path Sleeplock Virtio Bio Kmem Ring Uart Console Fsys Blocks Dinode Vfs Dirs Pipe File.

(** Words of [struct trapframe]. *)
Definition TF_epc : Z := 24 / 8.
Definition TF_sp : Z := 48 / 8.
Definition TF_a (n : Z) : Z := (112 + 8 * n) / 8.

Fixpoint cstring (l : list Z) : list Z :=
  match l with [] => [] | c :: l => if c =? 0 then [] else c :: cstring l end.

Definition dot : list Z := [46].
Definition dotdot : list Z := [46; 46].
(** A string constant in a buffer of [DIRSIZ] bytes, as [strncpy] and [namecmp] read it. *)
Definition name_of (l : list Z) : list Z := l ++ replicate (14 - length l) 0.

Section Sysfile.
Context {B M U : Type} `{BC : BufCache B} `{KM : KMem M} `{UD : UartDev U}.
Abbreviation S := (kst B M U).
Abbreviation F := (fsys B M).

(** ** Arguments *)

Definition argraw (n : Z) : K S Z :=
  s ← get; if (0 <=? n) && (n <=? 5) then mret (znth (k_tf s) (TF_a n)) else panic "argraw".
Definition argint (n : Z) : K S Z := v ← argraw n; mret (int v).
Definition argaddr (n : Z) : K S Z := argraw n.

Definition fetchaddr (addr : Z) : K S (option Z) :=
  s ← get;
  if (k_sz s <=? addr) || (k_sz s <? uint64 (addr + 8)) then mret None
  else
    r ← on_fs (on_mm (km_in true addr 8));
    if negb (fst r =? 0) then mret None else mret (Some (le_decode (snd r))).

(** The length that the C function returns, and the bytes stored in the buffer. *)
Definition fetchstr (addr max : Z) : K S (Z * list Z) :=
  r ← on_fs (on_mm (km_str addr max));
  if fst r <? 0 then mret (-1, snd r) else mret (zlen (cstring (snd r)), snd r).
Definition argstr (n max : Z) : K S (Z * list Z) := addr ← argaddr n; fetchstr addr max.

(** ** Descriptors *)

Definition argfd (n : Z) : K S (option (Z * Z)) :=
  fd ← argint n;
  s ← gets k_fs;
  if (fd <? 0) || (NOFILE <=? fd) then mret None
  else match ofile s !!! Z.to_nat fd with None => mret None | Some f => mret (Some (fd, f)) end.

Fixpoint fdalloc_loop (l : list (option Z)) (fd : Z) : option Z :=
  match l with
  | [] => None
  | None :: l => Some fd
  | Some _ :: l => fdalloc_loop l (fd + 1)
  end.
Definition set_fd (fd : Z) (f : option Z) : K F unit := modify (set_ofile (fun l => zupd l fd f)).
Definition fdalloc (f : Z) : K F (option Z) :=
  s ← get;
  match fdalloc_loop (ofile s) 0 with
  | Some fd => set_fd fd (Some f);; mret (Some fd)
  | None => mret None
  end.

Definition sys_dup : K S Z :=
  a ← argfd 0;
  match a with
  | None => mret (-1)
  | Some (_, f) =>
      r ← on_fs (fdalloc f);
      match r with None => mret (-1) | Some fd => on_fs (filedup f);; mret fd end
  end.

Definition sys_read : K S Z :=
  p ← argaddr 1; n ← argint 2; a ← argfd 0;
  match a with None => mret (-1) | Some (_, f) => fileread f p n end.

Definition sys_write : K S Z :=
  p ← argaddr 1; n ← argint 2; a ← argfd 0;
  match a with None => mret (-1) | Some (_, f) => filewrite f p n end.

Definition sys_close : K S Z :=
  a ← argfd 0;
  match a with
  | None => mret (-1)
  | Some (fd, f) => on_fs (set_fd fd None;; fileclose f);; mret 0
  end.

Definition sys_fstat (pad : list Z) : K S Z :=
  st ← argaddr 1; a ← argfd 0;
  match a with None => mret (-1) | Some (_, f) => on_fs (filestat pad f st) end.

(** ** Names *)

(** [kalloc], then [parent], [inode] and [name] set; the rest of the page is full of 5s. *)
Definition new_dentry (dp ino : Z) (name : list Z) : K F (Z * dentry) :=
  let d := junk_dentry true ino dp (copy_name name) in
  p ← kalloc_obj (HDentry d); mret (p, d).

Definition link_bad (ip : Z) : K F Z :=
  ilock (Some ip);;
  updi ip (fun i => set_nlink (short (nlink i - 1)) i);;
  call_op ip (xv6fs_iupdate ip);;
  iunlockput (Some ip);;
  mret (-1).

Definition link_paths (old new : list Z) : K F Z :=
  r ← namei old;
  match r with
  | None => mret (-1)
  | Some ip =>
      ilock (Some ip);;
      s ← get;
      if type (geti s ip) =? T_DIR then iunlockput (Some ip);; mret (-1)
      else
        updi ip (fun i => set_nlink (short (nlink i + 1)) i);;
        call_op ip (xv6fs_iupdate ip);;
        iunlock (Some ip);;
        r ← nameiparent new (replicate 14 0);
        match fst r with
        | None => link_bad ip
        | Some dp =>
            ilock (Some dp);;
            de ← new_dentry dp ip (snd r);
            s ← get;
            ok ← (if negb (dev (geti s dp) =? dev (geti s ip)) then mret false
                  else l ← call_op dp (xv6fs_link (snd de)); mret (negb (l <? 0)));
            if negb ok then
              iunlockput (Some dp);; kfree_obj (fst de);; link_bad ip
            else
              kfree_obj (fst de);; iunlockput (Some dp);; iput ip;; mret 0
        end
  end.
Definition sys_link : K S Z :=
  old ← argstr 0 MAXPATH;
  if fst old <? 0 then mret (-1)
  else
    new ← argstr 1 MAXPATH;
    if fst new <? 0 then mret (-1) else on_fs (link_paths (cstring (snd old)) (cstring (snd new))).

Definition unlink_bad (dp : Z) : K F Z := iunlockput (Some dp);; mret (-1).
Definition unlink_path (path : list Z) : K F Z :=
  r ← nameiparent path (replicate 14 0);
  match fst r with
  | None => mret (-1)
  | Some dp =>
      let name := snd r in
      ilock (Some dp);;
      if (namecmp name (name_of dot) =? 0) || (namecmp name (name_of dotdot) =? 0) then unlink_bad dp
      else
        d ← call_op dp (xv6fs_dirlookup dp name);
        ip ← (if d =? 0 then mret None else x ← get_dentry d; mret (d_inode x));
        match ip with
        | None => unlink_bad dp
        | Some ip =>
            ilock (Some ip);;
            s ← get;
            if nlink (geti s ip) <? 1 then panic "unlink: nlink < 1"
            else
              full ← (if type (geti s ip) =? T_DIR then e ← call_op dp (xv6fs_isdirempty ip); mret (negb e) else mret false);
              if (full : bool) then iunlockput (Some ip);; unlink_bad dp
              else
                de ← new_dentry dp ip name;
                call_op dp (xv6fs_unlink (snd de));;
                kfree_obj (fst de);;
                s ← get;
                (if type (geti s ip) =? T_DIR
                 then updi dp (fun i => set_nlink (short (nlink i - 1)) i);; call_op dp (xv6fs_iupdate dp)
                 else mret tt);;
                iunlockput (Some dp);;
                updi ip (fun i => set_nlink (short (nlink i - 1)) i);;
                call_op ip (xv6fs_iupdate ip);;
                iunlockput (Some ip);;
                mret 0
        end
  end.
Definition sys_unlink : K S Z :=
  path ← argstr 0 MAXPATH;
  if fst path <? 0 then mret (-1) else on_fs (unlink_path (cstring (snd path))).

Definition create_fail (ip dp : Z) : K F (option Z) :=
  updi ip (set_nlink 0);;
  call_op ip (xv6fs_iupdate ip);;
  iunlockput (Some ip);;
  iunlockput (Some dp);;
  mret None.

(** An entry that [create] adds to a new directory; the dentry is freed on failure only. *)
Definition create_entry (ip target : Z) (name : list Z) : K F bool :=
  d ← new_dentry ip target (name_of name);
  r ← call_op ip (xv6fs_link (snd d));
  if r <? 0 then kfree_obj (fst d);; mret false else mret true.

Definition create (path : list Z) (ty major minor : Z) : K F (option Z) :=
  r ← nameiparent path (replicate 14 0);
  match fst r with
  | None => mret None
  | Some dp =>
      let name := snd r in
      ilock (Some dp);;
      d ← call_op dp (xv6fs_dirlookup dp name);
      old ← (if d =? 0 then mret None else x ← get_dentry d; mret (d_inode x));
      match old with
      | Some ip =>
          iunlockput (Some dp);;
          ilock (Some ip);;
          s ← get;
          if (ty =? T_FILE) && ((type (geti s ip) =? T_FILE) || (type (geti s ip) =? T_DEVICE)) then mret (Some ip)
          else iunlockput (Some ip);; mret None
      | None =>
          r ← call_op dp xv6fs_ialloc;
          match r with
          | None => iunlockput (Some dp);; mret None
          | Some ip =>
              ilock (Some ip);;
              updi ip (set_nlink 1);;
              updi ip (set_type ty);;
              call_op ip (xv6fs_iupdate ip);;
              ok ← (if ty =? T_DIR
                    then a ← create_entry ip ip dot; if (a : bool) then create_entry ip dp dotdot else mret false
                    else mret true);
              if negb ok then create_fail ip dp
              else
                de ← new_dentry dp ip name;
                l ← call_op dp (xv6fs_link (snd de));
                if l <? 0 then kfree_obj (fst de);; create_fail ip dp
                else
                  c ← call_op dp (xv6fs_create (snd de) ty major minor);
                  if c <? 0 then kfree_obj (fst de);; create_fail ip dp
                  else
                    kfree_obj (fst de);;
                    (if ty =? T_DIR
                     then updi dp (fun i => set_nlink (short (nlink i + 1)) i);; call_op dp (xv6fs_iupdate dp)
                     else mret tt);;
                    iunlockput (Some dp);;
                    mret (Some ip)
          end
      end
  end.

(** What follows the lookup in [sys_open], with [ip] locked. *)
Definition open_inode (ip omode : Z) : K F Z :=
  f ← call_op ip (xv6fs_open ip (uint omode));
  match f with
  | None => iunlockput (Some ip);; mret (-1)
  | Some f =>
      fd ← fdalloc f;
      match fd with
      | None => fileclose f;; iunlockput (Some ip);; mret (-1)
      | Some fd =>
          s ← get;
          (if negb (type (geti s ip) =? T_DEVICE) then updf f (f_set_off 0) else mret tt);;
          updf f (f_set_inode (Some ip));;
          updf f (f_set_op (i_op (geti s ip)));;
          updf f (f_set_mode (mode_readable omode) (mode_writable omode));;
          (if negb (Z.land omode O_TRUNC =? 0) && (type (geti s ip) =? T_FILE) then call_op ip (xv6fs_itrunc ip) else mret tt);;
          iunlock (Some ip);;
          mret fd
      end
  end.
Definition open_path (path : list Z) (omode : Z) : K F Z :=
  if negb (Z.land omode O_CREATE =? 0) then
    r ← create path T_FILE 0 0;
    match r with None => mret (-1) | Some ip => open_inode ip omode end
  else
    r ← namei path;
    match r with
    | None => mret (-1)
    | Some ip =>
        ilock (Some ip);;
        s ← get;
        if (type (geti s ip) =? T_DIR) && negb (omode =? O_RDONLY) then iunlockput (Some ip);; mret (-1)
        else open_inode ip omode
    end.
Definition sys_open : K S Z :=
  omode ← argint 1;
  path ← argstr 0 MAXPATH;
  if fst path <? 0 then mret (-1) else on_fs (open_path (cstring (snd path)) omode).

Definition make_node (path : list Z) (ty major minor : Z) : K F Z :=
  r ← create path ty (short major) (short minor);
  match r with None => mret (-1) | Some ip => iunlockput (Some ip);; mret 0 end.
Definition sys_mkdir : K S Z :=
  path ← argstr 0 MAXPATH;
  if fst path <? 0 then mret (-1) else on_fs (make_node (cstring (snd path)) T_DIR 0 0).
Definition sys_mknod : K S Z :=
  major ← argint 1; minor ← argint 2;
  path ← argstr 0 MAXPATH;
  if fst path <? 0 then mret (-1) else on_fs (make_node (cstring (snd path)) T_DEVICE major minor).

Definition chdir_path (path : list Z) : K F Z :=
  r ← namei path;
  match r with
  | None => mret (-1)
  | Some ip =>
      ilock (Some ip);;
      s ← get;
      if negb (type (geti s ip) =? T_DIR) then iunlockput (Some ip);; mret (-1)
      else
        iunlock (Some ip);;
        s ← get;
        match cwd s with None => fault "iput(0)" | Some c => iput c end;;
        modify (set_cwd (Some ip));;
        mret 0
  end.
Definition sys_chdir : K S Z :=
  path ← argstr 0 MAXPATH;
  if fst path <? 0 then mret (-1) else on_fs (chdir_path (cstring (snd path))).

Definition sys_pipe : K S Z :=
  fdarray ← argaddr 0;
  on_fs (
    p ← pipealloc;
    match p with
    | None => mret (-1)
    | Some (rf, wf) =>
        fd0 ← fdalloc rf;
        match fd0 with
        | None => fileclose rf;; fileclose wf;; mret (-1)
        | Some fd0 =>
            fd1 ← fdalloc wf;
            match fd1 with
            | None => set_fd fd0 None;; fileclose rf;; fileclose wf;; mret (-1)
            | Some fd1 =>
                r0 ← on_mm (km_out true fdarray (le_encode 4 fd0));
                r1 ← (if r0 <? 0 then mret (-1) else on_mm (km_out true (uint64 (fdarray + 4)) (le_encode 4 fd1)));
                if r1 <? 0 then set_fd fd0 None;; set_fd fd1 None;; fileclose rf;; fileclose wf;; mret (-1)
                else mret 0
            end
        end
    end).
End Sysfile.
