(* ===== verification/DirsProof.v ===== *)
(** * Correctness of directories

    A directory is a file of 16-byte entries ([dirents]).  [xv6fs_dirlookup]
    finds the first entry in use with the name, [xv6fs_link] adds one,
    [xv6fs_unlink] clears every entry with the name. *)

From stdpp Require Import base numbers list list_numbers gmap strings.
From Stdlib Require Import ZArith Lia.
From S2P Require Import Prelude Params KString Path Sleeplock Virtio Bio Kmem Fsys Blocks BlocksProof Bmap Dinode FileData Vfs Dirs.

(** ** Names *)

Lemma cstr_cname n m p l :
  (n <= length l)%nat -> (forall i, 0 <= i < Z.of_nat n -> rd m (p + i) = znth l i) ->
  cstr n m p = cname (take n l).
Proof.
  revert p l. induction n as [|n IH]; intros p l Hl Hm; [done|]. destruct l as [|c l]; [simpl in Hl; lia|].
  simpl. pose proof (Hm 0 ltac:(lia)) as H0. rewrite Z.add_0_r in H0. change (znth (c :: l) 0) with c in H0. rewrite H0.
  destruct (c =? 0); [done|]. f_equal. apply IH; [simpl in Hl; lia|]. intros i Hi.
  replace (p + 1 + i) with (p + (i + 1)) by lia. rewrite Hm by lia. unfold znth.
  by replace (Z.to_nat (i + 1)) with (S (Z.to_nat i)) by lia.
Qed.

Lemma name_mem_ok s t a : bytes_ok s -> bytes_ok t -> byte_ok (rd (name_mem s t) a).
Proof. intros Hs Ht. by repeat apply byte_ok_wr_bytes; [apply byte_ok_empty|..]. Qed.

Lemma rd_name_mem_1 s t i : zlen s <= 64 -> 0 <= i < zlen s -> rd (name_mem s t) (0 + i) = znth s i.
Proof.
  intros Hs Hi. unfold name_mem. rewrite !rd_wr_bytes, decide_False, decide_True by lia. f_equal. lia.
Qed.
Lemma rd_name_mem_2 s t i : 0 <= i < zlen t -> rd (name_mem s t) (64 + i) = znth t i.
Proof. intros Hi. unfold name_mem. rewrite rd_wr_bytes, decide_True by lia. f_equal. lia. Qed.

(** A name buffer: [DIRSIZ] bytes. *)
Definition name_ok (s : list Z) : Prop := zlen s = DIRSIZ /\ bytes_ok s.

Lemma name_ok_take s : name_ok s -> take 14 s = s.
Proof. intros [Hl _]. apply take_ge. unfold zlen, DIRSIZ in Hl. lia. Qed.

(** Two names compare equal when they are the same string. *)
Lemma namecmp_zero s t : name_ok s -> name_ok t -> namecmp s t = 0 <-> cname s = cname t.
Proof.
  intros Hs Ht. unfold namecmp, strncmp. rewrite strncmp_loop_zero by (intros a; apply name_mem_ok; [apply Hs|apply Ht]).
  destruct Hs as [Hs Hsb], Ht as [Ht Htb]. unfold DIRSIZ in *. change (Z.to_nat 14) with 14%nat.
  rewrite (cstr_cname 14 _ 0 s), (cstr_cname 14 _ 64 t).
  - by rewrite !name_ok_take by by split.
  - unfold zlen in *. lia.
  - intros i Hi. apply rd_name_mem_2. lia.
  - unfold zlen in *. lia.
  - intros i Hi. apply rd_name_mem_1; lia.
Qed.

Lemma cname_length l : (length (cname l) <= length l)%nat.
Proof. induction l as [|c l IH]; simpl; [done|]. destruct (c =? 0); simpl; lia. Qed.
Lemma cname_bytes l : bytes_ok l -> bytes_ok (cname l).
Proof.
  unfold bytes_ok. induction 1 as [|c l Hc _ IH]; simpl; [done|]. destruct (c =? 0); constructor; done.
Qed.
Lemma cname_nonzero l : Forall (fun c => c <> 0) (cname l).
Proof. induction l as [|c l IH]; simpl; [done|]. destruct (c =? 0) eqn:E; [done|]. zbool. by constructor. Qed.
Lemma cname_pad l k : Forall (fun c => c <> 0) l -> cname (l ++ replicate k 0) = l.
Proof.
  induction 1 as [|c l Hc _ IH]; simpl; [by destruct k|]. rewrite (proj2 (Z.eqb_neq _ _)) by done. by rewrite IH.
Qed.

(** [strncpy] into a name buffer: the same string, zero-padded. *)
Lemma copy_name_eq t : name_ok t -> copy_name t = cname t ++ replicate (14 - length (cname t)) 0.
Proof.
  intros Ht. unfold copy_name. rewrite strncpy_bytes by (unfold DIRSIZ; lia). change (Z.to_nat DIRSIZ) with 14%nat.
  assert (Hp : padded 14 (name_mem (replicate 14 0) t) 64 = cname t ++ replicate (14 - length (cname t)) 0).
  { pose proof (proj1 Ht) as Hlt. unfold padded. rewrite (cstr_cname 14 _ 64 t).
    - by rewrite name_ok_take.
    - unfold zlen, DIRSIZ in *. lia.
    - intros i Hi. apply rd_name_mem_2. unfold DIRSIZ in *. lia. }
  rewrite Hp. set (l := cname t ++ _).
  assert (Hl : length l = 14%nat).
  { unfold l. rewrite length_app, length_replicate. pose proof (cname_length t). destruct Ht as [Ht _].
    unfold zlen, DIRSIZ in Ht. lia. }
  rewrite <- Hl. apply rd_bytes_wr_bytes.
Qed.

Lemma copy_name_ok t : name_ok t -> name_ok (copy_name t) /\ cname (copy_name t) = cname t.
Proof.
  intros Ht. rewrite copy_name_eq by done. split.
  - pose proof (cname_length t). destruct Ht as [Ht Hb]. split.
    + rewrite zlen_app, zlen_replicate. unfold zlen, DIRSIZ in *. lia.
    + apply bytes_ok_app. split; [by apply cname_bytes|by apply bytes_ok_replicate].
  - apply cname_pad, cname_nonzero.
Qed.

(** ** Entries *)

Section Dirs.
Context {B M : Type} `{BC : BufCache B, BL : !BufCacheLaws B} `{KM : KMem M, KL : !KMemLaws M}.
Implicit Types s : fsys B M.

Definition fbytes s (ip : xv6fs_inode) (off n : Z) : list Z := (fun i => fbyte s ip (off + i)) <$> seqZ 0 n.
(** Entry [k] of a directory. *)
Definition dirent s (ip : xv6fs_inode) (k : Z) : list Z := fbytes s ip (16 * k) 16.

Record dir_ok s (dp : Z) (ip : xv6fs_inode) : Prop := {
  dk_file : file_ok s dp ip;
  dk_type : type (geti s dp) = T_DIR;
  dk_size : size (geti s dp) mod 16 = 0;
}.

Definition hit (name de : list Z) : bool := negb (de_inum de =? 0) && bool_decide (cname name = cname (de_name de)).

(** The inode number of the first entry from [k] on, of [n] entries, that has the name. *)
Fixpoint dfind (n : nat) s (ip : xv6fs_inode) (name : list Z) (k : Z) : option Z :=
  match n with
  | O => None
  | S n => if hit name (dirent s ip k) then Some (de_inum (dirent s ip k)) else dfind n s ip name (k + 1)
  end.
Definition dir_find s (dp : Z) (ip : xv6fs_inode) (name : list Z) : option Z :=
  dfind (Z.to_nat (size (geti s dp) / 16)) s ip name 0.

Lemma zlen_fbytes s ip off n : 0 <= n -> zlen (fbytes s ip off n) = n.
Proof using Type. intros. unfold fbytes, zlen. rewrite length_fmap, length_seqZ. lia. Qed.

Lemma znth_fbytes s ip off n i : 0 <= i < n -> znth (fbytes s ip off n) i = fbyte s ip (off + i).
Proof using Type.
  intros Hi. unfold znth, fbytes. apply list_lookup_total_correct.
  rewrite list_lookup_fmap, lookup_seqZ_lt by lia. cbn [fmap option_fmap option_map]. do 2 f_equal. lia.
Qed.

Lemma fbyte_ok s h ip i : fs_ok s h -> byte_ok (fbyte s ip i).
Proof using Type. intros Hok. apply bytes_ok_znth. apply (blk_ok s h), Hok. Qed.

Lemma fbytes_ok s h ip off n : fs_ok s h -> bytes_ok (fbytes s ip off n).
Proof using Type.
  intros Hok. unfold bytes_ok, fbytes. apply Forall_fmap, Forall_forall. intros i _. by eapply fbyte_ok.
Qed.

Lemma rsame_fbytes s s' ip off n : rsame s s' -> fbytes s' ip off n = fbytes s ip off n.
Proof using Type. intros Hr. apply list_fmap_ext. intros. by apply rsame_fbyte. Qed.

Lemma rsame_geti s s' i : rsame s s' -> geti s' i = geti s i.
Proof using Type. by intros ((b & m & ->) & _). Qed.

Lemma rsame_dir_ok s s' dp ip : fs_ok s [] -> rsame s s' -> dir_ok s dp ip -> dir_ok s' dp ip.
Proof using Type.
  intros Hok Hr [Hf Ht Hs]. split; [by apply (rsame_file_ok s s')|by rewrite (rsame_geti s s')..].
Qed.

Lemma de_name_ok de : zlen de = 16 -> bytes_ok de -> name_ok (de_name de).
Proof using Type. intros Hl Hb. split; [unfold de_name; rewrite zlen_sub; unfold DIRSIZ; lia|unfold de_name; auto with kernel]. Qed.

Lemma dirent_name_ok s h ip k : fs_ok s h -> name_ok (de_name (dirent s ip k)).
Proof using Type. intros Hok. apply de_name_ok; [by apply zlen_fbytes|by eapply fbytes_ok]. Qed.

Lemma read_de_ok s dp ip off msg :
  fs_ok s [] -> file_ok s dp ip -> km_inv (mm s) -> 0 <= off -> off + 16 <= size (geti s dp) ->
  exists s', read_de dp off msg s = Ok (fbytes s ip off 16, s') /\ rsame s s' /\ km_inv (mm s') /\
    (forall u b j, km_ok (mm s) u b j -> km_ok (mm s') u b j).
Proof using Type.
  intros Hok Hf Hm Ho Hsz. pose proof km_scratch_range as Hsr. pose proof (fk_size _ _ _ Hf) as Hmax.
  change (MAXFILE * BSIZE) with 274432 in Hmax.
  destruct (readi_ok s dp ip false km_scratch off 16 Hok Hf Hm (km_scratch_ok _ Hm)) as (s' & He & Hr & Hm' & Hmo & Hv); try lia.
  assert (Hc : read_count (size (geti s dp)) off 16 = 16).
  { unfold read_count. rewrite (proj2 (Z.ltb_ge _ off)), (proj2 (Z.leb_gt _ _)) by lia. simpl. lia. }
  rewrite Hc in *. exists s'. split_and!; try done. unfold read_de. change sizeof_dentry with 16. kstep He.
  simpl. unfold gets. do 2 f_equal. apply znth_ext; [rewrite km_read_len, zlen_fbytes by lia; done|].
  rewrite km_read_len by lia. intros i Hi. rewrite Hv, decide_True, znth_fbytes by lia. done.
Qed.

Lemma hit_spec s h ip name k :
  fs_ok s h -> name_ok name ->
  hit name (dirent s ip k) = negb (de_inum (dirent s ip k) =? 0) && (namecmp name (de_name (dirent s ip k)) =? 0).
Proof using Type.
  intros Hok Hn. unfold hit. f_equal. pose proof (namecmp_zero name (de_name (dirent s ip k)) Hn) as Hz.
  destruct (namecmp _ _ =? 0) eqn:E; zbool.
  - apply bool_decide_eq_true_2, Hz; [by eapply dirent_name_ok|done].
  - apply bool_decide_eq_false_2. intros Hc. apply E, Hz; [by eapply dirent_name_ok|done].
Qed.

Lemma dfind_rsame n s s' ip name k : rsame s s' -> dfind n s' ip name k = dfind n s ip name k.
Proof using Type.
  intros Hr. revert k. induction n as [|n IH]; intros k; [done|]. simpl. unfold dirent.
  rewrite (rsame_fbytes s s') by done. by rewrite IH.
Qed.

Lemma dirlookup_loop_spec n s dp ip name fuel k :
  fs_ok s [] -> dir_ok s dp ip -> km_inv (mm s) -> name_ok name -> 0 <= k -> (n < fuel)%nat ->
  16 * k + 16 * Z.of_nat n = size (geti s dp) ->
  exists s1, rsame s s1 /\ km_inv (mm s1) /\
    dirlookup_loop fuel dp name (16 * k) s =
    match dfind n s ip name k with Some num => dir_hit dp num name s1 | None => Ok (0, s1) end.
Proof using Type.
  revert s fuel k. induction n as [|n IH]; intros s fuel k Hok Hd Hm Hname Hk Hfuel Hsz;
    (destruct fuel as [|fuel]; [lia|]); cbn [dirlookup_loop]; ksimpl.
  { rewrite (proj2 (Z.ltb_ge _ _)) by lia. exists s. split; [by apply rsame_refl|done]. }
  rewrite (proj2 (Z.ltb_lt _ _)) by lia. cbn [negb]. pose proof (dk_file _ _ _ Hd) as Hf.
  pose proof (fk_size _ _ _ Hf) as Hmax. change (MAXFILE * BSIZE) with 274432 in Hmax.
  destruct (read_de_ok s dp ip (16 * k) "dirlookup read" Hok Hf Hm) as (s1 & He & Hr & Hm1 & _); [lia..|].
  kstep He. fold (dirent s ip k). cbn [dfind]. rewrite (hit_spec s []) by done.
  unfold sizeof_dentry. rewrite uint_small by lia. replace (16 * k + 16) with (16 * (k + 1)) by lia.
  destruct (IH s1 fuel (k + 1)) as (s2 & Hr2 & Hm2 & He2); try done; try lia.
  { apply Hr. } { by eapply rsame_dir_ok. } { rewrite (rsame_geti s s1) by done. lia. }
  rewrite (dfind_rsame n s s1) in He2 by done. pose proof (rsame_trans _ _ _ Hr Hr2) as Hr02.
  destruct (de_inum (dirent s ip k) =? 0); cbn [negb andb]; [by exists s2|].
  destruct (namecmp name (de_name (dirent s ip k)) =? 0); [by exists s1|by exists s2].
Qed.

Lemma dirlookup_ok s dp ip name :
  fs_ok s [] -> dir_ok s dp ip -> km_inv (mm s) -> name_ok name ->
  exists s1, rsame s s1 /\ km_inv (mm s1) /\
    xv6fs_dirlookup dp name s =
    match dir_find s dp ip name with Some num => dir_hit dp num name s1 | None => Ok (0, s1) end.
Proof using Type.
  intros Hok Hd Hm Hname. unfold xv6fs_dirlookup. ksimpl. rewrite (dk_type _ _ _ Hd). cbn [negb Z.eqb T_DIR Pos.eqb].
  pose proof (Z.div_mod (size (geti s dp)) 16 ltac:(done)) as Hdm. rewrite (dk_size _ _ _ Hd) in Hdm.
  pose proof (fk_size _ _ _ (dk_file _ _ _ Hd)) as [Hs0 _].
  assert (0 <= size (geti s dp) / 16) by (apply Z.div_pos; lia).
  apply (dirlookup_loop_spec _ s dp ip name _ 0); try done; try lia.
  unfold dir_fuel. assert (size (geti s dp) / 16 <= (size (geti s dp) + 15) / 16) by (apply Z.div_le_mono; lia). lia.
Qed.

(** ** The entries as a list *)

Definition dirents s (dp : Z) (ip : xv6fs_inode) : list (list Z) :=
  dirent s ip <$> seqZ 0 (size (geti s dp) / 16).

Fixpoint lfind (name : list Z) (l : list (list Z)) : option Z :=
  match l with
  | [] => None
  | d :: l => if hit name d then Some (de_inum d) else lfind name l
  end.

Lemma dfind_lfind n s ip name k : dfind n s ip name k = lfind name (dirent s ip <$> seqZ k (Z.of_nat n)).
Proof using Type.
  revert k. induction n as [|n IH]; intros k; [done|]. rewrite seqZ_cons by lia. cbn [dfind fmap list_fmap lfind].
  rewrite IH. by replace (Z.pred (Z.of_nat (S n))) with (Z.of_nat n) by lia.
Qed.

Lemma dir_find_lfind s dp ip name : dir_ok s dp ip -> dir_find s dp ip name = lfind name (dirents s dp ip).
Proof using Type.
  intros Hd. unfold dir_find, dirents. rewrite dfind_lfind, Z2Nat.id; [done|].
  apply Z.div_pos; [apply (dk_file _ _ _ Hd)|lia].
Qed.

Lemma lfind_app name l l' : lfind name (l ++ l') = match lfind name l with Some n => Some n | None => lfind name l' end.
Proof using Type. induction l as [|d l IH]; simpl; [done|]. by destruct (hit name d). Qed.

Definition is_free (d : list Z) : bool := de_inum d =? 0.
Lemma hit_free name d : is_free d = true -> hit name d = false.
Proof using Type. unfold is_free, hit. by intros ->. Qed.

(** Where [xv6fs_link] puts the new entry. *)
Fixpoint first_free (l : list (list Z)) : nat :=
  match l with [] => O | d :: l => if is_free d then O else S (first_free l) end.

Lemma link_scan_ok n s dp ip fuel k :
  fs_ok s [] -> dir_ok s dp ip -> km_inv (mm s) -> 0 <= k -> (n < fuel)%nat ->
  16 * k + 16 * Z.of_nat n = size (geti s dp) ->
  exists s1, rsame s s1 /\ km_inv (mm s1) /\
    link_scan fuel dp (16 * k) s =
    Ok (16 * (k + Z.of_nat (first_free (dirent s ip <$> seqZ k (Z.of_nat n)))), s1).
Proof using Type.
  revert s fuel k. induction n as [|n IH]; intros s fuel k Hok Hd Hm Hk Hfuel Hsz;
    (destruct fuel as [|fuel]; [lia|]); cbn [link_scan]; ksimpl; pose proof (dk_file _ _ _ Hd) as Hf;
    pose proof (fk_size _ _ _ Hf) as Hmax; change (MAXFILE * BSIZE) with 274432 in Hmax; rewrite uint_small by lia.
  { rewrite (proj2 (Z.ltb_ge _ _)) by lia. exists s. split_and!; [by apply rsame_refl|done|].
    cbn [negb]. unfold mret, K_ret. do 2 f_equal. simpl. lia. }
  rewrite (proj2 (Z.ltb_lt _ _)) by lia. cbn [negb].
  destruct (read_de_ok s dp ip (16 * k) "dirlink read" Hok Hf Hm) as (s1 & He & Hr & Hm1 & _); [lia..|].
  kstep He. fold (dirent s ip k). rewrite seqZ_cons by lia. cbn [fmap list_fmap first_free]. unfold is_free at 1.
  destruct (de_inum (dirent s ip k) =? 0).
  { exists s1. split_and!; try done. unfold mret, K_ret. do 2 f_equal. lia. }
  unfold sizeof_dentry. rewrite int_small by lia. replace (16 * k + 16) with (16 * (k + 1)) by lia.
  destruct (IH s1 fuel (k + 1)) as (s2 & Hr2 & Hm2 & He2); try done; try lia.
  { apply Hr. } { by eapply rsame_dir_ok. } { rewrite (rsame_geti s s1) by done. lia. }
  exists s2. split_and!; [by eapply rsame_trans|done|]. rewrite He2.
  replace (Z.pred (Z.of_nat (S n))) with (Z.of_nat n) by lia. do 2 f_equal.
  assert (E : dirent s1 ip <$> seqZ (k + 1) (Z.of_nat n) = dirent s ip <$> seqZ (k + 1) (Z.of_nat n)).
  { apply list_fmap_ext. intros. by apply rsame_fbytes. }
  rewrite E. unfold Z.succ. lia.
Qed.

(** Writing a whole entry [k], an existing one or the one at the end. *)
Lemma write_de_ok s dp ip k de :
  fs_ok s [] -> dir_ok s dp ip -> km_inv (mm s) -> zlen de = 16 -> bytes_ok de ->
  0 <= k <= size (geti s dp) / 16 -> 16 * k + 16 <= MAXFILE * BSIZE ->
  exists r s' ip', (on_mm (km_out false km_scratch de);; xv6fs_writei dp false km_scratch (16 * k) sizeof_dentry) s = Ok (r, s') /\
    fs_ok s' [] /\ km_inv (mm s') /\ 0 <= r <= 16 /\ (r < 16 -> full s' /\ k = size (geti s dp) / 16) /\
    ip' = set_addrs (addrs ip') ip /\
    geti s' dp = set_size (Z.max (size (geti s dp)) (16 * k + r)) (geti s dp) /\
    (r = 16 -> dir_ok s' dp ip' /\
       dirents s' dp ip' = if decide (k = size (geti s dp) / 16) then dirents s dp ip ++ [de]
                           else <[Z.to_nat k := de]> (dirents s dp ip)).
Proof using Type.
  intros Hok Hd Hm Hl Hb Hk Hmax. pose proof (dk_file _ _ _ Hd) as Hf. pose proof km_scratch_range as Hsr.
  pose proof (fk_size _ _ _ Hf) as Hsz. change (MAXFILE * BSIZE) with 274432 in *.
  pose proof (Z.div_mod (size (geti s dp)) 16 ltac:(done)) as Hdm. rewrite (dk_size _ _ _ Hd) in Hdm.
  destruct (km_out_ok (mm s) false km_scratch 16 0 de Hm (km_scratch_ok _ Hm)) as (m1 & He1 & Hm1 & Hv1 & Hmo1 & Hmf1);
    [lia|lia|done|]. rewrite Z.add_0_r in He1.
  assert (Hview : km_read m1 false km_scratch 16 = de).
  { rewrite Hv1. apply znth_ext; [rewrite zlen_splice by (rewrite ?km_read_len; lia); rewrite km_read_len; lia|].
    rewrite zlen_splice by (rewrite ?km_read_len; lia). rewrite km_read_len by lia. intros i Hi.
    rewrite znth_splice by (rewrite ?km_read_len; lia). rewrite decide_True by lia. f_equal. lia. }
  set (s1 := set_mm m1 s). assert (Hr1 : rsame s s1).
  { split; [exists (bc s), m1; by destruct s|]. split_and!; [by destruct Hok; split|done|done]. }
  pose proof (rsame_dir_ok _ _ _ _ Hok Hr1 Hd) as Hd1.
  destruct (writei_ok s1 dp ip false km_scratch (16 * k) 16) as
    (r & s' & ip' & He & Hr & Hfull & Hok' & Hf' & Hof & Hset & Hfb & _ & _ & _); try done; try lia.
  { apply Hr1. } { apply Hd1. } { by apply km_scratch_ok. }
  { change (size (geti s1 dp)) with (size (geti s dp)). lia. }
  change (geti s1 dp) with (geti s dp) in *. change (mm s1) with m1 in Hfb. rewrite Hview in Hfb.
  assert (Hg' : geti s' dp = set_size (Z.max (size (geti s dp)) (16 * k + r)) (geti s dp)).
  { destruct Hof as [b ->]. change (geti (set_bc b ?x) dp) with (geti x dp).
    rewrite geti_alter by (apply Hf || (pose proof (fk_ino _ _ _ Hf); lia)). by rewrite decide_True. }
  exists r, s', ip'. split_and!; try done; try lia.
  - rewrite (bind_ok _ _ s 0 s1) by by apply zoom_ok. exact He.
  - by destruct Hof as [b ->].
  - intros Hlt. destruct (Hfull Hlt). split; [done|]. lia.
  - intros ->. set (n := size (geti s dp) / 16) in *.
    assert (Hn' : Z.max (size (geti s dp)) (16 * k + 16) = 16 * (if decide (k = n) then n + 1 else n)) by (case_decide; lia).
    split.
    + split; [done|rewrite Hg'; apply (dk_type _ _ _ Hd)|]. rewrite Hg'. simpl. rewrite Hn'. by rewrite Z.mul_comm, Z.mod_mul.
    + assert (Hde : forall j, 0 <= j < (if decide (k = n) then n + 1 else n) ->
                dirent s' ip' j = if decide (j = k) then de else dirent s ip j).
      { intros j Hj. apply znth_ext.
        { unfold dirent. rewrite zlen_fbytes by lia. destruct (decide (j = k)); [lia|by rewrite zlen_fbytes]. }
        unfold dirent at 1. rewrite zlen_fbytes by lia. intros i Hi. unfold dirent at 1. rewrite znth_fbytes by lia.
        rewrite Hfb by (rewrite Hn'; lia). rewrite (rsame_fbyte s s1) by done.
        destruct (decide (j = k)); [rewrite decide_True by lia; f_equal; lia|].
        rewrite decide_False by lia. unfold dirent. by rewrite znth_fbytes. }
      unfold dirents at 1. rewrite Hg'. cbn [size set_size]. rewrite Hn', Z.mul_comm, Z.div_mul by done.
      rewrite (list_fmap_ext _ (fun j => if decide (j = k) then de else dirent s ip j)).
      2:{ intros j x Hx%list_elem_of_lookup_2%elem_of_seqZ. apply Hde. lia. }
      unfold dirents. fold n. case_decide as Ekn.
      * replace (n + 1) with (Z.of_nat (S (Z.to_nat n))) by lia. rewrite seqZ_S, fmap_app. cbn [fmap list_fmap].
        rewrite decide_True by lia. rewrite Z2Nat.id by lia. f_equal.
        apply list_fmap_ext. intros j x Hx%list_elem_of_lookup_2%elem_of_seqZ. rewrite decide_False by lia. done.
      * apply list_eq. intros j. rewrite list_lookup_insert, !list_lookup_fmap, length_fmap, length_seqZ.
        destruct (decide (Z.of_nat j < n)).
        -- rewrite lookup_seqZ_lt by lia. cbn [fmap option_fmap option_map]. do 2 case_decide; try lia; done.
        -- rewrite lookup_seqZ_ge by lia. rewrite decide_False by lia. done.
Qed.

(** ** Adding an entry *)

Fixpoint put_entry (l : list (list Z)) (de : list Z) : list (list Z) :=
  match l with
  | [] => [de]
  | d :: l => if is_free d then de :: l else d :: put_entry l de
  end.

Lemma first_free_le l : (first_free l <= length l)%nat.
Proof using Type. induction l as [|d l IH]; simpl; [done|]. destruct (is_free d); lia. Qed.

Lemma put_entry_eq l de :
  put_entry l de = if decide (first_free l = length l) then l ++ [de] else <[first_free l := de]> l.
Proof using Type.
  induction l as [|d l IH]; simpl; [done|]. destruct (is_free d); [done|]. rewrite IH.
  repeat case_decide; try lia; done.
Qed.

Lemma lfind_put name l de :
  lfind name l = None -> hit name de = true -> lfind name (put_entry l de) = Some (de_inum de).
Proof using Type.
  induction l as [|d l IH]; simpl; intros Hl Hde; [by rewrite Hde|].
  destruct (hit name d) eqn:E; [done|]. destruct (is_free d); simpl; [by rewrite Hde|]. rewrite E. auto.
Qed.

Lemma lfind_put_other name l de : hit name de = false -> lfind name (put_entry l de) = lfind name l.
Proof using Type.
  induction l as [|d l IH]; simpl; intros Hde; [by rewrite Hde|].
  destruct (is_free d) eqn:Ef; simpl; [rewrite Hde; by rewrite hit_free|]. destruct (hit name d); auto.
Qed.

Lemma de_inum_mk num name : 0 <= num < 2 ^ 16 -> de_inum (mk_de num name) = num.
Proof using Type.
  intros Hn. unfold de_inum, mk_de, load. change (Z.of_nat 2) with 2.
  replace (sub (le_encode 2 num ++ name) 0 2) with (le_encode 2 num) by done.
  rewrite le_decode_encode. apply Z.mod_small. done.
Qed.
Lemma de_name_mk num name : name_ok name -> de_name (mk_de num name) = name.
Proof using Type.
  intros [Hl _]. unfold de_name, mk_de, sub. change (drop (Z.to_nat 2) (le_encode 2 num ++ name)) with name.
  apply take_ge. unfold zlen in Hl. lia.
Qed.
Lemma mk_de_ok num name : name_ok name -> zlen (mk_de num name) = 16 /\ bytes_ok (mk_de num name).
Proof using Type.
  intros [Hl Hb]. unfold mk_de. split.
  - rewrite zlen_app, Hl. unfold zlen. by rewrite length_le_encode.
  - apply bytes_ok_app. split; [apply bytes_ok_le_encode|done].
Qed.

Lemma dirents_rsame s s' dp ip : rsame s s' -> dirents s' dp ip = dirents s dp ip.
Proof using Type.
  intros Hr. unfold dirents. rewrite (rsame_geti s s') by done. apply list_fmap_ext. intros. by apply rsame_fbytes.
Qed.

Lemma lfind_cname n1 n2 l : cname n1 = cname n2 -> lfind n1 l = lfind n2 l.
Proof using Type. intros E. induction l as [|d l IH]; simpl; [done|]. unfold hit. rewrite E, IH. done. Qed.

Lemma length_dirents s dp ip : 0 <= size (geti s dp) -> length (dirents s dp ip) = Z.to_nat (size (geti s dp) / 16).
Proof using Type. intros. unfold dirents. by rewrite length_fmap, length_seqZ. Qed.

(** [xv6fs_link] of a name that is not in the directory. *)
Lemma link_ok s target dp son ip :
  fs_ok s [] -> dir_ok s dp ip -> km_inv (mm s) ->
  d_parent target = Some dp -> d_inode target = Some son -> name_ok (d_name target) ->
  dir_find s dp ip (d_name target) = None -> size (geti s dp) + 16 <= MAXFILE * BSIZE ->
  exists r s' ip', xv6fs_link target s = Ok (r, s') /\ fs_ok s' [] /\ km_inv (mm s') /\
    ((r = 0 /\ dir_ok s' dp ip' /\
      dirents s' dp ip' = put_entry (dirents s dp ip) (mk_de (inum (geti s son)) (copy_name (copy_name (d_name target))))) \/
     (r = -1 /\ full s')).
Proof using Type.
  intros Hok Hd Hm Hp Hi Hname Hnone Hmax. unfold xv6fs_link. rewrite Hp, Hi.
  destruct (copy_name_ok _ Hname) as [Hn1 Hc1]. destruct (copy_name_ok _ Hn1) as [Hn2 Hc2].
  destruct (dirlookup_ok s dp ip (copy_name (d_name target)) Hok Hd Hm Hn1) as (s1 & Hr1 & Hm1 & He1).
  rewrite dir_find_lfind, (lfind_cname _ (d_name target)), <- (dir_find_lfind s dp ip) in He1 by done.
  rewrite Hnone in He1. kstep He1. cbn [Z.eqb]. ksimpl.
  pose proof (rsame_dir_ok _ _ _ _ Hok Hr1 Hd) as Hd1. pose proof (proj1 (proj2 Hr1)) as Hok1.
  pose proof (fk_size _ _ _ (dk_file _ _ _ Hd1)) as Hsz. rewrite (rsame_geti s s1) in Hsz by done.
  pose proof (Z.div_mod (size (geti s dp)) 16 ltac:(done)) as Hdm. rewrite (dk_size _ _ _ Hd) in Hdm.
  assert (Hn0 : 0 <= size (geti s dp) / 16) by (apply Z.div_pos; lia). change (MAXFILE * BSIZE) with 274432 in *.
  destruct (link_scan_ok (Z.to_nat (size (geti s dp) / 16)) s1 dp ip (dir_fuel s1 dp) 0) as (s2 & Hr2 & Hm2 & He2); try done; try lia.
  { unfold dir_fuel. rewrite (rsame_geti s s1) by done.
    assert (size (geti s dp) / 16 <= (size (geti s dp) + 15) / 16) by (apply Z.div_le_mono; lia). lia. }
  { rewrite (rsame_geti s s1) by done. lia. }
  pose proof (rsame_trans _ _ _ Hr1 Hr2) as Hr. rewrite Z2Nat.id in He2 by done.
  assert (El : dirent s1 ip <$> seqZ 0 (size (geti s dp) / 16) = dirents s dp ip).
  { rewrite <- (dirents_rsame s s1) by done. unfold dirents. by rewrite (rsame_geti s s1). }
  rewrite El, Z.add_0_l in He2. set (k := Z.of_nat (first_free (dirents s dp ip))) in *. kstep He2. ksimpl.
  pose proof (first_free_le (dirents s dp ip)) as Hff. rewrite length_dirents in Hff by lia.
  assert (Hk : 0 <= k <= size (geti s dp) / 16) by (unfold k; lia). rewrite uint_small by lia.
  rewrite (rsame_geti s s2 son) by done.
  set (de := mk_de (inum (geti s son)) (copy_name (copy_name (d_name target)))).
  destruct (mk_de_ok (inum (geti s son)) _ Hn2) as [Hdl Hdb].
  destruct (write_de_ok s2 dp ip k de) as (r & s' & ip' & He' & Hok' & Hm' & Hr' & Hfull & Hset & Hg' & Hpost);
    rewrite ?(rsame_geti s s2) by done; try done; try lia.
  { apply Hr2. } { by eapply rsame_dir_ok. } { change (MAXFILE * BSIZE) with 274432. lia. }
  rewrite (rsame_geti s s2) in Hfull, Hpost by done. rewrite (dirents_rsame s s2) in Hpost by done.
  revert He'. unfold mbind at 1, K_bind at 1. destruct (on_mm _ s2) as [[x s3]| | | |] eqn:Eo; cbn [res_bind fst snd]; try done.
  intros He'. rewrite (bind_ok _ _ _ _ _ Eo). kstep He'. change sizeof_dentry with 16.
  destruct (r =? 16) eqn:E16; cbn [negb]; zbool.
  - exists 0, s', ip'. split; [done|]. split_and!; try done. left. destruct (Hpost E16) as [Hd' Hl']. split_and!; try done.
    rewrite Hl', put_entry_eq, length_dirents by lia. unfold k. rewrite Nat2Z.id.
    repeat case_decide; try lia; done.
  - exists (-1), s', ip'. split; [done|]. split_and!; try done. right. split; [done|]. apply Hfull. lia.
Qed.

(** ** Removing entries *)

Definition clear_entry (name de : list Z) : list Z :=
  if bool_decide (cname name = cname (de_name de)) then replicate 16 0 else de.

Lemma lfind_clear name n l :
  lfind n (clear_entry name <$> l) = if bool_decide (cname n = cname name) then None else lfind n l.
Proof using Type.
  induction l as [|d l IH]; cbn [fmap list_fmap lfind]; [by case_bool_decide|]. rewrite IH.
  unfold clear_entry, hit. destruct (decide (cname name = cname (de_name d))) as [E1|E1].
  - rewrite (bool_decide_eq_true_2 _ E1). change (de_inum (replicate 16 0)) with 0. cbn [negb Z.eqb andb].
    destruct (decide (cname n = cname name)) as [E2|E2]; [by rewrite (bool_decide_eq_true_2 _ E2)|].
    rewrite (bool_decide_eq_false_2 _ E2), (bool_decide_eq_false_2 (cname n = _)) by congruence. by rewrite andb_false_r.
  - rewrite (bool_decide_eq_false_2 _ E1).
    destruct (decide (cname n = cname name)) as [E2|E2]; [|by rewrite (bool_decide_eq_false_2 _ E2)].
    rewrite (bool_decide_eq_true_2 _ E2), (bool_decide_eq_false_2 (cname n = _)) by congruence. by rewrite andb_false_r.
Qed.

Lemma lookup_dirents s dp ip k :
  0 <= k < size (geti s dp) / 16 -> dirents s dp ip !! Z.to_nat k = Some (dirent s ip k).
Proof using Type.
  intros Hk. unfold dirents. rewrite list_lookup_fmap, lookup_seqZ_lt by lia.
  cbn [fmap option_fmap option_map]. do 2 f_equal. lia.
Qed.

(** One round: entry [k] becomes [clear_entry] of itself. *)
Lemma unlink_round s dp ip name k :
  fs_ok s [] -> dir_ok s dp ip -> km_inv (mm s) -> name_ok name -> 0 <= k < size (geti s dp) / 16 ->
  exists s' ip', (de ← read_de dp (16 * k) "dirlink read in unlink";
     if namecmp name (de_name de) =? 0 then
       on_mm (km_out false km_scratch (replicate 16 0));;
       r ← xv6fs_writei dp false km_scratch (16 * k) sizeof_dentry;
       if negb (r =? sizeof_dentry) then panic "unlink write" else mret tt
     else mret tt) s = Ok (tt, s') /\
    fs_ok s' [] /\ km_inv (mm s') /\ dir_ok s' dp ip' /\ geti s' dp = geti s dp /\
    dirents s' dp ip' = <[Z.to_nat k := clear_entry name (dirent s ip k)]> (dirents s dp ip).
Proof using Type.
  intros Hok Hd Hm Hname Hk. pose proof (dk_file _ _ _ Hd) as Hf. pose proof (fk_size _ _ _ Hf) as Hsz.
  pose proof (Z.div_mod (size (geti s dp)) 16 ltac:(done)) as Hdm. rewrite (dk_size _ _ _ Hd) in Hdm.
  destruct (read_de_ok s dp ip (16 * k) "dirlink read in unlink" Hok Hf Hm) as (s1 & He1 & Hr1 & Hm1 & _); [lia..|].
  kstep He1. fold (dirent s ip k). pose proof (namecmp_zero name _ Hname (dirent_name_ok s [] ip k Hok)) as Hz.
  pose proof (rsame_dir_ok _ _ _ _ Hok Hr1 Hd) as Hd1. unfold clear_entry.
  destruct (namecmp name (de_name (dirent s ip k)) =? 0) eqn:E; zbool.
  - rewrite bool_decide_eq_true_2 by by apply Hz.
    destruct (write_de_ok s1 dp ip k (replicate 16 0)) as (r & s' & ip' & He' & Hok' & Hm' & Hr' & Hfull & Hset & Hg' & Hpost);
      rewrite ?(rsame_geti s s1) in * by done; try done; try lia.
    { apply Hr1. } { by apply bytes_ok_replicate. }
    assert (r = 16) as -> by (destruct (decide (r < 16)) as [Hlt|]; [destruct (Hfull Hlt)|]; lia).
    destruct (Hpost eq_refl) as [Hd' Hl']. rewrite decide_False in Hl' by lia. rewrite (dirents_rsame s s1) in Hl' by done.
    exists s', ip'. split_and!; try done.
    + revert He'. unfold mbind at 1, K_bind at 1. destruct (on_mm _ s1) as [[x s3]| | | |] eqn:Eo; cbn [res_bind fst snd]; try done.
      intros He'. rewrite (bind_ok _ _ _ _ _ Eo). by kstep He'.
    + rewrite Hg', Z.max_l by lia. apply set_size_id.
  - rewrite bool_decide_eq_false_2 by by rewrite <- Hz. exists s1, ip. split; [done|].
    split_and!; [apply Hr1|done|done|by apply rsame_geti|]. rewrite (dirents_rsame s s1) by done.
    symmetry. by apply list_insert_id, lookup_dirents.
Qed.

Lemma unlink_loop_ok n s dp ip name fuel k :
  fs_ok s [] -> dir_ok s dp ip -> km_inv (mm s) -> name_ok name -> 0 <= k -> (n < fuel)%nat ->
  16 * k + 16 * Z.of_nat n = size (geti s dp) ->
  exists s' ip', unlink_loop fuel dp name (16 * k) s = Ok (0, s') /\
    fs_ok s' [] /\ km_inv (mm s') /\ dir_ok s' dp ip' /\ geti s' dp = geti s dp /\
    dirents s' dp ip' = take (Z.to_nat k) (dirents s dp ip) ++ (clear_entry name <$> drop (Z.to_nat k) (dirents s dp ip)).
Proof using Type.
  revert s ip fuel k. induction n as [|n IH]; intros s ip fuel k Hok Hd Hm Hname Hk Hfuel Hsz;
    (destruct fuel as [|fuel]; [lia|]); cbn [unlink_loop]; ksimpl; pose proof (fk_size _ _ _ (dk_file _ _ _ Hd)) as Hs;
    pose proof (length_dirents s dp ip ltac:(lia)) as Hlen; change (MAXFILE * BSIZE) with 274432 in Hs;
    pose proof (f_equal (fun x => x / 16) Hsz) as Hdiv; cbv beta in Hdiv;
    rewrite <- Z.mul_add_distr_l, Z.mul_comm, Z.div_mul in Hdiv by done.
  { rewrite (proj2 (Z.ltb_ge _ _)) by lia. exists s, ip. split; [done|]. split_and!; try done.
    rewrite take_ge, drop_ge by (rewrite Hlen; lia). simpl. by rewrite app_nil_r. }
  rewrite (proj2 (Z.ltb_lt _ _)) by lia. cbn [negb].
  destruct (unlink_round s dp ip name k) as (s1 & ip1 & He1 & Hok1 & Hm1 & Hd1 & Hg1 & Hl1); try done; try lia.
  replace (16 * k + sizeof_dentry) with (16 * (k + 1)) by (unfold sizeof_dentry; lia). rewrite uint_small by lia.
  destruct (IH s1 ip1 fuel (k + 1)) as (s' & ip' & He' & Hok' & Hm' & Hd' & Hg' & Hl'); try done; try lia.
  { rewrite Hg1. lia. }
  exists s', ip'. split.
  - revert He1. unfold mbind, K_bind. destruct (read_de dp (16 * k) _ s) as [[de s2]| | | |]; cbn [res_bind fst snd]; try done.
    intros ->. cbn [res_bind fst snd]. exact He'.
  - split_and!; try done; [congruence|]. rewrite Hl', Hl1. replace (Z.to_nat (k + 1)) with (S (Z.to_nat k)) by lia.
    pose proof (lookup_dirents s dp ip k ltac:(lia)) as Hlk.
    assert (Hlt : (Z.to_nat k < length (dirents s dp ip))%nat) by (rewrite Hlen; lia).
    rewrite (take_S_r _ _ (clear_entry name (dirent s ip k))) by (by apply list_lookup_insert_eq).
    rewrite take_insert_ge, drop_insert_lt by lia. rewrite <- app_assoc. f_equal.
    rewrite (drop_S _ _ _ Hlk). by rewrite fmap_cons.
Qed.

Lemma unlink_dir_ok s d dp ip :
  fs_ok s [] -> dir_ok s dp ip -> km_inv (mm s) -> d_parent d = Some dp -> name_ok (d_name d) ->
  exists s' ip', xv6fs_unlink d s = Ok (0, s') /\ fs_ok s' [] /\ km_inv (mm s') /\ dir_ok s' dp ip' /\
    geti s' dp = geti s dp /\ dirents s' dp ip' = clear_entry (d_name d) <$> dirents s dp ip.
Proof using Type.
  intros Hok Hd Hm Hp Hname. destruct (copy_name_ok _ Hname) as [Hn1 Hc1].
  pose proof (Z.div_mod (size (geti s dp)) 16 ltac:(done)) as Hdm. rewrite (dk_size _ _ _ Hd) in Hdm.
  pose proof (fk_size _ _ _ (dk_file _ _ _ Hd)) as [Hs0 _].
  assert (0 <= size (geti s dp) / 16) by (apply Z.div_pos; lia).
  assert (size (geti s dp) / 16 <= (size (geti s dp) + 15) / 16) by (apply Z.div_le_mono; lia).
  destruct (unlink_loop_ok (Z.to_nat (size (geti s dp) / 16)) s dp ip (copy_name (d_name d)) (dir_fuel s dp) 0)
    as (s' & ip' & He & Hok' & Hm' & Hd' & Hg' & Hl'); try done; try lia.
  { unfold dir_fuel. lia. }
  exists s', ip'. split_and!; try done.
  - unfold xv6fs_unlink. rewrite Hp. ksimpl. exact He.
  - rewrite Hl'. change (Z.to_nat 0) with O. rewrite take_0, drop_0. simpl app. apply list_fmap_ext.
    intros i de _. unfold clear_entry. by rewrite Hc1.
Qed.
End Dirs.
