(* ===== verification/VfsProof.v ===== *)
(** * Correctness of the inode table

    [iget] keeps the table free of duplicates; [xv6fs_geti] on an entry that is
    not loaded copies the inode from the disk; [iput] of the last reference
    writes the inode back or, without links, frees it and its blocks. *)

From stdpp Require Import base numbers list list_numbers gmap strings.
From Stdlib Require Import ZArith Lia.
From S2P Require Import Prelude Params KString Path Sleeplock Virtio Bio Kmem Fsys Blocks BlocksProof Bmap Dinode FileData Trunc Vfs.

(** ** [iget] *)

Definition live (i : inode) : Prop := 0 < ref i.
Definition is_at (dv num : Z) (i : inode) : Prop := live i /\ dev i = dv /\ inum i = num.

(** No inode is in the table twice. *)
Definition itable_ok (l : list inode) : Prop :=
  (forall j i, l !! j = Some i -> 0 <= ref i) /\
  (forall j k i i', l !! j = Some i -> l !! k = Some i' -> live i -> live i' ->
     dev i = dev i' -> inum i = inum i' -> j = k).

Lemma iget_loop_spec l dv num i0 e :
  match iget_loop l dv num i0 e with
  | (true, Some i) => exists j ip, i = i0 + Z.of_nat j /\ l !! j = Some ip /\ is_at dv num ip
  | (true, None) => False
  | (false, r) =>
      (forall j ip, l !! j = Some ip -> ~ is_at dv num ip) /\
      match r with
      | Some i => e = Some i \/ exists j ip, i = i0 + Z.of_nat j /\ l !! j = Some ip /\ ref ip = 0
      | None => e = None /\ forall j ip, l !! j = Some ip -> ref ip <> 0
      end
  end.
Proof.
  revert i0 e. induction l as [|ip l IH]; intros i0 e; cbn [iget_loop].
  { split; [intros j ip Hj; by rewrite lookup_nil in Hj|]. destruct e; [by left|]. split; [done|]. intros j ip Hj. by rewrite lookup_nil in Hj. }
  destruct ((0 <? ref ip) && (dev ip =? dv) && (inum ip =? num)) eqn:E.
  - zbool. exists O, ip. split_and!; [lia|done|]. by split_and!.
  - assert (Hno : ~ is_at dv num ip).
    { intros (H1 & H2 & H3). unfold live in H1.
      by rewrite (proj2 (Z.ltb_lt _ _)), (proj2 (Z.eqb_eq _ _)), (proj2 (Z.eqb_eq _ _)) in E. }
    set (e' := match e with Some _ => e | None => if ref ip =? 0 then Some i0 else None end).
    specialize (IH (i0 + 1) e'). destruct (iget_loop l dv num (i0 + 1) e') as [[] [i|]]; try done.
    + destruct IH as (j & ip' & -> & Hj & Hat). exists (S j), ip'. split_and!; [lia|done|done].
    + destruct IH as [Hall Hr]. split; [by intros [|j] ip' Hj; [simplify_eq/=|apply (Hall j)]|].
      destruct Hr as [He'|(j & ip' & -> & Hj & Hz)]; [|right; exists (S j), ip'; split_and!; [lia|done|done]].
      unfold e' in He'. destruct e as [x|]; [by left|]. destruct (ref ip =? 0) eqn:Ez; [|done]. zbool.
      right. exists O, ip. split_and!; [simplify_eq; lia|done|done].
    + destruct IH as [Hall [He' Hnz]]. split; [by intros [|j] ip' Hj; [simplify_eq/=|apply (Hall j)]|].
      unfold e' in He'. destruct e as [x|]; [done|]. destruct (ref ip =? 0) eqn:Ez; [done|]. zbool.
      split; [done|]. intros [|j] ip' Hj; [by simplify_eq/=|by apply (Hnz j)].
Qed.

Lemma itable_ok_alter l k ip f :
  itable_ok l -> l !! k = Some ip -> 0 <= ref (f ip) ->
  (live (f ip) -> forall k' ip', l !! k' = Some ip' -> k' <> k -> live ip' -> dev ip' = dev (f ip) -> inum ip' = inum (f ip) -> False) ->
  itable_ok (alter f k l).
Proof.
  intros [Href Huni] Hk Hr Hno. split.
  - intros j y. rewrite list_lookup_alter. case_decide; [|apply Href]. subst. rewrite Hk. by intros [= <-].
  - intros j j' y y'. rewrite !list_lookup_alter.
    destruct (decide (k = j)) as [Ej|Ej], (decide (k = j')) as [Ej'|Ej']; try subst j; try subst j';
      rewrite ?Hk; intros Hy Hy' L1 L2 Ed En; simplify_eq/=; try done.
    + exfalso. eapply (Hno L1 j' y'); done.
    + exfalso. eapply (Hno L2 j y); done.
    + by eapply (Huni j j' y y').
Qed.

Section Vfs.
Context {B M : Type} `{BC : BufCache B, BL : !BufCacheLaws B} `{KM : KMem M, KL : !KMemLaws M}.
Implicit Types s : fsys B M.

Lemma geti_lookup s j ip : itable s !! j = Some ip -> geti s (Z.of_nat j) = ip /\ 0 <= Z.of_nat j < zlen (itable s).
Proof using Type.
  intros Hj. pose proof (lookup_lt_Some _ _ _ Hj). unfold geti, zlen. rewrite Nat2Z.id.
  split; [by apply list_lookup_total_correct|lia].
Qed.

Lemma geti_updi s j ip f : itable s !! j = Some ip ->
  geti (set_itable (alter f j) s) (Z.of_nat j) = f ip /\
  forall k, 0 <= k -> k <> Z.of_nat j -> geti (set_itable (alter f j) s) k = geti s k.
Proof using Type.
  intros Hj. destruct (geti_lookup _ _ _ Hj) as [Hg Hr]. pose proof (geti_alter s (Z.of_nat j) f) as Ha.
  rewrite Nat2Z.id in Ha. split; [rewrite Ha by lia; by rewrite decide_True, Hg|].
  intros k Hk Hne. rewrite Ha by lia. by rewrite decide_False.
Qed.

(** The result of [iget]: the one entry of the inode, with one more reference. *)
Lemma iget_ok s dv num :
  itable_ok (itable s) -> Forall (fun i => ref i < 2 ^ 31 - 1) (itable s) ->
  Exists (fun i => ref i = 0 \/ is_at dv num i) (itable s) ->
  exists i f s', iget dv num s = Ok (i, s') /\ 0 <= i < zlen (itable s) /\
    s' = set_itable (alter f (Z.to_nat i)) s /\ itable_ok (itable s') /\ is_at dv num (geti s' i) /\
    (forall j, 0 <= j -> j <> i -> geti s' j = geti s j) /\
    ((is_at dv num (geti s i) /\ geti s' i = set_ref (ref (geti s i) + 1) (geti s i)) \/
     ((forall j ip, itable s !! j = Some ip -> ~ is_at dv num ip) /\ ref (geti s i) = 0 /\
      geti s' i = set_private 0 (set_ref 1 (set_inum num (set_dev dv (geti s i)))))).
Proof using Type.
  intros Hok Hmax Hex. pose proof Hok as [Href Huni]. unfold iget. ksimpl.
  pose proof (iget_loop_spec (itable s) dv num 0 None) as Hl. rewrite Forall_lookup in Hmax.
  destruct (iget_loop (itable s) dv num 0 None) as [[] [i|]]; [|done| |].
  - destruct Hl as (j & ip & -> & Hj & Hat). rewrite Z.add_0_l.
    destruct (geti_lookup _ _ _ Hj) as [Hg Hr]. pose proof (Hmax _ _ Hj) as Hm. pose proof (Href _ _ Hj).
    pose proof Hat as (Hlv & Hd & Hn). unfold live in Hlv.
    set (f := fun ip => set_ref (int (ref ip + 1)) ip).
    assert (Hf : f ip = set_ref (ref ip + 1) ip) by (unfold f; by rewrite int_small by lia).
    destruct (geti_updi s j ip f Hj) as [Hu Ho].
    exists (Z.of_nat j), f, (set_itable (alter f j) s).
    split; [unfold updi; ksimpl; by rewrite Nat2Z.id|]. rewrite Nat2Z.id.
    split; [lia|]. split; [done|]. split; [|split; [|split; [done|]]].
    + simpl. eapply itable_ok_alter; [done..| |]; rewrite Hf; simpl; [lia|].
      intros _ k' ip' Hk' Hne Hl' Hd' Hn'. apply Hne. by eapply Huni.
    + rewrite Hu, Hf. split_and!; [unfold live; simpl; lia|done|done].
    + left. rewrite Hg. split; [done|]. by rewrite Hu.
  - destruct Hl as [Hno [|(j & ip & -> & Hj & Hz)]]; [done|]. rewrite Z.add_0_l.
    destruct (geti_lookup _ _ _ Hj) as [Hg Hr].
    set (f := fun ip => set_private 0 (set_ref 1 (set_inum num (set_dev dv ip)))).
    destruct (geti_updi s j ip f Hj) as [Hu Ho].
    exists (Z.of_nat j), f, (set_itable (alter f j) s).
    split; [unfold updi; ksimpl; by rewrite Nat2Z.id|]. rewrite Nat2Z.id.
    split; [lia|]. split; [done|]. split; [|split; [|split; [done|]]].
    + simpl. eapply itable_ok_alter; [done..|simpl; lia|]. simpl.
      intros _ k' ip' Hk' Hne Hl' Hd' Hn'. by apply (Hno _ _ Hk').
    + rewrite Hu. by split_and!.
    + right. rewrite Hg. split_and!; try done.
  - destruct Hl as [Hno [_ Hnz]]. apply Exists_exists in Hex as (x & [jx Hx]%list_elem_of_lookup & [Hz|Hat]).
    + by destruct (Hnz _ _ Hx).
    + by destruct (Hno _ _ Hx).
Qed.

(** ** Loading an inode *)

(** The table entry and the object that [load_inode] makes of an on-disk inode. *)
Definition loaded (di : dinode) (dv p : Z) (i : inode) : inode :=
  set_ref 1 (set_dev dv (set_size (di_size di) (set_nlink (di_nlink di) (set_type (di_type di) (set_private p i))))).
Definition loaded_xi (di : dinode) (dv : Z) : xv6fs_inode :=
  mk_xi dv (di_type di) (di_major di) (di_minor di) (di_nlink di) (di_size di) (di_addrs di).

Lemma load_inode_ok s ino num :
  fs_ok s [] -> km_inv (mm s) -> km_avail (mm s) 1 -> 0 <= ino < zlen (itable s) -> inum_ok (sb s) num ->
  let di := disk_inode s num in
  exists p s', load_inode ino ROOTDEV num s = Ok (tt, s') /\ fs_ok s' [] /\ km_inv (mm s') /\ ~ km_live (mm s) p /\
    (forall n, blk s' n = blk s n) /\ p <> 0 /\
    (exists b m, s' = set_bc b (set_mm m (set_heap (insert p (HInode (loaded_xi di ROOTDEV)))
                    (set_itable (alter (loaded di ROOTDEV p) (Z.to_nat ino)) s))) /\
      (forall q, km_live m q <-> q = p \/ km_live (mm s) q) /\ (forall j, km_avail (mm s) (S j) -> km_avail m j)).
Proof using Type.
  intros Hok Hm Hav Hino Hnum di.
  destruct (km_kalloc_ok _ Hm) as (p' & m' & Hka & Hm' & _ & Hfresh & _ & Hav'). destruct (Hav' 0%nat Hav) as [Hp0 _].
  destruct (Hfresh Hp0) as [Hnl Hlive]. pose proof (fo_sb _ _ Hok) as Hsb.
  destruct (IBLOCK_range _ _ Hsb Hnum) as [_ Hn]. pose proof (sb_meta_pos _ Hsb) as Hmp.
  set (n := IBLOCK num (sb s)) in *.
  set (s1 := set_itable (alter (set_private p') (Z.to_nat ino)) (set_heap (insert p' (HInode xi_zero)) (set_mm m' s))).
  assert (Hok1 : fs_ok s1 []) by (by destruct Hok; split).
  destruct (bread_spec s1 [] n (fo_inv _ _ Hok1) ltac:(done) ltac:(lia)) as (bp & s2 & He2 & Hk2 & Hi2 & _ & Hd2 & Hb2);
    [by apply not_elem_of_nil|].
  set (f := fun i => set_ref 1 (set_dev ROOTDEV (set_size (di_size di) (set_nlink (di_nlink di) (set_type (di_type di) i))))).
  set (s3 := set_itable (alter f (Z.to_nat ino)) (set_heap (insert p' (HInode (loaded_xi di ROOTDEV))) s2)).
  destruct (brelse_spec s3 [] bp n Hi2) as (s4 & He4 & Hk4 & Hi4 & Hb4); [change (bc_data (bc s2) bp = blk s2 n); by rewrite Hd2, Hb2|].
  exists p', s4. split_and!; try done.
  - unfold load_inode. unfold kalloc_obj at 1.
    rewrite (bind_ok _ _ s p' (set_heap (insert p' (HInode xi_zero)) (set_mm m' s))).
    2:{ rewrite (bind_ok _ _ s p' (set_mm m' s)) by by apply zoom_ok. by rewrite (proj2 (Z.eqb_neq _ _)). }
    unfold updi. ksimpl. fold s1. change (sb s1) with (sb s). fold n. kstep He2. unfold bp_data. ksimpl.
    unfold put_xi. ksimpl. rewrite Hd2. exact He4.
  - eapply (fs_ok_ext [] [] s); try done; [by rewrite (keep_sb _ _ _ Hk4); apply (keep_sb _ _ _ Hk2)|].
    intros m. rewrite Hb4. apply Hb2.
  - rewrite (keep_mm _ _ _ Hk4). change (mm s3) with (mm s2). by rewrite (keep_mm _ _ _ Hk2).
  - intros k. rewrite Hb4. apply Hb2.
  - destruct Hk4 as [[b4 ->] _], Hk2 as [[b2 ->] _]. exists b4, m'. split; [|split; [done|intros j Hj; by apply Hav']].
    unfold s3, s1. fsys_ext.
    + by rewrite list_alter_twice.
    + by rewrite insert_insert_eq.
Qed.

(** ** Releasing an inode *)

(** An entry of the table that may be released: unlocked, with operations, its object allocated. *)
Record put_ok s (ino : Z) (ip : xv6fs_inode) : Prop := {
  pk_file : file_ok s ino ip;
  pk_lock : locked (i_lock (geti s ino)) = 0;
  pk_op : i_op (geti s ino) = true;
  pk_live : km_live (mm s) (private (geti s ino));
  pk_private : private (geti s ino) <> 0;
}.

Lemma lock_inode_ok s ino :
  locked (i_lock (geti s ino)) = 0 ->
  lock_inode ino s = Ok (tt, set_itable (alter (set_i_lock (mk_sleeplock 1 (fpid s))) (Z.to_nat ino)) s).
Proof using Type. intros Hl. unfold lock_inode. ksimpl. by erewrite zoom_ok by by apply acquiresleep_free. Qed.

Lemma unlock_inode_ok s ino :
  unlock_inode ino s = Ok (tt, set_itable (alter (set_i_lock (mk_sleeplock 0 0)) (Z.to_nat ino)) s).
Proof using Type. done. Qed.

Lemma call_op_ok {A} ino (f : K (fsys B M) A) s : i_op (geti s ino) = true -> call_op ino f s = f s.
Proof using Type. intros H. unfold call_op. ksimpl. by rewrite H. Qed.

Lemma fs_ok_itable s h f : fs_ok s h -> fs_ok (set_itable f s) h.
Proof using Type. intros [? ? ?]. by split. Qed.

Lemma ino_ok_itable s f ip : ino_ok s ip -> ino_ok (set_itable f s) ip.
Proof using Type. intros [? ? ? ? ? ?]. by split. Qed.

(** Fields of an entry that do not matter for the file. *)
Lemma file_ok_alter s ino ip f :
  file_ok s ino ip -> (forall i, dev (f i) = dev i /\ private (f i) = private i /\ inum (f i) = inum i /\
    nlink (f i) = nlink i /\ size (f i) = size i /\ (is_short (type i) -> is_short (type (f i)))) ->
  file_ok (set_itable (alter f (Z.to_nat ino)) s) ino ip.
Proof using Type.
  intros Hf Hk. pose proof (fk_ino _ _ _ Hf) as Hi. pose proof (fk_short _ _ _ Hf) as (? & ? & ? & ?).
  destruct (Hk (geti s ino)) as (E1 & E2 & E3 & E4 & E5 & E6).
  assert (Hg : geti (set_itable (alter f (Z.to_nat ino)) s) ino = f (geti s ino)).
  { rewrite geti_alter by lia. by rewrite decide_True. }
  destruct Hf as [? ? ? Hio ? ? ? ?]. apply (ino_ok_itable _ (alter f (Z.to_nat ino))) in Hio.
  split; rewrite ?Hg, ?E1, ?E2, ?E3, ?E4, ?E5; simpl; try done.
  - unfold zlen in *. by rewrite length_alter.
  - split_and!; auto.
Qed.

Lemma release_ok s ino :
  km_inv (mm s) -> private (geti s ino) <> 0 -> km_live (mm s) (private (geti s ino)) ->
  exists m, xv6fs_release_inode ino s = Ok (tt, set_itable (alter (fun i => set_type 0 (set_private 0 i)) (Z.to_nat ino))
      (set_heap (delete (private (geti s ino))) (set_mm m s))) /\ km_inv m /\
    (forall q, km_live m q <-> q <> private (geti s ino) /\ km_live (mm s) q) /\
    (forall j, km_avail (mm s) j -> km_avail m (S j)).
Proof using Type.
  intros Hm Hp Hl. destruct (km_kfree_ok _ _ Hm Hl) as (m' & Hkf & Hm' & _ & Hlive & Hav).
  exists m'. split_and!; try done. unfold xv6fs_release_inode. ksimpl. rewrite (proj2 (Z.eqb_neq _ _)) by done. cbn [negb].
  rewrite (bind_ok _ _ s tt (set_heap (delete (private (geti s ino))) (set_mm m' s))).
  2:{ unfold kfree_obj. by rewrite (bind_ok _ _ s tt (set_mm m' s)) by by apply zoom_ok. }
  unfold updi. ksimpl. unfold modify. f_equal. f_equal. fsys_ext. by rewrite list_alter_twice.
Qed.

Lemma geti_alter_eq s ino f : 0 <= ino < zlen (itable s) -> geti (set_itable (alter f (Z.to_nat ino)) s) ino = f (geti s ino).
Proof using Type. intros Hi. rewrite geti_alter by lia. by rewrite decide_True. Qed.

Lemma list_alter_ext_at {A} `{!Inhabited A} (f g : A -> A) (l : list A) k : f (l !!! k) = g (l !!! k) -> alter f k l = alter g k l.
Proof using Type.
  intros Hf. apply list_eq. intros i. rewrite !list_lookup_alter. case_decide; [subst|done].
  destruct (l !! i) eqn:E; simpl; [|done]. rewrite (list_lookup_total_correct _ _ _ E) in Hf. by rewrite Hf.
Qed.

(** The entry after its last reference is gone. *)
Definition released (i : inode) : inode :=
  mk_inode (i_op i) (i_sb i) (inum i) 0 (mk_sleeplock 0 0) 0 (dev i) (size i) (nlink i) 0.

(** [iput] of the last reference to an inode with links writes it to the disk. *)
Lemma iput_last_ok s ino ip :
  fs_ok s [] -> km_inv (mm s) -> put_ok s ino ip -> ref (geti s ino) = 1 -> 0 < nlink (geti s ino) ->
  exists s', iput ino s = Ok (tt, s') /\ fs_ok s' [] /\ km_inv (mm s') /\
    disk_inode s' (inum (geti s ino)) = dinode_of (geti s ino) ip /\
    (forall k, inum_ok (sb s) k -> k <> inum (geti s ino) -> disk_inode s' k = disk_inode s k) /\
    (forall m, ~ (inodestart (sb s) <= m < bmapstart (sb s)) -> blk s' m = blk s m) /\
    (exists b m, s' = set_bc b (set_mm m (set_heap (delete (private (geti s ino)))
       (set_itable (alter released (Z.to_nat ino)) s))) /\
     (forall q, km_live m q <-> q <> private (geti s ino) /\ km_live (mm s) q) /\
     (forall j, km_avail (mm s) j -> km_avail m (S j))).
Proof using Type.
  intros Hok Hm Hpk Hr Hn. pose proof (pk_file _ _ _ Hpk) as Hf. pose proof (fk_ino _ _ _ Hf) as Hino.
  set (s1 := set_itable (alter (set_i_lock (mk_sleeplock 1 (fpid s))) (Z.to_nat ino)) s).
  assert (Hg1 : geti s1 ino = set_i_lock (mk_sleeplock 1 (fpid s)) (geti s ino)) by by apply geti_alter_eq.
  assert (Hok1 : fs_ok s1 []) by by apply fs_ok_itable.
  assert (Hf1 : file_ok s1 ino ip) by by apply file_ok_alter.
  destruct (fk_short _ _ _ Hf) as (? & ? & ? & ?). pose proof (fk_size _ _ _ Hf) as Hsz. change (MAXFILE * BSIZE) with 274432 in Hsz.
  destruct (iupdate_ok s1 ino ip Hok1 (fk_dev _ _ _ Hf1) (fk_heap _ _ _ Hf1)) as (s2 & He2 & Hk2 & Hok2 & Hdi & Hdo & Hblk).
  { rewrite Hg1. split_and!; try done; [unfold is_uint; simpl; lia|apply (fk_ip _ _ _ Hf)|].
    eapply ino_ok_uint; [exact Hok|apply (fk_ip _ _ _ Hf)]. }
  { apply Hf1. }
  assert (Hg2 : geti s2 ino = geti s1 ino) by (by destruct Hk2 as [[b ->] _]).
  destruct (release_ok s2 ino) as (m3 & He3 & Hm3 & Hlive & Hav); rewrite ?Hg2, ?Hg1; try apply Hpk.
  { by rewrite (keep_mm _ _ _ Hk2). } { rewrite (keep_mm _ _ _ Hk2). apply Hpk. }
  rewrite Hg2, Hg1 in *. cbn [private set_i_lock] in *.
  set (s3 := set_itable (alter (fun i => set_type 0 (set_private 0 i)) (Z.to_nat ino))
      (set_heap (delete (private (geti s ino))) (set_mm m3 s2))) in *.
  set (s5 := set_itable (alter (fun i => set_ref (int (ref i - 1)) i) (Z.to_nat ino))
     (set_itable (alter (set_i_lock (mk_sleeplock 0 0)) (Z.to_nat ino)) s3)).
  assert (Hfin : exists b, s5 = set_bc b (set_mm m3 (set_heap (delete (private (geti s ino))) (set_itable (alter released (Z.to_nat ino)) s)))).
  { destruct Hk2 as [[b2 Hs2] _]. exists b2. unfold s5, s3. rewrite Hs2. unfold s1. fsys_ext.
    rewrite !list_alter_twice. apply list_alter_ext_at. fold (geti s ino). unfold compose, released. simpl. by rewrite Hr. }
  assert (Hblk5 : forall n, blk s5 n = blk s2 n) by done.
  assert (Hsb5 : sb s5 = sb s) by (destruct Hfin as [b ->]; done).
  pose proof (keep_sb _ _ _ Hk2) as Hsb2. change (sb s1) with (sb s) in *. cbn [inum set_i_lock] in Hdi, Hdo.
  assert (Hdi5 : forall k, disk_inode s5 k = disk_inode s2 k) by (intros k; unfold disk_inode; by rewrite Hsb5, Hsb2, Hblk5).
  exists s5. split_and!.
  - unfold iput. ksimpl. rewrite (proj2 (Z.eqb_neq _ 0)) by apply Hpk. rewrite Hr, (proj2 (Z.eqb_neq (nlink _) 0)) by lia.
    cbn [Z.eqb Pos.eqb andb]. ksimpl. rewrite Hr, (proj2 (Z.ltb_lt 0 _)) by lia. cbn [Z.eqb Pos.eqb andb].
    assert (Hblock : (lock_inode ino;; call_op ino (xv6fs_iupdate ino);; call_op ino (xv6fs_release_inode ino);; unlock_inode ino) s =
              Ok (tt, set_itable (alter (set_i_lock (mk_sleeplock 0 0)) (Z.to_nat ino)) s3)).
    { kstep (lock_inode_ok s ino (pk_lock _ _ _ Hpk)). fold s1.
      rewrite (bind_ok _ _ s1 tt s2) by (rewrite call_op_ok; [done|by rewrite Hg1; apply Hpk]).
      rewrite (bind_ok _ _ s2 tt s3) by (rewrite call_op_ok; [done|by rewrite Hg2; apply Hpk]). done. }
    kstep Hblock. done.
  - eapply (fs_ok_ext [] [] s2); try done. apply Hok2.
  - destruct Hfin as [b ->]. done.
  - rewrite Hdi5. by rewrite Hdi.
  - intros k Hk' Hne. rewrite Hdi5, Hdo by done. done.
  - intros n Hnr. rewrite Hblk5. by apply Hblk.
  - destruct Hfin as [b ->]. exists b, m3. rewrite (keep_mm _ _ _ Hk2) in Hlive, Hav. done.
Qed.
Lemma file_fields_ok s ino ip : fs_ok s [] -> file_ok s ino ip -> fields_ok (geti s ino) ip.
Proof using Type.
  intros Hok Hf. destruct (fk_short _ _ _ Hf) as (? & ? & ? & ?). pose proof (fk_size _ _ _ Hf) as Hsz. change (MAXFILE * BSIZE) with 274432 in Hsz.
  split_and!; try done; [unfold is_uint; lia|apply (fk_ip _ _ _ Hf)|]. eapply ino_ok_uint; [exact Hok|apply (fk_ip _ _ _ Hf)].
Qed.

(** The steps of [iput] on an inode without links. *)
Lemma iput_unlinked_run s ino s3 s4 s5 :
  private (geti s ino) <> 0 -> locked (i_lock (geti s ino)) = 0 -> ref (geti s ino) = 1 -> nlink (geti s ino) = 0 ->
  let s2 := set_itable (alter (set_type 0) (Z.to_nat ino)) (set_itable (alter (set_i_lock (mk_sleeplock 1 (fpid s))) (Z.to_nat ino)) s) in
  let s6 := set_itable (alter (set_i_lock (mk_sleeplock 0 0)) (Z.to_nat ino)) s5 in
  i_op (geti s2 ino) = true -> xv6fs_itrunc ino s2 = Ok (tt, s3) ->
  i_op (geti s3 ino) = true -> xv6fs_iupdate ino s3 = Ok (tt, s4) ->
  i_op (geti s4 ino) = true -> xv6fs_free_inode ino s4 = Ok (tt, s5) -> nlink (geti s6 ino) = 0 ->
  iput ino s = Ok (tt, set_itable (alter (fun i => set_ref (int (ref i - 1)) i) (Z.to_nat ino)) s6).
Proof using Type.
  intros Hp Hl Hr Hn s2 s6 O2 E2 O3 E3 O4 E4 Hn6. unfold iput. ksimpl. rewrite (proj2 (Z.eqb_neq _ 0)) by done. rewrite Hr, Hn. cbn [Z.eqb Pos.eqb andb].
  assert (Hblock : (lock_inode ino;; updi ino (set_type 0);; call_op ino (xv6fs_itrunc ino);; call_op ino (xv6fs_iupdate ino);;
      call_op ino (xv6fs_free_inode ino);; unlock_inode ino) s = Ok (tt, s6)).
  { kstep (lock_inode_ok s ino Hl). unfold updi. ksimpl. fold s2. rewrite (bind_ok _ _ s2 tt s3) by by rewrite call_op_ok.
    rewrite (bind_ok _ _ s3 tt s4) by by rewrite call_op_ok. rewrite (bind_ok _ _ s4 tt s5) by by rewrite call_op_ok. reflexivity. }
  kstep Hblock. ksimpl. rewrite Hn6, andb_false_r. ksimpl. reflexivity.
Qed.

(** The state after [iput] has freed the inode [ino] and its object. *)
Definition dropped s (ino : Z) s' : Prop :=
  exists b m, s' = set_bc b (set_mm m (set_heap (delete (private (geti s ino)))
    (set_itable (alter (fun i => mk_inode (i_op i) (i_sb i) (inum i) 0 (mk_sleeplock 0 0) 0 (dev i) 0 (nlink i) 0) (Z.to_nat ino)) s))).

(** C30: [iput] of the last reference to an inode without links frees its blocks and the inode. *)
Lemma iput_unlinked_ok s ino ip :
  fs_ok s [] -> km_inv (mm s) -> put_ok s ino ip -> ref (geti s ino) = 1 -> nlink (geti s ino) = 0 ->
  exists s', iput ino s = Ok (tt, s') /\ fs_ok s' [] /\ km_inv (mm s') /\
    (forall c, 0 <= c < sb_size (sb s) -> used s' c = true <-> used s c = true /\ ~ owns s ip c) /\
    di_type (disk_inode s' (inum (geti s ino))) = 0 /\
    (forall k, inum_ok (sb s) k -> k <> inum (geti s ino) -> disk_inode s' k = disk_inode s k) /\
    (forall m, meta_end (sb s) <= m -> blk s' m = blk s m) /\ dropped s ino s'.
Proof using Type.
  intros Hok Hm Hpk Hr Hn. pose proof (pk_file _ _ _ Hpk) as Hf. pose proof (fk_ino _ _ _ Hf) as Hino.
  set (s1 := set_itable (alter (set_i_lock (mk_sleeplock 1 (fpid s))) (Z.to_nat ino)) s).
  set (s2 := set_itable (alter (set_type 0) (Z.to_nat ino)) s1).
  assert (Hg1 : geti s1 ino = set_i_lock (mk_sleeplock 1 (fpid s)) (geti s ino)) by by apply geti_alter_eq.
  assert (Hg2 : geti s2 ino = set_type 0 (geti s1 ino)) by (apply geti_alter_eq; simpl; unfold zlen in *; by rewrite length_alter).
  assert (Hok2 : fs_ok s2 []) by by do 2 apply fs_ok_itable.
  assert (Hf2 : file_ok s2 ino ip) by (apply file_ok_alter; [by apply file_ok_alter|]; intros i; split_and!; try done; intros _; by vm_compute).
  destruct (itrunc_ok s2 ino ip Hok2 Hf2) as (s3 & He3 & Hok3 & Hf3 & Hon3 & Hu3 & Hdi3 & Hdo3 & Hb3).
  assert (Hg3 : geti s3 ino = set_size 0 (geti s2 ino)).
  { destruct Hon3 as [b ->]. change (geti (set_bc b ?x) ino) with (geti x ino). rewrite geti_alter_eq; [done|]. apply Hf2. }
  rewrite Hg2, Hg1 in Hg3.
  destruct (iupdate_ok s3 ino (no_addrs ip) Hok3 (fk_dev _ _ _ Hf3) (fk_heap _ _ _ Hf3)) as (s4 & He4 & Hk4 & Hok4 & Hdi4 & Hdo4 & Hb4).
  { by apply file_fields_ok. } { apply Hf3. }
  assert (Hg4 : geti s4 ino = geti s3 ino) by (by destruct Hk4 as [[b ->] _]).
  assert (Hmm : mm s4 = mm s) by (rewrite (keep_mm _ _ _ Hk4); by destruct Hon3 as [b ->]).
  destruct (release_ok s4 ino) as (m5 & He5 & Hm5 & _); rewrite ?Hg4, ?Hg3, ?Hmm; try apply Hpk; [done|].
  rewrite Hg4, Hg3 in He5. cbn [private set_i_lock set_type set_size] in He5.
  set (s5 := set_itable (alter (fun i => set_type 0 (set_private 0 i)) (Z.to_nat ino)) (set_heap (delete (private (geti s ino))) (set_mm m5 s4))) in *.
  set (s6 := set_itable (alter (set_i_lock (mk_sleeplock 0 0)) (Z.to_nat ino)) s5).
  set (s7 := set_itable (alter (fun i => set_ref (int (ref i - 1)) i) (Z.to_nat ino)) s6).
  assert (Hg6 : geti s6 ino = mk_inode (i_op (geti s ino)) (i_sb (geti s ino)) (inum (geti s ino)) (ref (geti s ino)) (mk_sleeplock 0 0) 0 (dev (geti s ino)) 0 (nlink (geti s ino)) 0).
  { assert (Hl4 : 0 <= ino < zlen (itable s4)) by (rewrite (keep_itable _ _ _ Hk4); apply Hf3).
    unfold s6. rewrite geti_alter_eq by (simpl; unfold zlen in *; by rewrite length_alter). unfold s5. rewrite geti_alter_eq by exact Hl4.
    change (geti (set_heap _ (set_mm m5 s4)) ino) with (geti s4 ino). rewrite Hg4, Hg3. done. }
  assert (Hsb3 : sb s3 = sb s) by (by destruct Hon3 as [b ->]).
  assert (Hsb4 : sb s4 = sb s) by (by rewrite (keep_sb _ _ _ Hk4)).
  assert (Hdi7 : forall k, disk_inode s7 k = disk_inode s4 k) by done.
  exists s7. split; [|split; [|split; [|split; [|split; [|split; [|split]]]]]].
  - apply (iput_unlinked_run s ino s3 s4 s5); try done.
    + apply (pk_private _ _ _ Hpk).
    + apply (pk_lock _ _ _ Hpk).
    + fold s1 s2. rewrite Hg2, Hg1. apply (pk_op _ _ _ Hpk).
    + rewrite Hg3. apply (pk_op _ _ _ Hpk).
    + rewrite Hg4, Hg3. apply (pk_op _ _ _ Hpk).
    + fold s6. by rewrite Hg6.
  - apply (fs_ok_ext [] [] s4); try done. apply Hok4.
  - done.
  - intros c Hc. etransitivity; [|exact (Hu3 c Hc)]. change (used s7 c) with (used s4 c). unfold used. rewrite Hsb4, Hsb3, Hb4; [done|].
    rewrite Hsb3. pose proof (BBLOCK_range _ c (fo_sb _ _ Hok) Hc). lia.
  - rewrite Hdi7. rewrite Hg3 in Hdi4. cbn [inum set_size set_type set_i_lock] in Hdi4. by rewrite Hdi4.
  - intros k Hk Hne. rewrite Hdi7, Hdo4, Hdo3; [done|done|by rewrite Hg2, Hg1|by rewrite Hsb3|by rewrite Hg3].
  - intros n Hn'. change (blk s7 n) with (blk s4 n). pose proof (sb_meta_pos _ (fo_sb _ _ Hok)). rewrite Hb4, Hb3; [done|done|rewrite Hsb3; lia].
  - destruct Hk4 as [[b4 Es4] _], Hon3 as [b3 Es3]. rewrite Hg2, Hg1 in Es3. cbn [private set_type set_i_lock] in Es3. exists b4, m5. unfold s7, s6, s5. rewrite Es4, Es3. unfold s2, s1. fsys_ext.
    + rewrite !list_alter_twice. apply list_alter_ext_at. fold (geti s ino). unfold compose. simpl. by rewrite Hr.
    + apply delete_insert_eq.
Qed.
End Vfs.
