(* ===== verification/Lookup.v ===== *)
(** * Path lookup

    [namex] of [src/kernel/fs/fs.c] against a reference: the walk down the
    directory tree on the disk ([disk_walk]).  [tree_ok] is the invariant that
    lookup keeps: the disk holds a well-formed tree and every entry of the inode table in
    use agrees with the inode on the disk. *)

From stdpp Require Import base numbers list list_numbers gmap strings.
From Stdlib Require Import ZArith Lia.
From S2P Require Import Prelude Params KString Path Sleeplock Virtio Bio Kmem Fsys Blocks BlocksProof Bmap Dinode FileData Trunc Vfs Dirs DirsProof VfsProof.

Section Lookup.
Context {B M : Type} `{BC : BufCache B, BL : !BufCacheLaws B} `{KM : KMem M, KL : !KMemLaws M}.
Implicit Types s : fsys B M.

(** ** The tree on the disk *)

Definition disk_xi s (num : Z) : xv6fs_inode := loaded_xi (disk_inode s num) ROOTDEV.
Definition disk_entries s (num : Z) : list (list Z) :=
  dirent s (disk_xi s num) <$> seqZ 0 (di_size (disk_inode s num) / 16).
Definition allocated s (num : Z) : Prop := inum_ok (sb s) num /\ di_type (disk_inode s num) <> 0.

(** The inode that a list of names leads to. *)
Fixpoint disk_walk s (num : Z) (names : list (list Z)) : option Z :=
  match names with
  | [] => Some num
  | n :: names =>
      if di_type (disk_inode s num) =? T_DIR then
        match lfind n (disk_entries s num) with Some num' => disk_walk s num' names | None => None end
      else None
  end.

Record disk_ok s (num : Z) : Prop := {
  do_ino : ino_ok s (disk_xi s num);
  do_size : 0 <= di_size (disk_inode s num) <= MAXFILE * BSIZE;
  do_holes : no_holes s (disk_xi s num) (di_size (disk_inode s num));
  do_nlink : 0 < di_nlink (disk_inode s num);
  do_dir : di_type (disk_inode s num) = T_DIR -> di_size (disk_inode s num) mod 16 = 0 /\
    forall de, de ∈ disk_entries s num -> de_inum de <> 0 -> allocated s (de_inum de);
}.

(** The tree and the blocks it is made of are the same. *)
Definition disk_same s s' : Prop :=
  upper s s' /\ forall num, inum_ok (sb s) num -> disk_inode s' num = disk_inode s num.

Lemma disk_same_refl s : disk_same s s.
Proof using Type. done. Qed.
Lemma disk_same_trans s1 s2 s3 : disk_same s1 s2 -> disk_same s2 s3 -> disk_same s1 s3.
Proof using Type.
  intros [[E1 H1] D1] [[E2 H2] D2]. rewrite E1 in *. split; [split; [congruence|]|].
  - intros m Hm. rewrite H2, H1; done.
  - intros num Hn. rewrite D2, D1; done.
Qed.
Lemma disk_same_blk s s' : sb s' = sb s -> (forall m, blk s' m = blk s m) -> disk_same s s'.
Proof using Type. intros E Hb. split; [by split|]. intros num _. unfold disk_inode. by rewrite E, Hb. Qed.

Section Same.
Context (s s' : fsys B M) (Hok : fs_ok s []) (Hs : disk_same s s').

Lemma same_sb : sb s' = sb s.
Proof using Hs. apply Hs. Qed.

Lemma same_allocated num : allocated s num -> allocated s' num.
Proof using Hs. intros [Hn Ht]. split; [by rewrite same_sb|]. by rewrite (proj2 Hs). Qed.

Lemma same_entries num : allocated s num -> disk_ok s num -> disk_entries s' num = disk_entries s num.
Proof using Hok Hs.
  intros [Hn _] [Hio Hsz Hh _ _]. unfold disk_entries, disk_xi in *. rewrite (proj2 Hs) by done. apply list_fmap_ext.
  intros j k [-> Hk]%lookup_seqZ. unfold dirent, fbytes. apply list_fmap_ext. intros i x [-> Hi]%lookup_seqZ.
  assert (Hlt : 0 <= 16 * (0 + Z.of_nat j) + (0 + Z.of_nat i) < di_size (disk_inode s num)).
  { pose proof (Z.mul_div_le (di_size (disk_inode s num)) 16 ltac:(done)). lia. }
  apply (upper_fbyte s s' [] Hok (proj1 Hs) _ Hio); [lia|]. by apply (no_holes_at _ _ _ _ Hh).
Qed.

Lemma same_disk_ok num : allocated s num -> disk_ok s num -> disk_ok s' num.
Proof using Hok Hs.
  intros Ha Hd. pose proof (same_entries num Ha Hd) as He. destruct Ha as [Hn Ht]. destruct Hd as [Hio Hsz Hh Hl Hdir].
  unfold disk_xi in *. split; unfold disk_xi; rewrite ?(proj2 Hs) by done; try done.
  - by apply (upper_ino_ok s s' [] Hok (proj1 Hs)).
  - by apply (upper_no_holes s s' [] Hok (proj1 Hs)).
  - rewrite He. intros Hty. destruct (Hdir Hty) as [? Hde]. split; [done|]. intros de Hin Hnz. apply same_allocated. by apply Hde.
Qed.
End Same.

(** ** The inode table against the disk *)

(** An entry in use holds the inode that is on the disk. *)
Record slot_ok s (i : inode) : Prop := {
  sl_dev : dev i = ROOTDEV;
  sl_op : i_op i = true;
  sl_alloc : allocated s (inum i);
  sl_private : private i <> 0;
  sl_live : km_live (mm s) (private i);
  sl_xi : exists xi, heap s !! private i = Some (HInode xi) /\ xi_dev xi = ROOTDEV /\ dinode_of i xi = disk_inode s (inum i);
}.

Definition in_table s (j : Z) : Prop := 0 <= j < zlen (itable s).
Definition used_slot s (j : Z) : Prop := in_table s j /\ live (geti s j).

(** [held] is the entry whose lock the running process holds. *)
Record tree_ok s (held : option Z) : Prop := {
  to_fs : fs_ok s [];
  to_mm : km_inv (mm s);
  to_table : itable_ok (itable s);
  to_disk : forall num, allocated s num -> disk_ok s num;
  to_slot : forall j, used_slot s j -> slot_ok s (geti s j);
  to_private : forall j k, used_slot s j -> used_slot s k -> private (geti s j) = private (geti s k) -> j = k;
  to_lock : forall j, in_table s j ->
    if decide (held = Some j) then i_lock (geti s j) = mk_sleeplock 1 (fpid s) else locked (i_lock (geti s j)) = 0;
}.

Lemma iaddr_addrs s xi xi' bn : addrs xi = addrs xi' -> iaddr s xi bn = iaddr s xi' bn.
Proof using Type. intros E. unfold iaddr, indirect. by rewrite E. Qed.

Lemma ino_ok_addrs s xi xi' : addrs xi = addrs xi' -> xi_dev xi' = ROOTDEV -> ino_ok s xi -> ino_ok s xi'.
Proof using Type.
  intros E Hd [_ Hl Hdt Hi Hinj Hne]. pose proof (fun bn => iaddr_addrs s xi xi' bn E) as Ha.
  assert (Ei : indirect xi' = indirect xi) by (unfold indirect; by rewrite E).
  split; rewrite ?Ei, <- ?E; try done; setoid_rewrite <- Ha; done.
Qed.

Lemma fbytes_addrs s xi xi' off n : addrs xi = addrs xi' -> fbytes s xi off n = fbytes s xi' off n.
Proof using Type. intros E. unfold fbytes. apply list_fmap_ext. intros. unfold fbyte. by rewrite (iaddr_addrs s xi xi'). Qed.

Lemma disk_short s num : let di := disk_inode s num in
  is_short (di_type di) /\ is_short (di_nlink di) /\ is_short (di_major di) /\ is_short (di_minor di).
Proof using Type.
  assert (Hs : forall x, is_short (short x)).
  { intros x. unfold is_short, short, to_signed. pose proof (Z.mod_pos_bound x (2 ^ 16) ltac:(done)). case_match; zbool; lia. }
  split_and!; apply Hs.
Qed.

(** The file of an entry in use; for a directory, its entries. *)
Lemma slot_file s h j :
  tree_ok s h -> used_slot s j ->
  exists xi, file_ok s j xi /\ dinode_of (geti s j) xi = disk_inode s (inum (geti s j)) /\
    (type (geti s j) = T_DIR -> dir_ok s j xi /\ dirents s j xi = disk_entries s (inum (geti s j))).
Proof using Type.
  intros Ht Hj. destruct (to_slot _ _ Ht _ Hj) as [Hdev Hop Hal Hp Hlv (xi & Hh & Hxd & Hdi)].
  destruct (to_disk _ _ Ht _ Hal) as [Hio Hsz Hho Hnl Hdir]. pose proof (disk_short s (inum (geti s j))) as (? & ? & ? & ?).
  assert (Ea : addrs (disk_xi s (inum (geti s j))) = addrs xi) by (unfold disk_xi; rewrite <- Hdi; done).
  rewrite <- Hdi in *. cbn [di_type di_nlink di_major di_minor di_size dinode_of] in *.
  assert (Hf : file_ok s j xi).
  { split; try done.
    - apply Hj.
    - by eapply ino_ok_addrs.
    - apply Hal.
    - intros bn. rewrite <- (iaddr_addrs s _ _ bn Ea). apply Hho. }
  exists xi. split_and!; try done. intros Hty. destruct (Hdir Hty) as [Hm16 _]. split; [by split|].
  unfold dirents, disk_entries. rewrite <- Hdi. apply list_fmap_ext. intros i k _. unfold dirent. by apply fbytes_addrs.
Qed.

(** What an operation on another entry leaves alone. *)
Definition core (i : inode) := (i_op i, dev i, inum i, private i, (type i, nlink i, size i)).
Definition kept s s' (j : Z) : Prop :=
  used_slot s j /\ core (geti s' j) = core (geti s j) /\
  heap s' !! private (geti s j) = heap s !! private (geti s j) /\ km_live (mm s') (private (geti s j)).

(** [fresh]: the entry that came into use. *)
Lemma tree_step s h s' h' (fresh : option Z) :
  tree_ok s h -> disk_same s s' -> fs_ok s' [] -> km_inv (mm s') -> itable_ok (itable s') ->
  (forall j, used_slot s' j -> fresh <> Some j -> kept s s' j) ->
  (forall j, fresh = Some j -> slot_ok s' (geti s' j) /\ ~ km_live (mm s) (private (geti s' j))) ->
  (forall j, in_table s' j ->
    if decide (h' = Some j) then i_lock (geti s' j) = mk_sleeplock 1 (fpid s') else locked (i_lock (geti s' j)) = 0) ->
  tree_ok s' h'.
Proof using Type.
  intros Ht Hs Hok Hm Htb Hk Hfr Hl.
  assert (Hpf : forall j k, used_slot s' j -> fresh <> Some j -> fresh = Some k -> private (geti s' j) <> private (geti s' k)).
  { intros j k Hj Hnj Hfk E. destruct (Hk j Hj Hnj) as (Hu & Hc & _). injection Hc as _ _ _ Ep _ _ _.
    destruct (Hfr k Hfk) as [_ Hn]. apply Hn. rewrite <- E, Ep. by apply (sl_live _ _ (to_slot _ _ Ht j Hu)). }
  split; try done.
  - intros num Ha. assert (Ha0 : allocated s num).
    { destruct Ha as [Hn Ht0]. rewrite (same_sb s s') in Hn by done. split; [done|]. by rewrite <- (proj2 Hs num Hn). }
    apply (same_disk_ok s s' (to_fs _ _ Ht)); [done..|]. by apply (to_disk _ _ Ht).
  - intros j Hj. destruct (decide (fresh = Some j)) as [E|E]; [by apply Hfr|].
    destruct (Hk j Hj E) as (Hu & Hc & Hh & Hlv). injection Hc as E1 E2 E3 E4 E5 E6 E7.
    destruct (to_slot _ _ Ht j Hu) as [Hd Hop Hal Hp Hlv0 (xi & Hxi & Hxd & Hdi)]. split; rewrite ?E1, ?E2, ?E3, ?E4; try done.
    + by apply (same_allocated s).
    + exists xi. split; [by rewrite Hh|]. split; [done|]. rewrite (proj2 Hs) by apply Hal. rewrite <- Hdi. unfold dinode_of. by rewrite E5, E6, E7.
  - intros j k Hj Hk' E. destruct (decide (fresh = Some j)) as [Ej|Ej], (decide (fresh = Some k)) as [Ek|Ek]; [congruence| | |].
    + by destruct (Hpf k j Hk' Ek Ej).
    + by destruct (Hpf j k Hj Ej Ek).
    + destruct (Hk j Hj Ej) as (Hu & Hc & _), (Hk k Hk' Ek) as (Hu' & Hc' & _). injection Hc as _ _ _ E1 _ _ _. injection Hc' as _ _ _ E2 _ _ _.
      apply (to_private _ _ Ht); congruence || done.
Qed.

(** ** Locks and references *)

Definition alter_slot s (j : Z) (f : inode -> inode) := set_itable (alter f (Z.to_nat j)) s.

Lemma in_table_alter s j f k : in_table (alter_slot s j f) k <-> in_table s k.
Proof using Type. unfold in_table, alter_slot, zlen. simpl. by rewrite length_alter. Qed.

Lemma geti_alter_slot s j f k :
  in_table s j -> in_table s k -> geti (alter_slot s j f) k = if decide (k = j) then f (geti s j) else geti s k.
Proof using Type. intros Hj Hk. apply geti_alter; [done|apply Hk]. Qed.

Lemma table_slot s j : in_table s j -> itable s !! Z.to_nat j = Some (geti s j).
Proof using Type. intros Hj. unfold geti. apply list_lookup_lookup_total_lt. unfold in_table, zlen in Hj. lia. Qed.

Lemma tree_alter s h j f h' :
  tree_ok s h -> in_table s j -> 0 <= ref (f (geti s j)) ->
  (live (f (geti s j)) -> live (geti s j) /\ core (f (geti s j)) = core (geti s j)) ->
  (forall k, in_table s k -> let i := if decide (k = j) then f (geti s j) else geti s k in
    if decide (h' = Some k) then i_lock i = mk_sleeplock 1 (fpid s) else locked (i_lock i) = 0) ->
  tree_ok (alter_slot s j f) h'.
Proof using Type.
  intros Ht Hj Hr Hc Hl. apply (tree_step s h _ _ None Ht).
  - by apply disk_same_blk.
  - apply fs_ok_itable, Ht.
  - apply Ht.
  - eapply itable_ok_alter; [apply Ht|by apply table_slot|done|].
    intros Hlv k' ip' Hk' Hne Hl' Hd Hn. destruct (Hc Hlv) as [Hlj E]. injection E as _ E2 E3 _ _ _ _. rewrite E2 in Hd. rewrite E3 in Hn.
    apply Hne. by apply (proj2 (to_table _ _ Ht) k' (Z.to_nat j) ip' (geti s j)); try apply table_slot.
  - intros k [Hk Hlk] _. rewrite in_table_alter in Hk. rewrite geti_alter_slot in Hlk by done. unfold kept. rewrite geti_alter_slot by done.
    destruct (decide (k = j)) as [->|Hne].
    + destruct (Hc Hlk) as [Hlj E]. pose proof (sl_live _ _ (to_slot _ _ Ht j (conj Hj Hlj))). done.
    + pose proof (sl_live _ _ (to_slot _ _ Ht k (conj Hk Hlk))). done.
  - done.
  - intros k Hk. rewrite in_table_alter in Hk. rewrite geti_alter_slot by done. by apply Hl.
Qed.

(** The references of every entry change by [d]; the memory left goes from [a] to [a'] pages.
    Nothing else about entries in use changes. *)
Record moved s s' (d : Z -> Z) : Prop := {
  mv_disk : disk_same s s';
  mv_len : zlen (itable s') = zlen (itable s);
  mv_ref : forall j, in_table s j -> ref (geti s' j) = ref (geti s j) + d j;
  mv_inum : forall j, used_slot s j -> live (geti s' j) -> inum (geti s' j) = inum (geti s j) /\ type (geti s' j) = type (geti s j);
  mv_cwd : cwd s' = cwd s;
}.
Definition one (j : Z) (k : Z) : Z := if decide (k = j) then 1 else 0.
Definition none (_ : Z) : Z := 0.

Lemma moved_alter s j f d :
  in_table s j -> ref (f (geti s j)) = ref (geti s j) + d -> inum (f (geti s j)) = inum (geti s j) ->
  type (f (geti s j)) = type (geti s j) -> moved s (alter_slot s j f) (fun k => if decide (k = j) then d else 0).
Proof using Type.
  intros Hj Hr Hn Hty. split; try done.
  - unfold alter_slot, zlen. simpl. by rewrite length_alter.
  - intros k Hk. rewrite geti_alter_slot by done. case_decide; [subst; done|lia].
  - intros k [Hk _] _. rewrite geti_alter_slot by done. by case_decide; subst.
Qed.

Lemma ilock_tree s j :
  tree_ok s None -> used_slot s j ->
  exists s', ilock (Some j) s = Ok (tt, s') /\ tree_ok s' (Some j) /\ moved s s' none /\ mm s' = mm s.
Proof using Type.
  intros Ht Hj. pose proof Hj as [Hin Hlv]. pose proof (to_slot _ _ Ht j Hj) as Hsl. unfold live in Hlv.
  pose proof (to_lock _ _ Ht j Hin) as Hlk. rewrite decide_False in Hlk by done.
  set (s' := alter_slot s j (set_i_lock (mk_sleeplock 1 (fpid s)))). exists s'. split_and!.
  - unfold ilock. ksimpl. rewrite (proj2 (Z.ltb_ge _ _)) by lia. kstep (lock_inode_ok s j Hlk). ksimpl.
    fold (alter_slot s j (set_i_lock (mk_sleeplock 1 (fpid s)))). rewrite geti_alter_slot by done. rewrite decide_True by done. cbn [private set_i_lock].
    by rewrite (proj2 (Z.eqb_neq _ _)) by apply Hsl.
  - apply (tree_alter s None); try done; [cbn; lia|]. intros k Hk i. pose proof (to_lock _ _ Ht k Hk) as Hlk'. rewrite decide_False in Hlk' by done.
    unfold i. destruct (decide (k = j)) as [->|Hne]; [by rewrite decide_True|]. by rewrite decide_False by congruence.
  - assert (Hm : moved s s' (fun k => if decide (k = j) then 0 else 0)) by (apply moved_alter; try done; cbn; lia).
    destruct Hm as [? ? Hr ? ?]. split; try done. intros k Hk. rewrite Hr by done. unfold none. by case_decide.
  - done.
Qed.

Lemma iunlock_tree s j :
  tree_ok s (Some j) -> used_slot s j ->
  exists s', iunlock (Some j) s = Ok (tt, s') /\ tree_ok s' None /\ moved s s' none /\ mm s' = mm s.
Proof using Type.
  intros Ht Hj. pose proof Hj as [Hin Hlv]. unfold live in Hlv.
  pose proof (to_lock _ _ Ht j Hin) as Hlk. rewrite decide_True in Hlk by done.
  set (s' := alter_slot s j (set_i_lock (mk_sleeplock 0 0))). exists s'. split_and!.
  - unfold iunlock. ksimpl. rewrite Hlk. unfold holdingsleep. cbn [locked lk_pid]. rewrite Z.eqb_refl, (proj2 (Z.ltb_ge _ _)) by lia. done.
  - apply (tree_alter s (Some j)); try done; [cbn; lia|]. intros k Hk i. pose proof (to_lock _ _ Ht k Hk) as Hlk'. rewrite decide_False by done.
    unfold i. destruct (decide (k = j)) as [->|Hne]; [done|]. by rewrite decide_False in Hlk' by congruence.
  - assert (Hm : moved s s' (fun k => if decide (k = j) then 0 else 0)) by (apply moved_alter; try done; cbn; lia).
    destruct Hm as [? ? Hr ? ?]. split; try done. intros k Hk. rewrite Hr by done. unfold none. by case_decide.
  - done.
Qed.

Lemma slot_put_ok s j : tree_ok s None -> used_slot s j -> exists xi, put_ok s j xi /\ 0 < nlink (geti s j) /\
  dinode_of (geti s j) xi = disk_inode s (inum (geti s j)).
Proof using Type.
  intros Ht Hj. destruct (slot_file s None j Ht Hj) as (xi & Hf & Hdi & _). pose proof (to_slot _ _ Ht j Hj) as Hsl. exists xi. split_and!; try done.
  - pose proof (to_lock _ _ Ht j (proj1 Hj)) as Hlk. rewrite decide_False in Hlk by done. split; try done; apply Hsl.
  - pose proof (do_nlink _ _ (to_disk _ _ Ht _ (sl_alloc _ _ Hsl))) as Hn. by rewrite <- Hdi in Hn.
Qed.

Lemma iput_last_tree s j :
  tree_ok s None -> used_slot s j -> ref (geti s j) = 1 ->
  exists s', iput j s = Ok (tt, s') /\ tree_ok s' None /\ moved s s' (fun k => - one j k) /\
    (forall n, km_avail (mm s) n -> km_avail (mm s') n).
Proof using Type.
  intros Ht Hj Hr. destruct (slot_put_ok s j Ht Hj) as (xi & Hpk & Hnl & Hdi). pose proof (proj1 Hj) as Hin.
  destruct (iput_last_ok s j xi (to_fs _ _ Ht) (to_mm _ _ Ht) Hpk Hr Hnl) as (s' & He & Hok & Hm & Hd1 & Hd2 & Hb & b & m & Es & Hlv & Hav).
  assert (Hsame : disk_same s s').
  { split; [split; [by rewrite Es|]|].
    - intros n Hn. apply Hb. lia.
    - intros num Hnum. destruct (decide (num = inum (geti s j))) as [->|]; [by rewrite Hd1|by apply Hd2]. }
  assert (Hit : forall k, in_table s' k <-> in_table s k) by (intros k; rewrite Es; apply (in_table_alter s j released)).
  assert (Hg : forall k, in_table s k -> geti s' k = if decide (k = j) then released (geti s j) else geti s k).
  { intros k Hk. rewrite Es. change (geti (alter_slot s j released) k = if decide (k = j) then released (geti s j) else geti s k).
    by apply geti_alter_slot. }
  exists s'. split; [done|]. split; [|split; [split|]]; try done.
  - apply (tree_step s None _ _ None Ht); try done.
    + rewrite Es. simpl. eapply itable_ok_alter; [apply Ht|by apply table_slot|done|]. intros Hbad. unfold live in Hbad. simpl in Hbad. lia.
    + intros k [Hk Hl] _. rewrite Hit in Hk. rewrite Hg in Hl by done. unfold kept. rewrite Hg by done.
      destruct (decide (k = j)) as [->|Hne]; [unfold live in Hl; simpl in Hl; lia|].
      assert (Hp : private (geti s k) <> private (geti s j)) by (intros E; by apply Hne, (to_private _ _ Ht)).
      split_and!; try done; rewrite Es; simpl; [by rewrite lookup_delete_ne|]. apply Hlv. split; [done|].
      apply (sl_live _ _ (to_slot _ _ Ht k (conj Hk Hl))).
    + intros k Hk. rewrite Hit in Hk. rewrite Hg by done. pose proof (to_lock _ _ Ht k Hk) as Hlk. rewrite decide_False in Hlk |- * by done.
      by destruct (decide (k = j)).
  - rewrite Es. unfold zlen. simpl. by rewrite length_alter.
  - intros k Hk. rewrite Hg by done. unfold one. destruct (decide (k = j)) as [->|]; [simpl; lia|lia].
  - intros k [Hk Hl] Hl'. rewrite Hg in Hl' |- * by done. destruct (decide (k = j)); [unfold live in Hl'; simpl in Hl'; lia|done].
  - by rewrite Es.
  - intros n Hn. rewrite Es. simpl. apply km_avail_le. by apply Hav.
Qed.

Lemma iput_tree s j :
  tree_ok s None -> used_slot s j -> ref (geti s j) < 2 ^ 31 ->
  exists s', iput j s = Ok (tt, s') /\ tree_ok s' None /\ moved s s' (fun k => - one j k) /\
    (forall n, km_avail (mm s) n -> km_avail (mm s') n).
Proof using Type.
  intros Ht Hj Hmax. destruct (decide (ref (geti s j) = 1)) as [|Hr]; [by apply iput_last_tree|].
  pose proof (to_slot _ _ Ht j Hj) as Hsl. pose proof Hj as [Hin Hlv]. unfold live in Hlv.
  set (f := fun i => set_ref (int (ref i - 1)) i). exists (alter_slot s j f).
  assert (Hf : f (geti s j) = set_ref (ref (geti s j) - 1) (geti s j)) by (unfold f; by rewrite int_small by lia).
  split; [|split; [|split]].
  - unfold iput. ksimpl. rewrite (proj2 (Z.eqb_neq _ _)) by apply Hsl. rewrite (proj2 (Z.eqb_neq (ref _) _)) by done. cbn [andb]. ksimpl.
    by rewrite (proj2 (Z.eqb_neq (ref _) _)) by done.
  - apply (tree_alter s None); rewrite ?Hf; try done; [cbn; lia|]. intros k Hk i. pose proof (to_lock _ _ Ht k Hk) as Hlk.
    rewrite decide_False in Hlk |- * by done. unfold i. by destruct (decide (k = j)) as [->|].
  - assert (Hm : moved s (alter_slot s j f) (fun k => if decide (k = j) then -1 else 0)) by (apply moved_alter; rewrite ?Hf; try done; cbn; lia).
    destruct Hm as [? ? Hrf ? ?]. split; try done. intros k Hk. rewrite Hrf by done. unfold one. by case_decide.
  - done.
Qed.

(** ** Getting an inode *)

(** Pages that were allocated before have not become inode objects. *)
Definition old_privates s s' : Prop :=
  forall j, used_slot s' j -> km_live (mm s) (private (geti s' j)) -> used_slot s j /\ private (geti s j) = private (geti s' j).

(** [xv6fs_geti], and the [op] that its callers then set, of an inode that is in the table. *)
Lemma geti_cached s h num i f s1 :
  tree_ok s h -> in_table s i -> ref (geti s i) < 2 ^ 31 - 1 -> is_at ROOTDEV num (geti s i) ->
  s1 = set_itable (alter f (Z.to_nat i)) s -> geti s1 i = set_ref (ref (geti s i) + 1) (geti s i) ->
  tree_ok (alter_slot s1 i (set_i_op true)) h /\ moved s (alter_slot s1 i (set_i_op true)) (one i) /\
  old_privates s (alter_slot s1 i (set_i_op true)).
Proof using Type.
  intros Ht Hi Hmax Hat -> Hg. pose proof Hat as [Hlv _]. unfold live in Hlv. pose proof (to_slot _ _ Ht i (conj Hi Hlv)) as Hsl.
  fold (alter_slot s i f) in *. rewrite geti_alter_slot, decide_True in Hg by done.
  assert (E : alter_slot (alter_slot s i f) i (set_i_op true) = alter_slot s i (fun x => set_i_op true (f x))).
  { unfold alter_slot. fsys_ext. by rewrite list_alter_twice. }
  rewrite E.
  assert (Hf : set_i_op true (f (geti s i)) = set_ref (ref (geti s i) + 1) (geti s i)).
  { rewrite Hg. pose proof (sl_op _ _ Hsl) as Hop. destruct (geti s i). simpl in *. by subst. }
  split_and!.
  - apply (tree_alter s h); rewrite ?Hf; try done; [cbn; lia|]. intros k Hk x. pose proof (to_lock _ _ Ht k Hk) as Hlk.
    unfold x. by destruct (decide (k = i)) as [->|].
  - apply moved_alter; rewrite ?Hf; done.
  - intros k [Hk Hl] _. rewrite in_table_alter in Hk. rewrite geti_alter_slot in Hl |- * by done. unfold used_slot.
    destruct (decide (k = i)) as [->|]; [|done]. by rewrite Hf.
Qed.

Lemma dinode_loaded di dv p i : dinode_of (set_i_op true (loaded di dv p i)) (loaded_xi di dv) = di.
Proof using Type. by destruct di. Qed.

(** The same of an inode that is read from the disk. *)
Lemma geti_fresh s h num i f s1 :
  tree_ok s h -> in_table s i -> allocated s num -> km_avail (mm s) 1 -> ref (geti s i) = 0 ->
  s1 = set_itable (alter f (Z.to_nat i)) s -> itable_ok (itable s1) ->
  geti s1 i = set_private 0 (set_ref 1 (set_inum num (set_dev ROOTDEV (geti s i)))) ->
  exists s2, load_inode i ROOTDEV num s1 = Ok (tt, s2) /\ tree_ok (alter_slot s2 i (set_i_op true)) h /\
    moved s (alter_slot s2 i (set_i_op true)) (one i) /\ inum (geti s2 i) = num /\
    (forall n, km_avail (mm s) (S n) -> km_avail (mm s2) n) /\ old_privates s (alter_slot s2 i (set_i_op true)).
Proof using Type.
  intros Ht Hi Hal Hav Hr -> Htb Hg. fold (alter_slot s i f) in *. set (s1 := alter_slot s i f) in *.
  assert (Hin : in_table s1 i) by by apply in_table_alter.
  destruct (load_inode_ok s1 i num) as (p & s2 & He & Hok2 & Hm2 & Hnl & Hb & Hp0 & b & m & Es & Hlive & Hav2).
  { apply fs_ok_itable, Ht. } { apply Ht. } { done. } { done. } { apply Hal. }
  change (disk_inode s1 num) with (disk_inode s num) in *. set (di := disk_inode s num) in *.
  set (new := set_i_op true (loaded di ROOTDEV p (geti s1 i))). set (s3 := alter_slot s2 i (set_i_op true)).
  assert (Es3 : s3 = set_bc b (set_mm m (set_heap (insert p (HInode (loaded_xi di ROOTDEV))) (alter_slot s i (fun _ => new))))).
  { unfold s3. rewrite Es. unfold s1, alter_slot. fsys_ext. rewrite !list_alter_twice. apply list_alter_ext_at. unfold compose, new. f_equal. f_equal.
    fold (geti s i). unfold s1. rewrite geti_alter_slot by done. by rewrite decide_True. }
  assert (Hg3 : forall k, in_table s k -> geti s3 k = if decide (k = i) then new else geti s k).
  { intros k Hk. rewrite Es3. change (geti (alter_slot s i (fun _ => new)) k = if decide (k = i) then new else geti s k). by apply geti_alter_slot. }
  assert (Hit : forall k, in_table s3 k <-> in_table s k) by (intros k; rewrite Es3; apply (in_table_alter s i (fun _ => new))).
  assert (Hnew : ref new = 1 /\ inum new = num /\ dev new = ROOTDEV) by (unfold new; rewrite Hg; done).
  destruct Hnew as (Hnr & Hnn & Hnd).
  assert (Hsame : disk_same s s3) by (apply disk_same_blk; [by rewrite Es3|exact Hb]).
  assert (Htb3 : itable_ok (itable s3)).
  { assert (Ei : itable s3 = alter (fun _ => new) (Z.to_nat i) (itable s1)).
    { rewrite Es3. unfold s1, alter_slot. simpl. rewrite list_alter_twice. by apply list_alter_ext_at. }
    rewrite Ei. eapply itable_ok_alter; [exact Htb|by apply table_slot|lia|].
    intros _ k' ip' Hk' Hne Hl' Hd Hn. apply Hne. apply (proj2 Htb k' (Z.to_nat i) ip' (geti s1 i)); try done; [by apply table_slot|..];
      rewrite Hg; simpl; congruence || (unfold live; simpl; lia). }
  exists s2. split; [exact He|]. fold s3. split; [|split; [split|]].
  - apply (tree_step s h _ _ (Some i) Ht Hsame); try done.
    + by apply fs_ok_itable.
    + intros k [Hk Hl] Hne. rewrite Hit in Hk. rewrite Hg3 in Hl by done. unfold kept. rewrite Hg3 by done.
      assert (Hki : k <> i) by congruence. rewrite decide_False in Hl by done. rewrite decide_False by done. pose proof (sl_live _ _ (to_slot _ _ Ht k (conj Hk Hl))) as Hlk.
      split_and!; try done; rewrite Es3; simpl; [|apply Hlive; by right]. apply lookup_insert_ne. intros E. apply Hnl. by rewrite E.
    + intros k [= <-]. rewrite Hg3, decide_True by done. split; [|exact Hnl].
      split; try done; rewrite ?Hnn; [by apply (same_allocated s)|rewrite Es3; apply Hlive; by left|].
      exists (loaded_xi di ROOTDEV). split; [rewrite Es3; apply lookup_insert_eq|]. split; [done|].
      rewrite (proj2 Hsame) by apply Hal. fold di. apply dinode_loaded.
    + intros k Hk. rewrite Hit in Hk. rewrite Hg3 by done. rewrite Es3. simpl. pose proof (to_lock _ _ Ht k Hk) as Hlk.
      destruct (decide (k = i)) as [->|]; [|done]. unfold new. rewrite Hg. done.
  - exact Hsame.
  - rewrite Es3. unfold alter_slot, zlen. simpl. by rewrite length_alter.
  - intros k Hk. rewrite Hg3 by done. unfold one. destruct (decide (k = i)) as [->|]; lia.
  - intros k [Hk Hl] _. rewrite Hg3 by done. destruct (decide (k = i)) as [->|]; [unfold live in Hl; lia|done].
  - by rewrite Es3.
  - assert (Hg2 : inum (geti s2 i) = num).
    { rewrite Es. change (inum (geti (alter_slot s1 i (loaded di ROOTDEV p)) i) = num). rewrite geti_alter_slot, decide_True by done. by rewrite Hg. }
    split; [done|]. split; [by rewrite Es|]. fold s3. intros k [Hk Hl] Hq. rewrite Hit in Hk. rewrite Hg3 in Hl, Hq |- * by done.
    destruct (decide (k = i)) as [->|]; [by destruct (Hnl Hq)|done].
Qed.

Definition refs_ok s : Prop := forall j, in_table s j -> ref (geti s j) < 2 ^ 31 - 1.
Definition free_slot s : Prop := exists j, in_table s j /\ ref (geti s j) = 0.

Lemma geti_tree s h num dp :
  tree_ok s h -> used_slot s dp -> allocated s num -> km_avail (mm s) 1 -> refs_ok s -> free_slot s ->
  exists i s1, xv6fs_geti ROOTDEV num true s = Ok (i, s1) /\ in_table s i /\ i_op (geti s1 dp) = true /\ inum (geti s1 i) = num /\
    tree_ok (alter_slot s1 i (set_i_op true)) h /\ moved s (alter_slot s1 i (set_i_op true)) (one i) /\
    (forall n, km_avail (mm s) (S n) -> km_avail (mm s1) n) /\ old_privates s (alter_slot s1 i (set_i_op true)).
Proof using Type.
  intros Ht Hdp Hal Hav Hrf (j0 & Hj0 & Hz). pose proof (to_slot _ _ Ht dp Hdp) as Hsl. destruct Hdp as [Hdpi Hdpl]. unfold live in Hdpl.
  destruct (iget_ok s ROOTDEV num (to_table _ _ Ht)) as (i & f & s1 & He & Hi & Es & Htb & Hat & Hot & Hcase).
  { apply Forall_lookup. intros j ip Hj. destruct (geti_lookup _ _ _ Hj) as [<- Hr]. by apply Hrf. }
  { apply Exists_exists. exists (geti s j0). split; [|by left]. by apply list_elem_of_lookup_2 with (Z.to_nat j0), table_slot. }
  unfold xv6fs_geti. kstep He. ksimpl. destruct Hcase as [[Hat0 Hg]|(Hno & Hr0 & Hg)].
  - assert (Hp : private (geti s1 i) <> 0) by (rewrite Hg; apply (to_slot _ _ Ht i); by split; [|apply Hat0]).
    rewrite (proj2 (Z.eqb_neq _ _) Hp). destruct (geti_cached s h num i f s1) as (Ht' & Hm' & Ho'); try done; [by apply Hrf|].
    exists i, s1. split_and!; try done.
    + destruct (decide (dp = i)) as [->|Hne]; [rewrite Hg; apply Hsl|rewrite Hot by (done || apply Hdpi); apply Hsl].
    + apply Hat.
    + intros n Hn. rewrite Es. by apply km_avail_le.
  - assert (Hne : dp <> i) by (intros ->; lia).
    assert (Hp : private (geti s1 i) = 0) by by rewrite Hg. rewrite Hp. cbn [Z.eqb].
    destruct (geti_fresh s h num i f s1) as (s2 & He2 & Ht' & Hm' & Hn' & Hav' & Ho'); try done. kstep He2. exists i, s2. split_and!; try done.
    assert (Hg2 : geti (alter_slot s2 i (set_i_op true)) dp = geti s2 dp).
    { assert (Hin2 : in_table s2 i /\ in_table s2 dp).
      { pose proof (mv_len _ _ _ Hm') as Hl. unfold alter_slot, in_table, zlen in *. simpl in Hl. rewrite length_alter in Hl. by rewrite Hl. }
      rewrite geti_alter_slot by apply Hin2. by rewrite decide_False. }
    rewrite <- Hg2. apply (to_slot _ _ Ht'). split; [unfold in_table; rewrite (mv_len _ _ _ Hm'); apply Hdpi|].
    unfold live. rewrite (mv_ref _ _ _ Hm') by done. unfold one. rewrite decide_False by done. lia.
Qed.

(** ** Looking up one name *)

(** A change of the buffers, of memory that is not an inode's, and of other objects. *)
Lemma tree_frame s h b m g :
  tree_ok s h -> let s' := set_bc b (set_mm m (set_heap g s)) in
  fs_ok s' [] -> (forall n, blk s' n = blk s n) -> km_inv m -> (forall q, km_live (mm s) q -> km_live m q) ->
  (forall j, used_slot s j -> g (heap s) !! private (geti s j) = heap s !! private (geti s j)) ->
  tree_ok s' h /\ moved s s' none.
Proof using Type.
  intros Ht s' Hok Hb Hm Hl Hg. assert (Hsame : disk_same s s') by by apply disk_same_blk.
  split.
  - apply (tree_step s h _ _ None Ht Hsame); try done; [apply Ht| |apply Ht].
    intros j Hj _. split_and!; try done; [by apply Hg|]. apply Hl. apply (sl_live _ _ (to_slot _ _ Ht j Hj)).
  - split; try done. intros j _. unfold none. by rewrite Z.add_0_r.
Qed.

Lemma fs_ok_frame s h m g : fs_ok s h -> fs_ok (set_bc (bc s) (set_mm m (set_heap g s))) h.
Proof using Type. intros [? ? ?]. by split. Qed.

Lemma moved_none s1 s2 s3 d : moved s1 s2 none -> moved s2 s3 d -> moved s1 s3 d.
Proof using Type.
  intros [D1 L1 R1 I1 C1] [D2 L2 R2 I2 C2]. unfold none in *. unfold used_slot, in_table in *. rewrite L1 in *.
  assert (Hr : forall j, 0 <= j < zlen (itable s1) -> ref (geti s2 j) = ref (geti s1 j)) by (intros; rewrite R1 by done; lia).
  split; try congruence; [by eapply disk_same_trans|..].
  - intros j Hj. rewrite R2, Hr by done. done.
  - intros j [Hj Hl] Hl'. assert (Hl2 : live (geti s2 j)) by (unfold live; by rewrite Hr).
    destruct (I1 j (conj Hj Hl) Hl2) as [-> ->] || destruct (I1 j (conj Hj Hl) Hl2) as [<- <-]. by apply I2.
Qed.
Lemma moved_then_none s1 s2 s3 d : moved s1 s2 d -> moved s2 s3 none -> moved s1 s3 d.
Proof using Type.
  intros [D1 L1 R1 I1 C1] [D2 L2 R2 I2 C2]. unfold none in *. unfold used_slot, in_table in *. rewrite L1 in *.
  assert (Hr : forall j, 0 <= j < zlen (itable s1) -> ref (geti s3 j) = ref (geti s2 j)) by (intros; rewrite R2 by done; lia).
  split; try congruence; [by eapply disk_same_trans|..].
  - intros j Hj. rewrite Hr by done. by apply R1.
  - intros j [Hj Hl] Hl'. assert (Hl2 : live (geti s2 j)) by (unfold live in *; by rewrite <- Hr).
    destruct (I1 j (conj Hj Hl) Hl2) as [<- <-]. by apply I2.
Qed.

Lemma moved_in_table s s' d j : moved s s' d -> in_table s' j <-> in_table s j.
Proof using Type. intros Hm. unfold in_table. by rewrite (mv_len _ _ _ Hm). Qed.

Lemma moved_used s s' d j : moved s s' d -> used_slot s j -> 0 <= d j -> used_slot s' j.
Proof using Type.
  intros Hm [Hj Hl] Hd. split; [by rewrite (moved_in_table s s' d)|]. unfold live in *. rewrite (mv_ref _ _ _ Hm) by done. lia.
Qed.

Lemma dir_hit_tree s h num dp name :
  tree_ok s h -> used_slot s dp -> allocated s num -> km_avail (mm s) 2 -> refs_ok s -> free_slot s ->
  exists p i s', dir_hit dp num name s = Ok (p, s') /\ p <> 0 /\ in_table s i /\ inum (geti s' i) = num /\
    heap s' !! p = Some (HDentry (junk_dentry true i dp (copy_name name))) /\
    tree_ok s' h /\ moved s s' (one i) /\ (forall n, km_avail (mm s) (S (S n)) -> km_avail (mm s') n).
Proof using Type.
  intros Ht Hdp Hal Hav Hrf Hfree.
  destruct (km_kalloc_ok _ (to_mm _ _ Ht)) as (p & m1 & Hka & Hm1 & _ & Hp & _ & Hav1). destruct (Hav1 1%nat Hav) as [Hp0 Hav1'].
  destruct (Hp Hp0) as [Hnp Hlive1]. set (s1 := set_bc (bc s) (set_mm m1 (set_heap id s))).
  destruct (tree_frame s h (bc s) m1 id Ht) as [Ht1 Hmv1]; try done; [by apply fs_ok_frame, Ht|intros q Hq; apply Hlive1; by right|].
  fold s1 in Ht1, Hmv1. destruct (geti_tree s1 h num dp) as (i & s2 & He2 & Hi & Hop & Hn & Ht3 & Hmv3 & Hav3 & Hold); try done.
  set (s3 := alter_slot s2 i (set_i_op true)) in *.
  assert (Hin2 : in_table s2 i).
  { pose proof (mv_len _ _ _ Hmv3) as Hl. unfold s3, alter_slot, in_table, zlen in *. simpl in Hl. rewrite length_alter in Hl. by rewrite Hl. }
  assert (Hop3 : i_op (geti s3 dp) = true).
  { pose proof (to_slot _ _ Ht3 dp) as Hs. apply Hs. eapply moved_used; [exact Hmv3|exact Hdp|]. unfold one. by case_decide. }
  set (d := junk_dentry true i dp (copy_name name)).
  destruct (tree_frame s3 h (bc s3) (mm s3) (insert p (HDentry d)) Ht3) as [Ht4 Hmv4].
  { apply fs_ok_frame, Ht3. } { done. } { apply Ht3. } { done. }
  { intros j Hj. apply lookup_insert_ne. intros E. pose proof (Hold j Hj) as Ho. rewrite <- E in Ho.
    destruct Ho as [Hu Hpe]; [apply Hlive1; by left|]. apply Hnp. rewrite <- Hpe. by apply (sl_live _ _ (to_slot _ _ Ht j Hu)). }
  eexists p, i, _. split; [|split; [done|split; [done|split; [|split; [|split; [exact Ht4|split]]]]]].
  - unfold dir_hit. rewrite (bind_ok _ _ s p s1) by (unfold s1, on_mm; rewrite (zoom_ok _ _ _ _ _ _ Hka); by destruct s). ksimpl.
    change (dev (geti s1 dp)) with (dev (geti s dp)). rewrite (sl_dev _ _ (to_slot _ _ Ht dp Hdp)). kstep He2. ksimpl. rewrite Hop.
    unfold updi. ksimpl. change (set_itable (alter (set_i_op true) (Z.to_nat i)) s2) with s3. rewrite (proj2 (Z.eqb_neq _ _) Hp0). ksimpl.
    rewrite Hop3. fold d. unfold modify, mret, K_ret. f_equal.
  - change (inum (geti s3 i) = num). unfold s3. rewrite geti_alter_slot, decide_True by done. exact Hn.
  - apply lookup_insert_eq.
  - eapply moved_then_none; [|exact Hmv4]. by eapply moved_none.
  - intros n Hn'. simpl. apply Hav3. by apply Hav1.
Qed.

Lemma lfind_in name l num : lfind name l = Some num -> exists de, de ∈ l /\ de_inum de = num /\ num <> 0.
Proof using Type.
  induction l as [|d l IH]; simpl; [done|]. destruct (hit name d) eqn:E.
  - intros [= <-]. exists d. split; [apply list_elem_of_here|]. split; [done|]. unfold hit in E. zbool. tauto.
  - intros H. destruct (IH H) as (de & Hin & ?). exists de. split; [by apply list_elem_of_further|done].
Qed.

Lemma dirlookup_tree s h j name :
  tree_ok s h -> used_slot s j -> type (geti s j) = T_DIR -> name_ok name -> km_avail (mm s) 2 -> refs_ok s -> free_slot s ->
  match lfind name (disk_entries s (inum (geti s j))) with
  | None => exists s', xv6fs_dirlookup j name s = Ok (0, s') /\ tree_ok s' h /\ moved s s' none
  | Some num => exists p i s', xv6fs_dirlookup j name s = Ok (p, s') /\ p <> 0 /\ in_table s i /\ inum (geti s' i) = num /\
      heap s' !! p = Some (HDentry (junk_dentry true i j (copy_name name))) /\
      tree_ok s' h /\ moved s s' (one i) /\ (forall n, km_avail (mm s) (S (S n)) -> km_avail (mm s') n)
  end.
Proof using Type.
  intros Ht Hj Hty Hname Hav Hrf Hfree. destruct (slot_file s h j Ht Hj) as (xi & Hf & Hdi & Hdir). destruct (Hdir Hty) as [Hd Hde].
  destruct (dirlookup_ok s j xi name (to_fs _ _ Ht) Hd (to_mm _ _ Ht) Hname) as (s1 & Hrs & Hm1 & He).
  rewrite (dir_find_lfind _ _ _ _ Hd), Hde in He. pose proof Hrs as ((b & m & Es) & Hok1 & Hb1 & Hlv1 & Hav1).
  assert (Em : mm s1 = m) by by rewrite Es.
  destruct (tree_frame s h b m id Ht) as [Ht1 Hmv1]; try (by rewrite Es in *); [intros q Hq; rewrite <- Em; by apply Hlv1|].
  assert (E1 : s1 = set_bc b (set_mm m (set_heap id s))) by by rewrite Es.
  rewrite <- E1 in Ht1, Hmv1. clear E1 Es. destruct (lfind name (disk_entries s (inum (geti s j)))) as [num|] eqn:El; [|by exists s1].
  destruct (lfind_in _ _ _ El) as (de & Hin & En & Hnz). pose proof (to_slot _ _ Ht j Hj) as Hsl.
  assert (Hal : allocated s num).
  { rewrite <- En. apply (do_dir _ _ (to_disk _ _ Ht _ (sl_alloc _ _ Hsl))); [by rewrite <- Hdi|done|by rewrite En]. }
  assert (Hgi : forall k, in_table s k -> ref (geti s1 k) = ref (geti s k)) by (intros k Hk; rewrite (mv_ref _ _ _ Hmv1) by done; unfold none; lia).
  destruct (dir_hit_tree s1 h num j name Ht1) as (p & i & s2 & He2 & Hp & Hi & Hn & Hh & Ht2 & Hmv2 & Hav2).
  - by eapply moved_used.
  - by apply (same_allocated s s1 (mv_disk _ _ _ Hmv1)).
  - by apply Hav1.
  - intros k Hk. rewrite (moved_in_table s s1 none) in Hk by done. rewrite Hgi by done. by apply Hrf.
  - destruct Hfree as (k & Hk & Hz). exists k. split; [by rewrite (moved_in_table s s1 none)|by rewrite Hgi].
  - exists p, i, s2. rewrite He, He2. split_and!; try done.
    + by rewrite <- (moved_in_table s s1 none).
    + by eapply moved_none.
    + intros n Hn'. by apply Hav2, Hav1.
Qed.

(** ** Walking a path *)

Lemma moved_ext s s' d d' : (forall j, d j = d' j) -> moved s s' d -> moved s s' d'.
Proof using Type. intros E [? ? Hr ? ?]. split; try done. intros j Hj. rewrite <- E. by apply Hr. Qed.

Lemma moved_trans s1 s2 s3 d1 d2 :
  (forall j, 0 <= d1 j) -> moved s1 s2 d1 -> moved s2 s3 d2 -> moved s1 s3 (fun j => d1 j + d2 j).
Proof using Type.
  intros Hd [D1 L1 R1 I1 C1] [D2 L2 R2 I2 C2]. unfold used_slot, in_table in *. rewrite L1 in *.
  split; try congruence; [by eapply disk_same_trans|..].
  - intros j Hj. rewrite R2, R1 by done. lia.
  - intros j [Hj Hl] Hl'. assert (Hl2 : live (geti s2 j)) by (unfold live in *; rewrite R1 by done; specialize (Hd j); lia).
    destruct (I1 j (conj Hj Hl) Hl2) as [<- <-]. by apply I2.
Qed.

Lemma one_nonneg i j : 0 <= one i j.
Proof using Type. unfold one. by case_decide. Qed.

Lemma iunlockput_tree s j :
  tree_ok s (Some j) -> used_slot s j -> ref (geti s j) < 2 ^ 31 ->
  exists s', iunlockput (Some j) s = Ok (tt, s') /\ tree_ok s' None /\ moved s s' (fun k => - one j k) /\
    (forall n, km_avail (mm s) n -> km_avail (mm s') n).
Proof using Type.
  intros Ht Hj Hr. destruct (iunlock_tree s j Ht Hj) as (s1 & He1 & Ht1 & Hm1 & Em).
  destruct (iput_tree s1 j Ht1) as (s2 & He2 & Ht2 & Hm2 & Hav2).
  { by eapply moved_used. } { rewrite (mv_ref _ _ _ Hm1) by apply Hj. unfold none. lia. }
  exists s2. split_and!; try done; [unfold iunlockput; by kstep He1|by eapply moved_none|]. intros n. rewrite <- Em. apply Hav2.
Qed.

(** The walk of [namex]: with [parent], to the directory of the last name. *)
Fixpoint disk_namex s (num : Z) (parent : bool) (names : list (list Z)) : option Z :=
  match names with
  | [] => if parent then None else Some num
  | n :: names =>
      if di_type (disk_inode s num) =? T_DIR then
        if parent && match names with [] => true | _ => false end then Some num
        else match lfind n (disk_entries s num) with Some num' => disk_namex s num' parent names | None => None end
      else None
  end.

Section Walk.
Context (s0 : fsys B M) (Ht0 : tree_ok s0 None).
Context (Hrefs : forall j, in_table s0 j -> ref (geti s0 j) < 2 ^ 31 - 3).
Context (j1 j2 : Z) (Hj12 : j1 <> j2) (Hj1 : in_table s0 j1) (Hj2 : in_table s0 j2) (Hz1 : ref (geti s0 j1) = 0) (Hz2 : ref (geti s0 j2) = 0).

(** A reference to [ip] is held, and nothing else has changed since [s0]. *)
Definition at_inode s (ip : Z) : Prop := tree_ok s None /\ in_table s0 ip /\ moved s0 s (one ip).

Lemma at_used s ip : at_inode s ip -> used_slot s ip.
Proof using Ht0.
  intros (Ht & Hi & Hm). split; [by rewrite (moved_in_table s0 s (one ip))|]. unfold live. rewrite (mv_ref _ _ _ Hm) by done.
  pose proof (proj1 (to_table _ _ Ht0) _ _ (table_slot s0 ip Hi)). unfold one. rewrite decide_True by done. lia.
Qed.

Lemma at_free s ip : at_inode s ip -> free_slot s.
Proof using Ht0 Hj12 Hj1 Hj2 Hz1 Hz2.
  intros (Ht & Hi & Hm). assert (Hfree : forall j, in_table s0 j -> ref (geti s0 j) = 0 -> j <> ip -> free_slot s).
  { intros j Hj Hz Hne. exists j. split; [by rewrite (moved_in_table s0 s (one ip))|]. rewrite (mv_ref _ _ _ Hm) by done.
    unfold one. rewrite decide_False by done. lia. }
  destruct (decide (j1 = ip)) as [<-|]; [apply (Hfree j2); congruence || done|by apply (Hfree j1)].
Qed.

Lemma at_disk s ip : at_inode s ip ->
  let num := inum (geti s ip) in type (geti s ip) = di_type (disk_inode s0 num) /\ disk_entries s num = disk_entries s0 num.
Proof using Ht0.
  intros Ha num. pose proof (at_used s ip Ha) as Hu. destruct Ha as (Ht & Hi & Hm). pose proof (mv_disk _ _ _ Hm) as Hs.
  destruct (slot_file s None ip Ht Hu) as (xi & _ & Hdi & _). pose proof (to_slot _ _ Ht ip Hu) as [_ _ [Hn Hty] _ _ _].
  rewrite (same_sb s0 s Hs) in Hn. rewrite (proj2 Hs) in Hty, Hdi by done. fold num in Hn, Hty, Hdi. split; [by rewrite <- Hdi|].
  apply (same_entries s0 s (to_fs _ _ Ht0) Hs); [done|]. by apply (to_disk _ _ Ht0).
Qed.

(** Leaving [ip], whose lock is held, when [nxt] has been looked up. *)
Lemma leave s ip nxt s2 :
  at_inode s ip -> in_table s0 nxt -> tree_ok s2 (Some ip) -> moved s s2 (one nxt) ->
  exists s3, iunlockput (Some ip) s2 = Ok (tt, s3) /\ at_inode s3 nxt /\ inum (geti s3 nxt) = inum (geti s2 nxt) /\
    (forall n, km_avail (mm s2) n -> km_avail (mm s3) n).
Proof using Ht0 Hrefs.
  intros Ha Hn Ht2 Hm2. pose proof (at_used s ip Ha) as Hu. destruct Ha as (Ht & Hi & Hm).
  pose proof (moved_trans _ _ _ _ _ (one_nonneg ip) Hm Hm2) as Hm02.
  assert (Hu2 : used_slot s2 ip) by (eapply moved_used; [exact Hm2|done|apply one_nonneg]).
  destruct (iunlockput_tree s2 ip Ht2 Hu2) as (s3 & He & Ht3 & Hm3 & Hav).
  { rewrite (mv_ref _ _ _ Hm02) by done. specialize (Hrefs ip Hi). unfold one. repeat case_decide; lia. }
  assert (Hm03 : moved s0 s3 (one nxt)).
  { eapply moved_ext; [|eapply moved_trans; [|exact Hm02|exact Hm3]]; intros j; cbn; pose proof (one_nonneg ip j); pose proof (one_nonneg nxt j); lia. }
  exists s3. split_and!; try done. assert (Ha3 : at_inode s3 nxt) by done. pose proof (at_used s3 nxt Ha3) as [_ Hl3].
  apply (mv_inum _ _ _ Hm3); [|done]. split; [by rewrite (moved_in_table s0 s2 _ _ Hm02)|]. unfold live. rewrite (mv_ref _ _ _ Hm02) by done.
  pose proof (proj1 (to_table _ _ Ht0) _ _ (table_slot s0 nxt Hn)). pose proof (one_nonneg ip nxt). unfold one at 2. rewrite decide_True by done. lia.
Qed.

Lemma leave_none s ip s2 :
  at_inode s ip -> tree_ok s2 (Some ip) -> moved s s2 none ->
  exists s3, iunlockput (Some ip) s2 = Ok (tt, s3) /\ tree_ok s3 None /\ moved s0 s3 none.
Proof using Ht0 Hrefs.
  intros Ha Ht2 Hm2. pose proof (at_used s ip Ha) as Hu. destruct Ha as (Ht & Hi & Hm). pose proof (moved_then_none _ _ _ _ Hm Hm2) as Hm02.
  destruct (iunlockput_tree s2 ip Ht2) as (s3 & He & Ht3 & Hm3 & _); [by apply (moved_used s s2 none)| |].
  { rewrite (mv_ref _ _ _ Hm02) by done. specialize (Hrefs ip Hi). unfold one. case_decide; lia. }
  exists s3. split_and!; try done. eapply moved_ext; [|eapply moved_trans; [|exact Hm02|exact Hm3]]; intros j; cbn; unfold none;
    pose proof (one_nonneg ip j); lia.
Qed.

(** What [namex] returns, and the state it leaves. *)
Definition resolved (num : option Z) (r : option Z) s' : Prop :=
  match num with
  | Some num => exists ip', r = Some ip' /\ at_inode s' ip' /\ inum (geti s' ip') = num
  | None => r = None /\ tree_ok s' None /\ moved s0 s' none
  end.

Lemma bytes_ok_skip p : bytes_ok p -> bytes_ok (skip_slashes p).
Proof using Type. induction 1; simpl; [constructor|]. case_match; [done|by constructor]. Qed.

Lemma skipelem_bytes path name rest name' :
  bytes_ok path -> bytes_ok name -> skipelem path name = Some (rest, name') -> bytes_ok rest /\ bytes_ok name'.
Proof using Type.
  intros Hp Hn. unfold skipelem. apply bytes_ok_skip in Hp. destruct (skip_slashes path) as [|c q]; [done|].
  pose proof (span_elem_app (c :: q)) as Happ. destruct (span_elem (c :: q)) as [e r]. rewrite Happ in Hp. apply Forall_app in Hp as [He Hr].
  intros [= <- <-]. split; [by apply bytes_ok_skip|]. case_match.
  - apply bytes_ok_splice; [done|]. by apply bytes_ok_sub.
  - apply bytes_ok_zupd; [by apply bytes_ok_splice|]. unfold byte_ok. lia.
Qed.

Lemma cname_take_elem e path rest : Forall (fun c => c <> 0) path -> path_elems path = e :: rest -> cname (take 14 e) = take 14 e.
Proof using Type.
  intros Hnz He. assert (Hin : Forall (fun c => c <> 0) (take 14 e)).
  { assert (Hsp : forall p, Forall (fun c => c <> 0) p -> Forall (Forall (fun c => c <> 0)) (split_slash p)).
    { clear. induction 1 as [|c p Hc Hp IH]; simpl; [by repeat constructor|]. case_match; [by constructor|].
      destruct (split_slash p); [by repeat constructor|]. apply Forall_cons in IH as [? ?]. repeat constructor; done. }
    apply Forall_take. specialize (Hsp path Hnz). rewrite Forall_forall in Hsp. apply Hsp. apply list_elem_of_In.
    assert (Hf : In e (path_elems path)) by (rewrite He; by left). by apply filter_In in Hf as [? _]. }
  rewrite <- (app_nil_r (take 14 e)) at 1. by apply (cname_pad (take 14 e) 0).
Qed.

Lemma rest_nil rest : (forall q, rest <> slash :: q) -> match rest with [] => true | _ => false end =
  match take 14 <$> path_elems rest with [] => true | _ => false end.
Proof using Type.
  destruct rest as [|c q]; intros Hr; [done|]. pose proof (skipelem_none (c :: q) []) as Hn. unfold skipelem in Hn. cbn [skip_slashes] in Hn.
  rewrite (proj2 (Z.eqb_neq c slash)) in Hn by (intros ->; by apply (Hr q)). destruct (path_elems (c :: q)); [|done].
  pose proof (proj2 Hn eq_refl) as Hbad. by destruct (span_elem (c :: q)).
Qed.

(** The locked part of a round that goes on: look the name up and leave the directory. *)
Lemma walk_round s ip s1 name n :
  at_inode s ip -> tree_ok s1 (Some ip) -> moved s s1 none -> mm s1 = mm s -> type (geti s1 ip) = T_DIR -> name_ok name ->
  km_avail (mm s) (S (S n)) ->
  match lfind name (disk_entries s0 (inum (geti s ip))) with
  | None => exists s2 s3, call_op ip (xv6fs_dirlookup ip name) s1 = Ok (0, s2) /\ iunlockput (Some ip) s2 = Ok (tt, s3) /\
      tree_ok s3 None /\ moved s0 s3 none
  | Some num => exists p d nxt s2 s3, call_op ip (xv6fs_dirlookup ip name) s1 = Ok (p, s2) /\ p <> 0 /\
      get_dentry p s2 = Ok (d, s2) /\ d_inode d = Some nxt /\ iunlockput (Some ip) s2 = Ok (tt, s3) /\
      at_inode s3 nxt /\ inum (geti s3 nxt) = num /\ km_avail (mm s3) n
  end.
Proof using Ht0 Hrefs Hj12 Hj1 Hj2 Hz1 Hz2.
  intros Ha Ht1 Hm1 Emm Hty Hname Hav. pose proof (at_used s ip Ha) as Hu. destruct (at_disk s ip Ha) as [_ Hen].
  assert (Hu1 : used_slot s1 ip) by by apply (moved_used s s1 none).
  assert (Hr1 : forall j, in_table s j -> ref (geti s1 j) = ref (geti s j)) by (intros; rewrite (mv_ref _ _ _ Hm1) by done; unfold none; lia).
  pose proof (dirlookup_tree s1 (Some ip) ip name Ht1 Hu1 Hty Hname) as Hl.
  assert (Hnum : inum (geti s1 ip) = inum (geti s ip)) by (by apply (mv_inum _ _ _ Hm1); [|apply Hu1]).
  assert (Hen1 : disk_entries s1 (inum (geti s1 ip)) = disk_entries s0 (inum (geti s ip))).
  { rewrite Hnum, <- Hen. destruct Ha as (Ht & _). pose proof (sl_alloc _ _ (to_slot _ _ Ht ip Hu)) as Hal.
    by apply (same_entries s s1 (to_fs _ _ Ht) (mv_disk _ _ _ Hm1)); [|apply (to_disk _ _ Ht)]. }
  assert (Hrf1 : refs_ok s1).
  { intros j Hj. rewrite (moved_in_table s s1 none) in Hj by done. rewrite Hr1 by done. destruct Ha as (_ & _ & Hm).
    rewrite (moved_in_table s0 s (one ip)) in Hj by done. rewrite (mv_ref _ _ _ Hm) by done. specialize (Hrefs j Hj). unfold one. case_decide; lia. }
  assert (Hfr1 : free_slot s1).
  { destruct (at_free s ip Ha) as (j & Hj & Hz). exists j. split; [by rewrite (moved_in_table s s1 none)|by rewrite Hr1]. }
  assert (Hav2 : km_avail (mm s1) 2) by (rewrite Emm; clear -Hav; induction n; [done|]; by apply IHn, km_avail_le).
  specialize (Hl Hav2 Hrf1 Hfr1). rewrite Hen1 in Hl.
  rewrite call_op_ok by apply (to_slot _ _ Ht1 ip Hu1). destruct (lfind name (disk_entries s0 (inum (geti s ip)))) as [num|].
  - destruct Hl as (p & nxt & s2 & He & Hp & Hi & Hn & Hh & Ht2 & Hm2 & Hav').
    rewrite (moved_in_table s s1 none), (moved_in_table s0 s (one ip)) in Hi by (done || apply Ha).
    destruct (leave s ip nxt s2 Ha Hi Ht2) as (s3 & He3 & Ha3 & Hn3 & Hav3); [by eapply moved_none|].
    exists p, (junk_dentry true nxt ip (copy_name name)), nxt, s2, s3. split_and!; try done.
    + unfold get_dentry. ksimpl. by rewrite Hh.
    + by rewrite Hn3.
    + apply Hav3, Hav'. by rewrite Emm.
  - destruct Hl as (s2 & He & Ht2 & Hm2). destruct (leave_none s ip s2 Ha Ht2) as (s3 & He3 & Ht3 & Hm3); [by eapply moved_none|].
    by exists s2, s3.
Qed.

Lemma iput_at s ip : at_inode s ip -> exists s', iput ip s = Ok (tt, s') /\ tree_ok s' None /\ moved s0 s' none.
Proof using Ht0 Hrefs.
  intros Ha. pose proof (at_used s ip Ha) as Hu. destruct Ha as (Ht & Hi & Hm).
  destruct (iput_tree s ip Ht Hu) as (s' & He & Ht' & Hm' & _).
  { rewrite (mv_ref _ _ _ Hm) by done. specialize (Hrefs ip Hi). unfold one. case_decide; lia. }
  exists s'. split_and!; try done.
  eapply moved_ext; [|eapply moved_trans; [|exact Hm|exact Hm']]; intros j; cbn; unfold none; pose proof (one_nonneg ip j); lia.
Qed.

Lemma namex_loop_ok fuel parent s path name ip :
  at_inode s ip -> (length path < fuel)%nat -> Forall (fun c => c <> 0) path -> bytes_ok path -> name_ok name ->
  km_avail (mm s) (2 * length (path_elems path)) ->
  exists r name' s', namex_loop fuel parent path name ip s = Ok ((r, name'), s') /\
    resolved (disk_namex s0 (inum (geti s ip)) parent (take 14 <$> path_elems path)) r s' /\
    (parent = true -> is_Some r -> Some (cname name') = last (take 14 <$> path_elems path)).
Proof using Ht0 Hrefs Hj12 Hj1 Hj2 Hz1 Hz2.
  revert s path name ip. induction fuel as [|fuel IH]; intros s path name ip Ha Hfuel Hnz Hby Hname Hav; [lia|].
  cbn [namex_loop]. destruct (skipelem path name) as [[rest name1]|] eqn:Esk.
  2:{ apply skipelem_none in Esk. rewrite Esk. cbn [fmap list_fmap disk_namex]. destruct parent; [|exists (Some ip), name, s; split_and!; try done; by exists ip].
      destruct (iput_at s ip Ha) as (s' & He & Ht' & Hm'). kstep He. by exists None, name, s'. }
  destruct (skipelem_some _ _ _ _ Hnz (proj1 Hname) Esk) as (e & He & Hc1 & Hl1 & Hns & Hlen & Hnz').
  destruct (skipelem_bytes _ _ _ _ Hby (proj2 Hname) Esk) as [Hby' Hbn1].
  pose proof (cname_take_elem e path _ Hnz He) as Hce. change (Z.to_nat DIRSIZ) with 14%nat in Hc1.
  rewrite He. cbn [fmap list_fmap disk_namex]. fold (take (A:=Z) 14 <$> path_elems rest). rewrite He in Hav. cbn [length] in Hav.
  destruct (ilock_tree s ip (proj1 Ha) (at_used s ip Ha)) as (s1 & Hlk & Ht1 & Hm1 & Emm). kstep Hlk. ksimpl.
  assert (Hty1 : type (geti s1 ip) = di_type (disk_inode s0 (inum (geti s ip)))).
  { destruct (at_disk s ip Ha) as [<- _]. pose proof (at_used s ip Ha) as Hu. apply (mv_inum _ _ _ Hm1 ip Hu).
    by apply (moved_used s s1 none). }
  rewrite <- Hty1. destruct (type (geti s1 ip) =? T_DIR) eqn:Ety; cbn [negb].
  2:{ destruct (leave_none s ip s1 Ha Ht1 Hm1) as (s2 & He2 & Ht2 & Hm2). kstep He2. by exists None, name1, s2. }
  rewrite (rest_nil rest Hns). destruct (parent && _) eqn:Epar.
  - apply andb_true_iff in Epar as [-> Hnil]. destruct (iunlock_tree s1 ip Ht1) as (s2 & He2 & Ht2 & Hm2 & _); [apply (moved_used s s1 none); try done; by apply at_used|].
    kstep He2. pose proof (moved_none _ _ _ _ Hm1 Hm2) as Hm12. pose proof (at_used s ip Ha) as Hu. destruct Ha as (Ht & Hi & Hm).
    assert (Ha2 : at_inode s2 ip) by (split_and!; try done; by eapply moved_then_none).
    exists (Some ip), name1, s2. split_and!; try done.
    + exists ip. split; [done|]. split; [exact Ha2|]. apply (mv_inum _ _ _ Hm12 ip Hu). apply (at_used s2 ip Ha2).
    + intros _ _. rewrite Hc1. by destruct (take 14 <$> path_elems rest).
  - pose proof (walk_round s ip s1 name1 (2 * length (path_elems rest)) Ha Ht1 Hm1 Emm) as Hrd.
    zbool. specialize (Hrd Ety (conj Hl1 Hbn1)). rewrite (lfind_cname name1 (take 14 e)) in Hrd by by rewrite Hc1.
    assert (Hav' : km_avail (mm s) (S (S (2 * length (path_elems rest))))) by (by replace (S (S (2 * length (path_elems rest)))) with (2 * S (length (path_elems rest)))%nat by lia).
    specialize (Hrd Hav'). destruct (lfind (take 14 e) (disk_entries s0 (inum (geti s ip)))) as [num|].
    + destruct Hrd as (p & d & nxt & s2 & s3 & He2 & Hp & Hgd & Hdi & He3 & Ha3 & Hn3 & Hav3). kstep He2. rewrite (proj2 (Z.eqb_neq _ _) Hp).
      rewrite (bind_ok _ _ s2 (Some nxt) s2) by (kstep Hgd; by rewrite Hdi). kstep He3.
      destruct (IH s3 rest name1 nxt Ha3 ltac:(lia) Hnz' Hby' (conj Hl1 Hbn1) Hav3) as (r & name' & s' & Her & Hres & Hlast).
      exists r, name', s'. split_and!; try done; [by rewrite Hn3 in Hres|]. intros Hpt Hr. rewrite (Hlast Hpt Hr).
      rewrite Hpt in Epar. destruct (path_elems rest); [by destruct Epar|reflexivity].
    + destruct Hrd as (s2 & s3 & He2 & He3 & Ht3 & Hm3). kstep He2. cbn [Z.eqb]. ksimpl. kstep He3. by exists None, name1, s3.
Qed.
End Walk.

Lemma disk_namex_walk s num names : disk_namex s num false names = disk_walk s num names.
Proof using Type.
  revert num. induction names as [|n names IH]; intros num; [done|]. cbn [disk_namex disk_walk andb].
  destruct (_ =? _); [|done]. by destruct (lfind _ _).
Qed.

Definition parent_walk s (num : Z) (names : list (list Z)) : option Z :=
  match names with
  | [] => None
  | _ => match disk_walk s num (removelast names) with
         | Some n => if di_type (disk_inode s n) =? T_DIR then Some n else None
         | None => None
         end
  end.
Lemma disk_namex_parent s num names : disk_namex s num true names = parent_walk s num names.
Proof using Type.
  revert num. induction names as [|n names IH]; intros num; [done|]. cbn [disk_namex andb]. destruct names as [|n' names]; [done|].
  cbn [parent_walk removelast disk_walk] in *. destruct (di_type (disk_inode s num) =? T_DIR) eqn:E; [|done].
  destruct (lfind n (disk_entries s num)) as [num'|]; [apply IH|done].
Qed.

(** ** The theorems

    A machine with the root directory mounted and a current directory, with two free
    entries in the inode table and memory for the walk. *)
Section Namei.
Context (s : fsys B M) (root dir : Z) (path : list Z).
Context (Ht : tree_ok s None) (Hrefs : forall j, in_table s j -> ref (geti s j) < 2 ^ 31 - 3).
Context (Hroot : used_slot s root /\ inum (geti s root) = ROOTINO).
Context (Hcwd : cwd s = Some dir /\ used_slot s dir).
Context (Hfree : exists j1 j2, j1 <> j2 /\ in_table s j1 /\ in_table s j2 /\ ref (geti s j1) = 0 /\ ref (geti s j2) = 0).
Context (Hpath : Forall (fun c => 0 < c < 256) path) (Hmem : km_avail (mm s) (2 * length (path_elems path))).

Definition absolute : bool := match path with c :: _ => c =? slash | [] => false end.
Definition start_inum : Z := if absolute then ROOTINO else inum (geti s dir).

Lemma start_at i f :
  used_slot s i -> geti (alter_slot s i f) i = set_ref (ref (geti s i) + 1) (geti s i) -> at_inode s (alter_slot s i f) i.
Proof using Ht.
  intros [Hi Hl] Hg. rewrite geti_alter_slot, decide_True in Hg by done. unfold live in Hl. split; [|split; [done|]].
  - apply (tree_alter s None); rewrite ?Hg; try done; [cbn; lia|]. intros k Hk x. pose proof (to_lock _ _ Ht k Hk) as Hlk.
    rewrite decide_False in Hlk |- * by done. unfold x. by destruct (decide (k = i)) as [->|].
  - apply moved_alter; rewrite ?Hg; done.
Qed.

Lemma namex_start : exists ip s1,
  match path with
  | c :: _ => if c =? slash then iget ROOTDEV ROOTINO else s ← get; match cwd s with Some ip => idup ip | None => fault "cwd" end
  | [] => s ← get; match cwd s with Some ip => idup ip | None => fault "cwd" end
  end s = Ok (ip, s1) /\ at_inode s s1 ip /\ inum (geti s1 ip) = start_inum /\ mm s1 = mm s.
Proof using Ht Hrefs Hroot Hcwd.
  destruct Hcwd as [Hc Hdir]. assert (Hdup : exists ip s1, (s ← get; match cwd s with Some ip => idup ip | None => fault "cwd" end) s = Ok (ip, s1) /\
    at_inode s s1 ip /\ inum (geti s1 ip) = inum (geti s dir) /\ mm s1 = mm s).
  { set (f := fun i => set_ref (int (ref i + 1)) i). assert (Hg : geti (alter_slot s dir f) dir = set_ref (ref (geti s dir) + 1) (geti s dir)).
    { rewrite geti_alter_slot, decide_True by (done || apply Hdir). unfold f. pose proof (Hrefs dir (proj1 Hdir)). destruct Hdir as [_ Hl]. unfold live in Hl.
      by rewrite int_small by lia. }
    exists dir, (alter_slot s dir f). split_and!; try done; [ksimpl; by rewrite Hc|by apply start_at..|by rewrite Hg]. }
  assert (Hget : exists ip s1, iget ROOTDEV ROOTINO s = Ok (ip, s1) /\ at_inode s s1 ip /\ inum (geti s1 ip) = ROOTINO /\ mm s1 = mm s).
  { destruct Hroot as [Hr Hrn]. pose proof (to_slot _ _ Ht root Hr) as Hsl.
    assert (Hat : is_at ROOTDEV ROOTINO (geti s root)) by (split_and!; [apply Hr|apply Hsl|done]).
    destruct (iget_ok s ROOTDEV ROOTINO (to_table _ _ Ht)) as (i & f & s1 & He & Hi & -> & _ & Hat1 & _ & Hcase).
    { apply Forall_lookup. intros j ip Hj. destruct (geti_lookup _ _ _ Hj) as [<- Hin]. specialize (Hrefs _ Hin). lia. }
    { apply Exists_exists. exists (geti s root). split; [|by right]. by apply list_elem_of_lookup_2 with (Z.to_nat root), table_slot, Hr. }
    destruct Hcase as [[Hat0 Hg]|(Hno & _)]; [|by destruct (Hno (Z.to_nat root) (geti s root)); [apply table_slot, Hr|]].
    exists i, (alter_slot s i f). split_and!; try done; [apply start_at; [split; [done|apply Hat0]|done]..|apply Hat1]. }
  clear Hpath Hmem. unfold start_inum, absolute. destruct path as [|c q]; [done|]. by destruct (c =? slash).
Qed.

Lemma namex_ok parent name : name_ok name ->
  exists r name' s', namex path parent name s = Ok ((r, name'), s') /\
    resolved s (disk_namex s start_inum parent (take 14 <$> path_elems path)) r s' /\
    (parent = true -> is_Some r -> Some (cname name') = last (take 14 <$> path_elems path)).
Proof using Ht Hrefs Hroot Hcwd Hfree Hpath Hmem.
  intros Hname. destruct Hfree as (j1 & j2 & Hne & Hj1 & Hj2 & Hz1 & Hz2). destruct namex_start as (ip & s1 & He & Ha & Hn & Em).
  unfold namex. kstep He. rewrite <- Hn. apply (namex_loop_ok s Ht Hrefs j1 j2); try done; [lia| | |by rewrite Em].
  - eapply Forall_impl; [exact Hpath|]. cbn. lia.
  - eapply Forall_impl; [exact Hpath|]. unfold byte_ok. cbn. lia.
Qed.

(** C2: [namei] resolves a path as the directory tree on the disk reads: element by element from the root
    or the current directory, each element cut to [DIRSIZ] bytes, failing exactly when an element
    is missing or its directory is not one.  It returns the inode with one more
    reference, releases every directory on the way, and the tree and the
    other references are as before. *)
Theorem namei_resolves :
  exists r s', namei path s = Ok (r, s') /\ tree_ok s' None /\
    match disk_walk s start_inum (take 14 <$> path_elems path) with
    | Some num => exists ip, r = Some ip /\ inum (geti s' ip) = num /\ moved s s' (one ip)
    | None => r = None /\ moved s s' none
    end.
Proof using Ht Hrefs Hroot Hcwd Hfree Hpath Hmem.
  destruct (namex_ok false (replicate 14 0)) as (r & name' & s' & He & Hr & _).
  { split; [done|]. apply bytes_ok_replicate. unfold byte_ok. lia. }
  rewrite disk_namex_walk in Hr. exists r, s'. split; [unfold namei; by kstep He|]. unfold resolved in Hr.
  destruct (disk_walk _ _ _) as [num|]; [|tauto]. destruct Hr as (ip & -> & (Ht' & Hi & Hm) & Hn). split; [done|]. by exists ip.
Qed.

(** [nameiparent] resolves to the directory that holds the last element of the path and leaves that
    element, cut to [DIRSIZ] bytes, in the name buffer; it fails when the path has no element or a directory on the way
    is missing. *)
Theorem nameiparent_resolves name :
  name_ok name ->
  exists r name' s', nameiparent path name s = Ok ((r, name'), s') /\ tree_ok s' None /\
    match parent_walk s start_inum (take 14 <$> path_elems path) with
    | Some num => exists ip, r = Some ip /\ inum (geti s' ip) = num /\ moved s s' (one ip) /\
        Some (cname name') = last (take 14 <$> path_elems path)
    | None => r = None /\ moved s s' none
    end.
Proof using Ht Hrefs Hroot Hcwd Hfree Hpath Hmem.
  intros Hname. destruct (namex_ok true name Hname) as (r & name' & s' & He & Hr & Hl).
  rewrite disk_namex_parent in Hr. exists r, name', s'. split; [done|]. unfold resolved in Hr.
  destruct (parent_walk _ _ _) as [num|]; [|tauto]. destruct Hr as (ip & -> & (Ht' & Hi & Hm) & Hn). split; [done|].
  exists ip. split_and!; try done. by apply Hl.
Qed.
End Namei.
End Lookup.
