(* ===== verification/Kalloc.v ===== *)
(** * The physical page allocator: [src/kernel/kalloc.c]

    Physical memory is a map from page addresses to the 4096 bytes of the page.
    The free list is the one of the code: [kmem.freelist] is the address of the
    first free page and the first eight bytes of a free page hold the address of
    the next.  The theorems show that the allocator is a stack of pages. *)

From stdpp Require Import base numbers list list_numbers gmap strings.
From Stdlib Require Import ZArith Lia.
From S2P Require Import Prelude.

(** ** riscv.h, memlayout.h *)

Definition PGSIZE : Z := 4096.
Definition KERNBASE : Z := 0x80000000.
Definition PHYSTOP : Z := KERNBASE + 128 * 1024 * 1024.
Definition PGROUNDUP (sz : Z) : Z := Z.land (uint64 (sz + PGSIZE - 1)) (Z.lnot (PGSIZE - 1)).
Definition PGROUNDDOWN (a : Z) : Z := Z.land a (Z.lnot (PGSIZE - 1)).

(** ** Physical memory *)

(** [kend] is the linker's symbol [end], the first address after the kernel. *)
Record mem := mk_mem {
  ram : gmap Z (list Z);
  freelist : Z;
  kend : Z;
}.
Definition set_ram (f : gmap Z (list Z) -> gmap Z (list Z)) (m : mem) : mem := mk_mem (f (ram m)) (freelist m) (kend m).
Definition set_freelist (p : Z) (m : mem) : mem := mk_mem (ram m) p (kend m).

(** The page of an address and the offset in it. *)
Definition pbase (a : Z) : Z := a - a mod PGSIZE.
Definition poff (a : Z) : Z := a mod PGSIZE.

Definition get_page (p : Z) : K mem (list Z) :=
  m ← get;
  match ram m !! p with
  | Some pg => mret pg
  | None => fault "physical address"
  end.
Definition set_page (p : Z) (pg : list Z) : K mem unit := modify (set_ram (insert p pg)).

(** An aligned 64-bit load or store, [memset] of a whole page, [memmove] into a page. *)
Definition ld64 (a : Z) : K mem Z := pg ← get_page (pbase a); mret (load64 pg (poff a)).
Definition st64 (a v : Z) : K mem unit := pg ← get_page (pbase a); set_page (pbase a) (store64 pg (poff a) v).
Definition fill (p c : Z) : K mem unit := _ ← get_page p; set_page p (replicate (Z.to_nat PGSIZE) c).
Definition put_bytes (a : Z) (l : list Z) : K mem unit :=
  pg ← get_page (pbase a); set_page (pbase a) (splice pg (poff a) l).
Definition get_bytes (a n : Z) : K mem (list Z) := pg ← get_page (pbase a); mret (sub pg (poff a) n).

(** ** kalloc.c *)

Definition kfree (pa : Z) : K mem unit :=
  m ← get;
  if negb (pa mod PGSIZE =? 0) || (pa <? kend m) || (PHYSTOP <=? pa) then panic "kfree"
  else
    fill pa 1;;
    m ← get;
    st64 pa (freelist m);;
    modify (set_freelist pa).

Definition kalloc : K mem Z :=
  m ← get;
  let r := freelist m in
  if negb (r =? 0) then
    next ← ld64 r;
    modify (set_freelist next);;
    fill r 5;;
    mret r
  else mret r.

Fixpoint freerange_loop (fuel : nat) (p pa_end : Z) : K mem unit :=
  if p + PGSIZE <=? pa_end then
    match fuel with
    | O => out_of_fuel
    | S fuel => kfree p;; freerange_loop fuel (p + PGSIZE) pa_end
    end
  else mret tt.

(** The loop runs once for every page between the two addresses. *)
Definition freerange (pa_start pa_end : Z) : K mem unit :=
  freerange_loop (Z.to_nat ((pa_end - pa_start) / PGSIZE)) (PGROUNDUP pa_start) pa_end.

Definition kinit : K mem unit := m ← get; freerange (kend m) PHYSTOP.

(** ** Page arithmetic *)

Lemma land_lnot_low a n : 0 <= n -> Z.land a (Z.lnot (Z.ones n)) = a - a mod 2 ^ n.
Proof.
  intros Hn. rewrite <- Z.ldiff_land, Z.ldiff_ones_r by done.
  rewrite Z.shiftl_mul_pow2, Z.shiftr_div_pow2 by done. rewrite (Z_div_mod_eq_full a (2 ^ n)) at 2. lia.
Qed.
Lemma PGROUNDDOWN_eq a : PGROUNDDOWN a = pbase a.
Proof. exact (land_lnot_low a 12 ltac:(lia)). Qed.
Lemma PGROUNDUP_eq a : 0 <= a <= 2 ^ 64 - PGSIZE -> PGROUNDUP a = pbase (a + PGSIZE - 1).
Proof.
  intros Ha. unfold PGROUNDUP. rewrite uint64_small by (unfold PGSIZE in *; lia).
  exact (land_lnot_low (a + PGSIZE - 1) 12 ltac:(lia)).
Qed.

Definition aligned (a : Z) : Prop := a mod PGSIZE = 0.
Lemma pbase_aligned a : aligned (pbase a).
Proof. unfold aligned, pbase, PGSIZE. rewrite Zminus_mod_idemp_r, Z.sub_diag. done. Qed.
Lemma poff_range a : 0 <= poff a < PGSIZE.
Proof. by apply Z.mod_pos_bound. Qed.
Lemma pbase_poff a : pbase a + poff a = a.
Proof. unfold pbase, poff. lia. Qed.
Lemma pbase_add p o : aligned p -> 0 <= o < PGSIZE -> pbase (p + o) = p /\ poff (p + o) = o.
Proof.
  unfold aligned, pbase, poff, PGSIZE. intros Hp Ho. rewrite <- Zplus_mod_idemp_l, Hp, Z.add_0_l, Z.mod_small by lia. lia.
Qed.
Lemma pbase_id p : aligned p -> pbase p = p /\ poff p = 0.
Proof. intros Hp. rewrite <- (Z.add_0_r p) at 1 3. apply pbase_add; [done|unfold PGSIZE; lia]. Qed.
Lemma aligned_add p : aligned p -> aligned (p + PGSIZE).
Proof. unfold aligned, PGSIZE. intros Hp. rewrite <- Zplus_mod_idemp_l, Hp. done. Qed.
Lemma pbase_le a p : aligned p -> p <= a -> p <= pbase a.
Proof.
  unfold aligned, pbase, PGSIZE. intros Hp Hle.
  pose proof (Z_div_mod_eq_full p 4096). pose proof (Z_div_mod_eq_full a 4096).
  pose proof (Z.div_le_mono p a 4096 ltac:(lia) Hle). lia.
Qed.

(** ** The free list *)

(** The list that starts at [h] in memory [r] is [l]. *)
Fixpoint chain (r : gmap Z (list Z)) (h : Z) (l : list Z) : Prop :=
  match l with
  | [] => h = 0
  | p :: l => h = p /\ p <> 0 /\ exists pg, r !! p = Some pg /\ chain r (load64 pg 0) l
  end.

Lemma chain_fun r h l l' : chain r h l -> chain r h l' -> l = l'.
Proof.
  revert h l'. induction l as [|p l IH]; intros h [|p' l']; simpl; try done.
  - by intros -> (-> & Hne & _).
  - by intros (-> & Hne & _) ->.
  - intros (-> & _ & pg & Hpg & Hc) (-> & _ & pg' & Hpg' & Hc'). rewrite Hpg in Hpg'. simplify_eq. f_equal. by eapply IH.
Qed.

Lemma chain_ext r r' h l : (forall p, p ∈ l -> r' !! p = r !! p) -> chain r h l -> chain r' h l.
Proof.
  revert h. induction l as [|p l IH]; intros h Hr; simpl; [done|].
  intros (-> & Hne & pg & Hpg & Hc). split; [done|]. split; [done|]. exists pg.
  rewrite Hr by apply list_elem_of_here. split; [done|]. apply IH; [|done]. intros q Hq. apply Hr. by apply list_elem_of_further.
Qed.

Definition page_ok (e p : Z) : Prop := aligned p /\ e <= p < PHYSTOP.

Record ram_ok (m : mem) : Prop := {
  ro_kend : 0 < kend m;
  ro_page p pg : ram m !! p = Some pg -> zlen pg = PGSIZE /\ bytes_ok pg;
  ro_dom p : page_ok (kend m) p -> is_Some (ram m !! p);
}.

(** The free pages are those of [l], in this order. *)
Record alloc_ok (m : mem) (l : list Z) : Prop := {
  ao_ram : ram_ok m;
  ao_chain : chain (ram m) (freelist m) l;
  ao_nodup : NoDup l;
  ao_pages : Forall (page_ok (kend m)) l;
}.

Lemma page_ok_ne0 m p : ram_ok m -> page_ok (kend m) p -> p <> 0.
Proof. intros Hm [_ H]. pose proof (ro_kend _ Hm). lia. Qed.
Lemma page_ok_bounds e p : 0 < e -> page_ok e p -> 0 < p < 2 ^ 32.
Proof. intros He [_ H]. unfold PHYSTOP, KERNBASE in H. lia. Qed.

Lemma set_ram_ok m p pg : ram_ok m -> zlen pg = PGSIZE -> bytes_ok pg -> ram_ok (set_ram (insert p pg) m).
Proof.
  intros [H1 H2 H3] Hl Hb. split; simpl; [done|..].
  - intros q pg'. destruct (decide (q = p)) as [->|Hne].
    + rewrite lookup_insert_eq. intros [= <-]. done.
    + rewrite lookup_insert_ne by done. apply H2.
  - intros q Hq. destruct (decide (q = p)) as [->|Hne]; [rewrite lookup_insert_eq|rewrite lookup_insert_ne by done]; eauto.
Qed.

Definition full_page (c : Z) : list Z := replicate (Z.to_nat PGSIZE) c.
Lemma zlen_full_page c : zlen (full_page c) = PGSIZE.
Proof. unfold full_page. by rewrite zlen_replicate. Qed.
Lemma bytes_ok_full_page c : byte_ok c -> bytes_ok (full_page c).
Proof. apply bytes_ok_replicate. Qed.
#[export] Hint Resolve zlen_full_page bytes_ok_full_page : kernel.

Lemma set_page_ok m p pg pg' : ram m !! p = Some pg -> set_page p pg' m = Ok (tt, set_ram (insert p pg') m).
Proof. done. Qed.
Lemma get_page_ok m p pg : ram m !! p = Some pg -> get_page p m = Ok (pg, m).
Proof. intros H. unfold get_page. ksimpl. by rewrite H. Qed.
Lemma fill_ok m p pg c : ram m !! p = Some pg -> fill p c m = Ok (tt, set_ram (insert p (full_page c)) m).
Proof. intros H. unfold fill. by kstep (get_page_ok m p pg H). Qed.

(** What [kfree] and [kalloc] write to the page. *)
Definition junk (next : Z) : list Z := store64 (full_page 1) 0 next.

Lemma zlen_junk v : zlen (junk v) = PGSIZE.
Proof. unfold junk. rewrite zlen_store; rewrite ?zlen_full_page; unfold PGSIZE; simpl; lia. Qed.
Lemma bytes_ok_junk v : bytes_ok (junk v).
Proof. unfold junk. apply bytes_ok_store. apply bytes_ok_full_page. unfold byte_ok. lia. Qed.
Lemma load_junk v : 0 <= v < 2 ^ 64 -> load64 (junk v) 0 = v.
Proof. intros Hv. unfold junk. rewrite load_store_same; [|lia|rewrite zlen_full_page; unfold PGSIZE; simpl; lia]. by apply Z.mod_small. Qed.

Lemma chain_head_range m l : alloc_ok m l -> 0 <= freelist m < 2 ^ 64.
Proof.
  intros [Hr Hc _ Hp]. destruct l as [|p l]; simpl in Hc; [lia|]. destruct Hc as [-> _].
  apply Forall_cons in Hp as [Hp _]. pose proof (page_ok_bounds _ _ (ro_kend _ Hr) Hp). lia.
Qed.

Lemma kfree_ok m l p :
  alloc_ok m l -> page_ok (kend m) p -> p ∉ l ->
  let m' := set_freelist p (set_ram (insert p (junk (freelist m))) m) in
  kfree p m = Ok (tt, m') /\ alloc_ok m' (p :: l).
Proof.
  intros Hok Hp Hl m'. pose proof (ao_ram _ _ Hok) as Hr. pose proof (page_ok_ne0 _ _ Hr Hp) as Hne.
  destruct (ro_dom _ Hr p Hp) as [pg Hpg]. destruct Hp as [Ha Hb]. destruct (pbase_id _ Ha) as [Eb Eo].
  split.
  - unfold kfree. ksimpl. rewrite (proj2 (Z.eqb_eq _ _) Ha), (proj2 (Z.ltb_ge p _)), (proj2 (Z.leb_gt PHYSTOP p)) by lia. cbn [negb orb].
    kstep (fill_ok m p pg 1 Hpg). ksimpl. unfold st64. rewrite Eb, Eo.
    rewrite (bind_ok _ _ _ tt (set_ram (insert p (junk (freelist m))) m)); [done|].
    kstep (get_page_ok (set_ram (insert p (full_page 1)) m) p (full_page 1) (lookup_insert_eq _ _ _)).
    unfold set_page, modify, set_ram. simpl. by rewrite insert_insert_eq.
  - split; simpl.
    + assert (Hr' : ram_ok (set_ram (insert p (junk (freelist m))) m)); [|by destruct Hr'; split].
      apply set_ram_ok; [done|apply zlen_junk|apply bytes_ok_junk].
    + split; [done|]. split; [done|]. eexists. rewrite lookup_insert_eq. split; [done|].
      rewrite load_junk by by eapply chain_head_range. eapply chain_ext; [|apply (ao_chain _ _ Hok)].
      intros q Hq. apply lookup_insert_ne. by intros ->.
    + apply NoDup_cons. split; [done|apply (ao_nodup _ _ Hok)].
    + apply Forall_cons. split; [done|apply (ao_pages _ _ Hok)].
Qed.

Lemma kalloc_ok m l :
  alloc_ok m l ->
  match l with
  | [] => kalloc m = Ok (0, m)
  | p :: l' => exists m', kalloc m = Ok (p, m') /\ alloc_ok m' l' /\ ram m' = <[p := full_page 5]> (ram m) /\ kend m' = kend m
  end.
Proof.
  intros [Hr Hc Hn Hp]. unfold kalloc. ksimpl. destruct l as [|p l]; simpl in Hc.
  - by rewrite Hc.
  - destruct Hc as (Hf & Hne & pg & Hpg & Hc). rewrite Hf, (proj2 (Z.eqb_neq _ _) Hne). cbn [negb].
    apply NoDup_cons in Hn as [Hnl Hn]. apply Forall_cons in Hp as [[Ha Hb] Hp]. destruct (pbase_id _ Ha) as [Eb Eo].
    exists (set_ram (insert p (full_page 5)) (set_freelist (load64 pg 0) m)). split; [|split; [|done]].
    + unfold ld64. rewrite Eb, Eo. rewrite (bind_ok _ _ _ (load64 pg 0) m) by by kstep (get_page_ok m p pg Hpg).
      ksimpl. by kstep (fill_ok (set_freelist (load64 pg 0) m) p pg 5 Hpg).
    + split; simpl; try done.
      * assert (Hr' : ram_ok (set_ram (insert p (full_page 5)) m)); [|by destruct Hr'; split].
        apply set_ram_ok; [done|apply zlen_full_page|]. apply bytes_ok_full_page. unfold byte_ok. lia.
      * eapply chain_ext; [|exact Hc]. intros q Hq. apply lookup_insert_ne. by intros ->.
Qed.

Lemma kfree_bad m p : ~ page_ok (kend m) p -> kfree p m = Panic "kfree".
Proof.
  intros Hp. unfold kfree. ksimpl.
  match goal with |- context [if ?b then _ else _] => destruct b eqn:E end; [done|].
  zbool. exfalso. apply Hp. unfold page_ok, aligned. lia.
Qed.

(** The pages between two addresses, the last one first: the order in which [freerange] leaves them. *)
Fixpoint pages_down (n : nat) (p : Z) : list Z :=
  match n with
  | O => []
  | S n => pages_down n (p + PGSIZE) ++ [p]
  end.

Lemma aligned_mul p : aligned p -> p = PGSIZE * (p / PGSIZE).
Proof. unfold aligned. pose proof (Z_div_mod_eq_full p PGSIZE). lia. Qed.

Lemma elem_pages_down n p q :
  aligned p -> q ∈ pages_down n p <-> aligned q /\ p <= q < p + PGSIZE * Z.of_nat n.
Proof.
  revert p. induction n as [|n IH]; intros p Hp; simpl.
  - rewrite elem_of_nil. unfold PGSIZE. lia.
  - rewrite elem_of_app, IH, list_elem_of_singleton by by apply aligned_add. split.
    + intros [[Hq ?]| ->]; (split; [done|unfold PGSIZE in *; lia]).
    + intros [Hq Hr]. destruct (decide (q = p)); [by right|left]. split; [done|].
      apply aligned_mul in Hp, Hq. unfold PGSIZE in *. lia.
Qed.

Lemma freerange_loop_ok n m l p pe :
  alloc_ok m l -> aligned p -> kend m <= p -> pe <= PHYSTOP -> n = Z.to_nat ((pe - p) / PGSIZE) ->
  (forall q, q ∈ l -> q < p) ->
  forall fuel, (n <= fuel)%nat -> exists m', freerange_loop fuel p pe m = Ok (tt, m') /\ alloc_ok m' (pages_down n p ++ l) /\ kend m' = kend m.
Proof.
  revert m l p. induction n as [|n IH]; intros m l p Hok Ha Hke Hpe Hn Hl fuel Hf.
  - assert (Hlt : pe < p + PGSIZE).
    { unfold PGSIZE in *. pose proof (Z_div_mod_eq_full (pe - p) 4096). pose proof (Z.mod_pos_bound (pe - p) 4096). lia. }
    exists m. split; [|done]. destruct fuel; cbn [freerange_loop]; by rewrite (proj2 (Z.leb_gt _ _) Hlt).
  - assert (Hp : p + PGSIZE <= pe).
    { unfold PGSIZE in *. pose proof (Z_div_mod_eq_full (pe - p) 4096). pose proof (Z.mod_pos_bound (pe - p) 4096). lia. }
    destruct fuel as [|fuel]; [lia|]. cbn [freerange_loop]. rewrite (proj2 (Z.leb_le _ _)) by done.
    destruct (kfree_ok m l p Hok) as [He Hok']; [split; [done|unfold PGSIZE in Hp; lia]|intros Hin; specialize (Hl _ Hin); lia|].
    kstep He. edestruct (IH _ (p :: l) (p + PGSIZE) Hok' (aligned_add _ Ha)) as (m' & He' & Hok'' & Hk); [..|exists m'; split; [exact He'|]].
    + simpl. unfold PGSIZE. lia.
    + done.
    + replace (pe - (p + PGSIZE)) with (pe - p + (-1) * PGSIZE) by lia. rewrite Z.div_add by done. lia.
    + intros q [->|Hq]%elem_of_cons; unfold PGSIZE; [lia|specialize (Hl _ Hq); lia].
    + lia.
    + split; [|done]. cbn [pages_down]. rewrite <- app_assoc. exact Hok''.
Qed.

Lemma kinit_ok (m : mem) :
  ram_ok m -> freelist m = 0 -> kend m <= PHYSTOP ->
  exists m' l, kinit m = Ok (tt, m') /\ alloc_ok m' l /\ kend m' = kend m /\ forall p, p ∈ l <-> page_ok (kend m) p.
Proof.
  intros Hr Hf Hke. pose proof (ro_kend _ Hr) as Hpos.
  assert (Hup : PGROUNDUP (kend m) = pbase (kend m + PGSIZE - 1)) by (apply PGROUNDUP_eq; unfold PHYSTOP, KERNBASE, PGSIZE in *; lia).
  set (p := PGROUNDUP (kend m)) in *. pose proof (pbase_aligned (kend m + PGSIZE - 1)) as Ha. rewrite <- Hup in Ha.
  pose proof (pbase_poff (kend m + PGSIZE - 1)) as Hpo. pose proof (poff_range (kend m + PGSIZE - 1)) as Hpr. rewrite <- Hup in Hpo.
  pose proof (aligned_mul _ Ha) as Hpm.
  assert (Hple : p <= PHYSTOP) by (unfold PHYSTOP, KERNBASE, PGSIZE in *; lia).
  assert (Hn : PGSIZE * Z.of_nat (Z.to_nat ((PHYSTOP - p) / PGSIZE)) = PHYSTOP - p).
  { rewrite Z2Nat.id by (apply Z.div_pos; [lia|done]). symmetry. apply aligned_mul. unfold aligned. by rewrite Zminus_mod, Ha. }
  destruct (freerange_loop_ok (Z.to_nat ((PHYSTOP - p) / PGSIZE)) m [] p PHYSTOP) with (fuel := Z.to_nat ((PHYSTOP - kend m) / PGSIZE)) as (m' & He & Hok & Hk); try done.
  - split; [done|done|constructor|constructor].
  - lia.
  - by intros q ?%elem_of_nil.
  - apply Z2Nat.inj_le; [apply Z.div_pos|apply Z.div_pos|apply Z.div_le_mono]; unfold PGSIZE in *; lia.
  - eexists m', _. split; [exact He|]. split; [exact Hok|]. split; [done|]. intros q. rewrite app_nil_r, elem_pages_down, Hn by done.
    split; intros [Hq Hrg]; (split; [done|]); pose proof (aligned_mul _ Hq) as Eq; unfold PHYSTOP, KERNBASE, PGSIZE in *; lia.
Qed.

(** ** Properties *)

(** [kinit] ends with the free list holding, exactly once each, all the pages that lie
    wholly between the end of the kernel and the end of the memory. *)
Theorem kinit_frees_all (m : mem) :
  ram_ok m -> freelist m = 0 -> kend m <= PHYSTOP ->
  exists m' l, kinit m = Ok (tt, m') /\ alloc_ok m' l /\ kend m' = kend m /\ forall p, p ∈ l <-> page_ok (kend m) p.
Proof. apply kinit_ok. Qed.

(** A machine with [n] pages of memory above the kernel. *)
Definition machine (n : nat) : mem :=
  mk_mem (list_to_map ((fun p => (p, full_page 0)) <$> pages_down n (PHYSTOP - PGSIZE * Z.of_nat n))) 0 (PHYSTOP - PGSIZE * Z.of_nat n).

Lemma machine_page n p : ram (machine n) !! p = if decide (p ∈ pages_down n (PHYSTOP - PGSIZE * Z.of_nat n)) then Some (full_page 0) else None.
Proof.
  unfold machine. cbn [ram]. generalize (pages_down n (PHYSTOP - PGSIZE * Z.of_nat n)). intros L. induction L as [|q L IH].
  - done.
  - rewrite fmap_cons, list_to_map_cons. destruct (decide (p = q)) as [->|Hne].
    + by rewrite lookup_insert_eq, decide_True by apply list_elem_of_here.
    + rewrite lookup_insert_ne, IH by done. destruct (decide (p ∈ L)); [rewrite decide_True by by apply list_elem_of_further|rewrite decide_False by (apply not_elem_of_cons; done)]; done.
Qed.

Lemma machine_aligned n : aligned (PHYSTOP - PGSIZE * Z.of_nat n).
Proof. unfold aligned. by rewrite (Z.mul_comm PGSIZE), Zminus_mod, Z.mod_mul by done. Qed.

Lemma machine_ok n : Z.of_nat n <= 32768 -> ram_ok (machine n).
Proof.
  intros Hn. split.
  - unfold machine, PHYSTOP, KERNBASE, PGSIZE. cbn [kend]. lia.
  - intros p pg. rewrite machine_page. case_decide; [|done]. intros [= <-].
    split; [apply zlen_full_page|]. apply bytes_ok_full_page. unfold byte_ok. lia.
  - intros p [Ha Hr]. rewrite machine_page, decide_True; [done|]. apply elem_pages_down; [apply machine_aligned|].
    split; [done|]. unfold machine in Hr. cbn [kend] in Hr. lia.
Qed.

(** A machine whose allocator has started. *)
Lemma machine_started n : Z.of_nat n <= 32768 ->
  exists m l, kinit (machine n) = Ok (tt, m) /\ alloc_ok m l /\ kend m = kend (machine n) /\ forall p, p ∈ l <-> page_ok (kend m) p.
Proof.
  intros Hn. destruct (kinit_ok (machine n)) as (m & l & He & Hok & Hk & Hl); [by apply machine_ok|done|unfold machine, PGSIZE; cbn [kend]; lia|].
  exists m, l. split_and!; try done. intros p. by rewrite Hk.
Qed.

Lemma kinit_frees_all_witness :
  exists m' l, kinit (machine 3) = Ok (tt, m') /\ alloc_ok m' l /\ kend m' = kend (machine 3) /\ forall p, p ∈ l <-> page_ok (kend (machine 3)) p.
Proof.
  apply (kinit_frees_all (machine 3)); [apply machine_ok; lia|reflexivity|unfold machine, PGSIZE; cbn [kend]; lia].
Defined.

(** The allocator is a stack of pages.  [kalloc] takes the last page freed and touches
    no other, and answers 0 exactly when no page is free; [kfree] of a page that is not
    free pushes it and touches no other; of anything that is not a page it panics. *)
Theorem allocator_is_stack (m : mem) (l : list Z) :
  alloc_ok m l ->
  match l with
  | [] => kalloc m = Ok (0, m)
  | p :: l' => exists m', kalloc m = Ok (p, m') /\ p <> 0 /\ alloc_ok m' l' /\ forall q, q <> p -> ram m' !! q = ram m !! q
  end /\
  (forall p, page_ok (kend m) p -> p ∉ l -> exists m', kfree p m = Ok (tt, m') /\ alloc_ok m' (p :: l) /\
     forall q, q <> p -> ram m' !! q = ram m !! q) /\
  (forall p, ~ page_ok (kend m) p -> kfree p m = Panic "kfree").
Proof.
  intros Hok. split; [|split; [|by apply kfree_bad]].
  - pose proof (kalloc_ok m l Hok) as Hk. destruct l as [|p l]; [done|]. destruct Hk as (m' & He & Hok' & Hr & _).
    exists m'. split; [done|]. split; [|split; [done|]].
    + eapply page_ok_ne0; [apply (ao_ram _ _ Hok)|]. pose proof (ao_pages _ _ Hok) as Hp. by apply Forall_cons in Hp as [? _].
    + intros q Hq. rewrite Hr. by apply lookup_insert_ne.
  - intros p Hp Hl. destruct (kfree_ok m l p Hok Hp Hl) as [He Hok']. eexists. split; [exact He|]. split; [done|].
    intros q Hq. by apply lookup_insert_ne.
Qed.

Lemma alloc_ok_machine n : Z.of_nat n <= 32768 -> alloc_ok (machine n) [].
Proof. intros Hn. split; [by apply machine_ok|done|constructor|constructor]. Qed.

Lemma allocator_is_stack_witness :
  kalloc (machine 3) = Ok (0, machine 3) /\ exists m', kfree (PHYSTOP - PGSIZE) (machine 3) = Ok (tt, m') /\ alloc_ok m' [PHYSTOP - PGSIZE].
Proof.
  destruct (allocator_is_stack (machine 3) [] (alloc_ok_machine 3 ltac:(lia))) as (H1 & H2 & _). split; [exact H1|].
  destruct (H2 (PHYSTOP - PGSIZE)) as (m' & He & Hok & _); [|apply not_elem_of_nil|by exists m'].
  split; [reflexivity|]. unfold machine, PHYSTOP, PGSIZE. cbn [kend]. lia.
Defined.
