(* ===== verification/Vm.v ===== *)
(** * Virtual memory: [src/kernel/vm.c]

    Sv39 page tables as the code builds them: three levels of pages of 512
    64-bit entries in physical memory.  A pointer to an entry is the address
    [walk] returns, 0 when there is none.  Loops take as fuel a bound on the
    pages they can visit. *)

From stdpp Require Import base numbers list list_numbers gmap strings.
From Stdlib Require Import ZArith Lia.
From S2P Require Import Prelude Params Kalloc.

(** ** riscv.h, memlayout.h *)

Definition PTE_V : Z := 1.
Definition PTE_R : Z := 2.
Definition PTE_W : Z := 4.
Definition PTE_X : Z := 8.
Definition PTE_U : Z := 16.
Definition PA2PTE (pa : Z) : Z := uint64 (Z.shiftl (Z.shiftr pa 12) 10).
Definition PTE2PA (pte : Z) : Z := uint64 (Z.shiftl (Z.shiftr pte 10) 12).
Definition PTE_FLAGS (pte : Z) : Z := Z.land pte 0x3FF.
Definition PXMASK : Z := 0x1FF.
Definition PXSHIFT (level : Z) : Z := 12 + 9 * level.
Definition PX (level va : Z) : Z := Z.land (Z.shiftr va (PXSHIFT level)) PXMASK.
Definition MAXVA : Z := 2 ^ (9 + 9 + 9 + 12 - 1).
Definition TRAMPOLINE : Z := MAXVA - PGSIZE.
Definition KSTACK (p : Z) : Z := TRAMPOLINE - (p + 1) * 2 * PGSIZE.
Definition TRAPFRAME : Z := TRAMPOLINE - PGSIZE.
Definition UART0 : Z := 0x10000000.
Definition VIRTIO0 : Z := 0x10001000.
Definition PLIC : Z := 0x0c000000.

(** [*pte & flag] as a C condition. *)
Definition has (v flag : Z) : bool := negb (Z.land v flag =? 0).

(** ** Walking the tables *)

Fixpoint walk_levels (level : nat) (pagetable va : Z) (alloc : bool) : K mem Z :=
  match level with
  | O => mret (pagetable + 8 * PX 0 va)
  | S level' =>
      let pte := pagetable + 8 * PX (Z.of_nat level) va in
      v ← ld64 pte;
      if has v PTE_V then walk_levels level' (PTE2PA v) va alloc
      else if negb alloc then mret 0
      else
        p ← kalloc;
        if p =? 0 then mret 0
        else fill p 0;; st64 pte (Z.lor (PA2PTE p) PTE_V);; walk_levels level' p va alloc
  end.

Definition walk (pagetable va : Z) (alloc : bool) : K mem Z :=
  if MAXVA <=? va then panic "walk" else walk_levels 2 pagetable va alloc.

Definition walkaddr (pagetable va : Z) : K mem Z :=
  if MAXVA <=? va then mret 0
  else
    pte ← walk pagetable va false;
    if pte =? 0 then mret 0
    else
      v ← ld64 pte;
      if negb (has v PTE_V) then mret 0
      else if negb (has v PTE_U) then mret 0
      else mret (PTE2PA v).

(** ** Mapping and unmapping *)

Fixpoint mappages_loop (fuel : nat) (pagetable a last pa perm : Z) : K mem Z :=
  match fuel with
  | O => out_of_fuel
  | S fuel =>
      pte ← walk pagetable a true;
      if pte =? 0 then mret (-1)
      else
        v ← ld64 pte;
        if has v PTE_V then panic "mappages: remap"
        else
          st64 pte (Z.lor (Z.lor (PA2PTE pa) perm) PTE_V);;
          if a =? last then mret 0
          else mappages_loop fuel pagetable (uint64 (a + PGSIZE)) last (uint64 (pa + PGSIZE)) perm
  end.

(** The loop visits the pages from [a] to [last], counted modulo the address space. *)
Definition mappages (pagetable va size pa perm : Z) : K mem Z :=
  if size =? 0 then panic "mappages: size"
  else
    let a := PGROUNDDOWN va in
    let last := PGROUNDDOWN (uint64 (va + size - 1)) in
    mappages_loop (S (Z.to_nat (uint64 (last - a) / PGSIZE))) pagetable a last pa perm.

Definition kvmmap (kpgtbl va pa sz perm : Z) : K mem unit :=
  r ← mappages kpgtbl va sz pa perm; if r =? 0 then mret tt else panic "kvmmap".

Fixpoint uvmunmap_loop (fuel : nat) (pagetable a lim : Z) (do_free : bool) : K mem unit :=
  if a <? lim then
    match fuel with
    | O => out_of_fuel
    | S fuel =>
        pte ← walk pagetable a false;
        if pte =? 0 then panic "uvmunmap: walk"
        else
          v ← ld64 pte;
          if negb (has v PTE_V) then panic "uvmunmap: not mapped"
          else if PTE_FLAGS v =? PTE_V then panic "uvmunmap: not a leaf"
          else
            (if do_free then kfree (PTE2PA v) else mret tt);;
            st64 pte 0;;
            uvmunmap_loop fuel pagetable (uint64 (a + PGSIZE)) lim do_free
    end
  else mret tt.

Definition uvmunmap (pagetable va npages : Z) (do_free : bool) : K mem unit :=
  if negb (va mod PGSIZE =? 0) then panic "uvmunmap: not aligned"
  else uvmunmap_loop (Z.to_nat npages) pagetable va (uint64 (va + npages * PGSIZE)) do_free.

(** ** User address spaces *)

Definition uvmcreate : K mem Z :=
  pagetable ← kalloc;
  if pagetable =? 0 then mret 0 else fill pagetable 0;; mret pagetable.

Definition uvmfirst (pagetable : Z) (src : list Z) : K mem unit :=
  if PGSIZE <=? zlen src then panic "uvmfirst: more than a page"
  else
    mem ← kalloc;
    fill mem 0;;
    _ ← mappages pagetable 0 PGSIZE mem (Z.lor (Z.lor (Z.lor PTE_W PTE_R) PTE_X) PTE_U);
    put_bytes mem src.

Definition uvmdealloc (pagetable oldsz newsz : Z) : K mem Z :=
  if oldsz <=? newsz then mret oldsz
  else
    (if PGROUNDUP newsz <? PGROUNDUP oldsz then
       let npages := int ((PGROUNDUP oldsz - PGROUNDUP newsz) / PGSIZE) in
       uvmunmap pagetable (PGROUNDUP newsz) (uint64 npages) true
     else mret tt);;
    mret newsz.

Fixpoint uvmalloc_loop (fuel : nat) (pagetable a oldsz newsz xperm : Z) : K mem Z :=
  if a <? newsz then
    match fuel with
    | O => out_of_fuel
    | S fuel =>
        mem ← kalloc;
        if mem =? 0 then _ ← uvmdealloc pagetable a oldsz; mret 0
        else
          fill mem 0;;
          r ← mappages pagetable a PGSIZE mem (Z.lor (Z.lor PTE_R PTE_U) xperm);
          if negb (r =? 0) then
            kfree mem;;
            _ ← uvmdealloc pagetable a oldsz;
            mret 0
          else uvmalloc_loop fuel pagetable (uint64 (a + PGSIZE)) oldsz newsz xperm
    end
  else mret newsz.

Definition uvmalloc (pagetable oldsz newsz xperm : Z) : K mem Z :=
  if newsz <? oldsz then mret oldsz
  else
    let oldsz := PGROUNDUP oldsz in
    uvmalloc_loop (Z.to_nat (newsz / PGSIZE + 1)) pagetable oldsz oldsz newsz xperm.

(** [freewalk] recurses through the tables; [depth] bounds the levels, 3 in a Sv39 tree. *)
Fixpoint freewalk_loop (child_walk : Z -> K mem unit) (k : nat) (pagetable i : Z) : K mem unit :=
  match k with
  | O => mret tt
  | S k =>
      pte ← ld64 (pagetable + 8 * i);
      (if has pte PTE_V && (Z.land pte (Z.lor (Z.lor PTE_R PTE_W) PTE_X) =? 0) then
         child_walk (PTE2PA pte);; st64 (pagetable + 8 * i) 0
       else if has pte PTE_V then panic "freewalk: leaf"
       else mret tt);;
      freewalk_loop child_walk k pagetable (i + 1)
  end.
Fixpoint freewalk (depth : nat) (pagetable : Z) : K mem unit :=
  match depth with
  | O => out_of_fuel
  | S depth => freewalk_loop (freewalk depth) 512 pagetable 0;; kfree pagetable
  end.

Definition uvmfree (pagetable sz : Z) : K mem unit :=
  (if 0 <? sz then uvmunmap pagetable 0 (PGROUNDUP sz / PGSIZE) true else mret tt);;
  freewalk 3 pagetable.

Fixpoint uvmcopy_loop (fuel : nat) (old new i sz : Z) : K mem Z :=
  if i <? sz then
    match fuel with
    | O => out_of_fuel
    | S fuel =>
        pte ← walk old i false;
        if pte =? 0 then panic "uvmcopy: pte should exist"
        else
          v ← ld64 pte;
          if negb (has v PTE_V) then panic "uvmcopy: page not present"
          else
            mem ← kalloc;
            if mem =? 0 then uvmunmap new 0 (i / PGSIZE) true;; mret (-1)
            else
              src ← get_bytes (PTE2PA v) PGSIZE;
              put_bytes mem src;;
              r ← mappages new i PGSIZE mem (PTE_FLAGS v);
              if negb (r =? 0) then kfree mem;; uvmunmap new 0 (i / PGSIZE) true;; mret (-1)
              else uvmcopy_loop fuel old new (uint64 (i + PGSIZE)) sz
    end
  else mret 0.
Definition uvmcopy (old new sz : Z) : K mem Z := uvmcopy_loop (Z.to_nat (sz / PGSIZE + 1)) old new 0 sz.

Definition uvmclear (pagetable va : Z) : K mem unit :=
  pte ← walk pagetable va false;
  if pte =? 0 then panic "uvmclear"
  else v ← ld64 pte; st64 pte (Z.land v (Z.lnot PTE_U)).

(** ** Copying between the kernel and user space *)

(** [src] is the kernel's buffer of [len] bytes. *)
Fixpoint copyout_loop (fuel : nat) (pagetable dstva : Z) (src : list Z) : K mem Z :=
  if 0 <? zlen src then
    match fuel with
    | O => out_of_fuel
    | S fuel =>
        let va0 := PGROUNDDOWN dstva in
        pa0 ← walkaddr pagetable va0;
        if pa0 =? 0 then mret (-1)
        else
          let n := PGSIZE - (dstva - va0) in
          let n := if zlen src <? n then zlen src else n in
          put_bytes (pa0 + (dstva - va0)) (sub src 0 n);;
          copyout_loop fuel pagetable (uint64 (va0 + PGSIZE)) (sub src n (zlen src - n))
    end
  else mret 0.
Definition copyout (pagetable dstva : Z) (src : list Z) : K mem Z :=
  copyout_loop (Z.to_nat (zlen src / PGSIZE + 2)) pagetable dstva src.

(** The result and the bytes that reached [dst]. *)
Fixpoint copyin_loop (fuel : nat) (pagetable srcva len : Z) (dst : list Z) : K mem (Z * list Z) :=
  if 0 <? len then
    match fuel with
    | O => out_of_fuel
    | S fuel =>
        let va0 := PGROUNDDOWN srcva in
        pa0 ← walkaddr pagetable va0;
        if pa0 =? 0 then mret (-1, dst)
        else
          let n := PGSIZE - (srcva - va0) in
          let n := if len <? n then len else n in
          bytes ← get_bytes (pa0 + (srcva - va0)) n;
          copyin_loop fuel pagetable (uint64 (va0 + PGSIZE)) (len - n) (dst ++ bytes)
    end
  else mret (0, dst).
Definition copyin (pagetable srcva len : Z) : K mem (Z * list Z) :=
  copyin_loop (Z.to_nat (len / PGSIZE + 2)) pagetable srcva len [].

(** The inner loop of [copyinstr] over the bytes of one page: whether it met the NUL, and what it stored. *)
Fixpoint copy_until_nul (p : list Z) : bool * list Z :=
  match p with
  | [] => (false, [])
  | b :: p => if b =? 0 then (true, [0]) else let '(nul, l) := copy_until_nul p in (nul, b :: l)
  end.

Fixpoint copyinstr_loop (fuel : nat) (pagetable srcva max : Z) (dst : list Z) : K mem (Z * list Z) :=
  if 0 <? max then
    match fuel with
    | O => out_of_fuel
    | S fuel =>
        let va0 := PGROUNDDOWN srcva in
        pa0 ← walkaddr pagetable va0;
        if pa0 =? 0 then mret (-1, dst)
        else
          let n := PGSIZE - (srcva - va0) in
          let n := if max <? n then max else n in
          p ← get_bytes (pa0 + (srcva - va0)) n;
          let '(got_null, l) := copy_until_nul p in
          if got_null then mret (0, dst ++ l)
          else copyinstr_loop fuel pagetable (uint64 (va0 + PGSIZE)) (max - n) (dst ++ l)
    end
  else mret (-1, dst).
Definition copyinstr (pagetable srcva max : Z) : K mem (Z * list Z) :=
  copyinstr_loop (Z.to_nat (max / PGSIZE + 2)) pagetable srcva max [].

(** ** The kernel's page table *)

(** [proc_mapstacks] of [src/kernel/proc.c]: a stack for each of the [NPROC] processes. *)
Fixpoint proc_mapstacks_loop (k : nat) (kpgtbl p : Z) : K mem unit :=
  match k with
  | O => mret tt
  | S k =>
      pa ← kalloc;
      if pa =? 0 then panic "kalloc"
      else kvmmap kpgtbl (KSTACK p) pa PGSIZE (Z.lor PTE_R PTE_W);; proc_mapstacks_loop k kpgtbl (p + 1)
  end.
Definition proc_mapstacks (kpgtbl : Z) : K mem unit := proc_mapstacks_loop (Z.to_nat NPROC) kpgtbl 0.

(** [etext] and [trampoline] are symbols of the linker script. *)
Definition kvmmake (etext trampoline : Z) : K mem Z :=
  kpgtbl ← kalloc;
  fill kpgtbl 0;;
  kvmmap kpgtbl UART0 UART0 PGSIZE (Z.lor PTE_R PTE_W);;
  kvmmap kpgtbl VIRTIO0 VIRTIO0 PGSIZE (Z.lor PTE_R PTE_W);;
  kvmmap kpgtbl PLIC PLIC 0x400000 (Z.lor PTE_R PTE_W);;
  kvmmap kpgtbl KERNBASE KERNBASE (etext - KERNBASE) (Z.lor PTE_R PTE_X);;
  kvmmap kpgtbl etext etext (PHYSTOP - etext) (Z.lor PTE_R PTE_W);;
  kvmmap kpgtbl TRAMPOLINE trampoline PGSIZE (Z.lor PTE_R PTE_X);;
  proc_mapstacks kpgtbl;;
  mret kpgtbl.
