(* ===== verification/VmProof.v ===== *)
(** * Correctness of page tables

    A page table is a tree of physical pages.  [tables] lists its pages and
    [leaf] is the map from virtual addresses to entries it stands for.  [walk]
    with allocation grows the tree and leaves the map alone, a store to the
    entry it finds changes the map at one page, and on these two facts rest the
    theorems about [mappages], [uvmunmap], [uvmalloc] and the copies. *)

From stdpp Require Import base numbers list list_numbers gmap strings.
From Stdlib Require Import ZArith Lia.
From S2P Require Import Prelude Params Kalloc Vm.

(** ** Entries *)

Lemma lor_low k f n : 0 <= n -> 0 <= f < 2 ^ n -> Z.lor (Z.shiftl k n) f = k * 2 ^ n + f.
Proof.
  intros Hn Hf. rewrite Z.shiftl_mul_pow2 by done. pose proof (Z.add_lor_land (k * 2 ^ n) f) as Hs.
  replace (Z.land (k * 2 ^ n) f) with 0 in Hs; [lia|]. symmetry. apply Z.bits_inj'. intros i Hi.
  rewrite Z.land_spec, Z.bits_0. destruct (decide (i < n)).
  - by rewrite Z.mul_pow2_bits_low.
  - destruct (decide (f = 0)) as [->|]; [by rewrite Z.bits_0, andb_false_r|].
    rewrite (Z.bits_above_log2 f i); [apply andb_false_r|lia|]. apply Z.lt_le_trans with n; [|lia]. apply Z.log2_lt_pow2; lia.
Qed.

Definition mk_pte (pa flags : Z) : Z := Z.lor (PA2PTE pa) flags.

Definition pa_ok (pa : Z) : Prop := aligned pa /\ 0 <= pa < 2 ^ 56.

Lemma mk_pte_eq pa f : pa_ok pa -> 0 <= f < 1024 -> mk_pte pa f = pa / 4096 * 1024 + f.
Proof.
  intros [Ha Hp] Hf. unfold mk_pte, PA2PTE. rewrite Z.shiftr_div_pow2 by lia. change (2 ^ 12) with 4096.
  assert (0 <= pa / 4096 < 2 ^ 44) by (split; [apply Z.div_pos; lia|apply Z.div_lt_upper_bound; lia]).
  rewrite uint64_small by (rewrite Z.shiftl_mul_pow2 by lia; lia). by rewrite (lor_low _ _ 10).
Qed.

Lemma mk_pte_range pa f : pa_ok pa -> 0 <= f < 1024 -> 0 <= mk_pte pa f < 2 ^ 64.
Proof.
  intros Hp Hf. rewrite mk_pte_eq by done. destruct Hp as [_ Hp].
  assert (0 <= pa / 4096 < 2 ^ 44) by (split; [apply Z.div_pos; lia|apply Z.div_lt_upper_bound; lia]). lia.
Qed.

Lemma PTE2PA_mk pa f : pa_ok pa -> 0 <= f < 1024 -> PTE2PA (mk_pte pa f) = pa.
Proof.
  intros Hp Hf. rewrite mk_pte_eq by done. destruct Hp as [Ha Hp]. unfold PTE2PA.
  rewrite Z.shiftr_div_pow2, Z.shiftl_mul_pow2 by lia. change (2 ^ 10) with 1024. rewrite Z.div_add_l, (Z.div_small f), Z.add_0_r by lia.
  apply aligned_mul in Ha. unfold PGSIZE in Ha. change (2 ^ 12) with 4096. rewrite uint64_small; lia.
Qed.

Lemma land_mk pa f b : pa_ok pa -> 0 <= f < 1024 -> 0 <= b < 1024 -> Z.land (mk_pte pa f) b = Z.land f b.
Proof.
  intros Hp Hf Hb. rewrite mk_pte_eq by done.
  rewrite <- (Z.mod_small b 1024) by done. change 1024 with (2 ^ 10). rewrite <- Z.land_ones by lia.
  rewrite (Z.land_comm b), !Z.land_assoc. f_equal. rewrite !Z.land_ones by lia.
  rewrite Z.add_comm, Z.mod_add by lia. done.
Qed.

Lemma PTE_FLAGS_mk pa f : pa_ok pa -> 0 <= f < 1024 -> PTE_FLAGS (mk_pte pa f) = f.
Proof.
  intros Hp Hf. unfold PTE_FLAGS. rewrite land_mk by (done || lia). change 0x3FF with (Z.ones 10).
  rewrite Z.land_ones by lia. by apply Z.mod_small.
Qed.
Lemma has_mk pa f b : pa_ok pa -> 0 <= f < 1024 -> 0 <= b < 1024 -> has (mk_pte pa f) b = has f b.
Proof. intros. unfold has. by rewrite land_mk. Qed.
Lemma has_lor_V f : has (Z.lor f PTE_V) PTE_V = true.
Proof. unfold has, PTE_V. rewrite Z.land_lor_distr_l. apply negb_true_iff, Z.eqb_neq. intros [_ H]%Z.lor_eq_0_iff. done. Qed.
Lemma lor_flags_range f g : 0 <= f < 1024 -> 0 <= g < 1024 -> 0 <= Z.lor f g < 1024.
Proof.
  intros Hf Hg. rewrite <- (Z.mod_small f 1024), <- (Z.mod_small g 1024) by done. change 1024 with (2 ^ 10).
  rewrite <- !Z.land_ones, <- Z.land_lor_distr_l, Z.land_ones by lia. by apply Z.mod_pos_bound.
Qed.

(** ** The tree *)

(** Entry [i] of the table page [pt]. *)
Definition pte_at (r : gmap Z (list Z)) (pt i : Z) : Z :=
  match r !! pt with
  | Some pg => load64 pg (8 * i)
  | None => 0
  end.

(** The pages of the tree below [pt], a table of level [n]. *)
Fixpoint tables (r : gmap Z (list Z)) (n : nat) (pt : Z) : list Z :=
  pt :: match n with
        | O => []
        | S n => seqZ 0 512 ≫= fun i => let v := pte_at r pt i in if has v PTE_V then tables r n (PTE2PA v) else []
        end.

Definition subtree (r : gmap Z (list Z)) (n : nat) (pt i : Z) : list Z :=
  let v := pte_at r pt i in if has v PTE_V then tables r n (PTE2PA v) else [].

(** The table of level 0 on the way to [va]. *)
Fixpoint table0 (r : gmap Z (list Z)) (n : nat) (pt va : Z) : option Z :=
  match n with
  | O => Some pt
  | S n' => let v := pte_at r pt (PX (Z.of_nat n) va) in if has v PTE_V then table0 r n' (PTE2PA v) va else None
  end.

Definition valid_pte (v : Z) : option Z := if has v PTE_V then Some v else None.

(** The entry that maps [va]. *)
Definition leaf (r : gmap Z (list Z)) (n : nat) (pt va : Z) : option Z :=
  match table0 r n pt va with
  | Some q => valid_pte (pte_at r q (PX 0 va))
  | None => None
  end.

Lemma leaf_S r n pt va :
  leaf r (S n) pt va =
  let v := pte_at r pt (PX (Z.of_nat (S n)) va) in if has v PTE_V then leaf r n (PTE2PA v) va else None.
Proof. unfold leaf. cbn [table0]. by destruct (has _ PTE_V). Qed.

Lemma tables_S r n pt : tables r (S n) pt = pt :: (seqZ 0 512 ≫= subtree r n pt).
Proof. done. Qed.
Lemma tables_here r n pt : pt ∈ tables r n pt.
Proof. destruct n; apply list_elem_of_here. Qed.

Lemma PX_range k va : 0 <= PX k va < 512.
Proof. unfold PX, PXMASK. change 0x1FF with (Z.ones 9). rewrite Z.land_ones by lia. by apply Z.mod_pos_bound. Qed.

Lemma seqZ_split i : 0 <= i < 512 -> seqZ 0 512 = seqZ 0 i ++ i :: seqZ (i + 1) (511 - i).
Proof.
  intros Hi. replace 512 with (i + (512 - i)) by lia. rewrite seqZ_app by lia. f_equal.
  rewrite Z.add_0_l. rewrite seqZ_cons by lia. repeat f_equal; lia.
Qed.

Definition before (r : gmap Z (list Z)) n pt i := seqZ 0 i ≫= subtree r n pt.
Definition after (r : gmap Z (list Z)) n pt i := seqZ (i + 1) (511 - i) ≫= subtree r n pt.

Lemma tables_split r n pt i :
  0 <= i < 512 -> tables r (S n) pt = pt :: before r n pt i ++ subtree r n pt i ++ after r n pt i.
Proof. intros Hi. rewrite tables_S, (seqZ_split i Hi), bind_app, bind_cons. done. Qed.

Lemma elem_before r n pt i j q : 0 <= j < i -> i < 512 -> q ∈ subtree r n pt j -> q ∈ before r n pt i.
Proof. intros Hj Hi Hq. unfold before. apply list_elem_of_bind. exists j. split; [done|]. apply elem_of_seqZ. lia. Qed.
Lemma elem_after r n pt i j q : i < j < 512 -> q ∈ subtree r n pt j -> q ∈ after r n pt i.
Proof. intros Hj Hq. unfold after. apply list_elem_of_bind. exists j. split; [done|]. apply elem_of_seqZ. lia. Qed.

Lemma elem_tables_S r n pt q : q ∈ tables r (S n) pt <-> q = pt \/ exists i, 0 <= i < 512 /\ q ∈ subtree r n pt i.
Proof.
  rewrite tables_S, elem_of_cons, list_elem_of_bind. setoid_rewrite elem_of_seqZ. split; intros [?|(i & ? & ?)]; auto; right; exists i; split; auto; lia.
Qed.

Lemma list_bind_ext_in {A B} (f g : A -> list B) (l : list A) : (forall x, x ∈ l -> f x = g x) -> l ≫= f = l ≫= g.
Proof.
  induction l as [|x l IH]; intros H; [done|]. rewrite !bind_cons, (H x) by apply list_elem_of_here. f_equal.
  apply IH. intros y Hy. apply H. by apply list_elem_of_further.
Qed.

(** The tree depends on the contents of its pages only. *)
Lemma tables_ext r r' n pt :
  (forall q, q ∈ tables r n pt -> r' !! q = r !! q) ->
  tables r' n pt = tables r n pt /\ (forall va, table0 r' n pt va = table0 r n pt va) /\ (forall va, leaf r' n pt va = leaf r n pt va).
Proof.
  revert pt. induction n as [|n IH]; intros pt Hr.
  - split; [done|]. split; [done|]. intros va. unfold leaf. simpl. unfold pte_at. rewrite Hr by apply tables_here. done.
  - assert (Hp : forall i, pte_at r' pt i = pte_at r pt i) by (intros i; unfold pte_at; rewrite Hr by apply tables_here; done).
    assert (Hsub : forall i, 0 <= i < 512 -> has (pte_at r pt i) PTE_V = true -> forall q, q ∈ tables r n (PTE2PA (pte_at r pt i)) -> r' !! q = r !! q).
    { intros i Hi Hv q Hq. apply Hr. apply elem_tables_S. right. exists i. split; [done|]. unfold subtree. simpl. by rewrite Hv. }
    split; [|split].
    + rewrite !tables_S. f_equal. apply list_bind_ext_in. intros i Hi%elem_of_seqZ. unfold subtree. rewrite Hp. cbv zeta.
      destruct (has _ PTE_V) eqn:E; [|done]. apply IH. apply (Hsub i); [lia|done].
    + intros va. cbn [table0]. rewrite Hp. cbv zeta. destruct (has _ PTE_V) eqn:E; [|done]. apply IH. apply (Hsub _ (PX_range _ _)). done.
    + intros va. rewrite !leaf_S, Hp. cbv zeta. destruct (has _ PTE_V) eqn:E; [|done]. apply IH. apply (Hsub _ (PX_range _ _)). done.
Qed.

(** Two memories that differ below entry [i] of [pt] only. *)
Lemma tables_graft r r' n pt i :
  0 <= i < 512 ->
  (forall j, 0 <= j < 512 -> j <> i -> pte_at r' pt j = pte_at r pt j) ->
  (forall q, q ∈ before r n pt i ++ after r n pt i -> r' !! q = r !! q) ->
  tables r' (S n) pt = pt :: before r n pt i ++ subtree r' n pt i ++ after r n pt i /\
  (forall va, PX (Z.of_nat (S n)) va <> i -> leaf r' (S n) pt va = leaf r (S n) pt va /\ table0 r' (S n) pt va = table0 r (S n) pt va).
Proof.
  intros Hi Hp Hq.
  assert (Hsub : forall j, 0 <= j < 512 -> j <> i -> forall q, q ∈ subtree r n pt j -> r' !! q = r !! q).
  { intros j Hj Hne q Hin. apply Hq, elem_of_app. destruct (decide (j < i)); [left; eapply elem_before|right; eapply elem_after]; eauto; lia. }
  assert (Hst : forall j, 0 <= j < 512 -> j <> i -> subtree r' n pt j = subtree r n pt j).
  { intros j Hj Hne. pose proof (Hsub j Hj Hne) as Hs. unfold subtree in *. rewrite Hp by done. cbv zeta in *.
    destruct (has _ PTE_V); [|done]. by apply tables_ext. }
  split.
  - rewrite (tables_split r' n pt i Hi). f_equal. unfold before, after.
    f_equal; [|f_equal]; apply list_bind_ext_in; intros j Hj%elem_of_seqZ; apply Hst; lia.
  - intros va Hne. rewrite !leaf_S. cbn [table0]. pose proof (PX_range (Z.of_nat (S n)) va) as Hr. rewrite Hp by done. cbv zeta.
    pose proof (Hsub _ Hr Hne) as Hs. unfold subtree in Hs. destruct (has _ PTE_V); [|done]. by split; apply tables_ext.
Qed.

Lemma table0_in r n pt va q : table0 r n pt va = Some q -> q ∈ tables r n pt.
Proof.
  revert pt. induction n as [|n IH]; intros pt; cbn [table0].
  - intros [= ->]. apply tables_here.
  - cbv zeta. destruct (has _ PTE_V) eqn:E; [|done]. intros Hq%IH. apply elem_tables_S. right.
    exists (PX (Z.of_nat (S n)) va). split; [apply PX_range|]. unfold subtree. cbv zeta. by rewrite E.
Qed.

(** Addresses that take the same way through a tree of level [n]. *)
Fixpoint same_path (n : nat) (va va' : Z) : Prop :=
  PX (Z.of_nat n) va = PX (Z.of_nat n) va' /\ match n with O => True | S n => same_path n va va' end.
#[export] Instance same_path_dec n va va' : Decision (same_path n va va').
Proof. induction n; apply _. Defined.

(** A memory where entry [i] of table [pt] holds [v]. *)
Definition set_pte (r : gmap Z (list Z)) (pt i v : Z) : gmap Z (list Z) :=
  match r !! pt with
  | Some pg => <[pt := store64 pg (8 * i) v]> r
  | None => r
  end.

Lemma set_pte_other r pt i v q : q <> pt -> set_pte r pt i v !! q = r !! q.
Proof. intros Hq. unfold set_pte. destruct (r !! pt); [|done]. by apply lookup_insert_ne. Qed.

Lemma pte_at_set r pt i v j pg :
  r !! pt = Some pg -> zlen pg = PGSIZE -> 0 <= i < 512 -> 0 <= j < 512 -> 0 <= v < 2 ^ 64 ->
  pte_at (set_pte r pt i v) pt j = if decide (j = i) then v else pte_at r pt j.
Proof.
  intros Hpg Hl Hi Hj Hv. unfold pte_at, set_pte. rewrite Hpg, lookup_insert_eq. unfold PGSIZE in Hl. case_decide as Hd.
  - subst j. rewrite load_store_same by lia. by apply Z.mod_small.
  - apply load_store_disj; lia.
Qed.

Definition pages_in (r : gmap Z (list Z)) (l : list Z) : Prop := forall p, p ∈ l -> exists pg, r !! p = Some pg /\ zlen pg = PGSIZE.

Lemma subtree_valid r n pt i : has (pte_at r pt i) PTE_V = true -> subtree r n pt i = tables r n (PTE2PA (pte_at r pt i)).
Proof. intros H. unfold subtree. cbv zeta. by rewrite H. Qed.

(** A store to the entry for [va] changes the map at the page of [va] only. *)
Lemma set_leaf r n pt va q v :
  NoDup (tables r n pt) -> pages_in r (tables r n pt) -> table0 r n pt va = Some q -> 0 <= v < 2 ^ 64 ->
  let r' := set_pte r q (PX 0 va) v in
  tables r' n pt = tables r n pt /\ (forall va', table0 r' n pt va' = table0 r n pt va') /\
  forall va', leaf r' n pt va' = if decide (same_path n va va') then valid_pte v else leaf r n pt va'.
Proof.
  revert pt. induction n as [|n IH]; intros pt Hnd Hpg Hq Hv r'.
  - simpl in Hq. injection Hq as <-. split; [done|]. split; [done|]. intros va'.
    destruct (Hpg pt (tables_here _ _ _)) as (pg & Epg & Hl). unfold leaf. simpl table0. cbn [same_path]. unfold r'.
    rewrite (pte_at_set _ _ _ _ _ pg) by (done || apply PX_range). 
    destruct (decide (PX 0 va' = PX 0 va)) as [E|E].
    + rewrite decide_True by (split; [by symmetry|done]). done.
    + rewrite decide_False; [done|]. intros [E' _]. by symmetry in E'.
  - set (i := PX (Z.of_nat (S n)) va). pose proof (PX_range (Z.of_nat (S n)) va) as Hi. fold i in Hi.
    cbn [table0] in Hq. fold i in Hq. cbv zeta in Hq. destruct (has (pte_at r pt i) PTE_V) eqn:Ev; [|done].
    set (c := PTE2PA (pte_at r pt i)) in *.
    pose proof (tables_split r n pt i Hi) as Hts. rewrite (subtree_valid _ _ _ _ Ev) in Hts. fold c in Hts.
    assert (Hin : forall p, p ∈ tables r n c -> p ∈ tables r (S n) pt) by (intros p Hp; rewrite Hts, elem_of_cons, !elem_of_app; tauto).
    rewrite Hts in Hnd. apply NoDup_cons in Hnd as [Hpt (_ & Hd1 & (Hndc & Hd2 & _)%NoDup_app)%NoDup_app].
    pose proof (table0_in _ _ _ _ _ Hq) as Hqc.
    assert (Hne : pt <> q) by (intros ->; apply Hpt; rewrite !elem_of_app; tauto).
    assert (Hr' : forall p, p <> q -> r' !! p = r !! p) by (intros; by apply set_pte_other).
    assert (Hp' : forall j, pte_at r' pt j = pte_at r pt j) by (intros j; unfold pte_at; by rewrite Hr').
    destruct (IH c Hndc) as (IH1 & IH2 & IH3); [intros p Hp; by apply Hpg, Hin|done|done|]. fold r' in IH1, IH2, IH3.
    destruct (tables_graft r r' n pt i Hi) as [G1 G2].
    { intros; apply Hp'. }
    { intros p [Hp|Hp]%elem_of_app; apply Hr'; intros ->; [apply (Hd1 q Hp); rewrite !elem_of_app; tauto|by apply (Hd2 q)]. }
    split; [|split].
    + rewrite G1, Hts. f_equal. f_equal. f_equal. rewrite subtree_valid, Hp' by by rewrite Hp'. exact IH1.
    + intros va'. destruct (decide (PX (Z.of_nat (S n)) va' = i)) as [E|E]; [|by apply G2].
      cbn [table0]. rewrite E, Hp'. cbv zeta. rewrite Ev. apply IH2.
    + intros va'. destruct (decide (PX (Z.of_nat (S n)) va' = i)) as [E|E].
      * rewrite !leaf_S, E, Hp'. cbv zeta. rewrite Ev, IH3. cbn [same_path]. 
        destruct (decide (same_path n va va')); [rewrite decide_True by (split; [by symmetry|done])|rewrite decide_False by tauto]; done.
      * rewrite (proj1 (G2 va' E)). rewrite decide_False; [done|]. cbn [same_path]. intros [E' _]. by symmetry in E'.
Qed.

(** ** [walk] *)

Definition put_pte (pt i v : Z) (m : mem) : mem := set_ram (fun r => set_pte r pt i v) m.

Lemma pte_addr pt i : aligned pt -> 0 <= i < 512 -> pbase (pt + 8 * i) = pt /\ poff (pt + 8 * i) = 8 * i.
Proof. intros Ha Hi. apply pbase_add; [done|]. unfold PGSIZE. lia. Qed.

Lemma ld64_pte m pt i pg : ram m !! pt = Some pg -> aligned pt -> 0 <= i < 512 -> ld64 (pt + 8 * i) m = Ok (pte_at (ram m) pt i, m).
Proof.
  intros Hpg Ha Hi. destruct (pte_addr pt i Ha Hi) as [Eb Eo]. unfold ld64, pte_at. rewrite Eb, Eo, Hpg.
  by kstep (get_page_ok m pt pg Hpg).
Qed.
Lemma st64_pte m pt i v pg : ram m !! pt = Some pg -> aligned pt -> 0 <= i < 512 -> st64 (pt + 8 * i) v m = Ok (tt, put_pte pt i v m).
Proof.
  intros Hpg Ha Hi. destruct (pte_addr pt i Ha Hi) as [Eb Eo]. unfold st64. rewrite Eb, Eo. kstep (get_page_ok m pt pg Hpg).
  unfold set_page, modify, put_pte, set_ram, set_pte. by rewrite Hpg.
Qed.

Lemma page_ok_pa e p : 0 < e -> page_ok e p -> pa_ok p.
Proof. intros He Hp. pose proof (page_ok_bounds _ _ He Hp). split; [apply Hp|lia]. Qed.

Lemma page_ok_in m p : ram_ok m -> page_ok (kend m) p -> exists pg, ram m !! p = Some pg /\ zlen pg = PGSIZE.
Proof. intros Hr Hp. destruct (ro_dom _ Hr p Hp) as [pg Hpg]. exists pg. split; [done|]. by apply (ro_page _ Hr p). Qed.

Lemma ram_ok_put m pt i v : ram_ok m -> 0 <= i < 512 -> ram_ok (put_pte pt i v m).
Proof.
  intros Hr Hi. unfold put_pte, set_ram, set_pte. destruct (ram m !! pt) as [pg|] eqn:E; [|by destruct m].
  destruct (ro_page _ Hr _ _ E) as [Hl Hb]. apply set_ram_ok; [done|rewrite zlen_store; unfold PGSIZE in *; lia|by apply bytes_ok_store].
Qed.

Lemma alloc_ok_ext m m' l :
  alloc_ok m l -> ram_ok m' -> kend m' = kend m -> freelist m' = freelist m -> (forall p, p ∈ l -> ram m' !! p = ram m !! p) -> alloc_ok m' l.
Proof.
  intros [_ Hc Hn Hp] Hr Hk Hf He. split; [done|rewrite Hf; by eapply chain_ext|done|by rewrite Hk].
Qed.

Lemma alloc_ok_put m l pt i v : alloc_ok m l -> pt ∉ l -> 0 <= i < 512 -> alloc_ok (put_pte pt i v m) l.
Proof.
  intros Hok Hpt Hi. eapply alloc_ok_ext; [done|apply ram_ok_put; [apply (ao_ram _ _ Hok)|done]|done|done|].
  intros p Hp. apply set_pte_other. by intros ->.
Qed.

Lemma load_full_page v o : byte_ok v -> 0 <= o -> o + 8 <= PGSIZE -> load64 (full_page v) o = le_decode (replicate 8 v).
Proof.
  intros Hv Ho Hl. unfold load, full_page, sub. f_equal. rewrite drop_replicate, take_replicate. f_equal. unfold PGSIZE in *. lia.
Qed.

Lemma pte_at_zero r p i : r !! p = Some (full_page 0) -> 0 <= i < 512 -> pte_at r p i = 0.
Proof. intros Hp Hi. unfold pte_at. rewrite Hp, load_full_page; [done|unfold byte_ok; lia|lia|unfold PGSIZE; lia]. Qed.

Lemma tables_zero r n p : r !! p = Some (full_page 0) -> tables r n p = [p] /\ forall va, leaf r n p va = None.
Proof.
  intros Hp. destruct n as [|n].
  - split; [done|]. intros va. unfold leaf. simpl table0. cbv iota. by rewrite pte_at_zero by (done || apply PX_range).
  - split.
    + rewrite tables_S. f_equal.
      rewrite (list_bind_ext_in _ (fun _ => [])); [by generalize (seqZ 0 512); intros L; induction L|].
      intros i Hi%elem_of_seqZ. unfold subtree. rewrite pte_at_zero by (done || lia). done.
    + intros va. rewrite leaf_S, pte_at_zero by (done || apply PX_range). done.
Qed.

(** The tree below [pt] has taken the pages [used] from the front of the free list and maps what it mapped. *)
Record grown (m : mem) (l : list Z) (n : nat) (pt : Z) (m' : mem) (used l' : list Z) : Prop := {
  gr_l : l = used ++ l';
  gr_ok : alloc_ok m' l';
  gr_kend : kend m' = kend m;
  gr_tables : tables (ram m') n pt ≡ₚ tables (ram m) n pt ++ used;
  gr_frame p : p ∉ tables (ram m) n pt -> p ∉ used -> ram m' !! p = ram m !! p;
  gr_leaf va : leaf (ram m') n pt va = leaf (ram m) n pt va;
}.

Lemma grown_refl m l n pt : alloc_ok m l -> grown m l n pt m [] l.
Proof. intros Hok. split; try done. by rewrite app_nil_r. Qed.

Lemma grown_sub m l n pt i m' used l' :
  0 <= i < 512 -> l = used ++ l' -> alloc_ok m' l' -> kend m' = kend m ->
  (forall j, 0 <= j < 512 -> j <> i -> pte_at (ram m') pt j = pte_at (ram m) pt j) ->
  (forall q, q <> pt -> q ∉ subtree (ram m) n pt i -> q ∉ used -> ram m' !! q = ram m !! q) ->
  NoDup (tables (ram m) (S n) pt ++ l) ->
  subtree (ram m') n pt i ≡ₚ subtree (ram m) n pt i ++ used ->
  (forall va, PX (Z.of_nat (S n)) va = i -> leaf (ram m') (S n) pt va = leaf (ram m) (S n) pt va) ->
  grown m l (S n) pt m' used l'.
Proof.
  intros Hi Hl Hok Hk Hp Hfr Hnd Hsub Hleaf. pose proof (tables_split (ram m) n pt i Hi) as Hts. rewrite Hts in Hnd.
  apply NoDup_app in Hnd as ([Hpt (_ & Hd1 & (_ & Hd2 & _)%NoDup_app)%NoDup_app]%NoDup_cons & Hdl & _).
  assert (Hu : forall q, q ∈ used -> q ∉ pt :: before (ram m) n pt i ++ subtree (ram m) n pt i ++ after (ram m) n pt i).
  { intros q Hq Hin. apply (Hdl q Hin). rewrite Hl. apply elem_of_app. by left. }
  destruct (tables_graft (ram m) (ram m') n pt i Hi Hp) as [G1 G2].
  { intros q Hq. apply Hfr.
    - intros ->. apply Hpt. rewrite !elem_of_app in *. tauto.
    - intros Hs. apply elem_of_app in Hq as [Hq|Hq]; [apply (Hd1 q Hq)|apply (Hd2 q Hs Hq)]. rewrite !elem_of_app. tauto.
    - intros Hq'. apply (Hu q Hq'). rewrite elem_of_cons, !elem_of_app in *. tauto. }
  split; try done.
  - rewrite G1, Hts, Hsub. simpl. constructor. rewrite <- !app_assoc. do 2 f_equiv. apply Permutation_app_comm.
  - intros p Hp' Hu'. rewrite Hts, elem_of_cons, !elem_of_app in Hp'. apply Hfr; tauto.
  - intros va. destruct (decide (PX (Z.of_nat (S n)) va = i)); [by apply Hleaf|by apply G2].
Qed.

Definition walk_result (r : gmap Z (list Z)) (n : nat) (pt va a : Z) (l' : list Z) : Prop :=
  a = 0 /\ l' = [] \/ a <> 0 /\ exists q, table0 r n pt va = Some q /\ a = q + 8 * PX 0 va.

Lemma walk_alloc_valid m l n pt va m' used l' a i :
  i = PX (Z.of_nat (S n)) va -> has (pte_at (ram m) pt i) PTE_V = true -> NoDup (tables (ram m) (S n) pt ++ l) ->
  grown m l n (PTE2PA (pte_at (ram m) pt i)) m' used l' ->
  walk_result (ram m') n (PTE2PA (pte_at (ram m) pt i)) va a l' ->
  grown m l (S n) pt m' used l' /\ walk_result (ram m') (S n) pt va a l'.
Proof.
  intros -> Hv Hnd G W. set (i := PX (Z.of_nat (S n)) va) in *. pose proof (PX_range (Z.of_nat (S n)) va) as Hi. fold i in Hi.
  pose proof (subtree_valid _ n _ _ Hv) as Hs.
  assert (Hpt : ram m' !! pt = ram m !! pt).
  { apply (gr_frame _ _ _ _ _ _ _ G).
    - rewrite <- Hs. rewrite (tables_split _ n pt i Hi) in Hnd. apply NoDup_app in Hnd as ([H _]%NoDup_cons & _). intros Hin. apply H. rewrite !elem_of_app. tauto.
    - apply NoDup_app in Hnd as (_ & Hd & _). intros Hin. apply (Hd pt (tables_here _ _ _)). rewrite (gr_l _ _ _ _ _ _ _ G). apply elem_of_app. by left. }
  assert (Hp : forall j, pte_at (ram m') pt j = pte_at (ram m) pt j) by (intros j; unfold pte_at; by rewrite Hpt).
  split.
  - apply (grown_sub m l n pt i); try done; try apply G.
    + intros q _ Hq Hu. apply (gr_frame _ _ _ _ _ _ _ G); [by rewrite <- Hs|done].
    + rewrite Hs, subtree_valid, Hp by by rewrite Hp. apply (gr_tables _ _ _ _ _ _ _ G).
    + intros va' Hva. rewrite !leaf_S, Hva, Hp. cbv zeta. rewrite Hv. apply (gr_leaf _ _ _ _ _ _ _ G).
  - destruct W as [W|(Ha & q & Hq & W)]; [by left|right]. split; [done|]. exists q. split; [|done]. cbn [table0]. fold i. rewrite Hp. cbv zeta. by rewrite Hv.
Qed.

(** The memory after the code has hung the fresh page [p] below entry [i] of [pt]. *)
Lemma new_table m p l pt i m1 pgt :
  alloc_ok m (p :: l) -> kalloc m = Ok (p, m1) -> alloc_ok m1 l -> ram m1 = <[p := full_page 5]> (ram m) -> kend m1 = kend m ->
  0 <= i < 512 -> pt <> p -> pt ∉ l -> ram m !! pt = Some pgt -> zlen pgt = PGSIZE ->
  let m2 := set_ram (insert p (full_page 0)) m1 in
  let m3 := put_pte pt i (mk_pte p PTE_V) m2 in
  fill p 0 m1 = Ok (tt, m2) /\ alloc_ok m3 l /\ ram m3 !! p = Some (full_page 0) /\ pte_at (ram m3) pt i = mk_pte p PTE_V /\
  (forall j, 0 <= j < 512 -> j <> i -> pte_at (ram m3) pt j = pte_at (ram m) pt j) /\
  (forall q, q <> pt -> q <> p -> ram m3 !! q = ram m !! q) /\ ram m2 !! pt = Some pgt.
Proof.
  intros Hok He Hok1 Hr1 Hk1 Hi Hpp Hpl Hpg Hlen m2 m3.
  pose proof (ao_nodup _ _ Hok) as [Hpn _]%NoDup_cons. pose proof (ao_pages _ _ Hok) as [Hpok _]%Forall_cons.
  pose proof (page_ok_bounds _ _ (ro_kend _ (ao_ram _ _ Hok)) Hpok) as Hb.
  assert (Hm2 : ram m2 !! pt = Some pgt) by (simpl; rewrite Hr1, !lookup_insert_ne by done; done).
  assert (Hok2 : alloc_ok m2 l).
  { eapply alloc_ok_ext; [exact Hok1| |done|done|].
    - apply set_ram_ok; [apply (ao_ram _ _ Hok1)|apply zlen_full_page|apply bytes_ok_full_page; unfold byte_ok; lia].
    - intros q Hq. apply lookup_insert_ne. by intros ->. }
  assert (Hpte : forall j, 0 <= j < 512 -> pte_at (ram m3) pt j = if decide (j = i) then mk_pte p PTE_V else pte_at (ram m2) pt j).
  { intros j Hj. apply (pte_at_set _ _ _ _ _ pgt); try done. apply mk_pte_range; [split; [apply Hpok|lia]|unfold PTE_V; lia]. }
  split; [|split; [|split; [|split; [|split; [|split]]]]].
  - apply (fill_ok m1 p (full_page 5)). by rewrite Hr1, lookup_insert_eq.
  - by apply alloc_ok_put.
  - unfold m3. simpl. rewrite set_pte_other by done. by rewrite lookup_insert_eq.
  - rewrite Hpte by done. by rewrite decide_True.
  - intros j Hj Hne. rewrite Hpte by done. rewrite decide_False by done. unfold pte_at. by rewrite Hm2, Hpg.
  - intros q Hq Hqp. unfold m3. simpl. rewrite set_pte_other by done. rewrite lookup_insert_ne, Hr1, lookup_insert_ne by done. done.
  - done.
Qed.

Lemma walk_alloc_new m p l n pt va m3 m' used l' a i :
  i = PX (Z.of_nat (S n)) va -> pa_ok p -> has (pte_at (ram m) pt i) PTE_V = false -> NoDup (tables (ram m) (S n) pt ++ p :: l) ->
  kend m3 = kend m -> ram m3 !! p = Some (full_page 0) -> pte_at (ram m3) pt i = mk_pte p PTE_V ->
  (forall j, 0 <= j < 512 -> j <> i -> pte_at (ram m3) pt j = pte_at (ram m) pt j) ->
  (forall q, q <> pt -> q <> p -> ram m3 !! q = ram m !! q) ->
  grown m3 l n p m' used l' -> walk_result (ram m') n p va a l' ->
  grown m (p :: l) (S n) pt m' (p :: used) l' /\ walk_result (ram m') (S n) pt va a l'.
Proof.
  intros -> Hp Hv Hnd Hk3 Hz Hpi Hpj Hfr G W. set (i := PX (Z.of_nat (S n)) va) in *. pose proof (PX_range (Z.of_nat (S n)) va) as Hi. fold i in Hi.
  destruct (tables_zero (ram m3) n p Hz) as [Ht3 Hl3]. pose proof Hnd as (_ & Hd & _)%NoDup_app.
  specialize (Hd pt (tables_here _ _ _)). apply not_elem_of_cons in Hd as [Hpp Hpl].
  assert (Hpt : ram m' !! pt = ram m3 !! pt).
  { apply (gr_frame _ _ _ _ _ _ _ G); [by rewrite Ht3, list_elem_of_singleton|].
    intros Hin. apply Hpl. rewrite (gr_l _ _ _ _ _ _ _ G). apply elem_of_app. by left. }
  assert (Hpe : forall j, pte_at (ram m') pt j = pte_at (ram m3) pt j) by (intros j; unfold pte_at; by rewrite Hpt).
  assert (Hvi : has (pte_at (ram m') pt i) PTE_V = true) by (rewrite Hpe, Hpi; apply has_lor_V).
  assert (Hc : PTE2PA (pte_at (ram m') pt i) = p) by (rewrite Hpe, Hpi; apply PTE2PA_mk; [done|unfold PTE_V; lia]).
  assert (Hs0 : subtree (ram m) n pt i = []) by (unfold subtree; cbv zeta; by rewrite Hv).
  split.
  - apply (grown_sub m (p :: l) n pt i); try done.
    + simpl. by rewrite (gr_l _ _ _ _ _ _ _ G).
    + apply (gr_ok _ _ _ _ _ _ _ G).
    + by rewrite (gr_kend _ _ _ _ _ _ _ G).
    + intros j Hj Hne. rewrite Hpe. by apply Hpj.
    + intros q Hq _ [Hqp Hqu]%not_elem_of_cons. rewrite (gr_frame _ _ _ _ _ _ _ G); [by apply Hfr|by rewrite Ht3, list_elem_of_singleton|done].
    + rewrite Hs0, (subtree_valid _ n _ _ Hvi), Hc, (gr_tables _ _ _ _ _ _ _ G), Ht3. done.
    + intros va' Hva. rewrite !leaf_S, Hva. cbv zeta. rewrite Hvi, Hv, Hc, (gr_leaf _ _ _ _ _ _ _ G). apply Hl3.
  - destruct W as [W|(Ha & q & Hq & W)]; [by left|right]. split; [done|]. exists q. split; [|done].
    cbn [table0]. fold i. cbv zeta. by rewrite Hvi, Hc.
Qed.

(** The tables a walk to [va] may have to add. *)
Definition missing (r : gmap Z (list Z)) (n : nat) (pt va : Z) : nat := match table0 r n pt va with Some _ => O | None => n end.

Lemma walk_alloc n pt va m l :
  alloc_ok m l -> Forall (page_ok (kend m)) (tables (ram m) n pt) -> NoDup (tables (ram m) n pt ++ l) ->
  exists a m' used l', walk_levels n pt va true m = Ok (a, m') /\ grown m l n pt m' used l' /\ walk_result (ram m') n pt va a l' /\
    (length used <= missing (ram m) n pt va)%nat.
Proof.
  revert pt m l. induction n as [|n IH]; intros pt m l Hok Hpg Hnd.
  - exists (pt + 8 * PX 0 va), m, [], l. split; [done|]. split; [by apply grown_refl|]. split; [right|simpl; lia].
    pose proof (PX_range 0 va). pose proof (page_ok_bounds _ _ (ro_kend _ (ao_ram _ _ Hok)) (proj1 (Forall_forall _ _) Hpg pt (tables_here _ _ _))).
    split; [lia|]. by exists pt.
  - set (i := PX (Z.of_nat (S n)) va). pose proof (PX_range (Z.of_nat (S n)) va) as Hi. fold i in Hi.
    pose proof (proj1 (Forall_forall _ _) Hpg pt (tables_here _ _ _)) as Hpt.
    destruct (page_ok_in m pt (ao_ram _ _ Hok) Hpt) as (pgt & Epg & Hlen).
    cbn [walk_levels]. fold i. kstep (ld64_pte m pt i pgt Epg (proj1 Hpt) Hi). destruct (has (pte_at (ram m) pt i) PTE_V) eqn:Hv.
    + pose proof (subtree_valid _ n _ _ Hv) as Hs. pose proof (tables_split (ram m) n pt i Hi) as Hts. rewrite Hs in Hts.
      set (c := PTE2PA (pte_at (ram m) pt i)) in *.
      assert (Hin : forall q, q ∈ tables (ram m) n c -> q ∈ tables (ram m) (S n) pt) by (intros q Hq; rewrite Hts, elem_of_cons, !elem_of_app; tauto).
      destruct (IH c m l Hok) as (a & m' & used & l' & He & G & W & Hu).
      * apply Forall_forall. intros q Hq. by apply (proj1 (Forall_forall _ _) Hpg), Hin.
      * apply NoDup_app in Hnd as (Hn1 & Hd & Hn2). apply NoDup_app. split; [|split; [|done]].
        -- rewrite Hts in Hn1. by apply NoDup_cons in Hn1 as [_ (_ & _ & (? & _ & _)%NoDup_app)%NoDup_app].
        -- intros q Hq. by apply Hd, Hin.
      * exists a, m', used, l'. split; [exact He|]. destruct (walk_alloc_valid m l n pt va m' used l' a i) as [G' W']; try done. split_and!; [done|done|].
        unfold missing in *. cbn [table0]. fold i. cbv zeta. rewrite Hv. fold c. destruct (table0 (ram m) n c va); lia.
    + cbn [negb]. pose proof (kalloc_ok m l Hok) as Hka. destruct l as [|p l].
      { rewrite (bind_ok _ _ _ _ _ Hka). exists 0, m, [], []. split; [done|]. split; [by apply grown_refl|]. split; [by left|simpl; lia]. }
      destruct Hka as (m1 & He1 & Hok1 & Hr1 & Hk1). rewrite (bind_ok _ _ _ _ _ He1).
      apply NoDup_app in Hnd as Hnd'. destruct Hnd' as (_ & Hd & Hnl). specialize (Hd pt (tables_here _ _ _)). apply not_elem_of_cons in Hd as [Hpp Hpl].
      pose proof (proj1 (proj1 (Forall_cons _ _ _) (ao_pages _ _ Hok))) as Hp.
      rewrite (proj2 (Z.eqb_neq p 0) (page_ok_ne0 _ _ (ao_ram _ _ Hok) Hp)).
      destruct (new_table m p l pt i m1 pgt) as (Hf & Hok3 & Hz & Hpi & Hpj & Hfr & Hm2); try done.
      kstep Hf. kstep (st64_pte _ pt i (mk_pte p PTE_V) pgt Hm2 (proj1 Hpt) Hi).
      set (m3 := put_pte pt i (mk_pte p PTE_V) (set_ram (insert p (full_page 0)) m1)) in *.
      destruct (tables_zero (ram m3) n p Hz) as [Ht3 Hl3].
      destruct (IH p m3 l Hok3) as (a & m' & used & l' & He & G & W & Hu); rewrite ?Ht3.
      * apply Forall_singleton. change (kend m3) with (kend m1). by rewrite Hk1.
      * exact Hnl.
      * exists a, m', (p :: used), l'. split; [exact He|].
        destruct (walk_alloc_new m p l n pt va m3 m' used l' a i) as [G' W']; try done; [apply (page_ok_pa (kend m)); [apply (ro_kend _ (ao_ram _ _ Hok))|done]|].
        split_and!; [done|done|]. unfold missing in *. cbn [table0]. fold i. cbv zeta. rewrite Hv. simpl. destruct (table0 (ram m3) n p va); lia.
Qed.

Lemma walk_find n pt va m :
  ram_ok m -> Forall (page_ok (kend m)) (tables (ram m) n pt) ->
  walk_levels n pt va false m = Ok (match table0 (ram m) n pt va with Some q => q + 8 * PX 0 va | None => 0 end, m).
Proof.
  intros Hr. revert pt. induction n as [|n IH]; intros pt Hpg; [done|].
  pose proof (PX_range (Z.of_nat (S n)) va) as Hi. cbn [walk_levels table0]. set (i := PX (Z.of_nat (S n)) va) in *.
  pose proof (proj1 (Forall_forall _ _) Hpg pt (tables_here _ _ _)) as Hpt. destruct (page_ok_in m pt Hr Hpt) as (pgt & Epg & Hlen).
  kstep (ld64_pte m pt i pgt Epg (proj1 Hpt) Hi). cbv zeta. destruct (has (pte_at (ram m) pt i) PTE_V) eqn:Hv; [|done].
  apply IH. apply Forall_forall. intros q Hq. apply (proj1 (Forall_forall _ _) Hpg). apply elem_tables_S. right. exists i.
  by rewrite (subtree_valid _ _ _ _ Hv).
Qed.

(** ** Address spaces *)

#[local] Opaque tables.

Definition vpage (va : Z) : Z := va / PGSIZE.
Definition in_va (va : Z) : Prop := 0 <= va < MAXVA.

Lemma same_path_vpage va va' : in_va va -> in_va va' -> same_path 2 va va' <-> vpage va = vpage va'.
Proof.
  unfold in_va, MAXVA, vpage, PGSIZE. intros H H'. cbn [same_path]. unfold PX, PXMASK, PXSHIFT. change 0x1FF with (Z.ones 9).
  rewrite !Z.land_ones, !Z.shiftr_div_pow2 by lia.
  change (2 ^ (12 + 9 * Z.of_nat 2)) with (4096 * (512 * 512)). change (2 ^ (12 + 9 * Z.of_nat 1)) with (4096 * 512). change (2 ^ (12 + 9 * Z.of_nat 0)) with 4096.
  rewrite <- !Zdiv.Zdiv_Zdiv by lia. change (2 ^ 9) with 512. set (x := va / 4096). set (y := va' / 4096).
  assert (0 <= x < 2 ^ 26) by (subst x; split; [apply Z.div_pos; lia|apply Z.div_lt_upper_bound; lia]).
  assert (0 <= y < 2 ^ 26) by (subst y; split; [apply Z.div_pos; lia|apply Z.div_lt_upper_bound; lia]).
  clearbody x y. split; [|by intros ->]. intros (E2 & E1 & E0 & _).
  pose proof (Z_div_mod_eq_full x 512). pose proof (Z_div_mod_eq_full y 512).
  pose proof (Z_div_mod_eq_full (x / 512) 512). pose proof (Z_div_mod_eq_full (y / 512) 512).
  rewrite !Z.mod_small in E2 by (split; [apply Z.div_pos; [apply Z.div_pos|]; lia|rewrite Z.div_div by lia; apply Z.div_lt_upper_bound; lia]).
  lia.
Qed.

(** The page table at [pt] is a tree of allocated pages; [l] are the free pages. *)
Record vm_ok (m : mem) (l : list Z) (pt : Z) : Prop := {
  vo_alloc : alloc_ok m l;
  vo_nodup : NoDup (tables (ram m) 2 pt ++ l);
  vo_pages : Forall (page_ok (kend m)) (tables (ram m) 2 pt);
}.

Definition lf (m : mem) (pt va : Z) : option Z := leaf (ram m) 2 pt va.

Lemma vm_ok_pages_in m l pt : vm_ok m l pt -> pages_in (ram m) (tables (ram m) 2 pt).
Proof. intros Hv p Hp. apply page_ok_in; [apply (ao_ram _ _ (vo_alloc _ _ _ Hv))|]. by apply (proj1 (Forall_forall _ _) (vo_pages _ _ _ Hv)). Qed.

Lemma walk_find_ok m l pt va :
  vm_ok m l pt -> in_va va ->
  walk pt va false m = Ok (match table0 (ram m) 2 pt va with Some q => q + 8 * PX 0 va | None => 0 end, m).
Proof.
  intros Hv Hva. unfold walk. rewrite (proj2 (Z.leb_gt _ _)) by apply Hva. apply walk_find; [apply (ao_ram _ _ (vo_alloc _ _ _ Hv))|apply Hv].
Qed.

(** The table page an entry is in. *)
Lemma table0_page m l pt va q :
  vm_ok m l pt -> table0 (ram m) 2 pt va = Some q ->
  q ∈ tables (ram m) 2 pt /\ aligned q /\ q + 8 * PX 0 va <> 0 /\ exists pg, ram m !! q = Some pg /\ zlen pg = PGSIZE.
Proof.
  intros Hv Hq%table0_in. split; [done|]. pose proof (proj1 (Forall_forall _ _) (vo_pages _ _ _ Hv) q Hq) as Hp. split; [apply Hp|].
  split; [|by apply (vm_ok_pages_in _ _ _ Hv)]. pose proof (PX_range 0 va). pose proof (page_ok_bounds _ _ (ro_kend _ (ao_ram _ _ (vo_alloc _ _ _ Hv))) Hp). lia.
Qed.

Lemma ld64_leaf m l pt va q : vm_ok m l pt -> table0 (ram m) 2 pt va = Some q -> ld64 (q + 8 * PX 0 va) m = Ok (pte_at (ram m) q (PX 0 va), m).
Proof. intros Hv Hq. destruct (table0_page _ _ _ _ _ Hv Hq) as (_ & Ha & _ & pg & Hpg & _). apply (ld64_pte m q _ pg); [done|done|apply PX_range]. Qed.

(** What a store to the entry of [va] does. *)
Record remapped (m : mem) (pt va v : Z) (m' : mem) : Prop := {
  rm_tables : tables (ram m') 2 pt = tables (ram m) 2 pt;
  rm_lf va' : in_va va' -> lf m' pt va' = if decide (vpage va = vpage va') then valid_pte v else lf m pt va';
  rm_frame p : p ∉ tables (ram m) 2 pt -> ram m' !! p = ram m !! p;
  rm_kend : kend m' = kend m;
  rm_freelist : freelist m' = freelist m;
}.

Lemma st64_leaf m l pt va q v :
  vm_ok m l pt -> in_va va -> table0 (ram m) 2 pt va = Some q -> 0 <= v < 2 ^ 64 ->
  exists m', st64 (q + 8 * PX 0 va) v m = Ok (tt, m') /\ vm_ok m' l pt /\ remapped m pt va v m'.
Proof.
  intros Hv Hva Hq Hvr. destruct (table0_page _ _ _ _ _ Hv Hq) as (Hin & Ha & _ & pg & Hpg & _).
  exists (put_pte q (PX 0 va) v m). split; [by apply (st64_pte m q _ v pg); try apply PX_range|].
  pose proof (proj1 (proj1 (NoDup_app _ _) (vo_nodup _ _ _ Hv))) as Hnd.
  destruct (set_leaf (ram m) 2 pt va q v Hnd (vm_ok_pages_in _ _ _ Hv) Hq Hvr) as (Ht & _ & Hl).
  assert (Hql : q ∉ l) by (intros Hql; by apply (proj1 (proj2 (proj1 (NoDup_app _ _) (vo_nodup _ _ _ Hv))) q)).
  change (set_pte (ram m) q (PX 0 va) v) with (ram (put_pte q (PX 0 va) v m)) in Ht, Hl.
  split; split.
  - apply alloc_ok_put; [apply Hv|done|apply PX_range].
  - rewrite Ht. apply Hv.
  - rewrite Ht. apply Hv.
  - exact Ht.
  - intros va' Hva'. unfold lf. rewrite Hl.
    destruct (decide (vpage va = vpage va')) as [E|E]; rewrite <- same_path_vpage in E by done; [by rewrite decide_True|by rewrite decide_False].
  - intros p Hp. apply set_pte_other. by intros ->.
  - reflexivity.
  - reflexivity.
Qed.

Lemma walk_alloc_ok m l pt va :
  vm_ok m l pt -> in_va va ->
  exists a m' used l', walk pt va true m = Ok (a, m') /\ grown m l 2 pt m' used l' /\ vm_ok m' l' pt /\ walk_result (ram m') 2 pt va a l' /\
    (length used <= missing (ram m) 2 pt va)%nat.
Proof.
  intros Hv Hva. unfold walk. rewrite (proj2 (Z.leb_gt _ _)) by apply Hva.
  destruct (walk_alloc 2 pt va m l) as (a & m' & used & l' & He & G & W & Hu); [apply Hv..|]. exists a, m', used, l'. split_and!; try done.
  pose proof (gr_tables _ _ _ _ _ _ _ G) as Ht. pose proof (gr_l _ _ _ _ _ _ _ G) as Hl. split.
  - apply G.
  - rewrite Ht, <- app_assoc, <- Hl. apply Hv.
  - rewrite Ht, (gr_kend _ _ _ _ _ _ _ G). apply Forall_app. split; [apply Hv|].
    pose proof (ao_pages _ _ (vo_alloc _ _ _ Hv)) as Hp. rewrite Hl in Hp. by apply Forall_app in Hp as [? _].
Qed.
