(* ===== verification/VmMap.v ===== *)
(** * Mapping and unmapping pages

    [mappages] extends the map of an address space by a range of pages and
    leaves the rest of it alone; when the memory for a table page runs out it
    reports it with a prefix of the range mapped.  [uvmunmap] removes a range
    and, when asked to, gives the pages back to the allocator. *)

From stdpp Require Import base numbers list list_numbers gmap strings.
From Stdlib Require Import ZArith Lia.
From S2P Require Import Prelude Params Kalloc Vm VmProof.

#[local] Opaque tables.

(** The [k] pages from [a] on are mapped to those from [pa] on, with the table pages [used]. *)
Record mapped (m : mem) (l : list Z) (pt a pa perm k : Z) (m' : mem) (used l' : list Z) : Prop := {
  mp_l : l = used ++ l';
  mp_ok : vm_ok m' l' pt;
  mp_kend : kend m' = kend m;
  mp_tables : tables (ram m') 2 pt ≡ₚ tables (ram m) 2 pt ++ used;
  mp_frame p : p ∉ tables (ram m) 2 pt -> p ∉ used -> ram m' !! p = ram m !! p;
  mp_lf va : in_va va -> lf m' pt va =
    if decide (vpage a <= vpage va < vpage a + k) then Some (mk_pte (pa + PGSIZE * (vpage va - vpage a)) (Z.lor perm PTE_V))
    else lf m pt va;
}.

Lemma vpage_add a k : vpage (a + PGSIZE * k) = vpage a + k.
Proof. unfold vpage. by rewrite (Z.mul_comm PGSIZE), Z.div_add. Qed.
Lemma vpage_next a : vpage (a + PGSIZE) = vpage a + 1.
Proof. exact (vpage_add a 1). Qed.

Lemma grown_mapped m l pt a pa perm m' used l' : grown m l 2 pt m' used l' -> vm_ok m' l' pt -> mapped m l pt a pa perm 0 m' used l'.
Proof. intros [? ? ? ? ? Hl] Hv. split; try done. intros va Hva. rewrite decide_False by lia. apply Hl. Qed.

Lemma mapped_trans m l pt a pa perm m1 u1 l1 k m2 u2 l2 :
  0 <= k -> mapped m l pt a pa perm 1 m1 u1 l1 -> mapped m1 l1 pt (a + PGSIZE) (pa + PGSIZE) perm k m2 u2 l2 ->
  mapped m l pt a pa perm (1 + k) m2 (u1 ++ u2) l2.
Proof.
  intros Hk M1 M2. split.
  - rewrite (mp_l _ _ _ _ _ _ _ _ _ _ M1), (mp_l _ _ _ _ _ _ _ _ _ _ M2). by rewrite app_assoc.
  - apply M2.
  - by rewrite (mp_kend _ _ _ _ _ _ _ _ _ _ M2), (mp_kend _ _ _ _ _ _ _ _ _ _ M1).
  - by rewrite (mp_tables _ _ _ _ _ _ _ _ _ _ M2), (mp_tables _ _ _ _ _ _ _ _ _ _ M1), app_assoc.
  - intros p Hp [Hp1 Hp2]%not_elem_of_app.
    rewrite (mp_frame _ _ _ _ _ _ _ _ _ _ M2), (mp_frame _ _ _ _ _ _ _ _ _ _ M1); try done.
    rewrite (mp_tables _ _ _ _ _ _ _ _ _ _ M1), elem_of_app. tauto.
  - intros va Hva. rewrite (mp_lf _ _ _ _ _ _ _ _ _ _ M2), (mp_lf _ _ _ _ _ _ _ _ _ _ M1), vpage_next by done.
    destruct (decide (vpage a + 1 <= vpage va < vpage a + 1 + k)); [rewrite decide_True by lia; do 2 f_equal; unfold PGSIZE; lia|].
    destruct (decide (vpage a <= vpage va < vpage a + 1)); [by rewrite decide_True by lia|by rewrite decide_False by lia].
Qed.

Lemma mapped_store m l pt a pa perm m1 u l1 m2 :
  mapped m l pt a pa perm 0 m1 u l1 -> vm_ok m2 l1 pt -> remapped m1 pt a (mk_pte pa (Z.lor perm PTE_V)) m2 ->
  pa_ok pa -> 0 <= perm < 1024 ->
  mapped m l pt a pa perm 1 m2 u l1.
Proof.
  intros M Hv R Hpa Hperm. assert (Hf : 0 <= Z.lor perm PTE_V < 1024) by (apply lor_flags_range; [done|unfold PTE_V; lia]).
  split.
  - apply M.
  - done.
  - by rewrite (rm_kend _ _ _ _ _ R), (mp_kend _ _ _ _ _ _ _ _ _ _ M).
  - rewrite (rm_tables _ _ _ _ _ R). apply M.
  - intros p Hp Hu. rewrite (rm_frame _ _ _ _ _ R), (mp_frame _ _ _ _ _ _ _ _ _ _ M); try done.
    rewrite (mp_tables _ _ _ _ _ _ _ _ _ _ M), elem_of_app. tauto.
  - intros va Hva. rewrite (rm_lf _ _ _ _ _ R) by done. destruct (decide (vpage a = vpage va)) as [E|E].
    + rewrite decide_True by lia. rewrite E, Z.sub_diag, Z.mul_0_r, Z.add_0_r. unfold valid_pte.
      rewrite has_mk by (done || (unfold PTE_V; lia)). by rewrite has_lor_V.
    + rewrite (mp_lf _ _ _ _ _ _ _ _ _ _ M), !decide_False by (done || lia). done.
Qed.

(** One round of [mappages]: it maps the page of [a] or finds the memory exhausted. *)
Definition map_page (pagetable a pa perm : Z) : K mem Z :=
  pte ← walk pagetable a true;
  if pte =? 0 then mret (-1)
  else
    v ← ld64 pte;
    if has v PTE_V then panic "mappages: remap"
    else st64 pte (Z.lor (Z.lor (PA2PTE pa) perm) PTE_V);; mret 0.

Lemma map_page_ok m l pt a pa perm :
  vm_ok m l pt -> in_va a -> lf m pt a = None -> pa_ok pa -> 0 <= perm < 1024 ->
  exists r m' used l', map_page pt a pa perm m = Ok (r, m') /\
    (r = 0 /\ mapped m l pt a pa perm 1 m' used l' \/ r = -1 /\ l' = [] /\ mapped m l pt a pa perm 0 m' used l') /\
    (length used <= missing (ram m) 2 pt a)%nat.
Proof.
  intros Hv Ha Hn Hpa Hperm. destruct (walk_alloc_ok m l pt a Hv Ha) as (p & m1 & used & l1 & He & G & Hv1 & W & Hu).
  pose proof (grown_mapped _ _ _ a pa perm _ _ _ G Hv1) as M. unfold map_page. rewrite (bind_ok _ _ _ _ _ He).
  destruct W as [[-> ->]|(Hp & q & Hq & ->)].
  - exists (-1), m1, used, []. split; [done|]. split; [by right|done].
  - rewrite (proj2 (Z.eqb_neq _ _) Hp). rewrite (bind_ok _ _ _ _ _ (ld64_leaf _ _ _ _ _ Hv1 Hq)).
    assert (Hno : has (pte_at (ram m1) q (PX 0 a)) PTE_V = false).
    { pose proof (mp_lf _ _ _ _ _ _ _ _ _ _ M a Ha) as Hl. rewrite decide_False, Hn in Hl by lia. unfold lf, leaf in Hl. rewrite Hq in Hl.
      unfold valid_pte in Hl. by destruct (has _ PTE_V). }
    rewrite Hno, <- Z.lor_assoc. fold (mk_pte pa (Z.lor perm PTE_V)).
    assert (Hf : 0 <= Z.lor perm PTE_V < 1024) by (apply lor_flags_range; [done|unfold PTE_V; lia]).
    destruct (st64_leaf m1 l1 pt a q (mk_pte pa (Z.lor perm PTE_V)) Hv1 Ha Hq (mk_pte_range _ _ Hpa Hf)) as (m2 & He2 & Hv2 & R).
    exists 0, m2, used, l1. rewrite (bind_ok _ _ _ _ _ He2). split; [done|]. split; [|done]. left. split; [done|]. by eapply mapped_store.
Qed.

Lemma mappages_loop_S fuel pt a last pa perm m :
  mappages_loop (S fuel) pt a last pa perm m =
  (r ← map_page pt a pa perm;
   if negb (r =? 0) then mret r
   else if a =? last then mret 0
   else mappages_loop fuel pt (uint64 (a + PGSIZE)) last (uint64 (pa + PGSIZE)) perm) m.
Proof.
  cbn [mappages_loop]. unfold map_page, mbind, K_bind. destruct (walk pt a true m) as [[p m1]|?|?|?|]; simpl; [|done..].
  destruct (p =? 0); [done|]. unfold mbind, K_bind. destruct (ld64 p m1) as [[v m2]|?|?|?|]; simpl; [|done..].
  destruct (has v PTE_V); [done|]. unfold mbind, K_bind. destruct (st64 p _ m2) as [[[] m3]|?|?|?|]; done.
Qed.

Lemma in_va_uint64 a : in_va a -> uint64 (a + PGSIZE) = a + PGSIZE.
Proof. unfold in_va, MAXVA, PGSIZE. intros Ha. apply uint64_small. lia. Qed.

Lemma mappages_loop_ok n m l pt a pa perm :
  vm_ok m l pt -> aligned a -> 0 <= a -> a + PGSIZE * (Z.of_nat n + 1) <= MAXVA ->
  aligned pa -> 0 <= pa -> pa + PGSIZE * (Z.of_nat n + 1) <= 2 ^ 56 -> 0 <= perm < 1024 ->
  (forall va, in_va va -> vpage a <= vpage va <= vpage a + Z.of_nat n -> lf m pt va = None) ->
  exists r m' used l' k, mappages_loop (S n) pt a (a + PGSIZE * Z.of_nat n) pa perm m = Ok (r, m') /\ mapped m l pt a pa perm k m' used l' /\
    (r = 0 /\ k = Z.of_nat n + 1 \/ r = -1 /\ 0 <= k <= Z.of_nat n /\ l' = []).
Proof.
  revert m l a pa. induction n as [|n IH]; intros m l a pa Hv Haa Ha Hlim Hpa Hpa0 Hplim Hperm Hnone.
  all: assert (Hiv : in_va a) by (unfold in_va, PGSIZE in *; lia).
  all: assert (Hpo : pa_ok pa) by (split; [done|unfold PGSIZE in *; lia]).
  all: destruct (map_page_ok m l pt a pa perm Hv Hiv (Hnone a Hiv ltac:(lia)) Hpo Hperm) as (r & m1 & u1 & l1 & He & [[-> M]|(-> & -> & M)] & _).
  all: rewrite mappages_loop_S, (bind_ok _ _ _ _ _ He); cbn [Z.eqb negb].
  2, 4: exists (-1), m1, u1, [], 0; split; [done|split; [done|right; split_and!; [done|lia|lia|done]]].
  - rewrite Z.mul_0_r, Z.add_0_r, Z.eqb_refl. exists 0, m1, u1, l1, 1. split; [done|]. split; [done|]. by left.
  - rewrite (proj2 (Z.eqb_neq _ _)) by (unfold PGSIZE; lia). rewrite in_va_uint64, uint64_small by (done || (unfold PGSIZE in *; lia)).
    destruct (IH m1 l1 (a + PGSIZE) (pa + PGSIZE)) as (r & m2 & u2 & l2 & k & He2 & M2 & Hr); try (done || by apply aligned_add); try (unfold PGSIZE in *; lia).
    + apply M.
    + intros va Hva Hp. rewrite vpage_next in Hp. rewrite (mp_lf _ _ _ _ _ _ _ _ _ _ M), decide_False by (done || lia). apply Hnone; [done|lia].
    + replace (a + PGSIZE + PGSIZE * Z.of_nat n) with (a + PGSIZE * Z.of_nat (S n)) in He2 by lia.
      exists r, m2, (u1 ++ u2), l2, (1 + k). split; [exact He2|]. split; [apply (mapped_trans _ _ _ _ _ _ m1 u1 l1); [lia|done|done]|].
      destruct Hr as [[-> ->]|(-> & Hk & ->)]; [left; split; [done|lia]|right; split_and!; [done|lia|lia|done]].
Qed.

(** The number of pages that [size] bytes at [va] touch. *)
Definition npages (va size : Z) : Z := vpage (va + size - 1) - vpage va + 1.

Lemma pbase_vpage va : pbase va = PGSIZE * vpage va.
Proof. unfold pbase, vpage. pose proof (Z_div_mod_eq_full va PGSIZE). lia. Qed.
Lemma vpage_pbase va : vpage (pbase va) = vpage va.
Proof. unfold vpage. rewrite pbase_vpage, Z.mul_comm. by apply Z.div_mul. Qed.
Lemma aligned_vpage a : aligned a -> a = PGSIZE * vpage a.
Proof. apply aligned_mul. Qed.

Lemma mappages_ok m l pt va size pa perm :
  vm_ok m l pt -> 0 <= va -> 0 < size -> va + size <= MAXVA ->
  aligned pa -> 0 <= pa -> pa + PGSIZE * npages va size <= 2 ^ 56 -> 0 <= perm < 1024 ->
  (forall va', in_va va' -> vpage va <= vpage va' < vpage va + npages va size -> lf m pt va' = None) ->
  exists r m' used l' k, mappages pt va size pa perm m = Ok (r, m') /\ mapped m l pt va pa perm k m' used l' /\
    (r = 0 /\ k = npages va size \/ r = -1 /\ 0 <= k < npages va size /\ l' = []).
Proof.
  intros Hv Hva Hs Hlim Hpa Hpa0 Hplim Hperm Hnone. unfold mappages. rewrite (proj2 (Z.eqb_neq _ _)) by lia.
  rewrite (uint64_small (va + size - 1)) by (unfold MAXVA in *; lia). rewrite !PGROUNDDOWN_eq.
  assert (Hn : 0 <= vpage (va + size - 1) - vpage va) by (unfold vpage; apply Z.le_0_sub, Z.div_le_mono; [done|lia]).
  assert (Hdiff : pbase (va + size - 1) - pbase va = PGSIZE * (npages va size - 1)) by (rewrite !pbase_vpage; unfold npages; lia).
  assert (Hmax : vpage (va + size - 1) < 2 ^ 26) by (unfold vpage; apply Z.div_lt_upper_bound; [done|unfold MAXVA, PGSIZE in *; lia]).
  assert (Hv0 : 0 <= vpage va) by (by apply Z.div_pos).
  rewrite Hdiff, uint64_small, (Z.mul_comm PGSIZE), Z.div_mul by (done || (unfold PGSIZE, npages; lia)).
  destruct (mappages_loop_ok (Z.to_nat (npages va size - 1)) m l pt (pbase va) pa perm) as (r & m' & used & l' & k & He & M & Hr); try done.
  - apply pbase_aligned.
  - rewrite pbase_vpage. unfold PGSIZE. lia.
  - rewrite pbase_vpage. unfold npages, MAXVA, PGSIZE in *. lia.
  - unfold npages, PGSIZE in *. lia.
  - intros va' Hva' Hp. rewrite vpage_pbase in Hp. apply Hnone; [done|]. unfold npages in *. lia.
  - rewrite Z2Nat.id in He by (unfold npages; lia). replace (pbase va + PGSIZE * (npages va size - 1)) with (pbase (va + size - 1)) in He by lia.
    exists r, m', used, l', k. split; [exact He|]. split.
    + destruct M as [? ? ? ? ? Hl]. split; try done. intros va' Hva'. rewrite Hl, vpage_pbase by done. done.
    + unfold npages in *. destruct Hr as [[-> ->]|(-> & Hk & ->)]; [left|right]; split_and!; (done || lia).
Qed.

(** ** Unmapping *)

Lemma vm_ok_ext m l pt m' l' :
  vm_ok m l pt -> alloc_ok m' l' -> kend m' = kend m -> (forall p, p ∈ tables (ram m) 2 pt -> ram m' !! p = ram m !! p) ->
  (forall p, p ∈ tables (ram m) 2 pt -> p ∉ l') ->
  vm_ok m' l' pt /\ tables (ram m') 2 pt = tables (ram m) 2 pt /\ (forall va, table0 (ram m') 2 pt va = table0 (ram m) 2 pt va) /\
  (forall va, lf m' pt va = lf m pt va).
Proof.
  intros Hv Hok Hk Hr Hl. destruct (tables_ext (ram m) (ram m') 2 pt Hr) as (Ht & H0 & Hle). split_and!; try done. split.
  - done.
  - rewrite Ht. apply NoDup_app. split; [apply (proj1 (NoDup_app _ _) (vo_nodup _ _ _ Hv))|]. split; [done|apply Hok].
  - rewrite Ht, Hk. apply Hv.
Qed.

(** The [n] pages from [a] on are mapped to the pages [ps]. *)
Definition maps_to (m : mem) (pt a : Z) (ps : list Z) : Prop :=
  forall i p, ps !! i = Some p -> exists v, lf m pt (a + PGSIZE * Z.of_nat i) = Some v /\ PTE2PA v = p /\ PTE_FLAGS v <> PTE_V.

Lemma maps_to_cons m pt a p ps :
  maps_to m pt a (p :: ps) -> (exists v, lf m pt a = Some v /\ PTE2PA v = p /\ PTE_FLAGS v <> PTE_V) /\ maps_to m pt (a + PGSIZE) ps.
Proof.
  intros H. split.
  - destruct (H 0%nat p eq_refl) as (v & Hv & ?). exists v. by rewrite Z.mul_0_r, Z.add_0_r in Hv.
  - intros i q Hq. destruct (H (S i) q Hq) as (v & Hv & ?). exists v. split; [|done]. rewrite <- Hv. f_equal. lia.
Qed.

Lemma lf_table0 m pt va v : lf m pt va = Some v -> exists q, table0 (ram m) 2 pt va = Some q /\ pte_at (ram m) q (PX 0 va) = v /\ has v PTE_V = true.
Proof.
  unfold lf, leaf. destruct (table0 (ram m) 2 pt va) as [q|]; [|done]. unfold valid_pte. destruct (has _ PTE_V) eqn:E; [|done].
  intros [= <-]. by exists q.
Qed.

(** One round of [uvmunmap]. *)
Definition unmap_page (pagetable a : Z) (do_free : bool) : K mem unit :=
  pte ← walk pagetable a false;
  if pte =? 0 then panic "uvmunmap: walk"
  else
    v ← ld64 pte;
    if negb (has v PTE_V) then panic "uvmunmap: not mapped"
    else if PTE_FLAGS v =? PTE_V then panic "uvmunmap: not a leaf"
    else (if do_free then kfree (PTE2PA v) else mret tt);; st64 pte 0.

Lemma unmap_page_ok m l pt a v :
  vm_ok m l pt -> in_va a -> lf m pt a = Some v -> PTE_FLAGS v <> PTE_V ->
  page_ok (kend m) (PTE2PA v) -> PTE2PA v ∉ tables (ram m) 2 pt -> PTE2PA v ∉ l ->
  exists m', unmap_page pt a true m = Ok (tt, m') /\ vm_ok m' (PTE2PA v :: l) pt /\ kend m' = kend m /\
    tables (ram m') 2 pt = tables (ram m) 2 pt /\
    (forall va, in_va va -> lf m' pt va = if decide (vpage a = vpage va) then None else lf m pt va) /\
    (forall p, p ∉ tables (ram m) 2 pt -> p <> PTE2PA v -> ram m' !! p = ram m !! p).
Proof.
  intros Hv Ha Hlf Hfl Hp Hpt Hpl. destruct (lf_table0 _ _ _ _ Hlf) as (q & Hq & Hpte & Hval). unfold unmap_page.
  rewrite (bind_ok _ _ _ _ _ (walk_find_ok m l pt a Hv Ha)), Hq.
  destruct (table0_page _ _ _ _ _ Hv Hq) as (Hin & _ & Hne & _). rewrite (proj2 (Z.eqb_neq _ _) Hne).
  rewrite (bind_ok _ _ _ _ _ (ld64_leaf _ _ _ _ _ Hv Hq)), Hpte, Hval, (proj2 (Z.eqb_neq _ _) Hfl). cbn [negb].
  destruct (kfree_ok m l (PTE2PA v) (vo_alloc _ _ _ Hv) Hp Hpl) as [Hkf Hok1]. rewrite (bind_ok _ _ _ _ _ Hkf).
  set (m1 := set_freelist _ _) in *.
  destruct (vm_ok_ext m l pt m1 (PTE2PA v :: l) Hv Hok1) as (Hv1 & Ht1 & H01 & Hl1); [done|..].
  { intros p Hp'. apply lookup_insert_ne. by intros <-. }
  { intros p Hp' [->|Hin']%elem_of_cons; [done|]. by apply (proj1 (proj2 (proj1 (NoDup_app _ _) (vo_nodup _ _ _ Hv))) p). }
  destruct (st64_leaf m1 _ pt a q 0 Hv1 Ha) as (m2 & He2 & Hv2 & R); [by rewrite H01|lia|].
  exists m2. split; [exact He2|]. split; [done|]. split; [by rewrite (rm_kend _ _ _ _ _ R)|]. split; [by rewrite (rm_tables _ _ _ _ _ R)|]. split.
  - intros va Hva. rewrite (rm_lf _ _ _ _ _ R), Hl1 by done. done.
  - intros p Hp' Hpv. rewrite (rm_frame _ _ _ _ _ R) by by rewrite Ht1. by apply lookup_insert_ne.
Qed.

Lemma uvmunmap_loop_S fuel pt a lim f m :
  a < lim ->
  uvmunmap_loop (S fuel) pt a lim f m = (unmap_page pt a f;; uvmunmap_loop fuel pt (uint64 (a + PGSIZE)) lim f) m.
Proof.
  intros Hlt. cbn [uvmunmap_loop]. rewrite (proj2 (Z.ltb_lt _ _) Hlt). unfold unmap_page, mbind, K_bind.
  destruct (walk pt a false m) as [[p m1]|?|?|?|]; simpl; [|done..].
  destruct (p =? 0); [done|]. unfold mbind, K_bind. destruct (ld64 p m1) as [[v m2]|?|?|?|]; simpl; [|done..].
  destruct (negb _); [done|]. destruct (PTE_FLAGS v =? PTE_V); [done|]. unfold mbind, K_bind.
  destruct f; [|done]. destruct (kfree (PTE2PA v) m2) as [[[] m3]|?|?|?|]; done.
Qed.

Record unmapped (m : mem) (l : list Z) (pt a : Z) (ps : list Z) (m' : mem) : Prop := {
  um_ok : vm_ok m' (reverse ps ++ l) pt;
  um_kend : kend m' = kend m;
  um_tables : tables (ram m') 2 pt = tables (ram m) 2 pt;
  um_lf va : in_va va -> lf m' pt va = if decide (vpage a <= vpage va < vpage a + zlen ps) then None else lf m pt va;
  um_frame p : p ∉ tables (ram m) 2 pt -> p ∉ ps -> ram m' !! p = ram m !! p;
}.

Lemma uvmunmap_loop_ok ps m l pt a :
  vm_ok m l pt -> aligned a -> 0 <= a -> a + PGSIZE * zlen ps <= MAXVA -> maps_to m pt a ps ->
  Forall (page_ok (kend m)) ps -> NoDup (ps ++ l) -> (forall p, p ∈ ps -> p ∉ tables (ram m) 2 pt) ->
  exists m', uvmunmap_loop (length ps) pt a (a + PGSIZE * zlen ps) true m = Ok (tt, m') /\ unmapped m l pt a ps m'.
Proof.
  revert m l a. induction ps as [|p ps IH]; intros m l a Hv Haa Ha Hlim Hmt Hpg Hnd Hpt.
  - exists m. split; [simpl; rewrite (proj2 (Z.ltb_ge _ _)); [done|unfold zlen; simpl; lia]|].
    split; try done. intros va Hva. rewrite decide_False by (unfold zlen; simpl; lia). done.
  - change (zlen (p :: ps)) with (Z.of_nat (S (length ps))) in *. rewrite Nat2Z.inj_succ in *. fold (zlen ps) in *. pose proof (zlen_nonneg ps).
    destruct (maps_to_cons _ _ _ _ _ Hmt) as [(v & Hlf & Hpa & Hfl) Hmt'].
    apply Forall_cons in Hpg as [Hp Hpg]. apply NoDup_cons in Hnd as [Hpn Hnd]. rewrite elem_of_app in Hpn.
    destruct (unmap_page_ok m l pt a v) as (m1 & He1 & Hv1 & Hk1 & Ht1 & Hl1 & Hf1); rewrite ?Hpa; try done; try tauto.
    { unfold in_va, PGSIZE in *. lia. } { apply Hpt, list_elem_of_here. }
    rewrite Hpa in *. cbn [length]. rewrite uvmunmap_loop_S by (unfold PGSIZE; lia). kstep He1.
    rewrite in_va_uint64 by (unfold in_va, PGSIZE in *; lia).
    destruct (IH m1 (p :: l) (a + PGSIZE)) as (m2 & He2 & [U1 U2 U3 U4 U5]); try done.
    + by apply aligned_add.
    + unfold PGSIZE in *. lia.
    + unfold PGSIZE in *. lia.
    + intros i q Hq. destruct (Hmt' i q Hq) as (v' & Hv' & ?). exists v'. split; [|done]. rewrite Hl1, decide_False; [done|..].
      * rewrite vpage_add, vpage_next. lia.
      * apply lookup_lt_Some in Hq. unfold in_va, zlen, PGSIZE in *. lia.
    + by rewrite Hk1.
    + apply NoDup_app in Hnd as (N1 & N2 & N3). apply NoDup_app. split; [done|]. split; [|apply NoDup_cons; split; [tauto|done]].
      intros q Hq [->|Hql]%elem_of_cons; [tauto|by apply (N2 q)].
    + intros q Hq. rewrite Ht1. apply Hpt. by apply list_elem_of_further.
    + exists m2. replace (a + PGSIZE * Z.succ (zlen ps)) with (a + PGSIZE + PGSIZE * zlen ps) by lia. split; [exact He2|]. split.
      * by rewrite reverse_cons, <- app_assoc.
      * by rewrite U2.
      * by rewrite U3.
      * intros va Hva. rewrite U4, Hl1, vpage_next by done. change (zlen (p :: ps)) with (Z.of_nat (S (length ps))). rewrite Nat2Z.inj_succ. fold (zlen ps).
        destruct (decide (vpage a + 1 <= vpage va < vpage a + 1 + zlen ps)); [by rewrite decide_True by lia|].
        destruct (decide (vpage a = vpage va)); [by rewrite decide_True by lia|by rewrite decide_False by lia].
      * intros q Hq [Hqp Hqs]%not_elem_of_cons. rewrite U5, Hf1; [done..|by rewrite Ht1|done].
Qed.
