(* ===== verification/VmSpace.v ===== *)
(** * User address spaces

    A process's memory is the pages [ps], mapped from address 0 on, each held
    by this address space alone.  [uvmalloc] and [uvmdealloc] grow and shrink it,
    [uvmcopy] duplicates it, [uvmfree] gives everything back. *)

From stdpp Require Import base numbers list list_numbers gmap strings.
From Stdlib Require Import ZArith Lia.
From S2P Require Import Prelude Params Kalloc Vm VmProof VmMap.

#[local] Opaque tables.

(** The address space of a process: pages [ps] from 0 on, nothing more below the trap frame. *)
Record uspace (m : mem) (l : list Z) (pt : Z) (ps : list Z) : Prop := {
  us_vm : vm_ok m l pt;
  us_map : maps_to m pt 0 ps;
  us_pages : Forall (page_ok (kend m)) ps;
  us_nodup : NoDup (ps ++ l);
  us_tables p : p ∈ ps -> p ∉ tables (ram m) 2 pt;
  us_lim : PGSIZE * zlen ps <= TRAPFRAME;
  us_none va : in_va va -> zlen ps <= vpage va < vpage TRAPFRAME -> lf m pt va = None;
}.

Definition npg (sz : Z) : Z := PGROUNDUP sz / PGSIZE.

Lemma PGROUNDUP_npg sz : 0 <= sz <= MAXVA -> PGROUNDUP sz = PGSIZE * npg sz /\ 0 <= npg sz /\ sz <= PGSIZE * npg sz < sz + PGSIZE.
Proof.
  intros Hs. unfold npg. rewrite PGROUNDUP_eq by (unfold MAXVA, PGSIZE in *; lia).
  pose proof (aligned_mul _ (pbase_aligned (sz + PGSIZE - 1))) as E. rewrite <- E.
  pose proof (pbase_poff (sz + PGSIZE - 1)). pose proof (poff_range (sz + PGSIZE - 1)). split; [done|].
  unfold PGSIZE in *. lia.
Qed.

Lemma maps_to_app m pt a ps ps' : maps_to m pt a (ps ++ ps') <-> maps_to m pt a ps /\ maps_to m pt (a + PGSIZE * zlen ps) ps'.
Proof.
  split.
  - intros H. split; intros i p Hp.
    + apply H. by apply lookup_app_l_Some.
    + destruct (H (length ps + i)%nat p) as (v & Hv & ?); [rewrite lookup_app_r by lia; rewrite <- Hp; f_equal; lia|]. exists v. split; [|done]. rewrite <- Hv. apply (f_equal (lf m pt)). unfold zlen, PGSIZE. lia.
  - intros [H1 H2] i p [Hp|[Hle Hp]]%lookup_app_Some; [by apply H1|].
    destruct (H2 _ _ Hp) as (v & Hv & ?). exists v. split; [|done]. rewrite <- Hv. apply (f_equal (lf m pt)). unfold zlen, PGSIZE. lia.
Qed.

Lemma maps_to_ext m pt a ps m' :
  maps_to m pt a ps -> (forall i, (i < length ps)%nat -> lf m' pt (a + PGSIZE * Z.of_nat i) = lf m pt (a + PGSIZE * Z.of_nat i)) -> maps_to m' pt a ps.
Proof. intros H He i p Hp. destruct (H i p Hp) as (v & Hv & ?). exists v. rewrite He by by eapply lookup_lt_Some. done. Qed.

Lemma TRAPFRAME_lt : TRAPFRAME < MAXVA - PGSIZE + 1.
Proof. unfold TRAPFRAME, TRAMPOLINE, MAXVA, PGSIZE. lia. Qed.

Lemma user_va n i : PGSIZE * n <= TRAPFRAME -> 0 <= i < n -> in_va (0 + PGSIZE * i) /\ vpage (0 + PGSIZE * i) = i.
Proof.
  intros Hn Hi. split; [unfold in_va, TRAPFRAME, TRAMPOLINE, MAXVA, PGSIZE in *; lia|]. by rewrite vpage_add.
Qed.

Lemma uspace_unmap m l pt ps ps' m' :
  uspace m l pt (ps ++ ps') -> unmapped m l pt (PGSIZE * zlen ps) ps' m' -> uspace m' (reverse ps' ++ l) pt ps.
Proof.
  intros [Hv Hm Hp Hn Ht Hl Ho] [U1 U2 U3 U4 U5]. rewrite zlen_app in *. pose proof (zlen_nonneg ps'). pose proof (zlen_nonneg ps).
  assert (Hvp : vpage (PGSIZE * zlen ps) = zlen ps) by apply (vpage_add 0 (zlen ps)). rewrite Hvp in U4.
  apply maps_to_app in Hm as [Hm _]. apply Forall_app in Hp as [Hp _]. split.
  - done.
  - eapply maps_to_ext; [done|]. intros i Hi.
    destruct (user_va (zlen ps) (Z.of_nat i)) as [Hva Hvpi]; [unfold PGSIZE in *; lia|unfold zlen; lia|].
    rewrite U4, Hvpi, decide_False by (done || (unfold zlen; lia)). done.
  - by rewrite U2.
  - rewrite <- app_assoc in Hn. apply NoDup_app in Hn as (N1 & N2 & N3). apply NoDup_app. split; [done|]. split.
    + intros p Hp'. specialize (N2 p Hp'). rewrite elem_of_app, elem_of_reverse. by rewrite elem_of_app in N2.
    + by rewrite reverse_Permutation.
  - intros p Hp'. rewrite U3. apply Ht, elem_of_app. by left.
  - unfold PGSIZE in *. lia.
  - intros va Hva Hr. rewrite U4 by done. case_decide; [done|]. apply Ho; [done|lia].
Qed.

(** Addresses below the pages [ps] or above the user part of the address space. *)
Definition outside (ps : list Z) (va : Z) : Prop := vpage va < zlen ps \/ vpage TRAPFRAME <= vpage va.

Lemma outside_new ps va k : outside ps va -> PGSIZE * (zlen ps + k) <= TRAPFRAME -> ~ (zlen ps <= vpage va < zlen ps + k).
Proof. unfold outside. change (vpage TRAPFRAME) with 67108862. change TRAPFRAME with (PGSIZE * 67108862). unfold PGSIZE. lia. Qed.
Lemma outside_app ps ps' va : outside ps va -> outside (ps ++ ps') va.
Proof. unfold outside. rewrite zlen_app. pose proof (zlen_nonneg ps'). lia. Qed.
#[local] Hint Resolve outside_app : kernel.

(** [uvmdealloc] gives the pages above the new size back and keeps the others. *)
Lemma uvmdealloc_ok m l pt ps ps' oldsz newsz :
  uspace m l pt (ps ++ ps') -> 0 <= newsz <= oldsz -> oldsz <= MAXVA -> npg newsz = zlen ps -> npg oldsz = zlen ps + zlen ps' ->
  exists m', uvmdealloc pt oldsz newsz m = Ok (newsz, m') /\ uspace m' (reverse ps' ++ l) pt ps /\ kend m' = kend m /\
    tables (ram m') 2 pt = tables (ram m) 2 pt /\
    (forall va, in_va va -> outside ps va -> lf m' pt va = lf m pt va) /\
    (forall p, p ∉ tables (ram m) 2 pt -> p ∉ ps' -> ram m' !! p = ram m !! p).
Proof.
  intros Hu Hs Hmax Hnew Hold. pose proof (zlen_nonneg ps'). pose proof (zlen_nonneg ps). unfold uvmdealloc.
  destruct (PGROUNDUP_npg newsz) as (E1 & _ & B1); [lia|]. destruct (PGROUNDUP_npg oldsz) as (E2 & _ & B2); [lia|].
  assert (Hnil : ps' = [] -> uspace m (reverse ps' ++ l) pt ps) by (intros ->; by rewrite app_nil_r in Hu).
  assert (Hz : zlen ps' = 0 -> ps' = []) by (unfold zlen; destruct ps'; [done|simpl; lia]).
  destruct (oldsz <=? newsz) eqn:E; zbool.
  { assert (oldsz = newsz) as -> by lia. exists m. split; [done|]. split; [apply Hnil, Hz; lia|done]. }
  rewrite E1, E2, Hnew, Hold. destruct (PGSIZE * zlen ps <? PGSIZE * (zlen ps + zlen ps')) eqn:El; zbool.
  2:{ exists m. split; [done|]. split; [apply Hnil, Hz; unfold PGSIZE in *; lia|done]. }
  replace (PGSIZE * (zlen ps + zlen ps') - PGSIZE * zlen ps) with (zlen ps' * PGSIZE) by lia. rewrite Z.div_mul by done.
  pose proof (us_lim _ _ _ _ Hu) as Hlim. rewrite zlen_app in Hlim.
  rewrite int_small, uint64_small by (unfold TRAPFRAME, TRAMPOLINE, MAXVA, PGSIZE in *; lia).
  unfold uvmunmap. rewrite (Z.mul_comm PGSIZE), Z.mod_mul by done. cbn [Z.eqb negb].
  rewrite uint64_small by (unfold TRAPFRAME, TRAMPOLINE, MAXVA, PGSIZE in *; lia). rewrite (Z.mul_comm (zlen ps)), (Z.mul_comm (zlen ps')).
  destruct (uvmunmap_loop_ok ps' m l pt (PGSIZE * zlen ps)) as (m' & He & U).
  - apply Hu.
  - unfold aligned. rewrite Z.mul_comm. by apply Z.mod_mul.
  - unfold PGSIZE. lia.
  - unfold TRAPFRAME, TRAMPOLINE, PGSIZE in *. lia.
  - apply (proj2 (proj1 (maps_to_app _ _ 0 _ _) (us_map _ _ _ _ Hu))).
  - pose proof (us_pages _ _ _ _ Hu) as Hp. by apply Forall_app in Hp as [_ ?].
  - pose proof (us_nodup _ _ _ _ Hu) as Hn. rewrite <- app_assoc in Hn. by apply NoDup_app in Hn as (_ & _ & ?).
  - intros p Hp. apply (us_tables _ _ _ _ Hu), elem_of_app. by right.
  - exists m'. rewrite <- (Nat2Z.id (length ps')) in He. fold (zlen ps') in He. rewrite (bind_ok _ _ _ _ _ He).
    split; [done|]. split; [by eapply uspace_unmap|]. destruct U as [U1 U2 U3 U4 U5]. split_and!; try done.
    intros va Hva Hlt. rewrite U4 by done. rewrite decide_False; [done|]. pose proof (vpage_add 0 (zlen ps)) as Hvp. change (vpage 0) with 0 in Hvp. rewrite Z.add_0_l in Hvp. rewrite Hvp. by apply outside_new.
Qed.

(** ** Growing *)



(** Permutations of concatenations, by counting. *)
Ltac perm :=
  apply (Permutation_count_occ Z.eq_dec); let x := fresh "x" in intros x;
  repeat match goal with H : _ ≡ₚ _ |- _ => pose proof (proj1 (Permutation_count_occ Z.eq_dec _ _) H x); clear H end;
  cbn [count_occ] in *; rewrite ?count_occ_app in *; cbn [count_occ] in *; rewrite ?count_occ_app in *;
  repeat match goal with
  | |- context [Z.eq_dec ?a ?b] => destruct (Z.eq_dec a b)
  | H : context [Z.eq_dec ?a ?b] |- _ => destruct (Z.eq_dec a b)
  end; lia.

(** All the pages of an address space and the free ones. *)
Definition pool (m : mem) (l : list Z) (pt : Z) (ps : list Z) : list Z := tables (ram m) 2 pt ++ ps ++ l.

Lemma uspace_ext m l pt ps m' l' :
  uspace m l pt ps -> alloc_ok m' l' -> kend m' = kend m -> (forall p, p ∈ tables (ram m) 2 pt -> ram m' !! p = ram m !! p) ->
  (forall p, p ∈ l' -> p ∉ tables (ram m) 2 pt /\ p ∉ ps) ->
  uspace m' l' pt ps /\ tables (ram m') 2 pt = tables (ram m) 2 pt /\ (forall va, lf m' pt va = lf m pt va).
Proof.
  intros [Hv Hm Hp Hn Ht Hl Ho] Hok Hk Hr Hl'.
  destruct (vm_ok_ext m l pt m' l' Hv Hok Hk Hr) as (Hv' & Ht' & _ & Hlf); [intros p Hp1 Hp2; exact (proj1 (Hl' p Hp2) Hp1)|]. split; [|done]. split; try done.
  - by eapply maps_to_ext.
  - by rewrite Hk.
  - apply NoDup_app in Hn as (N1 & _ & _). apply NoDup_app. split; [done|]. split; [|apply Hok]. intros p Hp1 Hp2. exact (proj2 (Hl' p Hp2) Hp1).
  - intros p. rewrite Ht'. apply Ht.
  - intros va Hva Hr'. rewrite Hlf. by apply Ho.
Qed.

Lemma uspace_disj m l pt ps p : uspace m l pt ps -> p ∈ l -> p ∉ tables (ram m) 2 pt /\ p ∉ ps.
Proof.
  intros Hu Hp. split; intros Hin.
  - by apply (proj1 (proj2 (proj1 (NoDup_app _ _) (vo_nodup _ _ _ (us_vm _ _ _ _ Hu)))) p).
  - by apply (proj1 (proj2 (proj1 (NoDup_app _ _) (us_nodup _ _ _ _ Hu))) p).
Qed.

Lemma elem_used (used l' : list Z) p : p ∈ used -> p ∈ used ++ l'.
Proof. intros. apply elem_of_app. by left. Qed.

(** The pages that exist already are not touched when a table page or a leaf is added. *)
Lemma mapped_frame m l pt ps a pa perm k m' used l' p :
  uspace m l pt ps -> mapped m l pt a pa perm k m' used l' -> p ∈ ps -> ram m' !! p = ram m !! p.
Proof.
  intros Hu M Hp. apply (mp_frame _ _ _ _ _ _ _ _ _ _ M); [by apply Hu|]. intros Hin.
  destruct (uspace_disj m l pt ps p Hu) as [_ Hd]; [|done]. rewrite (mp_l _ _ _ _ _ _ _ _ _ _ M). by apply elem_used.
Qed.

(** A mapping of [k] pages above the address space, with the pages [new] it maps. *)
Lemma uspace_mapped m l pt ps a pa perm k m' used l' new :
  uspace m l pt ps -> mapped m l pt a pa perm k m' used l' ->
  (k = 0 /\ new = [] \/ k = 1 /\ new = [pa]) -> a = PGSIZE * zlen ps -> PGSIZE * (zlen ps + k) <= TRAPFRAME ->
  pa_ok pa -> 0 <= perm < 1024 -> Z.lor perm PTE_V <> PTE_V ->
  page_ok (kend m) pa -> pa ∉ ps -> pa ∉ l -> pa ∉ tables (ram m) 2 pt ->
  uspace m' l' pt (ps ++ new) /\ pool m' l' pt (ps ++ new) ≡ₚ new ++ pool m l pt ps /\
  (forall va, in_va va -> outside ps va -> lf m' pt va = lf m pt va).
Proof.
  intros Hu M Hnew -> Hlim Hpa Hperm Hpv Hpok Hps Hpl Hptb. pose proof Hu as [Hv Hm Hp Hn Ht Hl Ho]. destruct M as [M1 M2 M3 M4 M5 M6].
  assert (Hvp : vpage (PGSIZE * zlen ps) = zlen ps) by apply (vpage_add 0 (zlen ps)). rewrite Hvp in M6. pose proof (zlen_nonneg ps) as Hz.
  assert (Hnl : zlen new = k) by (by destruct Hnew as [[-> ->]|[-> ->]]).
  assert (Hnin : forall p, p ∈ new -> p = pa) by (intros p; destruct Hnew as [[_ ->]|[_ ->]]; [by rewrite elem_of_nil|by rewrite list_elem_of_singleton]).
  assert (Hlow : forall va, in_va va -> outside ps va -> lf m' pt va = lf m pt va) by (intros va Hva Hlt; rewrite M6, decide_False by (done || by apply outside_new); done).
  split; [|split; [|done]].
  - split.
    + done.
    + apply maps_to_app. split.
      * eapply maps_to_ext; [done|]. intros i Hi. destruct (user_va (zlen ps) (Z.of_nat i)) as [Hva Hvi]; [unfold PGSIZE in *; lia|unfold zlen; lia|].
        apply Hlow; [done|]. left. rewrite Hvi. unfold zlen. lia.
      * intros i p Hi. destruct Hnew as [[_ ->]|[-> ->]]; [done|]. destruct i; [|done]. injection Hi as <-.
        exists (mk_pte pa (Z.lor perm PTE_V)). assert (Hf : 0 <= Z.lor perm PTE_V < 1024) by (apply lor_flags_range; [done|unfold PTE_V; lia]).
        rewrite Z.mul_0_r, Z.add_0_r, Z.add_0_l. rewrite M6, Hvp, decide_True, Z.sub_diag, Z.mul_0_r, Z.add_0_r;
          [|lia|unfold in_va, TRAPFRAME, TRAMPOLINE, MAXVA, PGSIZE in *; lia].
        split; [done|]. split; [by apply PTE2PA_mk|]. by rewrite PTE_FLAGS_mk.
    + rewrite M3. apply Forall_app. split; [done|]. apply Forall_forall. by intros p ->%Hnin.
    + rewrite M1 in Hn, Hpl. apply NoDup_app in Hn as (N1 & N2 & (_ & _ & N3)%NoDup_app). apply NoDup_app. split; [|split; [|done]].
      * apply NoDup_app. split; [done|]. split; [intros p Hp1 ->%Hnin; done|]. destruct Hnew as [[_ ->]|[_ ->]]; [constructor|apply NoDup_singleton].
      * intros p [Hp1| ->%Hnin]%elem_of_app Hp2; [apply (N2 p Hp1)|apply Hpl]; apply elem_of_app; by right.
    + intros p Hp1. rewrite M4. apply not_elem_of_app. apply elem_of_app in Hp1 as [Hp1| ->%Hnin].
      * split; [by apply Ht|]. intros Hin. destruct (uspace_disj m l pt ps p Hu) as [_ Hd]; [rewrite M1; by apply elem_used|done].
      * split; [done|]. intros Hin. apply Hpl. rewrite M1. by apply elem_used.
    + by rewrite zlen_app, Hnl.
    + intros va Hva Hr. rewrite zlen_app, Hnl in Hr. rewrite M6, decide_False by (done || lia). apply Ho; [done|].
      destruct Hnew as [[-> _]|[-> _]]; lia.
  - unfold pool. rewrite M1. perm.
Qed.

Lemma npages_one a : aligned a -> npages a PGSIZE = 1.
Proof.
  intros Ha. unfold npages, vpage. rewrite (aligned_mul a Ha). set (k := a / PGSIZE).
  replace (PGSIZE * k + PGSIZE - 1) with (k * PGSIZE + (PGSIZE - 1)) by lia. rewrite (Z.mul_comm PGSIZE k), Z.div_mul by done.
  rewrite Z.div_add_l by done. change ((PGSIZE - 1) / PGSIZE) with 0. lia.
Qed.

(** Taking a page off the free list and filling it. *)
Lemma take_page m p l pt ps pg :
  uspace m (p :: l) pt ps -> zlen pg = PGSIZE -> bytes_ok pg ->
  exists m1, kalloc m = Ok (p, m1) /\ p <> 0 /\ ram m1 !! p = Some (full_page 5) /\
    (forall q, q <> p -> ram m1 !! q = ram m !! q) /\ uspace m1 l pt ps /\
    let m2 := set_ram (insert p pg) m1 in
    uspace m2 l pt ps /\ kend m2 = kend m /\ tables (ram m2) 2 pt = tables (ram m) 2 pt /\ (forall va, lf m2 pt va = lf m pt va) /\
    (forall q, q <> p -> ram m2 !! q = ram m !! q) /\ page_ok (kend m) p /\ p ∉ ps /\ p ∉ l /\ p ∉ tables (ram m) 2 pt.
Proof.
  intros Hu Hlen Hby. pose proof (vo_alloc _ _ _ (us_vm _ _ _ _ Hu)) as Hok.
  destruct (kalloc_ok m (p :: l) Hok) as (m1 & He & Hok1 & Hr1 & Hk1).
  pose proof (proj1 (proj1 (Forall_cons _ _ _) (ao_pages _ _ Hok))) as Hp. pose proof (proj1 (proj1 (NoDup_cons _ _) (ao_nodup _ _ Hok))) as Hpl.
  destruct (uspace_disj m (p :: l) pt ps p Hu (list_elem_of_here _ _)) as [Hpt Hps].
  assert (Hd : forall q, q ∈ l -> q ∉ tables (ram m) 2 pt /\ q ∉ ps) by (intros q Hq; apply (uspace_disj m (p :: l)); [done|by apply list_elem_of_further]).
  exists m1. split; [done|]. split; [by eapply page_ok_ne0; [apply Hok|]|]. split; [by rewrite Hr1, lookup_insert_eq|].
  split; [intros q Hq; rewrite Hr1; by apply lookup_insert_ne|].
  split; [eapply uspace_ext; [exact Hu|done|done| |done]; intros q Hq; rewrite Hr1; apply lookup_insert_ne; by intros <-|]. intros m2.
  assert (Hok2 : alloc_ok m2 l).
  { eapply alloc_ok_ext; [exact Hok1|by apply set_ram_ok; [apply Hok1| |]|done|done|]. intros q Hq. apply lookup_insert_ne. by intros ->. }
  assert (Hfr : forall q, q <> p -> ram m2 !! q = ram m !! q) by (intros q Hq; simpl; rewrite lookup_insert_ne, Hr1, lookup_insert_ne by done; done).
  destruct (uspace_ext m (p :: l) pt ps m2 l Hu Hok2) as (Hu2 & Ht2 & Hl2); [done| |done|split_and!; done].
  intros q Hq. apply Hfr. by intros ->.
Qed.

(** Mapping a page that was taken at the top of the address space: done, or no memory for a table. *)
Lemma map_top m l pt ps p perm :
  uspace m l pt ps -> page_ok (kend m) p -> p ∉ ps -> p ∉ l -> p ∉ tables (ram m) 2 pt -> 0 <= perm < 1024 -> Z.lor perm PTE_V <> PTE_V ->
  PGSIZE * (zlen ps + 1) <= TRAPFRAME ->
  exists r m' l', mappages pt (PGSIZE * zlen ps) PGSIZE p perm m = Ok (r, m') /\ kend m' = kend m /\
    (r = 0 /\ uspace m' l' pt (ps ++ [p]) /\ pool m' l' pt (ps ++ [p]) ≡ₚ p :: pool m l pt ps /\
       lf m' pt (PGSIZE * zlen ps) = Some (mk_pte p (Z.lor perm PTE_V)) \/
     r = -1 /\ uspace m' l' pt ps /\ pool m' l' pt ps ≡ₚ pool m l pt ps /\ p ∉ tables (ram m') 2 pt /\ p ∉ l') /\
    (forall va, in_va va -> outside ps va -> lf m' pt va = lf m pt va) /\
    (forall q, q ∈ p :: ps -> ram m' !! q = ram m !! q) /\ tables (ram m) 2 pt ⊆+ tables (ram m') 2 pt.
Proof.
  intros Hu Hp Hps Hpl Hpt Hperm Hpv Hlim. pose proof (zlen_nonneg ps) as Hz.
  assert (Ha : aligned (PGSIZE * zlen ps)) by (unfold aligned; rewrite Z.mul_comm; by apply Z.mod_mul).
  assert (Hvp : vpage (PGSIZE * zlen ps) = zlen ps) by apply (vpage_add 0 (zlen ps)).
  pose proof (page_ok_pa _ _ (ro_kend _ (ao_ram _ _ (vo_alloc _ _ _ (us_vm _ _ _ _ Hu)))) Hp) as Hpa. pose proof Hp as [_ Hpr].
  destruct (mappages_ok m l pt (PGSIZE * zlen ps) PGSIZE p perm) as (r & m' & used & l' & k & He & M & Hr); rewrite ?npages_one by done; try done.
  - apply Hu.
  - unfold PGSIZE; lia.
  - unfold TRAPFRAME, TRAMPOLINE, PGSIZE in *; lia.
  - apply Hpa.
  - apply Hpa.
  - unfold PHYSTOP, KERNBASE, PGSIZE in *. lia.
  - intros va Hva Hr. apply Hu; [done|]. rewrite Hvp in Hr. pose proof (aligned_mul TRAPFRAME eq_refl) as Ht. fold (vpage TRAPFRAME) in Ht.
    unfold PGSIZE in *. lia.
  - rewrite npages_one in Hr by done. exists r, m', l'. split; [done|]. split; [apply M|].
    assert (Hfr : forall q, q ∈ p :: ps -> ram m' !! q = ram m !! q).
    { intros q [->|Hq]%elem_of_cons; [|by eapply mapped_frame]. apply M; [done|]. intros Hin. apply Hpl. rewrite (mp_l _ _ _ _ _ _ _ _ _ _ M). by apply elem_used. }
    assert (Hsub : tables (ram m) 2 pt ⊆+ tables (ram m') 2 pt) by (rewrite (mp_tables _ _ _ _ _ _ _ _ _ _ M); apply submseteq_inserts_r; done).
    destruct Hr as [[-> ->]|(-> & Hk & ->)].
    + destruct (uspace_mapped m l pt ps _ p perm 1 m' used l' [p] Hu M) as (Hu' & Hpool & Hlow); try done; [by right|].
      split_and!; [left|done|done|done]. split_and!; try done. rewrite (mp_lf _ _ _ _ _ _ _ _ _ _ M), decide_True, Z.sub_diag, Z.mul_0_r, Z.add_0_r; [done|lia|].
      unfold in_va, TRAPFRAME, TRAMPOLINE, MAXVA, PGSIZE in *. lia.
    + assert (k = 0) as -> by lia.
      destruct (uspace_mapped m l pt ps _ p perm 0 m' used [] [] Hu M) as (Hu' & Hpool & Hlow); try done; [by left|unfold PGSIZE in *; lia|].
      rewrite app_nil_r in Hu', Hpool. split_and!; [right|done|done|done]. split_and!; try done; [|by apply not_elem_of_nil].
      rewrite (mp_tables _ _ _ _ _ _ _ _ _ _ M). apply not_elem_of_app. split; [done|].
      intros Hin. apply Hpl. rewrite (mp_l _ _ _ _ _ _ _ _ _ _ M). by apply elem_used.
Qed.

Lemma npg_mul k : 0 <= k -> PGSIZE * k <= MAXVA -> npg (PGSIZE * k) = k.
Proof. intros Hk Hm. destruct (PGROUNDUP_npg (PGSIZE * k)) as (_ & _ & H); unfold PGSIZE in *; lia. Qed.

Lemma uspace_zlen_max m l pt ps : uspace m l pt ps -> PGSIZE * zlen ps <= MAXVA.
Proof. intros Hu. pose proof (us_lim _ _ _ _ Hu). unfold TRAPFRAME, TRAMPOLINE, PGSIZE in *. lia. Qed.

(** Undoing a growth. *)
Lemma uvmdealloc_undo m l pt ps new :
  uspace m l pt (ps ++ new) ->
  exists m', uvmdealloc pt (PGSIZE * zlen (ps ++ new)) (PGSIZE * zlen ps) m = Ok (PGSIZE * zlen ps, m') /\ uspace m' (reverse new ++ l) pt ps /\
    kend m' = kend m /\ pool m' (reverse new ++ l) pt ps ≡ₚ pool m l pt (ps ++ new) /\ tables (ram m') 2 pt = tables (ram m) 2 pt /\
    (forall va, in_va va -> outside ps va -> lf m' pt va = lf m pt va) /\ (forall p, p ∈ ps -> ram m' !! p = ram m !! p).
Proof.
  intros Hu. pose proof (uspace_zlen_max _ _ _ _ Hu) as Hmax. rewrite zlen_app in *. pose proof (zlen_nonneg ps). pose proof (zlen_nonneg new).
  destruct (uvmdealloc_ok m l pt ps new (PGSIZE * (zlen ps + zlen new)) (PGSIZE * zlen ps)) as (m' & He & Hu' & Hk & Ht & Hl & Hf);
    rewrite ?npg_mul; try done; try (unfold PGSIZE in *; lia).
  exists m'. split_and!; try done.
  - unfold pool. rewrite Ht. pose proof (reverse_Permutation new). perm.
  - intros p Hp. apply Hf; [by apply Hu, elem_used|]. intros Hin. pose proof (us_nodup _ _ _ _ Hu) as (N & _)%NoDup_app.
    apply NoDup_app in N as (_ & N & _). by apply (N p).
Qed.

Lemma perm_not_V f g : Z.lor (Z.lor (Z.lor PTE_R f) g) PTE_V <> PTE_V.
Proof. intros E. apply (f_equal (fun z => Z.testbit z 1)) in E. by rewrite !Z.lor_spec in E. Qed.

(** What a run of [uvmalloc] may end with. *)
Record alloc_done (m : mem) (pt : Z) (ps : list Z) (l : list Z) (n perm : Z) (m' : mem) (l' more : list Z) : Prop := {
  ad_us : uspace m' l' pt (ps ++ more);
  ad_len : zlen (ps ++ more) = Z.max n (zlen ps);
  ad_pool : pool m' l' pt (ps ++ more) ≡ₚ pool m l pt ps;
  ad_zero p : p ∈ more -> ram m' !! p = Some (full_page 0);
  ad_new i p : more !! i = Some p -> lf m' pt (PGSIZE * (zlen ps + Z.of_nat i)) = Some (mk_pte p (Z.lor perm PTE_V));
  ad_old va : in_va va -> outside ps va -> lf m' pt va = lf m pt va;
  ad_frame p : p ∈ ps -> ram m' !! p = ram m !! p;
  ad_tables : tables (ram m) 2 pt ⊆+ tables (ram m') 2 pt;
}.

Record alloc_undone (m : mem) (pt : Z) (ps new : list Z) (l : list Z) (m' : mem) (l' : list Z) : Prop := {
  au_us : uspace m' l' pt ps;
  au_pool : pool m' l' pt ps ≡ₚ pool m l pt (ps ++ new);
  au_old va : in_va va -> outside ps va -> lf m' pt va = lf m pt va;
  au_frame p : p ∈ ps -> ram m' !! p = ram m !! p;
  au_tables : tables (ram m) 2 pt ⊆+ tables (ram m') 2 pt;
}.

(** One round of [uvmalloc]: a zeroed page at the top, or no memory and everything as before. *)
Lemma grow_one m p l pt ps perm :
  uspace m (p :: l) pt ps -> 0 <= perm < 1024 -> Z.lor perm PTE_V <> PTE_V -> PGSIZE * (zlen ps + 1) <= TRAPFRAME ->
  exists m1 m2 r m3 l3, kalloc m = Ok (p, m1) /\ p <> 0 /\ fill p 0 m1 = Ok (tt, m2) /\
    mappages pt (PGSIZE * zlen ps) PGSIZE p perm m2 = Ok (r, m3) /\ kend m3 = kend m /\
    (r = 0 /\ alloc_done m pt ps (p :: l) (zlen ps + 1) perm m3 l3 [p] \/
     r = -1 /\ exists m4, kfree p m3 = Ok (tt, m4) /\ kend m4 = kend m /\ alloc_undone m pt ps [] (p :: l) m4 (p :: l3)).
Proof.
  intros Hu Hperm Hpv Hlim. destruct (take_page m p l pt ps (full_page 0) Hu) as (m1 & He1 & Hne & Hp1 & _ & _ & Hu2 & Hk2 & Ht2 & Hl2 & Hf2 & Hp & Hps & Hpl & Hpt).
  { apply zlen_full_page. } { apply bytes_ok_full_page. unfold byte_ok. lia. }
  set (m2 := set_ram (insert p (full_page 0)) m1) in *.
  destruct (map_top m2 l pt ps p perm Hu2) as (r & m3 & l3 & He3 & Hk3 & Hr & Hl3 & Hf3 & Hsub); rewrite ?Hk2, ?Ht2; try done.
  exists m1, m2, r, m3, l3. split; [done|]. split; [done|]. split; [by apply (fill_ok m1 p (full_page 5))|]. split; [done|]. split; [by rewrite Hk3|].
  assert (Hfp : forall q, q ∈ ps -> ram m3 !! q = ram m !! q).
  { intros q Hq. rewrite Hf3 by by apply list_elem_of_further. apply Hf2. by intros ->. }
  destruct Hr as [(-> & Hu3 & Hpool & Hlf)|(-> & Hu3 & Hpool & Hpt3 & Hpl3)]; [left|right]; (split; [done|]).
  - split; try done.
    + rewrite zlen_app. change (zlen [p]) with 1. pose proof (zlen_nonneg ps). lia.
    + rewrite Hpool. unfold pool. rewrite Ht2. perm.
    + intros q ->%list_elem_of_singleton. rewrite Hf3 by apply list_elem_of_here. apply lookup_insert_eq.
    + intros [|i] q Hq; [|done]. injection Hq as <-. by rewrite Z.add_0_r.
    + intros va Hva Hlt. by rewrite Hl3, Hl2.
    + by rewrite <- Ht2.
  - pose proof (vo_alloc _ _ _ (us_vm _ _ _ _ Hu3)) as Hok3. destruct (kfree_ok m3 l3 p Hok3) as [Hkf Hok4]; [by rewrite Hk3, Hk2|done|].
    eexists. split; [exact Hkf|]. split; [simpl; by rewrite Hk3|]. set (m4 := set_freelist _ _) in *.
    destruct (uspace_ext m3 l3 pt ps m4 (p :: l3) Hu3 Hok4) as (Hu4 & Ht4 & Hl4); [done|..].
    { intros q Hq. apply lookup_insert_ne. by intros <-. }
    { intros q [->|Hq]%elem_of_cons; [done|]. by apply (uspace_disj m3 l3). }
    split; rewrite ?app_nil_r; try done.
    + unfold pool in *. rewrite Ht4. rewrite Ht2 in Hpool. perm.
    + intros va Hva Hlt. by rewrite Hl4, Hl3, Hl2.
    + intros q Hq. rewrite <- (Hfp q Hq). apply lookup_insert_ne. by intros <-.
    + by rewrite Ht4, <- Ht2.
Qed.

Lemma alloc_done_step m pt ps l n perm m1 l1 p m2 l2 more :
  alloc_done m pt ps l (zlen ps + 1) perm m1 l1 [p] -> alloc_done m1 pt (ps ++ [p]) l1 n perm m2 l2 more -> zlen ps + 1 <= n ->
  alloc_done m pt ps l n perm m2 l2 (p :: more).
Proof.
  intros [A1 A2 A3 A4 A5 A6 A7 A8] [B1 B2 B3 B4 B5 B6 B7 B8] Hn. rewrite <- app_assoc in *. cbn [app] in *.
  assert (Hz : zlen (ps ++ [p]) = zlen ps + 1) by by rewrite zlen_app. rewrite Hz in *. pose proof (zlen_nonneg ps). pose proof (us_lim _ _ _ _ A1) as Hlim. rewrite Hz in Hlim.
  split.
  - done.
  - rewrite B2. lia.
  - by rewrite B3, A3.
  - intros q [->|Hq]%elem_of_cons; [|by apply B4]. rewrite B7 by (apply elem_of_app; right; apply list_elem_of_here). apply A4, list_elem_of_here.
  - intros [|i] q Hq.
    + injection Hq as <-. rewrite <- (A5 0%nat p eq_refl). rewrite Z.add_0_r in *. apply B6.
      * unfold in_va, TRAPFRAME, TRAMPOLINE, MAXVA, PGSIZE in *. lia.
      * pose proof (vpage_add 0 (zlen ps)) as E. rewrite Z.add_0_l in E. left. rewrite E, Hz. change (vpage 0) with 0. lia.
    + rewrite <- (B5 i q Hq). f_equal. unfold PGSIZE. lia.
  - intros va Hva Hlt. rewrite B6, A6 by (done || by apply outside_app). done.
  - intros q Hq. rewrite B7 by (apply elem_of_app; by left). by apply A7.
  - by transitivity (tables (ram m1) 2 pt).
Qed.

Lemma alloc_undone_step m pt ps new l m1 l1 p m2 l2 perm :
  alloc_done m pt (ps ++ new) l (zlen (ps ++ new) + 1) perm m1 l1 [p] -> alloc_undone m1 pt ps (new ++ [p]) l1 m2 l2 ->
  alloc_undone m pt ps new l m2 l2.
Proof.
  intros [A1 A2 A3 A4 A5 A6 A7 A8] [B1 B2 B3 B4 B5]. rewrite app_assoc in B2. split.
  - done.
  - by rewrite B2, A3.
  - intros va Hva Hlt. rewrite B3, A6 by (done || by apply outside_app). done.
  - intros q Hq. rewrite B4 by done. apply A7. by apply elem_used.
  - by transitivity (tables (ram m1) 2 pt).
Qed.

Lemma npg_lim newsz : 0 <= newsz <= TRAPFRAME -> PGSIZE * npg newsz <= TRAPFRAME.
Proof.
  intros Hn. destruct (PGROUNDUP_npg newsz) as (_ & _ & Hb); [unfold TRAPFRAME, TRAMPOLINE, PGSIZE in *; lia|].
  pose proof (aligned_mul TRAPFRAME eq_refl) as Ht. unfold PGSIZE in *. lia.
Qed.

Lemma uvmalloc_loop_ok fuel m l pt ps new newsz xperm :
  uspace m l pt (ps ++ new) -> npg newsz <= zlen (ps ++ new) + Z.of_nat fuel -> 0 <= newsz <= TRAPFRAME -> 0 <= xperm < 1024 ->
  let perm := Z.lor (Z.lor PTE_R PTE_U) xperm in
  exists r m' l', uvmalloc_loop fuel pt (PGSIZE * zlen (ps ++ new)) (PGSIZE * zlen ps) newsz xperm m = Ok (r, m') /\ kend m' = kend m /\
    ((r = newsz /\ exists more, alloc_done m pt (ps ++ new) l (npg newsz) perm m' l' more) \/
     (r = 0 /\ alloc_undone m pt ps new l m' l')).
Proof.
  intros Hu Hfuel Hn0 Hx perm. pose proof (npg_lim _ Hn0) as Hlim. revert m l new Hu Hfuel. induction fuel as [|fuel IH]; intros m l new Hu Hfuel.
  all: pose proof (zlen_nonneg (ps ++ new)) as Hz.
  all: assert (Hmax : newsz <= MAXVA) by (unfold TRAPFRAME, TRAMPOLINE, PGSIZE in *; lia).
  all: destruct (PGROUNDUP_npg newsz) as (_ & _ & Hb); [lia|].
  all: assert (Hdone : npg newsz <= zlen (ps ++ new) -> alloc_done m pt (ps ++ new) l (npg newsz) perm m l []).
  1, 3: intros Hle; split; rewrite ?app_nil_r; try done; [lia|by intros p ?%elem_of_nil].
  - exists newsz, m, l. cbn [uvmalloc_loop]. rewrite (proj2 (Z.ltb_ge _ _)) by (unfold PGSIZE in *; lia).
    split; [done|]. split; [done|]. left. split; [done|]. exists []. apply Hdone. lia.
  - cbn [uvmalloc_loop]. destruct (PGSIZE * zlen (ps ++ new) <? newsz) eqn:E; zbool.
    2:{ exists newsz, m, l. split; [done|]. split; [done|]. left. split; [done|]. exists []. apply Hdone. unfold PGSIZE in *. lia. }
    assert (Hperm : 0 <= perm < 1024) by (apply lor_flags_range; [by vm_compute|done]).
    destruct l as [|p l].
    { rewrite (bind_ok _ _ _ _ _ (kalloc_ok m [] (vo_alloc _ _ _ (us_vm _ _ _ _ Hu)))). cbn [Z.eqb].
      destruct (uvmdealloc_undo m [] pt ps new Hu) as (m' & He & Hu' & Hk & Hp & Ht & Hl & Hf). rewrite (bind_ok _ _ _ _ _ He).
      exists 0, m', (reverse new ++ []). split; [done|]. split; [done|]. right. split; [done|]. split; try done. by rewrite Ht. }
    destruct (grow_one m p l pt (ps ++ new) perm Hu Hperm) as (m1 & m2 & r & m3 & l3 & He1 & Hne & He2 & He3 & Hk3 & Hr).
    { apply perm_not_V. } { unfold PGSIZE in *. lia. }
    rewrite (bind_ok _ _ _ _ _ He1), (proj2 (Z.eqb_neq _ _) Hne), (bind_ok _ _ _ _ _ He2). fold perm. rewrite (bind_ok _ _ _ _ _ He3).
    destruct Hr as [[-> D]|(-> & m4 & Hkf & Hk4 & [V1 V2 V3 V4 V5])]; cbn [Z.eqb negb].
    + pose proof (ad_us _ _ _ _ _ _ _ _ _ D) as Hu3. rewrite <- app_assoc in Hu3.
      assert (Hlen : zlen (ps ++ new ++ [p]) = zlen (ps ++ new) + 1) by (by rewrite app_assoc, zlen_app).
      destruct (IH m3 l3 (new ++ [p]) Hu3) as (r & m' & l' & He & Hk & Hr); [lia|].
      rewrite uint64_small by (unfold MAXVA, PGSIZE in *; lia).
      replace (PGSIZE * zlen (ps ++ new) + PGSIZE) with (PGSIZE * zlen (ps ++ new ++ [p])) by lia.
      exists r, m', l'. split; [exact He|]. split; [by rewrite Hk|]. destruct Hr as [(-> & more & D2)|(-> & V)]; [left|right]; (split; [done|]).
      * exists (p :: more). rewrite app_assoc in D2. eapply alloc_done_step; [exact D|exact D2|unfold PGSIZE in *; lia].
      * by eapply alloc_undone_step.
    + rewrite (bind_ok _ _ _ _ _ Hkf). destruct (uvmdealloc_undo m4 (p :: l3) pt ps new V1) as (m' & He & Hu' & Hk & Hp & Ht & Hl & Hf).
      rewrite (bind_ok _ _ _ _ _ He). exists 0, m', (reverse new ++ p :: l3). split; [done|]. split; [by rewrite Hk|]. right. split; [done|]. split.
      * done.
      * by rewrite Hp, V2, app_nil_r.
      * intros va Hva Hlt. rewrite Hl by done. apply V3; [done|]. by apply outside_app.
      * intros q Hq. rewrite Hf, V4; [done|by apply elem_used|done].
      * by rewrite Ht.
Qed.

Lemma uvmalloc_ok m l pt ps oldsz newsz xperm :
  uspace m l pt ps -> 0 <= oldsz <= newsz -> newsz <= TRAPFRAME -> npg oldsz = zlen ps -> 0 <= xperm < 1024 ->
  exists r m' l', uvmalloc pt oldsz newsz xperm m = Ok (r, m') /\ kend m' = kend m /\
    ((r = newsz /\ exists more, alloc_done m pt ps l (npg newsz) (Z.lor (Z.lor PTE_R PTE_U) xperm) m' l' more) \/
     (r = 0 /\ alloc_undone m pt ps [] l m' l')).
Proof.
  intros Hu Hs Hlim Hold Hx. assert (Hm : newsz <= MAXVA) by (unfold TRAPFRAME, TRAMPOLINE, PGSIZE in *; lia).
  destruct (PGROUNDUP_npg oldsz) as (E1 & _ & _); [lia|]. destruct (PGROUNDUP_npg newsz) as (_ & _ & B); [lia|].
  unfold uvmalloc. rewrite (proj2 (Z.ltb_ge _ _)) by lia. rewrite E1, Hold. pose proof (zlen_nonneg ps).
  destruct (uvmalloc_loop_ok (Z.to_nat (newsz / PGSIZE + 1)) m l pt ps [] newsz xperm) as (r & m' & l' & He & Hk & Hr);
    rewrite ?app_nil_r in *; try done; try lia.
  - pose proof (Z_div_mod_eq_full newsz PGSIZE). pose proof (Z.mod_pos_bound newsz PGSIZE). unfold PGSIZE in *. lia.
  - by exists r, m', l'.
Qed.

(** An empty address space. *)
Lemma uvmcreate_ok m p l :
  alloc_ok m (p :: l) -> exists m', uvmcreate m = Ok (p, m') /\ uspace m' l p [] /\ kend m' = kend m /\
    tables (ram m') 2 p = [p] /\ (forall va, lf m' p va = None) /\ (forall q, q <> p -> ram m' !! q = ram m !! q).
Proof.
  intros Hok. destruct (kalloc_ok m (p :: l) Hok) as (m1 & He & Hok1 & Hr1 & Hk1).
  pose proof (proj1 (proj1 (Forall_cons _ _ _) (ao_pages _ _ Hok))) as Hp. pose proof (proj1 (proj1 (NoDup_cons _ _) (ao_nodup _ _ Hok))) as Hpl.
  exists (set_ram (insert p (full_page 0)) m1). set (m2 := set_ram _ m1). unfold uvmcreate. rewrite (bind_ok _ _ _ _ _ He).
  rewrite (proj2 (Z.eqb_neq _ _)) by (by eapply page_ok_ne0; [apply Hok|]).
  assert (Hp1 : ram m1 !! p = Some (full_page 5)) by by rewrite Hr1, lookup_insert_eq. rewrite (bind_ok _ _ _ _ _ (fill_ok m1 p _ 0 Hp1)).
  assert (Hok2 : alloc_ok m2 l).
  { eapply alloc_ok_ext; [exact Hok1| |done|done|].
    - apply set_ram_ok; [apply Hok1|apply zlen_full_page|apply bytes_ok_full_page; unfold byte_ok; lia].
    - intros q Hq. apply lookup_insert_ne. by intros ->. }
  destruct (tables_zero (ram m2) 2 p) as [Ht Hl]; [apply lookup_insert_eq|].
  split; [done|]. split; [|split_and!; try done; intros q Hq; simpl; by rewrite lookup_insert_ne, Hr1, lookup_insert_ne].
  split.
  - split; [done| |]; rewrite Ht; [apply NoDup_cons; split; [done|apply (ao_nodup _ _ Hok1)]|]. apply Forall_singleton. simpl. by rewrite Hk1.
  - by intros i q Hi.
  - constructor.
  - apply (ao_nodup _ _ Hok1).
  - by intros q ?%elem_of_nil.
  - done.
  - intros va _ _. apply Hl.
Qed.

(** A machine with [n] pages and an empty address space. *)
Lemma empty_space n : 0 < Z.of_nat n <= 32768 -> exists m p l, uspace m l p [] /\ (forall va, lf m p va = None).
Proof.
  intros Hn. destruct (machine_started n ltac:(lia)) as (m & l & _ & Hok & Hk & Hl). destruct l as [|p l].
  - exfalso. apply (not_elem_of_nil (PHYSTOP - PGSIZE)), Hl. rewrite Hk. split; [done|]. unfold machine, PHYSTOP, PGSIZE. cbn [kend]. lia.
  - destruct (uvmcreate_ok m p l Hok) as (m' & _ & Hu & _ & _ & Hnone & _). by exists m', p, l.
Qed.

(** A run from the boot of a machine with [n] pages to an address space of [sz] bytes. *)
Definition boot_space (sz : Z) : K mem Z := kinit;; p ← uvmcreate; uvmalloc p 0 sz PTE_W.

Lemma boot_space_ok n sz :
  0 < Z.of_nat n <= 32768 -> 0 < sz <= TRAPFRAME -> match boot_space sz (machine n) with Ok (r, _) => r =? sz | _ => false end = true ->
  exists m l pt ps, boot_space sz (machine n) = Ok (sz, m) /\ uspace m l pt ps /\ zlen ps = npg sz /\
    (forall i p, ps !! i = Some p -> ram m !! p = Some (full_page 0) /\ lf m pt (PGSIZE * Z.of_nat i) = Some (mk_pte p (Z.lor (Z.lor (Z.lor PTE_R PTE_U) PTE_W) PTE_V))) /\
    (forall va, in_va va -> vpage TRAPFRAME <= vpage va -> lf m pt va = None).
Proof.
  intros Hn Hs Hrun. destruct (machine_started n ltac:(lia)) as (m & l & He & Hok & Hk & Hl). unfold boot_space in *. rewrite (bind_ok _ _ _ _ _ He) in *.
  destruct l as [|p l].
  { exfalso. apply (not_elem_of_nil (PHYSTOP - PGSIZE)), Hl. rewrite Hk. split; [done|]. unfold machine, PHYSTOP, PGSIZE. cbn [kend]. lia. }
  destruct (uvmcreate_ok m p l Hok) as (m1 & He1 & Hu & _ & _ & Hnone & _). rewrite (bind_ok _ _ _ _ _ He1) in *.
  destruct (uvmalloc_ok m1 l p [] 0 sz PTE_W Hu) as (r & m2 & l2 & He2 & _ & Hr); [lia|lia|done|unfold PTE_W; lia|]. rewrite He2 in *. apply Z.eqb_eq in Hrun as ->.
  destruct Hr as [(_ & more & D)|(-> & _)]; [|lia]. exists m2, l2, p, more. split; [done|]. split; [apply D|]. split; [|split].
  - rewrite (ad_len _ _ _ _ _ _ _ _ _ D : zlen more = _). destruct (PGROUNDUP_npg sz) as (_ & ? & _); [unfold TRAPFRAME, TRAMPOLINE, PGSIZE in *; lia|]. change (zlen []) with 0. lia.
  - intros i q Hq. split; [by apply D, list_elem_of_lookup_2 with i|]. exact (ad_new _ _ _ _ _ _ _ _ _ D i q Hq).
  - intros va Hva Hhi. rewrite (ad_old _ _ _ _ _ _ _ _ _ D) by (done || by right). apply Hnone.
Qed.

(** ** Properties *)

(** [mappages] on a range that is not mapped answers 0 when it has mapped every page the
    range touches to consecutive physical pages, with the permissions asked for, and -1
    when a table page could not be allocated, with a prefix of the range mapped.  No other address
    changes its mapping, no page outside the tables changes, and the table pages it adds come off
    the free list. *)
Theorem mappages_maps (m : mem) (l : list Z) (pt va size pa perm : Z) :
  vm_ok m l pt -> 0 <= va -> 0 < size -> va + size <= MAXVA ->
  aligned pa -> 0 <= pa -> pa + PGSIZE * npages va size <= 2 ^ 56 -> 0 <= perm < 1024 ->
  (forall va', in_va va' -> vpage va <= vpage va' < vpage va + npages va size -> lf m pt va' = None) ->
  exists r m' used l' k, mappages pt va size pa perm m = Ok (r, m') /\ mapped m l pt va pa perm k m' used l' /\
    (r = 0 /\ k = npages va size \/ r = -1 /\ 0 <= k < npages va size /\ l' = []).
Proof. apply mappages_ok. Qed.

Lemma mappages_maps_witness :
  exists m l pt, vm_ok m l pt /\ exists r m' used l' k, mappages pt 5000 5000 0 PTE_R m = Ok (r, m') /\ mapped m l pt 5000 0 PTE_R k m' used l'.
Proof.
  destruct (empty_space 4 ltac:(lia)) as (m' & p & l & Hu & Hn). exists m', l, p. split; [apply (us_vm _ _ _ _ Hu)|].
  destruct (mappages_maps m' l p 5000 5000 0 PTE_R (us_vm _ _ _ _ Hu)) as (r & m2 & used & l2 & k & He & M & _).
  - lia.
  - lia.
  - unfold MAXVA. lia.
  - reflexivity.
  - lia.
  - unfold npages, vpage, PGSIZE. vm_compute. congruence.
  - unfold PTE_R. lia.
  - intros va' _ _. apply Hn.
  - exists r, m2, used, l2, k. split; [exact He|exact M].
Defined.




(** [uvmdealloc] to a smaller size returns it, with the pages above it unmapped and back on
    the free list; the pages below keep their contents and mappings. *)
Theorem uvmdealloc_shrinks (m : mem) (l : list Z) (pt : Z) (ps ps' : list Z) (oldsz newsz : Z) :
  uspace m l pt (ps ++ ps') -> 0 <= newsz <= oldsz -> oldsz <= MAXVA -> npg newsz = zlen ps -> npg oldsz = zlen ps + zlen ps' ->
  exists m', uvmdealloc pt oldsz newsz m = Ok (newsz, m') /\ uspace m' (reverse ps' ++ l) pt ps /\ kend m' = kend m /\
    tables (ram m') 2 pt = tables (ram m) 2 pt /\
    (forall va, in_va va -> outside ps va -> lf m' pt va = lf m pt va) /\
    (forall p, p ∉ tables (ram m) 2 pt -> p ∉ ps' -> ram m' !! p = ram m !! p).
Proof. apply uvmdealloc_ok. Qed.

Lemma uvmdealloc_shrinks_witness :
  exists m l pt p q m', uspace m l pt [p; q] /\ uvmdealloc pt 5000 100 m = Ok (100, m') /\ uspace m' (q :: l) pt [p].
Proof.
  destruct (boot_space_ok 10 5000) as (m & l & pt & ps & _ & Hu & Hlen & _); [lia|unfold TRAPFRAME, TRAMPOLINE, MAXVA, PGSIZE; lia|vm_compute; reflexivity|].
  change (npg 5000) with 2 in Hlen. destruct ps as [|p [|q [|? ?]]]; try (unfold zlen in Hlen; simpl in Hlen; lia).
  destruct (uvmdealloc_shrinks m l pt [p] [q] 5000 100 Hu) as (m' & He & Hu' & _).
  - lia.
  - unfold MAXVA. lia.
  - reflexivity.
  - reflexivity.
  - exists m, l, pt, p, q, m'. split; [exact Hu|]. split; [exact He|exact Hu'].
Defined.
