(* ===== verification/VmCopy.v ===== *)
(** * Copying between the kernel and user space

    User memory is the function [ubyte] from addresses to bytes, defined where
    [upage] is.  [copyout] and [copyin] write and read it across page
    boundaries, stopping at the first page the process may not access;
    [copyinstr] reads up to the first NUL. *)

From stdpp Require Import base numbers list list_numbers gmap strings.
From Stdlib Require Import ZArith Lia.
From S2P Require Import Prelude Params Kalloc Vm VmProof VmMap VmSpace.

#[local] Opaque tables.

Lemma leaf_same_path r n pt va va' : same_path n va va' -> leaf r n pt va = leaf r n pt va'.
Proof.
  revert pt. induction n as [|n IH]; intros pt; cbn [same_path].
  - intros [E _]. unfold leaf. cbn [table0]. change (Z.of_nat 0) with 0 in E. by rewrite E.
  - intros [E H]. rewrite !leaf_S, E. cbv zeta. destruct (has _ _); [by apply IH|done].
Qed.

Lemma lf_vpage m pt va va' : in_va va -> in_va va' -> vpage va = vpage va' -> lf m pt va = lf m pt va'.
Proof. intros H H' E. apply leaf_same_path. by apply same_path_vpage. Qed.

#[export] Instance in_va_dec va : Decision (in_va va).
Proof. unfold in_va. apply _. Defined.

(** The physical page behind a user address. *)
Definition upage (m : mem) (pt va : Z) : option Z :=
  if decide (in_va va) then
    match lf m pt va with
    | Some v => if has v PTE_U then Some (PTE2PA v) else None
    | None => None
    end
  else None.

(** The user pages are allocated pages that no table and no other address shares. *)
Record user_ok (m : mem) (l : list Z) (pt : Z) : Prop := {
  uo_vm : vm_ok m l pt;
  uo_page va p : upage m pt va = Some p -> page_ok (kend m) p /\ p ∉ tables (ram m) 2 pt /\ p ∉ l;
  uo_inj va va' p : upage m pt va = Some p -> upage m pt va' = Some p -> vpage va = vpage va';
}.

Lemma upage_in m pt va p : upage m pt va = Some p -> in_va va.
Proof. unfold upage. by destruct (decide (in_va va)). Qed.

Lemma pbase_in_va va : in_va va <-> in_va (pbase va).
Proof.
  unfold in_va. pose proof (pbase_poff va). pose proof (poff_range va). split; intros H'; [split|split]; try lia.
  - apply pbase_le; [done|lia].
  - pose proof (aligned_mul _ (pbase_aligned va)). unfold MAXVA, PGSIZE in *. lia.
Qed.

Lemma upage_pbase m pt va : upage m pt (pbase va) = upage m pt va.
Proof.
  unfold upage. destruct (decide (in_va va)) as [H|H].
  - rewrite decide_True by by apply (proj1 (pbase_in_va va)). rewrite (lf_vpage m pt (pbase va) va); [done|by apply (proj1 (pbase_in_va va))|done|apply vpage_pbase].
  - rewrite decide_False; [done|]. by rewrite <- pbase_in_va.
Qed.

Lemma upage_vpage m pt a b : vpage a = vpage b -> upage m pt a = upage m pt b.
Proof. intros E. rewrite <- (upage_pbase m pt a), <- (upage_pbase m pt b), !pbase_vpage. by rewrite E. Qed.

Lemma walkaddr_ok m l pt va : user_ok m l pt -> 0 <= va -> walkaddr pt va m = Ok (default 0 (upage m pt va), m).
Proof.
  intros Hu Hva. unfold walkaddr, upage. destruct (MAXVA <=? va) eqn:E; zbool.
  { rewrite decide_False by (unfold in_va; lia). done. }
  assert (Hin : in_va va) by (by split). rewrite decide_True by done.
  rewrite (bind_ok _ _ _ _ _ (walk_find_ok m l pt va (uo_vm _ _ _ Hu) Hin)). unfold lf, leaf.
  destruct (table0 (ram m) 2 pt va) as [q|] eqn:Hq; [|done].
  destruct (table0_page _ _ _ _ _ (uo_vm _ _ _ Hu) Hq) as (_ & _ & Hne & _). rewrite (proj2 (Z.eqb_neq _ _) Hne).
  rewrite (bind_ok _ _ _ _ _ (ld64_leaf _ _ _ _ _ (uo_vm _ _ _ Hu) Hq)). unfold valid_pte.
  destruct (has _ PTE_V); [|done]. cbn [negb]. by destruct (has _ PTE_U).
Qed.

(** A byte of user memory. *)
Definition ubyte (m : mem) (pt va : Z) : Z :=
  match upage m pt va with
  | Some p => znth (default [] (ram m !! p)) (poff va)
  | None => 0
  end.
Definition umem (m : mem) (pt va n : Z) : list Z := (fun i => ubyte m pt (va + i)) <$> seqZ 0 n.

(** The process may access the [n] bytes at [va]. *)
Definition accessible (m : mem) (pt va n : Z) : Prop := forall a, va <= a < va + n -> is_Some (upage m pt a).

Lemma zlen_umem m pt va n : 0 <= n -> zlen (umem m pt va n) = n.
Proof. intros Hn. unfold umem, zlen. rewrite length_fmap, length_seqZ. lia. Qed.
Lemma znth_umem m pt va n i : 0 <= i < n -> znth (umem m pt va n) i = ubyte m pt (va + i).
Proof.
  intros Hi. unfold umem, znth. rewrite list_lookup_total_alt, list_lookup_fmap, lookup_seqZ_lt by lia. simpl. f_equal. lia.
Qed.

Lemma same_page_iff a dst : vpage a = vpage dst -> poff a - poff dst = a - dst.
Proof. intros E. pose proof (pbase_poff a). pose proof (pbase_poff dst). rewrite !pbase_vpage, E in *. lia. Qed.

Lemma in_page_vpage a dst n : 0 <= n -> poff dst + n <= PGSIZE -> dst <= a < dst + n -> vpage a = vpage dst.
Proof.
  intros Hn Hp Ha. pose proof (pbase_poff dst) as E. rewrite pbase_vpage in E. pose proof (poff_range dst).
  unfold vpage in *. symmetry. apply (Z.div_unique a PGSIZE (dst / PGSIZE) (a - PGSIZE * (dst / PGSIZE))); [left|]; lia.
Qed.

(** The first [k] bytes of [src] are at [dst]; the rest of memory is as it was. *)
Record wrote (m : mem) (l : list Z) (pt dst k : Z) (src : list Z) (m' : mem) : Prop := {
  wr_ok : user_ok m' l pt;
  wr_lf va : lf m' pt va = lf m pt va;
  wr_tables : tables (ram m') 2 pt = tables (ram m) 2 pt;
  wr_byte a : ubyte m' pt a = if decide (dst <= a < dst + k) then znth src (a - dst) else ubyte m pt a;
  wr_frame p : (forall a, upage m pt a <> Some p) -> ram m' !! p = ram m !! p;
  wr_kend : kend m' = kend m;
  wr_freelist : freelist m' = freelist m;
}.

Lemma wrote_upage m l pt dst k src m' va : wrote m l pt dst k src m' -> upage m' pt va = upage m pt va.
Proof. intros W. unfold upage. by rewrite (wr_lf _ _ _ _ _ _ _ W). Qed.

Lemma wrote_refl m l pt dst src : user_ok m l pt -> wrote m l pt dst 0 src m.
Proof. intros Hu. split; try done. intros a. by rewrite decide_False by lia. Qed.

(** A store inside one user page. *)
Lemma put_user m l pt dst p bs :
  user_ok m l pt -> upage m pt dst = Some p -> 0 <= dst -> poff dst + zlen bs <= PGSIZE -> bytes_ok bs ->
  exists m', put_bytes (p + poff dst) bs m = Ok (tt, m') /\ wrote m l pt dst (zlen bs) bs m'.
Proof.
  intros Hu Hp Hd Hfit Hb. destruct (uo_page _ _ _ Hu _ _ Hp) as (Hpo & Hpt & Hpl). pose proof (vo_alloc _ _ _ (uo_vm _ _ _ Hu)) as Hok.
  destruct (ro_dom _ (ao_ram _ _ Hok) p Hpo) as [pg Hpg]. destruct (ro_page _ (ao_ram _ _ Hok) _ _ Hpg) as [Hlen Hbp].
  pose proof (poff_range dst) as Hr. pose proof (zlen_nonneg bs) as Hz. destruct (pbase_add p (poff dst) (proj1 Hpo) Hr) as [Eb Eo].
  set (pg' := splice pg (poff dst) bs). exists (set_ram (insert p pg') m). unfold put_bytes. rewrite Eb, Eo.
  rewrite (bind_ok _ _ _ _ _ (get_page_ok m p pg Hpg)). split; [done|]. set (m' := set_ram _ m).
  assert (Hok' : alloc_ok m' l).
  { eapply alloc_ok_ext; [exact Hok| |done|done|].
    - apply set_ram_ok; [apply Hok|unfold pg'; rewrite zlen_splice; lia|by apply bytes_ok_splice].
    - intros q Hq. apply lookup_insert_ne. by intros ->. }
  destruct (vm_ok_ext m l pt m' l (uo_vm _ _ _ Hu) Hok') as (Hv' & Ht' & _ & Hl'); [done|..].
  { intros q Hq. apply lookup_insert_ne. by intros ->. }
  { intros q Hq. exact (proj1 (proj2 (proj1 (NoDup_app _ _) (vo_nodup _ _ _ (uo_vm _ _ _ Hu)))) q Hq). }
  assert (Hup : forall a, upage m' pt a = upage m pt a) by (intros a; unfold upage; by rewrite Hl').
  split; try done.
  - split; [done|..].
    + intros va q. rewrite Hup, Ht'. apply (uo_page _ _ _ Hu).
    + intros va va' q. rewrite !Hup. apply (uo_inj _ _ _ Hu).
  - intros a. unfold ubyte. rewrite Hup. destruct (upage m pt a) as [q|] eqn:Hq.
    + destruct (decide (q = p)) as [->|Hne].
      * pose proof (same_page_iff a dst (uo_inj _ _ _ Hu _ _ _ Hq Hp)) as Hoff. simpl. rewrite lookup_insert_eq, Hpg. simpl. unfold pg'.
        pose proof (poff_range a). rewrite znth_splice by lia. destruct (decide (dst <= a < dst + zlen bs)).
        -- rewrite decide_True by lia. f_equal. lia.
        -- rewrite decide_False by lia. done.
      * simpl. rewrite lookup_insert_ne by done. rewrite decide_False; [done|]. intros Ha.
        pose proof (in_page_vpage a dst (zlen bs) Hz Hfit Ha) as E. rewrite (upage_vpage _ _ _ _ E), Hp in Hq. by simplify_eq.
    + rewrite decide_False; [done|]. intros Ha. pose proof (in_page_vpage a dst (zlen bs) Hz Hfit Ha) as E. rewrite (upage_vpage _ _ _ _ E) in Hq. congruence.
  - intros q Hq. apply lookup_insert_ne. intros <-. by apply (Hq dst).
Qed.

Lemma wrote_trans m l pt dst n k src m1 m2 :
  0 <= n -> 0 <= k -> n + k <= zlen src ->
  wrote m l pt dst n (sub src 0 n) m1 -> wrote m1 l pt (dst + n) k (sub src n (zlen src - n)) m2 -> wrote m l pt dst (n + k) src m2.
Proof.
  intros Hn Hk Hlen W1 W2. pose proof W1 as [A1 A2 A3 A4 A5 A6 A7]. pose proof W2 as [B1 B2 B3 B4 B5 B6 B7]. split.
  - done.
  - intros va. by rewrite B2, A2.
  - by rewrite B3, A3.
  - intros a. rewrite B4, A4. destruct (decide (dst + n <= a < dst + n + k)).
    + rewrite decide_True by lia. rewrite znth_sub by lia. f_equal. lia.
    + destruct (decide (dst <= a < dst + n)); [rewrite decide_True by lia; rewrite znth_sub by lia; f_equal; lia|by rewrite decide_False by lia].
  - intros p Hp. rewrite B5, A5; [done|done|]. intros a. rewrite (wrote_upage _ _ _ _ _ _ _ _ W1). apply Hp.
  - by rewrite B6.
  - by rewrite B7.
Qed.

(** The number of pages a copy of [n] bytes at [va] still has to visit. *)
Definition rounds (va n : Z) : Z := if decide (n <= 0) then 0 else vpage (va + n - 1) - vpage va + 1.

Lemma rounds_next va n k :
  0 <= va -> 0 < n -> k = Z.min (PGSIZE - poff va) n ->
  0 < rounds va n /\ 0 < k <= n /\ poff va + k <= PGSIZE /\ rounds (pbase va + PGSIZE) (n - k) <= rounds va n - 1 /\
  (k < n -> pbase va + PGSIZE = va + k).
Proof.
  intros Hva Hn ->. pose proof (poff_range va). pose proof (pbase_poff va) as E. unfold rounds.
  assert (vpage va <= vpage (va + n - 1)) by (apply Z.div_le_mono; [done|lia]).
  rewrite (decide_False (P := n <= 0)) by lia. split_and!; try lia. case_decide; [lia|].
  assert (E2 : pbase va + PGSIZE + (n - Z.min (PGSIZE - poff va) n) - 1 = va + n - 1) by lia. rewrite E2, vpage_next, vpage_pbase. lia.
Qed.

Lemma rounds_bound va n : 0 <= va -> 0 <= n -> rounds va n <= n / PGSIZE + 2.
Proof.
  intros Hva Hn. unfold rounds. case_decide; [apply Z.add_nonneg_nonneg; [by apply Z.div_pos|lia]|]. unfold vpage.
  pose proof (Z_div_mod_eq_full va PGSIZE). pose proof (Z_div_mod_eq_full n PGSIZE). pose proof (Z_div_mod_eq_full (va + n - 1) PGSIZE).
  pose proof (Z.mod_pos_bound va PGSIZE eq_refl). pose proof (Z.mod_pos_bound n PGSIZE eq_refl). pose proof (Z.mod_pos_bound (va + n - 1) PGSIZE eq_refl).
  unfold PGSIZE in *. lia.
Qed.

Lemma accessible_add m pt va n k : accessible m pt va n -> accessible m pt (va + n) k -> accessible m pt va (n + k).
Proof. intros H1 H2 a Ha. destruct (decide (a < va + n)); [apply H1|apply H2]; lia. Qed.
Lemma accessible_page m pt va n p : upage m pt va = Some p -> 0 <= n -> poff va + n <= PGSIZE -> accessible m pt va n.
Proof. intros Hp Hn Hf a Ha. rewrite (upage_vpage m pt a va); [by exists p|]. by eapply in_page_vpage. Qed.

Lemma copyout_loop_ok fuel m l pt dst src :
  user_ok m l pt -> 0 <= dst -> (0 < zlen src -> dst + zlen src <= 2 ^ 64 - PGSIZE) -> bytes_ok src -> rounds dst (zlen src) <= Z.of_nat fuel ->
  exists r k m', copyout_loop fuel pt dst src m = Ok (r, m') /\ 0 <= k <= zlen src /\ wrote m l pt dst k src m' /\ accessible m pt dst k /\
    (r = 0 /\ k = zlen src \/ r = -1 /\ k < zlen src /\ upage m pt (dst + k) = None).
Proof.
  revert m dst src. induction fuel as [|fuel IH]; intros m dst src Hu Hd Hmax Hb Hf; pose proof (zlen_nonneg src) as Hz.
  all: destruct (decide (zlen src = 0)) as [Hz0|Hz0].
  1, 3: exists 0, 0, m; cbn [copyout_loop]; rewrite Hz0; split_and!; try done; [by apply wrote_refl|intros a Ha; lia|by left].
  { destruct (rounds_next dst (zlen src) _ Hd ltac:(lia) eq_refl) as [? _]. lia. }
  cbn [copyout_loop]. rewrite (proj2 (Z.ltb_lt _ _)) by lia. rewrite PGROUNDDOWN_eq.
  pose proof (pbase_poff dst) as Epo. pose proof (poff_range dst) as Hpo.
  assert (Hb0 : 0 <= pbase dst) by (apply pbase_le; [done|lia]).
  rewrite (bind_ok _ _ _ _ _ (walkaddr_ok m l pt (pbase dst) Hu Hb0)), upage_pbase.
  destruct (upage m pt dst) as [p|] eqn:Hp; simpl default.
  2:{ exists (-1), 0, m. split_and!; try done; [by apply wrote_refl|intros a Ha; lia|]. right. split_and!; [done|lia|by rewrite Z.add_0_r]. }
  destruct (uo_page _ _ _ Hu _ _ Hp) as (Hpok & _). 
  rewrite (proj2 (Z.eqb_neq _ _)) by (by eapply page_ok_ne0; [apply (vo_alloc _ _ _ (uo_vm _ _ _ Hu))|]).
  replace (dst - pbase dst) with (poff dst) by lia. cbv zeta.
  set (n := if zlen src <? PGSIZE - poff dst then zlen src else PGSIZE - poff dst).
  assert (Hn : n = Z.min (PGSIZE - poff dst) (zlen src)) by (unfold n; destruct (_ <? _) eqn:E; zbool; lia). clearbody n.
  destruct (rounds_next dst (zlen src) n Hd ltac:(lia) Hn) as (_ & Hn0 & Hfit & Hr & Hnext).
  assert (Hsl : zlen (sub src 0 n) = n) by (apply zlen_sub; lia).
  destruct (put_user m l pt dst p (sub src 0 n) Hu Hp Hd) as (m1 & He1 & W1); [by rewrite Hsl|by apply bytes_ok_sub|]. rewrite Hsl in W1.
  rewrite (bind_ok _ _ _ _ _ He1). rewrite uint64_small by (unfold PGSIZE in *; lia).
  assert (Hsl2 : zlen (sub src n (zlen src - n)) = zlen src - n) by (apply zlen_sub; lia).
  destruct (IH m1 (pbase dst + PGSIZE) (sub src n (zlen src - n)) (wr_ok _ _ _ _ _ _ _ W1)) as (r & k & m2 & He2 & Hk & W2 & Hac & Hres).
  { lia. } { rewrite Hsl2. intros Hlt. rewrite Hnext by lia. lia. } { by apply bytes_ok_sub. } { rewrite Hsl2. lia. }
  rewrite Hsl2 in *. exists r, (n + k), m2. split; [exact He2|]. split; [lia|].
  assert (Hcase : k = 0 \/ pbase dst + PGSIZE = dst + n) by (destruct (decide (n < zlen src)); [right; by apply Hnext|left; lia]).
  assert (Hac' : forall a, upage m1 pt a = upage m pt a) by (intros a; apply (wrote_upage _ _ _ _ _ _ _ _ W1)).
  split; [|split].
  - apply (wrote_trans m l pt dst n k src m1); try lia; [done|]. destruct Hcase as [->| <-]; [|done].
    destruct W2 as [C1 C2 C3 C4 C5 C6 C7]. split; try done. intros a. rewrite C4, !decide_False by lia. done.
  - apply accessible_add; [by eapply accessible_page; [| |]; [done|lia|]|]. destruct Hcase as [->|E]; [intros a Ha; lia|].
    rewrite <- E. intros a Ha. rewrite <- Hac'. by apply Hac.
  - destruct Hres as [[-> Hk']|(-> & Hk' & Hnone)]; [left; split; [done|lia]|right]. split; [done|]. split; [lia|].
    rewrite <- Hac', <- Hnone. f_equal. destruct Hcase; lia.
Qed.

(** A load inside one user page. *)
Lemma get_user m l pt src p n :
  user_ok m l pt -> upage m pt src = Some p -> 0 <= n -> poff src + n <= PGSIZE ->
  get_bytes (p + poff src) n m = Ok (umem m pt src n, m).
Proof.
  intros Hu Hp Hn Hfit. destruct (uo_page _ _ _ Hu _ _ Hp) as (Hpo & _). pose proof (vo_alloc _ _ _ (uo_vm _ _ _ Hu)) as Hok.
  destruct (ro_dom _ (ao_ram _ _ Hok) p Hpo) as [pg Hpg]. destruct (ro_page _ (ao_ram _ _ Hok) _ _ Hpg) as [Hlen _].
  pose proof (poff_range src) as Hr. destruct (pbase_add p (poff src) (proj1 Hpo) Hr) as [Eb Eo]. unfold get_bytes. rewrite Eb, Eo.
  rewrite (bind_ok _ _ _ _ _ (get_page_ok m p pg Hpg)). unfold mret, K_ret. do 2 f_equal.
  apply znth_ext; rewrite zlen_sub by lia; [by rewrite zlen_umem|]. intros i Hi. rewrite znth_sub, znth_umem by lia.
  assert (E : vpage (src + i) = vpage src) by (apply (in_page_vpage _ _ n); lia).
  unfold ubyte. rewrite (upage_vpage _ _ _ _ E), Hp, Hpg. simpl. f_equal. pose proof (same_page_iff _ _ E). lia.
Qed.

Lemma umem_app m pt va n k : 0 <= n -> 0 <= k -> umem m pt va (n + k) = umem m pt va n ++ umem m pt (va + n) k.
Proof.
  intros Hn Hk. unfold umem. rewrite seqZ_app, fmap_app by lia. f_equal.
  apply list_eq. intros i. rewrite !list_lookup_fmap. destruct (decide (Z.of_nat i < k)).
  - rewrite !lookup_seqZ_lt by lia. simpl. f_equal. f_equal. lia.
  - rewrite !lookup_seqZ_ge by lia. done.
Qed.
Lemma umem_zero m pt va : umem m pt va 0 = [].
Proof. done. Qed.

Lemma copyin_loop_ok fuel m l pt src len dst :
  user_ok m l pt -> 0 <= src -> 0 <= len -> (0 < len -> src + len <= 2 ^ 64 - PGSIZE) -> rounds src len <= Z.of_nat fuel ->
  exists r k, copyin_loop fuel pt src len dst m = Ok ((r, dst ++ umem m pt src k), m) /\ 0 <= k <= len /\ accessible m pt src k /\
    (r = 0 /\ k = len \/ r = -1 /\ k < len /\ upage m pt (src + k) = None).
Proof.
  intros Hu. revert src len dst. induction fuel as [|fuel IH]; intros src len dst Hd Hz Hmax Hf.
  all: destruct (decide (len = 0)) as [->|Hz0].
  1, 3: exists 0, 0; cbn [copyin_loop]; rewrite umem_zero, app_nil_r; split_and!; try done; [intros a Ha; lia|by left].
  { destruct (rounds_next src len _ Hd ltac:(lia) eq_refl) as [? _]. lia. }
  cbn [copyin_loop]. rewrite (proj2 (Z.ltb_lt _ _)) by lia. rewrite PGROUNDDOWN_eq.
  pose proof (pbase_poff src) as Epo. pose proof (poff_range src) as Hpo.
  assert (Hb0 : 0 <= pbase src) by (apply pbase_le; [done|lia]).
  rewrite (bind_ok _ _ _ _ _ (walkaddr_ok m l pt (pbase src) Hu Hb0)), upage_pbase.
  destruct (upage m pt src) as [p|] eqn:Hp; simpl default.
  2:{ exists (-1), 0. rewrite umem_zero, app_nil_r. split_and!; try done; [intros a Ha; lia|]. right. split_and!; [done|lia|by rewrite Z.add_0_r]. }
  destruct (uo_page _ _ _ Hu _ _ Hp) as (Hpok & _).
  rewrite (proj2 (Z.eqb_neq _ _)) by (by eapply page_ok_ne0; [apply (vo_alloc _ _ _ (uo_vm _ _ _ Hu))|]).
  replace (src - pbase src) with (poff src) by lia. cbv zeta.
  set (n := if len <? PGSIZE - poff src then len else PGSIZE - poff src).
  assert (Hn : n = Z.min (PGSIZE - poff src) len) by (unfold n; destruct (_ <? _) eqn:E; zbool; lia). clearbody n.
  destruct (rounds_next src len n Hd ltac:(lia) Hn) as (_ & Hn0 & Hfit & Hr & Hnext).
  rewrite (bind_ok _ _ _ _ _ (get_user m l pt src p n Hu Hp ltac:(lia) Hfit)).
  rewrite uint64_small by (unfold PGSIZE in *; lia).
  destruct (IH (pbase src + PGSIZE) (len - n) (dst ++ umem m pt src n)) as (r & k & He2 & Hk & Hac & Hres); [lia|lia|intros Hlt; rewrite Hnext by lia; lia|lia|].
  assert (Hcase : k = 0 \/ pbase src + PGSIZE = src + n) by (destruct (decide (n < len)); [right; by apply Hnext|left; lia]).
  exists r, (n + k). split; [|split; [lia|split]].
  - rewrite He2, umem_app by lia. rewrite app_assoc. destruct Hcase as [->|E]; [by rewrite !umem_zero|by rewrite E].
  - apply accessible_add; [by eapply accessible_page; [| |]; [done|lia|]|]. destruct Hcase as [->|E]; [intros a Ha; lia|by rewrite <- E].
  - destruct Hres as [[-> Hk']|(-> & Hk' & Hnone)]; [left; split; [done|lia]|right]. split; [done|]. split; [lia|].
    rewrite <- Hnone. f_equal. destruct Hcase; lia.
Qed.

Lemma copy_until_nul_spec p :
  exists k, (k <= length p)%nat /\ (forall i b, (i < k)%nat -> p !! i = Some b -> b <> 0) /\
    (copy_until_nul p = (true, take (S k) p) /\ p !! k = Some 0 \/ copy_until_nul p = (false, p) /\ k = length p).
Proof.
  induction p as [|b p IH].
  - exists 0%nat. split; [done|]. split; [intros; lia|]. by right.
  - cbn [copy_until_nul]. destruct (b =? 0) eqn:E; zbool.
    + subst b. exists 0%nat. split; [lia|]. split; [intros; lia|]. by left.
    + destruct IH as (k & Hk & Hnz & Hc). exists (S k). split; [simpl; lia|]. split; [intros [|i] c Hi Hc'; [by injection Hc' as <-|exact (Hnz i c ltac:(lia) Hc')]|].
      destruct Hc as [[-> Hk0]|[-> ->]]; [left|right]; done.
Qed.

(** The outcome of [copyinstr]: [k] bytes were stored, the NUL the last of them, or there was none. *)
Definition str_result (m : mem) (pt src max r k : Z) : Prop :=
  0 <= k <= max /\ accessible m pt src k /\
  (r = 0 /\ 0 < k /\ ubyte m pt (src + k - 1) = 0 /\ (forall i, 0 <= i < k - 1 -> ubyte m pt (src + i) <> 0) \/
   r = -1 /\ (forall i, 0 <= i < k -> ubyte m pt (src + i) <> 0) /\ (k = max \/ k < max /\ upage m pt (src + k) = None)).

Lemma take_umem m pt va n k : 0 <= k <= n -> take (Z.to_nat k) (umem m pt va n) = umem m pt va k.
Proof.
  intros Hk. replace n with (k + (n - k)) by lia. rewrite umem_app by lia. rewrite take_app_length'; [done|].
  pose proof (zlen_umem m pt va k ltac:(lia)) as E. unfold zlen in E. lia.
Qed.
Lemma lookup_umem m pt va n i b : umem m pt va n !! i = Some b <-> Z.of_nat i < n /\ b = ubyte m pt (va + Z.of_nat i).
Proof.
  unfold umem. rewrite list_lookup_fmap_Some. setoid_rewrite lookup_seqZ. split; [intros (x & -> & -> & ?)|intros [? ->]]; [split; [lia|f_equal; lia]|].
  exists (Z.of_nat i). split; [done|]. lia.
Qed.

Lemma copyinstr_loop_ok fuel m l pt src max dst :
  user_ok m l pt -> 0 <= src -> 0 <= max -> (0 < max -> src + max <= 2 ^ 64 - PGSIZE) -> rounds src max <= Z.of_nat fuel ->
  exists r k, copyinstr_loop fuel pt src max dst m = Ok ((r, dst ++ umem m pt src k), m) /\ str_result m pt src max r k.
Proof.
  intros Hu. revert src max dst. induction fuel as [|fuel IH]; intros src max dst Hd Hz Hmax Hf.
  all: destruct (decide (max = 0)) as [->|Hz0].
  1, 3: exists (-1), 0; cbn [copyinstr_loop]; rewrite umem_zero, app_nil_r; split; [done|]; split_and!; try done; [intros a Ha; lia|right; split_and!; [done|intros; lia|by left]].
  { destruct (rounds_next src max _ Hd ltac:(lia) eq_refl) as [? _]. lia. }
  cbn [copyinstr_loop]. rewrite (proj2 (Z.ltb_lt _ _)) by lia. rewrite PGROUNDDOWN_eq.
  pose proof (pbase_poff src) as Epo. pose proof (poff_range src) as Hpo.
  assert (Hb0 : 0 <= pbase src) by (apply pbase_le; [done|lia]).
  rewrite (bind_ok _ _ _ _ _ (walkaddr_ok m l pt (pbase src) Hu Hb0)), upage_pbase.
  destruct (upage m pt src) as [p|] eqn:Hp; simpl default.
  2:{ exists (-1), 0. rewrite umem_zero, app_nil_r. split; [done|]. split; [lia|]. split; [intros a Ha; lia|]. right.
      split; [done|]. split; [intros; lia|]. right. split; [lia|by rewrite Z.add_0_r]. }
  destruct (uo_page _ _ _ Hu _ _ Hp) as (Hpok & _).
  rewrite (proj2 (Z.eqb_neq _ _)) by (by eapply page_ok_ne0; [apply (vo_alloc _ _ _ (uo_vm _ _ _ Hu))|]).
  replace (src - pbase src) with (poff src) by lia. cbv zeta.
  set (n := if max <? PGSIZE - poff src then max else PGSIZE - poff src).
  assert (Hn : n = Z.min (PGSIZE - poff src) max) by (unfold n; destruct (_ <? _) eqn:E; zbool; lia). clearbody n.
  destruct (rounds_next src max n Hd ltac:(lia) Hn) as (_ & Hn0 & Hfit & Hr & Hnext).
  rewrite (bind_ok _ _ _ _ _ (get_user m l pt src p n Hu Hp ltac:(lia) Hfit)).
  pose proof (accessible_page m pt src n p Hp ltac:(lia) Hfit) as Hacn.
  destruct (copy_until_nul_spec (umem m pt src n)) as (j & Hj & Hnz & [[-> Hj0]|[-> Hjn]]).
  - apply lookup_umem in Hj0 as [Hjlt Hj0]. exists 0, (Z.of_nat j + 1). rewrite <- (take_umem m pt src n (Z.of_nat j + 1)) by lia.
    replace (Z.to_nat (Z.of_nat j + 1)) with (S j) by lia. split; [done|]. split; [lia|]. split; [intros a Ha; apply Hacn; lia|]. left.
    split; [done|]. split; [lia|]. split; [rewrite Hj0; f_equal; lia|]. intros i Hi. apply (Hnz (Z.to_nat i)); [lia|]. apply lookup_umem. split; [lia|]. f_equal. lia.
  - assert (Hnzn : forall i, 0 <= i < n -> ubyte m pt (src + i) <> 0).
    { intros i Hi. apply (Hnz (Z.to_nat i)); [|apply lookup_umem; split; [lia|f_equal; lia]]. pose proof (zlen_umem m pt src n ltac:(lia)) as E. unfold zlen in E. lia. }
    rewrite uint64_small by (unfold PGSIZE in *; lia).
    destruct (IH (pbase src + PGSIZE) (max - n) (dst ++ umem m pt src n)) as (r & k & He2 & Hk & Hac & Hres); [lia|lia|intros Hlt; rewrite Hnext by lia; lia|lia|].
    assert (Hcase : k = 0 \/ pbase src + PGSIZE = src + n) by (destruct (decide (n < max)); [right; by apply Hnext|left; lia]).
    exists r, (n + k). split; [|split; [lia|split]].
    + rewrite He2, umem_app by lia. rewrite app_assoc. destruct Hcase as [->|E]; [by rewrite !umem_zero|by rewrite E].
    + apply accessible_add; [done|]. destruct Hcase as [->|E]; [intros a Ha; lia|by rewrite <- E].
    + destruct Hres as [(-> & Hk0 & Hnul & Hpre)|(-> & Hpre & Hend)]; [left|right]; (split; [done|]).
      * destruct Hcase as [?|E]; [lia|]. rewrite E in *. split; [lia|]. split; [rewrite <- Hnul; f_equal; lia|]. intros i Hi.
        destruct (decide (i < n)); [apply Hnzn; lia|]. replace (src + i) with (src + n + (i - n)) by lia. apply Hpre. lia.
      * split.
        -- intros i Hi. destruct (decide (i < n)); [apply Hnzn; lia|]. destruct Hcase as [?|E]; [lia|]. rewrite E in Hpre.
           replace (src + i) with (src + n + (i - n)) by lia. apply Hpre. lia.
        -- destruct Hend as [->|[Hlt Hnone]]; [left; lia|right]. split; [lia|]. rewrite <- Hnone. f_equal.
           destruct Hcase as [->|E]; [rewrite Hnext by lia|]; lia.
Qed.

Lemma copyout_ok m l pt dst src :
  user_ok m l pt -> 0 <= dst -> dst + zlen src <= 2 ^ 64 - PGSIZE -> bytes_ok src ->
  exists r k m', copyout pt dst src m = Ok (r, m') /\ 0 <= k <= zlen src /\ wrote m l pt dst k src m' /\ accessible m pt dst k /\
    (r = 0 /\ k = zlen src \/ r = -1 /\ k < zlen src /\ upage m pt (dst + k) = None).
Proof.
  intros Hu Hd Hmax Hb. apply (copyout_loop_ok _ m l); try done. pose proof (rounds_bound dst (zlen src) Hd (zlen_nonneg _)).
  pose proof (Z.div_pos (zlen src) PGSIZE (zlen_nonneg _) eq_refl). lia.
Qed.

Lemma copyin_ok m l pt src len :
  user_ok m l pt -> 0 <= src -> 0 <= len -> src + len <= 2 ^ 64 - PGSIZE ->
  exists r k, copyin pt src len m = Ok ((r, umem m pt src k), m) /\ 0 <= k <= len /\ accessible m pt src k /\
    (r = 0 /\ k = len \/ r = -1 /\ k < len /\ upage m pt (src + k) = None).
Proof.
  intros Hu Hd Hl Hmax. apply (copyin_loop_ok _ m l pt src len []); try done. pose proof (rounds_bound src len Hd Hl).
  pose proof (Z.div_pos len PGSIZE Hl eq_refl). lia.
Qed.

Lemma uspace_user_ok m l pt ps :
  uspace m l pt ps -> (forall va, in_va va -> vpage TRAPFRAME <= vpage va -> upage m pt va = None) -> user_ok m l pt.
Proof.
  intros Hu Hhi.
  assert (Hup : forall va p, upage m pt va = Some p -> ps !! Z.to_nat (vpage va) = Some p).
  { intros va p Hp. pose proof (upage_in _ _ _ _ Hp) as Hva. assert (Hv0 : 0 <= vpage va) by (apply Z.div_pos; [apply Hva|done]).
    destruct (decide (vpage TRAPFRAME <= vpage va)) as [?|Hlt]; [by rewrite Hhi in Hp|].
    destruct (decide (zlen ps <= vpage va)) as [Hge|Hps].
    { unfold upage in Hp. rewrite decide_True, (us_none _ _ _ _ Hu) in Hp by (done || lia). done. }
    destruct (lookup_lt_is_Some_2 ps (Z.to_nat (vpage va))) as [q Hq]; [unfold zlen in Hps; lia|].
    destruct (us_map _ _ _ _ Hu _ _ Hq) as (v & Hv & <- & _). rewrite Hq. unfold upage in Hp. rewrite decide_True in Hp by done.
    rewrite Z2Nat.id in Hv by done.
    rewrite (lf_vpage m pt va (0 + PGSIZE * vpage va)), Hv in Hp.
    - destruct (has v PTE_U); [|done]. by injection Hp as <-.
    - done.
    - rewrite Z.add_0_l, <- pbase_vpage. by apply (proj1 (pbase_in_va va)).
    - by rewrite vpage_add. }
  split.
  - apply Hu.
  - intros va p Hp%Hup%list_elem_of_lookup_2. split; [by apply (proj1 (Forall_forall _ _) (us_pages _ _ _ _ Hu))|].
    split; [by apply Hu|]. exact (proj1 (proj2 (proj1 (NoDup_app _ _) (us_nodup _ _ _ _ Hu))) p Hp).
  - intros va va' p Hp Hp'. pose proof (upage_in _ _ _ _ Hp) as Hva. pose proof (upage_in _ _ _ _ Hp') as Hva'.
    pose proof (NoDup_lookup ps _ _ p (proj1 (proj1 (NoDup_app _ _) (us_nodup _ _ _ _ Hu))) (Hup _ _ Hp) (Hup _ _ Hp')) as E.
    assert (0 <= vpage va) by (apply Z.div_pos; [apply Hva|done]). assert (0 <= vpage va') by (apply Z.div_pos; [apply Hva'|done]). lia.
Qed.

(** A process with two pages of memory. *)
Lemma two_page_process : exists m l pt, user_ok m l pt /\ accessible m pt 0 8192 /\ (forall a, 0 <= a < 8192 -> ubyte m pt a = 0) /\
  boot_space 8192 (machine 12) = Ok (8192, m).
Proof.
  destruct (boot_space_ok 12 8192) as (m & l & pt & ps & Hrun & Hu & Hlen & Hps & Hhi); [lia|unfold TRAPFRAME, TRAMPOLINE, MAXVA, PGSIZE; lia|vm_compute; reflexivity|].
  change (npg 8192) with 2 in Hlen.
  assert (Hacc : forall a, 0 <= a < 8192 -> exists p, upage m pt a = Some p /\ ram m !! p = Some (full_page 0)).
  { clear Hrun. intros a Ha. assert (Hv : 0 <= vpage a < 2) by (unfold vpage, PGSIZE; split; [apply Z.div_pos; lia|apply Z.div_lt_upper_bound; lia]).
    destruct (lookup_lt_is_Some_2 ps (Z.to_nat (vpage a))) as [p Hp]; [unfold zlen in Hlen; lia|]. destruct (Hps _ _ Hp) as [Hz Hl].
    exists p. split; [|done]. rewrite Z2Nat.id in Hl by lia. unfold upage.
    assert (Hva : in_va a) by (unfold in_va, MAXVA; lia). rewrite decide_True by done.
    assert (Hpk : pa_ok p).
    { apply (page_ok_pa (kend m)); [apply (ao_ram _ _ (vo_alloc _ _ _ (us_vm _ _ _ _ Hu)))|]. apply (proj1 (Forall_forall _ _) (us_pages _ _ _ _ Hu)). by eapply list_elem_of_lookup_2. }
    rewrite (lf_vpage m pt a (PGSIZE * vpage a)), Hl; [|done| |].
    - rewrite has_mk, PTE2PA_mk by (done || (vm_compute; split; congruence)). done.
    - rewrite <- pbase_vpage. by apply (proj1 (pbase_in_va a)).
    - rewrite <- pbase_vpage. symmetry. apply vpage_pbase. }
  exists m, l, pt. split; [|split; [|split; [|exact Hrun]]]; clear Hrun.
  - eapply uspace_user_ok; [exact Hu|]. intros va Hva Hge. unfold upage. rewrite decide_True by done. by rewrite Hhi.
  - intros a Ha. destruct (Hacc a) as (p & Hp & _); [lia|]. by exists p.
  - intros a Ha. destruct (Hacc a Ha) as (p & Hp & Hz). unfold ubyte. rewrite Hp, Hz. cbn [default]. unfold full_page, znth.
    pose proof (poff_range a). apply lookup_total_replicate_2. unfold PGSIZE in *. lia.
Qed.

(** ** Properties *)

(** [copyout] copies to user memory byte for byte, across page boundaries.  It answers 0 when all of
    the destination is accessible to the process, with exactly those bytes changed, and -1
    otherwise, with the bytes up to the first inaccessible one copied.  Mappings, free
    pages and all memory that is not the process's stay as they were. *)
Theorem copyout_writes (m : mem) (l : list Z) (pt dst : Z) (src : list Z) :
  user_ok m l pt -> 0 <= dst -> dst + zlen src <= 2 ^ 64 - PGSIZE -> bytes_ok src ->
  exists r k m', copyout pt dst src m = Ok (r, m') /\ 0 <= k <= zlen src /\ wrote m l pt dst k src m' /\ accessible m pt dst k /\
    (r = 0 /\ k = zlen src \/ r = -1 /\ k < zlen src /\ upage m pt (dst + k) = None).
Proof. apply copyout_ok. Qed.

Lemma copyout_writes_witness :
  exists m l pt r k m', user_ok m l pt /\ copyout pt 4095 [1; 2; 3] m = Ok (r, m') /\ wrote m l pt 4095 k [1; 2; 3] m'.
Proof.
  destruct two_page_process as (m & l & pt & Hu & _).
  destruct (copyout_writes m l pt 4095 [1; 2; 3] Hu) as (r & k & m' & He & _ & W & _).
  - lia.
  - unfold zlen, PGSIZE. simpl. lia.
  - repeat constructor; unfold byte_ok; lia.
  - exists m, l, pt, r, k, m'. split; [exact Hu|]. split; [exact He|exact W].
Defined.

(** C28: what [copyout] put at an accessible address, [copyin] reads back. *)
Theorem copyout_copyin (m : mem) (l : list Z) (pt va : Z) (bs : list Z) :
  user_ok m l pt -> accessible m pt va (zlen bs) -> 0 <= va -> va + zlen bs <= MAXVA -> bytes_ok bs ->
  exists m', copyout pt va bs m = Ok (0, m') /\ copyin pt va (zlen bs) m' = Ok ((0, bs), m').
Proof.
  intros Hu Hacc Hva Hmax Hb. pose proof (zlen_nonneg bs).
  destruct (copyout_ok m l pt va bs Hu Hva) as (r & k & m' & He & Hk & W & _ & Hr); [unfold MAXVA, PGSIZE in *; lia|done|].
  destruct Hr as [[-> ->]|(_ & Hlt & Hnone)]; [|destruct (Hacc (va + k)) as [q Hq]; [lia|congruence]].
  exists m'. split; [done|].
  destruct (copyin_ok m' l pt va (zlen bs) (wr_ok _ _ _ _ _ _ _ W) Hva) as (r & k & Hi & Hk' & _ & Hr); [done|unfold MAXVA, PGSIZE in *; lia|].
  destruct Hr as [[-> ->]|(_ & Hlt & Hnone)].
  - rewrite Hi. do 3 f_equal. apply znth_ext; rewrite zlen_umem by done; [done|]. intros i Hi'. rewrite znth_umem by done.
    rewrite (wr_byte _ _ _ _ _ _ _ W), decide_True by lia. f_equal. lia.
  - rewrite (wrote_upage _ _ _ _ _ _ _ _ W) in Hnone. destruct (Hacc (va + k)) as [q Hq]; [lia|congruence].
Qed.

Lemma copyout_copyin_witness : exists m pt m', copyout pt 4090 (replicate 10 7) m = Ok (0, m') /\ copyin pt 4090 10 m' = Ok ((0, replicate 10 7), m').
Proof.
  destruct two_page_process as (m & l & pt & Hu & Hacc & _). exists m, pt. apply (copyout_copyin m l pt 4090 (replicate 10 7) Hu).
  - intros a Ha. apply Hacc. unfold zlen in Ha. simpl in Ha. lia.
  - lia.
  - unfold zlen, MAXVA. simpl. lia.
  - apply bytes_ok_replicate. unfold byte_ok. lia.
Defined.

(** [copyinstr] answers 0 exactly when a NUL lies within the first [max] bytes and everything
    up to it is accessible; the bytes stored are then the string with its NUL.
    Otherwise it answers -1, having met no NUL, at the limit or at an inaccessible page. *)
Theorem copyinstr_reads (m : mem) (l : list Z) (pt src max : Z) :
  user_ok m l pt -> 0 <= src -> 0 <= max -> src + max <= 2 ^ 64 - PGSIZE ->
  exists r k, copyinstr pt src max m = Ok ((r, umem m pt src k), m) /\ str_result m pt src max r k.
Proof.
  intros Hu Hs Hm Hmax. apply (copyinstr_loop_ok _ m l pt src max []); try done. pose proof (rounds_bound src max Hs Hm).
  pose proof (Z.div_pos max PGSIZE Hm eq_refl). lia.
Qed.

Lemma copyinstr_reads_witness : exists m pt r k, copyinstr pt 100 128 m = Ok ((r, umem m pt 100 k), m) /\ str_result m pt 100 128 r k.
Proof.
  destruct two_page_process as (m & l & pt & Hu & _). exists m, pt. apply (copyinstr_reads m l pt 100 128 Hu); unfold PGSIZE; lia.
Defined.
