(* ===== verification/KmemVm.v ===== *)
(** * The memory interface of the file system, implemented

    [either_copyout] and [either_copyin] of [src/kernel/proc.c] over the page
    tables and the allocator: with the flag they reach the memory of the running
    process, without it kernel memory, here the running process's kernel stack or
    the direct map of physical memory.  The laws of [KMem] are proved for it. *)

From stdpp Require Import base numbers list list_numbers gmap strings.
From Stdlib Require Import ZArith Lia.
From S2P Require Import Prelude Params Kalloc Kmem Vm VmProof VmMap VmSpace VmCopy.

#[local] Opaque tables.

(** The memory, [myproc()->pagetable] and the bytes of the running process's kernel stack, at [KSTACK(0)]. *)
Record kmem := mk_kmem {
  phys : mem;
  upt : Z;
  kstk : list Z;
}.
Definition set_phys (m : mem) (k : kmem) : kmem := mk_kmem m (upt k) (kstk k).
Definition set_kstk (l : list Z) (k : kmem) : kmem := mk_kmem (phys k) (upt k) l.
Definition on_phys {A} (f : K mem A) : K kmem A := zoom phys set_phys f.

Definition on_stack (a n : Z) : bool := (KSTACK 0 <=? a) && (a + n <=? KSTACK 0 + PGSIZE).

(** [memmove] to and from the direct map, page by page. *)
Fixpoint put_phys (fuel : nat) (a : Z) (l : list Z) : K mem unit :=
  if zlen l =? 0 then mret tt
  else
    match fuel with
    | O => out_of_fuel
    | S fuel =>
        let n := Z.min (PGSIZE - poff a) (zlen l) in
        put_bytes a (sub l 0 n);; put_phys fuel (a + n) (sub l n (zlen l - n))
    end.
Fixpoint get_phys (fuel : nat) (a n : Z) : K mem (list Z) :=
  if n =? 0 then mret []
  else
    match fuel with
    | O => out_of_fuel
    | S fuel =>
        let k := Z.min (PGSIZE - poff a) n in
        l ← get_bytes a k; l' ← get_phys fuel (a + k) (n - k); mret (l ++ l')
    end.

Definition either_copyout (user_dst : bool) (dst : Z) (src : list Z) : K kmem Z :=
  k ← get;
  if user_dst then on_phys (copyout (upt k) dst src)
  else if on_stack dst (zlen src) then modify (set_kstk (splice (kstk k) (dst - KSTACK 0) src));; mret 0
  else on_phys (put_phys (Z.to_nat (zlen src / PGSIZE + 2)) dst src);; mret 0.

Definition either_copyin (user_src : bool) (src len : Z) : K kmem (Z * list Z) :=
  k ← get;
  if user_src then on_phys (copyin (upt k) src len)
  else if on_stack src len then mret (0, sub (kstk k) (src - KSTACK 0) len)
  else l ← on_phys (get_phys (Z.to_nat (len / PGSIZE + 2)) src len); mret (0, l).

Definition kbyte (k : kmem) (a : Z) : Z :=
  if on_stack a 1 then znth (kstk k) (a - KSTACK 0) else znth (default [] (ram (phys k) !! pbase a)) (poff a).

#[export] Instance kmem_ops : KMem kmem := {|
  km_kalloc := on_phys kalloc;
  km_kfree p := on_phys (kfree p);
  km_out := either_copyout;
  km_in := either_copyin;
  km_str a max k := on_phys (copyinstr (upt k) a max) k;
  km_read k user a n := if user then umem (phys k) (upt k) a n else (fun i => kbyte k (a + i)) <$> seqZ 0 n;
  km_scratch := KSTACK 0 + PGSIZE - 512;
|}.

(** ** The laws *)

Definition kmem_inv (k : kmem) : Prop := (exists l, user_ok (phys k) l (upt k)) /\ zlen (kstk k) = PGSIZE /\ bytes_ok (kstk k).
Definition kmem_acc (k : kmem) (user : bool) (a n : Z) : Prop :=
  0 <= n /\ if user then 0 <= a /\ a + n <= MAXVA /\ accessible (phys k) (upt k) a n else on_stack a n = true.
(** A page that is allocated and neither a table nor user memory of the running process. *)
Definition kmem_live (k : kmem) (p : Z) : Prop :=
  page_ok (kend (phys k)) p /\ p ∉ tables (ram (phys k)) 2 (upt k) /\ (forall a, upage (phys k) (upt k) a <> Some p) /\
  (forall l, chain (ram (phys k)) (freelist (phys k)) l -> p ∉ l).

(** Pages left on the free list. *)
Definition kmem_avail (k : kmem) (n : nat) : Prop :=
  exists l, chain (ram (phys k)) (freelist (phys k)) l /\ (n <= length l)%nat.

Lemma user_ok_ext m l pt m' l' :
  user_ok m l pt -> alloc_ok m' l' -> kend m' = kend m -> (forall p, p ∈ tables (ram m) 2 pt -> ram m' !! p = ram m !! p) ->
  (forall p, p ∈ l' -> p ∉ tables (ram m) 2 pt /\ forall a, upage m pt a <> Some p) ->
  user_ok m' l' pt /\ tables (ram m') 2 pt = tables (ram m) 2 pt /\ (forall a, upage m' pt a = upage m pt a).
Proof.
  intros [Hv Hp Hi] Hok Hk Hr Hl. destruct (vm_ok_ext m l pt m' l' Hv Hok Hk Hr) as (Hv' & Ht & _ & Hlf).
  { intros p Hin Hpl. exact (proj1 (Hl p Hpl) Hin). }
  assert (Hup : forall a, upage m' pt a = upage m pt a) by (intros a; unfold upage; by rewrite Hlf).
  split; [|done]. split; [done|..].
  - intros va p. rewrite Hup, Ht, Hk. intros Hu. destruct (Hp _ _ Hu) as (? & ? & _). split_and!; try done.
    intros Hpl. exact (proj2 (Hl p Hpl) va Hu).
  - intros va va' p. rewrite !Hup. apply Hi.
Qed.

Lemma ubyte_ext m pt m' :
  (forall a, upage m' pt a = upage m pt a) -> (forall a p, upage m pt a = Some p -> ram m' !! p = ram m !! p) ->
  forall a, ubyte m' pt a = ubyte m pt a.
Proof. intros Hup Hr a. unfold ubyte. rewrite Hup. destruct (upage m pt a) as [p|] eqn:E; [|done]. by rewrite (Hr _ _ E). Qed.

Lemma umem_ext m pt m' a n : (forall a, ubyte m' pt a = ubyte m pt a) -> umem m' pt a n = umem m pt a n.
Proof. intros H. unfold umem. apply list_fmap_ext. intros i x _. apply H. Qed.

Lemma kstack_byte k a n i : on_stack a n = true -> 0 <= i < n -> kbyte k (a + i) = znth (kstk k) (a - KSTACK 0 + i).
Proof.
  unfold on_stack, kbyte. intros H Hi. zbool. unfold on_stack. rewrite (proj2 (Z.leb_le _ _)), (proj2 (Z.leb_le _ _)) by lia. simpl. f_equal. lia.
Qed.

Lemma kread_stack k a n : on_stack a n = true -> zlen (kstk k) = PGSIZE -> 0 <= n -> km_read k false a n = sub (kstk k) (a - KSTACK 0) n.
Proof.
  intros H Hs Hn. pose proof H as H'. unfold on_stack in H'. zbool. cbn [km_read kmem_ops].
  assert (Hl : zlen ((fun i => kbyte k (a + i)) <$> seqZ 0 n) = n) by (unfold zlen; rewrite length_fmap, length_seqZ; lia).
  apply znth_ext; rewrite Hl; [rewrite zlen_sub; lia|]. intros i Hi. rewrite znth_sub by lia. unfold znth at 1.
  rewrite list_lookup_total_alt, list_lookup_fmap, lookup_seqZ_lt by lia. simpl. rewrite <- (kstack_byte k a n i) by done. f_equal. lia.
Qed.

Lemma live_iff k l p :
  user_ok (phys k) l (upt k) ->
  kmem_live k p <-> page_ok (kend (phys k)) p /\ p ∉ tables (ram (phys k)) 2 (upt k) /\ (forall a, upage (phys k) (upt k) a <> Some p) /\ p ∉ l.
Proof.
  intros Hu. pose proof (ao_chain _ _ (vo_alloc _ _ _ (uo_vm _ _ _ Hu))) as Hc. unfold kmem_live.
  split; intros (H1 & H2 & H3 & H4); split_and!; try done; [by apply H4|]. intros l' Hc'. by rewrite (chain_fun _ _ _ _ Hc' Hc).
Qed.

Lemma avail_iff k l n : user_ok (phys k) l (upt k) -> kmem_avail k n <-> (n <= length l)%nat.
Proof.
  intros Hu. pose proof (ao_chain _ _ (vo_alloc _ _ _ (uo_vm _ _ _ Hu))) as Hc.
  split; [intros (l' & Hc' & Hn); by rewrite (chain_fun _ _ _ _ Hc Hc')|by exists l].
Qed.

(** A change of the physical memory that leaves the process's memory and the tables alone. *)
Lemma kmem_kept k l m' l' :
  user_ok (phys k) l (upt k) -> zlen (kstk k) = PGSIZE -> bytes_ok (kstk k) ->
  alloc_ok m' l' -> kend m' = kend (phys k) ->
  (forall p, p ∈ tables (ram (phys k)) 2 (upt k) \/ (exists a, upage (phys k) (upt k) a = Some p) -> ram m' !! p = ram (phys k) !! p) ->
  (forall p, p ∈ l' -> p ∉ tables (ram (phys k)) 2 (upt k) /\ forall a, upage (phys k) (upt k) a <> Some p) ->
  kmem_inv (set_phys m' k) /\
  (forall u b j, kmem_acc k u b j -> kmem_acc (set_phys m' k) u b j /\ km_read (set_phys m' k) u b j = km_read k u b j) /\
  (forall p, kmem_live (set_phys m' k) p <-> page_ok (kend (phys k)) p /\ p ∉ tables (ram (phys k)) 2 (upt k) /\
     (forall a, upage (phys k) (upt k) a <> Some p) /\ p ∉ l').
Proof.
  intros Hu Hs Hb Hok Hk Hr Hl. destruct (user_ok_ext (phys k) l (upt k) m' l' Hu Hok Hk) as (Hu' & Ht & Hup); [by intros p Hp; apply Hr; left|done|].
  split; [split; [by exists l'|done]|]. split.
  - intros [] b j [Hj Ha]; unfold kmem_acc.
    + destruct Ha as (Ha1 & Ha2 & Ha3). split; [split_and!; try done; intros c Hc; simpl; rewrite Hup; by apply Ha3|]. apply umem_ext, ubyte_ext; [done|].
      intros c p Hp. apply Hr. right. by exists c.
    + split; [done|]. by rewrite !kread_stack.
  - intros p. rewrite (live_iff (set_phys m' k) l') by done. simpl. rewrite Hk, Ht. by setoid_rewrite Hup.
Qed.

Lemma kalloc_law k :
  kmem_inv k ->
  exists p k', km_kalloc k = Ok (p, k') /\ kmem_inv k' /\
    (forall u b j, kmem_acc k u b j -> kmem_acc k' u b j /\ km_read k' u b j = km_read k u b j) /\
    (p <> 0 -> ~ kmem_live k p /\ forall q, kmem_live k' q <-> q = p \/ kmem_live k q) /\ (p = 0 -> k' = k) /\
    (forall n, kmem_avail k (S n) -> p <> 0 /\ kmem_avail k' n).
Proof.
  intros [[l Hu] [Hs Hb]]. pose proof (vo_alloc _ _ _ (uo_vm _ _ _ Hu)) as Hok. pose proof (kalloc_ok _ _ Hok) as Hka. destruct l as [|p l].
  - exists 0, k. cbn [km_kalloc kmem_ops]. unfold on_phys. rewrite (zoom_ok _ _ _ _ _ _ Hka). destruct k. split; [done|].
    split; [split; [by exists []|done]|]. split; [done|]. split; [done|]. split; [done|].
    intros n Hn. apply (avail_iff (mk_kmem _ _ _) [] _ Hu) in Hn. simpl in Hn. lia.
  - destruct Hka as (m1 & He & Hok1 & Hr1 & Hk1). exists p, (set_phys m1 k). cbn [km_kalloc kmem_ops]. unfold on_phys. rewrite (zoom_ok _ _ _ _ _ _ He).
    assert (Hpin : p ∈ p :: l) by apply list_elem_of_here.
    pose proof (proj1 (proj1 (Forall_cons _ _ _) (ao_pages _ _ Hok))) as Hp. pose proof (proj1 (proj1 (NoDup_cons _ _) (ao_nodup _ _ Hok))) as Hpl.
    assert (Hdis : forall q, q ∈ p :: l -> q ∉ tables (ram (phys k)) 2 (upt k) /\ forall a, upage (phys k) (upt k) a <> Some q).
    { intros q Hq. split; [intros Hin; exact (proj1 (proj2 (proj1 (NoDup_app _ _) (vo_nodup _ _ _ (uo_vm _ _ _ Hu)))) q Hin Hq)|].
      intros a Ha. by apply (uo_page _ _ _ Hu) in Ha as (_ & _ & ?). }
    destruct (kmem_kept k (p :: l) m1 l Hu Hs Hb Hok1 Hk1) as (Hi & Hkeep & Hlive).
    { intros q Hq. rewrite Hr1. apply lookup_insert_ne. intros <-. destruct (Hdis p Hpin) as [H1 H2]. destruct Hq as [Hq|[a Ha]]; [done|by apply (H2 a)]. }
    { intros q Hq. apply Hdis. by apply list_elem_of_further. }
    pose proof (page_ok_ne0 _ _ (ao_ram _ _ Hok) Hp) as Hp0.
    split; [done|]. split; [done|]. split; [done|]. split; [|split; [done|]].
    2:{ intros n Hn. apply (avail_iff k _ _ Hu) in Hn. simpl in Hn. split; [done|]. exists l. split; [apply Hok1|lia]. }
    intros _. split.
    + rewrite (live_iff k _ _ Hu). tauto.
    + intros q. rewrite Hlive, (live_iff k _ _ Hu), not_elem_of_cons. destruct (decide (q = p)) as [->|Hne]; [|tauto].
      destruct (Hdis p Hpin). tauto.
Qed.

Lemma kfree_law k p :
  kmem_inv k -> kmem_live k p ->
  exists k', km_kfree p k = Ok (tt, k') /\ kmem_inv k' /\
    (forall u b j, kmem_acc k u b j -> kmem_acc k' u b j /\ km_read k' u b j = km_read k u b j) /\
    (forall q, kmem_live k' q <-> q <> p /\ kmem_live k q) /\ (forall n, kmem_avail k n -> kmem_avail k' (S n)).
Proof.
  intros [[l Hu] [Hs Hb]] Hp. apply (live_iff k l p Hu) in Hp as (Hpo & Hpt & Hpu & Hpl).
  pose proof (vo_alloc _ _ _ (uo_vm _ _ _ Hu)) as Hok. destruct (kfree_ok _ _ p Hok Hpo Hpl) as [He Hok'].
  set (m' := set_freelist _ _) in *. exists (set_phys m' k). cbn [km_kfree kmem_ops]. unfold on_phys. rewrite (zoom_ok _ _ _ _ _ _ He).
  destruct (kmem_kept k l m' (p :: l) Hu Hs Hb Hok') as (Hi & Hkeep & Hlive).
  { done. }
  { intros q Hq. apply lookup_insert_ne. intros <-. destruct Hq as [Hq|[a Ha]]; [done|by apply (Hpu a)]. }
  { intros q [->|Hq]%elem_of_cons; [done|]. split; [intros Hin; exact (proj1 (proj2 (proj1 (NoDup_app _ _) (vo_nodup _ _ _ (uo_vm _ _ _ Hu)))) q Hin Hq)|].
    intros a Ha. by apply (uo_page _ _ _ Hu) in Ha as (_ & _ & ?). }
  split; [done|]. split; [done|]. split; [done|]. split; [intros q; rewrite Hlive, (live_iff k _ _ Hu), not_elem_of_cons; tauto|].
  intros n Hn. apply (avail_iff k _ _ Hu) in Hn. exists (p :: l). split; [apply Hok'|simpl; lia].
Qed.

Lemma umem_wrote m l pt a n i bs m' :
  0 <= i -> i + zlen bs <= n -> wrote m l pt (a + i) (zlen bs) bs m' -> umem m' pt a n = splice (umem m pt a n) i bs.
Proof.
  intros Hi Hn W. pose proof (zlen_nonneg bs). apply znth_ext; rewrite zlen_umem by lia; [rewrite zlen_splice; rewrite ?zlen_umem; lia|].
  intros j Hj. rewrite znth_umem, znth_splice by (rewrite ?zlen_umem; lia). rewrite (wr_byte _ _ _ _ _ _ _ W).
  destruct (decide (i <= j < i + zlen bs)); [rewrite decide_True by lia; f_equal; lia|rewrite decide_False by lia; by rewrite znth_umem].
Qed.

Lemma sub_umem m pt a n i len : 0 <= i -> 0 <= len -> i + len <= n -> sub (umem m pt a n) i len = umem m pt (a + i) len.
Proof.
  intros Hi Hl Hn. apply znth_ext; rewrite zlen_sub by (rewrite ?zlen_umem; lia); [by rewrite zlen_umem|]. intros j Hj.
  rewrite znth_sub, !znth_umem by lia. f_equal. lia.
Qed.

Lemma sub_splice_stack {A} (st bs : list A) o n i :
  0 <= o -> 0 <= i -> o + n <= zlen st -> i + zlen bs <= n -> sub (splice st (o + i) bs) o n = splice (sub st o n) i bs.
Proof.
  intros Ho Hi Hn Hb. apply list_eq. intros j. pose proof (zlen_nonneg bs).
  rewrite lookup_sub by lia. rewrite (lookup_splice (sub st o n)) by (rewrite ?zlen_sub; lia). rewrite lookup_splice by lia. rewrite lookup_sub by lia.
  repeat case_decide; try done; try lia. f_equal. lia.
Qed.

Lemma out_law k user a n i bs :
  kmem_inv k -> kmem_acc k user a n -> 0 <= i -> i + zlen bs <= n -> bytes_ok bs ->
  exists k', km_out user (a + i) bs k = Ok (0, k') /\ kmem_inv k' /\
    km_read k' user a n = splice (km_read k user a n) i bs /\
    (forall u b j, kmem_acc k u b j -> kmem_acc k' u b j) /\ (forall p, kmem_live k' p <-> kmem_live k p) /\
    (forall n, kmem_avail k n -> kmem_avail k' n).
Proof.
  intros [[l Hu] [Hs Hb]] [Hn Ha] Hi Hfit Hbs. pose proof (zlen_nonneg bs) as Hz. cbn [km_out kmem_ops]. unfold either_copyout. ksimpl. destruct user.
  - destruct Ha as (Ha0 & Hmax & Hacc).
    destruct (copyout_ok (phys k) l (upt k) (a + i) bs Hu) as (r & c & m' & He & Hc & W & _ & Hr); [lia|unfold MAXVA, PGSIZE in *; lia|done|].
    destruct Hr as [[-> ->]|(_ & Hlt & Hnone)]; [|destruct (Hacc (a + i + c)) as [q Hq]; [lia|congruence]].
    exists (set_phys m' k). unfold on_phys. rewrite (zoom_ok _ _ _ _ _ _ He). split; [done|].
    pose proof (fun va => wrote_upage _ _ _ _ _ _ _ va W) as Hup. split; [split; [exists l; apply W|done]|].
    split; [by apply (umem_wrote _ l)|]. split; [|split].
    + intros [] b j [Hj Hb']; (split; [done|]); [|done]. destruct Hb' as (? & ? & Hb3). split_and!; try done. intros c Hc'. simpl. rewrite Hup. by apply Hb3.
    + intros p. rewrite (live_iff (set_phys m' k) l) by apply W. rewrite (live_iff k l) by done. simpl.
      rewrite (wr_kend _ _ _ _ _ _ _ W), (wr_tables _ _ _ _ _ _ _ W). by setoid_rewrite Hup.
    + intros j Hj. apply (avail_iff k _ _ Hu) in Hj. apply (avail_iff (set_phys m' k) l); [apply W|done].
  - pose proof Ha as Ha'. unfold on_stack in Ha'. zbool.
    assert (Hst : on_stack (a + i) (zlen bs) = true) by (unfold on_stack; rewrite !(proj2 (Z.leb_le _ _)) by lia; done). rewrite Hst.
    eexists. split; [done|]. set (k' := set_kstk _ k).
    assert (Hs' : zlen (kstk k') = PGSIZE) by (unfold k'; simpl; rewrite zlen_splice; lia).
    split; [split; [by exists l|split; [done|by apply bytes_ok_splice]]|]. split; [|done].
    rewrite !kread_stack by done. unfold k'. cbn [kstk set_kstk]. replace (a + i - KSTACK 0) with (a - KSTACK 0 + i) by lia. apply sub_splice_stack; lia.
Qed.

Lemma in_law k user a n i len :
  kmem_inv k -> kmem_acc k user a n -> 0 <= i -> 0 <= len -> i + len <= n ->
  km_in user (a + i) len k = Ok ((0, sub (km_read k user a n) i len), k).
Proof.
  intros [[l Hu] [Hs Hb]] [Hn Ha] Hi Hl Hfit. cbn [km_in kmem_ops]. unfold either_copyin. ksimpl. destruct user.
  - destruct Ha as (Ha0 & Hmax & Hacc).
    destruct (copyin_ok (phys k) l (upt k) (a + i) len Hu) as (r & c & He & Hc & _ & Hr); [lia|lia|unfold MAXVA, PGSIZE in *; lia|].
    destruct Hr as [[-> ->]|(_ & Hlt & Hnone)]; [|destruct (Hacc (a + i + c)) as [q Hq]; [lia|congruence]].
    unfold on_phys. rewrite (zoom_ok _ _ _ _ _ _ He). cbn [km_read kmem_ops]. rewrite sub_umem by lia. by destruct k.
  - pose proof Ha as Ha'. unfold on_stack in Ha'. zbool.
    assert (Hst : on_stack (a + i) len = true) by (unfold on_stack; rewrite !(proj2 (Z.leb_le _ _)) by lia; done). rewrite Hst.
    rewrite kread_stack by done. unfold mret, K_ret. do 3 f_equal. apply list_eq. intros j. rewrite !lookup_sub by lia.
    repeat case_decide; try done; try lia. f_equal. lia.
Qed.

(** One byte of user memory, at any address *)
Lemma bytes_ok_umem m l pt a n : user_ok m l pt -> bytes_ok (umem m pt a n).
Proof.
  intros Hu. apply Forall_forall. intros x [i [_ Hx]%lookup_umem]%list_elem_of_lookup. subst x. unfold ubyte.
  destruct (upage _ _ _) as [p|]; [|unfold byte_ok; lia]. destruct (ram m !! p) as [pg|] eqn:Epg; [|apply bytes_ok_znth; constructor].
  apply bytes_ok_znth. by apply (ro_page _ (ao_ram _ _ (vo_alloc _ _ _ (uo_vm _ _ _ Hu))) p).
Qed.
Lemma copy_high pt a c (m : mem) : MAXVA <= a -> copyout pt a [c] m = Ok (-1, m) /\ copyin pt a 1 m = Ok ((-1, []), m).
Proof.
  intros Ha. assert (Hw : walkaddr pt (PGROUNDDOWN a) m = Ok (0, m)).
  { unfold walkaddr. rewrite PGROUNDDOWN_eq, (proj2 (Z.leb_le _ _)); [done|].
    pose proof (pbase_in_va a) as [_ H]. unfold in_va in H. destruct (decide (pbase a < MAXVA)); [|lia]. pose proof (pbase_poff a). pose proof (poff_range a).
    unfold MAXVA, PGSIZE in *. lia. }
  unfold copyout, copyin. change (Z.to_nat (zlen [c] / PGSIZE + 2)) with 2%nat. change (Z.to_nat (1 / PGSIZE + 2)) with 2%nat.
  cbn [copyout_loop copyin_loop]. change (0 <? zlen [c]) with true. change (0 <? 1) with true. cbv iota.
  by rewrite !(bind_ok _ _ _ _ _ Hw).
Qed.
Lemma in_byte_law k a : kmem_inv k -> 0 <= a < 2 ^ 64 ->
  km_in true a 1 k = Ok ((0, km_read k true a 1), k) /\ bytes_ok (km_read k true a 1) \/ exists l, km_in true a 1 k = Ok ((-1, l), k).
Proof.
  intros [[l Hu] _] Ha. cbn [km_in km_read kmem_ops]. unfold either_copyin. ksimpl. unfold on_phys.
  destruct (decide (MAXVA <= a)) as [Hh|Hh].
  { right. exists []. rewrite (zoom_ok _ _ _ _ _ _ (proj2 (copy_high (upt k) a 0 (phys k) Hh))). by destruct k. }
  destruct (copyin_ok (phys k) l (upt k) a 1 Hu) as (r & c & He & Hc & Hacc & Hr); [lia|lia|unfold MAXVA, PGSIZE in *; lia|].
  rewrite (zoom_ok _ _ _ _ _ _ He). destruct Hr as [[-> ->]|(-> & _)]; [left|right; exists (umem (phys k) (upt k) a c); by destruct k].
  split; [by destruct k|by apply (bytes_ok_umem _ l)].
Qed.
Lemma out_byte_law k a c : kmem_inv k -> 0 <= a < 2 ^ 64 -> byte_ok c ->
  km_out true a [c] k = Ok (-1, k) \/
  exists k', km_out true a [c] k = Ok (0, k') /\ kmem_inv k' /\ (forall u b j, kmem_acc k u b j -> kmem_acc k' u b j) /\
    forall b, km_read k' true b 1 = if decide (b = a) then [c] else km_read k true b 1.
Proof.
  intros Hk Ha Hc. pose proof Hk as [[l Hu] [Hs Hb]]. destruct (decide (MAXVA <= a)) as [Hh|Hh].
  { left. cbn [km_out kmem_ops]. unfold either_copyout, on_phys. ksimpl. rewrite (zoom_ok _ _ _ _ _ _ (proj1 (copy_high (upt k) a c (phys k) Hh))). by destruct k. }
  destruct (copyout_ok (phys k) l (upt k) a [c] Hu) as (r & n & m' & He & Hn & W & Hacc & Hr); [lia|change (zlen [c]) with 1; unfold MAXVA, PGSIZE in *; lia|by constructor|].
  change (zlen [c]) with 1 in *. destruct Hr as [[-> ->]|(-> & Hlt & Hnone)].
  - right. assert (Hacc' : kmem_acc k true a 1) by (split; [lia|]; split_and!; [lia|lia|done]).
    destruct (out_law k true a 1 0 [c] Hk Hacc' ltac:(lia) ltac:(done) ltac:(by constructor)) as (k' & Ho & Hi & _ & Hkeep & _).
    rewrite Z.add_0_r in Ho. exists k'. split; [done|]. split; [done|]. split; [done|]. intros b. cbn [km_out kmem_ops] in Ho. unfold either_copyout, on_phys in Ho. revert Ho. ksimpl.
    rewrite (zoom_ok _ _ _ _ _ _ He). intros [= <-]. cbn [km_read kmem_ops phys upt set_phys]. unfold umem. simpl. rewrite !(wr_byte _ _ _ _ _ _ _ W), Z.add_0_r.
    destruct (decide (b = a)) as [->|]; [rewrite decide_True, Z.sub_diag by lia; done|by rewrite decide_False by lia].
  - left. assert (n = 0) as -> by lia. rewrite Z.add_0_r in Hnone. cbn [km_out kmem_ops]. unfold either_copyout, on_phys. ksimpl.
    assert (E : copyout (upt k) a [c] (phys k) = Ok (-1, phys k)); [|rewrite (zoom_ok _ _ _ _ _ _ E); by destruct k].
    unfold copyout. change (Z.to_nat (zlen [c] / PGSIZE + 2)) with 2%nat. cbn [copyout_loop]. change (0 <? zlen [c]) with true. cbv iota. rewrite PGROUNDDOWN_eq.
    pose proof (pbase_poff a). pose proof (poff_range a). assert (0 <= pbase a) by (unfold pbase; pose proof (Z.mod_le a PGSIZE ltac:(lia) ltac:(done)); lia).
    rewrite (bind_ok _ _ _ _ _ (walkaddr_ok _ l (upt k) (pbase a) Hu ltac:(done))). by rewrite upage_pbase, Hnone.
Qed.

#[export] Instance kmem_laws : KMemLaws kmem.
Proof.
  refine {| km_inv := kmem_inv; km_ok := kmem_acc; km_live := kmem_live; km_avail := kmem_avail |}.
  - intros k [] a n Hn; cbn [km_read kmem_ops]; [by apply zlen_umem|]. unfold zlen. rewrite length_fmap, length_seqZ. lia.
  - intros k user a n [[l Hu] [Hs Hb]] [Hn Ha]. destruct user.
    + by apply (bytes_ok_umem _ l).
    + rewrite kread_stack by done. by apply bytes_ok_sub.
  - unfold km_scratch, kmem_ops, KSTACK, TRAMPOLINE, MAXVA, PGSIZE. lia.
  - intros k _. split; [lia|]. done.
  - intros k user a n i bs H1 H2 H3 H4 H5. by apply out_law.
  - intros. by apply in_law.
  - apply kalloc_law.
  - intros k n (l & Hc & Hl). exists l. split; [done|lia].
  - apply kfree_law.
  - apply in_byte_law.
  - apply out_byte_law.
Defined.
