(* ===== verification/FsDemo.v ===== *)
(** * A small file system, for the examples

    A disk of 100 blocks with its bit map written, the buffer cache over the
    virtio driver, a process with two pages of memory, and an inode table with
    an empty file and an empty directory.  The examples of the file system's theorems
    run on it. *)

From stdpp Require Import base numbers list list_numbers gmap strings.
From Stdlib Require Import ZArith Lia.
From S2P Require Import Prelude Params KString Path Sleeplock Virtio Bio Kmem Fsys Blocks BlocksProof Bmap Dinode FileData Trunc Vfs Dirs DirsProof VfsProof Kalloc Vm VmProof VmMap VmSpace VmCopy KmemVm.

#[export] Instance demo_driver : DiskDriver disk := virtio_driver spec_device.
#[export] Instance demo_driver_laws : DiskDriverLaws disk := virtio_driver_laws (2 * FSSIZE) spec_device.

(** Blocks 0 to 4 are in use: boot, super block, two inode blocks, bit map. *)
Definition formatted : disk := set_sectors (fun _ => {[8 := 31 :: replicate 511 0]}) disk0.

Lemma formatted_inv : dd_inv formatted.
Proof.
  split; [by split|]. intros n l. change (sectors formatted) with ({[8 := 31 :: replicate 511 0]} : gmap Z (list Z)).
  intros [<- <-]%lookup_singleton_Some. split; [done|]. constructor; [unfold byte_ok; lia|]. apply bytes_ok_replicate. unfold byte_ok. lia.
Qed.

Definition cache0 : bcache disk := mk_bcache formatted (match binit (mk_bcache formatted boot_bufs 1) with Ok (_, s) => bbuf s | _ => [] end) 1.

Lemma cache0_inv : bc_inv cache0 [].
Proof.
  destruct (binit_ok formatted 1 formatted_inv) as (s' & He & Hi & _). unfold cache0. rewrite He.
  assert (E : s' = mk_bcache formatted (bbuf s') 1); [|by rewrite <- E].
  assert (Hd : dsk s' = formatted /\ curpid s' = 1); [|by destruct s'; simpl in *; destruct Hd as [-> ->]].
  revert He. vm_compute. intros [= <-]. done.
Qed.

Definition demo_sb : xv6fs_super_block := mk_sb FSMAGIC 100 95 20 0 0 2 4.
Definition empty_xi (ty : Z) : xv6fs_inode := mk_xi ROOTDEV ty 0 0 1 0 (replicate 13 0).

(** Entry 0 of the inode table is a file, entry 1 a directory; their objects are at [p] and [q]. *)
Definition demo_itable (p q links : Z) : list inode :=
  [mk_inode true true 3 1 (mk_sleeplock 0 0) T_FILE ROOTDEV 0 links p; mk_inode true true 1 1 (mk_sleeplock 0 0) T_DIR ROOTDEV 0 1 q;
   mk_inode false false 0 0 (mk_sleeplock 0 0) 0 0 0 0 0].
Definition demo (k : kmem) (p q links : Z) : fsys (bcache disk) kmem :=
  mk_fsys cache0 k demo_sb (demo_itable p q links) [] (<[p := HInode (empty_xi T_FILE)]> {[q := HInode (empty_xi T_DIR)]}) [] (Some 1) [] 1.

Lemma demo_fs_ok k p q links : fs_ok (demo k p q links) [].
Proof.
  split.
  - exact cache0_inv.
  - split; [cbn; unfold BPB, BSIZE; lia|by vm_compute|by vm_compute|by vm_compute].
  - intros b Hb. change (meta_end (sb (demo k p q links))) with 5 in Hb.
    assert (b = 0 \/ b = 1 \/ b = 2 \/ b = 3 \/ b = 4) as [->|[->|[->|[->| ->]]]] by lia; vm_compute; reflexivity.
Qed.

Lemma empty_ino_ok (s : fsys (bcache disk) kmem) ty : ino_ok s (empty_xi ty).
Proof.
  assert (Hz : forall bn, 0 <= bn < MAXFILE -> iaddr s (empty_xi ty) bn = 0).
  { intros bn Hbn. unfold iaddr. change (indirect (empty_xi ty)) with 0. destruct (bn <? NDIRECT) eqn:E; [|done]. zbool. cbn [addrs empty_xi].
    unfold znth. apply lookup_total_replicate_2. unfold NDIRECT in E. lia. }
  split; try done.
  - intros bn Hbn Hne. by rewrite Hz in Hne.
  - intros bn bn' Hbn _ Hne. by rewrite Hz in Hne.
Qed.

Lemma demo_file_ok k p q links : is_short links -> file_ok (demo k p q links) 0 (empty_xi T_FILE).
Proof.
  intros Hl. split; try done.
  - cbn. by rewrite lookup_insert_eq.
  - apply empty_ino_ok.
  - intros bn Hb Hs. change (bn * BSIZE < 0) in Hs. unfold BSIZE in Hs. lia.
Qed.

Lemma demo_dir_ok k p q links : p <> q -> dir_ok (demo k p q links) 1 (empty_xi T_DIR).
Proof.
  intros Hpq. split; try done. split; try done.
  - cbn. by rewrite lookup_insert_ne, lookup_singleton_eq.
  - apply empty_ino_ok.
  - intros bn Hb Hs. change (bn * BSIZE < 0) in Hs. unfold BSIZE in Hs. lia.
Qed.

(** Pages taken from the machine of [two_page_process]: two, and then [n] more. *)
Fixpoint allocs (n : nat) : K mem bool :=
  match n with
  | O => mret true
  | S n => p ← kalloc; b ← allocs n; mret (negb (p =? 0) && b)
  end.
Definition take2 (n : nat) : K mem (Z * Z * bool) := p ← kalloc; q ← kalloc; b ← allocs n; mret (p, q, b).

Lemma take2_run :
  match (boot_space 8192;; take2 5) (machine 12) with Ok ((p, q, b), _) => negb (p =? 0) && negb (q =? 0) && b | _ => false end = true.
Proof. vm_compute. reflexivity. Qed.

Lemma allocs_len n m l : alloc_ok m l -> match allocs n m with Ok (true, _) => (n <= length l)%nat | _ => True end.
Proof.
  revert m l. induction n as [|n IH]; intros m l Hok; simpl; [lia|]. pose proof (kalloc_ok _ _ Hok) as Hk. destruct l as [|p l].
  - rewrite (bind_ok _ _ _ _ _ Hk). unfold mbind at 1, K_bind. by destruct (allocs n m) as [[[] ?]|?|?|?|].
  - destruct Hk as (m' & He & Hok' & _). rewrite (bind_ok _ _ _ _ _ He). specialize (IH m' l Hok'). unfold mbind at 1, K_bind.
    destruct (allocs n m') as [[[] ?]|?|?|?|]; simpl; try done; destruct (p =? 0); simpl; done || lia.
Qed.

Lemma on_phys_inv k p k' : on_phys kalloc k = Ok (p, k') -> exists m', kalloc (phys k) = Ok (p, m') /\ k' = set_phys m' k.
Proof. unfold on_phys, zoom. destruct (kalloc (phys k)) as [[q m']|?|?|?|]; simpl; try done. intros [= <- <-]. by exists m'. Qed.

Lemma demo_process :
  exists k p q, km_inv k /\ km_ok k true 0 8192 /\ km_live k p /\ km_live k q /\ p <> q /\ p <> 0 /\ q <> 0 /\ km_avail k 5.
Proof.
  destruct two_page_process as (m & l & pt & Hu & Hacc & _ & Hrun).
  pose proof take2_run as Ht. rewrite (bind_ok _ _ _ _ _ Hrun) in Ht. clear Hrun.
  set (k0 := mk_kmem m pt (replicate 4096 0)).
  assert (Hi0 : kmem_inv k0) by (split; [by exists l|split; [done|apply bytes_ok_replicate; unfold byte_ok; lia]]).
  assert (Ha0 : kmem_acc k0 true 0 8192) by (split; [lia|]; split; [lia|]; split; [unfold MAXVA; lia|exact Hacc]).
  destruct (kalloc_law k0 Hi0) as (p & k1 & He1 & Hi1 & Hk1 & Hp1 & _). destruct (on_phys_inv _ _ _ He1) as (m1 & Em1 & Ek1).
  destruct (kalloc_law k1 Hi1) as (q & k2 & He2 & Hi2 & Hk2 & Hp2 & _). destruct (on_phys_inv _ _ _ He2) as (m2 & Em2 & Ek2).
  destruct Hi2 as [[l2 Hu2] Hst2]. pose proof (allocs_len 5 (phys k2) l2 (vo_alloc _ _ _ (uo_vm _ _ _ Hu2))) as Hav.
  unfold take2 in Ht. change m with (phys k0) in Ht. rewrite (bind_ok _ _ _ _ _ Em1) in Ht.
  change m1 with (phys (set_phys m1 k0)) in Ht. rewrite <- Ek1, (bind_ok _ _ _ _ _ Em2) in Ht.
  change m2 with (phys (set_phys m2 k1)) in Ht. rewrite <- Ek2 in Ht. unfold mbind, K_bind in Ht.
  destruct (allocs 5 (phys k2)) as [[[] ?]|?|?|?|] eqn:E; simpl in Ht; try discriminate Ht; [|by rewrite andb_false_r in Ht]. clear E. zbool.
  destruct (Hp1 ltac:(done)) as [_ Hl1]. destruct (Hp2 ltac:(done)) as [Hn2 Hl2].
  exists k2, p, q. split_and!; try done.
  - split; [by exists l2|done].
  - apply Hk2, Hk1, Ha0.
  - apply Hl2. right. apply Hl1. by left.
  - apply Hl2. by left.
  - intros ->. apply Hn2, Hl1. by left.
  - by apply (avail_iff k2 l2 5 Hu2).
Qed.
