(* ===== verification/FsSpec.v ===== *)
(** * What the file system promises

    The theorems on file contents, block allocation, the inode table and
    directories that a user of [src/kernel/fs] relies on, stated on the
    operations of [Blocks], [Vfs] and [Dirs] and applied to the small file
    system of [FsDemo]. *)

From stdpp Require Import base numbers list list_numbers gmap strings.
From Stdlib Require Import ZArith Lia.
From S2P Require Import Prelude Params KString Path Sleeplock Virtio Bio Kmem Fsys Blocks BlocksProof Bmap Dinode FileData Trunc Vfs Dirs DirsProof VfsProof Kalloc Vm VmProof VmMap VmSpace VmCopy KmemVm FsDemo Lookup.

Section FsSpec.
Context {B M : Type} `{BC : BufCache B, BL : !BufCacheLaws B} `{KM : KMem M, KL : !KMemLaws M}.
Implicit Types s : fsys B M.

(** ** File contents *)

Lemma read_back s ino ip user dst off n :
  fs_ok s [] -> file_ok s ino ip -> km_inv (mm s) -> km_ok (mm s) user dst n ->
  0 <= dst -> dst + n < 2 ^ 64 -> 0 <= off -> 0 <= n -> off + n <= size (geti s ino) ->
  exists s', xv6fs_readi ino user dst off n s = Ok (n, s') /\ rsame s s' /\ km_inv (mm s') /\
    km_read (mm s') user dst n = fbytes s ip off n.
Proof using Type.
  intros Hok Hf Hm Hmo Hd Hdn Ho Hn Hsz. pose proof (fk_size _ _ _ Hf) as Hs. change (MAXFILE * BSIZE) with 274432 in Hs.
  destruct (readi_ok s ino ip user dst off n) as (s' & He & Hr & Hm' & _ & Hv); try done; try lia.
  assert (Ec : read_count (size (geti s ino)) off n = n).
  { unfold read_count. rewrite (proj2 (Z.ltb_ge _ _)), (proj2 (Z.leb_gt _ _)) by lia. simpl. lia. }
  rewrite Ec in *. exists s'. split_and!; try done. apply znth_ext.
  { rewrite zlen_fbytes by done. by apply km_read_len. }
  rewrite km_read_len by done. intros i Hi. rewrite Hv by done. rewrite decide_True by lia. by rewrite znth_fbytes.
Qed.

(** C8: a write to a file followed by a read of the same range returns the bytes that
    were written, at any offset up to the end of the file and for a range that crosses
    blocks or enters the indirect block; the write is short only when the disk is full. *)
Theorem writei_readi s ino ip user src off n user' dst :
  fs_ok s [] -> file_ok s ino ip -> km_inv (mm s) -> km_ok (mm s) user src n -> km_ok (mm s) user' dst n ->
  0 <= src -> src + n < 2 ^ 64 -> 0 <= dst -> dst + n < 2 ^ 64 ->
  0 <= off <= size (geti s ino) -> 0 <= n -> off + n <= MAXFILE * BSIZE ->
  exists t s', xv6fs_writei ino user src off n s = Ok (t, s') /\ 0 <= t <= n /\ (t < n -> full s') /\
    (t = n -> exists s'', xv6fs_readi ino user' dst off n s' = Ok (n, s'') /\
      km_read (mm s'') user' dst n = km_read (mm s) user src n).
Proof using Type.
  intros Hok Hf Hm Hmo Hmo' Hs Hsn Hd Hdn Hoff Hn Hmax.
  destruct (writei_ok s ino ip user src off n) as (t & s' & ip' & He & Ht & Hfull & Hok' & Hf' & Hon & _ & Hfb & _); try done.
  exists t, s'. split_and!; try done; try lia; [intros; by apply Hfull|]. intros ->.
  assert (Hg : size (geti s' ino) = Z.max (size (geti s ino)) (off + n) /\ mm s' = mm s).
  { destruct Hon as [b ->]. change (geti (set_bc b ?x) ino) with (geti x ino).
    rewrite geti_alter by (apply Hf || apply (fk_ino _ _ _ Hf)). by rewrite decide_True. }
  destruct Hg as [Hsz Hmm].
  destruct (read_back s' ino ip' user' dst off n) as (s'' & He'' & _ & _ & Hr); rewrite ?Hmm; try done; try lia.
  exists s''. split; [done|]. rewrite Hr. apply znth_ext; rewrite zlen_fbytes by done.
  { by rewrite km_read_len by done. }
  intros i Hi. rewrite znth_fbytes, Hfb by lia. rewrite decide_True by lia. f_equal. lia.
Qed.

(** The files [ip] and [ip2] have no block in common. *)
Definition apart s (ip ip2 : xv6fs_inode) : Prop := forall c, owns s ip c -> owns s ip2 c -> False.

Lemma owns_foreign s ip ip2 c :
  ino_ok s ip2 -> apart s ip ip2 -> owns s ip2 c -> (c <> 0 -> data_block s c) -> foreign s ip c.
Proof using Type.
  intros Hio Ha Hc Hd. pose proof Hc as [Hnz _]. split; [by apply Hd|]. split.
  - intros E. apply (Ha c); [|done]. split; [done|]. by left.
  - intros bn Hbn E. apply (Ha c); [|done]. split; [done|]. right. by exists bn.
Qed.

Lemma owned_data s ip c : ino_ok s ip -> owns s ip c -> data_block s c.
Proof using Type.
  intros Hio [Hnz [->|(bn & Hbn & ->)]]; [by apply (io_ind _ _ Hio)|by apply (io_data _ _ Hio)].
Qed.

(** C15: a write to one file leaves every other file as it was: its inode in the table and on the
    disk, its block map and every byte of its contents. *)
Theorem writei_isolated s ino ip user src off n ino2 ip2 :
  fs_ok s [] -> file_ok s ino ip -> km_inv (mm s) -> km_ok (mm s) user src n ->
  0 <= src -> src + n < 2 ^ 64 -> 0 <= off <= size (geti s ino) -> 0 <= n -> off + n <= MAXFILE * BSIZE ->
  file_ok s ino2 ip2 -> ino2 <> ino -> private (geti s ino2) <> private (geti s ino) ->
  inum (geti s ino2) <> inum (geti s ino) -> apart s ip ip2 ->
  exists t s', xv6fs_writei ino user src off n s = Ok (t, s') /\
    geti s' ino2 = geti s ino2 /\ heap s' !! private (geti s ino2) = Some (HInode ip2) /\
    disk_inode s' (inum (geti s ino2)) = disk_inode s (inum (geti s ino2)) /\
    (forall bn, 0 <= bn < MAXFILE -> iaddr s' ip2 bn = iaddr s ip2 bn) /\
    (forall i, 0 <= i < size (geti s ino2) -> fbyte s' ip2 i = fbyte s ip2 i).
Proof using Type.
  intros Hok Hf Hm Hmo Hs Hsn Hoff Hn Hmax Hf2 Hne Hpne Hnne Hap. pose proof (fk_ip _ _ _ Hf2) as Hio2.
  destruct (writei_ok s ino ip user src off n) as (t & s' & ip' & He & _ & _ & _ & _ & Hon & _ & _ & _ & Hdi & Hfor); try done.
  assert (Hblk : forall c, owns s ip2 c -> blk s' c = blk s c).
  { intros c Hc. apply Hfor. eapply owns_foreign; try done. intros _. by eapply owned_data. }
  assert (Hia : forall bn, iaddr s' ip2 bn = iaddr s ip2 bn).
  { intros bn. apply iaddr_ext. intros Hnz. apply Hblk. split; [done|]. by left. }
  exists t, s'. split; [done|]. split_and!.
  - destruct Hon as [b ->]. change (geti (set_bc b ?x) ino2) with (geti x ino2).
    rewrite geti_alter; [by rewrite decide_False|apply (fk_ino _ _ _ Hf)|apply (fk_ino _ _ _ Hf2)].
  - destruct Hon as [b ->]. cbn. rewrite lookup_insert_ne by done. apply Hf2.
  - apply Hdi; [apply Hf2|done].
  - auto.
  - intros i Hi. unfold fbyte. rewrite Hia, Hblk; [done|]. pose proof (fk_size _ _ _ Hf2).
    pose proof (no_holes_at _ _ _ _ (fk_holes _ _ _ Hf2) Hi) as Hnz. split; [done|]. right.
    exists (i / BSIZE). split; [|done]. apply (div_range i (size (geti s ino2))); [done|tauto].
Qed.

(** A write that starts past the end of the file, whose end overflows 32 bits, or that would
    exceed the largest file returns -1 and changes nothing. *)
Theorem writei_rejects s ino user src off n :
  size (geti s ino) < off \/ uint (off + n) < off \/ MAXFILE * BSIZE < uint (off + n) ->
  xv6fs_writei ino user src off n s = Ok (-1, s).
Proof using Type.
  intros H. unfold xv6fs_writei. ksimpl. destruct H as [H|[H|H]].
  - by rewrite (proj2 (Z.ltb_lt _ _)) by lia.
  - rewrite (proj2 (Z.ltb_lt (uint (off + n)) _)) by lia. by rewrite orb_true_r.
  - destruct ((size (geti s ino) <? off) || (uint (off + n) <? off)); [done|]. by rewrite (proj2 (Z.ltb_lt _ _)) by lia.
Qed.

(** ** Block allocation *)

(** [balloc] hands out the lowest free block, zeroed and marked in use, without touching any
    other block in use, and returns 0 only when the disk is full; [bfree] of that block
    gives back the bit map there was before. *)
Theorem balloc_bfree s :
  fs_ok s [] ->
  exists r s', balloc ROOTDEV s = Ok (r, s') /\
    ((r = 0 /\ full s /\ forall m, blk s' m = blk s m) \/
     (meta_end (sb s) <= r < sb_size (sb s) /\ used s r = false /\ (forall c, 0 <= c < r -> used s c = true) /\
      blk s' r = replicate (Z.to_nat BSIZE) 0 /\ (forall m, data_block s m -> blk s' m = blk s m) /\ used s' r = true /\
      exists s'', bfree ROOTDEV r s' = Ok (tt, s'') /\ forall c, 0 <= c < sb_size (sb s) -> used s'' c = used s c)).
Proof using Type.
  intros Hok. destruct (balloc_spec s [] Hok) as (r & s' & He & Hk & Hok' & Hcase); [by split; [|intros ? ?%elem_of_nil]|].
  exists r, s'. split; [done|]. destruct Hcase as [(-> & Hb & Hf)|(Hr & Hu & Hlow & Hz & Hb & Hu')]; [by left|right].
  pose proof (keep_sb _ _ _ Hk) as Hsb. pose proof (sb_meta_pos _ (fo_sb _ _ Hok)) as Hmp.
  assert (Hur : used s' r = true) by (rewrite Hu' by lia; by rewrite decide_True).
  destruct (bfree_spec s' [] r Hok') as (s'' & He'' & _ & _ & _ & Hu''); [by split; [|intros ? ?%elem_of_nil]|by rewrite Hsb|done|].
  split_and!; try done; try lia.
  - intros m [Hm Hum]. apply Hb; [|lia]. intros ->. congruence.
  - exists s''. split; [done|]. intros c Hc. rewrite Hu'' by by rewrite Hsb. destruct (decide (c = r)) as [->|]; [done|].
    rewrite Hu' by done. by rewrite decide_False.
Qed.

(** ** Directories *)

Lemma hit_mk name num nm : name_ok nm -> 0 < num < 2 ^ 16 -> hit name (mk_de num nm) = bool_decide (cname name = cname nm).
Proof using Type.
  intros Hn Hnum. unfold hit. rewrite de_inum_mk, de_name_mk by (done || lia). by rewrite (proj2 (Z.eqb_neq _ _)) by lia.
Qed.

(** C31: after [xv6fs_link] of a name that was not in the directory the name leads to the inode
    and every other name leads where it led before; it fails only when the disk is full. *)
Theorem link_adds_name s target dp son ip :
  fs_ok s [] -> dir_ok s dp ip -> km_inv (mm s) ->
  d_parent target = Some dp -> d_inode target = Some son -> name_ok (d_name target) ->
  0 < inum (geti s son) < 2 ^ 16 ->
  lfind (d_name target) (dirents s dp ip) = None -> size (geti s dp) + 16 <= MAXFILE * BSIZE ->
  exists r s' ip', xv6fs_link target s = Ok (r, s') /\
    ((r = 0 /\ dir_ok s' dp ip' /\ forall name, lfind name (dirents s' dp ip') =
        if bool_decide (cname name = cname (d_name target)) then Some (inum (geti s son)) else lfind name (dirents s dp ip)) \/
     (r = -1 /\ full s')).
Proof using Type.
  intros Hok Hd Hm Hp Hi Hname Hnum Hnone Hmax.
  destruct (link_ok s target dp son ip) as (r & s' & ip' & He & _ & _ & Hcase); try done; [by rewrite dir_find_lfind|].
  exists r, s', ip'. split; [done|]. destruct Hcase as [(-> & Hd' & Hl)|]; [left|by right]. split_and!; try done.
  intros name. rewrite Hl. destruct (copy_name_ok _ Hname) as [Hn1 Hc1]. destruct (copy_name_ok _ Hn1) as [Hn2 Hc2].
  assert (Hh : hit name (mk_de (inum (geti s son)) (copy_name (copy_name (d_name target)))) = bool_decide (cname name = cname (d_name target))).
  { rewrite hit_mk by done. by rewrite Hc2, Hc1. }
  destruct (decide (cname name = cname (d_name target))) as [E|E].
  - rewrite (bool_decide_eq_true_2 _ E) in *. rewrite lfind_put; [|by rewrite (lfind_cname _ _ _ E)|done].
    by rewrite de_inum_mk by lia.
  - rewrite (bool_decide_eq_false_2 _ E) in *. by apply lfind_put_other.
Qed.

(** C32: after [xv6fs_unlink] the name is not in the directory and every other name leads where it
    led before. *)
Theorem unlink_removes_name s d dp ip :
  fs_ok s [] -> dir_ok s dp ip -> km_inv (mm s) -> d_parent d = Some dp -> name_ok (d_name d) ->
  exists s' ip', xv6fs_unlink d s = Ok (0, s') /\ fs_ok s' [] /\ dir_ok s' dp ip' /\
    forall name, lfind name (dirents s' dp ip') =
      if bool_decide (cname name = cname (d_name d)) then None else lfind name (dirents s dp ip).
Proof using Type.
  intros Hok Hd Hm Hp Hname. destruct (unlink_dir_ok s d dp ip) as (s' & ip' & He & Hok' & _ & Hd' & _ & Hl); try done.
  exists s', ip'. split_and!; try done. intros name. rewrite Hl. apply lfind_clear.
Qed.

(** ** Reference counts *)

Lemma slot_at s i : 0 <= i < zlen (itable s) -> itable s !! Z.to_nat i = Some (geti s i).
Proof using Type. intros Hi. apply list_lookup_lookup_total_lt. unfold zlen in Hi. lia. Qed.

(** [xv6fs_geti] of an inode that is in the table with references but not yet loaded, as the
    root directory is when [xv6fs_mount] runs after [userinit], sets the reference count to 1
    whatever it was: the references taken before are no longer counted. *)
Theorem geti_resets_count s i num :
  fs_ok s [] -> km_inv (mm s) -> km_avail (mm s) 1 -> inum_ok (sb s) num -> itable_ok (itable s) ->
  Forall (fun x => ref x < 2 ^ 31 - 1) (itable s) -> 0 <= i < zlen (itable s) -> is_at ROOTDEV num (geti s i) ->
  private (geti s i) = 0 ->
  exists s', xv6fs_geti ROOTDEV num true s = Ok (i, s') /\ ref (geti s' i) = 1.
Proof using Type.
  intros Hok Hm Hav Hnum Htb Hmax Hi Hat Hp. pose proof Hat as (Hlv & Hd & Hn).
  destruct (iget_ok s ROOTDEV num Htb Hmax) as (j & f & s1 & He & Hj & Es & _ & Hat1 & _ & Hcase).
  { apply Exists_exists. exists (geti s i). split; [|by right]. by apply list_elem_of_lookup_2 with (Z.to_nat i), slot_at. }
  destruct Hcase as [[(Hlj & Hdj & Hnj) Hg]|(Hno & _)]; [|by destruct (Hno _ _ (slot_at s i Hi))].
  assert (j = i) as ->.
  { enough (Z.to_nat j = Z.to_nat i) by lia. apply (proj2 Htb _ _ (geti s j) (geti s i)); try by apply slot_at. all: congruence || done. }
  assert (Hlen : zlen (itable s1) = zlen (itable s)) by (rewrite Es; unfold zlen; simpl; by rewrite length_alter).
  destruct (load_inode_ok s1 i num) as (p & s2 & He2 & _ & _ & _ & _ & _ & b & m & Es2 & _).
  { rewrite Es. by apply fs_ok_itable. } { by rewrite Es. } { by rewrite Es. } { by rewrite Hlen. } { by rewrite Es. }
  exists s2. split.
  - unfold xv6fs_geti. kstep He. ksimpl. rewrite Hg. cbn [private set_ref]. rewrite Hp. cbn [Z.eqb]. by kstep He2.
  - rewrite Es2. change (geti (set_bc b (set_mm m (set_heap ?g ?x))) i) with (geti x i). rewrite geti_alter_eq by by rewrite Hlen. done.
Qed.
End FsSpec.

(** ** Examples *)

Lemma one_link : is_short 1.
Proof. unfold is_short. lia. Qed.
Ltac decided := repeat split; vm_compute; congruence.

Lemma writei_readi_witness : exists k p q t s',
  xv6fs_writei 0 true 0 0 5000 (demo k p q 1) = Ok (t, s') /\
  (t = 5000 -> exists s'', xv6fs_readi 0 true 2000 0 5000 s' = Ok (5000, s'') /\ km_read (mm s'') true 2000 5000 = km_read k true 0 5000).
Proof.
  destruct demo_process as (k & p & q & Hk & Ha & _ & _ & _). exists k, p, q.
  assert (Hacc : forall a n, 0 <= a -> 0 <= n -> a + n <= 8192 -> km_ok k true a n).
  { intros a n Ha0 Hn Hle. destruct Ha as (_ & _ & Hv & Hpg). split; [lia|]. split; [lia|]. split; [unfold MAXVA; lia|].
    intros i Hi. apply Hpg. lia. }
  destruct (writei_readi (demo k p q 1) 0 (empty_xi T_FILE) true 0 0 5000 true 2000 (demo_fs_ok k p q 1) (demo_file_ok k p q 1 one_link) Hk
    (Hacc 0 5000 ltac:(lia) ltac:(lia) ltac:(lia)) (Hacc 2000 5000 ltac:(lia) ltac:(lia) ltac:(lia)))
    as (t & s' & He & _ & _ & Hr); [decided..|]. by exists t, s'.
Defined.

Lemma apart_empty (s : fsys (bcache disk) kmem) ty ip : apart s (empty_xi ty) ip.
Proof.
  intros c [Hnz [->|(bn & Hbn & ->)]] _; [by apply Hnz|]. apply Hnz. unfold iaddr. change (indirect (empty_xi ty)) with 0.
  destruct (bn <? NDIRECT) eqn:E; [|done]. zbool. cbn [addrs empty_xi]. unfold znth. apply lookup_total_replicate_2. unfold NDIRECT in E. lia.
Qed.

Lemma writei_isolated_witness : exists k p q t s',
  xv6fs_writei 0 true 0 0 8192 (demo k p q 1) = Ok (t, s') /\ geti s' 1 = geti (demo k p q 1) 1 /\
  heap s' !! q = Some (HInode (empty_xi T_DIR)).
Proof.
  destruct demo_process as (k & p & q & Hk & Ha & _ & _ & Hpq & _). exists k, p, q.
  destruct (writei_isolated (demo k p q 1) 0 (empty_xi T_FILE) true 0 0 8192 1 (empty_xi T_DIR) (demo_fs_ok k p q 1)
    (demo_file_ok k p q 1 one_link) Hk Ha) as (t & s' & He & Hg & Hh & _); [decided..| | | | | |].
  - apply (demo_dir_ok k p q 1 Hpq).
  - lia.
  - exact (not_eq_sym Hpq).
  - decided.
  - apply apart_empty.
  - by exists t, s'.
Defined.

Lemma writei_rejects_witness : exists k p q, xv6fs_writei 0 true 0 1 10 (demo k p q 1) = Ok (-1, demo k p q 1).
Proof.
  destruct demo_process as (k & p & q & _). exists k, p, q. apply (writei_rejects (demo k p q 1) 0 true 0 1 10). left. done.
Defined.

Lemma balloc_bfree_witness : exists k p q r s', balloc ROOTDEV (demo k p q 1) = Ok (r, s').
Proof.
  destruct demo_process as (k & p & q & _). exists k, p, q.
  destruct (balloc_bfree (demo k p q 1) (demo_fs_ok k p q 1)) as (r & s' & He & _). by exists r, s'.
Defined.

(** "readme", as the name field of a directory entry holds it. *)
Definition readme : list Z := [114; 101; 97; 100; 109; 101; 0; 0; 0; 0; 0; 0; 0; 0].
Lemma readme_ok : name_ok readme.
Proof. split; [done|]. repeat constructor; unfold byte_ok; lia. Qed.
Definition readme_entry : dentry := mk_dentry true (Some 1) readme (Some 0) 0 0 1 0.

Lemma link_adds_name_witness : exists k p q r s', xv6fs_link readme_entry (demo k p q 1) = Ok (r, s') /\
  (r = 0 -> exists ip', lfind readme (dirents s' 1 ip') = Some 3).
Proof.
  destruct demo_process as (k & p & q & Hk & _ & _ & _ & Hpq & _). exists k, p, q.
  destruct (link_adds_name (demo k p q 1) readme_entry 1 0 (empty_xi T_DIR) (demo_fs_ok k p q 1) (demo_dir_ok k p q 1 Hpq) Hk
    eq_refl eq_refl readme_ok) as (r & s' & ip' & He & Hc); [decided..|].
  exists r, s'. split; [done|]. intros ->. destruct Hc as [(_ & _ & Hl)|[? _]]; [|done]. exists ip'. by rewrite Hl, bool_decide_true.
Defined.

Lemma unlink_removes_name_witness : exists k p q s' ip', xv6fs_unlink readme_entry (demo k p q 1) = Ok (0, s') /\
  lfind readme (dirents s' 1 ip') = None.
Proof.
  destruct demo_process as (k & p & q & Hk & _ & _ & _ & Hpq & _). exists k, p, q.
  destruct (unlink_removes_name (demo k p q 1) readme_entry 1 (empty_xi T_DIR) (demo_fs_ok k p q 1) (demo_dir_ok k p q 1 Hpq) Hk
    eq_refl readme_ok) as (s' & ip' & He & _ & _ & Hl).
  exists s', ip'. split; [done|]. by rewrite Hl, bool_decide_true.
Defined.

Lemma iput_unlinked_ok_witness : exists k p q s', iput 0 (demo k p q 0) = Ok (tt, s') /\ di_type (disk_inode s' 3) = 0.
Proof.
  destruct demo_process as (k & p & q & Hk & _ & Hp & _ & Hpq & Hp0 & _). exists k, p, q.
  assert (Hl : is_short 0) by (unfold is_short; lia).
  destruct (iput_unlinked_ok (demo k p q 0) 0 (empty_xi T_FILE) (demo_fs_ok k p q 0) Hk) as (s' & He & _ & _ & _ & Ht & _);
    [split; [by apply demo_file_ok|reflexivity..|exact Hp|exact Hp0]|reflexivity..|].
  by exists s'.
Defined.

(** The inode table when [forkret] mounts the root: [userinit] has taken a reference to the root
    directory and nothing has been read from the disk.  The mount takes a second one. *)
Definition booting (k : kmem) : fsys (bcache disk) kmem :=
  set_itable (fun _ => [mk_inode false false 1 1 (mk_sleeplock 0 0) 0 ROOTDEV 0 0 0]) (demo k 0 0 1).

Lemma geti_resets_count_witness : exists k s', ref (geti (booting k) 0) = 1 /\ xv6fs_geti ROOTDEV ROOTINO true (booting k) = Ok (0, s') /\
  ref (geti s' 0) = 1.
Proof.
  destruct demo_process as (k & p & q & Hk & _ & _ & _ & _ & _ & _ & Hav). exists k.
  destruct (geti_resets_count (booting k) 0 ROOTINO) as (s' & He & Hr).
  - apply fs_ok_itable, demo_fs_ok.
  - exact Hk.
  - by do 4 apply km_avail_le.
  - decided.
  - split; [intros [|j] i; simpl; intros [= <-]; simpl; lia|]. intros [|j] [|j'] i i'; simpl; intros [= <-] [= <-]; done.
  - repeat constructor.
  - decided.
  - decided.
  - reflexivity.
  - exists s'. split; [reflexivity|]. split; [exact He|exact Hr].
Defined.

(** ** A directory tree, for the examples of path lookup

    The disk of [FsDemo] with a root directory that has one entry, the file
    [readme]. *)

(** Inode 1 is the root directory with its entries in block 5, inode 3 an empty file. *)
Definition pad (n : nat) (l : list Z) : list Z := l ++ replicate (n - length l) 0.
Definition root_di : list Z := pad 64 [1; 0; 0; 0; 0; 0; 1; 0; 16; 0; 0; 0; 5].
Definition file_di : list Z := pad 64 [2; 0; 0; 0; 0; 0; 1; 0].
Definition tree_sectors : list (Z * list Z) :=
  [(4, pad 512 (pad 64 [] ++ root_di ++ pad 64 [] ++ file_di)); (8, pad 512 [63]); (10, pad 512 (mk_de 3 readme))].
Definition tree_disk : disk := set_sectors (fun _ => list_to_map tree_sectors) disk0.

Definition bytes_okb (l : list Z) : bool := forallb (fun b => (0 <=? b) && (b <? 256)) l.
Lemma bytes_okb_ok l : bytes_okb l = true -> bytes_ok l.
Proof. intros H. apply Forall_forall. intros x Hx%list_elem_of_In. apply (proj1 (forallb_forall _ _) H) in Hx. zbool. done. Qed.

Lemma tree_disk_inv : dd_inv tree_disk.
Proof.
  split; [by split|]. intros n l. change (sectors tree_disk) with (list_to_map tree_sectors : gmap Z (list Z)).
  intros H%elem_of_list_to_map_2. assert (Hall : forallb (fun p => (zlen (snd p) =? 512) && bytes_okb (snd p)) tree_sectors = true) by (vm_compute; reflexivity).
  apply list_elem_of_In in H. apply (proj1 (forallb_forall _ _) Hall) in H. simpl in H. apply andb_true_iff in H as [H1%Z.eqb_eq H2]. split; [done|by apply bytes_okb_ok].
Qed.

Definition tree_cache : bcache disk := mk_bcache tree_disk (match binit (mk_bcache tree_disk boot_bufs 1) with Ok (_, s) => bbuf s | _ => [] end) 1.
Lemma tree_cache_inv : bc_inv tree_cache [].
Proof.
  destruct (binit_ok tree_disk 1 tree_disk_inv) as (s' & He & Hi & _). unfold tree_cache. rewrite He.
  assert (E : s' = mk_bcache tree_disk (bbuf s') 1); [|by rewrite <- E].
  assert (Hd : dsk s' = tree_disk /\ curpid s' = 1); [|by destruct s'; simpl in *; destruct Hd as [-> ->]].
  revert He. vm_compute. intros [= <-]. done.
Qed.

Definition root_xi : xv6fs_inode := mk_xi ROOTDEV 1 0 0 1 16 (5 :: replicate 12 0).
(** Entry 0 of the inode table is the root directory; the others are free. *)
Definition tree_fs (k : kmem) (q : Z) : fsys (bcache disk) kmem :=
  mk_fsys tree_cache k demo_sb
    [mk_inode true true 1 1 (mk_sleeplock 0 0) T_DIR ROOTDEV 16 1 q; mk_inode false false 0 0 (mk_sleeplock 0 0) 0 0 0 0 0;
     mk_inode false false 0 0 (mk_sleeplock 0 0) 0 0 0 0 0]
    [] {[q := HInode root_xi]} [] (Some 0) [] 1.

Lemma tree_fs_ok k q : fs_ok (tree_fs k q) [].
Proof.
  split.
  - exact tree_cache_inv.
  - split; [cbn; unfold BPB, BSIZE; lia|by vm_compute|by vm_compute|by vm_compute].
  - intros b Hb. change (meta_end (sb (tree_fs k q))) with 5 in Hb.
    assert (b = 0 \/ b = 1 \/ b = 2 \/ b = 3 \/ b = 4) as [->|[->|[->|[->| ->]]]] by lia; vm_compute; reflexivity.
Qed.

Lemma tree_types k q num : allocated (tree_fs k q) num -> num = 1 \/ num = 3.
Proof.
  intros [[Hn _] Ht]. change (ninodes (sb (tree_fs k q))) with 20 in Hn.
  assert (Hall : forallb (fun n => (di_type (disk_inode (tree_fs k q) n) =? 0) || (n =? 1) || (n =? 3)) (seqZ 0 20) = true) by (vm_compute; reflexivity).
  apply (proj1 (forallb_forall _ _)) with (x := num) in Hall; [rewrite !orb_true_iff, !Z.eqb_eq in Hall; tauto|]. apply list_elem_of_In, elem_of_seqZ. lia.
Qed.

(** An inode with one direct block or none. *)
Lemma small_ino_ok (s : fsys (bcache disk) kmem) xi a :
  xi_dev xi = ROOTDEV -> addrs xi = a :: replicate 12 0 -> (a <> 0 -> data_block s a) -> ino_ok s xi.
Proof.
  intros Hd Ha Hdb. assert (Hind : indirect xi = 0) by (unfold indirect; rewrite Ha; done).
  assert (Hz : forall bn, 0 <= bn < MAXFILE -> iaddr s xi bn = if decide (bn = 0) then a else 0).
  { intros bn Hbn. unfold iaddr. rewrite Hind, Ha. destruct (decide (bn = 0)) as [->|]; [done|]. destruct (bn <? NDIRECT) eqn:E; [|done]. zbool.
    unfold znth. replace (Z.to_nat bn) with (S (Z.to_nat (bn - 1))) by lia. apply (lookup_total_replicate_2 12). unfold NDIRECT in E. lia. }
  split; try done.
  - unfold zlen. by rewrite Ha.
  - intros bn Hbn. rewrite Hz by done. case_decide; [done|]. done.
  - intros bn bn' Hbn Hbn' Hne. rewrite !Hz in * by done. repeat case_decide; congruence || done.
Qed.

Lemma tree_disk_ok k q num : allocated (tree_fs k q) num -> disk_ok (tree_fs k q) num.
Proof.
  intros Ha. destruct (tree_types k q num Ha) as [-> | ->].
  - assert (E : disk_inode (tree_fs k q) 1 = mk_dinode 1 0 0 1 16 (5 :: replicate 12 0)) by (vm_compute; reflexivity).
    split; unfold disk_xi; rewrite ?E.
    + apply (small_ino_ok _ _ 5); [reflexivity..|]. intros _. split; [by vm_compute|vm_compute; reflexivity].
    + by vm_compute.
    + intros bn Hb Hs. assert (bn = 0) as -> by (unfold BSIZE, loaded_xi in *; simpl in Hs; lia). done.
    + done.
    + intros _. split; [done|].
      assert (Hall : forallb (fun de => (de_inum de =? 0) || (de_inum de =? 3)) (disk_entries (tree_fs k q) 1) = true) by (vm_compute; reflexivity).
      intros de Hde Hnz. apply list_elem_of_In in Hde. apply (proj1 (forallb_forall _ _) Hall) in Hde. rewrite orb_true_iff, !Z.eqb_eq in Hde.
      destruct Hde as [?|Hde]; [done|]. rewrite Hde. split; [by vm_compute|vm_compute; done].
  - assert (E : disk_inode (tree_fs k q) 3 = mk_dinode 2 0 0 1 0 (0 :: replicate 12 0)) by (vm_compute; reflexivity).
    split; unfold disk_xi; rewrite ?E; try done.
    + by apply (small_ino_ok _ _ 0).
    + intros bn Hb Hs. simpl in Hs. unfold BSIZE in Hs. lia.
Qed.

Lemma tree_tree_ok k q : km_inv k -> km_live k q -> q <> 0 -> tree_ok (tree_fs k q) None.
Proof.
  intros Hk Hq Hq0. assert (Hslots : forall j, in_table (tree_fs k q) j -> j = 0 \/ j = 1 \/ j = 2) by (unfold in_table, zlen; simpl; lia).
  assert (Hu : forall j, used_slot (tree_fs k q) j -> j = 0).
  { intros j [Hj Hl]. destruct (Hslots j Hj) as [->|[->| ->]]; [done| |]; unfold live in Hl; simpl in Hl; lia. }
  split.
  - apply tree_fs_ok.
  - exact Hk.
  - assert (Hl : forall j i, itable (tree_fs k q) !! j = Some i -> live i -> j = O).
    { intros [|[|[|j]]] i; simpl; intros [= <-] Hl; try done; unfold live in Hl; simpl in Hl; lia. }
    split; [intros [|[|[|j]]] i; simpl; intros [= <-]; simpl; lia|]. intros j j' i i' Hj Hj' L L' _ _. by rewrite (Hl _ _ Hj L), (Hl _ _ Hj' L').
  - apply tree_disk_ok.
  - intros j Hj. rewrite (Hu j Hj). split; try done.
    exists root_xi. split; [apply lookup_singleton_eq|]. split; [done|]. vm_compute. reflexivity.
  - intros j j' Hj Hj' _. by rewrite (Hu j Hj), (Hu j' Hj').
  - intros j Hj. rewrite decide_False by done. by destruct (Hslots j Hj) as [->|[->| ->]].
Qed.

(** The path of the file, and its bytes. *)
Definition readme_path : list Z := [47; 47; 114; 101; 97; 100; 109; 101].

Ltac tree_hyps Hk Hq Hq0 :=
  first [exact (tree_tree_ok _ _ Hk Hq Hq0)
        |intros j Hj; assert (j = 0 \/ j = 1 \/ j = 2) as [->|[->| ->]] by (unfold in_table, zlen in Hj; simpl in Hj; lia); vm_compute; reflexivity
        |split; [split; [by vm_compute|vm_compute; reflexivity]|reflexivity]
        |split; [reflexivity|split; [by vm_compute|vm_compute; reflexivity]]
        |exists 1, 2; split_and!; by vm_compute
        |repeat constructor; lia].

Lemma two_pages k : km_avail k 5 -> km_avail k 2.
Proof. intros H. by do 3 apply km_avail_le. Qed.

Lemma namei_resolves_witness : exists k q r s', namei readme_path (tree_fs k q) = Ok (r, s') /\
  exists ip, r = Some ip /\ inum (geti s' ip) = 3.
Proof.
  destruct demo_process as (k & p & q & Hk & _ & _ & Hq & _ & _ & Hq0 & Hav). exists k, q.
  destruct (namei_resolves (tree_fs k q) 0 0 readme_path) as (r & s' & He & _ & Hr); [tree_hyps Hk Hq Hq0..|exact (two_pages _ Hav)|].
  assert (Ew : disk_walk (tree_fs k q) (start_inum (tree_fs k q) 0 readme_path) (take 14 <$> path_elems readme_path) = Some 3) by (vm_compute; reflexivity).
  rewrite Ew in Hr. destruct Hr as (ip & -> & Hn & _). exists (Some ip), s'. split; [exact He|]. by exists ip.
Defined.

Lemma nameiparent_resolves_witness : exists k q r name' s', nameiparent readme_path (replicate 14 0) (tree_fs k q) = Ok ((r, name'), s') /\
  cname name' = [114; 101; 97; 100; 109; 101] /\ exists ip, r = Some ip /\ inum (geti s' ip) = 1.
Proof.
  destruct demo_process as (k & p & q & Hk & _ & _ & Hq & _ & _ & Hq0 & Hav). exists k, q.
  destruct (nameiparent_resolves (tree_fs k q) 0 0 readme_path) with (name := replicate 14 0) as (r & name' & s' & He & _ & Hr);
    [tree_hyps Hk Hq Hq0..|exact (two_pages _ Hav)|split; [reflexivity|apply bytes_ok_replicate; unfold byte_ok; lia]|].
  assert (Ew : parent_walk (tree_fs k q) (start_inum (tree_fs k q) 0 readme_path) (take 14 <$> path_elems readme_path) = Some 1) by (vm_compute; reflexivity).
  rewrite Ew in Hr. destruct Hr as (ip & -> & Hn & _ & Hl). exists (Some ip), name', s'. split; [exact He|]. split; [by injection Hl as ->|]. by exists ip.
Defined.
