(* ===== verification/PipeProof.v ===== *)
(** * A pipe is a bounded byte stream

    The ring buffer of a pipe is a queue of at most [PIPESIZE] bytes; a run of
    [pipewrite] appends what fits and then returns or sleeps, a run of [piperead]
    takes from the front.  Under any interleaving of runs of any number of writers and
    readers, also when a writer sleeps in the middle of a write, what was taken out and
    what is in the pipe is what was put in. *)

From stdpp Require Import base numbers list list_numbers gmap strings.
From Stdlib Require Import ZArith Lia.
From S2P Require Import Prelude Params KString Path Sleeplock Virtio Bio Kmem Ring Fsys Pipe KmemVm FsDemo.

Definition pcount (p : pipe) : Z := dist (2 ^ 32) (nread p) (nwrite p).
Definition pqueue (p : pipe) : list Z := ring PIPESIZE (p_data p) (nread p) (pcount p).

Record pipe_ok (p : pipe) : Prop := {
  pp_len : zlen (p_data p) = PIPESIZE;
  pp_bytes : bytes_ok (p_data p);
  pp_r : 0 <= nread p < 2 ^ 32;
  pp_w : 0 <= nwrite p < 2 ^ 32;
  pp_count : pcount p <= PIPESIZE;
}.

Lemma pipe_div : (PIPESIZE | 2 ^ 32).
Proof. by exists (2 ^ 23). Qed.
Lemma pcount_range p : 0 <= pcount p < 2 ^ 32.
Proof. by apply dist_range. Qed.
Lemma zlen_pqueue p : zlen (pqueue p) = pcount p.
Proof. apply zlen_ring. apply pcount_range. Qed.

Lemma pipe_empty p : pipe_ok p -> (nread p =? nwrite p) = (pcount p =? 0).
Proof.
  intros [_ _ Hr Hw _]. destruct (nread p =? nwrite p) eqn:E; zbool; symmetry.
  - apply Z.eqb_eq. unfold pcount. by rewrite E, dist_same.
  - apply Z.eqb_neq. intros Hz. apply E. symmetry. by apply (dist_zero (2 ^ 32)).
Qed.

Lemma pipe_full p : pipe_ok p -> (nwrite p =? uint (nread p + PIPESIZE)) = (pcount p =? PIPESIZE).
Proof.
  intros [_ _ Hr Hw Hc]. pose proof (pcount_range p) as Hd. destruct (pcount p =? PIPESIZE) eqn:E; zbool.
  - apply Z.eqb_eq. rewrite <- E. unfold pcount, dist, uint. rewrite Zplus_mod_idemp_r, Zplus_minus. by rewrite Z.mod_small.
  - apply Z.eqb_neq. intros Ew. apply E. unfold pcount, dist. rewrite Ew. unfold uint. rewrite Zminus_mod_idemp_l, Z.add_simpl_l. done.
Qed.

Lemma pipe_push p c :
  pipe_ok p -> pcount p < PIPESIZE -> byte_ok c ->
  let p' := set_p_data (zupd (p_data p) (nwrite p mod PIPESIZE) c) (uint (nwrite p + 1)) p in
  pipe_ok p' /\ pcount p' = pcount p + 1 /\ pqueue p' = pqueue p ++ [c].
Proof.
  intros [Hl Hb Hr Hw Hc] Hlt Hcb p'. pose proof (pcount_range p) as Hd. unfold PIPESIZE in Hlt.
  assert (Hc' : pcount p' = pcount p + 1) by (apply (dist_inc_w (2 ^ 32) (nread p) (nwrite p)); fold (pcount p); lia).
  split; [split|split; [done|]].
  - unfold p'. simpl. by rewrite zlen_zupd.
  - by apply bytes_ok_zupd.
  - done.
  - apply uint_range.
  - rewrite Hc'. unfold PIPESIZE. lia.
  - unfold pqueue. rewrite Hc'. unfold p'. simpl. rewrite <- (dist_index PIPESIZE (2 ^ 32) (nread p) (nwrite p)); [|done|apply pipe_div|done].
    fold (pcount p). apply ring_push; unfold PIPESIZE in *; lia.
Qed.

Lemma pipe_pop p :
  pipe_ok p -> 0 < pcount p ->
  let p' := set_nread (uint (nread p + 1)) p in
  pipe_ok p' /\ pcount p' = pcount p - 1 /\ pqueue p = znth (p_data p) (nread p mod PIPESIZE) :: pqueue p'.
Proof.
  intros [Hl Hb Hr Hw Hc] Hpos p'.
  assert (Hc' : pcount p' = pcount p - 1) by (apply (dist_inc_r (2 ^ 32) (nread p) (nwrite p)); [lia|done]).
  split; [split; try done; [apply uint_range|rewrite Hc'; lia]|]. split; [done|].
  unfold pqueue. rewrite ring_cons by done. f_equal. rewrite Hc'. unfold p', set_nread, uint. simpl.
  symmetry. by apply ring_wrap; [|apply pipe_div|].
Qed.

Section Runs.
Context {B M : Type} `{BC : BufCache B} `{KM : KMem M, KL : !KMemLaws M}.
Implicit Types s : fsys B M.

Definition pipe_at s (pi : Z) (p : pipe) : Prop := heap s !! pi = Some (HPipe p) /\ pipe_ok p.
(** Only the pipe differs. *)
Definition only_pipe s (pi : Z) (p' : pipe) : fsys B M := set_heap (insert pi (HPipe p')) s.

Lemma get_pipe_ok s pi p : pipe_at s pi p -> get_pipe pi s = Ok (p, s).
Proof using Type. intros [H _]. unfold get_pipe. ksimpl. by rewrite H. Qed.
Lemma pipe_at_only s pi p : pipe_ok p -> pipe_at (only_pipe s pi p) pi p.
Proof using Type. intros Hp. split; [apply lookup_insert_eq|done]. Qed.
Lemma only_pipe_twice s pi p p' : only_pipe (only_pipe s pi p) pi p' = only_pipe s pi p'.
Proof using Type. unfold only_pipe, set_heap. simpl. by rewrite insert_insert_eq. Qed.

(** A write run: [m] more bytes go in, all of them or as many as there is room for. *)
Lemma pipewrite_run_ok fuel s pi p addr n i :
  pipe_at s pi p -> readopen p <> 0 -> km_inv (mm s) -> km_ok (mm s) true addr n -> 0 <= addr -> addr + n < 2 ^ 64 -> 0 <= i <= n ->
  (Z.to_nat (n - i) < fuel)%nat ->
  let m := Z.min (n - i) (PIPESIZE - pcount p) in
  exists p', pipewrite_run false fuel pi addr n i s =
      Ok (if decide (i + m = n) then Returned n else Slept (i + m), only_pipe s pi p') /\
    pipe_ok p' /\ readopen p' = readopen p /\ writeopen p' = writeopen p /\
    pqueue p' = pqueue p ++ sub (km_read (mm s) true addr n) i m /\ (i + m <> n -> pcount p' = PIPESIZE).
Proof using Type.
  revert s p i. induction fuel as [|fuel IH]; intros s p i Hp Hro Hmi Hmo Ha Han Hi Hf; [lia|]. pose proof Hp as [Hheap Hok].
  pose proof (pcount_range p) as Hd. pose proof (pp_count _ Hok) as Hcnt. cbn [pipewrite_run]. destruct (i <? n) eqn:Ei; zbool; cbn [negb].
  2:{ assert (i = n) as -> by lia. replace (Z.min (n - n) (PIPESIZE - pcount p)) with 0 by lia. exists p. rewrite decide_True by lia.
      split; [|split_and!; try done; [|lia]].
      - unfold mret, K_ret, only_pipe. do 2 f_equal. fsys_ext. by rewrite insert_id.
      - unfold sub. simpl. by rewrite app_nil_r. }
  rewrite (bind_ok _ _ _ _ _ (get_pipe_ok _ _ _ Hp)). rewrite (proj2 (Z.eqb_neq _ _)) by done. cbn [orb]. rewrite pipe_full by done.
  destruct (pcount p =? PIPESIZE) eqn:Efull; zbool.
  { replace (Z.min (n - i) (PIPESIZE - pcount p)) with 0 by lia. exists p. rewrite decide_False by lia. rewrite Z.add_0_r.
    split; [|split_and!; try done].
    - unfold mret, K_ret, only_pipe. do 2 f_equal. fsys_ext. by rewrite insert_id.
    - unfold sub. simpl. by rewrite app_nil_r. }
  rewrite uint64_small by lia. rewrite (bind_ok _ _ s (0, sub (km_read (mm s) true addr n) i 1) s).
  2:{ unfold on_mm. rewrite (zoom_ok _ _ _ _ _ _ (km_in_ok (mm s) true addr n i 1 Hmi Hmo ltac:(lia) ltac:(lia) ltac:(lia))). by destruct s. }
  cbn [fst snd Z.eqb]. set (c := znth (sub _ i 1) 0).
  assert (Hc : sub (km_read (mm s) true addr n) i 1 = [c]).
  { unfold c. pose proof (zlen_sub (km_read (mm s) true addr n) i 1 ltac:(lia) ltac:(lia)) as Hz. rewrite km_read_len in Hz by lia. specialize (Hz ltac:(lia)).
    unfold zlen in Hz. destruct (sub _ i 1) as [|x [|y l]]; simpl in Hz; try lia. done. }
  assert (Hcb : byte_ok c) by (unfold c; apply bytes_ok_znth, bytes_ok_sub; by apply km_read_ok).
  destruct (pipe_push p c Hok ltac:(lia) Hcb) as (Hok1 & Hc1 & Hq1). set (p1 := set_p_data _ _ p) in *.
  unfold put_pipe. ksimpl. fold (only_pipe s pi p1).
  destruct (IH (only_pipe s pi p1) p1 (i + 1)) as (p' & He & Hok' & Hr' & Hw' & Hq' & Hfull'); try done; try lia; [by apply pipe_at_only|].
  exists p'. rewrite He, only_pipe_twice, Hc1.
  replace (i + 1 + Z.min (n - (i + 1)) (PIPESIZE - (pcount p + 1))) with (i + Z.min (n - i) (PIPESIZE - pcount p)) in * by lia.
  split; [done|]. split_and!; try done; [|by rewrite Hc1 in Hfull'; replace (i + 1 + Z.min (n - (i + 1)) (PIPESIZE - (pcount p + 1))) with (i + Z.min (n - i) (PIPESIZE - pcount p)) in Hfull' by lia].
  rewrite Hq', Hq1, Hc1. change (mm (only_pipe s pi p1)) with (mm s). rewrite <- app_assoc. f_equal. rewrite <- Hc.
  replace (Z.min (n - i) (PIPESIZE - pcount p)) with (1 + Z.min (n - (i + 1)) (PIPESIZE - (pcount p + 1))) by lia.
  symmetry. apply sub_app_adj; try lia. rewrite km_read_len by lia. lia.
Qed.

(** A read run takes what there is, up to what was asked for, into the caller's buffer. *)
Lemma piperead_loop_ok fuel s pi p addr n i :
  pipe_at s pi p -> km_inv (mm s) -> km_ok (mm s) true addr n -> 0 <= addr -> addr + n < 2 ^ 64 -> 0 <= i <= n ->
  (Z.to_nat (n - i) < fuel)%nat ->
  let m := Z.min (n - i) (pcount p) in
  exists p' mm', piperead_loop fuel pi addr n i s = Ok (i + m, set_mm mm' (only_pipe s pi p')) /\
    pipe_ok p' /\ readopen p' = readopen p /\ writeopen p' = writeopen p /\ km_inv mm' /\
    (forall u b j, km_ok (mm s) u b j -> km_ok mm' u b j) /\
    pqueue p = take (Z.to_nat m) (pqueue p) ++ pqueue p' /\
    km_read mm' true addr n = splice (km_read (mm s) true addr n) i (take (Z.to_nat m) (pqueue p)).
Proof using Type.
  revert s p i. induction fuel as [|fuel IH]; intros s p i Hp Hmi Hmo Ha Han Hi Hf; [lia|]. pose proof Hp as [Hheap Hok].
  pose proof (pcount_range p) as Hd. cbn [piperead_loop].
  assert (Hnone : Z.min (n - i) (pcount p) = 0 -> exists p' mm', Ok (i, s) = Ok (i + Z.min (n - i) (pcount p), set_mm mm' (only_pipe s pi p')) /\
    pipe_ok p' /\ readopen p' = readopen p /\ writeopen p' = writeopen p /\ km_inv mm' /\ (forall u b j, km_ok (mm s) u b j -> km_ok mm' u b j) /\
    pqueue p = take (Z.to_nat (Z.min (n - i) (pcount p))) (pqueue p) ++ pqueue p' /\
    km_read mm' true addr n = splice (km_read (mm s) true addr n) i (take (Z.to_nat (Z.min (n - i) (pcount p))) (pqueue p))).
  { intros ->. exists p, (mm s). rewrite Z.add_0_r. split_and!; try done.
    - do 2 f_equal. unfold only_pipe. fsys_ext. by rewrite insert_id.
    - change (Z.to_nat 0) with O. rewrite take_0. unfold splice. simpl. rewrite Nat.add_0_r. by rewrite take_drop. }
  destruct (i <? n) eqn:Ei; zbool; cbn [negb]; [|apply Hnone; lia].
  rewrite (bind_ok _ _ _ _ _ (get_pipe_ok _ _ _ Hp)). rewrite pipe_empty by done.
  destruct (pcount p =? 0) eqn:E0; zbool; [apply Hnone; lia|]. clear Hnone.
  destruct (pipe_pop p Hok ltac:(lia)) as (Hok1 & Hc1 & Hq1). set (c := znth _ _) in *. set (p1 := set_nread _ p) in *.
  unfold put_pipe. ksimpl. fold (only_pipe s pi p1).
  assert (Hcb : byte_ok c) by (apply bytes_ok_znth; apply Hok).
  destruct (km_out_ok (mm s) true addr n i [c] Hmi Hmo) as (m1 & Hout & Hm1 & Hv1 & Hmo1 & _); [lia|change (zlen [c]) with 1; lia|constructor; [done|constructor]|].
  rewrite uint64_small by lia. rewrite (bind_ok _ _ _ 0 (set_mm m1 (only_pipe s pi p1))) by (unfold on_mm; by apply zoom_ok). cbn [Z.eqb].
  destruct (IH (set_mm m1 (only_pipe s pi p1)) p1 (i + 1)) as (p' & mm' & He & Hok' & Hr' & Hw' & Hmi' & Hmo' & Hq' & Hv'); try done; try lia.
  { split; [apply lookup_insert_eq|done]. } { simpl. by apply Hmo1. }
  exists p', mm'. rewrite He, Hc1. cbn [mm set_mm] in *.
  set (m := Z.min (n - (i + 1)) (pcount p - 1)) in *. replace (Z.min (n - i) (pcount p)) with (m + 1) by lia.
  assert (Htk : take (Z.to_nat (m + 1)) (pqueue p) = c :: take (Z.to_nat m) (pqueue p1)).
  { rewrite Hq1. replace (Z.to_nat (m + 1)) with (S (Z.to_nat m)) by lia. done. }
  rewrite Hc1 in Hq', Hv'. fold m in Hq', Hv'. rewrite Htk. split_and!; try done.
  - replace (i + (m + 1)) with (i + 1 + m) by lia. do 2 f_equal. unfold only_pipe. fsys_ext. by rewrite insert_insert_eq.
  - intros u b j Hj. by apply Hmo', Hmo1.
  - rewrite Hq1 at 1. simpl. by rewrite <- Hq'.
  - rewrite Hv', Hv1. apply (splice_splice_adj _ [c]); [lia|]. change (zlen [c]) with 1. rewrite km_read_len by lia.
    unfold zlen. rewrite length_take. lia.
Qed.

Lemma piperead_run_ok s pi p addr n :
  pipe_at s pi p -> km_inv (mm s) -> km_ok (mm s) true addr n -> 0 <= addr -> addr + n < 2 ^ 64 -> 0 <= n ->
  if (pcount p =? 0) && negb (writeopen p =? 0) then piperead_run false pi addr n s = Ok (Slept 0, s)
  else
    let m := Z.min n (pcount p) in
    exists p' mm', piperead_run false pi addr n s = Ok (Returned m, set_mm mm' (only_pipe s pi p')) /\
      pipe_ok p' /\ readopen p' = readopen p /\ writeopen p' = writeopen p /\ km_inv mm' /\
      (forall u b j, km_ok (mm s) u b j -> km_ok mm' u b j) /\
      pqueue p = take (Z.to_nat m) (pqueue p) ++ pqueue p' /\ sub (km_read mm' true addr n) 0 m = take (Z.to_nat m) (pqueue p).
Proof using Type.
  intros Hp Hmi Hmo Ha Han Hn. unfold piperead_run. rewrite (bind_ok _ _ _ _ _ (get_pipe_ok _ _ _ Hp)). rewrite pipe_empty by apply Hp.
  destruct (_ && _); [done|]. pose proof (pcount_range p).
  destruct (piperead_loop_ok (S (Z.to_nat n)) s pi p addr n 0) as (p' & mm' & He & H1 & H2 & H3 & H4 & H5 & H6 & H7); try done; try lia.
  rewrite Z.sub_0_r in He, H6, H7. rewrite Z.add_0_l in He. cbv zeta. set (m := Z.min n (pcount p)) in *. rewrite (bind_ok _ _ _ _ _ He). exists p', mm'. split_and!; try done.
  rewrite H7. assert (Hz : zlen (take (Z.to_nat m) (pqueue p)) = m) by (pose proof (zlen_pqueue p); unfold zlen in *; rewrite length_take; lia).
  transitivity (sub (splice (km_read (mm s) true addr n) 0 (take (Z.to_nat m) (pqueue p))) 0 (zlen (take (Z.to_nat m) (pqueue p)))); [by rewrite Hz|].
  apply sub_splice_same; [lia|]. rewrite km_read_len by lia. lia.
Qed.

(** ** Runs with any buffer

    The bytes of a buffer one by one, as [copyin] and [copyout] reach them; the buffer need not
    be valid and may run over the end of the address space. *)

Definition user_byte (m : M) (a : Z) : Z := znth (km_read m true (uint64 a) 1) 0.
Definition user_bytes (m : M) (addr i k : Z) : list Z := (fun j => user_byte m (addr + j)) <$> seqZ i k.

Lemma user_bytes_cons m addr i k : 0 < k -> user_bytes m addr i k = user_byte m (addr + i) :: user_bytes m addr (i + 1) (k - 1).
Proof using Type. intros Hk. unfold user_bytes. rewrite seqZ_cons by done. cbn [fmap list_fmap]. by rewrite <- Z.add_1_r, <- Z.sub_1_r. Qed.

(** How far a write run that started at byte [i] came. *)
Definition stop (i : Z) (r : run) : Z := match r with Slept j => j | Returned j => if j =? -1 then i else j end.

Lemma pipewrite_run_any killed fuel s pi p addr n i r s' :
  pipe_at s pi p -> km_inv (mm s) -> 0 <= i <= n -> pipewrite_run killed fuel pi addr n i s = Ok (r, s') ->
  exists p', heap s' !! pi = Some (HPipe p') /\ pipe_ok p' /\ i <= stop i r <= n /\
    (r = Returned (-1) -> readopen p = 0 \/ killed = true) /\
    pqueue p' = pqueue p ++ user_bytes (mm s) addr i (stop i r - i).
Proof using Type.
  revert s p i. induction fuel as [|fuel IH]; intros s p i Hp Hm Hi; [done|]. pose proof Hp as [Hheap Hok]. cbn [pipewrite_run].
  assert (Hend : forall r, stop i r = i -> (r = Returned (-1) -> readopen p = 0 \/ killed = true) -> exists p', heap s !! pi = Some (HPipe p') /\ pipe_ok p' /\
    i <= stop i r <= n /\ (r = Returned (-1) -> readopen p = 0 \/ killed = true) /\ pqueue p' = pqueue p ++ user_bytes (mm s) addr i (stop i r - i)).
  { intros r0 -> Hr0. exists p. rewrite Z.sub_diag. split_and!; try done; try lia. by rewrite app_nil_r. }
  assert (Hret : stop i (Returned i) = i) by (simpl; by rewrite (proj2 (Z.eqb_neq i (-1))) by lia).
  destruct (i <? n) eqn:Ei; zbool; cbn [negb]; [|intros [= <- <-]; apply Hend; [done|intros [= ?]; lia]].
  rewrite (bind_ok _ _ _ _ _ (get_pipe_ok _ _ _ Hp)). destruct (_ || _) eqn:Eo.
  { intros [= <- <-]. apply Hend; [done|]. intros _. apply orb_true_iff in Eo as [Eo|Eo]; zbool; auto. }
  apply orb_false_iff in Eo as [Ero Ek]. rewrite pipe_full by done. destruct (pcount p =? PIPESIZE) eqn:Efull; zbool.
  { intros [= <- <-]. by apply Hend. }
  pose proof (uint64_range (addr + i)) as Ha. destruct (km_in_byte (mm s) (uint64 (addr + i)) Hm Ha) as [[Hin Hb]|[l Hin]].
  2:{ rewrite (bind_ok _ _ s (-1, l) s); [|unfold on_mm; rewrite (zoom_ok _ _ _ _ _ _ Hin); by destruct s]. intros [= <- <-]. apply Hend; [done|intros [= ?]; lia]. }
  rewrite (bind_ok _ _ s (0, km_read (mm s) true (uint64 (addr + i)) 1) s); [|unfold on_mm; rewrite (zoom_ok _ _ _ _ _ _ Hin); by destruct s].
  cbn [fst snd Z.eqb]. change (znth (km_read (mm s) true (uint64 (addr + i)) 1) 0) with (user_byte (mm s) (addr + i)). set (c := user_byte _ _).
  destruct (pipe_push p c Hok) as (Hok1 & Hc1 & Hq1); [pose proof (pp_count _ Hok); lia|by apply bytes_ok_znth|]. set (p1 := set_p_data _ _ p) in *.
  unfold put_pipe. ksimpl. fold (only_pipe s pi p1). intros He.
  destruct (IH (only_pipe s pi p1) p1 (i + 1)) as (p' & Hp' & Hok' & Hst & Hm1 & Hq'); [by apply pipe_at_only|done|lia|done|].
  assert (Hne : r <> Returned (-1)) by (intros ->; destruct (Hm1 eq_refl) as [E|E]; [by apply Ero in E|congruence]).
  assert (Es : stop (i + 1) r = stop i r) by (destruct r as [j|j]; [done|]; simpl in *; destruct (j =? -1) eqn:Ej; zbool; [by subst j|done]).
  exists p'. rewrite Es in *. split_and!; try done; try lia. rewrite Hq', Hq1, <- app_assoc. change (mm (only_pipe s pi p1)) with (mm s).
  rewrite (user_bytes_cons _ _ i) by lia. simpl. by replace (stop i r - (i + 1)) with (stop i r - i - 1) by lia.
Qed.

Lemma piperead_loop_any fuel s pi p addr n i r s' :
  pipe_at s pi p -> km_inv (mm s) -> 0 <= i <= n -> n < 2 ^ 31 -> piperead_loop fuel pi addr n i s = Ok (r, s') ->
  exists p' lost, heap s' !! pi = Some (HPipe p') /\ pipe_ok p' /\ i <= r <= n /\ km_inv (mm s') /\ (forall u b j, km_ok (mm s) u b j -> km_ok (mm s') u b j) /\
    pqueue p = user_bytes (mm s') addr i (r - i) ++ lost ++ pqueue p' /\ (forall b, 0 <= b < i -> user_byte (mm s') (addr + b) = user_byte (mm s) (addr + b)) /\
    (lost = [] \/ exists c, lost = [c] /\ r < n /\ byte_ok c /\ km_out true (uint64 (addr + r)) [c] (mm s') = Ok (-1, mm s')).
Proof using Type.
  revert s p i. induction fuel as [|fuel IH]; intros s p i Hp Hm Hi Hn; [done|]. pose proof Hp as [Hheap Hok]. cbn [piperead_loop].
  assert (Hend : r = i -> s' = s -> exists p' lost, heap s' !! pi = Some (HPipe p') /\ pipe_ok p' /\ i <= r <= n /\ km_inv (mm s') /\ (forall u b j, km_ok (mm s) u b j -> km_ok (mm s') u b j) /\
    pqueue p = user_bytes (mm s') addr i (r - i) ++ lost ++ pqueue p' /\ (forall b, 0 <= b < i -> user_byte (mm s') (addr + b) = user_byte (mm s) (addr + b)) /\
    (lost = [] \/ exists c, lost = [c] /\ r < n /\ byte_ok c /\ km_out true (uint64 (addr + r)) [c] (mm s') = Ok (-1, mm s'))).
  { intros -> ->. exists p, []. rewrite Z.sub_diag. split_and!; try done; try lia. by left. }
  destruct (i <? n) eqn:Ei; zbool; cbn [negb]; [|by intros [= <- <-]; apply Hend].
  rewrite (bind_ok _ _ _ _ _ (get_pipe_ok _ _ _ Hp)). rewrite pipe_empty by done.
  pose proof (pcount_range p). destruct (pcount p =? 0) eqn:E0; zbool; [by intros [= <- <-]; apply Hend|]. clear Hend.
  destruct (pipe_pop p Hok ltac:(lia)) as (Hok1 & Hc1 & Hq1). set (c := znth _ _) in *. set (p1 := set_nread _ p) in *.
  unfold put_pipe. ksimpl. fold (only_pipe s pi p1). assert (Hcb : byte_ok c) by (apply bytes_ok_znth; apply Hok).
  pose proof (uint64_range (addr + i)) as Ha. destruct (km_out_byte (mm s) (uint64 (addr + i)) c Hm Ha Hcb) as [Hout|(m1 & Hout & Hm1 & Hk1 & Hr1)].
  - rewrite (bind_ok _ _ _ (-1) (only_pipe s pi p1)); [|unfold on_mm; rewrite (zoom_ok mm set_mm _ (only_pipe s pi p1) _ _ Hout); by destruct s]. intros [= <- <-].
    exists p1, [c]. rewrite Z.sub_diag. split_and!; try done; try lia; [apply lookup_insert_eq|]. right. by exists c.
  - rewrite (bind_ok _ _ _ 0 (set_mm m1 (only_pipe s pi p1))) by (unfold on_mm; by apply zoom_ok). cbn [Z.eqb]. intros He.
    destruct (IH (set_mm m1 (only_pipe s pi p1)) p1 (i + 1)) as (p' & lost & Hp' & Hok' & Hr & Hm' & Hk' & Hq' & Hb' & Hl); [split; [apply lookup_insert_eq|done]|done|lia|done|done|].
    cbn [mm set_mm] in *. assert (Hne : forall b, 0 <= b <= i -> uint64 (addr + b) = uint64 (addr + i) -> b = i).
    { intros b Hbi E. unfold uint64 in E. assert (Hz : (i - b) mod 2 ^ 64 = 0) by (replace (i - b) with (addr + i - (addr + b)) by lia; rewrite Zminus_mod, E, Z.sub_diag; done).
      rewrite Z.mod_small in Hz; lia. }
    exists p', lost. split_and!; try done; try lia; [intros u b j Hj; by apply Hk', Hk1| |].
    + rewrite Hq1, Hq', (user_bytes_cons _ _ i) by lia. replace (r - (i + 1)) with (r - i - 1) by lia. simpl. f_equal.
      rewrite Hb' by lia. unfold user_byte. rewrite Hr1, decide_True by done. done.
    + intros b Hbi. rewrite Hb' by lia. unfold user_byte. rewrite Hr1, decide_False; [done|]. intros E. apply Hne in E; lia.
Qed.

(** ** Interleaving

    What happens to a pipe is a sequence of runs, each between the acquire and the release or
    sleep of one process: of [pipewrite] calls, from their start or from where they slept, of
    [piperead] calls, and of [pipeclose].  The processes and the rest of the kernel may do anything
    in between: a run starts in any state [s] that has the pipe, with the memory [mm s] of its
    process as it then is. *)

Inductive event :=
| Put (l : list Z)   (* bytes of a writer's buffer that [pipewrite] has stored *)
| Got (l : list Z)   (* what a [piperead] has left in the reader's buffer *)
| Lost (l : list Z). (* what it took out of the pipe and did not deliver *)

Definition put (es : list event) : list Z := concat ((fun e => match e with Put l => l | _ => [] end) <$> es).
Definition taken (es : list event) : list Z := concat ((fun e => match e with Put _ => [] | Got l | Lost l => l end) <$> es).

Inductive pipe_step (pi : Z) : pipe -> list event -> pipe -> Prop :=
| step_write killed s p addr n i r s' p' :
    pipe_at s pi p -> km_inv (mm s) -> 0 <= i <= n ->
    pipewrite_run killed (S (Z.to_nat n)) pi addr n i s = Ok (r, s') -> heap s' !! pi = Some (HPipe p') ->
    pipe_step pi p [Put (user_bytes (mm s) addr i (stop i r - i))] p'
| step_read killed s p addr n r s' p' :
    pipe_at s pi p -> km_inv (mm s) -> km_ok (mm s) true addr n -> 0 <= addr -> addr + n < 2 ^ 64 -> 0 <= n < 2 ^ 31 ->
    piperead_run killed pi addr n s = Ok (r, s') -> heap s' !! pi = Some (HPipe p') ->
    pipe_step pi p [Got (user_bytes (mm s') addr 0 (stop 0 r))] p'
| step_read_bad killed s p addr n r s' p' :
    pipe_at s pi p -> km_inv (mm s) -> 0 <= n < 2 ^ 31 ->
    piperead_run killed pi addr n s = Ok (r, s') -> heap s' !! pi = Some (HPipe p') ->
    pipe_step pi p [Got (user_bytes (mm s') addr 0 (stop 0 r)); Lost (sub (pqueue p) (stop 0 r) (pcount p - pcount p' - stop 0 r))] p'
| step_close writable s p s' p' :
    pipe_at s pi p -> pipeclose pi writable s = Ok (tt, s') -> heap s' !! pi = Some (HPipe p') -> pipe_step pi p [] p'.

Inductive pipe_steps (pi : Z) (p : pipe) : list event -> pipe -> Prop :=
| steps_refl : pipe_steps pi p [] p
| steps_more es p' es' p'' : pipe_steps pi p es p' -> pipe_step pi p' es' p'' -> pipe_steps pi p (es ++ es') p''.

Lemma piperead_run_any killed s pi p addr n r s' :
  pipe_at s pi p -> km_inv (mm s) -> 0 <= n < 2 ^ 31 -> piperead_run killed pi addr n s = Ok (r, s') ->
  exists p' lost, heap s' !! pi = Some (HPipe p') /\ pipe_ok p' /\ 0 <= stop 0 r <= n /\
    pqueue p = user_bytes (mm s') addr 0 (stop 0 r) ++ lost ++ pqueue p' /\ zlen lost <= 1 /\
    (km_ok (mm s) true addr n -> 0 <= addr -> addr + n < 2 ^ 64 -> lost = []).
Proof using Type.
  intros Hp Hm Hn. unfold piperead_run. rewrite (bind_ok _ _ _ _ _ (get_pipe_ok _ _ _ Hp)). destruct (_ && _).
  { intros H. exists p, []. assert (s' = s /\ stop 0 r = 0) as [-> ->] by (destruct killed; by injection H as <- <-). split_and!; try done; try lia; apply Hp. }
  intros (j & s1 & He & [= <- <-])%bind_inv. destruct (piperead_loop_any _ s pi p addr n 0 j s1 Hp Hm ltac:(lia) ltac:(lia) He) as (p' & lost & Hp' & Hok' & Hj & Hm' & Hk' & Hq & _ & Hl).
  rewrite Z.sub_0_r in Hq. exists p', lost. simpl. rewrite (proj2 (Z.eqb_neq j (-1))) by lia. split_and!; try done; try lia.
  - destruct Hl as [->|(c & -> & _)]; done.
  - intros Hok Ha Han. destruct Hl as [->|(c & -> & Hlt & Hcb & Hout)]; [done|]. exfalso.
    destruct (km_out_ok (mm s1) true addr n j [c] Hm' (Hk' _ _ _ Hok)) as (m' & Ho & _); [lia|change (zlen [c]) with 1; lia|by constructor|].
    rewrite uint64_small in Hout by lia. rewrite Ho in Hout. done.
Qed.

Lemma pipeclose_queue writable s pi p s' p' :
  pipe_at s pi p -> pipeclose pi writable s = Ok (tt, s') -> heap s' !! pi = Some (HPipe p') -> pipe_ok p' /\ pqueue p' = pqueue p.
Proof using Type.
  intros Hp. unfold pipeclose. rewrite (bind_ok _ _ _ _ _ (get_pipe_ok _ _ _ Hp)). cbv zeta. set (q := if negb _ then _ else _).
  assert (Hq : pipe_ok q /\ pqueue q = pqueue p) by (destruct Hp as [_ []]; unfold q; destruct (negb _); (split; [by split|done])).
  unfold put_pipe. rewrite bind_modify. destruct (_ && _).
  - unfold kfree_obj. intros (u & s1 & _ & [= <-])%bind_inv. simpl. by rewrite lookup_delete_eq.
  - intros [= <-]. simpl. rewrite lookup_insert_eq. by intros [= <-].
Qed.

Definition lost_one (e : event) : Prop := match e with Lost l => zlen l <= 1 | _ => True end.
Lemma pipe_step_ok pi p es p' :
  pipe_ok p -> pipe_step pi p es p' -> pipe_ok p' /\ taken es ++ pqueue p' = pqueue p ++ put es /\ Forall lost_one es.
Proof using Type.
  intros Hok Hs. destruct Hs as [killed s p addr n i r s' p' Hp Hm Hi He Hp'|killed s p addr n r s' p' Hp Hm Hv Ha Han Hn He Hp'|killed s p addr n r s' p' Hp Hm Hn He Hp'|w s p s' p' Hp He Hp'].
  - destruct (pipewrite_run_any _ _ _ _ _ _ _ _ _ _ Hp Hm Hi He) as (q & Hq & Hokq & _ & _ & E). simplify_eq. split; [done|]. unfold taken, put. simpl. rewrite app_nil_r. split; [by rewrite E|by repeat constructor].
  - destruct (piperead_run_any _ _ _ _ _ _ _ _ Hp Hm Hn He) as (q & lost & Hq & Hokq & _ & E & _ & Hl). simplify_eq. rewrite Hl in E by done.
    split; [done|]. unfold taken, put. simpl. rewrite !app_nil_r. split; [by rewrite E|by repeat constructor].
  - destruct (piperead_run_any _ _ _ _ _ _ _ _ Hp Hm Hn He) as (q & lost & Hq & Hokq & Hst & E & H1 & _). simplify_eq. split; [done|].
    assert (Hz : zlen (user_bytes (mm s') addr 0 (stop 0 r)) = stop 0 r) by (unfold user_bytes, zlen; rewrite length_fmap, length_seqZ; lia).
    pose proof (f_equal zlen E) as El. rewrite !zlen_app, !zlen_pqueue, Hz in El.
    assert (Es : sub (pqueue p) (stop 0 r) (pcount p - pcount p' - stop 0 r) = lost).
    { rewrite E. transitivity (sub (user_bytes (mm s') addr 0 (stop 0 r) ++ lost ++ pqueue p') (zlen (user_bytes (mm s') addr 0 (stop 0 r))) (zlen lost)); [f_equal; lia|].
      unfold sub, zlen. by rewrite !Nat2Z.id, drop_app_length, take_app_length. }
    rewrite Es. unfold taken, put. simpl. rewrite !app_nil_r, <- app_assoc. split; [by rewrite E|by repeat constructor].
  - destruct (pipeclose_queue _ _ _ _ _ _ Hp He Hp') as [Hok' E]. split; [done|]. split; [by rewrite E, app_nil_r|constructor].
Qed.
End Runs.

(** C20: a pipe is a byte stream, bounded in its storage and not in its length.  For any number of
    writers and readers, each in any of its calls, with any buffers, killed or not, whose runs
    interleave in any order, also when writers sleep in the middle of a call and when ends of the
    pipe are closed: the bytes taken out of the pipe, in order, followed by those in it are the
    bytes that were in it at first followed by those that [pipewrite] has stored from its callers'
    buffers; and [piperead] leaves the bytes it takes in its caller's buffer, all of them where the
    buffer is valid, and all but at most one in a run where it is not. *)
Theorem pipe_stream {B M} `{BC : BufCache B} `{KL : KMemLaws M} pi p es p' :
  pipe_ok p -> pipe_steps (B := B) (M := M) pi p es p' ->
  pipe_ok p' /\ zlen (pqueue p') <= PIPESIZE /\ taken es ++ pqueue p' = pqueue p ++ put es /\ Forall lost_one es.
Proof.
  intros Hok Hs. assert (Hall : pipe_ok p' /\ taken es ++ pqueue p' = pqueue p ++ put es /\ Forall lost_one es).
  { induction Hs as [|es p1 es' p2 Hs IH Hstep]; [split; [done|]; split; [by rewrite app_nil_r|constructor]|].
    destruct IH as (Hok1 & E1 & F1). destruct (pipe_step_ok _ _ _ _ Hok1 Hstep) as (Hok2 & E2 & F2). split; [done|]. split; [|by apply Forall_app].
    unfold taken, put in *. rewrite !fmap_app, !concat_app, <- app_assoc, E2, app_assoc, E1, app_assoc. done. }
  destruct Hall as (Hok' & E & F). split_and!; try done. rewrite zlen_pqueue. apply Hok'.
Qed.

(** An empty pipe whose counters are about to wrap around. *)
Definition demo_pipe : pipe := mk_pipe (replicate 512 5) (2 ^ 32 - 100) (2 ^ 32 - 100) 1 1.
Lemma demo_pipe_ok : pipe_ok demo_pipe.
Proof. split; try done; apply bytes_ok_replicate; unfold byte_ok; lia. Qed.

(** A write of 600 bytes: the writer sleeps after 512 of them; a second writer finds the pipe full. *)
Lemma pipe_stream_witness : exists (k : kmem) p, pipe_steps (B := bcache disk) (M := kmem) 12345 demo_pipe [Put (user_bytes k 0 0 512); Put []] p /\
  pqueue p = user_bytes k 0 0 512.
Proof.
  destruct demo_process as (k & x & y & Hk & Ha & _). set (s := set_heap (insert 12345 (HPipe demo_pipe)) (demo k x y 1)).
  assert (Hp : pipe_at s 12345 demo_pipe) by (split; [apply lookup_insert_eq|apply demo_pipe_ok]).
  assert (Ha' : km_ok k true 0 600).
  { destruct Ha as (_ & _ & _ & Hacc). split; [lia|]. split; [lia|]. split; [unfold Vm.MAXVA; lia|]. intros a H. apply Hacc. lia. }
  destruct (pipewrite_run_ok (S (Z.to_nat 600)) s 12345 demo_pipe 0 600 0 Hp) as (p' & He & Hok & Hro & _ & _ & Hfull); [done|exact Hk|exact Ha'|lia..|].
  change (Z.min (600 - 0) (PIPESIZE - pcount demo_pipe)) with 512 in *. rewrite decide_False in He by lia.
  assert (Hp' : pipe_at (only_pipe s 12345 p') 12345 p') by by apply pipe_at_only.
  destruct (pipewrite_run_ok (S (Z.to_nat 600)) (only_pipe s 12345 p') 12345 p' 0 600 0 Hp') as (p2 & He2 & _); [by rewrite Hro|exact Hk|exact Ha'|lia..|].
  rewrite (Hfull ltac:(lia)) in He2. change (Z.min (600 - 0) (PIPESIZE - PIPESIZE)) with 0 in He2. rewrite decide_False in He2 by lia.
  assert (Hs : pipe_steps (B := bcache disk) (M := kmem) 12345 demo_pipe ([Put (user_bytes k 0 0 512)] ++ [Put []]) p2).
  { eapply steps_more; [eapply (steps_more _ _ [] demo_pipe [_] p'); [apply steps_refl|]|].
    - apply (step_write 12345 false s demo_pipe 0 600 0 (Slept 512) (only_pipe s 12345 p') p'); [exact Hp|exact Hk|lia|exact He|apply Hp'].
    - apply (step_write 12345 false (only_pipe s 12345 p') p' 0 600 0 (Slept 0) (only_pipe (only_pipe s 12345 p') 12345 p2) p2); [exact Hp'|exact Hk|lia|exact He2|apply lookup_insert_eq]. }
  exists k, p2. split; [exact Hs|]. destruct (pipe_stream 12345 demo_pipe _ p2 demo_pipe_ok Hs) as (_ & _ & E & _). change (pqueue p2 = [] ++ (user_bytes k 0 0 512 ++ [] ++ [])) in E. by rewrite E, !app_nil_r.
Defined.
