(* ===== verification/ConsoleProof.v ===== *)
(** * The console implements its line discipline

    The ring buffer and its three indices implement the two lists of the
    specification: every typed character acts as [type_char], and a read takes
    what [read_line] says, also when the indices wrap around. *)

From stdpp Require Import base numbers list list_numbers gmap strings.
From Stdlib Require Import ZArith Lia.
From S2P Require Import Prelude Ring Uart Kmem Console KmemVm FsDemo.

Lemma cons_div : (INPUT_BUF_SIZE | 2 ^ 32).
Proof. by exists (2 ^ 25). Qed.

Lemma dist_add W r w e : 0 < W -> dist W r w + dist W w e < W -> dist W r e = dist W r w + dist W w e.
Proof.
  unfold dist. intros HW H. replace (e - r) with (w - r + (e - w)) by lia. rewrite Z.add_mod by lia. apply Z.mod_small.
  pose proof (Z.mod_pos_bound (w - r) W HW). pose proof (Z.mod_pos_bound (e - w) W HW). lia.
Qed.

Section Proofs.
Context {U : Type} `{UD : UartDev U, UL : !UartDevLaws U}.
Implicit Types (s : console U) (u : uart U).

(** ** Output to the screen *)

(** The transmitter becomes idle before the register has been read [spin] times. *)
Definition idles (spin : nat) : Prop := forall u, exists u', wait_idle spin u = Ok (tt, u').

Lemma wait_idle_keeps fuel u u' :
  wait_idle fuel u = Ok (tt, u') ->
  exists d, u' = set_udev d u /\ sent d = sent (udev u) /\ received d = received (udev u).
Proof using Type.
  revert u. induction fuel as [|fuel IH]; intros u; [done|]. cbn [wait_idle].
  assert (Hrd : ReadReg LSR u = Ok ((read_reg LSR (udev u)).1, set_udev (read_reg LSR (udev u)).2 u)) by (unfold ReadReg; by destruct (read_reg LSR (udev u))).
  kstep Hrd. destruct (Z.land _ LSR_TX_IDLE =? 0).
  - intros (d & -> & Hs & Hr)%IH. exists d. rewrite Hs, Hr. simpl. by rewrite lsr_sent, lsr_received.
  - intros [= <-]. eexists. split; [done|]. by rewrite lsr_sent, lsr_received.
Qed.

Lemma putc_sync_ok spin u c :
  idles spin -> panicked u = false ->
  exists d, uartputc_sync spin c u = Ok (tt, set_udev d u) /\ sent d = sent (udev u) ++ [uchar c] /\ received d = received (udev u).
Proof using Type.
  intros Hi Hp. unfold uartputc_sync. ksimpl. rewrite Hp. destruct (Hi u) as [u1 He]. kstep He.
  destruct (wait_idle_keeps _ _ _ He) as (d & -> & Hs & Hr). unfold WriteReg, modify.
  eexists. split; [done|]. simpl. rewrite thr_sent, thr_received, Hs, Hr. rewrite (uchar_small (uchar c)) by apply uchar_range. done.
Qed.

(** The bytes that [consputc(c)] sends. *)
Definition echo (c : Z) : list Z := if c =? BACKSPACE then [8; 32; 8] else [uchar c].

Definition shown s s' (l : list Z) : Prop :=
  exists d, s' = set_cuart (set_udev d (cuart s)) s /\ sent d = sent (udev (cuart s)) ++ l /\ received d = received (udev (cuart s)).

Lemma putc_shown spin s c :
  idles spin -> panicked (cuart s) = false -> exists s', on_uart (uartputc_sync spin c) s = Ok (tt, s') /\ shown s s' [uchar c].
Proof using Type.
  intros Hi Hp. destruct (putc_sync_ok spin (cuart s) c Hi Hp) as (d & He & Hs & Hr).
  eexists. split; [by apply zoom_ok|]. by exists d.
Qed.

Lemma shown_trans s1 s2 s3 l l' : shown s1 s2 l -> shown s2 s3 l' -> shown s1 s3 (l ++ l').
Proof using Type.
  intros (d & -> & Hs & Hr) (d' & -> & Hs' & Hr'). exists d'. split; [done|]. simpl in *. by rewrite Hs', Hs, <- app_assoc, Hr'.
Qed.
Lemma shown_panicked s s' l : shown s s' l -> panicked (cuart s') = panicked (cuart s).
Proof using Type. by intros (d & -> & _). Qed.

Lemma consputc_ok spin s c :
  idles spin -> panicked (cuart s) = false -> exists s', consputc spin c s = Ok (tt, s') /\ shown s s' (echo c).
Proof using Type.
  intros Hi Hp. unfold consputc, echo. destruct (c =? BACKSPACE); [|by apply putc_shown].
  destruct (putc_shown spin s 8 Hi Hp) as (s1 & He1 & H1). kstep He1.
  destruct (putc_shown spin s1 32 Hi) as (s2 & He2 & H2); [by rewrite (shown_panicked _ _ _ H1)|]. kstep He2.
  destruct (putc_shown spin s2 8 Hi) as (s3 & He3 & H3); [by rewrite (shown_panicked _ _ _ H2), (shown_panicked _ _ _ H1)|].
  exists s3. split; [done|]. exact (shown_trans _ _ _ [8] [32; 8] H1 (shown_trans _ _ _ [32] [8] H2 H3)).
Qed.

(** The lists do not depend on the device. *)
Lemma shown_lists s s' l :
  shown s s' l -> cons_buf s' = cons_buf s /\ cons_r s' = cons_r s /\ cons_w s' = cons_w s /\ cons_e s' = cons_e s.
Proof using Type. by intros (d & -> & _). Qed.
Lemma shown_ok s s' l : shown s s' l -> cons_ok s -> cons_ok s' /\ committed s' = committed s /\ editing s' = editing s.
Proof using Type. intros (d & -> & _) []. split; [by split|done]. Qed.

(** Input handling changes the device only, and not what it has received. *)
Definition same_input s s' : Prop := exists d, cuart s' = set_udev d (cuart s) /\ received d = received (udev (cuart s)).

Lemma same_input_refl s : same_input s s.
Proof using Type. exists (udev (cuart s)). by destruct s as [? ? ? ? []]. Qed.
Lemma same_input_trans s1 s2 s3 : same_input s1 s2 -> same_input s2 s3 -> same_input s1 s3.
Proof using Type. intros (d & Hd & Hr) (d' & Hd' & Hr'). exists d'. rewrite Hd', Hr', Hd. by rewrite <- Hr. Qed.
Lemma same_input_panicked s s' : same_input s s' -> panicked (cuart s') = panicked (cuart s).
Proof using Type. by intros (d & -> & _). Qed.
Lemma shown_same s s' l : shown s s' l -> same_input s s'.
Proof using Type. intros (d & -> & _ & Hr). by exists d. Qed.

(** ** Typing *)

Lemma counts s :
  cons_ok s -> zlen (committed s) = dist (2 ^ 32) (cons_r s) (cons_w s) /\ zlen (editing s) = dist (2 ^ 32) (cons_w s) (cons_e s) /\
  uint (cons_e s - cons_r s) = zlen (committed s) + zlen (editing s).
Proof using Type.
  intros [_ _ _ _ _ Hroom _]. pose proof (dist_range (2 ^ 32) (cons_r s) (cons_w s) ltac:(lia)).
  pose proof (dist_range (2 ^ 32) (cons_w s) (cons_e s) ltac:(lia)). unfold committed, editing. rewrite !zlen_ring by lia.
  split_and!; try done. apply dist_add; [lia|]. unfold INPUT_BUF_SIZE in *. lia.
Qed.

Lemma empty_line s : cons_ok s -> (cons_e s =? cons_w s) = (zlen (editing s) =? 0).
Proof using Type.
  intros Hok. destruct (counts s Hok) as (_ & -> & _). destruct (cons_e s =? cons_w s) eqn:E; zbool.
  - by rewrite E, dist_same.
  - symmetry. apply Z.eqb_neq. intros Hz. apply E. apply (dist_zero (2 ^ 32)); try done; apply Hok.
Qed.

Lemma ring_take N buf r n : 0 < n -> take (length (ring N buf r n) - 1) (ring N buf r n) = ring N buf r (n - 1).
Proof using Type.
  intros Hn. replace n with (n - 1 + 1) at 1 2 by lia. rewrite ring_snoc by lia. rewrite length_app, Nat.add_sub. by rewrite take_app_length.
Qed.

Lemma erase_ok spin s :
  idles spin -> panicked (cuart s) = false -> cons_ok s -> editing s <> [] ->
  exists s', erase spin s = Ok (tt, s') /\ cons_ok s' /\ committed s' = committed s /\
    editing s' = take (length (editing s) - 1) (editing s) /\ cons_w s' = cons_w s /\
    sent (udev (cuart s')) = sent (udev (cuart s)) ++ echo BACKSPACE /\ same_input s s'.
Proof using Type.
  intros Hi Hp Hok Hne. unfold erase. ksimpl. set (s1 := set_cons_e _ s).
  destruct (counts s Hok) as (Hc & Hn & _). pose proof (dist_range (2 ^ 32) (cons_w s) (cons_e s) ltac:(lia)) as Hd.
  assert (Hpos : 0 < dist (2 ^ 32) (cons_w s) (cons_e s)).
  { destruct (editing s) eqn:E; [done|]. rewrite <- Hn. unfold zlen. simpl. lia. }
  assert (Hd1 : dist (2 ^ 32) (cons_w s1) (cons_e s1) = dist (2 ^ 32) (cons_w s) (cons_e s) - 1) by (by apply (dist_dec_w (2 ^ 32) (cons_w s) (cons_e s))).
  assert (He1 : editing s1 = take (length (editing s) - 1) (editing s)) by (unfold editing at 1; rewrite Hd1; symmetry; by apply ring_take).
  assert (Hok1 : cons_ok s1).
  { pose proof Hok as [? ? ? ? ? Hroom Hl]. split; try done; [apply uint_range|rewrite Hd1; unfold s1; simpl; lia|]. rewrite He1. by apply Forall_take. }
  destruct (consputc_ok spin s1 BACKSPACE Hi Hp) as (s2 & Hput & Hsh). destruct (shown_ok _ _ _ Hsh Hok1) as (Hok2 & Hcm & Hed).
  destruct (shown_lists _ _ _ Hsh) as (_ & _ & Hw & _). exists s2. rewrite Hcm, Hed, Hw. split_and!; try done.
  - by destruct Hsh as (d & -> & Hs & _).
  - exact (shown_same _ _ _ Hsh).
Qed.

(** The last byte typed: where the kill loop looks. *)
Lemma last_typed s l c :
  cons_ok s -> editing s = l ++ [c] -> znth (cons_buf s) (uint (cons_e s - 1) mod INPUT_BUF_SIZE) = c.
Proof using Type.
  intros Hok He. destruct (counts s Hok) as (_ & Hn & _). pose proof (dist_range (2 ^ 32) (cons_w s) (cons_e s) ltac:(lia)) as Hd.
  set (n := dist (2 ^ 32) (cons_w s) (cons_e s)) in *. assert (Hpos : 0 < n) by (rewrite <- Hn, He; unfold zlen; rewrite length_app; simpl; lia).
  assert (Hidx : (cons_w s + (n - 1)) mod INPUT_BUF_SIZE = uint (cons_e s - 1) mod INPUT_BUF_SIZE).
  { unfold n. rewrite <- (dist_dec_w (2 ^ 32)) by (fold n; lia). rewrite (dist_index INPUT_BUF_SIZE (2 ^ 32)); [done|done|apply cons_div|done]. }
  unfold editing in He. fold n in He. replace n with (n - 1 + 1) in He by lia. rewrite ring_snoc, Hidx in He by lia.
  by apply app_inj_tail in He as [_ ?].
Qed.

Lemma kill_line_ok spin fuel s :
  idles spin -> panicked (cuart s) = false -> cons_ok s -> (length (editing s) < fuel)%nat ->
  exists s', kill_line spin fuel s = Ok (tt, s') /\ cons_ok s' /\ committed s' = committed s /\ editing s' = [] /\
    sent (udev (cuart s')) = sent (udev (cuart s)) ++ concat (replicate (length (editing s)) (echo BACKSPACE)) /\ same_input s s'.
Proof using Type.
  intros Hi. revert s. induction fuel as [|fuel IH]; intros s Hp Hok Hf; [lia|]. cbn [kill_line]. ksimpl. rewrite empty_line by done.
  destruct (zlen (editing s) =? 0) eqn:E; zbool.
  { unfold zlen in E. assert (editing s = []) as Ee by (destruct (editing s); [done|simpl in E; lia]). exists s. rewrite Ee. simpl. rewrite app_nil_r. split_and!; try done. apply same_input_refl. }
  destruct (exists_last (l := editing s)) as (l & c & El); [by intros Ee; rewrite Ee in E|].
  pose proof (last_typed s l c Hok El) as Hlast. rewrite Hlast.
  pose proof (ck_line _ Hok) as Hnl. rewrite El, Forall_app, Forall_singleton in Hnl. destruct Hnl as [_ Hnl].
  rewrite (proj2 (Z.eqb_neq c newline)) by done. cbn [negb andb].
  destruct (erase_ok spin s Hi Hp Hok) as (s1 & He1 & Hok1 & Hc1 & Hed1 & _ & Hs1 & Hi1); [by intros Ee; rewrite Ee in E|]. kstep He1.
  assert (Hed1' : editing s1 = l) by (by rewrite Hed1, El, length_app, Nat.add_sub, take_app_length).
  assert (Hlen : length (editing s) = S (length l)) by (rewrite El, length_app; simpl; lia).
  destruct (IH s1) as (s2 & He2 & Hok2 & Hc2 & Hed2 & Hs2 & Hi2); [by rewrite (same_input_panicked _ _ Hi1)|done|rewrite Hed1'; lia|].
  exists s2. rewrite Hc2, Hs2, Hed1', Hs1, Hlen. cbn [replicate concat]. rewrite <- app_assoc. split_and!; try done. by eapply same_input_trans.
Qed.

(** Appending a byte to the line. *)
Lemma append_ok s c :
  cons_ok s -> zlen (committed s) + zlen (editing s) < INPUT_BUF_SIZE -> byte_ok c ->
  let s' := mk_console (zupd (cons_buf s) (cons_e s mod INPUT_BUF_SIZE) c) (cons_r s) (cons_w s) (uint (cons_e s + 1)) (cuart s) in
  committed s' = committed s /\ editing s' = editing s ++ [c] /\ uint (cons_e s' - cons_r s') = zlen (committed s) + zlen (editing s) + 1 /\
  (c <> newline -> cons_ok s') /\ cons_ok (set_cons_w (cons_e s') s') /\
  committed (set_cons_w (cons_e s') s') = committed s ++ editing s ++ [c] /\ editing (set_cons_w (cons_e s') s') = [].
Proof using Type.
  intros Hok Hroom Hb s'. pose proof Hok as [Hl Hby Hr Hw He Hrm Hline]. destruct (counts s Hok) as (Hcn & Hen & Hcnt).
  set (n := zlen (committed s)) in *. set (m := zlen (editing s)) in *.
  pose proof (dist_range (2 ^ 32) (cons_r s) (cons_w s) ltac:(lia)). pose proof (dist_range (2 ^ 32) (cons_w s) (cons_e s) ltac:(lia)).
  assert (Hnm : 0 <= n /\ 0 <= m) by (unfold n, m; split; apply zlen_nonneg). unfold INPUT_BUF_SIZE in Hroom.
  assert (Hre : dist (2 ^ 32) (cons_r s) (cons_e s) = n + m) by (rewrite <- Hcnt; done).
  assert (Hwe' : dist (2 ^ 32) (cons_w s) (cons_e s') = m + 1) by (rewrite Hen; apply (dist_inc_w (2 ^ 32)); lia).
  assert (Hre' : dist (2 ^ 32) (cons_r s) (cons_e s') = n + m + 1) by (rewrite <- Hre; apply (dist_inc_w (2 ^ 32)); lia).
  assert (Hidx : cons_e s mod INPUT_BUF_SIZE = (cons_r s + (n + m)) mod INPUT_BUF_SIZE).
  { rewrite <- Hre. symmetry. apply dist_index; [done|apply cons_div|done]. }
  assert (Hidx' : cons_e s mod INPUT_BUF_SIZE = (cons_w s + m) mod INPUT_BUF_SIZE).
  { rewrite Hen. symmetry. apply dist_index; [done|apply cons_div|done]. }
  assert (Hcm : committed s' = committed s).
  { unfold committed, s'. simpl. rewrite <- Hcn, Hidx. apply ring_upd_out; unfold INPUT_BUF_SIZE in *; lia. }
  assert (Hed : editing s' = editing s ++ [c]).
  { unfold editing at 1. change (cons_w s') with (cons_w s). rewrite Hwe'. unfold editing, s'. simpl. rewrite <- Hen, Hidx'.
    apply ring_push; unfold INPUT_BUF_SIZE in *; lia. }
  assert (Hall : committed (set_cons_w (cons_e s') s') = committed s ++ editing s ++ [c]).
  { unfold committed at 1. change (cons_r (set_cons_w _ s')) with (cons_r s). change (cons_w (set_cons_w (cons_e s') s')) with (cons_e s').
    rewrite Hre'. unfold s'. simpl. rewrite Hidx, ring_push by (unfold INPUT_BUF_SIZE in *; lia). rewrite app_assoc. f_equal.
    unfold committed, editing. rewrite <- Hcn, <- Hen. unfold ring. rewrite (seqZ_app 0 n m) by lia. rewrite fmap_app. f_equal.
    rewrite Z.add_0_l. replace (seqZ n m) with (Z.add n <$> seqZ 0 m) by (rewrite fmap_add_seqZ; f_equal; lia).
    rewrite <- list_fmap_compose. apply list_fmap_ext. intros i x _. simpl. f_equal.
    assert (Ew : cons_w s mod INPUT_BUF_SIZE = (cons_r s + n) mod INPUT_BUF_SIZE) by (rewrite Hcn; symmetry; apply dist_index; [done|apply cons_div|done]).
    rewrite (Z.add_mod (cons_w s)), Ew by done. rewrite <- Z.add_mod by done. f_equal. lia. }
  assert (Hnil : editing (set_cons_w (cons_e s') s') = []) by (unfold editing; simpl; rewrite dist_same; by apply ring_nil).
  assert (Hbuf : zlen (cons_buf s') = INPUT_BUF_SIZE /\ bytes_ok (cons_buf s')).
  { unfold s'. simpl. rewrite zlen_zupd. split; [done|by apply bytes_ok_zupd]. }
  split_and!; try done.
  - intros Hc. split; try apply Hbuf; try done; [apply uint_range|change (cons_w s') with (cons_w s); rewrite Hwe'; change (cons_r s') with (cons_r s); unfold INPUT_BUF_SIZE; lia|].
    rewrite Hed, Forall_app, Forall_singleton. done.
  - split; try apply Hbuf; try done; [apply uint_range..| |by rewrite Hnil].
    change (cons_r (set_cons_w _ s')) with (cons_r s). change (cons_w (set_cons_w (cons_e s') s')) with (cons_e s').
    change (cons_e (set_cons_w (cons_e s') s')) with (cons_e s'). rewrite dist_same, Hre'. unfold INPUT_BUF_SIZE. lia.
Qed.

Lemma consoleintr_ok spin pd s c :
  idles spin -> panicked (cuart s) = false -> cons_ok s -> byte_ok c -> c <> ctrl_P ->
  exists s', consoleintr spin pd c s = Ok (tt, s') /\ cons_ok s' /\ same_input s s' /\
    (committed s', editing s') = type_char c (committed s, editing s).
Proof using Type.
  intros Hi Hp Hok Hb HP. unfold consoleintr, type_char. rewrite (proj2 (Z.eqb_neq c ctrl_P)) by done.
  destruct (counts s Hok) as (_ & Hen & Hcnt).
  destruct (c =? ctrl_U).
  { ksimpl. destruct (kill_line_ok spin (S (Z.to_nat (uint (cons_e s - cons_w s)))) s Hi Hp Hok) as (s' & He & Hok' & Hc & Hed & _ & Hs').
    { change (uint (cons_e s - cons_w s)) with (dist (2 ^ 32) (cons_w s) (cons_e s)). rewrite <- Hen. unfold zlen. lia. }
    exists s'. rewrite Hc, Hed. by split_and!. }
  destruct ((c =? ctrl_H) || (c =? 127)).
  { ksimpl. rewrite empty_line by done. destruct (zlen (editing s) =? 0) eqn:E; zbool.
    - exists s. split_and!; try done; [apply same_input_refl|]. unfold zlen in E. by destruct (editing s).
    - destruct (erase_ok spin s Hi Hp Hok) as (s' & He & Hok' & Hc & Hed & _ & _ & Hs'); [by intros Ee; rewrite Ee in E|].
      exists s'. rewrite Hc, Hed. by split_and!. }
  ksimpl. rewrite Hcnt. destruct (c =? 0) eqn:E0; cbn [negb andb orb]; [exists s; split_and!; try done; apply same_input_refl|].
  destruct (INPUT_BUF_SIZE <=? zlen (committed s) + zlen (editing s)) eqn:El; zbool.
  { rewrite (proj2 (Z.ltb_ge _ _)) by done. exists s. split_and!; try done. apply same_input_refl. }
  rewrite (proj2 (Z.ltb_lt _ _)) by done. set (c' := if c =? 13 then newline else c).
  assert (Hb' : byte_ok c') by (unfold c'; by destruct (c =? 13)).
  destruct (consputc_ok spin s c' Hi Hp) as (s1 & He1 & Hsh). kstep He1. ksimpl.
  destruct (shown_ok _ _ _ Hsh Hok) as (Hok1 & Hcm1 & Hed1). pose proof (shown_same _ _ _ Hsh) as Hi1.
  rewrite (uchar_small c') by exact Hb'.
  destruct (append_ok s1 c' Hok1) as (Hcm & Hed & Hn & Hk & Hkw & Hcw & Hew); [by rewrite Hcm1, Hed1|done|].
  set (s2 := mk_console _ _ _ _ _) in *. rewrite Hn. rewrite Hcm1, Hed1 in *. rewrite zlen_app. change (zlen [c']) with 1.
  replace (zlen (committed s) + (zlen (editing s) + 1)) with (zlen (committed s) + zlen (editing s) + 1) by lia.
  assert (Hsame : same_input s s2) by exact Hi1.
  destruct ((c' =? newline) || (c' =? ctrl_D) || (zlen (committed s) + zlen (editing s) + 1 =? INPUT_BUF_SIZE)) eqn:Ecom.
  - exists (set_cons_w (cons_e s2) s2). split; [done|]. split; [done|]. split; [done|]. by rewrite Hcw, Hew.
  - exists s2. split; [done|]. split; [|split; [done|by rewrite Hcm, Hed]]. apply Hk. zbool. done.
Qed.

(** ** Reading *)

Lemma read_byte s :
  cons_ok s -> committed s <> [] ->
  let s' := set_cons_r (uint (cons_r s + 1)) s in
  (cons_r s =? cons_w s) = false /\ committed s = znth (cons_buf s) (cons_r s mod INPUT_BUF_SIZE) :: committed s' /\
  cons_ok s' /\ editing s' = editing s /\ set_cons_r (uint (cons_r s' - 1)) s' = s.
Proof using Type.
  intros Hok Hne s'. pose proof Hok as [Hl Hb Hr Hw He Hroom Hline]. destruct (counts s Hok) as (Hn & _ & _).
  pose proof (dist_range (2 ^ 32) (cons_r s) (cons_w s) ltac:(lia)) as Hd.
  assert (Hpos : 0 < dist (2 ^ 32) (cons_r s) (cons_w s)).
  { rewrite <- Hn. destruct (committed s); [done|]. unfold zlen. simpl. lia. }
  assert (Hd' : dist (2 ^ 32) (cons_r s') (cons_w s') = dist (2 ^ 32) (cons_r s) (cons_w s) - 1) by (by apply (dist_inc_r (2 ^ 32))).
  split; [apply Z.eqb_neq; intros E; rewrite E, dist_same in Hpos; lia|]. split.
  { unfold committed at 1. rewrite ring_cons by done. f_equal. unfold committed. rewrite Hd'. unfold s', set_cons_r, uint. simpl.
    symmetry. by apply ring_wrap; [|apply cons_div|]. }
  split; [split; try done; [apply uint_range|rewrite Hd'; unfold s'; simpl; lia]|]. split; [done|].
  destruct s as [bf r w e u]. unfold s', set_cons_r, uint. simpl in *. f_equal. rewrite Zminus_mod_idemp_l, Z.add_simpl_r. by apply Z.mod_small.
Qed.

Lemma no_input s : cons_ok s -> (cons_r s =? cons_w s) = bool_decide (committed s = []).
Proof using Type.
  intros Hok. case_bool_decide as E.
  - destruct (counts s Hok) as (Hn & _). rewrite E in Hn. symmetry in Hn. apply Z.eqb_eq. symmetry.
    apply (dist_zero (2 ^ 32)); try done; apply Hok.
  - by apply read_byte.
Qed.

Section Read.
Context {M : Type} `{KM : KMem M, KL : !KMemLaws M}.

Lemma on_cons_ok {A} (f : K (console U) A) s (m : M) a s' : f s = Ok (a, s') -> on_cons f (s, m) = Ok (a, (s', m)).
Proof using Type. intros H. unfold on_cons, zoom. simpl. by rewrite H. Qed.
Lemma on_mem_ok {A} (f : K M A) s m a m' : f m = Ok (a, m') -> on_mem f (s, m) = Ok (a, (s, m')).
Proof using Type. intros H. unfold on_mem, zoom. simpl. by rewrite H. Qed.

(** The loop, from the byte [k] of the destination on. *)
Lemma consoleread_loop_ok fuel s m user dst N target k n :
  cons_ok s -> km_inv m -> km_ok m user dst N -> 0 <= dst -> dst + N < 2 ^ 64 -> 0 <= k -> 0 <= n -> k + n = N -> target = N -> N < 2 ^ 31 ->
  (Z.to_nat n < fuel)%nat ->
  match read_line (k =? 0) (Z.to_nat n) (committed s) with
  | None => consoleread_loop false fuel user (dst + k) target n (s, m) = Blocked "cons.r"
  | Some (data, rest) => exists s' m', consoleread_loop false fuel user (dst + k) target n (s, m) = Ok (k + zlen data, (s', m')) /\
      cons_ok s' /\ committed s' = rest /\ editing s' = editing s /\ km_inv m' /\ zlen data <= n /\
      km_read m' user dst N = splice (km_read m user dst N) k data
  end.
Proof using Type.
  revert s m k n. induction fuel as [|fuel IH]; intros s m k n Hok Hm Hacc Hd HdN Hk Hn Hkn -> HN Hf; [lia|].
  cbn [consoleread_loop]. destruct (0 <? n) eqn:E0; zbool; cbn [negb].
  2:{ assert (n = 0) as -> by lia. simpl. exists s, m. unfold mret, K_ret. rewrite int_small by lia. change (zlen (@nil Z)) with 0. split_and!; try done; [by replace (k + 0) with (N - 0) by lia|].
      unfold splice. simpl. rewrite Nat.add_0_r. by rewrite take_drop. }
  replace (Z.to_nat n) with (S (Z.to_nat (n - 1))) by lia. cbn [read_line]. ksimpl. cbn [fst snd].
  rewrite no_input by done. case_bool_decide as En; [by rewrite En|].
  destruct (read_byte s Hok En) as (_ & Hc & Hok1 & Hed1 & Hback). set (c := znth _ _) in *. set (s1 := set_cons_r _ s) in *.
  rewrite Hc. rewrite (bind_ok _ _ _ tt (s1, m)) by (by apply on_cons_ok).
  assert (Hcb : byte_ok c) by (apply bytes_ok_znth; apply Hok).
  destruct (c =? ctrl_D) eqn:ED; zbool.
  { destruct (k =? 0) eqn:Ek; zbool.
    - rewrite uint_small, (proj2 (Z.ltb_ge _ _)) by lia. exists s1, m. unfold mret, K_ret, mbind, K_bind. simpl. rewrite int_small by lia.
      change (zlen (@nil Z)) with 0. split_and!; try done; [do 2 f_equal; lia|]. unfold splice. simpl. rewrite Nat.add_0_r. by rewrite take_drop.
    - rewrite uint_small, (proj2 (Z.ltb_lt _ _)) by lia. exists s, m.
      rewrite (bind_ok _ _ _ tt (s, m)) by (apply on_cons_ok; unfold modify; by rewrite Hback).
      unfold mret, K_ret. rewrite int_small by lia. change (zlen (@nil Z)) with 0. split_and!; try done; [do 2 f_equal; lia|].
      unfold splice. simpl. rewrite Nat.add_0_r. by rewrite take_drop. }
  destruct (km_out_ok m user dst N k [uchar c] Hm Hacc) as (m1 & Hout & Hm1 & Hv1 & Hacc1 & _); [lia|change (zlen [uchar c]) with 1; lia|constructor; [apply uchar_range|constructor]|].
  rewrite uchar_small in * by exact Hcb. rewrite (bind_ok _ _ _ 0 (s1, m1)) by (by apply on_mem_ok). cbn [Z.eqb].
  destruct (c =? newline) eqn:EN; zbool.
  { exists s1, m1. unfold mret, K_ret. rewrite int_small by lia. change (zlen [c]) with 1. split_and!; try done; [do 2 f_equal; lia|lia]. }
  rewrite uint64_small by lia. specialize (IH s1 m1 (k + 1) (n - 1) Hok1 Hm1 (Hacc1 _ _ _ Hacc) Hd HdN ltac:(lia) ltac:(lia) ltac:(lia) eq_refl HN ltac:(lia)).
  rewrite (proj2 (Z.eqb_neq (k + 1) 0)) in IH by lia. rewrite Z.add_assoc in IH.
  destruct (read_line false (Z.to_nat (n - 1)) (committed s1)) as [[data rest]|]; [|done].
  destruct IH as (s' & m' & He & Hok' & Hcm & Hed & Hm' & Hlen & Hv). exists s', m'. rewrite He.
  assert (Hz : zlen (c :: data) = 1 + zlen data) by (unfold zlen; simpl; lia). rewrite Hz.
  split_and!; try done; [do 2 f_equal; lia|lia|]. rewrite Hv, Hv1. pose proof (zlen_nonneg data).
  change (k + 1) with (k + zlen [c]). apply (splice_splice_adj _ [c] data); [lia|rewrite km_read_len; change (zlen [c]) with 1; lia].
Qed.

Lemma consoleread_ok s m user dst n :
  cons_ok s -> km_inv m -> km_ok m user dst n -> 0 <= dst -> dst + n < 2 ^ 64 -> 0 <= n < 2 ^ 31 ->
  match read_line true (Z.to_nat n) (committed s) with
  | None => consoleread false user dst n (s, m) = Blocked "cons.r"
  | Some (data, rest) => exists s' m', consoleread false user dst n (s, m) = Ok (zlen data, (s', m')) /\
      cons_ok s' /\ committed s' = rest /\ editing s' = editing s /\ zlen data <= n /\
      km_read m' user dst n = splice (km_read m user dst n) 0 data
  end.
Proof using Type.
  intros Hok Hm Ha Hd Hdn Hn. unfold consoleread. rewrite uint_small by lia.
  pose proof (consoleread_loop_ok (S (Z.to_nat n)) s m user dst n n 0 n Hok Hm Ha Hd Hdn ltac:(lia) ltac:(lia) ltac:(lia) eq_refl ltac:(lia) ltac:(lia)) as H.
  rewrite Z.add_0_r in H. change (0 =? 0) with true in H. destruct (read_line true _ _) as [[data rest]|]; [|done].
  destruct H as (s' & m' & He & H1 & H2 & H3 & _ & H5 & H6). by exists s', m'.
Qed.
End Read.

(** ** Interrupts *)

Lemma uartgetc_ok u :
  match received (udev u) with
  | [] => exists d, uartgetc u = Ok (-1, set_udev d u) /\ received d = []
  | c :: l => exists d, uartgetc u = Ok (c, set_udev d u) /\ received d = l
  end.
Proof using Type.
  unfold uartgetc. assert (Hrd : forall r u, ReadReg r u = Ok ((read_reg r (udev u)).1, set_udev (read_reg r (udev u)).2 u)).
  { intros r u0. unfold ReadReg. by destruct (read_reg r (udev u0)). }
  kstep (Hrd LSR u). pose proof (lsr_ready (udev u)) as Hl. destruct (received (udev u)) as [|c l] eqn:E.
  - rewrite (proj2 Hl) by done. cbn [Z.eqb negb]. eexists. split; [done|]. by rewrite lsr_received.
  - rewrite (proj2 (Z.eqb_neq _ 0)) by (intros Hz; by apply Hl in Hz). cbn [negb]. rewrite Hrd. cbn [udev set_udev].
    destruct (rhr_take c l (read_reg LSR (udev u)).2) as (-> & Hrx & _); [by rewrite lsr_received|]. by eexists.
Qed.

Lemma uartintr_loop_ok spin pd fuel s :
  idles spin -> panicked (cuart s) = false -> cons_ok s -> Forall (fun c => c <> ctrl_P) (received (udev (cuart s))) ->
  (length (received (udev (cuart s))) < fuel)%nat ->
  exists s' d, uartintr_loop spin pd fuel s = Ok (tt, s') /\ cons_ok s' /\ cuart s' = set_udev d (cuart s) /\ received d = [] /\
    (committed s', editing s') = fold_left (fun st c => type_char c st) (received (udev (cuart s))) (committed s, editing s).
Proof using Type.
  intros Hi. revert s. induction fuel as [|fuel IH]; intros s Hp Hok Hnp Hf; [lia|]. cbn [uartintr_loop].
  pose proof (received_ok (udev (cuart s))) as Hbytes. pose proof (uartgetc_ok (cuart s)) as Hg.
  destruct (received (udev (cuart s))) as [|c l] eqn:E.
  - destruct Hg as (d & He & Hd). unfold on_uart. rewrite (bind_ok _ _ _ _ _ (zoom_ok cuart set_cuart _ _ _ _ He)). cbn [Z.eqb].
    eexists _, d. split; [done|]. split; [by destruct Hok; split|]. done.
  - destruct Hg as (d & He & Hd). unfold on_uart at 1. rewrite (bind_ok _ _ _ _ _ (zoom_ok cuart set_cuart _ _ _ _ He)).
    apply Forall_cons in Hnp as [Hc Hnp], Hbytes as [Hcb _]. rewrite (proj2 (Z.eqb_neq c (-1))) by (unfold byte_ok in Hcb; lia).
    set (s1 := set_cuart (set_udev d (cuart s)) s). assert (Hok1 : cons_ok s1) by (by destruct Hok; split).
    destruct (consoleintr_ok spin pd s1 c Hi Hp Hok1 Hcb Hc) as (s2 & He2 & Hok2 & (d2 & Hu2 & Hr2) & Ht). kstep He2.
    assert (Hrx : received (udev (cuart s2)) = l) by (rewrite Hu2; simpl; by rewrite Hr2).
    destruct (IH s2) as (s3 & d3 & He3 & Hok3 & Hu3 & Hr3 & Ht3); [by rewrite Hu2|done|by rewrite Hrx|rewrite Hrx; simpl in Hf; lia|].
    exists s3, d3. split; [done|]. split; [done|]. rewrite Hu3, Hu2. split; [done|]. split; [done|]. rewrite Ht3, Hrx, Ht. done.
Qed.
End Proofs.

(** ** A device for the examples: it is always idle and holds the bytes typed. *)
Record demo_uart := mk_demo_uart { du_rx : list Z; du_tx : list Z }.
#[export] Instance demo_uart_dev : UartDev demo_uart := {|
  read_reg r d :=
    if r =? LSR then (if decide (du_rx d = []) then LSR_TX_IDLE else LSR_TX_IDLE + LSR_RX_READY, d)
    else match du_rx d with c :: l => (uchar c, mk_demo_uart l (du_tx d)) | [] => (0, d) end;
  write_reg r v d := if r =? THR then mk_demo_uart (du_rx d) (du_tx d ++ [uchar v]) else d;
|}.
#[export] Instance demo_uart_laws : UartDevLaws demo_uart.
Proof.
  refine {| sent := du_tx; received d := uchar <$> du_rx d |}; try done.
  - intros [[|c l] tx]; simpl; by split.
  - intros c l [[|x rx] tx]; simpl; [done|]. by intros [= <- <-].
  - intros d. unfold bytes_ok. rewrite Forall_fmap. apply Forall_forall. intros x _. apply uchar_range.
Defined.

Lemma demo_idles : idles (U := demo_uart) 1.
Proof. intros [[[|c l] tx] bf w r p]; by eexists. Qed.

(** A console at rest, its indices about to wrap around, with a line typed in. *)
Definition demo_console (rx : list Z) : console demo_uart :=
  mk_console (replicate 128 0) (2 ^ 32 - 2) (2 ^ 32 - 2) (2 ^ 32 - 2) (mk_uart (mk_demo_uart rx []) (replicate 32 0) 5 5 false).
Lemma demo_console_ok rx : cons_ok (demo_console rx) /\ uart_ok (cuart (demo_console rx)).
Proof.
  split; split; try done; try (apply bytes_ok_replicate; done); try (simpl; lia); vm_compute; try done.
Qed.

(** C34: a UART interrupt takes every received character through the line discipline,
    in order: backspace, line kill, end of file, carriage return and a full buffer
    act on the committed and the edited line as the specification [type_char] says. *)
Theorem uartintr_types {U} `{UL : UartDevLaws U} spin pd fuel (s : console U) :
  idles spin -> panicked (cuart s) = false -> cons_ok s -> uart_ok (cuart s) ->
  Forall (fun c => c <> ctrl_P) (received (udev (cuart s))) -> (length (received (udev (cuart s))) < fuel)%nat ->
  exists s', uartintr spin pd fuel s = Ok (tt, s') /\ cons_ok s' /\ uart_ok (cuart s') /\ received (udev (cuart s')) = [] /\
    (committed s', editing s') = fold_left (fun st c => type_char c st) (received (udev (cuart s))) (committed s, editing s).
Proof.
  intros Hi Hp Hok Hu Hnp Hf. unfold uartintr.
  destruct (uartintr_loop_ok spin pd fuel s Hi Hp Hok Hnp Hf) as (s1 & d & He & Hok1 & Hu1 & Hr & Ht). kstep He.
  destruct (uartstart_ok (cuart s1)) as (u' & He' & Hok' & _ & Hr' & _); [by rewrite Hu1; destruct Hu; split|].
  eexists. split; [by apply zoom_ok|]. split; [by destruct Hok1; split|]. split; [done|]. simpl. rewrite Hr', Hu1. by rewrite <- Ht.
Qed.

Lemma uartintr_types_witness : exists s',
  uartintr 1 (mret tt) 10 (demo_console [104; 111; 127; 105; 13; 120]) = Ok (tt, s') /\ (committed s', editing s') = ([104; 105; 10], [120]).
Proof.
  destruct (demo_console_ok [104; 111; 127; 105; 13; 120]) as [H1 H2].
  destruct (uartintr_types 1 (mret tt) 10 (demo_console [104; 111; 127; 105; 13; 120]) demo_idles eq_refl H1 H2) as (s' & He & _ & _ & _ & Ht).
  - repeat constructor; done.
  - vm_compute. lia.
  - exists s'. split; [exact He|]. rewrite Ht. vm_compute. reflexivity.
Defined.

(** A console read takes the first committed line, at most as many bytes as asked
    for, into the caller's buffer and nothing else of it; an end of file ends the read,
    is consumed by an empty read only and kept otherwise; without a line it sleeps. *)
Theorem consoleread_takes {U M} `{UL : UartDevLaws U} `{KL : KMemLaws M} (s : console U) (m : M) user dst n :
  cons_ok s -> km_inv m -> km_ok m user dst n -> 0 <= dst -> dst + n < 2 ^ 64 -> 0 <= n < 2 ^ 31 ->
  match read_line true (Z.to_nat n) (committed s) with
  | None => consoleread false user dst n (s, m) = Blocked "cons.r"
  | Some (data, rest) => exists s' m', consoleread false user dst n (s, m) = Ok (zlen data, (s', m')) /\
      cons_ok s' /\ committed s' = rest /\ editing s' = editing s /\ zlen data <= n /\
      km_read m' user dst n = splice (km_read m user dst n) 0 data
  end.
Proof. apply consoleread_ok. Qed.

Lemma consoleread_takes_witness : exists k s' k',
  consoleread false true 16 100 (mk_console ([105; 10; 107] ++ replicate 123 0 ++ [104; 111]) (2 ^ 32 - 2) 2 3 (cuart (demo_console [])), k)
    = Ok (4, (s', k')) /\ editing s' = [107] /\ sub (km_read k' true 16 100) 0 4 = [104; 111; 105; 10].
Proof.
  destruct demo_process as (k & p & q & Hk & Ha & _). set (s := mk_console _ _ _ _ _).
  assert (Hs : cons_ok s).
  { split; [done| |simpl; lia..|by vm_compute|vm_compute; constructor; [done|constructor]].
    unfold s, bytes_ok. simpl. repeat constructor; unfold byte_ok; lia. }
  assert (Ha' : km_ok k true 16 100).
  { destruct Ha as (_ & _ & _ & Hacc). split; [lia|]. split; [lia|]. split; [unfold Vm.MAXVA; lia|]. intros a H. apply Hacc. lia. }
  pose proof (consoleread_takes s k true 16 100 Hs Hk Ha' ltac:(lia) ltac:(lia) ltac:(lia)) as H.
  assert (Hr : read_line true (Z.to_nat 100) (committed s) = Some ([104; 111; 105; 10], [])) by (vm_compute; reflexivity).
  rewrite Hr in H. destruct H as (s' & k' & He & _ & _ & Hed & _ & Hv). exists k, s', k'. split; [exact He|]. split; [rewrite Hed; vm_compute; reflexivity|].
  rewrite Hv. change 4 with (zlen [104; 111; 105; 10]). apply sub_splice_same; [lia|]. rewrite km_read_len by lia. done.
Defined.
