(* ===== verification/Exec.v ===== *)
(** * Program loading

    [src/kernel/fs/exec.c], [sys_exec] of [src/kernel/fs/sysfile.c], and the page
    tables of processes of [src/kernel/proc.c] ([proc_pagetable],
    [proc_freepagetable], [growproc]).  The file system runs over the memory of
    [KmemVm]; the locals [elf] and [ph] of [exec] lie in the caller's kernel stack
    page.  [trampoline] is the address of the trampoline code, [trapframe] that of
    the running process's trapframe page; the trapframe's words are in [k_tf]. *)

From stdpp Require Import base numbers list list_numbers gmap strings.
From Stdlib Require Import ZArith Lia.
From S2P Require Import Prelude Params KString Path Sleeplock Virtio Bio Kmem Ring Uart Console Fsys Blocks Dinode Vfs Dirs Pipe File Sysfile Kalloc Vm KmemVm.

(** ** Page tables of processes *)

(** [proc_pagetable(p)] for a process whose trapframe page is [trapframe]. *)
Definition proc_pagetable (trampoline trapframe : Z) : K mem Z :=
  pagetable ← uvmcreate;
  if pagetable =? 0 then mret 0
  else
    r ← mappages pagetable TRAMPOLINE PGSIZE trampoline (Z.lor PTE_R PTE_X);
    if r <? 0 then uvmfree pagetable 0;; mret 0
    else
      r ← mappages pagetable TRAPFRAME PGSIZE trapframe (Z.lor PTE_R PTE_W);
      if r <? 0 then uvmunmap pagetable TRAMPOLINE 1 false;; uvmfree pagetable 0;; mret 0
      else mret pagetable.

Definition proc_freepagetable (pagetable sz : Z) : K mem unit :=
  uvmunmap pagetable TRAMPOLINE 1 false;;
  uvmunmap pagetable TRAPFRAME 1 false;;
  uvmfree pagetable sz.

(** The new size of the process and the result. *)
Definition growproc (pagetable sz n : Z) : K mem (Z * Z) :=
  if 0 <? n then
    sz' ← uvmalloc pagetable sz (uint64 (sz + n)) PTE_W;
    if sz' =? 0 then mret (sz, -1) else mret (sz', 0)
  else if n <? 0 then sz' ← uvmdealloc pagetable sz (uint64 (sz + n)); mret (sz', 0)
  else mret (sz, 0).

(** ** ELF headers, little-endian *)

Definition ELF_MAGIC : Z := 0x464C457F.
Definition ELF_PROG_LOAD : Z := 1.
Record elfhdr := mk_elfhdr { elf_magic : Z; elf_entry : Z; elf_phoff : Z; elf_phnum : Z }.
Definition sizeof_elfhdr : Z := 64.
Definition decode_elfhdr (l : list Z) : elfhdr := mk_elfhdr (load32 l 0) (load64 l 24) (load64 l 32) (load16 l 56).
Record proghdr := mk_proghdr { ph_type : Z; ph_flags : Z; ph_off : Z; ph_vaddr : Z; ph_filesz : Z; ph_memsz : Z }.
Definition sizeof_proghdr : Z := 56.
Definition decode_proghdr (l : list Z) : proghdr :=
  mk_proghdr (load32 l 0) (load32 l 4) (load64 l 8) (load64 l 16) (load64 l 32) (load64 l 40).

Definition flags2perm (flags : Z) : Z :=
  let perm := if negb (Z.land flags 0x1 =? 0) then PTE_X else 0 in
  if negb (Z.land flags 0x2 =? 0) then Z.lor perm PTE_W else perm.

Section Exec.
Context {B U : Type} `{BC : BufCache B} `{UD : UartDev U}.
Abbreviation S := (kst B kmem U).
Abbreviation F := (fsys B kmem).
Context (trampoline trapframe : Z).

(** The locals [elf] and [ph], below the directory entry at [km_scratch]. *)
Definition elf_addr : Z := KSTACK 0 + PGSIZE - 1024.
Definition ph_addr : Z := KSTACK 0 + PGSIZE - 960.

Definition on_vm {A} (m : K mem A) : K F A := on_mm (on_phys m).

(** [readi] of [n] bytes into a local; [None] on a short read. *)
Definition read_local (ip addr off n : Z) : K F (option (list Z)) :=
  r ← call_op ip (xv6fs_readi ip false addr off n);
  if negb (r =? n) then mret None else gets (fun s => Some (km_read (mm s) false addr n)).

(** A round per page of the segment. *)
Fixpoint loadseg_loop (fuel : nat) (pagetable va ip offset sz i : Z) : K F Z :=
  match fuel with
  | O => out_of_fuel
  | Datatypes.S fuel =>
      if negb (i <? sz) then mret 0
      else
        pa ← on_vm (walkaddr pagetable (uint64 (va + i)));
        if pa =? 0 then panic "loadseg: address should exist"
        else
          let n := if uint (sz - i) <? PGSIZE then uint (sz - i) else PGSIZE in
          r ← call_op ip (xv6fs_readi ip false pa (uint (offset + i)) n);
          if negb (uint r =? n) then mret (-1)
          else loadseg_loop fuel pagetable va ip offset sz (uint (i + PGSIZE))
  end.
(** A size within a page of 2^32 makes [i] wrap around and the loop run forever. *)
Definition loadseg (pagetable va ip offset sz : Z) : K F Z :=
  loadseg_loop (Datatypes.S (Z.to_nat ((sz + PGSIZE - 1) / PGSIZE))) pagetable va ip offset sz 0.

(** The program headers: [(sz, ok)], the size reached and whether all segments were loaded. *)
Fixpoint load_segments (k : nat) (pagetable ip off sz : Z) : K F (Z * bool) :=
  match k with
  | O => mret (sz, true)
  | Datatypes.S k =>
      r ← read_local ip ph_addr (uint off) sizeof_proghdr;
      match r with
      | None => mret (sz, false)
      | Some bytes =>
          let ph := decode_proghdr bytes in
          if negb (ph_type ph =? ELF_PROG_LOAD) then load_segments k pagetable ip (int (off + sizeof_proghdr)) sz
          else if (ph_memsz ph <? ph_filesz ph) || (uint64 (ph_vaddr ph + ph_memsz ph) <? ph_vaddr ph) ||
                  negb (ph_vaddr ph mod PGSIZE =? 0) then mret (sz, false)
          else
            sz1 ← on_vm (uvmalloc pagetable sz (uint64 (ph_vaddr ph + ph_memsz ph)) (flags2perm (ph_flags ph)));
            if sz1 =? 0 then mret (sz, false)
            else
              l ← loadseg pagetable (ph_vaddr ph) ip (uint (ph_off ph)) (uint (ph_filesz ph));
              if l <? 0 then mret (sz1, false)
              else load_segments k pagetable ip (int (off + sizeof_proghdr)) sz1
      end
  end.

(** The argument strings, pushed from the top of the stack; [None] when they do not fit. *)
Fixpoint push_args (args : list (list Z)) (pagetable sp stackbase argc : Z) (ustack : list Z) : K F (option (Z * list Z)) :=
  match args with
  | [] => mret (Some (sp, ustack))
  | a :: args =>
      if MAXARG <=? argc then mret None
      else
        let sp := uint64 (sp - (zlen (cstring a) + 1)) in
        let sp := uint64 (sp - sp mod 16) in
        if sp <? stackbase then mret None
        else
          r ← on_vm (copyout pagetable sp (cstring a ++ [0]));
          if r <? 0 then mret None else push_args args pagetable sp stackbase (argc + 1) (ustack ++ [sp])
  end.

(** The last element of the path, for [p->name]. *)
Fixpoint last_elem (path last : list Z) : list Z :=
  match path with
  | [] => last
  | c :: path => last_elem path (if c =? slash then path else last)
  end.

Definition exec_bad (ip : option Z) (pagetable sz : Z) : K F Z :=
  (if pagetable =? 0 then mret tt else on_vm (proc_freepagetable pagetable sz));;
  match ip with Some _ => iunlockput ip | None => mret tt end;;
  mret (-1).

(** The user stack, once the segments are loaded. *)
Definition exec_stack (argv : list (list Z)) (pagetable sz : Z) : K F (option (Z * Z * Z) * Z) :=
  let sz := PGROUNDUP sz in
  sz1 ← on_vm (uvmalloc pagetable sz (uint64 (sz + 2 * PGSIZE)) PTE_W);
  if sz1 =? 0 then mret (None, sz)
  else
    on_vm (uvmclear pagetable (uint64 (sz1 - 2 * PGSIZE)));;
    let stackbase := uint64 (sz1 - PGSIZE) in
    r ← push_args argv pagetable sz1 stackbase 0 [];
    match r with
    | None => mret (None, sz1)
    | Some (sp, ustack) =>
        let argc := zlen ustack in
        let sp := uint64 (sp - (argc + 1) * 8) in
        let sp := uint64 (sp - sp mod 16) in
        if MAXARG <=? argc then fault "ustack[argc]"
        else if sp <? stackbase then mret (None, sz1)
        else
          r ← on_vm (copyout pagetable sp (concat (le_encode 8 <$> (ustack ++ [0]))));
          if r <? 0 then mret (None, sz1) else mret (Some (argc, sp, sz1), sz1)
    end.

Definition exec_image (path : list Z) (argv : list (list Z)) : K F (option (Z * Z * Z * Z * Z)) :=
  r ← namei path;
  match r with
  | None => mret None
  | Some ip =>
      ilock (Some ip);;
      e ← read_local ip elf_addr 0 sizeof_elfhdr;
      match e with
      | None => exec_bad (Some ip) 0 0;; mret None
      | Some bytes =>
          let elf := decode_elfhdr bytes in
          if negb (elf_magic elf =? ELF_MAGIC) then exec_bad (Some ip) 0 0;; mret None
          else
            pagetable ← on_vm (proc_pagetable trampoline trapframe);
            if pagetable =? 0 then exec_bad (Some ip) 0 0;; mret None
            else
              l ← load_segments (Z.to_nat (elf_phnum elf)) pagetable ip (int (elf_phoff elf)) 0;
              if negb (snd l) then exec_bad (Some ip) pagetable (fst l);; mret None
              else
                iunlockput (Some ip);;
                st ← exec_stack argv pagetable (fst l);
                match fst st with
                | None => exec_bad None pagetable (snd st);; mret None
                | Some (argc, sp, sz) => mret (Some (argc, sp, sz, pagetable, elf_entry elf))
                end
      end
  end.

(** Commit to the image: the registers, the name, the page table and the size. *)
Definition exec (path : list Z) (argv : list (list Z)) : K S Z :=
  r ← on_fs (exec_image path argv);
  match r with
  | None => mret (-1)
  | Some (argc, sp, sz, pagetable, entry) =>
      s ← get;
      let oldpagetable := upt (mm (k_fs s)) in
      let oldsz := k_sz s in
      let name := rd_bytes (safestrcpy (wr_bytes (wr_bytes ∅ 0 (k_name s)) 64 (last_elem path path ++ [0])) 0 64 16) 0 16 in
      modify (fun s => mk_kst (set_mm (mk_kmem (phys (mm (k_fs s))) pagetable (kstk (mm (k_fs s)))) (k_fs s)) (k_cons s)
                         (zupd (zupd (zupd (k_tf s) (TF_a 1) sp) TF_epc entry) TF_sp sp) sz name (k_killed s));;
      on_fs (on_vm (proc_freepagetable oldpagetable oldsz));;
      mret (int argc)
  end.

(** ** [sys_exec] *)

Fixpoint free_args (argv : list Z) : K F unit :=
  match argv with [] => mret tt | p :: argv => kfree_obj p;; free_args argv end.

(** The argument pages so far, and whether the vector was complete. *)
Fixpoint fetch_args (fuel : nat) (uargv i : Z) (argv : list Z) : K S (list Z * bool) :=
  match fuel with
  | O => mret (argv, false)
  | Datatypes.S fuel =>
      uarg ← fetchaddr (uint64 (uargv + 8 * i));
      match uarg with
      | None => mret (argv, false)
      | Some uarg =>
          if uarg =? 0 then mret (argv, true)
          else
            p ← on_fs (on_mm km_kalloc);
            if p =? 0 then mret (argv, false)
            else
              r ← fetchstr uarg PGSIZE;
              on_fs (modify (set_heap (insert p (HPage (snd r)))));;
              if fst r <? 0 then mret (argv ++ [p], false) else fetch_args fuel uargv (i + 1) (argv ++ [p])
      end
  end.

Definition page_bytes (s : F) (p : Z) : list Z := match heap s !! p with Some (HPage l) => l | _ => [] end.

(** [NELEM(argv)] rounds: the one after the last argument finds the null pointer. *)
Definition sys_exec : K S Z :=
  uargv ← argaddr 1;
  path ← argstr 0 MAXPATH;
  if fst path <? 0 then mret (-1)
  else
    a ← fetch_args (Z.to_nat MAXARG) uargv 0 [];
    if negb (snd a) then on_fs (free_args (fst a));; mret (-1)
    else
      args ← gets (fun s => page_bytes (k_fs s) <$> fst a);
      ret ← exec (cstring (snd path)) args;
      on_fs (free_args (fst a));;
      mret ret.
End Exec.
