(* ===== verification/Proc.v ===== *)
(** * Processes

    [src/kernel/proc.c]: the process table and the operations that create, end,
    wait for, put to sleep, wake, kill and schedule processes.  A [struct proc *] is
    an index of [procs]; [hart] is the CPU that runs the operation and [myproc()]
    its entry of [cpus].  An operation is what its thread does up to the next
    [sched]: the locks that make it atomic ([p->lock], [wait_lock], [pid_lock]) are
    the subject of [Spinlock].  A thread that enters [sched] leaves its CPU's
    [c->proc] at 0, which [scheduler] does when [swtch] comes back to it. *)

From stdpp Require Import base numbers list list_numbers gmap strings.
From Stdlib Require Import ZArith Lia.
From S2P Require Import Prelude Params KString Kalloc Vm Exec.

Inductive procstate := UNUSED | USED | SLEEPING | RUNNABLE | RUNNING | ZOMBIE.
#[export] Instance procstate_eq : EqDecision procstate.
Proof. solve_decision. Defined.

(** What a process sleeps on: the address of a process or of another object. *)
Inductive channel := CProc (i : Z) | CAddr (a : Z).
#[export] Instance channel_eq : EqDecision channel.
Proof. solve_decision. Defined.

Record proc := mk_proc {
  state : procstate;
  chan : option channel;
  p_killed : Z;
  xstate : Z;
  pid : Z;
  parent : option Z;
  kstack : Z;
  sz : Z;
  pagetable : Z;
  trapframe : Z;
  tf : list Z;
  context_ra : Z;
  context_sp : Z;
  p_ofile : list (option Z);
  p_cwd : option Z;
  name : list Z;
}.
Definition proc_zero : proc :=
  mk_proc UNUSED None 0 0 0 None 0 0 0 0 (replicate 36 0) 0 0 (replicate 16 None) None (replicate 16 0).
#[export] Instance proc_inhabited : Inhabited proc := populate proc_zero.

Definition set_state v p := mk_proc v (chan p) (p_killed p) (xstate p) (pid p) (parent p) (kstack p) (sz p) (pagetable p) (trapframe p) (tf p) (context_ra p) (context_sp p) (p_ofile p) (p_cwd p) (name p).
Definition set_chan v p := mk_proc (state p) v (p_killed p) (xstate p) (pid p) (parent p) (kstack p) (sz p) (pagetable p) (trapframe p) (tf p) (context_ra p) (context_sp p) (p_ofile p) (p_cwd p) (name p).
Definition set_killed v p := mk_proc (state p) (chan p) v (xstate p) (pid p) (parent p) (kstack p) (sz p) (pagetable p) (trapframe p) (tf p) (context_ra p) (context_sp p) (p_ofile p) (p_cwd p) (name p).
Definition set_xstate v p := mk_proc (state p) (chan p) (p_killed p) v (pid p) (parent p) (kstack p) (sz p) (pagetable p) (trapframe p) (tf p) (context_ra p) (context_sp p) (p_ofile p) (p_cwd p) (name p).
Definition set_pid v p := mk_proc (state p) (chan p) (p_killed p) (xstate p) v (parent p) (kstack p) (sz p) (pagetable p) (trapframe p) (tf p) (context_ra p) (context_sp p) (p_ofile p) (p_cwd p) (name p).
Definition set_parent v p := mk_proc (state p) (chan p) (p_killed p) (xstate p) (pid p) v (kstack p) (sz p) (pagetable p) (trapframe p) (tf p) (context_ra p) (context_sp p) (p_ofile p) (p_cwd p) (name p).
Definition set_kstack v p := mk_proc (state p) (chan p) (p_killed p) (xstate p) (pid p) (parent p) v (sz p) (pagetable p) (trapframe p) (tf p) (context_ra p) (context_sp p) (p_ofile p) (p_cwd p) (name p).
Definition set_sz v p := mk_proc (state p) (chan p) (p_killed p) (xstate p) (pid p) (parent p) (kstack p) v (pagetable p) (trapframe p) (tf p) (context_ra p) (context_sp p) (p_ofile p) (p_cwd p) (name p).
Definition set_pagetable v p := mk_proc (state p) (chan p) (p_killed p) (xstate p) (pid p) (parent p) (kstack p) (sz p) v (trapframe p) (tf p) (context_ra p) (context_sp p) (p_ofile p) (p_cwd p) (name p).
Definition set_trapframe v p := mk_proc (state p) (chan p) (p_killed p) (xstate p) (pid p) (parent p) (kstack p) (sz p) (pagetable p) v (tf p) (context_ra p) (context_sp p) (p_ofile p) (p_cwd p) (name p).
Definition set_tf v p := mk_proc (state p) (chan p) (p_killed p) (xstate p) (pid p) (parent p) (kstack p) (sz p) (pagetable p) (trapframe p) v (context_ra p) (context_sp p) (p_ofile p) (p_cwd p) (name p).
Definition set_context ra sp p := mk_proc (state p) (chan p) (p_killed p) (xstate p) (pid p) (parent p) (kstack p) (sz p) (pagetable p) (trapframe p) (tf p) ra sp (p_ofile p) (p_cwd p) (name p).
Definition set_p_ofile v p := mk_proc (state p) (chan p) (p_killed p) (xstate p) (pid p) (parent p) (kstack p) (sz p) (pagetable p) (trapframe p) (tf p) (context_ra p) (context_sp p) v (p_cwd p) (name p).
Definition set_p_cwd v p := mk_proc (state p) (chan p) (p_killed p) (xstate p) (pid p) (parent p) (kstack p) (sz p) (pagetable p) (trapframe p) (tf p) (context_ra p) (context_sp p) (p_ofile p) v (name p).
Definition set_name v p := mk_proc (state p) (chan p) (p_killed p) (xstate p) (pid p) (parent p) (kstack p) (sz p) (pagetable p) (trapframe p) (tf p) (context_ra p) (context_sp p) (p_ofile p) (p_cwd p) v.

(** What processes need of the file system: references to files and inodes, and the
    memory, which the two share. *)
Class FsRefs (G : Type) : Type := {
  g_mem : G -> mem;
  g_set_mem : mem -> G -> G;
  g_filedup : Z -> K G unit;
  g_fileclose : Z -> K G unit;
  g_idup : Z -> K G unit;
  g_iput : Z -> K G unit;
  g_root : K G (option Z);
  g_fsinit : K G unit;
}.

Record psys (G : Type) := mk_psys {
  procs : list proc;
  cpus : list (option Z);
  nextpid : Z;
  initproc : option Z;
  first : bool;
  fsg : G;
}.
Arguments mk_psys {G}.
Arguments procs {G}.
Arguments cpus {G}.
Arguments nextpid {G}.
Arguments initproc {G}.
Arguments first {G}.
Arguments fsg {G}.

(** What a call returned, or that the process sleeps. *)
Inductive outcome := Sleeps | Returns (r : Z).

Section Proc.
Context {G : Type} `{FR : FsRefs G}.
Abbreviation P := (psys G).
Context (trampoline forkret_addr : Z).

Definition set_procs f (s : P) : P := mk_psys (f (procs s)) (cpus s) (nextpid s) (initproc s) (first s) (fsg s).
Definition set_cpus f (s : P) : P := mk_psys (procs s) (f (cpus s)) (nextpid s) (initproc s) (first s) (fsg s).
Definition set_fsg g (s : P) : P := mk_psys (procs s) (cpus s) (nextpid s) (initproc s) (first s) g.
Definition on_g {A} (m : K G A) : K P A := zoom fsg set_fsg m.
Definition on_pmem {A} (m : K mem A) : K P A := on_g (zoom g_mem g_set_mem m).

Definition getp (s : P) (i : Z) : proc := procs s !!! Z.to_nat i.
Definition updp (i : Z) (f : proc -> proc) : K P unit := modify (set_procs (alter f (Z.to_nat i))).

Definition procinit : K P unit :=
  modify (set_procs (imap (fun i p => set_kstack (KSTACK (Z.of_nat i)) (set_state UNUSED p)))).

(** [myproc()] on CPU [h]; callers dereference it. *)
Definition myproc (h : Z) : K P Z :=
  s ← get; match cpus s !!! Z.to_nat h with Some i => mret i | None => fault "myproc() == 0" end.

Definition allocpid : K P Z :=
  s ← get;
  modify (fun s => mk_psys (procs s) (cpus s) (int (nextpid s + 1)) (initproc s) (first s) (fsg s));;
  mret (nextpid s).

Fixpoint find_state (st : procstate) (l : list proc) (i : Z) : option Z :=
  match l with
  | [] => None
  | p :: l => if decide (state p = st) then Some i else find_state st l (i + 1)
  end.

Definition freeproc (i : Z) : K P unit :=
  s ← get;
  let p := getp s i in
  (if trapframe p =? 0 then mret tt else on_pmem (kfree (trapframe p)));;
  updp i (set_trapframe 0);;
  (if pagetable p =? 0 then mret tt else on_pmem (proc_freepagetable (pagetable p) (sz p)));;
  updp i (fun p => set_state UNUSED (set_xstate 0 (set_killed 0 (set_chan None (set_name (zupd (name p) 0 0)
                     (set_parent None (set_pid 0 (set_sz 0 (set_pagetable 0 p))))))))).

(** The words of the page that [kalloc] gives for the trap frame: it fills the page with fives. *)
Definition tf_fill : list Z := replicate 36 0x0505050505050505.
Definition allocproc : K P (option Z) :=
  s ← get;
  match find_state UNUSED (procs s) 0 with
  | None => mret None
  | Some i =>
      n ← allocpid;
      updp i (fun p => set_state USED (set_pid n p));;
      t ← on_pmem kalloc;
      updp i (fun p => set_trapframe t (set_tf tf_fill p));;
      if t =? 0 then freeproc i;; mret None
      else
        pt ← on_pmem (proc_pagetable trampoline t);
        updp i (set_pagetable pt);;
        if pt =? 0 then freeproc i;; mret None
        else updp i (fun p => set_context forkret_addr (uint64 (kstack p + PGSIZE)) p);; mret (Some i)
  end.

(** [uchar initcode[]] *)
Definition initcode : list Z :=
  [0x17; 0x05; 0x00; 0x00; 0x13; 0x05; 0x45; 0x02;
   0x97; 0x05; 0x00; 0x00; 0x93; 0x85; 0x35; 0x02;
   0x93; 0x08; 0x70; 0x00; 0x73; 0x00; 0x00; 0x00;
   0x93; 0x08; 0x20; 0x00; 0x73; 0x00; 0x00; 0x00;
   0xef; 0xf0; 0x9f; 0xff; 0x2f; 0x69; 0x6e; 0x69;
   0x74; 0x00; 0x00; 0x24; 0x00; 0x00; 0x00; 0x00;
   0x00; 0x00; 0x00; 0x00].

(** [safestrcpy(p->name, src, sizeof(p->name))] *)
Definition copy_pname (dst src : list Z) : list Z :=
  rd_bytes (safestrcpy (wr_bytes (wr_bytes ∅ 0 dst) 64 src) 0 64 16) 0 16.

Definition userinit : K P unit :=
  r ← allocproc;
  modify (fun s => mk_psys (procs s) (cpus s) (nextpid s) r (first s) (fsg s));;
  match r with
  | None => fault "allocproc returned 0"
  | Some i =>
      s ← get;
      on_pmem (uvmfirst (pagetable (getp s i)) initcode);;
      updp i (fun p => set_name (copy_pname (name p) [105; 110; 105; 116; 99; 111; 100; 101; 0])
                         (set_tf (zupd (zupd (tf p) 3 0) 6 PGSIZE) (set_sz PGSIZE p)));;
      c ← on_g g_root;
      updp i (fun p => set_state RUNNABLE (set_p_cwd c p))
  end.

(** [growproc] of the process on [h]. *)
Definition growproc_on (h n : Z) : K P Z :=
  i ← myproc h;
  s ← get;
  r ← on_pmem (growproc (pagetable (getp s i)) (sz (getp s i)) n);
  updp i (set_sz (fst r));;
  mret (snd r).

(** The copies of the open files; [filedup] takes a reference for each. *)
Fixpoint dup_files (l : list (option Z)) : K P unit :=
  match l with
  | [] => mret tt
  | None :: l => dup_files l
  | Some f :: l => on_g (g_filedup f);; dup_files l
  end.
(** The child's descriptors: those of the parent, and its own where the parent has none. *)
Definition inherit (parent child : list (option Z)) : list (option Z) :=
  zip_with (fun a b => match a with Some _ => a | None => b end) parent child.

(** [fork] runs as one step: between its two releases of [np->lock] the child is [USED], which no other hart runs, frees or wakes. *)
Definition fork (h : Z) : K P Z :=
  i ← myproc h;
  r ← allocproc;
  match r with
  | None => mret (-1)
  | Some np =>
      s ← get;
      c ← on_pmem (uvmcopy (pagetable (getp s i)) (pagetable (getp s np)) (sz (getp s i)));
      if c <? 0 then freeproc np;; mret (-1)
      else
        updp np (fun p => set_tf (zupd (tf (getp s i)) 14 0) (set_sz (sz (getp s i)) p));;
        dup_files (p_ofile (getp s i));;
        updp np (fun p => set_p_ofile (inherit (p_ofile (getp s i)) (p_ofile p)) p);;
        match p_cwd (getp s i) with None => fault "idup(0)" | Some d => on_g (g_idup d) end;;
        updp np (fun p => set_name (copy_pname (name p) (name (getp s i))) (set_p_cwd (p_cwd (getp s i)) p));;
        updp np (set_parent (Some i));;
        updp np (set_state RUNNABLE);;
        mret (pid (getp s np))
  end.

(** [wakeup(chan)] on CPU [h]. *)
Definition wake (c : option channel) (p : proc) : proc :=
  if decide (state p = SLEEPING /\ chan p = c) then set_state RUNNABLE p else p.
Definition wakeup (h : Z) (c : option channel) : K P unit :=
  s ← get;
  modify (set_procs (imap (fun i p => if decide (cpus s !!! Z.to_nat h = Some (Z.of_nat i)) then p else wake c p))).

(** Each child found is given to init, which is woken. *)
Fixpoint reparent_loop (k : nat) (h i j : Z) : K P unit :=
  match k with
  | O => mret tt
  | S k =>
      s ← get;
      (if decide (parent (getp s j) = Some i)
       then updp j (set_parent (initproc s));; wakeup h (CProc <$> initproc s)
       else mret tt);;
      reparent_loop k h i (j + 1)
  end.
Definition reparent (h i : Z) : K P unit := reparent_loop (Z.to_nat NPROC) h i 0.

Fixpoint close_files (i : Z) (l : list (option Z)) (fd : Z) : K P unit :=
  match l with
  | [] => mret tt
  | None :: l => close_files i l (fd + 1)
  | Some f :: l => on_g (g_fileclose f);; updp i (fun p => set_p_ofile (zupd (p_ofile p) fd None) p);; close_files i l (fd + 1)
  end.

(** [sched()]: the CPU goes back to its scheduler.  The checks on [p->lock], [noff] and the
    interrupts are about the locks of [Spinlock]. *)
Definition sched (h : Z) : K P unit :=
  i ← myproc h;
  s ← get;
  if decide (state (getp s i) = RUNNING) then panic "sched running"
  else modify (set_cpus (fun l => zupd l h None)).

Definition exit (h status : Z) : K P unit :=
  i ← myproc h;
  s ← get;
  if decide (initproc s = Some i) then panic "init exiting"
  else
    close_files i (p_ofile (getp s i)) 0;;
    match p_cwd (getp s i) with None => fault "iput(0)" | Some d => on_g (g_iput d) end;;
    updp i (set_p_cwd None);;
    reparent h i;;
    s ← get;
    wakeup h (CProc <$> parent (getp s i));;
    updp i (set_xstate status);;
    updp i (set_state ZOMBIE);;
    sched h.

Definition sleep (h : Z) (c : channel) : K P unit :=
  i ← myproc h;
  updp i (set_chan (Some c));;
  updp i (set_state SLEEPING);;
  sched h.
(** What the woken thread does when it runs again. *)
Definition wake_up (h : Z) : K P unit := i ← myproc h; updp i (set_chan None).

(** The scan of [wait]: the first zombie child, and whether there are children before it. *)
Fixpoint find_child (l : list proc) (i j : Z) (havekids : bool) : option Z * bool :=
  match l with
  | [] => (None, havekids)
  | p :: l =>
      if decide (parent p = Some i) then
        if decide (state p = ZOMBIE) then (Some j, true) else find_child l i (j + 1) true
      else find_child l i (j + 1) havekids
  end.
Definition wait (h addr : Z) : K P outcome :=
  i ← myproc h;
  s ← get;
  match find_child (procs s) i 0 false with
  | (Some j, _) =>
      let pp := getp s j in
      r ← (if addr =? 0 then mret 0 else on_pmem (copyout (pagetable (getp s i)) addr (le_encode 4 (xstate pp))));
      if r <? 0 then mret (Returns (-1)) else freeproc j;; mret (Returns (pid pp))
  | (None, havekids) =>
      if negb havekids || negb (p_killed (getp s i) =? 0) then mret (Returns (-1))
      else sleep h (CProc i);; mret Sleeps
  end.

(** The scheduler of CPU [h]: from entry [j] on, run the first process that can run.
    The result is the entry it chose. *)
Fixpoint scheduler_scan (k : nat) (h j : Z) : K P (option Z) :=
  match k with
  | O => mret None
  | S k =>
      s ← get;
      if decide (state (getp s j) = RUNNABLE) then
        updp j (set_state RUNNING);; modify (set_cpus (fun l => zupd l h (Some j)));; mret (Some j)
      else scheduler_scan k h (j + 1)
  end.
(** One pass of [for(p = proc; ...)] that starts after the entry [last] run before. *)
Definition scheduler_pass (h last : Z) : K P (option Z) :=
  r ← scheduler_scan (Z.to_nat (NPROC - (last + 1))) h (last + 1);
  match r with Some j => mret (Some j) | None => scheduler_scan (Z.to_nat NPROC) h 0 end.

Definition yield (h : Z) : K P unit := i ← myproc h; updp i (set_state RUNNABLE);; sched h.

(** [forkret] up to its last call, [usertrapret], which whoever runs the new process makes after it
    ([run] of Machine.v). The line that it prints before [fsinit] is left out. *)
Definition forkret (h : Z) : K P unit :=
  _ ← myproc h;
  s ← get;
  if first s then
    modify (fun s => mk_psys (procs s) (cpus s) (nextpid s) (initproc s) false (fsg s));; on_g g_fsinit
  else mret tt.

Fixpoint find_pid (n : Z) (l : list proc) (i : Z) : option Z :=
  match l with
  | [] => None
  | p :: l => if pid p =? n then Some i else find_pid n l (i + 1)
  end.
Definition kill (n : Z) : K P Z :=
  s ← get;
  match find_pid n (procs s) 0 with
  | None => mret (-1)
  | Some i =>
      updp i (set_killed 1);;
      s ← get;
      (if decide (state (getp s i) = SLEEPING) then updp i (set_state RUNNABLE) else mret tt);;
      mret 0
  end.
Definition setkilled (i : Z) : K P unit := updp i (set_killed 1).
Definition killed (i : Z) : K P Z := gets (fun s => p_killed (getp s i)).
End Proc.
