(* ===== verification/ProcProof.v ===== *)
(** * The process table

    The invariant of the table and of [c->proc], kept by every operation: a process
    runs on at most one CPU and is RUNNING exactly when it runs on one, process ids
    are unique, and a parent (like init) is never an unused entry or a zombie. *)

From stdpp Require Import base numbers list list_numbers gmap strings.
From Stdlib Require Import ZArith Lia.
From S2P Require Import Prelude Params KString Kalloc Vm Exec Proc.

Definition alive (p : proc) : Prop := state p <> UNUSED /\ state p <> ZOMBIE.

Section Table.
Context {G : Type} `{FR : FsRefs G}.
Abbreviation P := (psys G).
Implicit Types s : P.

(** Entry [j] of the table is alive. *)
Definition alive_at (l : list proc) (j : Z) : Prop := exists k p, j = Z.of_nat k /\ l !! k = Some p /\ alive p.

Record table_ok s : Prop := {
  t_len : length (procs s) = Z.to_nat NPROC;
  t_cpus : length (cpus s) = Z.to_nat NCPU;
  t_cpu h i : cpus s !! h = Some (Some i) -> exists k p, i = Z.of_nat k /\ procs s !! k = Some p /\ state p = RUNNING;
  t_once h h' i : cpus s !! h = Some (Some i) -> cpus s !! h' = Some (Some i) -> h = h';
  t_running k p : procs s !! k = Some p -> state p = RUNNING -> exists h, cpus s !! h = Some (Some (Z.of_nat k));
  t_unused k p : procs s !! k = Some p -> state p = UNUSED -> pid p = 0 /\ parent p = None;
  t_pid k p : procs s !! k = Some p -> state p <> UNUSED -> 0 < pid p < nextpid s;
  t_uniq k k' p p' : procs s !! k = Some p -> procs s !! k' = Some p' -> state p <> UNUSED -> state p' <> UNUSED ->
    pid p = pid p' -> k = k';
  t_parent k p j : procs s !! k = Some p -> parent p = Some j -> alive_at (procs s) j;
  t_init j : initproc s = Some j -> alive_at (procs s) j;
  t_next : 0 < nextpid s;
}.

(** How the CPUs may change together with entry [k], which goes from [p] to [q]. *)
Inductive cpu_change (l : list (option Z)) (k : nat) (p q : proc) : list (option Z) -> Prop :=
| cpu_same : (state q = RUNNING <-> state p = RUNNING) -> cpu_change l k p q l
| cpu_release h : l !! h = Some (Some (Z.of_nat k)) -> state q <> RUNNING -> cpu_change l k p q (<[h := None]> l)
| cpu_take h : l !! h = Some None -> state p <> RUNNING -> state q = RUNNING -> cpu_change l k p q (<[h := Some (Z.of_nat k)]> l).

Record entry_change s (k : nat) (p q : proc) (np : Z) : Prop := {
  e_at : procs s !! k = Some p;
  e_next : nextpid s <= np;
  e_unused : state q = UNUSED -> pid q = 0 /\ parent q = None;
  e_pid : state q <> UNUSED -> 0 < pid q < np /\ forall k' p', k' <> k -> procs s !! k' = Some p' -> state p' <> UNUSED -> pid p' <> pid q;
  e_parent j : parent q = Some j -> j <> Z.of_nat k -> alive_at (procs s) j;
  e_self : parent q = Some (Z.of_nat k) -> alive q;
  e_alive : alive p -> ~ alive q ->
    initproc s <> Some (Z.of_nat k) /\ forall k' p', procs s !! k' = Some p' -> parent p' <> Some (Z.of_nat k);
}.

Lemma alive_at_insert l k p q j :
  l !! k = Some p -> alive_at l j -> (j = Z.of_nat k -> alive q) -> alive_at (<[k := q]> l) j.
Proof using Type.
  intros Hk (k' & p' & -> & Hk' & Ha) Hq. exists k', (if decide (k' = k) then q else p').
  split; [done|]. destruct (decide (k' = k)) as [->|Hne].
  - rewrite list_lookup_insert_eq by (by eapply lookup_lt_Some). split; [done|by apply Hq].
  - by rewrite list_lookup_insert_ne.
Qed.

Lemma lookup_upd (l : list proc) k q k' p' :
  <[k := q]> l !! k' = Some p' -> (k' = k /\ p' = q) \/ (k' <> k /\ l !! k' = Some p').
Proof using Type. intros [[-> [-> _]]|[? ?]]%list_lookup_insert_Some; [by left|by right]. Qed.

Lemma table_ok_change s s' k p q :
  table_ok s -> entry_change s k p q (nextpid s') -> procs s' = <[k := q]> (procs s) -> cpu_change (cpus s) k p q (cpus s') ->
  initproc s' = initproc s -> table_ok s'.
Proof using Type.
  intros Hok [Hat Hnp Hun Hpid Hpar Hself Hal] Hps Hcpu Hin.
  assert (Hpt : forall j, alive_at (procs s) j -> (initproc s = Some j \/ exists k' p', procs s !! k' = Some p' /\ parent p' = Some j) ->
    alive_at (procs s') j).
  { intros j Hj Hor. rewrite Hps. apply (alive_at_insert _ k p); [done|done|]. intros ->.
    destruct Hj as (k1 & p1 & Ek & H1 & Ha). apply Nat2Z.inj in Ek as <-. simplify_eq.
    destruct (decide (alive q)) as [|Hnq]; [done|]. destruct (Hal Ha Hnq) as [Hi Hc]. destruct Hor as [?|(k' & p' & H' & Hp')]; [done|].
    by destruct (Hc _ _ H'). }
  split.
  - rewrite Hps, length_insert. apply Hok.
  - destruct Hcpu; rewrite ?length_insert; apply Hok.
  - intros h i Hh. rewrite Hps. inversion Hcpu as [Hs Heq|h0 Hh0 Hq Heq|h0 Hh0 Hp0 Hq Heq]; rewrite <- Heq in Hh.
    + destruct (t_cpu _ Hok _ _ Hh) as (k1 & p1 & -> & H1 & Hr). exists k1. destruct (decide (k1 = k)) as [->|].
      * simplify_eq. exists q. rewrite list_lookup_insert_eq by (by eapply lookup_lt_Some). split_and!; try done. by apply Hs.
      * exists p1. by rewrite list_lookup_insert_ne.
    + apply list_lookup_insert_Some in Hh as [[_ [? _]]|[Hne Hh]]; [done|]. destruct (t_cpu _ Hok _ _ Hh) as (k1 & p1 & -> & H1 & Hr).
      exists k1, p1. rewrite list_lookup_insert_ne; [done|]. intros <-. apply Hne. by eapply t_once.
    + apply list_lookup_insert_Some in Hh as [[<- [Hi _]]|[Hne Hh]].
      * simplify_eq. exists k, q. rewrite list_lookup_insert_eq by (by eapply lookup_lt_Some). done.
      * destruct (t_cpu _ Hok _ _ Hh) as (k1 & p1 & -> & H1 & Hr). exists k1, p1. rewrite list_lookup_insert_ne; [done|]. intros <-. by simplify_eq.
  - intros h h' i Hh Hh'. inversion Hcpu as [Hs Heq|h0 Hh0 Hq Heq|h0 Hh0 Hp0 Hq Heq]; rewrite <- Heq in Hh, Hh'.
    + by eapply t_once.
    + apply list_lookup_insert_Some in Hh as [[_ [? _]]|[_ Hh]]; [done|]. apply list_lookup_insert_Some in Hh' as [[_ [? _]]|[_ Hh']]; [done|]. by eapply t_once.
    + assert (Hnk : forall x, cpus s !! x <> Some (Some (Z.of_nat k))).
      { intros x Hx. destruct (t_cpu _ Hok _ _ Hx) as (k1 & p1 & Ek & H1 & Hr). apply Nat2Z.inj in Ek as <-. by simplify_eq. }
      apply list_lookup_insert_Some in Hh as [[<- [Hi _]]|[_ Hh]], Hh' as [[<- [Hi' _]]|[_ Hh']]; simplify_eq; try done;
        [by destruct (Hnk h')|by destruct (Hnk h)|by eapply t_once].
  - intros k' p' Hk' Hr. rewrite Hps in Hk'. apply lookup_upd in Hk' as [[-> ->]|[Hne Hk']].
    + inversion Hcpu as [Hs Heq|h0 Hh0 Hq Heq|h0 Hh0 Hp0 Hq Heq]; [|done|].
      * apply Hs in Hr. by apply (t_running _ Hok k p).
      * exists h0. apply list_lookup_insert_eq. by eapply lookup_lt_Some.
    + destruct (t_running _ Hok _ _ Hk' Hr) as [h Hh]. exists h. inversion Hcpu as [Hs Heq|h0 Hh0 Hq Heq|h0 Hh0 Hp0 Hq Heq]; [done| |].
      * rewrite list_lookup_insert_ne; [done|]. intros ->. simplify_eq. 
      * rewrite list_lookup_insert_ne; [done|]. intros ->. simplify_eq.
  - intros k' p' Hk' Hu. rewrite Hps in Hk'. apply lookup_upd in Hk' as [[-> ->]|[Hne Hk']]; [by apply Hun|by apply (t_unused _ Hok k')].
  - intros k' p' Hk' Hu. rewrite Hps in Hk'. apply lookup_upd in Hk' as [[-> ->]|[Hne Hk']]; [by apply Hpid|].
    pose proof (t_pid _ Hok _ _ Hk' Hu). lia.
  - intros k1 k2 p1 p2 H1 H2 U1 U2 E. rewrite Hps in H1, H2.
    apply lookup_upd in H1 as [[-> ->]|[N1 H1]], H2 as [[-> ->]|[N2 H2]]; try done.
    + by destruct (proj2 (Hpid U1) _ _ N2 H2 U2).
    + by destruct (proj2 (Hpid U2) _ _ N1 H1 U1).
    + by eapply (t_uniq _ Hok k1 k2).
  - intros k' p' j Hk' Hj. rewrite Hps in Hk'. apply lookup_upd in Hk' as [[-> ->]|[Hne Hk']].
    + destruct (decide (j = Z.of_nat k)) as [->|Hjk].
      * rewrite Hps. exists k, q. rewrite list_lookup_insert_eq by (by eapply lookup_lt_Some). by split_and!; [| |apply Hself].
      * rewrite Hps. apply (alive_at_insert _ k p); [done|by apply Hpar|done].
    + apply Hpt; [by apply (t_parent _ Hok k' p')|]. right. by exists k', p'.
  - intros j. rewrite Hin. intros Hj. apply Hpt; [by apply (t_init _ Hok)|by left].
  - pose proof (t_next _ Hok). lia.
Qed.

(** ** What the operations do to the table *)

Lemma on_g_inv {A} (m : K G A) s a s' : on_g m s = Ok (a, s') -> exists g, s' = set_fsg g s.
Proof using Type. intros (g & _ & ->)%zoom_inv. by exists g. Qed.
Lemma on_pmem_inv {A} (m : K mem A) s a s' : on_pmem m s = Ok (a, s') -> exists g, s' = set_fsg g s.
Proof using Type. apply on_g_inv. Qed.

Lemma alter_insert {A} (f : A -> A) (l : list A) k p : l !! k = Some p -> alter f k l = <[k := f p]> l.
Proof using Type.
  intros Hk. apply list_eq. intros i. rewrite list_lookup_alter. case_decide as E.
  - subst. rewrite Hk, list_lookup_insert_eq by (by eapply lookup_lt_Some). done.
  - by rewrite list_lookup_insert_ne.
Qed.
Lemma getp_at s k p : procs s !! k = Some p -> getp s (Z.of_nat k) = p.
Proof using Type. intros H. unfold getp. rewrite Nat2Z.id. by apply list_lookup_total_correct. Qed.
Lemma updp_at k f s p : procs s !! k = Some p -> updp (Z.of_nat k) f s = Ok (tt, set_procs (insert k (f p)) s).
Proof using Type. intros H. unfold updp, modify, set_procs. rewrite Nat2Z.id. by rewrite (alter_insert f _ k p). Qed.
Lemma at_insert (l : list proc) k p q : l !! k = Some p -> <[k := q]> l !! k = Some q.
Proof using Type. intros. apply list_lookup_insert_eq. by eapply lookup_lt_Some. Qed.

(** The state with table [l] and file system [g]. *)
Definition with_procs (l : list proc) (g : G) s : P := mk_psys l (cpus s) (nextpid s) (initproc s) (first s) g.

Definition freed (p : proc) : proc :=
  set_state UNUSED (set_xstate 0 (set_killed 0 (set_chan None (set_name (zupd (name p) 0 0)
    (set_parent None (set_pid 0 (set_sz 0 (set_pagetable 0 (set_trapframe 0 p))))))))).

Lemma freeproc_inv k p s u s' :
  procs s !! k = Some p -> freeproc (Z.of_nat k) s = Ok (u, s') -> exists g, s' = with_procs (<[k := freed p]> (procs s)) g s.
Proof using Type.
  intros Hk H. unfold freeproc in H. rewrite bind_get in H. rewrite (getp_at _ _ _ Hk) in H.
  kinv H. assert (Hs1 : exists g, x0 = set_fsg g s).
  { destruct (trapframe p =? 0); [|by eapply on_pmem_inv]. injection H0 as _ <-. exists (fsg s). by destruct s. }
  destruct Hs1 as [g1 ->]. kinv H. rewrite (updp_at _ _ _ p) in H1 by done. injection H1 as _ <-.
  kinv H. match type of H1 with _ = Ok (_, ?x) => assert (Hs2 : exists g, x = set_fsg g (set_procs (insert k (set_trapframe 0 p)) (set_fsg g1 s))) end.
  { destruct (pagetable p =? 0); [|by eapply on_pmem_inv]. injection H1 as _ <-. exists g1. done. }
  destruct Hs2 as [g2 ->]. rewrite (updp_at _ _ _ (set_trapframe 0 p)) in H by (by eapply at_insert). injection H as _ <-.
  exists g2. unfold with_procs, set_procs, set_fsg. simpl. by rewrite list_insert_insert_eq.
Qed.

Lemma find_state_spec st l i : match find_state st l i with
  | Some j => exists k p, j = i + Z.of_nat k /\ l !! k = Some p /\ state p = st
  | None => Forall (fun p => state p <> st) l
  end.
Proof using Type.
  revert i. induction l as [|p l IH]; intros i; cbn [find_state]; [constructor|]. case_decide as E.
  - exists O, p. split_and!; [lia|done|done].
  - specialize (IH (i + 1)). destruct (find_state st l (i + 1)); [|by constructor].
    destruct IH as (k & p' & -> & Hk & Hst). exists (S k), p'. split_and!; [lia|done|done].
Qed.

(** A slot taken by [allocproc]: what it keeps of the entry is the state of an unused one. *)
Record taken (p q : proc) (n : Z) : Prop := {
  tk_state : state q = USED; tk_pid : pid q = n; tk_parent : parent q = parent p; tk_killed : p_killed q = p_killed p;
  tk_ofile : p_ofile q = p_ofile p; tk_pt : pagetable q <> 0; tk_tf : trapframe q <> 0;
}.

Lemma allocproc_inv tr fr s r s' :
  allocproc tr fr s = Ok (r, s') ->
  (r = None /\ s' = s) \/
  exists k p q g, procs s !! k = Some p /\ state p = UNUSED /\ find_state UNUSED (procs s) 0 = Some (Z.of_nat k) /\
    s' = mk_psys (<[k := q]> (procs s)) (cpus s) (int (nextpid s + 1)) (initproc s) (first s) g /\
    ((r = None /\ exists p', q = freed p') \/ (r = Some (Z.of_nat k) /\ taken p q (nextpid s))).
Proof using Type.
  intros H. unfold allocproc in H. rewrite bind_get in H. pose proof (find_state_spec UNUSED (procs s) 0) as Hf.
  destruct (find_state UNUSED (procs s) 0) as [i|] eqn:Ef; [|left; by injection H].
  destruct Hf as (k & p & -> & Hk & Hst). rewrite Z.add_0_l in *. right.
  kinv H. injection H0 as <- <-. set (s1 := mk_psys _ _ _ _ _ _) in H. assert (Hk1 : procs s1 !! k = Some p) by done.
  kinv H. rewrite (updp_at _ _ _ p Hk1) in H0. injection H0 as _ <-. set (p1 := set_state USED _) in H.
  kinv H. apply on_pmem_inv in H0 as [g1 ->]. match type of H with context [updp _ (fun p => set_trapframe ?t _)] => set (tt0 := t) in * end.
  kinv H. rewrite (updp_at _ _ _ p1) in H0 by (by eapply at_insert). injection H0 as _ <-.
  destruct (tt0 =? 0) eqn:Et; zbool.
  - kinv H. injection H as <- <-. apply (freeproc_inv k (set_trapframe tt0 (set_tf tf_fill p1))) in H0; [|by eapply at_insert; eapply at_insert]. destruct H0 as [g ->].
    exists k, p, (freed (set_trapframe tt0 (set_tf tf_fill p1))), g. split_and!; try done; [|left; by eauto].
    unfold with_procs. simpl. by rewrite !list_insert_insert_eq.
  - kinv H. apply on_pmem_inv in H0 as [g2 ->]. match type of H with context [updp _ (set_pagetable ?t)] => set (pt := t) in * end.
    kinv H. rewrite (updp_at _ _ _ (set_trapframe tt0 (set_tf tf_fill p1))) in H0 by (by eapply at_insert; eapply at_insert). injection H0 as _ <-.
    destruct (pt =? 0) eqn:Ep; zbool.
    + kinv H. injection H as <- <-. apply (freeproc_inv k (set_pagetable pt (set_trapframe tt0 (set_tf tf_fill p1)))) in H0; [|do 2 eapply at_insert; by eapply at_insert].
      destruct H0 as [g ->]. exists k, p, (freed (set_pagetable pt (set_trapframe tt0 (set_tf tf_fill p1)))), g. split_and!; try done; [|left; by eauto].
      unfold with_procs. simpl. by rewrite !list_insert_insert_eq.
    + kinv H. rewrite (updp_at _ _ _ (set_pagetable pt (set_trapframe tt0 (set_tf tf_fill p1)))) in H0 by (do 2 eapply at_insert; by eapply at_insert).
      injection H0 as _ <-. injection H as <- <-. eexists k, p, _, g2. split; [done|]. split; [done|]. split; [done|].
      split; [unfold set_procs, set_fsg; simpl; rewrite !list_insert_insert_eq; done|]. right. split; [done|]. by split.
Qed.

(** ** Preservation *)

Lemma table_ok_fsg g s : table_ok s -> table_ok (set_fsg g s).
Proof using Type. by intros []; split. Qed.

(** An entry that keeps its state, pid and parent. *)
Lemma table_ok_keep s k p q g :
  table_ok s -> procs s !! k = Some p -> state q = state p -> pid q = pid p -> parent q = parent p ->
  table_ok (with_procs (<[k := q]> (procs s)) g s).
Proof using Type.
  intros Hok Hk Hs Hp Hpar. apply (table_ok_change s _ k p q); try done; [|apply cpu_same; by rewrite Hs].
  unfold with_procs. simpl. pose proof (t_pid _ Hok _ _ Hk) as Hpid. split; try done; rewrite ?Hs, ?Hp, ?Hpar.
  - by apply (t_unused _ Hok k).
  - intros Hu. split; [by apply Hpid|]. intros k' p' Hne Hk' Hu' E. apply Hne. by apply (t_uniq _ Hok k' k p' p).
  - intros j Hj _. by apply (t_parent _ Hok k p).
  - intros Hself. destruct (t_parent _ Hok _ _ _ Hk Hself) as (k' & p' & Ek & Hk' & Ha). apply Nat2Z.inj in Ek as <-. simplify_eq.
    unfold alive in *. by rewrite Hs.
  - unfold alive. rewrite Hs. intros. done.
Qed.

(** An entry, not running, that changes between the states of a live process. *)
Lemma table_ok_state s k p st g :
  table_ok s -> procs s !! k = Some p -> alive p -> state p <> RUNNING -> st <> UNUSED -> st <> ZOMBIE -> st <> RUNNING ->
  table_ok (with_procs (<[k := set_state st p]> (procs s)) g s).
Proof using Type.
  intros Hok Hk [Ha1 Ha2] Hnr H1 H2 H3. apply (table_ok_change s _ k p (set_state st p)); try done; [|by apply cpu_same].
  pose proof (t_pid _ Hok _ _ Hk) as Hpid. split; simpl; try done.
  - intros _. split; [by apply Hpid|]. intros k' p' Hne Hk' Hu' E. apply Hne. by apply (t_uniq _ Hok k' k p' p).
  - intros j Hj _. by apply (t_parent _ Hok k p).
  - intros _ Hn. destruct Hn. by split.
Qed.

(** The entry of a process that nobody waits for becomes unused. *)
Lemma table_ok_free s k p q g :
  table_ok s -> procs s !! k = Some p -> state p <> RUNNING -> state q = UNUSED -> pid q = 0 -> parent q = None ->
  initproc s <> Some (Z.of_nat k) -> (forall k' p', procs s !! k' = Some p' -> parent p' <> Some (Z.of_nat k)) ->
  table_ok (with_procs (<[k := q]> (procs s)) g s).
Proof using Type.
  intros Hok Hk Hnr Hq Hpid Hpar Hi Hc. apply (table_ok_change s _ k p q); try done; [|apply cpu_same; by rewrite Hq].
  split; try done; rewrite ?Hpar; try done.
Qed.

(** Nobody is the child of an entry that is not alive, and init is not such an entry. *)
Lemma not_alive_alone s k p :
  table_ok s -> procs s !! k = Some p -> ~ alive p ->
  initproc s <> Some (Z.of_nat k) /\ forall k' p', procs s !! k' = Some p' -> parent p' <> Some (Z.of_nat k).
Proof using Type.
  intros Hok Hk Hna. split; [intros Hi; destruct (t_init _ Hok _ Hi) as (k1 & p1 & E & H1 & Ha)|].
  - apply Nat2Z.inj in E as <-. by simplify_eq.
  - intros k' p' Hk' Hp'. destruct (t_parent _ Hok _ _ _ Hk' Hp') as (k1 & p1 & E & H1 & Ha). apply Nat2Z.inj in E as <-. by simplify_eq.
Qed.

Lemma allocproc_ok tr fr s r s' :
  table_ok s -> nextpid s < 2 ^ 31 - 1 -> allocproc tr fr s = Ok (r, s') ->
  table_ok s' /\ initproc s' = initproc s /\ cpus s' = cpus s /\
  forall i, r = Some i -> exists k p q, i = Z.of_nat k /\ procs s !! k = Some p /\ state p = UNUSED /\ find_state UNUSED (procs s) 0 = Some (Z.of_nat k) /\ taken p q (nextpid s) /\
    procs s' = <[k := q]> (procs s) /\
    (forall k' p', procs s' !! k' = Some p' -> parent p' <> Some (Z.of_nat k)) /\ initproc s <> Some (Z.of_nat k).
Proof using Type.
  intros Hok Hn H. apply allocproc_inv in H as [[-> ->]|(k & p & q & g & Hk & Hst & Hfirst & -> & Hr)]; [by split_and!|].
  assert (Hna : ~ alive p) by (intros [? _]; done). destruct (not_alive_alone _ _ _ Hok Hk Hna) as [Hi Hc].
  destruct (t_unused _ Hok _ _ Hk Hst) as [Hp0 Hpar0]. pose proof (t_next _ Hok) as Hn0. rewrite int_small by lia.
  assert (Hq : table_ok (mk_psys (<[k := q]> (procs s)) (cpus s) (nextpid s + 1) (initproc s) (first s) g) /\ parent q = None).
  { destruct Hr as [[-> [p' ->]]|[-> Ht]].
    - split; [|done]. apply (table_ok_change s _ k p (freed p')); try done; [|apply cpu_same; by rewrite Hst]. split; simpl; try done; lia.
    - destruct Ht as [Hs Hpd Hpr _ _ _ _]. rewrite Hpr. split; [|done]. apply (table_ok_change s _ k p q); try done; [|apply cpu_same; by rewrite Hst, Hs].
      split; simpl; rewrite ?Hs, ?Hpr, ?Hpar0; try done; [lia|]. intros _. rewrite Hpd. split; [lia|].
      intros k' p' _ Hk' Hu E. pose proof (t_pid _ Hok _ _ Hk' Hu). lia. }
  destruct Hq as [Hq Hqp]. split; [done|]. split; [done|]. split; [done|]. intros i Hi'. destruct Hr as [[-> _]|[-> Ht]]; [done|]. injection Hi' as <-.
  exists k, p, q. split_and!; try done. simpl. intros k' p' [[-> ->]|[_ Hk']]%lookup_upd; [by rewrite Hqp|by apply Hc with k'].
Qed.

(** The process on CPU [h]. *)
Lemma myproc_inv h s i s' :
  0 <= h -> table_ok s -> myproc h s = Ok (i, s') ->
  s' = s /\ exists k p, i = Z.of_nat k /\ procs s !! k = Some p /\ state p = RUNNING /\ cpus s !! Z.to_nat h = Some (Some i).
Proof using Type.
  intros Hh Hok H. unfold myproc in H. rewrite bind_get in H. destruct (cpus s !!! Z.to_nat h) as [j|] eqn:E; [|done].
  injection H as <- <-. split; [done|]. assert (Hl : cpus s !! Z.to_nat h = Some (Some j)).
  { rewrite list_lookup_total_alt in E. destruct (cpus s !! Z.to_nat h) as [o|]; simpl in E; [by subst|done]. }
  destruct (t_cpu _ Hok _ _ Hl) as (k & p & -> & Hk & Hr). by exists k, p.
Qed.

Lemma dup_files_inv l s u s' : dup_files l s = Ok (u, s') -> exists g, s' = set_fsg g s.
Proof using Type.
  revert s. induction l as [|[f|] l IH]; intros s H; cbn [dup_files] in H; [|kinv H; apply on_g_inv in H0 as [g ->]|by apply IH].
  - injection H as _ <-. exists (fsg s). by destruct s.
  - apply IH in H as [g' ->]. by exists g'.
Qed.

Lemma set_fsg_id s g : exists g', set_fsg g s = with_procs (procs s) g' s.
Proof using Type. by exists g. Qed.

(** The child [q] that [fork] makes of the unused entry [p0] for its caller [p]. *)
Record forked (i : nat) (p p0 q : proc) (n : Z) : Prop := {
  fd_state : state q = RUNNABLE; fd_pid : pid q = n; fd_parent : parent q = Some (Z.of_nat i);
  fd_tf : tf q = zupd (tf p) 14 0; fd_sz : sz q = sz p; fd_cwd : p_cwd q = p_cwd p;
  fd_ofile : p_ofile q = inherit (p_ofile p) (p_ofile p0); fd_killed : p_killed q = p_killed p0;
}.

Lemma fork_ok tr fr h s r s' :
  0 <= h -> table_ok s -> nextpid s < 2 ^ 31 - 1 -> fork tr fr h s = Ok (r, s') ->
  table_ok s' /\ cpus s' = cpus s /\
  (r = -1 \/ exists i p k p0 q, cpus s !! Z.to_nat h = Some (Some (Z.of_nat i)) /\ procs s !! i = Some p /\ procs s !! k = Some p0 /\
     find_state UNUSED (procs s) 0 = Some (Z.of_nat k) /\ state p0 = UNUSED /\ procs s' = <[k := q]> (procs s) /\ forked i p p0 q r).
Proof using Type.
  intros Hh Hok Hn H. unfold fork in H. kinv H. apply myproc_inv in H0 as [-> (i & p & -> & Hi & Hri & Hcpu)]; try done.
  kinv H. pose proof H0 as Hal. apply allocproc_ok in H0 as (Hok1 & Hin1 & Hcp1 & Ha); try done.
  match type of Hal with _ = Ok (?r, ?x) => destruct r as [np|]; [|injection H as <- <-; split; [done|split; [done|by left]]]; set (s1 := x) in * end.
  destruct (Ha np eq_refl) as (k & p0 & q & -> & Hk & Hu & Hfirst & Ht & Hps & Hc & Hik). clear Ha.
  assert (Hk1 : procs s1 !! k = Some q) by (rewrite Hps; by eapply at_insert).
  assert (Hki : k <> i) by (intros ->; simplify_eq; congruence).
  assert (Hi1 : procs s1 !! i = Some p) by (rewrite Hps; by rewrite list_lookup_insert_ne).
  rewrite bind_get in H. kinv H. apply on_pmem_inv in H0 as [g2 ->]. destruct (_ <? 0).
  { kinv H. injection H as <- <-. apply (freeproc_inv k q) in H0 as [g ->]; [|done]. split; [|split; [done|by left]].
    apply (table_ok_free (set_fsg g2 s1) k q); try done; [by apply table_ok_fsg|rewrite (tk_state _ _ _ Ht); done|by rewrite <- Hin1 in Hik]. }
  rewrite (getp_at s1 i p Hi1), (getp_at s1 k q Hk1) in H.
  kinv H. rewrite (updp_at _ _ _ q) in H0 by done. injection H0 as _ <-. set (q1 := set_tf _ _) in H.
  kinv H. apply dup_files_inv in H0 as [g3 ->].
  kinv H. rewrite (updp_at _ _ _ q1) in H0 by (by eapply at_insert). injection H0 as _ <-. set (q2 := set_p_ofile _ q1) in H.
  kinv H. destruct (p_cwd p) as [d|] eqn:Ed; [|done]. apply on_g_inv in H0 as [g4 ->].
  kinv H. rewrite (updp_at _ _ _ q2) in H0 by (do 2 eapply at_insert; done). injection H0 as _ <-. set (q3 := set_name _ _) in H.
  kinv H. rewrite (updp_at _ _ _ q3) in H0 by (do 3 eapply at_insert; done). injection H0 as _ <-.
  kinv H. rewrite (updp_at _ _ _ (set_parent (Some (Z.of_nat i)) q3)) in H0 by (do 4 eapply at_insert; done). injection H0 as _ <-.
  injection H as <- <-. unfold set_procs, set_fsg. simpl. rewrite !list_insert_insert_eq.
  split; [|split; [done|right; exists i, p, k, p0; eexists; split_and!; try done; [by rewrite Hps, list_insert_insert_eq|]]].
  2:{ destruct Ht as [? ? ? ? Hof ? ?]. split; simpl; try done. by rewrite Hof. }
  apply (table_ok_change s1 _ k q (set_state RUNNABLE (set_parent (Some (Z.of_nat i)) q3))); try done.
  - split; simpl; try done.
    + intros _. split; [apply (t_pid _ Hok1 k q Hk1); by rewrite (tk_state _ _ _ Ht)|].
      intros k' p' Hne Hk' Hu' E. apply Hne. apply (t_uniq _ Hok1 k' k p' q); try done. by rewrite (tk_state _ _ _ Ht).
    + intros j [= <-] _. exists i, p. split_and!; try done; unfold alive; rewrite Hri; done.
    + intros _ Hna. destruct Hna. by split.
  - apply cpu_same. simpl. by rewrite (tk_state _ _ _ Ht).
Qed.

(** [wakeup] and [kill] only make sleepers runnable. *)
Inductive woken (p : proc) : proc -> Prop :=
| woken_same q : state q = state p -> pid q = pid p -> parent q = parent p -> woken p q
| woken_run q : state p = SLEEPING -> state q = RUNNABLE -> pid q = pid p -> parent q = parent p -> woken p q.

Lemma woken_alive p q : woken p q -> (alive q <-> alive p) /\ (state q = RUNNING <-> state p = RUNNING) /\ (state q = UNUSED <-> state p = UNUSED) /\
  pid q = pid p /\ parent q = parent p.
Proof using Type.
  unfold alive. intros [r H1 H2 H3|r H1 H2 H3 H4].
  - by rewrite H1, H2, H3.
  - rewrite H1, H2, H3, H4. done.
Qed.

Lemma table_ok_woken s s' :
  table_ok s -> Forall2 woken (procs s) (procs s') -> cpus s' = cpus s -> nextpid s' = nextpid s -> initproc s' = initproc s -> table_ok s'.
Proof using Type.
  intros Hok HF Hcp Hnp Hin.
  assert (Hback : forall k q, procs s' !! k = Some q -> exists p, procs s !! k = Some p /\ woken p q).
  { intros k q Hq. destruct (Forall2_lookup_r _ _ _ _ _ HF Hq) as (p & ? & ?). by exists p. }
  assert (Hal : forall j, alive_at (procs s) j -> alive_at (procs s') j).
  { intros j (k & p & -> & Hk & Ha). destruct (Forall2_lookup_l _ _ _ _ _ HF Hk) as (q & Hq & Hw). exists k, q. split_and!; try done. by apply (woken_alive p q). }
  split; rewrite ?Hcp, ?Hnp, ?Hin.
  - rewrite <- (Forall2_length _ _ _ HF). apply Hok.
  - apply Hok.
  - intros h i Hh. destruct (t_cpu _ Hok _ _ Hh) as (k & p & -> & Hk & Hr). destruct (Forall2_lookup_l _ _ _ _ _ HF Hk) as (q & Hq & Hw).
    exists k, q. split_and!; try done. by apply (woken_alive p q).
  - apply Hok.
  - intros k q (p & Hp & Hw)%Hback Hr. apply (woken_alive p q) in Hr; [|done]. by apply (t_running _ Hok k p).
  - intros k q (p & Hp & Hw)%Hback Hu. destruct (woken_alive p q Hw) as (_ & _ & E & -> & ->). apply (t_unused _ Hok k p Hp). by apply E.
  - intros k q (p & Hp & Hw)%Hback Hu. destruct (woken_alive p q Hw) as (_ & _ & E & -> & _). apply (t_pid _ Hok k p Hp). by rewrite <- E.
  - intros k k' q q' (p & Hp & Hw)%Hback (p' & Hp' & Hw')%Hback. destruct (woken_alive p q Hw) as (_ & _ & E & -> & _), (woken_alive p' q' Hw') as (_ & _ & E' & -> & _).
    intros U U'. apply (t_uniq _ Hok k k' p p'); try done; by rewrite <- ?E, <- ?E'.
  - intros k q j (p & Hp & Hw)%Hback. destruct (woken_alive p q Hw) as (_ & _ & _ & _ & ->). intros Hj. by apply Hal, (t_parent _ Hok k p).
  - intros j Hj. by apply Hal, (t_init _ Hok).
  - apply Hok.
Qed.

Lemma wakeup_inv h c s u s' :
  wakeup h c s = Ok (u, s') -> Forall2 woken (procs s) (procs s') /\ s' = with_procs (procs s') (fsg s) s.
Proof using Type.
  unfold wakeup. rewrite bind_get. intros [= _ <-]. split; [|done]. simpl. apply Forall2_same_length_lookup_2; [by rewrite length_imap|].
  intros k p q Hp Hq. rewrite list_lookup_imap, Hp in Hq. simpl in Hq. injection Hq as <-. case_decide; [by constructor|].
  unfold wake. case_decide as E; [destruct E; by apply woken_run|by constructor].
Qed.

Lemma wakeup_ok h c s u s' : table_ok s -> wakeup h c s = Ok (u, s') -> table_ok s'.
Proof using Type. intros Hok H. destruct (wakeup_inv _ _ _ _ _ H) as [HF ->]. by apply (table_ok_woken s). Qed.

Lemma kill_inv n s r s' :
  kill n s = Ok (r, s') -> Forall2 woken (procs s) (procs s') /\ s' = with_procs (procs s') (fsg s) s.
Proof using Type.
  assert (Hrefl : forall l, Forall2 woken l l) by (intros l; apply Forall_Forall2_diag, Forall_forall; intros; by constructor).
  assert (Hins : forall (l : list proc) k p q, l !! k = Some p -> woken p q -> Forall2 woken l (<[k := q]> l)).
  { intros l k p q Hk Hw. rewrite <- (list_insert_id l k p Hk) at 1. apply Forall2_insert; [apply Hrefl|done]. }
  intros H. unfold kill in H. rewrite bind_get in H. destruct (find_pid n (procs s) 0) as [i|] eqn:Ef.
  2:{ injection H as _ <-. split; [apply Hrefl|]. by destruct s. }
  assert (Hfp : forall l j i, find_pid n l j = Some i -> exists k p, i = j + Z.of_nat k /\ l !! k = Some p).
  { induction l as [|p l IH]; intros j i'; cbn [find_pid]; [done|]. destruct (pid p =? n).
    - intros [= <-]. exists O, p. split; [lia|done].
    - intros (k & p' & -> & Hk)%IH. exists (S k), p'. split; [lia|done]. }
  apply Hfp in Ef as (k & p & -> & Hk). rewrite Z.add_0_l in H. kinv H. rewrite (updp_at _ _ _ p Hk) in H0. injection H0 as _ <-.
  rewrite bind_get in H. rewrite (getp_at _ k (set_killed 1 p)) in H by (by eapply at_insert). kinv H. injection H as _ <-. case_decide as E.
  - rewrite (updp_at _ _ _ (set_killed 1 p)) in H0 by (by eapply at_insert). injection H0 as _ <-. unfold with_procs, set_procs. simpl.
    rewrite list_insert_insert_eq. split; [|done]. eapply Hins; [done|]. by apply woken_run.
  - injection H0 as _ <-. split; [|done]. simpl. eapply Hins; [done|]. by constructor.
Qed.

Lemma kill_ok n s r s' : table_ok s -> kill n s = Ok (r, s') -> table_ok s'.
Proof using Type. intros Hok H. destruct (kill_inv _ _ _ _ H) as [HF ->]. by apply (table_ok_woken s). Qed.

(** The caller leaves its CPU for the scheduler in a live state. *)
Lemma leave_cpu s k p h st g :
  table_ok s -> procs s !! k = Some p -> state p = RUNNING -> cpus s !! Z.to_nat h = Some (Some (Z.of_nat k)) ->
  state st <> RUNNING -> state st <> UNUSED -> state st <> ZOMBIE -> pid st = pid p -> parent st = parent p ->
  table_ok (mk_psys (<[k := st]> (procs s)) (zupd (cpus s) h None) (nextpid s) (initproc s) (first s) g).
Proof using Type.
  intros Hok Hk Hr Hh H1 H2 H3 Hp Hpar. apply (table_ok_change s _ k p st); try done; [|by apply cpu_release].
  pose proof (t_pid _ Hok _ _ Hk) as Hpid. split; simpl; rewrite ?Hp, ?Hpar; try done.
  - intros _. split; [apply Hpid; by rewrite Hr|]. intros k' p' Hne Hk' Hu' E. apply Hne. apply (t_uniq _ Hok k' k p' p); try done. by rewrite Hr.
  - intros j Hj _. by apply (t_parent _ Hok k p).
  - intros _ Hn. destruct Hn. by split.
Qed.

Lemma sched_inv h s u s' : sched h s = Ok (u, s') -> s' = set_cpus (fun l => zupd l h None) s.
Proof using Type.
  unfold sched, myproc. intros H. kinv H. rewrite bind_get in H0. destruct (cpus s !!! Z.to_nat h); [|done]. injection H0 as <- <-.
  rewrite bind_get in H. case_decide; [done|]. by injection H as _ <-.
Qed.

Lemma sleep_ok h c s u s' : 0 <= h -> table_ok s -> sleep h c s = Ok (u, s') -> table_ok s'.
Proof using Type.
  intros Hh Hok H. unfold sleep in H. kinv H. apply myproc_inv in H0 as [-> (k & p & -> & Hk & Hr & Hc)]; try done.
  kinv H. rewrite (updp_at _ _ _ p Hk) in H0. injection H0 as _ <-. kinv H.
  rewrite (updp_at _ _ _ (set_chan (Some c) p)) in H0 by (by eapply at_insert). injection H0 as _ <-. apply sched_inv in H as ->.
  unfold set_cpus, set_procs. simpl. rewrite list_insert_insert_eq. by apply (leave_cpu s k p).
Qed.

Lemma yield_ok h s u s' : 0 <= h -> table_ok s -> yield h s = Ok (u, s') -> table_ok s'.
Proof using Type.
  intros Hh Hok H. unfold yield in H. kinv H. apply myproc_inv in H0 as [-> (k & p & -> & Hk & Hr & Hc)]; try done.
  kinv H. rewrite (updp_at _ _ _ p Hk) in H0. injection H0 as _ <-. apply sched_inv in H as ->. by apply (leave_cpu s k p).
Qed.

Lemma wake_up_ok h s u s' : 0 <= h -> table_ok s -> wake_up h s = Ok (u, s') -> table_ok s'.
Proof using Type.
  intros Hh Hok H. unfold wake_up in H. kinv H. apply myproc_inv in H0 as [-> (k & p & -> & Hk & Hr & Hc)]; try done.
  rewrite (updp_at _ _ _ p Hk) in H. injection H as _ <-. by apply (table_ok_keep s k p).
Qed.

(** The entry that the scan picks: the first runnable one from [j] on. *)
Lemma scheduler_scan_spec n h j s :
  0 <= j -> j + Z.of_nat n <= zlen (procs s) ->
  match scheduler_scan n h j s with
  | Ok (Some i, s') => exists k p, i = Z.of_nat k /\ j <= i < j + Z.of_nat n /\ procs s !! k = Some p /\ state p = RUNNABLE /\
      (forall i', j <= i' < i -> state (getp s i') <> RUNNABLE) /\
      s' = mk_psys (<[k := set_state RUNNING p]> (procs s)) (zupd (cpus s) h (Some i)) (nextpid s) (initproc s) (first s) (fsg s)
  | Ok (None, s') => s' = s /\ forall i', j <= i' < j + Z.of_nat n -> state (getp s i') <> RUNNABLE
  | _ => False
  end.
Proof using Type.
  revert j. induction n as [|n IH]; intros j Hj Hl; cbn [scheduler_scan]; [split; [done|lia]|]. ksimpl.
  destruct (lookup_lt_is_Some_2 (procs s) (Z.to_nat j)) as [p Hp]; [unfold zlen in Hl; lia|].
  assert (Ej : j = Z.of_nat (Z.to_nat j)) by lia. assert (Hg : getp s j = p) by (rewrite Ej; by apply getp_at). case_decide as E.
  - rewrite Ej. rewrite (bind_ok _ _ _ _ _ (updp_at _ _ _ _ Hp)). ksimpl. unfold mret, K_ret. exists (Z.to_nat j), p.
    rewrite Hg in E. split_and!; try done; try lia.
  - specialize (IH (j + 1) ltac:(lia) ltac:(lia)). destruct (scheduler_scan n h (j + 1) s) as [[[i|] s']|?|?|?|]; try done.
    + destruct IH as (k & p' & -> & Hr & Hk & Hst & Hno & Hs). exists k, p'. split_and!; try done; try lia.
      intros i' Hi'. destruct (decide (i' = j)) as [->|]; [done|]. apply Hno. lia.
    + destruct IH as [-> Hno]. split; [done|]. intros i' Hi'. destruct (decide (i' = j)) as [->|]; [done|]. apply Hno. lia.
Qed.

Lemma take_cpu s k p h :
  table_ok s -> procs s !! k = Some p -> state p = RUNNABLE -> cpus s !! Z.to_nat h = Some None ->
  table_ok (mk_psys (<[k := set_state RUNNING p]> (procs s)) (zupd (cpus s) h (Some (Z.of_nat k))) (nextpid s) (initproc s) (first s) (fsg s)).
Proof using Type.
  intros Hok Hk Hr Hh. apply (table_ok_change s _ k p (set_state RUNNING p)); try done; [|apply cpu_take; [done|by rewrite Hr|done]].
  pose proof (t_pid _ Hok _ _ Hk) as Hpid. split; simpl; try done.
  - intros _. split; [apply Hpid; by rewrite Hr|]. intros k' p' Hne Hk' Hu' E. apply Hne. apply (t_uniq _ Hok k' k p' p); try done. by rewrite Hr.
  - intros j Hj _. by apply (t_parent _ Hok k p).
  - intros _ Hn. destruct Hn. by split.
Qed.

(** One pass of the scheduler: the runnable process that comes next in the order of
    the table, starting after [last] and wrapping around. *)
Definition turn (last i : Z) : Z := (i - last - 1) mod NPROC.

Lemma scheduler_pass_spec h last s :
  table_ok s -> -1 <= last < NPROC ->
  match scheduler_pass h last s with
  | Ok (Some i, s') => exists k p, i = Z.of_nat k /\ procs s !! k = Some p /\ state p = RUNNABLE /\
      (forall i', 0 <= i' < NPROC -> state (getp s i') = RUNNABLE -> turn last i <= turn last i') /\
      s' = mk_psys (<[k := set_state RUNNING p]> (procs s)) (zupd (cpus s) h (Some i)) (nextpid s) (initproc s) (first s) (fsg s)
  | Ok (None, s') => s' = s /\ forall i', 0 <= i' < NPROC -> state (getp s i') <> RUNNABLE
  | _ => False
  end.
Proof using Type.
  intros Hok Hlast. assert (Hlen : zlen (procs s) = NPROC) by (unfold zlen; rewrite (t_len _ Hok); done). unfold NPROC in *.
  assert (Ht1 : forall i, last < i < 64 -> turn last i = i - last - 1) by (intros i Hi; unfold turn, NPROC; apply Z.mod_small; lia).
  assert (Ht2 : forall i, 0 <= i <= last -> turn last i = i - last - 1 + 64).
  { intros i Hi. unfold turn, NPROC. rewrite <- (Z.mod_add _ 1) by lia. rewrite Z.mod_small; lia. }
  unfold scheduler_pass, NPROC.
  pose proof (scheduler_scan_spec (Z.to_nat (64 - (last + 1))) h (last + 1) s ltac:(lia) ltac:(lia)) as H1.
  destruct (scheduler_scan (Z.to_nat (64 - (last + 1))) h (last + 1) s) as [[[i|] s1]|?|?|?|] eqn:E1; try done; rewrite (bind_ok _ _ _ _ _ E1).
  - destruct H1 as (k & p & -> & Hr & Hk & Hst & Hno & ->). exists k, p. split_and!; try done.
    intros i' Hi' Hrun. rewrite (Ht1 (Z.of_nat k)) by lia. destruct (decide (i' <= last)); [rewrite Ht2 by lia; lia|].
    rewrite Ht1 by lia. destruct (decide (i' < Z.of_nat k)) as [Hlt|]; [|lia]. by destruct (Hno i' ltac:(lia)).
  - destruct H1 as [-> Hno1]. pose proof (scheduler_scan_spec (Z.to_nat 64) h 0 s ltac:(lia) ltac:(lia)) as H2.
    destruct (scheduler_scan (Z.to_nat 64) h 0 s) as [[[i|] s2]|?|?|?|]; try done.
    + destruct H2 as (k & p & -> & Hr & Hk & Hst & Hno & ->). exists k, p. split_and!; try done.
      assert (Z.of_nat k <= last) by (destruct (decide (Z.of_nat k <= last)); [done|]; destruct (Hno1 (Z.of_nat k) ltac:(lia)); by rewrite (getp_at s k p)).
      intros i' Hi' Hrun. rewrite (Ht2 (Z.of_nat k)) by lia. destruct (decide (i' <= last)).
      * rewrite Ht2 by lia. destruct (decide (i' < Z.of_nat k)); [|lia]. by destruct (Hno i' ltac:(lia)).
      * by destruct (Hno1 i' ltac:(lia)).
Qed.

(** ** Exit and wait *)

(** The caller is still on its CPU, running. *)
Definition on_cpu s (h : Z) (k : nat) (n : Z) (par : option Z) : Prop :=
  cpus s !! Z.to_nat h = Some (Some (Z.of_nat k)) /\ exists p, procs s !! k = Some p /\ state p = RUNNING /\ pid p = n /\ parent p = par.

Lemma close_files_ok k l fd s u s' h n par :
  table_ok s -> on_cpu s h k n par -> close_files (Z.of_nat k) l fd s = Ok (u, s') ->
  table_ok s' /\ on_cpu s' h k n par /\ initproc s' = initproc s.
Proof using Type.
  revert fd s. induction l as [|[f|] l IH]; intros fd s Hok Hc H; cbn [close_files] in H; [by injection H as _ <-| |by eapply IH].
  kinv H. apply on_g_inv in H0 as [g ->]. kinv H. destruct Hc as (Hcpu & p & Hk & Hr & Hn & Hp).
  rewrite (updp_at _ _ _ p) in H0 by done. injection H0 as _ <-.
  apply IH in H as (? & ? & ?); [done| |].
  - by apply (table_ok_keep s k p).
  - split; [done|]. eexists. split; [by eapply at_insert|]. done.
Qed.

Lemma wakeup_on_cpu h c s u s' k n par :
  wakeup h c s = Ok (u, s') -> on_cpu s h k n par -> on_cpu s' h k n par.
Proof using Type.
  unfold wakeup. rewrite bind_get. intros [= _ <-] (Hc & p & Hk & Hp). split; [done|]. exists p. split; [|done]. simpl.
  rewrite list_lookup_imap, Hk. simpl. rewrite (list_lookup_total_correct _ _ _ Hc). by rewrite decide_True.
Qed.

(** An orphan is given to init. *)
Lemma table_ok_reparent s k q :
  table_ok s -> procs s !! k = Some q -> (state q = UNUSED -> False) -> table_ok (set_procs (insert k (set_parent (initproc s) q)) s).
Proof using Type.
  intros Hok Hq Hnu. apply (table_ok_change s _ k q (set_parent (initproc s) q)); try done; [|by apply cpu_same].
  split; simpl; try done.
  - intros Hu. split; [by apply (t_pid _ Hok _ _ Hq)|]. intros k' p' Hne Hk' Hu' Eq. apply Hne. by apply (t_uniq _ Hok k' k p' q).
  - intros i Hi' _. by apply (t_init _ Hok).
  - intros Hi'. destruct (t_init _ Hok _ Hi') as (k1 & p1 & Ek & H1 & Ha). apply Nat2Z.inj in Ek as <-. simplify_eq. exact Ha.
Qed.

Lemma reparent_loop_ok m h k j s u s' n par :
  table_ok s -> on_cpu s h k n par -> initproc s <> Some (Z.of_nat k) -> 0 <= j -> j + Z.of_nat m = NPROC ->
  (forall k' p', procs s !! k' = Some p' -> Z.of_nat k' < j -> parent p' <> Some (Z.of_nat k)) ->
  reparent_loop m h (Z.of_nat k) j s = Ok (u, s') ->
  table_ok s' /\ (exists par', on_cpu s' h k n par') /\ initproc s' = initproc s /\
  (forall k' p', procs s' !! k' = Some p' -> parent p' <> Some (Z.of_nat k)).
Proof using Type.
  revert j s par. induction m as [|m IH]; intros j s par Hok Hc Hi Hj Hm Hno H; cbn [reparent_loop] in H.
  { injection H as _ <-. split_and!; try done; [by exists par|]. intros k' p' Hk'. apply (Hno k' p' Hk').
    pose proof (lookup_lt_Some _ _ _ Hk') as Hl. rewrite (t_len _ Hok) in Hl. lia. }
  rewrite bind_get in H. kinv H.
  destruct (lookup_lt_is_Some_2 (procs s) (Z.to_nat j)) as [q Hq]; [rewrite (t_len _ Hok); lia|].
  assert (Ej : j = Z.of_nat (Z.to_nat j)) by lia. assert (Hg : getp s j = q) by (rewrite Ej; by apply getp_at).
  case_decide as E.
  - kinv H0. rewrite Ej in H1. rewrite (updp_at _ _ _ q Hq) in H1. injection H1 as _ <-. rewrite Hg in E.
    set (s1 := set_procs _ s) in H0.
    assert (Hok1 : table_ok s1).
    { apply (table_ok_reparent s (Z.to_nat j) q); try done. intros Hu. destruct (t_unused _ Hok _ _ Hq Hu). congruence. }
    assert (Hc1 : exists par1, on_cpu s1 h k n par1).
    { destruct Hc as (Hcpu & p & Hk & Hr & Hn & Hp). unfold on_cpu, s1, set_procs. simpl. destruct (decide (k = Z.to_nat j)) as [->|Hne].
      - simplify_eq. eexists. split; [done|]. eexists. split; [by eapply at_insert|done].
      - exists par. split; [done|]. exists p. by rewrite list_lookup_insert_ne. }
    destruct Hc1 as [par1 Hc1]. destruct (wakeup_inv _ _ _ _ _ H0) as [HF Hs2].
    pose proof (wakeup_ok _ _ _ _ _ Hok1 H0) as Hok2. pose proof (wakeup_on_cpu _ _ _ _ _ _ _ _ H0 Hc1) as Hc2.
    apply (IH (j + 1) _ par1) in H; try lia; try done.
    + destruct H as (? & ? & Hi2 & ?). split_and!; try done. rewrite Hi2, Hs2. done.
    + by rewrite Hs2.
    + intros k' p' Hk' Hlt. destruct (Forall2_lookup_r _ _ _ _ _ HF Hk') as (p1 & Hp1 & Hw). destruct (woken_alive _ _ Hw) as (_ & _ & _ & _ & ->).
      apply lookup_upd in Hp1 as [[-> ->]|[Hne Hp1]]; [done|]. apply (Hno k' p1 Hp1). lia.
  - injection H0 as _ <-. apply (IH (j + 1) s par) in H; try lia; try done. intros k' p' Hk' Hlt.
    destruct (decide (k' = Z.to_nat j)) as [->|Hne]; [rewrite Hq in Hk'; injection Hk' as <-; by rewrite <- Hg|]. apply (Hno k' p' Hk'). lia.
Qed.

Lemma exit_ok h status s u s' :
  0 <= h -> table_ok s -> exit h status s = Ok (u, s') ->
  table_ok s' /\ exists k p, cpus s !! Z.to_nat h = Some (Some (Z.of_nat k)) /\ procs s !! k = Some p /\
    exists q, procs s' !! k = Some q /\ state q = ZOMBIE /\ xstate q = status /\ pid q = pid p.
Proof using Type.
  intros Hh Hok H. unfold exit in H. kinv H. apply myproc_inv in H0 as [-> (k & p & -> & Hk & Hr & Hcpu)]; try done.
  rewrite bind_get in H. case_decide as Ei; [done|]. rewrite (getp_at s k p Hk) in H.
  assert (Hc : on_cpu s h k (pid p) (parent p)) by (split; [done|]; by exists p).
  kinv H. eapply close_files_ok in H0 as (Hok1 & Hc1 & Hi1); [|done..].
  kinv H. destruct (p_cwd p) as [d|]; [|done]. apply on_g_inv in H0 as [g ->].
  kinv H. destruct Hc1 as (Hcpu1 & p1 & Hk1 & Hr1 & Hn1 & Hp1). rewrite (updp_at _ _ _ p1) in H0 by done. injection H0 as _ <-.
  kinv H. unfold reparent in H0. eapply (reparent_loop_ok _ h k 0) with (n := pid p) in H0 as (Hok2 & (par2 & Hc2) & Hi2 & Hno2).
  2:{ match goal with |- table_ok (set_procs _ (set_fsg _ ?x)) => by apply (table_ok_keep x k p1 (set_p_cwd None p1)) end. }
  2:{ split; [done|]. eexists. split; [by eapply at_insert|done]. }
  2:{ simpl. by rewrite Hi1. } 2:{ lia. } 2:{ done. } 2:{ lia. }
  rewrite bind_get in H. kinv H. pose proof (wakeup_ok _ _ _ _ _ Hok2 H0) as Hok3. pose proof (wakeup_on_cpu _ _ _ _ _ _ _ _ H0 Hc2) as Hc3.
  destruct (wakeup_inv _ _ _ _ _ H0) as [HF Hs3]. destruct Hc3 as (Hcpu3 & p3 & Hk3 & Hr3 & Hn3 & Hp3).
  kinv H. rewrite (updp_at _ _ _ p3 Hk3) in H1. injection H1 as _ <-. kinv H.
  rewrite (updp_at _ _ _ (set_xstate status p3)) in H1 by (by eapply at_insert). injection H1 as _ <-. apply sched_inv in H as ->.
  unfold set_cpus, set_procs. simpl. rewrite list_insert_insert_eq. split.
  - apply (table_ok_change _ _ k p3 (set_state ZOMBIE (set_xstate status p3)) Hok3); try done; [|by apply cpu_release].
    pose proof (t_pid _ Hok3 _ _ Hk3) as Hpid. split; simpl; try done.
    + intros _. split; [apply Hpid; by rewrite Hr3|]. intros k' p' Hne Hk' Hu' E. apply Hne. apply (t_uniq _ Hok3 k' k p' p3); try done. by rewrite Hr3.
    + intros j Hj _. by apply (t_parent _ Hok3 k p3).
    + intros Hself. exfalso. destruct Hc2 as (_ & p2 & Hk2 & _ & _ & Hp2). rewrite Hp3 in Hself. rewrite Hself in Hp2. by apply (Hno2 k p2 Hk2).
    + intros _ _. split; [rewrite Hs3; simpl; rewrite Hi2; simpl; by rewrite Hi1|]. intros k' p' Hk'.
      destruct (Forall2_lookup_r _ _ _ _ _ HF Hk') as (p2 & Hp2 & Hw). destruct (woken_alive _ _ Hw) as (_ & _ & _ & _ & ->). by apply (Hno2 k').
  - exists k, p. split_and!; try done. eexists. split; [by eapply at_insert|]. done.
Qed.

Lemma find_child_spec l i j b :
  match find_child l i j b with
  | (Some c, _) => exists k p, c = j + Z.of_nat k /\ l !! k = Some p /\ parent p = Some i /\ state p = ZOMBIE
  | (None, b') => (forall k p, l !! k = Some p -> parent p = Some i -> state p <> ZOMBIE) /\
      (b' = true <-> b = true \/ exists k p, l !! k = Some p /\ parent p = Some i)
  end.
Proof using Type.
  revert j b. induction l as [|p l IH]; intros j b; cbn [find_child].
  { split; [intros k p Hk; by rewrite lookup_nil in Hk|]. split; [by left|]. intros [|(k & p & Hk & _)]; [done|by rewrite lookup_nil in Hk]. }
  case_decide as Ep; [case_decide as Ez|].
  - exists O, p. split_and!; try done. lia.
  - specialize (IH (j + 1) true). destruct (find_child l i (j + 1) true) as [[c|] b'].
    + destruct IH as (k & q & -> & Hk & Hq). exists (S k), q. split; [lia|done].
    + destruct IH as [IH1 IH2]. split; [by intros [|k] q Hk; simplify_eq/=; [|apply (IH1 k)]|].
      split; [|intros _; apply IH2; by left]. intros _. right. by exists O, p.
  - specialize (IH (j + 1) b). destruct (find_child l i (j + 1) b) as [[c|] b'].
    + destruct IH as (k & q & -> & Hk & Hq). exists (S k), q. split; [lia|done].
    + destruct IH as [IH1 IH2]. split; [by intros [|k] q Hk; simplify_eq/=; [|apply (IH1 k)]|]. rewrite IH2.
      split; intros [|(k & q & Hk & Hq)]; try (by left); right; [by exists (S k), q|]. destruct k as [|k]; simplify_eq/=. by exists k, q.
Qed.

Lemma wait_ok h addr s r s' :
  0 <= h -> table_ok s -> wait h addr s = Ok (r, s') -> table_ok s'.
Proof using Type.
  intros Hh Hok H. unfold wait in H. kinv H. apply myproc_inv in H0 as [-> (k & p & -> & Hk & Hr & Hcpu)]; try done.
  rewrite bind_get in H. pose proof (find_child_spec (procs s) (Z.of_nat k) 0 false) as Hf.
  destruct (find_child (procs s) (Z.of_nat k) 0 false) as [[c|] b].
  - destruct Hf as (k' & q & -> & Hq & Hpq & Hz). rewrite Z.add_0_l in H.
    kinv H. match type of H0 with _ = Ok (_, ?x) => assert (Hs1 : exists g, x = set_fsg g s) end.
    { destruct (addr =? 0); [|by eapply on_pmem_inv]. injection H0 as _ <-. exists (fsg s). by destruct s. }
    destruct Hs1 as [g ->]. destruct (_ <? 0); [injection H as _ <-; by apply table_ok_fsg|].
    kinv H. injection H as _ <-. apply (freeproc_inv k' q) in H1 as [g' ->]; [|done].
    destruct (not_alive_alone s k' q Hok Hq) as [Hi Hc]; [by intros [_ ?]|].
    apply (table_ok_free (set_fsg g s) k' q); try done; [by apply table_ok_fsg|by rewrite Hz].
  - destruct (negb b || _); [by injection H as _ <-|]. kinv H. injection H as _ <-. by eapply sleep_ok.
Qed.
End Table.
