(* ===== verification/ProcSpec.v ===== *)
(** * What the process table promises

    Reachability from boot, the scheduler's bounded waiting, and the wakeup of a
    waiting parent. *)

From stdpp Require Import base numbers list list_numbers gmap strings.
From Stdlib Require Import ZArith Lia.
From S2P Require Import Prelude Params KString Path Sleeplock Virtio Bio Kmem Fsys Blocks Dinode Vfs Dirs Pipe File Kalloc Vm KmemVm FsDemo Exec Proc ProcProof.

Section Spec.
Context {G : Type} `{FR : FsRefs G}.
Abbreviation P := (psys G).
Implicit Types s : P.
Context (tr fr : Z).

(** ** Steps of the system *)

(** The machine before [procinit]: the process table is in the zeroed data segment. *)
Definition reset_table (g : G) : P := mk_psys (replicate 64 proc_zero) (replicate 8 None) 1 None true g.
Definition boot : K P unit := procinit;; userinit tr fr.

(** An operation by the process on CPU [h], an interrupt, or the scheduler of an idle CPU. *)
Inductive pstep s s' : Prop :=
| step_fork h r : 0 <= h -> nextpid s < 2 ^ 31 - 1 -> fork tr fr h s = Ok (r, s') -> pstep s s'
| step_exit h st : 0 <= h -> exit h st s = Ok (tt, s') -> pstep s s'
| step_wait h addr r : 0 <= h -> wait h addr s = Ok (r, s') -> pstep s s'
| step_sleep h c : 0 <= h -> sleep h c s = Ok (tt, s') -> pstep s s'
| step_wake_up h : 0 <= h -> wake_up h s = Ok (tt, s') -> pstep s s'
| step_yield h : 0 <= h -> yield h s = Ok (tt, s') -> pstep s s'
| step_wakeup h c : wakeup h c s = Ok (tt, s') -> pstep s s'
| step_kill n r : kill n s = Ok (r, s') -> pstep s s'
| step_growproc h n r : 0 <= h -> growproc_on h n s = Ok (r, s') -> pstep s s'
| step_forkret h : forkret h s = Ok (tt, s') -> pstep s s'
| step_schedule h last r : cpus s !! Z.to_nat h = Some None -> -1 <= last < NPROC -> scheduler_pass h last s = Ok (r, s') -> pstep s s'.

Inductive reachable (g : G) : P -> Prop :=
| reach_boot s : boot (reset_table g) = Ok (tt, s) -> reachable g s
| reach_step s s' : reachable g s -> pstep s s' -> reachable g s'.

Lemma procinit_ok g : exists s, procinit (reset_table g) = Ok (tt, s) /\ table_ok s /\ initproc s = None /\ nextpid s = 1.
Proof using Type.
  eexists. split; [done|]. split; [|done].
  assert (Hl : forall k p, procs (set_procs (imap (fun i p => set_kstack (KSTACK (Z.of_nat i)) (set_state UNUSED p))) (reset_table g)) !! k = Some p ->
    state p = UNUSED /\ pid p = 0 /\ parent p = None).
  { intros k p. cbn [set_procs procs reset_table]. rewrite list_lookup_imap. destruct (replicate 64 proc_zero !! k) as [q|] eqn:E; [|done].
    apply lookup_replicate in E as [-> _]. by intros [= <-]. }
  assert (Hc : forall h i, replicate 8 (@None Z) !! h <> Some (Some i)) by (intros h i [? _]%lookup_replicate; done).
  split; try done; try (by intros h; intros; edestruct Hc).
  - intros k p (Hs & _)%Hl Hr. congruence.
  - intros k p (_ & ? & ?)%Hl _. done.
  - intros k p (Hs & _)%Hl Hr. congruence.
  - intros k k' p p' (Hs & _)%Hl _ Hr. congruence.
  - intros k p j (_ & _ & Hp)%Hl Hj. congruence.
Qed.

Lemma userinit_ok s u s' :
  table_ok s -> nextpid s < 2 ^ 31 - 1 -> initproc s = None -> userinit tr fr s = Ok (u, s') -> table_ok s'.
Proof using Type.
  intros Hok Hn Hi H. unfold userinit in H. kinv H. pose proof H0 as Hal. apply allocproc_ok in H0 as (Hok1 & Hi1 & _ & Ha); try done.
  rewrite bind_modify in H. match type of Hal with _ = Ok (?r, ?x) => destruct r as [i|]; [|done]; set (s1 := x) in * end.
  destruct (Ha i eq_refl) as (k & p0 & q & -> & Hk & Hu & _ & Ht & Hps & Hc & Hik).
  assert (Hq : procs s1 !! k = Some q) by (rewrite Hps; by eapply at_insert). pose proof (tk_state _ _ _ Ht) as Hst.
  set (s2 := mk_psys _ _ _ _ _ _) in H. assert (Hok2 : table_ok s2).
  { destruct Hok1; split; try done. intros j [= <-]. exists k, q. split_and!; try done; unfold alive; by rewrite Hst. }
  rewrite bind_get in H. kinv H. apply on_pmem_inv in H0 as [g ->]. kinv H. rewrite (updp_at _ _ _ q) in H0 by done. injection H0 as _ <-.
  kinv H. apply on_g_inv in H0 as [g' ->]. rewrite (updp_at k _ _ (set_name (copy_pname (name q) [105; 110; 105; 116; 99; 111; 100; 101; 0])
    (set_tf (zupd (zupd (tf q) 3 0) 6 PGSIZE) (set_sz PGSIZE q)))) in H by (by eapply at_insert). injection H as _ <-.
  unfold set_procs, set_fsg. simpl. rewrite list_insert_insert_eq.
  match goal with |- table_ok (mk_psys (<[k := set_state RUNNABLE ?y]> _) _ _ _ _ _) => set (q' := y) end.
  pose proof (table_ok_keep s2 k q q' g' Hok2 Hq eq_refl eq_refl eq_refl) as Hok3.
  assert (Hk3 : procs (with_procs (<[k := q']> (procs s2)) g' s2) !! k = Some q') by (by eapply at_insert).
  pose proof (table_ok_state _ k q' RUNNABLE g' Hok3 Hk3) as Hok4. unfold with_procs in Hok4. simpl in Hok4. rewrite list_insert_insert_eq in Hok4.
  apply Hok4; try done; [split|]; unfold q'; simpl; by rewrite Hst.
Qed.

Lemma growproc_table h n s r s' : 0 <= h -> table_ok s -> growproc_on h n s = Ok (r, s') -> table_ok s'.
Proof using Type.
  intros Hh Hok H. unfold growproc_on in H. kinv H. apply myproc_inv in H0 as [-> (k & p & -> & Hk & _)]; try done.
  rewrite bind_get in H. kinv H. apply on_pmem_inv in H0 as [g ->]. kinv H. rewrite (updp_at _ _ _ p) in H0 by done. injection H0 as _ <-.
  injection H as _ <-. by apply (table_ok_keep s k p).
Qed.

Lemma schedule_table h last s r s' :
  table_ok s -> cpus s !! Z.to_nat h = Some None -> -1 <= last < NPROC -> scheduler_pass h last s = Ok (r, s') -> table_ok s'.
Proof using Type.
  intros Hok Hc Hl H. pose proof (scheduler_pass_spec h last s Hok Hl) as Hs. rewrite H in Hs. destruct r as [i|].
  - destruct Hs as (k & p & -> & Hk & Hr & _ & ->). by apply take_cpu.
  - by destruct Hs as [-> _].
Qed.

Lemma pstep_ok s s' : table_ok s -> pstep s s' -> table_ok s'.
Proof using Type.
  intros Hok [h r Hh Hn H|h st Hh H|h addr r Hh H|h c Hh H|h Hh H|h Hh H|h c H|n r H|h n r Hh H|h H|h last r Hc Hl H].
  - by apply fork_ok in H as [? _].
  - by apply exit_ok in H as [? _].
  - by eapply wait_ok.
  - by eapply sleep_ok.
  - by eapply wake_up_ok.
  - by eapply yield_ok.
  - by eapply wakeup_ok.
  - by eapply kill_ok.
  - by eapply growproc_table.
  - unfold forkret in H. kinv H. unfold myproc in H0. rewrite bind_get in H0. destruct (cpus s !!! Z.to_nat h); [|done]. injection H0 as _ <-.
    rewrite bind_get in H. destruct (first s); [|by injection H as <-]. rewrite bind_modify in H. apply on_g_inv in H as [g ->].
    by destruct Hok; split.
  - by eapply schedule_table.
Qed.

(** C11: in every state that boot and the operations of processes, interrupts and
    schedulers reach, a process is RUNNING exactly when it is on a CPU and never on two,
    the pids of used entries are distinct, and the parent of a process and init are
    neither unused entries nor zombies. *)
Theorem table_invariant g s : reachable g s -> table_ok s.
Proof using Type.
  induction 1 as [s H|s s' _ IH Hs]; [|by eapply pstep_ok]. unfold boot in H. kinv H.
  destruct (procinit_ok g) as (s0 & He & Hok & Hi & Hn). rewrite He in H0. injection H0 as <- <-.
  eapply userinit_ok; [exact Hok| |exact Hi|exact H]. rewrite Hn. lia.
Qed.

(** ** Fairness *)

(** Passes of a scheduler that starts after entry [last], in states where the process
    [i] is runnable; between two passes anything may happen. *)
Inductive passes (h i : Z) : Z -> list Z -> Prop :=
| passes_nil last : passes h i last []
| passes_cons last s s' j picks :
    table_ok s -> -1 <= last < NPROC -> state (getp s i) = RUNNABLE -> scheduler_pass h last s = Ok (Some j, s') ->
    passes h i j picks -> passes h i last (j :: picks).

Lemma turn_next last i j :
  0 <= i < NPROC -> 0 <= j < NPROC -> turn last j <= turn last i -> i <> j -> turn j i = turn last i - turn last j - 1.
Proof using Type.
  unfold turn, NPROC. intros Hi Hj Hle Hne. pose proof (Z.mod_pos_bound (i - last - 1) 64 ltac:(lia)). pose proof (Z.mod_pos_bound (j - last - 1) 64 ltac:(lia)).
  pose proof (Z.div_mod (i - last - 1) 64 ltac:(lia)). pose proof (Z.div_mod (j - last - 1) 64 ltac:(lia)).
  set (a := (i - last - 1) / 64) in *. set (b := (j - last - 1) / 64) in *.
  assert ((i - last - 1) mod 64 <> (j - last - 1) mod 64) by (intros E; assert (a = b) by lia; lia).
  symmetry. apply (Z.mod_unique _ _ (a - b)); [left; lia|lia].
Qed.

(** C16: a runnable process is not passed over forever: every pass finds a process to
    run, and before process [i] is picked there are at most [NPROC - 1] picks of others. *)
Theorem scheduler_fair h i last picks s :
  table_ok s -> -1 <= last < NPROC -> 0 <= i < NPROC -> state (getp s i) = RUNNABLE ->
  (exists j s', scheduler_pass h last s = Ok (Some j, s')) /\
  (passes h i last picks -> i ∉ picks -> zlen picks <= NPROC - 1).
Proof using Type.
  intros Hok Hl Hi Hr. split.
  - pose proof (scheduler_pass_spec h last s Hok Hl) as H. destruct (scheduler_pass h last s) as [[[j|] s']|?|?|?|]; try done; [by exists j, s'|].
    destruct H as [_ H]. by destruct (H i Hi).
  - intros Hp Hni. assert (Hturn : zlen picks <= turn last i).
    { clear Hok Hl Hr s. induction Hp as [last|last s s' j picks Hok Hl Hr He Hp IH].
      - unfold turn, zlen. simpl. pose proof (Z.mod_pos_bound (i - last - 1) NPROC ltac:(done)). lia.
      - apply not_elem_of_cons in Hni as [Hij Hni]. specialize (IH Hni).
        pose proof (scheduler_pass_spec h last s Hok Hl) as H. rewrite He in H. destruct H as (k & p & -> & Hk & _ & Hmin & _).
        assert (0 <= Z.of_nat k < NPROC) by (pose proof (lookup_lt_Some _ _ _ Hk) as Hlt; rewrite (t_len _ Hok) in Hlt; lia).
        pose proof (Hmin i Hi Hr) as Hle. rewrite (turn_next last i) in IH by done. unfold zlen in *. simpl length. 
        assert (0 <= turn last (Z.of_nat k)) by (unfold turn, NPROC; apply Z.mod_pos_bound; lia). lia. }
    unfold turn in Hturn. pose proof (Z.mod_pos_bound (i - last - 1) NPROC ltac:(done)). lia.
Qed.

(** ** No lost wakeup in [wait] *)

(** Process [i] sleeps on [c], or has been woken already. *)
Definition waits s (i : nat) (c : channel) : Prop :=
  exists q, procs s !! i = Some q /\ ((state q = SLEEPING /\ chan q = Some c) \/ state q = RUNNABLE).

Lemma waits_insert s i c k f p g :
  waits s i c -> procs s !! k = Some p -> (i <> k \/ (state (f p) = state p /\ chan (f p) = chan p)) ->
  waits (with_procs (<[k := f p]> (procs s)) g s) i c.
Proof using Type.
  intros (q & Hq & Hw) Hk Hor. destruct (decide (i = k)) as [->|Hne].
  - simplify_eq. exists (f q). simpl. rewrite (at_insert _ _ q) by done. split; [done|]. destruct Hor as [?|[-> ->]]; done.
  - exists q. simpl. by rewrite list_lookup_insert_ne.
Qed.

Lemma waits_wakeup h c0 s u s' i c :
  wakeup h c0 s = Ok (u, s') -> waits s i c ->
  waits s' i c /\ (c0 = Some c -> cpus s !! Z.to_nat h <> Some (Some (Z.of_nat i)) -> cpus s !! Z.to_nat h <> None ->
                   exists q, procs s' !! i = Some q /\ state q = RUNNABLE).
Proof using Type.
  unfold wakeup. rewrite bind_get. intros [= _ <-] (q & Hq & Hw). unfold waits. cbn [set_procs procs]. rewrite list_lookup_imap, Hq. simpl. split.
  - eexists. split; [done|]. case_decide; [done|]. unfold wake. case_decide; [by right|done].
  - intros -> Hne Hin. eexists. split; [done|]. rewrite decide_False.
    2:{ rewrite list_lookup_total_alt. destruct (cpus s !! Z.to_nat h) as [o|] eqn:E; [|done]. simpl. intros ->. by apply Hne. }
    unfold wake. destruct Hw as [[H1 H2]|H1]; [by rewrite decide_True|]. rewrite decide_False; [done|]. intros [? _]. congruence.
Qed.

Lemma waits_close k l fd s u s' i c :
  i <> k -> waits s i c -> is_Some (procs s !! k) -> close_files (Z.of_nat k) l fd s = Ok (u, s') -> waits s' i c.
Proof using Type.
  intros Hne. revert fd s. induction l as [|[f|] l IH]; intros fd s Hw [p Hk] H; cbn [close_files] in H; [by injection H as _ <-| |by eapply IH; [|by exists p|]].
  kinv H. apply on_g_inv in H0 as [g ->]. kinv H. rewrite (updp_at _ _ _ p) in H0 by done. injection H0 as _ <-.
  eapply IH; [| |exact H]; [|eexists; by eapply at_insert].
  apply (waits_insert s i c k (fun p => set_p_ofile (zupd (p_ofile p) fd None) p) p g); [done|done|by left].
Qed.

Lemma waits_reparent m h k j s u s' i c n par :
  table_ok s -> on_cpu s h k n par -> par <> Some (Z.of_nat k) -> 0 <= j -> j + Z.of_nat m <= NPROC -> waits s i c ->
  reparent_loop m h (Z.of_nat k) j s = Ok (u, s') ->
  waits s' i c /\ on_cpu s' h k n par.
Proof using Type.
  revert j s. induction m as [|m IH]; intros j s Hok Hc Hpar Hj Hm Hw H; cbn [reparent_loop] in H; [by injection H as _ <-|].
  rewrite bind_get in H. kinv H. destruct (lookup_lt_is_Some_2 (procs s) (Z.to_nat j)) as [q Hq]; [rewrite (t_len _ Hok); lia|].
  assert (Ej : j = Z.of_nat (Z.to_nat j)) by lia. assert (Hg : getp s j = q) by (rewrite Ej; by apply getp_at).
  case_decide as E; [|injection H0 as _ <-; eapply (IH (j + 1)); try done; lia].
  rewrite Hg in E. kinv H0. rewrite Ej in H1. rewrite (updp_at _ _ _ q Hq) in H1. injection H1 as _ <-. set (s1 := set_procs _ s) in H0.
  assert (Hw1 : waits s1 i c) by (apply (waits_insert s i c (Z.to_nat j) (set_parent (initproc s)) q (fsg s)); [done|done|by right]).
  assert (Hc1 : on_cpu s1 h k n par).
  { destruct Hc as (Hcpu & p & Hk & Hr & Hn & Hp). split; [done|]. destruct (decide (k = Z.to_nat j)) as [->|Hne]; [simplify_eq; congruence|].
    exists p. unfold s1, set_procs. simpl. by rewrite list_lookup_insert_ne. }
  assert (Hok1 : table_ok s1).
  { apply (table_ok_reparent s (Z.to_nat j) q); try done. intros Hu. destruct (t_unused _ Hok _ _ Hq Hu). congruence. }
  eapply (IH (j + 1)); [by eapply wakeup_ok|by eapply wakeup_on_cpu|done|lia|lia|by eapply waits_wakeup|exact H].
Qed.

(** C33: an exiting process wakes the parent that sleeps in [wait]: a process that
    waits on its own entry before the child's [exit] is runnable after it. *)
Theorem exit_wakes_parent h st s u s' k p i :
  0 <= h -> table_ok s -> cpus s !! Z.to_nat h = Some (Some (Z.of_nat k)) -> procs s !! k = Some p -> parent p = Some (Z.of_nat i) -> i <> k ->
  waits s i (CProc (Z.of_nat i)) -> exit h st s = Ok (u, s') ->
  exists q, procs s' !! i = Some q /\ state q = RUNNABLE.
Proof using Type.
  intros Hh Hok Hcpu Hk Hpar Hne Hw H. unfold exit in H. kinv H. apply myproc_inv in H0 as [-> (k0 & p0 & -> & Hk0 & Hr & Hcpu0)]; try done.
  rewrite Hcpu in Hcpu0. injection Hcpu0 as E. apply Nat2Z.inj in E as <-. rewrite Hk in Hk0. injection Hk0 as <-.
  rewrite bind_get in H. case_decide as Ei; [done|]. rewrite (getp_at s k p Hk) in H.
  assert (Hc : on_cpu s h k (pid p) (Some (Z.of_nat i))) by (split; [done|]; by exists p).
  kinv H. pose proof (waits_close _ _ _ _ _ _ _ _ Hne Hw (ex_intro _ p Hk) H0) as Hw1. eapply close_files_ok in H0 as (Hok1 & Hc1 & Hi1); [|done..].
  kinv H. destruct (p_cwd p) as [d|]; [|done]. apply on_g_inv in H0 as [g ->].
  kinv H. destruct Hc1 as (Hcpu1 & p1 & Hk1 & Hr1 & Hn1 & Hp1). rewrite (updp_at _ _ _ p1) in H0 by done. injection H0 as _ <-.
  kinv H. unfold reparent in H0.
  match type of H0 with _ (set_procs _ (set_fsg _ ?x)) = _ =>
    pose proof (table_ok_keep x k p1 (set_p_cwd None p1) g Hok1 Hk1 eq_refl eq_refl eq_refl) as Hok2;
    pose proof (waits_insert x i _ k (set_p_cwd None) p1 g Hw1 Hk1 (or_introl Hne)) as Hw2 end.
  eapply (waits_reparent _ h k 0) with (n := pid p) (par := Some (Z.of_nat i)) in H0 as [Hw3 Hc3];
    [|exact Hok2|split; [done|]; eexists; split; [by eapply at_insert|done]|intros [= E]; apply Nat2Z.inj in E; done|lia|done|exact Hw2].
  rewrite bind_get in H. kinv H. destruct Hc3 as (Hcpu3 & p3 & Hk3 & Hr3 & Hn3 & Hp3). rewrite (getp_at _ k p3 Hk3), Hp3 in H0.
  destruct (waits_wakeup _ _ _ _ _ i (CProc (Z.of_nat i)) H0 Hw3) as [_ Hrun]. destruct Hrun as (q & Hq & Hrun); [done|rewrite Hcpu3; intros [= E]; apply Nat2Z.inj in E; done|by rewrite Hcpu3|].
  destruct (wakeup_on_cpu _ _ _ _ _ k (pid p) (Some (Z.of_nat i)) H0) as (_ & p4 & Hk4 & _); [split; [done|]; by exists p3|].
  kinv H. rewrite (updp_at _ _ _ p4 Hk4) in H1. injection H1 as _ <-. kinv H.
  rewrite (updp_at _ _ _ (set_xstate st p4)) in H1 by (by eapply at_insert). injection H1 as _ <-. apply sched_inv in H as ->.
  exists q. unfold set_cpus, set_procs. simpl. by rewrite !list_lookup_insert_ne.
Qed.

(** ** Killing pid 0 *)

Lemma find_pid_unused l i :
  Forall (fun p => pid p = 0 <-> state p = UNUSED) l -> find_pid 0 l i = find_state UNUSED l i.
Proof using Type.
  intros H. revert i. induction H as [|p l Hp _ IH]; intros i; [done|]. cbn [find_pid find_state]. rewrite IH.
  destruct (pid p =? 0) eqn:E; zbool; case_decide; naive_solver.
Qed.

Lemma unused_pid s : table_ok s -> Forall (fun p => pid p = 0 <-> state p = UNUSED) (procs s).
Proof using Type.
  intros Hok. apply Forall_lookup. intros k p Hk. split; [|intros Hu; by apply (t_unused _ Hok k p)].
  intros H0. destruct (decide (state p = UNUSED)) as [|Hu]; [done|]. pose proof (t_pid _ Hok _ _ Hk Hu). lia.
Qed.

(** The entry that [allocproc] takes is the first unused one. *)
Lemma find_state_insert st l i k p q :
  l !! k = Some p -> state q = state p -> find_state st (<[k := q]> l) i = find_state st l i.
Proof using Type.
  revert i k. induction l as [|x l IH]; intros i [|k] Hk Hs; simplify_eq/=; [by rewrite Hs|]. case_decide; [done|]. by apply IH.
Qed.
(** C36: [kill(0)] succeeds while the table has a free entry, although no process has
    pid 0: it marks the entry that the next [fork] takes, and since [allocproc] does
    not clear [killed], that child is born killed. *)
Theorem kill_zero_kills_next_child h s r1 s1 r s2 :
  0 <= h -> table_ok s -> nextpid s < 2 ^ 31 - 1 -> kill 0 s = Ok (r1, s1) -> fork tr fr h s1 = Ok (r, s2) -> r <> -1 ->
  r1 = 0 /\ exists k q, procs s2 !! k = Some q /\ pid q = r /\ state q = RUNNABLE /\ p_killed q = 1.
Proof using Type.
  intros Hh Hok Hn Hkill Hfork Hr. pose proof (kill_ok _ _ _ _ Hok Hkill) as Hok1. pose proof Hkill as Hk. unfold kill in Hk. rewrite bind_get in Hk.
  rewrite find_pid_unused in Hk by (by apply unused_pid). pose proof (find_state_spec UNUSED (procs s) 0) as Hf.
  destruct (find_state UNUSED (procs s) 0) as [i|] eqn:Ef.
  2:{ injection Hk as <- <-. exfalso. apply fork_ok in Hfork as (_ & _ & [?|(i & p & k & p0 & q & _ & _ & Hk & _ & Hu & _)]); try done.
      rewrite Forall_lookup in Hf. by apply (Hf _ _ Hk). }
  destruct Hf as (k & p & -> & Hkp & Hu). rewrite Z.add_0_l in *. kinv Hk. rewrite (updp_at _ _ _ p Hkp) in H. injection H as _ <-.
  rewrite bind_get in Hk. rewrite (getp_at _ k (set_killed 1 p)) in Hk by (by eapply at_insert). rewrite decide_False in Hk by (simpl; by rewrite Hu).
  kinv Hk. injection H as _ <-. injection Hk as <- <-. split; [done|].
  set (s1 := set_procs _ s) in *. assert (Hk1 : procs s1 !! k = Some (set_killed 1 p)) by (by eapply at_insert).
  apply fork_ok in Hfork as (_ & _ & [?|(i & pi & k0 & p0 & q & _ & _ & Hk0 & Hfirst & Hu0 & Hps & Hfd)]); try done.
  unfold s1 in Hfirst. simpl in Hfirst. rewrite (find_state_insert _ _ _ k p) in Hfirst by done. rewrite Ef in Hfirst. injection Hfirst as E. apply Nat2Z.inj in E as <-.
  rewrite Hk1 in Hk0. injection Hk0 as <-. exists k, q. rewrite Hps, (at_insert _ _ (set_killed 1 p)) by done.
  destruct Hfd as [? ? ? ? ? ? ? Hkd]. split_and!; try done.
Qed.
End Spec.

(** ** Processes over the file system

    The file system discharges the interface [FsRefs] of the process table; a small
    machine boots, forks and waits in the examples. *)

#[export] Instance fsys_refs {B} `{BC : BufCache B} : FsRefs (fsys B kmem) := {|
  g_mem s := phys (mm s);
  g_set_mem m s := set_mm (set_phys m (mm s)) s;
  g_filedup := filedup;
  g_fileclose := fileclose;
  g_idup i := idup i;; mret tt;
  g_iput := iput;
  g_root := namei [slash];
  g_fsinit := fsinit;
|}.

(** A machine with 40 free pages, its memory set up by [kinit], before [procinit]. *)
Definition free_memory : mem := match kinit (machine 40) with Ok (_, m) => m | _ => machine 40 end.
Definition demo_g : fsys (bcache disk) kmem := demo (mk_kmem free_memory 0 (replicate 4096 0)) 8192 4096 1.
Definition trampoline_pa : Z := 0x80007000.
Definition forkret_pa : Z := 0x80001234.
Abbreviation DP := (psys (fsys (bcache disk) kmem)).

(** Run [m] and look at the state it ends in. *)
Definition ends {S A} (m : K S A) (s : S) (f : A -> S -> bool) : bool := match m s with Ok (a, s') => f a s' | _ => false end.
Lemma ends_inv {S A} (m : K S A) s f : ends m s f = true -> exists a s', m s = Ok (a, s') /\ f a s' = true.
Proof. unfold ends. destruct (m s) as [[a s']|?|?|?|]; try done. intros H. by exists a, s'. Qed.

Lemma table_invariant_witness : exists s : DP, reachable trampoline_pa forkret_pa demo_g s /\ table_ok s.
Proof.
  destruct (ends_inv (boot trampoline_pa forkret_pa) (reset_table demo_g) (fun _ _ => true)) as ([] & s & He & _); [vm_compute; reflexivity|].
  exists s. split; [by apply reach_boot|]. apply (table_invariant trampoline_pa forkret_pa demo_g). by apply reach_boot.
Defined.

(** Init runs and forks; the child is entry 1. *)
Lemma fork_run_ok : exists s : DP, reachable trampoline_pa forkret_pa demo_g s /\ table_ok s /\
  bool_decide (cpus s !! 0%nat = Some (Some 0) /\ state (getp s 0) = RUNNING /\ state (getp s 1) = RUNNABLE /\ parent (getp s 1) = Some 0) &&
  ends (wait 0 0) s (fun r s1 => match r with Sleeps => bool_decide (cpus s1 !! 0%nat = Some None) && ends (scheduler_pass 0 0) s1 (fun r s2 => bool_decide (r = Some 1 /\
      cpus s2 !! 0%nat = Some (Some 1) /\ state (getp s2 0) = SLEEPING /\ chan (getp s2 0) = Some (CProc 0) /\ parent (getp s2 1) = Some 0) &&
      ends (exit 0 7) s2 (fun _ _ => true)) | _ => false end) = true.
Proof.
  destruct (ends_inv (boot trampoline_pa forkret_pa) (reset_table demo_g) (fun _ s => ends (scheduler_pass 0 (-1)) s (fun _ s =>
    bool_decide (cpus s !! 0%nat = Some (Some 0)) && (nextpid s =? 2) && ends (fork trampoline_pa forkret_pa 0) s (fun _ s => 
    bool_decide (cpus s !! 0%nat = Some (Some 0) /\ state (getp s 0) = RUNNING /\ state (getp s 1) = RUNNABLE /\ parent (getp s 1) = Some 0) &&
  ends (wait 0 0) s (fun r s1 => match r with Sleeps => bool_decide (cpus s1 !! 0%nat = Some None) && ends (scheduler_pass 0 0) s1 (fun r s2 => bool_decide (r = Some 1 /\
      cpus s2 !! 0%nat = Some (Some 1) /\ state (getp s2 0) = SLEEPING /\ chan (getp s2 0) = Some (CProc 0) /\ parent (getp s2 1) = Some 0) &&
      ends (exit 0 7) s2 (fun _ _ => true)) | _ => false end))) && bool_decide (cpus s !! 0%nat = Some None))) as ([] & s & He & H); [vm_compute; reflexivity|].
  apply andb_prop in H as [H Hc]. apply bool_decide_eq_true in Hc.
  apply ends_inv in H as (r & s1 & He1 & H). zbool. apply ends_inv in H0 as (r' & s2 & He2 & H0).
  assert (Hr : reachable trampoline_pa forkret_pa demo_g s2).
  { eapply reach_step; [eapply reach_step; [by apply reach_boot|]|].
    - eapply (step_schedule _ _ _ _ 0 (-1)); [exact Hc|unfold NPROC; lia|exact He1].
    - eapply (step_fork _ _ _ _ 0); [lia|lia|exact He2]. }
  exists s2. split; [exact Hr|]. split; [|exact H0].
  assert (Hboot : table_ok s).
  { unfold boot in He. apply bind_inv in He as ([] & s0 & Hp & Hu). destruct (procinit_ok demo_g) as (s0' & Hp' & Hok & Hi & Hn).
    rewrite Hp' in Hp. injection Hp as <-. eapply userinit_ok; [exact Hok|rewrite Hn; lia|exact Hi|exact Hu]. }
  eapply (pstep_ok trampoline_pa forkret_pa); [eapply (pstep_ok trampoline_pa forkret_pa); [exact Hboot|]|].
  - eapply (step_schedule _ _ _ _ 0 (-1)); [exact Hc|unfold NPROC; lia|exact He1].
  - eapply (step_fork trampoline_pa forkret_pa _ _ 0); [lia|lia|exact He2].
Qed.

Lemma at_index (s : DP) k st : procs s !! k = None -> state (getp s (Z.of_nat k)) = st -> st = UNUSED.
Proof. intros H <-. unfold getp. rewrite Nat2Z.id, list_lookup_total_alt, H. done. Qed.

Lemma getp_none (s : DP) k : procs s !! k = None -> getp s (Z.of_nat k) = proc_zero.
Proof. intros H. unfold getp. by rewrite Nat2Z.id, list_lookup_total_alt, H. Qed.

Lemma scheduler_fair_witness : exists s : DP, table_ok s /\ exists j s', scheduler_pass 1 (-1) s = Ok (Some j, s').
Proof.
  destruct fork_run_ok as (s & _ & Hok & H). apply andb_prop in H as [H _]. apply bool_decide_eq_true in H as (_ & _ & Hr & _).
  exists s. split; [exact Hok|]. apply (scheduler_fair 1 1 (-1) [] s Hok); [unfold NPROC; lia..|exact Hr].
Defined.

Lemma exit_wakes_parent_witness : exists (s s' : DP) q, exit 0 7 s = Ok (tt, s') /\ procs s' !! 0%nat = Some q /\ state q = RUNNABLE.
Proof.
  destruct fork_run_ok as (s0 & _ & Hok0 & H). apply andb_prop in H as [_ H].
  apply ends_inv in H as (r & s1 & He1 & H). destruct r; [|done].
  apply andb_prop in H as [Hc1 H]. apply bool_decide_eq_true in Hc1. apply ends_inv in H as (r & s & He2 & H).
  apply andb_prop in H as [H Hx]. apply bool_decide_eq_true in H as (-> & Hc & Hs & Hch & Hp). apply ends_inv in Hx as ([] & s' & Hx & _).
  assert (Hok1 : table_ok s1) by (eapply (wait_ok 0 0); [lia|exact Hok0|exact He1]).
  assert (Hok : table_ok s) by (eapply (schedule_table 0 0); [exact Hok1|exact Hc1|unfold NPROC; lia|exact He2]).
  destruct (procs s !! 0%nat) as [q0|] eqn:E0; [|by pose proof (at_index s 0 _ E0 Hs)].
  change (getp s 1) with (getp s (Z.of_nat 1)) in Hp. change (getp s 0) with (getp s (Z.of_nat 0)) in Hs, Hch.
  destruct (procs s !! 1%nat) as [q1|] eqn:E1; [|by rewrite (getp_none s 1 E1) in Hp].
  rewrite (getp_at s 0 q0 E0) in Hs, Hch. rewrite (getp_at s 1 q1 E1) in Hp.
  destruct (exit_wakes_parent 0 7 s tt s' 1 q1 0) as (q & Hq & Hr).
  - lia.
  - exact Hok.
  - exact Hc.
  - exact E1.
  - exact Hp.
  - done.
  - exists q0. split; [exact E0|]. left. by split.
  - exact Hx.
  - exists s, s', q. by split_and!.
Defined.

Lemma kill_zero_kills_next_child_witness : exists (s s1 s2 : DP) r k q, table_ok s /\ kill 0 s = Ok (0, s1) /\
  fork trampoline_pa forkret_pa 0 s1 = Ok (r, s2) /\ procs s2 !! k = Some q /\ pid q = r /\ p_killed q = 1.
Proof.
  destruct (ends_inv (boot trampoline_pa forkret_pa) (reset_table demo_g) (fun _ s => ends (scheduler_pass 0 (-1)) s (fun _ s =>
    (nextpid s =? 2) && ends (kill 0) s (fun _ s => ends (fork trampoline_pa forkret_pa 0) s (fun r _ => negb (r =? -1)))) &&
    bool_decide (cpus s !! 0%nat = Some None))) as ([] & s & He & H); [vm_compute; reflexivity|].
  apply andb_prop in H as [H Hc]. apply bool_decide_eq_true in Hc. apply ends_inv in H as (r0 & s1 & He1 & H). apply andb_prop in H as [Hn H].
  apply ends_inv in H as (r1 & s2 & He2 & H). apply ends_inv in H as (r & s3 & He3 & H). apply Z.eqb_eq in Hn. apply negb_true_iff, Z.eqb_neq in H.
  assert (Hok : table_ok s1).
  { unfold boot in He. apply bind_inv in He as ([] & s0 & Hp & Hu). destruct (procinit_ok demo_g) as (s0' & Hp' & Hok & Hi & Hn').
    rewrite Hp' in Hp. injection Hp as <-. eapply (schedule_table 0 (-1)); [|exact Hc|unfold NPROC; lia|exact He1].
    eapply userinit_ok; [exact Hok|rewrite Hn'; lia|exact Hi|exact Hu]. }
  destruct (kill_zero_kills_next_child trampoline_pa forkret_pa 0 s1 r1 s2 r s3) as (-> & k & q & Hq & Hp & _ & Hk).
  - lia.
  - exact Hok.
  - rewrite Hn. lia.
  - exact He2.
  - exact He3.
  - exact H.
  - exists s1, s2, s3, r, k, q. by split_and!.
Defined.
