(* ===== verification/Sh.v ===== *)
(** * The shell's parser

    The parser of [src/user/sh.c]: [gettoken], [peek], [parsecmd], [parseline],
    [parsepipe], [parseredirs], [parseblock], [parseexec] and [nulterminate].
    The pointer [*ps] into the line is the state of the parser; the line is
    the list of its bytes before the NUL, and [es] its length.  A parsed
    command points into the line: a [span] is the pair [q], [eq].  The
    constructors [execcmd], [redircmd], ... are those of [cmd]; their [malloc]
    succeeds.  [panic] of the shell is the outcome [Panic]. *)

From stdpp Require Import base numbers list list_numbers strings.
From Stdlib Require Import ZArith Lia.
From S2P Require Import Prelude Params Path.

Definition MAXARGS : nat := 10.

(** [argv[i]], [eargv[i]] *)
Record span := mk_span { tok_q : nat; tok_eq : nat }.

Inductive cmd :=
| EXEC (argv : list span)
| REDIR (c : cmd) (file : span) (mode fd : Z)
| PIPE (left right : cmd)
| LIST (left right : cmd)
| BACK (c : cmd).

(** " \t\r\n\v" and "<|>&;()" *)
Definition whitespace : list Z := [32; 9; 13; 10; 11].
Definition symbols : list Z := [60; 124; 62; 38; 59; 40; 41].

(** [strchr] of [src/user/ulib.c], as a test. *)
Fixpoint strchr (s : list Z) (c : Z) : bool :=
  match s with
  | [] => false
  | x :: s => if x =? c then true else strchr s c
  end.

Section Parser.
Context (b : list Z).
Abbreviation P := (K nat).

Definition es : nat := length b.
(** [*s]; the NUL at [es] is the default. *)
Definition ch (s : nat) : Z := default 0 (b !! s).

(** [while(s < es && strchr(whitespace, *s)) s++;] *)
Fixpoint skip_loop (n s : nat) : nat :=
  match n with
  | O => s
  | S n => if bool_decide (s < es)%nat && strchr whitespace (ch s) then skip_loop n (S s) else s
  end.
Definition skip_ws (s : nat) : nat := skip_loop (es - s) s.

(** [while(s < es && !strchr(whitespace, *s) && !strchr(symbols, *s)) s++;] *)
Fixpoint word_loop (n s : nat) : nat :=
  match n with
  | O => s
  | S n => if bool_decide (s < es)%nat && negb (strchr whitespace (ch s)) && negb (strchr symbols (ch s)) then word_loop n (S s) else s
  end.
Definition word_end (s : nat) : nat := word_loop (es - s) s.

Definition tok_a : Z := 97.
Definition tok_app : Z := 43.

(** The switch of [gettoken]. *)
Definition token_at (s : nat) : Z * nat :=
  let c := ch s in
  if c =? 0 then (0, s)
  else if strchr [124; 40; 41; 59; 38; 60] c then (c, S s)
  else if c =? 62 then if ch (S s) =? 62 then (tok_app, S (S s)) else (62, S s)
  else (tok_a, word_end s).

Definition gettoken : P (Z * span) :=
  s ← get;
  let q := skip_ws s in
  let '(ret, eq) := token_at q in
  modify (fun _ => skip_ws eq);;
  mret (ret, mk_span q eq).

Definition peek (toks : list Z) : P bool :=
  s ← get;
  let s := skip_ws s in
  modify (fun _ => s);;
  mret (negb (ch s =? 0) && strchr toks (ch s)).

(** The loops consume a token in each round. *)
Definition rounds : nat := S es.

Fixpoint parseredirs_loop (n : nat) (c : cmd) : P cmd :=
  match n with
  | O => out_of_fuel
  | S n =>
      p ← peek [60; 62];
      if negb p then mret c
      else
        t ← gettoken;
        w ← gettoken;
        if negb (fst w =? tok_a) then panic "missing file for redirection"
        else
          let c := if fst t =? 60 then REDIR c (snd w) O_RDONLY 0
                   else if fst t =? 62 then REDIR c (snd w) (Z.lor (Z.lor O_WRONLY O_CREATE) O_TRUNC) 1
                   else if fst t =? tok_app then REDIR c (snd w) (Z.lor O_WRONLY O_CREATE) 1
                   else c in
          parseredirs_loop n c
  end.
Definition parseredirs (c : cmd) : P cmd := parseredirs_loop rounds c.

(** [cmd->argv[argc] = q]: the [execcmd] lies behind the redirections of [ret]. *)
Fixpoint add_arg (ret : cmd) (w : span) : cmd :=
  match ret with
  | EXEC argv => EXEC (argv ++ [w])
  | REDIR c f m d => REDIR (add_arg c w) f m d
  | _ => ret
  end.

Fixpoint args_loop (n : nat) (ret : cmd) (argc : nat) : P cmd :=
  match n with
  | O => out_of_fuel
  | S n =>
      p ← peek [124; 41; 38; 59];
      if (p : bool) then mret ret
      else
        t ← gettoken;
        if fst t =? 0 then mret ret
        else if negb (fst t =? tok_a) then panic "syntax"
        else
          let ret := add_arg ret (snd t) in
          if bool_decide (MAXARGS <= S argc)%nat then panic "too many args"
          else ret ← parseredirs ret; args_loop n ret (S argc)
  end.

Fixpoint back_loop (n : nat) (c : cmd) : P cmd :=
  match n with
  | O => out_of_fuel
  | S n =>
      p ← peek [38];
      if negb p then mret c else gettoken;; back_loop n (BACK c)
  end.

(** The fuel bounds the nesting of calls. *)
Fixpoint parseline (n : nat) : P cmd :=
  match n with
  | O => out_of_fuel
  | S n =>
      c ← parsepipe n;
      c ← back_loop rounds c;
      p ← peek [59];
      if (p : bool) then gettoken;; r ← parseline n; mret (LIST c r) else mret c
  end
with parsepipe (n : nat) : P cmd :=
  match n with
  | O => out_of_fuel
  | S n =>
      c ← parseexec n;
      p ← peek [124];
      if (p : bool) then gettoken;; r ← parsepipe n; mret (PIPE c r) else mret c
  end
with parseexec (n : nat) : P cmd :=
  match n with
  | O => out_of_fuel
  | S n =>
      p ← peek [40];
      if (p : bool) then parseblock n
      else ret ← parseredirs (EXEC []); args_loop rounds ret 0
  end
with parseblock (n : nat) : P cmd :=
  match n with
  | O => out_of_fuel
  | S n =>
      p ← peek [40];
      if negb p then panic "parseblock"
      else
        gettoken;;
        c ← parseline n;
        p ← peek [41];
        if negb p then panic "syntax - missing )"
        else gettoken;; parseredirs c
  end.

Fixpoint nulterminate (c : cmd) (buf : list Z) : list Z :=
  match c with
  | EXEC argv => foldl (fun buf w => <[tok_eq w := 0]> buf) buf argv
  | REDIR c f _ _ => <[tok_eq f := 0]> (nulterminate c buf)
  | PIPE l r => nulterminate r (nulterminate l buf)
  | LIST l r => nulterminate r (nulterminate l buf)
  | BACK c => nulterminate c buf
  end.

(** Each character opens at most one block, of four nested calls. *)
Definition parse_fuel : nat := 4 * S es.

(** The command, and the line with the words terminated. *)
Definition parsecmd : res (cmd * list Z) :=
  res_bind ((c ← parseline parse_fuel;
             peek [];;
             s ← get;
             if bool_decide (s = es) then mret c else panic "syntax") O)
    (fun r => Ok (fst r, nulterminate (fst r) (b ++ [0]))).
End Parser.

(** ** What a command says *)

Inductive command :=
| CExec (args : list (list Z))
| CRedir (c : command) (file : list Z) (mode fd : Z)
| CPipe (left right : command)
| CList (left right : command)
| CBack (c : command).

(** A parsed command with its words read by [word]. *)
Fixpoint read_cmd (word : span -> list Z) (c : cmd) : command :=
  match c with
  | EXEC argv => CExec (word <$> argv)
  | REDIR c f m d => CRedir (read_cmd word c) (word f) m d
  | PIPE l r => CPipe (read_cmd word l) (read_cmd word r)
  | LIST l r => CList (read_cmd word l) (read_cmd word r)
  | BACK c => CBack (read_cmd word c)
  end.
(** The C string that starts at the word. *)
Definition word_cstr (buf : list Z) (w : span) : list Z := cname (drop (tok_q w) buf).
(** The characters of the word on the line. *)
Definition word_text (b : list Z) (w : span) : list Z := take (tok_eq w - tok_q w) (drop (tok_q w) b).
