(* ===== verification/ShProof.v ===== *)
(** * The shell's parser: termination and the words it cuts out

    For every line the parser of [Sh] stops, with a command or with an error
    message; the words of the command are the words of the line, also after
    [nulterminate] has written over the line. *)

From stdpp Require Import base numbers list list_numbers strings.
From Stdlib Require Import ZArith Lia.
From S2P Require Import Prelude Params Path DirsProof Sh.

Section Lexer.
Context (b : list Z) (Hb : Forall (fun c => c <> 0) b).

Definition plain (c : Z) : Prop := c <> 0 /\ strchr whitespace c = false /\ strchr symbols c = false.

(** A word of the line: its characters are plain and the next one is not. *)
Definition good_span (w : span) : Prop :=
  (tok_q w <= tok_eq w <= es b)%nat /\ (forall i, (tok_q w <= i < tok_eq w)%nat -> plain (ch b i)) /\ ~ plain (ch b (tok_eq w)).

Lemma ch_nonzero s : (s < es b)%nat -> ch b s <> 0.
Proof using Hb.
  intros Hs. unfold ch. destruct (lookup_lt_is_Some_2 b s Hs) as [c Hc]. rewrite Hc. simpl.
  by apply (proj1 (Forall_lookup _ _) Hb s).
Qed.
Lemma ch_end s : (es b <= s)%nat -> ch b s = 0.
Proof using Type. intros Hs. unfold ch. by rewrite lookup_ge_None_2. Qed.
Lemma ch_inside s : ch b s <> 0 -> (s < es b)%nat.
Proof using Type. intros Hc. destruct (decide (s < es b)%nat); [done|]. rewrite ch_end in Hc by lia. done. Qed.

Lemma skip_loop_spec n s : (s <= es b)%nat -> (es b - s <= n)%nat ->
  let s' := skip_loop b n s in (s <= s' <= es b)%nat /\ (ch b s' <> 0 -> strchr whitespace (ch b s') = false) /\
  (strchr whitespace (ch b s) = false -> s' = s).
Proof using Type.
  revert s. induction n as [|n IH]; intros s Hs Hn; cbn [skip_loop].
  - split_and!; try lia. intros Hc. apply ch_inside in Hc. lia.
  - destruct (bool_decide (s < es b)%nat) eqn:E; cbn [andb].
    + apply bool_decide_eq_true in E. destruct (strchr whitespace (ch b s)) eqn:Ew; [|done].
      destruct (IH (S s) ltac:(lia) ltac:(lia)) as (? & ? & _). split_and!; try done; lia.
    + apply bool_decide_eq_false in E. split_and!; try lia; try done. intros Hc. apply ch_inside in Hc. lia.
Qed.

Lemma skip_ws_spec s : (s <= es b)%nat ->
  let s' := skip_ws b s in (s <= s' <= es b)%nat /\ (ch b s' <> 0 -> strchr whitespace (ch b s') = false) /\
  (strchr whitespace (ch b s) = false -> s' = s).
Proof using Type. intros Hs. by apply skip_loop_spec. Qed.

Lemma strchr_zero l : Forall (fun c => c <> 0) l -> strchr l 0 = false.
Proof using Type. induction 1 as [|x l Hx _ IH]; simpl; [done|]. by rewrite (proj2 (Z.eqb_neq _ _)). Qed.

Lemma skip_ws_idem s : (s <= es b)%nat -> skip_ws b (skip_ws b s) = skip_ws b s.
Proof using Type.
  intros Hs. destruct (skip_ws_spec s Hs) as (Hr & Hw & _). apply skip_ws_spec; [lia|].
  destruct (decide (ch b (skip_ws b s) = 0)) as [->|]; [done|auto].
Qed.

Lemma word_loop_spec n s : (s <= es b)%nat -> (es b - s <= n)%nat ->
  let s' := word_loop b n s in (s <= s' <= es b)%nat /\ (forall i, (s <= i < s')%nat -> plain (ch b i)) /\ ~ plain (ch b s').
Proof using Hb.
  revert s. induction n as [|n IH]; intros s Hs Hn; cbn [word_loop].
  - split_and!; try lia. unfold plain. rewrite ch_end by lia. tauto.
  - destruct (decide (s < es b)%nat) as [E|E]; [rewrite bool_decide_eq_true_2 by done|rewrite bool_decide_eq_false_2 by done]; cbn [andb].
    + destruct (strchr whitespace (ch b s)) eqn:Ew; cbn [negb andb]; [split_and!; try lia; unfold plain; intros (_ & ? & _); congruence|].
      destruct (strchr symbols (ch b s)) eqn:Es; cbn [negb]; [split_and!; try lia; unfold plain; intros (_ & _ & ?); congruence|].
      destruct (IH (S s) ltac:(lia) ltac:(lia)) as (? & Hp & ?). split_and!; try done; try lia. intros i Hi.
      destruct (decide (i = s)) as [->|]; [split_and!; [by apply ch_nonzero|done..]|apply Hp; lia].
    + split_and!; try lia. unfold plain. rewrite ch_end by lia. tauto.
Qed.

(** [safe s Q r]: the run from [s] ended with an error message, or further on in the line with [Q]. *)
Definition safe {A} (s : nat) (Q : A -> nat -> Prop) (r : res (A * nat)) : Prop :=
  match r with
  | Ok (a, s') => (s <= s' <= es b)%nat /\ Q a s'
  | Panic _ => True
  | _ => False
  end.

Lemma safe_bind {A B} s (m : K nat A) (f : A -> K nat B) Q R :
  safe s Q (m s) -> (forall a s', (s <= s' <= es b)%nat -> Q a s' -> safe s' R (f a s')) -> safe s R ((m ≫= f) s).
Proof using Type.
  unfold mbind, K_bind. destruct (m s) as [[a s']|?|?|?|]; simpl; try done. intros [Hs HQ] Hf. specialize (Hf a s' Hs HQ). simpl.
  destruct (f a s') as [[c s'']|?|?|?|]; simpl in *; try done. destruct Hf. split; [lia|done].
Qed.
Lemma safe_ret {A} s (a : A) (Q : A -> nat -> Prop) : (s <= es b)%nat -> Q a s -> safe s Q ((mret a : K nat A) s).
Proof using Type. intros. split; [lia|done]. Qed.
Lemma safe_mono {A} s r (Q R : A -> nat -> Prop) :
  safe s Q r -> (forall a s', (s <= s' <= es b)%nat -> Q a s' -> R a s') -> safe s R r.
Proof using Type. destruct r as [[a s']|?|?|?|]; simpl; try done. intros [? ?] HR. split; auto. Qed.

Lemma token_at_spec s : (s <= es b)%nat ->
  let '(ret, eq) := token_at b s in (s <= eq <= es b)%nat /\ (ch b s <> 0 -> strchr whitespace (ch b s) = false -> (s < eq)%nat) /\
    (ret = tok_a -> good_span (mk_span s eq)) /\ (ch b s = 0 -> ret = 0).
Proof using Hb.
  intros Hs. unfold token_at. destruct (ch b s =? 0) eqn:E0; zbool; [split_and!; try done; lia|].
  pose proof (ch_inside s E0) as Hin. destruct (strchr _ (ch b s)) eqn:E1.
  { split_and!; try lia. intros Er. rewrite Er in E1. discriminate E1. }
  destruct (ch b s =? 62) eqn:E2; [destruct (ch b (S s) =? 62) eqn:E3|]; zbool.
  - assert (S s < es b)%nat by (apply ch_inside; lia). split_and!; try lia; done.
  - split_and!; try lia; done.
  - destruct (word_loop_spec (es b - s) s Hs ltac:(lia)) as (Hr & Hp & Hn). fold (word_end b s) in *. split_and!; try lia; try done.
    intros Hc Hw. destruct (decide (s = word_end b s)) as [E|]; [|lia]. destruct Hn. rewrite <- E. split_and!; try done.
    cbn [strchr symbols] in *. rewrite !(Z.eqb_sym _ (ch b s)) in *. by repeat case_match; zbool.
Qed.

(** What the parser needs of [gettoken] and [peek]. *)
Lemma gettoken_safe s : (s <= es b)%nat ->
  safe s (fun t s' => (ch b (skip_ws b s) <> 0 -> (s < s')%nat) /\ (fst t <> 0 -> (s < s')%nat) /\ (fst t = tok_a -> good_span (snd t))) (gettoken b s).
Proof using Hb.
  intros Hs. unfold gettoken. ksimpl. destruct (skip_ws_spec s Hs) as (Hr & Hw & _).
  pose proof (token_at_spec (skip_ws b s) ltac:(lia)) as Ht. destruct (token_at b (skip_ws b s)) as [ret eq].
  destruct Ht as (He & Hlt & Ha & Hz). ksimpl. destruct (skip_ws_spec eq ltac:(lia)) as (Hr' & _). split; [lia|]. cbn [fst snd].
  assert (Hp : ch b (skip_ws b s) <> 0 -> (s < skip_ws b eq)%nat) by (intros Hc; specialize (Hlt Hc (Hw Hc)); lia).
  split_and!; try done. intros Hret. apply Hp. intros Hc. by apply Hret, Hz.
Qed.

Lemma peek_safe toks s : (s <= es b)%nat ->
  safe s (fun p s' => skip_ws b s' = s' /\ (p = true -> ch b s' <> 0)) (peek b toks s).
Proof using Type.
  intros Hs. unfold peek. ksimpl. destruct (skip_ws_spec s Hs) as (Hr & _ & _). split; [lia|]. split; [by apply skip_ws_idem|].
  intros [Hc _]%andb_true_iff. by zbool.
Qed.

(** ** Termination, and the words of a command *)

Fixpoint all_spans (Q : span -> Prop) (c : cmd) : Prop :=
  match c with
  | EXEC argv => Forall Q argv
  | REDIR c f _ _ => all_spans Q c /\ Q f
  | PIPE l r => all_spans Q l /\ all_spans Q r
  | LIST l r => all_spans Q l /\ all_spans Q r
  | BACK c => all_spans Q c
  end.
Abbreviation good := (all_spans good_span).

Lemma add_arg_good c w : good c -> good_span w -> good (add_arg c w).
Proof using Type.
  induction c as [argv|c IH f m d|l IHl r IHr|l IHl r IHr|c IH]; simpl; try done.
  - intros ? ?. apply Forall_app. split; [done|by constructor].
  - intros [? ?] ?. auto.
Qed.

Lemma parseredirs_loop_safe n c s : (s <= es b)%nat -> (es b - s < n)%nat -> good c ->
  safe s (fun c' _ => good c') (parseredirs_loop b n c s).
Proof using Hb.
  revert c s. induction n as [|n IH]; intros c s Hs Hn Hc; [lia|]. cbn [parseredirs_loop].
  eapply safe_bind; [apply peek_safe; lia|]. intros [] s1 Hs1 [Hi Hp]; cbn [negb]; [|apply safe_ret; [lia|done]].
  eapply safe_bind; [apply gettoken_safe; lia|]. intros t s2 Hs2 (Hpr & _ & _). rewrite Hi in Hpr. specialize (Hpr (Hp eq_refl)).
  eapply safe_bind; [apply gettoken_safe; lia|]. intros w s3 Hs3 (_ & _ & Hg).
  destruct (fst w =? tok_a) eqn:Ea; cbn [negb]; [|done]. zbool. specialize (Hg Ea).
  apply IH; [lia|lia|]. repeat case_match; simpl; done.
Qed.

Lemma args_loop_safe n ret argc s : (s <= es b)%nat -> (es b - s < n)%nat -> good ret ->
  safe s (fun c' _ => good c') (args_loop b n ret argc s).
Proof using Hb.
  revert ret argc s. induction n as [|n IH]; intros ret argc s Hs Hn Hc; [lia|]. cbn [args_loop].
  eapply safe_bind; [apply peek_safe; lia|]. intros [] s1 Hs1 [Hi Hp]; [apply safe_ret; [lia|done]|].
  eapply safe_bind; [apply gettoken_safe; lia|]. intros t s2 Hs2 (_ & Hpr & Hg).
  destruct (fst t =? 0) eqn:E0; [apply safe_ret; [lia|done]|]. destruct (fst t =? tok_a) eqn:Ea; cbn [negb]; [|done]. zbool. specialize (Hpr E0).
  case_bool_decide; [done|]. eapply safe_bind; [apply parseredirs_loop_safe; [lia|unfold rounds; lia|by apply add_arg_good; auto]|].
  intros c s3 Hs3 Hg3. apply IH; try done; lia.
Qed.

Lemma back_loop_safe n c s : (s <= es b)%nat -> (es b - s < n)%nat -> good c -> safe s (fun c' _ => good c') (back_loop b n c s).
Proof using Hb.
  revert c s. induction n as [|n IH]; intros c s Hs Hn Hc; [lia|]. cbn [back_loop].
  eapply safe_bind; [apply peek_safe; lia|]. intros [] s1 Hs1 [Hi Hp]; cbn [negb]; [|apply safe_ret; [lia|done]].
  eapply safe_bind; [apply gettoken_safe; lia|]. intros t s2 Hs2 (Hpr & _ & _). rewrite Hi in Hpr. specialize (Hpr (Hp eq_refl)).
  apply IH; [lia|lia|done].
Qed.

(** The fuel that the text left of the line needs at each level of the grammar. *)
Lemma parse_safe n : forall s, (s <= es b)%nat ->
  ((4 * (es b - s) + 4 <= n)%nat -> safe s (fun c _ => good c) (parseline b n s)) /\
  ((4 * (es b - s) + 3 <= n)%nat -> safe s (fun c _ => good c) (parsepipe b n s)) /\
  ((4 * (es b - s) + 2 <= n)%nat -> safe s (fun c _ => good c) (parseexec b n s)) /\
  ((4 * (es b - s) + 1 <= n)%nat -> safe s (fun c _ => good c) (parseblock b n s)).
Proof using Hb.
  induction n as [|n IH]; intros s Hs; [lia|]. split_and!; intros Hn.
  - cbn [parseline]. eapply safe_bind; [apply IH; lia|]. intros c s1 Hs1 Hc.
    eapply safe_bind; [apply back_loop_safe; [lia|unfold rounds; lia|done]|]. intros c2 s2 Hs2 Hc2.
    eapply safe_bind; [apply peek_safe; lia|]. intros [] s3 Hs3 [Hi Hp]; [|apply safe_ret; [lia|done]].
    eapply safe_bind; [apply gettoken_safe; lia|]. intros t s4 Hs4 (Hpr & _ & _). rewrite Hi in Hpr. specialize (Hpr (Hp eq_refl)).
    eapply safe_bind; [apply IH; lia|]. intros r s5 Hs5 Hr. apply safe_ret; [lia|done].
  - cbn [parsepipe]. eapply safe_bind; [apply IH; lia|]. intros c s1 Hs1 Hc.
    eapply safe_bind; [apply peek_safe; lia|]. intros [] s3 Hs3 [Hi Hp]; [|apply safe_ret; [lia|done]].
    eapply safe_bind; [apply gettoken_safe; lia|]. intros t s4 Hs4 (Hpr & _ & _). rewrite Hi in Hpr. specialize (Hpr (Hp eq_refl)).
    eapply safe_bind; [apply IH; lia|]. intros r s5 Hs5 Hr. apply safe_ret; [lia|done].
  - cbn [parseexec]. eapply safe_bind; [apply peek_safe; lia|]. intros [] s1 Hs1 [Hi Hp]; [apply IH; lia|].
    eapply safe_bind; [apply parseredirs_loop_safe; [lia|unfold rounds; lia|constructor]|]. intros c s2 Hs2 Hc.
    apply args_loop_safe; [lia|unfold rounds; lia|done].
  - cbn [parseblock]. eapply safe_bind; [apply peek_safe; lia|]. intros [] s1 Hs1 [Hi Hp]; cbn [negb]; [|done].
    eapply safe_bind; [apply gettoken_safe; lia|]. intros t s2 Hs2 (Hpr & _ & _). rewrite Hi in Hpr. specialize (Hpr (Hp eq_refl)).
    eapply safe_bind; [apply IH; lia|]. intros c s3 Hs3 Hc.
    eapply safe_bind; [apply peek_safe; lia|]. intros [] s4 Hs4 [Hi4 Hp4]; cbn [negb]; [|done].
    eapply safe_bind; [apply gettoken_safe; lia|]. intros t' s5 Hs5 _. apply parseredirs_loop_safe; [lia|unfold rounds; lia|done].
Qed.

(** ** [nulterminate] *)

Fixpoint ends (c : cmd) : list nat :=
  match c with
  | EXEC argv => tok_eq <$> argv
  | REDIR c f _ _ => ends c ++ [tok_eq f]
  | PIPE l r => ends l ++ ends r
  | LIST l r => ends l ++ ends r
  | BACK c => ends c
  end.
Definition zero_at (buf : list Z) (l : list nat) : list Z := foldl (fun buf i => <[i := 0]> buf) buf l.

Lemma nulterminate_ends c buf : nulterminate c buf = zero_at buf (ends c).
Proof using Type.
  revert buf. induction c as [argv|c IH f m d|l IHl r IHr|l IHl r IHr|c IH]; intros buf; simpl; unfold zero_at in *; rewrite ?foldl_app, ?IH, ?IHl, ?IHr; try done.
  clear. revert buf. induction argv as [|w argv IH]; intros buf; simpl; [done|]. by rewrite IH.
Qed.

Lemma lookup_zero_at buf l i :
  zero_at buf l !! i = if decide (i ∈ l) then (fun _ => 0) <$> buf !! i else buf !! i.
Proof using Type.
  revert buf. induction l as [|j l IH]; intros buf; cbn [zero_at foldl]; [by rewrite decide_False by apply not_elem_of_nil|].
  fold (zero_at (<[j := 0]> buf) l). rewrite IH. destruct (decide (i = j)) as [->|Hne].
  - rewrite (decide_True (P := j ∈ j :: l)) by apply list_elem_of_here.
    destruct (decide (j < length buf)%nat) as [Hlt|Hge].
    + rewrite list_lookup_insert_eq by done. destruct (lookup_lt_is_Some_2 _ _ Hlt) as [x Hx]. rewrite Hx. by case_decide.
    + rewrite list_insert_ge, lookup_ge_None_2 by lia. by case_decide.
  - rewrite list_lookup_insert_ne by done. destruct (decide (i ∈ l)) as [Hin|Hin].
    + by rewrite decide_True by by apply list_elem_of_further.
    + rewrite decide_False; [done|]. rewrite not_elem_of_cons. done.
Qed.

Lemma ends_bad c i : good c -> i ∈ ends c -> ~ plain (ch b i) /\ (i <= es b)%nat.
Proof using Type.
  induction c as [argv|c IH f m d|l IHl r IHr|l IHl r IHr|c IH]; simpl.
  - intros Hg (w & -> & Hw)%list_elem_of_fmap. rewrite Forall_forall in Hg. destruct (Hg w Hw) as (? & _ & ?). split; [done|lia].
  - intros [Hc Hf] [Hi|Hi]%elem_of_app; [by apply IH|]. apply list_elem_of_singleton in Hi as ->. destruct Hf as (? & _ & ?). split; [done|lia].
  - intros [Hl Hr] [Hi|Hi]%elem_of_app; auto.
  - intros [Hl Hr] [Hi|Hi]%elem_of_app; auto.
  - auto.
Qed.

Lemma cname_take l n : (forall i, (i < n)%nat -> exists c, l !! i = Some c /\ c <> 0) -> l !! n = Some 0 -> cname l = take n l.
Proof using Type.
  revert n. induction l as [|x l IH]; intros n Hnz Hz; [done|]. destruct n as [|n]; simpl.
  - by injection Hz as ->.
  - destruct (Hnz 0%nat ltac:(lia)) as (c & [= ->] & Hc). rewrite (proj2 (Z.eqb_neq _ _) Hc). f_equal. apply IH; [|done].
    intros i Hi. apply (Hnz (S i)). lia.
Qed.

Lemma word_cstr_text l w :
  (forall i, i ∈ l -> ~ plain (ch b i) /\ (i <= es b)%nat) -> good_span w -> tok_eq w ∈ l ->
  word_cstr (zero_at (b ++ [0]) l) w = word_text b w.
Proof using Type.
  intros Hl (Hr & Hp & Hn) Hin. unfold word_cstr, word_text.
  assert (Hsame : forall i, (tok_q w <= i < tok_eq w)%nat -> zero_at (b ++ [0]) l !! i = b !! i).
  { intros i Hi. rewrite lookup_zero_at, decide_False by (intros Hi'; apply (Hl i Hi'), Hp; lia). apply lookup_app_l. unfold es in Hr. lia. }
  rewrite (cname_take _ (tok_eq w - tok_q w)).
  - apply list_eq. intros i. destruct (decide (i < tok_eq w - tok_q w)%nat) as [Hi|Hi].
    + rewrite !lookup_take_lt, !lookup_drop by done. apply Hsame. lia.
    + by rewrite !lookup_take_ge by lia.
  - intros i Hi. rewrite lookup_drop, Hsame by lia. specialize (Hp (tok_q w + i)%nat ltac:(lia)) as (Hc & _). unfold ch in Hc.
    destruct (b !! (tok_q w + i)%nat) as [c|]; [|done]. by exists c.
  - rewrite lookup_drop. replace (tok_q w + (tok_eq w - tok_q w))%nat with (tok_eq w) by lia. rewrite lookup_zero_at, decide_True by done.
    destruct (lookup_lt_is_Some_2 (b ++ [0]) (tok_eq w)) as [x ->]; [rewrite length_app; unfold es in Hr; simpl; lia|done].
Qed.

Lemma read_cmd_ext f g c : all_spans (fun w => f w = g w) c -> read_cmd f c = read_cmd g c.
Proof using Type.
  induction c as [argv|c IH x m d|l IHl r IHr|l IHl r IHr|c IH]; simpl; intros Hs.
  - f_equal. apply list_fmap_ext. intros i w Hw. by apply (proj1 (Forall_lookup _ _) Hs i).
  - destruct Hs as [? ?]. f_equal; auto.
  - destruct Hs as [? ?]. f_equal; auto.
  - destruct Hs as [? ?]. f_equal; auto.
  - f_equal; auto.
Qed.

Lemma all_spans_ends Q c (l : list nat) : all_spans Q c -> (forall i, i ∈ ends c -> i ∈ l) -> all_spans (fun w => Q w /\ tok_eq w ∈ l) c.
Proof using Type.
  induction c as [argv|c IH x m d|a IHa r IHr|a IHa r IHr|c IH]; simpl; intros Hs Hl.
  - apply Forall_forall. intros w Hw. split; [by apply (proj1 (Forall_forall _ _) Hs)|]. apply Hl, list_elem_of_fmap. by exists w.
  - destruct Hs as [? ?]. split; [apply IH; [done|]; intros; apply Hl, elem_of_app; by left|]. split; [done|].
    apply Hl, elem_of_app. right. by apply list_elem_of_singleton.
  - destruct Hs as [? ?]. split; [apply IHa|apply IHr]; try done; intros; apply Hl, elem_of_app; tauto.
  - destruct Hs as [? ?]. split; [apply IHa|apply IHr]; try done; intros; apply Hl, elem_of_app; tauto.
  - auto.
Qed.

Lemma all_spans_impl (Q R : span -> Prop) c : (forall w, Q w -> R w) -> all_spans Q c -> all_spans R c.
Proof using Type.
  intros H. induction c as [argv|c IH x m d|l IHl r IHr|l IHl r IHr|c IH]; simpl; [|tauto || naive_solver..].
  intros Hf. by eapply Forall_impl.
Qed.

Lemma nulterminate_words c : good c -> read_cmd (word_cstr (nulterminate c (b ++ [0]))) c = read_cmd (word_text b) c.
Proof using Type.
  intros Hg. rewrite nulterminate_ends. apply read_cmd_ext. eapply all_spans_impl; [|exact (all_spans_ends _ c (ends c) Hg (fun _ H => H))].
  intros w [Hw Hin]. apply word_cstr_text; [|done..]. intros i. by apply ends_bad.
Qed.
End Lexer.

(** C27: the shell's parser stops on every line, with a command or with an error message.  The words of the
    command are exact words of the line, and after [nulterminate] has put a NUL after each of them in the line itself
    every word, read as a C string, is still what it was: no NUL cuts another word. *)
Theorem parsecmd_total (b : list Z) :
  Forall (fun c => c <> 0) b ->
  match parsecmd b with
  | Ok (c, buf) => length buf = S (length b) /\ all_spans (good_span b) c /\ read_cmd (word_cstr buf) c = read_cmd (word_text b) c
  | Panic _ => True
  | _ => False
  end.
Proof.
  intros Hb. unfold parsecmd. assert (Hp : safe b 0 (fun c _ => all_spans (good_span b) c)
    ((c ← parseline b (parse_fuel b); peek b [];; s ← get; if bool_decide (s = es b) then mret c else panic "syntax") 0%nat)).
  { eapply safe_bind; [apply (parse_safe b Hb); unfold parse_fuel; lia|]. intros c s Hs Hc.
    eapply safe_bind; [apply peek_safe; lia|]. intros p s' Hs' _. ksimpl. case_bool_decide; [|done]. apply safe_ret; [lia|done]. }
  destruct ((parseline b (parse_fuel b) ≫= _) 0%nat) as [[c s]|?|?|?|]; simpl in *; try done. destruct Hp as [_ Hg]. split_and!.
  - rewrite nulterminate_ends. generalize (ends c). intros l. change (S (length b)) with (1 + length b)%nat.
    assert (Hlen : forall buf, length (zero_at buf l) = length buf) by (induction l as [|i l IH]; intros buf; simpl; [done|]; rewrite IH; apply length_insert).
    rewrite Hlen, length_app. simpl. lia.
  - done.
  - by apply nulterminate_words.
Qed.
