(* ===== verification/ShPrint.v ===== *)
(** * Shell commands printed and parsed

    [print] writes a command as a line, with parentheses where the grammar of
    [src/user/sh.c] asks for them; the parser of [Sh] reads it back. *)

From stdpp Require Import base numbers list list_numbers sets strings.
From Stdlib Require Import ZArith Lia.
From S2P Require Import Prelude Params Path Sh ShProof.

(** ** Tokens *)

Inductive tok := TW (w : list Z) | TS (c : Z) | TApp.
Definition text (t : tok) : list Z := match t with TW w => w | TS c => [c] | TApp => [62; 62] end.
Definition code (t : tok) : Z := match t with TW _ => tok_a | TS c => c | TApp => tok_app end.
Definition word_ok (w : list Z) : Prop := w <> [] /\ Forall plain w.
Definition tok_ok (t : tok) : Prop := match t with TW w => word_ok w | TS c => strchr symbols c = true | TApp => True end.
Definition render (ts : list tok) : list Z := concat ((fun t => text t ++ [32]) <$> ts).

Definition op_tok (mode : Z) : tok := if mode =? O_RDONLY then TS 60 else if Z.testbit mode 10 then TS 62 else TApp.
Definition mode_ok (mode fd : Z) : Prop :=
  (mode = O_RDONLY /\ fd = 0) \/ (mode = Z.lor (Z.lor O_WRONLY O_CREATE) O_TRUNC /\ fd = 1) \/ (mode = Z.lor O_WRONLY O_CREATE /\ fd = 1).

(** The levels of the grammar: 0 a line, 1 a line up to the semicolon, 2 a pipeline, 3 a command of a pipeline. *)
Definition parens (p : bool) (l : list tok) : list tok := if p then TS 40 :: l ++ [TS 41] else l.
Fixpoint toks (lvl : nat) (c : command) : list tok :=
  match c with
  | CExec ws => TW <$> ws
  | CRedir c f m d => toks 3 c ++ [op_tok m; TW f]
  | CPipe l r => parens (bool_decide (2 < lvl)%nat) (toks 3 l ++ TS 124 :: toks 2 r)
  | CBack c => parens (bool_decide (1 < lvl)%nat) (toks 1 c ++ [TS 38])
  | CList l r => parens (bool_decide (0 < lvl)%nat) (toks 1 l ++ TS 59 :: toks 0 r)
  end.
Definition print (c : command) : list Z := render (toks 0 c).

(** What can be written down: words without blanks and symbols, fewer than [MAXARGS] of them, and
    the modes of the three operators. *)
Fixpoint printable (c : command) : Prop :=
  match c with
  | CExec ws => Forall word_ok ws /\ (length ws < MAXARGS)%nat
  | CRedir c f m d => printable c /\ word_ok f /\ mode_ok m d
  | CPipe l r => printable l /\ printable r
  | CBack c => printable c
  | CList l r => printable l /\ printable r
  end.

Lemma strchr_elem l c : strchr l c = true <-> c ∈ l.
Proof.
  induction l as [|x l IH]; simpl; [set_solver|]. destruct (x =? c) eqn:E; zbool; rewrite elem_of_cons; [set_solver|]. rewrite IH. set_solver.
Qed.

(** What may follow a phrase of each level. *)
Definition follows (lvl : nat) : list Z :=
  match lvl with O => [41] | S O => [59; 41] | S (S O) => [38; 59; 41] | _ => [124; 38; 59; 41] end.
Definition follow (lvl : nat) (rest : list tok) : Prop :=
  rest = [] \/ exists c ts, rest = TS c :: ts /\
    c ∈ follows lvl.

Lemma follow_le l l' rest : (l <= l')%nat -> follow l rest -> follow l' rest.
Proof.
  intros Hl [->|(c & ts & -> & Hc)]; [by left|]. right. exists c, ts. split; [done|].
  destruct l as [|[|[|l]]], l' as [|[|[|l']]]; try lia; simpl in *; set_solver.
Qed.

(** ** The lexer on printed tokens *)

Section Print.
Context (b : list Z) (Hb : Forall (fun c => c <> 0) b).

Definition at_toks (pos : nat) (ts : list tok) : Prop := (pos <= es b)%nat /\ drop pos b = render ts /\ Forall tok_ok ts.

Definition first (t : tok) : Z := match t with TW w => hd 0 w | TS c => c | TApp => 62 end.
Definition next (ts : list tok) : Z := match ts with [] => 0 | t :: _ => first t end.

Lemma ch_drop pos l i : drop pos b = l -> ch b (pos + i) = default 0 (l !! i).
Proof using Type. intros <-. unfold ch. by rewrite lookup_drop. Qed.

Lemma text_nonempty t : tok_ok t -> exists c l, text t = c :: l /\ first t = c.
Proof using Type.
  destruct t as [w|c|]; simpl; [|by exists c, []|by exists 62, [62]]. intros [Hw _]. destruct w as [|c l]; [done|]. by exists c, l.
Qed.

Lemma ch_next pos ts : at_toks pos ts -> ch b pos = next ts.
Proof using Type.
  intros (_ & Hd & Hf). replace pos with (pos + 0)%nat at 1 by lia. rewrite (ch_drop _ _ 0 Hd). destruct ts as [|t ts]; [done|].
  apply Forall_cons in Hf as [Ht _]. destruct (text_nonempty t Ht) as (c & l & E & Ef). unfold render. simpl. by rewrite E, Ef.
Qed.

Lemma strchr_sub l l' c : (forall x : Z, x ∈ l -> x ∈ l') -> strchr l' c = false -> strchr l c = false.
Proof using Type. rewrite <- !not_true_iff_false, !strchr_elem. auto. Qed.

Lemma symbol_not_ws c : strchr symbols c = true -> strchr whitespace c = false /\ c <> 0.
Proof using Type. cbn [strchr symbols whitespace]. repeat (destruct (_ =? _) eqn:?; zbool; subst; try done). Qed.

Lemma first_not_ws t : tok_ok t -> strchr whitespace (first t) = false /\ first t <> 0.
Proof using Type.
  destruct t as [w|c|]; simpl; [|apply symbol_not_ws|done]. intros [Hw Hp]. destruct w as [|c l]; [done|]. apply Forall_cons in Hp as [(? & ? & _) _]. done.
Qed.

Lemma next_not_ws ts : Forall tok_ok ts -> strchr whitespace (next ts) = false.
Proof using Type. destruct ts as [|t ts]; [done|]. intros [Ht _]%Forall_cons. by apply first_not_ws. Qed.

Lemma skip_at pos ts : at_toks pos ts -> skip_ws b pos = pos.
Proof using Type. intros Ha. pose proof Ha as (Hp & _ & Hf). apply skip_ws_spec; [done|]. rewrite (ch_next pos ts Ha). by apply next_not_ws. Qed.

Lemma peek_toks l pos ts : at_toks pos ts -> peek b l pos = Ok (negb (next ts =? 0) && strchr l (next ts), pos).
Proof using Type. intros Ha. unfold peek. ksimpl. rewrite (skip_at pos ts Ha). by rewrite (ch_next pos ts Ha). Qed.

(** Past a token, on the blank that follows it. *)
Lemma after_token pos t ts : at_toks pos (t :: ts) ->
  let eq := (pos + length (text t))%nat in at_toks (S eq) ts /\ skip_ws b eq = S eq /\ ch b eq = 32 /\
  word_text b (mk_span pos eq) = text t /\ (forall i, (i < length (text t))%nat -> ch b (pos + i) = default 0 (text t !! i)).
Proof using Type.
  intros (Hp & Hd & Hf). apply Forall_cons in Hf as [Ht Hts]. unfold render in Hd. cbn [fmap list_fmap concat] in Hd. rewrite <- app_assoc in Hd.
  change (concat _) with (render ts) in Hd. set (eq := (pos + length (text t))%nat).
  assert (Hlen : (S eq <= es b)%nat).
  { apply (f_equal length) in Hd. rewrite length_drop, !length_app in Hd. simpl in Hd. unfold es, eq in *. lia. }
  assert (Hd' : drop (S eq) b = render ts).
  { replace (S eq) with (pos + (length (text t) + 1))%nat by (unfold eq; lia). rewrite <- drop_drop, Hd.
    rewrite drop_app_ge by lia. by replace (length (text t) + 1 - length (text t))%nat with 1%nat by lia. }
  assert (Ha : at_toks (S eq) ts) by (split; [done|]; split; done).
  assert (Hch : forall i, (i < length (text t))%nat -> ch b (pos + i) = default 0 (text t !! i)).
  { intros i Hi. rewrite (ch_drop _ _ i Hd). by rewrite lookup_app_l. }
  assert (Hsp : ch b eq = 32).
  { unfold eq. rewrite (ch_drop _ _ _ Hd). rewrite lookup_app_r, Nat.sub_diag by lia. done. }
  split_and!; try done.
  - unfold skip_ws. destruct (es b - eq)%nat as [|n] eqn:En; [lia|]. cbn [skip_loop]. rewrite bool_decide_eq_true_2 by lia. rewrite Hsp. cbn [andb strchr whitespace Z.eqb Pos.eqb].
    replace n with (es b - S eq)%nat by lia. apply (skip_at (S eq) ts Ha).
  - unfold word_text. cbn [tok_q tok_eq]. replace (eq - pos)%nat with (length (text t)) by (unfold eq; lia). rewrite Hd. apply take_app_length.
Qed.

Lemma word_end_at pos w ts : at_toks pos (TW w :: ts) -> word_end b pos = (pos + length w)%nat.
Proof using Hb.
  intros Ha. pose proof Ha as (Hp & _ & Hf). apply Forall_cons in Hf as [[_ Hw] _]. destruct (after_token _ _ _ Ha) as (_ & _ & Hsp & _ & Hch). cbn [text] in *.
  destruct (word_loop_spec b Hb (es b - pos) pos Hp ltac:(lia)) as (Hr & Hpl & Hn). fold (word_end b pos) in *.
  assert (Hin : forall i, (i < length w)%nat -> plain (ch b (pos + i))).
  { intros i Hi. rewrite Hch by done. destruct (lookup_lt_is_Some_2 w i Hi) as [c Hc]. rewrite Hc. by apply (proj1 (Forall_lookup _ _) Hw i). }
  destruct (decide (word_end b pos < pos + length w)%nat) as [Hlt|Hge].
  - destruct Hn. specialize (Hin (word_end b pos - pos)%nat ltac:(lia)). by replace (pos + (word_end b pos - pos))%nat with (word_end b pos) in Hin by lia.
  - destruct (decide (word_end b pos = pos + length w)%nat); [done|]. specialize (Hpl (pos + length w)%nat ltac:(lia)) as (_ & Hbad & _). by rewrite Hsp in Hbad.
Qed.

Lemma token_at_toks pos t ts : at_toks pos (t :: ts) -> token_at b pos = (code t, pos + length (text t))%nat.
Proof using Hb.
  intros Ha. pose proof Ha as (_ & _ & Hf). apply Forall_cons in Hf as [Ht _]. destruct (first_not_ws t Ht) as [_ Hnz].
  unfold token_at. rewrite (ch_next _ _ Ha). cbn [next]. rewrite (proj2 (Z.eqb_neq _ _) Hnz). destruct t as [w|c|]; cbn [first text code length] in *.
  - destruct Ht as [Hne Hp]. destruct w as [|c w]; [done|]. apply Forall_cons in Hp as [(_ & _ & Hs) _]. cbn [hd] in *.
    assert (E : strchr [124; 40; 41; 59; 38; 60] c = false /\ (c =? 62) = false).
    { split; [by apply (strchr_sub _ symbols); [set_solver|]|]. apply Z.eqb_neq. intros ->. done. }
    destruct E as [-> ->]. f_equal. by apply (word_end_at pos (c :: w) ts).
  - destruct (after_token _ _ _ Ha) as (_ & _ & Hsp & _). cbn [text length] in Hsp. rewrite Nat.add_1_r in Hsp |- *.
    destruct (strchr [124; 40; 41; 59; 38; 60] c) eqn:E; [done|]. assert (c = 62) as ->; [|by rewrite Hsp].
    apply strchr_elem in Ht. apply not_true_iff_false in E. rewrite strchr_elem in E. set_solver.
  - destruct (after_token _ _ _ Ha) as (_ & _ & _ & _ & Hch). cbn [text length] in Hch. cbn [strchr Z.eqb Pos.eqb].
    rewrite <- (Nat.add_1_r pos), (Hch 1%nat) by lia. cbn. f_equal. lia.
Qed.

Lemma gettoken_toks pos t ts : at_toks pos (t :: ts) ->
  exists w pos', gettoken b pos = Ok ((code t, w), pos') /\ at_toks pos' ts /\ word_text b w = text t.
Proof using Hb.
  intros Ha. destruct (after_token _ _ _ Ha) as (Ha' & Hsk & _ & Hw & _). unfold gettoken. ksimpl. rewrite (skip_at _ _ Ha), (token_at_toks _ _ _ Ha). ksimpl.
  rewrite Hsk. eexists _, _. split; [reflexivity|]. done.
Qed.
Lemma gettoken_end pos : at_toks pos [] -> exists w, gettoken b pos = Ok ((0, w), pos).
Proof using Type.
  intros Ha. unfold gettoken. ksimpl. rewrite (skip_at _ _ Ha). unfold token_at. rewrite (ch_next _ _ Ha). cbn [next Z.eqb]. ksimpl.
  rewrite (skip_at _ _ Ha). eexists. reflexivity.
Qed.

(** ** The parser on printed commands *)

Abbreviation read := (read_cmd (word_text b)).

Lemma peek_follow lvl l pos rest : at_toks pos rest -> follow lvl rest ->
  (forall c, c ∈ l -> c ∉ follows lvl) ->
  peek b l pos = Ok (false, pos).
Proof using Hb.
  intros Ha Hf Hl. rewrite (peek_toks l pos rest Ha). destruct Hf as [->|(c & ts & -> & Hc)]; [done|]. cbn [next first].
  destruct (strchr l c) eqn:E; [|by rewrite andb_false_r]. apply strchr_elem in E. by destruct (Hl c E).
Qed.

Lemma peek_symbol l pos c rest : at_toks pos (TS c :: rest) -> c ∈ l -> peek b l pos = Ok (true, pos).
Proof using Hb.
  intros Ha Hc. rewrite (peek_toks l pos _ Ha). destruct Ha as (_ & _ & Hf). apply Forall_cons in Hf as [Ht _]. cbn [next first].
  destruct (symbol_not_ws c Ht) as [_ Hz]. rewrite (proj2 (Z.eqb_neq _ _) Hz). by rewrite (proj2 (strchr_elem l c) Hc).
Qed.

Lemma peek_word l pos w rest : at_toks pos (TW w :: rest) -> (forall x : Z, x ∈ l -> x ∈ symbols) -> peek b l pos = Ok (false, pos).
Proof using Hb.
  intros Ha Hl. rewrite (peek_toks l pos _ Ha). destruct Ha as (_ & _ & Hf). apply Forall_cons in Hf as [[Hne Hp] _]. cbn [next first].
  destruct w as [|c w]; [done|]. apply Forall_cons in Hp as [(_ & _ & Hs) _]. cbn [hd]. rewrite (strchr_sub l symbols c Hl Hs). by rewrite andb_false_r.
Qed.

(** Redirections after a command *)
Abbreviation redir := (list Z * Z * Z)%type.
Definition redir_toks (rs : list redir) : list tok := rs ≫= (fun '(f, m, _) => [op_tok m; TW f]).
Definition wrap (c : command) (rs : list redir) : command := foldl (fun c '(f, m, d) => CRedir c f m d) c rs.
Definition redir_ok (r : redir) : Prop := let '(f, m, d) := r in word_ok f /\ mode_ok m d.

Lemma redirs_loop_ok rs n c pos rest : Forall redir_ok rs -> follow 3 rest -> at_toks pos (redir_toks rs ++ rest) -> (length rs < n)%nat ->
  exists c' pos', parseredirs_loop b n c pos = Ok (c', pos') /\ at_toks pos' rest /\ read c' = wrap (read c) rs.
Proof using Hb.
  intros Hrs Hf. revert n c pos. induction Hrs as [|[[f m] d] rs [Hw Hm] Hrs IH]; intros [|n] c pos Ha Hn; simpl in Hn; try lia; cbn [parseredirs_loop].
  { kstep (peek_follow 3 [60; 62] pos rest Ha Hf ltac:(simpl; set_solver)). eexists _, _. split; [reflexivity|]. done. }
  cbn [redir_toks mbind list_bind app] in Ha. change (list_bind _ _ _ rs) with (redir_toks rs) in Ha.
  assert (Hp : peek b [60; 62] pos = Ok (true, pos)).
  { rewrite (peek_toks _ pos _ Ha). cbn [next]. by destruct Hm as [[-> ->]|[[-> ->]|[-> ->]]]. }
  kstep Hp. cbn [negb].
  destruct (gettoken_toks _ _ _ Ha) as (t & p1 & E1 & Ha1 & _). kstep E1.
  destruct (gettoken_toks _ _ _ Ha1) as (w & p2 & E2 & Ha2 & Ht). kstep E2. cbn [text code] in Ht.
  assert (E : forall c1, read c1 = CRedir (read c) f m d -> exists c' pos', parseredirs_loop b n c1 p2 = Ok (c', pos') /\ at_toks pos' rest /\
    read c' = wrap (read c) ((f, m, d) :: rs)).
  { intros c1 Hc1. destruct (IH n c1 p2 Ha2 ltac:(lia)) as (c' & p' & E & Ha' & Hr). exists c', p'. split; [done|]. split; [done|]. by rewrite Hr, Hc1. }
  destruct Hm as [[-> ->]|[[-> ->]|[-> ->]]]; apply E; rewrite <- Ht; reflexivity.
Qed.

Lemma length_toks pos ts : at_toks pos ts -> (length ts <= es b - pos)%nat.
Proof using Hb.
  intros (Hp & Hd & Hf). apply (f_equal length) in Hd. rewrite length_drop in Hd. unfold es in *. rewrite Hd. clear Hd Hp.
  induction ts as [|t ts IH]; [done|]. apply Forall_cons in Hf as [_ Hf]. specialize (IH Hf).
  change (render (t :: ts)) with ((text t ++ [32]) ++ render ts). rewrite !length_app. simpl. lia.
Qed.

Lemma redirs_ok rs c pos rest : Forall redir_ok rs -> follow 3 rest -> at_toks pos (redir_toks rs ++ rest) ->
  exists c' pos', parseredirs b c pos = Ok (c', pos') /\ at_toks pos' rest /\ read c' = wrap (read c) rs.
Proof using Hb.
  intros Hrs Hf Ha. apply redirs_loop_ok; try done. pose proof (length_toks _ _ Ha) as Hl. rewrite length_app in Hl.
  assert (length rs <= length (redir_toks rs))%nat; [|unfold rounds; lia]. clear. induction rs as [|[[f m] d] rs IH]; [done|].
  change (redir_toks ((f, m, d) :: rs)) with ([op_tok m; TW f] ++ redir_toks rs). rewrite length_app. simpl. lia.
Qed.
Lemma redirs_none c pos w rest : at_toks pos (TW w :: rest) -> parseredirs b c pos = Ok (c, pos).
Proof using Hb. intros Ha. unfold parseredirs, rounds. cbn [parseredirs_loop]. kstep (peek_word [60; 62] _ _ _ Ha ltac:(set_solver)). done. Qed.

(** Words, then redirections *)
Lemma args_end n ret argc pos rest : follow 3 rest -> at_toks pos rest -> args_loop b (S n) ret argc pos = Ok (ret, pos).
Proof using Hb.
  intros [->|(c & ts & -> & Hc)] Ha; cbn [args_loop].
  - kstep (peek_toks [124; 41; 38; 59] _ _ Ha). cbn [next Z.eqb negb andb]. destruct (gettoken_end _ Ha) as [w E]. kstep E. done.
  - rewrite (bind_ok _ _ _ _ _ (peek_symbol [124; 41; 38; 59] _ _ _ Ha ltac:(simpl in Hc; set_solver))). done.
Qed.

Lemma args_ok w ws n ret argv argc rs pos rest : Forall redir_ok rs -> follow 3 rest ->
  at_toks pos ((TW <$> w :: ws) ++ redir_toks rs ++ rest) -> (argc + length (w :: ws) < MAXARGS)%nat -> (S (length ws) < n)%nat ->
  ret = EXEC argv ->
  exists c' pos', args_loop b n ret argc pos = Ok (c', pos') /\ at_toks pos' rest /\
    read c' = wrap (CExec ((word_text b <$> argv) ++ w :: ws)) rs.
Proof using Hb.
  intros Hrs Hf. revert w n ret argv argc pos. induction ws as [|w' ws IH]; intros w [|n] ret argv argc pos Ha Hargc Hn ->; simpl in Hargc, Hn; try lia;
    cbn [args_loop]; rewrite (bind_ok _ _ _ _ _ (peek_word [124; 41; 38; 59] _ _ _ Ha ltac:(set_solver))); cbn [fmap list_fmap app] in Ha;
    destruct (gettoken_toks _ _ _ Ha) as (t & p1 & E1 & Ha1 & Ht); kstep E1; cbn [code fst snd add_arg text] in *;
    rewrite bool_decide_eq_false_2 by lia; cbn [negb Z.eqb tok_a Pos.eqb].
  - destruct (redirs_ok rs (EXEC (argv ++ [t])) p1 rest Hrs Hf Ha1) as (c' & p2 & E2 & Ha2 & Hr). kstep E2.
    destruct n as [|n]; [lia|]. rewrite (args_end n c' _ p2 rest Hf Ha2). exists c', p2. split; [done|]. split; [done|].
    rewrite Hr. cbn [read_cmd]. rewrite fmap_app. cbn [fmap list_fmap]. by rewrite Ht.
  - kstep (redirs_none (EXEC (argv ++ [t])) _ _ _ Ha1).
    destruct (IH w' n (EXEC (argv ++ [t])) _ (S argc) p1 Ha1 ltac:(simpl; lia) ltac:(lia) eq_refl) as (c' & p2 & E2 & Ha2 & Hr).
    exists c', p2. split; [done|]. split; [done|]. rewrite Hr, fmap_app, <- app_assoc. cbn [fmap list_fmap]. by rewrite Ht.
Qed.

(** A phrase is read whole, whatever may follow it. *)
Definition parses (p : nat -> K nat cmd) (need lvl : nat) (c : command) (ts : list tok) : Prop :=
  forall n pos rest, (need <= n)%nat -> follow lvl rest -> at_toks pos (ts ++ rest) ->
  exists c' pos', p n pos = Ok (c', pos') /\ at_toks pos' rest /\ read c' = c.

Fixpoint backs (c : command) : nat := match c with CBack c => S (backs c) | _ => 0%nat end.

Definition line_ok (c : command) : Prop := parses (parseline b) (4 * length (toks 0 c) + 4) 0 c (toks 0 c).
Definition backs_ok (c : command) : Prop :=
  forall n m pos rest, (4 * length (toks 1 c) + 3 <= n)%nat -> (backs c < m)%nat -> follow 2 rest -> at_toks pos (toks 1 c ++ rest) ->
  exists c' pos', (parsepipe b n ≫= back_loop b m) pos = back_loop b (m - backs c) c' pos' /\ at_toks pos' rest /\ read c' = c.
Definition pipe_ok (c : command) : Prop := parses (parsepipe b) (4 * length (toks 2 c) + 3) 2 c (toks 2 c).
Definition exec_ok (c : command) : Prop :=
  forall rs, Forall redir_ok rs -> parses (parseexec b) (4 * length (toks 3 c) + 2) 3 (wrap c rs) (toks 3 c ++ redir_toks rs).

Lemma peek_redirs rs pos rest : Forall redir_ok rs -> follow 3 rest -> at_toks pos (redir_toks rs ++ rest) -> peek b [40] pos = Ok (false, pos).
Proof using Hb.
  intros Hrs Hf Ha. destruct rs as [|[[f m] d] rs]; [by apply (peek_follow 3 [40] pos rest Ha Hf); simpl; set_solver|].
  apply Forall_cons in Hrs as [[_ Hm] _]. rewrite (peek_toks _ _ _ Ha). cbn [next redir_toks mbind list_bind app]. by destruct Hm as [[-> ->]|[[-> ->]|[-> ->]]].
Qed.

Lemma exec_words ws : Forall word_ok ws -> (length ws < MAXARGS)%nat -> exec_ok (CExec ws).
Proof using Hb.
  intros Hws Hl rs Hrs [|n] pos rest Hn Hf Ha; [lia|]. cbn [parseexec]. rewrite <- app_assoc in Ha. cbn [toks] in Ha. destruct ws as [|w ws].
  - kstep (peek_redirs rs pos rest Hrs Hf Ha). destruct (redirs_ok rs (EXEC []) pos rest Hrs Hf Ha) as (c' & p1 & E1 & Ha1 & Hr). kstep E1.
    exists c', p1. split; [by apply (args_end _ _ _ _ rest)|]. done.
  - kstep (peek_word [40] _ _ _ Ha ltac:(set_solver)). kstep (redirs_none (EXEC []) _ _ _ Ha).
    destruct (args_ok w ws (rounds b) (EXEC []) [] 0 rs pos rest Hrs Hf Ha) as (c' & p1 & E1 & Ha1 & Hr); try done.
    { pose proof (length_toks _ _ Ha) as Hle. rewrite length_app, length_fmap in Hle. simpl in Hle. unfold rounds. destruct Ha as [? _]. lia. }
    by exists c', p1.
Qed.

Lemma exec_redir c f m d : word_ok f -> mode_ok m d -> exec_ok c -> exec_ok (CRedir c f m d).
Proof using Hb.
  intros Hw Hm Hc rs Hrs n pos rest Hn Hf Ha. cbn [toks] in *. rewrite length_app in Hn. simpl in Hn.
  apply (Hc ((f, m, d) :: rs) ltac:(constructor; done) n pos rest); [lia|done|]. rewrite <- app_assoc in Ha |- *. by rewrite <- app_assoc in Ha.
Qed.

(** ( line ) *)
Lemma exec_block c : toks 3 c = TS 40 :: toks 0 c ++ [TS 41] -> line_ok c -> exec_ok c.
Proof using Hb.
  intros E Hc rs Hrs n pos rest Hn Hf Ha. rewrite E in Hn, Ha. simpl in Hn. rewrite length_app in Hn. simpl in Hn.
  destruct n as [|[|n]]; try lia. cbn [parseexec parseblock]. rewrite <- app_assoc in Ha. cbn [app] in Ha. rewrite <- app_assoc in Ha. cbn [app] in Ha.
  kstep (peek_symbol [40] _ _ _ Ha ltac:(set_solver)). kstep (peek_symbol [40] _ _ _ Ha ltac:(set_solver)). cbn [negb].
  destruct (gettoken_toks _ _ _ Ha) as (t & p1 & E1 & Ha1 & _). kstep E1.
  destruct (Hc n p1 (TS 41 :: redir_toks rs ++ rest)) as (c' & p2 & E2 & Ha2 & Hr); [lia|right; eexists _, _; split; [done|]; simpl; set_solver|done|].
  kstep E2. kstep (peek_symbol [41] _ _ _ Ha2 ltac:(set_solver)). cbn [negb].
  destruct (gettoken_toks _ _ _ Ha2) as (t' & p3 & E3 & Ha3 & _). kstep E3.
  destruct (redirs_ok rs c' p3 rest Hrs Hf Ha3) as (c'' & p4 & E4 & Ha4 & Hr4). exists c'', p4. rewrite Hr in Hr4. done.
Qed.

Lemma pipe_exec c : toks 2 c = toks 3 c -> exec_ok c -> pipe_ok c.
Proof using Hb.
  intros E Hc n pos rest Hn Hf Ha. rewrite E in Hn, Ha. destruct n as [|n]; [lia|]. cbn [parsepipe].
  destruct (Hc [] ltac:(constructor) n pos rest) as (c' & p1 & E1 & Ha1 & Hr); [lia|by apply (follow_le 2 3); [lia|]|by rewrite app_nil_r|].
  kstep E1. kstep (peek_follow 2 [124] p1 rest Ha1 Hf ltac:(simpl; set_solver)). by exists c', p1.
Qed.

Lemma pipe_pipe l r : exec_ok l -> pipe_ok r -> pipe_ok (CPipe l r).
Proof using Hb.
  intros Hl Hr n pos rest Hn Hf Ha. change (toks 2 (CPipe l r)) with (toks 3 l ++ TS 124 :: toks 2 r) in *. rewrite length_app in Hn. simpl in Hn.
  destruct n as [|n]; [lia|]. cbn [parsepipe]. rewrite <- app_assoc in Ha.
  destruct (Hl [] ltac:(constructor) n pos (TS 124 :: toks 2 r ++ rest)) as (c1 & p1 & E1 & Ha1 & Hr1);
    [lia|right; eexists _, _; split; [done|]; simpl; set_solver|by rewrite app_nil_r|].
  kstep E1. kstep (peek_symbol [124] _ _ _ Ha1 ltac:(set_solver)). destruct (gettoken_toks _ _ _ Ha1) as (t & p2 & E2 & Ha2 & _). kstep E2.
  destruct (Hr n p2 rest ltac:(lia) Hf Ha2) as (c2 & p3 & E3 & Ha3 & Hr3). kstep E3. exists (PIPE c1 c2), p3. cbn [read_cmd]. rewrite Hr1, Hr3. done.
Qed.

Lemma backs_pipe c : toks 1 c = toks 2 c -> backs c = 0%nat -> pipe_ok c -> backs_ok c.
Proof using Hb.
  intros E E0 Hc n m pos rest Hn Hm Hf Ha. rewrite E in Hn, Ha. destruct (Hc n pos rest Hn Hf Ha) as (c' & p1 & E1 & Ha1 & Hr).
  kstep E1. rewrite E0, Nat.sub_0_r. by exists c', p1.
Qed.

Lemma backs_back c : backs_ok c -> backs_ok (CBack c).
Proof using Hb.
  intros Hc n m pos rest Hn Hm Hf Ha. change (toks 1 (CBack c)) with (toks 1 c ++ [TS 38]) in *. cbn [backs] in *. rewrite length_app in Hn.
  rewrite <- app_assoc in Ha. simpl in Ha.
  destruct (Hc n m pos (TS 38 :: rest)) as (c' & p1 & E1 & Ha1 & Hr); [lia|lia|right; eexists _, _; split; [done|]; simpl; set_solver|done|].
  rewrite E1. replace (m - backs c)%nat with (S (m - S (backs c))) by lia. cbn [back_loop]. kstep (peek_symbol [38] _ _ _ Ha1 ltac:(set_solver)). cbn [negb].
  destruct (gettoken_toks _ _ _ Ha1) as (t & p2 & E2 & Ha2 & _). kstep E2. exists (BACK c'), p2. cbn [read_cmd]. rewrite Hr. done.
Qed.

Lemma backs_le c pos rest : at_toks pos (toks 1 c ++ rest) -> (backs c < rounds b)%nat.
Proof using Hb.
  intros Ha. pose proof (length_toks _ _ Ha) as Hl. rewrite length_app in Hl. assert (backs c <= length (toks 1 c))%nat; [|unfold rounds; lia].
  clear. induction c; cbn [backs]; try lia. change (toks 1 (CBack c)) with (toks 1 c ++ [TS 38]). rewrite length_app. simpl. lia.
Qed.

(** A line up to its semicolon *)
Lemma line_first c n pos rest : backs_ok c -> (4 * length (toks 1 c) + 3 <= n)%nat -> follow 1 rest -> at_toks pos (toks 1 c ++ rest) ->
  exists c' pos', (parsepipe b n ≫= back_loop b (rounds b)) pos = Ok (c', pos') /\ at_toks pos' rest /\ read c' = c.
Proof using Hb.
  intros Hc Hn Hf Ha. pose proof (backs_le c pos rest Ha) as Hm.
  destruct (Hc n (rounds b) pos rest Hn Hm (follow_le 1 2 rest ltac:(lia) Hf) Ha) as (c' & p1 & E1 & Ha1 & Hr). exists c', p1. split; [|done].
  rewrite E1. replace (rounds b - backs c)%nat with (S (rounds b - S (backs c))) by lia. cbn [back_loop].
  kstep (peek_follow 1 [38] p1 rest Ha1 Hf ltac:(simpl; set_solver)). done.
Qed.

Lemma line_single c : toks 0 c = toks 1 c -> backs_ok c -> line_ok c.
Proof using Hb.
  intros E Hc n pos rest Hn Hf Ha. rewrite E in Hn, Ha. destruct n as [|n]; [lia|]. cbn [parseline].
  destruct (line_first c n pos rest Hc ltac:(lia) (follow_le 0 1 rest ltac:(lia) Hf) Ha) as (c' & p1 & E1 & Ha1 & Hr).
  apply bind_inv in E1 as (c1 & p0 & E0 & E1). kstep E0. kstep E1. kstep (peek_follow 0 [59] p1 rest Ha1 Hf ltac:(simpl; set_solver)). by exists c', p1.
Qed.

Lemma line_list l r : backs_ok l -> line_ok r -> line_ok (CList l r).
Proof using Hb.
  intros Hl Hr n pos rest Hn Hf Ha. change (toks 0 (CList l r)) with (toks 1 l ++ TS 59 :: toks 0 r) in *. rewrite length_app in Hn. simpl in Hn.
  destruct n as [|n]; [lia|]. cbn [parseline]. rewrite <- app_assoc in Ha.
  destruct (line_first l n pos (TS 59 :: toks 0 r ++ rest) Hl) as (c1 & p1 & E1 & Ha1 & Hr1);
    [lia|right; eexists _, _; split; [done|]; simpl; set_solver|done|].
  apply bind_inv in E1 as (c0 & p0 & E0 & E1). kstep E0. kstep E1. kstep (peek_symbol [59] _ _ _ Ha1 ltac:(set_solver)).
  destruct (gettoken_toks _ _ _ Ha1) as (t & p2 & E2 & Ha2 & _). kstep E2.
  destruct (Hr n p2 rest ltac:(lia) Hf Ha2) as (c2 & p3 & E3 & Ha3 & Hr3). kstep E3. exists (LIST c1 c2), p3. cbn [read_cmd]. rewrite Hr1, Hr3. done.
Qed.

Lemma phrases_ok c : printable c -> line_ok c /\ backs_ok c /\ pipe_ok c /\ exec_ok c.
Proof using Hb.
  induction c as [ws|c IH f m d|l IHl r IHr|l IHl r IHr|c IH]; cbn [printable].
  - intros [Hws Hl]. pose proof (exec_words ws Hws Hl). assert (pipe_ok (CExec ws)) by by apply pipe_exec.
    assert (backs_ok (CExec ws)) by by apply backs_pipe. split; [by apply line_single|done].
  - intros (Hc & Hw & Hm). destruct (IH Hc) as (_ & _ & _ & He). pose proof (exec_redir c f m d Hw Hm He).
    assert (pipe_ok (CRedir c f m d)) by by apply pipe_exec. assert (backs_ok (CRedir c f m d)) by by apply backs_pipe. split; [by apply line_single|done].
  - intros (Hl & Hr). destruct (IHl Hl) as (_ & _ & _ & Hl'), (IHr Hr) as (_ & _ & Hr' & _). pose proof (pipe_pipe l r Hl' Hr').
    assert (backs_ok (CPipe l r)) by by apply backs_pipe. assert (line_ok (CPipe l r)) by by apply line_single.
    assert (exec_ok (CPipe l r)) by by apply exec_block. done.
  - intros (Hl & Hr). destruct (IHl Hl) as (_ & Hl' & _), (IHr Hr) as (Hr' & _). pose proof (line_list l r Hl' Hr').
    assert (exec_ok (CList l r)) by by apply exec_block. assert (pipe_ok (CList l r)) by by apply pipe_exec.
    assert (backs_ok (CList l r)) by by apply backs_pipe. done.
  - intros Hc. destruct (IH Hc) as (_ & Hb' & _). pose proof (backs_back c Hb'). assert (line_ok (CBack c)) by by apply line_single.
    assert (exec_ok (CBack c)) by by apply exec_block. assert (pipe_ok (CBack c)) by by apply pipe_exec. done.
Qed.
End Print.

Lemma toks_ok c lvl : printable c -> Forall tok_ok (toks lvl c).
Proof.
  assert (Hp : forall p l, Forall tok_ok l -> Forall tok_ok (parens p l)).
  { intros [] l Hl; [|done]. constructor; [done|]. apply Forall_app. split; [done|]. by repeat constructor. }
  revert lvl. induction c as [ws|c IH f m d|l IHl r IHr|l IHl r IHr|c IH]; cbn [printable toks]; intros lvl.
  - intros [Hws _]. by rewrite Forall_fmap.
  - intros (Hc & Hw & Hm). apply Forall_app. split; [by apply IH|]. constructor; [|constructor; [exact Hw|constructor]].
    by destruct Hm as [[-> ->]|[[-> ->]|[-> ->]]].
  - intros [Hl Hr]. apply Hp, Forall_app. split; [by apply IHl|]. constructor; [done|by apply IHr].
  - intros [Hl Hr]. apply Hp, Forall_app. split; [by apply IHl|]. constructor; [done|by apply IHr].
  - intros Hc. apply Hp, Forall_app. split; [by apply IH|]. by repeat constructor.
Qed.

Lemma render_nonzero ts : Forall tok_ok ts -> Forall (fun c => c <> 0) (render ts).
Proof.
  induction 1 as [|t ts Ht _ IH]; [constructor|]. change (render (t :: ts)) with ((text t ++ [32]) ++ render ts). rewrite !Forall_app.
  split; [|done]. split; [|by repeat constructor]. destruct t as [w|c|]; cbn [text tok_ok] in *; [|by repeat constructor; apply symbol_not_ws|by repeat constructor].
  destruct Ht as [_ Hw]. eapply Forall_impl; [exact Hw|]. by intros c [? _].
Qed.

(** C14: every printable command is read back: the shell's parser accepts the printed line and builds the command that was printed,
    with its pipes, lists, background jobs, blocks, redirections and words, as read through the NUL-terminated buffer. *)
Theorem parse_print (c : command) : printable c ->
  exists c' buf, parsecmd (print c) = Ok (c', buf) /\ read_cmd (word_cstr buf) c' = c.
Proof.
  intros Hc. pose proof (toks_ok c 0 Hc) as Ht. pose proof (render_nonzero _ Ht) as Hb. fold (print c) in Hb. set (b := print c) in *.
  destruct (phrases_ok b Hb c Hc) as [Hl _]. assert (Ha : at_toks b 0 (toks 0 c ++ [])) by (rewrite app_nil_r; split; [lia|done]).
  pose proof (length_toks b Hb _ _ Ha) as Hlen. rewrite app_nil_r in Hlen.
  destruct (Hl (parse_fuel b) 0%nat []) as (c' & pos & E & Ha' & Hr); [unfold parse_fuel; lia|by left|done|].
  assert (Hg : all_spans (good_span b) c').
  { pose proof (parse_safe b Hb (parse_fuel b) 0 ltac:(lia)) as (Hs & _). specialize (Hs ltac:(unfold parse_fuel; lia)). rewrite E in Hs. apply Hs. }
  exists c', (nulterminate c' (b ++ [0])). split; [|by rewrite (nulterminate_words b c' Hg)]. unfold parsecmd. kstep E.
  kstep (peek_toks b [] _ _ Ha'). ksimpl. assert (pos = es b) as ->; [|by rewrite bool_decide_eq_true_2].
  destruct Ha' as (Hp & Hd & _). apply (f_equal length) in Hd. rewrite length_drop in Hd. unfold es, render in *. simpl in Hd. lia.
Qed.

(** [( ls | wc > f ) & ; ls] *)
Definition demo_command : command :=
  CList (CBack (CPipe (CExec [[108; 115]]) (CRedir (CExec [[119; 99]]) [102] (Z.lor (Z.lor O_WRONLY O_CREATE) O_TRUNC) 1))) (CExec [[108; 115]]).

Lemma demo_printable : printable demo_command.
Proof.
  assert (Hw : forall w, forallb (fun c => negb (c =? 0) && negb (strchr whitespace c) && negb (strchr symbols c)) w = true -> w <> [] -> word_ok w).
  { intros w Hw Hne. split; [done|]. apply Forall_forall. intros c Hc. rewrite forallb_forall in Hw. specialize (Hw c (proj1 (list_elem_of_In _ _) Hc)).
    unfold plain. rewrite !andb_true_iff, !negb_true_iff, Z.eqb_neq in Hw. naive_solver. }
  cbn [demo_command printable]. unfold MAXARGS. simpl.
  assert (word_ok [108; 115]) by by apply Hw. assert (word_ok [119; 99]) by by apply Hw. assert (word_ok [102]) by by apply Hw.
  split_and!; try done; try (by repeat constructor).
Qed.

Lemma parse_print_witness : exists c' buf, parsecmd (print demo_command) = Ok (c', buf) /\ read_cmd (word_cstr buf) c' = demo_command.
Proof. apply (parse_print demo_command). exact demo_printable. Defined.

Lemma parsecmd_total_witness : Forall (fun c => c <> 0) (print demo_command) /\
  match parsecmd (print demo_command) with
  | Ok (c, buf) => length buf = S (length (print demo_command)) /\ all_spans (good_span (print demo_command)) c /\ read_cmd (word_cstr buf) c = read_cmd (word_text (print demo_command)) c
  | Panic _ => True
  | _ => False
  end.
Proof. assert (H : Forall (fun c => c <> 0) (print demo_command)) by (vm_compute; repeat constructor; discriminate). split; [exact H|]. exact (parsecmd_total _ H). Defined.
