(* ===== verification/Umalloc.v ===== *)
(** * The user-space allocator

    [malloc], [free] and [morecore] of [src/user/umalloc.c].  Addresses count
    units of [sizeof(Header)] = 16 bytes, from a break that is a multiple of
    16 and that only the allocator moves; a unit of memory is what its 16
    bytes hold when they are read as a [Header].  [sbrk] is a parameter: the
    break that the kernel sets for an argument, or none when it returns -1. *)

From stdpp Require Import base numbers list list_numbers strings.
From Stdlib Require Import ZArith Lia.
From S2P Require Import Prelude.

(** [union header], with the bytes of its padding *)
Record header := mk_header { h_ptr : Z; h_size : Z; h_pad : Z }.

(** The memory of the process, the static [freep] and the break *)
Record arena := mk_arena { units : Z -> header; freep : Z; brk : Z }.

Definition upd_unit (u : Z -> header) (a : Z) (h : header) : Z -> header := fun x => if x =? a then h else u x.

Section Alloc.
(** The address of the static [base], and the kernel's answer to [sbrk(n)] at a break. *)
Context (base : Z) (grow : Z -> Z -> option Z).

Definition mapped (a : Z) (s : arena) : bool := (0 <=? a) && (a <? brk s).
Definition get_hdr (a : Z) : K arena header := s ← get; if mapped a s then mret (units s a) else fault "page fault".
Definition set_hdr (a : Z) (f : header -> header) : K arena unit :=
  h ← get_hdr a; modify (fun s => mk_arena (upd_unit (units s) a (f h)) (freep s) (brk s)).
Definition get_ptr (a : Z) : K arena Z := h ← get_hdr a; mret (h_ptr h).
Definition get_size (a : Z) : K arena Z := h ← get_hdr a; mret (h_size h).
Definition set_ptr (a v : Z) : K arena unit := set_hdr a (fun h => mk_header v (h_size h) (h_pad h)).
Definition set_size (a v : Z) : K arena unit := set_hdr a (fun h => mk_header (h_ptr h) (uint v) (h_pad h)).
Definition set_freep (p : Z) : K arena unit := modify (fun s => mk_arena (units s) p (brk s)).

Definition sizeof_Header : Z := 16.

(** [sbrk(n)], whose parameter is an [int]; -1 stands for [(char* )-1] *)
Definition sbrk (n : Z) : K arena Z :=
  b ← gets brk;
  match grow b (int n) with
  | Some b' => modify (fun s => mk_arena (units s) (freep s) b');; mret b
  | None => mret (-1)
  end.

(** The [for] of [free]: the block after which [bp] belongs *)
Fixpoint free_loop (n : nat) (bp p : Z) : K arena Z :=
  match n with
  | O => out_of_fuel
  | S n =>
      q ← get_ptr p;
      if (p <? bp) && (bp <? q) then mret p
      else if (q <=? p) && ((p <? bp) || (bp <? q)) then mret p
      else free_loop n bp q
  end.

(** The upper neighbour is merged into [bp], or [bp] points to it. *)
Definition join_upper (bp p : Z) : K arena unit :=
  sz ← get_size bp;
  q ← get_ptr p;
  if bp + sz =? q then
    qsz ← get_size q;
    set_size bp (sz + qsz);;
    q ← get_ptr p;
    qq ← get_ptr q;
    set_ptr bp qq
  else set_ptr bp q.

(** [bp] is merged into the lower neighbour, or that points to [bp]. *)
Definition join_lower (bp p : Z) : K arena unit :=
  psz ← get_size p;
  if p + psz =? bp then
    bsz ← get_size bp;
    set_size p (psz + bsz);;
    bq ← get_ptr bp;
    set_ptr p bq
  else set_ptr p bp.

(** The free blocks are fewer than the units below the break. *)
Definition free (ap : Z) : K arena unit :=
  let bp := ap - 1 in
  p ← gets freep;
  n ← gets (fun s => Z.to_nat (brk s));
  p ← free_loop n bp p;
  join_upper bp p;;
  join_lower bp p;;
  set_freep p.

Definition morecore (nu : Z) : K arena Z :=
  let nu := if nu <? 4096 then 4096 else nu in
  p ← sbrk (nu * sizeof_Header);
  if p =? -1 then mret 0
  else
    set_size p nu;;
    free (p + 1);;
    gets freep.

(** The body of [if(p->s.size >= nunits)] *)
Definition take_block (nunits prevp p : Z) : K arena Z :=
  sz ← get_size p;
  p ← (if sz =? nunits then
         q ← get_ptr p;
         set_ptr prevp q;;
         mret p
       else
         set_size p (sz - nunits);;
         sz ← get_size p;
         set_size (p + sz) nunits;;
         mret (p + sz));
  set_freep prevp;;
  mret (p + 1).

Fixpoint malloc_loop (n : nat) (nunits prevp p : Z) : K arena Z :=
  match n with
  | O => out_of_fuel
  | S n =>
      sz ← get_size p;
      if nunits <=? sz then take_block nunits prevp p
      else
        fp ← gets freep;
        if p =? fp then
          p ← morecore nunits;
          if p =? 0 then mret 0 else q ← get_ptr p; malloc_loop n nunits p q
        else q ← get_ptr p; malloc_loop n nunits p q
  end.

(** The units for [nbytes] bytes and a header; the sum is one of 64 bits. *)
Definition nunits_of (nbytes : Z) : Z := uint ((nbytes + sizeof_Header - 1) / sizeof_Header + 1).

(** The list is walked once before [morecore] and at most once after it. *)
Definition malloc (nbytes : Z) : K arena Z :=
  let nunits := nunits_of nbytes in
  prevp ← gets freep;
  prevp ← (if prevp =? 0 then set_freep base;; set_ptr base base;; set_size base 0;; mret base else mret prevp);
  n ← gets (fun s => (2 * Z.to_nat (brk s) + 4)%nat);
  p ← get_ptr prevp;
  malloc_loop n nunits prevp p.
End Alloc.

(** ** The heap as a sequence of chunks

    [malloc] and [free] keep the memory between the first break and the
    current one cut into chunks, each a header and a body, in use or free. *)

Abbreviation chunk := (Z * bool)%type.
Definition total (l : list chunk) : Z := foldr (fun c n => fst c + n) 0 l.

(** Free neighbours become one chunk. *)
Fixpoint coalesce (l : list chunk) : list chunk :=
  match l with
  | [] => []
  | (m, true) :: l => (m, true) :: coalesce l
  | (m, false) :: l => match coalesce l with (k, false) :: l' => (m + k, false) :: l' | l' => (m, false) :: l' end
  end.

(** [n] units are cut off the end of a free chunk. *)
Inductive carve (lo n : Z) : list chunk -> Z -> list chunk -> Prop :=
| carve_all l1 l2 : carve lo n (l1 ++ (n, false) :: l2) (lo + total l1) (l1 ++ (n, true) :: l2)
| carve_end l1 m l2 : n < m -> carve lo n (l1 ++ (m, false) :: l2) (lo + total l1 + (m - n)) (l1 ++ (m - n, false) :: (n, true) :: l2).
