(* ===== verification/UmallocProof.v ===== *)
(** * The allocator keeps the heap cut into chunks

    The circular list of [Umalloc] links the free chunks of the heap in the
    order of their addresses; [malloc] carves chunks out of it and [free]
    merges them back, for every sequence of calls and of writes of the
    program to its own blocks. *)

From stdpp Require Import base numbers list list_numbers sets strings.
From Stdlib Require Import ZArith Lia Sorted.
From S2P Require Import Prelude Umalloc.

(** ** Layouts *)

Definition sizes_ok (l : list chunk) : Prop := Forall (fun c => 0 < fst c) l.

(** No two free chunks are neighbours. *)
Fixpoint apart (l : list chunk) : Prop :=
  match l with
  | [] => True
  | (_, false) :: l => match l with (_, false) :: _ => False | _ => apart l end
  | _ :: l => apart l
  end.

(** The free chunks of a layout that starts at [a] *)
Fixpoint free_at (a : Z) (l : list chunk) : list Z :=
  match l with
  | [] => []
  | (m, used) :: l => if used : bool then free_at (a + m) l else a :: free_at (a + m) l
  end.

(** Each chunk has its size in its header, and a free one points to the next, the last to [e]. *)
Fixpoint linked (u : Z -> header) (a : Z) (l : list chunk) (e : Z) : Prop :=
  match l with
  | [] => True
  | (m, used) :: l => h_size (u a) = m /\ (used = false -> h_ptr (u a) = hd e (free_at (a + m) l)) /\ linked u (a + m) l e
  end.

Lemma total_app l1 l2 : total (l1 ++ l2) = total l1 + total l2.
Proof. induction l1 as [|c l1 IH]; [done|]. change (fst c + total (l1 ++ l2) = fst c + total l1 + total l2). lia. Qed.
Lemma total_cons c l : total (c :: l) = fst c + total l.
Proof. done. Qed.
Lemma total_nonneg l : sizes_ok l -> 0 <= total l.
Proof. induction 1 as [|c l Hc _ IH]; [done|]. rewrite total_cons. lia. Qed.

Lemma free_at_app a l1 l2 : free_at a (l1 ++ l2) = free_at a l1 ++ free_at (a + total l1) l2.
Proof.
  revert a. induction l1 as [|[m used] l1 IH]; intros a; [by rewrite Z.add_0_r|]. cbn [app free_at]. rewrite IH, total_cons, Z.add_assoc. by destruct used.
Qed.

Lemma free_at_range a l x : sizes_ok l -> x ∈ free_at a l -> a <= x < a + total l.
Proof.
  intros Hs. revert a. induction Hs as [|[m used] l Hm Hs IH]; intros a; cbn [free_at]; [by intros ?%not_elem_of_nil|]. rewrite total_cons. simpl in *.
  pose proof (total_nonneg l Hs). destruct used; [intros Hx%IH; lia|]. intros [->|Hx%IH]%elem_of_cons; lia.
Qed.

Lemma free_at_sorted a l : sizes_ok l -> StronglySorted Z.lt (free_at a l).
Proof.
  intros Hs. revert a. induction Hs as [|[m used] l Hm Hs IH]; intros a; cbn [free_at]; [constructor|]. simpl in *. destruct used; [done|].
  constructor; [done|]. apply Forall_forall. intros x Hx%free_at_range; [lia|done].
Qed.

Lemma free_at_split a l x : x ∈ free_at a l -> exists l1 m l2, l = l1 ++ (m, false) :: l2 /\ x = a + total l1.
Proof.
  revert a. induction l as [|[m used] l IH]; intros a; cbn [free_at]; [by intros ?%not_elem_of_nil|]. destruct used.
  - intros (l1 & k & l2 & -> & ->)%IH. exists ((m, true) :: l1), k, l2. rewrite total_cons. simpl. split; [done|lia].
  - intros [->|(l1 & k & l2 & -> & ->)%IH]%elem_of_cons; [exists [], m, l; split; [done|simpl; lia]|].
    exists ((m, false) :: l1), k, l2. rewrite total_cons. simpl. split; [done|lia].
Qed.

Lemma linked_app u a l1 l2 e :
  linked u a (l1 ++ l2) e <-> linked u a l1 (hd e (free_at (a + total l1) l2)) /\ linked u (a + total l1) l2 e.
Proof.
  revert a. induction l1 as [|[m used] l1 IH]; intros a; [rewrite Z.add_0_r; simpl; tauto|]. cbn [app linked]. rewrite IH, total_cons, free_at_app.
  simpl. rewrite Z.add_assoc. destruct (free_at (a + m) l1); simpl; tauto.
Qed.

Lemma linked_frame u u' a l e : sizes_ok l -> (forall x, a <= x < a + total l -> u' x = u x) -> linked u a l e -> linked u' a l e.
Proof.
  intros Hs. revert a. induction Hs as [|[m used] l Hm Hs IH]; intros a Hu; [done|]. rewrite total_cons in Hu. cbn [linked fst] in *.
  pose proof (total_nonneg l Hs). rewrite (Hu a) by lia. intros (? & ? & ?). split; [done|]. split; [done|]. apply IH; [intros; apply Hu; lia|done].
Qed.

Lemma upd_same u a h : upd_unit u a h a = h.
Proof. unfold upd_unit. by rewrite Z.eqb_refl. Qed.
Lemma upd_other u a h x : x <> a -> upd_unit u a h x = u x.
Proof. intros. unfold upd_unit. by destruct (Z.eqb_spec x a). Qed.

Lemma apart_app l1 l2 : apart (l1 ++ l2) -> apart l1 /\ apart l2.
Proof.
  induction l1 as [|[m []] l1 IH]; cbn [app apart]; [done|done|]. destruct l1 as [|[k []] l1]; cbn [app] in *; [|done|done].
  destruct l2 as [|[k []] l2]; cbn [apart]; done.
Qed.
Lemma coalesce_apart l : apart l -> coalesce l = l.
Proof.
  induction l as [|[m []] l IH]; cbn [apart coalesce]; [done| |].
  - intros H. by rewrite IH.
  - destruct l as [|[k []] l]; [done| |done]. intros H. by rewrite IH.
Qed.

Lemma apart_mid l1 x l2 : apart (l1 ++ [x]) -> apart (x :: l2) -> apart (l1 ++ x :: l2).
Proof.
  induction l1 as [|[m []] l1 IH]; cbn [app apart]; [done|done|]. destruct l1 as [|[k []] l1]; cbn [app] in *; [|done|done].
  destruct x as [n []]; done.
Qed.
Lemma apart_resize l1 m m' b l2 : apart (l1 ++ (m, b) :: l2) -> apart (l1 ++ (m', b) :: l2).
Proof. induction l1 as [|[k []] l1 IH]; cbn [app apart]; [by destruct b|done|]. destruct l1 as [|[j []] l1]; cbn [app] in *; [by destruct b|done|done]. Qed.
Lemma coalesce_prefix l r : apart (l ++ coalesce r) -> coalesce (l ++ r) = l ++ coalesce r.
Proof.
  induction l as [|[m []] l IH]; intros Ha; cbn [app coalesce apart] in *; [done|by rewrite IH|].
  rewrite IH; [|by destruct (l ++ coalesce r) as [|[? []] ?]]. by destruct (l ++ coalesce r) as [|[? []] ?].
Qed.

(** A chunk that becomes free, with its neighbours in use or free *)
Definition ends_used (l : list chunk) : Prop := l = [] \/ exists l' m, l = l' ++ [(m, true)].
Definition starts_used (l : list chunk) : Prop := match l with (_, false) :: _ => False | _ => True end.
Lemma ends_used_or l : ends_used l \/ exists l' m, l = l' ++ [(m, false)].
Proof. destruct l as [|[m []] l _] using rev_ind; [by left; left|left; right; eauto|right; eauto]. Qed.
Lemma apart_ends l m b r : ends_used l -> apart l -> apart ((m, b) :: r) -> apart (l ++ (m, b) :: r).
Proof. intros [->|(l' & k & ->)] Hl Hr; [done|]. rewrite <- app_assoc. apply apart_mid; done. Qed.
Lemma apart_free_cons m r : apart ((m, false) :: r) <-> starts_used r /\ apart r.
Proof. destruct r as [|[? []] ?]; simpl; tauto. Qed.
Lemma coalesce_starts m r : starts_used r -> apart r -> coalesce ((m, false) :: r) = (m, false) :: r.
Proof. intros Hs Ha. apply coalesce_apart. by apply apart_free_cons. Qed.
Lemma coalesce_pair m k r : starts_used r -> apart r -> coalesce ((m, false) :: (k, false) :: r) = (m + k, false) :: r.
Proof. intros Hs Ha. change (coalesce ((m, false) :: (k, false) :: r)) with (match coalesce ((k, false) :: r) with (k, false) :: l' => (m + k, false) :: l' | l' => (m, false) :: l' end). by rewrite coalesce_starts. Qed.
Lemma coalesce_triple j m k r : starts_used r -> apart r -> coalesce ((j, false) :: (m, false) :: (k, false) :: r) = (j + (m + k), false) :: r.
Proof.
  intros Hs Ha. change (coalesce ((j, false) :: (m, false) :: (k, false) :: r)) with (match coalesce ((m, false) :: (k, false) :: r) with (k, false) :: l' => (j + k, false) :: l' | l' => (j, false) :: l' end).
  by rewrite coalesce_pair.
Qed.

(** ** Walks and accesses *)

Lemma sizes_app l1 l2 : sizes_ok (l1 ++ l2) <-> sizes_ok l1 /\ sizes_ok l2.
Proof. apply Forall_app. Qed.
Lemma mapped_ok a s : 0 <= a < brk s -> mapped a s = true.
Proof. intros H. unfold mapped. rewrite andb_true_iff, Z.leb_le, Z.ltb_lt. lia. Qed.
Lemma get_hdr_ok a s : 0 <= a < brk s -> get_hdr a s = Ok (units s a, s).
Proof. intros H. unfold get_hdr. rewrite bind_get. by rewrite (mapped_ok a s H). Qed.
Lemma get_ptr_ok a s : 0 <= a < brk s -> get_ptr a s = Ok (h_ptr (units s a), s).
Proof. intros H. unfold get_ptr. by kstep (get_hdr_ok a s H). Qed.
Lemma get_size_ok a s : 0 <= a < brk s -> get_size a s = Ok (h_size (units s a), s).
Proof. intros H. unfold get_size. by kstep (get_hdr_ok a s H). Qed.
Lemma set_hdr_ok a f s : 0 <= a < brk s -> set_hdr a f s = Ok (tt, mk_arena (upd_unit (units s) a (f (units s a))) (freep s) (brk s)).
Proof. intros H. unfold set_hdr. by kstep (get_hdr_ok a s H). Qed.
Lemma coalesce_congr l r r' : coalesce r = coalesce r' -> coalesce (l ++ r) = coalesce (l ++ r').
Proof. intros H. induction l as [|[m []] l IH]; cbn [app coalesce]; [done|by rewrite IH|by rewrite IH]. Qed.
Lemma total_coalesce l : total (coalesce l) = total l.
Proof.
  induction l as [|[m []] l IH]; cbn [coalesce]; [done|rewrite !total_cons; simpl; lia|]. rewrite (total_cons (m, false) l), <- IH.
  destruct (coalesce l) as [|[k []] l']; rewrite ?total_cons; simpl; lia.
Qed.
Lemma sizes_coalesce l : sizes_ok l -> sizes_ok (coalesce l).
Proof.
  unfold sizes_ok. induction 1 as [|[m []] l Hm _ IH]; cbn [coalesce]; [constructor|by constructor|].
  destruct (coalesce l) as [|[k []] l']; [by constructor|by constructor|]. apply Forall_cons in IH as [? ?]. constructor; [simpl in *; lia|done].
Qed.
Fixpoint chain (u : Z -> header) (y : Z) (ws : list Z) : Prop :=
  match ws with [] => True | x :: ws => h_ptr (u y) = x /\ chain u x ws end.
Lemma chain_app u y ws x ws' : chain u y (ws ++ x :: ws') <-> chain u y (ws ++ [x]) /\ chain u x ws'.
Proof. revert y. induction ws as [|w ws IH]; intros y; simpl; [tauto|]. rewrite IH. tauto. Qed.
Lemma linked_chain u a l e y : linked u a l e -> h_ptr (u y) = hd e (free_at a l) -> chain u y (free_at a l ++ [e]).
Proof.
  revert a y. induction l as [|[m []] l IH]; intros a y; cbn [linked free_at].
  - simpl. done.
  - intros (_ & _ & H) Hy. by apply IH.
  - intros (_ & Hp & H) Hy. simpl in Hy |- *. split; [done|]. by apply IH; [|apply Hp].
Qed.
(** The condition that ends the loop of [free] at [p] with [p->s.ptr == q] *)
Definition stop (bp p q : Z) : bool := ((p <? bp) && (bp <? q)) || ((q <=? p) && ((p <? bp) || (bp <? q))).
Fixpoint quiet (bp p : Z) (ws : list Z) : Prop :=
  match ws with [] => True | x :: ws => stop bp p x = false /\ quiet bp x ws end.
Lemma quiet_app bp y ws x ws' : quiet bp y (ws ++ x :: ws') <-> quiet bp y (ws ++ [x]) /\ quiet bp x ws'.
Proof. revert y. induction ws as [|w ws IH]; intros y; simpl; [tauto|]. rewrite IH. tauto. Qed.
Lemma stop_false bp p q : p < q < bp \/ bp < p < q \/ (q < bp /\ bp < p) -> stop bp p q = false.
Proof. intros H. unfold stop. destruct (Z.ltb_spec p bp), (Z.ltb_spec bp q), (Z.leb_spec q p); simpl; try done; lia. Qed.
Lemma quiet_sorted bp p ws : StronglySorted Z.lt (p :: ws) -> (forall x, x ∈ p :: ws -> x < bp) \/ (forall x, x ∈ p :: ws -> bp < x) -> quiet bp p ws.
Proof.
  revert p. induction ws as [|x ws IH]; intros p Hs Hr; [done|]. apply StronglySorted_inv in Hs as [Hs Hf]. apply Forall_cons in Hf as [Hf _]. split.
  - apply stop_false. destruct Hr as [Hr|Hr]; [left|right; left]; (split; [try done|]); try (apply Hr; set_solver). done.
  - apply IH; [done|]. destruct Hr as [Hr|Hr]; [left|right]; set_solver.
Qed.
Lemma free_walk s bp n p ws : (forall x, x ∈ p :: ws -> 0 <= x < brk s) -> chain (units s) p ws -> quiet bp p ws ->
  let t := List.last (p :: ws) p in stop bp t (h_ptr (units s t)) = true -> (length ws < n)%nat -> free_loop n bp p s = Ok (t, s).
Proof.
  revert n p. induction ws as [|x ws IH]; intros [|n] p Hr Hc Hq t Ht Hn; simpl in Hn; try lia; cbn [free_loop];
    kstep (get_ptr_ok p s ltac:(apply Hr; set_solver)).
  - simpl in t. subst t. unfold stop in Ht. destruct (_ && (bp <? _)); [done|]. simpl in Ht. by rewrite Ht.
  - destruct Hc as [-> Hc], Hq as [Hst Hq]. unfold stop in Hst. apply orb_false_iff in Hst as [-> ->].
    assert (t = List.last (x :: ws) x) as ->. { unfold t. simpl. clear. destruct ws as [|y ws]; [done|]. revert y. induction ws as [|z ws IH]; intros y; [done|]. apply IH. }
    apply IH; [set_solver|done|done|done|lia].
Qed.
Lemma sorted_app (l1 l2 : list Z) : StronglySorted Z.lt l1 -> StronglySorted Z.lt l2 -> (forall x y, x ∈ l1 -> y ∈ l2 -> x < y) -> StronglySorted Z.lt (l1 ++ l2).
Proof.
  induction 1 as [|x l1 Hs IH Hf]; intros H2 Hx; [done|]. simpl. constructor; [apply IH; [done|set_solver]|]. apply Forall_app. split; [done|].
  apply Forall_forall. intros y Hy. apply Hx; [set_solver|done].
Qed.
Lemma length_free_at a l : sizes_ok l -> Z.of_nat (length (free_at a l)) <= total l.
Proof.
  intros Hs. revert a. induction Hs as [|[m []] l Hm Hs IH]; intros a; cbn [free_at]; [done|rewrite total_cons; simpl in *; specialize (IH (a + m)); lia|].
  rewrite total_cons. simpl in *. specialize (IH (a + m)). lia.
Qed.
Lemma sorted_suffix (l1 l2 : list Z) : StronglySorted Z.lt (l1 ++ l2) -> StronglySorted Z.lt l2.
Proof. induction l1 as [|x l1 IH]; [done|]. simpl. intros [H _]%StronglySorted_inv. auto. Qed.
Lemma last_suffix (l1 l2 : list Z) d x : List.last (l1 ++ x :: l2) d = List.last (x :: l2) d.
Proof. induction l1 as [|y l1 IH]; [done|]. destruct l1; [done|exact IH]. Qed.
Lemma last_default (l : list Z) x d d' : List.last (x :: l) d = List.last (x :: l) d'.
Proof. revert x. induction l as [|y l IH]; intros x; [done|]. apply IH. Qed.
Lemma chain_prefix u y ws ws' : chain u y (ws ++ ws') -> chain u y ws.
Proof. revert y. induction ws as [|x ws IH]; intros y; [done|]. intros [? ?]. split; [done|]. by apply IH. Qed.
Lemma chain_from u y l A p B : y :: l = A ++ p :: B -> chain u y l -> chain u p B.
Proof.
  destruct A as [|a A]; simpl; intros E Hc; simplify_eq; [done|]. apply chain_app in Hc. by destruct Hc.
Qed.
(** The chunks in use, and that their units are left alone *)
Fixpoint used_at (a : Z) (l : list chunk) : list (Z * Z) :=
  match l with [] => [] | (m, used) :: l => if used : bool then (a, m) :: used_at (a + m) l else used_at (a + m) l end.
Lemma used_at_app a l1 l2 : used_at a (l1 ++ l2) = used_at a l1 ++ used_at (a + total l1) l2.
Proof.
  revert a. induction l1 as [|[m []] l1 IH]; intros a; [by rewrite Z.add_0_r| |]; cbn [app used_at]; rewrite IH, total_cons, Z.add_assoc; done.
Qed.
Lemma used_range a0 l a k : sizes_ok l -> (a, k) ∈ used_at a0 l -> a0 <= a /\ 0 < k /\ a + k <= a0 + total l.
Proof.
  intros Hs. revert a0. induction Hs as [|[m []] l Hm Hs IH]; intros a0; cbn [used_at]; [by intros ?%not_elem_of_nil| |]; rewrite total_cons; simpl in *;
    pose proof (total_nonneg l Hs); [|intros ?%IH; lia]. intros [?|?%IH]%elem_of_cons; [simplify_eq|]; lia.
Qed.
Lemma used_not_free a0 l a k x : sizes_ok l -> (a, k) ∈ used_at a0 l -> a <= x < a + k -> x ∉ free_at a0 l.
Proof.
  intros Hs. revert a0. induction Hs as [|[m []] l Hm Hs IH]; intros a0; cbn [used_at free_at]; [by intros ?%not_elem_of_nil| |]; simpl in *.
  - intros [?|Hin]%elem_of_cons Hx; [simplify_eq|by apply IH]. intros Hf%free_at_range; [lia|done].
  - intros Hin Hx. pose proof (used_range _ _ _ _ Hs Hin). intros [->|Hf]%elem_of_cons; [lia|]. by apply (IH (a0 + m)).
Qed.

(** ** The circular list *)

Section Ring.
Context (base lo : Z) (Hbase : 0 < base < lo).

Definition ringed (u : Z -> header) (l : list chunk) (e : Z) : Prop :=
  h_ptr (u base) = hd e (free_at lo l) /\ h_size (u base) = 0 /\ linked u lo l e.
(** The last free chunk, or [base] *)
Definition lf (l : list chunk) : Z := List.last (free_at lo l) base.

Lemma ringed_app u l1 l2 e :
  ringed u (l1 ++ l2) e <-> ringed u l1 (hd e (free_at (lo + total l1) l2)) /\ linked u (lo + total l1) l2 e.
Proof using Hbase.
  unfold ringed. rewrite linked_app, free_at_app. destruct (free_at lo l1); simpl; tauto.
Qed.
Lemma lf_used l m : lf (l ++ [(m, true)]) = lf l.
Proof using Hbase. unfold lf. rewrite free_at_app. simpl. by rewrite app_nil_r. Qed.
Lemma lf_free l m : lf (l ++ [(m, false)]) = lo + total l.
Proof using Hbase. unfold lf. rewrite free_at_app. simpl. apply List.last_last. Qed.
Lemma lf_range l : sizes_ok l -> lf l = base \/ (lo <= lf l < lo + total l /\ lf l ∈ free_at lo l).
Proof using Hbase.
  intros Hs. unfold lf. pose proof (free_at_range lo l (List.last (free_at lo l) base) Hs) as Hr. destruct (free_at lo l) as [|x f] eqn:E; [by left|].
  right. assert (List.last (x :: f) base ∈ x :: f); [|auto].
  clear. revert x. induction f as [|y f IH]; intros x; [set_solver|]. change (List.last (x :: y :: f) base) with (List.last (y :: f) base). specialize (IH y). set_solver.
Qed.

Lemma lf_ptr u l e : ringed u l e -> h_ptr (u (lf l)) = e.
Proof using Hbase.
  revert e. induction l as [|[m []] l IH] using rev_ind; intros e H; [by destruct H|rewrite lf_used|rewrite lf_free]; rewrite ringed_app in H; destruct H as [H1 H2].
  - by apply IH.
  - simpl in H2. by apply H2.
Qed.

(** The end of the list is bent to another chunk. *)
Lemma relink u l e e' h : sizes_ok l -> ringed u l e -> h_ptr h = e' -> h_size h = h_size (u (lf l)) -> ringed (upd_unit u (lf l) h) l e'.
Proof using Hbase.
  revert e. induction l as [|[m []] l IH] using rev_ind; intros e Hs H Hp Hsz.
  - destruct H as (_ & H0 & _). change (lf []) with base in *. split; [by rewrite upd_same|]. split; [|done]. by rewrite upd_same, Hsz.
  - rewrite lf_used in *. rewrite ringed_app in *. destruct H as [H (Hm & _ & _)]. apply sizes_app in Hs as [Hs _]. pose proof (total_nonneg l Hs).
    split; [by apply (IH e)|]. cbn [linked]. rewrite upd_other; [done|]. destruct (lf_range l Hs) as [->|[? _]]; lia.
  - rewrite lf_free in *. rewrite ringed_app in *. destruct H as [(Hb & H0 & Hl) (Hm & _)]. apply sizes_app in Hs as [Hs _]. pose proof (total_nonneg l Hs). simpl.
    split; [split_and!|].
    + by rewrite upd_other by lia.
    + by rewrite upd_other by lia.
    + eapply linked_frame; [done| |exact Hl]. intros x Hx. rewrite upd_other by lia. done.
    + rewrite upd_same. split_and!; [by rewrite Hsz|done|done].
Qed.

Lemma ringed_frame u u' l e : sizes_ok l -> (forall x, x = base \/ lo <= x < lo + total l -> u' x = u x) -> ringed u l e -> ringed u' l e.
Proof using Hbase.
  intros Hs Hu (H1 & H2 & H3). unfold ringed. rewrite (Hu base) by by left. split; [done|]. split; [done|]. eapply linked_frame; [done| |done]. intros x Hx. apply Hu. by right.
Qed.
Lemma lf_end u l e : sizes_ok l -> ringed u l e -> lf l + h_size (u (lf l)) = base \/ lf l + h_size (u (lf l)) <= lo + total l.
Proof using Hbase.
  intros Hs. revert e. induction l as [|[m []] l IH] using rev_ind; intros e H.
  - left. destruct H as (_ & H & _). change (lf []) with base. lia.
  - rewrite lf_used. rewrite ringed_app in H. destruct H as [H _]. apply sizes_app in Hs as [Hs Hm]. apply Forall_cons in Hm as [Hm _]. rewrite total_app. simpl in *.
    destruct (IH Hs _ H); lia.
  - rewrite lf_free. rewrite ringed_app in H. destruct H as [_ (H & _)]. rewrite H, total_app. simpl. lia.
Qed.

(** ** The steps of [free] *)

Lemma first_free_eq l a : sizes_ok l -> base < a -> hd base (free_at a l) = a -> exists k l', l = (k, false) :: l'.
Proof using Hbase.
  intros Hs Ha H. destruct l as [|[k []] l]; [simpl in H; lia| |by exists k, l]. exfalso. apply Forall_cons in Hs as [Hk Hs]. simpl in *.
  pose proof (free_at_range (a + k) l a Hs) as Hr. destruct (free_at (a + k) l); [simpl in H; lia|]. simpl in H. subst. specialize (Hr ltac:(set_solver)). lia.
Qed.

Lemma join_upper_ok s l1 m l2 : let bp := lo + total l1 in
  brk s = bp + m + total l2 -> brk s <= 2 ^ 27 -> sizes_ok l1 -> 0 < m -> sizes_ok l2 -> apart l2 ->
  ringed (units s) l1 (hd base (free_at (bp + m) l2)) -> h_size (units s bp) = m -> linked (units s) (bp + m) l2 base ->
  exists u m' l2', join_upper bp (lf l1) s = Ok (tt, mk_arena u (freep s) (brk s)) /\ (forall x, x <> bp -> u x = units s x) /\
    h_size (u bp) = m' /\ h_ptr (u bp) = hd base (free_at (bp + m') l2') /\ linked (units s) (bp + m') l2' base /\
    starts_used l2' /\ apart l2' /\ sizes_ok l2' /\ m' + total l2' = m + total l2 /\ m <= m' /\ coalesce ((m, false) :: l2) = (m', false) :: l2'.
Proof using Hbase.
  intros bp Hbrk Hmax Hs1 Hm Hs2 Ha2 Hr Hsz Hl. pose proof (total_nonneg _ Hs1). pose proof (total_nonneg _ Hs2).
  assert (HP : 0 <= lf l1 < bp) by (destruct (lf_range l1 Hs1) as [->|[? _]]; lia). unfold join_upper.
  kstep (get_size_ok bp s ltac:(lia)). kstep (get_ptr_ok (lf l1) s ltac:(lia)). rewrite (lf_ptr _ _ _ Hr), Hsz.
  destruct (Z.eqb_spec (bp + m) (hd base (free_at (bp + m) l2))) as [E|E].
  - destruct (first_free_eq l2 (bp + m) Hs2 ltac:(lia) (eq_sym E)) as (k & l2' & ->). cbn [free_at hd]. destruct Hl as (Hk & Hp & Hl). specialize (Hp eq_refl).
    apply Forall_cons in Hs2 as [Hk0 Hs2]. rewrite total_cons in *. cbn [fst] in *. pose proof (total_nonneg _ Hs2). apply apart_free_cons in Ha2 as [Hst Ha2].
    kstep (get_size_ok (bp + m) s ltac:(lia)). unfold set_size at 1. kstep (set_hdr_ok bp (fun h => mk_header (h_ptr h) (uint (m + h_size (units s (bp + m)))) (h_pad h)) s ltac:(lia)).
    rewrite uint_small by lia. set (s1 := mk_arena _ _ _). assert (brk s1 = brk s) as Eb by done.
    kstep (get_ptr_ok (lf l1) s1 ltac:(lia)). assert (Hne : units s1 (lf l1) = units s (lf l1)) by (apply upd_other; lia). rewrite Hne, (lf_ptr _ _ _ Hr). cbn [free_at hd].
    kstep (get_ptr_ok (bp + m) s1 ltac:(lia)). assert (Hne' : units s1 (bp + m) = units s (bp + m)) by (apply upd_other; lia). rewrite Hne', Hp.
    unfold set_ptr. rewrite (set_hdr_ok bp _ s1) by lia. eexists _, (m + k), l2'. split; [reflexivity|]. split_and!; try done; try lia.
    + intros x Hx. simpl. by rewrite !upd_other.
    + rewrite upd_same. simpl. by rewrite upd_same, Hk.
    + rewrite upd_same. simpl. by rewrite Z.add_assoc.
    + by rewrite Z.add_assoc.
    + by apply coalesce_pair.
  - unfold set_ptr. rewrite (set_hdr_ok bp _ s) by lia. eexists _, m, l2. split; [reflexivity|].
    assert (starts_used l2) by (destruct l2 as [|[k []] l2]; [done|done|]; simpl in E; lia).
    split_and!; try done; try lia.
    + intros x Hx. by rewrite upd_other.
    + by rewrite upd_same.
    + by rewrite upd_same.
    + by apply coalesce_starts.
Qed.

(** The block at [bp] has met its upper neighbour; the result is the layout with both merges done. *)
Lemma join_lower_ok s l1 m l2 q : let bp := lo + total l1 in
  brk s = bp + m + total l2 -> brk s <= 2 ^ 27 -> sizes_ok l1 -> 0 < m -> sizes_ok l2 -> apart l1 -> apart l2 -> starts_used l2 ->
  ringed (units s) l1 q -> h_size (units s bp) = m -> h_ptr (units s bp) = hd base (free_at (bp + m) l2) -> linked (units s) (bp + m) l2 base ->
  exists u l', join_lower bp (lf l1) s = Ok (tt, mk_arena u (freep s) (brk s)) /\ (forall x, x <> lf l1 -> u x = units s x) /\
    l' = coalesce (l1 ++ (m, false) :: l2) /\ apart l' /\ ringed u l' base /\ lf l1 ∈ base :: free_at lo l'.
Proof using Hbase.
  intros bp Hbrk Hmax Hs1 Hm Hs2 Ha1 Ha2 Hst Hr Hsz Hptr Hl. pose proof (total_nonneg _ Hs1). pose proof (total_nonneg _ Hs2).
  assert (HP : 0 <= lf l1 < bp) by (destruct (lf_range l1 Hs1) as [->|[? _]]; lia). unfold join_lower.
  kstep (get_size_ok (lf l1) s ltac:(lia)). destruct (ends_used_or l1) as [Hend|(l1' & k & ->)].
  - assert (Hne : lf l1 + h_size (units s (lf l1)) <> bp).
    { destruct Hend as [->|(l1' & k & ->)]; [destruct Hr as (_ & Hr & _); change (lf []) with base in *; unfold bp; simpl; lia|].
      rewrite lf_used in *. rewrite ringed_app in Hr. destruct Hr as [Hr _]. apply sizes_app in Hs1 as [Hs1 Hk]. apply Forall_cons in Hk as [Hk _]. simpl in Hk.
      unfold bp. rewrite total_app. simpl. pose proof (total_nonneg _ Hs1). destruct (lf_end _ _ _ Hs1 Hr); lia. }
    rewrite (proj2 (Z.eqb_neq _ _) Hne). unfold set_ptr. rewrite set_hdr_ok by lia.
    assert (Hap : apart (l1 ++ (m, false) :: l2)) by (apply apart_ends; [done..|by apply apart_free_cons]).
    eexists _, (l1 ++ (m, false) :: l2). split; [reflexivity|]. split; [intros x Hx; by apply upd_other|]. split; [by rewrite coalesce_apart|]. split; [done|]. split.
    + rewrite ringed_app. split; [by apply (relink _ _ q)|]. fold bp. cbn [linked]. rewrite upd_other by lia. split_and!; [done|done|].
      eapply linked_frame; [done| |exact Hl]. intros x Hx. apply upd_other. lia.
    + rewrite free_at_app. destruct (lf_range l1 Hs1) as [->|[_ ?]]; set_solver.
  - assert (Eb : bp = lf (l1' ++ [(k, false)]) + k) by (unfold bp; rewrite lf_free, total_app; simpl; lia).
    rewrite ringed_app in Hr. destruct Hr as [Hr (Hk & _ & _)]. rewrite lf_free in *. set (P := lo + total l1') in *.
    apply sizes_app in Hs1 as [Hs1 Hk0]. apply Forall_cons in Hk0 as [Hk0 _]. simpl in Hk0. pose proof (total_nonneg _ Hs1). rewrite Hk, (proj2 (Z.eqb_eq _ _) (eq_sym Eb)).
    kstep (get_size_ok bp s ltac:(lia)). unfold set_size. kstep (set_hdr_ok P (fun h => mk_header (h_ptr h) (uint (k + h_size (units s bp))) (h_pad h)) s ltac:(lia)). rewrite Hsz, uint_small by lia.
    set (s1 := mk_arena _ _ _). assert (brk s1 = brk s) as Ebrk by done. kstep (get_ptr_ok bp s1 ltac:(lia)).
    assert (Hne : units s1 bp = units s bp) by (apply upd_other; lia). rewrite Hne, Hptr. unfold set_ptr. rewrite (set_hdr_ok P _ s1) by lia.
    assert (Hc : coalesce ((k, false) :: (m, false) :: l2) = (k + m, false) :: l2) by by apply coalesce_pair.
    assert (Hap : apart (l1' ++ (k + m, false) :: l2)).
    { apply apart_mid; [by apply (apart_resize _ k)|by apply apart_free_cons]. }
    eexists _, (l1' ++ (k + m, false) :: l2). split; [reflexivity|]. split; [intros x Hx; simpl; by rewrite !upd_other|].
    split; [rewrite <- app_assoc; cbn [app]; rewrite coalesce_prefix; rewrite Hc; done|]. split; [done|]. split.
    + rewrite ringed_app. split; [eapply ringed_frame; [done| |exact Hr]; intros x Hx; simpl; rewrite !upd_other by lia; done|]. fold P. cbn [linked].
      rewrite upd_same. simpl. rewrite upd_same. simpl. split_and!; [done|intros _; by rewrite Z.add_assoc, <- Eb|].
      rewrite Z.add_assoc, <- Eb. eapply linked_frame; [done| |exact Hl]. intros x Hx. simpl. rewrite !upd_other by lia. done.
    + rewrite free_at_app. fold P. set_solver.
Qed.

(** ** Walks along the list *)

Lemma ringed_chain u l e : ringed u l e -> chain u base (free_at lo l ++ [e]).
Proof using Hbase. intros (H1 & _ & H3). by apply linked_chain. Qed.

Lemma ring_sorted l : sizes_ok l -> StronglySorted Z.lt (base :: free_at lo l).
Proof using Hbase. intros Hs. constructor; [by apply free_at_sorted|]. apply Forall_forall. intros x Hx%free_at_range; [lia|done]. Qed.

Section FreeLoop.
Context (s : arena) (l1 l2 : list chunk) (m : Z).
Let bp : Z := lo + total l1.
Let l : list chunk := l1 ++ (m, true) :: l2.
Context (Hbrk : brk s = lo + total l) (Hs : sizes_ok l) (Hr : ringed (units s) l base).

Let F1 : list Z := free_at lo l1.
Let F2 : list Z := free_at (bp + m) l2.

Lemma free_parts : free_at lo l = F1 ++ F2.
Proof using Hbase. unfold l. by rewrite free_at_app. Qed.
Lemma parts_ok : sizes_ok l1 /\ sizes_ok l2 /\ 0 < m /\ 0 <= total l1 /\ 0 <= total l2 /\ brk s = bp + m + total l2.
Proof using Hbase Hbrk Hs.
  unfold l in *. pose proof Hs as Hs'. apply sizes_app in Hs' as [H1 H2]. apply Forall_cons in H2 as [Hm H2]. rewrite total_app, total_cons in Hbrk. simpl in *.
  pose proof (total_nonneg _ H1). pose proof (total_nonneg _ H2). unfold bp. split_and!; try done. lia.
Qed.
Lemma low_range x : x ∈ F1 -> lo <= x < bp.
Proof using Hbase Hbrk Hs. destruct parts_ok as (H1 & _). by apply free_at_range. Qed.
Lemma high_range x : x ∈ F2 -> bp < x < brk s.
Proof using Hbase Hbrk Hs. destruct parts_ok as (_ & H2 & ? & ? & ? & ?). intros Hx%free_at_range; [lia|done]. Qed.

Lemma stops_at_lf : stop bp (lf l1) (h_ptr (units s (lf l1))) = true.
Proof using Hbase Hbrk Hs Hr.
  destruct parts_ok as (H1 & _ & ? & ? & ? & ?). assert (Hp : h_ptr (units s (lf l1)) = hd base F2).
  { pose proof Hr as Hr'. apply ringed_app in Hr' as [Hr' _]. rewrite (lf_ptr _ _ _ Hr'). done. }
  assert (Hlt : base <= lf l1 < bp) by (destruct (lf_range l1 H1) as [->|[? _]]; unfold bp; lia).
  pose proof high_range as HF2. rewrite Hp. unfold stop. destruct F2 as [|x F]; simpl.
  - rewrite (proj2 (Z.ltb_lt (lf l1) bp)), (proj2 (Z.leb_le base (lf l1))) by lia. simpl. apply orb_true_r.
  - rewrite (proj2 (Z.ltb_lt (lf l1) bp)), (proj2 (Z.ltb_lt bp x)); [done|apply HF2; set_solver|lia].
Qed.

Lemma walk_low A p B : base :: F1 = A ++ p :: B ->
  chain (units s) p B /\ quiet bp p B /\ (forall x, x ∈ p :: B -> 0 <= x < bp) /\ List.last (p :: B) p = lf l1 /\ (length B <= length F1)%nat.
Proof using Hbase Hbrk Hs Hr.
  intros E. destruct parts_ok as (H1 & _ & ? & ? & ? & ?). pose proof low_range as HF1. assert (Hin : forall x, x ∈ p :: B -> 0 <= x < bp).
  { intros x Hx. assert (x ∈ base :: F1) as [->|Hx1%HF1]%elem_of_cons by (rewrite E; set_solver); unfold bp in *; lia. }
  assert (Hss : StronglySorted Z.lt (p :: B)) by (apply (sorted_suffix A); rewrite <- E; by apply ring_sorted).
  pose proof (ringed_chain _ _ _ Hr) as Hc. rewrite free_parts, <- app_assoc in Hc. split_and!.
  - apply (chain_from _ base F1 A); [done|]. by apply chain_prefix in Hc.
  - apply quiet_sorted; [done|left; naive_solver].
  - done.
  - assert (Hlf : lf l1 = List.last (base :: F1) base) by (unfold lf; fold F1; by destruct F1). rewrite (last_default _ _ p base), Hlf, E. by rewrite last_suffix.
  - apply (f_equal length) in E. simpl in E. rewrite length_app in E. simpl in E. lia.
Qed.

(** The loop of [free] finds the last free chunk below the block. *)
Lemma free_loop_ok : freep s ∈ base :: free_at lo l -> free_loop (Z.to_nat (brk s)) bp (freep s) s = Ok (lf l1, s).
Proof using Hbase Hbrk Hs Hr.
  intros Hf. destruct parts_ok as (H1 & _ & ? & ? & ? & ?). pose proof stops_at_lf as Hst. pose proof low_range as HF1. pose proof high_range as HF2.
  pose proof (length_free_at lo l Hs) as Hlen. rewrite free_parts in Hlen, Hf. rewrite length_app in Hlen.
  assert (freep s ∈ base :: F1 \/ freep s ∈ F2) as [Hin|Hin] by set_solver; apply list_elem_of_split in Hin as (A & B & E).
  - destruct (walk_low A _ B E) as (Hc & Hq & Hin & Hl & HB). rewrite <- Hl. apply free_walk; [|done|done|by rewrite Hl|lia]. intros x Hx%Hin. lia.
  - destruct (walk_low [] base F1 eq_refl) as (Hc1 & Hq1 & Hin1 & Hl1 & _). pose proof (ringed_chain _ _ _ Hr) as Hc. rewrite free_parts in Hc.
    assert (Hc2 : chain (units s) (freep s) (B ++ [base])).
    { apply (chain_from _ base ((F1 ++ F2) ++ [base]) (base :: F1 ++ A)); [|done]. rewrite E. simpl. by rewrite <- !app_assoc. }
    assert (Hss : StronglySorted Z.lt (freep s :: B)).
    { destruct parts_ok as (_ & Hs2 & _). apply (sorted_suffix A). rewrite <- E. by apply free_at_sorted. }
    assert (Hhi : forall x, x ∈ freep s :: B -> bp < x < brk s) by (intros x Hx; apply HF2; rewrite E; set_solver).
    assert (Hlast : List.last (freep s :: B ++ base :: F1) (freep s) = lf l1).
    { rewrite app_comm_cons, last_suffix, (last_default _ _ _ base). done. }
    assert (Hq2 : quiet bp (freep s) (B ++ [base])).
    { clear -Hss Hhi Hbase Hin1. revert Hss Hhi. generalize (freep s). induction B as [|x B IH]; intros p Hss Hhi; simpl.
      - split; [|done]. apply stop_false. right; right. specialize (Hin1 base ltac:(set_solver)). specialize (Hhi p ltac:(set_solver)). lia.
      - apply StronglySorted_inv in Hss as [Hss Hf]. apply Forall_cons in Hf as [Hf _]. split; [|apply IH; [done|set_solver]].
        apply stop_false. right; left. specialize (Hhi p ltac:(set_solver)). lia. }
    rewrite <- Hlast. apply free_walk; [|by apply chain_app|by apply quiet_app|by rewrite Hlast|].
    + intros x Hx. assert (x ∈ freep s :: B \/ x ∈ base :: F1) as [Hx1%Hhi|Hx1%Hin1] by set_solver; unfold bp in *; lia.
    + apply (f_equal length) in E. rewrite length_app in *. simpl in *. lia.
Qed.
End FreeLoop.

(** ** [free] *)

Definition rep (s : arena) (l : list chunk) : Prop :=
  brk s = lo + total l /\ brk s <= 2 ^ 27 /\ sizes_ok l /\ apart l /\ ringed (units s) l base /\ freep s ∈ base :: free_at lo l.

Definition keeps (s s' : arena) (l : list chunk) : Prop :=
  forall a k x, (a, k) ∈ used_at lo l -> a <= x < a + k -> units s' x = units s x.

Lemma keeps_ring s s' l : sizes_ok l -> (forall x, x ∉ base :: free_at lo l -> units s' x = units s x) -> keeps s s' l.
Proof using Hbase.
  intros Hs H a k x Hin Hx. apply H. pose proof (used_range _ _ _ _ Hs Hin). pose proof (used_not_free _ _ _ _ _ Hs Hin Hx). intros [->|?]%elem_of_cons; [lia|done].
Qed.

Lemma free_ok s l1 m l2 : rep s (l1 ++ (m, true) :: l2) ->
  exists s', free (lo + total l1 + 1) s = Ok (tt, s') /\ rep s' (coalesce (l1 ++ (m, false) :: l2)) /\ keeps s s' (l1 ++ (m, false) :: l2) /\
    freep s' = lf l1 /\ brk s' = brk s.
Proof using Hbase.
  intros (Hbrk & Hmax & Hs & Ha & Hr & Hf). set (bp := lo + total l1). unfold free. replace (bp + 1 - 1) with bp by lia. rewrite !bind_gets.
  kstep (free_loop_ok s l1 l2 m Hbrk Hs Hr Hf). pose proof (parts_ok s l1 l2 m Hbrk Hs) as (Hs1 & Hs2 & Hm & Ht1 & Ht2 & Hbrk').
  apply ringed_app in Hr as [Hr (Hsz & _ & Hl)]. fold bp in Hsz, Hl. cbn [free_at] in Hr. fold bp in Hr. pose proof (apart_app _ _ Ha) as [Ha1 Ha2]. simpl in Ha2.
  destruct (join_upper_ok s l1 m l2 Hbrk' Hmax Hs1 Hm Hs2 Ha2 Hr Hsz Hl) as (u & m' & l2' & E1 & Hu & Hsz' & Hp' & Hl' & Hst & Ha2' & Hs2' & Htot & Hmm & Hco).
  kstep E1. set (s1 := mk_arena u (freep s) (brk s)). fold bp in Hu, Hsz', Hp', Hl'. pose proof (total_nonneg _ Hs2').
  assert (Hr1 : ringed (units s1) l1 (hd base (free_at (bp + m) l2))).
  { eapply ringed_frame; [done| |exact Hr]. intros x Hx. apply Hu. unfold bp. lia. }
  assert (Hl1 : linked (units s1) (bp + m') l2' base). { eapply linked_frame; [done| |exact Hl']. intros x Hx. apply Hu. lia. }
  destruct (join_lower_ok s1 l1 m' l2' _ ltac:(simpl; unfold bp in *; lia) Hmax Hs1 ltac:(lia) Hs2' Ha1 Ha2' Hst Hr1 Hsz' Hp' Hl1)
    as (u2 & l' & E2 & Hu2 & El & Ha' & Hr2 & Hin). kstep E2.
  assert (El' : l' = coalesce (l1 ++ (m, false) :: l2)).
  { rewrite El. apply coalesce_congr. rewrite Hco. by apply coalesce_starts. }
  eexists. split; [reflexivity|]. rewrite <- El'. unfold rep. cbn [units freep brk]. split_and!.
  - change (brk s = lo + total l'). rewrite El', total_coalesce, total_app, total_cons. simpl. unfold bp in *. lia.
  - done.
  - rewrite El'. apply sizes_coalesce, sizes_app. split; [done|]. by constructor.
  - done.
  - done.
  - done.
  - apply keeps_ring; [apply sizes_app; split; [done|]; by constructor|]. intros x Hx. simpl. rewrite free_at_app in Hx. cbn [free_at] in Hx. fold bp in Hx.
    assert (x <> lf l1) by (destruct (lf_range l1 Hs1) as [->|[_ ?]]; set_solver). rewrite Hu2 by done. apply Hu. set_solver.
  - done.
  - done.
Qed.
End Ring.
