(* ===== verification/UmallocSpec.v ===== *)
(** * What [malloc] and [free] promise

    [malloc] carves a block out of a free chunk, or asks the kernel for more;
    every sequence of calls and of writes to the blocks that were handed out
    keeps the heap in order. *)

From stdpp Require Import base numbers list list_numbers sets strings relations.
From Stdlib Require Import ZArith Lia Sorted.
From S2P Require Import Prelude Umalloc UmallocProof.

Lemma apart_use l1 m n l2 : apart (l1 ++ (m, false) :: l2) -> apart (l1 ++ (n, true) :: l2).
Proof.
  intros Ha. apply apart_mid; [|by apply apart_app in Ha as [_ Ha]; apply apart_free_cons in Ha as [_ Ha]].
  apply apart_app in Ha as [Ha _]. induction l1 as [|[k []] l1 IH]; cbn [app apart] in *; [done|by apply IH|]. destruct l1 as [|[j []] l1]; cbn [app apart] in *; auto.
Qed.
Lemma unique_split (x : Z) l1 l2 l1' l2' : NoDup (l1 ++ x :: l2) -> l1 ++ x :: l2 = l1' ++ x :: l2' -> l1 = l1'.
Proof.
  revert l1'. induction l1 as [|y l1 IH]; intros [|y' l1'] Hnd E; simplify_eq/=; [done| | |].
  - apply NoDup_cons in Hnd as [Hx _]. set_solver.
  - apply NoDup_cons in Hnd as [Hx _]. set_solver.
  - f_equal. apply NoDup_cons in Hnd as [_ Hnd]. by apply IH.
Qed.
Lemma sorted_nodup (l : list Z) : StronglySorted Z.lt l -> NoDup l.
Proof.
  induction 1 as [|x l _ IH Hf]; constructor; [|done]. intros Hx. rewrite Forall_forall in Hf. specialize (Hf x Hx). lia.
Qed.

Lemma length_free_coalesce l a a' : (length (free_at a (coalesce l)) <= length (free_at a' l))%nat.
Proof.
  revert a a'. induction l as [|[m []] l IH]; intros a a'; cbn [coalesce free_at]; [done|apply IH|]. specialize (IH (a + m) (a' + m)).
  destruct (coalesce l) as [|[k []] l'] eqn:E; cbn [free_at length] in *; [lia|lia|]. rewrite <- Z.add_assoc in IH. lia.
Qed.
Lemma used_coalesce l a : used_at a (coalesce l) = used_at a l.
Proof.
  revert a. induction l as [|[m []] l IH]; intros a; cbn [coalesce used_at]; [done|by rewrite IH|]. rewrite <- IH.
  destruct (coalesce l) as [|[k []] l']; cbn [used_at]; [done|done|]. by rewrite Z.add_assoc.
Qed.
Lemma coalesce_big l n : sizes_ok l -> 0 < n -> exists k, n <= k /\ (k, false) ∈ coalesce (l ++ [(n, false)]).
Proof.
  intros Hs Hn. assert (Hso : sizes_ok (coalesce (l ++ [(n, false)]))) by (apply sizes_coalesce, sizes_app; split; [done|by constructor]). revert Hso.
  induction Hs as [|[m []] l Hm Hs IH]; cbn [app coalesce]; [intros _; exists n; split; [lia|set_solver]|..].
  - intros [_ Hso]%Forall_cons. destruct (IH Hso) as (k & ? & ?). exists k. split; [done|set_solver].
  - intros Hso. assert (sizes_ok (coalesce (l ++ [(n, false)]))) as Hso' by (apply sizes_coalesce, sizes_app; split; [done|by constructor]).
    destruct (IH Hso') as (k & Hk & Hin). clear IH Hso Hso'. revert Hin. generalize (coalesce (l ++ [(n, false)])). intros [|[j []] r] Hin; [by apply not_elem_of_nil in Hin|exists k; split; [done|set_solver]|].
    apply elem_of_cons in Hin as [?|Hin]; [simplify_eq; exists (m + j); simpl in Hm; split; [lia|set_solver]|exists k; split; [done|set_solver]].
Qed.
Lemma free_size u a l e k : linked u a l e -> (k, false) ∈ l -> exists x, x ∈ free_at a l /\ h_size (u x) = k.
Proof.
  revert a. induction l as [|[m used] l IH]; intros a; [by intros _ ?%not_elem_of_nil|]. cbn [linked free_at]. intros (Hsz & _ & Hl) [?|Hin]%elem_of_cons.
  - simplify_eq. exists a. set_solver.
  - destruct (IH _ Hl Hin) as (x & Hx & ?). exists x. destruct used; set_solver.
Qed.
Lemma size_free u a l e x : linked u a l e -> x ∈ free_at a l -> (h_size (u x), false) ∈ l.
Proof.
  revert a. induction l as [|[m used] l IH]; intros a; [by intros _ ?%not_elem_of_nil|]. cbn [linked free_at]. intros (Hsz & _ & Hl).
  destruct used; [intros Hx%(IH _ Hl); set_solver|]. intros [->|Hx%(IH _ Hl)]%elem_of_cons; [rewrite Hsz; set_solver|set_solver].
Qed.

Section Malloc.
Context (base lo : Z) (Hbase : 0 < base < lo).
Abbreviation ringed := (ringed base lo).
Abbreviation lf := (lf base lo).
Abbreviation rep := (rep base lo).
Abbreviation keeps := (keeps lo).

(** The free chunk that another one points to *)
Lemma ring_pred u l y x : sizes_ok l -> ringed u l base -> y ∈ base :: free_at lo l -> h_ptr (u y) = x -> x ∈ free_at lo l ->
  exists l1 m l2, l = l1 ++ (m, false) :: l2 /\ x = lo + total l1 /\ y = lf l1.
Proof using Hbase.
  intros Hs Hr Hy Hp Hx. destruct (free_at_split _ _ _ Hx) as (l1 & m & l2 & -> & Ex). exists l1, m, l2. split_and!; [done..|].
  pose proof (ring_sorted base lo Hbase _ Hs) as Hso. apply sorted_nodup in Hso. pose proof (ringed_chain base lo Hbase _ _ _ Hr) as Hc.
  pose proof (free_at_range _ _ _ Hs Hx). rewrite free_at_app in *. cbn [free_at] in *. rewrite <- Ex in *. set (F1 := free_at lo l1) in *. set (F2 := free_at (x + m) l2) in *.
  apply list_elem_of_split in Hy as (A & B & E).
  assert (Hc' : chain u y (B ++ [base])).
  { apply (chain_from u base ((F1 ++ x :: F2) ++ [base]) A); [|done]. rewrite app_comm_cons, E. by rewrite <- app_assoc. }
  destruct B as [|z B]; [destruct Hc' as [Hc' _]; lia|]. destruct Hc' as [Hz _]. rewrite Hp in Hz. subst z.
  change (base :: F1 ++ x :: F2) with ((base :: F1) ++ x :: F2) in *. change (A ++ y :: x :: B) with (A ++ [y] ++ x :: B) in E. rewrite app_assoc in E.
  assert (E' : base :: F1 = A ++ [y]) by by apply (unique_split x _ F2 _ B).
  unfold UmallocProof.lf. fold F1. transitivity (List.last (base :: F1) base); [rewrite E'; by rewrite List.last_last|by destruct F1].
Qed.

(** What the heap says of one of its free chunks *)
Lemma rep_free s l1 m l2 : rep s (l1 ++ (m, false) :: l2) -> let x := lo + total l1 in
  brk s = x + m + total l2 /\ base <= lf l1 < x /\ lo <= x /\ 0 < m /\ 0 <= total l2 /\ sizes_ok l1 /\ sizes_ok l2 /\
  ringed (units s) l1 x /\ h_size (units s x) = m /\ h_ptr (units s x) = hd base (free_at (x + m) l2) /\ linked (units s) (x + m) l2 base.
Proof using Hbase.
  intros (Hbrk & Hmax & Hs & Ha & Hr & Hf) x. apply sizes_app in Hs as [Hs1 Hs2]. apply Forall_cons in Hs2 as [Hm Hs2]. simpl in Hm.
  pose proof (total_nonneg _ Hs1). pose proof (total_nonneg _ Hs2). rewrite total_app, total_cons in Hbrk. simpl in Hbrk.
  apply ringed_app in Hr as [Hr1 (Hsz & Hq & Hl)]; [|done]. specialize (Hq eq_refl). split_and!; try done; try (unfold x; lia);
  destruct (lf_range base lo Hbase l1 Hs1) as [->|[? _]]; unfold x; lia.
Qed.
Lemma lf_in l1 l2 : sizes_ok l1 -> lf l1 ∈ base :: free_at lo (l1 ++ l2).
Proof using Hbase. intros Hs. rewrite free_at_app. destruct (lf_range base lo Hbase l1 Hs) as [->|[_ ?]]; set_solver. Qed.

Lemma take_all s l1 n l2 : rep s (l1 ++ (n, false) :: l2) ->
  exists s', take_block n (lf l1) (lo + total l1) s = Ok (lo + total l1 + 1, s') /\ rep s' (l1 ++ (n, true) :: l2) /\ keeps s s' (l1 ++ (n, false) :: l2).
Proof using Hbase.
  intros H. destruct (rep_free s l1 n l2 H) as (Hbrk & HP & Hx & Hm & Ht & Hs1 & Hs2 & Hr & Hsz & Hq & Hl). destruct H as (Hbrk' & Hmax & Hs & Ha & _ & Hf).
  set (x := lo + total l1) in *. unfold take_block. kstep (get_size_ok x s ltac:(lia)). rewrite Hsz, Z.eqb_refl.
  set (h := mk_header (hd base (free_at (x + n) l2)) (h_size (units s (lf l1))) (h_pad (units s (lf l1)))).
  assert (E : (q ← get_ptr x; set_ptr (lf l1) q;; mret x) s = Ok (x, mk_arena (upd_unit (units s) (lf l1) h) (freep s) (brk s))).
  { kstep (get_ptr_ok x s ltac:(lia)). unfold set_ptr. rewrite Hq.
    kstep (set_hdr_ok (lf l1) (fun h => mk_header (hd base (free_at (x + n) l2)) (h_size h) (h_pad h)) s ltac:(lia)). done. }
  kstep E. exists (mk_arena (upd_unit (units s) (lf l1) h) (lf l1) (brk s)). split; [done|]. split.
  - split_and!; simpl; try done.
    + rewrite total_app, total_cons in *. simpl in *. lia.
    + apply sizes_app. split; [done|by constructor].
    + by apply (apart_use _ n).
    + apply ringed_app; [done|]. cbn [free_at]. fold x. split; [by apply (relink base lo Hbase _ _ x)|]. cbn [linked]. rewrite upd_other by lia.
      split_and!; [done|done|]. eapply linked_frame; [done| |exact Hl]. intros z Hz. apply upd_other. lia.
    + by apply lf_in.
  - apply (keeps_ring base lo Hbase); [done|]. intros z Hz. simpl. apply upd_other. intros ->. by apply Hz, lf_in.
Qed.

Lemma take_end s l1 m n l2 : rep s (l1 ++ (m, false) :: l2) -> 1 <= n < m -> let x := lo + total l1 + (m - n) in
  exists s', take_block n (lf l1) (lo + total l1) s = Ok (x + 1, s') /\ rep s' (l1 ++ (m - n, false) :: (n, true) :: l2) /\ keeps s s' (l1 ++ (m, false) :: l2).
Proof using Hbase.
  intros H Hn. destruct (rep_free s l1 m l2 H) as (Hbrk & HP & Hx & Hm & Ht & Hs1 & Hs2 & Hr & Hsz & Hq & Hl). destruct H as (Hbrk' & Hmax & Hs & Ha & _ & Hf).
  set (x := lo + total l1) in *. cbn zeta. unfold take_block. kstep (get_size_ok x s ltac:(lia)). rewrite Hsz, (proj2 (Z.eqb_neq m n)) by lia.
  set (u1 := upd_unit (units s) x (mk_header (h_ptr (units s x)) (m - n) (h_pad (units s x)))). set (y := x + (m - n)).
  set (u2 := upd_unit u1 y (mk_header (h_ptr (u1 y)) n (h_pad (u1 y)))).
  assert (E : (set_size x (m - n);; sz ← get_size x; set_size (x + sz) n;; mret (x + sz)) s = Ok (y, mk_arena u2 (freep s) (brk s))).
  { unfold set_size. kstep (set_hdr_ok x (fun h => mk_header (h_ptr h) (uint (m - n)) (h_pad h)) s ltac:(lia)). cbv beta. rewrite (uint_small n), (uint_small (m - n)) by lia. fold u1.
    set (s1 := mk_arena u1 (freep s) (brk s)). kstep (get_size_ok x s1 ltac:(simpl; lia)). assert (h_size (units s1 x) = m - n) as -> by (simpl; unfold u1; by rewrite upd_same).
    fold y. kstep (set_hdr_ok y (fun h => mk_header (h_ptr h) n (h_pad h)) s1 ltac:(simpl; lia)). done. }
  kstep E. exists (mk_arena u2 (lf l1) (brk s)). split; [done|]. assert (Hu2 : forall z, z <> x -> z <> y -> u2 z = units s z).
  { intros z Hzx Hzy. unfold u2, u1. by rewrite !upd_other. }
  split.
  - split_and!; simpl; try done.
    + rewrite total_app, !total_cons in *. simpl in *. lia.
    + apply sizes_app. split; [done|]. repeat constructor; simpl; try lia. done.
    + apply apart_app in Ha as Ha'. destruct Ha' as [_ [_ Ha2]%apart_free_cons]. apply apart_mid; [|done]. apply (apart_resize _ m).
      rewrite cons_middle, app_assoc in Ha. by apply apart_app in Ha as [Ha _].
    + apply ringed_app; [done|]. cbn [free_at hd]. fold x. split.
      * eapply ringed_frame; [done|done| |exact Hr]. intros z Hz. apply Hu2; unfold y; lia.
      * cbn [linked]. fold y. assert (u2 x = mk_header (h_ptr (units s x)) (m - n) (h_pad (units s x))) as -> by (unfold u2, u1; rewrite upd_other by (unfold y; lia); by rewrite upd_same).
        assert (h_size (u2 y) = n) as -> by (unfold u2; by rewrite upd_same). cbn [h_size h_ptr free_at]. replace (y + n) with (x + m) by (unfold y; lia).
        split_and!; try done. eapply linked_frame; [done| |exact Hl]. intros z Hz. apply Hu2; unfold y; lia.
    + by apply lf_in.
  - intros a k z Hin Hz. apply Hu2.
    + intros ->. pose proof (used_not_free _ _ _ _ _ Hs Hin Hz) as Hnf. apply Hnf. rewrite free_at_app. fold x. simpl. set_solver.
    + rewrite used_at_app in Hin. simpl in Hin. fold x in Hin. apply elem_of_app in Hin as [Hin|Hin]; apply used_range in Hin; try done; unfold y; lia.
Qed.

Lemma take_block_ok s l y x n : rep s l -> y ∈ base :: free_at lo l -> h_ptr (units s y) = x -> x ∈ free_at lo l -> 1 <= n <= h_size (units s x) ->
  exists a s' l', take_block n y x s = Ok (a + 1, s') /\ carve lo n l a l' /\ rep s' l' /\ keeps s s' l.
Proof using Hbase.
  intros Hrep Hy Hp Hx Hn. pose proof Hrep as (_ & _ & Hs & _ & Hr & _). destruct (ring_pred _ _ _ _ Hs Hr Hy Hp Hx) as (l1 & m & l2 & -> & -> & ->).
  assert (Hsz : h_size (units s (lo + total l1)) = m) by (destruct (rep_free s l1 m l2 Hrep) as (_ & _ & _ & _ & _ & _ & _ & _ & ? & _); done). rewrite Hsz in Hn.
  destruct (decide (m = n)) as [->|].
  - destruct (take_all s l1 n l2 Hrep) as (s' & E & Hr' & Hk). exists (lo + total l1), s', (l1 ++ (n, true) :: l2). split_and!; try done. constructor.
  - destruct (take_end s l1 m n l2 Hrep ltac:(lia)) as (s' & E & Hr' & Hk). exists (lo + total l1 + (m - n)), s', (l1 ++ (m - n, false) :: (n, true) :: l2).
    split_and!; try done. constructor. lia.
Qed.

(** ** [malloc] *)

Context (grow : Z -> Z -> option Z).
(** The kernel moves the break up by what it was asked for, and user memory is below 2 GB. *)
Context (Hgrow : forall b n b', 0 <= n -> grow b n = Some b' -> b' = b + n / 16 /\ b' <= 2 ^ 27).

Lemma ring_mapped s l x : rep s l -> x ∈ base :: free_at lo l -> 0 < x < brk s.
Proof using Hbase Hgrow.
  intros (Hbrk & _ & Hs & _) Hx. pose proof (total_nonneg _ Hs). apply elem_of_cons in Hx as [->|Hx%free_at_range]; [lia|lia|done].
Qed.

Lemma rotate s l : rep s l -> exists p ws, chain (units s) (freep s) (p :: ws) /\ (forall x, x ∈ p :: ws <-> x ∈ base :: free_at lo l) /\
  List.last (p :: ws) 0 = freep s /\ NoDup (p :: ws) /\ length (p :: ws) = S (length (free_at lo l)).
Proof using Hbase Hgrow.
  intros (Hbrk & _ & Hs & _ & Hr & Hf). pose proof (ringed_chain base lo Hbase _ _ _ Hr) as Hc. pose proof (sorted_nodup _ (ring_sorted base lo Hbase l Hs)) as Hnd.
  set (F := free_at lo l) in *. apply list_elem_of_split in Hf as (A & B & E). rewrite E in Hnd.
  assert (Hp : A ++ freep s :: B ≡ₚ B ++ A ++ [freep s]) by (rewrite (cons_middle (freep s) A B), app_assoc; apply Permutation_app_comm).
  assert (Hw : exists p ws, p :: ws = B ++ A ++ [freep s]) by (destruct (B ++ A ++ [freep s]) eqn:Ew; [by destruct B, A|eauto]).
  destruct Hw as (p & ws & Ew). exists p, ws. rewrite Ew. split_and!.
  - assert (HcB : chain (units s) (freep s) (B ++ [base])).
    { apply (chain_from _ base (F ++ [base]) A); [|done]. rewrite app_comm_cons, E. by rewrite <- app_assoc. }
    destruct A as [|a A]; injection E as E1 E2; [by rewrite E1 in HcB|]. rewrite E2, <- app_assoc in Hc. apply chain_app in Hc as [Hc _]. rewrite <- E1. apply chain_app. done.
  - intros x. rewrite E. by rewrite Hp.
  - rewrite app_assoc. apply List.last_last.
  - by rewrite <- Hp.
  - rewrite <- Hp, <- E. done.
Qed.

Lemma search n s l fuel prevp p ws : rep s l -> 1 <= n -> chain (units s) prevp (p :: ws) -> prevp ∈ base :: free_at lo l ->
  (forall x, x ∈ p :: ws -> x ∈ base :: free_at lo l) -> List.last (p :: ws) 0 = freep s -> NoDup (p :: ws) -> (length (p :: ws) <= fuel)%nat ->
  (exists a s' l', malloc_loop grow fuel n prevp p s = Ok (a + 1, s') /\ carve lo n l a l' /\ rep s' l' /\ keeps s s' l) \/
  ((forall x, x ∈ p :: ws -> h_size (units s x) < n) /\ malloc_loop grow fuel n prevp p s =
    (r ← morecore grow n; if r =? 0 then mret 0 else q ← get_ptr r; malloc_loop grow (fuel - length (p :: ws)) n r q) s).
Proof using Hbase Hgrow.
  intros Hrep Hn. revert prevp p fuel. induction ws as [|x ws IH]; intros prevp p [|fuel] [Hp Hc] Hprev Hin Hlast Hnd Hlen; simpl in Hlen; try lia;
    cbn [malloc_loop]; pose proof (ring_mapped s l p Hrep (Hin p ltac:(set_solver))) as Hpm; kstep (get_size_ok p s ltac:(lia));
    destruct (Z.leb_spec n (h_size (units s p))) as [Hle|Hgt].
  1, 3: left; apply take_block_ok; [done|done|done| |lia]; pose proof (Hin p ltac:(set_solver)) as [->|?]%elem_of_cons; [|done];
    destruct Hrep as (_ & _ & _ & _ & (_ & H0 & _) & _); lia.
  - right. split; [set_solver|]. simpl in Hlast. rewrite bind_gets, (proj2 (Z.eqb_eq _ _) Hlast). simpl. by rewrite Nat.sub_0_r.
  - destruct Hc as [Hx Hc]. apply NoDup_cons in Hnd as [Hpn Hnd]. assert (p <> freep s).
    { intros ->. apply Hpn. rewrite <- Hlast. change (List.last (freep s :: x :: ws) 0) with (List.last (x :: ws) 0). clear. revert x. induction ws as [|y ws IH]; intros x; [set_solver|].
      specialize (IH y). change (List.last (x :: y :: ws) 0) with (List.last (y :: ws) 0). set_solver. }
    rewrite bind_gets, (proj2 (Z.eqb_neq _ _)) by done. kstep (get_ptr_ok p s ltac:(lia)). rewrite Hx.
    destruct (IH p x fuel) as [H1|[Hsm E]]; [by split|by apply Hin; set_solver|set_solver|done|done|simpl; lia|by left|].
    right. split; [set_solver|]. rewrite E. done.
Qed.

Lemma morecore_ok s l n : rep s l -> 1 <= n -> 16 * n < 2 ^ 31 -> let nu := Z.max n 4096 in
  match grow (brk s) (16 * nu) with
  | None => morecore grow n s = Ok (0, s)
  | Some _ => exists s', morecore grow n s = Ok (freep s', s') /\ rep s' (coalesce (l ++ [(nu, false)])) /\ keeps s s' l
  end.
Proof using Hbase Hgrow.
  intros Hrep Hn Hmax nu. unfold morecore. replace (if n <? 4096 then 4096 else n) with nu by (unfold nu; destruct (Z.ltb_spec n 4096); lia).
  pose proof Hrep as (Hbrk & Hb & Hs & Ha & Hr & Hf). pose proof (total_nonneg _ Hs). rewrite (Z.mul_comm 16).
  assert (Esb : sbrk grow (nu * sizeof_Header) s = match grow (brk s) (nu * 16) with
    | Some b' => Ok (brk s, mk_arena (units s) (freep s) b') | None => Ok (-1, s) end).
  { unfold sbrk, sizeof_Header. rewrite bind_gets, int_small by (unfold nu; lia). by destruct (grow (brk s) (nu * 16)). }
  destruct (grow (brk s) (nu * 16)) as [b'|] eqn:Eg; [|by kstep Esb]. apply Hgrow in Eg as [-> Hb']; [|unfold nu; lia]. rewrite Z.div_mul in * by lia.
  kstep Esb. rewrite (proj2 (Z.eqb_neq (brk s) (-1))) by lia. unfold set_size. set (s0 := mk_arena _ _ _).
  kstep (set_hdr_ok (brk s) (fun h => mk_header (h_ptr h) (uint nu) (h_pad h)) s0 ltac:(unfold s0; simpl; lia)). rewrite uint_small by lia. set (s1 := mk_arena _ _ _).
  assert (Hrep1 : rep s1 (l ++ [(nu, true)])).
  { split_and!; simpl; try done.
    - rewrite total_app. simpl. lia.
    - apply sizes_app. split; [done|]. repeat constructor. simpl. lia.
    - apply apart_mid; [|done]. clear -Ha. induction l as [|[k []] l IH]; cbn [app apart] in *; [done|auto|]. destruct l as [|[j []] l]; cbn [app apart] in *; auto.
    - apply ringed_app; [done|]. rewrite <- Hbrk. split; [|simpl; by rewrite upd_same]. eapply ringed_frame; [done|done| |exact Hr]. intros x Hx. simpl. apply upd_other. lia.
    - rewrite free_at_app. simpl. by rewrite app_nil_r. }
  destruct (free_ok base lo Hbase s1 l nu [] Hrep1) as (s2 & E2 & Hrep2 & Hk & _). rewrite <- Hbrk in E2. kstep E2. exists s2. split; [done|]. split; [done|].
  intros a k x Hin Hx. rewrite (Hk a k x); [|rewrite used_at_app; set_solver|done]. simpl. apply upd_other. pose proof (used_range _ _ _ _ Hs Hin). lia.
Qed.


(** The heap before the first call, or with its list *)
Definition heap_ok (s : arena) (l : list chunk) : Prop := (freep s = 0 /\ l = [] /\ brk s = lo /\ lo <= 2 ^ 27) \/ rep s l.
Definition no_fit (n : Z) (l : list chunk) : Prop := forall m, (m, false) ∈ l -> m < n.

Lemma start_ok s l : heap_ok s l -> exists s0, rep s0 l /\ keeps s s0 l /\ brk s0 = brk s /\
  (prevp ← gets freep; if prevp =? 0 then set_freep base;; set_ptr base base;; set_size base 0;; mret base else mret prevp) s = Ok (freep s0, s0).
Proof using Hbase Hgrow.
  rewrite bind_gets. intros [(Hf & -> & Hbrk & Hlo)|Hrep].
  - rewrite Hf. simpl. unfold set_freep. rewrite bind_modify. unfold set_ptr, set_size. set (s1 := mk_arena _ _ _).
    kstep (set_hdr_ok base (fun h => mk_header base (h_size h) (h_pad h)) s1 ltac:(simpl; lia)). set (s2 := mk_arena _ _ _).
    kstep (set_hdr_ok base (fun h => mk_header (h_ptr h) (uint 0) (h_pad h)) s2 ltac:(simpl; lia)). set (s3 := mk_arena _ _ _). exists s3. split; [|split; [|split; [|reflexivity]]].
    + split_and!; simpl; try done; try lia; [by constructor|by unfold UmallocProof.ringed; simpl; rewrite !upd_same|by constructor].
    + intros a k x Hin. by apply not_elem_of_nil in Hin.
    + done.
  - pose proof Hrep as (_ & _ & _ & _ & _ & Hf). pose proof (ring_mapped s l _ Hrep Hf). rewrite (proj2 (Z.eqb_neq (freep s) 0)) by lia. by exists s.
Qed.

Lemma malloc_rep n s l : rep s l -> 1 <= n -> 16 * n < 2 ^ 31 -> exists p s',
  (q ← get_ptr (freep s); malloc_loop grow (2 * Z.to_nat (brk s) + 4) n (freep s) q) s = Ok (p, s') /\ keeps s s' l /\
  ((p = 0 /\ no_fit n l /\ grow (brk s) (16 * Z.max n 4096) = None /\ s' = s) \/
   exists l0 a l', (l0 = l \/ no_fit n l /\ l0 = coalesce (l ++ [(Z.max n 4096, false)])) /\ carve lo n l0 a l' /\ p = a + 1 /\ rep s' l').
Proof using Hbase Hgrow.
  intros Hrep Hn Hmax. destruct (rotate s l Hrep) as (p & ws & Hc & Hin & Hlast & Hnd & Hlen). pose proof Hrep as (Hbrk & _ & Hs & _ & (Hb0 & Hb1 & Hl) & Hf).
  pose proof (ring_mapped s l _ Hrep Hf). kstep (get_ptr_ok (freep s) s ltac:(lia)). rewrite (proj1 Hc). pose proof (length_free_at lo l Hs) as Hfl.
  destruct (search n s l (2 * Z.to_nat (brk s) + 4) (freep s) p ws Hrep Hn Hc Hf (fun x => proj1 (Hin x)) Hlast Hnd ltac:(lia)) as [(a & s' & l' & E & Hcv & Hr & Hk)|[Hsm E]].
  { exists (a + 1), s'. split; [done|]. split; [done|]. right. exists l, a, l'. split; [by left|]. done. }
  assert (Hno : no_fit n l). { intros m Hm. destruct (free_size _ _ _ _ _ Hl Hm) as (x & Hx & <-). apply Hsm, Hin. set_solver. }
  rewrite E. pose proof (morecore_ok s l n Hrep Hn Hmax) as Hmc. cbn zeta in Hmc. destruct (grow (brk s) (16 * Z.max n 4096)) as [b'|] eqn:Eg.
  2:{ kstep Hmc. exists 0, s. split; [done|]. split; [by intros ? ? ?|]. by left. }
  destruct Hmc as (s1 & E1 & Hrep1 & Hk1). kstep E1. clear E E1. pose proof Hrep1 as (Hbrk1 & _ & Hs1 & _ & (_ & _ & Hl1) & Hf1).
  pose proof (ring_mapped _ _ _ Hrep1 Hf1). rewrite (proj2 (Z.eqb_neq (freep s1) 0)) by lia. kstep (get_ptr_ok (freep s1) s1 ltac:(lia)).
  destruct (rotate s1 _ Hrep1) as (p1 & ws1 & Hc1 & Hin1 & Hlast1 & Hnd1 & Hlen1). rewrite (proj1 Hc1).
  pose proof (length_free_coalesce (l ++ [(Z.max n 4096, false)]) lo lo) as Hfc. rewrite free_at_app, length_app in Hfc. simpl in Hfc.
  destruct (search n s1 _ (2 * Z.to_nat (brk s) + 4 - length (p :: ws)) (freep s1) p1 ws1 Hrep1 Hn Hc1 Hf1 (fun x => proj1 (Hin1 x)) Hlast1 Hnd1 ltac:(lia))
    as [(a & s' & l' & E & Hcv & Hr & Hk)|[Hsm1 _]].
  - exists (a + 1), s'. split; [done|]. split; [|right; exists (coalesce (l ++ [(Z.max n 4096, false)])), a, l'; split; [by right|]; done].
    intros b k x Hin' Hx. rewrite (Hk b k x); [by apply (Hk1 b k)| |done]. rewrite used_coalesce, used_at_app. set_solver.
  - exfalso. destruct (coalesce_big l (Z.max n 4096) Hs ltac:(lia)) as (k & Hk & Hkin). destruct (free_size _ _ _ _ _ Hl1 Hkin) as (x & Hx & Hxk).
    specialize (Hsm1 x ltac:(apply Hin1; set_solver)). lia.
Qed.
End Malloc.

(** ** The claims *)

Definition sbrk_law (grow : Z -> Z -> option Z) : Prop :=
  forall b n b', 0 <= n -> grow b n = Some b' -> b' = b + n / 16 /\ b' <= 2 ^ 27.
(** The largest request whose size in bytes, with the header, is an [int] *)
Definition malloc_max : Z := 2 ^ 31 - 48.

Lemma nunits_ok nbytes : 0 <= nbytes <= malloc_max -> let n := nunits_of nbytes in 1 <= n /\ 16 * n < 2 ^ 31 /\ nbytes <= 16 * (n - 1).
Proof.
  unfold malloc_max, nunits_of, sizeof_Header. intros H. pose proof (Z.div_mod (nbytes + 16 - 1) 16 ltac:(lia)). pose proof (Z.mod_pos_bound (nbytes + 16 - 1) 16 ltac:(lia)).
  rewrite uint_small by lia. cbn zeta. lia.
Qed.

Section Claims.
Context (base lo : Z) (grow : Z -> Z -> option Z).

Lemma malloc_total nbytes s l : 0 < base < lo -> sbrk_law grow -> 0 <= nbytes <= malloc_max -> heap_ok base lo s l ->
  let n := nunits_of nbytes in exists p s', malloc base grow nbytes s = Ok (p, s') /\ keeps lo s s' l /\
  ((p = 0 /\ no_fit n l /\ grow (brk s) (16 * Z.max n 4096) = None /\ heap_ok base lo s' l) \/
   exists l0 a l', (l0 = l \/ no_fit n l /\ l0 = coalesce (l ++ [(Z.max n 4096, false)])) /\ carve lo n l0 a l' /\ p = a + 1 /\ heap_ok base lo s' l').
Proof using Type.
  intros Hbase Hgrow Hnb Hok n. destruct (nunits_ok nbytes Hnb) as (Hn & Hmax & _). fold n in Hn, Hmax.
  destruct (start_ok base lo Hbase grow Hgrow s l Hok) as (s0 & Hrep & Hk & Hbrk & E0). apply bind_inv in E0 as (f & s1 & Ef & E0). simplify_eq.
  destruct (malloc_rep base lo Hbase grow Hgrow n s0 l Hrep Hn Hmax) as (p & s' & E & Hk' & Hcase). exists p, s'. split.
  - unfold malloc. fold n. rewrite bind_gets. unfold gets in Ef. simplify_eq. kstep E0. rewrite bind_gets. done.
  - split; [intros a k x Hin Hx; rewrite (Hk' a k x Hin Hx); by apply (Hk a k)|]. rewrite <- Hbrk. destruct Hcase as [(-> & ? & ? & ->)|(l0 & a & l' & ? & ? & ? & ?)].
    + left. split_and!; try done. by right.
    + right. exists l0, a, l'. split_and!; try done. by right.
Qed.
Lemma free_total s l1 m l2 : 0 < base < lo -> heap_ok base lo s (l1 ++ (m, true) :: l2) ->
  exists s', free (lo + total l1 + 1) s = Ok (tt, s') /\ heap_ok base lo s' (coalesce (l1 ++ (m, false) :: l2)) /\ keeps lo s s' (l1 ++ (m, false) :: l2).
Proof using Type.
  intros Hbase [(_ & Hl & _)|Hrep]; [by destruct l1|]. destruct (free_ok base lo Hbase s l1 m l2 Hrep) as (s' & E & Hr & Hk & _). exists s'. split_and!; [done|by right|done].
Qed.
End Claims.

(** [malloc] returns.  It gives the end of a free chunk, or the whole of it, with room for the bytes and a header, after asking
    the kernel for 4096 units or more when no chunk fits; it returns 0 only when none fits and [sbrk] fails.  The blocks in use keep their contents. *)
Theorem malloc_carves (base lo : Z) (grow : Z -> Z -> option Z) (nbytes : Z) (s : arena) (l : list chunk) :
  0 < base < lo -> sbrk_law grow -> 0 <= nbytes <= malloc_max -> heap_ok base lo s l ->
  let n := nunits_of nbytes in nbytes <= 16 * (n - 1) /\
  exists p s', malloc base grow nbytes s = Ok (p, s') /\ keeps lo s s' l /\
  ((p = 0 /\ no_fit n l /\ grow (brk s) (16 * Z.max n 4096) = None /\ heap_ok base lo s' l) \/
   exists l0 a l', (l0 = l \/ no_fit n l /\ l0 = coalesce (l ++ [(Z.max n 4096, false)])) /\ carve lo n l0 a l' /\ p = a + 1 /\ heap_ok base lo s' l').
Proof.
  intros Hbase Hgrow Hnb Hok n. split; [by apply nunits_ok|]. by apply malloc_total.
Qed.

(** [free] of a block returns; the chunk is free and merged with its free neighbours, on both sides, and the other blocks keep their contents. *)
Theorem free_merges (base lo : Z) (s : arena) (l1 l2 : list chunk) (m : Z) :
  0 < base < lo -> heap_ok base lo s (l1 ++ (m, true) :: l2) ->
  exists s', free (lo + total l1 + 1) s = Ok (tt, s') /\ heap_ok base lo s' (coalesce (l1 ++ (m, false) :: l2)) /\ keeps lo s s' (l1 ++ (m, false) :: l2).
Proof. apply free_total. Qed.

(** ** Programs that allocate, write and free *)

(** The units of the body of a block of [nbytes] bytes *)
Definition body_units (nbytes : Z) : Z := nunits_of nbytes - 1.

(** The blocks of the program, with the sizes it asked for *)
Abbreviation blocks := (list (Z * Z)).

Inductive ustep (base : Z) (grow : Z -> Z -> option Z) : arena * blocks -> arena * blocks -> Prop :=
| u_malloc s live nbytes p s' : 0 <= nbytes <= malloc_max -> malloc base grow nbytes s = Ok (p, s') -> p <> 0 -> ustep base grow (s, live) (s', (p, nbytes) :: live)
| u_nomem s live nbytes s' : 0 <= nbytes <= malloc_max -> malloc base grow nbytes s = Ok (0, s') -> ustep base grow (s, live) (s', live)
| u_free s l1 p nbytes l2 s' : free p s = Ok (tt, s') -> ustep base grow (s, l1 ++ (p, nbytes) :: l2) (s', l1 ++ l2)
| u_write s live p nbytes u : (p, nbytes) ∈ live -> (forall x, ~ p <= x < p + body_units nbytes -> u x = units s x) ->
    ustep base grow (s, live) (mk_arena u (freep s) (brk s), live).

Definition chunk_of (b : Z * Z) : Z * Z := (fst b - 1, nunits_of (snd b)).
Definition prog_ok (base lo : Z) (c : arena * blocks) : Prop :=
  exists l, heap_ok base lo (fst c) l /\ used_at lo l ≡ₚ chunk_of <$> snd c /\ Forall (fun b => 0 <= snd b <= malloc_max) (snd c).

Lemma carve_used lo n l a l' : carve lo n l a l' -> used_at lo l' ≡ₚ (a, n) :: used_at lo l.
Proof.
  destruct 1; rewrite !used_at_app; simpl; rewrite <- Permutation_middle; [done|]. by replace (lo + total l1 + (m - n) + n) with (lo + total l1 + m) by lia.
Qed.
Lemma used_split a0 l a k : (a, k) ∈ used_at a0 l -> exists l1 l2, l = l1 ++ (k, true) :: l2 /\ a = a0 + total l1.
Proof.
  revert a0. induction l as [|[m []] l IH]; intros a0; cbn [used_at]; [by intros ?%not_elem_of_nil| |].
  - intros [?|(l1 & l2 & -> & ->)%IH]%elem_of_cons; [simplify_eq; exists [], l; simpl; split; [done|lia]|]. exists ((m, true) :: l1), l2. rewrite total_cons. simpl. split; [done|lia].
  - intros (l1 & l2 & -> & ->)%IH. exists ((m, false) :: l1), l2. rewrite total_cons. simpl. split; [done|lia].
Qed.
Lemma used_disjoint a0 l x y : sizes_ok l -> x ∈ used_at a0 l -> y ∈ used_at a0 l -> x <> y -> fst x + snd x <= fst y \/ fst y + snd y <= fst x.
Proof.
  intros Hs. revert a0. induction Hs as [|[m []] l Hm Hs IH]; intros a0; cbn [used_at]; [by intros ?%not_elem_of_nil| |by apply IH].
  intros [->|Hx]%elem_of_cons [->|Hy]%elem_of_cons Hne; [done| | |by apply (IH (a0 + m))].
  - destruct y as [a k]. pose proof (used_range _ _ _ _ Hs Hy). simpl. lia.
  - destruct x as [a k]. pose proof (used_range _ _ _ _ Hs Hx). simpl. lia.
Qed.
Lemma used_nodup a0 l : sizes_ok l -> NoDup (used_at a0 l).
Proof.
  intros Hs. revert a0. induction Hs as [|[m []] l Hm Hs IH]; intros a0; cbn [used_at]; [constructor| |done]. constructor; [|done]. intros Hin%used_range; [|done]. simpl in *. lia.
Qed.
Lemma heap_ok_layout base lo s l : heap_ok base lo s l -> sizes_ok l /\ brk s = lo + total l.
Proof. intros [(_ & -> & -> & _)|(Hb & _ & Hs & _)]; [|done]. split; [constructor|simpl; lia]. Qed.

(** A write into the body of a block leaves the headers alone. *)
Lemma heap_ok_write base lo s l a k u : 0 < base < lo -> heap_ok base lo s l -> (a, k) ∈ used_at lo l -> (forall x, ~ a < x < a + k -> u x = units s x) ->
  heap_ok base lo (mk_arena u (freep s) (brk s)) l.
Proof.
  intros Hbase Hok Hin Hu. destruct Hok as [(_ & -> & _)|(Hb & Hmax & Hs & Ha & Hr & Hf)]; [by apply not_elem_of_nil in Hin|]. right. split_and!; try done. simpl.
  destruct (used_split _ _ _ _ Hin) as (l1 & l2 & -> & ->). pose proof Hs as Hs'. apply sizes_app in Hs' as [Hs1 Hs2]. apply Forall_cons in Hs2 as [Hk Hs2]. simpl in Hk.
  pose proof (total_nonneg _ Hs1). apply ringed_app; [done|]. apply ringed_app in Hr as [Hr (Hsz & _ & Hl)]; [|done]. split.
  - eapply ringed_frame; [done|done| |exact Hr]. intros x Hx. apply Hu. lia.
  - cbn [linked]. rewrite (Hu (lo + total l1)) by lia. split_and!; [done|done|]. eapply linked_frame; [done| |exact Hl]. intros x Hx. apply Hu. lia.
Qed.

Lemma ustep_ok base lo grow c c' : 0 < base < lo -> sbrk_law grow -> ustep base grow c c' -> prog_ok base lo c -> prog_ok base lo c'.
Proof.
  intros Hbase Hgrow Hstep (l & Hok & Hu & Hnb). destruct Hstep as [s live nbytes p s' Hn E Hp|s live nbytes s' Hn E|s l1 p nbytes l2 s' E|s live p nbytes u Hin Hw]; simpl in *.
  - destruct (malloc_total base lo grow nbytes s l Hbase Hgrow Hn Hok) as (p' & s1 & E' & _ & Hcase). rewrite E in E'. simplify_eq.
    destruct Hcase as [(-> & _)|(l0 & a & l' & Hl0 & Hcv & -> & Hok')]; [done|]. exists l'. simpl. split_and!; [done| |by constructor].
    rewrite (carve_used _ _ _ _ _ Hcv). unfold chunk_of at 1. simpl. replace (a + 1 - 1) with a by lia. constructor. rewrite <- Hu.
    destruct Hl0 as [->|[_ ->]]; [done|]. rewrite used_coalesce, used_at_app. simpl. by rewrite app_nil_r.
  - destruct (malloc_total base lo grow nbytes s l Hbase Hgrow Hn Hok) as (p' & s1 & E' & _ & Hcase). rewrite E in E'. simplify_eq.
    destruct Hcase as [(_ & _ & _ & Hok')|(l0 & a & l' & Hl0 & Hcv & Ha & Hok')]; [by exists l|]. exfalso. destruct (heap_ok_layout _ _ _ _ Hok) as [Hs _].
    destruct (heap_ok_layout _ _ _ _ Hok') as [Hs' _]. assert (Hin : (a, nunits_of nbytes) ∈ used_at lo l') by (rewrite (carve_used _ _ _ _ _ Hcv); set_solver).
    pose proof (used_range _ _ _ _ Hs' Hin). lia.
  - assert (Hin : chunk_of (p, nbytes) ∈ used_at lo l) by (rewrite Hu, fmap_app; set_solver). unfold chunk_of in Hin. simpl in Hin.
    destruct (used_split _ _ _ _ Hin) as (k1 & k2 & -> & Hp). destruct (free_total base lo s k1 _ k2 Hbase Hok) as (s1 & E' & Hok' & _). rewrite <- Hp in E'.
    replace (p - 1 + 1) with p in E' by lia. rewrite E in E'. simplify_eq. eexists. split; [exact Hok'|]. simpl. split.
    + rewrite used_coalesce, used_at_app. rewrite used_at_app, fmap_app in Hu. simpl in Hu |- *. unfold chunk_of at 2 in Hu. simpl in Hu. rewrite <- !Permutation_middle in Hu.
      rewrite fmap_app. rewrite Hp in Hu. by apply Permutation_cons_inv in Hu.
    + rewrite Forall_app, Forall_cons in Hnb. rewrite Forall_app. tauto.
  - assert (Hin' : chunk_of (p, nbytes) ∈ used_at lo l) by (rewrite Hu; by apply list_elem_of_fmap_2). exists l. split; [|done]. simpl.
    eapply heap_ok_write; [done|done|exact Hin'|]. intros x Hx. simpl in Hx. apply Hw. unfold body_units. lia.
Qed.

Lemma run_ok base lo grow s0 s live : 0 < base < lo -> lo <= 2 ^ 27 -> sbrk_law grow -> freep s0 = 0 -> brk s0 = lo -> rtc (ustep base grow) (s0, []) (s, live) ->
  prog_ok base lo (s, live).
Proof.
  intros Hbase Hlo Hgrow Hf Hb Hrun. assert (H0 : prog_ok base lo (s0, [])) by (exists []; split; [by left|done]). revert H0.
  induction Hrun as [c|c c1 c2 Hst _ IH]; [done|]. intros H. by apply IH, (ustep_ok _ _ grow c).
Qed.

(** C21: in every run of a program that allocates at most [malloc_max] = 2^31 - 48 bytes at a time, writes only to its blocks and frees them, on a heap
    below the address 2^31, the blocks that are in use lie below the break and do not overlap each other, and no call of [malloc] with such a size and no call of
    [free] faults or loops: the allocator's own data is never damaged.  (A larger request overflows the [int] that [morecore] passes to [sbrk].) *)
Theorem malloc_run_safe (base lo : Z) (grow : Z -> Z -> option Z) (s0 s : arena) (live : blocks) :
  0 < base < lo -> lo <= 2 ^ 27 -> sbrk_law grow -> freep s0 = 0 -> brk s0 = lo -> rtc (ustep base grow) (s0, []) (s, live) ->
  (forall p nb, (p, nb) ∈ live -> lo < p /\ p + body_units nb <= brk s /\ nb <= 16 * body_units nb) /\
  (forall l1 p nb l2 q nb', live = l1 ++ (p, nb) :: l2 -> (q, nb') ∈ l1 ++ l2 -> p + body_units nb <= q \/ q + body_units nb' <= p) /\
  (forall nb, 0 <= nb <= malloc_max -> exists p s', malloc base grow nb s = Ok (p, s')) /\
  (forall p nb, (p, nb) ∈ live -> exists s', free p s = Ok (tt, s')).
Proof.
  intros Hbase Hlo Hgrow Hf Hb Hrun. destruct (run_ok base lo grow s0 s live Hbase Hlo Hgrow Hf Hb Hrun) as (l & Hok & Hu & Hnb). simpl in *. destruct (heap_ok_layout _ _ _ _ Hok) as [Hs Hbrk].
  assert (Hlive : forall p nb, (p, nb) ∈ live -> chunk_of (p, nb) ∈ used_at lo l) by (intros p nb Hin; rewrite Hu; by apply list_elem_of_fmap_2). split_and!.
  - intros p nb Hin. pose proof (used_range _ _ _ _ Hs (Hlive p nb Hin)) as Hr. simpl in Hr. rewrite Forall_forall in Hnb. destruct (nunits_ok nb (Hnb _ Hin)) as (? & _ & ?).
    unfold body_units. lia.
  - intros l1 p nb l2 q nb' -> Hq. assert (Hne : chunk_of (p, nb) <> chunk_of (q, nb')).
    { pose proof (used_nodup lo l Hs) as Hnd. rewrite Hu, fmap_app in Hnd. simpl in Hnd. rewrite <- Permutation_middle, <- fmap_app in Hnd. apply NoDup_cons in Hnd as [Hnd _].
      intros E. apply Hnd. rewrite E. by apply list_elem_of_fmap_2. }
    pose proof (used_disjoint lo l _ _ Hs (Hlive p nb ltac:(set_solver)) (Hlive q nb' ltac:(set_solver)) Hne) as Hd. simpl in Hd. unfold body_units.
    destruct (used_range _ _ _ _ Hs (Hlive p nb ltac:(set_solver))) as (_ & ? & _), (used_range _ _ _ _ Hs (Hlive q nb' ltac:(set_solver))) as (_ & ? & _). simpl in *. lia.
  - intros nb Hn. destruct (malloc_total base lo grow nb s l Hbase Hgrow Hn Hok) as (p & s' & E & _). by exists p, s'.
  - intros p nb Hin. destruct (used_split _ _ _ _ (Hlive p nb Hin)) as (k1 & k2 & -> & Hp). simpl in *.
    destruct (free_total base lo s k1 _ k2 Hbase Hok) as (s1 & E & _). rewrite <- Hp in E. exists s1. by replace (p - 1 + 1) with p in E by lia.
Qed.

(** When the program has freed every block, its heap is one free chunk from the first break to the current one: nothing is lost and nothing stays cut up. *)
Theorem free_all_whole (base lo : Z) (grow : Z -> Z -> option Z) (s0 s : arena) :
  0 < base < lo -> lo <= 2 ^ 27 -> sbrk_law grow -> freep s0 = 0 -> brk s0 = lo -> rtc (ustep base grow) (s0, []) (s, []) ->
  lo < brk s -> h_ptr (units s base) = lo /\ h_size (units s lo) = brk s - lo /\ h_ptr (units s lo) = base.
Proof.
  intros Hbase Hlo Hgrow Hf Hb Hrun Hlt. destruct (run_ok base lo grow s0 s [] Hbase Hlo Hgrow Hf Hb Hrun) as (l & Hok & Hu & _). simpl in *.
  apply Permutation_nil_r in Hu. destruct Hok as [(_ & -> & Hbrk & _)|(Hbrk & _ & Hs & Ha & (Hp & _ & Hl) & _)]; [lia|].
  destruct l as [|[m []] l]; [simpl in Hbrk; lia|done|]. assert (l = []) as ->.
  { apply apart_free_cons in Ha as [Hst _]. destruct l as [|[k []] l]; done. }
  rewrite total_cons in Hbrk. simpl in *. destruct Hl as (Hsz & Hq & _). rewrite Hsz, Hq by done. split_and!; [done|lia|done].
Qed.

(** ** A heap *)

Definition demo_grow (b n : Z) : option Z := if (0 <=? n) && (b + n / 16 <=? 2 ^ 20) then Some (b + n / 16) else None.
Definition demo_base : Z := 16.
Definition demo_lo : Z := 256.
Definition demo_s0 : arena := mk_arena (fun _ => mk_header 0 0 0) 0 demo_lo.
Definition run_of {A} (s : arena) (r : res (A * arena)) : arena := match r with Ok (_, s') => s' | _ => s end.
Definition demo_s1 : arena := run_of demo_s0 (malloc demo_base demo_grow 100 demo_s0).
Definition demo_s2 : arena := run_of demo_s1 (free 4345 demo_s1).

Lemma demo_law : sbrk_law demo_grow.
Proof. intros b n b' Hn. unfold demo_grow. destruct (_ && _) eqn:E; [|done]. apply andb_true_iff in E as [_ E]. zbool. intros [= <-]. lia. Qed.
Lemma demo_heap : heap_ok demo_base demo_lo demo_s1 [(4088, false); (8, true)].
Proof.
  right. split_and!; try (vm_compute; congruence); [repeat constructor; vm_compute; done|done|unfold ringed; vm_compute; split_and!; done|].
  vm_compute. by constructor.
Qed.
Lemma demo_run : rtc (ustep demo_base demo_grow) (demo_s0, []) (demo_s1, [(4345, 100)]).
Proof. eapply rtc_l; [|apply rtc_refl]. apply u_malloc; [unfold malloc_max; lia|vm_compute; reflexivity|done]. Qed.
Lemma demo_run_free : rtc (ustep demo_base demo_grow) (demo_s0, []) (demo_s2, []).
Proof. eapply rtc_r; [exact demo_run|]. apply (u_free _ _ _ []). vm_compute. reflexivity. Qed.

Lemma malloc_carves_witness : let n := nunits_of 100 in 100 <= 16 * (n - 1) /\
  exists p s', malloc demo_base demo_grow 100 demo_s0 = Ok (p, s') /\ keeps demo_lo demo_s0 s' [] /\
  ((p = 0 /\ no_fit n [] /\ demo_grow (brk demo_s0) (16 * Z.max n 4096) = None /\ heap_ok demo_base demo_lo s' []) \/
   exists l0 a l', (l0 = [] \/ no_fit n [] /\ l0 = coalesce ([] ++ [(Z.max n 4096, false)])) /\ carve demo_lo n l0 a l' /\ p = a + 1 /\ heap_ok demo_base demo_lo s' l').
Proof.
  refine (malloc_carves demo_base demo_lo demo_grow 100 demo_s0 [] _ demo_law _ _); [unfold demo_base, demo_lo; lia|unfold malloc_max; lia|].
  left. repeat split; vm_compute; congruence.
Defined.
Lemma free_merges_witness : exists s', free (demo_lo + total [(4088, false)] + 1) demo_s1 = Ok (tt, s') /\
  heap_ok demo_base demo_lo s' (coalesce ([(4088, false)] ++ (8, false) :: [])) /\ keeps demo_lo demo_s1 s' ([(4088, false)] ++ (8, false) :: []).
Proof. refine (free_merges demo_base demo_lo demo_s1 [(4088, false)] [] 8 _ demo_heap). unfold demo_base, demo_lo. lia. Defined.
Lemma malloc_run_safe_witness :
  (forall p nb, (p, nb) ∈ [(4345, 100)] -> demo_lo < p /\ p + body_units nb <= brk demo_s1 /\ nb <= 16 * body_units nb) /\
  (forall l1 p nb l2 q nb', [(4345, 100)] = l1 ++ (p, nb) :: l2 -> (q, nb') ∈ l1 ++ l2 -> p + body_units nb <= q \/ q + body_units nb' <= p) /\
  (forall nb, 0 <= nb <= malloc_max -> exists p s', malloc demo_base demo_grow nb demo_s1 = Ok (p, s')) /\
  (forall p nb, (p, nb) ∈ [(4345, 100)] -> exists s', free p demo_s1 = Ok (tt, s')).
Proof.
  refine (malloc_run_safe demo_base demo_lo demo_grow demo_s0 demo_s1 [(4345, 100)] _ _ demo_law eq_refl eq_refl demo_run); unfold demo_base, demo_lo; lia.
Defined.
Lemma free_all_whole_witness : h_ptr (units demo_s2 demo_base) = demo_lo /\ h_size (units demo_s2 demo_lo) = brk demo_s2 - demo_lo /\ h_ptr (units demo_s2 demo_lo) = demo_base.
Proof.
  refine (free_all_whole demo_base demo_lo demo_grow demo_s0 demo_s2 _ _ demo_law eq_refl eq_refl demo_run_free _); [unfold demo_base, demo_lo; lia..|vm_compute; reflexivity].
Defined.

(** [morecore] passes a product of 64 bits to [sbrk], whose parameter is an [int]: a request for 2^32 - 1 bytes asks the kernel for 16, and
    [malloc] returns a block of 2^32 bytes of which not one is below the break. *)
Theorem malloc_wraps : exists s', malloc demo_base demo_grow (2 ^ 32 - 1) demo_s0 = Ok (demo_lo + 1, s') /\ brk s' = demo_lo + 1.
Proof. eexists. split; vm_compute; reflexivity. Qed.
