(* ===== verification/Grep.v ===== *)
(** * grep

    The matcher of [src/user/grep.c] and the loop that reads a file in pieces
    and prints the lines that match.  A C string is the list of its bytes
    before the NUL.  [read] is a parameter: how many bytes it returns of those
    that are asked for and there. *)

From stdpp Require Import base numbers list list_numbers sets strings.
From Stdlib Require Import ZArith Lia.
From S2P Require Import Prelude Path.

(** The characters *, ., $, ^ and newline *)
Definition c_star : Z := 42.
Definition c_dot : Z := 46.
Definition c_dollar : Z := 36.
Definition c_hat : Z := 94.
Definition c_newline : Z := 10.

(** The loop of [matchstar], with [matchhere(re, _)] as [here] *)
Fixpoint matchstar (here : list Z -> bool) (c : Z) (text : list Z) : bool :=
  if here text then true
  else match text with
       | [] => false
       | t :: text => if (t =? c) || (c =? c_dot) then matchstar here c text else false
       end.

Fixpoint matchhere (re text : list Z) : bool :=
  match re with
  | [] => true
  | c :: re1 =>
      let rest := match re1 with
                  | [] => if c =? c_dollar then Some (bool_decide (text = [])) else None
                  | c1 :: re2 => if c1 =? c_star then Some (matchstar (matchhere re2) c text) else None
                  end in
      match rest with
      | Some r => r
      | None => match text with
                | t :: text => if (c =? c_dot) || (c =? t) then matchhere re1 text else false
                | [] => false
                end
      end
  end.

(** The loop of [match] *)
Fixpoint match_loop (re text : list Z) : bool :=
  if matchhere re text then true else match text with [] => false | _ :: text => match_loop re text end.

Definition match_ (re text : list Z) : bool :=
  match re with
  | c :: re1 => if c =? c_hat then matchhere re1 text else match_loop re text
  | [] => match_loop re text
  end.

(** [strchr(p, '\n')] on the bytes before the NUL that ends the buffer: the line and what follows its newline. *)
Fixpoint cut_line (l : list Z) : option (list Z * list Z) :=
  match l with
  | [] => None
  | c :: l => if c =? 0 then None
              else if c =? c_newline then Some ([], l)
              else match cut_line l with Some (line, rest) => Some (c :: line, rest) | None => None end
  end.

(** The inner [while]: what is printed, and the bytes from [p] on *)
Fixpoint lines_loop (n : nat) (pattern data out : list Z) : option (list Z * list Z) :=
  match n with
  | O => None
  | S n =>
      match cut_line data with
      | None => Some (out, data)
      | Some (line, rest) => lines_loop n pattern rest (if match_ pattern line then out ++ line ++ [c_newline] else out)
      end
  end.

Definition bufsize : Z := 1024.

Section Grep.
(** [read(fd, buf, n)] with [input] left in the file: the number of bytes it returns *)
Context (read_size : list Z -> Z -> Z).

(** The outer [while]; [data] is [buf[0..m)]. *)
Fixpoint grep_loop (n : nat) (pattern input data out : list Z) : option (list Z) :=
  match n with
  | O => None
  | S n =>
      let k := read_size input (bufsize - zlen data - 1) in
      if k <=? 0 then Some out
      else
        let data := data ++ sub input 0 k in
        match lines_loop (S (length data)) pattern data out with
        | None => None
        | Some (out, data) => grep_loop n pattern (drop (Z.to_nat k) input) data out
        end
  end.

(** Each round takes a byte from the file. *)
Definition grep (pattern input : list Z) : option (list Z) := grep_loop (S (length input)) pattern input [] [].
End Grep.

(** ** What a pattern means *)

Inductive item := Once (c : Z) | Many (c : Z) | Eol.

Fixpoint items_of (re : list Z) : list item :=
  match re with
  | [] => []
  | c :: re1 =>
      match re1 with
      | [] => [if c =? c_dollar then Eol else Once c]
      | c1 :: re2 => if c1 =? c_star then Many c :: items_of re2 else Once c :: items_of re1
      end
  end.

(** A character of the text fits one of the pattern. *)
Definition fits (c t : Z) : Prop := c = c_dot \/ t = c.

(** The items describe [w], followed by [rest]. *)
Fixpoint describes (its : list item) (w rest : list Z) : Prop :=
  match its with
  | [] => w = []
  | Once c :: its => exists t w', w = t :: w' /\ fits c t /\ describes its w' rest
  | Many c :: its => exists w1 w2, w = w1 ++ w2 /\ Forall (fits c) w1 /\ describes its w2 rest
  | Eol :: its => w = [] /\ rest = [] /\ its = []
  end.

(** A part of the line, at its start when the pattern begins with a hat *)
Definition finds (re text : list Z) : Prop :=
  exists pre w rest, text = pre ++ w ++ rest /\
    match re with
    | c :: re1 => if c =? c_hat then pre = [] /\ describes (items_of re1) w rest else describes (items_of re) w rest
    | [] => describes [] w rest
    end.

(** The lines of a text that end in a newline, and the part after the last one *)
Fixpoint scan (l cur : list Z) : list (list Z) * list Z :=
  match l with
  | [] => ([], cur)
  | c :: l => if c =? c_newline then let '(ls, t) := scan l [] in (cur :: ls, t) else scan l (cur ++ [c])
  end.
Definition full_lines (input : list Z) : list (list Z) := fst (scan input []).
Definition last_part (input : list Z) : list Z := snd (scan input []).
(** What is printed of them *)
Definition printed (pattern : list Z) (ls : list (list Z)) : list Z :=
  concat ((fun line => if match_ pattern line then line ++ [c_newline] else []) <$> ls).

(** ** grep prints the lines that match

    The matcher of [Grep] decides what the pattern means, and the loop over a
    file prints the lines it finds, however [read] cuts the file up. *)

(** ** The matcher *)

Lemma fits_spec c t : (t =? c) || (c =? c_dot) = true <-> fits c t.
Proof. unfold fits. rewrite orb_true_iff, !Z.eqb_eq. tauto. Qed.
Lemma fits_spec' c t : (c =? c_dot) || (c =? t) = true <-> fits c t.
Proof. unfold fits. rewrite orb_true_iff, !Z.eqb_eq. split; intros [?|?]; auto. Qed.

Lemma matchstar_spec here c text :
  matchstar here c text = true <-> exists w1 w2, text = w1 ++ w2 /\ Forall (fits c) w1 /\ here w2 = true.
Proof.
  induction text as [|t text IH]; cbn [matchstar].
  - destruct (here []) eqn:E; split; try done; [intros _; by exists [], []|]. intros (w1 & w2 & Hw & _ & Hh). symmetry in Hw. apply app_eq_nil in Hw as [-> ->]. congruence.
  - destruct (here (t :: text)) eqn:E; [split; [intros _; by exists [], (t :: text)|done]|]. destruct (_ || _) eqn:Ef.
    + rewrite IH. apply fits_spec in Ef. split.
      * intros (w1 & w2 & -> & Hw & Hh). exists (t :: w1), w2. split_and!; [done|by constructor|done].
      * intros ([|t' w1] & w2 & Hw & Hf & Hh); simplify_eq/=; [congruence|]. apply Forall_cons in Hf as [_ Hf]. by exists w1, w2.
    + split; [done|]. intros ([|t' w1] & w2 & Hw & Hf & Hh); simplify_eq/=; [congruence|]. apply Forall_cons in Hf as [Hf _]. apply fits_spec in Hf. congruence.
Qed.

Lemma matchhere_spec re text :
  matchhere re text = true <-> exists w rest, text = w ++ rest /\ describes (items_of re) w rest.
Proof.
  remember (length re) as n eqn:Hn. revert re text Hn. induction (lt_wf n) as [n _ IH]. intros re text ->.
  destruct re as [|c [|c1 re2]]; cbn [matchhere items_of].
  - split; [intros _; by exists [], text|done].
  - destruct (c =? c_dollar) eqn:Ed; cbn [describes].
    + rewrite bool_decide_eq_true. split; [intros ->; by exists [], []|]. intros (w & rest & -> & -> & -> & _). done.
    + destruct text as [|t text].
      * split; [done|]. intros (w & rest & Hw & t & w' & -> & _). done.
      * destruct (_ || _) eqn:Ef; [apply fits_spec' in Ef; split; [intros _; exists [t], text; split; [done|]; by exists t, []|done]|].
        split; [done|]. intros (w & rest & Hw & t' & w' & -> & Hf & _). simplify_eq/=. apply fits_spec' in Hf. congruence.
  - destruct (c1 =? c_star) eqn:Es; cbn [describes].
    + rewrite matchstar_spec. split.
      * intros (w1 & w2 & -> & Hf & Hh). apply (IH (length re2)) in Hh as (w & rest & -> & Hd); [|simpl; lia|done].
        exists (w1 ++ w), rest. rewrite app_assoc. split; [done|]. by exists w1, w.
      * intros (w & rest & -> & w1 & w2 & -> & Hf & Hd). exists w1, (w2 ++ rest). rewrite app_assoc. split_and!; [done|done|].
        apply (IH (length re2)); [simpl; lia|done|]. by exists w2, rest.
    + destruct text as [|t text].
      * split; [done|]. intros (w & rest & Hw & t & w' & -> & _). done.
      * destruct (_ || _) eqn:Ef.
        -- rewrite (IH (length (c1 :: re2)) ltac:(simpl; lia) (c1 :: re2) text eq_refl). apply fits_spec' in Ef. split.
           ++ intros (w & rest & -> & Hd). exists (t :: w), rest. split; [done|]. by exists t, w.
           ++ intros (w & rest & Hw & t' & w' & -> & Hf & Hd). simplify_eq/=. by exists w', rest.
        -- split; [done|]. intros (w & rest & Hw & t' & w' & -> & Hf & _). simplify_eq/=. apply fits_spec' in Hf. congruence.
Qed.

Lemma match_loop_spec re text : match_loop re text = true <-> exists pre post, text = pre ++ post /\ matchhere re post = true.
Proof.
  induction text as [|t text IH]; cbn [match_loop].
  - destruct (matchhere re []) eqn:E; split; try done; [intros _; by exists [], []|]. intros (pre & post & Hp & Hm). symmetry in Hp. apply app_eq_nil in Hp as [-> ->]. congruence.
  - destruct (matchhere re (t :: text)) eqn:E; [split; [intros _; by exists [], (t :: text)|done]|]. rewrite IH. split.
    + intros (pre & post & -> & Hm). by exists (t :: pre), post.
    + intros ([|t' pre] & post & Hp & Hm); simplify_eq/=; [congruence|]. by exists pre, post.
Qed.

(** C24: The matcher finds a pattern in a line exactly when some part of the line is described by it, where a dot stands for any character, a star for
    any number of the character before it, a hat at the start and a dollar at the end for the ends of the line. *)
Theorem match_finds (re text : list Z) : match_ re text = true <-> finds re text.
Proof.
  unfold match_, finds. assert (Hl : match_loop re text = true <-> exists pre w rest, text = pre ++ w ++ rest /\ describes (items_of re) w rest).
  { rewrite match_loop_spec. split.
    - intros (pre & post & -> & (w & rest & -> & Hd)%matchhere_spec). by exists pre, w, rest.
    - intros (pre & w & rest & -> & Hd). exists pre, (w ++ rest). split; [done|]. apply matchhere_spec. by exists w, rest. }
  destruct re as [|c re]; [exact Hl|]. destruct (c =? c_hat); [|exact Hl]. rewrite matchhere_spec. split.
  - intros (w & rest & -> & Hd). by exists [], w, rest.
  - intros (pre & w & rest & -> & -> & Hd). by exists w, rest.
Qed.

(** ** The loop *)

Lemma scan_app a b cur : scan (a ++ b) cur = (fst (scan a cur) ++ fst (scan b (snd (scan a cur))), snd (scan b (snd (scan a cur)))).
Proof.
  revert cur. induction a as [|c a IH]; intros cur; cbn [app scan]; [simpl; by destruct (scan b cur)|]. destruct (c =? c_newline); [|apply IH].
  rewrite IH. by destruct (scan a []) as [ls t].
Qed.
Lemma scan_part l cur : Forall (fun c => c <> c_newline) l -> scan l cur = ([], cur ++ l).
Proof.
  intros Hl. revert cur. induction Hl as [|c l Hc _ IH]; intros cur; cbn [scan]; [by rewrite app_nil_r|]. rewrite (proj2 (Z.eqb_neq _ _) Hc), IH. by rewrite <- app_assoc.
Qed.
Lemma part_no_newline l cur : Forall (fun c => c <> c_newline) cur -> Forall (fun c => c <> c_newline) (snd (scan l cur)).
Proof.
  revert cur. induction l as [|c l IH]; intros cur Hc; cbn [scan]; [done|]. destruct (Z.eqb_spec c c_newline); [|apply IH, Forall_app; split; [done|by constructor]].
  specialize (IH [] ltac:(constructor)). by destruct (scan l []).
Qed.
Lemma part_forall (P : Z -> Prop) l cur : Forall P l -> Forall P cur -> Forall P (snd (scan l cur)).
Proof.
  intros Hl. revert cur. induction Hl as [|c l Hc Hl IH]; intros cur Hcur; cbn [scan]; [done|]. destruct (c =? c_newline); [|apply IH, Forall_app; split; [done|by constructor]].
  specialize (IH [] ltac:(constructor)). by destruct (scan l []).
Qed.
Lemma full_lines_app seen a :
  full_lines (seen ++ a) = full_lines seen ++ full_lines (last_part seen ++ a) /\ last_part (seen ++ a) = last_part (last_part seen ++ a).
Proof.
  unfold full_lines, last_part. rewrite !scan_app. simpl. rewrite (scan_part (snd (scan seen []))) by by apply part_no_newline. done.
Qed.
Lemma cut_none l : Forall (fun c => c <> 0) l -> cut_line l = None -> forall cur, scan l cur = ([], cur ++ l).
Proof.
  induction 1 as [|c l Hc _ IH]; cbn [cut_line scan]; intros E cur; [by rewrite app_nil_r|]. rewrite (proj2 (Z.eqb_neq _ _) Hc) in E.
  destruct (c =? c_newline); [done|]. destruct (cut_line l) as [[? ?]|]; [done|]. rewrite IH by done. by rewrite <- app_assoc.
Qed.
Lemma cut_some l line rest : Forall (fun c => c <> 0) l -> cut_line l = Some (line, rest) ->
  l = line ++ c_newline :: rest /\ forall cur, scan l cur = ((cur ++ line) :: fst (scan rest []), snd (scan rest [])).
Proof.
  intros Hl. revert line. induction Hl as [|c l Hc _ IH]; cbn [cut_line scan]; intros line E; [done|]. rewrite (proj2 (Z.eqb_neq _ _) Hc) in E.
  destruct (Z.eqb_spec c c_newline) as [->|].
  - simplify_eq. split; [done|]. intros cur. rewrite app_nil_r. by destruct (scan rest []).
  - destruct (cut_line l) as [[line' ?]|]; [|done]. simplify_eq. destruct (IH line' eq_refl) as [-> Hs]. split; [done|]. intros cur. rewrite Hs. by rewrite <- app_assoc.
Qed.

Lemma printed_cons pattern line ls : printed pattern (line :: ls) = (if match_ pattern line then line ++ [c_newline] else []) ++ printed pattern ls.
Proof. done. Qed.
Lemma printed_app pattern l1 l2 : printed pattern (l1 ++ l2) = printed pattern l1 ++ printed pattern l2.
Proof. unfold printed. by rewrite fmap_app, concat_app. Qed.

Lemma lines_loop_ok n pattern data out : Forall (fun c => c <> 0) data -> (length data < n)%nat ->
  lines_loop n pattern data out = Some (out ++ printed pattern (full_lines data), last_part data).
Proof.
  revert data out. induction n as [|n IH]; intros data out Hd Hn; [lia|]. cbn [lines_loop]. destruct (cut_line data) as [[line rest]|] eqn:E.
  - destruct (cut_some data line rest Hd E) as [Hl Hs]. rewrite IH; [|rewrite Hl, Forall_app, Forall_cons in Hd; tauto|apply (f_equal length) in Hl; rewrite length_app in Hl; simpl in Hl; lia].
    unfold full_lines, last_part. rewrite (Hs []). simpl. rewrite printed_cons. f_equal. f_equal. destruct (match_ pattern line); [by rewrite !app_assoc|done].
  - unfold full_lines, last_part. rewrite (cut_none data Hd E []). simpl. by rewrite app_nil_r.
Qed.

(** What [read] promises: some of the bytes, and none only at the end or when none were asked for *)
Definition read_law (read_size : list Z -> Z -> Z) : Prop :=
  forall input n, (0 < n -> input <> [] -> 0 < read_size input n <= Z.min n (zlen input)) /\ (n <= 0 \/ input = [] -> read_size input n = 0).

(** The longest line, with the part after the last newline, fits in the buffer. *)
Definition short_lines (input : list Z) : Prop := Forall (fun l => zlen l < bufsize - 1) (full_lines input ++ [last_part input]).

Lemma scan_longer l cur m : Forall (fun x => zlen x < m) (fst (scan l cur) ++ [snd (scan l cur)]) -> zlen cur < m.
Proof.
  revert cur. induction l as [|c l IH]; intros cur; cbn [scan].
  - simpl. by intros [? _]%Forall_cons.
  - destruct (c =? c_newline); [destruct (scan l []); simpl; by intros [? _]%Forall_cons|]. intros H%IH. rewrite zlen_app in H. unfold zlen in *. simpl in H. lia.
Qed.

Lemma grep_loop_ok read_size pattern n seen input : read_law read_size -> Forall (fun c => c <> 0) (seen ++ input) -> short_lines (seen ++ input) -> (length input < n)%nat ->
  grep_loop read_size n pattern input (last_part seen) (printed pattern (full_lines seen)) = Some (printed pattern (full_lines (seen ++ input))).
Proof.
  intros Hr. revert seen input. induction n as [|n IH]; intros seen input Hnz Hsh Hn; [lia|]. cbn [grep_loop].
  set (want := bufsize - zlen (last_part seen) - 1). destruct (Hr input want) as [Hsome Hnone].
  assert (Hw : 0 < want). { unfold short_lines, full_lines, last_part in Hsh. rewrite scan_app in Hsh. simpl in Hsh. rewrite <- app_assoc in Hsh. apply Forall_app in Hsh as [_ Hsh].
    apply scan_longer in Hsh. unfold want, last_part. lia. }
  destruct input as [|c input]; [rewrite Hnone by (by right); simpl; by rewrite app_nil_r|]. specialize (Hsome Hw ltac:(done)). set (k := read_size (c :: input) want) in *.
  rewrite (proj2 (Z.leb_gt k 0)) by lia. set (inp := c :: input) in *. assert (Hsplit : inp = take (Z.to_nat k) inp ++ drop (Z.to_nat k) inp) by by rewrite take_drop.
  change (sub inp 0 k) with (take (Z.to_nat k) inp). set (a := take (Z.to_nat k) inp) in *. set (r := drop (Z.to_nat k) inp) in *.
  destruct (full_lines_app seen a) as [Hfl Hlp]. apply Forall_app in Hnz as Hnz'. destruct Hnz' as [Hnz1 Hnz2].
  rewrite lines_loop_ok; [|apply Forall_app; split; [by apply part_forall|by apply Forall_take]|lia]. rewrite <- printed_app, <- Hfl, <- Hlp, IH.
  - by rewrite <- app_assoc, <- Hsplit.
  - by rewrite <- app_assoc, <- Hsplit.
  - by rewrite <- app_assoc, <- Hsplit.
  - unfold r. rewrite length_drop. unfold inp in *. simpl in *. lia.
Qed.

(** C25: On a file without NULs whose lines fit in the buffer, however [read] cuts it up, [grep] prints exactly the lines that end in a newline and
    match, in their order. *)
Theorem grep_prints (read_size : list Z -> Z -> Z) (pattern input : list Z) :
  read_law read_size -> Forall (fun c => c <> 0) input -> short_lines input -> grep read_size pattern input = Some (printed pattern (full_lines input)).
Proof. intros Hr Hnz Hsh. apply (grep_loop_ok read_size pattern _ [] input); [done..|lia]. Qed.

(** A [read] that returns at most seven bytes *)
Definition demo_read (input : list Z) (n : Z) : Z := Z.max 0 (Z.min 7 (Z.min n (zlen input))).
Lemma demo_read_law : read_law demo_read.
Proof.
  intros input n. unfold demo_read. pose proof (zlen_nonneg input). split.
  - intros Hn Hi. assert (0 < zlen input) by (destruct input; [done|unfold zlen; simpl; lia]). lia.
  - intros [Hn| ->]; [lia|]. unfold zlen. simpl. lia.
Qed.
(** The lines [hello], [abc] and [bcd] and the pattern [^.*c$] *)
Definition demo_text : list Z := [104; 101; 108; 108; 111; 10; 97; 98; 99; 10; 98; 99; 100; 10].
Definition demo_pattern : list Z := [94; 46; 42; 99; 36].
Lemma grep_prints_witness : grep demo_read demo_pattern demo_text = Some (printed demo_pattern (full_lines demo_text)) /\ printed demo_pattern (full_lines demo_text) = [97; 98; 99; 10].
Proof.
  split; [|vm_compute; reflexivity]. apply (grep_prints demo_read demo_pattern demo_text demo_read_law); [vm_compute; repeat constructor; discriminate|].
  vm_compute. repeat constructor.
Defined.

(** A line that fills the buffer stops [grep]: the lines after it are not read, although one of them matches. *)
Theorem grep_stops_at_long_line : grep (fun input n => Z.max 0 (Z.min n (zlen input))) [98] (replicate 1023 97 ++ [10; 98; 10]) = Some [] /\
  printed [98] (full_lines (replicate 1023 97 ++ [10; 98; 10])) = [98; 10].
Proof. split; vm_compute; reflexivity. Qed.
