(* ===== verification/Printf.v ===== *)
(** * Numbers in print

    The two loops of [printint], the same in [src/user/printf.c] and in
    [src/kernel/printf.c] up to the table of digits, and [atoi] of
    [src/user/ulib.c].  [buf] is an array of 16 characters: a store past its
    end has no value. *)

From stdpp Require Import base numbers list list_numbers strings.
From Stdlib Require Import ZArith Lia.
From S2P Require Import Prelude.

Definition buf_len : Z := 16.
(** [buf[i++] = c] *)
Definition push (buf : list Z) (c : Z) : option (list Z) := if zlen buf <? buf_len then Some (buf ++ [c]) else None.

(** [do buf[i++] = digits[x % base]; while((x /= base) != 0);] *)
Fixpoint digit_loop (n : nat) (digits : list Z) (base x : Z) (buf : list Z) : option (list Z) :=
  match n with
  | O => None
  | S n =>
      buf ← push buf (znth digits (x mod base));
      let x := x / base in
      if x =? 0 then Some buf else digit_loop n digits base x buf
  end.

(** The characters in the order in which they are put out; 32 divisions bring any [uint] to 0. *)
Definition printint (digits : list Z) (xx base : Z) (sgn : bool) : option (list Z) :=
  let neg := sgn && (xx <? 0) in
  let x := if neg then uint (- xx) else uint xx in
  buf ← digit_loop 32 digits base x [];
  buf ← (if neg then push buf 45 else Some buf);
  Some (reverse buf).

(** [printptr]: sixteen digits, from the top *)
Fixpoint ptr_loop (n : nat) (digits : list Z) (x : Z) : list Z :=
  match n with
  | O => []
  | S n => znth digits (Z.shiftr x 60) :: ptr_loop n digits (uint64 (Z.shiftl x 4))
  end.
Definition printptr (digits : list Z) (x : Z) : list Z := [48; 120] ++ ptr_loop 16 digits x.

(** The loop of [atoi] on the bytes of a string *)
Fixpoint atoi_loop (s : list Z) (n : Z) : Z :=
  match s with
  | c :: s => if (48 <=? c) && (c <=? 57) then atoi_loop s (int (n * 10 + c - 48)) else n
  | [] => n
  end.
Definition atoi (s : list Z) : Z := atoi_loop s 0.

(** ** What a numeral says *)

Fixpoint index_of (digits : list Z) (c : Z) : Z :=
  match digits with
  | [] => 0
  | d :: digits => if d =? c then 0 else 1 + index_of digits c
  end.
Definition value (digits : list Z) (base : Z) (l : list Z) : Z := foldl (fun n c => n * base + index_of digits c) 0 l.
(** A minus sign and digits *)
Definition numeral (digits : list Z) (base : Z) (l : list Z) : Z :=
  match l with
  | c :: l' => if c =? 45 then - value digits base l' else value digits base l
  | [] => 0
  end.

(** A table of 16 different characters, none of them the minus sign *)
Definition table_ok (digits : list Z) : Prop := length digits = 16%nat /\ (forall i, 0 <= i < 16 -> index_of digits (znth digits i) = i) /\ ~ 45 ∈ digits.

Lemma digit_loop_ok digits base : table_ok digits -> 10 <= base <= 16 -> forall k x n buf, (k < n)%nat -> 0 <= x < base ^ (Z.of_nat k + 1) -> zlen buf + Z.of_nat k + 1 <= buf_len ->
  exists ds, digit_loop n digits base x buf = Some (buf ++ ds) /\ value digits base (reverse ds) = x /\ 0 < zlen ds <= Z.of_nat k + 1 /\ Forall (fun c => exists i, 0 <= i < base /\ c = znth digits i) ds.
Proof.
  intros (Hlen & Hidx & _) Hbase k. induction k as [|k IH]; intros x n buf Hn Hx Hbuf; (destruct n as [|n]; [lia|]); cbn [digit_loop];
    unfold push; rewrite (proj2 (Z.ltb_lt _ _)) by lia; simpl;
    pose proof (Z.mod_pos_bound x base ltac:(lia)) as Hm; pose proof (Z.div_mod x base ltac:(lia)) as Hdm;
    assert (Hin : exists i, 0 <= i < base /\ znth digits (x mod base) = znth digits i) by eauto.
  - rewrite Z.div_small by lia. simpl. exists [znth digits (x mod base)]. split_and!; [done| |by unfold zlen; simpl; lia..|by constructor].
    unfold value. simpl. rewrite Hidx by lia. rewrite Z.mod_small by lia. lia.
  - destruct (Z.eqb_spec (x / base) 0) as [E|E].
    + exists [znth digits (x mod base)]. split_and!; [done| |by unfold zlen; simpl; lia..|by constructor]. unfold value. simpl. rewrite Hidx by lia. lia.
    + destruct (IH (x / base) n (buf ++ [znth digits (x mod base)])) as (ds & Hds & Hv & Hz & Hf); [lia| |rewrite zlen_app; unfold zlen in *; simpl; lia|].
      { split; [apply Z.div_pos; lia|]. apply Z.div_lt_upper_bound; [lia|]. rewrite <- Z.pow_succ_r by lia. replace (Z.succ (Z.of_nat k + 1)) with (Z.of_nat (S k) + 1) by lia. apply Hx. }
      exists (znth digits (x mod base) :: ds). split_and!.
      * rewrite Hds. by rewrite <- app_assoc.
      * rewrite reverse_cons. unfold value in *. rewrite foldl_app, Hv. simpl. rewrite Hidx by lia. lia.
      * unfold zlen in *. simpl. lia.
      * unfold zlen in *. simpl. lia.
      * by constructor.
Qed.

Lemma pow10_ge base : 10 <= base -> 2 ^ 32 <= base ^ 10.
Proof. intros H. transitivity (10 ^ 10); [done|]. apply Z.pow_le_mono_l. lia. Qed.

(** The characters of a number, without the sign: they fit in [buf] and say the number. *)
Lemma digits_ok digits base x : table_ok digits -> 10 <= base <= 16 -> 0 <= x < 2 ^ 32 ->
  exists ds, digit_loop 32 digits base x [] = Some ds /\ value digits base (reverse ds) = x /\ 0 < zlen ds <= 10 /\ Forall (fun c => exists i, 0 <= i < base /\ c = znth digits i) ds.
Proof.
  intros Ht Hb Hx. pose proof (pow10_ge base ltac:(lia)). apply (digit_loop_ok digits base Ht Hb 9 x 32 []); [lia| |by vm_compute].
  change (Z.of_nat 9 + 1) with 10. lia.
Qed.

Lemma printint_ok digits xx base sgn : table_ok digits -> 10 <= base <= 16 -> - 2 ^ 31 <= xx < 2 ^ 31 ->
  exists out, printint digits xx base sgn = Some out /\ zlen out <= 11 /\ numeral digits base out = if sgn then xx else uint xx.
Proof.
  intros Ht Hb Hxx. unfold printint. destruct (sgn && (xx <? 0)) eqn:En.
  - apply andb_true_iff in En as [-> En]. zbool. destruct (digits_ok digits base (uint (- xx)) Ht Hb (uint_range _)) as (ds & -> & Hv & Hl & _). simpl.
    unfold push. rewrite (proj2 (Z.ltb_lt _ _)) by (unfold buf_len; lia). simpl. eexists. split; [reflexivity|]. rewrite reverse_app. simpl. split; [unfold zlen in *; simpl; rewrite length_reverse; lia|].
    rewrite Hv, uint_small by lia. lia.
  - destruct (digits_ok digits base (uint xx) Ht Hb (uint_range _)) as (ds & -> & Hv & Hl & Hf). simpl. eexists. split; [reflexivity|].
    split; [unfold zlen in *; rewrite length_reverse; lia|]. unfold numeral. assert (Hf' : Forall (fun c => exists i, 0 <= i < base /\ c = znth digits i) (reverse ds)) by by apply Forall_reverse.
    destruct (reverse ds) as [|c l] eqn:Er; [apply (f_equal length) in Er; rewrite length_reverse in Er; unfold zlen in Hl; simpl in Er; lia|].
    apply Forall_cons in Hf' as [(i & Hi & ->) _]. destruct (Z.eqb_spec (znth digits i) 45) as [E|].
    { destruct Ht as (Hlen & _ & Hn). destruct Hn. rewrite <- E. unfold znth. apply list_elem_of_lookup_total_2. lia. }
    rewrite Hv.
    destruct sgn; simpl in En; [|done]. zbool. apply uint_small. lia.
Qed.

(** ** Reading a numeral back *)

Definition decimal (digits : list Z) : Prop := forall i, 0 <= i < 10 -> znth digits i = 48 + i.

Lemma atoi_value digits s n : table_ok digits -> decimal digits -> Forall (fun c => exists i, 0 <= i < 10 /\ c = znth digits i) s ->
  0 <= n -> foldl (fun n c => n * 10 + index_of digits c) n s < 2 ^ 31 -> atoi_loop s n = foldl (fun n c => n * 10 + index_of digits c) n s.
Proof.
  intros Ht Hd Hs. assert (Hmono : forall s n, Forall (fun c => exists i, 0 <= i < 10 /\ c = znth digits i) s -> 0 <= n -> n <= foldl (fun n c => n * 10 + index_of digits c) n s).
  { clear s n Hs. intros s n Hs. revert n. induction Hs as [|c s (i & Hi & ->) _ IH]; intros n Hn; [done|]. simpl. destruct Ht as (_ & Hx & _). rewrite Hx by lia.
    etransitivity; [|apply IH]; lia. }
  revert n. induction Hs as [|c s (i & Hi & ->) Hs IH]; intros n Hn Hmax; [done|]. cbn [atoi_loop foldl] in *. pose proof Ht as (_ & Hx & _). rewrite Hx in * by lia. rewrite (Hd i Hi).
  rewrite (proj2 (andb_true_iff _ _)) by (rewrite !Z.leb_le; lia). pose proof (Hmono s (n * 10 + i) Hs ltac:(lia)).
  replace (n * 10 + (48 + i) - 48) with (n * 10 + i) by lia. rewrite int_small by lia. apply IH; lia.
Qed.

(** [atoi] reads back what [printint] writes for any number that is not negative, in the user's and in the kernel's digits. *)
Theorem printint_atoi (digits : list Z) (x : Z) : table_ok digits -> decimal digits -> 0 <= x < 2 ^ 31 ->
  exists out, printint digits x 10 true = Some out /\ atoi out = x.
Proof.
  intros Ht Hd Hx. unfold printint. rewrite (proj2 (andb_false_iff _ _)) by (right; apply Z.ltb_ge; lia).
  destruct (digits_ok digits 10 (uint x) Ht ltac:(lia) (uint_range _)) as (ds & -> & Hv & Hl & Hf). simpl. eexists. split; [reflexivity|]. rewrite uint_small in Hv by lia.
  unfold atoi. rewrite atoi_value with (digits := digits); [done|done|done|by apply Forall_reverse|lia|]. unfold value in Hv. rewrite Hv. lia.
Qed.

(** The characters 0 to 9 and A to F, 0 to 9 and a to f *)
Definition upper_digits : list Z := [48; 49; 50; 51; 52; 53; 54; 55; 56; 57; 65; 66; 67; 68; 69; 70].
Definition lower_digits : list Z := [48; 49; 50; 51; 52; 53; 54; 55; 56; 57; 97; 98; 99; 100; 101; 102].

Lemma below_16 (P : Z -> Prop) : Forall P (seqZ 0 16) -> forall i, 0 <= i < 16 -> P i.
Proof. intros H i Hi. rewrite Forall_forall in H. apply H, elem_of_seqZ. lia. Qed.
Lemma upper_ok : table_ok upper_digits.
Proof. split; [done|]. split; [apply below_16; by repeat constructor|]. intros Hin. unfold upper_digits in Hin. repeat (apply elem_of_cons in Hin as [Hin|Hin]; [done|]). by apply not_elem_of_nil in Hin. Qed.
Lemma lower_ok : table_ok lower_digits.
Proof. split; [done|]. split; [apply below_16; by repeat constructor|]. intros Hin. unfold lower_digits in Hin. repeat (apply elem_of_cons in Hin as [Hin|Hin]; [done|]). by apply not_elem_of_nil in Hin. Qed.
Lemma upper_decimal : decimal upper_digits.
Proof. intros i Hi. assert (H := below_16 (fun i => i < 10 -> znth upper_digits i = 48 + i)). apply H; [by repeat constructor|lia|lia]. Qed.

Lemma printint_atoi_witness : exists out, printint upper_digits 2147483647 10 true = Some out /\ atoi out = 2147483647.
Proof. apply (printint_atoi upper_digits 2147483647 upper_ok upper_decimal). lia. Defined.

Lemma value_acc digits base l n : foldl (fun n c => n * base + index_of digits c) n l = n * base ^ zlen l + value digits base l.
Proof.
  unfold value. revert n. induction l as [|c l IH]; intros n; [unfold zlen; simpl; lia|]. cbn [foldl]. rewrite IH, (IH (0 * base + index_of digits c)).
  replace (zlen (c :: l)) with (Z.succ (zlen l)) by (unfold zlen; simpl; lia). rewrite Z.pow_succ_r by apply zlen_nonneg. lia.
Qed.
Lemma zlen_ptr_loop n digits x : zlen (ptr_loop n digits x) = Z.of_nat n.
Proof. revert x. induction n as [|n IH]; intros x; [done|]. cbn [ptr_loop]. specialize (IH (uint64 (Z.shiftl x 4))). unfold zlen in *. simpl. lia. Qed.

Lemma ptr_loop_value n digits x : table_ok digits -> (n <= 16)%nat -> 0 <= x < 2 ^ 64 -> value digits 16 (ptr_loop n digits x) = x / 2 ^ (64 - 4 * Z.of_nat n).
Proof.
  intros Ht. revert x. induction n as [|n IH]; intros x Hn Hx; [rewrite Z.div_small; [done|simpl; lia]|]. cbn [ptr_loop]. unfold value. cbn [foldl]. rewrite value_acc, zlen_ptr_loop.
  rewrite IH by (lia || apply uint64_range). set (d := Z.shiftr x 60). assert (Hd : d = x / 2 ^ 60) by (unfold d; by rewrite Z.shiftr_div_pow2).
  assert (0 <= d < 16). { rewrite Hd. split; [apply Z.div_pos; lia|]. apply Z.div_lt_upper_bound; lia. }
  destruct Ht as (_ & Hidx & _). rewrite Hidx by lia. unfold uint64. rewrite Z.shiftl_mul_pow2 by lia.
  assert (Hm : (x * 2 ^ 4) mod 2 ^ 64 = x * 2 ^ 4 - d * 2 ^ 64).
  { symmetry. apply (Z.mod_unique _ _ d); [left|lia]. pose proof (Z.div_mod x (2 ^ 60) ltac:(lia)). pose proof (Z.mod_pos_bound x (2 ^ 60) ltac:(lia)). rewrite <- Hd in *. lia. }
  rewrite Hm. set (k := 64 - 4 * Z.of_nat (S n)). assert (0 <= k) by (unfold k; lia). replace (64 - 4 * Z.of_nat n) with (k + 4) by (unfold k; lia).
  assert (E64 : 2 ^ 64 = 16 ^ Z.of_nat n * 2 ^ (k + 4)). { change 16 with (2 ^ 4). rewrite <- Z.pow_mul_r, <- Z.pow_add_r by (unfold k; lia). f_equal. unfold k. lia. }
  assert (Hp : 0 < 2 ^ k) by (apply Z.pow_pos_nonneg; lia).
  replace (x * 2 ^ 4 - d * 2 ^ 64) with (x * 2 ^ 4 + (- (d * 16 ^ Z.of_nat n)) * 2 ^ (k + 4)) by (rewrite E64; lia).
  rewrite Z.div_add by (rewrite Z.pow_add_r by lia; lia). rewrite Z.pow_add_r by lia. rewrite Z.div_mul_cancel_r by lia. lia.
Qed.
Lemma printptr_value digits x : table_ok digits -> 0 <= x < 2 ^ 64 -> exists l, printptr digits x = [48; 120] ++ l /\ zlen l = 16 /\ value digits 16 l = x.
Proof.
  intros Ht Hx. exists (ptr_loop 16 digits x). split; [done|]. split; [apply zlen_ptr_loop|]. rewrite ptr_loop_value by done. by rewrite Z.div_1_r.
Qed.

(** ** User-space printf

    [vprintf], [printint] and [printptr] of [src/user/printf.c], which write
    a formatted string to a file descriptor one character at a time.  The
    variable arguments are an [int] or what is promoted to it, a 64-bit number or
    address, or a string; to take one that is missing or of another type is undefined
    in C, and has no value in the model. *)

Inductive arg := AInt (x : Z) | ALong (x : Z) | AStr (s : option (list Z)).

(** [va_arg(ap, int)] and [va_arg(ap, uint)], [va_arg(ap, uint64)], [va_arg(ap, char* )] *)
Definition va_int (args : list arg) : option (Z * list arg) := match args with AInt x :: args => Some (x, args) | _ => None end.
Definition va_long (args : list arg) : option (Z * list arg) := match args with ALong x :: args => Some (x, args) | _ => None end.
Definition va_str (args : list arg) : option (option (list Z) * list arg) := match args with AStr s :: args => Some (s, args) | _ => None end.

(** The characters %, d, l, x, p, s, c and the string (null) *)
Definition c_percent : Z := 37.
Definition c_d : Z := 100.
Definition c_l : Z := 108.
Definition c_x : Z := 120.
Definition c_p : Z := 112.
Definition c_s : Z := 115.
Definition c_c : Z := 99.
Definition null_str : list Z := [40; 110; 117; 108; 108; 41].

(** The cases of the state ['%'] *)
Definition convert (c : Z) (args : list arg) : option (list Z * list arg) :=
  if c =? c_d then '(x, args) ← va_int args; o ← printint upper_digits (int x) 10 true; Some (o, args)
  else if c =? c_l then '(x, args) ← va_long args; o ← printint upper_digits (int x) 10 false; Some (o, args)
  else if c =? c_x then '(x, args) ← va_int args; o ← printint upper_digits (int x) 16 false; Some (o, args)
  else if c =? c_p then '(x, args) ← va_long args; Some (printptr upper_digits (uint64 x), args)
  else if c =? c_s then '(s, args) ← va_str args; Some (default null_str s, args)
  else if c =? c_c then '(x, args) ← va_int args; Some ([uchar x], args)
  else if c =? c_percent then Some ([c], args)
  else Some ([c_percent; c], args).

(** The loop; [state] is whether a % has been seen.  The result is what is written. *)
Fixpoint vprintf_loop (fmt : list Z) (state : bool) (args : list arg) : option (list Z) :=
  match fmt with
  | [] => Some []
  | c :: fmt =>
      if negb state then
        if c =? c_percent then vprintf_loop fmt true args
        else o ← vprintf_loop fmt false args; Some (c :: o)
      else
        '(o, args) ← convert c args;
        o' ← vprintf_loop fmt false args;
        Some (o ++ o')
  end.
Definition vprintf (fmt : list Z) (args : list arg) : option (list Z) := vprintf_loop fmt false args.

(** ** What a format means *)

Inductive directive := Plain (c : Z) | Conv (c : Z).
Fixpoint directives (fmt : list Z) : list directive :=
  match fmt with
  | [] => []
  | c :: fmt =>
      if c =? c_percent then match fmt with [] => [] | c :: fmt => Conv c :: directives fmt end
      else Plain c :: directives fmt
  end.

(** Each directive in its turn, with the arguments it takes *)
Fixpoint render (conv : Z -> list arg -> option (list Z * list arg)) (ds : list directive) (args : list arg) : option (list Z) :=
  match ds with
  | [] => Some []
  | Plain c :: ds => o ← render conv ds args; Some (c :: o)
  | Conv c :: ds => '(o, args) ← conv c args; o' ← render conv ds args; Some (o ++ o')
  end.

(** The kind of argument that a directive takes *)
Inductive kind := KInt | KLong | KStr.
Definition kind_of (c : Z) : option kind :=
  if bool_decide (c ∈ [c_d; c_x; c_c]) then Some KInt else if bool_decide (c ∈ [c_l; c_p]) then Some KLong
  else if c =? c_s then Some KStr else None.
Definition has_kind (k : kind) (a : arg) : Prop := match k, a with KInt, AInt _ | KLong, ALong _ | KStr, AStr _ => True | _, _ => False end.
(** The arguments fit the format. *)
Definition kinds (ds : list directive) : list kind := omap (fun d => match d with Plain _ => None | Conv c => kind_of c end) ds.

Lemma vprintf_directives fmt : forall args,
  vprintf_loop fmt false args = render convert (directives fmt) args /\
  vprintf_loop fmt true args = match fmt with [] => Some [] | c :: fmt => '(o, args) ← convert c args; o' ← render convert (directives fmt) args; Some (o ++ o') end.
Proof.
  induction fmt as [|c fmt IH]; intros args; [done|]. cbn [vprintf_loop directives negb]. split.
  - destruct (c =? c_percent); [rewrite (proj2 (IH args)); by destruct fmt|]. cbn [render]. by rewrite (proj1 (IH args)).
  - destruct (convert c args) as [[o args']|]; [|done]. simpl. by rewrite (proj1 (IH args')).
Qed.

Lemma int_range x : - 2 ^ 31 <= int x < 2 ^ 31.
Proof.
  unfold int, to_signed. pose proof (Z.mod_pos_bound x (2 ^ 32) ltac:(lia)). destruct (Z.leb_spec (2 ^ (32 - 1)) (x mod 2 ^ 32)); lia.
Qed.
Lemma convert_typed c args k : kind_of c = Some k -> match args with a :: _ => has_kind k a | [] => False end -> exists o, convert c args = Some (o, tail args).
Proof.
  destruct args as [|a args]; [done|]. assert (Hp : forall x base sgn, 10 <= base <= 16 -> exists o, printint upper_digits (int x) base sgn = Some o).
  { intros x base sgn Hb. destruct (printint_ok upper_digits (int x) base sgn upper_ok Hb (int_range x)) as (o & E & _). by exists o. }
  unfold kind_of. case_bool_decide as Hin; [|case_bool_decide as Hin'; [|destruct (Z.eqb_spec c c_s) as [->|]; [|done]]]; intros [= <-] Ha; destruct a as [x|x|s]; try done.
  - destruct (Hp x 10 true ltac:(lia)) as [o1 E1], (Hp x 16 false ltac:(lia)) as [o3 E3]. unfold convert. cbn [va_int mbind option_bind]. rewrite E1, E3. simpl.
    repeat (apply elem_of_cons in Hin as [->|Hin]; [by eexists|]). by apply not_elem_of_nil in Hin.
  - destruct (Hp x 10 false ltac:(lia)) as [o2 E2]. unfold convert. cbn [va_long mbind option_bind]. rewrite E2. simpl.
    repeat (apply elem_of_cons in Hin' as [->|Hin']; [by eexists|]). by apply not_elem_of_nil in Hin'.
  - by eexists.
Qed.
Lemma convert_none c args : kind_of c = None -> exists o, convert c args = Some (o, args).
Proof.
  unfold kind_of, convert. case_bool_decide as Hin; [done|]. case_bool_decide as Hin'; [done|]. destruct (c =? c_s) eqn:E; [done|]. intros _.
  rewrite !not_elem_of_cons in Hin. rewrite !not_elem_of_cons in Hin'. destruct Hin as (? & ? & ? & _), Hin' as (? & ? & _). repeat (case_match; zbool; [done|]).
  destruct (c =? c_percent); by eexists.
Qed.

(** The arguments fit the kinds, as a test; there may be more of them. *)
Fixpoint args_fit (ks : list kind) (args : list arg) : bool :=
  match ks, args with
  | [], _ => true
  | KInt :: ks, AInt _ :: args | KLong :: ks, ALong _ :: args | KStr :: ks, AStr _ :: args => args_fit ks args
  | _, _ => false
  end.
Lemma args_fit_ok ks args : Forall2 has_kind ks args -> args_fit ks args = true.
Proof. induction 1 as [|[] [] ks args H _ IH]; done. Qed.
Lemma render_fits ds : forall args, args_fit (kinds ds) args = true -> is_Some (render convert ds args).
Proof.
  induction ds as [|[c|c] ds IH]; intros args; cbn [kinds omap list_omap render]; [by eexists|..].
  - intros H. destruct (IH args H) as [out ->]. by eexists.
  - destruct (kind_of c) as [k|] eqn:Ek.
    + intros H. destruct args as [|a args]; [by destruct k|]. assert (Ha : has_kind k a /\ args_fit (kinds ds) args = true) by (by destruct k, a). destruct Ha as [Ha Hargs].
      destruct (convert_typed c (a :: args) k Ek Ha) as (o & ->). simpl. destruct (IH args Hargs) as [out ->]. by eexists.
    + intros H. destruct (convert_none c args Ek) as (o & ->). simpl. destruct (IH args H) as [out ->]. by eexists.
Qed.
Lemma vprintf_fits fmt args : args_fit (kinds (directives fmt)) args = true -> is_Some (vprintf fmt args).
Proof. unfold vprintf. rewrite (proj1 (vprintf_directives fmt args)). apply render_fits. Qed.

(** When the arguments are of the kinds that the format asks for, [vprintf] writes what the directives say, in order; in particular no number
    runs over the 16 characters of [printint]'s buffer. *)
Theorem vprintf_typed (fmt : list Z) (args : list arg) : Forall2 has_kind (kinds (directives fmt)) args ->
  exists out, vprintf fmt args = Some out /\ render convert (directives fmt) args = Some out.
Proof.
  intros H. apply args_fit_ok, render_fits in H as [out E]. exists out. split; [|done]. unfold vprintf. by rewrite (proj1 (vprintf_directives fmt args)).
Qed.

(** %d %s! with 42 and abc *)
Lemma vprintf_typed_witness : exists out, vprintf [37; 100; 32; 37; 115; 33] [AInt 42; AStr (Some [97; 98; 99])] = Some out /\
  render convert (directives [37; 100; 32; 37; 115; 33]) [AInt 42; AStr (Some [97; 98; 99])] = Some out.
Proof. apply (vprintf_typed [37; 100; 32; 37; 115; 33] [AInt 42; AStr (Some [97; 98; 99])]). vm_compute. repeat constructor. Defined.

(** A number is written as a numeral that says it, with its sign for %d and modulo 2^32 for %x, and with at most 11 characters. *)
Theorem printint_says (xx base : Z) (sgn : bool) : 10 <= base <= 16 -> - 2 ^ 31 <= xx < 2 ^ 31 ->
  exists out, printint upper_digits xx base sgn = Some out /\ zlen out <= 11 /\ numeral upper_digits base out = if sgn then xx else uint xx.
Proof. intros. apply printint_ok; [apply upper_ok|done|done]. Qed.
Lemma printint_says_witness : exists out, printint upper_digits (- 2 ^ 31) 10 true = Some out /\ zlen out <= 11 /\ numeral upper_digits 10 out = - 2 ^ 31.
Proof. apply (printint_says (- 2 ^ 31) 10 true); lia. Defined.

(** %l takes an argument of 64 bits but prints its low 32: 2^32 + 5 is printed as 5. *)
Theorem percent_l_truncates : vprintf [37; 108] [ALong (2 ^ 32 + 5)] = Some [53].
Proof. vm_compute. reflexivity. Qed.
