(* ===== verification/Kprintf.v ===== *)
(** * Kernel printf and panic

    [printf], [printint], [printptr] and [panic] of [src/kernel/printf.c], which
    put characters out through [consputc].  The lock that keeps two [printf]s
    apart is left out: a call runs on its own.  [panic] ends with output
    frozen; the endless loop after it is not a step. *)

From stdpp Require Import base numbers list list_numbers gmap strings.
From Stdlib Require Import ZArith Lia.
From S2P Require Import Prelude Ring Uart Kmem Console KmemVm FsDemo ConsoleProof Printf.

Section Kprintf.
Context {U : Type} `{UD : UartDev U}.
Abbreviation C := (console U).
Context (spin : nat).

(** [while(--i >= 0) consputc(buf[i]);] and the loop of %s *)
Fixpoint puts (l : list Z) : K C unit :=
  match l with
  | [] => mret tt
  | c :: l => consputc spin c;; puts l
  end.
Definition need {A} (o : option A) : K C A := match o with Some a => mret a | None => fault "va_arg" end.

Definition kprintint (xx base : Z) (sign : bool) : K C unit := l ← need (printint lower_digits xx base sign); puts l.
Definition kprintptr (x : Z) : K C unit := puts (printptr lower_digits x).

(** The [switch] *)
Definition kconvert (c : Z) (args : list arg) : K C (list arg) :=
  if c =? c_d then '(x, args) ← need (va_int args); kprintint (int x) 10 true;; mret args
  else if c =? c_x then '(x, args) ← need (va_int args); kprintint (int x) 16 true;; mret args
  else if c =? c_p then '(x, args) ← need (va_long args); kprintptr (uint64 x);; mret args
  else if c =? c_s then '(s, args) ← need (va_str args); puts (default null_str s);; mret args
  else if c =? c_percent then consputc spin c_percent;; mret args
  else consputc spin c_percent;; consputc spin c;; mret args.

Fixpoint kprintf_loop (fmt : list Z) (args : list arg) : K C unit :=
  match fmt with
  | [] => mret tt
  | c :: fmt =>
      if negb (c =? c_percent) then consputc spin c;; kprintf_loop fmt args
      else match fmt with
           | [] => mret tt
           | c :: fmt => args ← kconvert c args; kprintf_loop fmt args
           end
  end.
Definition kprintf (fmt : list Z) (args : list arg) : K C unit := kprintf_loop fmt args.

Definition freeze (u : uart U) : uart U := mk_uart (udev u) (uart_tx_buf u) (uart_tx_w u) (uart_tx_r u) true.
(** "panic: ", the message as a format, a newline *)
Definition kpanic (s : list Z) : K C unit :=
  kprintf [112; 97; 110; 105; 99; 58; 32] [];;
  kprintf s [];;
  kprintf [10] [];;
  modify (fun c => set_cuart (freeze (cuart c)) c).
End Kprintf.

(** ** What the switch means *)

Definition kconv (c : Z) (args : list arg) : option (list Z * list arg) :=
  if c =? c_d then '(x, args) ← va_int args; o ← printint lower_digits (int x) 10 true; Some (o, args)
  else if c =? c_x then '(x, args) ← va_int args; o ← printint lower_digits (int x) 16 true; Some (o, args)
  else if c =? c_p then '(x, args) ← va_long args; Some (printptr lower_digits (uint64 x), args)
  else if c =? c_s then '(s, args) ← va_str args; Some (default null_str s, args)
  else if c =? c_percent then Some ([c_percent], args)
  else Some ([c_percent; c], args).

(** The strings among the arguments are bytes. *)
Definition arg_ok (a : arg) : Prop := match a with AStr (Some s) => bytes_ok s | _ => True end.

Section Proofs.
Context {U : Type} `{UD : UartDev U, UL : !UartDevLaws U}.
Implicit Types (s : console U).

Lemma puts_ok spin l s : idles (U := U) spin -> panicked (cuart s) = false -> bytes_ok l -> exists s', puts spin l s = Ok (tt, s') /\ shown s s' l.
Proof using Type.
  intros Hi. revert s. induction l as [|c l IH]; intros s Hp Hl; cbn [puts].
  - exists s. split; [done|]. exists (udev (cuart s)). destruct s as [? ? ? ? []]. by rewrite app_nil_r.
  - apply Forall_cons in Hl as [Hc Hl]. destruct (consputc_ok spin s c Hi Hp) as (s1 & E1 & H1). kstep E1.
    destruct (IH s1) as (s2 & E2 & H2); [by rewrite (shown_panicked _ _ _ H1)|done|]. exists s2. split; [done|].
    assert (echo c = [c]) as Ee. { unfold echo, BACKSPACE. unfold byte_ok in Hc. rewrite (proj2 (Z.eqb_neq c 0x100)) by lia. by rewrite uchar_small by lia. }
    rewrite Ee in H1. exact (shown_trans _ _ _ [c] l H1 H2).
Qed.

Lemma digits_bytes digits n base x buf out : bytes_ok digits -> bytes_ok buf -> digit_loop n digits base x buf = Some out -> bytes_ok out.
Proof using Type.
  intros Hd. revert x buf. induction n as [|n IH]; intros x buf Hb; [done|]. cbn [digit_loop]. unfold push. destruct (zlen buf <? buf_len); [|done]. simpl.
  assert (Hb' : bytes_ok (buf ++ [znth digits (x mod base)])) by (apply bytes_ok_app; split; [done|]; constructor; [by apply bytes_ok_znth|constructor]).
  destruct (_ =? 0); [by intros [= <-]|]. by apply IH.
Qed.
Lemma lower_bytes : bytes_ok lower_digits.
Proof using Type. repeat constructor; done. Qed.
Lemma printint_bytes xx base sgn out : printint lower_digits xx base sgn = Some out -> bytes_ok out.
Proof using Type.
  unfold printint. destruct (digit_loop _ _ _ _ _) as [buf|] eqn:E; [|done]. apply digits_bytes in E; [|apply lower_bytes|constructor]. simpl.
  destruct (sgn && _); [|intros [= <-]; by apply Forall_reverse]. unfold push. destruct (_ <? _); [|done]. simpl. intros [= <-]. apply Forall_reverse, bytes_ok_app. split; [done|].
  by repeat constructor.
Qed.
Lemma printptr_bytes x : bytes_ok (printptr lower_digits x).
Proof using Type.
  apply bytes_ok_app. split; [by repeat constructor|]. generalize 16%nat. intros n. revert x. induction n as [|n IH]; intros x; constructor; [|by apply IH].
  apply bytes_ok_znth, lower_bytes.
Qed.

Lemma kprintint_ok spin xx base sgn s l : idles (U := U) spin -> panicked (cuart s) = false -> printint lower_digits xx base sgn = Some l ->
  exists s', kprintint spin xx base sgn s = Ok (tt, s') /\ shown s s' l.
Proof using Type. intros Hi Hp E. unfold kprintint. rewrite E. cbn [need]. rewrite bind_ret. apply puts_ok; [done|done|]. by apply printint_bytes in E. Qed.

Lemma kconvert_ok spin c args s o args' : idles (U := U) spin -> panicked (cuart s) = false -> byte_ok c -> Forall arg_ok args -> kconv c args = Some (o, args') ->
  exists s', kconvert spin c args s = Ok (args', s') /\ shown s s' o /\ Forall arg_ok args'.
Proof using Type.
  intros Hi Hp Hc Ha. unfold kconv, kconvert. destruct (c =? c_d); [|destruct (c =? c_x); [|destruct (c =? c_p); [|destruct (c =? c_s); [|destruct (c =? c_percent)]]]].
  1-3: destruct args as [|[x|x|] args]; try done; apply Forall_cons in Ha as [_ Ha]; cbn [va_int va_long need mbind option_bind]; rewrite bind_ret.
  1-2: destruct (printint _ _ _ _) as [l|] eqn:E; [|done]; intros [= <- <-]; destruct (kprintint_ok _ _ _ _ s l Hi Hp E) as (s' & E' & Hs); kstep E'; by exists s'.
  - intros [= <- <-]. destruct (puts_ok spin (printptr lower_digits (uint64 x)) s Hi Hp (printptr_bytes _)) as (s' & E' & Hs). unfold kprintptr. kstep E'. by exists s'.
  - destruct args as [|[| |v] args]; try done. apply Forall_cons in Ha as [Hv Ha]. cbn [va_str need mbind option_bind]. rewrite bind_ret. intros [= <- <-].
    destruct (puts_ok spin (default null_str v) s Hi Hp) as (s' & E' & Hs); [destruct v; [done|]; by repeat constructor|]. kstep E'. by exists s'.
  - intros [= <- <-]. destruct (puts_ok spin [c_percent] s Hi Hp ltac:(by repeat constructor)) as (s' & E' & Hs). cbn [puts] in E'. apply bind_inv in E' as ([] & s1 & E1 & E2).
    kstep E1. unfold mret, K_ret in E2. simplify_eq. by exists s'.
  - intros [= <- <-]. destruct (puts_ok spin [c_percent; c] s Hi Hp ltac:(constructor; [done|constructor; [done|constructor]])) as (s' & E' & Hs). cbn [puts] in E'. apply bind_inv in E' as ([] & s1 & E1 & E2).
    apply bind_inv in E2 as ([] & s2 & E2 & E3). kstep E1. kstep E2. unfold mret, K_ret in E3. simplify_eq. by exists s'.
Qed.

Lemma shown_refl s : shown s s [].
Proof using Type. exists (udev (cuart s)). destruct s as [? ? ? ? []]. by rewrite app_nil_r. Qed.

Lemma kprintf_ok spin fmt args s out : idles (U := U) spin -> panicked (cuart s) = false -> bytes_ok fmt -> Forall arg_ok args ->
  render kconv (directives fmt) args = Some out -> exists s', kprintf spin fmt args s = Ok (tt, s') /\ shown s s' out.
Proof using Type.
  intros Hi. unfold kprintf. remember (length fmt) as n eqn:Hn. revert fmt args s out Hn. induction (lt_wf n) as [n _ IH]. intros fmt args s out -> Hp Hf Ha.
  destruct fmt as [|c fmt]; cbn [directives kprintf_loop]; [intros [= <-]; exists s; split; [done|apply shown_refl]|]. apply Forall_cons in Hf as [Hc Hf].
  destruct (c =? c_percent) eqn:E; cbn [negb].
  - destruct fmt as [|c' fmt]; [intros [= <-]; exists s; split; [done|apply shown_refl]|]. apply Forall_cons in Hf as [Hc' Hf]. cbn [render].
    destruct (kconv c' args) as [[o args']|] eqn:Ek; [|done]. simpl. destruct (render _ _ args') as [o'|] eqn:Er; [|done]. simpl. intros [= <-].
    destruct (kconvert_ok spin c' args s o args' Hi Hp Hc' Ha Ek) as (s1 & E1 & H1 & Ha'). kstep E1.
    destruct (IH (length fmt) ltac:(simpl; lia) fmt args' s1 o' eq_refl) as (s2 & E2 & H2); [by rewrite (shown_panicked _ _ _ H1)|done|done|done|].
    exists s2. split; [done|]. by apply (shown_trans _ s1).
  - cbn [render]. destruct (render _ _ args) as [o|] eqn:Er; [|done]. simpl. intros [= <-]. destruct (puts_ok spin [c] s Hi Hp ltac:(constructor; [done|constructor])) as (s1 & E1 & H1).
    cbn [puts] in E1. apply bind_inv in E1 as ([] & s0 & E0 & E1). unfold mret, K_ret in E1. simplify_eq. kstep E0.
    destruct (IH (length fmt) ltac:(simpl; lia) fmt args s1 o eq_refl) as (s2 & E2 & H2); [by rewrite (shown_panicked _ _ _ H1)|done|done|done|].
    exists s2. split; [done|]. exact (shown_trans _ _ _ [c] o H1 H2).
Qed.
End Proofs.

(** The kernel's [printf] sends to the serial line exactly the characters that the directives of the format describe, in order, through the polled
    transmitter, and leaves the console's input alone. *)
Theorem kprintf_shows {U} `{UD : UartDev U, UL : !UartDevLaws U} (spin : nat) (fmt : list Z) (args : list arg) (s : console U) (out : list Z) :
  idles (U := U) spin -> panicked (cuart s) = false -> bytes_ok fmt -> Forall arg_ok args -> render kconv (directives fmt) args = Some out ->
  exists s', kprintf spin fmt args s = Ok (tt, s') /\ sent (udev (cuart s')) = sent (udev (cuart s)) ++ out /\ same_input s s'.
Proof.
  intros Hi Hp Hf Ha Hr. destruct (kprintf_ok spin fmt args s out Hi Hp Hf Ha Hr) as (s' & E & Hs). exists s'. split; [done|]. split; [|by apply (shown_same _ _ out)].
  destruct Hs as (d & -> & Hd & _). done.
Qed.
Lemma kprintf_shows_witness : exists s', kprintf 1 [37; 100; 32; 37; 120] [AInt (-7); AInt 255] (demo_console []) = Ok (tt, s') /\
  sent (udev (cuart s')) = sent (udev (cuart (demo_console []))) ++ [45; 55; 32; 102; 102] /\ same_input (demo_console []) s'.
Proof.
  apply (kprintf_shows 1 [37; 100; 32; 37; 120] [AInt (-7); AInt 255] (demo_console []) [45; 55; 32; 102; 102] demo_idles eq_refl); [by repeat constructor|by repeat constructor|].
  vm_compute. reflexivity.
Defined.
