(* ===== verification/Ulib.v ===== *)
(** * The user library's strings

    [strcpy], [strcmp], [strlen], [memset], [memmove], [memcmp], [memcpy] and
    [gets] of [src/user/ulib.c] on the byte memory of [KString].  The loops that
    run to a NUL have no bound in the source: [fuel] bounds the bytes they look at. *)

From stdpp Require Import base numbers list list_numbers gmap strings.
From Stdlib Require Import ZArith Lia.
From S2P Require Import Prelude KString.

(** [while(( *s++ = *t++ ) != 0);] *)
Fixpoint strcpy (fuel : nat) (m : mem) (s t : Z) : option mem :=
  match fuel with
  | O => None
  | S fuel => let c := rd m t in let m := wr m s c in if c =? 0 then Some m else strcpy fuel m (s + 1) (t + 1)
  end.

(** [while( *p && *p == *q) p++, q++; return (uchar)*p - (uchar)*q;] *)
Fixpoint strcmp (fuel : nat) (m : mem) (p q : Z) : option Z :=
  match fuel with
  | O => None
  | S fuel => if negb (rd m p =? 0) && (rd m p =? rd m q) then strcmp fuel m (p + 1) (q + 1) else Some (uchar (rd m p) - uchar (rd m q))
  end.

Fixpoint strlen (fuel : nat) (m : mem) (s n : Z) : option Z :=
  match fuel with
  | O => None
  | S fuel => if rd m (s + n) =? 0 then Some n else strlen fuel m s (n + 1)
  end.

(** [for(i = 0; i < n; i++) cdst[i] = c;] *)
Fixpoint memset_loop (k : nat) (m : mem) (cdst c i : Z) : mem :=
  match k with
  | O => m
  | S k => memset_loop k (wr m (cdst + i) (uchar c)) cdst c (i + 1)
  end.
Definition memset (m : mem) (dst c n : Z) : mem := memset_loop (Z.to_nat n) m dst c 0.

(** The two loops are those of the kernel's [memmove]; the test is not. *)
Definition memmove (m : mem) (dst src n : Z) : mem :=
  if dst <? src then move_up (Z.to_nat n) m dst src else move_down (Z.to_nat n) m (dst + n) (src + n).

Fixpoint memcmp_loop (k : nat) (m : mem) (p1 p2 : Z) : Z :=
  match k with
  | O => 0
  | S k => if negb (rd m p1 =? rd m p2) then rd m p1 - rd m p2 else memcmp_loop k m (p1 + 1) (p2 + 1)
  end.
Definition memcmp (m : mem) (s1 s2 n : Z) : Z := memcmp_loop (Z.to_nat n) m s1 s2.
Definition memcpy (m : mem) (dst src n : Z) : mem := memmove m dst src n.

(** [gets]: [input] is what [read(0, &c, 1)] returns, byte by byte; the result is the buffer and the input left. *)
Fixpoint gets_loop (k : nat) (m : mem) (buf max i : Z) (input : list Z) : mem * Z * list Z :=
  match k with
  | O => (m, i, input)
  | S k =>
      if i + 1 <? max then
        match input with
        | [] => (m, i, [])
        | c :: input =>
            let m := wr m (buf + i) c in
            if (c =? 10) || (c =? 13) then (m, i + 1, input) else gets_loop k m buf max (i + 1) input
        end
      else (m, i, input)
  end.
Definition gets (m : mem) (buf max : Z) (input : list Z) : mem * list Z :=
  let '(m, i, input) := gets_loop (Z.to_nat max) m buf max 0 input in (wr m (buf + i) 0, input).

(** ** What they compute *)

(** The user's [memmove] and the kernel's, which choose the direction of the copy by different tests, leave the same memory. *)
Theorem memmove_agree (m : mem) (dst src n : Z) : 0 <= n -> forall a, rd (memmove m dst src n) a = rd (KString.memmove m dst src n) a.
Proof.
  intros Hn a. rewrite rd_memmove by done. unfold memmove. destruct (Z.ltb_spec dst src).
  - rewrite rd_move_up by lia. rewrite Z2Nat.id by done. done.
  - rewrite rd_move_down by lia. rewrite Z2Nat.id by done. replace (dst + n - n) with dst by lia. case_decide; [|done]. f_equal. lia.
Qed.
Lemma memmove_agree_witness : rd (memmove (wr_bytes ∅ 0 [97; 98; 99; 100]) 2 0 4) 3 = rd (KString.memmove (wr_bytes ∅ 0 [97; 98; 99; 100]) 2 0 4) 3.
Proof. apply (memmove_agree (wr_bytes ∅ 0 [97; 98; 99; 100]) 2 0 4); lia. Defined.

(** A string of [k] bytes at [p] *)
Definition string_at (m : mem) (p : Z) (l : list Z) : Prop :=
  rd_bytes m p (length l) = l /\ rd m (p + zlen l) = 0 /\ Forall (fun c => 0 < c < 256) l.

(** The first difference decides. *)
Fixpoint compare_strings (l1 l2 : list Z) : Z :=
  match l1, l2 with
  | c1 :: l1, c2 :: l2 => if c1 =? c2 then compare_strings l1 l2 else c1 - c2
  | _, _ => hd 0 l1 - hd 0 l2
  end.

Lemma string_at_cons m p c l : string_at m p (c :: l) <-> rd m p = c /\ 0 < c < 256 /\ string_at m (p + 1) l.
Proof.
  unfold string_at. assert (E : rd_bytes m p (length (c :: l)) = rd m p :: rd_bytes m (p + 1) (length l)).
  { unfold rd_bytes. simpl length. rewrite seqZ_cons by lia. rewrite fmap_cons. f_equal; [f_equal; lia|]. replace (Z.pred (Z.of_nat (S (length l)))) with (Z.of_nat (length l)) by lia.
    change (Z.succ 0) with (1 + 0). rewrite <- fmap_add_seqZ, <- list_fmap_compose. apply list_fmap_ext. intros i x _. simpl. f_equal. lia. }
  rewrite E, Forall_cons. replace (p + zlen (c :: l)) with (p + 1 + zlen l) by (unfold zlen; simpl; lia). split.
  - intros (H1 & H2 & H3 & H4). injection H1 as -> H1. done.
  - intros (-> & ? & H1 & H2 & H3). rewrite H1. done.
Qed.
Lemma string_at_nil m p : string_at m p [] <-> rd m p = 0.
Proof. unfold string_at, zlen. simpl. rewrite Z.add_0_r. split; [by intros (_ & ? & _)|]. intros. split_and!; [done|done|constructor]. Qed.

Lemma strcmp_ok m p q l1 l2 fuel : string_at m p l1 -> string_at m q l2 -> (length l1 < fuel)%nat -> strcmp fuel m p q = Some (compare_strings l1 l2).
Proof.
  revert p q l2 fuel. induction l1 as [|c1 l1 IH]; intros p q l2 [|fuel] H1 H2 Hf; simpl in Hf; try lia; cbn [strcmp compare_strings].
  - apply string_at_nil in H1. rewrite H1. simpl. destruct l2 as [|c2 l2]; [apply string_at_nil in H2; by rewrite H2|]. apply string_at_cons in H2 as (-> & Hc & _). simpl.
    rewrite (uchar_small c2) by lia. done.
  - apply string_at_cons in H1 as (-> & Hc1 & H1). rewrite (proj2 (Z.eqb_neq c1 0)) by lia. simpl. destruct l2 as [|c2 l2].
    + apply string_at_nil in H2. rewrite H2. rewrite (proj2 (Z.eqb_neq c1 0)) by lia. by rewrite (uchar_small c1) by lia.
    + apply string_at_cons in H2 as (-> & Hc2 & H2). destruct (Z.eqb_spec c1 c2) as [->|]; [apply IH; [done|done|lia]|]. by rewrite (uchar_small c1), (uchar_small c2) by lia.
Qed.
Lemma compare_zero l1 l2 : Forall (fun c => 0 < c < 256) l1 -> Forall (fun c => 0 < c < 256) l2 -> compare_strings l1 l2 = 0 <-> l1 = l2.
Proof.
  intros Hl1. revert l2. induction Hl1 as [|c1 l1 Hc1 _ IH]; intros l2 Hl2; destruct Hl2 as [|c2 l2 Hc2 Hl2]; simpl; try done.
  - split; [lia|done].
  - split; [lia|done].
  - destruct (Z.eqb_spec c1 c2) as [->|]; [rewrite (IH l2 Hl2); split; [by intros ->|by intros [= ->]]|]. split; [lia|intros [= -> _]; lia].
Qed.

(** [strcmp] returns; it gives the difference of the first bytes that differ, with the NUL below all others, and 0 exactly for equal strings. *)
Theorem strcmp_orders (m : mem) (p q : Z) (l1 l2 : list Z) (fuel : nat) : string_at m p l1 -> string_at m q l2 -> (length l1 < fuel)%nat ->
  strcmp fuel m p q = Some (compare_strings l1 l2) /\ (compare_strings l1 l2 = 0 <-> l1 = l2).
Proof. intros H1 H2 Hf. split; [by apply strcmp_ok|]. apply compare_zero; [apply H1|apply H2]. Qed.
Lemma strcmp_orders_witness : strcmp 3 (wr_bytes ∅ 0 [97; 98; 0; 97; 99; 0]) 0 3 = Some (compare_strings [97; 98] [97; 99]) /\ (compare_strings [97; 98] [97; 99] = 0 <-> [97; 98] = [97; 99]).
Proof. apply (strcmp_orders (wr_bytes ∅ 0 [97; 98; 0; 97; 99; 0]) 0 3 [97; 98] [97; 99] 3); [split; [reflexivity|split; [reflexivity|repeat constructor]]..|simpl; lia]. Defined.

(** ** [gets] *)

(** The bytes up to a newline or carriage return, at most [k] *)
Fixpoint take_line (k : nat) (input : list Z) : list Z * list Z :=
  match k, input with
  | S k, c :: input => if (c =? 10) || (c =? 13) then ([c], input) else let '(l, r) := take_line k input in (c :: l, r)
  | _, _ => ([], input)
  end.

Lemma take_line_app k input : fst (take_line k input) ++ snd (take_line k input) = input /\ (length (fst (take_line k input)) <= k)%nat.
Proof.
  revert input. induction k as [|k IH]; intros [|c input]; cbn [take_line]; try done; [split; simpl; [done|lia]|]. destruct (_ || _); [split; simpl; [done|lia]|].
  specialize (IH input). destruct (take_line k input) as [l r]. simpl in *. destruct IH as [-> ?]. split; [done|lia].
Qed.
Lemma gets_loop_ok k m buf max i input : 0 <= i -> max - i <= Z.of_nat k ->
  gets_loop k m buf max i input = (wr_bytes m (buf + i) (fst (take_line (Z.to_nat (max - 1 - i)) input)), i + zlen (fst (take_line (Z.to_nat (max - 1 - i)) input)), snd (take_line (Z.to_nat (max - 1 - i)) input)).
Proof.
  revert m i input. induction k as [|k IH]; intros m i input Hi Hk; cbn [gets_loop].
  - replace (Z.to_nat (max - 1 - i)) with O by lia. simpl. unfold zlen. simpl. by rewrite Z.add_0_r.
  - destruct (Z.ltb_spec (i + 1) max).
    + replace (Z.to_nat (max - 1 - i)) with (S (Z.to_nat (max - 1 - (i + 1)))) by lia. destruct input as [|c input]; cbn [take_line]; [unfold zlen; simpl; by rewrite Z.add_0_r|].
      destruct (_ || _); [unfold zlen; simpl; done|]. rewrite IH by lia. destruct (take_line _ input) as [l r]. simpl. rewrite Z.add_assoc. f_equal. f_equal. unfold zlen. simpl. lia.
    + replace (Z.to_nat (max - 1 - i)) with O by lia. simpl. unfold zlen. simpl. by rewrite Z.add_0_r.
Qed.
Lemma wr_bytes_snoc m a l c : wr (wr_bytes m a l) (a + zlen l) c = wr_bytes m a (l ++ [c]).
Proof.
  revert m a. induction l as [|x l IH]; intros m a; [unfold zlen; simpl; by rewrite Z.add_0_r|]. cbn [app wr_bytes]. rewrite <- IH. f_equal. unfold zlen. simpl. lia.
Qed.

(** [gets] stores a line of the input with its newline, or what fits in [max - 1] bytes, or all there is, ends it with a NUL within the buffer,
    writes nothing else, and takes from the input exactly what it stored. *)
Theorem gets_takes_line (m : mem) (buf max : Z) (input : list Z) : 1 <= max ->
  let '(line, rest) := take_line (Z.to_nat (max - 1)) input in
  gets m buf max input = (wr_bytes m buf (line ++ [0]), rest) /\ line ++ rest = input /\ zlen (line ++ [0]) <= max.
Proof.
  intros Hmax. unfold gets. rewrite (gets_loop_ok _ m buf max 0 input) by lia. rewrite Z.sub_0_r. pose proof (take_line_app (Z.to_nat (max - 1)) input) as [H1 H2].
  destruct (take_line _ input) as [line rest]. simpl in *. rewrite !Z.add_0_r. rewrite wr_bytes_snoc. split_and!; [done|done|]. rewrite zlen_app. unfold zlen in *. simpl. lia.
Qed.
Lemma gets_takes_line_witness : let '(line, rest) := take_line (Z.to_nat (8 - 1)) [104; 105; 10; 120] in
  gets ∅ 100 8 [104; 105; 10; 120] = (wr_bytes ∅ 100 (line ++ [0]), rest) /\ line ++ rest = [104; 105; 10; 120] /\ zlen (line ++ [0]) <= 8.
Proof. apply (gets_takes_line ∅ 100 8 [104; 105; 10; 120]). lia. Defined.
