(* ===== verification/Kernel.v ===== *)
(** * System calls and traps

    The whole kernel: [src/kernel/syscall.c], [src/kernel/sysproc.c],
    [src/kernel/trap.c] and [src/kernel/plic.c] over the process table, the file
    system, the console and the registers of the harts.  A call runs up to the
    point where its thread gives up the CPU: [Waits] stands for a thread that
    sleeps in the call and goes on in it later, [Yields] for one that has given up
    the CPU and is about to return to user space, [Exited] for one that is gone.
    The file calls see the running process as the [kst] of [File].  The
    interrupt controller is a device of 32-bit registers, given by how they are
    read and written, and [disk_intr] is the driver's handler behind [BufCache]. *)

From stdpp Require Import base numbers list list_numbers gmap strings.
From Stdlib Require Import ZArith Lia Ascii.
From S2P Require Import Prelude Params KString Path Sleeplock Virtio Bio Kmem Ring Uart Console Fsys Blocks Dinode Vfs Dirs Pipe File Sysfile Kalloc Vm KmemVm FsDemo ConsoleProof Exec Proc ProcSpec Printf Kprintf.

(** The supervisor registers of a hart *)
Record hart := mk_hart { sstatus : Z; scause : Z; sepc : Z; stval : Z; stvec : Z; sip : Z; satp : Z; tp : Z }.
Definition set_sstatus v r := mk_hart v (scause r) (sepc r) (stval r) (stvec r) (sip r) (satp r) (tp r).
Definition set_sepc v r := mk_hart (sstatus r) (scause r) v (stval r) (stvec r) (sip r) (satp r) (tp r).
Definition set_stvec v r := mk_hart (sstatus r) (scause r) (sepc r) (stval r) v (sip r) (satp r) (tp r).
Definition set_sip v r := mk_hart (sstatus r) (scause r) (sepc r) (stval r) (stvec r) v (satp r) (tp r).
#[export] Instance hart_inhabited : Inhabited hart := populate (mk_hart 0 0 0 0 0 0 0 0).

Definition SSTATUS_SPP : Z := Z.shiftl 1 8.
Definition SSTATUS_SPIE : Z := Z.shiftl 1 5.
Definition SSTATUS_SIE : Z := Z.shiftl 1 1.
Definition SATP_SV39 : Z := Z.shiftl 8 60.
Definition MAKE_SATP (pagetable : Z) : Z := Z.lor SATP_SV39 (Z.shiftr pagetable 12).
(** [x & ~m] on 64 bits *)
Definition clear_bits (x m : Z) : Z := Z.land x (Z.lxor (2 ^ 64 - 1) m).

Definition UART0_IRQ : Z := 10.
Definition VIRTIO0_IRQ : Z := 1.
Definition PLIC_SENABLE (hart : Z) : Z := PLIC + 0x2080 + hart * 0x100.
Definition PLIC_SPRIORITY (hart : Z) : Z := PLIC + 0x201000 + hart * 0x2000.
Definition PLIC_SCLAIM (hart : Z) : Z := PLIC + 0x201004 + hart * 0x2000.
Class PlicDev (X : Type) : Type := { plic_read : Z -> X -> Z * X; plic_write : Z -> Z -> X -> X }.

(** System call numbers *)
Definition SYS_fork : Z := 1.
Definition SYS_exit : Z := 2.
Definition SYS_wait : Z := 3.
Definition SYS_pipe : Z := 4.
Definition SYS_read : Z := 5.
Definition SYS_kill : Z := 6.
Definition SYS_exec : Z := 7.
Definition SYS_fstat : Z := 8.
Definition SYS_chdir : Z := 9.
Definition SYS_dup : Z := 10.
Definition SYS_getpid : Z := 11.
Definition SYS_sbrk : Z := 12.
Definition SYS_sleep : Z := 13.
Definition SYS_uptime : Z := 14.
Definition SYS_open : Z := 15.
Definition SYS_write : Z := 16.
Definition SYS_mknod : Z := 17.
Definition SYS_unlink : Z := 18.
Definition SYS_link : Z := 19.
Definition SYS_mkdir : Z := 20.
Definition SYS_close : Z := 21.

(** More words of [struct trapframe] *)
Definition TF_kernel_satp : Z := 0 / 8.
Definition TF_kernel_sp : Z := 8 / 8.
Definition TF_kernel_trap : Z := 16 / 8.
Definition TF_kernel_hartid : Z := 32 / 8.

(** The bytes of a string constant *)
Fixpoint bytes_of (s : string) : list Z :=
  match s with EmptyString => [] | String a s => Z.of_N (N_of_ascii a) :: bytes_of s end.

Record kernel (B U X : Type) := mk_kernel {
  kp : psys (fsys B kmem);
  kcons : console U;
  kplic : X;
  ticks : Z;
  harts : list hart;
}.
Arguments mk_kernel {B U X}.
Arguments kp {B U X}.
Arguments kcons {B U X}.
Arguments kplic {B U X}.
Arguments ticks {B U X}.
Arguments harts {B U X}.

(** What a call comes to *)
Inductive sysret := Done (r : Z) | Waits | Exited.
Inductive trapret := Resumes (satp : Z) | TWaits | Yields | TExited.

Section Kernel.
Context {B U X : Type} `{BC : BufCache B} `{UD : UartDev U} `{PD : PlicDev X}.
Abbreviation S := (kernel B U X).
Abbreviation G := (fsys B kmem).
(** Addresses of the code: the trampoline, [uservec] and [userret] in it, [forkret], [kernelvec] and [usertrap]; the address of [ticks]. *)
Context (trampoline uservec userret forkret_addr kernelvec usertrap_addr ticks_addr : Z).
(** How often [uartputc_sync] may find the transmitter busy; the bound on one UART interrupt; the padding of [struct stat];
    [procdump], which only prints. *)
Context (spin rounds : nat) (pad : list Z) (disk_intr : K B unit) (procdump : K (console U) unit).

Definition set_kp p (s : S) : S := mk_kernel p (kcons s) (kplic s) (ticks s) (harts s).
Definition set_kcons c (s : S) : S := mk_kernel (kp s) c (kplic s) (ticks s) (harts s).
Definition set_kplic x (s : S) : S := mk_kernel (kp s) (kcons s) x (ticks s) (harts s).
Definition set_ticks t (s : S) : S := mk_kernel (kp s) (kcons s) (kplic s) t (harts s).
Definition set_harts f (s : S) : S := mk_kernel (kp s) (kcons s) (kplic s) (ticks s) (f (harts s)).
Definition on_kp {A} (m : K (psys G) A) : K S A := zoom kp set_kp m.
Definition on_kcons {A} (m : K (console U) A) : K S A := zoom kcons set_kcons m.

(** ** Registers *)

Definition r_hart {A} (h : Z) (f : hart -> A) : K S A := gets (fun s => f (harts s !!! Z.to_nat h)).
Definition w_hart (h : Z) (f : hart -> hart) : K S unit := modify (set_harts (alter f (Z.to_nat h))).
Definition intr_on (h : Z) : K S unit := w_hart h (fun r => set_sstatus (Z.lor (sstatus r) SSTATUS_SIE) r).
Definition intr_off (h : Z) : K S unit := w_hart h (fun r => set_sstatus (clear_bits (sstatus r) SSTATUS_SIE) r).
Definition intr_get (h : Z) : K S bool := r_hart h (fun r => negb (Z.land (sstatus r) SSTATUS_SIE =? 0)).

(** ** The interrupt controller *)

Definition plic_store (a v : Z) : K S unit := modify (fun s => set_kplic (plic_write a (uint v) (kplic s)) s).
Definition plic_load (a : Z) : K S Z := s ← get; let '(v, x) := plic_read a (kplic s) in modify (set_kplic x);; mret v.
(** [h] stands for [cpuid()], the hart that runs the function. *)
Definition plicinit : K S unit := plic_store (PLIC + UART0_IRQ * 4) 1;; plic_store (PLIC + VIRTIO0_IRQ * 4) 1.
Definition plicinithart (h : Z) : K S unit :=
  plic_store (PLIC_SENABLE h) (Z.lor (Z.shiftl 1 UART0_IRQ) (Z.shiftl 1 VIRTIO0_IRQ));; plic_store (PLIC_SPRIORITY h) 0.
Definition plic_claim (h : Z) : K S Z := irq ← plic_load (PLIC_SCLAIM h); mret (int irq).
Definition plic_complete (h irq : Z) : K S unit := plic_store (PLIC_SCLAIM h) irq.

(** ** The running process as the file calls see it *)

Definition view (s : S) (i : Z) : kst B kmem U :=
  let p := getp (kp s) i in
  let g := fsg (kp s) in
  mk_kst (mk_fsys (bc g) (mk_kmem (phys (mm g)) (pagetable p) (kstk (mm g))) (sb g) (itable g) (dtable g) (heap g) (ftable g) (p_cwd p) (p_ofile p) (pid p))
    (kcons s) (tf p) (sz p) (name p) (negb (p_killed p =? 0)).
Definition unview (s : S) (i : Z) (k : kst B kmem U) : S :=
  let put p := set_tf (k_tf k) (set_sz (k_sz k) (set_name (k_name k) (set_pagetable (upt (mm (k_fs k))) (set_p_cwd (cwd (k_fs k)) (set_p_ofile (ofile (k_fs k)) p))))) in
  set_kcons (k_cons k) (set_kp (set_fsg (k_fs k) (set_procs (alter put (Z.to_nat i)) (kp s))) s).
Definition on_call {A} (i : Z) (m : K (kst B kmem U) A) : K S A := fun s =>
  res_bind (m (view s i)) (fun '(a, k) => Ok (a, unview s i k)).
Definition cur (h : Z) : K S Z := on_kp (myproc h).

(** ** [src/kernel/sysproc.c] *)

Definition sys_exit (h : Z) : K S sysret := i ← cur h; n ← on_call i (argint 0); on_kp (exit h n);; mret Exited.
Definition sys_getpid (h : Z) : K S sysret := i ← cur h; gets (fun s => Done (pid (getp (kp s) i))).
Definition sys_fork (h : Z) : K S sysret := r ← on_kp (fork trampoline forkret_addr h); mret (Done r).
Definition sys_wait (h : Z) : K S sysret :=
  i ← cur h;
  p ← on_call i (argaddr 0);
  r ← on_kp (wait h p);
  mret (match r with Sleeps => Waits | Returns r => Done r end).
Definition sys_sbrk (h : Z) : K S sysret :=
  i ← cur h;
  n ← on_call i (argint 0);
  addr ← gets (fun s => sz (getp (kp s) i));
  r ← on_kp (growproc_on h n);
  if r <? 0 then mret (Done (-1)) else mret (Done addr).
(** A round of the loop of [sys_sleep]; the thread that wakes up makes another. *)
Definition sleep_round (h ticks0 n : Z) : K S sysret :=
  t ← gets ticks;
  if uint (t - ticks0) <? uint n then
    i ← cur h;
    k ← on_kp (killed i);
    if negb (k =? 0) then mret (Done (-1))
    else on_kp (sleep h (CAddr ticks_addr));; mret Waits
  else mret (Done 0).
Definition sys_sleep (h : Z) : K S sysret :=
  i ← cur h;
  n ← on_call i (argint 0);
  ticks0 ← gets ticks;
  sleep_round h ticks0 n.
Definition sleep_again (h ticks0 n : Z) : K S sysret := on_kp (wake_up h);; sleep_round h ticks0 n.
Definition sys_kill (h : Z) : K S sysret := i ← cur h; pid ← on_call i (argint 0); r ← on_kp (kill pid); mret (Done r).
Definition sys_uptime (h : Z) : K S sysret := t ← gets ticks; mret (Done t).

(** ** [syscall()] *)

(** A handler of [sysfile.c] *)
Definition file_call (h : Z) (m : K (kst B kmem U) Z) : K S sysret := i ← cur h; r ← on_call i m; mret (Done r).
Definition exec_call (h : Z) : K S sysret :=
  i ← cur h; t ← gets (fun s => trapframe (getp (kp s) i)); r ← on_call i (sys_exec trampoline t); mret (Done r).

(** [syscalls[]]; an entry that is not set is a null pointer. *)
Definition syscalls (num h : Z) : option (K S sysret) :=
  if num =? SYS_fork then Some (sys_fork h)
  else if num =? SYS_exit then Some (sys_exit h)
  else if num =? SYS_wait then Some (sys_wait h)
  else if num =? SYS_pipe then Some (file_call h sys_pipe)
  else if num =? SYS_read then Some (file_call h sys_read)
  else if num =? SYS_kill then Some (sys_kill h)
  else if num =? SYS_exec then Some (exec_call h)
  else if num =? SYS_fstat then Some (file_call h (sys_fstat pad))
  else if num =? SYS_chdir then Some (file_call h sys_chdir)
  else if num =? SYS_dup then Some (file_call h sys_dup)
  else if num =? SYS_getpid then Some (sys_getpid h)
  else if num =? SYS_sbrk then Some (sys_sbrk h)
  else if num =? SYS_sleep then Some (sys_sleep h)
  else if num =? SYS_uptime then Some (sys_uptime h)
  else if num =? SYS_open then Some (file_call h sys_open)
  else if num =? SYS_write then Some (file_call h sys_write)
  else if num =? SYS_mknod then Some (file_call h sys_mknod)
  else if num =? SYS_unlink then Some (file_call h sys_unlink)
  else if num =? SYS_link then Some (file_call h sys_link)
  else if num =? SYS_mkdir then Some (file_call h sys_mkdir)
  else if num =? SYS_close then Some (file_call h sys_close)
  else None.

Definition set_word (i w v : Z) : K S unit := on_kp (updp i (fun p => set_tf (zupd (tf p) w (uint64 v)) p)).

Definition syscall (h : Z) : K S sysret :=
  i ← cur h;
  p ← gets (fun s => getp (kp s) i);
  let num := int (znth (tf p) (TF_a 7)) in
  match (if 0 <? num then syscalls num h else None) with
  | Some f =>
      r ← f;
      match r with Done v => set_word i (TF_a 0) v | _ => mret tt end;;
      mret r
  | None =>
      on_kcons (kprintf spin (bytes_of "%d %s: unknown sys call %d" ++ [10]) [AInt (pid p); AStr (Some (cstring (name p))); AInt num]);;
      set_word i (TF_a 0) (-1);;
      mret (Done (-1))
  end.

(** ** [src/kernel/trap.c] *)

Definition trapinithart (h : Z) : K S unit := w_hart h (set_stvec kernelvec).

Definition clockintr (h : Z) : K S unit := modify (fun s => set_ticks (uint (ticks s + 1)) s);; on_kp (wakeup h (Some (CAddr ticks_addr))).

Definition on_disk (m : K B unit) : K S unit := on_kp (on_g (zoom bc (fun b g => set_bc b g) m)).

(** 2 for the timer, 1 for another device, 0 for what it does not know *)
Definition devintr (h : Z) : K S Z :=
  cause ← r_hart h scause;
  if negb (Z.land cause (2 ^ 63) =? 0) && (Z.land cause 0xff =? 9) then
    irq ← plic_claim h;
    (if irq =? UART0_IRQ then on_kcons (uartintr spin procdump rounds)
     else if irq =? VIRTIO0_IRQ then on_disk disk_intr
     else if negb (irq =? 0) then on_kcons (kprintf spin (bytes_of "unexpected interrupt irq=%d" ++ [10]) [AInt irq])
     else mret tt);;
    (if negb (irq =? 0) then plic_complete h irq else mret tt);;
    mret 1
  else if cause =? 2 ^ 63 + 1 then
    (if h =? 0 then clockintr h else mret tt);;
    w_hart h (fun r => set_sip (clear_bits (sip r) 2) r);;
    mret 2
  else mret 0.

(** The value that is handed to [userret]: the page table to switch to *)
Definition usertrapret (h : Z) : K S Z :=
  i ← cur h;
  intr_off h;;
  w_hart h (set_stvec (uint64 (TRAMPOLINE + (uservec - trampoline))));;
  r ← r_hart h id;
  p ← gets (fun s => getp (kp s) i);
  set_word i TF_kernel_satp (satp r);;
  set_word i TF_kernel_sp (kstack p + PGSIZE);;
  set_word i TF_kernel_trap usertrap_addr;;
  set_word i TF_kernel_hartid (tp r);;
  w_hart h (fun r => set_sstatus (Z.lor (clear_bits (sstatus r) SSTATUS_SPP) SSTATUS_SPIE) r);;
  p ← gets (fun s => getp (kp s) i);
  w_hart h (set_sepc (znth (tf p) TF_epc));;
  mret (MAKE_SATP (pagetable p)).

(** From the second [if(killed(p))] on *)
Definition usertrap_end (h i which_dev : Z) : K S trapret :=
  k ← on_kp (killed i);
  if negb (k =? 0) then on_kp (exit h (-1));; mret TExited
  else if which_dev =? 2 then on_kp (yield h);; mret Yields
  else t ← usertrapret h; mret (Resumes t).

Definition usertrap (h : Z) : K S trapret :=
  r ← r_hart h id;
  if negb (Z.land (sstatus r) SSTATUS_SPP =? 0) then panic "usertrap: not from user mode"
  else
    w_hart h (set_stvec kernelvec);;
    i ← cur h;
    set_word i TF_epc (sepc r);;
    if scause r =? 8 then
      k ← on_kp (killed i);
      if negb (k =? 0) then on_kp (exit h (-1));; mret TExited
      else
        set_word i TF_epc (sepc r + 4);;
        intr_on h;;
        c ← syscall h;
        match c with Done _ => usertrap_end h i 0 | Waits => mret TWaits | Exited => mret TExited end
    else
      d ← devintr h;
      (if negb (d =? 0) then mret tt
       else
         p ← gets (fun s => getp (kp s) i);
         on_kcons (kprintf spin (bytes_of "usertrap(): unexpected scause %p pid=%d" ++ [10]) [ALong (scause r); AInt (pid p)]);;
         on_kcons (kprintf spin (bytes_of "            sepc=%p stval=%p" ++ [10]) [ALong (sepc r); ALong (stval r)]);;
         on_kp (setkilled i));;
      usertrap_end h i d.

(** What the thread does when the scheduler comes back to it after [Yields]: the rest of [usertrap]. *)
Definition usertrap_resume (h : Z) : K S trapret := t ← usertrapret h; mret (Resumes t).

(** [true] when the interrupted code goes on at once; after a yield it goes on in [kerneltrap_end]. *)
Definition kerneltrap_end (h epc status : Z) : K S unit := w_hart h (set_sepc epc);; w_hart h (set_sstatus status).
Definition kerneltrap (h : Z) : K S bool :=
  r ← r_hart h id;
  if Z.land (sstatus r) SSTATUS_SPP =? 0 then panic "kerneltrap: not from supervisor mode"
  else
    on ← intr_get h;
    if (on : bool) then panic "kerneltrap: interrupts enabled"
    else
      d ← devintr h;
      if d =? 0 then
        on_kcons (kprintf spin (bytes_of "scause %p" ++ [10]) [ALong (scause r)]);;
        on_kcons (kprintf spin (bytes_of "sepc=%p stval=%p" ++ [10]) [ALong (sepc r); ALong (stval r)]);;
        panic "kerneltrap"
      else
        s ← get;
        match cpus (kp s) !!! Z.to_nat h with
        | Some i => if (d =? 2) && bool_decide (state (getp (kp s) i) = RUNNING) then on_kp (yield h);; mret false
                    else kerneltrap_end h (sepc r) (sstatus r);; mret true
        | None => kerneltrap_end h (sepc r) (sstatus r);; mret true
        end.
End Kernel.
