(* ===== verification/FsFrames.v ===== *)
(** * The file system leaves the page table of the process alone

    What a program leaves as it was ([frames], with the hint database [frames] and
    [solve_frames]), and for every function of the file system, of the pipes and of the
    console that the page table of the running process is among it. *)

From stdpp Require Import base numbers list list_numbers gmap strings.
From Stdlib Require Import ZArith Lia.
From S2P Require Import Prelude Params KString Path Sleeplock Bio Kmem Ring Uart Console Fsys Blocks Vfs Dirs Pipe File Sysfile Kalloc Vm KmemVm.

(** ** Parts of the state that a program leaves alone *)

Definition frames {S A T} (f : S -> T) (m : K S A) : Prop := forall s a s', m s = Ok (a, s') -> f s' = f s.

Section Frames.
Context {S T : Type} (f : S -> T).
Lemma frames_ret {A} (a : A) : frames f (mret a : K S A).
Proof. intros s a' s' [= _ <-]. done. Qed.
Lemma frames_bind {A B} (m : K S A) (k : A -> K S B) : frames f m -> (forall a, frames f (k a)) -> frames f (m ≫= k).
Proof. intros Hm Hk s b s' (a & s1 & H1 & H2)%bind_inv. rewrite (Hk a s1 b s' H2). by apply (Hm s a). Qed.
Lemma frames_get : frames f get.
Proof. intros s a s' [= _ <-]. done. Qed.
Lemma frames_gets {A} (g : S -> A) : frames f (gets g).
Proof. intros s a s' [= _ <-]. done. Qed.
Lemma frames_modify (g : S -> S) : (forall s, f (g s) = f s) -> frames f (modify g).
Proof. intros H s a s' [= _ <-]. apply H. Qed.
Lemma frames_panic {A} msg : frames f (panic msg : K S A).
Proof. by intros s a s'. Qed.
Lemma frames_fault {A} msg : frames f (fault msg : K S A).
Proof. by intros s a s'. Qed.
Lemma frames_zoom {A R} (g : S -> R) (p : R -> S -> S) (m : K R A) : (forall x s, f (p x s) = f s) -> frames f (zoom g p m).
Proof. intros H s a s' (x & _ & ->)%zoom_inv. apply H. Qed.
Lemma frames_blocked {A} msg : frames f (blocked msg : K S A).
Proof. by intros s a s'. Qed.
Lemma frames_fuel {A} : frames f (out_of_fuel : K S A).
Proof. by intros s a s'. Qed.
Lemma frames_zoom_in {A R} (g : S -> R) (p : R -> S -> S) (h : R -> T) (m : K R A) :
  (forall s, f s = h (g s)) -> (forall x s, f (p x s) = h x) -> frames h m -> frames f (zoom g p m).
Proof. intros Hg Hp Hm s a s' (x & Hx & ->)%zoom_inv. rewrite Hp, Hg. by apply (Hm _ a). Qed.
End Frames.

Create HintDb frames.
#[export] Hint Resolve frames_ret frames_get frames_gets frames_panic frames_fault frames_blocked frames_fuel : frames.
(** A program that is an application of a function is unfolded. *)
Ltac head_of m := lazymatch m with ?f _ => head_of f | _ => m end.
Ltac frames_unfold := lazymatch goal with |- frames _ ?m => let c := head_of m in unfold c end.
Ltac solve_frames := repeat first
  [ solve [eauto with frames]
  | apply frames_bind; [|intros ?]
  | match goal with |- frames _ (let _ := _ in _) => cbv zeta end
  | case_match
  | frames_unfold ].

#[export] Hint Extern 3 (frames _ (zoom _ _ _)) => apply frames_zoom; intros; reflexivity : frames.
#[export] Hint Extern 3 (frames _ (modify _)) => apply frames_modify; intros; reflexivity : frames.

(** ** Memory *)

Abbreviation keeps_root := (frames upt).

Lemma on_phys_pt {A} (m : K mem A) : keeps_root (on_phys m).
Proof. by apply frames_zoom. Qed.
#[export] Hint Resolve on_phys_pt : frames.
Lemma km_pt : keeps_root km_kalloc /\ (forall p, keeps_root (km_kfree p)) /\ (forall u a l, keeps_root (km_out u a l)) /\
  (forall u a n, keeps_root (km_in u a n)) /\ (forall a n, keeps_root (km_str a n)).
Proof.
  cbn [km_kalloc km_kfree km_out km_in km_str kmem_ops]. unfold either_copyout, either_copyin. split_and!; intros; solve_frames.
  intros k x k' H. by apply (on_phys_pt (copyinstr (upt k) a n) k x).
Qed.

Section Fs.
Context {B : Type} `{BC : BufCache B}.
Abbreviation F := (fsys B kmem).
Abbreviation keeps_pt := (frames (fun s : F => upt (mm s))).

Lemma on_bc_pt {A} (m : K B A) : keeps_pt (on_bc m).
Proof using Type. by apply frames_zoom. Qed.
Lemma on_mm_pt {A} (m : K kmem A) : keeps_root m -> keeps_pt (on_mm m).
Proof using Type. intros Hm. by apply (frames_zoom_in _ _ _ upt). Qed.
Lemma km_fs_pt : keeps_pt (on_mm km_kalloc) /\ (forall p, keeps_pt (on_mm (km_kfree p))) /\ (forall u a l, keeps_pt (on_mm (km_out u a l))) /\
  (forall u a n, keeps_pt (on_mm (km_in u a n))) /\ (forall a n, keeps_pt (on_mm (km_str a n))).
Proof using Type. destruct km_pt as (? & ? & ? & ? & ?). split_and!; intros; by apply on_mm_pt. Qed.
Hint Resolve on_bc_pt : frames.
Hint Extern 1 (frames _ (on_mm _)) => apply km_fs_pt : frames.

Lemma balloc_loop_pt fuel dev b : keeps_pt (balloc_loop fuel dev b).
Proof using Type. revert dev b. induction fuel as [|fuel IH]; intros; cbn [balloc_loop]; solve_frames. Qed.
Hint Resolve balloc_loop_pt : frames.
Lemma balloc_pt dev : keeps_pt (balloc dev).
Proof using Type. solve_frames. Qed.
Hint Resolve balloc_pt : frames.
Lemma bmap_pt p bn : keeps_pt (bmap p bn).
Proof using Type. solve_frames. Qed.
Hint Resolve bmap_pt : frames.
Lemma xv6fs_iupdate_pt ino : keeps_pt (xv6fs_iupdate ino).
Proof using Type. solve_frames. Qed.
Hint Resolve xv6fs_iupdate_pt : frames.
Lemma itrunc_direct_pt k dv p i : keeps_pt (itrunc_direct k dv p i).
Proof using Type. revert dv p i. induction k as [|k IH]; intros; cbn [itrunc_direct]; solve_frames. Qed.
Hint Resolve itrunc_direct_pt : frames.
Lemma itrunc_indirect_pt k dv bp j : keeps_pt (itrunc_indirect k dv bp j).
Proof using Type. revert dv bp j. induction k as [|k IH]; intros; cbn [itrunc_indirect]; solve_frames. Qed.
Hint Resolve itrunc_indirect_pt : frames.
Lemma xv6fs_itrunc_pt ino : keeps_pt (xv6fs_itrunc ino).
Proof using Type. solve_frames. Qed.
Hint Resolve xv6fs_itrunc_pt : frames.
Lemma readi_loop_pt fuel ino user dst off n tot : keeps_pt (readi_loop fuel ino user dst off n tot).
Proof using Type. revert ino user dst off n tot. induction fuel as [|fuel IH]; intros; cbn [readi_loop]; solve_frames. Qed.
Hint Resolve readi_loop_pt : frames.
Lemma xv6fs_readi_pt ino user dst off n : keeps_pt (xv6fs_readi ino user dst off n).
Proof using Type. solve_frames. Qed.
Hint Resolve xv6fs_readi_pt : frames.
Lemma writei_loop_pt fuel ino user src off n tot : keeps_pt (writei_loop fuel ino user src off n tot).
Proof using Type. revert ino user src off n tot. induction fuel as [|fuel IH]; intros; cbn [writei_loop]; solve_frames. Qed.
Hint Resolve writei_loop_pt : frames.
Lemma xv6fs_writei_pt ino user src off n : keeps_pt (xv6fs_writei ino user src off n).
Proof using Type. solve_frames. Qed.
Hint Resolve xv6fs_writei_pt : frames.
Lemma xv6fs_geti_pt dv num inc_ref : keeps_pt (xv6fs_geti dv num inc_ref).
Proof using Type. solve_frames. Qed.
Hint Resolve xv6fs_geti_pt : frames.
Lemma ilock_pt ip : keeps_pt (ilock ip).
Proof using Type. solve_frames. Qed.
Hint Resolve ilock_pt : frames.
Lemma iunlock_pt ip : keeps_pt (iunlock ip).
Proof using Type. solve_frames. Qed.
Hint Resolve iunlock_pt : frames.
Lemma iput_pt ino : keeps_pt (iput ino).
Proof using Type. solve_frames. Qed.
Hint Resolve iput_pt : frames.
Lemma ialloc_loop_pt fuel num : keeps_pt (ialloc_loop fuel num).
Proof using Type. revert num. induction fuel as [|fuel IH]; intros; cbn [ialloc_loop]; solve_frames. Qed.
Hint Resolve ialloc_loop_pt : frames.
Lemma dirlookup_loop_pt fuel dp name off : keeps_pt (dirlookup_loop fuel dp name off).
Proof using Type. revert dp name off. induction fuel as [|fuel IH]; intros; cbn [dirlookup_loop]; solve_frames. Qed.
Hint Resolve dirlookup_loop_pt : frames.
Lemma xv6fs_dirlookup_pt dp name : keeps_pt (xv6fs_dirlookup dp name).
Proof using Type. solve_frames. Qed.
Hint Resolve xv6fs_dirlookup_pt : frames.
Lemma link_scan_pt fuel dp off : keeps_pt (link_scan fuel dp off).
Proof using Type. revert dp off. induction fuel as [|fuel IH]; intros; cbn [link_scan]; solve_frames. Qed.
Hint Resolve link_scan_pt : frames.
Lemma unlink_loop_pt fuel dp name off : keeps_pt (unlink_loop fuel dp name off).
Proof using Type. revert dp name off. induction fuel as [|fuel IH]; intros; cbn [unlink_loop]; solve_frames. Qed.
Hint Resolve unlink_loop_pt : frames.
Lemma xv6fs_create_pt target ty major minor : keeps_pt (xv6fs_create target ty major minor).
Proof using Type. solve_frames. Qed.
Hint Resolve xv6fs_create_pt : frames.
Lemma isdirempty_loop_pt fuel dir off : keeps_pt (isdirempty_loop fuel dir off).
Proof using Type. revert dir off. induction fuel as [|fuel IH]; intros; cbn [isdirempty_loop]; solve_frames. Qed.
Hint Resolve isdirempty_loop_pt : frames.
Lemma namex_loop_pt fuel parent path name ip : keeps_pt (namex_loop fuel parent path name ip).
Proof using Type. revert parent path name ip. induction fuel as [|fuel IH]; intros; cbn [namex_loop]; solve_frames. Qed.
Hint Resolve namex_loop_pt : frames.
Lemma namex_pt path parent name : keeps_pt (namex path parent name).
Proof using Type. solve_frames. Qed.
Hint Resolve namex_pt : frames.
Lemma fileclose_pt f : keeps_pt (fileclose f).
Proof using Type. solve_frames. Qed.
Hint Resolve fileclose_pt : frames.
Lemma filewrite_loop_pt fuel f ino addr n i : keeps_pt (filewrite_loop fuel f ino addr n i).
Proof using Type. revert f ino addr n i. induction fuel as [|fuel IH]; intros; cbn [filewrite_loop]; solve_frames. Qed.
Hint Resolve filewrite_loop_pt : frames.
Lemma create_pt path ty major minor : keeps_pt (create path ty major minor).
Proof using Type. solve_frames. Qed.
Hint Resolve create_pt : frames.
Lemma open_inode_pt ip omode : keeps_pt (open_inode ip omode).
Proof using Type. solve_frames. Qed.
Hint Resolve open_inode_pt : frames.

(** What a call of the file layer leaves alone: the saved registers and the page table. *)
Context {U : Type} `{UD : UartDev U}.
Abbreviation KS := (kst B kmem U).
Definition k_user (s : KS) : list Z * Z := (k_tf s, upt (mm (k_fs s))).
Abbreviation keeps_user := (frames k_user).

Lemma on_fs_user {A} (m : K F A) : keeps_pt m -> keeps_user (on_fs m).
Proof using Type. intros Hm s a s' (x & Hx & ->)%zoom_inv. unfold k_user. simpl. f_equal. by apply (Hm _ a). Qed.
Abbreviation keeps_mem := (frames (fun s : console U * kmem => upt s.2)).
Lemma on_console_user {A} (m : K (console U * kmem) A) : keeps_mem m -> keeps_user (on_console m).
Proof using Type. intros Hm s a s' (x & Hx & ->)%zoom_inv. unfold k_user. simpl. f_equal. exact (Hm _ a _ Hx). Qed.
Lemma on_mem_pt : (forall u a l, keeps_mem (on_mem (km_out u a l))) /\ (forall u a n, keeps_mem (on_mem (km_in u a n))).
Proof using Type. destruct km_pt as (_ & _ & ? & ? & _). split; intros; by apply (frames_zoom_in _ _ _ upt). Qed.
Hint Extern 1 (frames _ (on_mem _)) => apply on_mem_pt : frames.
Hint Extern 1 (frames _ (on_cons _)) => by apply frames_zoom : frames.
Lemma consolewrite_loop_pt fuel user src n i : keeps_mem (consolewrite_loop fuel user src n i).
Proof using Type. revert i. induction fuel as [|fuel IH]; intros; cbn [consolewrite_loop]; solve_frames. Qed.
Lemma consoleread_loop_pt killed fuel user dst target n : keeps_mem (consoleread_loop killed fuel user dst target n).
Proof using Type. revert dst n. induction fuel as [|fuel IH]; intros; cbn [consoleread_loop]; solve_frames. Qed.
Hint Resolve consolewrite_loop_pt consoleread_loop_pt : frames.
Hint Extern 1 (frames _ (on_fs _)) => apply on_fs_user; solve_frames : frames.
Hint Extern 1 (frames _ (on_console _)) => apply on_console_user; solve_frames : frames.

Lemma args_user n : keeps_user (argint n) /\ keeps_user (argaddr n).
Proof using Type. split; solve_frames. Qed.
Lemma sys_files_user pad :
  keeps_user sys_pipe /\ keeps_user sys_read /\ keeps_user (sys_fstat pad) /\ keeps_user sys_chdir /\ keeps_user sys_dup /\ keeps_user sys_open /\
  keeps_user sys_write /\ keeps_user sys_mknod /\ keeps_user sys_unlink /\ keeps_user sys_link /\ keeps_user sys_mkdir /\ keeps_user sys_close.
Proof using Type. split_and!; solve_frames. Qed.
End Fs.
