(* ===== verification/KernelProof.v ===== *)
(** * System calls keep the user's registers

    Every handler of [Kernel] but [exec] leaves the saved registers and the page
    table of the calling process alone, so that [syscall] changes [a0] and nothing else, and a
    trap returns to user space where the process was. *)

From stdpp Require Import base numbers list list_numbers gmap strings.
From Stdlib Require Import ZArith Lia.
From S2P Require Import Prelude Params KString Path Sleeplock Virtio Bio Kmem Ring Uart Console Fsys Blocks Dinode Vfs Dirs Pipe File Sysfile Kalloc Vm KmemVm FsDemo ConsoleProof Exec Proc ProcProof ProcSpec Printf Kprintf Kernel FsFrames.

(** ** The process calls *)

Section ProcCalls.
Context {G : Type} `{FR : FsRefs G}.
Abbreviation P := (psys G).
(** The saved registers and the page table of process [i], and the size of the table *)
Definition regs (i : Z) (s : P) : list Z * Z * nat := (tf (getp s i), pagetable (getp s i), length (procs s)).
Abbreviation spares i := (frames (regs i)).

Lemma on_g_regs {A} i (m : K G A) : spares i (on_g m).
Proof using Type. by apply frames_zoom. Qed.
Lemma on_pmem_regs {A} i (m : K mem A) : spares i (on_pmem m).
Proof using Type. unfold on_pmem. apply on_g_regs. Qed.
Lemma regs_alter i j f s : (Z.to_nat j = Z.to_nat i -> forall p, tf (f p) = tf p /\ pagetable (f p) = pagetable p) ->
  regs i (set_procs (alter f (Z.to_nat j)) s) = regs i s.
Proof using Type.
  intros Hf. unfold regs, getp. simpl. rewrite length_alter, !list_lookup_total_alt. f_equal.
  destruct (decide (Z.to_nat j = Z.to_nat i)) as [E|]; [|by rewrite list_lookup_alter_ne]. rewrite E, list_lookup_alter_eq.
  destruct (procs s !! Z.to_nat i) as [p|]; simpl; [|done]. by destruct (Hf E p) as [-> ->].
Qed.
Lemma updp_regs i j f : (forall p, tf (f p) = tf p /\ pagetable (f p) = pagetable p) -> spares i (updp j f).
Proof using Type. intros Hf. apply frames_modify. intros s. by apply regs_alter. Qed.
Lemma updp_other i j f : Z.to_nat j <> Z.to_nat i -> spares i (updp j f).
Proof using Type. intros Hne. apply frames_modify. intros s. by apply regs_alter. Qed.
Lemma set_cpus_regs i f : spares i (modify (set_cpus f)).
Proof using Type. by apply frames_modify. Qed.
Lemma myproc_regs i h : spares i (myproc h).
Proof using Type. unfold myproc. solve_frames. Qed.
Hint Resolve on_g_regs on_pmem_regs set_cpus_regs myproc_regs : frames.
Hint Extern 2 (frames _ (updp _ _)) => apply updp_regs; done : frames.

Hint Extern 3 (frames _ (updp _ _)) => apply updp_other; assumption : frames.
Lemma freeproc_regs i j : Z.to_nat j <> Z.to_nat i -> spares i (freeproc j).
Proof using Type. intros Hne. unfold freeproc. solve_frames. Qed.
Hint Resolve freeproc_regs : frames.
Lemma sleep_regs i h c : spares i (sleep h c).
Proof using Type. unfold sleep, sched. solve_frames. Qed.
Lemma wake_up_regs i h : spares i (wake_up h).
Proof using Type. unfold wake_up. solve_frames. Qed.
Lemma yield_regs i h : spares i (yield h).
Proof using Type. unfold yield, sched. solve_frames. Qed.
Lemma kill_regs i n : spares i (kill n).
Proof using Type. unfold kill. solve_frames. Qed.
Lemma growproc_regs i h n : spares i (growproc_on h n).
Proof using Type. unfold growproc_on. solve_frames. Qed.
Hint Resolve sleep_regs : frames.
(** The child that [wait] takes away is a zombie. *)
Lemma wait_regs i h addr s r s' : state (getp s i) <> ZOMBIE -> wait h addr s = Ok (r, s') -> regs i s' = regs i s.
Proof using Type.
  intros Hz. unfold wait. intros (j & s1 & Hj & H)%bind_inv. assert (s1 = s) as ->.
  { unfold myproc in Hj. rewrite bind_get in Hj. by destruct (cpus s !!! Z.to_nat h); [injection Hj as _ <-|]. }
  rewrite bind_get in H. pose proof (find_child_spec (procs s) j 0 false) as Hf. destruct (find_child _ _ _ _) as [[c|] b].
  - destruct Hf as (k & p & -> & Hk & _ & Hst). assert (Hne : Z.to_nat (0 + Z.of_nat k) <> Z.to_nat i).
    { intros E. apply Hz. unfold getp. rewrite list_lookup_total_alt, <- E. replace (Z.to_nat (0 + Z.of_nat k)) with k by lia. by rewrite Hk. }
    revert H. cbv zeta. set (m := _ ≫= _). assert (Hm : spares i m) by (unfold m; solve_frames). apply Hm.
  - revert H. set (m := if _ : bool then _ else _). assert (Hm : spares i m) by (unfold m; solve_frames). apply Hm.
Qed.
Lemma wakeup_regs i h c : spares i (wakeup h c).
Proof using Type.
  unfold wakeup. apply frames_bind; [apply frames_get|]. intros s0. apply frames_modify. intros s. unfold regs, getp. simpl. rewrite length_imap. f_equal.
  rewrite !list_lookup_total_alt, list_lookup_imap. destruct (procs s !! Z.to_nat i) as [p|]; [|done]. simpl. case_decide; [done|]. unfold wake. by case_decide.
Qed.
Lemma dup_files_regs i l : spares i (dup_files l).
Proof using Type. induction l as [|[f|] l IH]; cbn [dup_files]; solve_frames. Qed.
Lemma allocpid_regs i : spares i allocpid.
Proof using Type. unfold allocpid. apply frames_bind; [apply frames_get|]. intros s. apply frames_bind; [by apply frames_modify|]. intros ?. apply frames_ret. Qed.
Hint Resolve dup_files_regs allocpid_regs : frames.

(** A new process is an entry that was not in use. *)
Lemma allocproc_regs tr fr i s r s' : state (getp s i) <> UNUSED -> allocproc tr fr s = Ok (r, s') ->
  regs i s' = regs i s /\ (forall np, r = Some np -> Z.to_nat np <> Z.to_nat i).
Proof using Type.
  intros Hi. unfold allocproc. rewrite bind_get. pose proof (find_state_spec UNUSED (procs s) 0) as Hf. destruct (find_state UNUSED (procs s) 0) as [j|].
  - destruct Hf as (k & p & -> & Hk & Hst). assert (Hne : Z.to_nat (0 + Z.of_nat k) <> Z.to_nat i).
    { intros E. apply Hi. unfold getp. rewrite list_lookup_total_alt, <- E. replace (Z.to_nat (0 + Z.of_nat k)) with k by lia. by rewrite Hk. }
    intros H. split.
    + revert H. set (m := _ ≫= _). assert (Hm : spares i m) by (unfold m; solve_frames). apply Hm.
    + intros np ->. repeat (apply bind_inv in H as (? & ? & _ & H)). repeat (case_match; [repeat (apply bind_inv in H as (? & ? & _ & H)); done|]).
      repeat (apply bind_inv in H as (? & ? & _ & H)). repeat (case_match; [repeat (apply bind_inv in H as (? & ? & _ & H)); done|]).
      repeat (apply bind_inv in H as (? & ? & _ & H)). by injection H as <- _.
  - intros [= <- <-]. done.
Qed.

Lemma fork_regs tr fr i h s r s' : state (getp s i) <> UNUSED -> fork tr fr h s = Ok (r, s') -> regs i s' = regs i s.
Proof using Type.
  intros Hi H. unfold fork in H. apply bind_inv in H as (c & s1 & Hm & H). pose proof (myproc_regs i h _ _ _ Hm) as E1.
  assert (s1 = s) as -> by (unfold myproc in Hm; rewrite bind_get in Hm; by destruct (cpus s !!! Z.to_nat h); [injection Hm as _ <-|]).
  apply bind_inv in H as (np & s2 & Ha & H). destruct (allocproc_regs tr fr i s np s2 Hi Ha) as [E2 Hne]. rewrite <- E2.
  destruct np as [np|]; [|by injection H as _ <-]. specialize (Hne np eq_refl). revert H. set (m := _ ≫= _). assert (Hm' : spares i m); [|apply Hm'].
  unfold m. assert (Hu : forall f, spares i (updp np f)) by (intros f; by apply updp_other). solve_frames.
Qed.
End ProcCalls.

#[export] Hint Resolve on_g_regs on_pmem_regs set_cpus_regs myproc_regs freeproc_regs sleep_regs wake_up_regs yield_regs kill_regs growproc_regs wakeup_regs : frames.

(** ** The CPUs

    A call that comes back has not given up the CPU. *)

Section Seats.
Context {G : Type} `{FR : FsRefs G}.
Abbreviation P := (psys G).
Abbreviation seated := (frames (cpus : P -> list (option Z))).

Lemma on_g_cpus {A} (m : K G A) : seated (on_g m).
Proof using Type. by apply frames_zoom. Qed.
Lemma on_pmem_cpus {A} (m : K mem A) : seated (on_pmem m).
Proof using Type. apply on_g_cpus. Qed.
Lemma updp_cpus i f : seated (updp i f).
Proof using Type. by apply frames_modify. Qed.
Lemma myproc_cpus h : seated (myproc h).
Proof using Type. unfold myproc. solve_frames. Qed.
Lemma allocpid_cpus : seated allocpid.
Proof using Type. unfold allocpid. apply frames_bind; [apply frames_get|]. intros s. apply frames_bind; [by apply frames_modify|]. intros ?. apply frames_ret. Qed.
Hint Resolve on_g_cpus on_pmem_cpus updp_cpus myproc_cpus allocpid_cpus : frames.
Lemma freeproc_cpus i : seated (freeproc i).
Proof using Type. unfold freeproc. solve_frames. Qed.
Hint Resolve freeproc_cpus : frames.
Lemma allocproc_cpus tr fr : seated (allocproc tr fr).
Proof using Type. unfold allocproc. solve_frames. Qed.
Lemma dup_files_cpus l : seated (dup_files l).
Proof using Type. induction l as [|[f|] l IH]; cbn [dup_files]; solve_frames. Qed.
Hint Resolve allocproc_cpus dup_files_cpus : frames.
Lemma fork_cpus tr fr h : seated (fork tr fr h).
Proof using Type. unfold fork. solve_frames. Qed.
Lemma kill_cpus n : seated (kill n).
Proof using Type. unfold kill. solve_frames. Qed.
Lemma growproc_cpus h n : seated (growproc_on h n).
Proof using Type. unfold growproc_on. solve_frames. Qed.
Lemma wakeup_cpus h c : seated (wakeup h c).
Proof using Type. unfold wakeup. apply frames_bind; [apply frames_get|]. intros s. by apply frames_modify. Qed.
Lemma setkilled_cpus i : seated (setkilled i).
Proof using Type. apply updp_cpus. Qed.
Lemma killed_cpus i : seated (killed i).
Proof using Type. apply frames_gets. Qed.
Lemma wait_cpus h addr s v s' : wait h addr s = Ok (Returns v, s') -> cpus s' = cpus s.
Proof using Type.
  unfold wait. intros (i & s1 & Hi & H)%bind_inv. rewrite <- (myproc_cpus h _ _ _ Hi). rewrite bind_get in H. destruct (find_child _ _ _ _) as [[j|] b].
  - revert H. set (m := _ ≫= _). assert (Hm : seated m) by (unfold m; solve_frames). apply Hm.
  - destruct (_ || _); [by injection H as _ <-|]. by apply bind_inv in H as (? & ? & _ & ?).
Qed.
End Seats.
#[export] Hint Resolve on_g_cpus fork_cpus kill_cpus growproc_cpus wakeup_cpus setkilled_cpus killed_cpus : frames.

(** ** [syscall] *)

Section Syscall.
Context {B U X : Type} `{BC : BufCache B} `{UD : UartDev U} `{PD : PlicDev X}.
Abbreviation KN := (kernel B U X).
Context (trampoline uservec userret forkret_addr kernelvec usertrap_addr ticks_addr : Z).
Context (spin rounds : nat) (pad : list Z) (disk_intr : K B unit) (procdump : K (console U) unit).

Definition kregs (i : Z) (s : KN) : list Z * Z * nat := regs i (kp s).
Abbreviation kspares i := (frames (kregs i)).

Lemma on_kp_regs {A} i (m : K (psys (fsys B kmem)) A) : frames (regs i) m -> kspares i (on_kp m).
Proof using Type. intros Hm s a s' (p & Hp & ->)%zoom_inv. unfold kregs. simpl. by apply (Hm (kp s) a). Qed.
Lemma on_kcons_regs {A} i (m : K (console U) A) : kspares i (on_kcons m).
Proof using Type. by apply frames_zoom. Qed.
Lemma on_call_regs {A} i (m : K (kst B kmem U) A) : frames k_user m -> kspares i (on_call i m).
Proof using Type.
  intros Hm s a s'. unfold on_call. destruct (m (view s i)) as [[a' k]|?|?|?|] eqn:E; try done. simpl. intros [= _ <-].
  pose proof (Hm _ _ _ E) as [= Ht Hp]. unfold kregs, regs, getp in *. simpl in *. rewrite length_alter. f_equal.
  rewrite !list_lookup_total_alt, list_lookup_alter_eq in *. destruct (procs (kp s) !! Z.to_nat i); simpl in *; congruence.
Qed.
Lemma cur_regs i h : kspares i (cur h).
Proof using Type. apply on_kp_regs, myproc_regs. Qed.
Hint Resolve on_kcons_regs cur_regs : frames.
Hint Extern 2 (frames _ (on_kp _)) => apply on_kp_regs; solve [eauto with frames] : frames.

Lemma cur_inv h (s : KN) i s' : cur h s = Ok (i, s') -> s' = s /\ cpus (kp s) !!! Z.to_nat h = Some i.
Proof using Type.
  intros (p & Hp & ->)%zoom_inv. unfold myproc in Hp. rewrite bind_get in Hp. destruct (cpus (kp s) !!! Z.to_nat h) as [j|]; [|done].
  injection Hp as -> <-. split; [by destruct s|done].
Qed.

Lemma file_call_regs h m : frames k_user m -> forall (s : KN) r s' i, cpus (kp s) !!! Z.to_nat h = Some i -> file_call h m s = Ok (r, s') -> kregs i s' = kregs i s.
Proof using Type.
  intros Hm s r s' i Hi H. unfold file_call in H. apply bind_inv in H as (j & s1 & Hc & H). apply cur_inv in Hc as [-> Hj]. simplify_eq.
  revert H. set (c := _ ≫= _). assert (Hf : kspares i c); [|apply Hf]. unfold c. apply frames_bind; [by apply on_call_regs|]. intros ?. apply frames_ret.
Qed.

Lemma args_regs i : kspares i (on_call i (argint 0)) /\ kspares i (on_call i (argaddr 0)).
Proof using Type. split; apply on_call_regs, args_user. Qed.

Lemma on_call_state {A} i (m : K (kst B kmem U) A) : frames (fun s : KN => state (getp (kp s) i)) (on_call i m).
Proof using Type.
  intros s a s'. unfold on_call. destruct (m (view s i)) as [[a' k]|?|?|?|]; try done. simpl. intros [= _ <-].
  unfold getp. simpl. rewrite !list_lookup_total_alt, list_lookup_alter_eq. by destruct (procs (kp s) !! Z.to_nat i).
Qed.
Lemma sys_wait_regs h (s : KN) r s' i : cpus (kp s) !!! Z.to_nat h = Some i -> state (getp (kp s) i) = RUNNING ->
  sys_wait h s = Ok (r, s') -> kregs i s' = kregs i s.
Proof using Type.
  intros Hi Hst (j & s1 & Hc & H)%bind_inv. apply cur_inv in Hc as [-> Hj]. simplify_eq. apply bind_inv in H as (a & s2 & H2 & H).
  pose proof (on_call_state _ _ _ _ _ H2) as Es. cbv beta in Es. destruct (args_regs i) as [_ Ha]. rewrite <- (Ha _ _ _ H2).
  apply bind_inv in H as (o & s3 & (p & Hp & ->)%zoom_inv & [= _ <-]). unfold kregs. simpl. eapply wait_regs; [|exact Hp]. by rewrite Es, Hst.
Qed.

(** The handlers of [sysproc.c] that come back *)
Lemma proc_call_regs h (s : KN) r s' i (m : K KN sysret) : cpus (kp s) !!! Z.to_nat h = Some i -> state (getp (kp s) i) = RUNNING ->
  m = sys_fork trampoline forkret_addr h \/ m = sys_wait h \/ m = sys_kill h \/ m = sys_getpid h \/ m = sys_sbrk h \/ m = sys_sleep ticks_addr h \/ m = sys_uptime h ->
  m s = Ok (r, s') -> kregs i s' = kregs i s.
Proof using Type.
  intros Hi Hst Hm H. destruct (args_regs i) as [Ha1 Ha2].
  assert (Hcur : forall A (k : Z -> K KN A) a, (cur h ≫= k) s = Ok (a, s') -> kspares i (k i) -> kregs i s' = kregs i s).
  { intros A k a (j & s1 & Hc & Hk)%bind_inv Hf. apply cur_inv in Hc as [-> Hj]. simplify_eq. by apply (Hf s a). }
  destruct Hm as [-> | [-> | [-> | [-> | [-> | [-> | ->]]]]]].
  - unfold sys_fork in H. apply bind_inv in H as (v & s1 & H & [= _ <-]). apply zoom_inv in H as (p & Hp & ->). unfold kregs. simpl. eapply fork_regs; [|done]. by rewrite Hst.
  - by eapply sys_wait_regs.
  - eapply Hcur; [exact H|]. solve_frames.
  - eapply Hcur; [exact H|]. apply frames_gets.
  - eapply Hcur; [exact H|]. solve_frames.
  - eapply Hcur; [exact H|]. unfold sleep_round. apply frames_bind; [done|]. intros n. apply frames_bind; [apply frames_gets|]. intros t0. apply frames_bind; [apply frames_gets|]. intros t.
    destruct (_ <? _); [|apply frames_ret]. apply frames_bind; [apply cur_regs|]. intros j. apply frames_bind; [apply on_kp_regs, frames_gets|]. intros k.
    destruct (negb _); [apply frames_ret|]. solve_frames.
  - revert H. assert (Hf : kspares i (sys_uptime h)) by (unfold sys_uptime; solve_frames). apply Hf.
Qed.

Lemma set_word_ok i w v (s : KN) : (Z.to_nat i < length (procs (kp s)))%nat ->
  exists s', set_word i w v s = Ok (tt, s') /\ tf (getp (kp s') i) = zupd (tf (getp (kp s) i)) w (uint64 v).
Proof using Type.
  intros Hi. eexists. split; [reflexivity|]. unfold getp. simpl. rewrite !list_lookup_total_alt, list_lookup_alter_eq.
  by destruct (lookup_lt_is_Some_2 _ _ Hi) as [p ->].
Qed.

Lemma handler_regs h (s : KN) num f r s' i : cpus (kp s) !!! Z.to_nat h = Some i -> state (getp (kp s) i) = RUNNING ->
  num <> SYS_exec -> num <> SYS_exit -> syscalls trampoline forkret_addr ticks_addr pad num h = Some f -> f s = Ok (r, s') -> kregs i s' = kregs i s.
Proof using Type.
  intros Hi Hst Hx Hx' Hf Hr. pose proof (proc_call_regs h s r s' i) as Hp. destruct (sys_files_user (B:=B) (U:=U) pad) as (? & ? & ? & ? & ? & ? & ? & ? & ? & ? & ? & ?).
  assert (Hfile : forall m, frames k_user m -> file_call h m s = Ok (r, s') -> kregs i s' = kregs i s) by (intros m Hm; by apply file_call_regs).
  unfold syscalls in Hf. repeat case_match; zbool; try done; injection Hf as <-; first [by eapply Hfile; [|exact Hr] | eapply Hp; [done|done| |exact Hr]; tauto].
Qed.

(** Handlers that come back leave the process on its CPU. *)
Definition kcpus (s : KN) : list (option Z) := cpus (kp s).
Lemma on_kp_cpus {A} (m : K (psys (fsys B kmem)) A) : frames cpus m -> frames kcpus (on_kp m).
Proof using Type. intros Hm s a s' (p & Hp & ->)%zoom_inv. by apply (Hm (kp s) a). Qed.
Lemma on_call_cpus {A} i (m : K (kst B kmem U) A) : frames kcpus (on_call i m).
Proof using Type. intros s a s'. unfold on_call. destruct (m (view s i)) as [[a' k]|?|?|?|]; try done. simpl. by intros [= _ <-]. Qed.
Lemma on_kcons_cpus {A} (m : K (console U) A) : frames kcpus (on_kcons m).
Proof using Type. by apply frames_zoom. Qed.
Lemma cur_cpus h : frames kcpus (cur h).
Proof using Type. apply on_kp_cpus, myproc_cpus. Qed.
Hint Resolve on_call_cpus on_kcons_cpus cur_cpus : frames.
Hint Extern 2 (frames kcpus (on_kp _)) => apply on_kp_cpus; solve [eauto with frames] : frames.

Lemma sys_wait_cpus h (s : KN) v s' : sys_wait h s = Ok (Done v, s') -> kcpus s' = kcpus s.
Proof using Type.
  unfold sys_wait. intros (i & s1 & H1 & H2)%bind_inv. apply bind_inv in H2 as (a & s2 & H2 & H3). apply bind_inv in H3 as (r & s3 & H3 & H4).
  destruct r as [|r]; [done|]. injection H4 as _ <-. apply zoom_inv in H3 as (p & H3 & ->). apply wait_cpus in H3. unfold kcpus. simpl. rewrite H3.
  transitivity (kcpus s1); [by eapply on_call_cpus|by eapply cur_cpus].
Qed.
Lemma sleep_round_cpus h (s : KN) t0 n v s' : sleep_round ticks_addr h t0 n s = Ok (Done v, s') -> kcpus s' = kcpus s.
Proof using Type.
  unfold sleep_round. intros (t1 & s3 & [= _ <-] & H3)%bind_inv. destruct (_ <? _); [|by injection H3 as _ <-].
  apply bind_inv in H3 as (j & s4 & H4 & H3). apply bind_inv in H3 as (k & s5 & H5 & H3). destruct (negb _); [|by apply bind_inv in H3 as (? & ? & _ & ?)].
  injection H3 as _ <-. transitivity (kcpus s4); [|by eapply cur_cpus]. by apply (on_kp_cpus _ (killed_cpus j) _ _ _ H5).
Qed.
Lemma sys_sleep_cpus h (s : KN) v s' : sys_sleep ticks_addr h s = Ok (Done v, s') -> kcpus s' = kcpus s.
Proof using Type.
  unfold sys_sleep. intros (i & s1 & H1 & H2)%bind_inv. apply bind_inv in H2 as (n & s2 & H2 & H3). apply bind_inv in H3 as (t0 & s3 & [= _ <-] & H3).
  rewrite (sleep_round_cpus _ _ _ _ _ _ H3). transitivity (kcpus s1); [by eapply on_call_cpus|by eapply cur_cpus].
Qed.

Lemma handler_cpus h (s : KN) num f v s' : syscalls trampoline forkret_addr ticks_addr pad num h = Some f -> f s = Ok (Done v, s') -> kcpus s' = kcpus s.
Proof using Type.
  intros Hf Hr. assert (Hfile : forall m, frames kcpus (file_call h m)) by (intros m; unfold file_call; solve_frames).
  assert (Hx : forall s s' v, sys_exit h s = Ok (Done v, s') -> kcpus s' = kcpus s) by (intros ? ? ? Hx; unfold sys_exit in Hx; by repeat apply bind_inv in Hx as (? & ? & _ & Hx)).
  unfold syscalls in Hf. repeat case_match; zbool; try done; injection Hf as <-;
    first [by eapply Hfile | by eapply Hx | by eapply sys_wait_cpus | by eapply sys_sleep_cpus | revert Hr];
    match goal with |- ?m _ = _ -> _ => assert (Hm : frames kcpus m) by (unfold sys_fork, sys_kill, exec_call, sys_getpid, sys_sbrk, sys_uptime; solve_frames); apply Hm end.
Qed.

(** [syscall] and all it calls leave the registers of the harts alone. *)
Lemma on_kp_harts {A} (m : K (psys (fsys B kmem)) A) : frames (harts : KN -> _) (on_kp m).
Proof using Type. by apply frames_zoom. Qed.
Lemma on_kcons_harts {A} (m : K (console U) A) : frames (harts : KN -> _) (on_kcons m).
Proof using Type. by apply frames_zoom. Qed.
Lemma on_call_harts {A} i (m : K (kst B kmem U) A) : frames (harts : KN -> _) (on_call i m).
Proof using Type. intros s a s'. unfold on_call. destruct (m (view s i)) as [[a' k]|?|?|?|]; try done. simpl. by intros [= _ <-]. Qed.
Hint Resolve on_kp_harts on_kcons_harts on_call_harts : frames.
Lemma handler_harts h num f : syscalls trampoline forkret_addr ticks_addr pad num h = Some f -> frames (harts : KN -> _) f.
Proof using Type.
  intros Hf. unfold syscalls in Hf. repeat case_match; zbool; try done; injection Hf as <-;
    unfold file_call, sys_fork, sys_exit, sys_wait, sys_kill, exec_call, sys_getpid, sys_sbrk, sys_sleep, sleep_round, sys_uptime, cur; solve_frames.
Qed.
Lemma syscall_harts h : frames (harts : KN -> _) (syscall trampoline forkret_addr ticks_addr spin pad h).
Proof using Type.
  unfold syscall, cur, set_word. apply frames_bind; [apply on_kp_harts|]. intros i. apply frames_bind; [apply frames_gets|]. intros p. cbv zeta.
  destruct (if 0 <? _ then _ else _) as [f|] eqn:E; [|solve_frames]. apply frames_bind; [|intros ?; solve_frames]. case_match; [|done]. by eapply handler_harts.
Qed.
End Syscall.
