(* ===== verification/KernelSpec.v ===== *)
(** * What system calls and traps promise

    A system call other than [exec] changes [a0] and no other register; an unknown
    one gives -1; a trap into the kernel for a system call goes back to the
    instruction after it, in user mode, with the next trap set up; a clock
    interrupt advances [ticks] and wakes the sleepers, and [sleep] comes back when its
    time is over and not before. *)

From stdpp Require Import base numbers list list_numbers gmap strings.
From Stdlib Require Import ZArith Lia.
From S2P Require Import Prelude Params KString Path Sleeplock Virtio Bio Kmem Ring Uart Console Fsys Blocks Dinode Vfs Dirs Pipe File Sysfile Kalloc Vm KmemVm FsDemo ConsoleProof Exec Proc ProcProof ProcSpec Printf Kprintf Kernel KernelProof.

Section Spec.
Context {B U X : Type} `{BC : BufCache B} `{UD : UartDev U} `{PD : PlicDev X}.
Abbreviation KN := (kernel B U X).
Context (trampoline uservec forkret_addr kernelvec usertrap_addr ticks_addr : Z).
Context (spin rounds : nat) (pad : list Z) (disk_intr : K B unit) (procdump : K (console U) unit).

(** Process [i] is in the table and runs on [h]. *)
Definition runs_on (s : KN) (h i : Z) : Prop :=
  cpus (kp s) !!! Z.to_nat h = Some i /\ (Z.to_nat i < length (procs (kp s)))%nat /\ state (getp (kp s) i) <> UNUSED.
Definition call_number (s : KN) (i : Z) : Z := int (znth (tf (getp (kp s) i)) (TF_a 7)).
Abbreviation SYSCALL h := (syscall trampoline forkret_addr ticks_addr spin pad h).

Lemma cur_ok h i (s : KN) : runs_on s h i -> cur h s = Ok (i, s).
Proof using Type. intros (Hi & _ & _). unfold cur, on_kp, zoom, myproc. rewrite bind_get. rewrite Hi. simpl. by destruct s. Qed.

Lemma syscall_inv h i (s : KN) r s' : runs_on s h i -> SYSCALL h s = Ok (r, s') ->
  match (if 0 <? call_number s i then syscalls trampoline forkret_addr ticks_addr pad (call_number s i) h else None) with
  | Some f => exists s1, f s = Ok (r, s1) /\ (match r with Done v => set_word i (TF_a 0) v | _ => mret tt end) s1 = Ok (tt, s')
  | None => r = Done (-1) /\ exists (s1 : KN), set_word i (TF_a 0) (-1) s1 = Ok (tt, s') /\ kp s1 = kp s
  end.
Proof using Type.
  intros Hr. unfold syscall. rewrite (bind_ok _ _ _ _ _ (cur_ok _ _ _ Hr)). intros (p & s1 & [= <- <-] & H)%bind_inv. cbv zeta in H. fold (call_number s i) in H.
  destruct (if 0 <? call_number s i then _ else _) as [f|].
  - apply bind_inv in H as (r' & s1 & H1 & H2). apply bind_inv in H2 as ([] & s2 & H2 & [= <- <-]). eauto.
  - apply bind_inv in H as ([] & s1 & H1 & H2). apply bind_inv in H2 as ([] & s2 & H2 & [= <- <-]). split; [done|]. exists s1. split; [done|].
    by apply zoom_inv in H1 as (c & _ & ->).
Qed.

Lemma kregs_eq i (s s' : KN) : kregs i s' = kregs i s ->
  tf (getp (kp s') i) = tf (getp (kp s) i) /\ pagetable (getp (kp s') i) = pagetable (getp (kp s) i) /\ length (procs (kp s')) = length (procs (kp s)).
Proof using Type. unfold kregs, regs. by intros [= -> -> ->]. Qed.

Lemma set_word_inv i w v (s s' : KN) : (Z.to_nat i < length (procs (kp s)))%nat -> set_word i w v s = Ok (tt, s') ->
  tf (getp (kp s') i) = zupd (tf (getp (kp s) i)) w (uint64 v) /\ length (procs (kp s')) = length (procs (kp s)) /\
  pagetable (getp (kp s') i) = pagetable (getp (kp s) i) /\ cpus (kp s') = cpus (kp s) /\ harts s' = harts s.
Proof using Type.
  intros Hi H. destruct (set_word_ok i w v s Hi) as (s1 & H1 & H2). rewrite H in H1. injection H1 as ->. split; [done|].
  injection H as <-. simpl. rewrite length_alter. split_and!; try done. unfold getp. simpl. rewrite !list_lookup_total_alt, list_lookup_alter_eq.
  by destruct (lookup_lt_is_Some_2 _ _ Hi) as [p ->].
Qed.

Lemma syscall_regs h i (s : KN) r s' : runs_on s h i -> state (getp (kp s) i) = RUNNING -> call_number s i <> SYS_exec -> call_number s i <> SYS_exit -> SYSCALL h s = Ok (r, s') ->
  tf (getp (kp s') i) = match r with Done v => zupd (tf (getp (kp s) i)) (TF_a 0) (uint64 v) | _ => tf (getp (kp s) i) end /\
  pagetable (getp (kp s') i) = pagetable (getp (kp s) i) /\
  length (procs (kp s')) = length (procs (kp s)) /\
  (forall v, r = Done v -> cpus (kp s') = cpus (kp s)).
Proof using Type.
  intros Hr Hst Hx Hx' H. pose proof Hr as (Hi & Hlen & _). apply (syscall_inv _ _ _ _ _ Hr) in H.
  destruct (if 0 <? call_number s i then _ else _) as [f|] eqn:E.
  - assert (E' : syscalls trampoline forkret_addr ticks_addr pad (call_number s i) h = Some f) by (by destruct (0 <? _)). destruct H as (s1 & H1 & H2).
    destruct (kregs_eq _ _ _ (handler_regs _ _ _ _ _ _ _ _ _ _ _ Hi Hst Hx Hx' E' H1)) as (Et & Ep & El).
    destruct r as [v| |]; [|injection H2 as <-; split_and!; [done|done|done|by intros ?]..].
    destruct (set_word_inv i (TF_a 0) v s1 s') as (-> & -> & -> & -> & _); [by rewrite El|done|]. rewrite Et. split_and!; [done|done|done|]. intros ? _. by apply (handler_cpus _ _ _ _ _ _ _ _ _ _ E' H1).
  - destruct H as (-> & s1 & H1 & Ek). rewrite <- Ek in *. destruct (set_word_inv i (TF_a 0) (-1) s1 s') as (-> & -> & -> & -> & _); done.
Qed.

(** A system call other than [exec] and [exit] leaves every saved register of the process that makes it as it was: the
    return value goes to [a0], and nothing is written when the process goes to sleep in the call. *)
Theorem syscall_registers h i (s : KN) r s' : runs_on s h i -> state (getp (kp s) i) = RUNNING -> call_number s i <> SYS_exec -> call_number s i <> SYS_exit -> SYSCALL h s = Ok (r, s') ->
  tf (getp (kp s') i) = match r with Done v => zupd (tf (getp (kp s) i)) (TF_a 0) (uint64 v) | _ => tf (getp (kp s) i) end.
Proof using Type. intros Hr Hst Hx Hx' H. apply (syscall_regs _ _ _ _ _ Hr Hst Hx Hx' H). Qed.

(** A number that is not that of a system call gives the process -1 and changes nothing else of the process table. *)
Theorem syscall_unknown h i (s : KN) r s' : runs_on s h i -> ~ (1 <= call_number s i <= 21) -> SYSCALL h s = Ok (r, s') ->
  r = Done (-1) /\ kp s' = set_procs (alter (fun p => set_tf (zupd (tf p) (TF_a 0) (2 ^ 64 - 1)) p) (Z.to_nat i)) (kp s).
Proof using Type.
  intros Hr Hn H. apply (syscall_inv _ _ _ _ _ Hr) in H. destruct (if 0 <? call_number s i then _ else _) as [f|] eqn:E.
  - exfalso. apply Hn. destruct (0 <? _); [|done]. unfold syscalls in E. repeat case_match; zbool; try done;
      match goal with E : call_number _ _ = ?n |- _ => rewrite E; unfold n; lia end.
  - destruct H as (-> & s1 & H1 & Ek). split; [done|]. injection H1 as <-. simpl. by rewrite Ek.
Qed.

(** ** Traps from user space *)

Lemma w_hart_inv h f (s s' : KN) : (Z.to_nat h < length (harts s))%nat -> w_hart h f s = Ok (tt, s') ->
  harts s' !!! Z.to_nat h = f (harts s !!! Z.to_nat h) /\ length (harts s') = length (harts s) /\ kp s' = kp s.
Proof using Type.
  intros Hh [= <-]. simpl. rewrite length_alter. split_and!; [|done|done]. rewrite !list_lookup_total_alt, list_lookup_alter_eq.
  by destruct (lookup_lt_is_Some_2 _ _ Hh) as [r ->].
Qed.

Definition kernel_words (w : Z) : Prop := w = TF_kernel_satp \/ w = TF_kernel_sp \/ w = TF_kernel_trap \/ w = TF_kernel_hartid.

Lemma usertrapret_inv h i (s : KN) t s' : cpus (kp s) !!! Z.to_nat h = Some i -> (Z.to_nat i < length (procs (kp s)))%nat -> (Z.to_nat h < length (harts s))%nat ->
  usertrapret trampoline uservec usertrap_addr h s = Ok (t, s') ->
  let r := harts s !!! Z.to_nat h in let r' := harts s' !!! Z.to_nat h in
  t = MAKE_SATP (pagetable (getp (kp s') i)) /\ pagetable (getp (kp s') i) = pagetable (getp (kp s) i) /\
  (forall w, 0 <= w -> ~ kernel_words w -> znth (tf (getp (kp s') i)) w = znth (tf (getp (kp s) i)) w) /\
  sepc r' = znth (tf (getp (kp s) i)) TF_epc /\ stvec r' = uint64 (TRAMPOLINE + (uservec - trampoline)) /\
  sstatus r' = Z.lor (clear_bits (clear_bits (sstatus r) SSTATUS_SIE) SSTATUS_SPP) SSTATUS_SPIE.
Proof using Type.
  intros Hc Hi Hh H. unfold usertrapret in H. apply bind_inv in H as (j & s0 & Hj & H). apply cur_inv in Hj as [-> Hj]. simplify_eq.
  apply bind_inv in H as ([] & s1 & H1 & H). apply w_hart_inv in H1 as (E1 & L1 & P1); [|done].
  apply bind_inv in H as ([] & s2 & H2 & H). apply w_hart_inv in H2 as (E2 & L2 & P2); [|by rewrite L1].
  apply bind_inv in H as (r & ? & [= <- <-] & H). apply bind_inv in H as (p & ? & [= <- <-] & H).
  rewrite <- P1, <- P2 in *. clear P1 P2.
  apply bind_inv in H as ([] & s3 & H3 & H). apply set_word_inv in H3 as (T3 & N3 & G3 & _ & A3); [|done].
  apply bind_inv in H as ([] & s4 & H4 & H). apply set_word_inv in H4 as (T4 & N4 & G4 & _ & A4); [|by rewrite N3].
  apply bind_inv in H as ([] & s5 & H5 & H). apply set_word_inv in H5 as (T5 & N5 & G5 & _ & A5); [|by rewrite N4, N3].
  apply bind_inv in H as ([] & s6 & H6 & H). apply set_word_inv in H6 as (T6 & N6 & G6 & _ & A6); [|by rewrite N5, N4, N3].
  apply bind_inv in H as ([] & s7 & H7 & H). apply w_hart_inv in H7 as (E7 & L7 & P7); [|by rewrite A6, A5, A4, A3, L2, L1].
  apply bind_inv in H as (p & ? & [= <- <-] & H).
  apply bind_inv in H as ([] & s8 & H8 & [= <- <-]). apply w_hart_inv in H8 as (E8 & L8 & P8); [|by rewrite L7, A6, A5, A4, A3, L2, L1].
  assert (Hk : forall w, 0 <= w -> ~ kernel_words w -> znth (tf (getp (kp s6) i)) w = znth (tf (getp (kp s2) i)) w).
  { intros w Hw Hn. rewrite T6, T5, T4, T3. unfold kernel_words in Hn. rewrite !znth_zupd_ne; try done; intros <-; tauto. }
  cbv zeta. rewrite E8, E7, A6, A5, A4, A3, E2, E1, P8, P7, G6, G5, G4, G3. split_and!; [done|done|done| |done|done].
  apply Hk; [done|]. intros [|[|[|]]]; done.
Qed.

Lemma killed_inv i (s : KN) k s' : on_kp (killed i) s = Ok (k, s') -> s' = s.
Proof using Type. intros (p & [= _ <-] & ->)%zoom_inv. by destruct s. Qed.

Lemma set_word_runs h i w v (s s' : KN) : runs_on s h i -> set_word i w v s = Ok (tt, s') -> runs_on s' h i /\ state (getp (kp s') i) = state (getp (kp s) i).
Proof using Type.
  intros (Hc & Hi & Hst) H. destruct (set_word_inv _ _ _ _ _ Hi H) as (_ & Hl & _ & Hc' & _). assert (Es : state (getp (kp s') i) = state (getp (kp s) i)).
  { injection H as <-. unfold getp. simpl. rewrite !list_lookup_total_alt, list_lookup_alter_eq. by destruct (procs (kp s) !! Z.to_nat i). }
  split; [|done]. split_and!; [by rewrite Hc'|by rewrite Hl|by rewrite Es].
Qed.

(** The way into a system call: the program counter of the process is past the [ecall]. *)
Lemma usertrap_call_inv h i (s : KN) t s' : runs_on s h i -> (Z.to_nat h < length (harts s))%nat -> scause (harts s !!! Z.to_nat h) = 8 ->
  usertrap trampoline uservec forkret_addr kernelvec usertrap_addr ticks_addr spin rounds pad disk_intr procdump h s = Ok (Resumes t, s') ->
  exists s1 s2 v, SYSCALL h s1 = Ok (Done v, s2) /\ usertrapret trampoline uservec usertrap_addr h s2 = Ok (t, s') /\
    runs_on s1 h i /\ length (harts s1) = length (harts s) /\
    state (getp (kp s1) i) = state (getp (kp s) i) /\ pagetable (getp (kp s1) i) = pagetable (getp (kp s) i) /\
    tf (getp (kp s1) i) = zupd (zupd (tf (getp (kp s) i)) TF_epc (uint64 (sepc (harts s !!! Z.to_nat h)))) TF_epc (uint64 (sepc (harts s !!! Z.to_nat h) + 4)).
Proof using Type.
  intros Hr Hh Hcause H. unfold usertrap in H. apply bind_inv in H as (r & ? & [= <- <-] & H). destruct (negb _); [done|].
  apply bind_inv in H as ([] & s1 & H1 & H). pose proof (w_hart_inv _ _ _ _ Hh H1) as (_ & L1 & P1).
  assert (Hr1 : runs_on s1 h i) by (unfold runs_on; by rewrite P1). rewrite (bind_ok _ _ _ _ _ (cur_ok _ _ _ Hr1)) in H.
  apply bind_inv in H as ([] & s2 & H2 & H). pose proof (set_word_runs _ _ _ _ _ _ Hr1 H2) as [Hr2 S2]. apply set_word_inv in H2 as (T2 & _ & G2 & _ & A2); [|apply Hr1].
  unfold id in *. rewrite Hcause in H. change (8 =? 8) with true in H. cbv iota in H.
  apply bind_inv in H as (k & s3 & Hk & H). apply killed_inv in Hk as ->. destruct (negb _); [by apply bind_inv in H as (? & ? & _ & ?)|].
  apply bind_inv in H as ([] & s4 & H4 & H). pose proof (set_word_runs _ _ _ _ _ _ Hr2 H4) as [Hr4 S4]. apply set_word_inv in H4 as (T4 & _ & G4 & _ & A4); [|apply Hr2].
  apply bind_inv in H as ([] & s5 & H5 & H). pose proof H5 as (_ & L5 & P5)%w_hart_inv; [|by rewrite A4, A2, L1].
  apply bind_inv in H as (c & s6 & H6 & H). destruct c as [v| |]; [|done..]. unfold usertrap_end in H.
  apply bind_inv in H as (k' & s7 & Hk & H). apply killed_inv in Hk as ->. destruct (negb _); [by apply bind_inv in H as (? & ? & _ & ?)|].
  change (0 =? 2) with false in H. cbv iota in H. apply bind_inv in H as (t' & s8 & H8 & [= <- <-]).
  exists s5, s6, v. split_and!; [done|done|unfold runs_on; by rewrite P5|by rewrite L5, A4, A2, L1|by rewrite P5, S4, S2, P1|by rewrite P5, G4, G2, P1|]. by rewrite P5, T4, T2, P1.
Qed.

Lemma usertrap_returns h i (s : KN) t s' : runs_on s h i -> state (getp (kp s) i) = RUNNING -> (Z.to_nat h < length (harts s))%nat -> scause (harts s !!! Z.to_nat h) = 8 ->
  zlen (tf (getp (kp s) i)) = 36 -> call_number s i <> SYS_exec -> call_number s i <> SYS_exit ->
  usertrap trampoline uservec forkret_addr kernelvec usertrap_addr ticks_addr spin rounds pad disk_intr procdump h s = Ok (Resumes t, s') ->
  let r' := harts s' !!! Z.to_nat h in
  (forall w, 5 <= w -> w <> TF_a 0 -> znth (tf (getp (kp s') i)) w = znth (tf (getp (kp s) i)) w) /\
  sepc r' = uint64 (sepc (harts s !!! Z.to_nat h) + 4) /\ stvec r' = uint64 (TRAMPOLINE + (uservec - trampoline)) /\
  Z.testbit (sstatus r') 8 = false /\ Z.testbit (sstatus r') 5 = true /\ Z.testbit (sstatus r') 1 = false /\
  t = MAKE_SATP (pagetable (getp (kp s) i)) /\ pagetable (getp (kp s') i) = pagetable (getp (kp s) i).
Proof using Type.
  intros Hr Hst Hh Hcause Hlen Hx Hx' H. destruct (usertrap_call_inv _ _ _ _ _ Hr Hh Hcause H) as (s1 & s2 & v & Hs & Hret & Hr1 & L1 & S1 & G1 & T1).
  assert (En : call_number s1 i = call_number s i) by (unfold call_number; by rewrite T1, !znth_zupd_ne).
  destruct (syscall_regs h i s1 (Done v) s2 Hr1) as (T2 & G2 & N2 & C2); [by rewrite S1|by rewrite En|by rewrite En|done|].
  destruct Hr1 as (Hc1 & Hi1 & _). apply (usertrapret_inv h i) in Hret; [|by rewrite (C2 v eq_refl)|by rewrite N2|by rewrite (syscall_harts _ _ _ _ _ _ _ _ _ Hs), L1].
  cbv zeta in *. destruct Hret as (Ht & Hpt & Hw & He & Hv & Hss). rewrite Hss, He, T2, T1. rewrite G2, G1 in Hpt. split_and!; [| |done| | | |by rewrite Ht, Hpt|done].
  - intros w Hw5 Hwa. rewrite Hw, T2, T1 by (try lia; unfold kernel_words; intros [|[|[|]]]; subst w; by vm_compute in Hw5).
    rewrite !znth_zupd_ne; try done; try congruence; change TF_epc with 3; lia.
  - rewrite znth_zupd_ne by done. rewrite znth_zupd_eq; [done|]. unfold zlen, zupd in *. rewrite length_insert. change TF_epc with 3. lia.
  - rewrite Z.lor_spec. unfold clear_bits. rewrite !Z.land_spec. by rewrite andb_false_r.
  - rewrite Z.lor_spec. apply orb_true_r.
  - rewrite Z.lor_spec. unfold clear_bits. rewrite !Z.land_spec. by rewrite andb_false_r.
Qed.

(** A trap for a system call other than [exec] and [exit] that comes back to user space does so at the instruction after the [ecall],
    in user mode with interrupts enabled by [sret] and not before, with the trap vector set to [uservec] in the trampoline and the process's own
    page table handed to [userret]; of the saved user registers only [a0] has changed. *)
Theorem usertrap_syscall_returns h i (s : KN) t s' : runs_on s h i -> state (getp (kp s) i) = RUNNING -> (Z.to_nat h < length (harts s))%nat -> scause (harts s !!! Z.to_nat h) = 8 ->
  zlen (tf (getp (kp s) i)) = 36 -> call_number s i <> SYS_exec -> call_number s i <> SYS_exit ->
  usertrap trampoline uservec forkret_addr kernelvec usertrap_addr ticks_addr spin rounds pad disk_intr procdump h s = Ok (Resumes t, s') ->
  let r' := harts s' !!! Z.to_nat h in
  (forall w, 5 <= w -> w <> TF_a 0 -> znth (tf (getp (kp s') i)) w = znth (tf (getp (kp s) i)) w) /\
  sepc r' = uint64 (sepc (harts s !!! Z.to_nat h) + 4) /\ stvec r' = uint64 (TRAMPOLINE + (uservec - trampoline)) /\
  Z.testbit (sstatus r') 8 = false /\ Z.testbit (sstatus r') 5 = true /\ Z.testbit (sstatus r') 1 = false /\
  t = MAKE_SATP (pagetable (getp (kp s) i)) /\ pagetable (getp (kp s') i) = pagetable (getp (kp s) i).
Proof using Type. apply usertrap_returns. Qed.

(** ** Sleeping *)

Definition put_proc (i : Z) (f : proc -> proc) (p : psys (fsys B kmem)) : psys (fsys B kmem) := set_procs (alter f (Z.to_nat i)) p.
Lemma getp_put i f (p : psys (fsys B kmem)) : (Z.to_nat i < length (procs p))%nat -> getp (put_proc i f p) i = f (getp p i).
Proof using Type.
  intros Hi. unfold getp, put_proc. simpl. rewrite !list_lookup_total_alt, list_lookup_alter_eq. by destruct (lookup_lt_is_Some_2 _ _ Hi) as [q ->].
Qed.

Lemma sleep_run h i c (p : psys (fsys B kmem)) : cpus p !!! Z.to_nat h = Some i -> (Z.to_nat i < length (procs p))%nat ->
  sleep h c p = Ok (tt, set_cpus (fun l => zupd l h None) (put_proc i (set_state SLEEPING) (put_proc i (set_chan (Some c)) p))).
Proof using Type.
  intros Hc Hi. assert (Hm : forall q : psys (fsys B kmem), cpus q = cpus p -> myproc h q = Ok (i, q)) by (intros q Hq; unfold myproc; by rewrite bind_get, Hq, Hc).
  unfold sleep, sched. rewrite (bind_ok _ _ _ _ _ (Hm p eq_refl)).
  set (p2 := put_proc _ _ _). transitivity (sched h p2); [reflexivity|]. unfold sched. rewrite (bind_ok _ _ _ _ _ (Hm p2 eq_refl)), bind_get.
  unfold p2. rewrite getp_put by (unfold put_proc; simpl; by rewrite length_alter). done.
Qed.

Lemma wakeup_wakes h i c (p : psys (fsys B kmem)) : 0 <= i -> (Z.to_nat i < length (procs p))%nat -> cpus p !!! Z.to_nat h <> Some i ->
  state (getp p i) = SLEEPING -> chan (getp p i) = c -> exists p', wakeup h c p = Ok (tt, p') /\ state (getp p' i) = RUNNABLE.
Proof using Type.
  intros Hi0 Hi Hn Hs Hc. eexists. split; [reflexivity|]. unfold getp in *. simpl. rewrite !list_lookup_total_alt in *. rewrite list_lookup_imap.
  destruct (lookup_lt_is_Some_2 _ _ Hi) as [q Hq]. rewrite Hq in *. simpl in *. rewrite decide_False by (by rewrite Z2Nat.id by lia).
  unfold wake. by rewrite decide_True.
Qed.

(** C26: A process in [sleep(n)] since tick [t0] comes back with 0 when at least [n] ticks have gone by since; before that it sleeps on [ticks] and
    gives up the CPU, and the next clock interrupt counts a tick and makes it runnable to look again.  The tick counter may wrap
    around meanwhile; [n] counts as an unsigned number. *)
Theorem sleep_time h h' i (s : KN) t0 n k : runs_on s h i -> 0 <= i -> 0 <= h -> (cpus (kp s) !!! Z.to_nat h' = Some i -> h' = h) ->
  p_killed (getp (kp s) i) = 0 -> 0 <= k < 2 ^ 32 -> ticks s = uint (t0 + k) ->
  if uint n <=? k then sleep_round ticks_addr h t0 n s = Ok (Done 0, s)
  else exists s1 s2, sleep_round ticks_addr h t0 n s = Ok (Waits, s1) /\ state (getp (kp s1) i) = SLEEPING /\ cpus (kp s1) !!! Z.to_nat h = None /\
    clockintr ticks_addr h' s1 = Ok (tt, s2) /\ ticks s2 = uint (t0 + (k + 1)) /\ state (getp (kp s2) i) = RUNNABLE.
Proof using Type.
  intros Hr Hi0 Hh0 Hone Hk0 Hk Ht. pose proof Hr as (Hc & Hi & Hst). unfold sleep_round. rewrite bind_gets, Ht.
  assert (E : uint (uint (t0 + k) - t0) = k).
  { unfold uint. rewrite Zminus_mod_idemp_l. replace (t0 + k - t0) with k by lia. by apply Z.mod_small. }
  rewrite E. destruct (Z.leb_spec (uint n) k) as [Hn|Hn].
  - rewrite (proj2 (Z.ltb_ge _ _)) by done. done.
  - rewrite (proj2 (Z.ltb_lt _ _)) by done. rewrite (bind_ok _ _ _ _ _ (cur_ok _ _ _ Hr)).
    assert (Hkd : on_kp (killed i) s = Ok (0, s)) by (unfold on_kp, zoom, killed, gets; simpl; rewrite Hk0; by destruct s).
    rewrite (bind_ok _ _ _ _ _ Hkd). change (negb (0 =? 0)) with false. cbv iota.
    pose proof (sleep_run h i (CAddr ticks_addr) (kp s) Hc Hi) as Hs. set (p1 := set_cpus _ _) in Hs.
    assert (Hlen : (Z.to_nat h < length (cpus (kp s)))%nat).
    { destruct (decide (Z.to_nat h < length (cpus (kp s)))%nat) as [|Hge]; [done|]. rewrite list_lookup_total_alt, lookup_ge_None_2 in Hc by lia. done. }
    assert (Hc1 : cpus p1 !!! Z.to_nat h = None) by (unfold p1, zupd; simpl; by rewrite list_lookup_total_insert_eq).
    assert (Hp1 : getp p1 i = set_state SLEEPING (set_chan (Some (CAddr ticks_addr)) (getp (kp s) i))).
    { unfold p1. change (getp (set_cpus ?f ?p) i) with (getp p i). rewrite !getp_put; [done|done|unfold put_proc; simpl; by rewrite length_alter]. }
    assert (Hc' : cpus p1 !!! Z.to_nat h' <> Some i).
    { destruct (decide (Z.to_nat h' = Z.to_nat h)) as [->|Hne]; [by rewrite Hc1|]. unfold p1, zupd. simpl. rewrite list_lookup_total_insert_ne by done. intros Hx. by rewrite (Hone Hx) in Hne. }
    destruct (wakeup_wakes h' i (Some (CAddr ticks_addr)) p1) as (p2 & Hw & Hst2); [done|unfold p1, put_proc; simpl; by rewrite !length_alter|done|by rewrite Hp1..|].
    exists (set_kp p1 s), (set_kp p2 (set_ticks (uint (ticks s + 1)) (set_kp p1 s))). split_and!; [|by simpl; rewrite Hp1|done| | |done].
    + assert (Hz : on_kp (sleep h (CAddr ticks_addr)) s = Ok (tt, set_kp p1 s)) by (unfold on_kp, zoom; by rewrite Hs). by rewrite (bind_ok _ _ _ _ _ Hz).
    + unfold clockintr. rewrite bind_modify. unfold on_kp, zoom. change (kp (set_ticks _ _)) with p1. by rewrite Hw.
    + simpl. rewrite Ht. unfold uint. rewrite Zplus_mod_idemp_l. f_equal. lia.
Qed.

(** ** The break *)

Lemma argint_call i (s : KN) n s1 : on_call i (argint 0) s = Ok (n, s1) ->
  n = int (znth (tf (getp (kp s) i)) (TF_a 0)) /\ procs (kp s1) = procs (kp s) /\ cpus (kp s1) = cpus (kp s).
Proof using Type.
  intros [= <- <-]. split_and!; [done| |done]. simpl. apply list_eq. intros k. destruct (decide (k = Z.to_nat i)) as [->|]; [|by rewrite list_lookup_alter_ne].
  rewrite list_lookup_alter_eq. unfold getp. rewrite list_lookup_total_alt. destruct (procs (kp s) !! Z.to_nat i) as [[]|]; done.
Qed.

Lemma uvmalloc_loop_result fuel m pt a oldsz newsz x r m' : uvmalloc_loop fuel pt a oldsz newsz x m = Ok (r, m') -> r = 0 \/ r = newsz.
Proof using Type.
  revert m a. induction fuel as [|fuel IH]; intros m a; cbn [uvmalloc_loop]; destruct (a <? newsz); try done; try (intros [= <- _]; by right).
  intros (b & m1 & _ & H)%bind_inv. destruct (b =? 0); [apply bind_inv in H as (? & ? & _ & [= <- _]); by left|].
  apply bind_inv in H as (? & m2 & _ & H). apply bind_inv in H as (c & m3 & _ & H). destruct (negb _); [|by apply IH in H].
  apply bind_inv in H as (? & ? & _ & H). apply bind_inv in H as (? & ? & _ & [= <- _]). by left.
Qed.

(** What [growproc] makes of the size *)
Lemma growproc_result pt z n m r m' : 0 <= z < 2 ^ 63 -> - 2 ^ 31 <= n < 2 ^ 31 -> growproc pt z n m = Ok (r, m') ->
  (r = (z, -1) /\ 0 < n) \/ r = (if z + n <? 0 then z else z + n, 0).
Proof using Type.
  intros Hz Hn. unfold growproc, uint64. destruct (Z.ltb_spec 0 n).
  - intros (z' & m1 & Hu & H1)%bind_inv. rewrite Z.mod_small in Hu by lia. assert (z' = 0 \/ z' = z + n) as [-> | ->].
    { unfold uvmalloc in Hu. rewrite (proj2 (Z.ltb_ge _ _)) in Hu by lia. by eapply uvmalloc_loop_result. }
    + injection H1 as <- _. by left.
    + right. rewrite (proj2 (Z.eqb_neq _ _)) in H1 by lia. injection H1 as <- _. by rewrite (proj2 (Z.ltb_ge _ _)) by lia.
  - destruct (Z.ltb_spec n 0) as [Hneg|]; [|intros [= <- _]; right; rewrite (proj2 (Z.ltb_ge _ _)) by lia; do 2 f_equal; lia].
    intros (z' & m1 & Hu & [= <- _])%bind_inv. right. f_equal. unfold uvmdealloc in Hu. destruct (Z.ltb_spec (z + n) 0).
    + replace ((z + n) mod 2 ^ 64) with (z + n + 2 ^ 64) in Hu by (rewrite <- (Z.mod_small (z + n + 2 ^ 64) (2 ^ 64)) by lia; rewrite <- (Z_mod_plus_full (z + n) 1); f_equal; lia).
      rewrite (proj2 (Z.leb_le _ _)) in Hu by lia. by injection Hu.
    + rewrite Z.mod_small in Hu by lia. rewrite (proj2 (Z.leb_gt _ _)) in Hu by lia. by apply bind_inv in Hu as (? & ? & _ & [= <- _]).
Qed.

(** [sbrk(n)] returns the old break and moves it by [n], or returns -1 and leaves it; a negative [n] below the start of the address space
    is answered as if it had been done, and moves nothing. *)
Theorem sys_sbrk_break h i (s : KN) v s' : runs_on s h i -> 0 <= sz (getp (kp s) i) < 2 ^ 63 -> sys_sbrk h s = Ok (Done v, s') ->
  let z := sz (getp (kp s) i) in let n := int (znth (tf (getp (kp s) i)) (TF_a 0)) in
  (v = -1 /\ 0 < n /\ sz (getp (kp s') i) = z) \/ (v = z /\ sz (getp (kp s') i) = if z + n <? 0 then z else z + n).
Proof using Type.
  intros Hr Hz H. pose proof Hr as (Hc & Hi & _). unfold sys_sbrk in H. rewrite (bind_ok _ _ _ _ _ (cur_ok _ _ _ Hr)) in H.
  apply bind_inv in H as (n & s1 & Ha & H). apply argint_call in Ha as (En & Ep & Ec).
  apply bind_inv in H as (z & ? & [= <- <-] & H). apply bind_inv in H as (r & s2 & Hg & H). apply zoom_inv in Hg as (p2 & Hg & ->).
  assert (Eg : getp (kp s1) i = getp (kp s) i) by (unfold getp; by rewrite Ep). rewrite Eg in *. unfold growproc_on in Hg.
  assert (Hm : myproc h (kp s1) = Ok (i, kp s1)) by (unfold myproc; by rewrite bind_get, Ec, Hc). rewrite (bind_ok _ _ _ _ _ Hm), bind_get, Eg in Hg.
  apply bind_inv in Hg as ([z' r'] & p3 & Hgm & Hg). apply bind_inv in Hg as ([] & p4 & Hu & [= <- <-]). injection Hu as <-.
  apply zoom_inv in Hgm as (g & Hgm & ->). apply zoom_inv in Hgm as (m & Hgm & ->). rewrite En in *. cbv zeta.
  apply growproc_result in Hgm; [|done|apply int_range]. cbn [fst snd] in H.
  assert (Es : sz (getp (kp s') i) = z').
  { assert (kp s' = put_proc i (set_sz z') (set_fsg (g_set_mem m (fsg (kp s1))) (kp s1))) as -> by (by destruct (r' <? 0); injection H as _ <-).
    rewrite getp_put; [done|]. simpl. by rewrite Ep. }
  rewrite Es. destruct Hgm as [[[= -> ->] ?]|[= -> ->]]; [left|right]; by injection H as <- _.
Qed.
End Spec.

(** ** A machine that runs init *)

#[export] Instance no_plic : PlicDev unit := {| plic_read _ x := (0, x); plic_write _ _ x := x |}.
Abbreviation DK := (kernel (bcache disk) demo_uart unit).
Definition reset_hart (h : Z) : hart := mk_hart 0 8 0x40 0 0 0 0 h.
Definition reset_kernel : DK := mk_kernel (reset_table demo_g) (demo_console []) tt 100 (reset_hart <$> [0; 1]).
(** Init is on CPU 0, with the number of a call and its argument in the registers. *)
Definition calling (num arg : Z) : K DK unit :=
  on_kp (boot trampoline_pa forkret_pa);; _ ← on_kp (scheduler_pass 0 (-1)); set_word 0 (TF_a 7) num;; set_word 0 (TF_a 0) arg.
Definition in_call (num : Z) (s : DK) : bool :=
  bool_decide (cpus (kp s) !!! 0%nat = Some 0 /\ (0 < length (procs (kp s)))%nat /\ state (getp (kp s) 0) = RUNNING /\ call_number s 0 = num).
Lemma in_call_ok num s : in_call num s = true -> runs_on s 0 0 /\ call_number s 0 = num /\ state (getp (kp s) 0) = RUNNING.
Proof. intros (H1 & H2 & H3 & H4)%bool_decide_eq_true. split; [|done]. split_and!; [done|done|by rewrite H3]. Qed.

Lemma syscall_registers_witness : exists s s' : DK, runs_on s 0 0 /\ syscall trampoline_pa forkret_pa 0 1 [] 0 s = Ok (Done 1, s') /\
  tf (getp (kp s') 0) = zupd (tf (getp (kp s) 0)) (TF_a 0) 1.
Proof.
  destruct (ends_inv (calling SYS_getpid 7) reset_kernel (fun _ s => in_call SYS_getpid s && ends (syscall trampoline_pa forkret_pa 0 1 [] 0) s (fun r _ =>
    match r with Done v => v =? 1 | _ => false end))) as ([] & s & _ & H); [vm_compute; reflexivity|].
  apply andb_prop in H as [(Hr & Hn & Hrun)%in_call_ok H]. apply ends_inv in H as (r & s' & He & H). destruct r as [v| |]; [|done..]. apply Z.eqb_eq in H as ->.
  exists s, s'. split_and!; [done|done|]. apply (syscall_registers trampoline_pa forkret_pa 0 1 [] 0 0 s (Done 1) s' Hr Hrun); [by rewrite Hn|by rewrite Hn|done].
Defined.

Lemma syscall_unknown_witness : exists s s' : DK, runs_on s 0 0 /\ syscall trampoline_pa forkret_pa 0 1 [] 0 s = Ok (Done (-1), s').
Proof.
  destruct (ends_inv (calling 22 7) reset_kernel (fun _ s => in_call 22 s && ends (syscall trampoline_pa forkret_pa 0 1 [] 0) s (fun r _ => true)))
    as ([] & s & _ & H); [vm_compute; reflexivity|].
  apply andb_prop in H as [(Hr & Hn & Hrun)%in_call_ok H]. apply ends_inv in H as (r & s' & He & _). exists s, s'. split; [done|].
  destruct (syscall_unknown trampoline_pa forkret_pa 0 1 [] 0 0 s r s' Hr) as [-> _]; [rewrite Hn; lia|done|done].
Defined.

Lemma usertrap_syscall_returns_witness : exists (s s' : DK) t,
  usertrap trampoline_pa (trampoline_pa + 0) forkret_pa 5 6 0 1 1 [] (mret tt) (mret tt) 0 s = Ok (Resumes t, s') /\ sepc (harts s' !!! 0%nat) = 0x44.
Proof.
  destruct (ends_inv (calling SYS_getpid 7) reset_kernel (fun _ s => in_call SYS_getpid s && bool_decide (length (harts s) = 2%nat /\ scause (harts s !!! 0%nat) = 8 /\
    sepc (harts s !!! 0%nat) = 0x40 /\ zlen (tf (getp (kp s) 0)) = 36) &&
    ends (usertrap trampoline_pa (trampoline_pa + 0) forkret_pa 5 6 0 1 1 [] (mret tt) (mret tt) 0) s (fun r _ =>
    match r with Resumes t => true | _ => false end))) as ([] & s & _ & H); [vm_compute; reflexivity|].
  apply andb_prop in H as [[(Hr & Hn & Hrun)%in_call_ok Hh]%andb_prop H]. apply bool_decide_eq_true in Hh as (Hl & Hs & Hp & Ht).
  apply ends_inv in H as (r & s' & He & H). destruct r as [t| | |]; [|done..]. exists s, s', t. split; [done|].
  destruct (usertrap_syscall_returns trampoline_pa (trampoline_pa + 0) forkret_pa 5 6 0 1 1 [] (mret tt) (mret tt) 0 0 s t s' Hr Hrun) as (_ & E & _);
    [simpl; lia|done|done|by rewrite Hn|by rewrite Hn|done|]. change (Z.to_nat 0) with 0%nat in E. by rewrite E, Hp.
Defined.

Lemma sleep_time_witness : exists s s1 s2 : DK, sleep_round 8 0 98 3 s = Ok (Waits, s1) /\ clockintr 8 0 s1 = Ok (tt, s2) /\ ticks s2 = 101 /\ state (getp (kp s2) 0) = RUNNABLE.
Proof.
  destruct (ends_inv (calling SYS_sleep 3) reset_kernel (fun _ s => in_call SYS_sleep s && bool_decide (p_killed (getp (kp s) 0) = 0 /\ ticks s = 100)))
    as ([] & s & _ & H); [vm_compute; reflexivity|].
  apply andb_prop in H as [(Hr & Hn & Hrun)%in_call_ok H]. apply bool_decide_eq_true in H as [Hk Ht].
  destruct (sleep_time 8 0 0 0 s 98 3 2 Hr) as (s1 & s2 & H1 & _ & _ & H2 & H3 & H4); [lia|lia|done|done|lia|done|]. exists s, s1, s2. by split_and!.
Defined.

Lemma sys_sbrk_break_witness : exists s s' : DK, runs_on s 0 0 /\ sys_sbrk 0 s = Ok (Done 4096, s') /\ sz (getp (kp s') 0) = 4096 + 5000.
Proof.
  destruct (ends_inv (calling SYS_sbrk 5000) reset_kernel (fun _ s => in_call SYS_sbrk s && bool_decide (sz (getp (kp s) 0) = 4096 /\
    int (znth (tf (getp (kp s) 0)) (TF_a 0)) = 5000) && ends (sys_sbrk 0) s (fun r _ => match r with Done v => v =? 4096 | _ => false end)))
    as ([] & s & _ & H); [vm_compute; reflexivity|].
  apply andb_prop in H as [[(Hr & Hn & Hrun)%in_call_ok Hz]%andb_prop H]. apply bool_decide_eq_true in Hz as [Hz Ha]. apply ends_inv in H as (r & s' & He & H).
  destruct r as [v| |]; [|done..]. apply Z.eqb_eq in H as ->. exists s, s'. split_and!; [done|done|].
  destruct (sys_sbrk_break 0 0 s 4096 s' Hr) as [(? & _)|[_ E]]; [by rewrite Hz|done|done|]. by rewrite E, Hz, Ha.
Defined.
