(* ===== verification/Asm.v ===== *)
(** * The assembly code

    The instructions of [src/kernel/trampoline.S], [src/kernel/swtch.S],
    [src/kernel/kernelvec.S], [src/kernel/entry.S] and the stubs of [src/user/usys.pl], one
    for one, on the part of a RISC-V hart that they use: 64-bit registers, the
    CSRs they name, and physical memory in words of eight bytes, reached through a translation
    [tr] that depends on [satp].  An access that is not mapped, not aligned or outside
    memory faults.  The C functions that are called are given by what they do to the hart. *)

From stdpp Require Import base numbers list gmap strings.
From Stdlib Require Import ZArith Lia.
From S2P Require Import Prelude Params Kalloc Vm.

Inductive reg :=
| Zero | Ra | Sp | Gp | Tp | T0 | T1 | T2 | S0 | S1
| A0 | A1 | A2 | A3 | A4 | A5 | A6 | A7
| S2 | S3 | S4 | S5 | S6 | S7 | S8 | S9 | S10 | S11 | T3 | T4 | T5 | T6.
#[export] Instance reg_eq_dec : EqDecision reg.
Proof. solve_decision. Defined.
Inductive csr := Sscratch | Satp | Sepc | Sip | Sie | Mscratch | Mepc | Mhartid | Mstatus | Mtvec | Mie | Medeleg | Mideleg | Pmpaddr0 | Pmpcfg0.
#[export] Instance csr_eq_dec : EqDecision csr.
Proof. solve_decision. Defined.

Record mach := mk_mach { rg : reg -> Z; cs : csr -> Z; words : gmap Z Z }.
Definition set_rg (r : reg) (v : Z) (s : mach) : mach :=
  mk_mach (fun q => if decide (q = r /\ r <> Zero) then v else rg s q) (cs s) (words s).
Definition set_cs (c : csr) (v : Z) (s : mach) : mach := mk_mach (rg s) (fun d => if decide (d = c) then v else cs s d) (words s).
Definition set_words (m : gmap Z Z) (s : mach) : mach := mk_mach (rg s) (cs s) m.

Inductive instr :=
| Sd (rs : reg) (off : Z) (base : reg)
| Ld (rd : reg) (off : Z) (base : reg)
| Li (rd : reg) (imm : Z)
| Addi (rd rs : reg) (imm : Z)
| Add (rd rs1 rs2 : reg)
| Mul (rd rs1 rs2 : reg)
| Csrr (rd : reg) (c : csr)
| Csrw (c : csr) (rs : reg)
| Csrrw (rd : reg) (c : csr) (rs : reg)
| SfenceVma
| Call (f : K mach unit).
(** How a piece of code ends, and where execution goes on *)
Inductive exit_instr := Jr (rs : reg) | Ret | Sret | Mret.

Section Exec.
Context (tr : Z -> Z -> option Z).

Definition translate (a : Z) : K mach Z :=
  s ← get;
  match tr (cs s Satp) (uint64 a) with
  | None => fault "page fault"
  | Some pa =>
      if negb (pa mod 8 =? 0) then fault "misaligned"
      else match words s !! pa with None => fault "access fault" | Some _ => mret pa end
  end.

Definition exec_instr (i : instr) : K mach unit :=
  match i with
  | Sd rs off base => s ← get; pa ← translate (rg s base + off); modify (fun s => set_words (<[pa := rg s rs]> (words s)) s)
  | Ld rd off base => s ← get; pa ← translate (rg s base + off); modify (fun s => set_rg rd (words s !!! pa) s)
  | Li rd imm => modify (set_rg rd (uint64 imm))
  | Addi rd rs imm => modify (fun s => set_rg rd (uint64 (rg s rs + imm)) s)
  | Add rd rs1 rs2 => modify (fun s => set_rg rd (uint64 (rg s rs1 + rg s rs2)) s)
  | Mul rd rs1 rs2 => modify (fun s => set_rg rd (uint64 (rg s rs1 * rg s rs2)) s)
  | Csrr rd c => modify (fun s => set_rg rd (cs s c) s)
  | Csrw c rs => modify (fun s => set_cs c (rg s rs) s)
  | Csrrw rd c rs => modify (fun s => set_rg rd (cs s c) (set_cs c (rg s rs) s))
  | SfenceVma => mret tt
  | Call f => f
  end.

Fixpoint exec_all (l : list instr) : K mach unit :=
  match l with [] => mret tt | i :: l => exec_instr i;; exec_all l end.
Definition next_pc (e : exit_instr) (s : mach) : Z :=
  match e with Jr rs => rg s rs | Ret => rg s Ra | Sret => cs s Sepc | Mret => cs s Mepc end.
Definition run_code (c : list instr * exit_instr) : K mach Z := exec_all (fst c);; gets (next_pc (snd c)).
End Exec.

(** ** [src/kernel/trampoline.S] *)

Definition uservec : list instr * exit_instr := ([
  Csrw Sscratch A0;
  Li A0 TRAPFRAME;
  Sd Ra 40 A0; Sd Sp 48 A0; Sd Gp 56 A0; Sd Tp 64 A0; Sd T0 72 A0; Sd T1 80 A0; Sd T2 88 A0; Sd S0 96 A0; Sd S1 104 A0;
  Sd A1 120 A0; Sd A2 128 A0; Sd A3 136 A0; Sd A4 144 A0; Sd A5 152 A0; Sd A6 160 A0; Sd A7 168 A0;
  Sd S2 176 A0; Sd S3 184 A0; Sd S4 192 A0; Sd S5 200 A0; Sd S6 208 A0; Sd S7 216 A0; Sd S8 224 A0; Sd S9 232 A0; Sd S10 240 A0; Sd S11 248 A0;
  Sd T3 256 A0; Sd T4 264 A0; Sd T5 272 A0; Sd T6 280 A0;
  Csrr T0 Sscratch;
  Sd T0 112 A0;
  Ld Sp 8 A0;
  Ld Tp 32 A0;
  Ld T0 16 A0;
  Ld T1 0 A0;
  SfenceVma;
  Csrw Satp T1;
  SfenceVma], Jr T0).

Definition userret : list instr * exit_instr := ([
  SfenceVma;
  Csrw Satp A0;
  SfenceVma;
  Li A0 TRAPFRAME;
  Ld Ra 40 A0; Ld Sp 48 A0; Ld Gp 56 A0; Ld Tp 64 A0; Ld T0 72 A0; Ld T1 80 A0; Ld T2 88 A0; Ld S0 96 A0; Ld S1 104 A0;
  Ld A1 120 A0; Ld A2 128 A0; Ld A3 136 A0; Ld A4 144 A0; Ld A5 152 A0; Ld A6 160 A0; Ld A7 168 A0;
  Ld S2 176 A0; Ld S3 184 A0; Ld S4 192 A0; Ld S5 200 A0; Ld S6 208 A0; Ld S7 216 A0; Ld S8 224 A0; Ld S9 232 A0; Ld S10 240 A0; Ld S11 248 A0;
  Ld T3 256 A0; Ld T4 264 A0; Ld T5 272 A0; Ld T6 280 A0;
  Ld A0 112 A0], Sret).

(** ** [src/kernel/swtch.S] *)

Definition swtch : list instr * exit_instr := ([
  Sd Ra 0 A0; Sd Sp 8 A0; Sd S0 16 A0; Sd S1 24 A0; Sd S2 32 A0; Sd S3 40 A0; Sd S4 48 A0; Sd S5 56 A0; Sd S6 64 A0; Sd S7 72 A0; Sd S8 80 A0; Sd S9 88 A0;
  Sd S10 96 A0; Sd S11 104 A0;
  Ld Ra 0 A1; Ld Sp 8 A1; Ld S0 16 A1; Ld S1 24 A1; Ld S2 32 A1; Ld S3 40 A1; Ld S4 48 A1; Ld S5 56 A1; Ld S6 64 A1; Ld S7 72 A1; Ld S8 80 A1; Ld S9 88 A1;
  Ld S10 96 A1; Ld S11 104 A1], Ret).

(** ** [src/kernel/kernelvec.S] *)

Definition kernelvec (kerneltrap : K mach unit) : list instr * exit_instr := ([
  Addi Sp Sp (-256);
  Sd Ra 0 Sp; Sd Sp 8 Sp; Sd Gp 16 Sp; Sd Tp 24 Sp; Sd T0 32 Sp; Sd T1 40 Sp; Sd T2 48 Sp; Sd S0 56 Sp; Sd S1 64 Sp;
  Sd A0 72 Sp; Sd A1 80 Sp; Sd A2 88 Sp; Sd A3 96 Sp; Sd A4 104 Sp; Sd A5 112 Sp; Sd A6 120 Sp; Sd A7 128 Sp;
  Sd S2 136 Sp; Sd S3 144 Sp; Sd S4 152 Sp; Sd S5 160 Sp; Sd S6 168 Sp; Sd S7 176 Sp; Sd S8 184 Sp; Sd S9 192 Sp; Sd S10 200 Sp; Sd S11 208 Sp;
  Sd T3 216 Sp; Sd T4 224 Sp; Sd T5 232 Sp; Sd T6 240 Sp;
  Call kerneltrap;
  Ld Ra 0 Sp; Ld Sp 8 Sp; Ld Gp 16 Sp; Ld T0 32 Sp; Ld T1 40 Sp; Ld T2 48 Sp; Ld S0 56 Sp; Ld S1 64 Sp;
  Ld A0 72 Sp; Ld A1 80 Sp; Ld A2 88 Sp; Ld A3 96 Sp; Ld A4 104 Sp; Ld A5 112 Sp; Ld A6 120 Sp; Ld A7 128 Sp;
  Ld S2 136 Sp; Ld S3 144 Sp; Ld S4 152 Sp; Ld S5 160 Sp; Ld S6 168 Sp; Ld S7 176 Sp; Ld S8 184 Sp; Ld S9 192 Sp; Ld S10 200 Sp; Ld S11 208 Sp;
  Ld T3 216 Sp; Ld T4 224 Sp; Ld T5 232 Sp; Ld T6 240 Sp;
  Addi Sp Sp 256], Sret).

Definition timervec : list instr * exit_instr := ([
  Csrrw A0 Mscratch A0;
  Sd A1 0 A0; Sd A2 8 A0; Sd A3 16 A0;
  Ld A1 24 A0;
  Ld A2 32 A0;
  Ld A3 0 A1;
  Add A3 A3 A2;
  Sd A3 0 A1;
  Li A1 2;
  Csrw Sip A1;
  Ld A3 16 A0; Ld A2 8 A0; Ld A1 0 A0;
  Csrrw A0 Mscratch A0], Mret).

(** ** [src/kernel/entry.S], up to the call of [start] *)

Definition entry_ (stack0 : Z) : list instr :=
  [Li Sp stack0; Li A0 (1024 * 4); Csrr A1 Mhartid; Addi A1 A1 1; Mul A0 A0 A1; Add Sp Sp A0].

(** ** The stub of a system call, [src/user/usys.pl]; [ecall] is the trap into the kernel. *)

Definition usys_entry (ecall : K mach unit) (num : Z) : list instr * exit_instr := ([Li A7 num; Call ecall], Ret).

(** ** What the assembly code does

    The save and restore sequences, over any table of registers and offsets; then each
    routine. *)

Lemma rg_set_eq r v s : r <> Zero -> rg (set_rg r v s) r = v.
Proof. intros H. simpl. by rewrite decide_True. Qed.
Lemma rg_set_ne r q v s : q <> r -> rg (set_rg r v s) q = rg s q.
Proof. intros H. simpl. rewrite decide_False; [done|]. by intros [? _]. Qed.

Section Sequences.
Context (tr : Z -> Z -> option Z).

(** Memory from virtual address [va] on: [n] bytes at [pa] *)
Definition block (satp : Z) (m : gmap Z Z) (va pa n : Z) : Prop :=
  pa mod 8 = 0 /\ forall off, 0 <= off < n -> off mod 8 = 0 -> tr satp (uint64 (va + off)) = Some (pa + off) /\ is_Some (m !! (pa + off)).
Definition in_block (n : Z) (t : list (reg * Z)) : Prop := Forall (fun '(_, off) => 0 <= off < n /\ off mod 8 = 0) t.
#[export] Instance in_block_dec n t : Decision (in_block n t).
Proof. unfold in_block. apply Forall_dec. intros [r o]. apply _. Defined.

Lemma translate_ok s va pa n off : block (cs s Satp) (words s) va pa n -> 0 <= off < n -> off mod 8 = 0 ->
  translate tr (va + off) s = Ok (pa + off, s).
Proof.
  intros [Hpa Hb] Ho Hm. destruct (Hb off Ho Hm) as [Ht [v Hv]]. unfold translate. rewrite bind_get, Ht.
  replace ((pa + off) mod 8) with 0 by (rewrite Z.add_mod, Hpa, Hm by lia; done). simpl. by rewrite Hv.
Qed.

Definition saves (b : reg) (t : list (reg * Z)) : list instr := (fun '(r, o) => Sd r o b) <$> t.
Definition loads (b : reg) (t : list (reg * Z)) : list instr := (fun '(r, o) => Ld r o b) <$> t.

Lemma exec_app l l' s s' : exec_all tr l s = Ok (tt, s') -> exec_all tr (l ++ l') s = exec_all tr l' s'.
Proof.
  revert s. induction l as [|i l IH]; intros s; cbn [exec_all app]; [by intros [= ->]|].
  intros ([] & s1 & H1 & H2)%bind_inv. rewrite (bind_ok _ _ _ _ _ H1). by apply IH.
Qed.
Lemma exec_cons i l s s' : exec_instr tr i s = Ok (tt, s') -> exec_all tr (i :: l) s = exec_all tr l s'.
Proof. intros H. cbn [exec_all]. by rewrite (bind_ok _ _ _ _ _ H). Qed.

Lemma block_insert satp m va pa n a v : block satp m va pa n -> block satp (<[a := v]> m) va pa n.
Proof. intros [Hp Hb]. split; [done|]. intros off Ho Hm. destruct (Hb off Ho Hm) as [? ?]. split; [done|]. by apply lookup_insert_is_Some'; right. Qed.

Lemma saves_ok b t s pa n : block (cs s Satp) (words s) (rg s b) pa n -> in_block n t -> NoDup t.*2 ->
  exists m, exec_all tr (saves b t) s = Ok (tt, set_words m s) /\
    (forall r o, (r, o) ∈ t -> m !! (pa + o) = Some (rg s r)) /\
    (forall a, a ∉ (Z.add pa <$> t.*2) -> m !! a = words s !! a).
Proof.
  revert s. induction t as [|[r o] t IH]; intros s Hb Ht Hn.
  - exists (words s). split_and!; [by destruct s|by intros ? ? ?%not_elem_of_nil|done].
  - apply Forall_cons in Ht as [[Ho Hm] Ht]. apply NoDup_cons in Hn as [Hno Hn].
    destruct (IH (set_words (<[pa + o := rg s r]> (words s)) s)) as (m & He & Hin & Hout); [by apply block_insert|done|done|].
    exists m. split_and!.
    + change (saves b ((r, o) :: t)) with (Sd r o b :: saves b t). rewrite (exec_cons _ _ _ (set_words (<[pa + o := rg s r]> (words s)) s)); [exact He|].
      cbn [exec_instr]. rewrite bind_get. by rewrite (bind_ok _ _ _ _ _ (translate_ok s _ pa n o Hb Ho Hm)).
    + intros r' o' [[= -> ->]|Hi]%elem_of_cons; [|by apply Hin]. rewrite Hout; [apply lookup_insert_eq|].
      intros (x & Hx & Hi)%list_elem_of_fmap. apply Hno. by replace o with x by lia.
    + intros a Ha. cbn in Ha. apply not_elem_of_cons in Ha as [Ha1 Ha2]. rewrite Hout by done. by apply lookup_insert_ne.
Qed.

Lemma loads_ok b t s pa n : block (cs s Satp) (words s) (rg s b) pa n -> in_block n t -> NoDup t.*1 -> Zero ∉ t.*1 ->
  (forall o, (b, o) ∈ t -> words s !! (pa + o) = Some (rg s b)) ->
  exists f, exec_all tr (loads b t) s = Ok (tt, mk_mach f (cs s) (words s)) /\
    (forall r o, (r, o) ∈ t -> words s !! (pa + o) = Some (f r)) /\ (forall r, r ∉ t.*1 -> f r = rg s r).
Proof.
  revert s. induction t as [|[r o] t IH]; intros s Hb Ht Hn Hz Hbase.
  - exists (rg s). split_and!; [by destruct s|by intros ? ? ?%not_elem_of_nil|done].
  - apply Forall_cons in Ht as [[Ho Hm] Ht]. apply NoDup_cons in Hn as [Hno Hn]. apply not_elem_of_cons in Hz as [Hz0 Hz].
    destruct (proj2 Hb o Ho Hm) as [_ [v Hv]]. set (s1 := set_rg r v s).
    assert (Eb : rg s1 b = rg s b).
    { destruct (decide (b = r)) as [<-|]; [|by apply rg_set_ne]. unfold s1. rewrite rg_set_eq by done. specialize (Hbase o (list_elem_of_here _ _)). congruence. }
    destruct (IH s1) as (f & He & Hin & Hout); [by rewrite Eb|done|done|done|intros o' Ho'; rewrite Eb; apply Hbase; by right|].
    exists f. split_and!.
    + change (loads b ((r, o) :: t)) with (Ld r o b :: loads b t). rewrite (exec_cons _ _ _ s1); [exact He|].
      cbn [exec_instr]. rewrite bind_get. rewrite (bind_ok _ _ _ _ _ (translate_ok s _ pa n o Hb Ho Hm)). unfold modify, s1. by rewrite (lookup_total_correct _ _ _ Hv).
    + intros r' o' [[= -> ->]|Hi]%elem_of_cons; [|by apply Hin]. rewrite Hout by done. unfold s1. by rewrite rg_set_eq.
    + intros r' Hr'. cbn in Hr'. apply not_elem_of_cons in Hr' as [Hr1 Hr2]. rewrite Hout by done. by apply rg_set_ne.
Qed.
End Sequences.

(** ** The trampoline *)

(** The user registers in [struct trapframe]: those [uservec] saves through [a0], then [a0] itself *)
Definition tf_most : list (reg * Z) :=
  [(Ra, 40); (Sp, 48); (Gp, 56); (Tp, 64); (T0, 72); (T1, 80); (T2, 88); (S0, 96); (S1, 104); (A1, 120); (A2, 128); (A3, 136); (A4, 144); (A5, 152);
   (A6, 160); (A7, 168); (S2, 176); (S3, 184); (S4, 192); (S5, 200); (S6, 208); (S7, 216); (S8, 224); (S9, 232); (S10, 240); (S11, 248); (T3, 256);
   (T4, 264); (T5, 272); (T6, 280)].
Definition tf_regs : list (reg * Z) := tf_most ++ [(A0, 112)].
Definition tf_kernel : list (reg * Z) := [(Sp, 8); (Tp, 32); (T0, 16); (T1, 0)].

(** A decidable property of every entry of a table *)
Lemma all_of (P : reg * Z -> Prop) `{forall x, Decision (P x)} (t : list (reg * Z)) : forallb (fun x => bool_decide (P x)) t = true -> forall x, x ∈ t -> P x.
Proof. intros Hb x Hx. rewrite forallb_forall in Hb. apply list_elem_of_In in Hx. by eapply bool_decide_eq_true, Hb. Qed.
Lemma tf_most_a0 r o : (r, o) ∈ tf_most -> r <> A0 /\ o <> 112.
Proof. apply (all_of (fun x => x.1 <> A0 /\ x.2 <> 112) tf_most); vm_compute; reflexivity. Qed.
Lemma tf_kernel_off r o : (r, o) ∈ tf_kernel -> r <> A0 /\ o ∉ tf_most.*2 /\ o ∉ [(T0, 112)].*2.
Proof. apply (all_of (fun x => x.1 <> A0 /\ x.2 ∉ tf_most.*2 /\ x.2 ∉ [(T0, 112)].*2) tf_kernel); vm_compute; reflexivity. Qed.

Section Routines.
Context (tr : Z -> Z -> option Z).
Abbreviation block := (block tr).
Abbreviation run := (run_code tr).

Lemma block_words satp m m' va pa n : block satp m va pa n -> (forall a, is_Some (m !! a) -> is_Some (m' !! a)) -> block satp m' va pa n.
Proof using Type. intros [Hp Hb] Hm. split; [done|]. intros off Ho Ha. destruct (Hb off Ho Ha). eauto. Qed.
Lemma saved_some s m pa n va t : block (cs s Satp) (words s) va pa n -> (forall r o, (r, o) ∈ t -> m !! (pa + o) = Some (rg s r)) ->
  (forall a, a ∉ (Z.add pa <$> t.*2) -> m !! a = words s !! a) -> block (cs s Satp) m va pa n.
Proof using Type.
  intros Hb Hin Hout. apply (block_words _ (words s)); [done|]. intros a Ha. destruct (decide (a ∈ (Z.add pa <$> t.*2))) as [Hi|Hi]; [|by rewrite Hout].
  apply list_elem_of_fmap in Hi as (o & -> & ([r o'] & -> & Hi)%list_elem_of_fmap). simpl. rewrite (Hin r o') by done. by eexists.
Qed.
Lemma off_notin pa (t : list (reg * Z)) o : o ∉ t.*2 -> pa + o ∉ (Z.add pa <$> t.*2).
Proof using Type. intros H (x & Hx & Hi)%list_elem_of_fmap. apply H. by replace o with x by lia. Qed.

Lemma uservec_ok s pa : block (cs s Satp) (words s) TRAPFRAME pa 288 ->
  exists pc s', run uservec s = Ok (pc, s') /\
    (forall r o, (r, o) ∈ tf_regs -> words s' !! (pa + o) = Some (rg s r)) /\
    (forall a, a ∉ (Z.add pa <$> tf_regs.*2) -> words s' !! a = words s !! a) /\
    words s !! (pa + 16) = Some pc /\ words s !! (pa + 8) = Some (rg s' Sp) /\ words s !! (pa + 32) = Some (rg s' Tp) /\ words s !! (pa + 0) = Some (cs s' Satp).
Proof using Type.
  intros Hb. set (s1 := set_rg A0 TRAPFRAME (set_cs Sscratch (rg s A0) s)).
  destruct (saves_ok tr A0 tf_most s1 pa 288) as (m1 & H1 & Hin1 & Hout1); [done|by apply (bool_decide_unpack _); vm_compute|by apply (bool_decide_unpack _); vm_compute|].
  set (s2 := set_rg T0 (rg s A0) (set_words m1 s1)).
  assert (Hb1 : block (cs s Satp) m1 TRAPFRAME pa 288) by (by apply (saved_some s1 m1 pa 288 TRAPFRAME tf_most)).
  destruct (saves_ok tr A0 [(T0, 112)] s2 pa 288) as (m2 & H2 & Hin2 & Hout2); [done|by apply (bool_decide_unpack _); vm_compute|by apply NoDup_singleton|].
  set (s3 := set_words m2 s2). assert (Hb2 : block (cs s Satp) m2 TRAPFRAME pa 288) by (by apply (saved_some s2 m2 pa 288 TRAPFRAME [(T0, 112)])).
  destruct (loads_ok tr A0 tf_kernel s3 pa 288) as (f & H3 & Hin3 & Hout3); [done|by apply (bool_decide_unpack _); vm_compute..|by intros o [? _]%tf_kernel_off|].
  assert (Hk : forall r o, (r, o) ∈ tf_kernel -> words s !! (pa + o) = Some (f r)).
  { intros r o Ho. rewrite <- (Hin3 r o Ho). simpl. apply tf_kernel_off in Ho as (_ & Hn1 & Hn2).
    rewrite Hout2 by (by apply off_notin). simpl. by rewrite Hout1 by (by apply off_notin). }
  set (s4 := mk_mach f (cs s3) m2). exists (f T0), (set_cs Satp (f T1) s4). split_and!.
  - unfold run_code. rewrite (bind_ok _ _ _ tt (set_cs Satp (f T1) s4)); [reflexivity|].
    change (fst uservec) with ([Csrw Sscratch A0; Li A0 TRAPFRAME] ++ saves A0 tf_most ++ [Csrr T0 Sscratch] ++ saves A0 [(T0, 112)] ++ loads A0 tf_kernel ++ [SfenceVma; Csrw Satp T1; SfenceVma]).
    rewrite (exec_app tr _ _ s s1) by done. rewrite (exec_app tr _ _ _ _ H1). rewrite (exec_app tr _ _ _ s2) by done.
    rewrite (exec_app tr _ _ _ _ H2). by rewrite (exec_app tr _ _ _ _ H3).
  - intros r o Hi. simpl. unfold tf_regs in Hi. apply elem_of_app in Hi as [Hi|Hi].
    + pose proof (tf_most_a0 _ _ Hi) as [Hr Ho]. rewrite Hout2 by (apply off_notin; by intros ->%list_elem_of_singleton).
      simpl. rewrite (Hin1 r o Hi). unfold s1. by rewrite rg_set_ne.
    + apply list_elem_of_singleton in Hi as [= -> ->]. rewrite (Hin2 T0 112) by (by left). done.
  - intros a Ha. simpl. unfold tf_regs in Ha. rewrite fmap_app, fmap_app, not_elem_of_app in Ha. destruct Ha as [Ha1 Ha2].
    rewrite Hout2 by done. simpl. by rewrite Hout1.
  - by apply Hk; right; right; left.
  - apply Hk. by left.
  - apply Hk. by right; left.
  - apply Hk. by do 3 right; left.
Qed.

Lemma userret_ok s pa : block (rg s A0) (words s) TRAPFRAME pa 288 ->
  exists s', run userret s = Ok (cs s Sepc, s') /\ words s' = words s /\ cs s' Satp = rg s A0 /\
    (forall r o, (r, o) ∈ tf_regs -> words s !! (pa + o) = Some (rg s' r)).
Proof using Type.
  intros Hb. set (s1 := set_rg A0 TRAPFRAME (set_cs Satp (rg s A0) s)).
  destruct (loads_ok tr A0 tf_most s1 pa 288) as (f & H1 & Hin1 & Hout1); [done|by apply (bool_decide_unpack _); vm_compute..|by intros o [? _]%tf_most_a0|].
  set (s2 := mk_mach f (cs s1) (words s1)). assert (Ha0 : f A0 = TRAPFRAME) by (rewrite Hout1; [done|by apply (bool_decide_unpack _); vm_compute]).
  destruct (proj2 Hb 112) as [_ [v Hv]]; [lia|done|]. set (s3 := set_rg A0 v s2). exists s3. split_and!; [|done|done|].
  - unfold run_code. rewrite (bind_ok _ _ _ tt s3); [reflexivity|].
    change (fst userret) with ([SfenceVma; Csrw Satp A0; SfenceVma; Li A0 TRAPFRAME] ++ loads A0 tf_most ++ [Ld A0 112 A0]).
    rewrite (exec_app tr _ _ s s1) by done. rewrite (exec_app tr _ _ _ _ H1).
    assert (Hl : exec_instr tr (Ld A0 112 A0) s2 = Ok (tt, s3)); [|by rewrite (exec_cons tr _ _ _ _ Hl)].
    cbn [exec_instr]. rewrite bind_get. change (rg s2 A0) with (f A0). rewrite Ha0. rewrite (bind_ok _ _ _ _ _ (translate_ok tr s2 TRAPFRAME pa 288 112 Hb ltac:(lia) eq_refl)).
    unfold modify, s3. by rewrite (lookup_total_correct _ _ _ Hv).
  - intros r o Hi. unfold tf_regs in Hi. apply elem_of_app in Hi as [Hi|Hi].
    + pose proof (tf_most_a0 _ _ Hi) as [Hr _]. unfold s3. rewrite rg_set_ne by done. by apply Hin1.
    + apply list_elem_of_singleton in Hi as [= -> ->]. unfold s3. by rewrite rg_set_eq.
Qed.

(** ** [swtch] *)

(** [struct context] *)
Definition context_regs : list (reg * Z) :=
  [(Ra, 0); (Sp, 8); (S0, 16); (S1, 24); (S2, 32); (S3, 40); (S4, 48); (S5, 56); (S6, 64); (S7, 72); (S8, 80); (S9, 88); (S10, 96); (S11, 104)].
Lemma context_not_args r o : (r, o) ∈ context_regs -> r <> A0 /\ r <> A1 /\ 0 <= o < 112.
Proof using Type. apply (all_of (fun x => x.1 <> A0 /\ x.1 <> A1 /\ 0 <= x.2 < 112) context_regs); vm_compute; reflexivity. Qed.

Lemma swtch_ok s old new : block (cs s Satp) (words s) (rg s A0) old 112 -> block (cs s Satp) (words s) (rg s A1) new 112 ->
  (forall o, 0 <= o < 112 -> new + o ∉ (Z.add old <$> context_regs.*2)) ->
  exists pc s', run swtch s = Ok (pc, s') /\ cs s' = cs s /\ words s !! (new + 0) = Some pc /\
    (forall r o, (r, o) ∈ context_regs -> words s' !! (old + o) = Some (rg s r) /\ words s !! (new + o) = Some (rg s' r)) /\
    (forall r, r ∉ context_regs.*1 -> rg s' r = rg s r) /\
    (forall a, a ∉ (Z.add old <$> context_regs.*2) -> words s' !! a = words s !! a).
Proof using Type.
  intros Ho Hn Hd. destruct (saves_ok tr A0 context_regs s old 112) as (m & H1 & Hin1 & Hout1); [done|by apply (bool_decide_unpack _); vm_compute..|].
  assert (Hn1 : block (cs s Satp) m (rg s A1) new 112).
  { destruct Hn as [Hp Hn]. split; [done|]. intros o Hr Ha. destruct (Hn o Hr Ha). by rewrite Hout1 by (by apply Hd). }
  destruct (loads_ok tr A1 context_regs (set_words m s) new 112) as (f & H2 & Hin2 & Hout2); [done|by apply (bool_decide_unpack _); vm_compute..|by intros o (_ & ? & _)%context_not_args|].
  assert (Hw : forall r o, (r, o) ∈ context_regs -> words s !! (new + o) = Some (f r)).
  { intros r o Hi. rewrite <- (Hin2 r o Hi). simpl. rewrite Hout1; [done|]. apply Hd.
    by apply context_not_args in Hi as (_ & _ & ?). }
  exists (f Ra), (mk_mach f (cs s) m). split_and!; [|done|by apply Hw; left| |done|done].
  - unfold run_code. rewrite (bind_ok _ _ _ tt (mk_mach f (cs s) m)); [reflexivity|]. change (fst swtch) with (saves A0 context_regs ++ loads A1 context_regs).
    by rewrite (exec_app tr _ _ _ _ H1).
  - intros r o Hi. split; [by apply Hin1|by apply Hw].
Qed.

(** C23: A thread that calls [swtch] and is switched back to later finds its stack and its callee-saved registers as they were and goes on where it called,
    if its [struct context] has been left alone meanwhile. *)
Theorem swtch_resumes s old new s1 pc s2 other : block (cs s Satp) (words s) (rg s A0) old 112 -> block (cs s Satp) (words s) (rg s A1) new 112 ->
  (forall o, 0 <= o < 112 -> new + o ∉ (Z.add old <$> context_regs.*2)) -> run swtch s = Ok (pc, s1) ->
  (forall o, 0 <= o < 112 -> words s2 !! (old + o) = words s1 !! (old + o)) ->
  block (cs s2 Satp) (words s2) (rg s2 A0) other 112 -> block (cs s2 Satp) (words s2) (rg s2 A1) old 112 ->
  (forall o, 0 <= o < 112 -> old + o ∉ (Z.add other <$> context_regs.*2)) ->
  exists s3, run swtch s2 = Ok (rg s Ra, s3) /\ forall r, r ∈ context_regs.*1 -> rg s3 r = rg s r.
Proof using Type.
  intros H1 H2 Hd Hs Hm H3 H4 Hd'. destruct (swtch_ok s old new H1 H2 Hd) as (pc' & s1' & Hr & _ & _ & Hc & _). rewrite Hs in Hr. injection Hr as <- <-.
  destruct (swtch_ok s2 other old H3 H4 Hd') as (pc3 & s3 & Hr3 & _ & Hpc & Hc3 & _).
  assert (E : forall r o, (r, o) ∈ context_regs -> words s2 !! (old + o) = Some (rg s r)).
  { intros r o Hi. pose proof (context_not_args _ _ Hi) as (_ & _ & Ho). rewrite Hm by done. by apply Hc. }
  rewrite (E Ra 0) in Hpc by (by left). injection Hpc as <-. exists s3. split; [done|].
  intros r ([q o] & -> & Hi)%list_elem_of_fmap. destruct (Hc3 q o Hi) as [_ Hw]. rewrite (E q o Hi) in Hw. by injection Hw.
Qed.

(** ** [kernelvec] *)

Definition kv_saved : list (reg * Z) :=
  [(Ra, 0); (Sp, 8); (Gp, 16); (Tp, 24); (T0, 32); (T1, 40); (T2, 48); (S0, 56); (S1, 64); (A0, 72); (A1, 80); (A2, 88); (A3, 96); (A4, 104); (A5, 112);
   (A6, 120); (A7, 128); (S2, 136); (S3, 144); (S4, 152); (S5, 160); (S6, 168); (S7, 176); (S8, 184); (S9, 192); (S10, 200); (S11, 208); (T3, 216);
   (T4, 224); (T5, 232); (T6, 240)].
Definition kv_loaded : list (reg * Z) := filter (fun x => x.1 <> Tp) kv_saved.
Lemma kv_loaded_saved r o : (r, o) ∈ kv_loaded -> (r, o) ∈ kv_saved /\ 0 <= o < 256 /\ (r = Sp -> o = 8) /\ r <> Tp.
Proof using Type. apply (all_of (fun x => (x ∈ kv_saved) /\ 0 <= x.2 < 256 /\ (x.1 = Sp -> x.2 = 8) /\ x.1 <> Tp) kv_loaded); vm_compute; reflexivity. Qed.
Lemma kv_all r : r <> Zero -> r <> Tp -> exists o, (r, o) ∈ kv_loaded.
Proof using Type.
  intros Hz Ht. assert (Hi : r ∈ kv_loaded.*1).
  { revert Hz Ht. destruct r; intros; try done; by apply (bool_decide_unpack _); vm_compute. }
  apply list_elem_of_fmap in Hi as ([q o] & -> & Hi). by exists o.
Qed.

(** What the calling convention promises of [kerneltrap]: it keeps [sp] and the stack frame of its caller. *)
Definition abi_frame (f : K mach unit) (pa : Z) : Prop :=
  forall s s', f s = Ok (tt, s') -> rg s' Sp = rg s Sp /\ cs s' Satp = cs s Satp /\ forall o, 0 <= o < 256 -> words s' !! (pa + o) = words s !! (pa + o).

(** C22: A trap in the kernel is transparent: when [kerneltrap] returns, [kernelvec] gives back every register as it was when the trap was taken,
    but for [tp], which is that of the CPU the thread is on now. *)
Theorem kernelvec_transparent kerneltrap s pa : 0 <= rg s Sp < 2 ^ 64 -> block (cs s Satp) (words s) (uint64 (rg s Sp - 256)) pa 256 -> abi_frame kerneltrap pa ->
  (forall s1, rg s1 Sp = uint64 (rg s Sp - 256) -> exists s2, kerneltrap s1 = Ok (tt, s2)) ->
  exists s1 s2 s', (forall r, r <> Sp -> rg s1 r = rg s r) /\ cs s1 = cs s /\ kerneltrap s1 = Ok (tt, s2) /\ run (kernelvec kerneltrap) s = Ok (cs s2 Sepc, s') /\
    (forall r, r <> Tp -> r <> Zero -> rg s' r = rg s r) /\ rg s' Tp = rg s2 Tp /\ cs s' = cs s2.
Proof using Type.
  intros Hsp Hb Habi Hret. set (s0 := set_rg Sp (uint64 (rg s Sp - 256)) s).
  destruct (saves_ok tr Sp kv_saved s0 pa 256) as (m & H1 & Hin1 & Hout1); [done|by apply (bool_decide_unpack _); vm_compute..|].
  set (s1 := set_words m s0). destruct (Hret s1) as [s2 H2]; [done|]. destruct (Habi s1 s2 H2) as (Esp & Esat & Em).
  assert (Hb1 : block (cs s Satp) m (uint64 (rg s Sp - 256)) pa 256) by (by apply (saved_some s0 m pa 256 _ kv_saved)).
  assert (Hb2 : block (cs s2 Satp) (words s2) (rg s2 Sp) pa 256).
  { rewrite Esp, Esat. destruct Hb1 as [Hp Hb1]. split; [done|]. intros o Ho Ha. destruct (Hb1 o Ho Ha). rewrite Em by done. done. }
  assert (Hw : forall r o, (r, o) ∈ kv_saved -> 0 <= o < 256 -> words s2 !! (pa + o) = Some (rg s0 r)) by (intros r o Hi Ho; rewrite Em by done; by apply Hin1).
  destruct (loads_ok tr Sp kv_loaded s2 pa 256) as (f & H3 & Hin3 & Hout3); [done|by apply (bool_decide_unpack _); vm_compute..| |].
  { intros o (Hi & Ho & _)%kv_loaded_saved. rewrite Esp. by apply (Hw Sp o). }
  assert (Hf : forall r, r <> Zero -> r <> Tp -> f r = rg s0 r).
  { intros r Hz Ht. destruct (kv_all r Hz Ht) as [o Hi]. pose proof (kv_loaded_saved _ _ Hi) as (Hi' & Ho & _). specialize (Hin3 r o Hi). rewrite (Hw r o Hi' Ho) in Hin3. by injection Hin3. }
  set (s3 := mk_mach f (cs s2) (words s2)). exists s1, s2, (set_rg Sp (uint64 (f Sp + 256)) s3). split_and!; [intros r Hr; by apply rg_set_ne|done|done| | | |done].
  - unfold run_code. rewrite (bind_ok _ _ _ tt (set_rg Sp (uint64 (f Sp + 256)) s3)); [reflexivity|].
    change (fst (kernelvec kerneltrap)) with ([Addi Sp Sp (-256)] ++ saves Sp kv_saved ++ [Call kerneltrap] ++ loads Sp kv_loaded ++ [Addi Sp Sp 256]).
    rewrite (exec_app tr _ _ s s0) by done. rewrite (exec_app tr _ _ _ _ H1). rewrite (exec_app tr _ _ s1 s2) by (cbn [exec_all exec_instr]; by rewrite (bind_ok _ _ _ _ _ H2)).
    by rewrite (exec_app tr _ _ _ _ H3).
  - intros r Ht Hz. destruct (decide (r = Sp)) as [->|Hr].
    + rewrite rg_set_eq by done. simpl. rewrite Hf by done. unfold s0. rewrite rg_set_eq by done. unfold uint64. rewrite Zplus_mod_idemp_l.
      replace (rg s Sp - 256 + 256) with (rg s Sp) by lia. by apply Z.mod_small.
    + rewrite rg_set_ne by done. simpl. rewrite Hf by done. unfold s0. by rewrite rg_set_ne.
  - rewrite rg_set_ne by done. simpl. rewrite Hout3; [done|]. by apply (bool_decide_unpack _); vm_compute.
Qed.
End Routines.

(** ** [timervec] and [entry], in machine mode: addresses are not translated *)

Definition bare (satp a : Z) : option Z := Some a.
Lemma bare_block satp m pa n : pa mod 8 = 0 -> 0 <= pa -> pa + n <= 2 ^ 64 -> (forall o, 0 <= o < n -> o mod 8 = 0 -> is_Some (m !! (pa + o))) ->
  block bare satp m pa pa n.
Proof. intros Hp H0 Hn Hm. split; [done|]. intros o Ho Ha. split; [|by apply Hm]. unfold bare, uint64. by rewrite Z.mod_small by lia. Qed.

Lemma load_one tr s rd b pa n off v : block tr (cs s Satp) (words s) (rg s b) pa n -> 0 <= off < n -> off mod 8 = 0 -> words s !! (pa + off) = Some v ->
  exec_instr tr (Ld rd off b) s = Ok (tt, set_rg rd v s).
Proof.
  intros Hb Ho Hm Hv. cbn [exec_instr]. rewrite bind_get, (bind_ok _ _ _ _ _ (translate_ok tr s _ pa n off Hb Ho Hm)). unfold modify. by rewrite (lookup_total_correct _ _ _ Hv).
Qed.
Lemma save_one tr s rs b pa n off : block tr (cs s Satp) (words s) (rg s b) pa n -> 0 <= off < n -> off mod 8 = 0 ->
  exec_instr tr (Sd rs off b) s = Ok (tt, set_words (<[pa + off := rg s rs]> (words s)) s).
Proof. intros Hb Ho Hm. cbn [exec_instr]. by rewrite bind_get, (bind_ok _ _ _ _ _ (translate_ok tr s _ pa n off Hb Ho Hm)). Qed.

Definition tv_saved : list (reg * Z) := [(A1, 0); (A2, 8); (A3, 16)].
Definition tv_loaded : list (reg * Z) := [(A3, 16); (A2, 8); (A1, 0)].

(** The first half: the registers are in the scratch area, and [mtimecmp] is in the future. *)
Lemma timervec_half s sc c old interval : cs s Mscratch = sc -> sc mod 8 = 0 -> c mod 8 = 0 -> 0 <= sc -> sc + 40 <= 2 ^ 64 -> 0 <= c -> c + 8 <= 2 ^ 64 ->
  (forall o, 0 <= o < 40 -> o mod 8 = 0 -> is_Some (words s !! (sc + o))) -> words s !! (sc + 24) = Some c -> words s !! (sc + 32) = Some interval ->
  words s !! c = Some old -> ~ (sc <= c < sc + 24) ->
  exists m f, exec_all bare (take 9 (fst timervec)) s = Ok (tt, mk_mach f (cs (set_cs Mscratch (rg s A0) s)) m) /\ f A0 = sc /\ m !! c = Some (uint64 (old + interval)) /\
    (forall r o, (r, o) ∈ tv_saved -> m !! (sc + o) = Some (rg s r)) /\ (forall r, r ∉ [A0; A1; A2; A3] -> f r = rg s r) /\
    (forall a, a ∉ [sc; sc + 8; sc + 16; c] -> m !! a = words s !! a) /\ (forall o, 0 <= o < 40 -> o mod 8 = 0 -> is_Some (m !! (sc + o))).
Proof.
  intros Hsc Hs8 Hc8 Hs0 Hs1 Hc0 Hc1 Hm Hc Hi Hold Hdis. set (s1 := set_rg A0 sc (set_cs Mscratch (rg s A0) s)).
  destruct (saves_ok bare A0 tv_saved s1 sc 40) as (m1 & H1 & Hin1 & Hout1); [by apply bare_block|by apply (bool_decide_unpack _); vm_compute..|].
  assert (Hnot : forall a, ~ (sc <= a < sc + 24) -> m1 !! a = words s !! a).
  { intros a Ha. apply Hout1. cbn. rewrite !not_elem_of_cons. split_and!; [lia..|]. by intros ?%not_elem_of_nil. }
  assert (Hm1 : forall o, 0 <= o < 40 -> o mod 8 = 0 -> is_Some (m1 !! (sc + o))).
  { intros o Ho Ha. destruct (saved_some bare s1 m1 sc 40 sc tv_saved) as [_ Hb]; [by apply bare_block|done|done|]. by apply Hb. }
  set (s2 := set_rg A1 c (set_words m1 s1)). set (s3 := set_rg A2 interval s2). set (s4 := set_rg A3 old s3).
  set (s5 := set_rg A3 (uint64 (old + interval)) s4). set (m2 := <[c + 0 := uint64 (old + interval)]> m1).
  assert (Hbc : forall n', n' = 8 -> block bare (cs s Satp) m1 c c n').
  { intros n' ->. apply bare_block; [done..|]. intros o Ho Ha. assert (o = 0) as -> by (apply Z.div_exact in Ha; lia). rewrite Z.add_0_r, Hnot by done. by eexists. }
  exists m2, (rg s5). split_and!; [|done|unfold m2; rewrite Z.add_0_r; apply lookup_insert_eq| | | |].
  - change (take 9 (fst timervec)) with ([Csrrw A0 Mscratch A0] ++ saves A0 tv_saved ++ [Ld A1 24 A0; Ld A2 32 A0; Ld A3 0 A1; Add A3 A3 A2; Sd A3 0 A1]).
    rewrite (exec_app bare _ _ s s1) by (unfold s1; by rewrite <- Hsc). rewrite (exec_app bare _ _ _ _ H1).
    rewrite (exec_cons bare _ _ _ s2) by (apply (load_one bare _ _ _ sc 40); [by apply bare_block|lia|done|simpl; rewrite Hnot by lia; done]).
    rewrite (exec_cons bare _ _ _ s3) by (apply (load_one bare _ _ _ sc 40); [by apply bare_block|lia|done|simpl; rewrite Hnot by lia; done]).
    rewrite (exec_cons bare _ _ _ s4) by (apply (load_one bare _ _ _ c 8); [by apply Hbc|lia|done|rewrite Z.add_0_r; simpl; rewrite Hnot by lia; done]).
    rewrite (exec_cons bare _ _ _ s5) by done. rewrite (exec_cons bare _ _ _ (set_words m2 s5)); [done|]. by apply (save_one bare s5 A3 A1 c 8 0); [apply Hbc| |].
  - intros r o Ho. unfold m2. rewrite lookup_insert_ne. { rewrite (Hin1 r o Ho). unfold s1. rewrite rg_set_ne; [done|].
      by apply (all_of (fun x => x.1 <> A0) tv_saved) in Ho. }
    assert (0 <= o < 24) by (by apply (all_of (fun x => 0 <= x.2 < 24) tv_saved) in Ho). lia.
  - intros r Hr. rewrite !not_elem_of_cons in Hr. destruct Hr as (? & ? & ? & ? & _). unfold s5, s4, s3, s2, s1. rewrite !rg_set_ne by done. simpl. by rewrite decide_False by (by intros [? _]).
  - intros a Ha. rewrite !not_elem_of_cons in Ha. unfold m2. rewrite lookup_insert_ne by lia. apply Hout1. cbn. rewrite !not_elem_of_cons. split_and!; [lia..|]. by intros ?%not_elem_of_nil.
  - intros o Ho Ha. unfold m2. apply lookup_insert_is_Some'. right. by apply Hm1.
Qed.

(** The machine-mode timer interrupt moves [mtimecmp] forward by the interval, raises a supervisor software interrupt, and gives back every register;
    [mscratch] still points to the scratch area. *)
Theorem timervec_rearms s c old interval : let sc := cs s Mscratch in sc mod 8 = 0 -> c mod 8 = 0 -> 0 <= sc -> sc + 40 <= 2 ^ 64 -> 0 <= c -> c + 8 <= 2 ^ 64 ->
  (forall o, 0 <= o < 40 -> o mod 8 = 0 -> is_Some (words s !! (sc + o))) -> words s !! (sc + 24) = Some c -> words s !! (sc + 32) = Some interval ->
  words s !! c = Some old -> ~ (sc <= c < sc + 24) ->
  exists s', run_code bare timervec s = Ok (cs s Mepc, s') /\ (forall r, r <> Zero -> rg s' r = rg s r) /\
    words s' !! c = Some (uint64 (old + interval)) /\ cs s' Sip = 2 /\ cs s' Mscratch = sc /\
    (forall a, a ∉ [sc; sc + 8; sc + 16; c] -> words s' !! a = words s !! a).
Proof.
  cbv zeta. intros Hs8 Hc8 Hs0 Hs1 Hc0 Hc1 Hm Hc Hi Hold Hdis.
  destruct (timervec_half s _ c old interval eq_refl Hs8 Hc8 Hs0 Hs1 Hc0 Hc1 Hm Hc Hi Hold Hdis) as (m & f & He & Ha0 & Hmc & Hin & Hf & Hout & Hm').
  set (sc := cs s Mscratch) in *. set (s1 := mk_mach f _ m) in He. set (s2 := set_cs Sip 2 (set_rg A1 2 s1)).
  assert (Hb : block bare (cs s2 Satp) (words s2) (rg s2 A0) sc 40) by (change (rg s2 A0) with (f A0); rewrite Ha0; by apply bare_block).
  destruct (loads_ok bare A0 tv_loaded s2 sc 40) as (g & H3 & Hin3 & Hout3); [done|by apply (bool_decide_unpack _); vm_compute..|by intros o ?%(all_of (fun x => x.1 <> A0) tv_loaded)|].
  set (s3 := mk_mach g (cs s2) m). exists (set_rg A0 (cs s3 Mscratch) (set_cs Mscratch (g A0) s3)).
  assert (Hg : forall r o, (r, o) ∈ tv_loaded -> g r = rg s r).
  { intros r o Ho. specialize (Hin3 r o Ho). simpl in Hin3. rewrite (Hin r o) in Hin3 by (by apply (all_of (fun x => x ∈ tv_saved) tv_loaded) in Ho). by injection Hin3. }
  assert (Hga : g A0 = sc) by (rewrite Hout3; [done|by apply (bool_decide_unpack _); vm_compute]).
  split_and!; [| |done|done|by simpl|done].
  - unfold run_code. rewrite (bind_ok _ _ _ tt (set_rg A0 (cs s3 Mscratch) (set_cs Mscratch (g A0) s3))); [reflexivity|].
    change (fst timervec) with (take 9 (fst timervec) ++ [Li A1 2; Csrw Sip A1] ++ loads A0 tv_loaded ++ [Csrrw A0 Mscratch A0]).
    rewrite (exec_app bare _ _ _ _ He). rewrite (exec_app bare _ _ s1 s2) by done. by rewrite (exec_app bare _ _ _ _ H3).
  - intros r Hz. destruct (decide (r = A0)) as [->|Hr0]; [by rewrite rg_set_eq|]. rewrite rg_set_ne by done. simpl.
    destruct (decide (r = A1)) as [->|]; [by apply (Hg A1 0); do 2 right; left|]. destruct (decide (r = A2)) as [->|]; [by apply (Hg A2 8); right; left|].
    destruct (decide (r = A3)) as [->|]; [by apply (Hg A3 16); left|].
    assert (Hn : r ∉ [A0; A1; A2; A3]) by (rewrite !not_elem_of_cons; split_and!; try done; by intros ?%not_elem_of_nil).
    rewrite Hout3 by (cbn; rewrite !not_elem_of_cons; split_and!; try done; by intros ?%not_elem_of_nil).
    unfold s2. change (rg (set_cs ?c ?v ?x)) with (rg x). rewrite rg_set_ne by done. by apply Hf.
Qed.

(** Every hart gets a stack of its own: hart [h] starts with [sp] at the end of the [h]-th 4096 bytes of [stack0]. *)
Theorem entry_stack stack0 s : 0 <= stack0 -> 0 <= cs s Mhartid < 8 -> stack0 + 8 * 4096 < 2 ^ 64 ->
  exists s', exec_all bare (entry_ stack0) s = Ok (tt, s') /\ rg s' Sp = stack0 + 4096 * (cs s Mhartid + 1).
Proof.
  intros H0 Hh Hm. eexists. split; [reflexivity|]. transitivity (uint64 (uint64 stack0 + uint64 (uint64 (1024 * 4) * uint64 (cs s Mhartid + 1)))); [reflexivity|].
  unfold uint64. change ((1024 * 4) mod 2 ^ 64) with 4096. rewrite (Z.mod_small stack0), (Z.mod_small (cs s Mhartid + 1)), (Z.mod_small (4096 * _)), Z.mod_small by lia. lia.
Qed.
