(* ===== verification/AsmKernel.v ===== *)
(** * A system call, from the user's [ecall] to the instruction after it

    The assembly of the trampoline around the C code of [Kernel]: the trapframe that [uservec] fills and [userret]
    reads is the [tf] of the process. *)

From stdpp Require Import base numbers list list_numbers gmap strings.
From Stdlib Require Import ZArith Lia.
From S2P Require Import Prelude Params KString Path Sleeplock Virtio Bio Kmem Ring Uart Console Fsys Blocks Dinode Vfs Dirs Pipe File Sysfile Kalloc Vm KmemVm FsDemo ConsoleProof Exec Proc ProcProof ProcSpec Printf Kprintf Kernel KernelProof KernelSpec Asm.

(** The trapframe in memory *)
Definition holds (m : gmap Z Z) (pa : Z) (tf : list Z) : Prop := forall w, 0 <= w < 36 -> m !! (pa + 8 * w) = Some (znth tf w).

Lemma tf_regs_word r : r <> Zero -> exists w, (r, 8 * w) ∈ tf_regs /\ 5 <= w < 36 /\ (w = 14 <-> r = A0).
Proof.
  intros Hz. assert (Hi : r ∈ tf_regs.*1) by (revert Hz; destruct r; intros; try done; by apply (bool_decide_unpack _); vm_compute).
  apply list_elem_of_fmap in Hi as ([q o] & -> & Hi). simpl in *. exists (o / 8).
  assert (H : o = 8 * (o / 8) /\ 5 <= o / 8 < 36 /\ (o / 8 = 14 <-> q = A0)).
  { revert Hi. apply (all_of (fun x => x.2 = 8 * (x.2 / 8) /\ 5 <= x.2 / 8 < 36 /\ (x.2 / 8 = 14 <-> x.1 = A0)) tf_regs). vm_compute. reflexivity. }
  destruct H as (E & ? & ?). by rewrite <- E.
Qed.

Section Ecall.
Context {B U X : Type} `{BC : BufCache B} `{UD : UartDev U} `{PD : PlicDev X}.
Context (tr : Z -> Z -> option Z) (trampoline uservec_addr forkret_addr kernelvec_addr usertrap_addr ticks_addr : Z).
Context (spin rounds : nat) (pad : list Z) (disk_intr : K B unit) (procdump : K (console U) unit).

(** C6: A system call seen by the user program, through [uservec], [usertrap], [syscall], [usertrapret] and [userret]: if the call is not [exec] or [exit]
    and comes back without the process going to sleep in it, it does so at the instruction after the [ecall], on the page table that the process ran on
    before, which the call has not replaced, and with every register but [a0] as before. *)
Theorem ecall_returns (s1 s2 : mach) (k k' : kernel B U X) h i pa t :
  block tr (cs s1 Satp) (words s1) TRAPFRAME pa 288 ->
  (forall pc s, run_code tr uservec s1 = Ok (pc, s) -> holds (words s) pa (tf (getp (kp k) i))) ->
  cs s1 Satp = MAKE_SATP (pagetable (getp (kp k) i)) ->
  runs_on k h i -> state (getp (kp k) i) = RUNNING -> (Z.to_nat h < length (harts k))%nat -> zlen (tf (getp (kp k) i)) = 36 ->
  scause (harts k !!! Z.to_nat h) = 8 -> int (rg s1 A7) <> SYS_exec -> int (rg s1 A7) <> SYS_exit ->
  usertrap trampoline uservec_addr forkret_addr kernelvec_addr usertrap_addr ticks_addr spin rounds pad disk_intr procdump h k = Ok (Resumes t, k') ->
  rg s2 A0 = t -> cs s2 Sepc = sepc (harts k' !!! Z.to_nat h) -> holds (words s2) pa (tf (getp (kp k') i)) ->
  block tr t (words s2) TRAPFRAME pa 288 ->
  exists s3, run_code tr userret s2 = Ok (uint64 (sepc (harts k !!! Z.to_nat h) + 4), s3) /\ cs s3 Satp = cs s1 Satp /\ pagetable (getp (kp k') i) = pagetable (getp (kp k) i) /\
    (forall r, r <> Zero -> r <> A0 -> rg s3 r = rg s1 r) /\ rg s3 A0 = znth (tf (getp (kp k') i)) (TF_a 0).
Proof using Type.
  intros Hb Hh1 Hsatp Hr Hst Hh Hlen Hcause Hx Hx' Hu Ha Hpc Hh2 Hb2. destruct (uservec_ok tr s1 pa Hb) as (pc & s & Hrun & Hin & _).
  specialize (Hh1 pc s Hrun). assert (Hreg : forall r w, (r, 8 * w) ∈ tf_regs -> 5 <= w < 36 -> znth (tf (getp (kp k) i)) w = rg s1 r).
  { intros r w Hi Hw. specialize (Hin r _ Hi). rewrite (Hh1 w) in Hin by lia. by injection Hin. }
  assert (En : call_number k i = int (rg s1 A7)) by (unfold call_number; f_equal; apply Hreg; [by apply (bool_decide_unpack _); vm_compute|done]).
  destruct (usertrap_returns _ _ _ _ _ _ _ _ _ _ _ h i k t k' Hr Hst Hh Hcause Hlen ltac:(by rewrite En) ltac:(by rewrite En) Hu) as (Hw & Hs & _ & _ & _ & _ & Ht & Hpt).
  destruct (userret_ok tr s2 pa) as (s3 & Hrun3 & _ & Hsat & Hin3); [by rewrite Ha|]. exists s3. rewrite Hpc, Hs in Hrun3. split; [done|]. split; [by rewrite Hsat, Ha, Ht|]. split; [done|].
  assert (Hout : forall r w, (r, 8 * w) ∈ tf_regs -> 5 <= w < 36 -> rg s3 r = znth (tf (getp (kp k') i)) w).
  { intros r w Hi Hww. specialize (Hin3 r _ Hi). rewrite (Hh2 w) in Hin3 by lia. by injection Hin3. }
  split.
  - intros r Hz Hra. destruct (tf_regs_word r Hz) as (w & Hi & Hww & Hw14). rewrite (Hout r w Hi Hww), Hw by (try lia; change (TF_a 0) with 14; tauto). by apply Hreg.
  - apply Hout; [by apply (bool_decide_unpack _); vm_compute|done].
Qed.
End Ecall.

(** ** Machines for the examples *)

(** [l] in memory from [pa] on *)
Definition words_at (pa : Z) (l : list Z) : gmap Z Z := list_to_map (imap (fun w v => (pa + 8 * Z.of_nat w, v)) l).
Lemma words_at_lookup pa l w : 0 <= w < zlen l -> words_at pa l !! (pa + 8 * w) = Some (znth l w).
Proof.
  intros Hw. unfold words_at, zlen in *. apply elem_of_list_to_map_1.
  - apply NoDup_alt. intros i j x Hi Hj. rewrite !list_lookup_fmap, !list_lookup_imap in *. destruct (l !! i), (l !! j); simpl in *; try done.
    injection Hi as <-. injection Hj as Hj. lia.
  - apply list_elem_of_lookup. exists (Z.to_nat w). rewrite list_lookup_imap. unfold znth. rewrite list_lookup_total_alt.
    destruct (lookup_lt_is_Some_2 l (Z.to_nat w)) as [v Hv]; [lia|]. rewrite Hv. simpl. by rewrite Z2Nat.id by lia.
Qed.
Lemma words_at_block tr satp va pa l n : pa mod 8 = 0 -> n = 8 * zlen l -> (forall o, 0 <= o < n -> tr satp (uint64 (va + o)) = Some (pa + o)) ->
  block tr satp (words_at pa l) va pa n.
Proof.
  intros Hp -> Ht. split; [done|]. intros o Ho Ha. split; [by apply Ht|]. apply Z.div_exact in Ha; [|lia]. rewrite Ha. eexists. apply words_at_lookup. lia.
Qed.

Definition tf_pa : Z := 0x87000000.
(** A page table that maps the trapframe *)
Definition demo_tr (satp a : Z) : option Z := if (TRAPFRAME <=? a) && (a <? TRAPFRAME + 4096) then Some (a - TRAPFRAME + tf_pa) else None.
Lemma demo_tr_ok satp o : 0 <= o < 288 -> demo_tr satp (uint64 (TRAPFRAME + o)) = Some (tf_pa + o).
Proof.
  intros Ho. unfold demo_tr, uint64. rewrite Z.mod_small by (change TRAPFRAME with 274877898752; lia). rewrite (proj2 (Z.leb_le _ _)), (proj2 (Z.ltb_lt _ _)) by lia. simpl. f_equal. lia.
Qed.
Definition demo_user (satp : Z) : mach := mk_mach (fun r => if decide (r = A7) then SYS_getpid else 7) (fun _ => satp) (words_at tf_pa (seqZ 100 36)).

(** The trapframe after [uservec] *)
Definition demo_tf : list Z := (fun w => if decide (w = 21) then SYS_getpid else if decide (w < 5) then 100 + w else 7) <$> seqZ 0 36.
Lemma demo_uservec satp pc s : run_code demo_tr uservec (demo_user satp) = Ok (pc, s) -> holds (words s) tf_pa demo_tf.
Proof.
  intros Hr w Hw. assert (E : match run_code demo_tr uservec (demo_user satp) with
    Ok (_, s) => forallb (fun w => bool_decide (words s !! (tf_pa + 8 * w) = Some (znth demo_tf w))) (seqZ 0 36) | _ => true end = true) by (vm_compute; reflexivity).
  rewrite Hr in E. rewrite forallb_forall in E. eapply bool_decide_eq_true, E, list_elem_of_In, elem_of_seqZ. lia.
Qed.
Definition demo_ecall : K DK unit := on_kp (boot trampoline_pa forkret_pa);; _ ← on_kp (scheduler_pass 0 (-1)); on_kp (updp 0 (set_tf demo_tf)).
Abbreviation demo_usertrap := (usertrap trampoline_pa (trampoline_pa + 0) forkret_pa 5 6 0 1 1 [] (mret tt) (mret tt) 0).

Lemma ecall_returns_witness : exists (s1 s2 s3 : mach) (k : DK), run_code demo_tr userret s2 = Ok (0x44, s3) /\ rg s1 S5 = 7 /\ rg s3 S5 = 7 /\ rg s3 A0 = 1 /\ cs s3 Satp = cs s1 Satp.
Proof.
  destruct (ends_inv demo_ecall reset_kernel (fun _ s => in_call SYS_getpid s && bool_decide (length (harts s) = 2%nat /\ scause (harts s !!! 0%nat) = 8 /\ sepc (harts s !!! 0%nat) = 0x40 /\
    tf (getp (kp s) 0) = demo_tf) && ends demo_usertrap s (fun r s' =>
    match r with Resumes t => bool_decide (zlen (tf (getp (kp s') 0)) = 36 /\ znth (tf (getp (kp s') 0)) (TF_a 0) = 1) | _ => false end))) as ([] & k & _ & H); [vm_compute; reflexivity|].
  apply andb_prop in H as [[(Hr & Hn & Hst)%in_call_ok Hh]%andb_prop H]. apply bool_decide_eq_true in Hh as (Hl & Hc & Hp & Ht).
  apply ends_inv in H as (r & k' & He & H). destruct r as [t| | |]; [|done..]. apply bool_decide_eq_true in H as [Hlen' Ha0].
  set (s2 := mk_mach (fun _ => t) (fun _ => sepc (harts k' !!! 0%nat)) (words_at tf_pa (tf (getp (kp k') 0)))).
  set (s1 := demo_user (MAKE_SATP (pagetable (getp (kp k) 0)))).
  destruct (ecall_returns demo_tr trampoline_pa (trampoline_pa + 0) forkret_pa 5 6 0 1 1 [] (mret tt) (mret tt) s1 s2 k k' 0 0 tf_pa t) as (s3 & Hrun3 & Hsat & _ & Hreg & Ha).
  - apply words_at_block; [done|done|apply demo_tr_ok].
  - rewrite Ht. apply demo_uservec.
  - done.
  - exact Hr.
  - exact Hst.
  - rewrite Hl. simpl. lia.
  - by rewrite Ht.
  - exact Hc.
  - done.
  - done.
  - exact He.
  - done.
  - done.
  - intros w Hw. apply words_at_lookup. by rewrite Hlen'.
  - apply words_at_block; [done|by rewrite Hlen'|apply demo_tr_ok].
  - exists s1, s2, s3, k. change (Z.to_nat 0) with 0%nat in Hrun3. rewrite Hp in Hrun3. split_and!; [done|done|by rewrite (Hreg S5)|by rewrite Ha|exact Hsat].
Defined.

(** A kernel stack; the handler returns at once, on another hart. *)
Definition demo_kernel_mach : mach := mk_mach (fun r => if decide (r = Sp) then 0x87000100 else 3) (fun _ => 9) (words_at 0x87000000 (replicate 32 0)).
Definition demo_handler : K mach unit := modify (set_rg Tp 1).
Lemma kernelvec_transparent_witness : exists s', run_code bare (kernelvec demo_handler) demo_kernel_mach = Ok (9, s') /\ rg s' T3 = 3 /\ rg s' Sp = 0x87000100 /\ rg s' Tp = 1.
Proof.
  destruct (kernelvec_transparent bare demo_handler demo_kernel_mach 0x87000000) as (s1 & s2 & s' & _ & Hc & Hk & Hrun & Hreg & Htp & _).
  - by vm_compute.
  - apply words_at_block; [done|done|]. intros o Ho. unfold bare, uint64. change (rg demo_kernel_mach Sp) with 0x87000100.
    change ((0x87000100 - 256) mod 2 ^ 64) with 0x87000000. by rewrite Z.mod_small by lia.
  - intros s s' [= <-]. by split_and!.
  - intros s1 _. by eexists.
  - exists s'. injection Hk as <-. change (cs (set_rg Tp 1 s1)) with (cs s1) in Hrun. rewrite Hc in Hrun. split_and!; [exact Hrun|by rewrite (Hreg T3)|by rewrite (Hreg Sp)|exact Htp].
Defined.

Definition demo_thread (a0 a1 v : Z) (m : gmap Z Z) : mach := mk_mach (fun r => if decide (r = A0) then a0 else if decide (r = A1) then a1 else v) (fun _ => 9) m.
Definition ctx_a : Z := 0x87000000.
Definition ctx_b : Z := 0x87000070.
Lemma ctx_block satp m va : va = ctx_a \/ va = ctx_b -> (forall o, 0 <= o < 28 -> is_Some (m !! (ctx_a + 8 * o))) -> block bare satp m va va 112.
Proof.
  intros Hva Hm. apply bare_block; [by destruct Hva as [-> | ->]|by destruct Hva as [-> | ->]|by destruct Hva as [-> | ->]|].
  intros o Ho Ha. apply Z.div_exact in Ha; [|lia]. destruct Hva as [-> | ->]; [replace (ctx_a + o) with (ctx_a + 8 * (o / 8)) by lia|replace (ctx_b + o) with (ctx_a + 8 * (o / 8 + 14)) by (unfold ctx_a, ctx_b; lia)]; apply Hm; lia.
Qed.
Lemma ctx_apart o : 0 <= o < 112 -> ctx_b + o ∉ (Z.add ctx_a <$> context_regs.*2) /\ ctx_a + o ∉ (Z.add ctx_b <$> context_regs.*2).
Proof.
  intros Ho. split; intros (x & Hx & ([r o'] & -> & (_ & _ & Hr)%context_not_args)%list_elem_of_fmap)%list_elem_of_fmap; simpl in *; unfold ctx_a, ctx_b in *; lia.
Qed.
Lemma swtch_resumes_witness : exists s s2 s3 pc, run_code bare swtch s2 = Ok (pc, s3) /\ pc = rg s Ra /\ rg s3 S7 = rg s S7.
Proof.
  set (m := words_at ctx_a (replicate 28 0)). set (s := demo_thread ctx_a ctx_b 5 m).
  assert (Hm : forall o, 0 <= o < 28 -> is_Some (m !! (ctx_a + 8 * o))) by (intros o Ho; eexists; by apply words_at_lookup).
  destruct (swtch_ok bare s ctx_a ctx_b) as (pc & s1 & Hr & _ & _ & Hin & _ & Hout); [by apply ctx_block; [left|]|by apply ctx_block; [right|]|apply ctx_apart|].
  assert (Hm1 : forall o, 0 <= o < 28 -> is_Some (words s1 !! (ctx_a + 8 * o))).
  { intros o Ho. destruct (decide (ctx_a + 8 * o ∈ (Z.add ctx_a <$> context_regs.*2))) as [Hi|Hi]; [|rewrite Hout by done; by apply Hm].
    apply list_elem_of_fmap in Hi as (x & Hx & ([r o'] & -> & Hi)%list_elem_of_fmap). rewrite Hx. simpl. destruct (Hin r o' Hi) as [-> _]. by eexists. }
  set (s2 := demo_thread ctx_b ctx_a 6 (words s1)).
  destruct (swtch_resumes bare s ctx_a ctx_b s1 pc s2 ctx_b) as (s3 & Hr3 & Hreg).
  - by apply ctx_block; [left|].
  - by apply ctx_block; [right|].
  - apply ctx_apart.
  - exact Hr.
  - done.
  - by apply ctx_block; [right|].
  - by apply ctx_block; [left|].
  - apply ctx_apart.
  - exists s, s2, s3, (rg s Ra). split_and!; [exact Hr3|done|]. apply Hreg. by apply (bool_decide_unpack _); vm_compute.
Defined.

Definition demo_timer : mach := mk_mach (fun _ => 4) (fun c => if decide (c = Mscratch) then 0x87000000 else 9) (<[0x2004000 := 1000000]> (words_at 0x87000000 [0; 0; 0; 0x2004000; 1000000])).
Lemma timervec_rearms_witness : exists s', run_code bare timervec demo_timer = Ok (9, s') /\ words s' !! 0x2004000 = Some 2000000 /\ rg s' A1 = 4.
Proof.
  destruct (timervec_rearms demo_timer 0x2004000 1000000 1000000) as (s' & Hr & Hreg & Hw & _).
  - done.
  - done.
  - by vm_compute.
  - by vm_compute.
  - lia.
  - lia.
  - intros o Ho Ha. apply Z.div_exact in Ha; [|lia]. apply lookup_insert_is_Some'. right. rewrite Ha. eexists. apply words_at_lookup. change (zlen _) with 5. lia.
  - by vm_compute.
  - by vm_compute.
  - by vm_compute.
  - change (cs demo_timer Mscratch) with 0x87000000. lia.
  - exists s'. split_and!; [exact Hr|exact Hw|by rewrite (Hreg A1)].
Defined.

Lemma entry_stack_witness : exists s', exec_all bare (entry_ 0x80009000) (mk_mach (fun _ => 0) (fun _ => 2) ∅) = Ok (tt, s') /\ rg s' Sp = 0x80009000 + 3 * 4096.
Proof. apply (entry_stack 0x80009000 (mk_mach (fun _ => 0) (fun _ => 2) ∅)); [lia|simpl; lia|lia]. Defined.
