(* ===== verification/Initcode.v ===== *)
(** * The first user program

    [initcode], the bytes of [src/kernel/proc.c], run as RISC-V code in the page that
    [userinit] makes of them: they are the instructions of [src/user/initcode.S] (with [argv] not aligned), and
    call [exec] with the path of init and, should that come back, [exit] for ever. *)

From stdpp Require Import base numbers list list_numbers gmap strings.
From Stdlib Require Import ZArith Lia.
From S2P Require Import Prelude Params KString Path Sleeplock Virtio Bio Kmem Ring Uart Console Fsys Blocks Dinode Vfs Dirs Pipe File Sysfile Kalloc Vm KmemVm FsDemo ConsoleProof Exec Proc Printf Kprintf Kernel.

(** The instructions it uses; registers by number *)
Inductive uop := UAuipc (rd imm : Z) | UAddi (rd rs imm : Z) | UEcall | UJal (rd imm : Z).
(** [n] bits of [w] from bit [k] on, and the same as a signed number *)
Definition field (w k n : Z) : Z := Z.land (Z.shiftr w k) (2 ^ n - 1).
Definition signed (n v : Z) : Z := if v <? 2 ^ (n - 1) then v else v - 2 ^ n.
Definition decode_op (w : Z) : option uop :=
  if field w 0 7 =? 0x17 then Some (UAuipc (field w 7 5) (Z.shiftl (signed 20 (field w 12 20)) 12))
  else if (field w 0 7 =? 0x13) && (field w 12 3 =? 0) then Some (UAddi (field w 7 5) (field w 15 5) (signed 12 (field w 20 12)))
  else if w =? 0x73 then Some UEcall
  else if field w 0 7 =? 0x6f then
    Some (UJal (field w 7 5) (signed 21 (Z.lor (Z.lor (Z.shiftl (field w 31 1) 20) (Z.shiftl (field w 12 8) 12)) (Z.lor (Z.shiftl (field w 20 1) 11) (Z.shiftl (field w 21 10) 1)))))
  else None.

(** [start] and [exit] of [initcode.S], with [la] as the assembler expands it, and the addresses that the labels [init] and [argv] get. *)
Definition initcode_S (init argv : Z) : list uop := [
  UAuipc 10 0; UAddi 10 10 (init - 0);
  UAuipc 11 0; UAddi 11 11 (argv - 8);
  UAddi 17 0 SYS_exec;
  UEcall;
  UAddi 17 0 SYS_exit;
  UEcall;
  UJal 1 (-8)].

Record uhart := mk_uhart { upc : Z; ureg : list Z }.
Definition ur (s : uhart) (r : Z) : Z := if r =? 0 then 0 else znth (ureg s) r.
Definition set_ur (r v : Z) (l : list Z) : list Z := if r =? 0 then l else zupd l r (uint64 v).
(** Run up to the next [ecall]. *)
Fixpoint to_ecall (fuel : nat) (m : list Z) (s : uhart) : option uhart :=
  match fuel with
  | O => None
  | S fuel =>
      match decode_op (load32 m (upc s)) with
      | Some (UAuipc rd imm) => to_ecall fuel m (mk_uhart (upc s + 4) (set_ur rd (upc s + imm) (ureg s)))
      | Some (UAddi rd rs imm) => to_ecall fuel m (mk_uhart (upc s + 4) (set_ur rd (ur s rs + imm) (ureg s)))
      | Some (UJal rd imm) => to_ecall fuel m (mk_uhart (upc s + imm) (set_ur rd (upc s + 4) (ureg s)))
      | Some UEcall => Some s
      | None => None
      end
  end.

(** The labels in the bytes of [proc.c]: [init] follows the nine instructions, and [argv] the seven bytes of
    the string. The [.p2align 2] before [argv] would put it at 44; these bytes were made without its effect. *)
Definition init_label : Z := 36.
Definition argv_label : Z := 43.

(** The page that [uvmfirst] makes of the bytes *)
Definition init_page : list Z := initcode ++ replicate (Z.to_nat (PGSIZE - zlen initcode)) 0.
(** A system call comes back after the [ecall], with some [a0]. *)
Definition back (v : Z) (s : uhart) : uhart := mk_uhart (upc s + 4) (zupd (ureg s) 10 v).

(** C35: The bytes of [initcode] are the instructions of [initcode.S] with [init] at 36 and [argv] at 43, and started at 0 with any registers they call [exec] with a pointer to "/init" in [a0] and in [a1] the
    address of an argument vector that holds that pointer and a null pointer; if it comes back, [exit] is called, again and again. *)
Theorem initcode_execs regs : length regs = 32%nat ->
  (fun w => decode_op (load32 initcode (4 * w))) <$> seqZ 0 9 = Some <$> initcode_S init_label argv_label /\
  exists s, to_ecall 10 init_page (mk_uhart 0 regs) = Some s /\
    ur s 17 = SYS_exec /\ sub init_page (ur s 10) 6 = [47; 105; 110; 105; 116; 0] /\
    load64 init_page (ur s 11) = ur s 10 /\ load64 init_page (ur s 11 + 8) = 0 /\
    forall v, exists s', to_ecall 10 init_page (back v s) = Some s' /\ ur s' 17 = SYS_exit /\
    forall v', exists s'', to_ecall 10 init_page (back v' s') = Some s'' /\ upc s'' = upc s' /\ ur s'' 17 = SYS_exit.
Proof.
  intros Hl. split; [vm_compute; reflexivity|]. do 32 (destruct regs as [|? regs]; [done|]). destruct regs; [|done].
  eexists. split; [vm_compute; reflexivity|]. split; [vm_compute; reflexivity|]. split; [vm_compute; reflexivity|]. split; [vm_compute; reflexivity|]. split; [vm_compute; reflexivity|].
  intros v. eexists. split; [vm_compute; reflexivity|]. split; [vm_compute; reflexivity|].
  intros v'. eexists. split; [vm_compute; reflexivity|]. split; vm_compute; reflexivity.
Qed.
Lemma initcode_execs_witness : exists s, to_ecall 10 init_page (mk_uhart 0 (replicate 32 5)) = Some s /\ ur s 17 = SYS_exec.
Proof. destruct (initcode_execs (replicate 32 5)) as (_ & s & H & H' & _); [done|]. by exists s. Defined.
