(* ===== verification/Mkfs.v ===== *)
(** * mkfs

    [src/mkfs/mkfs.c]: the program that makes the disk image.  The image file is a map
    from sectors to what has been written there, empty when [main] opens it with
    [O_TRUNC]; a read of a sector that has not been written is short, and [die]s.  A file to be copied comes as
    its path on the host and as what the successive calls of [read] return, or [None] if it
    cannot be opened.  Structures lie in the image as the kernel reads them,
    little-endian, which is what [xshort] and [xint] are for; the host is taken to be
    little-endian too.  Messages are left out. *)

From stdpp Require Import base numbers list list_numbers gmap strings.
From Stdlib Require Import ZArith Lia.
From S2P Require Import Prelude Params Virtio Bio Kmem Fsys Blocks BlocksProof Bmap Dinode.

Definition NINODES : Z := 200.
Definition nbitmap : Z := FSSIZE / (BSIZE * 8) + 1.
Definition ninodeblocks : Z := NINODES / IPB + 1.
Definition mk_nlog : Z := LOGSIZE.
Definition nmeta : Z := 2 + mk_nlog + ninodeblocks + nbitmap.
Definition mk_nblocks : Z := FSSIZE - nmeta.

(** The number whose bytes, from the lowest address, are those of [x] from the lowest *)
Definition xshort (x : Z) : Z := le_decode [uchar x; uchar (Z.shiftr x 8)].
Definition xint (x : Z) : Z := le_decode [uchar x; uchar (Z.shiftr x 8); uchar (Z.shiftr x 16); uchar (Z.shiftr x 24)].

(** [sb], and its bytes *)
Definition mk_super : xv6fs_super_block :=
  mk_sb FSMAGIC (xint FSSIZE) (xint mk_nblocks) (xint NINODES) (xint mk_nlog) (xint 2) (xint (2 + mk_nlog)) (xint (2 + mk_nlog + ninodeblocks)).
Definition super_bytes (s : xv6fs_super_block) : list Z :=
  encode_addrs [magic s; sb_size s; nblocks s; ninodes s; nlog s; logstart s; inodestart s; bmapstart s].
Definition zeroes : list Z := replicate (Z.to_nat BSIZE) 0.

Record image := mk_image { sects : gmap Z (list Z); freeinode : Z; freeblock : Z }.
Definition set_sects f im := mk_image (f (sects im)) (freeinode im) (freeblock im).

(** [lseek(fsfd, sec * BSIZE, 0)]: the product is a [uint]. *)
Definition sector (sec : Z) : Z := uint (sec * BSIZE) / BSIZE.
Definition wsect (sec : Z) (buf : list Z) : K image unit := modify (set_sects (insert (sector sec) buf)).
Definition rsect (sec : Z) : K image (list Z) :=
  im ← get; match sects im !! sector sec with Some l => mret l | None => panic "read" end.

Definition set_di_size v d := mk_dinode (di_type d) (di_major d) (di_minor d) (di_nlink d) v (di_addrs d).
Definition set_di_addr k v d := mk_dinode (di_type d) (di_major d) (di_minor d) (di_nlink d) (di_size d) (zupd (di_addrs d) k v).
(** [*dip = *ip] *)
Definition put_dinode (o : Z) (d : dinode) (data : list Z) : list Z :=
  let data := store16 data o (di_type d) in
  let data := store16 data (o + 2) (di_major d) in
  let data := store16 data (o + 4) (di_minor d) in
  let data := store16 data (o + 6) (di_nlink d) in
  let data := store32 data (o + 8) (di_size d) in
  splice data (o + 12) (encode_addrs (di_addrs d)).
Definition winode (inum : Z) (d : dinode) : K image unit :=
  let bn := IBLOCK inum mk_super in
  buf ← rsect bn;
  wsect bn (put_dinode (dinode_off inum) d buf).
Definition rinode (inum : Z) : K image dinode :=
  buf ← rsect (IBLOCK inum mk_super);
  mret (decode_dinode buf (dinode_off inum)).

Definition mk_ialloc (type : Z) : K image Z :=
  inum ← gets freeinode;
  modify (fun im => mk_image (sects im) (uint (freeinode im + 1)) (freeblock im));;
  winode inum (mk_dinode (short (xshort type)) 0 0 (short (xshort 1)) (xint 0) (replicate 13 0));;
  mret inum.

(** [buf[i/8] = buf[i/8] | (0x1 << (i%8))] for [i] up to [used] *)
Fixpoint mark_used (k : nat) (i : Z) (buf : list Z) : list Z :=
  match k with
  | O => buf
  | S k => mark_used k (i + 1) (zupd buf (i / 8) (uchar (Z.lor (znth buf (i / 8)) (Z.shiftl 1 (i mod 8)))))
  end.
Definition mk_balloc (used : Z) : K image unit :=
  if negb (used <? BSIZE * 8) then panic "assert"
  else wsect (bmapstart mk_super) (mark_used (Z.to_nat used) 0 zeroes).

(** [freeblock++] *)
Definition next_block : K image Z :=
  b ← gets freeblock; modify (fun im => mk_image (sects im) (freeinode im) (uint (freeblock im + 1)));; mret b.
(** The block [x] of the file for block [fbn] of it, allocated if need be; the inode may have changed. *)
Definition block_for (d : dinode) (fbn : Z) : K image (dinode * Z) :=
  if fbn <? NDIRECT then
    d ← (if xint (znth (di_addrs d) fbn) =? 0 then b ← next_block; mret (set_di_addr fbn (xint b) d) else mret d);
    mret (d, xint (znth (di_addrs d) fbn))
  else
    d ← (if xint (znth (di_addrs d) NDIRECT) =? 0 then b ← next_block; mret (set_di_addr NDIRECT (xint b) d) else mret d);
    indirect ← rsect (xint (znth (di_addrs d) NDIRECT));
    indirect ← (if load32 indirect (4 * (fbn - NDIRECT)) =? 0 then
                  b ← next_block;
                  let indirect := store32 indirect (4 * (fbn - NDIRECT)) (xint b) in
                  wsect (xint (znth (di_addrs d) NDIRECT)) indirect;;
                  mret indirect
                else mret indirect);
    mret (d, xint (load32 indirect (4 * (fbn - NDIRECT)))).
(** The loop of [iappend]; [p] is what is left of the [n] bytes. *)
Fixpoint iappend_loop (fuel : nat) (d : dinode) (off : Z) (p : list Z) : K image (dinode * Z) :=
  if 0 <? zlen p then
    match fuel with
    | O => out_of_fuel
    | S fuel =>
        let fbn := off / BSIZE in
        if negb (fbn <? MAXFILE) then panic "assert"
        else
          r ← block_for d fbn;
          let n1 := Z.min (zlen p) (uint ((fbn + 1) * BSIZE - off)) in
          buf ← rsect (snd r);
          wsect (snd r) (splice buf (off - fbn * BSIZE) (take (Z.to_nat n1) p));;
          iappend_loop fuel (fst r) (uint (off + n1)) (drop (Z.to_nat n1) p)
    end
  else mret (d, off).
Definition iappend (inum : Z) (p : list Z) : K image unit :=
  d ← rinode inum;
  r ← iappend_loop (length p) d (xint (di_size d)) p;
  winode inum (set_di_size (xint (snd r)) (fst r)).

(** [struct xv6fs_dentry] for a name: [strncpy] cuts it at [DIRSIZ] and fills up with zeroes. *)
Definition dirent (inum : Z) (name : list Z) : list Z :=
  le_encode 2 (xshort inum) ++ take 14 (name ++ replicate 14 0).

Definition slash_byte : Z := 47.
Definition user_prefix : list Z := [117; 115; 101; 114; 47].
Definition shortname (path : list Z) : list Z := if decide (take 5 path = user_prefix) then drop 5 path else path.
Definition skip_underscore (name : list Z) : list Z := match name with c :: l => if c =? 95 then l else name | [] => [] end.

Fixpoint append_all (inum : Z) (reads : list (list Z)) : K image unit :=
  match reads with [] => mret tt | buf :: reads => iappend inum buf;; append_all inum reads end.
Definition add_file (rootino : Z) (f : list Z * option (list (list Z))) : K image unit :=
  let short := shortname (fst f) in
  if bool_decide (slash_byte ∈ short) then panic "assert"
  else match snd f with
  | None => panic "open"
  | Some reads =>
      inum ← mk_ialloc T_FILE;
      iappend rootino (dirent inum (skip_underscore short));;
      append_all inum reads
  end.
Fixpoint add_files (rootino : Z) (l : list (list Z * option (list (list Z)))) : K image unit :=
  match l with [] => mret tt | f :: l => add_file rootino f;; add_files rootino l end.

Fixpoint zero_sects (k : nat) (i : Z) : K image unit :=
  match k with O => mret tt | S k => wsect i zeroes;; zero_sects k (i + 1) end.

Definition mkfs_main (files : list (list Z * option (list (list Z)))) : K image unit :=
  modify (fun im => mk_image (sects im) (freeinode im) nmeta);;
  zero_sects (Z.to_nat FSSIZE) 0;;
  wsect 1 (splice zeroes 0 (super_bytes mk_super));;
  rootino ← mk_ialloc T_DIR;
  if negb (rootino =? ROOTINO) then panic "assert"
  else
    iappend rootino (dirent rootino [46]);;
    iappend rootino (dirent rootino [46; 46]);;
    add_files rootino files;;
    d ← rinode rootino;
    let off := xint (di_size d) in
    let off := uint ((off / BSIZE + 1) * BSIZE) in
    winode rootino (set_di_size (xint off) d);;
    fb ← gets freeblock;
    mk_balloc (int fb).
(** The image file before, and [freeinode] as it is initialized *)
Definition blank : image := mk_image ∅ 1 0.
