(* ===== verification/MkfsProof.v ===== *)
(** * The image that mkfs makes

    An invariant ties the image to a table of inodes: every block that an inode
    uses lies between the meta-data and [freeblock] and has one owner, an entry of
    one inode; blocks that have not been handed out are zero. *)

From stdpp Require Import base numbers list list_numbers gmap strings.
From Stdlib Require Import ZArith Lia.
From S2P Require Import Prelude Params Virtio Bio Kmem Fsys Blocks BlocksProof Bmap Dinode Mkfs.

Ltac mkc := change nmeta with 46 in *; change FSSIZE with 2000 in *; change MAXFILE with 268 in *; change NDIRECT with 12 in *; change BSIZE with 1024 in *.

Lemma xint_small x : is_uint x -> xint x = x.
Proof.
  intros Hx. unfold is_uint in Hx. unfold xint, uchar. rewrite !Z.shiftr_div_pow2 by lia. cbn [le_decode].
  change (2 ^ 8) with 256. change (2 ^ 16) with 65536. change (2 ^ 24) with 16777216.
  assert (E1 : x / 65536 = x / 256 / 256) by (by rewrite Z.div_div by lia). assert (E2 : x / 16777216 = x / 256 / 256 / 256) by (by rewrite !Z.div_div by lia).
  rewrite E1, E2.
  pose proof (Z.div_mod x 256). pose proof (Z.div_mod (x / 256) 256). pose proof (Z.div_mod (x / 256 / 256) 256).
  rewrite (Z.mod_small (x / 256 / 256 / 256)); [lia|]. split; [repeat apply Z.div_pos; lia|]. repeat (apply Z.div_lt_upper_bound; [lia|]). lia.
Qed.
Lemma sector_small b : 0 <= b < 2 ^ 22 -> sector b = b.
Proof. intros Hb. unfold sector, uint. change BSIZE with 1024. rewrite Z.mod_small by lia. by rewrite Z.div_mul. Qed.

(** ** Blocks of an inode

    Entry [k] below [MAXFILE] is the block for block [k] of the file, entry [MAXFILE] the indirect block. *)

Definition slot (m : gmap Z (list Z)) (d : dinode) (k : Z) : Z :=
  if k <? NDIRECT then znth (di_addrs d) k
  else if k =? MAXFILE then znth (di_addrs d) NDIRECT
  else if znth (di_addrs d) NDIRECT =? 0 then 0
  else load32 (m !!! znth (di_addrs d) NDIRECT) (4 * (k - NDIRECT)).

(** Entry [k] is in use in a file of [sz] bytes. *)
Definition used (sz k : Z) : Prop := if k =? MAXFILE then NDIRECT * BSIZE < sz else k * BSIZE < sz.
Definition addrs_ok (d : dinode) : Prop := zlen (di_addrs d) = 13 /\ Forall is_uint (di_addrs d).

Record inv (m : gmap Z (list Z)) (nf fb : Z) (D : Z -> dinode) (own : Z -> Z * Z) (U : Z -> Z -> Prop) : Prop := {
  i_sec : forall b, 0 <= b < FSSIZE -> exists l, m !! b = Some l /\ zlen l = BSIZE /\ bytes_ok l;
  i_fb : nmeta <= fb <= FSSIZE;
  i_free : forall b, fb <= b < FSSIZE -> m !! b = Some zeroes;
  i_own : forall i k, 1 <= i < nf -> 0 <= k <= MAXFILE -> slot m (D i) k <> 0 -> nmeta <= slot m (D i) k < fb /\ own (slot m (D i) k) = (i, k);
  i_used : forall i k, 1 <= i < nf -> 0 <= k <= MAXFILE -> slot m (D i) k <> 0 <-> U i k;
  i_addrs : forall i, 1 <= i < nf -> addrs_ok (D i);
}.

Definition fset {A} (f : Z -> A) (i : Z) (x : A) : Z -> A := fun j => if decide (j = i) then x else f j.
Lemma fset_eq {A} (f : Z -> A) i x : fset f i x i = x.
Proof. unfold fset. by rewrite decide_True. Qed.
Lemma fset_ne {A} (f : Z -> A) i j x : j <> i -> fset f i x j = f j.
Proof. intros. unfold fset. by rewrite decide_False. Qed.

Lemma znth_uint l k : Forall is_uint l -> is_uint (znth l k).
Proof.
  intros H. unfold znth. rewrite list_lookup_total_alt. destruct (l !! Z.to_nat k) as [x|] eqn:E; simpl; [|by unfold is_uint].
  by eapply Forall_lookup_1 in H.
Qed.
Lemma addrs_ok_set d k v : addrs_ok d -> is_uint v -> addrs_ok (set_di_addr k v d).
Proof. intros [Hl Hf] Hv. split; [by unfold set_di_addr; simpl; rewrite zlen_zupd|]. by apply Forall_insert. Qed.

Lemma slot_size m d v k : slot m (set_di_size v d) k = slot m d k.
Proof. done. Qed.

(** What is written outside the indirect block does not matter. *)
Lemma slot_ext m m' d k : (znth (di_addrs d) NDIRECT <> 0 -> m' !! znth (di_addrs d) NDIRECT = m !! znth (di_addrs d) NDIRECT) -> slot m' d k = slot m d k.
Proof.
  intros H. unfold slot. destruct (k <? NDIRECT); [done|]. destruct (k =? MAXFILE); [done|]. destruct (Z.eqb_spec (znth (di_addrs d) NDIRECT) 0); [done|].
  by rewrite !lookup_total_alt, H.
Qed.
Lemma slot_ind m d : slot m d MAXFILE = znth (di_addrs d) NDIRECT.
Proof. done. Qed.

Lemma load_zeroes o : 0 <= o -> o + 4 <= BSIZE -> load32 zeroes o = 0.
Proof.
  intros H0 H1. unfold load, zeroes, sub. rewrite drop_replicate, take_replicate. change BSIZE with 1024 in *.
  replace ((Z.to_nat (Z.of_nat 4)) `min` (Z.to_nat 1024 - Z.to_nat o))%nat with 4%nat by lia. done.
Qed.

(** ** The three ways in which the image changes while a file grows *)

Section Steps.
Context (m : gmap Z (list Z)) (nf fb : Z) (D : Z -> dinode) (own : Z -> Z * Z) (U : Z -> Z -> Prop).
Hypothesis Hinv : inv m nf fb D own U.

Lemma slot_fresh i k : 1 <= i < nf -> 0 <= k <= MAXFILE -> slot m (D i) k <> fb.
Proof using Hinv.
  intros Hi Hk E. destruct (decide (slot m (D i) k = 0)) as [Ez|Hz]; [pose proof (i_fb _ _ _ _ _ _ Hinv); mkc; lia|].
  destruct (i_own _ _ _ _ _ _ Hinv i k Hi Hk Hz). lia.
Qed.
Lemma slot_inj i k i' k' : 1 <= i < nf -> 0 <= k <= MAXFILE -> 1 <= i' < nf -> 0 <= k' <= MAXFILE -> slot m (D i) k <> 0 ->
  slot m (D i) k = slot m (D i') k' -> i = i' /\ k = k'.
Proof using Hinv.
  intros Hi Hk Hi' Hk' Hz E. destruct (i_own _ _ _ _ _ _ Hinv i k Hi Hk Hz) as [_ H1]. rewrite E in Hz, H1.
  destruct (i_own _ _ _ _ _ _ Hinv i' k' Hi' Hk' Hz) as [_ H2]. rewrite H1 in H2. by injection H2.
Qed.

(** A data block is written. *)
Lemma write_inv i k l : 1 <= i < nf -> 0 <= k < MAXFILE -> slot m (D i) k <> 0 -> zlen l = BSIZE -> bytes_ok l ->
  inv (<[slot m (D i) k := l]> m) nf fb D own U /\ forall i' k', 1 <= i' < nf -> slot (<[slot m (D i) k := l]> m) (D i') k' = slot m (D i') k'.
Proof using Hinv.
  intros Hi Hk Hz Hl Hb. set (b := slot m (D i) k) in *. destruct (i_own _ _ _ _ _ _ Hinv i k Hi ltac:(lia) Hz) as [Hr _].
  assert (Hs : forall i' k', 1 <= i' < nf -> slot (<[b := l]> m) (D i') k' = slot m (D i') k').
  { intros i' k' Hi'. apply slot_ext. intros Hn. rewrite <- (slot_ind m) in *. apply lookup_insert_ne. intros E.
    destruct (slot_inj i k i' MAXFILE Hi ltac:(lia) Hi' ltac:(mkc; lia) Hz E) as [_ ?]. lia. }
  split; [|done]. destruct Hinv as [I1 I2 I3 I4 I5 I6]. split; try done.
  - intros b' Hb'. destruct (decide (b' = b)) as [->|]; [exists l; by rewrite lookup_insert_eq|]. rewrite lookup_insert_ne by done. by apply I1.
  - intros b' Hb'. rewrite lookup_insert_ne by lia. by apply I3.
  - intros i' k' Hi' Hk'. rewrite Hs by done. by apply I4.
  - intros i' k' Hi' Hk'. rewrite Hs by done. by apply I5.
Qed.

(** A block pointer of the inode is set: entry [j] of [addrs]. *)
Definition slot_of_addr (j : Z) : Z := if j =? NDIRECT then MAXFILE else j.
Lemma slot_set_addr d j k : addrs_ok d -> 0 <= j <= NDIRECT -> 0 <= k <= MAXFILE -> znth (di_addrs d) j = 0 -> m !! fb = Some zeroes -> fb <> 0 ->
  slot m (set_di_addr j fb d) k = if k =? slot_of_addr j then fb else slot m d k.
Proof using Type.
  intros [Hl _] Hj Hk Hz Hf Hfb. unfold slot, slot_of_addr. simpl. destruct (Z.eqb_spec j NDIRECT) as [->|Hn].
  - rewrite znth_zupd_eq by (rewrite Hl; mkc; lia). destruct (Z.ltb_spec k NDIRECT).
    + rewrite (proj2 (Z.eqb_neq k MAXFILE)) by (mkc; lia). by rewrite znth_zupd_ne by lia.
    + destruct (Z.eqb_spec k MAXFILE) as [->|Hk']; [done|]. rewrite (proj2 (Z.eqb_neq fb 0)) by done. rewrite Hz. simpl.
      rewrite lookup_total_alt, Hf. simpl. apply load_zeroes; mkc; lia.
  - rewrite (znth_zupd_ne _ j NDIRECT) by lia. destruct (Z.ltb_spec k NDIRECT).
    + destruct (Z.eqb_spec k j) as [->|]; [by apply znth_zupd_eq; rewrite Hl; mkc; lia|]. by rewrite znth_zupd_ne by lia.
    + by rewrite (proj2 (Z.eqb_neq k j)) by lia.
Qed.

Lemma addr_inv i j d v : 1 <= i < nf -> 0 <= j <= NDIRECT -> znth (di_addrs (D i)) j = 0 -> fb < FSSIZE -> d = set_di_size v (set_di_addr j fb (D i)) ->
  inv m nf (fb + 1) (fset D i d) (fset own fb (i, slot_of_addr j)) (fun i' k' => U i' k' \/ (i' = i /\ k' = slot_of_addr j)) /\
  (forall k, 0 <= k <= MAXFILE -> slot m d k = if k =? slot_of_addr j then fb else slot m (D i) k) /\ slot m (D i) (slot_of_addr j) = 0.
Proof using Hinv.
  intros Hi Hj Hz Hfb ->. pose proof (i_fb _ _ _ _ _ _ Hinv) as Hfr. pose proof (i_addrs _ _ _ _ _ _ Hinv i Hi) as Ha.
  assert (Hs : forall k, 0 <= k <= MAXFILE -> slot m (set_di_size v (set_di_addr j fb (D i))) k = if k =? slot_of_addr j then fb else slot m (D i) k).
  { intros k Hk. rewrite slot_size. apply slot_set_addr; try done; [apply (i_free _ _ _ _ _ _ Hinv); lia|mkc; lia]. }
  assert (Hs0 : slot m (D i) (slot_of_addr j) = 0).
  { unfold slot_of_addr, slot. destruct (Z.eqb_spec j NDIRECT) as [->|]; [exact Hz|]. by rewrite (proj2 (Z.ltb_lt j NDIRECT)) by lia. }
  split; [|done]. destruct Hinv as [I1 I2 I3 I4 I5 I6]. split; try done.
  - lia.
  - intros b Hb. apply I3. lia.
  - intros i' k' Hi' Hk'. destruct (decide (i' = i)) as [->|Hne].
    + rewrite fset_eq, Hs by done. destruct (Z.eqb_spec k' (slot_of_addr j)) as [->|Hk]; intros Hn; [split; [mkc; lia|apply fset_eq]|].
      destruct (I4 i k' Hi' Hk' Hn) as [Hr Ho]. split; [lia|]. rewrite fset_ne; [done|lia].
    + rewrite fset_ne by done. intros Hn. destruct (I4 i' k' Hi' Hk' Hn) as [Hr Ho]. split; [lia|]. rewrite fset_ne; [done|lia].
  - intros i' k' Hi' Hk'. rewrite <- (I5 i' k' Hi' Hk'). destruct (decide (i' = i)) as [->|Hne].
    + rewrite fset_eq, Hs by done. destruct (Z.eqb_spec k' (slot_of_addr j)) as [->|Hk]; [split; [by right|mkc; lia]|]. split; [by left|]. intros [?|[_ ?]]; done.
    + rewrite fset_ne by done. split; [by left|]. intros [?|[? _]]; done.
  - intros i' Hi'. destruct (decide (i' = i)) as [->|Hne]; [rewrite fset_eq|rewrite fset_ne by done; by apply I6].
    apply (addrs_ok_set (D i) j fb); [done|unfold is_uint; mkc; lia].
Qed.

(** An entry of the indirect block is set. *)
Lemma entry_inv i k ind : 1 <= i < nf -> NDIRECT <= k < MAXFILE -> ind = znth (di_addrs (D i)) NDIRECT -> ind <> 0 -> slot m (D i) k = 0 -> fb < FSSIZE ->
  let m' := <[ind := store32 (m !!! ind) (4 * (k - NDIRECT)) fb]> m in
  inv m' nf (fb + 1) D (fset own fb (i, k)) (fun i' k' => U i' k' \/ (i' = i /\ k' = k)) /\
  (forall k', 0 <= k' <= MAXFILE -> slot m' (D i) k' = if k' =? k then fb else slot m (D i) k') /\
  (forall i' k', 1 <= i' < nf -> i' <> i -> slot m' (D i') k' = slot m (D i') k').
Proof using Hinv.
  intros Hi Hk Eind Hnz Hz Hfb m'. pose proof (i_fb _ _ _ _ _ _ Hinv) as Hfr.
  assert (Hind : nmeta <= ind < fb) by (rewrite Eind in *; apply (i_own _ _ _ _ _ _ Hinv i MAXFILE Hi ltac:(mkc; lia) Hnz)).
  destruct (i_sec _ _ _ _ _ _ Hinv ind ltac:(mkc; lia)) as (l & Hl & Hlen & Hbytes).
  assert (Et : m !!! ind = l) by (by apply lookup_total_correct). assert (Em : m' = <[ind := store32 l (4 * (k - NDIRECT)) fb]> m) by (unfold m'; by rewrite Et). clearbody m'.
  assert (Hs : forall k', 0 <= k' <= MAXFILE -> slot m' (D i) k' = if k' =? k then fb else slot m (D i) k').
  { intros k' Hk'. unfold slot. rewrite <- Eind. destruct (Z.ltb_spec k' NDIRECT); [by rewrite (proj2 (Z.eqb_neq k' k)) by lia|].
    destruct (Z.eqb_spec k' MAXFILE); [by rewrite (proj2 (Z.eqb_neq k' k)) by lia|]. rewrite (proj2 (Z.eqb_neq ind 0)) by done.
    rewrite Em. rewrite lookup_total_insert_eq. destruct (Z.eqb_spec k' k) as [->|Hne].
    - rewrite load_store_same by (mkc; lia). change (2 ^ (8 * Z.of_nat 4)) with (2 ^ 32). apply Z.mod_small. mkc; lia.
    - rewrite load_store_disj by (mkc; lia). by rewrite Et. }
  assert (Ho : forall i' k', 1 <= i' < nf -> i' <> i -> slot m' (D i') k' = slot m (D i') k').
  { intros i' k' Hi' Hne. apply slot_ext. intros Hn. rewrite Em. apply lookup_insert_ne. rewrite Eind in *. intros E.
    destruct (slot_inj i MAXFILE i' MAXFILE Hi ltac:(mkc; lia) Hi' ltac:(mkc; lia) Hnz E). done. }
  split; [|done]. destruct Hinv as [I1 I2 I3 I4 I5 I6]. split; try done.
  - intros b Hb. rewrite Em. destruct (decide (b = ind)) as [->|]; [|rewrite lookup_insert_ne by done; by apply I1].
    rewrite lookup_insert_eq. eexists. split; [done|]. split; [rewrite zlen_store; mkc; lia|by apply bytes_ok_store].
  - lia.
  - intros b Hb. rewrite Em. rewrite lookup_insert_ne by lia. apply I3. lia.
  - intros i' k' Hi' Hk'. destruct (decide (i' = i)) as [->|Hne].
    + rewrite Hs by done. destruct (Z.eqb_spec k' k) as [->|Hkk]; intros Hn; [split; [mkc; lia|apply fset_eq]|].
      destruct (I4 i k' Hi' Hk' Hn) as [Hr Hw]. split; [lia|]. rewrite fset_ne; [done|lia].
    + rewrite Ho by done. intros Hn. destruct (I4 i' k' Hi' Hk' Hn) as [Hr Hw]. split; [lia|]. rewrite fset_ne; [done|lia].
  - intros i' k' Hi' Hk'. rewrite <- (I5 i' k' Hi' Hk'). destruct (decide (i' = i)) as [->|Hne].
    + rewrite Hs by done. destruct (Z.eqb_spec k' k) as [->|Hkk]; [split; [by right|mkc; lia]|]. split; [by left|]. intros [?|[_ ?]]; done.
    + rewrite Ho by done. split; [by left|]. intros [?|[? _]]; done.
Qed.
End Steps.

Lemma slot_addrs m d d' k : di_addrs d' = di_addrs d -> slot m d' k = slot m d k.
Proof. intros E. unfold slot. by rewrite E. Qed.
Lemma inv_ext m nf fb D D' own U U' : inv m nf fb D own U -> (forall i, 1 <= i < nf -> di_addrs (D' i) = di_addrs (D i)) ->
  (forall i k, 1 <= i < nf -> 0 <= k <= MAXFILE -> U i k <-> U' i k) -> inv m nf fb D' own U'.
Proof.
  intros [I1 I2 I3 I4 I5 I6] HD HU. split; try done.
  - intros i k Hi Hk. rewrite (slot_addrs _ _ _ _ (HD i Hi)). by apply I4.
  - intros i k Hi Hk. rewrite (slot_addrs _ _ _ _ (HD i Hi)), <- HU by done. by apply I5.
  - intros i Hi. unfold addrs_ok. rewrite (HD i Hi). by apply I6.
Qed.

(** Blocks of a file of [sz] bytes, the indirect block with them *)
Definition nb (sz : Z) : Z := (sz + (BSIZE - 1)) / BSIZE + (if NDIRECT * BSIZE <? sz then 1 else 0).
Lemma nb_cases off off' : 0 <= off < off' -> off' <= (off / BSIZE + 1) * BSIZE ->
  nb off' - nb off = if off mod BSIZE =? 0 then (if off / BSIZE =? NDIRECT then 2 else 1) else 0.
Proof.
  intros H1 H2. unfold nb. mkc. pose proof (Z.div_mod off 1024 ltac:(lia)). pose proof (Z.mod_pos_bound off 1024 ltac:(lia)). set (q := off / 1024) in *. set (r := off mod 1024) in *.
  assert (E' : (off' + (1024 - 1)) / 1024 = q + 1) by (symmetry; apply (Z.div_unique _ _ _ (off' + 1023 - 1024 * (q + 1))); lia).
  rewrite E'. destruct (Z.eqb_spec r 0) as [Er|Er].
  - assert (E : (off + (1024 - 1)) / 1024 = q) by (symmetry; apply (Z.div_unique _ _ _ 1023); lia). rewrite E.
    destruct (Z.eqb_spec q 12); destruct (Z.ltb_spec (12 * 1024) off'); destruct (Z.ltb_spec (12 * 1024) off); lia.
  - assert (E : (off + (1024 - 1)) / 1024 = q + 1) by (symmetry; apply (Z.div_unique _ _ _ (r - 1)); lia). rewrite E.
    destruct (Z.ltb_spec (12 * 1024) off'); destruct (Z.ltb_spec (12 * 1024) off); lia.
Qed.
(** What is used when a file grows within a block *)
Lemma used_grow off off' k : 0 <= off < off' -> off' <= (off / BSIZE + 1) * BSIZE -> 0 <= k <= MAXFILE ->
  used off' k <-> used off k \/ (off mod BSIZE = 0 /\ (k = off / BSIZE /\ k <> MAXFILE \/ k = MAXFILE /\ off / BSIZE = NDIRECT)).
Proof.
  intros H1 H2 Hk. unfold used. mkc. pose proof (Z.div_mod off 1024 ltac:(lia)). pose proof (Z.mod_pos_bound off 1024 ltac:(lia)). set (q := off / 1024) in *. set (r := off mod 1024) in *.
  destruct (Z.eqb_spec k 268) as [->|Hk']; lia.
Qed.

Definition same_fields (d d' : dinode) : Prop :=
  di_type d' = di_type d /\ di_major d' = di_major d /\ di_minor d' = di_minor d /\ di_nlink d' = di_nlink d /\ di_size d' = di_size d.
Definition sized (D : Z -> dinode) (i k : Z) : Prop := used (di_size (D i)) k.

Lemma next_block_ok im : 0 <= freeblock im < FSSIZE -> next_block im = Ok (freeblock im, mk_image (sects im) (freeinode im) (freeblock im + 1)).
Proof. intros H. unfold next_block. rewrite bind_gets, bind_modify. unfold uint. by rewrite Z.mod_small by (mkc; lia). Qed.
Lemma rsect_ok im b l : 0 <= b < FSSIZE -> sects im !! b = Some l -> rsect b im = Ok (l, im).
Proof. intros Hb Hl. unfold rsect. rewrite bind_get, sector_small by (mkc; lia). by rewrite Hl. Qed.
Lemma wsect_ok im b l : 0 <= b < FSSIZE -> wsect b l im = Ok (tt, set_sects (insert b l) im).
Proof. intros Hb. unfold wsect. by rewrite sector_small by (mkc; lia). Qed.

(** What [block_for] leaves *)
Definition grown (im : image) (D : Z -> dinode) (nf i off' : Z) (fbn : Z) (d : dinode) (im' : image) (d' : dinode) : Prop :=
  freeinode im' = freeinode im /\ same_fields d d' /\
  (exists own', inv (sects im') nf (freeblock im') (fset D i (set_di_size off' d')) own' (sized (fset D i (set_di_size off' d')))) /\
  (forall i' k, 1 <= i' < nf -> i' <> i -> slot (sects im') (D i') k = slot (sects im) (D i') k) /\
  (forall k, 0 <= k <= MAXFILE -> slot (sects im) d k <> 0 -> slot (sects im') d' k = slot (sects im) d k) /\
  (forall b, b < nmeta \/ b <> slot (sects im') d' MAXFILE -> sects im' !! b = sects im !! b) /\
  slot (sects im') d' fbn <> 0 /\ (slot (sects im) d fbn = 0 -> sects im' !! slot (sects im') d' fbn = Some zeroes).

Section BlockFor.
Context (im : image) (nf : Z) (D : Z -> dinode) (own : Z -> Z * Z) (i off off' : Z) (d : dinode).
Hypothesis Hinv : inv (sects im) nf (freeblock im) D own (sized D).
Hypothesis Hi : 1 <= i < nf.
Hypothesis HD : D i = set_di_size off d.
Hypothesis Hoff : 0 <= off < off'.
Hypothesis Hoff' : off' <= (off / BSIZE + 1) * BSIZE.
Hypothesis Hmax : off / BSIZE < MAXFILE.
Abbreviation m := (sects im).
Abbreviation fb := (freeblock im).
Abbreviation fbn := (off / BSIZE).

Lemma slot_d k : slot m d k = slot m (D i) k.
Proof using HD. by rewrite HD. Qed.
Lemma fbn_range : 0 <= fbn < MAXFILE.
Proof using Hoff Hmax. split; [apply Z.div_pos; mkc; lia|done]. Qed.
Lemma slot_used k : 0 <= k <= MAXFILE -> slot m d k <> 0 <-> used off k.
Proof using Hinv HD Hi. intros Hk. rewrite slot_d, (i_used _ _ _ _ _ _ Hinv i k Hi Hk). unfold sized. by rewrite HD. Qed.
Lemma slot_fbn : slot m d fbn <> 0 <-> off mod BSIZE <> 0.
Proof using Hinv HD Hi Hoff Hmax.
  pose proof fbn_range. rewrite slot_used by lia. unfold used. rewrite (proj2 (Z.eqb_neq fbn MAXFILE)) by lia. mkc.
  pose proof (Z.div_mod off 1024 ltac:(lia)). pose proof (Z.mod_pos_bound off 1024 ltac:(lia)). lia.
Qed.
Lemma addr_uint k : is_uint (znth (di_addrs d) k).
Proof using Hinv HD Hi. pose proof (i_addrs _ _ _ _ _ _ Hinv i Hi) as [_ Hf]. rewrite HD in Hf. by apply znth_uint. Qed.

(** Nothing to allocate *)
Lemma grown_none : slot m d fbn <> 0 -> grown im D nf i off' fbn d im d.
Proof using Hinv Hi HD Hoff Hoff' Hmax.
  intros Hz. pose proof (proj1 slot_fbn Hz) as Hmod. split; [done|]. split; [done|]. split; [|by split_and!].
  exists own. eapply inv_ext; [exact Hinv| |].
  - intros i' _. unfold fset. case_decide; [subst i'; by rewrite HD|done].
  - intros i' k Hi' Hk. unfold sized, fset. case_decide; [subst i'|done]. rewrite HD. cbn [di_size set_di_size]. rewrite (used_grow off off' k) by done. tauto.
Qed.

(** The U of [inv] after entries have been added for process [i] *)
Lemma sized_grow (d' : dinode) (E : Z -> Prop) : off mod BSIZE = 0 -> (forall k, 0 <= k <= MAXFILE -> E k <-> k = fbn /\ k <> MAXFILE \/ k = MAXFILE /\ fbn = NDIRECT) ->
  forall i' k, 1 <= i' < nf -> 0 <= k <= MAXFILE -> (sized D i' k \/ (i' = i /\ E k)) <-> sized (fset D i (set_di_size off' d')) i' k.
Proof using HD Hi Hoff Hoff'.
  intros Hm HE i' k Hi' Hk. unfold sized, fset. case_decide; [subst i'|tauto]. rewrite HD. cbn [di_size set_di_size]. rewrite (used_grow off off' k), HE by done. tauto.
Qed.

(** A direct block *)
Lemma grown_direct : fbn < NDIRECT -> slot m d fbn = 0 -> fb < FSSIZE ->
  grown im D nf i off' fbn d (mk_image m (freeinode im) (fb + 1)) (set_di_addr fbn fb d).
Proof using Hinv Hi HD Hoff Hoff' Hmax.
  intros Hd Hz Hfb. pose proof fbn_range as Hr. assert (Hmod : off mod BSIZE = 0) by (destruct (decide (off mod BSIZE = 0)) as [|Hn]; [done|]; by apply slot_fbn in Hn).
  assert (Hza : znth (di_addrs (D i)) fbn = 0) by (rewrite slot_d in Hz; unfold slot in Hz; by rewrite (proj2 (Z.ltb_lt _ _)) in Hz by done).
  destruct (addr_inv m nf fb D own (sized D) Hinv i fbn (set_di_size off' (set_di_addr fbn fb d)) off') as (Hi1 & Hs & _); [done|lia|done|done|by rewrite HD|].
  assert (Ek : slot_of_addr fbn = fbn) by (unfold slot_of_addr; by rewrite (proj2 (Z.eqb_neq _ _)) by lia). rewrite Ek in *.
  pose proof (i_fb _ _ _ _ _ _ Hinv) as Hfr. assert (Hnew : slot m (set_di_addr fbn fb d) fbn = fb) by (rewrite <- (slot_size m _ off'), Hs by lia; by rewrite Z.eqb_refl).
  split; [done|]. split; [done|]. split; [|split_and!; cbn [sects]; try done].
  - eexists. cbn [sects freeblock]. eapply inv_ext; [exact Hi1|done|]. apply sized_grow; [done|]. intros k Hk. mkc. lia.
  - intros k Hk Hn. rewrite <- (slot_size m _ off'), Hs by done. rewrite <- slot_d. destruct (Z.eqb_spec k fbn) as [->|]; [by rewrite Hz in Hn|done].
  - rewrite Hnew. mkc. lia.
  - intros _. rewrite Hnew. apply (i_free _ _ _ _ _ _ Hinv). lia.
Qed.

(** An entry of the indirect block that is there *)
Lemma grown_entry : NDIRECT <= fbn -> slot m d fbn = 0 -> slot m d MAXFILE <> 0 -> fb < FSSIZE ->
  let ind := znth (di_addrs d) NDIRECT in
  grown im D nf i off' fbn d (mk_image (<[ind := store32 (m !!! ind) (4 * (fbn - NDIRECT)) fb]> m) (freeinode im) (fb + 1)) d /\
  slot (<[ind := store32 (m !!! ind) (4 * (fbn - NDIRECT)) fb]> m) d fbn = fb.
Proof using Hinv Hi HD Hoff Hoff' Hmax.
  intros Hd Hz Hind Hfb ind. pose proof fbn_range as Hr. assert (Hmod : off mod BSIZE = 0) by (destruct (decide (off mod BSIZE = 0)) as [|Hn]; [done|]; by apply slot_fbn in Hn).
  pose proof (i_fb _ _ _ _ _ _ Hinv) as Hfr.
  destruct (entry_inv m nf fb D own (sized D) Hinv i fbn ind) as (Hi1 & Hs & Ho); [done|lia|by rewrite HD|done|by rewrite <- slot_d|done|].
  set (m' := insert ind _ m) in *.
  assert (Hs' : forall k, 0 <= k <= MAXFILE -> slot m' d k = if k =? fbn then fb else slot m d k) by (intros k Hk; rewrite slot_d, <- Hs by done; by rewrite HD).
  assert (Hnew : slot m' d fbn = fb) by (rewrite Hs' by lia; by rewrite Z.eqb_refl).
  assert (Hne : fbn <> NDIRECT).
  { intros E. apply (slot_used MAXFILE) in Hind; [|mkc; lia]. unfold used in Hind. rewrite Z.eqb_refl in Hind. mkc. pose proof (Z.div_mod off 1024 ltac:(lia)). lia. }
  split; [|done]. split; [done|]. split; [done|]. split; [|split_and!; cbn [sects]; try done].
  - eexists. cbn [sects freeblock]. eapply inv_ext; [exact Hi1| |].
    + intros i' _. unfold fset. case_decide; [subst i'; by rewrite HD|done].
    + apply sized_grow; [done|]. intros k Hk. lia.
  - intros k Hk Hn. rewrite Hs' by done. destruct (Z.eqb_spec k fbn) as [->|]; [by rewrite Hz in Hn|done].
  - intros b Hb. unfold m'. apply lookup_insert_ne. rewrite slot_ind in Hb. fold ind in Hb. destruct Hb as [Hb|Hb]; [|done].
    rewrite slot_d in Hind. destruct (i_own _ _ _ _ _ _ Hinv i MAXFILE Hi ltac:(mkc; lia) Hind) as [Hr' _]. rewrite slot_ind, HD in Hr'. simpl in Hr'. fold ind in Hr'. lia.
  - rewrite Hnew. mkc. lia.
  - intros _. rewrite Hnew. unfold m'. rewrite lookup_insert_ne; [apply (i_free _ _ _ _ _ _ Hinv); lia|].
    rewrite slot_d in Hind. destruct (i_own _ _ _ _ _ _ Hinv i MAXFILE Hi ltac:(mkc; lia) Hind) as [Hr' _]. rewrite slot_ind, HD in Hr'. simpl in Hr'. fold ind in Hr'. lia.
Qed.

(** The indirect block and its first entry *)
Lemma grown_both : NDIRECT <= fbn -> slot m d MAXFILE = 0 -> fb + 1 < FSSIZE ->
  let m' := <[fb := store32 (m !!! fb) (4 * (fbn - NDIRECT)) (fb + 1)]> m in let d' := set_di_addr NDIRECT fb d in
  grown im D nf i off' fbn d (mk_image m' (freeinode im) (fb + 2)) d' /\ slot m' d' fbn = fb + 1 /\ slot m d fbn = 0 /\ fbn = NDIRECT /\ off mod BSIZE = 0.
Proof using Hinv Hi HD Hoff Hoff' Hmax.
  intros Hd Hz Hfb m' d'. pose proof fbn_range as Hr. pose proof (i_fb _ _ _ _ _ _ Hinv) as Hfr.
  assert (Hno : ~ used off MAXFILE) by (intros Hu; by apply (slot_used MAXFILE) in Hu; [|mkc; lia]). unfold used in Hno. rewrite Z.eqb_refl in Hno.
  pose proof (Z.div_mod off 1024 ltac:(lia)) as Hdm. pose proof (Z.mod_pos_bound off 1024 ltac:(lia)).
  assert (En : fbn = NDIRECT) by (mkc; lia). assert (Hmod : off mod BSIZE = 0) by (mkc; lia).
  assert (Hzf : slot m d fbn = 0) by (destruct (decide (slot m d fbn = 0)) as [|Hn]; [done|]; by apply slot_fbn in Hn).
  destruct (addr_inv m nf fb D own (sized D) Hinv i NDIRECT (set_di_size off' d') off') as (Hi1 & Hs1 & _); [done|lia|by rewrite <- (slot_ind m), <- slot_d|lia|by rewrite HD|].
  change (slot_of_addr NDIRECT) with MAXFILE in *. set (D1 := fset D i (set_di_size off' d')) in *.
  assert (ED1 : D1 i = set_di_size off' d') by apply fset_eq. assert (Hlen : zlen (di_addrs d) = 13) by (pose proof (i_addrs _ _ _ _ _ _ Hinv i Hi) as [Hl _]; by rewrite HD in Hl).
  assert (Eind : fb = znth (di_addrs (D1 i)) NDIRECT) by (rewrite ED1; unfold d'; simpl; rewrite znth_zupd_eq; [done|rewrite Hlen; mkc; lia]).
  assert (Hz1 : slot m (D1 i) fbn = 0) by (rewrite ED1, Hs1 by lia; rewrite (proj2 (Z.eqb_neq _ _)) by lia; by rewrite <- slot_d).
  destruct (entry_inv m nf (fb + 1) D1 _ _ Hi1 i fbn fb Hi ltac:(lia) Eind ltac:(mkc; lia) Hz1 Hfb) as (Hi2 & Hs2 & Ho2). fold m' in Hi2, Hs2, Ho2. replace (fb + 1 + 1) with (fb + 2) in * by lia.
  assert (Hs : forall k, 0 <= k <= MAXFILE -> slot m' d' k = if k =? fbn then fb + 1 else if k =? MAXFILE then fb else slot m d k).
  { intros k Hk. rewrite <- (slot_size m' d' off'), <- ED1, Hs2 by done. destruct (k =? fbn); [done|]. rewrite ED1, Hs1 by done. by rewrite slot_d. }
  assert (Hnew : slot m' d' fbn = fb + 1) by (rewrite Hs by lia; by rewrite Z.eqb_refl).
  split; [|done]. split; [done|]. split; [done|]. split; [|split_and!; cbn [sects]].
  - eexists. cbn [sects freeblock]. fold D1. eapply inv_ext; [exact Hi2|done|]. intros i' k Hi' Hk. unfold D1. rewrite <- (sized_grow d' (fun k => k = MAXFILE \/ k = fbn) Hmod); [tauto| |done|done].
    intros k' Hk'. lia.
  - intros i' k Hi' Hne. rewrite <- (fset_ne D i i' (set_di_size off' d') Hne). by apply Ho2.
  - intros k Hk Hn. rewrite Hs by done. destruct (Z.eqb_spec k fbn) as [->|]; [by rewrite Hzf in Hn|]. destruct (Z.eqb_spec k MAXFILE) as [->|]; [by rewrite Hz in Hn|done].
  - intros b Hb. apply lookup_insert_ne. rewrite (Hs MAXFILE) in Hb by (mkc; lia). rewrite (proj2 (Z.eqb_neq MAXFILE fbn)), Z.eqb_refl in Hb by lia. lia.
  - rewrite Hnew. mkc. lia.
  - intros _. rewrite Hnew. unfold m'. rewrite lookup_insert_ne by lia. apply (i_free _ _ _ _ _ _ Hinv). lia.
Qed.

Lemma fb_uint : is_uint fb.
Proof using Hinv. pose proof (i_fb _ _ _ _ _ _ Hinv). unfold is_uint. mkc. lia. Qed.
Lemma new_addr k : 0 <= k <= NDIRECT -> fb < FSSIZE -> (b ← next_block; mret (set_di_addr k (xint b) d)) im = Ok (set_di_addr k fb d, mk_image m (freeinode im) (fb + 1)).
Proof using Hinv.
  intros Hk Hfb. pose proof (i_fb _ _ _ _ _ _ Hinv). rewrite (bind_ok _ _ _ _ _ (next_block_ok im ltac:(mkc; lia))). by rewrite (xint_small _ fb_uint).
Qed.
Lemma set_addr_at k : 0 <= k <= NDIRECT -> znth (di_addrs (set_di_addr k fb d)) k = fb.
Proof using Hinv Hi HD.
  intros Hk. pose proof (i_addrs _ _ _ _ _ _ Hinv i Hi) as [Hl _]. rewrite HD in Hl. simpl in *. rewrite znth_zupd_eq; [done|]. rewrite Hl. mkc. lia.
Qed.
Lemma slot_entry (m' : gmap Z (list Z)) (d' : dinode) k : NDIRECT <= k < MAXFILE -> znth (di_addrs d') NDIRECT <> 0 -> slot m' d' k = load32 (m' !!! znth (di_addrs d') NDIRECT) (4 * (k - NDIRECT)).
Proof using Type.
  intros Hk Hn. unfold slot. by rewrite (proj2 (Z.ltb_ge _ _)), (proj2 (Z.eqb_neq k MAXFILE)), (proj2 (Z.eqb_neq _ 0)) by (done || lia).
Qed.

Lemma no_indirect : slot m d MAXFILE = 0 -> NDIRECT <= fbn -> fbn = NDIRECT /\ off mod BSIZE = 0.
Proof using Hinv Hi HD Hoff.
  intros Hz Hd. assert (Hno : ~ used off MAXFILE) by (intros Hu; by apply (slot_used MAXFILE) in Hu; [|mkc; lia]). unfold used in Hno. rewrite Z.eqb_refl in Hno.
  mkc. pose proof (Z.div_mod off 1024 ltac:(lia)). pose proof (Z.mod_pos_bound off 1024 ltac:(lia)). lia.
Qed.
Lemma has_indirect : slot m d MAXFILE <> 0 -> off mod BSIZE = 0 -> fbn <> NDIRECT.
Proof using Hinv Hi HD Hoff.
  intros Hz Hm E. apply (slot_used MAXFILE) in Hz; [|mkc; lia]. unfold used in Hz. rewrite Z.eqb_refl in Hz. mkc. pose proof (Z.div_mod off 1024 ltac:(lia)). lia.
Qed.

(** The second half of [block_for], with the indirect block [l] at [ind] in hand *)
Lemma entry_run (im0 : image) (d' : dinode) ind l k : 0 < ind < FSSIZE -> znth (di_addrs d') NDIRECT = ind -> sects im0 !! ind = Some l -> zlen l = BSIZE -> bytes_ok l ->
  NDIRECT <= k < MAXFILE -> (slot (sects im0) d' k = 0 -> 0 <= freeblock im0 < FSSIZE) ->
  (indirect ← rsect (xint (znth (di_addrs d') NDIRECT));
   indirect ← (if load32 indirect (4 * (k - NDIRECT)) =? 0 then
                 b ← next_block; let indirect := store32 indirect (4 * (k - NDIRECT)) (xint b) in
                 wsect (xint (znth (di_addrs d') NDIRECT)) indirect;; mret indirect
               else mret indirect);
   mret (d', xint (load32 indirect (4 * (k - NDIRECT))))) im0 =
  if slot (sects im0) d' k =? 0
  then Ok ((d', freeblock im0), mk_image (<[ind := store32 l (4 * (k - NDIRECT)) (freeblock im0)]> (sects im0)) (freeinode im0) (freeblock im0 + 1))
  else Ok ((d', slot (sects im0) d' k), im0).
Proof using Type.
  intros Hind Ea Hl Hlen Hb Hk Hfb. assert (Eu : xint (znth (di_addrs d') NDIRECT) = ind) by (rewrite Ea; apply xint_small; unfold is_uint; mkc; lia). rewrite Eu.
  rewrite (bind_ok _ _ _ _ _ (rsect_ok im0 ind l ltac:(lia) Hl)). rewrite slot_entry in * by (rewrite ?Ea; lia). rewrite Ea, (lookup_total_correct _ _ _ Hl) in *.
  destruct (Z.eqb_spec (load32 l (4 * (k - NDIRECT))) 0) as [Ez|Ez].
  - specialize (Hfb Ez). rewrite (bind_ok _ _ _ (store32 l (4 * (k - NDIRECT)) (freeblock im0)) (mk_image (<[ind := store32 l (4 * (k - NDIRECT)) (freeblock im0)]> (sects im0)) (freeinode im0) (freeblock im0 + 1))).
    + rewrite load_store_same by (mkc; lia). change (2 ^ (8 * Z.of_nat 4)) with (2 ^ 32). rewrite Z.mod_small, xint_small by (unfold is_uint; mkc; lia). done.
    + rewrite (bind_ok _ _ _ _ _ (next_block_ok im0 Hfb)). rewrite (xint_small (freeblock im0)) by (unfold is_uint; mkc; lia). cbv zeta. by rewrite (bind_ok _ _ _ _ _ (wsect_ok _ ind _ ltac:(lia))).
  - rewrite bind_ret. rewrite xint_small; [done|]. pose proof (load_range 4 l (4 * (k - NDIRECT)) Hb). done.
Qed.

Lemma block_for_ok : fb + (nb off' - nb off) <= FSSIZE ->
  exists im' d', block_for d fbn im = Ok ((d', slot (sects im') d' fbn), im') /\ grown im D nf i off' fbn d im' d' /\ freeblock im' = fb + (nb off' - nb off).
Proof using Hinv Hi HD Hoff Hoff' Hmax.
  rewrite nb_cases by done. pose proof fbn_range as Hr. pose proof slot_fbn as Hf. pose proof (i_fb _ _ _ _ _ _ Hinv) as Hfr. intros Hcap.
  assert (Hmod : slot m d fbn = 0 -> off mod BSIZE = 0) by (intros Hz; destruct (decide (off mod BSIZE = 0)) as [|Hn]; [done|]; by apply Hf in Hn).
  unfold block_for. destruct (Z.ltb_spec fbn NDIRECT) as [Hd|Hd].
  - rewrite (xint_small _ (addr_uint fbn)). assert (Es : forall d', slot m d' fbn = znth (di_addrs d') fbn) by (intros; unfold slot; by rewrite (proj2 (Z.ltb_lt _ _)) by done).
    destruct (Z.eqb_spec (znth (di_addrs d) fbn) 0) as [Ez|Ez]; rewrite <- Es in Ez.
    + rewrite (Hmod Ez), Z.eqb_refl, (proj2 (Z.eqb_neq fbn NDIRECT)) in * by lia. exists (mk_image m (freeinode im) (fb + 1)), (set_di_addr fbn fb d).
      rewrite (bind_ok _ _ _ _ _ (new_addr fbn ltac:(lia) ltac:(lia))). split_and!; [|apply grown_direct; try done; lia|done].
      cbn [sects]. rewrite Es, set_addr_at by lia. by rewrite (xint_small _ fb_uint).
    + rewrite (proj2 (Z.eqb_neq _ 0)) by (by apply Hf). exists im, d. rewrite bind_ret, (xint_small _ (addr_uint fbn)). split_and!; [by rewrite Es|by apply grown_none|lia].
  - rewrite (xint_small _ (addr_uint NDIRECT)). destruct (Z.eqb_spec (znth (di_addrs d) NDIRECT) 0) as [Ez|Ez].
    + destruct (no_indirect Ez Hd) as [En Hm]. assert (Ec : (if off mod BSIZE =? 0 then if fbn =? NDIRECT then 2 else 1 else 0) = 2) by (by rewrite Hm, En, !Z.eqb_refl).
      rewrite Ec in *. destruct (grown_both Hd Ez ltac:(lia)) as (Hg & Hsl & Hz & _).
      rewrite (bind_ok _ _ _ _ _ (new_addr NDIRECT ltac:(lia) ltac:(lia))).
      pose proof (i_free _ _ _ _ _ _ Hinv fb ltac:(lia)) as Hfree. assert (Et : m !!! fb = zeroes) by (by apply lookup_total_correct). rewrite Et in *.
      rewrite (entry_run _ _ fb zeroes fbn); [|mkc; lia|apply set_addr_at; lia|done|done|by apply bytes_ok_replicate|lia|cbn [freeblock]; mkc; lia].
      cbn [sects freeblock freeinode]. rewrite slot_entry by (rewrite ?set_addr_at by lia; mkc; lia). rewrite set_addr_at, Et, load_zeroes by (mkc; lia). change (0 =? 0) with true. cbv iota.
      replace (fb + 1 + 1) with (fb + 2) by lia.
      exists (mk_image (<[fb := store32 zeroes (4 * (fbn - NDIRECT)) (fb + 1)]> m) (freeinode im) (fb + 2)), (set_di_addr NDIRECT fb d). split_and!; [cbn [sects]; by rewrite Hsl|exact Hg|done].
    + destruct (i_own _ _ _ _ _ _ Hinv i MAXFILE Hi ltac:(mkc; lia)) as [Hir _]; [by rewrite <- slot_d|]. rewrite <- slot_d, slot_ind in Hir.
      destruct (i_sec _ _ _ _ _ _ Hinv (znth (di_addrs d) NDIRECT) ltac:(mkc; lia)) as (l & Hl & Hlen & Hb). rewrite bind_ret. cbv beta.
      assert (Hrun := entry_run im d (znth (di_addrs d) NDIRECT) l fbn ltac:(mkc; lia) eq_refl Hl Hlen Hb ltac:(lia)). cbv zeta in Hrun.
      destruct (decide (slot m d fbn = 0)) as [Es|Es].
      * rewrite (Hmod Es), Z.eqb_refl, (proj2 (Z.eqb_neq fbn NDIRECT)) in * by (by apply (has_indirect Ez), Hmod). rewrite Hrun by (mkc; lia). rewrite Es, Z.eqb_refl.
        destruct (grown_entry Hd Es Ez ltac:(lia)) as (Hg & Hsl). rewrite (lookup_total_correct _ _ _ Hl) in Hg, Hsl.
        exists (mk_image (<[znth (di_addrs d) NDIRECT := store32 l (4 * (fbn - NDIRECT)) fb]> m) (freeinode im) (fb + 1)), d. split_and!; [cbn [sects]; by rewrite Hsl|exact Hg|done].
      * rewrite (proj2 (Z.eqb_neq _ 0)) by (by apply Hf). rewrite Hrun by done. rewrite (proj2 (Z.eqb_neq _ 0)) by done. exists im, d. split_and!; [done|by apply grown_none|lia].
Qed.
End BlockFor.

(** ** The bytes of a file *)

Definition fbyte (m : gmap Z (list Z)) (d : dinode) (x : Z) : Z := znth (m !!! slot m d (x / BSIZE)) (x mod BSIZE).
(** Past the end of the file, its last block is zero. *)
Definition clean (m : gmap Z (list Z)) (d : dinode) : Prop := forall x, di_size d <= x -> 0 <= x < MAXFILE * BSIZE -> used (di_size d) (x / BSIZE) -> fbyte m d x = 0.
(** The bytes that a file has are still the same. *)
Definition keeps (m m' : gmap Z (list Z)) (d d' : dinode) : Prop :=
  forall x, 0 <= x < MAXFILE * BSIZE -> slot m d (x / BSIZE) <> 0 -> slot m' d' (x / BSIZE) = slot m d (x / BSIZE) /\ fbyte m' d' x = fbyte m d x.

Lemma block_no x : 0 <= x < MAXFILE * BSIZE -> 0 <= x / BSIZE < MAXFILE.
Proof. intros H. split; [apply Z.div_pos; mkc; lia|apply Z.div_lt_upper_bound; mkc; lia]. Qed.
Lemma fbyte_ext m m' d d' x : slot m' d' (x / BSIZE) = slot m d (x / BSIZE) -> m' !! slot m d (x / BSIZE) = m !! slot m d (x / BSIZE) -> fbyte m' d' x = fbyte m d x.
Proof. intros E Hm. unfold fbyte. rewrite E. by rewrite !lookup_total_alt, Hm. Qed.

(** Nothing that a file has is lost when [block_for] allocates. *)
Lemma grown_keeps im D own nf i off' fbn d im' d' : inv (sects im) nf (freeblock im) D own (sized D) -> 1 <= i < nf -> di_addrs (D i) = di_addrs d ->
  grown im D nf i off' fbn d im' d' ->
  keeps (sects im) (sects im') d d' /\ forall j, 1 <= j < nf -> j <> i -> keeps (sects im) (sects im') (D j) (D j).
Proof.
  intros Hinv Hi HD (_ & _ & (own' & Hinv') & Hoth & Hself & Hm & _).
  assert (Hgen : forall j k dj, 1 <= j < nf -> 0 <= k < MAXFILE -> di_addrs (fset D i (set_di_size off' d') j) = di_addrs dj -> slot (sects im') dj k <> 0 ->
    sects im' !! slot (sects im') dj k = sects im !! slot (sects im') dj k).
  { intros j k dj Hj Hk E Hn. apply Hm. rewrite <- (slot_addrs _ _ _ _ E) in *. destruct (i_own _ _ _ _ _ _ Hinv' j k Hj ltac:(lia) Hn) as [Hr _]. right. intros E2.
    assert (Ei : slot (sects im') d' MAXFILE = slot (sects im') (fset D i (set_di_size off' d') i) MAXFILE) by (by rewrite fset_eq).
    rewrite Ei in E2. destruct (slot_inj _ _ _ _ _ _ Hinv' j k i MAXFILE Hj ltac:(lia) Hi ltac:(mkc; lia) Hn E2) as [_ ?]. lia. }
  split.
  - intros x Hx Hn. pose proof (block_no x Hx) as Hk. pose proof (Hself (x / BSIZE) ltac:(lia) Hn) as E. split; [done|]. apply fbyte_ext; [done|].
    rewrite <- E in Hn |- *. apply (Hgen i); [done|done|by rewrite fset_eq|done].
  - intros j Hj Hne x Hx Hn. pose proof (block_no x Hx) as Hk. pose proof (Hoth j (x / BSIZE) Hj Hne) as E. split; [done|]. apply fbyte_ext; [done|].
    rewrite <- E in Hn |- *. apply (Hgen j); [done|done|by rewrite fset_ne|done].
Qed.

Lemma data_write m nf fb D own U i k l lo bytes : inv m nf fb D own U -> 1 <= i < nf -> 0 <= k < MAXFILE -> slot m (D i) k <> 0 -> m !! slot m (D i) k = Some l ->
  0 <= lo -> lo + zlen bytes <= BSIZE -> bytes_ok bytes ->
  let m' := <[slot m (D i) k := splice l lo bytes]> m in
  inv m' nf fb D own U /\ (forall j k', 1 <= j < nf -> slot m' (D j) k' = slot m (D j) k') /\
  forall j x, 1 <= j < nf -> 0 <= x < MAXFILE * BSIZE -> slot m (D j) (x / BSIZE) <> 0 ->
    fbyte m' (D j) x = if decide (j = i /\ x / BSIZE = k /\ lo <= x mod BSIZE < lo + zlen bytes) then znth bytes (x mod BSIZE - lo) else fbyte m (D j) x.
Proof.
  intros Hinv Hi Hk Hn Hl Hlo Hhi Hb m'. destruct (i_own _ _ _ _ _ _ Hinv i k Hi ltac:(lia) Hn) as [Hr _]. pose proof (i_fb _ _ _ _ _ _ Hinv).
  destruct (i_sec _ _ _ _ _ _ Hinv (slot m (D i) k) ltac:(mkc; lia)) as (l0 & Hl0 & Hlen & Hbl). rewrite Hl in Hl0. injection Hl0 as <-.
  assert (Hlen' : zlen (splice l lo bytes) = BSIZE) by (rewrite zlen_splice by lia; done).
  destruct (write_inv m nf fb D own U Hinv i k (splice l lo bytes) Hi Hk Hn Hlen' ltac:(by apply bytes_ok_splice)) as [Hinv' Hs]. fold m' in Hinv', Hs.
  split; [done|]. split; [done|]. intros j x Hj Hx Hnx. pose proof (block_no x Hx) as Hkx. unfold fbyte. rewrite Hs by done.
  destruct (decide (j = i /\ x / BSIZE = k)) as [[-> Ek]|Hne].
  - rewrite Ek. unfold m'. rewrite lookup_total_insert_eq, (lookup_total_correct _ _ _ Hl). pose proof (Z.mod_pos_bound x BSIZE ltac:(mkc; lia)). rewrite znth_splice by lia.
    case_decide as H1; case_decide as H2; try done; [exfalso; apply H2; split_and!; try done; lia|exfalso; apply H1; tauto].
  - rewrite decide_False by tauto. unfold m'. rewrite lookup_total_insert_ne; [done|]. intros E. apply Hne.
    destruct (slot_inj m nf fb D own U Hinv j (x / BSIZE) i k Hj ltac:(lia) Hi ltac:(lia) Hnx (eq_sym E)). done.
Qed.

(** One turn of the loop of [iappend] *)
Record appended (im : image) (D : Z -> dinode) (nf i : Z) (p : list Z) (im' : image) (d' : dinode) : Prop := {
  ap_ino : freeinode im' = freeinode im;
  ap_size : di_size d' = di_size (D i) + zlen p;
  ap_fields : di_type d' = di_type (D i) /\ di_major d' = di_major (D i) /\ di_minor d' = di_minor (D i) /\ di_nlink d' = di_nlink (D i);
  ap_inv : exists own', inv (sects im') nf (freeblock im') (fset D i d') own' (sized (fset D i d'));
  ap_fb : freeblock im' = freeblock im + (nb (di_size d') - nb (di_size (D i)));
  ap_meta : forall b, b < nmeta -> sects im' !! b = sects im !! b;
  ap_other : forall j, 1 <= j < nf -> j <> i -> keeps (sects im) (sects im') (D j) (D j);
  ap_old : forall x, 0 <= x < di_size (D i) -> fbyte (sects im') d' x = fbyte (sects im) (D i) x;
  ap_new : forall x, 0 <= x < zlen p -> fbyte (sects im') d' (di_size (D i) + x) = znth p x;
  ap_clean : clean (sects im) (D i) -> clean (sects im') d';
}.

Section Turn.
Context (im : image) (nf : Z) (D : Z -> dinode) (own : Z -> Z * Z) (i : Z) (d : dinode) (p : list Z).
Hypothesis Hinv : inv (sects im) nf (freeblock im) D own (sized D).
Hypothesis Hi : 1 <= i < nf.
Abbreviation off := (di_size (D i)).
Hypothesis HD : D i = set_di_size off d.
Hypothesis Hoff : 0 <= off < MAXFILE * BSIZE.
Hypothesis Hp : 0 < zlen p.
Hypothesis Hfit : zlen p <= (off / BSIZE + 1) * BSIZE - off.
Hypothesis Hbytes : bytes_ok p.
Hypothesis Hclean : clean (sects im) (D i).
Abbreviation fbn := (off / BSIZE).

Lemma turn_ok : freeblock im + (nb (off + zlen p) - nb off) <= FSSIZE ->
  exists im' d', (r ← block_for d fbn; buf ← rsect (snd r); wsect (snd r) (splice buf (off - fbn * BSIZE) p);; mret (fst r)) im = Ok (d', im') /\
    appended im D nf i p im' (set_di_size (off + zlen p) d').
Proof using All.
  intros Hcap. pose proof (block_no off Hoff) as Hk. pose proof (Z.div_mod off BSIZE ltac:(mkc; lia)) as Hdm. pose proof (Z.mod_pos_bound off BSIZE ltac:(mkc; lia)) as Hmb.
  destruct (block_for_ok im nf D own i off (off + zlen p) d Hinv Hi HD ltac:(lia) ltac:(lia) ltac:(lia) Hcap) as (im1 & d1 & Hrun & Hg & Hfb).
  destruct (grown_keeps im D own nf i _ _ d im1 d1 Hinv Hi ltac:(by rewrite HD) Hg) as [Hks Hko].
  destruct Hg as (Hino & Hsame & (own1 & Hinv1) & Hoth & Hself & Hm1 & Hnz & Hzero).
  set (D1 := fset D i (set_di_size (off + zlen p) d1)) in *. assert (ED : D1 i = set_di_size (off + zlen p) d1) by apply fset_eq.
  assert (Hnz' : slot (sects im1) (D1 i) fbn <> 0) by (by rewrite ED).
  destruct (i_own _ _ _ _ _ _ Hinv1 i fbn Hi ltac:(lia) Hnz') as [Hr _]. pose proof (i_fb _ _ _ _ _ _ Hinv1) as Hfr.
  destruct (i_sec _ _ _ _ _ _ Hinv1 (slot (sects im1) (D1 i) fbn) ltac:(mkc; lia)) as (l & Hl & Hlen & Hbl).
  set (b := slot (sects im1) d1 fbn) in *. assert (Eb : slot (sects im1) (D1 i) fbn = b) by (by rewrite ED). rewrite Eb in *.
  destruct (data_write (sects im1) nf (freeblock im1) D1 own1 (sized D1) i fbn l (off - fbn * BSIZE) p Hinv1 Hi Hk ltac:(by rewrite Eb) ltac:(by rewrite Eb) ltac:(lia) ltac:(lia) Hbytes) as (Hinv2 & Hs2 & Hby).
  rewrite Eb in Hinv2, Hs2, Hby. set (m2 := insert b _ (sects im1)) in *.
  exists (set_sects (insert b (splice l (off - fbn * BSIZE) p)) im1), d1. split.
  { rewrite (bind_ok _ _ _ _ _ Hrun). cbn [snd fst]. rewrite (bind_ok _ _ _ _ _ (rsect_ok im1 b l ltac:(mkc; lia) Hl)). by rewrite (bind_ok _ _ _ _ _ (wsect_ok im1 b _ ltac:(mkc; lia))). }
  assert (Esame : forall x, fbyte m2 (set_di_size (off + zlen p) d1) x = fbyte m2 (D1 i) x) by (by rewrite ED).
  assert (Hsd : forall k, slot (sects im) d k = slot (sects im) (D i) k) by (by rewrite HD). assert (Hfd : forall x, fbyte (sects im) d x = fbyte (sects im) (D i) x) by (by rewrite HD).
  assert (Hfd1 : forall x, fbyte (sects im1) d1 x = fbyte (sects im1) (D1 i) x) by (by rewrite ED). assert (Hsd1 : forall k, slot (sects im1) d1 k = slot (sects im1) (D1 i) k) by (by rewrite ED).
  split; cbn [freeinode freeblock sects set_sects di_size set_di_size di_type di_major di_minor di_nlink]; try done.
  - destruct Hsame as (-> & -> & -> & -> & _). by rewrite HD.
  - exists own1. fold D1 m2. done.
  - intros b' Hb'. fold m2. unfold m2. rewrite lookup_insert_ne by (mkc; lia). apply Hm1. by left.
  - intros j Hj Hne x Hx Hn. fold m2. destruct (Hko j Hj Hne x Hx Hn) as [E1 E2]. assert (EDj : D1 j = D j) by (by apply fset_ne). rewrite <- EDj in *.
    rewrite Hs2 by done. split; [done|]. rewrite Hby by (try done; by rewrite E1). rewrite decide_False by tauto. done.
  - intros x Hx. fold m2. rewrite Esame. assert (Hxr : 0 <= x < MAXFILE * BSIZE) by lia.
    assert (Hn : slot (sects im) (D i) (x / BSIZE) <> 0).
    { pose proof (block_no x Hxr). apply (i_used _ _ _ _ _ _ Hinv i (x / BSIZE) Hi ltac:(lia)). unfold sized, used. rewrite (proj2 (Z.eqb_neq _ _)) by lia. pose proof (Z.mul_div_le x BSIZE ltac:(mkc; lia)). lia. }
    destruct (Hks x Hxr) as [E1 E2]; [by rewrite Hsd|]. rewrite Hsd, Hsd1 in E1. rewrite Hby by (try done; by rewrite E1). rewrite decide_False.
    + by rewrite <- Hfd1, E2, Hfd.
    + intros (_ & Ek & Hlo & _). pose proof (Z.div_mod x BSIZE ltac:(mkc; lia)). nia.
  - intros x Hx. fold m2. rewrite Esame. assert (Ediv : (off + x) / BSIZE = fbn /\ (off + x) mod BSIZE = off - fbn * BSIZE + x).
    { assert (E : (off + x) / BSIZE = fbn) by (symmetry; apply (Z.div_unique _ _ _ (off + x - BSIZE * fbn)); mkc; lia). split; [done|]. rewrite Z.mod_eq by (mkc; lia). rewrite E. lia. }
    destruct Ediv as [Ed Em]. rewrite Hby; [|done|mkc; lia|by rewrite Ed, Eb]. rewrite Ed, Em, decide_True by (split_and!; try done; lia). f_equal. lia.
  - intros _ x Hsz Hxr Hu. fold m2. rewrite Esame. cbn [di_size set_di_size] in Hsz, Hu. pose proof (block_no x Hxr) as Hkx. unfold used in Hu. rewrite (proj2 (Z.eqb_neq _ _)) in Hu by lia.
    pose proof (Z.div_mod x BSIZE ltac:(mkc; lia)) as Hxd. pose proof (Z.mod_pos_bound x BSIZE ltac:(mkc; lia)) as Hxm.
    assert (Ek : x / BSIZE = fbn) by (mkc; nia). rewrite Hby; [|done|done|by rewrite Ek, Eb]. rewrite decide_False by (rewrite Ek in Hxd; lia). rewrite <- Hfd1.
    destruct (decide (slot (sects im) d fbn = 0)) as [Hz|Hz].
    + unfold fbyte. rewrite Ek. fold b. rewrite (lookup_total_correct _ _ _ (Hzero Hz)). unfold znth, zeroes. rewrite lookup_total_replicate_2; [done|]. mkc. lia.
    + destruct (Hks x Hxr) as [_ E2]; [by rewrite Ek|]. rewrite E2, Hfd. apply Hclean; [lia|done|]. rewrite Ek. apply (i_used _ _ _ _ _ _ Hinv i fbn Hi ltac:(lia)). by rewrite <- Hsd.
Qed.
End Turn.
