(* ===== verification/MkfsImage.v ===== *)
(** * From files to an image

    [iappend], [ialloc] and the main loop of mkfs on images that the table of
    inodes describes. *)

From stdpp Require Import base numbers list list_numbers gmap strings.
From Stdlib Require Import ZArith Lia.
From S2P Require Import Prelude Params Sleeplock Virtio Bio Kmem Fsys Blocks BlocksProof Bmap Dinode Mkfs MkfsProof.

Lemma nb_mono a b : 0 <= a <= b -> nb a <= nb b.
Proof.
  intros H. unfold nb. pose proof (Z.div_le_mono (a + (BSIZE - 1)) (b + (BSIZE - 1)) BSIZE ltac:(mkc; lia) ltac:(lia)).
  destruct (Z.ltb_spec (NDIRECT * BSIZE) a); destruct (Z.ltb_spec (NDIRECT * BSIZE) b); lia.
Qed.
Lemma nb_nonneg a : 0 <= a -> 0 <= nb a.
Proof. intros H. unfold nb. assert (0 <= (a + (BSIZE - 1)) / BSIZE) by (apply Z.div_pos; mkc; lia). destruct (_ <? _); lia. Qed.

Lemma keeps_trans m1 m2 m3 d1 d2 d3 : keeps m1 m2 d1 d2 -> keeps m2 m3 d2 d3 -> keeps m1 m3 d1 d3.
Proof.
  intros H12 H23 x Hx Hn. destruct (H12 x Hx Hn) as [E1 E2]. destruct (H23 x Hx) as [E3 E4]; [by rewrite E1|]. split; congruence.
Qed.

Lemma appended_nil im nf D own i : inv (sects im) nf (freeblock im) D own (sized D) -> appended im D nf i [] im (D i).
Proof.
  intros Hinv. change (zlen []) with 0. split; try done; [change (zlen (@nil Z)) with 0; lia| |lia|change (zlen (@nil Z)) with 0; lia].
  exists own. eapply inv_ext; [exact Hinv| |]; intros j; unfold sized, fset; case_decide; by subst.
Qed.

Lemma appended_app im D nf i p1 im1 d1 p2 im2 d2 : 1 <= i < nf -> 0 <= di_size (D i) -> appended im D nf i p1 im1 d1 -> appended im1 (fset D i d1) nf i p2 im2 d2 -> appended im D nf i (p1 ++ p2) im2 d2.
Proof.
  intros Hi H0 [A1 A2 A3 A4 A5 A6 A7 A8 A9 A10] [B1 B2 B3 B4 B5 B6 B7 B8 B9 B10]. rewrite fset_eq in *. split.
  - congruence.
  - rewrite B2, A2, zlen_app. lia.
  - destruct B3 as (-> & -> & -> & ->). done.
  - destruct B4 as [own B4]. exists own. eapply inv_ext; [exact B4| |]; intros j; unfold sized, fset; case_decide; by subst.
  - lia.
  - intros b Hb. by rewrite B6, A6.
  - intros j Hj Hne. specialize (B7 j Hj Hne). rewrite fset_ne in B7 by done. by apply (keeps_trans _ (sects im1) _ _ (D j)); [apply A7|].
  - intros x Hx. rewrite B8, A8; [done|done|rewrite A2; unfold zlen in *; lia].
  - intros x Hx. rewrite zlen_app in Hx. destruct (decide (x < zlen p1)) as [Hl|Hl].
    + rewrite B8 by (rewrite A2; lia). rewrite A9 by lia. unfold znth. rewrite lookup_total_app_l; [done|unfold zlen in *; lia].
    + replace (di_size (D i) + x) with (di_size d1 + (x - zlen p1)) by lia. rewrite B9 by lia. unfold znth. rewrite lookup_total_app_r by (unfold zlen in *; lia). f_equal. unfold zlen. lia.
  - intros Hc. by apply B10, A10.
Qed.

Lemma iappend_loop_ok fuel im nf D own i d p : inv (sects im) nf (freeblock im) D own (sized D) -> 1 <= i < nf -> D i = set_di_size (di_size (D i)) d ->
  0 <= di_size (D i) -> di_size (D i) + zlen p <= MAXFILE * BSIZE -> bytes_ok p -> clean (sects im) (D i) ->
  freeblock im + (nb (di_size (D i) + zlen p) - nb (di_size (D i))) <= FSSIZE -> (length p <= fuel)%nat ->
  exists im' d', iappend_loop fuel d (di_size (D i)) p im = Ok ((d', di_size (D i) + zlen p), im') /\ appended im D nf i p im' (set_di_size (di_size (D i) + zlen p) d').
Proof.
  revert im D own d p. induction fuel as [|fuel IH]; intros im D own d p Hinv Hi HD H0 Hmax Hb Hclean Hcap Hfuel.
  - destruct p; [|simpl in Hfuel; lia]. exists im, d. change (zlen (@nil Z)) with 0. rewrite Z.add_0_r. split; [done|]. rewrite <- HD. by eapply appended_nil.
  - destruct (decide (p = [])) as [->|Hne].
    { exists im, d. change (zlen (@nil Z)) with 0. rewrite Z.add_0_r. split; [done|]. rewrite <- HD. by eapply appended_nil. }
    assert (Hp : 0 < zlen p) by (destruct p; [done|unfold zlen; simpl; lia]). cbn [iappend_loop]. rewrite (proj2 (Z.ltb_lt 0 (zlen p))) by done.
    set (off := di_size (D i)) in *. pose proof (block_no off ltac:(lia)) as Hk. rewrite (proj2 (Z.ltb_lt _ MAXFILE)) by lia. cbn [negb]. cbv zeta.
    pose proof (Z.div_mod off BSIZE ltac:(mkc; lia)) as Hdm. pose proof (Z.mod_pos_bound off BSIZE ltac:(mkc; lia)) as Hmb.
    assert (Eu : uint ((off / BSIZE + 1) * BSIZE - off) = (off / BSIZE + 1) * BSIZE - off) by (apply uint_small; mkc; lia). rewrite Eu.
    set (n1 := Z.min (zlen p) ((off / BSIZE + 1) * BSIZE - off)). set (p1 := take (Z.to_nat n1) p). set (p2 := drop (Z.to_nat n1) p).
    assert (Ep : p = p1 ++ p2) by (symmetry; apply take_drop). assert (Hl1 : zlen p1 = n1) by (unfold p1, n1, zlen in *; rewrite length_take; mkc; lia).
    assert (Hl2 : zlen p2 = zlen p - n1) by (rewrite Ep at 1; rewrite zlen_app, Hl1; lia). rewrite Ep in Hb. apply bytes_ok_app in Hb as [Hb1 Hb2].
    pose proof (nb_mono (off + n1) (off + zlen p) ltac:(mkc; lia)) as Hmono.
    destruct (turn_ok im nf D own i d p1 Hinv Hi HD ltac:(fold off; mkc; lia) ltac:(mkc; lia) ltac:(fold off; lia) Hb1 Hclean) as (im1 & d1 & Hrun & Hap); [fold off; rewrite Hl1; lia|].
    fold off in Hrun, Hap. rewrite Hl1 in Hap. set (d1' := set_di_size (off + n1) d1) in *. destruct (ap_inv _ _ _ _ _ _ _ Hap) as [own1 Hinv1].
    assert (ED : fset D i d1' i = d1') by apply fset_eq. pose proof (ap_fb _ _ _ _ _ _ _ Hap) as Hfb. cbn [di_size d1' set_di_size] in Hfb. fold off in Hfb.
    destruct (IH im1 (fset D i d1') own1 d1 p2 Hinv1 Hi) as (im2 & d2 & Hrun2 & Hap2); rewrite ?ED; unfold d1'; cbn [di_size set_di_size]; try done; try (mkc; lia).
    { by apply (ap_clean _ _ _ _ _ _ _ Hap). }
    { rewrite Hfb, Hl2. replace (off + n1 + (zlen p - n1)) with (off + zlen p) by lia. lia. }
    { unfold p2. rewrite length_drop. unfold zlen in *. mkc. lia. }
    exists im2, d2. rewrite ED in Hrun2, Hap2. unfold d1' in Hrun2, Hap2. cbn [di_size set_di_size] in Hrun2, Hap2. rewrite Hl2 in Hrun2, Hap2.
    replace (off + n1 + (zlen p - n1)) with (off + zlen p) in Hrun2, Hap2 by lia. split.
    + apply bind_inv in Hrun as (r & s1 & H1 & H2). apply bind_inv in H2 as (buf & s2 & H2 & H3). apply bind_inv in H3 as ([] & s3 & H3 & [= <- <-]).
      rewrite (bind_ok _ _ _ _ _ H1), (bind_ok _ _ _ _ _ H2), (bind_ok _ _ _ _ _ H3). rewrite (uint_small (off + n1)) by (mkc; lia). exact Hrun2.
    + rewrite Ep at 1. by apply (appended_app im D nf i p1 im1 d1').
Qed.

(** ** Inodes in the image *)

Definition dfields (d : dinode) : Prop :=
  is_short (di_type d) /\ is_short (di_major d) /\ is_short (di_minor d) /\ is_short (di_nlink d) /\ is_uint (di_size d) /\ addrs_ok d.
Definition max_inodes : Z := 208.
Definition iblock (i : Z) : Z := IBLOCK i mk_super.
Lemma iblock_range i : 0 <= i < max_inodes -> 32 <= iblock i < 45.
Proof.
  intros Hi. unfold iblock, IBLOCK, max_inodes in *. change IPB with 16. change (inodestart mk_super) with 32.
  assert (0 <= i / 16 < 13) by (split; [apply Z.div_pos; lia|apply Z.div_lt_upper_bound; lia]). rewrite uint_small; lia.
Qed.
Lemma iblock_off i j : 0 <= i < max_inodes -> 0 <= j < max_inodes -> iblock i = iblock j -> i <> j ->
  dinode_off i + sizeof_dinode <= dinode_off j \/ dinode_off j + sizeof_dinode <= dinode_off i.
Proof.
  intros Hi Hj E Hne. unfold iblock, IBLOCK, max_inodes in *. change IPB with 16 in *. change (inodestart mk_super) with 32 in *.
  assert (0 <= i / 16 < 13) by (split; [apply Z.div_pos; lia|apply Z.div_lt_upper_bound; lia]). assert (0 <= j / 16 < 13) by (split; [apply Z.div_pos; lia|apply Z.div_lt_upper_bound; lia]).
  rewrite !uint_small in E by lia. unfold dinode_off, sizeof_dinode. change IPB with 16. pose proof (Z.div_mod i 16 ltac:(lia)). pose proof (Z.div_mod j 16 ltac:(lia)). nia.
Qed.
Lemma dinode_off_in_block i : 0 <= dinode_off i /\ dinode_off i + sizeof_dinode <= BSIZE.
Proof. unfold dinode_off, sizeof_dinode. change IPB with 16. pose proof (Z.mod_pos_bound i 16 ltac:(lia)). mkc. lia. Qed.

(** [put_dinode] is what [xv6fs_iupdate] of the kernel does. *)
Definition as_inode (d : dinode) : inode := mk_inode false false 0 0 (mk_sleeplock 0 0) (di_type d) 0 (di_size d) (di_nlink d) 0.
Definition as_xi (d : dinode) : xv6fs_inode := mk_xi 0 0 (di_major d) (di_minor d) 0 0 (di_addrs d).
Lemma put_encode o d data : put_dinode o d data = encode_dinode o (as_inode d) (as_xi d) data.
Proof. done. Qed.
Lemma put_decode o d data : 0 <= o -> o + sizeof_dinode <= zlen data -> dfields d -> decode_dinode (put_dinode o d data) o = d.
Proof. intros Ho Hl Hf. rewrite put_encode, decode_encode_dinode; [by destruct d|done|done|]. destruct Hf as (? & ? & ? & ? & ? & Ha & Hu). by split_and!. Qed.
Lemma put_decode_other o o' d data : 0 <= o -> o + sizeof_dinode <= zlen data -> dfields d -> 0 <= o' -> o' + sizeof_dinode <= o \/ o + sizeof_dinode <= o' ->
  decode_dinode (put_dinode o d data) o' = decode_dinode data o'.
Proof. intros Ho Hl Hf Ho' Hd. rewrite put_encode. apply decode_encode_dinode_other; try done. by destruct Hf as (_ & _ & _ & _ & _ & Ha & _). Qed.
Lemma put_len o d data : 0 <= o -> o + sizeof_dinode <= zlen data -> dfields d -> zlen (put_dinode o d data) = zlen data.
Proof. intros Ho Hl Hf. rewrite put_encode. apply zlen_encode_dinode; try done. by destruct Hf as (_ & _ & _ & _ & _ & Ha & _). Qed.

Definition stored (m : gmap Z (list Z)) (i : Z) (d : dinode) : Prop := exists l, m !! iblock i = Some l /\ decode_dinode l (dinode_off i) = d.

(** A block below the data is written: the files do not change. *)
Lemma meta_inv m nf fb D own U b l : inv m nf fb D own U -> 0 <= b < nmeta -> zlen l = BSIZE -> bytes_ok l ->
  inv (<[b := l]> m) nf fb D own U /\ (forall i k, 1 <= i < nf -> slot (<[b := l]> m) (D i) k = slot m (D i) k) /\
  forall i, 1 <= i < nf -> keeps m (<[b := l]> m) (D i) (D i).
Proof.
  intros Hinv Hb Hl Hbl. assert (Hs : forall i k, 1 <= i < nf -> slot (<[b := l]> m) (D i) k = slot m (D i) k).
  { intros i k Hi. apply slot_ext. intros Hn. rewrite <- (slot_ind m) in *. destruct (i_own _ _ _ _ _ _ Hinv i MAXFILE Hi ltac:(mkc; lia) Hn). apply lookup_insert_ne. lia. }
  split; [|split; [done|]].
  - destruct Hinv as [I1 I2 I3 I4 I5 I6]. split; try done.
    + intros b' Hb'. destruct (decide (b' = b)) as [->|]; [exists l; by rewrite lookup_insert_eq|]. rewrite lookup_insert_ne by done. by apply I1.
    + intros b' Hb'. rewrite lookup_insert_ne by lia. by apply I3.
    + intros i k Hi Hk. rewrite Hs by done. by apply I4.
    + intros i k Hi Hk. rewrite Hs by done. by apply I5.
  - intros i Hi x Hx Hn. pose proof (block_no x Hx). rewrite Hs by done. split; [done|]. apply fbyte_ext; [by apply Hs|].
    destruct (i_own _ _ _ _ _ _ Hinv i (x / BSIZE) Hi ltac:(lia) Hn). apply lookup_insert_ne. lia.
Qed.

Lemma rinode_ok im i d : 1 <= i < max_inodes -> stored (sects im) i d -> rinode i im = Ok (d, im).
Proof.
  intros Hi (l & Hl & Hd). pose proof (iblock_range i ltac:(lia)). unfold rinode. fold (iblock i). rewrite (bind_ok _ _ _ _ _ (rsect_ok im (iblock i) l ltac:(mkc; lia) Hl)). by rewrite Hd.
Qed.

Lemma winode_ok im nf D own U i d : inv (sects im) nf (freeblock im) D own U -> 1 <= i < max_inodes -> dfields d ->
  exists im', winode i d im = Ok (tt, im') /\ freeinode im' = freeinode im /\ freeblock im' = freeblock im /\ inv (sects im') nf (freeblock im) D own U /\
    stored (sects im') i d /\ (forall j dj, 0 <= j < max_inodes -> j <> i -> stored (sects im) j dj -> stored (sects im') j dj) /\
    (forall b, b <> iblock i -> sects im' !! b = sects im !! b) /\ (forall j, 1 <= j < nf -> keeps (sects im) (sects im') (D j) (D j)).
Proof.
  intros Hinv Hi Hf. pose proof (iblock_range i ltac:(lia)) as Hb. destruct (i_sec _ _ _ _ _ _ Hinv (iblock i) ltac:(mkc; lia)) as (l & Hl & Hlen & Hbl).
  pose proof (dinode_off_in_block i) as [Ho1 Ho2]. set (l' := put_dinode (dinode_off i) d l).
  assert (Hlen' : zlen l' = BSIZE) by (unfold l'; rewrite put_len; [done|done|lia|done]).
  assert (Hbl' : bytes_ok l') by (unfold l'; rewrite put_encode; by apply bytes_ok_encode_dinode).
  destruct (meta_inv (sects im) nf (freeblock im) D own U (iblock i) l' Hinv ltac:(mkc; lia) Hlen' Hbl') as (Hinv' & _ & Hk).
  exists (set_sects (insert (iblock i) l') im). split_and!; try done.
  - unfold winode. fold (iblock i). rewrite (bind_ok _ _ _ _ _ (rsect_ok im (iblock i) l ltac:(mkc; lia) Hl)). apply wsect_ok. mkc. lia.
  - exists l'. split; [apply lookup_insert_eq|]. unfold l'. apply put_decode; [done|lia|done].
  - intros j dj Hj Hne (lj & Hlj & Hdj). pose proof (dinode_off_in_block j) as [Hj1 Hj2]. destruct (decide (iblock j = iblock i)) as [E|E].
    + exists l'. cbn. rewrite E, lookup_insert_eq. split; [done|]. unfold l'. rewrite put_decode_other; [|done|lia|done|done|apply iblock_off; done || lia].
      rewrite E, Hl in Hlj. injection Hlj as ->. done.
    + exists lj. cbn. by rewrite lookup_insert_ne.
  - intros b Hne. cbn. by apply lookup_insert_ne.
Qed.

(** ** Images that a table of inodes describes *)

Definition content (m : gmap Z (list Z)) (d : dinode) : list Z := fbyte m d <$> seqZ 0 (di_size d).

Record good (im : image) (D : Z -> dinode) : Prop := {
  g_nf : 1 <= freeinode im <= max_inodes;
  g_inv : exists own, inv (sects im) (freeinode im) (freeblock im) D own (sized D);
  g_stored : forall i, 1 <= i < freeinode im -> stored (sects im) i (D i);
  g_clean : forall i, 1 <= i < freeinode im -> clean (sects im) (D i);
  g_fields : forall i, 1 <= i < freeinode im -> dfields (D i) /\ 0 <= di_size (D i) <= MAXFILE * BSIZE;
  g_rest : forall i, 0 <= i < max_inodes -> i = 0 \/ freeinode im <= i -> exists d, stored (sects im) i d /\ di_type d = 0;
}.

Lemma size_slot m nf fb D own i x : inv m nf fb D own (sized D) -> 1 <= i < nf -> 0 <= x < MAXFILE * BSIZE -> x < di_size (D i) \/ used (di_size (D i)) (x / BSIZE) -> slot m (D i) (x / BSIZE) <> 0.
Proof.
  intros Hinv Hi Hx Hu. pose proof (block_no x Hx). apply (i_used _ _ _ _ _ _ Hinv i (x / BSIZE) Hi ltac:(lia)). unfold sized. destruct Hu as [Hu|]; [|done].
  unfold used. rewrite (proj2 (Z.eqb_neq _ _)) by lia. pose proof (Z.mul_div_le x BSIZE ltac:(mkc; lia)). lia.
Qed.
Lemma content_keeps m m' nf fb D own i : inv m nf fb D own (sized D) -> 1 <= i < nf -> di_size (D i) <= MAXFILE * BSIZE -> keeps m m' (D i) (D i) -> content m' (D i) = content m (D i).
Proof.
  intros Hinv Hi Hsz Hk. unfold content. apply list_fmap_ext. intros k x Hx%list_elem_of_lookup_2. apply elem_of_seqZ in Hx. apply Hk; [lia|]. apply (size_slot m nf fb D own i x); try done; lia.
Qed.
Lemma clean_keeps m m' nf fb D own i : inv m nf fb D own (sized D) -> 1 <= i < nf -> keeps m m' (D i) (D i) -> clean m (D i) -> clean m' (D i).
Proof.
  intros Hinv Hi Hk Hc x H1 H2 H3. destruct (Hk x H2) as [_ E]; [apply (size_slot m nf fb D own i x); try done; by right|]. rewrite E. by apply Hc.
Qed.
Lemma appended_content im D nf i p im' d' : 0 <= di_size (D i) -> appended im D nf i p im' d' -> content (sects im') d' = content (sects im) (D i) ++ p.
Proof.
  intros H0 H. unfold content. rewrite (ap_size _ _ _ _ _ _ _ H). pose proof (zlen_nonneg p). rewrite (seqZ_app _ (di_size (D i)) (zlen p)) by lia. rewrite fmap_app. f_equal.
  - apply list_fmap_ext. intros k x Hx%list_elem_of_lookup_2. apply elem_of_seqZ in Hx. apply (ap_old _ _ _ _ _ _ _ H). lia.
  - apply list_eq. intros k. rewrite list_lookup_fmap. destruct (decide (Z.of_nat k < zlen p)) as [Hk|Hk].
    + rewrite lookup_seqZ_lt by lia. simpl. replace (di_size (D i) + Z.of_nat k) with (di_size (D i) + Z.of_nat k) by lia.
      rewrite Z.add_0_l, (ap_new _ _ _ _ _ _ _ H) by lia. unfold znth. rewrite Nat2Z.id, list_lookup_total_alt. destruct (lookup_lt_is_Some_2 p k) as [y Hy]; [unfold zlen in Hk; lia|]. by rewrite Hy.
    + rewrite lookup_seqZ_ge by lia. simpl. symmetry. apply lookup_ge_None_2. unfold zlen in Hk. lia.
Qed.

(** What an operation leaves of the files it is not about, and of the blocks outside the inodes and the data *)
Definition same_files (im im' : image) (D D' : Z -> dinode) (P : Z -> Prop) : Prop :=
  (forall j, 1 <= j < freeinode im -> P j -> D' j = D j /\ content (sects im') (D' j) = content (sects im) (D j)) /\
  (forall b, 0 <= b < 32 \/ b = 45 -> sects im' !! b = sects im !! b).

Lemma iappend_ok im D i p : good im D -> 1 <= i < freeinode im -> di_size (D i) + zlen p <= MAXFILE * BSIZE -> bytes_ok p ->
  freeblock im + (nb (di_size (D i) + zlen p) - nb (di_size (D i))) <= FSSIZE ->
  exists im' d', iappend i p im = Ok (tt, im') /\ good im' (fset D i d') /\ freeinode im' = freeinode im /\
    freeblock im' = freeblock im + (nb (di_size (D i) + zlen p) - nb (di_size (D i))) /\
    di_size d' = di_size (D i) + zlen p /\ di_type d' = di_type (D i) /\ di_nlink d' = di_nlink (D i) /\
    content (sects im') d' = content (sects im) (D i) ++ p /\ same_files im im' D (fset D i d') (fun j => j <> i).
Proof.
  intros [Hnf [own Hinv] Hst Hcl Hfl Hre] Hi Hmax Hb Hcap. unfold max_inodes in *. destruct (Hfl i Hi) as [(Ht & Hma & Hmi & Hnl & Hsz & Ha) Hrange].
  assert (HD : D i = set_di_size (di_size (D i)) (D i)) by (by destruct (D i)).
  destruct (iappend_loop_ok (length p) im _ D own i (D i) p Hinv Hi HD ltac:(lia) Hmax Hb (Hcl i Hi) Hcap ltac:(lia)) as (im1 & d1 & Hrun & Hap).
  set (d' := set_di_size (di_size (D i) + zlen p) d1) in *. pose proof (ap_inv _ _ _ _ _ _ _ Hap) as [own1 Hinv1]. pose proof (ap_fields _ _ _ _ _ _ _ Hap) as (E1 & E2 & E3 & E4).
  pose proof (zlen_nonneg p) as Hpl. pose proof (ap_size _ _ _ _ _ _ _ Hap) as Es.
  assert (Hf' : dfields d').
  { unfold dfields. rewrite E1, E2, E3, E4, Es. split_and!; try done; [unfold is_uint; mkc; lia|]. pose proof (i_addrs _ _ _ _ _ _ Hinv1 i Hi) as Hx. by rewrite fset_eq in Hx. }
  destruct (winode_ok im1 _ _ _ _ i d' Hinv1 ltac:(unfold max_inodes; lia) Hf') as (im2 & Hw & Hn2 & Hf2 & Hinv2 & Hs2 & Hso2 & Hm2 & Hk2).
  pose proof (ap_ino _ _ _ _ _ _ _ Hap) as Hn1. pose proof (ap_fb _ _ _ _ _ _ _ Hap) as Hfb1. rewrite Es in Hfb1. pose proof (Hk2 i Hi) as Hki. rewrite fset_eq in Hki.
  assert (Hko : forall j, 1 <= j < freeinode im -> j <> i -> keeps (sects im) (sects im2) (D j) (D j)).
  { intros j Hj Hne. apply (keeps_trans _ (sects im1) _ _ (D j)); [by apply (ap_other _ _ _ _ _ _ _ Hap)|]. specialize (Hk2 j Hj). by rewrite fset_ne in Hk2. }
  exists im2, d'. split_and!; try done; try congruence.
  - unfold iappend. rewrite (bind_ok _ _ _ _ _ (rinode_ok im i (D i) ltac:(unfold max_inodes; lia) (Hst i Hi))). rewrite (xint_small _ Hsz), (bind_ok _ _ _ _ _ Hrun).
    cbn [fst snd]. rewrite xint_small by (unfold is_uint; mkc; lia). exact Hw.
  - split; rewrite ?Hn2, ?Hn1.
    + done.
    + exists own1. by rewrite Hf2.
    + intros j Hj. destruct (decide (j = i)) as [->|Hne]; [by rewrite fset_eq|]. rewrite fset_ne by done. apply Hso2; [unfold max_inodes; lia|done|].
      destruct (Hst j Hj) as (l & Hl & Hd). exists l. split; [|done]. rewrite (ap_meta _ _ _ _ _ _ _ Hap); [done|]. pose proof (iblock_range j ltac:(unfold max_inodes; lia)). mkc. lia.
    + intros j Hj. destruct (decide (j = i)) as [->|Hne].
      * rewrite fset_eq. pose proof (clean_keeps (sects im1) (sects im2) _ _ (fset D i d') own1 i Hinv1 Hi) as Hck. rewrite fset_eq in Hck. apply Hck; [done|]. by apply (ap_clean _ _ _ _ _ _ _ Hap), Hcl.
      * rewrite fset_ne by done. apply (clean_keeps (sects im) _ _ _ D own j Hinv Hj); [by apply Hko|by apply Hcl].
    + intros j Hj. destruct (decide (j = i)) as [->|Hne]; [rewrite fset_eq; split; [done|rewrite Es; lia]|rewrite fset_ne by done; by apply Hfl].
    + intros j Hj Hc. destruct (Hre j Hj Hc) as (d & (l & Hl & Hd) & Hz). exists d. split; [|done]. apply Hso2; [done|lia|]. exists l. split; [|done].
      rewrite (ap_meta _ _ _ _ _ _ _ Hap); [done|]. pose proof (iblock_range j Hj). mkc. lia.
  - rewrite <- (appended_content im D _ i p im1 d' ltac:(lia) Hap).
    pose proof (content_keeps (sects im1) (sects im2) _ _ (fset D i d') own1 i Hinv1 Hi) as Hck. rewrite fset_eq in Hck. apply Hck; [rewrite Es; lia|done].
  - split.
    + intros j Hj Hne. rewrite fset_ne by done. split; [done|]. apply (content_keeps _ _ _ _ D own j Hinv Hj); [apply Hfl; done|by apply Hko].
    + intros b Hbb. pose proof (iblock_range i ltac:(unfold max_inodes; lia)). rewrite Hm2 by lia. apply (ap_meta _ _ _ _ _ _ _ Hap). mkc. lia.
Qed.

(** ** A new inode *)

Definition fresh (ty : Z) : dinode := mk_dinode ty 0 0 1 0 (replicate 13 0).
Lemma slot_fresh_zero m ty k : 0 <= k <= MAXFILE -> slot m (fresh ty) k = 0.
Proof.
  intros Hk. assert (Hz : forall j, 0 <= j <= NDIRECT -> znth (di_addrs (fresh ty)) j = 0) by (intros j Hj; unfold znth; apply lookup_total_replicate_2; mkc; lia).
  unfold slot. destruct (Z.ltb_spec k NDIRECT); [by apply Hz; lia|]. destruct (k =? MAXFILE); [by apply Hz; mkc; lia|]. rewrite Hz by (mkc; lia). done.
Qed.
Lemma inv_new m nf fb D own ty : 1 <= nf -> inv m nf fb D own (sized D) -> inv m (nf + 1) fb (fset D nf (fresh ty)) own (sized (fset D nf (fresh ty))).
Proof.
  intros Hnf [I1 I2 I3 I4 I5 I6]. split; try done.
  - intros i k Hi Hk. destruct (decide (i = nf)) as [->|Hne]; [rewrite fset_eq; by rewrite slot_fresh_zero|]. rewrite fset_ne by done. apply I4; lia.
  - intros i k Hi Hk. unfold sized. destruct (decide (i = nf)) as [->|Hne]; [rewrite fset_eq, slot_fresh_zero by done|rewrite fset_ne by done; apply I5; lia].
    unfold used. simpl. destruct (k =? MAXFILE); mkc; lia.
  - intros i Hi. destruct (decide (i = nf)) as [->|Hne]; [rewrite fset_eq|rewrite fset_ne by done; apply I6; lia]. split; [done|]. by apply Forall_replicate.
Qed.

Lemma ialloc_ok im D ty : good im D -> freeinode im < max_inodes -> ty = T_DIR \/ ty = T_FILE ->
  exists im', mk_ialloc ty im = Ok (freeinode im, im') /\ good im' (fset D (freeinode im) (fresh ty)) /\ freeinode im' = freeinode im + 1 /\ freeblock im' = freeblock im /\
    same_files im im' D (fset D (freeinode im) (fresh ty)) (fun _ => True).
Proof.
  intros [Hnf [own Hinv] Hst Hcl Hfl Hre] Hlt Hty. unfold max_inodes in *. set (i := freeinode im) in *.
  assert (Ed : mk_dinode (short (xshort ty)) 0 0 (short (xshort 1)) (xint 0) (replicate 13 0) = fresh ty) by (by destruct Hty as [-> | ->]).
  assert (Hf : dfields (fresh ty)).
  { unfold dfields, fresh. cbn [di_type di_major di_minor di_nlink di_size]. split_and!; try (by unfold is_short, is_uint); try (by destruct Hty as [-> | ->]).
    split; [done|]. cbn [di_addrs]. by apply Forall_replicate. }
  set (im1 := mk_image (sects im) (i + 1) (freeblock im)). pose proof (inv_new _ i _ _ _ ty ltac:(lia) Hinv) as Hinv1.
  destruct (winode_ok im1 _ _ _ _ i (fresh ty) Hinv1 ltac:(unfold max_inodes; lia) Hf) as (im2 & Hw & Hn2 & Hf2 & Hinv2 & Hs2 & Hso2 & Hm2 & Hk2).
  assert (Hk : forall j, 1 <= j < i -> keeps (sects im) (sects im2) (D j) (D j)) by (intros j Hj; specialize (Hk2 j ltac:(lia)); by rewrite fset_ne in Hk2 by lia).
  exists im2. split_and!; try done.
  - unfold mk_ialloc. rewrite bind_gets, bind_modify. fold i. rewrite (uint_small (i + 1)) by lia. rewrite Ed. fold im1. by rewrite (bind_ok _ _ _ _ _ Hw).
  - split; rewrite ?Hn2; cbn [freeinode im1].
    + unfold max_inodes. lia.
    + exists own. by rewrite Hf2.
    + intros j Hj. destruct (decide (j = i)) as [->|Hne]; [by rewrite fset_eq|]. rewrite fset_ne by done. apply Hso2; [unfold max_inodes; lia|done|]. apply Hst. lia.
    + intros j Hj. destruct (decide (j = i)) as [->|Hne].
      * rewrite fset_eq. intros x H1 H2 Hu. unfold used in Hu. simpl in Hu. pose proof (block_no x H2). rewrite (proj2 (Z.eqb_neq _ _)) in Hu by lia. mkc. lia.
      * rewrite fset_ne by done. apply (clean_keeps (sects im) _ _ _ D own j Hinv); [fold i; lia|apply Hk; lia|apply Hcl; lia].
    + intros j Hj. destruct (decide (j = i)) as [->|Hne]; [rewrite fset_eq; split; [done|simpl; mkc; lia]|rewrite fset_ne by done; apply Hfl; lia].
    + intros j Hj Hc. destruct (Hre j Hj ltac:(fold i; lia)) as (d & Hd & Hz). exists d. split; [|done]. apply Hso2; [done|lia|done].
  - split.
    + intros j Hj _. fold i in Hj. rewrite fset_ne by lia. split; [done|]. apply (content_keeps _ _ _ _ D own j Hinv); [fold i; lia|apply Hfl; lia|by apply Hk].
    + intros b Hbb. pose proof (iblock_range i ltac:(unfold max_inodes; lia)). by rewrite Hm2 by lia.
Qed.

Lemma append_all_ok reads im D i : good im D -> 1 <= i < freeinode im -> di_size (D i) + zlen (concat reads) <= MAXFILE * BSIZE -> Forall bytes_ok reads ->
  freeblock im + (nb (di_size (D i) + zlen (concat reads)) - nb (di_size (D i))) <= FSSIZE ->
  exists im' d', append_all i reads im = Ok (tt, im') /\ good im' (fset D i d') /\ freeinode im' = freeinode im /\
    freeblock im' = freeblock im + (nb (di_size (D i) + zlen (concat reads)) - nb (di_size (D i))) /\
    di_type d' = di_type (D i) /\ di_nlink d' = di_nlink (D i) /\ di_size d' = di_size (D i) + zlen (concat reads) /\
    content (sects im') d' = content (sects im) (D i) ++ concat reads /\ same_files im im' D (fset D i d') (fun j => j <> i).
Proof.
  revert im D. induction reads as [|p reads IH]; intros im D Hg Hi Hmax Hb Hcap.
  - exists im, (D i). cbn [append_all concat]. rewrite app_nil_r. change (zlen (@nil Z)) with 0. rewrite Z.add_0_r, Z.sub_diag, Z.add_0_r.
    assert (E : forall j, fset D i (D i) j = D j) by (intros j; unfold fset; case_decide; by subst).
    split_and!; try done.
    + destruct Hg as [G1 [own G2] G3 G4 G5 G6]. split; try done; try (intros j Hj; rewrite E; by auto). exists own. eapply inv_ext; [exact G2| |]; intros j; unfold sized; by rewrite E.
    + split; [|done]. intros j Hj _. by rewrite E.
  - cbn [append_all concat] in *. apply Forall_cons in Hb as [Hb Hbs]. rewrite zlen_app in *. pose proof (zlen_nonneg p). pose proof (zlen_nonneg (concat reads)).
    destruct (g_fields _ _ Hg i Hi) as [_ Hsz]. pose proof (nb_mono (di_size (D i) + zlen p) (di_size (D i) + (zlen p + zlen (concat reads))) ltac:(lia)).
    destruct (iappend_ok im D i p Hg Hi ltac:(lia) Hb ltac:(lia)) as (im1 & d1 & Hrun & Hg1 & Hn1 & Hf1 & Hs1 & Ht1 & Hl1 & Hc1 & Hsame1).
    assert (ED : fset D i d1 i = d1) by apply fset_eq.
    destruct (IH im1 (fset D i d1) Hg1 ltac:(lia)) as (im2 & d2 & Hrun2 & Hg2 & Hn2 & Hf2 & Ht2 & Hl2 & Hs2 & Hc2 & Hsame2); rewrite ?ED; [rewrite Hs1; lia|done|rewrite Hs1, Hf1; replace (di_size (D i) + zlen p + zlen (concat reads)) with (di_size (D i) + (zlen p + zlen (concat reads))) by lia; lia|].
    rewrite ED, Hs1 in *. exists im2, d2. assert (E : forall j, fset (fset D i d1) i d2 j = fset D i d2 j) by (intros j; unfold fset; by case_decide).
    split_and!; try congruence.
    + by rewrite (bind_ok _ _ _ _ _ Hrun).
    + destruct Hg2 as [G1 [own G2] G3 G4 G5 G6]. split; try done; try (intros j Hj; rewrite <- E; by auto). exists own. eapply inv_ext; [exact G2| |]; intros j; unfold sized; by rewrite E.
    + rewrite Hf2, Hf1. replace (di_size (D i) + zlen p + zlen (concat reads)) with (di_size (D i) + (zlen p + zlen (concat reads))) by lia. lia.
    + rewrite Hs2. lia.
    + rewrite Hc2, Hc1. by rewrite <- app_assoc.
    + destruct Hsame1 as [S1 S2], Hsame2 as [S3 S4]. split; [|intros b Hbb; by rewrite S4, S2]. intros j Hj Hne. rewrite <- E. destruct (S3 j ltac:(lia) Hne) as [E3 Ec]. destruct (S1 j Hj Hne) as [Ed Ec']. split; congruence.
Qed.
