(* ===== verification/MkfsSpec.v ===== *)
(** * What mkfs promises

    The image holds the files it was given, under their names in the root directory, with the
    blocks in use marked in the bit map. *)

From stdpp Require Import base numbers list list_numbers gmap strings.
From Stdlib Require Import ZArith Lia.
From S2P Require Import Prelude Params Sleeplock Virtio Bio Kmem Fsys Blocks BlocksProof Bmap Dinode Mkfs MkfsProof MkfsImage.

Abbreviation file := (list Z * option (list (list Z)))%type.
Definition file_bytes (f : file) : list Z := concat (default [] (snd f)).
Definition file_name (f : file) : list Z := skip_underscore (shortname (fst f)).
(** The file can be opened, its name has no directory part and it is not too long. *)
Definition file_fits (f : file) : Prop :=
  slash_byte ∉ shortname (fst f) /\ bytes_ok (fst f) /\ is_Some (snd f) /\ Forall bytes_ok (default [] (snd f)) /\ zlen (file_bytes f) <= MAXFILE * BSIZE.

Lemma zlen_dirent n name : zlen (dirent n name) = 16.
Proof. unfold dirent, zlen. rewrite length_app, length_le_encode, length_take, length_app, length_replicate. lia. Qed.
Lemma bytes_ok_dirent n name : bytes_ok name -> bytes_ok (dirent n name).
Proof. intros H. unfold dirent. apply bytes_ok_app. split; [apply bytes_ok_le_encode|]. apply Forall_take, bytes_ok_app. split; [done|]. apply bytes_ok_replicate. unfold byte_ok. lia. Qed.
Lemma file_name_bytes f : bytes_ok (fst f) -> bytes_ok (file_name f).
Proof.
  intros H. unfold file_name, shortname. assert (Hs : bytes_ok (if decide (take 5 (fst f) = user_prefix) then drop 5 (fst f) else fst f)) by (case_decide; [by apply Forall_drop|done]).
  destruct (if decide _ then _ else _) as [|c l]; [done|]. simpl. destruct (c =? 95); [by apply Forall_cons in Hs as [_ ?]|done].
Qed.

(** The blocks that the files need *)
Definition files_nb (l : list file) : Z := foldr (fun f n => nb (zlen (file_bytes f)) + n) 0 l.
Lemma files_nb_nonneg l : 0 <= files_nb l.
Proof. induction l as [|f l IH]; [done|]. simpl. pose proof (nb_nonneg (zlen (file_bytes f)) (zlen_nonneg _)). lia. Qed.

Lemma add_file_ok im D f : good im D -> 2 <= freeinode im < max_inodes -> di_size (D 1) = 16 * freeinode im -> file_fits f ->
  freeblock im + (nb (16 * freeinode im + 16) - nb (16 * freeinode im)) + nb (zlen (file_bytes f)) <= FSSIZE ->
  exists im' D', add_file 1 f im = Ok (tt, im') /\ good im' D' /\ freeinode im' = freeinode im + 1 /\
    freeblock im' = freeblock im + (nb (16 * freeinode im + 16) - nb (16 * freeinode im)) + nb (zlen (file_bytes f)) /\
    di_size (D' 1) = 16 * (freeinode im + 1) /\ di_type (D' 1) = di_type (D 1) /\ di_nlink (D' 1) = di_nlink (D 1) /\
    content (sects im') (D' 1) = content (sects im) (D 1) ++ dirent (freeinode im) (file_name f) /\
    di_type (D' (freeinode im)) = T_FILE /\ di_nlink (D' (freeinode im)) = 1 /\ content (sects im') (D' (freeinode im)) = file_bytes f /\
    same_files im im' D D' (fun j => j <> 1).
Proof.
  intros Hg Hn Hroot (Hsl & Hbn & [reads Hr] & Hbr & Hlen) Hcap. set (i := freeinode im) in *. unfold file_bytes in *. rewrite Hr in *. change (default [] (Some reads)) with reads in *.
  pose proof (zlen_nonneg (concat reads)) as Hz. pose proof (nb_nonneg _ Hz) as Hnz. pose proof (nb_mono (16 * i) (16 * i + 16) ltac:(lia)) as Hmono.
  destruct (ialloc_ok im D T_FILE Hg ltac:(fold i; lia) ltac:(by right)) as (im1 & Hrun1 & Hg1 & Hn1 & Hf1 & Hs1). fold i in Hrun1, Hg1, Hn1, Hs1. set (D1 := fset D i (fresh T_FILE)) in *.
  assert (E11 : D1 1 = D 1) by (apply fset_ne; lia). unfold max_inodes in *.
  destruct (iappend_ok im1 D1 1 (dirent i (file_name f)) Hg1 ltac:(lia)) as (im2 & d2 & Hrun2 & Hg2 & Hn2 & Hf2 & Hsz2 & Ht2 & Hl2 & Hc2 & Hs2); rewrite ?E11, ?Hroot, ?zlen_dirent, ?Hf1; [mkc; lia|by apply bytes_ok_dirent, file_name_bytes|lia|].
  rewrite E11, Hroot, zlen_dirent, ?Hf1 in *. set (D2 := fset D1 1 d2) in *. assert (E2i : D2 i = fresh T_FILE) by (unfold D2; rewrite fset_ne by lia; apply fset_eq).
  destruct (append_all_ok reads im2 D2 i Hg2 ltac:(lia)) as (im3 & d3 & Hrun3 & Hg3 & Hn3 & Hf3 & Ht3 & Hl3 & Hsz3 & Hc3 & Hs3); rewrite ?E2i; cbn [di_size fresh]; try (change (nb 0) with 0); [lia|done|rewrite Hf2, Z.add_0_l; lia|].
  rewrite E2i in *. cbn [di_size fresh di_type di_nlink] in *. change (nb 0) with 0 in Hf3. set (D3 := fset D2 i d3) in *. assert (E31 : D3 1 = d2) by (unfold D3; rewrite fset_ne by lia; apply fset_eq).
  assert (E3i : D3 i = d3) by apply fset_eq. destruct Hs1 as [S1 M1], Hs2 as [S2 M2], Hs3 as [S3 M3].
  exists im3, D3. rewrite E31, E3i. split_and!; try congruence; try lia.
  - unfold add_file. rewrite bool_decide_false by done. rewrite Hr. rewrite (bind_ok _ _ _ _ _ Hrun1), (bind_ok _ _ _ _ _ Hrun2). exact Hrun3.
  - rewrite Hf3, Hf2, Z.add_0_l. lia.
  - destruct (S3 1 ltac:(lia) ltac:(lia)) as [_ E]. rewrite E31 in E. rewrite E. unfold D2. rewrite fset_eq, Hc2. by destruct (S1 1 ltac:(lia) I) as [_ <-]; rewrite E11.
  - rewrite Hc3. destruct (S2 i ltac:(lia) ltac:(lia)) as [E E']. rewrite <- E2i, E'. unfold D1. by rewrite fset_eq.
  - split; [|intros b Hb; by rewrite M3, M2, M1]. intros j Hj Hne. fold i in Hj. destruct (S3 j ltac:(lia) ltac:(lia)) as [A1 A2]. destruct (S2 j ltac:(lia) Hne) as [B1 B2].
    destruct (S1 j Hj I) as [C1 C2]. split; congruence.
Qed.

(** The directory entries of files that get the inodes from [n] on *)
Fixpoint entries (n : Z) (l : list file) : list Z :=
  match l with [] => [] | f :: l => dirent n (file_name f) ++ entries (n + 1) l end.

Lemma add_files_ok l im D : good im D -> 2 <= freeinode im -> freeinode im + zlen l <= max_inodes -> di_size (D 1) = 16 * freeinode im -> Forall file_fits l ->
  freeblock im + (nb (16 * (freeinode im + zlen l)) - nb (16 * freeinode im)) + files_nb l <= FSSIZE ->
  exists im' D', add_files 1 l im = Ok (tt, im') /\ good im' D' /\ freeinode im' = freeinode im + zlen l /\
    freeblock im' = freeblock im + (nb (16 * (freeinode im + zlen l)) - nb (16 * freeinode im)) + files_nb l /\
    di_size (D' 1) = 16 * (freeinode im + zlen l) /\ di_type (D' 1) = di_type (D 1) /\ di_nlink (D' 1) = di_nlink (D 1) /\
    content (sects im') (D' 1) = content (sects im) (D 1) ++ entries (freeinode im) l /\
    (forall k f, l !! k = Some f -> let d := D' (freeinode im + Z.of_nat k) in di_type d = T_FILE /\ di_nlink d = 1 /\ content (sects im') d = file_bytes f) /\
    same_files im im' D D' (fun j => j <> 1).
Proof.
  revert im D. induction l as [|f l IH]; intros im D Hg H2 Hmax Hroot Hfit Hcap.
  - exists im, D. change (zlen (@nil file)) with 0 in *. simpl in *. rewrite Z.add_0_r, Z.sub_diag in *. rewrite app_nil_r. split_and!; try done; lia.
  - apply Forall_cons in Hfit as [Hf Hfit]. change (files_nb (f :: l)) with (nb (zlen (file_bytes f)) + files_nb l) in *.
    assert (El : zlen (f :: l) = zlen l + 1) by (unfold zlen; simpl; lia). rewrite El in *. pose proof (zlen_nonneg l). pose proof (files_nb_nonneg l).
    pose proof (nb_mono (16 * freeinode im + 16) (16 * (freeinode im + (zlen l + 1))) ltac:(lia)). replace (freeinode im + (zlen l + 1)) with (freeinode im + 1 + zlen l) in * by lia.
    destruct (add_file_ok im D f Hg ltac:(lia) Hroot Hf ltac:(lia)) as (im1 & D1 & Hrun1 & Hg1 & Hn1 & Hf1 & Hsz1 & Ht1 & Hl1 & Hc1 & Hti & Hli & Hci & S1 & M1).
    replace (16 * freeinode im + 16) with (16 * (freeinode im + 1)) in * by lia.
    destruct (IH im1 D1 Hg1 ltac:(lia) ltac:(lia) ltac:(by rewrite Hn1) Hfit) as (im2 & D2 & Hrun2 & Hg2 & Hn2 & Hf2 & Hsz2 & Ht2 & Hl2 & Hc2 & Hall2 & S2 & M2); [rewrite Hn1, Hf1; lia|].
    rewrite Hn1 in *. exists im2, D2. cbn [add_files entries]. split_and!; try congruence.
    + by rewrite (bind_ok _ _ _ _ _ Hrun1).
    + rewrite Hf2, Hf1. lia.
    + rewrite Hc2, Hc1. by rewrite <- app_assoc.
    + intros [|k] f' Hk.
      * injection Hk as ->. cbv zeta. change (Z.of_nat 0) with 0. rewrite Z.add_0_r. destruct (S2 (freeinode im) ltac:(lia) ltac:(lia)) as [E E']. rewrite E', E. by split_and!.
      * replace (freeinode im + Z.of_nat (S k)) with (freeinode im + 1 + Z.of_nat k) by lia. by apply Hall2.
    + split; [|intros b Hb; by rewrite M2, M1]. intros j Hj Hne. destruct (S2 j ltac:(lia) Hne) as [A1 A2]. destruct (S1 j Hj Hne) as [B1 B2]. split; congruence.
Qed.

(** ** The bit map *)

Lemma mark_used_ok k i buf : zlen buf = BSIZE -> bytes_ok buf -> 0 <= i -> i + Z.of_nat k <= BSIZE * 8 ->
  zlen (mark_used k i buf) = BSIZE /\ bytes_ok (mark_used k i buf) /\
  forall b, 0 <= b < BSIZE * 8 -> Z.testbit (znth (mark_used k i buf) (b / 8)) (b mod 8) = ((i <=? b) && (b <? i + Z.of_nat k)) || Z.testbit (znth buf (b / 8)) (b mod 8).
Proof.
  revert i buf. induction k as [|k IH]; intros i buf Hl Hb Hi Hk.
  - split_and!; try done. intros b Hbr. simpl. rewrite Z.add_0_r. destruct (Z.leb_spec i b); [by rewrite (proj2 (Z.ltb_ge _ _)) by lia|done].
  - cbn [mark_used]. set (v := uchar _). assert (Hi8 : 0 <= i / 8 < zlen buf) by (rewrite Hl; split; [apply Z.div_pos; lia|apply Z.div_lt_upper_bound; lia]).
    destruct (IH (i + 1) (zupd buf (i / 8) v)) as (H1 & H2 & H3); [by rewrite zlen_zupd|apply bytes_ok_zupd; [done|apply uchar_range]|lia|lia|]. split_and!; try done.
    intros b Hbr. rewrite H3 by done. assert (Hbit : Z.testbit (znth (zupd buf (i / 8) v) (b / 8)) (b mod 8) = (b =? i) || Z.testbit (znth buf (b / 8)) (b mod 8)).
    { pose proof (Z.mod_pos_bound b 8 ltac:(lia)). pose proof (Z.mod_pos_bound i 8 ltac:(lia)). pose proof (Z.div_mod b 8 ltac:(lia)). pose proof (Z.div_mod i 8 ltac:(lia)).
      assert (0 <= b / 8) by (apply Z.div_pos; lia). destruct (decide (b / 8 = i / 8)) as [E|E].
      - rewrite E, znth_zupd_eq by done. unfold v, uchar. rewrite Z.mod_pow2_bits_low by lia. rewrite Z.lor_spec, orb_comm. f_equal. rewrite Z.shiftl_1_l, Z.pow2_bits_eqb by lia.
        destruct (Z.eqb_spec (i mod 8) (b mod 8)); destruct (Z.eqb_spec b i); lia.
      - rewrite znth_zupd_ne by lia. destruct (Z.eqb_spec b i) as [->|]; done. }
    rewrite Hbit. destruct (Z.testbit (znth buf (b / 8)) (b mod 8)); [by rewrite !orb_true_r|]. rewrite !orb_false_r.
    destruct (Z.eqb_spec b i); destruct (Z.leb_spec (i + 1) b); destruct (Z.leb_spec i b); destruct (Z.ltb_spec b (i + 1 + Z.of_nat k)); destruct (Z.ltb_spec b (i + Z.of_nat (S k))); simpl; try done; lia.
Qed.

Lemma zero_sects_ok k i im : 0 <= i -> i + Z.of_nat k <= FSSIZE ->
  exists m, zero_sects k i im = Ok (tt, mk_image m (freeinode im) (freeblock im)) /\ (forall b, i <= b < i + Z.of_nat k -> m !! b = Some zeroes) /\
    forall b, ~ (i <= b < i + Z.of_nat k) -> m !! b = sects im !! b.
Proof.
  revert i im. induction k as [|k IH]; intros i im Hi Hk.
  - exists (sects im). split; [by destruct im|]. split; [lia|done].
  - destruct (IH (i + 1) (set_sects (insert i zeroes) im)) as (m & Hrun & H1 & H2); [lia|lia|]. exists m. split_and!.
    + cbn [zero_sects]. rewrite (bind_ok _ _ _ _ _ (wsect_ok im i zeroes ltac:(lia))). exact Hrun.
    + intros b Hb. destruct (decide (b = i)) as [->|]; [|apply H1; lia]. rewrite H2 by lia. apply lookup_insert_eq.
    + intros b Hb. rewrite H2 by lia. apply lookup_insert_ne. lia.
Qed.

(** ** The whole program *)

Definition inode_at (im : image) (i : Z) : dinode := decode_dinode (sects im !!! iblock i) (dinode_off i).
Lemma stored_at im i d : stored (sects im) i d -> inode_at im i = d.
Proof. intros (l & Hl & Hd). unfold inode_at. by rewrite (lookup_total_correct _ _ _ Hl). Qed.

Lemma decode_zeroes_type o : di_type (decode_dinode zeroes o) = 0.
Proof.
  unfold decode_dinode, zeroes, load, sub. cbn [di_type]. rewrite drop_replicate, take_replicate. generalize (min (Z.to_nat (Z.of_nat 2)) (Z.to_nat BSIZE - Z.to_nat o)).
  intros n. replace (le_decode (replicate n 0)) with 0; [done|]. induction n; simpl; lia.
Qed.

(** After the root directory has been made *)
Lemma root_made : exists im D, (forall k : Z -> K image unit,
    (modify (fun im => mk_image (sects im) (freeinode im) nmeta);; zero_sects (Z.to_nat FSSIZE) 0;; wsect 1 (splice zeroes 0 (super_bytes mk_super));;
     rootino ← mk_ialloc T_DIR;
     if negb (rootino =? ROOTINO) then panic "assert" else iappend rootino (dirent rootino [46]);; iappend rootino (dirent rootino [46; 46]);; k rootino) blank = k ROOTINO im) /\
  good im D /\ freeinode im = 2 /\ freeblock im = nmeta + 1 /\ di_size (D 1) = 32 /\ di_type (D 1) = T_DIR /\ di_nlink (D 1) = 1 /\
  content (sects im) (D 1) = dirent 1 [46] ++ dirent 1 [46; 46] /\ sects im !! 1 = Some (splice zeroes 0 (super_bytes mk_super)).
Proof.
  destruct (zero_sects_ok (Z.to_nat FSSIZE) 0 (mk_image ∅ 1 nmeta)) as (m & Hz & Hin & _); [lia|mkc; lia|]. set (sup := splice zeroes 0 (super_bytes mk_super)).
  set (im0 := mk_image (<[1 := sup]> m) 1 nmeta). assert (Hsup : zlen sup = BSIZE /\ bytes_ok sup).
  { split; [by vm_compute|]. unfold sup. apply bytes_ok_splice; [apply bytes_ok_replicate; unfold byte_ok; lia|apply bytes_ok_encode_addrs]. }
  assert (Hg0 : good im0 (fun _ => fresh 0)).
  { split; cbn [freeinode im0]; try (intros; lia); [unfold max_inodes; lia| |].
    - exists (fun _ => (0, 0)). split; cbn [sects freeblock im0]; try (intros; lia).
      + intros b Hb. destruct (decide (b = 1)) as [->|]; [exists sup; by rewrite lookup_insert_eq|]. rewrite lookup_insert_ne by done. exists zeroes. split; [apply Hin; mkc; lia|].
        split; [done|]. apply bytes_ok_replicate. unfold byte_ok. lia.
      + mkc. lia.
      + intros b Hb. rewrite lookup_insert_ne by (mkc; lia). apply Hin. mkc. lia.
    - intros i Hi _. exists (decode_dinode zeroes (dinode_off i)). pose proof (iblock_range i Hi). split; [|apply decode_zeroes_type].
      exists zeroes. split; [|done]. cbn [sects im0]. rewrite lookup_insert_ne by lia. apply Hin. mkc. lia. }
  destruct (ialloc_ok im0 _ T_DIR Hg0 ltac:(cbn; unfold max_inodes; lia) ltac:(by left)) as (im1 & Hr1 & Hg1 & Hn1 & Hf1 & S1 & M1). cbn [freeinode im0] in *. set (D1 := fset _ 1 (fresh T_DIR)) in *.
  assert (E1 : D1 1 = fresh T_DIR) by apply fset_eq. assert (Hd : forall n, bytes_ok n -> bytes_ok (dirent 1 n)) by (intros; by apply bytes_ok_dirent).
  destruct (iappend_ok im1 D1 1 (dirent 1 [46]) Hg1 ltac:(lia)) as (im2 & d2 & Hr2 & Hg2 & Hn2 & Hf2 & Hs2 & Ht2 & Hl2 & Hc2 & S2 & M2); rewrite ?E1, ?zlen_dirent, ?Hf1; [done|by apply Hd; repeat constructor|by vm_compute|].
  rewrite E1, zlen_dirent, Hf1 in *. cbn [di_size fresh] in *. change (0 + 16) with 16 in *.
  assert (E2 : fset D1 1 d2 1 = d2) by apply fset_eq.
  destruct (iappend_ok im2 (fset D1 1 d2) 1 (dirent 1 [46; 46]) Hg2 ltac:(lia)) as (im3 & d3 & Hr3 & Hg3 & Hn3 & Hf3 & Hs3 & Ht3 & Hl3 & Hc3 & S3 & M3); rewrite ?E2, ?zlen_dirent, ?Hf2, ?Hs2; [done|by apply Hd; repeat constructor|by vm_compute|].
  rewrite E2, zlen_dirent, Hf2, Hs2 in *. exists im3, (fset (fset D1 1 d2) 1 d3). rewrite fset_eq. split_and!; try done; try congruence.
  - intros k. rewrite bind_modify. cbn [sects freeinode blank]. rewrite (bind_ok _ _ _ _ _ Hz). rewrite (bind_ok _ _ _ _ _ (wsect_ok _ 1 sup ltac:(mkc; lia))). cbn [set_sects sects freeinode freeblock]. fold im0.
    rewrite (bind_ok _ _ _ _ _ Hr1). change (negb (1 =? ROOTINO)) with false. cbv iota. rewrite (bind_ok _ _ _ _ _ Hr2), (bind_ok _ _ _ _ _ Hr3). done.
  - rewrite Hn3, Hn2, Hn1. done.
  - by rewrite Ht3, Ht2.
  - by rewrite Hl3, Hl2.
  - rewrite Hc3, Hc2. change (content (sects im1) (fresh T_DIR)) with (@nil Z). by rewrite app_nil_l.
  - rewrite M3, M2, M1 by lia. apply lookup_insert_eq.
Qed.

(** The end of [main]: the size of the root directory and the bit map *)
Lemma finish_ok im D : good im D -> 2 <= freeinode im -> di_size (D 1) <= 4096 -> freeblock im <= FSSIZE ->
  let r := set_di_size ((di_size (D 1) / BSIZE + 1) * BSIZE) (D 1) in
  exists im', (d ← rinode ROOTINO; winode ROOTINO (set_di_size (xint (uint ((xint (di_size d) / BSIZE + 1) * BSIZE))) d);; fb ← gets freeblock; mk_balloc (int fb)) im = Ok (tt, im') /\
    (forall i, 1 <= i < freeinode im -> inode_at im' i = if decide (i = 1) then r else D i) /\
    (forall i k, 1 <= i < freeinode im -> slot (sects im') (D i) k = slot (sects im) (D i) k) /\ (forall i, 1 <= i < freeinode im -> keeps (sects im) (sects im') (D i) (D i)) /\
    sects im' !! 45 = Some (mark_used (Z.to_nat (freeblock im)) 0 zeroes) /\ sects im' !! 1 = sects im !! 1 /\
    (forall b, 0 <= b < FSSIZE -> exists l, sects im' !! b = Some l /\ zlen l = BSIZE /\ bytes_ok l) /\
    (forall i, 0 <= i < max_inodes -> i = 0 \/ freeinode im <= i -> di_type (inode_at im' i) = 0).
Proof.
  intros [Hnf [own Hinv] Hst Hcl Hfl Hre] H2 Hsz Hfb r. unfold max_inodes in *. pose proof (i_fb _ _ _ _ _ _ Hinv) as Hfr.
  destruct (Hfl 1 ltac:(lia)) as [(F1 & F2 & F3 & F4 & F5 & F6) Hsr]. assert (Hq : 0 <= di_size (D 1) / BSIZE <= 4) by (split; [apply Z.div_pos; mkc; lia|apply Z.div_le_upper_bound; mkc; lia]).
  assert (Hrf : dfields r) by (unfold dfields, r; cbn; split_and!; try done; unfold is_uint; mkc; lia).
  destruct (winode_ok im _ D own _ 1 r Hinv ltac:(unfold max_inodes; lia) Hrf) as (im1 & Hw & Hn1 & Hf1 & Hinv1 & Hs1 & Hso1 & Hm1 & Hk1).
  set (bm := mark_used (Z.to_nat (freeblock im)) 0 zeroes).
  destruct (mark_used_ok (Z.to_nat (freeblock im)) 0 zeroes) as (Hbl & Hbb & _); [done|apply bytes_ok_replicate; unfold byte_ok; lia|lia|mkc; lia|]. fold bm in Hbl, Hbb.
  destruct (meta_inv (sects im1) _ _ D own _ 45 bm Hinv1 ltac:(mkc; lia) Hbl Hbb) as (Hinv2 & Hs2 & Hk2).
  assert (Hsl1 : forall i k, 1 <= i < freeinode im -> slot (sects im1) (D i) k = slot (sects im) (D i) k).
  { intros i k Hi. apply slot_ext. intros Hn. rewrite <- (slot_ind (sects im)) in *. destruct (i_own _ _ _ _ _ _ Hinv i MAXFILE Hi ltac:(mkc; lia) Hn). apply Hm1. pose proof (iblock_range 1 ltac:(unfold max_inodes; lia)). mkc. lia. }
  exists (set_sects (insert 45 bm) im1). split_and!.
  - rewrite (bind_ok _ _ _ _ _ (rinode_ok im 1 (D 1) ltac:(unfold max_inodes; lia) (Hst 1 ltac:(lia)))). rewrite (xint_small _ F5). rewrite (uint_small (_ * BSIZE)), (xint_small (_ * BSIZE)) by (unfold is_uint; mkc; lia).
    rewrite (bind_ok _ _ _ _ _ Hw), bind_gets, Hf1. unfold mk_balloc. rewrite int_small by (mkc; lia). rewrite (proj2 (Z.ltb_lt _ _)) by (mkc; lia). cbn [negb]. apply wsect_ok. mkc. vm_compute. done.
  - intros i Hi. pose proof (iblock_range i ltac:(unfold max_inodes; lia)). assert (Hst1 : stored (sects im1) i (if decide (i = 1) then r else D i)).
    { case_decide; [by subst|]. apply Hso1; [unfold max_inodes; lia|done|by apply Hst]. }
    apply stored_at. destruct Hst1 as (l & Hl & Hd). exists l. split; [|done]. cbn. rewrite lookup_insert_ne by lia. done.
  - intros i k Hi. cbn [sects set_sects]. by rewrite Hs2, Hsl1.
  - intros i Hi. cbn [sects set_sects]. by apply (keeps_trans _ (sects im1) _ _ (D i)); [apply Hk1|apply Hk2].
  - apply lookup_insert_eq.
  - cbn. rewrite lookup_insert_ne by done. apply Hm1. pose proof (iblock_range 1 ltac:(unfold max_inodes; lia)). lia.
  - exact (i_sec _ _ _ _ _ _ Hinv2).
  - intros i Hi Hc. destruct (Hre i Hi Hc) as (d & Hd & Hz). pose proof (iblock_range i Hi). destruct (Hso1 i d Hi ltac:(lia) Hd) as (l & Hl & El).
    rewrite (stored_at _ i d); [done|]. exists l. split; [|done]. cbn. by rewrite lookup_insert_ne by lia.
Qed.

(** The number of blocks in use in the end *)
Definition blocks_used (files : list file) : Z := nmeta + nb (16 * (zlen files + 2)) + files_nb files.

(** What the image holds.  [root_len] is the length of the root directory before it is rounded up. *)
Definition root_len (files : list file) : Z := 16 * (zlen files + 2).
Definition stored_len (files : list file) (i : Z) (d : dinode) : Z := if decide (i = ROOTINO) then root_len files else di_size d.
Record made (files : list file) (im : image) : Prop := {
  md_sb : decode_sb (sects im !!! 1) = mk_super;
  md_file : forall k f, files !! k = Some f -> let d := inode_at im (Z.of_nat k + 2) in di_type d = T_FILE /\ di_nlink d = 1 /\ content (sects im) d = file_bytes f;
  md_root : let r := inode_at im ROOTINO in let n := root_len files in
    di_type r = T_DIR /\ di_nlink r = 1 /\ di_size r = (n / BSIZE + 1) * BSIZE /\
    fbyte (sects im) r <$> seqZ 0 n = dirent ROOTINO [46] ++ dirent ROOTINO [46; 46] ++ entries 2 files /\
    (forall x, n <= x < di_size r -> slot (sects im) r (x / BSIZE) <> 0 -> fbyte (sects im) r x = 0);
  md_bits : forall b, 0 <= b < BPB -> Z.testbit (znth (sects im !!! bmapstart mk_super) (b / 8)) (b mod 8) = (b <? blocks_used files);
  md_own : exists own, forall i k, 1 <= i < zlen files + 2 -> 0 <= k <= MAXFILE -> let b := slot (sects im) (inode_at im i) k in
    b <> 0 -> nmeta <= b < blocks_used files /\ own b = (i, k);
  md_slots : forall i k, 1 <= i < zlen files + 2 -> 0 <= k <= MAXFILE -> slot (sects im) (inode_at im i) k <> 0 <-> used (stored_len files i (inode_at im i)) k;
  md_fields : forall i, 1 <= i < zlen files + 2 -> dfields (inode_at im i) /\ 0 <= di_size (inode_at im i) <= MAXFILE * BSIZE;
  md_sec : forall b, 0 <= b < FSSIZE -> exists l, sects im !! b = Some l /\ zlen l = BSIZE /\ bytes_ok l;
  md_rest : forall i, 0 <= i < max_inodes -> ~ (1 <= i < zlen files + 2) -> di_type (inode_at im i) = 0;
}.

Lemma mkfs_made files : Forall file_fits files -> zlen files + 2 <= NINODES -> blocks_used files <= FSSIZE ->
  exists im, mkfs_main files blank = Ok (tt, im) /\ made files im.
Proof.
  intros Hfit Hn Hcap. unfold NINODES, blocks_used in *. destruct root_made as (im1 & D1 & Hr1 & Hg1 & Hn1 & Hf1 & Hs1 & Ht1 & Hl1 & Hc1 & Hsup).
  pose proof (zlen_nonneg files) as Hz. pose proof (files_nb_nonneg files). change (nb 32) with 1 in *.
  destruct (add_files_ok files im1 D1 Hg1 ltac:(lia) ltac:(unfold max_inodes; lia) ltac:(lia) Hfit) as (im2 & D2 & Hr2 & Hg2 & Hn2 & Hf2 & Hs2 & Ht2 & Hl2 & Hc2 & Hall & S2 & M2).
  { rewrite Hn1, Hf1. change (16 * 2) with 32. change (nb 32) with 1. replace (2 + zlen files) with (zlen files + 2) by lia. lia. }
  rewrite Hn1, Hf1 in *. change (16 * 2) with 32 in *. change (nb 32) with 1 in *. replace (2 + zlen files) with (zlen files + 2) in * by lia.
  assert (Hfb : freeblock im2 = nmeta + nb (16 * (zlen files + 2)) + files_nb files) by lia. set (used_blocks := nmeta + _ + files_nb files) in *.
  destruct (finish_ok im2 D2 Hg2 ltac:(lia) ltac:(lia) ltac:(lia)) as (im & Hr & Hat & Hsl & Hk & Hbm & H1 & Hsec & Hrest). destruct Hg2 as [_ [own Hinv] _ Hcl Hfl _].
  assert (Hat' : forall i, 1 <= i < zlen files + 2 -> forall k, slot (sects im) (inode_at im i) k = slot (sects im2) (D2 i) k).
  { intros i Hi k. rewrite Hat, <- Hsl by lia. case_decide; [by subst|done]. }
  exists im. split; [|split; unfold root_len].
  - unfold mkfs_main. rewrite Hr1, (bind_ok _ _ _ _ _ Hr2). exact Hr.
  - rewrite lookup_total_alt, H1. destruct (M2 1 ltac:(lia)). rewrite Hsup. by vm_compute.
  - intros k f Hk'. pose proof (lookup_lt_Some _ _ _ Hk'). assert (Hi : 2 <= Z.of_nat k + 2 < zlen files + 2) by (unfold zlen; lia). cbv zeta.
    rewrite Hat, decide_False by lia. replace (Z.of_nat k + 2) with (2 + Z.of_nat k) in * by lia. destruct (Hall k f Hk') as (A1 & A2 & A3). split_and!; [done|done|].
    rewrite <- A3. apply (content_keeps _ _ _ _ D2 own _ Hinv); [lia|apply Hfl; lia|apply Hk; lia].
  - cbv zeta. unfold ROOTINO. rewrite Hat, decide_True by (done || lia). cbn [di_type di_nlink di_size set_di_size]. rewrite Hs2. split_and!; [congruence|congruence|done| |].
    + pose proof (content_keeps _ _ _ _ D2 own 1 Hinv ltac:(lia) ltac:(apply Hfl; lia) (Hk 1 ltac:(lia))) as E. unfold content at 1 in E. rewrite Hs2 in E. 
      transitivity (content (sects im2) (D2 1)); [exact E|]. rewrite Hc2, Hc1. by rewrite <- app_assoc.
    + intros x Hx Hnz. change (slot (sects im) (set_di_size ?v ?d)) with (slot (sects im) d) in Hnz. change (fbyte (sects im) (set_di_size ?v ?d)) with (fbyte (sects im) d).
      rewrite Hsl in Hnz by lia. assert (Hxr : 0 <= x < MAXFILE * BSIZE).
      { assert (16 * (zlen files + 2) / BSIZE <= 4) by (apply Z.div_le_upper_bound; mkc; lia). mkc. lia. }
      destruct (Hk 1 ltac:(lia) x Hxr Hnz) as [_ ->]. apply Hcl; [lia|lia|done|]. pose proof (block_no x Hxr). by apply (i_used _ _ _ _ _ _ Hinv 1 (x / BSIZE) ltac:(lia) ltac:(lia)).
  - intros b Hb. pose proof (i_fb _ _ _ _ _ _ Hinv) as Hfr. rewrite lookup_total_alt. change (bmapstart mk_super) with 45. rewrite Hbm. cbn [default].
    destruct (mark_used_ok (Z.to_nat (freeblock im2)) 0 zeroes) as (_ & _ & Hbit); [done|apply bytes_ok_replicate; unfold byte_ok; lia|lia|mkc; lia|].
    unfold id. rewrite Hbit by done. rewrite (proj2 (Z.leb_le 0 b)) by lia. cbn [andb]. replace (0 + Z.of_nat (Z.to_nat (freeblock im2))) with used_blocks by (rewrite Z2Nat.id by (mkc; lia); lia).
    replace (znth zeroes (b / 8)) with 0; [by rewrite Z.bits_0, orb_false_r|]. symmetry. unfold znth, zeroes. apply lookup_total_replicate_2.
    assert (0 <= b / 8 < BSIZE) by (split; [apply Z.div_pos; lia|apply Z.div_lt_upper_bound; [lia|unfold BPB in Hb; lia]]). lia.
  - exists own. intros i k Hi Hk'. cbv zeta. rewrite Hat' by done. change (blocks_used files) with used_blocks. rewrite <- Hfb. apply (i_own _ _ _ _ _ _ Hinv i k); [lia|done].
  - intros i k Hi Hk'. rewrite Hat' by done. rewrite (i_used _ _ _ _ _ _ Hinv i k ltac:(lia) Hk'). unfold sized, stored_len, root_len, ROOTINO. case_decide as E; [by rewrite E, Hs2|].
    by rewrite Hat, decide_False by lia.
  - intros i Hi. rewrite Hat by lia. destruct (Hfl i ltac:(lia)) as [Hd Hsz]. case_decide as E; [subst i|done]. destruct Hd as (? & ? & ? & ? & ? & ?).
    assert (0 <= di_size (D2 1) / BSIZE <= 4) by (rewrite Hs2; split; [apply Z.div_pos; mkc; lia|apply Z.div_le_upper_bound; mkc; lia]). cbn [di_size set_di_size].
    split; [unfold dfields; cbn; split_and!; try done; unfold is_uint; mkc; lia|mkc; lia].
  - exact Hsec.
  - intros i Hi Hn'. apply Hrest; [done|lia].
Qed.

(** C3: mkfs makes an image that the kernel can mount, if the files fit: the super block reads back, file [k] is inode [k + 2] with its exact bytes, the root directory begins
    with the entries for itself, for its parent and for every file in order and is otherwise empty, the bit map marks exactly the blocks in use, and no two entries of
    inodes share a block. *)
Theorem mkfs_image files : Forall file_fits files -> zlen files + 2 <= NINODES -> blocks_used files <= FSSIZE ->
  exists im, mkfs_main files blank = Ok (tt, im) /\ decode_sb (sects im !!! 1) = mk_super /\
    (forall k f, files !! k = Some f -> let d := inode_at im (Z.of_nat k + 2) in di_type d = T_FILE /\ di_nlink d = 1 /\ content (sects im) d = file_bytes f) /\
    (let r := inode_at im ROOTINO in let n := 16 * (zlen files + 2) in
      di_type r = T_DIR /\ di_nlink r = 1 /\ di_size r = (n / BSIZE + 1) * BSIZE /\
      fbyte (sects im) r <$> seqZ 0 n = dirent ROOTINO [46] ++ dirent ROOTINO [46; 46] ++ entries 2 files /\
      (forall x, n <= x < di_size r -> slot (sects im) r (x / BSIZE) <> 0 -> fbyte (sects im) r x = 0)) /\
    (forall b, 0 <= b < BPB -> Z.testbit (znth (sects im !!! bmapstart mk_super) (b / 8)) (b mod 8) = (b <? blocks_used files)) /\
    (exists own, forall i k, 1 <= i < zlen files + 2 -> 0 <= k <= MAXFILE -> let b := slot (sects im) (inode_at im i) k in b <> 0 -> nmeta <= b < blocks_used files /\ own b = (i, k)).
Proof.
  intros Hfit Hn Hcap. destruct (mkfs_made files Hfit Hn Hcap) as (im & Hr & [H1 H2 H3 H4 H5 _ _ _ _]). exists im. exact (conj Hr (conj H1 (conj H2 (conj H3 (conj H4 H5))))).
Qed.

(** Two small programs and a file of a little more than a block *)
Definition demo_files : list file :=
  [([117; 115; 101; 114; 47; 95; 99; 97; 116], Some [[127; 69; 76; 70]; [1; 2]]); ([82; 69; 65; 68; 77; 69], Some [replicate 1024 65; [66; 10]])].
Lemma mkfs_image_witness : exists im, mkfs_main demo_files blank = Ok (tt, im) /\ content (sects im) (inode_at im 2) = [127; 69; 76; 70; 1; 2] /\
  fbyte (sects im) (inode_at im 1) <$> seqZ 32 16 = [2; 0; 99; 97; 116; 0; 0; 0; 0; 0; 0; 0; 0; 0; 0; 0].
Proof.
  destruct (mkfs_image demo_files) as (im & Hr & _ & Hf & (_ & _ & _ & Hroot & _) & _).
  - repeat apply Forall_cons_2; [..|by apply Forall_nil_2]; (split; [by apply (bool_decide_unpack _); vm_compute|]); (split; [by apply (bool_decide_unpack _); vm_compute|]);
      (split; [by eexists|]); (split; [by apply (bool_decide_unpack _); vm_compute|by vm_compute]).
  - by vm_compute.
  - by vm_compute.
  - exists im. split_and!; [exact Hr|exact (proj2 (proj2 (Hf 0%nat _ eq_refl)))|].
    assert (E : seqZ 0 (16 * (zlen demo_files + 2)) = seqZ 0 32 ++ seqZ 32 16 ++ seqZ 48 16) by (by vm_compute). rewrite E, !fmap_app in Hroot. unfold ROOTINO in Hroot.
    apply (app_inj_1 (fbyte (sects im) (inode_at im 1) <$> seqZ 0 32) (dirent 1 [46] ++ dirent 1 [46; 46])) in Hroot as [_ Hroot]; [|by rewrite length_fmap].
    by apply app_inj_1 in Hroot as [Hroot _]; [|by rewrite length_fmap].
Defined.
