(* ===== verification/ShRun.v ===== *)
(** * The shell runs a command

    [runcmd] and the start of [main] of [src/user/sh.c].  What a command comes to is a
    tree of processes: programs started by [exec] with the descriptors they find, one after
    the other, side by side in a pipe, or in the background.  The kernel's part is
    the table of descriptors of a process, the lowest free one being taken as
    [fdalloc] of [src/kernel/fs/sysfile.c] does, and which calls fail: [open_ok], [pipe_ok] and [fork_ok] say
    it of every call, by its arguments or by its number. *)

From stdpp Require Import base numbers list list_numbers strings.
From Stdlib Require Import ZArith Lia.
From S2P Require Import Prelude Params Path Sh.

(** What a descriptor is open on *)
Inductive obj := Console | OpenFile (file : span) (mode : Z) | PipeEnd (id : Z) (write : bool).
Abbreviation fdtable := (list (option obj)).

Fixpoint fd_alloc (o : obj) (l : fdtable) : option (Z * fdtable) :=
  match l with
  | [] => None
  | None :: l => Some (0, Some o :: l)
  | x :: l => '(k, l') ← fd_alloc o l; Some (k + 1, x :: l')
  end.
Definition fd_close (fd : Z) (l : fdtable) : fdtable := if (0 <=? fd) && (fd <? zlen l) then zupd l fd None else l.
(** [dup]; its result is not looked at. *)
Definition fd_dup (fd : Z) (l : fdtable) : fdtable :=
  match (if 0 <=? fd then l !! Z.to_nat fd else None) with
  | Some (Some o) => match fd_alloc o l with Some (_, l') => l' | None => l end
  | _ => l
  end.
(** [pipe(p)]: [p[0]], [p[1]] and the table; nothing is kept when it fails. *)
Definition fd_pipe (id : Z) (l : fdtable) : option (Z * Z * fdtable) :=
  '(p0, l1) ← fd_alloc (PipeEnd id false) l;
  '(p1, l2) ← fd_alloc (PipeEnd id true) l1;
  Some (p0, p1, l2).

(** The processes of a command; [T] is what is known of the descriptors of a program.  [RSeq] and [RPipe] wait for their children, [RBack] exits with the status
    and leaves its child running. *)
Inductive run (T : Type) :=
| RExec (argv : list span) (fds : T)
| RExit (status : Z)
| RSeq (child : run T) (rest : run T)
| RPipe (left right : run T)
| RBack (child : run T) (status : Z).
Arguments RExec {T}.
Arguments RExit {T}.
Arguments RSeq {T}.
Arguments RPipe {T}.
Arguments RBack {T}.

Fixpoint run_map {T T'} (f : T -> T') (r : run T) : run T' :=
  match r with
  | RExec argv fds => RExec argv (f fds)
  | RExit n => RExit n
  | RSeq c r => RSeq (run_map f c) (run_map f r)
  | RPipe l r => RPipe (run_map f l) (run_map f r)
  | RBack c n => RBack (run_map f c) n
  end.

(** Calls made so far by the processes of the command *)
Record world := mk_world { forks : Z; pipes : Z }.

(** The descriptors that [parseredirs] redirects *)
Fixpoint redirs_std (c : cmd) : Prop :=
  match c with
  | EXEC _ => True
  | REDIR c _ _ fd => (fd = 0 \/ fd = 1) /\ redirs_std c
  | LIST l r | PIPE l r => redirs_std l /\ redirs_std r
  | BACK c => redirs_std c
  end.

(** The parser redirects standard input and output only. *)
Definition yields (m : K nat cmd) : Prop := forall s c s', m s = Ok (c, s') -> redirs_std c.
Lemma yields_bind {A} (m : K nat A) (f : A -> K nat cmd) : (forall a, yields (f a)) -> yields (m ≫= f).
Proof. intros Hf s c s' (a & s1 & _ & H)%bind_inv. by apply (Hf a s1 c s'). Qed.
Lemma yields_ret c : redirs_std c -> yields (mret c).
Proof. by intros Hc s c' s' [= <- _]. Qed.
Lemma yields_then (m : K nat cmd) (f : cmd -> K nat cmd) : yields m -> (forall c, redirs_std c -> yields (f c)) -> yields (m ≫= f).
Proof. intros Hm Hf s c s' (a & s1 & H1 & H)%bind_inv. apply (Hf a (Hm _ _ _ H1) s1 c s' H). Qed.

Lemma parseredirs_yields b n c : redirs_std c -> yields (parseredirs_loop b n c).
Proof.
  revert c. induction n as [|n IH]; intros c Hc; [by intros s|]. cbn [parseredirs_loop]. apply yields_bind. intros p. destruct (negb p); [by apply yields_ret|].
  apply yields_bind. intros t. apply yields_bind. intros w. destruct (negb _); [by intros s|]. cbv zeta. apply IH. repeat case_match; simpl; tauto.
Qed.
Lemma add_arg_redirs c w : redirs_std c -> redirs_std (add_arg c w).
Proof. induction c; simpl; try done. intros [? ?]. tauto. Qed.
Lemma args_yields b n c argc : redirs_std c -> yields (args_loop b n c argc).
Proof.
  revert c argc. induction n as [|n IH]; intros c argc Hc; [by intros s|]. cbn [args_loop]. apply yields_bind. intros p. destruct p; [by apply yields_ret|].
  apply yields_bind. intros t. destruct (_ =? 0); [by apply yields_ret|]. destruct (negb _); [by intros s|]. cbv zeta. case_bool_decide; [by intros s|].
  apply yields_then; [apply (parseredirs_yields b (rounds b)); by apply add_arg_redirs|]. intros c' Hc'. by apply IH.
Qed.
Lemma back_yields b n c : redirs_std c -> yields (back_loop b n c).
Proof.
  revert c. induction n as [|n IH]; intros c Hc; [by intros s|]. cbn [back_loop]. apply yields_bind. intros p. destruct (negb p); [by apply yields_ret|]. apply yields_bind. intros _. by apply IH.
Qed.
Lemma parse_yields b n : yields (parseline b n) /\ yields (parsepipe b n) /\ yields (parseexec b n) /\ yields (parseblock b n).
Proof.
  induction n as [|n (IHl & IHp & IHe & IHb)]; [split_and!; by intros s|]. cbn [parseline parsepipe parseexec parseblock]. split_and!.
  - apply yields_then; [done|]. intros c Hc. apply yields_then; [by apply back_yields|]. intros c' Hc'. apply yields_bind. intros [|]; [|by apply yields_ret].
    apply yields_bind. intros _. apply yields_then; [done|]. intros r Hr. by apply yields_ret.
  - apply yields_then; [done|]. intros c Hc. apply yields_bind. intros [|]; [|by apply yields_ret]. apply yields_bind. intros _. apply yields_then; [done|]. intros r Hr. by apply yields_ret.
  - apply yields_bind. intros [|]; [exact IHb|]. apply yields_then; [exact (parseredirs_yields b (rounds b) (EXEC []) I)|]. intros c Hc. exact (args_yields b (rounds b) c 0 Hc).
  - apply yields_bind. intros p. destruct (negb p); [by intros s|]. apply yields_bind. intros _. apply yields_then; [done|]. intros c Hc. apply yields_bind. intros p'.
    destruct (negb p'); [by intros s|]. apply yields_bind. intros _. exact (parseredirs_yields b (rounds b) c Hc).
Qed.
Lemma parsecmd_redirs b c buf : parsecmd b = Ok (c, buf) -> redirs_std c.
Proof.
  unfold parsecmd. set (m := _ ≫= _). destruct (m O) as [[c' s']|?|?|?|] eqn:E; try done. simpl. intros [= -> _]. revert E. unfold m.
  apply yields_then; [apply parse_yields|]. intros c0 Hc0. apply yields_bind. intros _. apply yields_bind. intros s. case_bool_decide; [by apply yields_ret|by intros ?].
Qed.

Section Run.
Context (open_ok : span -> Z -> bool) (pipe_ok fork_ok : Z -> bool).

(** [fork1]: whether there is a child; the parent calls [panic] otherwise. *)
Definition fork1 : K world bool := w ← get; modify (fun w => mk_world (forks w + 1) (pipes w));; mret (fork_ok (forks w)).
Definition do_pipe (fds : fdtable) : K world (option (Z * Z * fdtable)) :=
  w ← get; modify (fun w => mk_world (forks w) (pipes w + 1));; mret (if pipe_ok (pipes w) then fd_pipe (pipes w) fds else None).

(** Every branch ends in [exit]; the exit status 0 after [exec] comes back and after the waits is part of the tree. *)
Fixpoint runcmd (c : cmd) (fds : fdtable) : K world (run fdtable) :=
  match c with
  | EXEC argv => if bool_decide (argv = []) then mret (RExit 1) else mret (RExec argv fds)
  | REDIR c file mode fd =>
      let fds := fd_close fd fds in
      match (if open_ok file mode then fd_alloc (OpenFile file mode) fds else None) with
      | None => mret (RExit 1)
      | Some (_, fds) => runcmd c fds
      end
  | LIST l r =>
      b ← fork1;
      if (b : bool) then a ← runcmd l fds; z ← runcmd r fds; mret (RSeq a z) else mret (RExit 1)
  | PIPE l r =>
      p ← do_pipe fds;
      match p with
      | None => mret (RExit 1)
      | Some (p0, p1, fds) =>
          b ← fork1;
          if (b : bool) then
            a ← runcmd l (fd_close p1 (fd_close p0 (fd_dup p1 (fd_close 1 fds))));
            b ← fork1;
            if (b : bool) then
              z ← runcmd r (fd_close p1 (fd_close p0 (fd_dup p0 (fd_close 0 fds))));
              mret (RPipe a z)
            else mret (RBack a 1)
          else mret (RExit 1)
      end
  | BACK c => b ← fork1; if (b : bool) then a ← runcmd c fds; mret (RBack a 0) else mret (RExit 1)
  end.

(** [while((fd = open("console", O_RDWR)) >= 0) if(fd >= 3){ close(fd); break; }]; each turn takes a free descriptor below 3 or ends the loop. *)
Fixpoint three_open (fuel : nat) (fds : fdtable) : option fdtable :=
  match fuel with
  | O => None
  | S fuel =>
      match fd_alloc Console fds with
      | None => Some fds
      | Some (fd, fds) => if 3 <=? fd then Some (fd_close fd fds) else three_open fuel fds
      end
  end.

(** ** The plan of a command: which program runs with which standard input, output and error *)

Record std := mk_std { s_in : obj; s_out : obj; s_err : obj }.
Definition std_set (fd : Z) (o : obj) (s : std) : std :=
  if fd =? 0 then mk_std o (s_out s) (s_err s) else if fd =? 1 then mk_std (s_in s) o (s_err s) else mk_std (s_in s) (s_out s) o.
Fixpoint plan (c : cmd) (s : std) : K world (run std) :=
  match c with
  | EXEC argv => if bool_decide (argv = []) then mret (RExit 1) else mret (RExec argv s)
  | REDIR c file mode fd => if open_ok file mode then plan c (std_set fd (OpenFile file mode) s) else mret (RExit 1)
  | LIST l r => b ← fork1; if (b : bool) then a ← plan l s; z ← plan r s; mret (RSeq a z) else mret (RExit 1)
  | PIPE l r =>
      w ← get;
      modify (fun w => mk_world (forks w) (pipes w + 1));;
      if pipe_ok (pipes w) then
        b ← fork1;
        if (b : bool) then
          a ← plan l (std_set 1 (PipeEnd (pipes w) true) s);
          b ← fork1;
          if (b : bool) then z ← plan r (std_set 0 (PipeEnd (pipes w) false) s); mret (RPipe a z) else mret (RBack a 1)
        else mret (RExit 1)
      else mret (RExit 1)
  | BACK c => b ← fork1; if (b : bool) then a ← plan c s; mret (RBack a 0) else mret (RExit 1)
  end.

(** The table with the three standard descriptors, and [tl] above them *)
Definition std_table (tl : fdtable) (s : std) : fdtable := Some (s_in s) :: Some (s_out s) :: Some (s_err s) :: tl.

Lemma fd_alloc_inv o l k l' : fd_alloc o l = Some (k, l') -> 0 <= k < zlen l /\ l !! Z.to_nat k = Some None /\ l' = zupd l k (Some o).
Proof using Type.
  revert k l'. induction l as [|[x|] l IH]; intros k l' H; [done| |].
  - simpl in H. destruct (fd_alloc o l) as [[k0 l0]|]; [|done]. simpl in H. injection H as <- <-. destruct (IH k0 l0 eq_refl) as (Hk & Hn & ->).
    unfold zlen in *. simpl. unfold zupd. replace (Z.to_nat (k0 + 1)) with (S (Z.to_nat k0)) by lia. split_and!; [lia..|done|done].
  - simpl in H. injection H as <- <-. unfold zlen. simpl. split_and!; [lia..|done|done].
Qed.
Lemma fd_alloc_some o l k : l !! k = Some None -> exists p, fd_alloc o l = Some p.
Proof using Type.
  revert k. induction l as [|[x|] l IH]; intros [|k] H; simpl in *; try done; eauto. destruct (IH k H) as [[k0 l0] ->]. simpl. eauto.
Qed.

Lemma std_alloc o tl s k l' : fd_alloc o tl = Some (k, l') -> fd_alloc o (std_table tl s) = Some (k + 3, std_table l' s).
Proof using Type. intros H. unfold std_table. cbn [fd_alloc]. rewrite H. simpl. do 2 f_equal. lia. Qed.
Lemma std_close tl s k : 0 <= k < zlen tl -> fd_close (k + 3) (std_table tl s) = std_table (zupd tl k None) s.
Proof using Type.
  intros Hk. unfold fd_close, std_table, zlen in *. rewrite (proj2 (Z.leb_le _ _)), (proj2 (Z.ltb_lt _ _)) by (simpl; lia). cbn [andb]. unfold zupd.
  by replace (Z.to_nat (k + 3)) with (S (S (S (Z.to_nat k)))) by lia.
Qed.
(** Close a standard descriptor, and what is opened next takes its place. *)
Lemma std_replace tl s fd o : fd = 0 \/ fd = 1 -> fd_alloc o (fd_close fd (std_table tl s)) = Some (fd, std_table tl (std_set fd o s)).
Proof using Type. intros Hfd. unfold fd_close, zlen. rewrite (proj2 (Z.leb_le _ _)), (proj2 (Z.ltb_lt _ _)) by (simpl; lia). by destruct Hfd as [-> | ->]. Qed.
Lemma std_dup tl s fd k o : fd = 0 \/ fd = 1 -> 0 <= k -> tl !! Z.to_nat k = Some (Some o) -> fd_dup (k + 3) (fd_close fd (std_table tl s)) = std_table tl (std_set fd o s).
Proof using Type.
  intros Hfd Hk Ho. unfold fd_dup. rewrite (proj2 (Z.leb_le _ _)) by lia. assert (El : fd_close fd (std_table tl s) !! Z.to_nat (k + 3) = Some (Some o)).
  { replace (Z.to_nat (k + 3)) with (S (S (S (Z.to_nat k)))) by lia. unfold fd_close, zlen. rewrite (proj2 (Z.leb_le _ _)), (proj2 (Z.ltb_lt _ _)) by (simpl; lia). by destruct Hfd as [-> | ->]. }
  by rewrite El, (std_replace tl s fd o Hfd).
Qed.

Definition two_free (tl : fdtable) : Prop := exists j k, j <> k /\ tl !! j = Some None /\ tl !! k = Some None.

Lemma zupd_back (tl : fdtable) k0 k1 a b : 0 <= k0 -> 0 <= k1 -> tl !! Z.to_nat k0 = Some None -> zupd tl k0 (Some a) !! Z.to_nat k1 = Some None ->
  zupd (zupd (zupd (zupd tl k0 (Some a)) k1 (Some b)) k0 None) k1 None = tl.
Proof using Type.
  intros H0 H1 E0 E1. unfold zupd in *. assert (Hne : Z.to_nat k0 <> Z.to_nat k1).
  { intros E. rewrite E, list_lookup_insert_eq in E1; [done|]. apply lookup_lt_Some in E0. by rewrite <- E. }
  rewrite list_lookup_insert_ne in E1 by done. rewrite (list_insert_insert_ne _ (Z.to_nat k1) (Z.to_nat k0)) by done. rewrite list_insert_insert_eq.
  rewrite (list_insert_insert_ne _ (Z.to_nat k1) (Z.to_nat k0)) by done. rewrite !list_insert_insert_eq. rewrite (list_insert_id tl (Z.to_nat k1)) by done. by apply list_insert_id.
Qed.

(** A pipe between two processes *)
Lemma pipe_plumbs id tl s : two_free tl -> exists p0 p1 fds, fd_pipe id (std_table tl s) = Some (p0, p1, fds) /\
  fd_close p1 (fd_close p0 (fd_dup p1 (fd_close 1 fds))) = std_table tl (std_set 1 (PipeEnd id true) s) /\
  fd_close p1 (fd_close p0 (fd_dup p0 (fd_close 0 fds))) = std_table tl (std_set 0 (PipeEnd id false) s).
Proof using Type.
  intros (j & k & Hjk & Hj & Hk). destruct (fd_alloc_some (PipeEnd id false) tl j Hj) as [[k0 l1] H0]. destruct (fd_alloc_inv _ _ _ _ H0) as (Hr0 & Hn0 & ->).
  assert (Hfree : exists x, zupd tl k0 (Some (PipeEnd id false)) !! x = Some None).
  { unfold zupd. destruct (decide (j = Z.to_nat k0)) as [->|Hne]; [exists k|exists j]; by rewrite list_lookup_insert_ne. }
  destruct Hfree as [x Hx]. destruct (fd_alloc_some (PipeEnd id true) _ x Hx) as [[k1 l2] H1]. destruct (fd_alloc_inv _ _ _ _ H1) as (Hr1 & Hn1 & ->). rewrite zlen_zupd in Hr1.
  exists (k0 + 3), (k1 + 3), (std_table (zupd (zupd tl k0 (Some (PipeEnd id false))) k1 (Some (PipeEnd id true))) s).
  set (tl2 := zupd (zupd tl k0 (Some (PipeEnd id false))) k1 (Some (PipeEnd id true))). assert (Hl2 : zlen tl2 = zlen tl) by (unfold tl2; by rewrite !zlen_zupd).
  assert (E1 : tl2 !! Z.to_nat k1 = Some (Some (PipeEnd id true))) by (unfold tl2, zupd; apply list_lookup_insert_eq; rewrite length_insert; unfold zlen in *; lia).
  assert (Hne : Z.to_nat k1 <> Z.to_nat k0) by (intros E; unfold zupd in Hn1; rewrite E, list_lookup_insert_eq in Hn1; [done|unfold zlen in *; lia]).
  assert (E0 : tl2 !! Z.to_nat k0 = Some (Some (PipeEnd id false))) by (unfold tl2, zupd; rewrite list_lookup_insert_ne by done; apply list_lookup_insert_eq; unfold zlen in *; lia).
  split_and!.
  - unfold fd_pipe. rewrite (std_alloc _ _ _ _ _ H0). cbn [mbind option_bind]. rewrite (std_alloc _ _ _ _ _ H1). done.
  - rewrite (std_dup _ _ 1 k1 _ ltac:(lia) ltac:(lia) E1). rewrite !std_close by (rewrite ?zlen_zupd; lia). f_equal. apply zupd_back; try done; lia.
  - rewrite (std_dup _ _ 0 k0 _ ltac:(lia) ltac:(lia) E0). rewrite !std_close by (rewrite ?zlen_zupd; lia). f_equal. apply zupd_back; try done; lia.
Qed.

Lemma runcmd_plan tl c s w : two_free tl -> redirs_std c ->
  exists r w', plan c s w = Ok (r, w') /\ runcmd c (std_table tl s) w = Ok (run_map (std_table tl) r, w').
Proof using Type.
  intros Htl. revert s w. induction c as [argv|c IH file mode fd|l IHl r IHr|l IHl r IHr|c IH]; intros s w Hc; cbn [plan runcmd].
  - case_bool_decide; by eexists _, _.
  - destruct Hc as [Hfd Hc]. destruct (open_ok file mode); [|by eexists _, _]. cbv zeta. rewrite (std_replace _ _ _ _ Hfd). by apply IH.
  - destruct Hc as [Hl Hr]. unfold do_pipe. rewrite !bind_get. destruct (pipe_ok (pipes w)) eqn:Ep; [|eexists _, _; split; [reflexivity|]; unfold mbind at 1, K_bind at 1; simpl; by rewrite Ep].
    destruct (pipe_plumbs (pipes w) tl s Htl) as (p0 & p1 & fds & Hp & Eout & Ein). set (w1 := mk_world (forks w) (pipes w + 1)).
    rewrite (bind_ok _ _ w (Some (p0, p1, fds)) w1); [|rewrite <- Hp, bind_get, Ep; done]. rewrite bind_modify. fold w1.
    assert (Hf : forall w, fork1 w = Ok (fork_ok (forks w), mk_world (forks w + 1) (pipes w))) by done. rewrite !(bind_ok _ _ _ _ _ (Hf w1)).
    destruct (fork_ok (forks w1)); [|by eexists _, _]. rewrite Eout, Ein. set (w2 := mk_world _ (pipes w1)).
    destruct (IHl (std_set 1 (PipeEnd (pipes w) true) s) w2 Hl) as (a & w3 & Ha & Hra). rewrite (bind_ok _ _ _ _ _ Ha), (bind_ok _ _ _ _ _ Hra). rewrite !(bind_ok _ _ _ _ _ (Hf w3)).
    destruct (fork_ok (forks w3)); [|by eexists _, _]. set (w4 := mk_world _ (pipes w3)).
    destruct (IHr (std_set 0 (PipeEnd (pipes w) false) s) w4 Hr) as (z & w5 & Hz & Hrz). rewrite (bind_ok _ _ _ _ _ Hz), (bind_ok _ _ _ _ _ Hrz). by eexists _, _.
  - destruct Hc as [Hl Hr]. assert (Hf : forall w, fork1 w = Ok (fork_ok (forks w), mk_world (forks w + 1) (pipes w))) by done. rewrite !(bind_ok _ _ _ _ _ (Hf w)).
    destruct (fork_ok (forks w)); [|by eexists _, _]. destruct (IHl s (mk_world (forks w + 1) (pipes w)) Hl) as (a & w1 & Ha & Hra). rewrite (bind_ok _ _ _ _ _ Ha), (bind_ok _ _ _ _ _ Hra).
    destruct (IHr s w1 Hr) as (z & w2 & Hz & Hrz). rewrite (bind_ok _ _ _ _ _ Hz), (bind_ok _ _ _ _ _ Hrz). by eexists _, _.
  - assert (Hf : forall w, fork1 w = Ok (fork_ok (forks w), mk_world (forks w + 1) (pipes w))) by done. rewrite !(bind_ok _ _ _ _ _ (Hf w)). destruct (fork_ok (forks w)); [|by eexists _, _].
    destruct (IH s (mk_world (forks w + 1) (pipes w)) Hc) as (a & w1 & Ha & Hra). rewrite (bind_ok _ _ _ _ _ Ha), (bind_ok _ _ _ _ _ Hra). by eexists _, _.
Qed.

(** Open descriptors stay, the others are the console. *)
Lemma three_open_ok a b c tl : two_free tl -> three_open 4 (a :: b :: c :: tl) = Some (std_table tl (mk_std (default Console a) (default Console b) (default Console c))).
Proof using Type.
  intros (j & _ & _ & Hj & _). destruct (fd_alloc_some Console tl j Hj) as [[k l'] Hk]. destruct (fd_alloc_inv _ _ _ _ Hk) as (Hr & Hn & ->).
  assert (Hdone : forall x y z n, three_open (S n) (Some x :: Some y :: Some z :: tl) = Some (Some x :: Some y :: Some z :: tl)).
  { intros x y z n. cbn [three_open]. rewrite (std_alloc _ _ (mk_std x y z) _ _ Hk : fd_alloc Console (Some x :: Some y :: Some z :: tl) = _). rewrite (proj2 (Z.leb_le _ _)) by lia.
    rewrite std_close by (rewrite zlen_zupd; lia). unfold zupd, std_table. rewrite list_insert_insert_eq. by rewrite list_insert_id. }
  destruct a, b, c; cbn [default]; first [apply Hdone | idtac]; cbn [three_open fd_alloc mbind option_bind]; apply Hdone.
Qed.

(** C9: the shell's plumbing: whatever three descriptors the shell was started with, every program of a line that it parses and runs finds on its standard descriptors exactly what the command says (the pipe that joins it to its neighbour,
    the file of its redirection, or what the shell had) and has no other descriptor of a pipe or a redirection open; programs run in the order of the command, and calls that fail end it. *)
Theorem shell_plumbs line c buf a0 a1 a2 tl w : two_free tl -> parsecmd line = Ok (c, buf) ->
  let s := mk_std (default Console a0) (default Console a1) (default Console a2) in
  exists r w' fds, three_open 4 (a0 :: a1 :: a2 :: tl) = Some fds /\ plan c s w = Ok (r, w') /\ runcmd c fds w = Ok (run_map (std_table tl) r, w').
Proof using Type.
  intros Htl Hp s. destruct (runcmd_plan tl c s w Htl (parsecmd_redirs _ _ _ Hp)) as (r & w' & H1 & H2). eexists r, w', _. split_and!; [by apply three_open_ok|done|exact H2].
Qed.
End Run.

(** "a < f | b" on a console, with everything succeeding *)
Definition demo_line : list Z := [97; 32; 60; 32; 102; 32; 124; 32; 98].
Lemma shell_plumbs_witness : exists c buf r w' fds, parsecmd demo_line = Ok (c, buf) /\ runcmd (fun _ _ => true) (fun _ => true) (fun _ => true) c fds (mk_world 0 0) = Ok (r, w') /\
  r = RPipe (RExec [mk_span 0 1] (std_table (replicate 13 None) (mk_std (OpenFile (mk_span 4 5) O_RDONLY) (PipeEnd 0 true) Console)))
            (RExec [mk_span 8 9] (std_table (replicate 13 None) (mk_std (PipeEnd 0 false) Console Console))).
Proof.
  destruct (parsecmd demo_line) as [[c buf]|?|?|?|] eqn:Ep; try (vm_compute in Ep; discriminate Ep).
  destruct (shell_plumbs (fun _ _ => true) (fun _ => true) (fun _ => true) demo_line c buf (Some Console) None None (replicate 13 None) (mk_world 0 0)) as (r & w' & fds & _ & Hp & Hr).
  - exists 0%nat, 1%nat. split_and!; [lia|reflexivity|reflexivity].
  - exact Ep.
  - eexists c, buf, _, w', fds. split; [reflexivity|]. split; [exact Hr|]. vm_compute in Ep. injection Ep as <- _. vm_compute in Hp. by injection Hp as <- _.
Defined.
