(* ===== verification/Start.v ===== *)
(** * The first instructions of a CPU

    [start] and [timerinit] of [src/kernel/start.c], in machine mode after [src/kernel/entry.S] and
    up to the [mret] that enters [main], on the hart of [Asm].  [main_addr] and [timervec_addr] are
    the addresses of these routines, [ts] is that of [timer_scratch] and [stack0] that of the stacks, all given by the linker. *)

From stdpp Require Import base numbers list gmap strings.
From Stdlib Require Import ZArith Lia.
From S2P Require Import Prelude Params Asm.

Definition CLINT : Z := 0x2000000.
Definition CLINT_MTIMECMP (hartid : Z) : Z := CLINT + 0x4000 + 8 * hartid.
Definition CLINT_MTIME : Z := CLINT + 0xBFF8.
Definition MSTATUS_MPP_MASK : Z := Z.shiftl 3 11.
Definition MSTATUS_MPP_S : Z := Z.shiftl 1 11.
Definition MSTATUS_MIE : Z := Z.shiftl 1 3.
Definition SIE_SEIE : Z := Z.shiftl 1 9.
Definition SIE_STIE : Z := Z.shiftl 1 5.
Definition SIE_SSIE : Z := Z.shiftl 1 1.
Definition MIE_MTIE : Z := Z.shiftl 1 7.
Definition interval : Z := 1000000.

(** Loads and stores of 64 bits in machine mode *)
Definition load_word (a : Z) : K mach Z := pa ← translate bare a; gets (fun s => words s !!! pa).
Definition store_word (a v : Z) : K mach unit := pa ← translate bare a; modify (fun s => set_words (<[pa := v]> (words s)) s).

(** Instructions of [timervec] do not take words away. *)
Lemma exec_dom tr l s s' : forallb (fun i => match i with Call _ => false | _ => true end) l = true -> exec_all tr l s = Ok (tt, s') -> dom (words s) ⊆ dom (words s').
Proof.
  revert s. induction l as [|i l IH]; intros s Hl H; [by injection H as <-|]. cbn [exec_all forallb] in *. apply andb_prop in Hl as [Hi Hl]. apply bind_inv in H as ([] & s1 & H1 & H).
  trans (dom (words s1)); [|by apply IH]. destruct i; cbn [exec_instr] in H1; try done; try (by injection H1 as <-).
  all: rewrite bind_get in H1; apply bind_inv in H1 as (pa & s2 & H1 & H2); unfold translate in H1; rewrite bind_get in H1; repeat case_match; try done; injection H1 as <- <-; injection H2 as <-; simpl; set_solver.
Qed.
Lemma run_code_dom s pc s' : run_code bare timervec s = Ok (pc, s') -> dom (words s) ⊆ dom (words s').
Proof. intros ([] & s1 & H1 & [= _ <-])%bind_inv. by apply exec_dom in H1. Qed.

Lemma entry_same stack0 s s' : exec_all bare (entry_ stack0) s = Ok (tt, s') -> cs s' = cs s /\ words s' = words s.
Proof. intros H. injection H as <-. done. Qed.

Section Start.
Context (main_addr timervec_addr ts stack0 : Z).

Definition scratch_of (id : Z) : Z := ts + 40 * id.

Definition timerinit : K mach unit :=
  id ← gets (fun s => int (cs s Mhartid));
  now ← load_word CLINT_MTIME;
  store_word (CLINT_MTIMECMP id) (uint64 (now + interval));;
  store_word (scratch_of id + 24) (CLINT_MTIMECMP id);;
  store_word (scratch_of id + 32) interval;;
  modify (set_cs Mscratch (scratch_of id));;
  modify (set_cs Mtvec timervec_addr);;
  modify (fun s => set_cs Mstatus (Z.lor (cs s Mstatus) MSTATUS_MIE) s);;
  modify (fun s => set_cs Mie (Z.lor (cs s Mie) MIE_MTIE) s).

(** The result is where [mret] goes on and the privilege mode that it enters. *)
Definition start : K mach (Z * Z) :=
  x ← gets (fun s => cs s Mstatus);
  modify (set_cs Mstatus (Z.lor (Z.land x (Z.lxor MSTATUS_MPP_MASK (2 ^ 64 - 1))) MSTATUS_MPP_S));;
  modify (set_cs Mepc main_addr);;
  modify (set_cs Satp 0);;
  modify (set_cs Medeleg 0xffff);;
  modify (set_cs Mideleg 0xffff);;
  modify (fun s => set_cs Sie (Z.lor (Z.lor (Z.lor (cs s Sie) SIE_SEIE) SIE_STIE) SIE_SSIE) s);;
  modify (set_cs Pmpaddr0 0x3fffffffffffff);;
  modify (set_cs Pmpcfg0 0xf);;
  timerinit;;
  modify (fun s => set_rg Tp (uint64 (int (cs s Mhartid))) s);;
  gets (fun s => (cs s Mepc, Z.land (Z.shiftr (cs s Mstatus) 11) 3)).
Definition boot : K mach (Z * Z) := exec_all bare (entry_ stack0);; start.

(** ** The memory that the timer interrupt of a hart uses *)

Definition area (h a : Z) : Prop := scratch_of h <= a < scratch_of h + 40 \/ a = CLINT_MTIMECMP h.
Record layout : Prop := {
  l_align : ts mod 8 = 0; l_low : 0 <= ts; l_high : ts + 40 * NCPU <= 2 ^ 64;
  l_apart : ts + 40 * NCPU <= CLINT \/ CLINT + 0x10000 <= ts;
}.
(** The words are there. *)
Definition present (h : Z) (m : gmap Z Z) : Prop := forall a, area h a -> a mod 8 = 0 -> is_Some (m !! a).
(** The timer of the hart goes off when the clock reaches [due]. *)
Definition armed (h due : Z) (s : mach) : Prop :=
  cs s Mscratch = scratch_of h /\ present h (words s) /\ words s !! (scratch_of h + 24) = Some (CLINT_MTIMECMP h) /\
  words s !! (scratch_of h + 32) = Some interval /\ words s !! CLINT_MTIMECMP h = Some due.

(** What happens on the machine as hart [h] sees it: timer interrupts on [h], which are counted, and anything else that leaves its area alone *)
Inductive runs (h : Z) (s : mach) : nat -> mach -> Prop :=
| runs_start : runs h s 0 s
| runs_other n s1 s2 : runs h s n s1 -> cs s2 Mscratch = cs s1 Mscratch -> (forall a, area h a -> words s2 !! a = words s1 !! a) -> runs h s n s2
| runs_timer n s1 pc s2 : runs h s n s1 -> run_code bare timervec s1 = Ok (pc, s2) -> runs h s (S n) s2.

Context (L : layout).

Lemma area_low h a : 0 <= h < NCPU -> area h a -> 0 <= a < 2 ^ 64.
Proof using L. destruct L as [_ L1 L2 _]. unfold NCPU, area, scratch_of, CLINT_MTIMECMP, CLINT in *. lia. Qed.
Lemma areas_apart h h' a : 0 <= h < NCPU -> 0 <= h' < NCPU -> h <> h' -> area h a -> ~ area h' a.
Proof using L. destruct L as [_ _ _ Hd]. unfold NCPU, area, scratch_of, CLINT_MTIMECMP, CLINT in *. lia. Qed.

Lemma timer_once h due s : 0 <= h < NCPU -> armed h due s ->
  exists s', run_code bare timervec s = Ok (cs s Mepc, s') /\ (forall r, r <> Zero -> rg s' r = rg s r) /\ cs s' Sip = 2 /\
    armed h (uint64 (due + interval)) s' /\ forall a, ~ area h a -> words s' !! a = words s !! a.
Proof using L.
  intros Hh (Hsc & Hp & Hc & Hi & Hd). pose proof L as [L0 L1 L2 L3]. unfold NCPU in *. set (c := CLINT_MTIMECMP h) in *. assert (Ec : c = 0x2004000 + 8 * h) by (unfold c, CLINT_MTIMECMP, CLINT; lia).
  assert (Hc8 : c mod 8 = 0) by (rewrite Ec; Z.div_mod_to_equations; lia). assert (Hs8 : scratch_of h mod 8 = 0) by (unfold scratch_of; Z.div_mod_to_equations; lia).
  assert (Hout : ~ (scratch_of h <= c < scratch_of h + 40)) by (unfold scratch_of, CLINT in *; lia).
  destruct (timervec_rearms s c due interval) as (s' & Hr & Hreg & Hw & Hsip & Hms & Hrest); rewrite ?Hsc; try done; try (unfold scratch_of; lia); try lia.
  { intros o Ho Ha. apply Hp; [left; lia|]. Z.div_mod_to_equations; lia. }
  exists s'. rewrite Hsc in Hms, Hrest. split_and!; [done..| |].
  - split_and!; [done| | | |done].
    + intros a Ha Ha8. destruct (decide (a ∈ [scratch_of h; scratch_of h + 8; scratch_of h + 16; c])) as [Hin|Hn]; [|rewrite Hrest by done; by apply Hp].
      destruct (decide (a = c)) as [->|Hac]; [by eexists|]. apply elem_of_dom. apply (run_code_dom _ _ _ Hr). apply elem_of_dom. by apply Hp.
    + rewrite Hrest; [done|]. rewrite !not_elem_of_cons. split_and!; [lia..|]. by intros ?%not_elem_of_nil.
    + rewrite Hrest; [done|]. rewrite !not_elem_of_cons. split_and!; [lia..|]. by intros ?%not_elem_of_nil.
  - intros a Ha. apply Hrest. unfold area in Ha. rewrite !not_elem_of_cons. split_and!; [lia..|]. by intros ?%not_elem_of_nil.
Qed.

Lemma runs_armed h due s n s' : 0 <= h < NCPU -> armed h due s -> runs h s n s' -> armed h (uint64 (due + Z.of_nat n * interval)) s' \/ (n = O /\ armed h due s').
Proof using L.
  intros Hh Ha Hr. induction Hr as [|n s1 s2 Hr IH Hms Hw|n s1 pc s2 Hr IH Hrun]; [by right| |].
  - assert (Hkeep : forall due', armed h due' s1 -> armed h due' s2).
    { intros due' (H1 & H2 & H3 & H4 & H5). unfold armed, present. rewrite Hms, (Hw (_ + 24)), (Hw (_ + 32)), (Hw (CLINT_MTIMECMP h)) by first [by right|left; lia]. split_and!; [done| |done..]. intros a Ha' H8. rewrite Hw by done. by apply H2. }
    destruct IH as [IH|[-> IH]]; [left|right; split; [done|]]; by apply Hkeep.
  - left. destruct IH as [IH|[-> IH]]; destruct (timer_once _ _ _ Hh IH) as (s2' & Hr2 & _ & _ & Ha2 & _); rewrite Hr2 in Hrun; injection Hrun as _ <-.
    + revert Ha2. unfold uint64. rewrite Zplus_mod_idemp_l. by replace (due + Z.of_nat n * interval + interval) with (due + Z.of_nat (S n) * interval) by (unfold interval; lia).
    + revert Ha2. by replace (due + Z.of_nat 1 * interval) with (due + interval) by (unfold interval; lia).
Qed.

Lemma load_word_ok a s v : 0 <= a < 2 ^ 64 -> a mod 8 = 0 -> words s !! a = Some v -> load_word a s = Ok (v, s).
Proof.
  intros Ha H8 Hv. unfold load_word, translate. rewrite (bind_ok _ _ _ a s); [unfold gets; by rewrite (lookup_total_correct _ _ _ Hv)|].
  rewrite bind_get. unfold bare, uint64. rewrite !(Z.mod_small a) by lia. by rewrite H8, Hv.
Qed.
Lemma store_word_ok a v s : 0 <= a < 2 ^ 64 -> a mod 8 = 0 -> is_Some (words s !! a) -> store_word a v s = Ok (tt, set_words (<[a := v]> (words s)) s).
Proof.
  intros Ha H8 [x Hx]. unfold store_word, translate. rewrite (bind_ok _ _ _ a s); [done|].
  rewrite bind_get. unfold bare, uint64. rewrite !(Z.mod_small a) by lia. by rewrite H8, Hx.
Qed.

Lemma timerinit_ok h now s : 0 <= h < NCPU -> cs s Mhartid = h -> present h (words s) -> words s !! CLINT_MTIME = Some now ->
  exists s', timerinit s = Ok (tt, s') /\ rg s' = rg s /\ armed h (uint64 (now + interval)) s' /\ cs s' Mtvec = timervec_addr /\
    cs s' Mstatus = Z.lor (cs s Mstatus) MSTATUS_MIE /\ cs s' Mie = Z.lor (cs s Mie) MIE_MTIE /\
    (forall c, c ∉ [Mscratch; Mtvec; Mstatus; Mie] -> cs s' c = cs s c) /\ (forall a, ~ area h a -> words s' !! a = words s !! a).
Proof using L.
  intros Hh Hid Hp Hnow. pose proof L as [L0 L1 L2 L3]. unfold NCPU in *. set (c := CLINT_MTIMECMP h) in *. assert (Ec : c = 0x2004000 + 8 * h) by (unfold c, CLINT_MTIMECMP, CLINT; lia).
  assert (Hc8 : c mod 8 = 0) by (rewrite Ec; Z.div_mod_to_equations; lia). set (sc := scratch_of h) in *. assert (Es : sc = ts + 40 * h) by done.
  assert (Hs8 : forall k, (sc + 8 * k) mod 8 = 0) by (intros k; rewrite Es; Z.div_mod_to_equations; lia). pose proof (Hs8 3) as Hs24. pose proof (Hs8 4) as Hs32. simpl in Hs24, Hs32.
  assert (Hout : ~ (sc <= c < sc + 40)) by (unfold CLINT in *; lia). assert (Ei : int h = h) by (apply int_small; lia).
  set (m := <[sc + 32 := interval]> (<[sc + 24 := c]> (<[c := uint64 (now + interval)]> (words s)))).
  assert (Hr24 : area h (sc + 24)) by (left; unfold sc; lia). assert (Hr32 : area h (sc + 32)) by (left; unfold sc; lia).
  eexists. split; [|split; [|split]].
  - unfold timerinit. rewrite bind_gets, Hid, Ei. rewrite (bind_ok _ _ _ _ _ (load_word_ok CLINT_MTIME s now ltac:(unfold CLINT_MTIME, CLINT; lia) eq_refl Hnow)). fold c sc.
    rewrite (bind_ok _ _ _ _ _ (store_word_ok c _ s ltac:(lia) Hc8 (Hp c (or_intror eq_refl) Hc8))).
    set (s1 := set_words _ s). rewrite (bind_ok _ _ _ _ _ (store_word_ok (sc + 24) c s1 ltac:(lia) Hs24 ltac:(by apply lookup_insert_is_Some'; right; apply Hp))).
    set (s2 := set_words _ s1). rewrite (bind_ok _ _ _ _ _ (store_word_ok (sc + 32) interval s2 ltac:(lia) Hs32 ltac:(by do 2 (apply lookup_insert_is_Some'; right); apply Hp))).
    unfold s2, s1. cbn [words set_words]. fold m. rewrite !bind_modify. reflexivity.
  - reflexivity.
  - unfold armed. cbn [words cs set_cs set_words]. fold sc c m. split_and!; [done| | | |].
    + intros a Ha H8. unfold m. do 3 (apply lookup_insert_is_Some'; right). by apply Hp.
    + unfold m. by rewrite lookup_insert_ne, lookup_insert_eq by lia.
    + unfold m. by rewrite lookup_insert_eq.
    + unfold m. by rewrite !lookup_insert_ne, lookup_insert_eq by lia.
  - split_and!; [done..| |].
    + intros r Hr. rewrite !not_elem_of_cons in Hr. destruct Hr as (? & ? & ? & ? & _). cbn [cs set_cs set_words]. by rewrite !decide_False by done.
    + intros a Ha. unfold area in Ha. fold sc c in Ha. cbn [words set_cs set_words]. unfold m. by rewrite !lookup_insert_ne by lia.
Qed.

Lemma mpp_supervisor x : Z.land (Z.shiftr (Z.lor (Z.lor (Z.land x (Z.lxor MSTATUS_MPP_MASK (2 ^ 64 - 1))) MSTATUS_MPP_S) MSTATUS_MIE) 11) 3 = 1.
Proof.
  rewrite !Z.shiftr_lor, Z.shiftr_land. change (Z.shiftr (Z.lxor MSTATUS_MPP_MASK (2 ^ 64 - 1)) 11) with (2 ^ 53 - 4). change (Z.shiftr MSTATUS_MPP_S 11) with 1. change (Z.shiftr MSTATUS_MIE 11) with 0.
  rewrite Z.lor_0_r, Z.land_lor_distr_l, <- Z.land_assoc. change (Z.land (2 ^ 53 - 4) 3) with 0. by rewrite Z.land_0_r.
Qed.

Lemma start_enters h now s : 0 <= h < NCPU -> cs s Mhartid = h -> present h (words s) -> words s !! CLINT_MTIME = Some now ->
  exists s', start s = Ok ((main_addr, 1), s') /\ rg s' Tp = h /\ rg s' Sp = rg s Sp /\ cs s' Satp = 0 /\ cs s' Mtvec = timervec_addr /\ Z.testbit (cs s' Mstatus) 3 = true /\ Z.testbit (cs s' Mie) 7 = true /\
    armed h (uint64 (now + interval)) s' /\ (forall a, ~ area h a -> words s' !! a = words s !! a).
Proof using L.
  intros Hh Hid Hp Hnow. unfold start. rewrite bind_gets. rewrite !bind_modify. set (s0 := set_cs Pmpcfg0 0xf _).
  destruct (timerinit_ok h now s0 Hh Hid Hp Hnow) as (s1 & H1 & Hrg & Ha & Htv & Hst & Hie & Hcs & Hw). rewrite (bind_ok _ _ _ _ _ H1), bind_modify. unfold gets.
  assert (Hm : cs s1 Mhartid = h) by (rewrite Hcs; [done|by apply (bool_decide_unpack _); vm_compute]).
  eexists. split; [|split_and!].
  - f_equal. f_equal. f_equal; cbn [cs set_rg].
    + rewrite Hcs by (by apply (bool_decide_unpack _); vm_compute). done.
    + rewrite Hst. apply mpp_supervisor.
  - rewrite rg_set_eq by done. rewrite Hm. unfold NCPU in *. rewrite int_small by lia. unfold uint64. by rewrite Z.mod_small by lia.
  - rewrite rg_set_ne by done. by rewrite Hrg.
  - cbn [cs set_rg]. rewrite Hcs by (by apply (bool_decide_unpack _); vm_compute). done.
  - exact Htv.
  - cbn [cs set_rg]. rewrite Hst, Z.lor_spec. by rewrite orb_true_r.
  - cbn [cs set_rg]. rewrite Hie, Z.lor_spec. by rewrite orb_true_r.
  - exact Ha.
  - exact Hw.
Qed.

(** C12: a hart that boots gets a stack of its own and enters [main] in supervisor mode with paging off, its number in [tp] and the timer armed; from then on, whatever else
    the machine does outside the words of this hart's timer, every timer interrupt runs through, gives all registers back, raises a software interrupt and sets the next
    one a fixed interval after the one before, and booting and timer interrupts touch nothing of the other harts' timers. *)
Theorem timer_ticks h now s : 0 <= h < NCPU -> cs s Mhartid = h -> present h (words s) -> words s !! CLINT_MTIME = Some now -> 0 <= stack0 -> stack0 + NCPU * 4096 < 2 ^ 64 ->
  exists s1, boot s = Ok ((main_addr, 1), s1) /\ rg s1 Tp = h /\ rg s1 Sp = stack0 + 4096 * (h + 1) /\ cs s1 Satp = 0 /\ cs s1 Mtvec = timervec_addr /\ Z.testbit (cs s1 Mstatus) 3 = true /\ Z.testbit (cs s1 Mie) 7 = true /\
    (forall h' a, 0 <= h' < NCPU -> h' <> h -> area h' a -> words s1 !! a = words s !! a) /\
    forall n s2, runs h s1 n s2 -> words s2 !! CLINT_MTIMECMP h = Some (uint64 (now + (Z.of_nat n + 1) * interval)) /\
      exists s3, run_code bare timervec s2 = Ok (cs s2 Mepc, s3) /\ (forall r, r <> Zero -> rg s3 r = rg s2 r) /\ cs s3 Sip = 2 /\
        forall h' a, 0 <= h' < NCPU -> h' <> h -> area h' a -> words s3 !! a = words s2 !! a.
Proof using L.
  intros Hh Hid Hp Hnow Hs0 Hs1. destruct (entry_stack stack0 s Hs0 ltac:(rewrite Hid; exact Hh) Hs1) as (s0 & H0 & Hsp). pose proof (entry_same _ _ _ H0) as [Hcs Hw].
  destruct (start_enters h now s0 Hh) as (s1 & H1 & Htp & Hsp1 & Hsatp & Htv & Hst & Hie & Ha & Hout); [by rewrite Hcs|by rewrite Hw|by rewrite Hw|].
  exists s1. split; [unfold boot; by rewrite (bind_ok _ _ _ _ _ H0)|]. rewrite Hsp1, Hsp, Hid. split_and!; [done..| |].
  { intros h' a Hh' Hne Ha'. rewrite Hout, Hw; [done|]. by apply (areas_apart h' h). }
  intros n s2 Hr. assert (Ha2 : armed h (uint64 (now + (Z.of_nat n + 1) * interval)) s2).
  { destruct (runs_armed _ _ _ _ _ Hh Ha Hr) as [H|[-> H]]; [|by replace (now + (Z.of_nat 0 + 1) * interval) with (now + interval) by lia].
    revert H. unfold uint64. rewrite Zplus_mod_idemp_l. by replace (now + interval + Z.of_nat n * interval) with (now + (Z.of_nat n + 1) * interval) by lia. }
  split; [apply Ha2|]. destruct (timer_once _ _ _ Hh Ha2) as (s3 & H3 & Hreg & Hsip & _ & Hrest). exists s3. split_and!; [done..|].
  intros h' a Hh' Hne Ha'. apply Hrest. by apply (areas_apart h' h).
Qed.
End Start.

(** Hart 1, with [timer_scratch] at 0x80010000 and the stacks at 0x80009000; the clock stands at 7. *)
Definition demo_words : gmap Z Z := list_to_map ((fun k => (0x80010000 + 40 + 8 * k, 0)) <$> seqZ 0 5) ∪ {[ 0x2004008 := 0; CLINT_MTIME := 7 ]}.
Lemma demo_layout : layout 0x80010000.
Proof. split; [done|lia|unfold NCPU; lia|right; unfold CLINT; lia]. Qed.
Lemma timer_ticks_witness : exists s1, boot 0x80000e00 0x80005000 0x80010000 0x80009000 (mk_mach (fun _ => 0) (fun _ => 1) demo_words) = Ok ((0x80000e00, 1), s1) /\ rg s1 Sp = 0x8000b000 /\
  words s1 !! 0x2004008 = Some 1000007.
Proof.
  destruct (timer_ticks 0x80000e00 0x80005000 0x80010000 0x80009000 demo_layout 1 7 (mk_mach (fun _ => 0) (fun _ => 1) demo_words)) as (s1 & H & _ & Hsp & _ & _ & _ & _ & _ & Hr).
  - done.
  - done.
  - intros a Ha Ha8. unfold area, scratch_of, CLINT_MTIMECMP, CLINT in Ha.
    assert (Hin : a ∈ [0x80010028; 0x80010030; 0x80010038; 0x80010040; 0x80010048; 0x2004008]) by (rewrite !elem_of_cons; Z.div_mod_to_equations; lia).
    repeat (apply elem_of_cons in Hin as [->|Hin]; [by eexists; vm_compute|]). by apply not_elem_of_nil in Hin.
  - by vm_compute.
  - lia.
  - done.
  - exists s1. split_and!; [exact H|exact Hsp|]. exact (proj1 (Hr 0%nat s1 (runs_start _ _ _))).
Defined.
