(* ===== verification/MkfsMount.v ===== *)
(** * The kernel mounts what mkfs makes

    The image of [MkfsSpec] on the disk of the kernel: the tree of [Lookup] is
    well formed on it, so that after the mount every file is found
    under its name and reads back. *)

From stdpp Require Import base numbers list list_numbers gmap strings.
From Stdlib Require Import ZArith Lia.
From S2P Require Import Prelude Params KString Mkfs MkfsProof MkfsImage MkfsSpec Path Sleeplock Virtio Bio Kmem Fsys Blocks BlocksProof Bmap Dinode FileData Trunc Vfs Dirs DirsProof VfsProof Kalloc Vm VmProof VmMap VmSpace VmCopy KmemVm FsDemo FsSpec Lookup.

(** ** Directory entries of mkfs, as the kernel reads them *)

Fixpoint entry_list (n : Z) (l : list MkfsSpec.file) : list (list Z) :=
  match l with [] => [] | f :: l => Mkfs.dirent n (file_name f) :: entry_list (n + 1) l end.
Lemma entries_concat n l : MkfsSpec.entries n l = concat (entry_list n l).
Proof. revert n. induction l as [|f l IH]; intros n; [done|]. simpl. by rewrite IH. Qed.
Lemma zlen_entry_list n l : zlen (entry_list n l) = zlen l.
Proof. revert n. induction l as [|f l IH]; intros n; [done|]. specialize (IH (n + 1)). unfold zlen in *. simpl. lia. Qed.
Lemma entry_list_len n l : Forall (fun d => zlen d = 16) (entry_list n l).
Proof. revert n. induction l as [|f l IH]; intros n; [apply Forall_nil_2|]. apply Forall_cons_2; [apply zlen_dirent|apply IH]. Qed.

Lemma cname_take_pad k l : Forall (fun c => c <> 0) l -> cname (take k (l ++ replicate k 0)) = take k l.
Proof.
  revert l. induction k as [|k IH]; intros l Hl; [done|]. destruct l as [|c l].
  - done.
  - apply Forall_cons in Hl as [Hc Hl]. cbn [app take cname]. rewrite (proj2 (Z.eqb_neq _ _)) by done. f_equal. rewrite <- (IH l Hl).
    rewrite <- (app_nil_r (replicate (S k) 0)), replicate_S_end, <- !app_assoc. f_equal. rewrite app_assoc, take_app_le; [done|]. rewrite length_app, length_replicate. lia.
Qed.
Lemma cname_chars l : Forall (fun c => c <> 0) l -> cname l = l.
Proof. induction 1 as [|c l Hc Hl IH]; [done|]. cbn [cname]. rewrite (proj2 (Z.eqb_neq _ _)) by done. by rewrite IH. Qed.

Lemma xshort_small n : 0 <= n < 2 ^ 16 -> xshort n = n.
Proof.
  intros H. unfold xshort, uchar. cbn [le_decode]. rewrite Z.shiftr_div_pow2 by lia. change (2 ^ 8) with 256.
  rewrite (Z.mod_small (n / 256)) by (split; [apply Z.div_pos; lia|apply Z.div_lt_upper_bound; lia]). pose proof (Z.div_mod n 256 ltac:(lia)). lia.
Qed.
Lemma dirent_split n name : exists a b, Mkfs.dirent n name = [a; b] ++ take 14 (name ++ replicate 14 0) /\ le_decode [a; b] = xshort n mod 2 ^ 16.
Proof.
  unfold Mkfs.dirent. pose proof (length_le_encode 2 (xshort n)) as Hl. pose proof (le_decode_encode 2 (xshort n)) as Hd.
  destruct (le_encode 2 (xshort n)) as [|a [|b [|? ?]]]; simpl in Hl; try lia. by exists a, b.
Qed.
Lemma de_inum_dirent n name : 0 <= n < 2 ^ 16 -> de_inum (Mkfs.dirent n name) = n.
Proof.
  intros Hn. destruct (dirent_split n name) as (a & b & -> & Hd). change (de_inum ([a; b] ++ _)) with (le_decode [a; b]). rewrite Hd, xshort_small by done.
  apply Z.mod_small. lia.
Qed.
Lemma de_name_dirent n name : de_name (Mkfs.dirent n name) = take 14 (name ++ replicate 14 0).
Proof.
  destruct (dirent_split n name) as (a & b & -> & _). generalize (name ++ replicate 14 0). intros l. change (take 14 (take 14 l) = take 14 l). by rewrite take_take.
Qed.

Definition no_nul (l : list Z) : Prop := Forall (fun c => c <> 0) l.
Lemma hit_dirent name n nm : 0 < n < 2 ^ 16 -> no_nul nm -> no_nul name -> hit name (Mkfs.dirent n nm) = bool_decide (name = take 14 nm).
Proof.
  intros Hn Hnm Hname. unfold hit. rewrite de_inum_dirent, de_name_dirent, cname_take_pad, cname_chars by (done || lia). rewrite (proj2 (Z.eqb_neq _ _)) by lia. done.
Qed.

Lemma entry_list_in de n l : de ∈ entry_list n l -> exists j f, l !! j = Some f /\ de = Mkfs.dirent (n + Z.of_nat j) (file_name f).
Proof.
  revert n. induction l as [|f l IH]; intros n; [by intros ?%not_elem_of_nil|]. intros [->|Hde]%elem_of_cons; [exists O, f; split; [done|]; by rewrite Z.add_0_r|].
  destruct (IH _ Hde) as (j & g & Hj & ->). exists (S j), g. split; [done|]. f_equal. lia.
Qed.
(** The first file with the name is the one that is found. *)
Lemma lfind_entry_list nm n l k f : Forall (fun f => no_nul (file_name f)) l -> no_nul nm -> 0 < n -> n + zlen l < 2 ^ 16 -> l !! k = Some f -> take 14 (file_name f) = nm ->
  (forall j g, (j < k)%nat -> l !! j = Some g -> take 14 (file_name g) <> nm) -> lfind nm (entry_list n l) = Some (n + Z.of_nat k).
Proof.
  revert n k. induction l as [|g l IH]; intros n k Hl Hnm Hn Hmax Hk Hf Hfirst; [done|]. apply Forall_cons in Hl as [Hg Hl]. assert (zlen (g :: l) = zlen l + 1) by (unfold zlen; simpl; lia). pose proof (zlen_nonneg l).
  cbn [entry_list lfind]. rewrite hit_dirent, de_inum_dirent by (done || lia). destruct k as [|k].
  - injection Hk as ->. rewrite bool_decide_true by done. f_equal. lia.
  - rewrite bool_decide_false by (intros E; by apply (Hfirst O g); [lia|done|]). rewrite (IH (n + 1) k); try done; try lia; [f_equal; lia|].
    intros j g' Hj Hg'. apply (Hfirst (S j) g'); [lia|done].
Qed.

(** ** The tree on the disk *)

Lemma super_ok {B : Type} `{BC : BufCache B, BL : !BufCacheLaws B} : FSSIZE <= bc_size -> sb_ok mk_super.
Proof. intros Hsize. split; [by vm_compute|exact Hsize|split; [by vm_compute|split; by vm_compute]|by vm_compute]. Qed.

Section Image.
Context {B M : Type} `{BC : BufCache B, BL : !BufCacheLaws B} `{KM : KMem M, KL : !KMemLaws M}.
Context (files : list MkfsSpec.file) (im : image) (Hmade : made files im).
Context (Hmax : zlen files + 2 <= NINODES) (Hcap : blocks_used files <= FSSIZE) (Hround : root_len files mod BSIZE <> 0).
Context (s : fsys B M) (Hsb : sb s = mk_super) (Hdisk : forall b, 0 <= b < FSSIZE -> blk s b = sects im !!! b) (Hinv : binv s []) (Hsize : FSSIZE <= bc_size).

Lemma blocks_used_meta : nmeta <= blocks_used files.
Proof using Type.
  unfold blocks_used. pose proof (files_nb_nonneg files). pose proof (zlen_nonneg files). pose proof (nb_nonneg (16 * (zlen files + 2)) ltac:(lia)). lia.
Qed.
Lemma image_inode i : 0 <= i < NINODES -> disk_inode s i = inode_at im i.
Proof using Hsb Hdisk.
  intros Hi. unfold disk_inode, inode_at. rewrite Hsb. fold (iblock i). pose proof (iblock_range i ltac:(unfold max_inodes, NINODES in *; lia)). rewrite Hdisk by (mkc; lia). done.
Qed.
Lemma image_used b : 0 <= b < FSSIZE -> BlocksProof.used s b = (b <? blocks_used files).
Proof using Hmade Hsb Hdisk Hsize.
  intros Hb. unfold BlocksProof.used, bit. rewrite Hsb. assert (E : BBLOCK b mk_super = 45).
  { rewrite (BBLOCK_eq _ _ (super_ok Hsize)) by (change (sb_size mk_super) with FSSIZE; done). rewrite Z.div_small; [done|]. unfold BPB. mkc. lia. }
  rewrite E, Hdisk by (mkc; lia). rewrite (Z.mod_small b) by (unfold BPB; mkc; lia). apply (md_bits _ _ Hmade). unfold BPB. mkc. lia.
Qed.
Lemma image_fs_ok : fs_ok s [].
Proof using Hmade Hsb Hdisk Hinv Hcap Hsize.
  split; [done|rewrite Hsb; by apply super_ok|]. intros b Hb. rewrite Hsb in Hb. change (meta_end mk_super) with 46 in Hb. rewrite image_used by (mkc; lia).
  apply Z.ltb_lt. pose proof blocks_used_meta. mkc. lia.
Qed.

Lemma image_allocated i : allocated s i -> 1 <= i < zlen files + 2.
Proof using Hmade Hsb Hdisk.
  intros [[Hi _] Ht]. rewrite Hsb in Hi. change (ninodes mk_super) with NINODES in Hi. rewrite image_inode in Ht by done.
  destruct (decide (1 <= i < zlen files + 2)) as [|Hn]; [done|]. destruct Ht. apply (md_rest _ _ Hmade); [unfold max_inodes, NINODES in *; lia|done].
Qed.
Lemma image_alloc i : 1 <= i < zlen files + 2 -> allocated s i.
Proof using Hmade Hmax Hsb Hdisk.
  intros Hi. split; [unfold inum_ok; rewrite Hsb; change (ninodes mk_super) with NINODES; split; [lia|by vm_compute]|]. rewrite image_inode by lia.
  destruct (decide (i = ROOTINO)) as [->|Hne]; [destruct (md_root _ _ Hmade) as (-> & _); done|]. unfold ROOTINO in Hne.
  destruct (lookup_lt_is_Some_2 files (Z.to_nat (i - 2))) as [f Hf]; [unfold zlen in Hi; lia|]. destruct (md_file _ _ Hmade _ _ Hf) as (Ht & _).
  replace (Z.of_nat (Z.to_nat (i - 2)) + 2) with i in Ht by lia. by rewrite Ht.
Qed.

Lemma image_iaddr i bn : 1 <= i < zlen files + 2 -> 0 <= bn < MAXFILE -> iaddr s (disk_xi s i) bn = MkfsProof.slot (sects im) (inode_at im i) bn.
Proof using Hmade Hmax Hcap Hsb Hdisk.
  intros Hi Hbn. unfold iaddr, indirect, disk_xi, MkfsProof.slot. rewrite image_inode by lia. cbn [addrs loaded_xi]. destruct (bn <? NDIRECT) eqn:E; [done|]. rewrite (proj2 (Z.eqb_neq bn MAXFILE)) by lia.
  destruct (Z.eqb_spec (znth (di_addrs (inode_at im i)) NDIRECT) 0) as [Ez|Ez]; [done|]. destruct (md_own _ _ Hmade) as [own Ho].
  destruct (Ho i MAXFILE Hi ltac:(mkc; lia)) as [Hr _]; rewrite slot_ind in *; [done|]. rewrite Hdisk; [done|]. mkc. lia.
Qed.
Lemma image_indirect i : 1 <= i < zlen files + 2 -> indirect (disk_xi s i) = MkfsProof.slot (sects im) (inode_at im i) MAXFILE.
Proof using Hmax Hsb Hdisk. intros Hi. rewrite slot_ind. unfold indirect, disk_xi. rewrite image_inode by lia. done. Qed.

Lemma image_data_block i k : 1 <= i < zlen files + 2 -> 0 <= k <= MAXFILE -> MkfsProof.slot (sects im) (inode_at im i) k <> 0 -> data_block s (MkfsProof.slot (sects im) (inode_at im i) k).
Proof using Hmade Hcap Hsb Hdisk Hsize.
  intros Hi Hk Hn. destruct (md_own _ _ Hmade) as [own Ho]. destruct (Ho i k Hi Hk Hn) as [Hr _]. split.
  - rewrite Hsb. change (meta_end mk_super) with nmeta. change (sb_size mk_super) with FSSIZE. lia.
  - rewrite image_used by (mkc; lia). apply Z.ltb_lt. lia.
Qed.

Lemma image_ino_ok i : 1 <= i < zlen files + 2 -> ino_ok s (disk_xi s i).
Proof using Hmade Hmax Hcap Hsb Hdisk Hsize.
  intros Hi. destruct (md_own _ _ Hmade) as [own Ho]. split.
  - done.
  - unfold disk_xi. rewrite image_inode by lia. cbn [addrs loaded_xi]. destruct (md_fields _ _ Hmade i Hi) as [(_ & _ & _ & _ & _ & Hl & _) _]. by rewrite Hl.
  - intros bn Hbn. rewrite image_iaddr by done. apply image_data_block; [done|lia].
  - rewrite image_indirect by done. apply image_data_block; [done|mkc; lia].
  - intros bn bn' Hbn Hbn'. rewrite !image_iaddr by done. intros Hn E. destruct (Ho i bn Hi ltac:(lia) Hn) as [_ E1]. rewrite E in Hn. destruct (Ho i bn' Hi ltac:(lia) Hn) as [_ E2]. congruence.
  - intros bn Hbn. rewrite image_indirect, image_iaddr by done. intros Hn E. destruct (Ho i MAXFILE Hi ltac:(mkc; lia) Hn) as [_ E2]. rewrite <- E in Hn. destruct (Ho i bn Hi ltac:(lia) Hn) as [_ E1].
    rewrite E in E1. assert (bn = MAXFILE) by congruence. lia.
Qed.

Lemma image_size i : 1 <= i < zlen files + 2 -> forall bn, 0 <= bn -> bn * BSIZE < di_size (inode_at im i) -> 0 <= bn < MAXFILE /\ MkfsProof.slot (sects im) (inode_at im i) bn <> 0.
Proof using Hmade Hmax Hround.
  intros Hi bn Hb Hlt. destruct (md_fields _ _ Hmade i Hi) as [_ Hsz]. assert (Hbn : 0 <= bn < MAXFILE) by (mkc; lia). split; [done|].
  apply (md_slots _ _ Hmade i bn Hi ltac:(lia)). unfold MkfsProof.used, stored_len. rewrite (proj2 (Z.eqb_neq bn MAXFILE)) by lia. case_decide as E; [|done]. subst i.
  destruct (md_root _ _ Hmade) as (_ & _ & Er & _). rewrite Er in Hlt. pose proof (Z.div_mod (root_len files) BSIZE ltac:(mkc; lia)). pose proof (Z.mod_pos_bound (root_len files) BSIZE ltac:(mkc; lia)).
  assert (bn <= root_len files / BSIZE) by (mkc; lia). mkc. lia.
Qed.
Lemma image_fbyte i x : 1 <= i < zlen files + 2 -> 0 <= x < di_size (inode_at im i) -> fbyte s (disk_xi s i) x = MkfsProof.fbyte (sects im) (inode_at im i) x.
Proof using Hmade Hmax Hcap Hround Hsb Hdisk.
  intros Hi Hx. unfold fbyte, MkfsProof.fbyte. destruct (image_size i Hi (x / BSIZE)) as [Hr Hn]; [apply Z.div_pos; mkc; lia|pose proof (Z.mul_div_le x BSIZE ltac:(mkc; lia)); lia|].
  rewrite image_iaddr by done. rewrite Hdisk; [done|]. destruct (md_own _ _ Hmade) as [own Ho]. destruct (Ho i (x / BSIZE) Hi ltac:(lia) Hn). mkc. lia.
Qed.

Lemma fbytes_app (t : fsys B M) xi off a b : 0 <= a -> 0 <= b -> fbytes t xi off (a + b) = fbytes t xi off a ++ fbytes t xi (off + a) b.
Proof using Type.
  intros Ha Hb. unfold fbytes. rewrite (seqZ_app _ a b) by lia. rewrite fmap_app. f_equal. 
  replace (seqZ (0 + a) b) with (Z.add a <$> seqZ 0 b) by (rewrite fmap_add_seqZ; f_equal; lia). rewrite <- list_fmap_compose.
  apply list_fmap_ext. intros i x _. unfold compose. f_equal. lia.
Qed.
Lemma dirents_concat (t : fsys B M) xi L k : Forall (fun l => zlen l = 16) L -> fbytes t xi (16 * k) (16 * zlen L) = concat L -> DirsProof.dirent t xi <$> seqZ k (zlen L) = L.
Proof using Type.
  revert k. induction L as [|l L IH]; intros k Hl Hb; [done|]. apply Forall_cons in Hl as [Hl HL]. assert (Ez : zlen (l :: L) = 1 + zlen L) by (unfold zlen; simpl; lia). pose proof (zlen_nonneg L).
  rewrite Ez in *. replace (16 * (1 + zlen L)) with (16 + 16 * zlen L) in Hb by lia. rewrite fbytes_app in Hb by lia. cbn [concat] in Hb.
  apply app_inj_1 in Hb as [H1 H2]; [|apply Nat2Z.inj; change (Z.of_nat (length ?x)) with (zlen x); rewrite zlen_fbytes; lia].
  rewrite seqZ_cons by lia. cbn [fmap list_fmap]. f_equal; [exact H1|]. replace (Z.pred (1 + zlen L)) with (zlen L) by lia. apply IH; [done|]. by replace (16 * Z.succ k) with (16 * k + 16) by lia.
Qed.

Definition root_list : list (list Z) := [Mkfs.dirent ROOTINO [46]; Mkfs.dirent ROOTINO [46; 46]] ++ entry_list 2 files.
Lemma zlen_root_list : zlen root_list = zlen files + 2.
Proof using Type. unfold root_list. rewrite zlen_app, zlen_entry_list. change (zlen [_; _]) with 2. lia. Qed.
Lemma root_list_len : Forall (fun l => zlen l = 16) root_list.
Proof using Type.
  unfold root_list. apply Forall_app. split; [by repeat (apply Forall_cons_2; [apply zlen_dirent|])|apply entry_list_len].
Qed.

Lemma root_room : exists m, 0 <= m /\ di_size (inode_at im ROOTINO) = root_len files + 16 * m.
Proof using Hmade Hround.
  destruct (md_root _ _ Hmade) as (_ & _ & -> & _). exists ((root_len files / BSIZE + 1) * 64 - (zlen files + 2)). pose proof (Z.div_mod (root_len files) BSIZE ltac:(mkc; lia)).
  pose proof (Z.mod_pos_bound (root_len files) BSIZE ltac:(mkc; lia)). unfold root_len in *. mkc. lia.
Qed.
Lemma image_root_entries : exists m, disk_entries s ROOTINO = root_list ++ replicate m (replicate 16 0).
Proof using Hmade Hmax Hcap Hround Hsb Hdisk.
  pose proof (zlen_nonneg files) as Hz. assert (H1 : 1 <= ROOTINO < zlen files + 2) by (unfold ROOTINO; lia).
  destruct root_room as (m & Hm & Em). unfold disk_entries. rewrite image_inode by lia. rewrite Em. unfold root_len. replace (16 * (zlen files + 2) + 16 * m) with ((zlen files + 2 + m) * 16) by lia.
  rewrite Z.div_mul by lia. exists (Z.to_nat m). rewrite seqZ_app by lia. rewrite fmap_app. destruct (md_root _ _ Hmade) as (_ & _ & _ & Hb & Hzero). f_equal.
  - rewrite <- zlen_root_list. apply dirents_concat; [apply root_list_len|]. rewrite zlen_root_list. change (16 * 0) with 0. transitivity (MkfsProof.fbyte (sects im) (inode_at im ROOTINO) <$> seqZ 0 (root_len files)).
    + unfold fbytes, root_len. apply list_fmap_ext. intros i x Hx%list_elem_of_lookup_2. apply elem_of_seqZ in Hx. rewrite Z.add_0_l. apply image_fbyte; [done|]. rewrite Em. unfold root_len. lia.
    + rewrite Hb, entries_concat. done.
  - symmetry. apply replicate_as_elem_of. rewrite length_fmap, length_seqZ. split; [lia|]. intros d (k & -> & Hk%elem_of_seqZ)%list_elem_of_fmap. symmetry. apply replicate_as_elem_of. unfold DirsProof.dirent, fbytes.
    rewrite length_fmap, length_seqZ. split; [done|]. intros x (i & -> & Hi%elem_of_seqZ)%list_elem_of_fmap. rewrite image_fbyte by (rewrite ?Em; unfold root_len; lia).
    apply Hzero; rewrite ?Em; unfold root_len; [lia|]. apply (image_size ROOTINO H1); [apply Z.div_pos; mkc; lia|]. rewrite Em. unfold root_len. pose proof (Z.mul_div_le (16 * k + i) BSIZE ltac:(mkc; lia)). lia.
Qed.

Lemma root_entry_alloc de : de ∈ root_list -> 1 <= de_inum de < zlen files + 2.
Proof using Hmax.
  pose proof (zlen_nonneg files). unfold root_list, NINODES in *. rewrite elem_of_app, !elem_of_cons. intros [[->|[->|?%not_elem_of_nil]]|Hde]; [| |done|].
  1-2: rewrite de_inum_dirent; unfold ROOTINO; lia.
  destruct (entry_list_in _ _ _ Hde) as (j & f & Hj & ->). apply lookup_lt_Some in Hj. rewrite de_inum_dirent; unfold zlen in *; lia.
Qed.
Lemma image_disk_ok i : allocated s i -> disk_ok s i.
Proof using Hmade Hmax Hcap Hround Hsb Hdisk Hsize.
  intros Ha. pose proof (image_allocated i Ha) as Hi. destruct (md_fields _ _ Hmade i Hi) as [_ Hsz]. split; rewrite ?image_inode by lia.
  - by apply image_ino_ok.
  - done.
  - intros bn Hb Hlt. destruct (image_size i Hi bn Hb Hlt) as [Hr Hn]. by rewrite image_iaddr.
  - destruct (decide (i = ROOTINO)) as [->|Hne]; [destruct (md_root _ _ Hmade) as (_ & -> & _); lia|]. unfold ROOTINO in Hne.
    destruct (lookup_lt_is_Some_2 files (Z.to_nat (i - 2))) as [f Hf]; [unfold zlen in Hi; lia|]. destruct (md_file _ _ Hmade _ _ Hf) as (_ & Hl & _).
    replace (Z.of_nat (Z.to_nat (i - 2)) + 2) with i in Hl by lia. lia.
  - intros Ht. assert (i = ROOTINO) as ->.
    { destruct (decide (i = ROOTINO)) as [|Hne]; [done|]. unfold ROOTINO in Hne. destruct (lookup_lt_is_Some_2 files (Z.to_nat (i - 2))) as [f Hf]; [unfold zlen in Hi; lia|].
      destruct (md_file _ _ Hmade _ _ Hf) as (Ht' & _). replace (Z.of_nat (Z.to_nat (i - 2)) + 2) with i in Ht' by lia. rewrite Ht in Ht'. done. }
    destruct root_room as (m & _ & ->). split; [unfold root_len; rewrite <- Z.mul_add_distr_l, Z.mul_comm; by apply Z.mod_mul|].
    destruct image_root_entries as (m' & ->). intros de [Hde|Hde]%elem_of_app Hn; [by apply image_alloc, root_entry_alloc|]. apply elem_of_replicate in Hde as [-> _]. done.
Qed.

Lemma image_walk k f : files !! k = Some f -> Forall (fun f => no_nul (file_name f)) files -> take 14 (file_name f) <> [46] -> take 14 (file_name f) <> [46; 46] ->
  (forall j g, (j < k)%nat -> files !! j = Some g -> take 14 (file_name g) <> take 14 (file_name f)) ->
  disk_walk s ROOTINO [take 14 (file_name f)] = Some (Z.of_nat k + 2).
Proof using Hmade Hmax Hcap Hround Hsb Hdisk.
  intros Hk Hn H1 H2 Hfirst. pose proof (zlen_nonneg files). assert (Hnf : no_nul (take 14 (file_name f))) by (apply Forall_take; by apply (Forall_lookup_1 _ _ _ _ Hn Hk)).
  cbn [disk_walk]. rewrite image_inode by (unfold ROOTINO, NINODES in *; lia). destruct (md_root _ _ Hmade) as (-> & _). change (T_DIR =? T_DIR) with true. cbv iota.
  destruct image_root_entries as (m & ->). unfold root_list. rewrite <- app_assoc. cbn [app lfind]. rewrite !hit_dirent by (done || by repeat constructor).
  rewrite !bool_decide_false by (cbn; done). rewrite lfind_app, (lfind_entry_list _ _ _ k f); try done; [|unfold NINODES in *; lia]. f_equal. lia.
Qed.
End Image.

(** ** The mount *)

Section Mount.
Context {B M : Type} `{BC : BufCache B, BL : !BufCacheLaws B} `{KM : KMem M, KL : !KMemLaws M}.
Implicit Types s : fsys B M.

Definition free_inode : inode := mk_inode false false 0 0 (mk_sleeplock 0 0) 0 0 0 0 0.
(** The file system's part of booting: [iinit] in [main], [namei] in [userinit], and [fsinit] in the first process. *)
Definition boot_fs : K (fsys B M) unit := iinit;; ip ← namei [slash]; modify (set_cwd ip);; fsinit.
(** The machine before: the image is on the disk, the buffer cache is ready, the inode table is empty, and there is some memory. *)
Record unbooted (im : image) s : Prop := {
  un_cache : binv s [];
  un_disk : forall b, 0 <= b < FSSIZE -> blk s b = sects im !!! b;
  un_table : itable s = replicate (Z.to_nat NINODE) free_inode;
  un_mem : km_inv (mm s) /\ km_avail (mm s) 4;
  un_size : FSSIZE <= bc_size;
}.

Definition root_slot : inode := mk_inode false false ROOTINO 1 (mk_sleeplock 0 0) 0 ROOTDEV 0 0 0.
Definition rest_slots : list inode := replicate 49 free_inode.

Lemma first_namei {A} s (k : option Z -> K (fsys B M) A) : itable s = replicate (Z.to_nat NINODE) free_inode ->
  (iinit;; ip ← namei [slash]; k ip) s = k (Some 0) (set_itable (fun _ => root_slot :: rest_slots) s).
Proof using Type. destruct s as [b m sb it dt hp ft cw fs pd]. cbn [itable]. intros ->. reflexivity. Qed.

Lemma readsb_ok s : binv s [] -> FSSIZE <= bc_size -> exists b, readsb ROOTDEV s = Ok (tt, set_bc b (set_sb (decode_sb (blk s 1)) s)) /\
  let s' := set_bc b (set_sb (decode_sb (blk s 1)) s) in binv s' [] /\ forall n, blk s' n = blk s n.
Proof using Type.
  intros Hi Hsz. destruct (bread_spec s [] 1 Hi ltac:(done) ltac:(unfold FSSIZE in Hsz; lia) ltac:(by apply not_elem_of_nil)) as (p & s1 & He & [[b ->] _] & Hi1 & _ & Hd & Hb).
  set (s2 := set_sb (decode_sb (blk s 1)) (set_bc b s)).
  destruct (brelse_spec s2 [] p 1 Hi1) as (s3 & He3 & [[b3 E3] _] & Hi3 & Hb3); [change (bc_data b p = blk (set_bc b s) 1); by rewrite Hb|].
  exists b3. assert (E : s3 = set_bc b3 (set_sb (decode_sb (blk s 1)) s)) by (rewrite E3; unfold s2; fsys_ext). rewrite <- E. split; [|split; [done|intros n; rewrite Hb3; apply Hb]].
  unfold readsb. kstep He. unfold bp_data. ksimpl. rewrite Hd. exact He3.
Qed.

(** The state after the mount: the root directory is entry 0 of the inode table. *)
Record booted (im : image) s : Prop := {
  bt_inv : binv s [];
  bt_disk : forall b, 0 <= b < FSSIZE -> blk s b = sects im !!! b;
  bt_sb : sb s = decode_sb (sects im !!! 1);
  bt_table : exists p, p <> 0 /\ km_live (mm s) p /\
    itable s = set_i_op true (loaded (disk_inode s ROOTINO) ROOTDEV p root_slot) :: rest_slots /\ heap s !! p = Some (HInode (loaded_xi (disk_inode s ROOTINO) ROOTDEV));
  bt_cwd : cwd s = Some 0;
  bt_mem : km_inv (mm s) /\ km_avail (mm s) 2;
  bt_size : FSSIZE <= bc_size;
}.

Lemma boot_ok im s : unbooted im s -> magic (decode_sb (sects im !!! 1)) = FSMAGIC -> sb_ok (decode_sb (sects im !!! 1)) -> inum_ok (decode_sb (sects im !!! 1)) ROOTINO ->
  (forall t : fsys B M, sb t = decode_sb (sects im !!! 1) -> (forall b, 0 <= b < FSSIZE -> blk t b = sects im !!! b) -> binv t [] -> fs_ok t []) ->
  exists s', boot_fs s = Ok (tt, s') /\ booted im s'.
Proof using Type.
  intros [Hi Hd Ht [Hm Hav] Hsz] Hmagic Hsbok Hnum Hfs. unfold boot_fs. rewrite (first_namei s _ Ht). ksimpl. unfold fsinit, xv6fs_fsinit.
  set (s1 := set_cwd (Some 0) (set_itable (fun _ => root_slot :: rest_slots) s)). destruct (readsb_ok s1 Hi Hsz) as (b & He & Hi2 & Hb2). change (blk s1 1) with (blk s 1) in *. rewrite Hd in * by (mkc; lia).
  set (s2 := set_bc b (set_sb (decode_sb (sects im !!! 1)) s1)) in *. rewrite (bind_ok _ _ s1 tt s2); [|kstep He; ksimpl; change (sb s2) with (decode_sb (sects im !!! 1)); by rewrite Hmagic].
  assert (Hd2 : forall b, 0 <= b < FSSIZE -> blk s2 b = sects im !!! b) by (intros b' Hb'; rewrite Hb2; by apply Hd). pose proof (Hfs s2 eq_refl Hd2 Hi2) as Hok2.
  unfold xv6fs_mount. destruct (km_kalloc_ok _ Hm) as (p & m & Hk & Hm2 & _ & _ & _ & Hav2). destruct (Hav2 3%nat Hav) as [Hp0 Hav3].
  set (s3 := set_mm m s2). rewrite (bind_ok _ _ s2 p s3) by (unfold on_mm; by apply zoom_ok). rewrite (proj2 (Z.eqb_neq _ _)) by done.
  set (s4 := set_itable (fun _ => set_ref 2 root_slot :: rest_slots) s3). assert (E4 : iget ROOTDEV ROOTINO s3 = Ok (0, s4)) by reflexivity.
  assert (Hok4 : fs_ok s4 []) by (apply fs_ok_itable; by destruct Hok2; split).
  destruct (load_inode_ok s4 0 ROOTINO Hok4 Hm2 ltac:(by do 2 apply km_avail_le) ltac:(by vm_compute) Hnum) as (q & s5 & He5 & Hok5 & Hm5 & _ & Hb5 & Hq0 & b5 & m5 & E5 & Hl5 & Hav5).
  set (s6 := set_itable (alter (set_i_op true) (Z.to_nat 0)) s5). exists s6. split.
  - unfold xv6fs_geti. rewrite (bind_ok _ _ s3 0 s5); [reflexivity|]. kstep E4. ksimpl. change (private (geti s4 0) =? 0) with true. cbv iota. kstep He5. done.
  - assert (Ed : disk_inode s6 ROOTINO = disk_inode s4 ROOTINO) by (unfold disk_inode; change (blk s6) with (blk s5); rewrite Hb5; change (sb s6) with (sb s5); by rewrite E5).
    split; [apply Hok5|intros n Hn; change (blk s6 n) with (blk s5 n); rewrite Hb5; by apply Hd2|by unfold s6; rewrite E5| |by unfold s6; rewrite E5| |exact Hsz].
    + exists q. rewrite Ed. split; [done|]. unfold s6. rewrite E5. split; [apply Hl5; by left|]. split; [reflexivity|apply lookup_insert_eq].
    + split; [done|]. unfold s6. rewrite E5. by apply Hav5.
Qed.

Lemma booted_geti im s j : booted im s -> in_table s j -> j <> 0 -> geti s j = free_inode.
Proof using Type.
  intros [_ _ _ (p & _ & _ & Et & _) _ _ _] Hj Hne. unfold in_table, geti in *. rewrite Et in *. replace (Z.to_nat j) with (S (Z.to_nat (j - 1))) by lia. apply (lookup_total_replicate_2 49).
  unfold zlen, rest_slots in Hj. cbn [length] in Hj. rewrite length_replicate in Hj. lia.
Qed.
Lemma booted_used im s j : booted im s -> used_slot s j -> j = 0.
Proof using Type.
  intros Hb [Hj Hl]. destruct (decide (j = 0)) as [|Hne]; [done|]. rewrite (booted_geti im s j Hb Hj Hne) in Hl. unfold live in Hl. simpl in Hl. lia.
Qed.

Context (files : list MkfsSpec.file) (im : image) (Hmade : made files im).
Context (Hmax : zlen files + 2 <= NINODES) (Hcap : blocks_used files <= FSSIZE) (Hround : root_len files mod BSIZE <> 0).

Lemma booted_sb s : booted im s -> sb s = mk_super.
Proof using Hmade. intros Hb. rewrite (bt_sb _ _ Hb). apply (md_sb _ _ Hmade). Qed.
Lemma booted_tree s : booted im s -> tree_ok s None.
Proof using Hmade Hmax Hcap Hround.
  intros Hb. pose proof (booted_sb s Hb) as Hsb. pose proof (bt_disk _ _ Hb) as Hd. pose proof (bt_inv _ _ Hb) as Hi. pose proof Hb as [_ _ _ (p & Hp0 & Hpl & Et & Hh) _ [Hm _] Hsz]. split.
  - by apply (image_fs_ok files im).
  - done.
  - assert (Hl : forall j i, itable s !! j = Some i -> live i -> j = O).
    { intros j i Hj Hl. rewrite Et in Hj. destruct j as [|j]; [done|]. change (rest_slots !! j = Some i) in Hj. apply lookup_replicate in Hj as [-> _]. unfold live in Hl. simpl in Hl. lia. }
    split; [|intros j j' i i' Hj Hj' L L' _ _; by rewrite (Hl _ _ Hj L), (Hl _ _ Hj' L')]. intros j i Hj. rewrite Et in Hj. destruct j as [|j]; [by injection Hj as <-|]. change (rest_slots !! j = Some i) in Hj. by apply lookup_replicate in Hj as [-> _].
  - intros num Ha. by apply (image_disk_ok files im).
  - intros j Hj. rewrite (booted_used im s j Hb Hj). assert (E0 : geti s 0 = set_i_op true (loaded (disk_inode s ROOTINO) ROOTDEV p root_slot)) by (unfold geti; by rewrite Et). rewrite E0.
    split; try done; [apply (image_alloc files im Hmade Hmax s Hsb Hd); pose proof (zlen_nonneg files); cbn; unfold ROOTINO; lia|].
    exists (loaded_xi (disk_inode s ROOTINO) ROOTDEV). split; [done|]. split; [done|]. apply dinode_loaded.
  - intros j k Hj Hk _. by rewrite (booted_used im s j Hb Hj), (booted_used im s k Hb Hk).
  - intros j Hj. rewrite decide_False by done. destruct (decide (j = 0)) as [->|Hne]; [unfold geti; by rewrite Et|]. by rewrite (booted_geti im s j Hb Hj Hne).
Qed.
End Mount.

Lemma path_elems_file nm : slash ∉ nm -> nm <> [] -> path_elems (slash :: nm) = [nm].
Proof.
  intros Hs Hne. assert (E : split_slash nm = [nm]).
  { clear Hne. induction nm as [|c nm IH]; [done|]. apply not_elem_of_cons in Hs as [Hc Hs]. cbn [split_slash]. rewrite (proj2 (Z.eqb_neq _ _)) by done. by rewrite IH. }
  unfold path_elems. cbn [split_slash]. change (slash =? slash) with true. cbv iota. rewrite E. cbn. by destruct nm.
Qed.
Lemma file_name_slash f : slash_byte ∉ shortname (fst f) -> slash ∉ file_name f.
Proof. unfold file_name, skip_underscore. destruct (shortname (fst f)) as [|c l]; [done|]. destruct (c =? 95); [|done]. rewrite not_elem_of_cons. tauto. Qed.
Lemma znth_content m d k : 0 <= k < di_size d -> znth (content m d) k = MkfsProof.fbyte m d k.
Proof.
  intros Hk. unfold content, znth. rewrite list_lookup_total_alt, list_lookup_fmap, lookup_seqZ_lt by lia. simpl. f_equal. lia.
Qed.

Section Boots.
Context {B M : Type} `{BC : BufCache B, BL : !BufCacheLaws B} `{KM : KMem M, KL : !KMemLaws M}.

Lemma content_fbytes files im (s s' : fsys B M) i xi off n : made files im -> zlen files + 2 <= NINODES -> blocks_used files <= FSSIZE -> root_len files mod BSIZE <> 0 ->
  booted im s -> disk_same s s' -> 1 <= i < zlen files + 2 -> addrs xi = di_addrs (inode_at im i) -> 0 <= off -> 0 <= n -> off + n <= di_size (inode_at im i) ->
  fbytes s' xi off n = sub (content (sects im) (inode_at im i)) off n.
Proof using Type.
  intros Hmade Hmax Hcap Hround Hb [Hu _] Hi Hx Ho Hn Hsz. pose proof (booted_sb files im Hmade s Hb) as Hsb. pose proof (bt_disk _ _ Hb) as Hd. pose proof (bt_inv _ _ Hb) as Hinv.
  pose proof (image_fs_ok files im Hmade Hcap s Hsb Hd Hinv (bt_size _ _ Hb)) as Hok. pose proof (image_ino_ok files im Hmade Hmax Hcap s Hsb Hd (bt_size _ _ Hb) i Hi) as Hino. destruct (md_fields _ _ Hmade i Hi) as [_ Hr].
  rewrite (fbytes_addrs s' xi (disk_xi s i)) by (rewrite Hx; unfold disk_xi; by rewrite (image_inode im s Hsb Hd) by lia).
  apply znth_ext; [rewrite zlen_fbytes, zlen_sub; [done|done|done|unfold content, zlen; rewrite length_fmap, length_seqZ; lia|done]|].
  rewrite zlen_fbytes by done. intros k Hk. rewrite znth_fbytes, znth_sub by done. rewrite znth_content by lia.
  rewrite (upper_fbyte s s' [] Hok Hu (disk_xi s i) Hino).
  - apply (image_fbyte files im Hmade Hmax Hcap Hround s Hsb Hd); [done|lia].
  - lia.
  - destruct (image_size files im Hmade Hmax Hround i Hi ((off + k) / BSIZE)) as [Hb1 Hb2]; [apply Z.div_pos; mkc; lia|pose proof (Z.mul_div_le (off + k) BSIZE ltac:(mkc; lia)); lia|].
    by rewrite (image_iaddr files im Hmade Hmax Hcap s Hsb Hd).
Qed.
End Boots.

(** ** From mkfs to a file that is read

    The programs of the image tool and of the kernel end to end: mkfs makes an
    image, the kernel mounts it, and [namei] and [xv6fs_readi] find every file and its bytes. *)

(** The name of the file is not empty, is not taken by the directory itself or by an earlier file, also when cut to [DIRSIZ] bytes. *)
Definition findable (files : list MkfsSpec.file) (k : nat) (f : MkfsSpec.file) : Prop :=
  file_name f <> [] /\ take 14 (file_name f) <> [46] /\ take 14 (file_name f) <> [46; 46] /\
  forall j g, (j < k)%nat -> files !! j = Some g -> take 14 (file_name g) <> take 14 (file_name f).

Lemma file_name_chars f : bytes_ok (fst f) -> no_nul (fst f) -> Forall (fun c => 0 < c < 256) (file_name f).
Proof.
  intros Hb Hn. assert (H : Forall (fun c => 0 < c < 256) (fst f)).
  { apply Forall_forall. intros c Hc. pose proof (proj1 (Forall_forall _ _) Hb c Hc) as H1. pose proof (proj1 (Forall_forall _ _) Hn c Hc) as H2. unfold byte_ok in H1. simpl in *. lia. }
  assert (Hs : Forall (fun c => 0 < c < 256) (shortname (fst f))) by (unfold shortname; case_decide; [by apply Forall_drop|done]).
  unfold file_name, skip_underscore. destruct (shortname (fst f)) as [|c l]; [done|]. destruct (c =? 95); [by apply Forall_cons in Hs as [_ ?]|done].
Qed.

Section Boot.
Context {B M : Type} `{BC : BufCache B, BL : !BufCacheLaws B} `{KM : KMem M, KL : !KMemLaws M}.
Context (files : list MkfsSpec.file) (im : image) (Hmade : made files im) (Hfit : Forall file_fits files) (Hnul : Forall (fun f => no_nul (fst f)) files).
Context (Hmax : zlen files + 2 <= NINODES) (Hcap : blocks_used files <= FSSIZE) (Hround : root_len files mod BSIZE <> 0).

Lemma booted_namei (s : fsys B M) k f : booted im s -> files !! k = Some f -> findable files k f ->
  exists ip s', namei (slash :: file_name f) s = Ok (Some ip, s') /\ tree_ok s' None /\ used_slot s' ip /\ disk_same s s' /\ inum (geti s' ip) = Z.of_nat k + 2.
Proof using Hmade Hfit Hnul Hmax Hcap Hround.
  intros Hb Hk (Hne & H1 & H2 & Hfirst). pose proof (booted_tree files im Hmade Hmax Hcap Hround s Hb) as Ht. pose proof Hb as [_ Hd _ (p & _ & _ & Et & _) Hcwd [_ Hav]].
  pose proof (Forall_lookup_1 _ _ _ _ Hfit Hk) as (Hsl & Hby & _). pose proof (Forall_lookup_1 _ _ _ _ Hnul Hk) as Hn. pose proof (file_name_chars f Hby Hn) as Hch.
  assert (Hin : forall j, 0 <= j < 50 -> in_table s j) by (intros j Hj; unfold in_table; by rewrite Et). assert (Hu : used_slot s 0) by (split; [by apply Hin|unfold live, geti; by rewrite Et]).
  assert (Ep : path_elems (slash :: file_name f) = [file_name f]) by (apply path_elems_file; [by apply file_name_slash|done]).
  destruct (namex_ok s 0 0 (slash :: file_name f) Ht) with (parent := false) (name := replicate 14 0) as (r & name' & s' & He & Hr & _).
  - intros j Hj. destruct (decide (j = 0)) as [->|Hj0]; [unfold geti; by rewrite Et|]. by rewrite (booted_geti im s j Hb Hj Hj0).
  - split; [done|]. unfold geti. by rewrite Et.
  - done.
  - exists 1, 2. split; [done|]. assert (Hg : forall j, 0 < j < 50 -> geti s j = free_inode) by (intros j Hj; apply (booted_geti im s j Hb); [apply Hin; lia|lia]). rewrite !Hg by lia. split_and!; [by apply Hin..|done|done].
  - apply Forall_cons_2; [unfold slash; lia|done].
  - by rewrite Ep.
  - split; [done|]. apply bytes_ok_replicate. unfold byte_ok. lia.
  - rewrite disk_namex_walk, Ep in Hr. change (start_inum s 0 (slash :: file_name f)) with ROOTINO in Hr. cbn [fmap list_fmap] in Hr.
    rewrite (image_walk files im Hmade Hmax Hcap Hround s (booted_sb files im Hmade s Hb) Hd k f) in Hr; try done.
    2:{ eapply Forall_impl; [|]. 1: apply Forall_and; split; [exact Hfit|exact Hnul]. intros g [(_ & Hbg & _) Hng]. eapply Forall_impl; [exact (file_name_chars g Hbg Hng)|]. simpl. lia. }
    destruct Hr as (ip & -> & Hat & Hi). exists ip, s'. split; [unfold namei; by kstep He|]. split; [apply Hat|]. split; [by apply (at_used s Ht)|]. split; [apply Hat|done].
Qed.

Lemma content_length k f : files !! k = Some f -> di_size (inode_at im (Z.of_nat k + 2)) = zlen (file_bytes f) /\ 1 <= Z.of_nat k + 2 < zlen files + 2.
Proof using Hmade.
  intros Hk. pose proof (lookup_lt_Some _ _ _ Hk). assert (Hi : 1 <= Z.of_nat k + 2 < zlen files + 2) by (unfold zlen; lia). split; [|done].
  destruct (md_file _ _ Hmade k f Hk) as (_ & _ & <-). destruct (md_fields _ _ Hmade _ Hi) as [_ Hs]. unfold content, zlen. rewrite length_fmap, length_seqZ. lia.
Qed.
End Boot.

Lemma root_inum_ok : inum_ok mk_super ROOTINO.
Proof. split; [split|]; by vm_compute. Qed.

Lemma mkfs_boots_ok {B M : Type} `{BC : BufCache B, BL : !BufCacheLaws B} `{KM : KMem M, KL : !KMemLaws M} (files : list MkfsSpec.file) :
  Forall file_fits files -> Forall (fun f => no_nul (fst f)) files -> zlen files + 2 <= NINODES -> blocks_used files <= FSSIZE -> root_len files mod BSIZE <> 0 ->
  exists im, mkfs_main files blank = Ok (tt, im) /\
    forall s : fsys B M, unbooted im s -> exists s1, boot_fs s = Ok (tt, s1) /\ tree_ok s1 None /\
      forall k f, files !! k = Some f -> findable files k f ->
        exists ip s2, namei (slash :: file_name f) s1 = Ok (Some ip, s2) /\ tree_ok s2 None /\ size (geti s2 ip) = zlen (file_bytes f) /\
          forall user dst off n, km_ok (mm s2) user dst n -> 0 <= dst -> dst + n < 2 ^ 64 -> 0 <= off -> 0 <= n -> off + n <= zlen (file_bytes f) ->
            exists s3, xv6fs_readi ip user dst off n s2 = Ok (n, s3) /\ km_read (mm s3) user dst n = sub (file_bytes f) off n.
Proof.
  intros Hfit Hnul Hmax Hcap Hround. destruct (mkfs_made files Hfit Hmax Hcap) as (im & Hrun & Hmade). exists im. split; [done|]. intros s Hun. pose proof (md_sb _ _ Hmade) as Esb.
  destruct (boot_ok im s Hun) as (s1 & Hboot & Hb); rewrite ?Esb; [reflexivity|apply super_ok, (un_size _ _ Hun)|exact root_inum_ok|intros t E1 E2 E3; exact (image_fs_ok files im Hmade Hcap t E1 E2 E3 (un_size _ _ Hun))|].
  exists s1. split; [done|]. split; [by apply (booted_tree files im)|]. intros k f Hk Hfind.
  destruct (booted_namei files im Hmade Hfit Hnul Hmax Hcap Hround s1 k f Hb Hk Hfind) as (ip & s2 & Hn & Ht & Hu & Hd & Hi). exists ip, s2. split; [exact Hn|]. split; [exact Ht|].
  destruct (slot_file s2 None ip Ht Hu) as (xi & Hf & Hdi & _). destruct (content_length files im Hmade k f Hk) as [Hlen Hr].
  assert (Ein : disk_inode s2 (inum (geti s2 ip)) = inode_at im (Z.of_nat k + 2)).
  { rewrite Hi, (proj2 Hd) by (rewrite (booted_sb files im Hmade s1 Hb); unfold inum_ok; change (ninodes mk_super) with NINODES; split; [lia|by vm_compute]).
    apply (image_inode im s1 (booted_sb files im Hmade s1 Hb) (bt_disk _ _ Hb)). lia. }
  rewrite Ein in Hdi. assert (Hsz : size (geti s2 ip) = zlen (file_bytes f)) by (rewrite <- Hlen, <- Hdi; done). split; [done|]. intros user dst off n Hok Hd0 Hd1 Ho Hn0 Hlim.
  destruct (read_back s2 ip xi user dst off n (to_fs _ _ Ht) Hf (to_mm _ _ Ht) Hok Hd0 Hd1 Ho Hn0 ltac:(lia)) as (s3 & He & _ & _ & Hbytes). exists s3. split; [done|].
  assert (Hx : addrs xi = di_addrs (inode_at im (Z.of_nat k + 2))) by (rewrite <- Hdi; reflexivity). rewrite Hbytes, (content_fbytes files im s1 s2 _ xi off n Hmade Hmax Hcap Hround Hb Hd Hr Hx Ho Hn0 ltac:(lia)).
  destruct (md_file _ _ Hmade k f Hk) as (_ & _ & ->). reflexivity.
Qed.

(** Mkfs and the kernel agree: if mkfs has made an image of some files and the kernel boots from it, the directory tree is well formed, the path of every file leads to an inode of its length, and
    reading there, at any offset, gives the bytes of the file. *)
Theorem mkfs_boots {B M : Type} `{BC : BufCache B, BL : !BufCacheLaws B} `{KM : KMem M, KL : !KMemLaws M} (files : list MkfsSpec.file) :
  Forall file_fits files -> Forall (fun f => no_nul (fst f)) files -> zlen files + 2 <= NINODES -> blocks_used files <= FSSIZE -> root_len files mod BSIZE <> 0 ->
  exists im, mkfs_main files blank = Ok (tt, im) /\
    forall s : fsys B M, unbooted im s -> exists s1, boot_fs s = Ok (tt, s1) /\ tree_ok s1 None /\
      forall k f, files !! k = Some f -> findable files k f ->
        exists ip s2, namei (slash :: file_name f) s1 = Ok (Some ip, s2) /\ tree_ok s2 None /\ size (geti s2 ip) = zlen (file_bytes f) /\
          forall user dst off n, km_ok (mm s2) user dst n -> 0 <= dst -> dst + n < 2 ^ 64 -> 0 <= off -> 0 <= n -> off + n <= zlen (file_bytes f) ->
            exists s3, xv6fs_readi ip user dst off n s2 = Ok (n, s3) /\ km_read (mm s3) user dst n = sub (file_bytes f) off n.
Proof. apply mkfs_boots_ok. Qed.

(** ** A disk with the image of two files *)

Definition demo_im : image := match mkfs_main demo_files blank with Ok (_, im) => im | _ => blank end.
Definition image_sectors (im : image) : list (Z * list Z) :=
  concat ((fun b => let l := sects im !!! b in if bool_decide (l = zeroes) then [] else [(2 * b, take 512 l); (2 * b + 1, drop 512 l)]) <$> seqZ 0 FSSIZE).
Definition image_disk : disk := set_sectors (fun _ => list_to_map (image_sectors demo_im)) disk0.
Lemma image_disk_inv : dd_inv image_disk.
Proof.
  split; [by split|]. intros n l. change (sectors image_disk) with (list_to_map (image_sectors demo_im) : gmap Z (list Z)).
  intros H%elem_of_list_to_map_2. assert (Hall : forallb (fun p => (zlen (snd p) =? 512) && bytes_okb (snd p)) (image_sectors demo_im) = true) by (vm_compute; reflexivity).
  apply list_elem_of_In in H. apply (proj1 (forallb_forall _ _) Hall) in H. simpl in H. apply andb_true_iff in H as [H1%Z.eqb_eq H2]. split; [exact H1|exact (bytes_okb_ok _ H2)].
Qed.

Lemma binit_keeps (d : disk) s' : binit (mk_bcache d boot_bufs 1) = Ok (tt, s') -> s' = mk_bcache d (bbuf s') 1.
Proof. vm_compute. intros [= <-]. reflexivity. Qed.
Definition image_cache : bcache disk := mk_bcache image_disk (match binit (mk_bcache image_disk boot_bufs 1) with Ok (_, s) => bbuf s | _ => [] end) 1.
Lemma image_cache_inv : bc_inv image_cache [].
Proof.
  destruct (binit_ok image_disk 1 image_disk_inv) as (s' & He & Hi & _). unfold image_cache. rewrite He, <- (binit_keeps _ _ He). exact Hi.
Qed.
Definition image_fs (k : kmem) : fsys (bcache disk) kmem :=
  mk_fsys image_cache k (mk_sb 0 0 0 0 0 0 0 0) (replicate (Z.to_nat NINODE) free_inode) [] ∅ [] None [] 1.

Lemma image_on_disk k b : 0 <= b < FSSIZE -> blk (image_fs k) b = sects demo_im !!! b.
Proof.
  intros Hb. assert (Hall : forallb (fun b => bool_decide (bc_block image_cache b = sects demo_im !!! b)) (seqZ 0 FSSIZE) = true) by (vm_compute; reflexivity).
  apply (proj1 (forallb_forall _ _)) with (x := b) in Hall; [exact (proj1 (bool_decide_eq_true _) Hall)|]. apply list_elem_of_In, elem_of_seqZ. lia.
Qed.

Lemma image_unbooted k : km_inv k -> km_avail k 5 -> unbooted demo_im (image_fs k).
Proof. intros Hk Hav. split; [exact image_cache_inv|exact (image_on_disk k)|reflexivity|split; [exact Hk|by apply km_avail_le]|by vm_compute]. Qed.
Lemma demo_files_ok : Forall file_fits demo_files /\ Forall (fun f => no_nul (fst f)) demo_files.
Proof.
  split.
  - repeat apply Forall_cons_2; [..|by apply Forall_nil_2]; (split; [by apply (bool_decide_unpack _); vm_compute|]); (split; [by apply (bool_decide_unpack _); vm_compute|]);
      (split; [by eexists|]); (split; [by apply (bool_decide_unpack _); vm_compute|by vm_compute]).
  - repeat apply Forall_cons_2; [..|by apply Forall_nil_2]; by apply (bool_decide_unpack _); vm_compute.
Qed.

(** The second file is README, of 1026 bytes; its last two bytes are B and a newline. *)
Definition readme_file : MkfsSpec.file := ([82; 69; 65; 68; 77; 69], Some [replicate 1024 65; [66; 10]]).
Lemma mkfs_boots_witness : exists k s1 ip s2, boot_fs (image_fs k) = Ok (tt, s1) /\ namei [47; 82; 69; 65; 68; 77; 69] s1 = Ok (Some ip, s2) /\ size (geti s2 ip) = 1026 /\
  exists s3, xv6fs_readi ip false km_scratch 1010 16 s2 = Ok (16, s3) /\ km_read (mm s3) false km_scratch 16 = replicate 14 65 ++ [66; 10].
Proof.
  destruct demo_process as (k & p & q & Hk & _ & _ & _ & _ & _ & _ & Hav). destruct demo_files_ok as [Hfit Hnul].
  destruct (mkfs_boots (B := bcache disk) (M := kmem) demo_files Hfit Hnul) as (im & Hrun & Hboot); [by vm_compute..|].
  assert (E : im = demo_im) by (unfold demo_im; by rewrite Hrun). subst im. clear Hrun.
  destruct (Hboot (image_fs k) (image_unbooted k Hk Hav)) as (s1 & Hb & _ & Hf). destruct (Hf 1%nat readme_file eq_refl) as (ip & s2 & Hn & Ht & Hsz & Hr).
  { split_and!; [by vm_compute..|]. intros [|j] g Hj; [|lia]. intros [= <-]. by vm_compute. }
  exists k, s1, ip, s2. split; [exact Hb|]. split; [exact Hn|]. split; [exact Hsz|]. pose proof (@km_scratch_range kmem _ _).
  exact (Hr false km_scratch 1010 16 (km_scratch_ok _ (to_mm _ _ Ht)) ltac:(lia) ltac:(lia) ltac:(lia) ltac:(lia) ltac:(by vm_compute)).
Defined.
