(* ===== verification/Rand.v ===== *)
(** * The random numbers of grind

    [do_rand] and [rand] of [src/user/grind.c]: the generator of Park and Miller, computed
    without a product that is too large.  It goes through all of its 2^31 - 2 states. *)

From stdpp Require Import base numbers list list_numbers strings.
From Stdlib Require Import ZArith Lia.
From S2P Require Import Prelude.

(** The new [*ctx] and the result; [x / y] and [x % y] of C round to zero. *)
Definition do_rand (ctx : Z) : Z * Z :=
  let x := ctx mod 0x7ffffffe + 1 in
  let hi := Z.quot x 127773 in
  let lo := Z.rem x 127773 in
  let x := 16807 * lo - 2836 * hi in
  let x := if x <? 0 then x + 0x7fffffff else x in
  let x := x - 1 in
  (uint64 x, int x).
Definition rand (rand_next : Z) : Z * Z := do_rand rand_next.

(** ** Park and Miller's minimal standard *)

Definition RM : Z := 2 ^ 31 - 1.
Definition RA : Z := 7 ^ 5.
(** The state of the generator is one less than the number of the recurrence. *)
Definition lehmer (x : Z) : Z := RA * x mod RM.

Lemma do_rand_lehmer ctx : 0 <= ctx <= 0x7ffffffd -> do_rand ctx = (lehmer (ctx + 1) - 1, lehmer (ctx + 1) - 1) /\ 0 < lehmer (ctx + 1) < RM.
Proof.
  intros H. unfold do_rand. rewrite Z.mod_small by lia. set (x := ctx + 1). assert (Hx : 0 < x < RM) by (unfold x, RM; lia). rewrite Z.quot_div_nonneg, Z.rem_mod_nonneg by lia.
  pose proof (Z.div_mod x 127773 ltac:(lia)) as Hd. pose proof (Z.mod_pos_bound x 127773 ltac:(lia)) as Hm. set (hi := x / 127773) in *. set (lo := x mod 127773) in *.
  assert (Hh : 0 <= hi <= 16807) by (unfold RM in *; lia). set (y := 16807 * lo - 2836 * hi).
  assert (Ey : RA * x = hi * RM + y) by (unfold RA, RM, y; lia).
  assert (El : lehmer x = if y <? 0 then y + 0x7fffffff else y).
  { unfold lehmer. rewrite Ey. destruct (Z.ltb_spec y 0).
    - symmetry. apply (Z.mod_unique _ _ (hi - 1)); unfold RM, y in *; lia.
    - rewrite Z.add_comm, Z.mod_add by done. apply Z.mod_small. unfold RM, y in *. lia. }
  rewrite <- El. assert (Hl : 0 < lehmer x < RM).
  { rewrite El. destruct (Z.ltb_spec y 0); unfold RM, y in *; lia. }
  split; [|done]. unfold RM in Hl. by rewrite uint64_small, int_small by lia.
Qed.

(** ** The period *)

(** [p] is prime if nothing up to its square root divides it. *)
Fixpoint no_divisor (k : nat) (d p : Z) : bool :=
  match k with O => true | S k => negb (p mod d =? 0) && no_divisor k (d + 1) p end.
Lemma no_divisor_ok k d p n : no_divisor k d p = true -> d <= n < d + Z.of_nat k -> ~ (n | p).
Proof.
  revert d. induction k as [|k IH]; intros d H Hn; [lia|]. cbn [no_divisor] in H. apply andb_prop in H as [H1 H2]. destruct (decide (n = d)) as [->|]; [|apply (IH (d + 1)); [done|lia]].
  intros Hdiv%Z.mod0_divide. by rewrite Hdiv in H1.
Qed.
Lemma trial_division p k : 1 < p -> p < (Z.of_nat k + 2) * (Z.of_nat k + 2) -> no_divisor k 2 p = true -> Z.prime p.
Proof.
  intros Hp Hk Hall. split; [done|]. intros n Hn [m Hm]. assert (1 < m < p) by nia.
  destruct (decide (n < Z.of_nat k + 2)) as [Hlt|Hge]; [apply (no_divisor_ok k 2 p n Hall); [lia|by exists m]|]. apply (no_divisor_ok k 2 p m Hall); [nia|exists n; lia].
Qed.
Lemma RM_trial : no_divisor (Z.to_nat 46340) 2 RM = true.
Proof. vm_compute. reflexivity. Qed.
Lemma RM_prime : Z.prime RM.
Proof. refine (trial_division RM (Z.to_nat 46340) _ _ RM_trial); unfold RM; lia. Qed.

Definition RN : Z := RM - 1.
Definition RN_primes : list Z := [2; 3; 7; 11; 31; 151; 331].
Lemma RN_primes_prime q : q ∈ RN_primes -> Z.prime q.
Proof.
  assert (Hall : Forall Z.prime RN_primes); [|intros Hq; by apply (proj1 (Forall_forall _ _) Hall)].
  repeat apply Forall_cons_2; [by apply (trial_division 2 0)|by apply (trial_division 3 0)|by apply (trial_division 7 5)|by apply (trial_division 11 5)|by apply (trial_division 31 5)|by apply (trial_division 151 12)|by apply (trial_division 331 18)|apply Forall_nil_2].
Qed.
Lemma RN_divisor k : 1 < k -> (k | RN) -> exists q, q ∈ RN_primes /\ (q | k).
Proof.
  intros Hk Hd. destruct (decide (Exists (fun q => k mod q = 0) RN_primes)) as [He|Hn].
  { apply Exists_exists in He as (q & Hq & Hm). exists q. split; [done|]. apply Z.mod_divide; [pose proof (Z.prime_ge_2 q (RN_primes_prime q Hq)); lia|done]. }
  exfalso.
  assert (Hr : forall q, q ∈ RN_primes -> Z.coprime k q).
  { intros q Hq. unfold Z.coprime. rewrite Z.gcd_comm. apply Z.coprime_prime_l; [by apply RN_primes_prime|]. intros Hdiv%Z.mod0_divide. apply Hn, Exists_exists. by exists q. }
  assert (Hc : Z.coprime k RN) by (change RN with (2 * (3 * (3 * (7 * (11 * (31 * (151 * 331))))))); repeat apply Z.coprime_mul_r; apply Hr, (bool_decide_unpack _); by vm_compute).
  unfold Z.coprime in Hc. apply Z.divide_gcd_iff in Hd; lia.
Qed.

Definition unit_pow (n : Z) : Prop := RA ^ n mod RM = 1.
Lemma pow_sub a b : 0 <= b <= a -> unit_pow a -> unit_pow b -> unit_pow (a - b).
Proof.
  unfold unit_pow. intros H Ha Hb. rewrite <- (Z.sub_add b a) in Ha at 1. rewrite Z.pow_add_r, Zmult_mod, Hb, Z.mul_1_r, Zmod_mod in Ha by lia. done.
Qed.
Lemma pow_add a b : 0 <= a -> 0 <= b -> unit_pow a -> unit_pow b -> unit_pow (a + b).
Proof. unfold unit_pow. intros. rewrite Z.pow_add_r, Zmult_mod by done. rewrite H1, H2. done. Qed.
Lemma pow_mul a k : 0 <= a -> 0 <= k -> unit_pow a -> unit_pow (k * a).
Proof.
  intros Ha Hk Hu. revert k Hk. apply natlike_ind; [done|]. intros k Hk IH. replace (Z.succ k * a) with (k * a + a) by lia. apply pow_add; try done. lia.
Qed.
Lemma pow_mod a b : 0 <= a -> 0 < b -> unit_pow a -> unit_pow b -> unit_pow (a mod b).
Proof.
  intros Ha Hb Hua Hub. rewrite Z.mod_eq by lia. pose proof (Z.mul_div_le a b Hb). assert (0 <= a / b) by (apply Z.div_pos; lia). apply pow_sub; [nia|done|]. rewrite Z.mul_comm. by apply pow_mul; [lia| |].
Qed.
Lemma pow_gcd a b : 0 <= a -> 0 <= b -> unit_pow a -> unit_pow b -> unit_pow (Z.gcd a b).
Proof.
  intros Ha Hb. revert a Ha. revert b Hb. apply (Zlt_0_ind (fun b => forall a, 0 <= a -> unit_pow a -> unit_pow b -> unit_pow (Z.gcd a b))).
  intros b IH Hb a Ha Hua Hub. destruct (decide (b = 0)) as [->|Hne]; [by rewrite Z.gcd_0_r, Z.abs_eq|]. rewrite Z.gcd_comm, <- Z.gcd_mod, Z.gcd_comm by done.
  apply IH; try done; [pose proof (Z.mod_pos_bound a b); lia|]. by apply pow_mod; [|lia| |].
Qed.

(** Powers by squaring, to compute the ones that decide the order of [RA]. *)
Fixpoint pow_mod_pos (a : Z) (n : positive) (m : Z) : Z :=
  match n with
  | xH => a mod m
  | xO n => let h := pow_mod_pos a n m in h * h mod m
  | xI n => let h := pow_mod_pos a n m in a * (h * h mod m) mod m
  end.
Lemma pow_mod_pos_ok a n m : m <> 0 -> pow_mod_pos a n m = a ^ Z.pos n mod m.
Proof.
  intros Hm. induction n as [n IH|n IH|]; cbn [pow_mod_pos]; rewrite ?IH.
  - rewrite <- Z.mul_mod, Z.mul_mod_idemp_r by done. f_equal. replace (Z.pos n~1) with (1 + (Z.pos n + Z.pos n)) by lia. by rewrite !Z.pow_add_r, Z.pow_1_r by lia.
  - rewrite <- Z.mul_mod by done. f_equal. replace (Z.pos n~0) with (Z.pos n + Z.pos n) by lia. by rewrite Z.pow_add_r by lia.
  - by rewrite Z.pow_1_r.
Qed.
Lemma RN_unit : unit_pow RN.
Proof. unfold unit_pow. change RN with (Z.pos 2147483646). rewrite <- pow_mod_pos_ok by done. by vm_compute. Qed.
Lemma RN_prime_power q : q ∈ RN_primes -> ~ unit_pow (RN / q).
Proof.
  assert (Hall : Forall (fun q => pow_mod_pos RA (Z.to_pos (RN / q)) RM <> 1 /\ 0 < RN / q) RN_primes); [apply (bool_decide_unpack _); by vm_compute|].
  intros Hq Hu. apply (proj1 (Forall_forall _ _) Hall) in Hq as [Hne Hpos]. apply Hne. rewrite pow_mod_pos_ok, Z2Pos.id by done. exact Hu.
Qed.
(** The order of [RA] is the whole of [RN]: it is a primitive root. *)
Lemma RA_order n : 0 <= n -> unit_pow n <-> (RN | n).
Proof.
  intros Hn. split; [intros Hu|intros [k ->]; apply pow_mul; [done|unfold RN, RM in *; lia|apply RN_unit]].
  pose proof (pow_gcd n RN Hn ltac:(done) Hu RN_unit) as Hg. destruct (Z.gcd_divide_r n RN) as [k Hk]. set (g := Z.gcd n RN) in *.
  assert (Hg0 : 0 < g).
  { pose proof (Z.gcd_nonneg n RN : 0 <= g). destruct (decide (g = 0)) as [E|]; [rewrite E, Z.mul_0_r in Hk; discriminate Hk|lia]. }
  assert (Hk0 : 0 < k) by (unfold RN, RM in Hk; nia).
  destruct (decide (k = 1)) as [->|Hne]; [replace RN with g by lia; apply Z.gcd_divide_l|]. exfalso.
  destruct (RN_divisor k ltac:(lia)) as (q & Hq & [j Hj]); [exists g; lia|]. apply (RN_prime_power q Hq). pose proof (Z.prime_ge_2 q (RN_primes_prime q Hq)).
  replace (RN / q) with (j * g) by (rewrite Hk, Hj; symmetry; replace (j * q * g) with (j * g * q) by lia; apply Z.div_mul; lia). apply pow_mul; [lia|nia|done].
Qed.

(** The state after [n] calls. *)
Definition rand_after (n : nat) (ctx : Z) : Z := Nat.iter n (fun c => (do_rand c).1) ctx.
Lemma rand_after_pow n ctx : 0 <= ctx <= 0x7ffffffd -> rand_after n ctx + 1 = RA ^ Z.of_nat n * (ctx + 1) mod RM /\ 0 <= rand_after n ctx <= 0x7ffffffd.
Proof.
  intros H. induction n as [|n [IH Hb]]; [change (rand_after 0 ctx) with ctx; rewrite Z.mul_1_l, Z.mod_small; unfold RM; lia|].
  change (rand_after (S n) ctx) with (do_rand (rand_after n ctx)).1. destruct (do_rand_lehmer _ Hb) as [-> Hl]. cbn [fst]. split; [|unfold RM in Hl; lia].
  rewrite Z.sub_add. unfold lehmer. rewrite IH, Z.mul_mod_idemp_r by done. f_equal. rewrite Nat2Z.inj_succ, Z.pow_succ_r by lia. lia.
Qed.

(** The random numbers of grind repeat as late as they can.  From every state of the
    generator (0 to 0x7ffffffd), [do_rand] returns the state it stores, which is again such
    a state, and the states repeat after [n] calls exactly when [n] is a multiple of
    2^31 - 2, the number of states: 16807 is a primitive root of the prime 2^31 - 1, and the
    division by 127773 that avoids the large product computes the product modulo it. *)
Theorem rand_period ctx n :
  0 <= ctx <= 0x7ffffffd ->
  (let '(ctx', r) := do_rand ctx in r = ctx' /\ 0 <= r <= 0x7ffffffd /\ r + 1 = 16807 * (ctx + 1) mod (2 ^ 31 - 1))
  /\ (rand_after n ctx = ctx <-> (2 ^ 31 - 2 | Z.of_nat n)).
Proof.
  intros H. split.
  { destruct (do_rand_lehmer ctx H) as [-> Hl]. unfold RM in Hl. split; [done|]. split; [lia|]. rewrite Z.sub_add. reflexivity. }
  change (2 ^ 31 - 2) with RN. rewrite <- RA_order by lia. destruct (rand_after_pow n ctx H) as [Ha Hb]. unfold unit_pow. split.
  - intros He. rewrite He in Ha. assert (Hd : (RM | (RA ^ Z.of_nat n - 1) * (ctx + 1))).
    { apply Z.mod_divide; [done|]. replace ((RA ^ Z.of_nat n - 1) * (ctx + 1)) with (RA ^ Z.of_nat n * (ctx + 1) - (ctx + 1)) by ring. rewrite Zminus_mod, <- Ha, (Z.mod_small (ctx + 1)), Z.sub_diag by (unfold RM; lia). done. }
    apply Z.divide_prime_mul in Hd as [Hd|Hd]; [| |apply RM_prime].
    + destruct Hd as [k Hk]. replace (RA ^ Z.of_nat n) with (1 + k * RM) by lia. by rewrite Z.mod_add.
    + apply Z.divide_pos_le in Hd; unfold RM in Hd; lia.
  - intros Hu. rewrite <- Z.mul_mod_idemp_l, Hu, Z.mul_1_l, Z.mod_small in Ha by (unfold RM; lia). lia.
Qed.
Lemma rand_period_witness :
  rand_after 3 1 <> 1 /\ (do_rand 1).2 = 33613 /\ (rand_after 3 1 = 1 <-> (2 ^ 31 - 2 | 3)).
Proof.
  split; [by vm_compute|]. split; [by vm_compute|]. exact (proj2 (rand_period 1 3 ltac:(lia))).
Defined.
