(* ===== verification/Kvm.v ===== *)
(** * The kernel's address space

    [kvmmake] of [src/kernel/vm.c] with [proc_mapstacks] of [src/kernel/proc.c]: with enough
    free memory it builds the map that [src/kernel/memlayout.h] describes, the devices and
    the memory at their own addresses, the trampoline and the kernel stacks with their guard
    pages at the top.  The number of table pages is bounded by the number of regions of
    2 MB, the reach of a table of the last level, that a range touches. *)

From stdpp Require Import base numbers list list_numbers gmap strings.
From Stdlib Require Import ZArith Lia.
From S2P Require Import Prelude Params Kalloc Vm VmProof VmMap VmSpace.

#[local] Opaque tables.

(** ** What mapping a range costs *)

(** The region of 2 MB of an address. *)
Definition region (va : Z) : Z := vpage va / 512.
Definition regions (va sz : Z) : Z := region (va + sz - 1) - region va + 1.

Lemma table0_region r pt va va' : in_va va -> in_va va' -> region va = region va' -> table0 r 2 pt va = table0 r 2 pt va'.
Proof.
  intros Hva Hva' He. assert (H : forall k, 1 <= k -> PX k va = PX k va').
  { intros k Hk. unfold PX, PXMASK, PXSHIFT. change 0x1FF with (Z.ones 9). f_equal. rewrite !Z.shiftr_div_pow2 by lia.
    replace (12 + 9 * k) with (12 + (9 + 9 * (k - 1))) by lia. rewrite !Z.pow_add_r by lia.
    rewrite <- !Zdiv.Zdiv_Zdiv by lia. unfold region, vpage, PGSIZE in He. change (2 ^ 12) with 4096. change (2 ^ 9) with 512. by rewrite He. }
  cbn [table0]. rewrite (H (Z.of_nat 2)), (H (Z.of_nat 1)) by lia. done.
Qed.

Lemma mapped_missing m pt va va' v : lf m pt va = Some v -> in_va va -> in_va va' -> region va = region va' -> missing (ram m) 2 pt va' = 0%nat.
Proof. intros (q & Hq & _)%lf_table0 H H' Hr. unfold missing. by rewrite <- (table0_region _ _ va va'), Hq. Qed.
Lemma missing_le m pt va : (missing (ram m) 2 pt va <= 2)%nat.
Proof. unfold missing. destruct (table0 _ _ _ _); lia. Qed.

Lemma region_next a : region a <= region (a + PGSIZE) <= region a + 1.
Proof.
  unfold region. rewrite vpage_next. split; [apply Z.div_le_mono; lia|]. replace (vpage a / 512 + 1) with ((vpage a + 1 * 512) / 512) by (rewrite Z.div_add; lia). apply Z.div_le_mono; lia.
Qed.
Lemma region_mono a b : a <= b -> region a <= region b.
Proof. intros H. unfold region, vpage. apply Z.div_le_mono; [lia|]. by apply Z.div_le_mono. Qed.

Lemma mapped_zlen m l pt a pa perm k m' used l' : mapped m l pt a pa perm k m' used l' -> zlen l = zlen used + zlen l'.
Proof. intros M. rewrite (mp_l _ _ _ _ _ _ _ _ _ _ M). unfold zlen. rewrite length_app. lia. Qed.

Lemma map_page_enough m l pt a pa perm :
  vm_ok m l pt -> in_va a -> lf m pt a = None -> pa_ok pa -> 0 <= perm < 1024 -> Z.of_nat (missing (ram m) 2 pt a) < zlen l ->
  exists m' used l', map_page pt a pa perm m = Ok (0, m') /\ mapped m l pt a pa perm 1 m' used l' /\ zlen used <= Z.of_nat (missing (ram m) 2 pt a).
Proof.
  intros Hv Ha Hn Hpa Hperm Hl. destruct (map_page_ok m l pt a pa perm Hv Ha Hn Hpa Hperm) as (r & m' & u & l' & He & [[-> M]|(-> & -> & M)] & Hu).
  - exists m', u, l'. split; [done|]. split; [done|]. unfold zlen. lia.
  - apply mapped_zlen in M. unfold zlen in *. simpl in M. lia.
Qed.

Lemma mappages_loop_enough n m l pt a pa perm :
  vm_ok m l pt -> aligned a -> 0 <= a -> a + PGSIZE * (Z.of_nat n + 1) <= MAXVA ->
  aligned pa -> 0 <= pa -> pa + PGSIZE * (Z.of_nat n + 1) <= 2 ^ 56 -> 0 <= perm < 1024 ->
  (forall va, in_va va -> vpage a <= vpage va <= vpage a + Z.of_nat n -> lf m pt va = None) ->
  Z.of_nat (missing (ram m) 2 pt a) + 2 * (region (a + PGSIZE * Z.of_nat n) - region a) < zlen l ->
  exists m' used l', mappages_loop (S n) pt a (a + PGSIZE * Z.of_nat n) pa perm m = Ok (0, m') /\ mapped m l pt a pa perm (Z.of_nat n + 1) m' used l' /\
    zlen used <= Z.of_nat (missing (ram m) 2 pt a) + 2 * (region (a + PGSIZE * Z.of_nat n) - region a).
Proof.
  revert m l a pa. induction n as [|n IH]; intros m l a pa Hv Haa Ha Hlim Hpa Hpa0 Hplim Hperm Hnone Hlen.
  all: assert (Hiv : in_va a) by (unfold in_va, PGSIZE in *; lia).
  all: assert (Hpo : pa_ok pa) by (split; [done|unfold PGSIZE in *; lia]).
  1: pose proof (region_mono a (a + PGSIZE * Z.of_nat 0) ltac:(unfold PGSIZE; lia)) as Hrm.
  2: pose proof (region_mono (a + PGSIZE) (a + PGSIZE * Z.of_nat (S n)) ltac:(unfold PGSIZE; lia)) as Hrm.
  all: pose proof (region_next a) as Hrn.
  all: destruct (map_page_enough m l pt a pa perm Hv Hiv (Hnone a Hiv ltac:(lia)) Hpo Hperm ltac:(lia)) as (m1 & u1 & l1 & He & M & Hu).
  all: rewrite mappages_loop_S, (bind_ok _ _ _ _ _ He); cbn [Z.eqb negb].
  - rewrite Z.mul_0_r, Z.add_0_r, Z.eqb_refl. exists m1, u1, l1. split; [done|]. split; [done|lia].
  - rewrite (proj2 (Z.eqb_neq _ _)) by (unfold PGSIZE; lia). rewrite in_va_uint64, uint64_small by (done || (unfold PGSIZE in *; lia)).
    assert (Hiv' : in_va (a + PGSIZE)) by (unfold in_va, PGSIZE in *; lia).
    assert (Hla : lf m1 pt a = Some (mk_pte pa (Z.lor perm PTE_V))) by (rewrite (mp_lf _ _ _ _ _ _ _ _ _ _ M), decide_True, Z.sub_diag, Z.mul_0_r, Z.add_0_r by (done || lia); done).
    assert (Hms : Z.of_nat (missing (ram m1) 2 pt (a + PGSIZE)) <= 2 * (region (a + PGSIZE) - region a)).
    { destruct (decide (region a = region (a + PGSIZE))) as [Er|]; [rewrite (mapped_missing _ _ _ _ _ Hla Hiv Hiv' Er); lia|]. pose proof (missing_le m1 pt (a + PGSIZE)). lia. }
    pose proof (mapped_zlen _ _ _ _ _ _ _ _ _ _ M) as Hz.
    destruct (IH m1 l1 (a + PGSIZE) (pa + PGSIZE)) as (m2 & u2 & l2 & He2 & M2 & Hu2); try (done || by apply aligned_add); try (unfold PGSIZE in *; lia).
    + apply M.
    + intros va Hva Hp. rewrite vpage_next in Hp. rewrite (mp_lf _ _ _ _ _ _ _ _ _ _ M), decide_False by (done || lia). apply Hnone; [done|lia].
    + replace (a + PGSIZE + PGSIZE * Z.of_nat n) with (a + PGSIZE * Z.of_nat (S n)) by lia. lia.
    + replace (a + PGSIZE + PGSIZE * Z.of_nat n) with (a + PGSIZE * Z.of_nat (S n)) in He2, Hu2 by lia.
      exists m2, (u1 ++ u2), l2. split; [exact He2|]. split; [replace (Z.of_nat (S n) + 1) with (1 + (Z.of_nat n + 1)) by lia; apply (mapped_trans _ _ _ _ _ _ m1 u1 l1); [lia|done|done]|].
      unfold zlen in *. rewrite length_app. lia.
Qed.

(** ** Maps *)

(** [f] with [sz] bytes at [a] mapped to those at [pa]. *)
Definition overlay (a sz pa perm : Z) (f : Z -> option Z) (va : Z) : option Z :=
  if decide (a <= va < a + sz) then Some (mk_pte (pa + (pbase va - a)) (Z.lor perm PTE_V)) else f va.

Lemma in_pages a k va : aligned a -> vpage a <= vpage va < vpage a + k <-> a <= va < a + PGSIZE * k.
Proof.
  intros Ha%aligned_vpage. unfold vpage in *. pose proof (Z_div_mod_eq_full va PGSIZE). pose proof (Z.mod_pos_bound va PGSIZE ltac:(done)). unfold PGSIZE in *. lia.
Qed.

(** The page table at [pt] maps as [f] says; the pages [out] are in use besides it. *)
Record kvm (m : mem) (l : list Z) (pt : Z) (out : list Z) (f : Z -> option Z) : Prop := {
  kv_ok : vm_ok m l pt;
  kv_nodup : NoDup (out ++ tables (ram m) 2 pt ++ l);
  kv_pages : Forall (page_ok (kend m)) out;
  kv_lf va : in_va va -> lf m pt va = f va;
}.

(** An operation on the table at [pt] has taken pages from the front of the free list and
    has changed no page but these and those of the table. *)
Record kstep (m : mem) (l : list Z) (pt : Z) (m' : mem) (l' : list Z) : Prop := {
  ks_suffix : exists u, l = u ++ l';
  ks_kend : kend m' = kend m;
  ks_frame p : p ∉ tables (ram m) 2 pt -> p ∉ l -> ram m' !! p = ram m !! p;
  ks_tables p : p ∈ tables (ram m') 2 pt -> p ∈ tables (ram m) 2 pt \/ p ∈ l;
}.

Lemma mappages_kvm m l pt out f a sz pa perm :
  kvm m l pt out f -> aligned a -> aligned sz -> aligned pa -> 0 <= a -> 0 < sz -> a + sz <= MAXVA ->
  0 <= pa -> pa + sz <= 2 ^ 56 -> 0 <= perm < 1024 -> (forall va, a <= va < a + sz -> f va = None) -> 2 * regions a sz < zlen l ->
  exists m' l', mappages pt a sz pa perm m = Ok (0, m') /\ kvm m' l' pt out (overlay a sz pa perm f) /\ kstep m l pt m' l' /\ zlen l <= zlen l' + 2 * regions a sz.
Proof.
  intros [Hv Hnd Hpg Hlf] Haa Has Hap Ha Hs Hlim Hpa Hplim Hperm Hnone Hlen. apply aligned_vpage in Has as Es. set (k := vpage sz) in *.
  assert (Hk : 0 < k) by (unfold PGSIZE in Es; lia). assert (Hlast : PGROUNDDOWN (uint64 (a + sz - 1)) = a + PGSIZE * (k - 1)).
  { rewrite uint64_small, PGROUNDDOWN_eq by (unfold MAXVA in *; lia). replace (a + sz - 1) with (a + PGSIZE * (k - 1) + (PGSIZE - 1)) by lia. refine (proj1 (pbase_add _ _ _ _)); [|done].
    unfold aligned in *. by rewrite (Z.mul_comm PGSIZE), Z.mod_add. }
  assert (Er : region (a + PGSIZE * (k - 1)) = region (a + sz - 1)).
  { rewrite <- Hlast, uint64_small, PGROUNDDOWN_eq by (unfold MAXVA in *; lia). unfold region. by rewrite vpage_pbase. }
  unfold mappages. rewrite (proj2 (Z.eqb_neq sz 0)), Hlast, PGROUNDDOWN_eq, (proj1 (pbase_id a Haa)) by lia.
  replace (a + PGSIZE * (k - 1) - a) with ((k - 1) * PGSIZE) by lia. rewrite uint64_small, Z.div_mul by (done || (unfold MAXVA, PGSIZE in *; lia)).
  destruct (mappages_loop_enough (Z.to_nat (k - 1)) m l pt a pa perm) as (m' & u & l' & He & M & Hu); rewrite ?Z2Nat.id by lia; try (done || lia).
  - intros va Hva Hp. rewrite Hlf by done. apply Hnone. pose proof (proj1 (in_pages a k va Haa) ltac:(lia)). lia.
  - pose proof (missing_le m pt a). rewrite Er. unfold regions in Hlen. lia.
  - rewrite Z2Nat.id in He, M, Hu by lia. replace (k - 1 + 1) with k in M by lia. exists m', l'. split; [exact He|].
    pose proof (mapped_zlen _ _ _ _ _ _ _ _ _ _ M) as Hz. pose proof (missing_le m pt a). destruct M as [El Hok Hkend Ht Hfr Hl].
    split; [|split; [|rewrite Er in Hu; unfold regions; lia]].
    2: { split; [by exists u|done| |]; [intros p Hp Hpl; apply Hfr; [done|]; intros Hu'; apply Hpl; rewrite El; apply elem_of_app; by left|].
         intros p. rewrite Ht, elem_of_app. intros [?|?]; [by left|right; rewrite El; apply elem_of_app; by left]. }
    split; [done| | |].
    + rewrite Ht, <- app_assoc, <- El. done.
    + by rewrite Hkend.
    + intros va Hva. rewrite Hl, Hlf by done. unfold overlay. pose proof (pbase_vpage va). pose proof (aligned_vpage a Haa). destruct (decide (vpage a <= _ < _)) as [Hin|Hin]; rewrite (in_pages a k va Haa) in Hin.
      * rewrite decide_True by lia. do 2 f_equal. lia.
      * rewrite decide_False by lia. done.
Qed.

Lemma kvmmap_ok m l pt out f a sz pa perm :
  kvm m l pt out f -> aligned a -> aligned sz -> aligned pa -> 0 <= a -> 0 < sz -> a + sz <= MAXVA ->
  0 <= pa -> pa + sz <= 2 ^ 56 -> 0 <= perm < 1024 -> (forall va, a <= va < a + sz -> f va = None) -> 2 * regions a sz < zlen l ->
  exists m' l', kvmmap pt a pa sz perm m = Ok (tt, m') /\ kvm m' l' pt out (overlay a sz pa perm f) /\ kend m' = kend m /\ zlen l <= zlen l' + 2 * regions a sz.
Proof.
  intros. destruct (mappages_kvm m l pt out f a sz pa perm) as (m' & l' & He & Hv & Hs & Hl); try done.
  exists m', l'. unfold kvmmap. rewrite (bind_ok _ _ _ _ _ He). split_and!; [done|done|apply Hs|done].
Qed.

Lemma kvm_ext m l pt out f g : kvm m l pt out f -> (forall va, in_va va -> f va = g va) -> kvm m l pt out g.
Proof. intros [? ? ? H] Hfg. split; try done. intros va Hva. by rewrite H, Hfg. Qed.

Lemma kalloc_kvm m l pt out f :
  kvm m l pt out f -> 0 < zlen l ->
  exists p m' l', kalloc m = Ok (p, m') /\ kvm m' l' pt (out ++ [p]) f /\ kstep m l pt m' l' /\ p <> 0 /\ zlen l = zlen l' + 1.
Proof.
  intros [Hv Hnd Hpg Hlf] Hl. pose proof (kalloc_ok m l (vo_alloc _ _ _ Hv)) as Hk. destruct l as [|p l]; [done|].
  destruct Hk as (m' & He & Hok & Hr & Hke). pose proof (proj1 (proj1 (Forall_cons _ _ _) (ao_pages _ _ (vo_alloc _ _ _ Hv)))) as Hp.
  pose proof (vo_nodup _ _ _ Hv) as Hnv. assert (Hpt : p ∉ tables (ram m) 2 pt). { intros Hin. apply NoDup_app in Hnv as (_ & Hd & _). apply (Hd p Hin). apply list_elem_of_here. }
  assert (Hsame : forall q, q ∈ tables (ram m) 2 pt -> ram m' !! q = ram m !! q) by (intros q Hq; rewrite Hr; apply lookup_insert_ne; by intros ->).
  destruct (vm_ok_ext m (p :: l) pt m' l Hv Hok Hke Hsame) as (Hv' & Ht & _ & Hlv).
  { intros q Hq Hin. apply NoDup_app in Hnv as (_ & Hd & _). apply (Hd q Hq). by apply list_elem_of_further. }
  exists p, m', l. split; [done|]. split; [|split_and!; [|by eapply page_ok_ne0; [apply Hv|]|unfold zlen; simpl; lia]].
  2: { split; [by exists [p]|done| |intros q; rewrite Ht; by left]. intros q _ Hq. rewrite Hr. apply lookup_insert_ne. intros ->. apply Hq, list_elem_of_here. }
  split; [done| | |].
  - rewrite Ht, <- app_assoc. simpl. apply (NoDup_Permutation_proper _ (out ++ tables (ram m) 2 pt ++ p :: l)); [|done]. f_equiv. apply Permutation_middle.
  - rewrite Hke. apply Forall_app. split; [done|by apply Forall_singleton].
  - intros va Hva. rewrite <- Hlf by done. apply Hlv.
Qed.

Lemma regions_page a : aligned a -> regions a PGSIZE = 1.
Proof. intros Ha. unfold regions, region. replace (a + PGSIZE - 1) with (a + (PGSIZE - 1)) by lia. rewrite <- (vpage_pbase (a + _)), (proj1 (pbase_add a (PGSIZE - 1) Ha ltac:(done))). lia. Qed.

(** ** The stacks *)

Definition RW : Z := Z.lor PTE_R PTE_W.
Definition RX : Z := Z.lor PTE_R PTE_X.

(** The stacks are every other page below the trampoline. *)
Definition stack_map (stacks : list Z) (f : Z -> option Z) (va : Z) : option Z :=
  let d := TRAMPOLINE - pbase va in
  if (0 <? d) && (d mod (2 * PGSIZE) =? 0) then
    match stacks !! Z.to_nat (d / (2 * PGSIZE) - 1) with
    | Some s => Some (mk_pte s (Z.lor RW PTE_V))
    | None => f va
    end
  else f va.

Lemma in_page a va : aligned a -> a <= va < a + PGSIZE <-> pbase va = a.
Proof.
  intros Ha. pose proof (pbase_poff va). pose proof (poff_range va). pose proof (pbase_le va a Ha). split; [|lia]. intros H2.
  pose proof (aligned_mul _ Ha). pose proof (aligned_mul _ (pbase_aligned va)). unfold PGSIZE in *. lia.
Qed.
Lemma KSTACK_aligned p : aligned (KSTACK p).
Proof. unfold aligned, KSTACK. replace (TRAMPOLINE - (p + 1) * 2 * PGSIZE) with (TRAMPOLINE + - ((p + 1) * 2) * PGSIZE) by lia. by rewrite Z.mod_add. Qed.

Lemma stack_map_snoc stacks s f va :
  stack_map (stacks ++ [s]) f va = overlay (KSTACK (zlen stacks)) PGSIZE s RW (stack_map stacks f) va.
Proof.
  unfold overlay, stack_map. set (p := zlen stacks). assert (0 <= p) by (unfold p, zlen; lia). cbv zeta.
  destruct (decide (KSTACK p <= va < _)) as [Hin|Hin]; rewrite (in_page _ _ (KSTACK_aligned p)) in Hin.
  - rewrite Hin. unfold KSTACK. replace (TRAMPOLINE - (TRAMPOLINE - (p + 1) * 2 * PGSIZE)) with ((p + 1) * (2 * PGSIZE)) by lia.
    rewrite (proj2 (Z.ltb_lt 0 _)), Z.mod_mul, Z.div_mul, Z.eqb_refl by (done || (unfold PGSIZE; lia)). cbn [andb].
    rewrite (lookup_app_r stacks) by (unfold p, zlen; lia). replace (Z.to_nat (p + 1 - 1) - length stacks)%nat with 0%nat by (unfold p, zlen; lia). simpl. do 2 f_equal. lia.
  - destruct (0 <? _) eqn:E1; [|done]. destruct (_ =? 0) eqn:E2; [|done]. cbn [andb]. zbool. set (d := TRAMPOLINE - pbase va) in *.
    apply Z.div_exact in E2; [|done]. set (i := d / (2 * PGSIZE)) in *. assert (Hi : 0 < i) by (unfold PGSIZE in *; lia).
    assert (Hne : i - 1 <> p) by (intros Hip; apply Hin; unfold KSTACK, d in *; lia).
    destruct (decide (i - 1 < p)) as [Hlt|Hge]; [by rewrite lookup_app_l by (unfold p, zlen in *; lia)|].
    rewrite !lookup_ge_None_2; [done|unfold p, zlen in *; lia|rewrite length_app; simpl; unfold p, zlen in *; lia].
Qed.

Lemma stack_range p : 0 <= p < NPROC -> KSTACK (NPROC - 1) <= KSTACK p /\ KSTACK p + PGSIZE < TRAMPOLINE.
Proof. unfold KSTACK, NPROC, TRAMPOLINE, MAXVA, PGSIZE. lia. Qed.

Lemma proc_mapstacks_loop_ok k m l pt stacks f :
  kvm m l pt stacks (stack_map stacks f) -> zlen stacks + Z.of_nat k <= NPROC -> (forall va, KSTACK (NPROC - 1) <= va < TRAMPOLINE -> f va = None) -> 3 * Z.of_nat k < zlen l ->
  exists m' l' stacks', proc_mapstacks_loop k pt (zlen stacks) m = Ok (tt, m') /\ kvm m' l' pt stacks' (stack_map stacks' f) /\
    kend m' = kend m /\ zlen stacks' = zlen stacks + Z.of_nat k /\ zlen l <= zlen l' + 3 * Z.of_nat k.
Proof.
  revert m l stacks. induction k as [|k IH]; intros m l stacks Hv Hk Hf Hl; [exists m, l, stacks; split_and!; [done|done|done|lia|lia]|]. cbn [proc_mapstacks_loop].
  destruct (kalloc_kvm _ _ _ _ _ Hv ltac:(lia)) as (p & m1 & l1 & He1 & Hv1 & [_ Hk1 _ _] & Hp0 & Hl1). rewrite (bind_ok _ _ _ _ _ He1), (proj2 (Z.eqb_neq _ _) Hp0).
  pose proof (stack_range (zlen stacks)) as Hsr. assert (0 <= zlen stacks) by (unfold zlen; lia). pose proof (regions_page _ (KSTACK_aligned (zlen stacks))) as Hr.
  pose proof (proj1 (Forall_forall _ _) (kv_pages _ _ _ _ _ Hv1) p ltac:(apply elem_of_app; right; apply list_elem_of_here)) as Hp.
  pose proof (page_ok_pa _ _ (ro_kend _ (ao_ram _ _ (vo_alloc _ _ _ (kv_ok _ _ _ _ _ Hv1)))) Hp) as [Hpa Hpb]. pose proof Hp as [_ Hp2].
  destruct (kvmmap_ok m1 l1 pt _ _ (KSTACK (zlen stacks)) PGSIZE p RW Hv1) as (m2 & l2 & He2 & Hv2 & Hk2 & Hl2); rewrite ?Hr; try done; try lia.
  - apply KSTACK_aligned.
  - unfold KSTACK, TRAMPOLINE, MAXVA, PGSIZE, NPROC in *. lia.
  - unfold KSTACK, TRAMPOLINE, MAXVA, PGSIZE, NPROC in *. lia.
  - unfold PHYSTOP, KERNBASE, PGSIZE in *. lia.
  - intros va Hva. assert (Hq := Hva). rewrite (in_page _ _ (KSTACK_aligned _)) in Hq. unfold stack_map. rewrite Hq. cbv zeta. unfold KSTACK. replace (TRAMPOLINE - (TRAMPOLINE - (zlen stacks + 1) * 2 * PGSIZE)) with ((zlen stacks + 1) * (2 * PGSIZE)) by lia.
    rewrite (proj2 (Z.ltb_lt 0 _)), Z.mod_mul, Z.div_mul, Z.eqb_refl by (done || (unfold PGSIZE; lia)). cbn [andb]. rewrite lookup_ge_None_2 by (unfold zlen in *; lia). apply Hf. lia.
  - fold RW. rewrite (bind_ok _ _ _ _ _ He2). apply (fun H => kvm_ext _ _ _ _ _ (stack_map (stacks ++ [p]) f) H ltac:(intros; symmetry; apply stack_map_snoc)) in Hv2.
    assert (Hz : zlen (stacks ++ [p]) = zlen stacks + 1) by (unfold zlen; rewrite length_app; simpl; lia).
    destruct (IH m2 l2 (stacks ++ [p]) Hv2) as (m3 & l3 & st3 & He3 & Hv3 & Hk3 & Hl3 & Hc3); rewrite ?Hz; try (done || lia).
    exists m3, l3, st3. rewrite <- Hz. split_and!; [done|done|congruence|lia|lia].
Qed.

(** ** The map of memlayout.h *)

Definition within (a n va : Z) : bool := (a <=? va) && (va <? a + n).
Definition base_map (etext trampoline va : Z) : option Z :=
  if within UART0 PGSIZE va || within VIRTIO0 PGSIZE va || within PLIC 0x400000 va || within etext (PHYSTOP - etext) va
  then Some (mk_pte (pbase va) (Z.lor RW PTE_V))
  else if within KERNBASE (etext - KERNBASE) va then Some (mk_pte (pbase va) (Z.lor RX PTE_V))
  else if within TRAMPOLINE PGSIZE va then Some (mk_pte trampoline (Z.lor RX PTE_V))
  else None.
Definition kernel_map (etext trampoline : Z) (stacks : list Z) : Z -> option Z := stack_map stacks (base_map etext trampoline).

(** The memory the linker script lays out. *)
Record layout (m : mem) (etext trampoline : Z) : Prop := {
  la_etext : aligned etext;
  la_tramp : aligned trampoline;
  la_text : KERNBASE <= trampoline < etext;
  la_end : etext <= kend m < PHYSTOP;
}.

Lemma overlay_ident a sz perm f va : overlay a sz a perm f va = if within a sz va then Some (mk_pte (pbase va) (Z.lor perm PTE_V)) else f va.
Proof.
  unfold overlay, within. replace (a + (pbase va - a)) with (pbase va) by lia.
  destruct (decide _), (Z.leb_spec a va), (Z.ltb_spec va (a + sz)); cbn [andb]; (done || lia).
Qed.
Lemma overlay_page a pa perm f va : aligned a -> overlay a PGSIZE pa perm f va = if within a PGSIZE va then Some (mk_pte pa (Z.lor perm PTE_V)) else f va.
Proof.
  intros Ha. unfold overlay, within. destruct (decide _) as [Hin|Hin].
  - rewrite (proj2 (Z.leb_le _ _)), (proj2 (Z.ltb_lt _ _)) by lia. rewrite (in_page _ _ Ha) in Hin. rewrite Hin, Z.sub_diag, Z.add_0_r. done.
  - destruct (Z.leb_spec a va), (Z.ltb_spec va (a + PGSIZE)); cbn [andb]; (done || lia).
Qed.

Ltac layout_lia := unfold within, KSTACK, UART0, VIRTIO0, PLIC, TRAMPOLINE, PHYSTOP, KERNBASE, MAXVA, PGSIZE, NPROC in *; zbool; lia.
(** Ranges that do not meet. *)
Lemma overlay_None a sz pa perm f lo hi : (forall va, lo <= va < hi -> f va = None) -> a + sz <= lo \/ hi <= a -> forall va, lo <= va < hi -> overlay a sz pa perm f va = None.
Proof. intros Hf H va Hva. unfold overlay. rewrite decide_False by lia. by apply Hf. Qed.

Lemma kroot_ok m l : alloc_ok m l -> 0 < zlen l ->
  exists p m1 m' l', kalloc m = Ok (p, m1) /\ fill p 0 m1 = Ok (tt, m') /\ kvm m' l' p [] (fun _ => None) /\ kend m' = kend m /\ zlen l = zlen l' + 1.
Proof.
  intros Hok Hl. destruct l as [|p l]; [done|]. destruct (kalloc_ok m (p :: l) Hok) as (m1 & He1 & _). destruct (uvmcreate_ok m p l Hok) as (m' & He & Hu & Hk & Ht & Hlf & _).
  unfold uvmcreate in He. rewrite (bind_ok _ _ _ _ _ He1) in He. pose proof (proj1 (proj1 (Forall_cons _ _ _) (ao_pages _ _ Hok))) as Hp.
  rewrite (proj2 (Z.eqb_neq p 0)) in He by (by eapply page_ok_ne0; [apply Hok|]). apply bind_inv in He as ([] & m2 & Hf & [= ->]).
  exists p, m1, m', l. split_and!; [done|done| |done|unfold zlen; simpl; lia]. split; [apply Hu|apply (vo_nodup _ _ _ (us_vm _ _ _ _ Hu))|constructor|by intros va _].
Qed.

Lemma base_map_overlays etext trampoline va : in_va va -> KERNBASE < etext < PHYSTOP ->
  overlay TRAMPOLINE PGSIZE trampoline RX (overlay etext (PHYSTOP - etext) etext RW (overlay KERNBASE (etext - KERNBASE) KERNBASE RX
    (overlay PLIC 0x400000 PLIC RW (overlay VIRTIO0 PGSIZE VIRTIO0 RW (overlay UART0 PGSIZE UART0 RW (fun _ => None)))))) va = base_map etext trampoline va.
Proof.
  intros Hva He. rewrite overlay_page by done. rewrite !overlay_ident. unfold base_map.
  destruct (within TRAMPOLINE _ _) eqn:E1, (within etext _ _) eqn:E2, (within KERNBASE _ _) eqn:E3, (within PLIC _ _) eqn:E4, (within VIRTIO0 _ _) eqn:E5, (within UART0 _ _) eqn:E6;
    cbn [orb]; try reflexivity; exfalso; layout_lia.
Qed.

Ltac kmap H a sz pa perm m' l' He Hv Hk Hl :=
  edestruct (kvmmap_ok _ _ _ _ _ a sz pa perm H) as (m' & l' & He & Hv & Hk & Hl);
  [..|fold RW; fold RX; rewrite (bind_ok _ _ _ _ _ He); clear H He].
Ltac kside := first [done | by apply la_etext | by apply la_tramp | layout_lia | repeat (apply overlay_None; [|layout_lia]); done].
Lemma within_false a n va : va < a \/ a + n <= va -> within a n va = false.
Proof. unfold within. intros H. destruct (Z.leb_spec a va), (Z.ltb_spec va (a + n)); cbn [andb]; (done || lia). Qed.
Lemma base_map_stacks etext trampoline va : etext < PHYSTOP -> KSTACK (NPROC - 1) <= va < TRAMPOLINE -> base_map etext trampoline va = None.
Proof.
  intros He H. assert (PHYSTOP <= va) by layout_lia. unfold base_map. rewrite !within_false; [done|..]; try lia; layout_lia.
Qed.

Lemma text_regions etext : KERNBASE < etext < PHYSTOP -> 0 < regions KERNBASE (etext - KERNBASE) /\ 0 < regions etext (PHYSTOP - etext) /\ regions KERNBASE (etext - KERNBASE) + regions etext (PHYSTOP - etext) <= 65.
Proof.
  intros H. unfold regions. replace (KERNBASE + (etext - KERNBASE) - 1) with (etext - 1) by lia. replace (etext + (PHYSTOP - etext) - 1) with (PHYSTOP - 1) by lia.
  pose proof (region_mono (etext - 1) etext ltac:(lia)). pose proof (region_mono KERNBASE (etext - 1) ltac:(lia)). pose proof (region_mono etext (PHYSTOP - 1) ltac:(lia)).
  change (region (PHYSTOP - 1)) with 1087 in *. change (region KERNBASE) with 1024 in *. lia.
Qed.

Lemma kvmmake_ok m l etext trampoline :
  alloc_ok m l -> 334 <= zlen l -> layout m etext trampoline ->
  exists kpgtbl m' l' stacks, kvmmake etext trampoline m = Ok (kpgtbl, m') /\ kvm m' l' kpgtbl stacks (kernel_map etext trampoline stacks) /\
    kend m' = kend m /\ zlen stacks = NPROC /\ zlen l <= zlen l' + 333.
Proof.
  intros Hok Hl La. pose proof La as [Hae Hat Htx Hen]. destruct (kroot_ok m l Hok ltac:(lia)) as (pt & m0 & m1 & l1 & He0 & He1 & Hv1 & Hk1 & Hl1).
  unfold kvmmake. rewrite (bind_ok _ _ _ _ _ He0). rewrite (bind_ok _ _ _ _ _ He1). fold RW. fold RX. clear He0 He1.
  destruct (text_regions etext) as (Hr1 & Hr2 & Hr3); [lia|].
  assert (Hal : forall a b, aligned a -> aligned b -> aligned (a - b)) by (unfold aligned; intros a b Ea Eb; by rewrite Zminus_mod, Ea, Eb).
  pose proof (regions_page UART0 eq_refl) as R1. pose proof (regions_page VIRTIO0 eq_refl) as R2. pose proof (regions_page TRAMPOLINE eq_refl) as R4. assert (R3 : regions PLIC 0x400000 = 2) by reflexivity.
  kmap Hv1 UART0 PGSIZE UART0 RW m2 l2 He2 Hv2 Hk2 Hl2; try kside.
  kmap Hv2 VIRTIO0 PGSIZE VIRTIO0 RW m3 l3 He3 Hv3 Hk3 Hl3; try kside.
  kmap Hv3 PLIC 0x400000 PLIC RW m4 l4 He4 Hv4 Hk4 Hl4; try kside.
  kmap Hv4 KERNBASE (etext - KERNBASE) KERNBASE RX m5 l5 He5 Hv5 Hk5 Hl5; try kside; [by apply Hal|].
  kmap Hv5 etext (PHYSTOP - etext) etext RW m6 l6 He6 Hv6 Hk6 Hl6; try kside; [by apply Hal|].
  kmap Hv6 TRAMPOLINE PGSIZE trampoline RX m7 l7 He7 Hv7 Hk7 Hl7; try kside.
  apply (fun H => kvm_ext _ _ _ _ _ (stack_map [] (base_map etext trampoline)) H) in Hv7.
  2: { intros va Hva. rewrite base_map_overlays by (done || lia). unfold stack_map. cbv zeta. by destruct (_ && _). }
  destruct (proc_mapstacks_loop_ok (Z.to_nat NPROC) m7 l7 pt [] _ Hv7) as (m8 & l8 & stacks & He8 & Hv8 & Hk8 & Hl8 & Hc8); try done; try layout_lia.
  - intros va Hva. apply base_map_stacks; [lia|done].
  - exists pt, m8, l8, stacks. unfold proc_mapstacks. rewrite (bind_ok _ _ _ _ _ He8). split_and!; [done|done|congruence|done|layout_lia].
Qed.

(** ** Properties *)

(** Writable pages lie outside the kernel's text and executable ones in it. *)
Lemma kernel_map_pages etext trampoline stacks e va v :
  KERNBASE <= trampoline < etext -> aligned etext -> aligned trampoline -> etext < PHYSTOP -> 0 < e -> etext <= e -> Forall (page_ok e) stacks ->
  in_va va -> kernel_map etext trampoline stacks va = Some v ->
  exists pa, pa_ok pa /\ (v = mk_pte pa (Z.lor RW PTE_V) /\ (pa < KERNBASE \/ etext <= pa) \/ v = mk_pte pa (Z.lor RX PTE_V) /\ KERNBASE <= pa < etext).
Proof.
  intros Ht Hae Hat He He0 Hee Hst Hva. pose proof (pbase_poff va) as Hp1. pose proof (poff_range va) as Hp2. pose proof (pbase_aligned va) as Hp3.
  assert (Hpo : pa_ok (pbase va)). { split; [done|]. pose proof (pbase_le va 0 eq_refl). unfold in_va, MAXVA in Hva. lia. }
  pose proof (pbase_le va etext Hae) as Hle. pose proof (pbase_le va KERNBASE eq_refl) as Hlk.
  assert (Hb : base_map etext trampoline va = Some v -> exists pa, pa_ok pa /\ (v = mk_pte pa (Z.lor RW PTE_V) /\ (pa < KERNBASE \/ etext <= pa) \/ v = mk_pte pa (Z.lor RX PTE_V) /\ KERNBASE <= pa < etext)).
  { unfold base_map. destruct (_ || _) eqn:E1.
    - intros [= <-]. exists (pbase va). split; [done|]. left. split; [done|]. repeat (apply orb_true_iff in E1 as [E1|E1]); try (left; layout_lia). right. unfold within in E1. zbool. lia.
    - destruct (within KERNBASE _ _) eqn:E2.
      + intros [= <-]. exists (pbase va). split; [done|]. right. split; [done|]. unfold within in E2. zbool. lia.
      + destruct (within TRAMPOLINE _ _); [|done]. intros [= <-]. exists trampoline. split; [split; [done|layout_lia]|]. by right. }
  unfold kernel_map, stack_map. cbv zeta. destruct (_ && _); [|done]. destruct (stacks !! _) as [s|] eqn:Es; [|done]. intros [= <-].
  pose proof (proj1 (Forall_lookup _ _) Hst _ _ Es) as Hs. exists s. split; [by apply (page_ok_pa e)|]. left. split; [done|]. right. destruct Hs. lia.
Qed.

(** C5: the kernel's page table is the one [memlayout.h] draws.  From the memory the linker
    script lays out, with at least 334 free pages, [kvmmake] returns a well-formed table.  It
    maps the devices and the memory at their own addresses, the text readable and
    executable, the rest readable and writable; the trampoline's page once more at the top,
    and below it one page of its own for the stack of each process; and nothing else.  So
    the page above each stack is a guard page, which is not mapped, and no page of memory
    can be written through one address and executed through another. *)
Theorem kernel_space m l etext trampoline :
  alloc_ok m l -> 334 <= zlen l -> layout m etext trampoline ->
  exists kpgtbl m' l' stacks,
    kvmmake etext trampoline m = Ok (kpgtbl, m') /\ vm_ok m' l' kpgtbl /\
    zlen stacks = NPROC /\ Forall (page_ok (kend m)) stacks /\ NoDup (stacks ++ tables (ram m') 2 kpgtbl ++ l') /\
    (forall va, in_va va -> lf m' kpgtbl va = kernel_map etext trampoline stacks va) /\
    (forall p, 0 <= p < NPROC -> lf m' kpgtbl (KSTACK p + PGSIZE) = None /\ lf m' kpgtbl (KSTACK p) <> None) /\
    (forall va va' v v', in_va va -> in_va va' -> lf m' kpgtbl va = Some v -> lf m' kpgtbl va' = Some v' ->
       has v PTE_X = true -> has v' PTE_W = true -> PTE2PA v <> PTE2PA v').
Proof.
  intros Hok Hl La. pose proof La as [Hae Hat Htx Hen]. destruct (kvmmake_ok m l etext trampoline Hok Hl La) as (pt & m' & l' & stacks & He & [Hv Hnd Hpg Hlf] & Hk & Hs & _).
  exists pt, m', l', stacks. rewrite <- Hk. split_and!; try done.
  - intros p Hp. assert (in_va (KSTACK p)) by (unfold in_va; layout_lia). assert (in_va (KSTACK p + PGSIZE)) by (unfold in_va; layout_lia).
    pose proof (KSTACK_aligned p) as Ha. rewrite !Hlf by done. unfold kernel_map, stack_map. cbv zeta. rewrite (proj1 (pbase_id _ Ha)), (proj1 (pbase_id _ (aligned_add _ Ha))). split.
    + replace (TRAMPOLINE - (KSTACK p + PGSIZE)) with (PGSIZE + p * (2 * PGSIZE)) by (unfold KSTACK; lia). rewrite Z.mod_add, Bool.andb_false_r by done.
      pose proof (stack_range p Hp). apply base_map_stacks; [lia|]. unfold PGSIZE in *. lia.
    + replace (TRAMPOLINE - KSTACK p) with ((p + 1) * (2 * PGSIZE)) by (unfold KSTACK; lia). rewrite (proj2 (Z.ltb_lt 0 _)), Z.mod_mul, Z.div_mul by (done || (unfold PGSIZE; lia)). cbn [andb Z.eqb].
      destruct (lookup_lt_is_Some_2 stacks (Z.to_nat (p + 1 - 1))) as [s ->]; [unfold zlen in Hs; lia|done].
  - intros va va' v v' Hva Hva'. rewrite !Hlf by done. intros Hm Hm' Hx Hw. pose proof (ro_kend _ (ao_ram _ _ (vo_alloc _ _ _ Hv))).
    destruct (kernel_map_pages etext trampoline stacks (kend m') va v) as (pa & Hpa & Hc); try (done || lia).
    destruct (kernel_map_pages etext trampoline stacks (kend m') va' v') as (pa' & Hpa' & Hc'); try (done || lia).
    destruct Hc as [[-> _]|[-> Hr]]; [rewrite has_mk in Hx by done; discriminate Hx|]. destruct Hc' as [[-> Hr']|[-> _]]; [|rewrite has_mk in Hw by done; discriminate Hw].
    rewrite !PTE2PA_mk by done. lia.
Qed.

Lemma machine_400 : exists m l, alloc_ok m l /\ 334 <= zlen l /\ layout m 0x80007000 0x80006000.
Proof.
  destruct (machine_started 400 ltac:(lia)) as (m & l & _ & Hok & Hk & Hl). exists m, l. split; [done|]. split.
  - assert (Hsub : (fun i => PHYSTOP - PGSIZE * (i + 1)) <$> seqZ 0 400 ⊆+ l).
    { apply NoDup_submseteq; [apply NoDup_fmap_2; [intros i j Hij; unfold PGSIZE in Hij; lia|apply NoDup_seqZ]|]. intros p (i & -> & Hi%elem_of_seqZ)%list_elem_of_fmap. apply Hl. rewrite Hk. split; [|unfold machine; cbn [kend]; layout_lia].
      unfold aligned. replace (PHYSTOP - PGSIZE * (i + 1)) with (PHYSTOP + - (i + 1) * PGSIZE) by lia. by rewrite Z.mod_add. }
    apply submseteq_length in Hsub. rewrite length_fmap, length_seqZ in Hsub. unfold zlen. lia.
  - split; [done|done|layout_lia|]. rewrite Hk. unfold machine. cbn [kend]. layout_lia.
Qed.

Lemma kernel_space_witness : exists m kpgtbl m' (stacks : list Z), kvmmake 0x80007000 0x80006000 m = Ok (kpgtbl, m') /\ zlen stacks = NPROC /\
  lf m' kpgtbl UART0 = Some (mk_pte UART0 (Z.lor RW PTE_V)) /\ lf m' kpgtbl 0x80002234 = Some (mk_pte 0x80002000 (Z.lor RX PTE_V)) /\ lf m' kpgtbl 0 = None.
Proof.
  destruct machine_400 as (m & l & Hok & Hl & La). destruct (kernel_space m l _ _ Hok Hl La) as (pt & m' & l' & stacks & He & _ & Hs & _ & _ & Hlf & _).
  exists m, pt, m', stacks. split; [exact He|]. split; [exact Hs|].
  rewrite !Hlf by (unfold in_va, MAXVA, UART0; lia). split; [reflexivity|]. split; reflexivity.
Defined.
