(* ===== verification/VirtioInit.v ===== *)
(** * Starting the virtio disk

    [virtio_disk_init] of [src/kernel/virtio_disk.c]: the handshake over the memory-mapped
    registers of [src/kernel/virtio.h].  The device is the parameter [device], which gives
    the value of a register after the accesses so far; [VirtioMmio] states what the virtio
    specification (1.1, sections 2.1, 2.2 and 4.2) requires of it.  The lock, [disk.vdisk_lock],
    is not part of this state. *)

From stdpp Require Import base numbers list list_numbers gmap strings.
From Stdlib Require Import ZArith Lia.
From S2P Require Import Prelude Params Kalloc Virtio.

(** ** Registers *)

Definition VIRTIO_MMIO_MAGIC_VALUE : Z := 0x000.
Definition VIRTIO_MMIO_VERSION : Z := 0x004.
Definition VIRTIO_MMIO_DEVICE_ID : Z := 0x008.
Definition VIRTIO_MMIO_VENDOR_ID : Z := 0x00c.
Definition VIRTIO_MMIO_DEVICE_FEATURES : Z := 0x010.
Definition VIRTIO_MMIO_DRIVER_FEATURES : Z := 0x020.
Definition VIRTIO_MMIO_QUEUE_SEL : Z := 0x030.
Definition VIRTIO_MMIO_QUEUE_NUM_MAX : Z := 0x034.
Definition VIRTIO_MMIO_QUEUE_NUM : Z := 0x038.
Definition VIRTIO_MMIO_QUEUE_READY : Z := 0x044.
Definition VIRTIO_MMIO_STATUS : Z := 0x070.
Definition VIRTIO_MMIO_QUEUE_DESC_LOW : Z := 0x080.
Definition VIRTIO_MMIO_QUEUE_DESC_HIGH : Z := 0x084.
Definition VIRTIO_MMIO_DRIVER_DESC_LOW : Z := 0x090.
Definition VIRTIO_MMIO_DRIVER_DESC_HIGH : Z := 0x094.
Definition VIRTIO_MMIO_DEVICE_DESC_LOW : Z := 0x0a0.
Definition VIRTIO_MMIO_DEVICE_DESC_HIGH : Z := 0x0a4.
Definition VIRTIO_CONFIG_S_ACKNOWLEDGE : Z := 1.
Definition VIRTIO_CONFIG_S_DRIVER : Z := 2.
Definition VIRTIO_CONFIG_S_DRIVER_OK : Z := 4.
Definition VIRTIO_CONFIG_S_FEATURES_OK : Z := 8.
Definition VIRTIO_BLK_F_RO : Z := 5.
Definition VIRTIO_BLK_F_SCSI : Z := 7.
Definition VIRTIO_BLK_F_CONFIG_WCE : Z := 11.
Definition VIRTIO_BLK_F_MQ : Z := 12.
Definition VIRTIO_F_ANY_LAYOUT : Z := 27.
Definition VIRTIO_RING_F_INDIRECT_DESC : Z := 28.
Definition VIRTIO_RING_F_EVENT_IDX : Z := 29.

Inductive access := Read (r v : Z) | Write (r v : Z).

(** The memory, [struct disk] and its pointers to the three pages of the queue, and the
    accesses to the registers. *)
Record vsys := mk_vsys { vmem : mem; vdisk : disk; q_desc : Z; q_avail : Z; q_used : Z; vlog : list access }.
Definition set_vmem m (s : vsys) := mk_vsys m (vdisk s) (q_desc s) (q_avail s) (q_used s) (vlog s).
Definition set_vdisk d (s : vsys) := mk_vsys (vmem s) d (q_desc s) (q_avail s) (q_used s) (vlog s).
Definition set_q_desc p (s : vsys) := mk_vsys (vmem s) (vdisk s) p (q_avail s) (q_used s) (vlog s).
Definition set_q_avail p (s : vsys) := mk_vsys (vmem s) (vdisk s) (q_desc s) p (q_used s) (vlog s).
Definition set_q_used p (s : vsys) := mk_vsys (vmem s) (vdisk s) (q_desc s) (q_avail s) p (vlog s).
Definition log a (s : vsys) := mk_vsys (vmem s) (vdisk s) (q_desc s) (q_avail s) (q_used s) (vlog s ++ [a]).
Definition on_vmem {A} (m : K mem A) : K vsys A := zoom vmem set_vmem m.

Section Init.
Context (device : list access -> Z -> Z).

(** [*R(r)] *)
Definition reg_read (r : Z) : K vsys Z :=
  v ← gets (fun s => uint (device (vlog s) r)); modify (log (Read r v));; mret v.
Definition reg_write (r v : Z) : K vsys unit := modify (log (Write r (uint v))).

(** [features &= ~(1 << k)]: the [int] is extended to 64 bits. *)
Definition drop_feature (features k : Z) : Z := Z.land features (uint64 (Z.lnot (int (Z.shiftl 1 k)))).
Definition negotiate (features : Z) : Z :=
  let features := drop_feature features VIRTIO_BLK_F_RO in
  let features := drop_feature features VIRTIO_BLK_F_SCSI in
  let features := drop_feature features VIRTIO_BLK_F_CONFIG_WCE in
  let features := drop_feature features VIRTIO_BLK_F_MQ in
  let features := drop_feature features VIRTIO_F_ANY_LAYOUT in
  let features := drop_feature features VIRTIO_RING_F_EVENT_IDX in
  drop_feature features VIRTIO_RING_F_INDIRECT_DESC.

(** [||] stops at the first register that is wrong. *)
Definition not_found : K vsys bool :=
  magic ← reg_read VIRTIO_MMIO_MAGIC_VALUE;
  if negb (magic =? 0x74726976) then mret true
  else
    version ← reg_read VIRTIO_MMIO_VERSION;
    if negb (version =? 2) then mret true
    else
      id ← reg_read VIRTIO_MMIO_DEVICE_ID;
      if negb (id =? 2) then mret true
      else vendor ← reg_read VIRTIO_MMIO_VENDOR_ID; mret (negb (vendor =? 0x554d4551)).

Fixpoint free_all (k : nat) (i : Z) : K vsys unit :=
  match k with
  | O => mret tt
  | S k => modify (fun s => set_vdisk (set_free (fun l => zupd l i 1) (vdisk s)) s);; free_all k (i + 1)
  end.

(** What the device and the driver find in the pages of the queue once they are zero. *)
Definition zero_desc : K vsys unit := modify (fun s => set_vdisk (set_desc (fun _ => replicate (Z.to_nat NUM) (mk_desc NoAddr 0 0 0)) (vdisk s)) s).
Definition zero_avail : K vsys unit := modify (fun s => set_vdisk (set_avail (replicate (Z.to_nat NUM) 0) 0 (vdisk s)) s).
Definition zero_used : K vsys unit := modify (fun s => set_vdisk (set_used (replicate (Z.to_nat NUM) 0) 0 (vdisk s)) s).

(** The queue's memory, its registers and the last step; [status] is what the device left of it. *)
Definition start_queue (status : Z) : K vsys unit :=
  p ← on_vmem kalloc; modify (set_q_desc p);;
  p ← on_vmem kalloc; modify (set_q_avail p);;
  p ← on_vmem kalloc; modify (set_q_used p);;
  s ← get;
  if (q_desc s =? 0) || (q_avail s =? 0) || (q_used s =? 0) then panic "virtio disk kalloc"
  else
    on_vmem (fill (q_desc s) 0);; zero_desc;;
    on_vmem (fill (q_avail s) 0);; zero_avail;;
    on_vmem (fill (q_used s) 0);; zero_used;;
    reg_write VIRTIO_MMIO_QUEUE_NUM NUM;;
    reg_write VIRTIO_MMIO_QUEUE_DESC_LOW (q_desc s);;
    reg_write VIRTIO_MMIO_QUEUE_DESC_HIGH (Z.shiftr (q_desc s) 32);;
    reg_write VIRTIO_MMIO_DRIVER_DESC_LOW (q_avail s);;
    reg_write VIRTIO_MMIO_DRIVER_DESC_HIGH (Z.shiftr (q_avail s) 32);;
    reg_write VIRTIO_MMIO_DEVICE_DESC_LOW (q_used s);;
    reg_write VIRTIO_MMIO_DEVICE_DESC_HIGH (Z.shiftr (q_used s) 32);;
    reg_write VIRTIO_MMIO_QUEUE_READY 0x1;;
    free_all (Z.to_nat NUM) 0;;
    reg_write VIRTIO_MMIO_STATUS (Z.lor status VIRTIO_CONFIG_S_DRIVER_OK).

Definition virtio_disk_init : K vsys unit :=
  bad ← not_found;
  if (bad : bool) then panic "could not find virtio disk"
  else
    let status := 0 in
    reg_write VIRTIO_MMIO_STATUS status;;
    let status := Z.lor status VIRTIO_CONFIG_S_ACKNOWLEDGE in
    reg_write VIRTIO_MMIO_STATUS status;;
    let status := Z.lor status VIRTIO_CONFIG_S_DRIVER in
    reg_write VIRTIO_MMIO_STATUS status;;
    features ← reg_read VIRTIO_MMIO_DEVICE_FEATURES;
    reg_write VIRTIO_MMIO_DRIVER_FEATURES (negotiate features);;
    let status := Z.lor status VIRTIO_CONFIG_S_FEATURES_OK in
    reg_write VIRTIO_MMIO_STATUS status;;
    status ← reg_read VIRTIO_MMIO_STATUS;
    if Z.land status VIRTIO_CONFIG_S_FEATURES_OK =? 0 then panic "virtio disk FEATURES_OK unset"
    else
      reg_write VIRTIO_MMIO_QUEUE_SEL 0;;
      ready ← reg_read VIRTIO_MMIO_QUEUE_READY;
      if negb (ready =? 0) then panic "virtio disk should not be ready"
      else
        max ← reg_read VIRTIO_MMIO_QUEUE_NUM_MAX;
        if max =? 0 then panic "virtio disk has no queue 0"
        else if max <? NUM then panic "virtio disk max queue too short"
        else start_queue status.

End Init.

(** ** What the handshake leaves *)

(** [struct disk] as the kernel's data segment holds it at the start, and a device that has
    raised no interrupt. *)
Record unstarted (d : disk) : Prop := {
  un_seen : used_idx d = 0;
  un_free : length (free d) = 8%nat;
  un_info : length (info_b d) = 8%nat;
  un_status : length (info_status d) = 8%nat;
  un_ops : length (ops d) = 8%nat;
  un_intr : interrupt_status d = 0;
}.

(** The registers of the queue: 64-bit addresses in two halves. *)
Definition queue_log (st desc avail used : Z) : list access :=
  [Write VIRTIO_MMIO_QUEUE_NUM NUM;
   Write VIRTIO_MMIO_QUEUE_DESC_LOW (desc mod 2 ^ 32); Write VIRTIO_MMIO_QUEUE_DESC_HIGH (desc / 2 ^ 32);
   Write VIRTIO_MMIO_DRIVER_DESC_LOW (avail mod 2 ^ 32); Write VIRTIO_MMIO_DRIVER_DESC_HIGH (avail / 2 ^ 32);
   Write VIRTIO_MMIO_DEVICE_DESC_LOW (used mod 2 ^ 32); Write VIRTIO_MMIO_DEVICE_DESC_HIGH (used / 2 ^ 32);
   Write VIRTIO_MMIO_QUEUE_READY 1;
   Write VIRTIO_MMIO_STATUS (uint (Z.lor st VIRTIO_CONFIG_S_DRIVER_OK))].

Record queue_started (s : vsys) (l : list Z) (st : Z) (s' : vsys) (l' : list Z) : Prop := {
  qs_l : l = q_desc s' :: q_avail s' :: q_used s' :: l';
  qs_mem : alloc_ok (vmem s') l';
  qs_kend : kend (vmem s') = kend (vmem s);
  qs_zero p : p ∈ [q_desc s'; q_avail s'; q_used s'] -> ram (vmem s') !! p = Some (full_page 0);
  qs_frame p : p ∉ [q_desc s'; q_avail s'; q_used s'] -> ram (vmem s') !! p = ram (vmem s) !! p;
  qs_idle : idle (vdisk s');
  qs_disk : bufs (vdisk s') = bufs (vdisk s) /\ sectors (vdisk s') = sectors (vdisk s);
  qs_log : vlog s' = vlog s ++ queue_log st (q_desc s') (q_avail s') (q_used s');
}.

Lemma zoom_kalloc s l :
  alloc_ok (vmem s) l -> match l with
  | [] => on_vmem kalloc s = Ok (0, s)
  | p :: l' => exists m', on_vmem kalloc s = Ok (p, set_vmem m' s) /\ alloc_ok m' l' /\ ram m' = <[p := full_page 5]> (ram (vmem s)) /\ kend m' = kend (vmem s) /\ page_ok (kend m') p /\ p <> 0 /\ p ∉ l'
  end.
Proof.
  intros Hok. pose proof (kalloc_ok _ _ Hok) as Hk. destruct l as [|p l']; [unfold on_vmem, zoom; rewrite Hk; by destruct s|].
  destruct Hk as (m' & He & Hok' & Hr & Hke). exists m'. rewrite Hke. pose proof (proj1 (proj1 (Forall_cons _ _ _) (ao_pages _ _ Hok))) as Hp. pose proof (proj1 (proj1 (NoDup_cons _ _) (ao_nodup _ _ Hok))).
  split_and!; try done; [exact (zoom_ok _ _ _ _ _ _ He)|by eapply page_ok_ne0; [apply Hok|]].
Qed.

Lemma zoom_fill s l p pg :
  alloc_ok (vmem s) l -> p ∉ l -> ram (vmem s) !! p = Some pg -> exists m', on_vmem (fill p 0) s = Ok (tt, set_vmem m' s) /\ alloc_ok m' l /\ ram m' = <[p := full_page 0]> (ram (vmem s)) /\ kend m' = kend (vmem s).
Proof.
  intros Hok Hp Hpg. exists (set_ram (insert p (full_page 0)) (vmem s)). split_and!; [exact (zoom_ok _ _ _ _ _ _ (fill_ok _ p pg 0 Hpg))| |done|done]. destruct Hok as [Hr Hc Hn Hf]. split; simpl; try done.
  - assert (H : ram_ok (set_ram (insert p (full_page 0)) (vmem s))); [|by destruct H; split]. apply set_ram_ok; [done|apply zlen_full_page|apply bytes_ok_full_page; unfold byte_ok; lia].
  - eapply chain_ext; [|exact Hc]. intros q Hq. apply lookup_insert_ne. by intros ->.
Qed.

#[local] Arguments free_all : simpl never.
Lemma free_all_ok s : length (free (vdisk s)) = 8%nat -> free_all (Z.to_nat NUM) 0 s = Ok (tt, set_vdisk (set_free (fun _ => replicate 8 1) (vdisk s)) s).
Proof. destruct s as [m d a b c g]. destruct d as [? ? ? ? ? f ? ? ? ? ? ? ? ?]. simpl. intros H. do 9 (destruct f as [|? f]; [try discriminate H|]); [reflexivity|discriminate H]. Qed.

Lemma addr_log p : 0 < p < 2 ^ 32 -> uint p = p mod 2 ^ 32 /\ uint (Z.shiftr p 32) = p / 2 ^ 32.
Proof. intros H. split; [done|]. rewrite Z.shiftr_div_pow2, Z.div_small by lia. done. Qed.

Lemma start_queue_ok s l st :
  alloc_ok (vmem s) l -> unstarted (vdisk s) -> (3 <= length l)%nat -> exists s' l', start_queue st s = Ok (tt, s') /\ queue_started s l st s' l'.
Proof.
  intros Hok Hun Hl. destruct l as [|a [|b [|c l']]]; simpl in Hl; try lia. pose proof (ao_nodup _ _ Hok) as Hnd. rewrite !NoDup_cons, !not_elem_of_cons in Hnd. destruct Hnd as ((Hab & Hac & Hal) & (Hbc & Hbl) & Hcl & _).
  unfold start_queue. destruct (zoom_kalloc s _ Hok) as (m1 & He1 & Hok1 & Hr1 & Hk1 & Hpa & Ha0 & _). rewrite (bind_ok _ _ _ _ _ He1), bind_modify.
  destruct (zoom_kalloc (set_q_desc a (set_vmem m1 s)) _ Hok1) as (m2 & He2 & Hok2 & Hr2 & Hk2 & Hpb & Hb0 & _). rewrite (bind_ok _ _ _ _ _ He2), bind_modify.
  destruct (zoom_kalloc (set_q_avail b (set_vmem m2 (set_q_desc a (set_vmem m1 s)))) _ Hok2) as (m3 & He3 & Hok3 & Hr3 & Hk3 & Hpc & Hc0 & _). rewrite (bind_ok _ _ _ _ _ He3), bind_modify, bind_get.
  simpl in *. rewrite (proj2 (Z.eqb_neq a 0)), (proj2 (Z.eqb_neq b 0)), (proj2 (Z.eqb_neq c 0)) by done. cbn [orb].
  edestruct (zoom_fill (set_q_used c (set_vmem m3 (set_q_avail b (set_vmem m2 (set_q_desc a (set_vmem m1 s)))))) l' a) as (m4 & He4 & Hok4 & Hr4 & Hk4); [done|done|simpl; rewrite Hr3, Hr2, Hr1, !lookup_insert_ne by done; apply lookup_insert_eq|].
  rewrite (bind_ok _ _ _ _ _ He4). unfold zero_desc. rewrite bind_modify. simpl in *.
  match goal with |- context [(on_vmem (fill b 0) ≫= _) ?s1] => edestruct (zoom_fill s1 l' b) as (m5 & He5 & Hok5 & Hr5 & Hk5); [done|done|simpl; rewrite Hr4, lookup_insert_ne, Hr3, lookup_insert_ne, Hr2 by done; apply lookup_insert_eq|] end.
  rewrite (bind_ok _ _ _ _ _ He5). unfold zero_avail. rewrite bind_modify. simpl in *.
  match goal with |- context [(on_vmem (fill c 0) ≫= _) ?s1] => edestruct (zoom_fill s1 l' c) as (m6 & He6 & Hok6 & Hr6 & Hk6); [done|done|simpl; rewrite Hr5, lookup_insert_ne, Hr4, lookup_insert_ne, Hr3 by done; apply lookup_insert_eq|] end.
  rewrite (bind_ok _ _ _ _ _ He6). unfold zero_used, reg_write. rewrite !bind_modify. match goal with |- context [(free_all ?k 0 ≫= _) ?s1] => rewrite (bind_ok (free_all k 0) _ s1 _ _ (free_all_ok s1 (un_free _ Hun))) end. simpl in *.
  pose proof (ro_kend _ (ao_ram _ _ Hok)) as Hke. apply page_ok_bounds in Hpa, Hpb, Hpc; try (rewrite ?Hk3, ?Hk2, ?Hk1; done).
  destruct (addr_log a Hpa) as [Ea1 Ea2], (addr_log b Hpb) as [Eb1 Eb2], (addr_log c Hpc) as [Ec1 Ec2].
  eexists _, l'. split; [reflexivity|]. split; simpl; try done.
  - congruence.
  - intros p Hp. rewrite Hr6, Hr5, Hr4. rewrite !elem_of_cons in Hp. destruct (decide (p = c)) as [->|]; [apply lookup_insert_eq|rewrite lookup_insert_ne by done].
    destruct (decide (p = b)) as [->|]; [apply lookup_insert_eq|rewrite lookup_insert_ne by done]. destruct (decide (p = a)) as [->|]; [apply lookup_insert_eq|]. set_solver.
  - intros p Hp. rewrite !not_elem_of_cons in Hp. destruct Hp as (? & ? & ? & _). by rewrite Hr6, Hr5, Hr4, Hr3, Hr2, Hr1, !lookup_insert_ne by done.
  - destruct Hun as [H1 H2 H3 H4 H5 H6]. split; simpl; try done.
  - unfold queue_log. rewrite <- !app_assoc, <- Ea1, <- Ea2, <- Eb1, <- Eb2, <- Ec1, <- Ec2. reflexivity.
Qed.

Lemma start_queue_short s l st : alloc_ok (vmem s) l -> (length l < 3)%nat -> start_queue st s = Panic "virtio disk kalloc".
Proof.
  intros Hok Hl. unfold start_queue. pose proof (zoom_kalloc s l Hok) as H1. destruct l as [|a l].
  { rewrite (bind_ok _ _ _ _ _ H1), bind_modify. rewrite (bind_ok _ _ _ _ _ (zoom_kalloc (set_q_desc 0 s) [] Hok)), bind_modify. by rewrite (bind_ok _ _ _ _ _ (zoom_kalloc (set_q_avail 0 (set_q_desc 0 s)) [] Hok)). }
  destruct H1 as (m1 & He1 & Hok1 & _ & _ & _ & Ha & _). rewrite (bind_ok _ _ _ _ _ He1), bind_modify. pose proof (zoom_kalloc (set_q_desc a (set_vmem m1 s)) l Hok1) as H2. destruct l as [|b l].
  { rewrite (bind_ok _ _ _ _ _ H2), bind_modify. rewrite (bind_ok _ _ _ _ _ (zoom_kalloc (set_q_avail 0 (set_q_desc a (set_vmem m1 s))) [] Hok1)), bind_modify, bind_get. simpl. by destruct (a =? 0). }
  destruct H2 as (m2 & He2 & Hok2 & _ & _ & _ & Hb & _). rewrite (bind_ok _ _ _ _ _ He2), bind_modify. destruct l as [|c l]; [|simpl in Hl; lia].
  rewrite (bind_ok _ _ _ _ _ (zoom_kalloc (set_q_avail b (set_vmem m2 (set_q_desc a (set_vmem m1 s)))) [] Hok2)), bind_modify, bind_get. simpl. by destruct (a =? 0), (b =? 0).
Qed.

(** ** The handshake *)

(** The accesses before the queue is set up, with what the device answered. *)
Definition negotiation_log (features st max : Z) : list access :=
  [Read VIRTIO_MMIO_MAGIC_VALUE 0x74726976; Read VIRTIO_MMIO_VERSION 2; Read VIRTIO_MMIO_DEVICE_ID 2; Read VIRTIO_MMIO_VENDOR_ID 0x554d4551;
   Write VIRTIO_MMIO_STATUS 0;
   Write VIRTIO_MMIO_STATUS VIRTIO_CONFIG_S_ACKNOWLEDGE;
   Write VIRTIO_MMIO_STATUS (VIRTIO_CONFIG_S_ACKNOWLEDGE + VIRTIO_CONFIG_S_DRIVER);
   Read VIRTIO_MMIO_DEVICE_FEATURES features; Write VIRTIO_MMIO_DRIVER_FEATURES (negotiate features);
   Write VIRTIO_MMIO_STATUS (VIRTIO_CONFIG_S_ACKNOWLEDGE + VIRTIO_CONFIG_S_DRIVER + VIRTIO_CONFIG_S_FEATURES_OK);
   Read VIRTIO_MMIO_STATUS st;
   Write VIRTIO_MMIO_QUEUE_SEL 0; Read VIRTIO_MMIO_QUEUE_READY 0; Read VIRTIO_MMIO_QUEUE_NUM_MAX max].

(** The features the driver does not want. *)
Definition declined : Z :=
  2 ^ VIRTIO_BLK_F_RO + 2 ^ VIRTIO_BLK_F_SCSI + 2 ^ VIRTIO_BLK_F_CONFIG_WCE + 2 ^ VIRTIO_BLK_F_MQ + 2 ^ VIRTIO_F_ANY_LAYOUT +
  2 ^ VIRTIO_RING_F_EVENT_IDX + 2 ^ VIRTIO_RING_F_INDIRECT_DESC.
Lemma negotiate_ok f : 0 <= f < 2 ^ 32 -> negotiate f = Z.ldiff f declined /\ 0 <= negotiate f < 2 ^ 32.
Proof.
  intros Hf. assert (E : negotiate f = Z.land f (2 ^ 64 - 1 - declined)). { unfold negotiate, drop_feature. rewrite <- !Z.land_assoc. reflexivity. }
  assert (E2 : negotiate f = Z.ldiff f declined).
  { rewrite E. replace (2 ^ 64 - 1 - declined) with (Z.ldiff (Z.ones 64) declined) by reflexivity. rewrite !Z.ldiff_land, Z.land_assoc, Z.land_ones, (Z.mod_small f) by lia. done. }
  split; [done|]. rewrite E2. replace (Z.ldiff f declined) with (Z.ldiff f declined mod 2 ^ 32); [apply Z.mod_pos_bound; lia|].
  rewrite <- Z.land_ones, Z.ldiff_land, <- Z.land_assoc, (Z.land_comm _ (Z.ones 32)), Z.land_assoc, Z.land_ones, (Z.mod_small f) by lia. done.
Qed.

(** What a device that follows the specification answers: [written] is the last value
    written to a register, and a write of 0 to the status resets the device. *)
Definition written (r : Z) (l : list access) : option Z :=
  foldl (fun o a => match a with
                    | Write r' v => if r' =? r then Some v else if (r' =? VIRTIO_MMIO_STATUS) && (v =? 0) then None else o
                    | Read _ _ => o
                    end) None l.
Class VirtioMmio (device : list access -> Z -> Z) (offered num_max : Z) : Prop := {
  vm_magic l : device l VIRTIO_MMIO_MAGIC_VALUE = 0x74726976;
  vm_version l : device l VIRTIO_MMIO_VERSION = 2;
  vm_device l : device l VIRTIO_MMIO_DEVICE_ID = 2;
  vm_vendor l : device l VIRTIO_MMIO_VENDOR_ID = 0x554d4551;
  vm_offered : 0 <= offered < 2 ^ 32;
  vm_features l : device l VIRTIO_MMIO_DEVICE_FEATURES = offered;
  vm_status l f v : written VIRTIO_MMIO_DRIVER_FEATURES l = Some f -> Z.ldiff f offered = 0 -> written VIRTIO_MMIO_STATUS l = Some v -> 0 <= v < 2 ^ 8 ->
    device l VIRTIO_MMIO_STATUS = v;
  vm_ready l : written VIRTIO_MMIO_QUEUE_READY l = None -> device l VIRTIO_MMIO_QUEUE_READY = 0;
  vm_num_max : 0 <= num_max < 2 ^ 32;
  vm_max l : device l VIRTIO_MMIO_QUEUE_NUM_MAX = num_max;
}.

Lemma bind_read {A} device r (f : Z -> K vsys A) s : (reg_read device r ≫= f) s = f (uint (device (vlog s) r)) (log (Read r (uint (device (vlog s) r))) s).
Proof. done. Qed.
Lemma bind_write {A} r v (f : unit -> K vsys A) s : (reg_write r v ≫= f) s = f tt (log (Write r (uint v)) s).
Proof. done. Qed.

(** A state that differs in the log. *)
Definition logged (l : list access) (s : vsys) : vsys := mk_vsys (vmem s) (vdisk s) (q_desc s) (q_avail s) (q_used s) (vlog s ++ l).
Lemma log_logged a l s : log a (logged l s) = logged (l ++ [a]) s.
Proof. unfold log, logged. simpl. by rewrite app_assoc. Qed.

Definition found_log : list access :=
  [Read VIRTIO_MMIO_MAGIC_VALUE 0x74726976; Read VIRTIO_MMIO_VERSION 2; Read VIRTIO_MMIO_DEVICE_ID 2; Read VIRTIO_MMIO_VENDOR_ID 0x554d4551].
Lemma not_found_inv device s : exists b s', not_found device s = Ok (b, s') /\ (b = false -> s' = logged found_log s).
Proof.
  unfold not_found. rewrite bind_read. destruct (negb (_ =? 0x74726976)) eqn:E1; [eexists _, _; by split|].
  rewrite bind_read. destruct (negb (_ =? 2)) eqn:E2; [eexists _, _; by split|].
  rewrite bind_read. match goal with |- context [negb (?x =? 2)] => destruct (negb (x =? 2)) eqn:E3 end; [eexists _, _; by split|].
  rewrite bind_read. eexists _, _. split; [reflexivity|]. intros E4. apply negb_false_iff, Z.eqb_eq in E1, E2, E3, E4.
  rewrite E4, E3, E2, E1. unfold log, logged. simpl. by rewrite <- !app_assoc.
Qed.

Record negotiated (device : list access -> Z -> Z) (s : vsys) (features st max : Z) : Prop := {
  ng_features : 0 <= features < 2 ^ 32;
  ng_st : 0 <= st < 2 ^ 32;
  ng_ok : Z.land st VIRTIO_CONFIG_S_FEATURES_OK <> 0;
  ng_max : NUM <= max;
  ng_run : virtio_disk_init device s = start_queue st (logged (negotiation_log features st max) s);
}.

Lemma virtio_disk_init_inv device s s' : virtio_disk_init device s = Ok (tt, s') -> exists features st max, negotiated device s features st max.
Proof.
  intros H. pose proof H as H0. unfold virtio_disk_init in H0. destruct (not_found_inv device s) as (b & s1 & E & Hb). rewrite (bind_ok _ _ _ _ _ E) in H0. destruct b; [discriminate H0|]. specialize (Hb eq_refl) as ->.
  cbv zeta in H0. rewrite !bind_write, bind_read, !bind_write, bind_read, !log_logged in H0.
  set (features := uint (device _ VIRTIO_MMIO_DEVICE_FEATURES)) in H0. set (st := uint (device _ VIRTIO_MMIO_STATUS)) in H0.
  destruct (Z.eqb_spec (Z.land st VIRTIO_CONFIG_S_FEATURES_OK) 0) as [|Hst]; [discriminate H0|]. rewrite bind_write, bind_read in H0.
  match type of H0 with context [uint ?x =? 0] => destruct (Z.eqb_spec (uint x) 0) as [Hrd|]; [|discriminate H0]; rewrite Hrd in H0 end. cbn [negb] in H0. rewrite bind_read, !log_logged in H0.
  set (max := uint (device _ VIRTIO_MMIO_QUEUE_NUM_MAX)) in H0. destruct (Z.eqb_spec max 0); [discriminate H0|]. destruct (Z.ltb_spec max NUM) as [|Hmax]; [discriminate H0|].
  exists features, st, max. split; try done; try apply uint_range. rewrite H, <- H0. f_equal.
  unfold logged. simpl. unfold negotiation_log. rewrite (uint_small (negotiate features)) by (apply negotiate_ok, uint_range). reflexivity.
Qed.

Lemma written_app r l l' : written r (l ++ l') = foldl (fun o a => match a with
    | Write r' v => if r' =? r then Some v else if (r' =? VIRTIO_MMIO_STATUS) && (v =? 0) then None else o
    | Read _ _ => o end) (written r l) l'.
Proof. unfold written. apply foldl_app. Qed.

Lemma virtio_disk_init_conforms device offered num_max s :
  VirtioMmio device offered num_max -> NUM <= num_max -> negotiated device s offered 11 num_max.
Proof.
  intros HD Hn. pose proof (vm_offered (VirtioMmio := HD)) as Ho. pose proof (vm_num_max (VirtioMmio := HD)) as Hm. destruct (negotiate_ok offered Ho) as [Hneg Hnr].
  split; try done; try lia. unfold virtio_disk_init.
  assert (E : not_found device s = Ok (false, logged found_log s)).
  { unfold not_found. rewrite !bind_read, vm_magic. cbn [negb Z.eqb]. change (uint 0x74726976 =? 0x74726976) with true. cbn [negb]. rewrite bind_read, vm_version. change (uint 2 =? 2) with true. cbn [negb].
    rewrite bind_read, vm_device. change (uint 2 =? 2) with true. cbn [negb]. rewrite bind_read, vm_vendor. change (negb (uint 0x554d4551 =? 0x554d4551)) with false. unfold log, logged. simpl. by rewrite <- !app_assoc. }
  rewrite (bind_ok _ _ _ _ _ E). cbv zeta. rewrite !bind_write, bind_read, !bind_write, bind_read, !log_logged, vm_features, (uint_small offered), (uint_small (negotiate offered)) by done.
  rewrite (vm_status _ (negotiate offered) 11); [|unfold logged; simpl; rewrite written_app; reflexivity|rewrite Hneg; apply Z.bits_inj'; intros k Hk; rewrite !Z.ldiff_spec, Z.bits_0; by destruct (Z.testbit offered k), (Z.testbit declined k)|unfold logged; simpl; rewrite written_app; reflexivity|lia].
  change (Z.land (uint 11) VIRTIO_CONFIG_S_FEATURES_OK =? 0) with false. cbv iota. rewrite bind_write, bind_read, !log_logged.
  rewrite (vm_ready); [|unfold logged; simpl; rewrite written_app; reflexivity]. change (negb (uint 0 =? 0)) with false. cbv iota. rewrite bind_read, !log_logged, vm_max, uint_small by lia.
  rewrite (proj2 (Z.eqb_neq num_max 0)), (proj2 (Z.ltb_ge num_max NUM)) by (unfold NUM in *; lia). reflexivity.
Qed.

(** ** Properties *)

(** What [virtio_disk_init] has done when it returns. *)
Definition disk_ready (s : vsys) (l : list Z) (s' : vsys) : Prop :=
  exists features st max s1 l', 0 <= features < 2 ^ 32 /\ Z.land st VIRTIO_CONFIG_S_FEATURES_OK <> 0 /\ NUM <= max /\
    s1 = logged (negotiation_log features st max) s /\ queue_started s1 l st s' l'.

(** C7: the disk driver starts by the book.  With a device that follows the virtio
    specification and has a queue of at least 8 entries, and three free pages,
    [virtio_disk_init] returns.  Whatever the device does, when it returns the driver has made
    the accesses of the initialization sequence and no others: the driver is announced, the
    features accepted are those offered without the seven that are declined, the device has
    confirmed them, the three parts of queue 0 are distinct zero pages that were free, and
    the last access says that the driver is ready.  The driver is then at rest, as
    [virtio_disk_rw] needs it. *)
Theorem virtio_init_ready device offered num_max s l :
  alloc_ok (vmem s) l -> unstarted (vdisk s) ->
  (forall s', virtio_disk_init device s = Ok (tt, s') -> disk_ready s l s') /\
  (VirtioMmio device offered num_max -> NUM <= num_max -> (3 <= length l)%nat -> exists s', virtio_disk_init device s = Ok (tt, s')) /\
  (forall f, 0 <= f < 2 ^ 32 -> negotiate f = Z.ldiff f declined).
Proof.
  intros Hok Hun. split_and!; [intros s' H|intros HD Hn Hl|intros f Hf; by apply negotiate_ok].
  - destruct (virtio_disk_init_inv device s s' H) as (f & st & max & [Hf Hst Hfo Hmax Hrun]). rewrite Hrun in H.
    destruct (decide (3 <= length l)%nat) as [Hl|Hl].
    + destruct (start_queue_ok (logged (negotiation_log f st max) s) l st Hok Hun Hl) as (s'' & l' & E & Q). rewrite H in E. injection E as <-. exists f, st, max, (logged (negotiation_log f st max) s), l'. do 4 (split; [done|]). exact Q.
    + rewrite (start_queue_short (logged (negotiation_log f st max) s) l st Hok ltac:(lia)) in H. discriminate H.
  - destruct (virtio_disk_init_conforms device offered num_max s HD Hn) as [_ _ _ _ Hrun]. rewrite Hrun.
    destruct (start_queue_ok (logged (negotiation_log offered 11 num_max) s) l 11 Hok Hun Hl) as (s' & l' & E & _). by exists s'.
Qed.

(** A device that keeps what was written to its status and has queues of 16 entries. *)
Definition plain_device (l : list access) (r : Z) : Z :=
  if r =? VIRTIO_MMIO_MAGIC_VALUE then 0x74726976
  else if (r =? VIRTIO_MMIO_VERSION) || (r =? VIRTIO_MMIO_DEVICE_ID) then 2
  else if r =? VIRTIO_MMIO_VENDOR_ID then 0x554d4551
  else if r =? VIRTIO_MMIO_DEVICE_FEATURES then 0x31006ed4
  else if r =? VIRTIO_MMIO_QUEUE_NUM_MAX then 16
  else default 0 (written r l).
#[export] Instance plain_device_ok : VirtioMmio plain_device 0x31006ed4 16.
Proof. split; try done; intros l; intros; unfold plain_device; simpl; [by rewrite H1|by rewrite H]. Qed.

(** [struct disk] in the data segment, and the memory of a small machine. *)
Definition disk_bss : disk :=
  mk_disk (replicate 8 (mk_desc NoAddr 0 0 0)) (replicate 8 0) 0 (replicate 8 0) 0 (replicate 8 0) 0 (replicate 8 None) (replicate 8 0) (replicate 8 (mk_req 0 0 0)) ∅ ∅ None 0.
Lemma virtio_init_ready_witness :
  exists s s', virtio_disk_init plain_device s = Ok (tt, s') /\ idle (vdisk s') /\ NoDup [q_desc s'; q_avail s'; q_used s'].
Proof.
  destruct (machine_started 8 ltac:(lia)) as (m & l & _ & Hok & Hk & Hl). set (s := mk_vsys m disk_bss 0 0 0 []).
  assert (Hlen : (3 <= length l)%nat).
  { assert (Hsub : [PHYSTOP - PGSIZE; PHYSTOP - 2 * PGSIZE; PHYSTOP - 3 * PGSIZE] ⊆+ l); [|by apply submseteq_length in Hsub].
    apply NoDup_submseteq; [apply (bool_decide_unpack _); vm_compute; exact I|]. intros p Hp. apply Hl. rewrite Hk. rewrite !elem_of_cons in Hp. unfold page_ok, aligned, machine, PHYSTOP, KERNBASE, PGSIZE in *. cbn [kend].
    destruct Hp as [->|[->|[->|Hp]]]; [| | |by apply elem_of_nil in Hp]; (split; [reflexivity|lia]). }
  destruct (virtio_init_ready plain_device 0x31006ed4 16 s l Hok) as (Hready & Hrun & _); [by split|].
  destruct (Hrun plain_device_ok ltac:(unfold NUM; lia) Hlen) as (s' & He). exists s, s'. split; [exact He|].
  destruct (Hready s' He) as (f & st & max & s1 & l' & _ & _ & _ & _ & Q). split; [apply Q|].
  pose proof (ao_nodup _ _ Hok) as Hnd. rewrite (qs_l _ _ _ _ _ Q) in Hnd. exact (proj1 (proj1 (NoDup_app [q_desc s'; q_avail s'; q_used s'] l') Hnd)).
Defined.
