(* ===== verification/FirstProc.v ===== *)
(** * The memory of the first process

    [proc_pagetable] and [uvmfirst] when there is enough memory: the address space
    [userinit] makes, and what it leaves alone. *)

From stdpp Require Import base numbers list list_numbers gmap strings.
From Stdlib Require Import ZArith Lia.
From S2P Require Import Prelude Params Exec Kalloc Vm VmProof VmMap VmSpace Kvm.

#[local] Opaque tables.

(** Pages taken from the front of the free list, and no other page changed. *)
Record fresh (m : mem) (l : list Z) (m' : mem) (l' : list Z) : Prop := {
  fr_suffix : exists u, l = u ++ l';
  fr_kend : kend m' = kend m;
  fr_frame p : p ∉ l -> ram m' !! p = ram m !! p;
}.
Lemma fresh_trans m l m1 l1 m2 l2 : fresh m l m1 l1 -> fresh m1 l1 m2 l2 -> fresh m l m2 l2.
Proof.
  intros [[u ->] K1 F1] [[v ->] K2 F2]. split; [exists (u ++ v); by rewrite app_assoc|congruence|]. intros p Hp. rewrite F2, F1; [done|done|]. intros Hin. apply Hp. apply elem_of_app. by right.
Qed.
Lemma fresh_in m l m' l' p : fresh m l m' l' -> p ∈ l' -> p ∈ l.
Proof. intros [[u ->] _ _] H. apply elem_of_app. by right. Qed.
(** An operation on a table whose pages were free before. *)
Lemma kstep_fresh m l m1 l1 pt m2 l2 :
  fresh m l m1 l1 -> (forall p, p ∈ tables (ram m1) 2 pt -> p ∈ l) -> kstep m1 l1 pt m2 l2 ->
  fresh m l m2 l2 /\ (forall p, p ∈ tables (ram m2) 2 pt -> p ∈ l).
Proof.
  intros F Ht [S2 K2 F2 T2]. pose proof F as [[u ->] K1 F1]. destruct S2 as [v ->]. split.
  - split; [exists (u ++ v); by rewrite app_assoc|congruence|]. intros p Hp. rewrite F2, F1; [done|done|intros Hin; by apply Hp, Ht|]. intros Hin. apply Hp. apply elem_of_app. by right.
  - intros p [Hp|Hp]%T2; [by apply Ht|]. apply elem_of_app. by right.
Qed.

(** A table keeps what it maps when pages that were free change. *)
Lemma kvm_fresh m l pt out f m' l' : kvm m l pt out f -> alloc_ok m' l' -> fresh m l m' l' -> kvm m' l' pt out f.
Proof.
  intros [Hv Hnd Hpg Hlf] Hok F. pose proof F as [[u Eu] Hk Hfr]. pose proof (vo_nodup _ _ _ Hv) as Hn. apply NoDup_app in Hn as Hn'. destruct Hn' as (_ & Hd & _).
  destruct (vm_ok_ext m l pt m' l' Hv Hok Hk) as (Hv' & Ht & _ & Hl).
  { intros p Hp. apply Hfr. by apply Hd. }
  { intros p Hp Hin. apply (Hd p Hp). by apply (fresh_in _ _ _ _ _ F). }
  split; [done| |by rewrite Hk|intros va Hva; by rewrite Hl, Hlf]. rewrite Ht. rewrite Eu in Hnd.
  eapply sublist_NoDup; [exact Hnd|]. do 2 (apply sublist_app; [done|]). by apply sublist_inserts_l.
Qed.

(** Writing to a page outside the table. *)
Lemma kvm_write m l pt out f p pg :
  kvm m l pt out f -> p ∈ out -> zlen pg = PGSIZE -> bytes_ok pg ->
  kvm (set_ram (insert p pg) m) l pt out f /\ tables (ram (set_ram (insert p pg) m)) 2 pt = tables (ram m) 2 pt.
Proof.
  intros [Hv Hnd Hpg Hlf] Hp Hlen Hb. apply NoDup_app in Hnd as Hn'. destruct Hn' as (_ & Hd & _). specialize (Hd p Hp). rewrite elem_of_app in Hd.
  assert (Hok : alloc_ok (set_ram (insert p pg) m) l).
  { eapply alloc_ok_ext; [apply Hv| |done|done|]; [by apply set_ram_ok; [apply Hv| |]|]. intros q Hq. apply lookup_insert_ne. intros ->. tauto. }
  destruct (vm_ok_ext m l pt _ l Hv Hok eq_refl) as (Hv' & Ht & _ & Hl).
  { intros q Hq. simpl. apply lookup_insert_ne. intros ->. tauto. }
  { intros q Hq Hin. pose proof (vo_nodup _ _ _ Hv) as (_ & Hx & _)%NoDup_app. by apply (Hx q). }
  split; [|done]. split; [done|by rewrite Ht|done|intros va Hva; by rewrite Hl, Hlf].
Qed.

Lemma kstep_trans m l pt m1 l1 m2 l2 : kstep m l pt m1 l1 -> kstep m1 l1 pt m2 l2 -> kstep m l pt m2 l2.
Proof.
  intros [[u ->] K1 F1 T1] [[v ->] K2 F2 T2]. split; [exists (u ++ v); by rewrite app_assoc|congruence| |].
  - intros p Hp Hl. rewrite F2, F1; [done|done|done|intros [?|?]%T1; tauto|intros Hin; apply Hl, elem_of_app; by right].
  - intros p [Hp|Hp]%T2; [by apply T1|]. right. apply elem_of_app. by right.
Qed.
Lemma kstep_write m l pt m1 l1 p pg :
  kstep m l pt m1 l1 -> p ∈ l -> tables (ram (set_ram (insert p pg) m1)) 2 pt = tables (ram m1) 2 pt -> kstep m l pt (set_ram (insert p pg) m1) l1.
Proof.
  intros [S K F T] Hp Ht. split; [done|done| |intros q; rewrite Ht; apply T]. intros q Hq Hl. simpl. rewrite lookup_insert_ne by (by intros ->). by apply F.
Qed.

(** ** The page table *)

Definition user_map (trampoline t : Z) : Z -> option Z :=
  overlay TRAPFRAME PGSIZE t RW (overlay TRAMPOLINE PGSIZE trampoline RX (fun _ => None)).

Lemma proc_pagetable_ok m l trampoline t :
  alloc_ok m l -> 6 <= zlen l -> pa_ok trampoline -> pa_ok t ->
  exists pt m' l', proc_pagetable trampoline t m = Ok (pt, m') /\ kvm m' l' pt [] (user_map trampoline t) /\ fresh m l m' l' /\
    (forall p, p ∈ tables (ram m') 2 pt -> p ∈ l) /\ pt <> 0 /\ zlen l <= zlen l' + 5.
Proof.
  intros Hok Hl [Hat Hrt] [Ha Hr]. destruct l as [|p l]; [done|]. destruct (uvmcreate_ok m p l Hok) as (m1 & He1 & Hu1 & Hk1 & Ht1 & Hlf1 & Hfr1).
  pose proof (proj1 (proj1 (Forall_cons _ _ _) (ao_pages _ _ Hok))) as Hp. pose proof (page_ok_ne0 _ _ (ao_ram _ _ Hok) Hp) as Hp0.
  assert (Hv1 : kvm m1 l p [] (fun _ => None)) by (split; [apply Hu1|apply (vo_nodup _ _ _ (us_vm _ _ _ _ Hu1))|constructor|by intros va _]).
  assert (F1 : fresh m (p :: l) m1 l) by (split; [by exists [p]|done|]; intros q Hq; apply Hfr1; intros ->; apply Hq, list_elem_of_here).
  assert (T1 : forall q, q ∈ tables (ram m1) 2 p -> q ∈ p :: l) by (intros q; rewrite Ht1, list_elem_of_singleton; intros ->; apply list_elem_of_here).
  assert (Hz : zlen (p :: l) = zlen l + 1) by (unfold zlen; simpl; lia). pose proof (regions_page TRAMPOLINE eq_refl) as R1. pose proof (regions_page TRAPFRAME eq_refl) as R2.
  assert (Hb : forall x, 0 <= x < 2 ^ 56 -> aligned x -> x + PGSIZE <= 2 ^ 56) by (intros x Hx Hax; pose proof (aligned_mul _ Hax); unfold PGSIZE in *; lia).
  destruct (mappages_kvm m1 l p [] _ TRAMPOLINE PGSIZE trampoline RX Hv1) as (m2 & l2 & He2 & Hv2 & S2 & Hl2); try done; try lia; [by apply Hb|].
  destruct (kstep_fresh _ _ _ _ _ _ _ F1 T1 S2) as [F2 T2].
  destruct (mappages_kvm m2 l2 p [] _ TRAPFRAME PGSIZE t RW Hv2) as (m3 & l3 & He3 & Hv3 & S3 & Hl3); try done; try lia; [by apply Hb| |].
  { intros va Hva. apply overlay_None with (lo := TRAPFRAME) (hi := TRAPFRAME + PGSIZE); [done|right; unfold TRAPFRAME, TRAMPOLINE, MAXVA, PGSIZE; lia|done]. }
  destruct (kstep_fresh _ _ _ _ _ _ _ F2 T2 S3) as [F3 T3]. exists p, m3, l3. unfold proc_pagetable. rewrite (bind_ok _ _ _ _ _ He1), (proj2 (Z.eqb_neq _ _) Hp0).
  fold RX. fold RW. rewrite (bind_ok _ _ _ _ _ He2). cbn [Z.ltb Z.compare]. rewrite (bind_ok _ _ _ _ _ He3). split_and!; try done. lia.
Qed.

(** ** Its first page *)

Definition RWXU : Z := Z.lor (Z.lor (Z.lor PTE_W PTE_R) PTE_X) PTE_U.

Lemma uvmfirst_ok m l pt f src :
  kvm m l pt [] f -> 4 <= zlen l -> (forall va, 0 <= va < PGSIZE -> f va = None) -> zlen src < PGSIZE -> bytes_ok src ->
  exists pg m' l', uvmfirst pt src m = Ok (tt, m') /\ kvm m' l' pt [pg] (overlay 0 PGSIZE pg RWXU f) /\ kstep m l pt m' l' /\
    ram m' !! pg = Some (src ++ replicate (Z.to_nat (PGSIZE - zlen src)) 0) /\ page_ok (kend m) pg /\ zlen l <= zlen l' + 3.
Proof.
  intros Hv Hl Hf Hsrc Hb. unfold uvmfirst. rewrite (proj2 (Z.leb_gt _ _)) by done. destruct (kalloc_kvm _ _ _ _ _ Hv ltac:(lia)) as (p & m1 & l1 & He1 & Hv1 & S1 & Hp0 & Hl1). cbn [app] in Hv1.
  pose proof (proj1 (proj1 (Forall_cons _ _ _) (kv_pages _ _ _ _ _ Hv1))) as Hp. pose proof Hp as [Hpa Hpr]. pose proof (vo_alloc _ _ _ (kv_ok _ _ _ _ _ Hv1)) as Hok1.
  destruct (page_ok_in m1 p (ao_ram _ _ Hok1) Hp) as (pg1 & Hpg1 & _). rewrite (bind_ok _ _ _ _ _ He1). rewrite (bind_ok _ _ _ _ _ (fill_ok m1 p pg1 0 Hpg1)).
  destruct (kvm_write m1 l1 pt [p] f p (full_page 0) Hv1 ltac:(apply list_elem_of_here) (zlen_full_page 0) ltac:(apply bytes_ok_full_page; unfold byte_ok; lia)) as [Hv2 Ht2].
  assert (Hin : p ∈ l). { destruct l as [|q l]; [done|]. pose proof (kalloc_ok _ _ (vo_alloc _ _ _ (kv_ok _ _ _ _ _ Hv))) as (m0 & E0 & _). rewrite He1 in E0. injection E0 as <- _. apply list_elem_of_here. }
  pose proof (kstep_write _ _ _ _ _ p (full_page 0) S1 Hin Ht2) as S2.
  pose proof (regions_page 0 eq_refl) as R. destruct (mappages_kvm _ l1 pt [p] f 0 PGSIZE p RWXU Hv2) as (m3 & l3 & He3 & Hv3 & S3 & Hl3); try done; try lia.
  { unfold PHYSTOP, KERNBASE, PGSIZE in *. pose proof (ro_kend _ (ao_ram _ _ Hok1)). lia. }
  { unfold PHYSTOP, KERNBASE, PGSIZE in *. lia. }
  unfold RWXU in He3. rewrite (bind_ok _ _ _ _ _ He3). fold RWXU in He3.
  pose proof (kv_nodup _ _ _ _ _ Hv2) as [Hpn _]%NoDup_cons. rewrite elem_of_app in Hpn.
  assert (Hp3 : ram m3 !! p = Some (full_page 0)) by (rewrite (ks_frame _ _ _ _ _ S3) by tauto; apply lookup_insert_eq).
  assert (Hpg : splice (full_page 0) 0 src = src ++ replicate (Z.to_nat (PGSIZE - zlen src)) 0).
  { unfold splice. change (Z.to_nat 0) with 0%nat. rewrite take_0. cbn [app]. f_equal. unfold full_page. rewrite drop_replicate. f_equal. unfold zlen in *. lia. }
  set (pg := src ++ replicate (Z.to_nat (PGSIZE - zlen src)) 0) in *.
  destruct (kvm_write m3 l3 pt [p] _ p pg Hv3 ltac:(apply list_elem_of_here)) as [Hv4 Ht4].
  { unfold pg, zlen in *. rewrite length_app, length_replicate. lia. }
  { apply Forall_app. split; [done|apply Forall_replicate; unfold byte_ok; lia]. }
  exists p, (set_ram (insert p pg) m3), l3. split_and!; [|done| |apply lookup_insert_eq|by rewrite <- (ks_kend _ _ _ _ _ S1)|lia].
  - unfold put_bytes. destruct (pbase_id p Hpa) as [-> ->]. rewrite (bind_ok _ _ _ _ _ (get_page_ok m3 p _ Hp3)), Hpg. by apply set_page_ok with (full_page 0).
  - apply kstep_write; [by eapply kstep_trans|done|done].
Qed.
