(* ===== verification/Main.v ===== *)
(** * The kernel starts

    [main] of [src/kernel/main.c] with [kvminit] and [kvminithart] of [src/kernel/vm.c],
    [cpuid] of [src/kernel/proc.c], [printfinit] and [trapinit], over the state of the whole
    kernel, the memory-mapped disk and the flag [started].  The locks that the init functions
    set up are not part of this state, and the TLB that [sfence_vma] flushes is not either.
    The other harts spin until hart 0 is through: [rounds] is how often they look. *)

From stdpp Require Import base numbers list list_numbers gmap strings.
From Stdlib Require Import ZArith Lia.
From S2P Require Import Prelude Params Path Sleeplock Virtio Bio Kmem Uart Console Fsys Blocks Vfs Dirs File KmemVm ConsoleProof Exec Kalloc Vm VmProof VmMap VmSpace Kvm FirstProc Proc ProcProof ProcSpec Printf Kprintf Kernel KernelSpec VirtioInit.

Record system (U X : Type) := mk_system {
  core : kernel (bcache disk) U X;
  kernel_pagetable : Z;
  disk_desc : Z;
  disk_avail : Z;
  disk_used : Z;
  disk_regs : list access;
  started : Z;
}.
Arguments mk_system {U X}.
Arguments core {U X}.
Arguments kernel_pagetable {U X}.
Arguments disk_desc {U X}.
Arguments disk_avail {U X}.
Arguments disk_used {U X}.
Arguments disk_regs {U X}.
Arguments started {U X}.

Definition set_satp v r := mk_hart (sstatus r) (scause r) (sepc r) (stval r) (stvec r) (sip r) v (tp r).

Section Main.
Context {U X : Type} `{UD : UartDev U} `{PD : PlicDev X}.
(** The disk: what it does with a queued request, and its registers. *)
Context (blk : disk -> disk) (regs : list access -> Z -> Z).
#[local] Instance main_driver : DiskDriver disk := virtio_driver blk.
(** Addresses of the code and of the end of the text. *)
Context (etext trampoline forkret_addr kernelvec : Z) (spin : nat).
Abbreviation S := (system U X).

Definition set_core c (s : S) : S := mk_system c (kernel_pagetable s) (disk_desc s) (disk_avail s) (disk_used s) (disk_regs s) (started s).
Definition set_kpt v (s : S) : S := mk_system (core s) v (disk_desc s) (disk_avail s) (disk_used s) (disk_regs s) (started s).
Definition set_started v (s : S) : S := mk_system (core s) (kernel_pagetable s) (disk_desc s) (disk_avail s) (disk_used s) (disk_regs s) v.
Definition on_core {A} (m : K (kernel (bcache disk) U X) A) : K S A := zoom core set_core m.
Definition on_g {A} (m : K (fsys (bcache disk) kmem) A) : K S A := on_core (on_kp (Proc.on_g m)).
Definition on_ram {A} (m : K mem A) : K S A := on_core (on_kp (on_pmem m)).
Definition print (fmt : list Z) (args : list arg) : K S unit := on_core (on_kcons (kprintf spin fmt args)).

(** The state of [VirtioInit] in that of the kernel. *)
Definition the_fs (s : S) : fsys (bcache disk) kmem := fsg (kp (core s)).
Definition set_fs (g : fsys (bcache disk) kmem) (s : S) : S := set_core (set_kp (set_fsg g (kp (core s))) (core s)) s.
Definition to_virtio (s : S) : vsys := mk_vsys (phys (mm (the_fs s))) (dsk (bc (the_fs s))) (disk_desc s) (disk_avail s) (disk_used s) (disk_regs s).
Definition of_virtio (v : vsys) (s : S) : S :=
  let g := the_fs s in
  let s := set_fs (set_bc (set_dsk (vdisk v) (bc g)) (set_mm (set_phys (vmem v) (mm g)) g)) s in
  mk_system (core s) (kernel_pagetable s) (q_desc v) (q_avail v) (q_used v) (vlog v) (started s).
Definition on_virtio {A} (m : K vsys A) : K S A := zoom to_virtio of_virtio m.

Definition cpuid (h : Z) : K S Z := on_core (r_hart h (fun r => int (tp r))).
Definition kvminit : K S unit := pt ← on_ram (kvmmake etext trampoline); modify (set_kpt pt).
Definition kvminithart (h : Z) : K S unit := s ← get; on_core (w_hart h (set_satp (MAKE_SATP (kernel_pagetable s)))).

(** Hart 0, up to [scheduler]. *)
Definition main_first (h : Z) : K S unit :=
  on_core (on_kcons consoleinit);;
  print [10] [];;
  print (bytes_of "xv6 kernel is booting" ++ [10]) [];;
  print [10] [];;
  on_ram kinit;;
  kvminit;;
  kvminithart h;;
  on_core (on_kp procinit);;
  on_core (trapinithart kernelvec h);;
  on_core plicinit;;
  on_core (plicinithart h);;
  on_g (zoom bc (fun b g => set_bc b g) binit);;
  on_g iinit;;
  on_g fileinit;;
  on_virtio (virtio_disk_init regs);;
  on_core (on_kp (userinit trampoline forkret_addr));;
  modify (set_started 1).

Fixpoint wait_started (rounds : nat) : K S unit :=
  s ← get;
  if started s =? 0 then
    match rounds with
    | O => blocked "started"
    | Datatypes.S rounds => print (bytes_of "Luda Chen") [];; wait_started rounds
    end
  else mret tt.

Definition main_other (rounds : nat) (h : Z) : K S unit :=
  wait_started rounds;;
  id ← cpuid h;
  print (bytes_of "hart %d starting" ++ [10]) [AInt id];;
  kvminithart h;;
  on_core (trapinithart kernelvec h);;
  on_core (plicinithart h).

Definition main (rounds : nat) (h : Z) : K S unit :=
  id ← cpuid h;
  print (bytes_of "cpu id: %d" ++ [10]) [AInt id];;
  id ← cpuid h;
  if id =? 0 then main_first h else main_other rounds h.

End Main.

(** ** Hart 0 comes up

    [main] on hart 0 runs every init function with success when there is memory and the disk
    follows its specification, and hands the scheduler a kernel in which the parts that the
    other files verify are all in the state their theorems start from. *)

#[local] Opaque tables.

(** ** The first process *)

Section First.
Context {G : Type} `{FR : FsRefs G}.
Context (g_mem_set : forall m (g : G), g_mem (g_set_mem m g) = m).
Context (tr fr : Z).

Lemma on_pmem_ok {A} (op : K mem A) (s : psys G) a m' : op (g_mem (fsg s)) = Ok (a, m') -> on_pmem op s = Ok (a, set_fsg (g_set_mem m' (fsg s)) s).
Proof using Type. intros H. unfold on_pmem, Proc.on_g. apply zoom_ok. by apply zoom_ok. Qed.

Definition initcode_name : list Z := [105; 110; 105; 116; 99; 111; 100; 101; 0; 0; 0; 0; 0; 0; 0; 0].

(** Entry 0 with its memory, and when it can run. *)
Definition used_proc (ks pt t : Z) : proc :=
  mk_proc USED None 0 0 1 None ks 0 pt t tf_fill fr (uint64 (ks + PGSIZE)) (replicate 16 None) None (replicate 16 0).
Definition new_proc (ks pt t : Z) (root : option Z) : proc :=
  mk_proc RUNNABLE None 0 0 1 None ks PGSIZE pt t (zupd (zupd tf_fill 3 0) 6 PGSIZE) fr (uint64 (ks + PGSIZE)) (replicate 16 None) root initcode_name.

Lemma allocproc_run ks ps cp ip fi g t m1 pt m2 :
  kalloc (g_mem g) = Ok (t, m1) -> t <> 0 -> proc_pagetable tr t m1 = Ok (pt, m2) -> pt <> 0 ->
  allocproc tr fr (mk_psys (set_kstack ks proc_zero :: ps) cp 1 ip fi g) = Ok (Some 0, mk_psys (used_proc ks pt t :: ps) cp 2 ip fi (g_set_mem m2 (g_set_mem m1 g))).
Proof using g_mem_set.
  intros Hk Ht Hp Hpt. unfold allocproc. rewrite bind_get. change (find_state UNUSED (procs (mk_psys (set_kstack ks proc_zero :: ps) cp 1 ip fi g)) 0) with (Some 0). cbv iota.
  rewrite (bind_ok allocpid _ (mk_psys (set_kstack ks proc_zero :: ps) cp 1 ip fi g) 1 (mk_psys (set_kstack ks proc_zero :: ps) cp 2 ip fi g) eq_refl). unfold updp. rewrite bind_modify.
  erewrite bind_ok by (apply on_pmem_ok; exact Hk). rewrite bind_modify, (proj2 (Z.eqb_neq _ _) Ht).
  erewrite bind_ok by (apply on_pmem_ok; cbn [fsg set_procs set_fsg]; rewrite g_mem_set; exact Hp). rewrite bind_modify, (proj2 (Z.eqb_neq _ _) Hpt). rewrite bind_modify. reflexivity.
Qed.

Lemma userinit_run ks ps cp ip fi g t m1 pt m2 m3 root g' :
  kalloc (g_mem g) = Ok (t, m1) -> t <> 0 -> proc_pagetable tr t m1 = Ok (pt, m2) -> pt <> 0 -> uvmfirst pt initcode m2 = Ok (tt, m3) ->
  g_root (g_set_mem m3 (g_set_mem m2 (g_set_mem m1 g))) = Ok (root, g') ->
  userinit tr fr (mk_psys (set_kstack ks proc_zero :: ps) cp 1 ip fi g) = Ok (tt, mk_psys (new_proc ks pt t root :: ps) cp 2 (Some 0) fi g').
Proof using g_mem_set.
  intros Hk Ht Hp Hpt Hu Hr. unfold userinit. rewrite (bind_ok _ _ _ _ _ (allocproc_run ks ps cp ip fi g t m1 pt m2 Hk Ht Hp Hpt)), bind_modify, bind_get.
  set (g2 := g_set_mem m2 (g_set_mem m1 g)) in *. set (s2 := mk_psys (used_proc ks pt t :: ps) cp 2 (Some 0) fi g2).
  change (mk_psys (procs _) _ _ _ _ _) with s2. change (getp s2 0) with (used_proc ks pt t). cbn [pagetable used_proc].
  rewrite (bind_ok _ _ s2 tt (set_fsg (g_set_mem m3 g2) s2)) by (apply on_pmem_ok; unfold s2, g2; cbn [fsg]; by rewrite g_mem_set).
  unfold updp. rewrite bind_modify.
  set (s3 := set_procs _ (set_fsg _ _)). assert (E3 : s3 = mk_psys (set_name initcode_name (set_tf (zupd (zupd tf_fill 3 0) 6 PGSIZE) (set_sz PGSIZE (used_proc ks pt t))) :: ps) cp 2 (Some 0) fi (g_set_mem m3 g2)).
  { unfold s3, set_procs, set_fsg. cbn [procs cpus nextpid initproc first fsg s2]. reflexivity. }
  rewrite E3. rewrite (bind_ok _ _ _ root (set_fsg g' s3)); [by rewrite E3|]. rewrite E3. unfold Proc.on_g. apply zoom_ok. exact Hr.
Qed.
End First.

(** ** The state of the system, part by part *)

Definition free_inode : inode := mk_inode false false 0 0 (mk_sleeplock 0 0) 0 0 0 0 0.
Definition root_inode : inode := mk_inode false false ROOTINO 1 (mk_sleeplock 0 0) 0 ROOTDEV 0 0 0.
(** The entries of the process table after [procinit], but the first. *)
Definition other_procs : list proc := imap (fun i p => set_kstack (KSTACK (Z.of_nat (S i))) (set_state UNUSED p)) (replicate 63 proc_zero).

Section Boot.
Context {U X : Type} `{UD : UartDev U, UL : !UartDevLaws U} `{PD : PlicDev X}.
Context (capacity : Z) (blk : disk -> disk) {VB : VirtioBlk capacity blk} (regs : list access -> Z -> Z).
#[local] Instance boot_driver : DiskDriver disk := virtio_driver blk.
#[local] Instance boot_driver_laws : DiskDriverLaws disk := virtio_driver_laws capacity blk.
Context (etext trampoline forkret_addr kernelvec : Z) (spin : nat).
(** What [main] does not touch *)
Context (cp : list (option Z)) (fi : bool) (up : Z) (ks : list Z) (sbk : xv6fs_super_block) (dt : list dentry) (hp : gmap Z kobj) (cw : option Z) (ofl : list (option Z)) (fp pid ti : Z).

Definition sys ps np ip m (d : disk) bb it ft co px hs kpt a1 a2 a3 lg st : system U X :=
  mk_system (mk_kernel (mk_psys ps cp np ip fi (mk_fsys (mk_bcache d bb pid) (mk_kmem m up ks) sbk it dt hp ft cw ofl fp)) co px ti hs) kpt a1 a2 a3 lg st.

Section Steps.
Context (ps : list proc) (np : Z) (ip : option Z) (m : mem) (d : disk) (bb : list buf) (it : list inode) (ft : list file) (co : console U) (px : X) (hs : list hart) (kpt a1 a2 a3 : Z) (lg : list access) (st : Z).
Abbreviation s0 := (sys ps np ip m d bb it ft co px hs kpt a1 a2 a3 lg st).

Lemma ram_step {A} (op : K mem A) a m' : op m = Ok (a, m') -> on_ram blk op s0 = Ok (a, sys ps np ip m' d bb it ft co px hs kpt a1 a2 a3 lg st).
Proof using Type. intros H. unfold on_ram, on_core, on_kp, on_pmem, Proc.on_g, zoom, sys. cbn. by rewrite H. Qed.
Lemma proc_step {A} (op : K (psys (fsys (bcache disk) kmem)) A) a ps' np' ip' m' it' :
  op (mk_psys ps cp np ip fi (mk_fsys (mk_bcache d bb pid) (mk_kmem m up ks) sbk it dt hp ft cw ofl fp)) =
  Ok (a, mk_psys ps' cp np' ip' fi (mk_fsys (mk_bcache d bb pid) (mk_kmem m' up ks) sbk it' dt hp ft cw ofl fp)) ->
  on_core (on_kp op) s0 = Ok (a, sys ps' np' ip' m' d bb it' ft co px hs kpt a1 a2 a3 lg st).
Proof using Type. intros H. unfold on_core, on_kp, zoom, sys. cbn. by rewrite H. Qed.
Lemma print_step fmt args out : idles (U := U) spin -> panicked (cuart co) = false -> bytes_ok fmt -> Forall arg_ok args -> render kconv (directives fmt) args = Some out ->
  exists co', print spin fmt args s0 = Ok (tt, sys ps np ip m d bb it ft co' px hs kpt a1 a2 a3 lg st) /\ panicked (cuart co') = false.
Proof using UL.
  intros Hi Hp Hf Ha Hr. destruct (kprintf_ok spin fmt args co out Hi Hp Hf Ha Hr) as (co' & He & Hs). exists co'. split; [|by rewrite (shown_panicked _ _ _ Hs)].
  unfold print, on_core, on_kcons, zoom, sys. cbn. by rewrite He.
Qed.
Lemma console_step : panicked (cuart co) = false -> exists co', on_core (on_kcons consoleinit) s0 = Ok (tt, sys ps np ip m d bb it ft co' px hs kpt a1 a2 a3 lg st) /\ panicked (cuart co') = false.
Proof using Type. intros Hp. eexists. split; [reflexivity|]. exact Hp. Qed.
Lemma trapinithart_step : on_core (trapinithart kernelvec 0) s0 = Ok (tt, sys ps np ip m d bb it ft co px (alter (set_stvec kernelvec) 0%nat hs) kpt a1 a2 a3 lg st).
Proof using Type. reflexivity. Qed.
Lemma kvminithart_step : kvminithart 0 s0 = Ok (tt, sys ps np ip m d bb it ft co px (alter (set_satp (MAKE_SATP kpt)) 0%nat hs) kpt a1 a2 a3 lg st).
Proof using Type. reflexivity. Qed.
Lemma plicinit_step : on_core plicinit s0 = Ok (tt, sys ps np ip m d bb it ft co (plic_write (PLIC + VIRTIO0_IRQ * 4) 1 (plic_write (PLIC + UART0_IRQ * 4) 1 px)) hs kpt a1 a2 a3 lg st).
Proof using Type. reflexivity. Qed.
Lemma plicinithart_step : on_core (plicinithart 0) s0 = Ok (tt, sys ps np ip m d bb it ft co (plic_write (PLIC_SPRIORITY 0) 0 (plic_write (PLIC_SENABLE 0) 0x402 px)) hs kpt a1 a2 a3 lg st).
Proof using Type. reflexivity. Qed.
Lemma virtio_step {A} (op : K vsys A) a v : op (mk_vsys m d a1 a2 a3 lg) = Ok (a, v) ->
  on_virtio op s0 = Ok (a, sys ps np ip (vmem v) (vdisk v) bb it ft co px hs kpt (q_desc v) (q_avail v) (q_used v) (vlog v) st).
Proof using Type. intros H. unfold on_virtio, zoom, to_virtio, sys. cbn. by rewrite H. Qed.
Lemma cache_step bb' : binit (mk_bcache d bb pid) = Ok (tt, mk_bcache d bb' pid) ->
  on_g (zoom bc (fun b g => set_bc b g) binit) s0 = Ok (tt, sys ps np ip m d bb' it ft co px hs kpt a1 a2 a3 lg st).
Proof using Type. intros H. unfold on_g, on_core, on_kp, Proc.on_g, zoom, sys. cbn. by rewrite H. Qed.
Lemma iinit_step : it = replicate (Z.to_nat NINODE) free_inode -> on_g iinit s0 = Ok (tt, s0).
Proof using Type. intros ->. reflexivity. Qed.
Lemma fileinit_step : exists ft', on_g fileinit s0 = Ok (tt, sys ps np ip m d bb it ft' co px hs kpt a1 a2 a3 lg st).
Proof using Type. eexists. reflexivity. Qed.
End Steps.

Lemma boot_mem_set m (g : fsys (bcache disk) kmem) : g_mem (g_set_mem m g) = m.
Proof using Type. reflexivity. Qed.

Lemma root_step b m ft : g_root (mk_fsys b (mk_kmem m up ks) sbk (replicate (Z.to_nat NINODE) free_inode) dt hp ft cw ofl fp) =
  Ok (Some 0, mk_fsys b (mk_kmem m up ks) sbk (root_inode :: replicate 49 free_inode) dt hp ft cw ofl fp).
Proof using Type. reflexivity. Qed.

Lemma binit_bufs : exists bb, forall d : disk, binit (mk_bcache d boot_bufs pid) = Ok (tt, mk_bcache d bb pid).
Proof using Type. eexists. intros d. vm_compute. reflexivity. Qed.

Lemma free_pages m l : (forall p, p ∈ l <-> page_ok (kend m) p) -> kend m + 352 * PGSIZE <= PHYSTOP -> 352 <= zlen l.
Proof using Type.
  intros Hl Hm. assert (Hsub : (fun i => PHYSTOP - PGSIZE * (i + 1)) <$> seqZ 0 352 ⊆+ l).
  { apply NoDup_submseteq; [apply NoDup_fmap_2; [intros i j Hij; unfold PGSIZE in Hij; lia|apply NoDup_seqZ]|]. intros p (i & -> & Hi%elem_of_seqZ)%list_elem_of_fmap. apply Hl.
    split; [|unfold PGSIZE in *; lia]. unfold aligned. replace (PHYSTOP - PGSIZE * (i + 1)) with (PHYSTOP + - (i + 1) * PGSIZE) by lia. by rewrite Z.mod_add. }
  apply submseteq_length in Hsub. rewrite length_fmap, length_seqZ in Hsub. unfold zlen. lia.
Qed.

(** The memory of the kernel and of the first process, after [kvmmake] and [virtio_disk_init]. *)
Record spaces (m : mem) (l : list Z) (kpt : Z) (stacks : list Z) (pt t pg : Z) : Prop := {
  sp_kernel : kvm m l kpt stacks (kernel_map etext trampoline stacks);
  sp_stacks : zlen stacks = NPROC;
  sp_user : kvm m l pt [pg] (overlay 0 PGSIZE pg RWXU (user_map trampoline t));
  sp_code : ram m !! pg = Some (initcode ++ replicate (Z.to_nat (PGSIZE - zlen initcode)) 0);
  sp_trapframe : page_ok (kend m) t;
  sp_free : (4 <= length l)%nat;
}.

Lemma first_process_ok m l kpt stacks :
  kvm m l kpt stacks (kernel_map etext trampoline stacks) -> zlen stacks = NPROC -> 16 <= zlen l -> pa_ok trampoline ->
  exists t m1 pt m2 pg m3 l3, kalloc m = Ok (t, m1) /\ t <> 0 /\ proc_pagetable trampoline t m1 = Ok (pt, m2) /\ pt <> 0 /\ uvmfirst pt initcode m2 = Ok (tt, m3) /\
    spaces m3 l3 kpt stacks pt t pg.
Proof using Type.
  intros Hv Hst Hl Htr. pose proof (vo_alloc _ _ _ (kv_ok _ _ _ _ _ Hv)) as Hok. destruct l as [|t l]; [done|]. destruct (kalloc_ok m (t :: l) Hok) as (m1 & He1 & Hok1 & Hr1 & Hk1).
  pose proof (proj1 (proj1 (Forall_cons _ _ _) (ao_pages _ _ Hok))) as Hp. pose proof (proj1 (proj1 (NoDup_cons _ _) (ao_nodup _ _ Hok))) as Htl. assert (Hz : zlen (t :: l) = zlen l + 1) by (unfold zlen; simpl; lia).
  assert (F1 : fresh m (t :: l) m1 l) by (split; [by exists [t]|done|]; intros q [Hq _]%not_elem_of_cons; by rewrite Hr1, lookup_insert_ne).
  destruct (proc_pagetable_ok m1 l trampoline t Hok1) as (pt & m2 & l2 & He2 & Hv2 & F2 & T2 & Hpt & Hl2); [lia|done|eapply page_ok_pa; [apply (ro_kend _ (ao_ram _ _ Hok))|done]|].
  destruct (uvmfirst_ok m2 l2 pt (user_map trampoline t) initcode Hv2) as (pg & m3 & l3 & He3 & Hv3 & S3 & Hc3 & _ & Hl3); [lia| |done|apply (bool_decide_unpack _); by vm_compute|].
  { intros va Hva. unfold user_map. apply overlay_None with (lo := 0) (hi := PGSIZE); [|unfold TRAPFRAME, TRAMPOLINE, MAXVA, PGSIZE; lia|done]. apply overlay_None; [done|unfold TRAPFRAME, TRAMPOLINE, MAXVA, PGSIZE; lia]. }
  destruct (kstep_fresh _ _ _ _ _ _ _ F2 T2 S3) as [F3 _]. pose proof (fresh_trans _ _ _ _ _ _ F1 F3) as F. exists t, m1, pt, m2, pg, m3, l3. split_and!; try done; [by eapply page_ok_ne0; [apply Hok|]|].
  split; try done; [by eapply kvm_fresh; [exact Hv|apply (vo_alloc _ _ _ (kv_ok _ _ _ _ _ Hv3))|]|by rewrite (fr_kend _ _ _ _ F)|unfold zlen in *; lia].
Qed.

(** ** Hart 0 *)

Lemma virtio_fresh s l st s' l' : queue_started s l st s' l' -> fresh (vmem s) l (vmem s') l'.
Proof using Type.
  intros Q. pose proof (qs_l _ _ _ _ _ Q) as El. split; [rewrite El; by exists [q_desc s'; q_avail s'; q_used s']|apply Q|]. intros p Hp. apply (qs_frame _ _ _ _ _ Q). rewrite El in Hp. exact (proj1 (proj1 (not_elem_of_app [q_desc s'; q_avail s'; q_used s'] l' p) Hp)).
Qed.

Lemma main_first_ok offered num_max m d ft co px hs kpt0 a1 a2 a3 lg st0 :
  idles (U := U) spin -> panicked (cuart co) = false -> ram_ok m -> freelist m = 0 -> layout m etext trampoline -> kend m + 352 * PGSIZE <= PHYSTOP ->
  unstarted d -> VirtioMmio regs offered num_max -> NUM <= num_max -> pa_ok trampoline ->
  exists m' l kpt stacks pt t pg d' bb ft' co' q1 q2 q3 lg',
    main_first blk regs etext trampoline forkret_addr kernelvec spin 0
      (sys (replicate 64 proc_zero) 1 None m d boot_bufs (replicate (Z.to_nat NINODE) free_inode) ft co px hs kpt0 a1 a2 a3 lg st0) =
    Ok (tt, sys (new_proc forkret_addr (KSTACK 0) pt t (Some 0) :: other_procs) 2 (Some 0) m' d' bb (root_inode :: replicate 49 free_inode) ft' co'
          (plic_write (PLIC_SPRIORITY 0) 0 (plic_write (PLIC_SENABLE 0) 0x402 (plic_write (PLIC + VIRTIO0_IRQ * 4) 1 (plic_write (PLIC + UART0_IRQ * 4) 1 px))))
          (alter (set_stvec kernelvec) 0%nat (alter (set_satp (MAKE_SATP kpt)) 0%nat hs)) kpt q1 q2 q3 lg' 1) /\
    spaces m' l kpt stacks pt t pg /\ panicked (cuart co') = false /\ idle d' /\ sectors d' = sectors d /\ (forall d : disk, binit (mk_bcache d boot_bufs pid) = Ok (tt, mk_bcache d bb pid)).
Proof using UL.
  intros Hi Hp Hram Hfl La Hm Hun HD Hn Htr. unfold main_first.
  edestruct console_step as (co1 & E1 & Hp1); [exact Hp|]. rewrite (bind_ok _ _ _ _ _ E1). clear E1.
  edestruct (print_step (replicate 64 proc_zero)) as (co2 & E2 & Hp2); [exact Hi|exact Hp1| | | |rewrite (bind_ok _ _ _ _ _ E2)]; [apply (bool_decide_unpack _); by vm_compute|constructor|reflexivity|]. clear E2.
  edestruct (print_step (replicate 64 proc_zero)) as (co3 & E3 & Hp3); [exact Hi|exact Hp2| | | |rewrite (bind_ok _ _ _ _ _ E3)]; [apply (bool_decide_unpack _); by vm_compute|constructor|reflexivity|]. clear E3.
  edestruct (print_step (replicate 64 proc_zero)) as (co4 & E4 & Hp4); [exact Hi|exact Hp3| | | |rewrite (bind_ok _ _ _ _ _ E4)]; [apply (bool_decide_unpack _); by vm_compute|constructor|reflexivity|]. clear E4.
  destruct (kinit_ok m Hram Hfl ltac:(unfold PGSIZE in *; lia)) as (m1 & l1 & Ek & Hok1 & Hk1 & Hl1). erewrite bind_ok by (apply ram_step; exact Ek).
  assert (La1 : layout m1 etext trampoline) by (destruct La; split; try done; by rewrite Hk1). pose proof (free_pages m1 l1 ltac:(intros p; rewrite Hk1; apply Hl1) ltac:(by rewrite Hk1)) as Hz1.
  destruct (kvmmake_ok m1 l1 etext trampoline Hok1 ltac:(lia) La1) as (kpt & m2 & l2 & stacks & Ev & Hv2 & Hk2 & Hst & Hz2).
  unfold kvminit. erewrite (bind_ok (_ ≫= _)) by (erewrite bind_ok by (apply ram_step; exact Ev); reflexivity).
  change (set_kpt kpt (sys _ _ _ _ _ _ _ _ _ _ _ _ _ _ _ _ _)) with (sys (replicate 64 proc_zero) 1 None m2 d boot_bufs (replicate (Z.to_nat NINODE) free_inode) ft co4 px hs kpt a1 a2 a3 lg st0).
  erewrite bind_ok by apply kvminithart_step. erewrite bind_ok by (apply proc_step; reflexivity). change (imap _ (replicate 64 proc_zero)) with (set_kstack (KSTACK 0) proc_zero :: other_procs).
  erewrite bind_ok by apply trapinithart_step. erewrite bind_ok by apply plicinit_step. erewrite bind_ok by apply plicinithart_step.
  destruct binit_bufs as [bb Hbb]. erewrite bind_ok by (apply cache_step, Hbb). erewrite bind_ok by (by apply iinit_step).
  edestruct fileinit_step as [ft' Eft]. rewrite (bind_ok _ _ _ _ _ Eft). clear Eft.
  destruct (virtio_disk_init_conforms regs offered num_max (mk_vsys m2 d a1 a2 a3 lg) HD Hn) as [_ _ _ _ Hrun].
  edestruct (start_queue_ok (logged (negotiation_log offered 11 num_max) (mk_vsys m2 d a1 a2 a3 lg)) l2 11) as (v & l3 & Eq & Q); [apply Hv2|exact Hun|unfold zlen in Hz1, Hz2; lia|].
  rewrite Eq in Hrun. erewrite bind_ok by (apply virtio_step; exact Hrun). pose proof (virtio_fresh _ _ _ _ _ Q) as F. cbn [vmem logged] in F.
  assert (Hz3 : zlen l2 = zlen l3 + 3) by (rewrite (qs_l _ _ _ _ _ Q); unfold zlen; simpl; lia).
  pose proof (kvm_fresh _ _ _ _ _ _ _ Hv2 (qs_mem _ _ _ _ _ Q) F) as Hv3.
  destruct (first_process_ok (vmem v) l3 kpt stacks Hv3 Hst ltac:(lia) Htr) as (t & m4 & pt & m5 & pg & m6 & l6 & Et & Ht0 & Ep & Hpt0 & Eu & Hsp).
  set (fs m it := mk_fsys (mk_bcache (vdisk v) bb pid) (mk_kmem m up ks) sbk it dt hp ft' cw ofl fp).
  assert (Euser : userinit trampoline forkret_addr (mk_psys (set_kstack (KSTACK 0) proc_zero :: other_procs) cp 1 None fi (fs (vmem v) (replicate (Z.to_nat NINODE) free_inode))) =
    Ok (tt, mk_psys (new_proc forkret_addr (KSTACK 0) pt t (Some 0) :: other_procs) cp 2 (Some 0) fi (fs m6 (root_inode :: replicate 49 free_inode)))).
  { apply (userinit_run (G := fsys (bcache disk) kmem) boot_mem_set trampoline forkret_addr) with (m1 := m4) (m2 := m5) (m3 := m6); [exact Et|exact Ht0|exact Ep|exact Hpt0|exact Eu|apply root_step]. }
  erewrite bind_ok by (apply proc_step; exact Euser).
  exists m6, l6, kpt, stacks, pt, t, pg, (vdisk v), bb, ft'. eexists _, _, _, _, _. split; [reflexivity|]. split; [exact Hsp|]. split; [exact Hp4|].
  split; [apply Q|]. split; [apply (qs_disk _ _ _ _ _ Q)|exact Hbb].
Qed.
End Boot.

(** ** Properties *)

Lemma first_table_ok {G : Type} `{FR : FsRefs G} fr pt t (g : G) : ProcProof.table_ok (mk_psys (new_proc fr (KSTACK 0) pt t (Some 0) :: other_procs) (replicate 8 None) 2 (Some 0) true g).
Proof.
  assert (Ho : forall k p, other_procs !! k = Some p -> state p = UNUSED /\ Proc.pid p = 0 /\ parent p = None).
  { intros k p. unfold other_procs. rewrite list_lookup_imap. destruct (replicate 63 proc_zero !! k) as [q|] eqn:E; [|done]. apply lookup_replicate in E as [-> _]. by intros [= <-]. }
  assert (Hc : forall h i, replicate 8 (@None Z) !! h <> Some (Some i)) by (intros h i [? _]%lookup_replicate; done).
  assert (Hall : forall k p, (new_proc fr (KSTACK 0) pt t (Some 0) :: other_procs) !! k = Some p -> (k = O /\ p = new_proc fr (KSTACK 0) pt t (Some 0)) \/ (state p = UNUSED /\ Proc.pid p = 0 /\ parent p = None)).
  { intros [|k] p Hk; [left; by injection Hk as <-|right; by apply (Ho k)]. }
  split; cbn [procs cpus nextpid initproc]; try done; try (by intros h; intros; edestruct Hc).
  - intros k p [[-> ->]|(Hs & _)]%Hall Hr; [done|congruence].
  - intros k p [[-> ->]|(_ & ? & ?)]%Hall Hr; [done|done].
  - intros k p [[-> ->]|(Hs & _)]%Hall Hr; [done|congruence].
  - intros k k' p p' [[-> ->]|(Hs & _)]%Hall [[-> ->]|(Hs' & _)]%Hall Hr Hr' _; [done|congruence..].
  - intros k p j [[-> ->]|(_ & _ & Hp)]%Hall Hj; [done|congruence].
  - intros j [= <-]. exists O. eexists. split; [done|]. split; [reflexivity|]. by split.
Qed.

Section Up.
Context {U X : Type} `{UD : UartDev U, UL : !UartDevLaws U} `{PD : PlicDev X}.
Context (capacity : Z) (blk : disk -> disk) {VB : VirtioBlk capacity blk}.
#[local] Instance up_driver : DiskDriver disk := virtio_driver blk.
#[local] Instance up_driver_laws : DiskDriverLaws disk := virtio_driver_laws capacity blk.
Context (etext trampoline forkret_addr kernelvec : Z).
Abbreviation memory s := (phys (mm (the_fs s))).

(** The machine when hart 0 enters [main]: the data segment is as the loader leaves it, and
    at least 352 pages lie between the end of the kernel and the end of the memory. *)
Record power_on (s : system U X) : Prop := {
  po_hart : exists r, harts (core s) !! 0%nat = Some r /\ int (tp r) = 0;
  po_table : kp (core s) = reset_table (the_fs s);
  po_bufs : bbuf (bc (the_fs s)) = boot_bufs;
  po_inodes : itable (the_fs s) = replicate (Z.to_nat NINODE) free_inode;
  po_console : panicked (cuart (kcons (core s))) = false;
  po_ram : ram_ok (memory s) /\ freelist (memory s) = 0;
  po_layout : layout (memory s) etext trampoline;
  po_pages : kend (memory s) + 352 * PGSIZE <= PHYSTOP;
  po_disk : unstarted (dsk (bc (the_fs s))) /\ sectors_ok (dsk (bc (the_fs s)));
}.

(** The kernel that [main] hands to the scheduler. *)
Record running (s s' : system U X) : Prop := {
  ru_spaces : exists l stacks pt t pg, spaces etext trampoline (memory s') l (kernel_pagetable s') stacks pt t pg /\
    procs (kp (core s')) = new_proc forkret_addr (KSTACK 0) pt t (Some 0) :: other_procs;
  ru_table : ProcProof.table_ok (kp (core s')) /\ initproc (kp (core s')) = Some 0;
  ru_hart : exists r, harts (core s') !! 0%nat = Some r /\ satp r = MAKE_SATP (kernel_pagetable s') /\ stvec r = kernelvec;
  ru_plic : kplic (core s') = plic_write (PLIC_SPRIORITY 0) 0 (plic_write (PLIC_SENABLE 0) 0x402
    (plic_write (PLIC + VIRTIO0_IRQ * 4) 1 (plic_write (PLIC + UART0_IRQ * 4) 1 (kplic (core s)))));
  ru_cache : binv (bc (the_fs s')) [];
  ru_blocks n : dd_block (dsk (bc (the_fs s'))) n = dd_block (dsk (bc (the_fs s))) n;
  ru_root : itable (the_fs s') = root_inode :: replicate 49 free_inode;
  ru_stack : kstk (mm (the_fs s')) = kstk (mm (the_fs s));
  ru_console : panicked (cuart (kcons (core s'))) = false;
  ru_started : started s' = 1;
}.

Lemma main_up regs spin rounds offered num_max s :
  idles (U := U) spin -> VirtioMmio regs offered num_max -> NUM <= num_max -> power_on s ->
  exists s', main blk regs etext trampoline forkret_addr kernelvec spin rounds 0 s = Ok (tt, s') /\ running s s'.
Proof using UL.
  intros Hi HD Hn [(r & Hr & Htp) Ht Hb Hit Hp [Hram Hfl] La Hpg [Hun Hsec]].
  destruct s as [[[ps cp np ip fi [[d bb pid] [m up ks] sbk it dt hp ft cw ofl fp]] co px ti hs] kpt0 a1 a2 a3 lg st0]. cbn [core kp fsg the_fs bc mm phys dsk bbuf itable harts kcons kplic] in *. injection Ht as -> -> -> -> ->. subst bb it.
  fold (sys (U := U) (X := X) (replicate 8 None) true up ks sbk dt hp cw ofl fp pid ti (replicate 64 proc_zero) 1 None m d boot_bufs (replicate (Z.to_nat NINODE) free_inode) ft co px hs kpt0 a1 a2 a3 lg st0).
  assert (Htr : pa_ok trampoline) by (split; [apply La|]; pose proof (la_text _ _ _ La); pose proof (la_end _ _ _ La); unfold PHYSTOP, KERNBASE in *; lia).
  assert (Ht0 : hs !!! 0%nat = r) by (by apply list_lookup_total_correct). unfold main.
  assert (Ec : forall co, let s1 := sys (U := U) (X := X) (replicate 8 None) true up ks sbk dt hp cw ofl fp pid ti (replicate 64 proc_zero) 1 None m d boot_bufs (replicate (Z.to_nat NINODE) free_inode) ft co px hs kpt0 a1 a2 a3 lg st0 in cpuid 0 s1 = Ok (0, s1)).
  { intros co1. unfold cpuid, on_core, r_hart, zoom, gets, sys. cbn. change (Z.to_nat 0) with 0%nat. by rewrite Ht0, Htp. }
  rewrite (bind_ok _ _ _ _ _ (Ec co)). edestruct (print_step (U := U) (X := X) spin (replicate 8 None) true up ks sbk dt hp cw ofl fp pid ti (replicate 64 proc_zero)) as (co1 & E1 & Hp1); [exact Hi|exact Hp| | | |rewrite (bind_ok _ _ _ _ _ E1)];
    [apply (bool_decide_unpack _); by vm_compute|repeat constructor|reflexivity|]. rewrite (bind_ok _ _ _ _ _ (Ec co1)). cbn [Z.eqb].
  destruct (main_first_ok blk regs etext trampoline forkret_addr kernelvec spin (replicate 8 None) true up ks sbk dt hp cw ofl fp pid ti offered num_max m d ft co1 px hs kpt0 a1 a2 a3 lg st0 Hi Hp1 Hram Hfl La Hpg Hun HD Hn Htr)
    as (m' & l & kpt & stacks & pt & t & pg & d' & bb & ft' & co' & q1 & q2 & q3 & lg' & He & Hsp & Hpan & Hid & Hse & Hbb).
  rewrite He. eexists. split; [reflexivity|]. split; cbn [core kp fsg the_fs bc mm phys dsk bbuf itable harts kcons kplic sys kernel_pagetable procs initproc started]; try done.
  - by exists l, stacks, pt, t, pg.
  - split; [apply first_table_ok|done].
  - rewrite !list_lookup_alter_eq, Hr. eexists. split; [reflexivity|]. by split.
  - destruct (binit_ok d' pid) as (b' & Eb & Hb' & _); [|rewrite Hbb in Eb; injection Eb as <-; exact Hb']. split; [done|]. intros n x. rewrite Hse. apply Hsec.
  - intros n. unfold dd_block. simpl. unfold block_of, sector_of. by rewrite Hse.
Qed.

Lemma print_up spin fmt args out (s : system U X) : idles (U := U) spin -> panicked (cuart (kcons (core s))) = false -> bytes_ok fmt -> Forall arg_ok args -> render kconv (directives fmt) args = Some out ->
  exists co, print spin fmt args s = Ok (tt, set_core (set_kcons co (core s)) s) /\ panicked (cuart co) = false.
Proof using UL.
  intros Hi Hp Hf Ha Hr. destruct (kprintf_ok spin fmt args _ out Hi Hp Hf Ha Hr) as (co & He & Hs). exists co. split; [|by rewrite (shown_panicked _ _ _ Hs)]. unfold print, on_core, on_kcons, zoom. by rewrite He.
Qed.
Lemma cpuid_up h r (s : system U X) : harts (core s) !! Z.to_nat h = Some r -> cpuid h s = Ok (int (tp r), s).
Proof using Type. intros Hr. unfold cpuid, on_core, r_hart, zoom, gets. cbn. rewrite (list_lookup_total_correct _ _ _ Hr). by destruct s as [[]]. Qed.
Lemma render_plain pre ds args : render kconv ((Plain <$> pre) ++ ds) args = (o ← render kconv ds args; Some (pre ++ o)).
Proof using Type. induction pre as [|c pre IH]; [simpl; by destruct (render _ _ _)|]. cbn [fmap list_fmap app render]. rewrite IH. by destruct (render kconv ds args). Qed.
Lemma render_int pre post x : exists o, render kconv ((Plain <$> pre) ++ Conv c_d :: (Plain <$> post) ++ []) [AInt x] = Some (pre ++ o ++ post).
Proof using Type.
  destruct (printint_ok lower_digits (int x) 10 true) as (o & Ho & _); [apply lower_ok|lia|apply int_range|]. exists o.
  assert (Hk : kconv c_d [AInt x] = Some (o, [])) by (unfold kconv; rewrite Z.eqb_refl; cbn [va_int]; simpl; by rewrite Ho).
  rewrite render_plain. cbn [render]. rewrite Hk. simpl. rewrite render_plain. simpl. by rewrite app_nil_r.
Qed.

Section Other.
Context (regs : list access -> Z -> Z) (spin rounds : nat) (Hsp : idles (U := U) spin) (h : Z) (r : hart) (Hid : 0 < int (tp r)).

Lemma print_id pre post x (s : system U X) : panicked (cuart (kcons (core s))) = false -> bytes_ok (pre ++ [37; 100] ++ post) -> directives (pre ++ [37; 100] ++ post) = (Plain <$> pre) ++ Conv c_d :: (Plain <$> post) ++ [] ->
  exists co, print spin (pre ++ [37; 100] ++ post) [AInt x] s = Ok (tt, set_core (set_kcons co (core s)) s) /\ panicked (cuart co) = false.
Proof using UL Hsp.
  intros Hp Hb Hd. destruct (render_int pre post x) as [o Ho]. apply (print_up spin _ _ (pre ++ o ++ post)); [done|done|done|by repeat constructor|]. by rewrite Hd.
Qed.

Lemma wait_started_spins n (s : system U X) : started s = 0 -> panicked (cuart (kcons (core s))) = false -> wait_started spin n s = Blocked "started".
Proof using UL Hsp.
  revert s. induction n as [|n IH]; intros s H0 Hp; cbn [wait_started]; rewrite bind_get, H0; [done|]. cbn [Z.eqb].
  destruct (print_up spin (bytes_of "Luda Chen") [] (bytes_of "Luda Chen") s) as (co & E & Hp'); [done|done|apply (bool_decide_unpack _); by vm_compute|constructor|reflexivity|]. rewrite (bind_ok _ _ _ _ _ E). by apply IH.
Qed.

Lemma main_other_ok s : panicked (cuart (kcons (core s))) = false -> harts (core s) !! Z.to_nat h = Some r ->
  if started s =? 0 then main blk regs etext trampoline forkret_addr kernelvec spin rounds h s = Blocked "started"
  else exists s', main blk regs etext trampoline forkret_addr kernelvec spin rounds h s = Ok (tt, s') /\ kp (core s') = kp (core s) /\
    harts (core s') = alter (set_stvec kernelvec) (Z.to_nat h) (alter (set_satp (MAKE_SATP (kernel_pagetable s))) (Z.to_nat h) (harts (core s))).
Proof using UL Hsp Hid.
  intros Hp Hr. unfold main. rewrite (bind_ok _ _ _ _ _ (cpuid_up h r s Hr)).
  destruct (print_id (bytes_of "cpu id: ") [10] (int (tp r)) s Hp) as (co & E & Hp1); [apply (bool_decide_unpack _); by vm_compute|reflexivity|]. change (bytes_of "cpu id: %d" ++ [10]) with (bytes_of "cpu id: " ++ [37; 100] ++ [10]).
  rewrite (bind_ok _ _ _ _ _ E). set (s1 := set_core _ s) in *. rewrite (bind_ok _ _ _ _ _ (cpuid_up h r s1 Hr)), (proj2 (Z.eqb_neq (int (tp r)) 0)) by lia. unfold main_other.
  destruct (started s =? 0) eqn:Es; zbool.
  - unfold mbind at 1, K_bind at 1. by rewrite (wait_started_spins rounds s1 Es Hp1).
  - assert (Ew : wait_started spin rounds s1 = Ok (tt, s1)) by (destruct rounds; cbn [wait_started]; rewrite bind_get; change (started s1) with (started s); rewrite (proj2 (Z.eqb_neq _ _) Es); done). rewrite (bind_ok _ _ _ _ _ Ew).
    rewrite (bind_ok _ _ _ _ _ (cpuid_up h r s1 Hr)). destruct (print_id (bytes_of "hart ") (bytes_of " starting" ++ [10]) (int (tp r)) s1 Hp1) as (co2 & E2 & Hp2); [apply (bool_decide_unpack _); by vm_compute|reflexivity|].
    change (bytes_of "hart %d starting" ++ [10]) with (bytes_of "hart " ++ [37; 100] ++ (bytes_of " starting" ++ [10])). rewrite (bind_ok _ _ _ _ _ E2). eexists. split; [reflexivity|]. split; reflexivity.
Qed.
End Other.
End Up.

(** C4: the kernel boots.  On a machine whose memory is laid out as the linker script does,
    with 352 pages to spare, a serial line that becomes idle and a disk that follows the
    virtio specification, [main] on hart 0 runs through all the init functions and sets
    [started].  Then the hart runs on the page table of [memlayout.h] with [kernelvec] as its
    trap vector; the interrupt controller passes on the disk and the serial line; the buffer
    cache satisfies its invariant and shows the blocks that are on the disk; and the process
    table is well formed with one process that can run: its memory is the page of [initcode]
    below the trapframe and the trampoline, its directory is the root.  Another hart spins as
    long as [started] is 0, and after that takes the same page table and trap vector. *)
Theorem main_boots {U X} `{UD : UartDev U, UL : !UartDevLaws U} `{PD : PlicDev X} (capacity : Z) (blk : disk -> disk) {VB : VirtioBlk capacity blk}
  regs etext trampoline forkret_addr kernelvec spin rounds offered num_max (s : system U X) :
  idles (U := U) spin -> VirtioMmio regs offered num_max -> NUM <= num_max -> power_on etext trampoline s ->
  let start_hart := main blk regs etext trampoline forkret_addr kernelvec spin rounds in
  exists s', start_hart 0 s = Ok (tt, s') /\ running capacity blk etext trampoline forkret_addr kernelvec s s' /\
    forall h r s, 0 < int (tp r) -> panicked (cuart (kcons (core s))) = false -> harts (core s) !! Z.to_nat h = Some r ->
      if started s =? 0 then start_hart h s = Blocked "started"
      else exists s', start_hart h s = Ok (tt, s') /\ kp (core s') = kp (core s) /\
        harts (core s') = alter (set_stvec kernelvec) (Z.to_nat h) (alter (set_satp (MAKE_SATP (kernel_pagetable s))) (Z.to_nat h) (harts (core s))).
Proof.
  intros Hi HD Hn Hpo start_hart. destruct (main_up capacity blk etext trampoline forkret_addr kernelvec regs spin rounds offered num_max s Hi HD Hn Hpo) as (s' & He & Hr).
  exists s'. split; [exact He|]. split; [exact Hr|]. intros h r s1 Hid Hp Hh. by apply main_other_ok with (r := r).
Qed.

(** A machine with 400 pages of memory above the kernel, a serial line with nothing to read and two harts. *)
Definition demo_system : system demo_uart unit :=
  mk_system (mk_kernel (reset_table (mk_fsys (mk_bcache disk_bss boot_bufs 0) (mk_kmem (machine 400) 0 []) (decode_sb []) (replicate (Z.to_nat NINODE) free_inode) [] ∅ [] None [] 0))
    (demo_console []) tt 0 [inhabitant; mk_hart 0 0 0 0 0 0 0 1]) 0 0 0 0 [] 0.
Lemma demo_kend : kend (phys (mm (the_fs demo_system))) = PHYSTOP - PGSIZE * 400.
Proof. reflexivity. Qed.
Lemma main_boots_witness : exists s', main spec_device plain_device 0x80007000 0x80006000 0x80001234 0x80005678 1 0 0 demo_system = Ok (tt, s') /\ started s' = 1 /\
  main spec_device plain_device 0x80007000 0x80006000 0x80001234 0x80005678 1 0 1 demo_system = Blocked "started".
Proof.
  destruct (main_boots (PD := no_plic) (2 * FSSIZE) spec_device plain_device 0x80007000 0x80006000 0x80001234 0x80005678 1 0 0x31006ed4 16 demo_system) as (s' & He & Hr & Ho).
  - exact demo_idles.
  - exact plain_device_ok.
  - unfold NUM. lia.
  - split; [by exists inhabitant|reflexivity|reflexivity|reflexivity|reflexivity|split; [apply machine_ok; lia|reflexivity]| | |].
    + split; [reflexivity|reflexivity|unfold KERNBASE; lia|]. rewrite demo_kend. unfold PHYSTOP, KERNBASE, PGSIZE. lia.
    + rewrite demo_kend. unfold PGSIZE. lia.
    + split; [by split|]. intros n l H. discriminate H.
  - destruct Hr as [_ _ _ _ _ _ _ _ _ Hst]. exists s'. split; [exact He|]. split; [exact Hst|]. exact (Ho 1 (mk_hart 0 0 0 0 0 0 0 1) demo_system ltac:(by vm_compute) eq_refl eq_refl).
Defined.
