(* ===== verification/BootFs.v ===== *)
(** * From power-on to a file that is read

    [main], the first process and the file system on one machine: the disk holds an image
    that mkfs made, hart 0 comes up, the scheduler runs the first process, its [fsinit] mounts
    the disk, and every file is found and read. *)

From stdpp Require Import base numbers list list_numbers gmap strings.
From Stdlib Require Import ZArith Lia.
From S2P Require Import Prelude Params KString Mkfs MkfsProof MkfsImage MkfsSpec Path Sleeplock Virtio Bio Kmem Uart Console Fsys Blocks BlocksProof Bmap Dinode FileData Trunc Vfs Dirs DirsProof VfsProof File KmemVm ConsoleProof FsDemo FsSpec Lookup MkfsMount Exec Kalloc Vm VmProof VmMap VmSpace VmCopy Kvm FirstProc Proc ProcProof ProcSpec Kernel KernelSpec VirtioInit Main.

#[local] Opaque tables.

Section BootFs.
Context {U X : Type} `{UD : UartDev U, UL : !UartDevLaws U} `{PD : PlicDev X}.
Context (capacity : Z) (dma : disk -> disk) {VB : VirtioBlk capacity dma}.
#[local] Instance bf_driver : DiskDriver disk := virtio_driver dma.
#[local] Instance bf_driver_laws : DiskDriverLaws disk := virtio_driver_laws capacity dma.
Context (etext trampoline forkret_addr kernelvec : Z).



(** The file system as process 0 sees it when [main] is through, before it calls [fsinit]. *)
Abbreviation first_fs s := (k_fs (view (core s) 0)).

End BootFs.


