(* ===== verification/Calls.v ===== *)
(** * User programs as trees of system calls

    A user program is an interaction tree: what it does between two system calls is
    computation, and a call is a node whose branches are the answers of the kernel.
    Loops without end ([for(;;)]) are trees without end.  The calls are those of
    [src/user/user.h], with [stat] and [gets] of [src/user/ulib.c] and [printf] and
    [fprintf] of [src/user/printf.c].

    [drive] runs a program against any kernel; [wp] is a logic for what a program can
    ever ask for, whatever the kernel answers. *)

From stdpp Require Import base numbers list list_numbers strings.
From Stdlib Require Import ZArith Lia.
From ITree Require Import Core.ITreeDefinition.
From S2P Require Import Prelude Params Vfs Path Printf Kernel.

(** Strings and buffers are given by their contents.  A call through [SysRaw] has its number and its
    arguments as they are, for programs that pass addresses of their own making, and [MemLoad] and [MemStore] are accesses through such addresses; [SysTrap] is a program that does what C leaves undefined. *)
Inductive call :=
| SysFork | SysExit (status : Z) | SysWait (status : bool) | SysPipe | SysRead (fd n : Z) | SysKill (pid : Z)
| SysExec (path : list Z) (argv : list (list Z)) | SysFstat (fd : Z) | SysChdir (path : list Z) | SysDup (fd : Z)
| SysGetpid | SysSbrk (n : Z) | SysSleep (n : Z) | SysUptime | SysOpen (path : list Z) (mode : Z)
| SysWrite (fd : Z) (data : list Z) | SysMknod (path : list Z) (major minor : Z) | SysUnlink (path : list Z)
| SysLink (old new : list Z) | SysMkdir (path : list Z) | SysClose (fd : Z)
| SysRaw (num a0 a1 a2 : Z) | MemLoad (a : Z) | MemStore (a v : Z) | SysTrap.

(** The result in [a0] and what the buffer of the caller holds after the call: what the kernel has stored, or whatever was there before. *)
Record ans := mk_ans { ret : Z; stored : list Z }.

Inductive sysE : Type -> Type := Ask (c : call) : sysE ans.
Abbreviation prog := (itree sysE).
#[export] Instance prog_ret : MRet prog := fun A x => Ret x.
#[export] Instance prog_bind : MBind prog := fun A B k t => ITree.bind t k.

Definition ask (c : call) : prog ans := ITree.trigger (Ask c).
Definition asks (c : call) : prog Z := a ← ask c; mret (ret a).

(** ** [src/user/user.h] *)

Definition ufork : prog Z := asks SysFork.
(** A call that does not come back: what follows it is never reached. *)
Definition never {A} : prog A := ITree.spin.
Definition uexit {A} (status : Z) : prog A := ask (SysExit status);; never.
Definition trap {A} : prog A := ask SysTrap;; never.
(** [wait(0)], and [wait(&status)] with the status *)
Definition uwait0 : prog Z := asks (SysWait false).
Definition uwait : prog (Z * Z) := a ← ask (SysWait true); mret (ret a, int (load 4 (stored a) 0)).
(** [pipe(p)] with [p[0]] and [p[1]] *)
Definition upipe : prog (Z * Z * Z) := a ← ask SysPipe; mret (ret a, int (load 4 (stored a) 0), int (load 4 (stored a) 4)).
Definition uwrite (fd : Z) (data : list Z) : prog Z := asks (SysWrite fd data).
Definition uread (fd n : Z) : prog (Z * list Z) := a ← ask (SysRead fd n); mret (ret a, stored a).
Definition uclose (fd : Z) : prog Z := asks (SysClose fd).
Definition ukill (pid : Z) : prog Z := asks (SysKill pid).
Definition uexec (path : list Z) (argv : list (list Z)) : prog Z := asks (SysExec path argv).
Definition uopen (path : list Z) (mode : Z) : prog Z := asks (SysOpen path mode).
Definition umknod (path : list Z) (major minor : Z) : prog Z := asks (SysMknod path major minor).
Definition uunlink (path : list Z) : prog Z := asks (SysUnlink path).
Definition decode_stat (l : list Z) : stat :=
  mk_stat (int (load 4 l 0)) (load 4 l 4) (short (load 2 l 8)) (short (load 2 l 10)) (load 8 l 16).
Definition ufstat (fd : Z) : prog (Z * stat) := a ← ask (SysFstat fd); mret (ret a, decode_stat (stored a)).
Definition ulink (old new : list Z) : prog Z := asks (SysLink old new).
Definition umkdir (path : list Z) : prog Z := asks (SysMkdir path).
Definition uchdir (path : list Z) : prog Z := asks (SysChdir path).
Definition udup (fd : Z) : prog Z := asks (SysDup fd).
Definition ugetpid : prog Z := asks SysGetpid.
Definition usbrk (n : Z) : prog Z := asks (SysSbrk n).
Definition usleep (n : Z) : prog Z := asks (SysSleep n).
Definition uuptime : prog Z := asks SysUptime.
(** [*p] of a [char *p], and [*p = v] *)
Definition uload (a : Z) : prog Z := asks (MemLoad a).
Definition ustore (a v : Z) : prog unit := ask (MemStore a v);; mret tt.
Definition uraw (num a0 a1 a2 : Z) : prog Z := asks (SysRaw num a0 a1 a2).

(** Loops: [forever body] is [for(;;) body], [each l body] goes through a list. *)
Definition forever {A} (body : prog unit) : prog A := ITree.iter (fun _ : unit => body;; mret (inl tt)) tt.
Definition while {S R} (body : S -> prog (S + R)) (s : S) : prog R := ITree.iter body s.
Fixpoint each {A} (l : list A) (body : A -> prog unit) : prog unit :=
  match l with [] => mret tt | x :: l => body x;; each l body end.

(** ** [src/user/printf.c] *)

Definition putc (fd c : Z) : prog unit := uwrite fd [c];; mret tt.
Definition fprintf (fd : Z) (fmt : list Z) (args : list arg) : prog unit :=
  match vprintf fmt args with
  | Some out => each out (putc fd)
  | None => trap
  end.
Definition printf (fmt : list Z) (args : list arg) : prog unit := fprintf 1 fmt args.
(** A string of the source, and one that ends in a newline *)
Definition str (s : string) : list Z := bytes_of s.
Definition line (s : string) : list Z := bytes_of s ++ [10].

(** ** [src/user/ulib.c] *)

Definition main_ (main : prog unit) : prog unit := main;; uexit 0.
Definition ustat (n : list Z) : prog (Z * stat) :=
  fd ← uopen n O_RDONLY;
  if fd <? 0 then mret (-1, mk_stat 0 0 0 0 0)
  else r ← ufstat fd; uclose fd;; mret r.
(** [gets]: what is in the buffer before the NUL; [k] is [max - 1 - i]. *)
Fixpoint ugets (k : nat) : prog (list Z) :=
  match k with
  | O => mret []
  | S k =>
      '(cc, c) ← uread 0 1;
      if cc <? 1 then mret []
      else
        let c := znth c 0 in
        if (c =? 10) || (c =? 13) then mret [c] else rest ← ugets k; mret (c :: rest)
  end.

(** ** A program against a kernel *)

Abbreviation trace := (list (call * ans)).
Inductive fate (R : Type) := Running | Returned (r : R) | Gone.
Arguments Running {R}.
Arguments Returned {R}.
Arguments Gone {R}.
Definition final (c : call) : bool := match c with SysExit _ | SysTrap => true | _ => false end.

(** [n] nodes of the tree [t]; the kernel answers by all that has been asked so far. *)
Fixpoint drive {R} (n : nat) (kern : trace -> call -> ans) (t : prog R) (tr : trace) : fate R * trace :=
  match n with
  | O => (Running, tr)
  | S n =>
      match observe t with
      | RetF r => (Returned r, tr)
      | TauF t => drive n kern t tr
      | VisF e k =>
          match e in sysE X return (X -> prog R) -> fate R * trace with
          | Ask c => fun k =>
              let tr' := tr ++ [(c, kern tr c)] in
              if final c then (Gone, tr') else drive n kern (k (kern tr c)) tr'
          end k
      end
  end.

(** [wp n I t Q tr]: in the first [n] nodes of [t], whatever the answers are, every trace satisfies [I], and [Q] holds when it returns. *)
Fixpoint wp {R} (n : nat) (I : trace -> Prop) (t : prog R) (Q : R -> trace -> Prop) (tr : trace) : Prop :=
  match n with
  | O => True
  | S n =>
      match observe t with
      | RetF r => Q r tr
      | TauF t => wp n I t Q tr
      | VisF e k =>
          match e in sysE X return (X -> prog R) -> Prop with
          | Ask c => fun k => forall a, let tr' := tr ++ [(c, a)] in I tr' /\ (final c = false -> wp n I (k a) Q tr')
          end k
      end
  end.

Lemma wp_drive {R} n I (t : prog R) Q kern tr : I tr -> wp n I t Q tr -> I (drive n kern t tr).2.
Proof.
  revert t tr. induction n as [|n IH]; intros t tr Hi Hw; [done|]. cbn [wp drive] in *. destruct (observe t) as [r|t'|X [c] k]; [done|by apply IH|].
  destruct (Hw (kern tr c)) as [Hi' Hk]. destruct (final c); [done|]. by apply IH, Hk.
Qed.

Lemma wp_mono {R} n I (t : prog R) (Q Q' : R -> trace -> Prop) tr : (forall r tr, Q r tr -> Q' r tr) -> wp n I t Q tr -> wp n I t Q' tr.
Proof.
  intros HQ. revert t tr. induction n as [|n IH]; intros t tr Hw; [done|]. cbn [wp] in *. destruct (observe t) as [r|t'|X [c] k]; [by apply HQ|by apply IH|].
  intros a. destruct (Hw a) as [Hi Hk]. split; [done|]. intros Hf. by apply IH, Hk.
Qed.

Lemma wp_ret {R} n I (r : R) Q tr : Q r tr -> wp n I (mret r) Q tr.
Proof. by destruct n. Qed.

Lemma wp_le {R} n m I (t : prog R) Q tr : (n <= m)%nat -> wp m I t Q tr -> wp n I t Q tr.
Proof.
  revert m t tr. induction n as [|n IH]; intros m t tr Hm Hw; [done|]. destruct m as [|m]; [lia|]. cbn [wp] in *.
  destruct (observe t) as [r|t'|X [c] k]; [done|apply (IH m); [lia|done]|].
  intros a. destruct (Hw a) as [Hi Hk]. split; [done|]. intros Hf. apply (IH m); [lia|by apply Hk].
Qed.

Lemma observe_bind {R A} (t : prog A) (k : A -> prog R) :
  observe (ITree.bind t k) = match observe t with
                             | RetF r => observe (k r)
                             | TauF t => TauF (ITree.bind t k)
                             | VisF e h => VisF e (fun x => ITree.bind (h x) k)
                             end.
Proof.
  change (observe (ITree.bind t k)) with (observe (match observe t with
    | RetF r => k r | TauF t => Tau (ITree.bind t k) | VisF e h => Vis e (fun x => ITree.bind (h x) k) end)). by destruct (observe t).
Qed.

Lemma wp_bind {R A} n I (t : prog A) (k : A -> prog R) Q tr : wp n I t (fun a tr => wp n I (k a) Q tr) tr -> wp n I (t ≫= k) Q tr.
Proof.
  unfold mbind, prog_bind. assert (Hgen : forall m, (n <= m)%nat -> wp n I t (fun a tr => wp m I (k a) Q tr) tr -> wp n I (ITree.bind t k) Q tr); [|by apply Hgen].
  intros m. revert t tr. induction n as [|n IH]; intros t tr Hm Hw; [done|]. cbn [wp] in *. rewrite observe_bind.
  destruct (observe t) as [r|t'|X [c] h]; [by apply (wp_le (S n)) in Hw; [|done]|apply IH; [lia|done]|].
  intros a. destruct (Hw a) as [Hi Hk]. split; [done|]. intros Hf. apply IH; [lia|by apply Hk].
Qed.

Lemma wp_ask n I c Q tr : (forall a, I (tr ++ [(c, a)]) /\ (final c = false -> Q a (tr ++ [(c, a)]))) -> wp n I (ask c) Q tr.
Proof. destruct n as [|n]; [done|]. intros H a. destruct (H a) as [Hi Hq]. split; [done|]. intros Hf. by apply wp_ret, Hq. Qed.
Lemma wp_asks n I c Q tr : (forall a, I (tr ++ [(c, a)]) /\ (final c = false -> Q (ret a) (tr ++ [(c, a)]))) -> wp n I (asks c) Q tr.
Proof. intros H. apply wp_bind, wp_ask. intros a. destruct (H a) as [Hi Hq]. split; [done|]. intros Hf. by apply wp_ret, Hq. Qed.
Lemma wp_exit {A} n I st (Q : A -> trace -> Prop) tr : (forall a, I (tr ++ [(SysExit st, a)])) -> wp n I (uexit st) Q tr.
Proof. intros H. apply wp_bind, wp_ask. intros a. split; [apply H|done]. Qed.

(** A loop keeps an invariant [J] of its variables and of the calls so far. *)
Lemma wp_while {S R} n I (body : S -> prog (S + R)) (J : S -> trace -> Prop) Q s tr :
  (forall s tr, J s tr -> wp n I (body s) (fun r tr => match r with inl s => J s tr | inr r => Q r tr end) tr) -> J s tr -> wp n I (while body s) Q tr.
Proof.
  revert s tr. induction n as [|n IH]; intros s tr Hb Hj; [done|].
  assert (E : observe (while body s) = observe (ITree.bind (body s) (fun r => match r with inl s => Tau (while body s) | inr r => Ret r end))) by done.
  enough (wp (Datatypes.S n) I (ITree.bind (body s) (fun r => match r with inl s => Tau (while body s) | inr r => Ret r end)) Q tr) as H by (cbn [wp] in *; by rewrite E).
  apply wp_bind. eapply wp_mono; [|by apply Hb]. intros [s'|r] tr' H; [|done]. cbn [wp observe _observe]. apply IH; [|done].
  intros s1 tr1 H1. eapply (wp_le n (Datatypes.S n)); [lia|by apply Hb].
Qed.
Lemma wp_forever {A} n I body (J : trace -> Prop) (Q : A -> trace -> Prop) tr :
  (forall tr, J tr -> wp n I body (fun _ tr => J tr) tr) -> J tr -> wp n I (forever body) Q tr.
Proof. intros Hb Hj. apply (wp_while _ _ _ (fun _ tr => J tr)); [|done]. intros [] tr' H. apply wp_bind. eapply wp_mono; [|by apply Hb]. intros ? tr1 H1. by apply wp_ret. Qed.
Lemma wp_each {A} n I (l : list A) body (J : trace -> Prop) tr :
  (forall x tr, x ∈ l -> J tr -> wp n I (body x) (fun _ tr => J tr) tr) -> J tr -> wp n I (each l body) (fun _ tr => J tr) tr.
Proof.
  revert tr. induction l as [|x l IH]; intros tr Hb Hj; [by apply wp_ret|]. apply wp_bind. eapply wp_mono; [|apply Hb; [by left|done]].
  intros ? tr' H. apply IH; [|done]. intros y tr1 Hy. apply Hb. by right.
Qed.

(** What [fprintf] writes keeps an invariant of the calls so far. *)
Lemma wp_fprintf n I (J : trace -> Prop) fd fmt args tr : is_Some (vprintf fmt args) ->
  (forall tr c a, J tr -> I (tr ++ [(SysWrite fd [c], a)]) /\ J (tr ++ [(SysWrite fd [c], a)])) -> J tr -> wp n I (fprintf fd fmt args) (fun _ tr => J tr) tr.
Proof.
  intros [out Ho] HJ Hj. unfold fprintf. rewrite Ho. apply wp_each; [|done]. intros c tr' _ H. apply wp_bind, wp_asks. intros a.
  destruct (HJ tr' c a H) as [Hi Hj']. split; [done|]. intros _. by apply wp_ret.
Qed.

(** ** Properties of every call of a trace *)

Definition every (P : trace -> call -> ans -> Prop) (tr : trace) : Prop := forall l c a r, tr = l ++ (c, a) :: r -> P l c a.
Lemma every_nil P : every P [].
Proof. intros l c a r H. by destruct l. Qed.
Lemma every_snoc P tr c a : every P tr -> P tr c a -> every P (tr ++ [(c, a)]).
Proof.
  intros He Hp l c' a' r E. destruct r as [|e r' _] using rev_ind.
  - apply app_inj_tail in E as [-> [= -> ->]]. done.
  - rewrite app_comm_cons, app_assoc in E. apply app_inj_tail in E as [-> _]. by eapply He.
Qed.

(** ** Programs that never do what C leaves undefined *)

Definition no_trap : trace -> Prop := every (fun _ c _ => c <> SysTrap).
Definition calm {A} (t : prog A) : Prop := forall n tr, no_trap tr -> wp n no_trap t (fun _ tr => no_trap tr) tr.

Lemma calm_drive {A} (t : prog A) n kern : calm t -> no_trap (drive n kern t []).2.
Proof. intros H. apply (wp_drive n no_trap t (fun _ tr => no_trap tr)); [apply every_nil|]. apply H, every_nil. Qed.
Lemma calm_ret {A} (x : A) : calm (mret x).
Proof. intros n tr H. by apply wp_ret. Qed.
Lemma calm_bind {A B} (t : prog A) (k : A -> prog B) : calm t -> (forall x, calm (k x)) -> calm (t ≫= k).
Proof. intros Ht Hk n tr H. apply wp_bind. eapply wp_mono; [|by apply Ht]. intros x tr' H'. by apply Hk. Qed.
Lemma calm_ask c : c <> SysTrap -> calm (ask c).
Proof. intros Hc n tr H. apply wp_ask. intros a. assert (H' : no_trap (tr ++ [(c, a)])) by (by apply every_snoc). by split. Qed.
Lemma calm_asks c : c <> SysTrap -> calm (asks c).
Proof. intros Hc. apply calm_bind; [by apply calm_ask|]. intros a. apply calm_ret. Qed.
Lemma calm_never {A} : calm (never (A := A)).
Proof. intros n tr H. revert tr H. induction n as [|n IH]; intros tr H; [done|]. cbn. by apply IH. Qed.
Lemma calm_exit {A} st : calm (uexit (A := A) st).
Proof. apply calm_bind; [by apply calm_ask|]. intros a. apply calm_never. Qed.
Lemma calm_while {S R} (body : S -> prog (S + R)) s : (forall s, calm (body s)) -> calm (while body s).
Proof. intros Hb n tr H. apply (wp_while _ _ _ (fun _ tr => no_trap tr)); [|done]. intros s' tr' H'. eapply wp_mono; [|by apply Hb]. by intros [|] tr1 H1. Qed.
Lemma calm_forever {A} body : calm body -> calm (forever (A := A) body).
Proof. intros Hb n tr H. apply (wp_forever _ _ _ no_trap); [|done]. intros tr' H'. by apply Hb. Qed.
Lemma calm_each {A} (l : list A) body : (forall x, calm (body x)) -> calm (each l body).
Proof. intros Hb. induction l as [|x l IH]; [apply calm_ret|]. apply calm_bind; [apply Hb|]. intros []. apply IH. Qed.
Lemma calm_fprintf fd fmt args : is_Some (vprintf fmt args) -> calm (fprintf fd fmt args).
Proof. intros [out E]. unfold fprintf. rewrite E. apply calm_each. intros c. apply calm_bind; [by apply calm_asks|]. intros ?. apply calm_ret. Qed.

(** Through a program, node by node; a format is read together with the kinds of its arguments, and a definition is unfolded unless there is a lemma about it. *)
Create HintDb calm.
Ltac head_of t := lazymatch t with ?f _ => head_of f | _ => t end.
Ltac calm_step :=
  lazymatch goal with
  | |- forall _, _ => intro
  | |- calm (mret _) => apply calm_ret
  | |- calm (mbind _ _) => apply calm_bind
  | |- calm (ask _) => apply calm_ask; done
  | |- calm (asks _) => apply calm_asks; done
  | |- calm (uexit _) => apply calm_exit
  | |- calm never => apply calm_never
  | |- calm (while _ _) => apply calm_while
  | |- calm (forever _) => apply calm_forever
  | |- calm (each _ _) => apply calm_each
  | |- calm (fprintf _ _ _) => apply calm_fprintf, vprintf_fits; reflexivity
  | |- calm (match ?x with _ => _ end) => destruct x
  | |- calm ?t => first [solve [auto with calm nocore] | let h := head_of t in unfold h; cbv beta]
  end.
Ltac calm := repeat calm_step.
