(* ===== verification/UserMains.v ===== *)
(** * Small user programs

    [wc], [cat], [echo] and the names that [ls] prints, of [src/user/].  What the
    calls of [read] return is a list of the bytes they bring, each call one entry, and whether the
    last call fails or is the end of the file; what [write] returns is given for each call. *)

From stdpp Require Import base numbers list list_numbers strings.
From Stdlib Require Import ZArith Lia.
From ITree Require Import Core.ITreeDefinition.
From S2P Require Import Prelude Params Vfs Path Printf Sh Grep Sysfile Kernel Calls.

(** ** [src/user/wc.c] *)

(** " \r\t\n\v" *)
Definition wc_spaces : list Z := [32; 13; 9; 10; 11].
Record wc_state := mk_wc { wc_l : Z; wc_w : Z; wc_c : Z; wc_inword : bool }.
Definition wc_byte (s : wc_state) (b : Z) : wc_state :=
  let c := int (wc_c s + 1) in
  let l := if b =? 10 then int (wc_l s + 1) else wc_l s in
  if strchr wc_spaces b then mk_wc l (wc_w s) c false
  else if negb (wc_inword s) then mk_wc l (int (wc_w s + 1)) c true
  else mk_wc l (wc_w s) c (wc_inword s).
(** What is printed, and whether the program exits with 1 *)
Definition wc (reads : list (list Z)) (fails : bool) (name : list Z) : option (list Z) * bool :=
  let s := foldl (fun s buf => foldl wc_byte s buf) (mk_wc 0 0 0 false) reads in
  if fails then (vprintf (bytes_of "wc: read error" ++ [10]) [], true)
  else (vprintf (bytes_of "%d %d %d %s" ++ [10]) [AInt (wc_l s); AInt (wc_w s); AInt (wc_c s); AStr (Some name)], false).

(** ** [src/user/cat.c] *)

(** What [write] has taken, and whether the program exits with 1 after its message on descriptor 2; [wrote k] is the result of the [k]-th call. *)
Fixpoint cat_loop (k : nat) (reads : list (list Z)) (fails : bool) (wrote : nat -> Z) : list (list Z) * bool :=
  match reads with
  | [] => ([], fails)
  | buf :: reads =>
      if negb (wrote k =? zlen buf) then ([buf], true)
      else let '(out, e) := cat_loop (S k) reads fails wrote in (buf :: out, e)
  end.
Definition cat (reads : list (list Z)) (fails : bool) (wrote : nat -> Z) : list (list Z) * bool := cat_loop 0 reads fails wrote.

(** ** [src/user/echo.c]: the arguments after the program's name *)

Fixpoint echo (args : list (list Z)) : list Z :=
  match args with
  | [] => []
  | [a] => a ++ [10]
  | a :: args => a ++ [32] ++ echo args
  end.

(** ** [fmtname] of [src/user/ls.c] *)

(** [p--] from the end of the path to a slash; [k] is one more than the index of [p]. *)
Fixpoint last_slash (path : list Z) (k : nat) : nat :=
  match k with
  | O => O
  | S k' => if default 0 (path !! k') =? 47 then k else last_slash path k'
  end.
Definition fmtname (path : list Z) : list Z :=
  let p := drop (last_slash path (length path)) path in
  if bool_decide (14 <= length p)%nat then p else p ++ replicate (14 - length p) 32.

(** ** What they are for *)

(** The words of a text: the runs of characters that are not white space *)
Fixpoint words_from (cur : bool) (l : list Z) : nat :=
  match l with
  | [] => O
  | b :: l => if strchr wc_spaces b then words_from false l else ((if cur then 0 else 1) + words_from true l)%nat
  end.
Definition count_words (l : list Z) : Z := Z.of_nat (words_from false l).
Definition count_lines (l : list Z) : Z := zlen (filter (fun b => b = 10) l).

Lemma wc_fold s l : 0 <= wc_l s -> 0 <= wc_w s -> wc_c s + zlen l < 2 ^ 31 -> wc_l s <= wc_c s -> wc_w s <= wc_c s ->
  foldl wc_byte s l = mk_wc (wc_l s + count_lines l) (wc_w s + Z.of_nat (words_from (wc_inword s) l)) (wc_c s + zlen l)
    (match last l with Some b => negb (strchr wc_spaces b) | None => wc_inword s end).
Proof.
  revert s. induction l as [|b l IH]; intros s H1 H2 H3 H4 H5.
  - unfold count_lines, zlen. simpl. destruct s. simpl. f_equal; lia.
  - assert (El : zlen (b :: l) = zlen l + 1) by (unfold zlen; simpl; lia). rewrite El in *. pose proof (zlen_nonneg l). cbn [foldl]. rewrite IH.
    2-6: unfold wc_byte; repeat case_match; cbn; rewrite ?int_small by lia; lia.
    assert (Ec : count_lines (b :: l) = (if b =? 10 then 1 else 0) + count_lines l).
    { unfold count_lines, zlen. rewrite filter_cons. destruct (Z.eqb_spec b 10); [rewrite decide_True by done; cbn [length]; lia|by rewrite decide_False]. }
    rewrite Ec. rewrite last_cons. unfold wc_byte. cbn [words_from]. rewrite !int_small by lia.
    destruct (strchr wc_spaces b) eqn:Es; [|destruct (wc_inword s) eqn:Ei]; cbn [wc_l wc_w wc_c wc_inword negb]; f_equal; try (destruct (b =? 10)); try (destruct (last l)); try done; try lia; by rewrite ?Es.
Qed.

Lemma foldl_concat {A} (f : A -> Z -> A) (s : A) (ll : list (list Z)) : foldl (fun s l => foldl f s l) s ll = foldl f s (concat ll).
Proof. revert s. induction ll as [|l ll IH]; intros s; [done|]. simpl. by rewrite foldl_app. Qed.

(** Wc prints the number of lines, words and characters of what it reads, however the reads cut it up. *)
Theorem wc_counts reads name : zlen (concat reads) < 2 ^ 31 ->
  wc reads false name = (vprintf (bytes_of "%d %d %d %s" ++ [10]) [AInt (count_lines (concat reads)); AInt (count_words (concat reads)); AInt (zlen (concat reads)); AStr (Some name)], false).
Proof.
  intros H. unfold wc. rewrite foldl_concat, wc_fold by (cbn; lia). done.
Qed.
Lemma wc_counts_witness : wc [[104; 105; 32; 120]; [121; 10]] false [102] = (Some [49; 32; 50; 32; 54; 32; 102; 10], false).
Proof. rewrite wc_counts by (by vm_compute). by vm_compute. Defined.

Lemma cat_copies k reads fails wrote : (forall j buf, reads !! j = Some buf -> wrote (k + j)%nat = zlen buf) -> cat_loop k reads fails wrote = (reads, fails).
Proof.
  revert k. induction reads as [|buf reads IH]; intros k Hw; [done|]. cbn [cat_loop]. assert (E : wrote k = zlen buf) by (rewrite <- (Hw 0%nat buf eq_refl); f_equal; lia). rewrite E, Z.eqb_refl. cbn [negb].
  rewrite (IH (S k)); [done|]. intros j b Hj. rewrite <- (Hw (S j) b Hj). f_equal. lia.
Qed.

Lemma last_slash_spec path k : (k <= length path)%nat -> let n := last_slash path k in
  (n <= k)%nat /\ (forall j, (n <= j < k)%nat -> path !! j <> Some 47) /\ (n = O \/ path !! (n - 1)%nat = Some 47).
Proof.
  induction k as [|k IH]; intros Hk n; [split_and!; [done|lia|by left]|]. subst n. cbn [last_slash]. destruct (lookup_lt_is_Some_2 path k ltac:(lia)) as [c Hc]. rewrite Hc. change (default 0 (Some c)) with c.
  destruct (Z.eqb_spec c 47) as [->|Hne]; unfold id in *.
  - split_and!; [done|lia|right]. by replace (S k - 1)%nat with k by lia.
  - destruct (IH ltac:(lia)) as (H1 & H2 & H3). split_and!; [lia| |done]. intros j Hj. destruct (decide (j = k)) as [->|]; [rewrite Hc; by intros [= ->]|apply H2; lia].
Qed.
(** The name that is printed is the last element of the path, filled up to [DIRSIZ]. *)
Lemma fmtname_spec dir name : ~ 47 ∈ name -> (dir = [] \/ last dir = Some 47) -> fmtname (dir ++ name) = name ++ replicate (14 - length name) 32.
Proof.
  intros Hn Hd. unfold fmtname. destruct (last_slash_spec (dir ++ name) (length (dir ++ name)) (le_n _)) as (H1 & H2 & H3). set (n := last_slash _ _) in *. rewrite length_app in *.
  assert (En : n = length dir).
  { destruct (decide (n < length dir)%nat) as [Hlt|Hge].
    - destruct Hd as [->|Hd]; [simpl in Hlt; lia|]. exfalso. rewrite last_lookup in Hd. apply (H2 (pred (length dir))); [lia|]. rewrite lookup_app_l by lia. done.
    - destruct H3 as [H3|H3]; [lia|]. destruct (decide (n = length dir)) as [|Hne]; [done|]. exfalso. apply Hn. rewrite lookup_app_r in H3 by lia. by eapply list_elem_of_lookup_2. }
  rewrite En, drop_app_length. case_bool_decide; [|done]. replace (14 - length name)%nat with O by lia. by rewrite app_nil_r.
Qed.

(** ** The user programs and init

    The programs of [src/user/] from [main] on, as trees of system calls: [init], [cat],
    [echo], [wc], [grep], [ls], [kill], [ln], [mkdir], [rm] and [zombie].  An argument
    vector is the list of its strings; a string is the bytes before its NUL.

    Whatever the kernel answers, [cat] writes what it has read and nothing else, and
    [init] keeps exactly one shell and goes on until a call of its own fails. *)

(** ** [src/user/cat.c] *)

Definition ucat (fd : Z) : prog unit :=
  while (fun _ : unit =>
    '(n, buf) ← uread fd 512;
    if 0 <? n then
      w ← uwrite 1 (sub buf 0 n);
      if negb (w =? n) then fprintf 2 (line "cat: write error") [];; uexit 1
      else mret (inl tt)
    else if n <? 0 then fprintf 2 (line "cat: read error") [];; uexit 1
    else mret (inr tt)) tt.
Definition cat_main (argv : list (list Z)) : prog unit :=
  match argv with
  | [] | [_] => ucat 0;; uexit 0
  | _ :: files =>
      each files (fun f =>
        fd ← uopen f 0;
        (if fd <? 0 then fprintf 2 (line "cat: cannot open %s") [AStr (Some f)];; uexit 1 else mret tt);;
        ucat fd;;
        uclose fd;; mret tt);;
      uexit 0
  end.

(** ** [src/user/wc.c] *)

Definition uwc (fd : Z) (name : list Z) : prog unit :=
  s ← while (fun s : wc_state =>
    '(n, buf) ← uread fd 512;
    if 0 <? n then mret (inl (foldl wc_byte s (sub buf 0 n)))
    else if n <? 0 then printf (line "wc: read error") [];; uexit 1
    else mret (inr s)) (mk_wc 0 0 0 false);
  printf (line "%d %d %d %s") [AInt (wc_l s); AInt (wc_w s); AInt (wc_c s); AStr (Some name)].
Definition wc_main (argv : list (list Z)) : prog unit :=
  match argv with
  | [] | [_] => uwc 0 [];; uexit 0
  | _ :: files =>
      each files (fun f =>
        fd ← uopen f 0;
        (if fd <? 0 then printf (line "wc: cannot open %s") [AStr (Some f)];; uexit 1 else mret tt);;
        uwc fd f;;
        uclose fd;; mret tt);;
      uexit 0
  end.

(** ** [src/user/grep.c] *)

(** The inner [while]: the bytes from [p] on; each line is written by a call of its own. *)
Fixpoint grep_lines (n : nat) (pattern data : list Z) : prog (list Z) :=
  match n, cut_line data with
  | S n, Some (l, rest) =>
      (if match_ pattern l then uwrite 1 (l ++ [c_newline]);; mret tt else mret tt);;
      grep_lines n pattern rest
  | _, _ => mret data
  end.
Definition ugrep (pattern : list Z) (fd : Z) : prog unit :=
  while (fun data : list Z =>
    '(n, new) ← uread fd (bufsize - zlen data - 1);
    if 0 <? n then
      let data := data ++ sub new 0 n in
      rest ← grep_lines (length data) pattern data;
      mret (inl rest)
    else mret (inr tt)) [].
Definition grep_main (argv : list (list Z)) : prog unit :=
  match argv with
  | [] | [_] => fprintf 2 (line "usage: grep pattern [file ...]") [];; uexit 1
  | [_; pattern] => ugrep pattern 0;; uexit 0
  | _ :: pattern :: files =>
      each files (fun f =>
        fd ← uopen f 0;
        (if fd <? 0 then printf (line "grep: cannot open %s") [AStr (Some f)];; uexit 1 else mret tt);;
        ugrep pattern fd;;
        uclose fd;; mret tt);;
      uexit 0
  end.

(** ** [src/user/echo.c] *)

Fixpoint echo_args (args : list (list Z)) : prog unit :=
  match args with
  | [] => mret tt
  | a :: args =>
      uwrite 1 a;;
      match args with
      | _ :: _ => uwrite 1 [32];; mret tt
      | [] => uwrite 1 [10];; mret tt
      end;;
      echo_args args
  end.
Definition echo_main (argv : list (list Z)) : prog unit := echo_args (drop 1 argv);; uexit 0.

(** ** [src/user/ls.c] *)

(** [struct xv6fs_dentry]: the inode number and the name as [p] then points to it *)
Definition ls_entry (path de : list Z) : prog unit :=
  if load 2 de 0 =? 0 then mret tt
  else
    let buf := path ++ [slash] ++ cstring (sub de 2 DIRSIZ) in
    '(r, st) ← ustat buf;
    if r <? 0 then printf (line "ls: cannot stat %s") [AStr (Some buf)]
    else printf (line "%s %d %d %d") [AStr (Some (fmtname buf)); AInt (st_type st); AInt (st_ino st); ALong (st_size st)].
Definition ls_dir (path : list Z) (fd : Z) : prog unit :=
  while (fun _ : unit =>
    '(n, de) ← uread fd 16;
    if n =? 16 then ls_entry path de;; mret (inl tt) else mret (inr tt)) tt.
Definition ls (path : list Z) : prog unit :=
  fd ← uopen path 0;
  if fd <? 0 then fprintf 2 (line "ls: cannot open %s") [AStr (Some path)]
  else
    '(r, st) ← ufstat fd;
    if r <? 0 then fprintf 2 (line "ls: cannot stat %s") [AStr (Some path)];; uclose fd;; mret tt
    else
      (if (st_type st =? T_DEVICE) || (st_type st =? T_FILE) then
         printf (line "%s %d %d %l") [AStr (Some (fmtname path)); AInt (st_type st); AInt (st_ino st); ALong (st_size st)]
       else if st_type st =? T_DIR then
         if 512 <? zlen path + 1 + DIRSIZ + 1 then printf (line "ls: path too long") []
         else ls_dir path fd
       else mret tt);;
      uclose fd;; mret tt.
Definition ls_main (argv : list (list Z)) : prog unit :=
  match argv with
  | [] | [_] => ls (str ".");; uexit 0
  | _ :: paths => each paths ls;; uexit 0
  end.

(** ** [src/user/kill.c], [ln.c], [mkdir.c], [rm.c], [zombie.c] *)

Definition kill_main (argv : list (list Z)) : prog unit :=
  match argv with
  | [] | [_] => fprintf 2 (line "usage: kill pid...") [];; uexit 1
  | _ :: args => each args (fun a => ukill (atoi a);; mret tt);; uexit 0
  end.
Definition ln_main (argv : list (list Z)) : prog unit :=
  match argv with
  | [_; old; new] =>
      r ← ulink old new;
      (if r <? 0 then fprintf 2 (line "link %s %s: failed") [AStr (Some old); AStr (Some new)] else mret tt);;
      uexit 0
  | _ => fprintf 2 (line "Usage: ln old new") [];; uexit 1
  end.
(** The loops of [mkdir] and [rm] stop at the first failure. *)
Fixpoint until_fails (call : list Z -> prog Z) (message : list Z) (args : list (list Z)) : prog unit :=
  match args with
  | [] => mret tt
  | a :: args =>
      r ← call a;
      if r <? 0 then fprintf 2 message [AStr (Some a)] else until_fails call message args
  end.
Definition mkdir_main (argv : list (list Z)) : prog unit :=
  match argv with
  | [] | [_] => fprintf 2 (line "Usage: mkdir files...") [];; uexit 1
  | _ :: args => until_fails umkdir (line "mkdir: %s failed to create") args;; uexit 0
  end.
Definition rm_main (argv : list (list Z)) : prog unit :=
  match argv with
  | [] | [_] => fprintf 2 (line "Usage: rm files...") [];; uexit 1
  | _ :: args => until_fails uunlink (line "rm: %s failed to delete") args;; uexit 0
  end.
Definition zombie_main : prog unit :=
  pid ← ufork;
  (if 0 <? pid then usleep 5;; mret tt else mret tt);;
  uexit 0.

(** ** [src/user/init.c] *)

Definition init_argv : list (list Z) := [str "sh"].
(** The inner loop: until the shell is the process that [wait] has reaped *)
Definition init_wait (pid : Z) : prog unit :=
  while (fun _ : unit =>
    wpid ← uwait0;
    if wpid =? pid then mret (inr tt)
    else if wpid <? 0 then printf (line "init: wait returned an error") [];; uexit 1
    else mret (inl tt)) tt.
Definition init_round : prog unit :=
  pid ← ufork;
  if pid <? 0 then printf (line "init: fork failed") [];; uexit 1
  else if pid =? 0 then
    uexec (str "sh") init_argv;;
    printf (line "init: exec sh failed") [];;
    uexit 1
  else init_wait pid.
Definition init_main : prog unit :=
  fd ← uopen (str "console") O_RDWR;
  (if fd <? 0 then
     umknod (str "console") CONSOLE 0;;
     uopen (str "console") O_RDWR;; mret tt
   else mret tt);;
  udup 0;;
  udup 0;;
  forever init_round.

(** ** [cat] copies *)

(** The bytes that the calls of [read] have brought, and those that were given to [write] *)
Definition got1 (e : call * ans) : list Z := match e with (SysRead _ _, a) => sub (stored a) 0 (ret a) | _ => [] end.
Definition got (tr : trace) : list Z := tr ≫= got1.
Definition sent1 (fd : Z) (e : call * ans) : list Z := match e with (SysWrite fd' data, _) => if fd' =? fd then data else [] | _ => [] end.
Definition sent (fd : Z) (tr : trace) : list Z := tr ≫= sent1 fd.
Lemma got_snoc tr e : got (tr ++ [e]) = got tr ++ got1 e.
Proof. unfold got. rewrite bind_app. cbn. by rewrite app_nil_r. Qed.
Lemma sent_snoc fd tr e : sent fd (tr ++ [e]) = sent fd tr ++ sent1 fd e.
Proof. unfold sent. rewrite bind_app. cbn. by rewrite app_nil_r. Qed.
Lemma got_none (a : ans) : ret a <= 0 -> sub (stored a) 0 (ret a) = [].
Proof. intros H. unfold sub. by replace (Z.to_nat (ret a)) with 0%nat by lia. Qed.

Definition cat_ok (tr : trace) : Prop := sent 1 tr `prefix_of` got tr /\ forall l a, tr = l ++ [(SysExit 0, a)] -> sent 1 tr = got tr.
Definition copied (tr : trace) : Prop := sent 1 tr = got tr.

Lemma cat_ok_silent tr c a : c <> SysExit 0 -> sent 1 tr `prefix_of` got tr -> sent1 1 (c, a) = [] -> cat_ok (tr ++ [(c, a)]).
Proof.
  intros Hc Hp Hs. split; [rewrite sent_snoc, got_snoc, Hs, app_nil_r; by apply prefix_app_r|]. intros l a' E.
  apply app_inj_tail in E as [_ [= E _]]. done.
Qed.
(** A call that neither reads nor writes to descriptor 1 *)
Lemma copied_silent tr c a : c <> SysExit 0 -> copied tr -> sent1 1 (c, a) = [] -> got1 (c, a) = [] -> cat_ok (tr ++ [(c, a)]) /\ copied (tr ++ [(c, a)]).
Proof.
  intros Hc H Hs Hg. split; [apply cat_ok_silent; [done|by rewrite H|done]|]. unfold copied. by rewrite sent_snoc, got_snoc, Hs, Hg, !app_nil_r.
Qed.
Lemma wp_message {A} n (Q : A -> trace -> Prop) fmt args tr : is_Some (vprintf fmt args) -> sent 1 tr `prefix_of` got tr -> wp n cat_ok (fprintf 2 fmt args;; uexit 1) Q tr.
Proof.
  intros Hf Hp. apply wp_bind. eapply wp_mono; [|apply (wp_fprintf _ _ (fun tr => sent 1 tr `prefix_of` got tr)); [done| |done]].
  - intros ? tr' H. apply wp_exit. intros a. by apply cat_ok_silent.
  - intros tr' c a H. split; [by apply cat_ok_silent|]. rewrite sent_snoc, got_snoc. cbn. by rewrite !app_nil_r.
Qed.

Lemma ucat_wp n fd tr : copied tr -> wp n cat_ok (ucat fd) (fun _ tr => copied tr) tr.
Proof.
  intros H. apply (wp_while _ _ _ (fun _ tr => copied tr)); [|done]. clear tr H. intros [] tr H. unfold uread.
  apply wp_bind, wp_bind, wp_ask. intros a. split; [apply cat_ok_silent; [done|by rewrite H|done]|]. intros _. apply wp_ret. cbn beta iota.
  destruct (Z.ltb_spec 0 (ret a)) as [Hn|Hn].
  - set (tr1 := tr ++ _). assert (E1 : got tr1 = sent 1 tr ++ sub (stored a) 0 (ret a)) by (unfold tr1; rewrite got_snoc; cbn; by rewrite H).
    assert (E2 : forall b, sent 1 (tr1 ++ [(SysWrite 1 (sub (stored a) 0 (ret a)), b)]) = got (tr1 ++ [(SysWrite 1 (sub (stored a) 0 (ret a)), b)])).
    { intros b. unfold tr1 at 1. rewrite !sent_snoc, got_snoc, E1. cbn. by rewrite !app_nil_r. }
    apply wp_bind, wp_asks. intros b. split; [split; [by rewrite E2|]|].
    + intros l b' E. apply app_inj_tail in E as [_ [= E _]].
    + intros _. destruct (negb _); [|apply wp_ret, E2]. apply wp_message; [by eexists|]. by rewrite E2.
  - assert (E : copied (tr ++ [(SysRead fd 512, a)])) by (unfold copied; rewrite sent_snoc, got_snoc; cbn; by rewrite got_none, !app_nil_r).
    destruct (ret a <? 0); [apply wp_message; [by eexists|by rewrite E]|by apply wp_ret].
Qed.

Lemma wp_exit0 {A} n (Q : A -> trace -> Prop) tr : copied tr -> wp n cat_ok (uexit 0) Q tr.
Proof.
  intros H. apply wp_exit. intros a. assert (E : copied (tr ++ [(SysExit 0, a)])) by (unfold copied; rewrite sent_snoc, got_snoc; cbn; by rewrite !app_nil_r).
  split; [by rewrite E|done].
Qed.

Lemma cat_main_wp n argv Q : wp n cat_ok (cat_main argv) Q [].
Proof.
  assert (H0 : wp n cat_ok (ucat 0;; uexit 0) Q []) by (apply wp_bind; eapply wp_mono; [|by apply ucat_wp]; intros ? tr H; by apply wp_exit0).
  destruct argv as [|p [|f files]]; [done..|]. cbn [cat_main]. apply wp_bind. eapply wp_mono; [|apply (wp_each _ _ _ _ copied); [|done]]; [intros ? tr H; by apply wp_exit0|].
  intros g tr _ H. apply wp_bind, wp_asks. intros a. destruct (copied_silent tr (SysOpen g 0) a) as [Hi Hc]; [done..|]. split; [done|]. intros _.
  apply wp_bind. destruct (ret a <? 0); [apply wp_message; [by eexists|by rewrite Hc]|]. apply wp_ret, wp_bind.
  eapply wp_mono; [|by apply ucat_wp]. intros ? tr' H'. apply wp_bind, wp_asks. intros b. destruct (copied_silent tr' (SysClose (ret a)) b) as [Hi' Hc']; [done..|].
  split; [done|]. intros _. by apply wp_ret.
Qed.

(** C38: Whatever the kernel answers and however it cuts up the input, [cat] writes to descriptor 1 only bytes that it has read, in order and each once; when it exits with 0 it has written all of them.  Its messages go to descriptor 2. *)
Theorem cat_faithful n kern argv : let tr := (drive n kern (cat_main argv) []).2 in
  sent 1 tr `prefix_of` got tr /\ forall l a, tr = l ++ [(SysExit 0, a)] -> sent 1 tr = got tr.
Proof. apply (wp_drive n cat_ok _ (fun _ _ => True)); [|by apply cat_main_wp]. split; [done|]. intros l a E. by destruct l. Qed.

(** ** [init] keeps one shell *)

(** The children that have been forked and not been reaped *)
Definition child1 (l : list Z) (e : call * ans) : list Z :=
  match e with
  | (SysFork, a) => if 0 <? ret a then ret a :: l else l
  | (SysWait _, a) => filter (fun p => p <> ret a) l
  | _ => l
  end.
Definition children (tr : trace) : list Z := foldl child1 [] tr.
Lemma children_snoc tr e : children (tr ++ [e]) = child1 (children tr) e.
Proof. unfold children. by rewrite foldl_app. Qed.
(** A [fork] or [wait] that has failed, or an [exec] that has come back *)
Definition mishap (e : call * ans) : Prop :=
  match e with (SysFork, a) | (SysWait _, a) => ret a < 0 | (SysExec _ _, _) => True | _ => False end.
Definition init_call (tr : trace) (c : call) (a : ans) : Prop :=
  match c with
  | SysFork => children tr = []
  | SysWait _ => exists pid, 0 < pid /\ children tr = [pid]
  | SysExec path _ => path = str "sh"
  | SysExit _ => Exists mishap tr
  | SysTrap => False
  | _ => True
  end.

(** Messages, and the calls that do not change the children *)
Lemma init_message {A} n tr s (Q : A -> trace -> Prop) : every init_call tr -> Exists mishap tr -> is_Some (vprintf s []) -> wp n (every init_call) (printf s [];; uexit 1) Q tr.
Proof.
  intros He Hm Hs. apply wp_bind. eapply wp_mono; [|apply (wp_fprintf _ _ (fun tr => every init_call tr /\ Exists mishap tr)); [done| |done]].
  - intros ? tr' [He' Hm']. apply wp_exit. intros a. by apply every_snoc.
  - intros tr' c a [He' Hm']. assert (every init_call (tr' ++ [(SysWrite 1 [c], a)])) by (by apply every_snoc). split_and!; [done|done|]. apply Exists_app. by left.
Qed.

Definition one_child (pid : Z) (tr : trace) : Prop := every init_call tr /\ 0 < pid /\ children tr = [pid].
Lemma init_wait_wp n pid tr : one_child pid tr -> wp n (every init_call) (init_wait pid) (fun _ tr => every init_call tr /\ children tr = []) tr.
Proof.
  intros H. apply (wp_while _ _ _ (fun _ tr => one_child pid tr)); [|done]. clear tr H. intros [] tr (He & Hp & Hc).
  apply wp_bind, wp_asks. intros a. assert (He' : every init_call (tr ++ [(SysWait false, a)])) by (apply every_snoc; [done|by exists pid]).
  split; [done|]. intros _. destruct (Z.eqb_spec (ret a) pid) as [E|E].
  - apply wp_ret. split; [done|]. rewrite children_snoc, Hc. cbn [child1]. by rewrite E, filter_cons_False, filter_nil by naive_solver.
  - destruct (Z.ltb_spec (ret a) 0) as [Hn|Hn]; [apply init_message; [done| |by eexists]|].
    + apply Exists_app. right. by constructor.
    + apply wp_ret. split_and!; [done|done|]. rewrite children_snoc, Hc. cbn [child1]. by rewrite filter_cons_True, filter_nil.
Qed.

Lemma init_round_wp n tr : every init_call tr /\ children tr = [] -> wp n (every init_call) init_round (fun _ tr => every init_call tr /\ children tr = []) tr.
Proof.
  intros [He Hc]. apply wp_bind, wp_asks. intros a. assert (He' : every init_call (tr ++ [(SysFork, a)])) by (by apply every_snoc).
  split; [done|]. intros _. destruct (Z.ltb_spec (ret a) 0) as [Hn|Hn].
  - apply init_message; [done| |by eexists]. apply Exists_app. right. by constructor.
  - destruct (Z.eqb_spec (ret a) 0) as [E|E].
    + apply wp_bind, wp_asks. intros b. assert (He2 : every init_call ((tr ++ [(SysFork, a)]) ++ [(SysExec (str "sh") init_argv, b)])) by (by apply every_snoc).
      split; [done|]. intros _. apply init_message; [done| |by eexists]. apply Exists_app. right. by constructor.
    + apply init_wait_wp. split_and!; [done|lia|]. rewrite children_snoc, Hc. cbn. by rewrite (proj2 (Z.ltb_lt 0 (ret a))) by lia.
Qed.

Lemma init_main_wp n Q : wp n (every init_call) init_main Q [].
Proof.
  assert (Hq : forall tr c a, init_call tr c a -> (forall l, child1 l (c, a) = l) -> every init_call tr /\ children tr = [] ->
    every init_call (tr ++ [(c, a)]) /\ children (tr ++ [(c, a)]) = []).
  { intros tr c a Hi Hl [He Hc]. split; [by apply every_snoc|]. by rewrite children_snoc, Hl. }
  assert (H0 : every init_call [] /\ children [] = []) by (split; [apply every_nil|done]).
  assert (Ha : forall c (k : Z -> prog unit) tr, (forall a, init_call tr c a) -> (forall a l, child1 l (c, a) = l) -> every init_call tr /\ children tr = [] ->
    (forall r tr', every init_call tr' /\ children tr' = [] -> wp n (every init_call) (k r) Q tr') -> wp n (every init_call) (asks c ≫= k) Q tr).
  { intros c k tr Hi Hl Hs Hk. apply wp_bind, wp_asks. intros a. destruct (Hq tr c a (Hi a) (Hl a) Hs) as [He Hc]. split; [done|]. intros _. by apply Hk. }
  unfold init_main. apply Ha; [done..|]. intros fd tr Htr.
  assert (Hr : forall tr, every init_call tr /\ children tr = [] -> wp n (every init_call) (udup 0;; udup 0;; forever init_round) Q tr).
  { intros tr' H'. apply Ha; [done..|]. intros _ tr1 H1. apply Ha; [done..|]. intros _ tr2 H2.
    apply (wp_forever _ _ _ (fun tr => every init_call tr /\ children tr = [])); [|done]. intros tr3. apply init_round_wp. }
  apply wp_bind. destruct (fd <? 0); [|by apply wp_ret, Hr].
  apply wp_bind, wp_asks. intros a. destruct (Hq tr (SysMknod (str "console") CONSOLE 0) a) as [He Hc]; [done..|]. split; [done|]. intros _.
  apply wp_bind, wp_asks. intros b. destruct (Hq (tr ++ [(SysMknod (str "console") CONSOLE 0, a)]) (SysOpen (str "console") O_RDWR) b) as [He' Hc']; [done|done|by split|]. split; [done|]. intros _. by apply wp_ret, Hr.
Qed.

(** C37: Whatever the kernel answers, [init] forks only when it has no shell, waits only while it has exactly one, execs nothing but the shell, and exits only after a [fork] or [wait] has failed, or an [exec] has come back in the child: it starts the next shell when, and only when, [wait] has reaped the last one, and orphans that [wait] reaps do not count. *)
Theorem init_keeps_shell n kern l c a r : (drive n kern init_main []).2 = l ++ (c, a) :: r -> init_call l c a.
Proof. intros E. pose proof (wp_drive n (every init_call) init_main (fun _ _ => True) kern []) as H. by eapply H; [apply every_nil|apply init_main_wp|]. Qed.

(** A kernel where [wait] reaps orphan 9 first and then the shell, process 2. *)
Definition demo_kern (tr : trace) (c : call) : ans :=
  match c with
  | SysFork => mk_ans 2 []
  | SysWait _ => mk_ans (match last tr with Some (SysWait _, _) => 2 | _ => 9 end) []
  | _ => mk_ans 0 []
  end.
Lemma init_keeps_shell_witness : exists pid, 0 < pid /\
  children [(SysOpen (str "console") O_RDWR, mk_ans 0 []); (SysDup 0, mk_ans 0 []); (SysDup 0, mk_ans 0 []); (SysFork, mk_ans 2 []); (SysWait false, mk_ans 9 [])] = [pid].
Proof.
  apply (init_keeps_shell 11 demo_kern [(SysOpen (str "console") O_RDWR, mk_ans 0 []); (SysDup 0, mk_ans 0 []); (SysDup 0, mk_ans 0 []); (SysFork, mk_ans 2 []); (SysWait false, mk_ans 9 [])]
    (SysWait false) (mk_ans 2 []) [(SysFork, mk_ans 2 []); (SysWait false, mk_ans 9 [])]). vm_compute. reflexivity.
Defined.
