(* ===== verification/ShMain.v ===== *)
(** * The shell, from its first call on

    [main], [getcmd], [runcmd], [fork1] and [panic] of [src/user/sh.c] as trees of
    system calls, over the parser of [Sh].  A string is the bytes before its NUL.

    Whatever the kernel answers, the shell does with every line of its input exactly
    what it should: one child that it waits for, or one [chdir] of its own. *)

From stdpp Require Import base numbers list list_numbers strings.
From Stdlib Require Import ZArith Lia.
From ITree Require Import Core.ITreeDefinition.
From S2P Require Import Prelude Params Path Vfs Printf Sh Sysfile Kernel Calls.

Definition upanic {A} (s : list Z) : prog A := fprintf 2 (line "%s") [AStr (Some s)];; uexit 1.
Definition ufork1 : prog Z :=
  pid ← ufork;
  if pid =? -1 then upanic (str "fork") else mret pid.

(** The command with its words as the strings that [exec] and [open] get *)
Fixpoint uruncmd (c : command) : prog unit :=
  match c with
  | CExec [] => uexit 1
  | CExec (a :: argv) =>
      uexec a (a :: argv);;
      fprintf 2 (line "exec %s failed") [AStr (Some a)];;
      uexit 0
  | CRedir c file mode fd =>
      uclose fd;;
      r ← uopen file mode;
      (if r <? 0 then fprintf 2 (line "open %s failed") [AStr (Some file)];; uexit 1 else mret tt);;
      uruncmd c;;
      uexit 0
  | CList l r =>
      pid ← ufork1;
      (if pid =? 0 then uruncmd l else mret tt);;
      uwait0;;
      uruncmd r;;
      uexit 0
  | CPipe l r =>
      '(e, p0, p1) ← upipe;
      (if e <? 0 then upanic (str "pipe") else mret tt);;
      pid ← ufork1;
      (if pid =? 0 then
         uclose 1;; udup p1;; uclose p0;; uclose p1;; uruncmd l
       else mret tt);;
      pid ← ufork1;
      (if pid =? 0 then
         uclose 0;; udup p0;; uclose p0;; uclose p1;; uruncmd r
       else mret tt);;
      uclose p0;;
      uclose p1;;
      uwait0;;
      uwait0;;
      uexit 0
  | CBack c =>
      pid ← ufork1;
      (if pid =? 0 then uruncmd c else mret tt);;
      uexit 0
  end.

(** What [parsecmd] finds after the command of a line that it does not accept; the other messages come from [parseline]. *)
Definition leftovers (b : list Z) : option (list Z) :=
  match (parseline b (parse_fuel b);; peek b [];; get) O with Ok (s, _) => Some (drop s b) | _ => None end.
(** [runcmd(parsecmd(buf))] in the child; a command the parser has stopped at ends in its [panic]. *)
Definition run_line (buf : list Z) : prog unit :=
  match parsecmd buf with
  | Ok (c, b) => uruncmd (read_cmd (word_cstr b) c)
  | Panic s =>
      match leftovers buf with Some rest => fprintf 2 (line "leftovers: %s") [AStr (Some rest)] | None => mret tt end;;
      upanic (str s)
  | _ => trap
  end.

(** [getcmd(buf, 100)]: the line in [buf], or nothing at the end of the input *)
Definition getcmd : prog (option (list Z)) :=
  uwrite 2 (str "$ ");;
  buf ← ugets 99;
  let buf := cstring buf in
  printf (line "buf: %s") [AStr (Some buf)];;
  match buf with [] => mret None | _ => mret (Some buf) end.

Definition is_cd (buf : list Z) : bool := bool_decide (take 3 buf = [99; 100; 32]).
Definition sh_console : prog unit :=
  while (fun _ : unit =>
    fd ← uopen (str "console") O_RDWR;
    if 0 <=? fd then if 3 <=? fd then uclose fd;; mret (inr tt) else mret (inl tt)
    else mret (inr tt)) tt.
Definition sh_line (buf : list Z) : prog unit :=
  printf (line "command: %s") [AStr (Some buf)];;
  if is_cd buf then
    let path := drop 3 (take (length buf - 1) buf) in
    r ← uchdir path;
    if r <? 0 then fprintf 2 (line "cannot cd %s") [AStr (Some path)] else mret tt
  else
    pid ← ufork1;
    (if pid =? 0 then run_line buf else mret tt);;
    uwait0;; mret tt.
Definition sh_loop : prog unit :=
  while (fun _ : unit =>
    l ← getcmd;
    match l with
    | None => mret (inr tt)
    | Some buf => sh_line buf;; mret (inl tt)
    end) tt.
Definition sh_main : prog unit := sh_console;; sh_loop;; uexit 0.

(** ** What the shell does with its input *)

(** The reads of a byte: what each has brought *)
Definition key1 (e : call * ans) : list (option Z) :=
  match e with (SysRead 0 1, a) => [if ret a <? 1 then None else Some (znth (stored a) 0)] | _ => [] end.
(** The line being typed and the lines that are complete: by a newline or a carriage return, by a read that brings nothing, or by the size of the buffer *)
Definition key (st : list Z * list (list Z)) (k : option Z) : list Z * list (list Z) :=
  match k with
  | None => ([], st.2 ++ [st.1])
  | Some c => let l := st.1 ++ [c] in if (c =? 10) || (c =? 13) || bool_decide (length l = 99%nat) then ([], st.2 ++ [l]) else (l, st.2)
  end.
Definition typed (tr : trace) : list Z * list (list Z) := foldl key ([], []) (tr ≫= key1).
(** What is to be done for a line: [cd] is the shell's own, anything else a child to wait for, and an empty string the end. *)
Definition deed (l : list Z) : list call :=
  let l := cstring l in
  if bool_decide (l = []) then [SysExit 0]
  else if is_cd l then [SysChdir (drop 3 (take (length l - 1) l))]
  else [SysFork; SysWait false].
(** What has been done *)
Definition did1 (e : call * ans) : list call :=
  match e.1 with SysFork | SysWait _ | SysChdir _ | SysExec _ _ | SysExit _ | SysKill _ | SysTrap => [e.1] | _ => [] end.
Definition did (tr : trace) : list call := tr ≫= did1.
(** The process that the shell runs in: each of its calls of [fork] has made a child. *)
Definition forks_ok (tr : trace) : Prop := forall a, (SysFork, a) ∈ tr -> 0 < ret a.

Lemma typed_snoc tr e : typed (tr ++ [e]) = foldl key (typed tr) (key1 e).
Proof. unfold typed. rewrite bind_app, foldl_app. cbn. by rewrite app_nil_r. Qed.
Lemma did_snoc tr e : did (tr ++ [e]) = did tr ++ did1 e.
Proof. unfold did. rewrite bind_app. cbn. by rewrite app_nil_r. Qed.
Lemma forks_ok_snoc tr e : forks_ok (tr ++ [e]) -> forks_ok tr.
Proof. intros H a Ha. apply H. apply elem_of_app. by left. Qed.

Definition sh_ok (tr : trace) : Prop := forks_ok tr -> did tr `prefix_of` (typed tr).2 ≫= deed.
(** A statement about what was typed and done, unless the process is a child or [fork] has failed. *)
Definition holds (G : list Z * list (list Z) -> list call -> Prop) (tr : trace) : Prop := forks_ok tr -> G (typed tr) (did tr).
(** While a line is read, and when it is there but nothing has been done for it *)
Definition typing (acc : list Z) : list Z * list (list Z) -> list call -> Prop := fun st d => st.1 = acc /\ d = st.2 ≫= deed.
Definition ready (l : list Z) : list Z * list (list Z) -> list call -> Prop := fun st d => st.1 = [] /\ exists ls, st.2 = ls ++ [l] /\ d = ls ≫= deed.
Definition sound (G : list Z * list (list Z) -> list call -> Prop) : Prop := forall st d, G st d -> d `prefix_of` st.2 ≫= deed.
Lemma typing_sound acc : sound (typing acc).
Proof. by intros st d [_ ->]. Qed.
Lemma ready_sound l : sound (ready l).
Proof. intros st d (_ & ls & E & ->). rewrite E, bind_app. by apply prefix_app_r. Qed.

(** The next call, with what it adds to the input and to the deeds *)
Lemma holds_snoc (G G' : list Z * list (list Z) -> list call -> Prop) tr c a :
  holds G tr -> sound G' -> (forall st d, ((c, a) = (SysFork, a) -> 0 < ret a) -> G st d -> G' (foldl key st (key1 (c, a))) (d ++ did1 (c, a))) ->
  sh_ok (tr ++ [(c, a)]) /\ holds G' (tr ++ [(c, a)]).
Proof.
  intros H Hs HG. assert (H' : holds G' (tr ++ [(c, a)])).
  { intros Hf. rewrite typed_snoc, did_snoc. apply HG; [|by apply H, (forks_ok_snoc _ _ Hf)]. intros E. apply Hf. rewrite E. apply elem_of_app. right. by left. }
  split; [|done]. intros Hf. by apply Hs, H'.
Qed.
Lemma holds_quiet G tr c a : holds G tr -> sound G -> key1 (c, a) = [] -> did1 (c, a) = [] -> sh_ok (tr ++ [(c, a)]) /\ holds G (tr ++ [(c, a)]).
Proof. intros H Hs E1 E2. apply (holds_snoc G); [done|done|]. intros st d _ Hg. by rewrite E1, E2, app_nil_r. Qed.
Lemma wp_quiet n G c tr : holds G tr -> sound G -> (forall a, key1 (c, a) = []) -> (forall a, did1 (c, a) = []) -> wp n sh_ok (asks c) (fun _ tr => holds G tr) tr.
Proof. intros H Hs E1 E2. apply wp_asks. intros a. destruct (holds_quiet G tr c a) as [Hi Hh]; [done..|]. by split. Qed.
Lemma wp_print n G fd fmt args tr : is_Some (vprintf fmt args) -> holds G tr -> sound G -> wp n sh_ok (fprintf fd fmt args) (fun _ tr => holds G tr) tr.
Proof. intros Hf H Hs. apply wp_fprintf; [done| |done]. intros tr' c a H'. by apply holds_quiet. Qed.

(** Another process: nothing is claimed of it. *)
Lemma wp_other {R} n (t : prog R) tr : ~ forks_ok tr -> wp n sh_ok t (fun _ tr => ~ forks_ok tr) tr.
Proof.
  revert t tr. induction n as [|n IH]; intros t tr H; [done|]. cbn [wp]. destruct (observe t) as [r|t'|X [c] k]; [done|by apply IH|].
  intros a. assert (H' : ~ forks_ok (tr ++ [(c, a)])) by (intros Hf; by apply H, (forks_ok_snoc _ _ Hf)). split; [by intros Hf|]. intros _. by apply IH.
Qed.
Lemma wp_child {R} n (t : prog R) G tr : ~ forks_ok tr -> wp n sh_ok t (fun _ tr => holds G tr) tr.
Proof. intros H. eapply wp_mono; [|by apply wp_other]. intros r tr' Hn Hf. by destruct (Hn Hf). Qed.

Lemma ugets_wp n k acc tr :
  (match k with O => holds (ready acc) tr | _ => holds (typing acc) tr /\ length acc = (99 - k)%nat /\ (k <= 99)%nat end) ->
  wp n sh_ok (ugets k) (fun l tr => holds (ready (acc ++ l)) tr) tr.
Proof.
  revert acc tr. induction k as [|k IH]; intros acc tr H; cbn [ugets]; [apply wp_ret; by rewrite app_nil_r|]. destruct H as (H & Hl & Hk). unfold uread.
  apply wp_bind, wp_bind, wp_ask. intros a. cbn beta.
  assert (Hend : forall l, key (acc, []) (if ret a <? 1 then None else Some (znth (stored a) 0)) = ([], [l]) ->
    sh_ok (tr ++ [(SysRead 0 1, a)]) /\ holds (ready l) (tr ++ [(SysRead 0 1, a)])).
  { intros l E. apply (holds_snoc (typing acc)); [done|apply ready_sound|]. intros [acc' ls] d _ [E1 E2]. cbn in E1, E2. subst acc' d. cbn [key1 foldl].
    cbn in E. rewrite app_nil_r. destruct (ret a <? 1); cbn in *; [by injection E as <-; split; [|eexists]|]. destruct (_ || _); [|done]. injection E as <-. split; [done|by eexists]. }
  destruct (ret a <? 1) eqn:Er.
  { destruct (Hend acc eq_refl) as [Hi Hh]. split; [done|]. intros _. apply wp_ret. cbn beta iota. rewrite Er. apply wp_ret. by rewrite app_nil_r. }
  set (c := znth (stored a) 0) in *. destruct ((c =? 10) || (c =? 13)) eqn:Ec.
  { destruct (Hend (acc ++ [c])) as [Hi Hh]; [cbn; by rewrite Ec|]. split; [done|]. intros _. apply wp_ret. cbn beta iota. rewrite Er. fold c. rewrite Ec. by apply wp_ret. }
  assert (Hn : sh_ok (tr ++ [(SysRead 0 1, a)]) /\ match k with O => holds (ready (acc ++ [c])) (tr ++ [(SysRead 0 1, a)]) | _ => holds (typing (acc ++ [c])) (tr ++ [(SysRead 0 1, a)]) end).
  { destruct k as [|k]; [apply Hend; cbn; rewrite Ec, bool_decide_eq_true_2; [done|rewrite length_app; simpl; lia]|].
    apply (holds_snoc (typing acc)); [done|apply typing_sound|]. intros [acc' ls] d _ [E1 E2]. cbn in E1, E2. subst acc' d. cbn [key1 foldl]. rewrite Er, app_nil_r. fold c.
    cbn. rewrite Ec, bool_decide_eq_false_2; [done|]. rewrite length_app. simpl. lia. }
  destruct Hn as [Hi Hh]. split; [done|]. intros _. apply wp_ret. cbn beta iota. rewrite Er. fold c. rewrite Ec. apply wp_bind.
  eapply wp_mono; [|apply (IH (acc ++ [c])); destruct k; [done|split_and!; [done|rewrite length_app; simpl; lia|lia]]].
  intros l tr' H'. apply wp_ret. cbn beta in H'. by rewrite <- app_assoc in H'.
Qed.

Lemma getcmd_wp n tr : holds (typing []) tr ->
  wp n sh_ok getcmd (fun r tr => match r with None => exists l, cstring l = [] /\ holds (ready l) tr | Some buf => buf <> [] /\ exists l, cstring l = buf /\ holds (ready l) tr end) tr.
Proof.
  intros H. apply wp_bind. eapply wp_mono; [|apply wp_quiet; [done|apply typing_sound|done|done]]. intros ? tr1 H1.
  apply wp_bind. eapply wp_mono; [|by apply (ugets_wp n 99 [] tr1)]. intros l tr2 H2. cbn beta zeta. apply wp_bind.
  eapply wp_mono; [|apply wp_print; [by eexists|exact H2|apply ready_sound]]. intros ? tr3 H3. cbn beta in H3.
  destruct (cstring l) as [|c buf] eqn:E; apply wp_ret; [by exists l|]. split; [done|by exists l].
Qed.

(** What is left of the deeds of a line, and what they are when they are done *)
Definition doing (l : list Z) (d0 : list call) : list Z * list (list Z) -> list call -> Prop :=
  fun st d => st.1 = [] /\ exists ls rest, st.2 = ls ++ [l] /\ deed l = d0 ++ rest /\ d = (ls ≫= deed) ++ d0.
Lemma doing_sound l d0 : sound (doing l d0).
Proof. intros st d (_ & ls & rest & E & Ed & ->). rewrite E, bind_app. cbn. rewrite Ed, app_nil_r. apply prefix_app. by apply prefix_app_r. Qed.
Lemma doing_done l : forall tr, holds (doing l (deed l)) tr -> holds (typing []) tr.
Proof. intros tr H Hf. destruct (H Hf) as (H1 & ls & rest & E & Ed & Hd). split; [done|]. rewrite Hd, E, bind_app. cbn. by rewrite app_nil_r. Qed.
Lemma ready_doing l tr : holds (ready l) tr -> holds (doing l []) tr.
Proof. intros H Hf. destruct (H Hf) as (H1 & ls & E & Hd). split; [done|]. exists ls, (deed l). by rewrite app_nil_r. Qed.
(** The next deed *)
Lemma doing_next l d0 c tr a rest : holds (doing l d0) tr -> deed l = d0 ++ c :: rest -> key1 (c, a) = [] -> did1 (c, a) = [c] ->
  sh_ok (tr ++ [(c, a)]) /\ holds (doing l (d0 ++ [c])) (tr ++ [(c, a)]).
Proof.
  intros H Ed Ek E1. apply (holds_snoc (doing l d0)); [done|apply doing_sound|]. intros st d _ (H1 & ls & r' & E & _ & ->). rewrite Ek, E1. cbn. split; [done|].
  exists ls, rest. split_and!; [done|by rewrite Ed, <- app_assoc|by rewrite app_assoc].
Qed.

Lemma ufork1_wp n l tr : holds (doing l []) tr -> deed l = [SysFork; SysWait false] ->
  wp n sh_ok ufork1 (fun pid tr => (0 < pid \/ ~ forks_ok tr) /\ holds (doing l [SysFork]) tr) tr.
Proof.
  intros H Ed. apply wp_bind, wp_asks. intros a. destruct (doing_next l [] SysFork tr a [SysWait false]) as [Hi Hh]; [done..|]. split; [done|]. intros _.
  destruct (decide (0 < ret a)) as [Hp|Hp].
  - rewrite (proj2 (Z.eqb_neq _ _)) by lia. apply wp_ret. split; [by left|done].
  - assert (Hn : ~ forks_ok (tr ++ [(SysFork, a)])) by (intros Hf; apply Hp, Hf, elem_of_app; right; by left).
    eapply wp_mono; [|by apply wp_other]. intros r tr' Hn'. split; [by right|by intros Hf].
Qed.

Lemma sh_line_wp n l tr : cstring l <> [] -> holds (ready l) tr -> wp n sh_ok (sh_line (cstring l)) (fun _ tr => holds (typing []) tr) tr.
Proof.
  intros Hne H. apply wp_bind. eapply wp_mono; [|apply wp_print; [by eexists|exact (ready_doing l tr H)|apply doing_sound]]. intros ? tr1 H1. cbn beta in H1.
  assert (Ed : deed l = if is_cd (cstring l) then [SysChdir (drop 3 (take (length (cstring l) - 1) (cstring l)))] else [SysFork; SysWait false])
    by (unfold deed; by rewrite bool_decide_eq_false_2).
  destruct (is_cd (cstring l)).
  - apply wp_bind, wp_asks. intros a. destruct (doing_next l [] _ tr1 a [] H1 Ed) as [Hi Hh]; [done..|]. split; [done|]. intros _. cbn [app] in Hh. rewrite <- Ed in Hh.
    apply doing_done in Hh. destruct (ret a <? 0); [|by apply wp_ret]. apply wp_print; [by eexists|done|apply typing_sound].
  - apply wp_bind. eapply wp_mono; [|by apply (ufork1_wp _ l)]. intros pid tr2 [Hp H2]. apply wp_bind.
    eapply (wp_mono _ _ _ (fun _ tr => holds (doing l [SysFork]) tr)).
    + intros ? tr3 H3. apply wp_bind, wp_asks. intros a. destruct (doing_next l [SysFork] (SysWait false) tr3 a []) as [Hi Hh]; [done..|]. split; [done|]. intros _. apply wp_ret.
      apply (doing_done l). by rewrite Ed.
    + destruct Hp as [Hp|Hp]; [|by apply wp_child]. rewrite (proj2 (Z.eqb_neq _ _)) by lia. by apply wp_ret.
Qed.

Lemma sh_main_wp n Q : wp n sh_ok sh_main Q [].
Proof.
  assert (H0 : holds (typing []) []) by (intros _; done). apply wp_bind. eapply (wp_mono _ _ _ (fun _ tr => holds (typing []) tr)).
  - intros ? tr H. apply wp_bind. eapply (wp_mono _ _ _ (fun _ tr => exists l, cstring l = [] /\ holds (ready l) tr)).
    + intros ? tr1 (l & El & H1). apply wp_exit. intros a. destruct (doing_next l [] (SysExit 0) tr1 a []) as [Hi _]; [by apply ready_doing|unfold deed; by rewrite El|done..].
    + apply (wp_while _ _ _ (fun _ tr => holds (typing []) tr)); [|done]. intros [] tr1 H1. apply wp_bind. eapply wp_mono; [|by apply getcmd_wp].
      intros [buf|] tr2 H2; [|by apply wp_ret]. destruct H2 as (Hne & l & <- & H2). apply wp_bind. eapply wp_mono; [|by apply sh_line_wp]. intros ? tr3 H3. by apply wp_ret.
  - apply (wp_while _ _ _ (fun _ tr => holds (typing []) tr)); [|done]. intros [] tr H. apply wp_bind. eapply wp_mono; [|apply wp_quiet; [done|apply typing_sound|done|done]].
    intros fd tr1 H1. destruct (0 <=? fd); [destruct (3 <=? fd)|]; [|by apply wp_ret..]. apply wp_bind. eapply wp_mono; [|apply wp_quiet; [exact H1|apply typing_sound|done|done]].
    intros ? tr2 H2. by apply wp_ret.
Qed.

(** C10: Whatever the kernel answers, as long as its forks make children, the shell forks, waits, changes directory and exits exactly as the lines of its input say, in their order: for [cd] a [chdir] of its own, for any other line one child that it waits for, and at the end of the input [exit(0)]; a line ends at a newline, where the buffer is full, or where a read brings nothing.  It execs nothing itself. *)
Theorem shell_follows_input n kern : let tr := (drive n kern sh_main []).2 in forks_ok tr -> did tr `prefix_of` (typed tr).2 ≫= deed.
Proof. intros tr. apply (wp_drive n sh_ok sh_main (fun _ _ => True) kern []); [intros _; apply prefix_nil|apply sh_main_wp]. Qed.
(** A kernel for which the user types "cd /\n" and "ls\n" and then ends the input *)
Definition demo_input : list Z := str "cd /" ++ [10] ++ str "ls" ++ [10].
Definition typing_kern (tr : trace) (c : call) : ans :=
  match c with
  | SysOpen _ _ => mk_ans 3 []
  | SysFork => mk_ans 5 []
  | SysRead 0 1 => match demo_input !! length (tr ≫= key1) with Some k => mk_ans 1 [k] | None => mk_ans 0 [] end
  | _ => mk_ans 0 []
  end.
Lemma shell_follows_input_witness : did (drive 400 typing_kern sh_main []).2 = [SysChdir (str "/"); SysFork; SysWait false; SysExit 0] /\
  did (drive 400 typing_kern sh_main []).2 `prefix_of` (typed (drive 400 typing_kern sh_main []).2).2 ≫= deed.
Proof.
  split; [vm_compute; reflexivity|]. apply shell_follows_input. intros a Ha.
  assert (H : forallb (fun e => match e with (SysFork, a) => 0 <? ret a | _ => true end) (drive 400 typing_kern sh_main []).2 = true) by (vm_compute; reflexivity).
  rewrite forallb_forall in H. apply list_elem_of_In, H in Ha. by apply Z.ltb_lt.
Defined.
