(* ===== verification/Machine.v ===== *)
(** * User programs on the kernel

    Programs of [Calls] as processes of the kernel: each call is staged in the memory of the
    process, goes through [usertrap] with its number and arguments in the trapframe, and
    its answer is what [a0] and the memory hold when the kernel comes back.  [fork] gives the
    child the rest of the program with the answer 0, [exec] the program of the file it has loaded.
    One hart runs the processes that the scheduler picks; a process that sleeps in
    [wait] or [sleep] goes on in the loop of its call when it has been woken up, and the clock ticks
    when no process can run.  Timer interrupts do not come in between, and a process that would
    sleep on a pipe, the console or a lock ends the run with [Blocked]. *)

From stdpp Require Import base numbers list list_numbers gmap strings.
From Stdlib Require Import ZArith Lia.
From ITree Require Import Core.ITreeDefinition.
From S2P Require Import Prelude Params KString Path Sleeplock Virtio Bio Kmem Uart Console Fsys Blocks Dinode Vfs Dirs Pipe File Sysfile Kalloc Vm KmemVm FsDemo ConsoleProof Exec Proc ProcSpec Printf Kernel KernelSpec Calls.

Definition set_scause v r := mk_hart (sstatus r) v (sepc r) (stval r) (stvec r) (sip r) (satp r) (tp r).

Section Machine.
Context {B U X : Type} `{BC : BufCache B} `{UD : UartDev U} `{PD : PlicDev X}.
Abbreviation KS := (kernel B U X).
(** The addresses of the code, and the programs, by their names and arguments *)
Context (trampoline uservec forkret_addr kernelvec usertrap_addr ticks_addr : Z) (disk_intr : K B unit) (programs : list Z -> list (list Z) -> prog Z).

Definition the_usertrap (h : Z) : K KS trapret := usertrap trampoline uservec forkret_addr kernelvec usertrap_addr ticks_addr 1 1 [] disk_intr (mret tt) h.

(** ** A call of the process on hart [h] *)

(** Where a program keeps its strings, its argument vector with its words, and its buffer: in the page after its text and in the pages that follow. *)
Definition str0 : Z := 0x1100.
Definition str1 : Z := 0x1400.
Definition args_at : Z := 0x1700.
Definition words_at : Z := 0x1900.
Definition data_at : Z := 0x2000.

(** Loads and stores of the program itself *)
Definition poke (h a : Z) (l : list Z) : K KS unit := i ← cur h; _ ← on_call i (on_fs (on_mm (km_out true a l))); mret tt.
Definition peek_user (h a n : Z) : K KS (list Z) := i ← cur h; r ← on_call i (on_fs (on_mm (km_in true a n))); mret (snd r).
(** [ecall] with the registers as they are *)
Definition ecall (h num a0 a1 a2 : Z) : K KS trapret :=
  i ← cur h;
  set_word i (TF_a 7) num;; set_word i (TF_a 0) a0;; set_word i (TF_a 1) a1;; set_word i (TF_a 2) a2;;
  w_hart h (fun r => set_scause 8 r);;
  the_usertrap h.
Fixpoint poke_args (h : Z) (argv : list (list Z)) (slot at_ : Z) : K KS unit :=
  match argv with
  | [] => poke h slot (le_encode 8 0)
  | a :: argv => poke h at_ (a ++ [0]);; poke h slot (le_encode 8 at_);; poke_args h argv (slot + 8) (at_ + zlen a + 1)
  end.
(** A load or a store: the page must be the user's and allow it; the hardware raises a page fault otherwise. *)
Definition access (h a perm cause : Z) (m : K KS unit) : K KS trapret :=
  i ← cur h;
  pt ← gets (fun s => pagetable (getp (kp s) i));
  ok ← on_kp (on_pmem (pa ← walkaddr pt a;
                       if pa =? 0 then mret false else pte ← walk pt a false; v ← ld64 pte; mret (has v perm)));
  if (ok : bool) then m;; mret (Resumes 0)
  else w_hart h (fun r => set_scause cause r);; the_usertrap h.
Definition issue (h : Z) (c : call) : K KS trapret :=
  match c with
  | SysFork => ecall h SYS_fork 0 0 0
  | SysExit st => ecall h SYS_exit st 0 0
  | SysWait st => ecall h SYS_wait (if st then data_at else 0) 0 0
  | SysPipe => ecall h SYS_pipe data_at 0 0
  | SysRead fd n => ecall h SYS_read fd data_at n
  | SysKill pid => ecall h SYS_kill pid 0 0
  | SysExec path argv => poke h str0 (path ++ [0]);; poke_args h argv args_at words_at;; ecall h SYS_exec str0 args_at 0
  | SysFstat fd => ecall h SYS_fstat fd data_at 0
  | SysChdir path => poke h str0 (path ++ [0]);; ecall h SYS_chdir str0 0 0
  | SysDup fd => ecall h SYS_dup fd 0 0
  | SysGetpid => ecall h SYS_getpid 0 0 0
  | SysSbrk n => ecall h SYS_sbrk n 0 0
  | SysSleep n => ecall h SYS_sleep n 0 0
  | SysUptime => ecall h SYS_uptime 0 0 0
  | SysOpen path mode => poke h str0 (path ++ [0]);; ecall h SYS_open str0 mode 0
  | SysWrite fd data => poke h data_at data;; ecall h SYS_write fd data_at (zlen data)
  | SysMknod path major minor => poke h str0 (path ++ [0]);; ecall h SYS_mknod str0 major minor
  | SysUnlink path => poke h str0 (path ++ [0]);; ecall h SYS_unlink str0 0 0
  | SysLink old new => poke h str0 (old ++ [0]);; poke h str1 (new ++ [0]);; ecall h SYS_link str0 str1 0
  | SysMkdir path => poke h str0 (path ++ [0]);; ecall h SYS_mkdir str0 0 0
  | SysClose fd => ecall h SYS_close fd 0 0
  | SysRaw num a0 a1 a2 => ecall h num a0 a1 a2
  | MemLoad a => access h a PTE_R 13 (l ← peek_user h a 1; i ← cur h; set_word i (TF_a 0) (znth l 0))
  | MemStore a v => access h a PTE_W 15 (poke h a [uchar v])
  (* an illegal instruction *)
  | SysTrap => w_hart h (fun r => set_scause 2 r);; the_usertrap h
  end.
(** The arguments on the stack of a program that [exec] has loaded: [argc] in [a0] and [argv] in [a1] *)
Fixpoint load_args (h : Z) (n : nat) (argv : Z) : K KS (list (list Z)) :=
  match n with
  | O => mret []
  | S n =>
      p ← peek_user h argv 8;
      i ← cur h;
      a ← on_call i (on_fs (on_mm (km_str (le_decode p) MAXPATH)));
      rest ← load_args h n (argv + 8);
      mret (cstring (snd a) :: rest)
  end.
Definition loaded (h : Z) : K KS (prog Z) :=
  i ← cur h;
  p ← gets (fun s => getp (kp s) i);
  argv ← load_args h (Z.to_nat (znth (tf p) (TF_a 0))) (znth (tf p) (TF_a 1));
  mret (programs (cstring (name p)) argv).
(** How much of the buffer the call has written *)
Definition stored_size (c : call) (r : Z) : Z :=
  match c with SysRead _ _ => r | SysWait true => 4 | SysPipe => 8 | SysFstat _ => 24 | _ => 0 end.
Definition answer (h : Z) (c : call) : K KS ans :=
  i ← cur h;
  v ← gets (fun s => znth (tf (getp (kp s) i)) (TF_a 0));
  (* [sbrk] returns a pointer, the others an int *)
  let r := match c with SysSbrk _ => v | _ => int v end in
  l ← (if 0 <? stored_size c r then peek_user h data_at (stored_size c r) else mret []);
  mret (mk_ans r l).

(** ** Processes *)

(** A process that has not run yet, one that runs its program, and one that sleeps in a call *)
Inductive thread := TNew (t : prog Z) | TReady (t : prog Z) | TAsleep (again : K KS sysret) (c : call) (k : ans -> prog Z).
Record machine := mk_machine { krn : KS; threads : list (option thread); recent : Z }.
Definition set_krn k m := mk_machine k (threads m) (recent m).
Definition set_thread (i : Z) (t : option thread) m := mk_machine (krn m) (zupd (threads m) i t) (recent m).
Definition set_recent i m := mk_machine (krn m) (threads m) i.
Definition on_krn {A} (f : K KS A) : K machine A := zoom krn set_krn f.

(** The kernel has come back from the call [c] of process [i]. *)
Definition back (h i : Z) (c : call) (k : ans -> prog Z) (again : K KS sysret) (r : trapret) : K machine unit :=
  match r with
  | Resumes _ =>
      a ← on_krn (answer h c);
      modify (set_thread i (Some (TReady (k a))));;
      match c with
      | SysFork =>
          s ← get;
          match (if 0 <? ret a then find_pid (ret a) (procs (kp (krn s))) 0 else None) with
          | Some j => modify (set_thread j (Some (TNew (k (mk_ans 0 [])))))
          | None => mret tt
          end
      | SysExec _ _ | SysRaw 7 _ _ _ =>
          if 0 <=? ret a then t ← on_krn (loaded h); modify (set_thread i (Some (TReady t))) else mret tt
      | _ => mret tt
      end
  | TWaits | Yields => modify (set_thread i (Some (TAsleep again c k)))
  | TExited => modify (set_thread i None)
  end.
Definition retry (h ticks0 : Z) (c : call) : K KS sysret :=
  match c with
  | SysSleep n => sleep_again ticks_addr h ticks0 n
  | _ => on_kp (wake_up h);; sys_wait h
  end.
(** The rest of [usertrap] after the call has returned *)
Definition finish (h i : Z) (r : sysret) : K KS trapret :=
  match r with
  | Done v => set_word i (TF_a 0) v;; usertrap_end trampoline uservec usertrap_addr h i 0
  | Waits => mret TWaits
  | Exited => mret TExited
  end.

(** One hart: schedule, or go on with the process it runs, until the first process's program returns. *)
Fixpoint run (fuel : nat) (h : Z) : K machine Z :=
  match fuel with
  | O => out_of_fuel
  | S fuel =>
      s ← get;
      match cpus (kp (krn s)) !!! Z.to_nat h with
      | None =>
          r ← on_krn (on_kp (scheduler_pass h (recent s)));
          match r with
          | Some i => modify (set_recent i)
          | None => on_krn (clockintr ticks_addr h)
          end;;
          run fuel h
      | Some i =>
          match threads s !!! Z.to_nat i with
          | None => fault "no program"
          | Some (TNew t) => on_krn (on_kp (forkret h);; _ ← usertrapret trampoline uservec usertrap_addr h; mret tt);; modify (set_thread i (Some (TReady t)));; run fuel h
          | Some (TReady t) =>
              match observe t with
              | RetF r => mret r
              | TauF t => modify (set_thread i (Some (TReady t)));; run fuel h
              | VisF e k =>
                  match e in sysE Y return (Y -> prog Z) -> K machine Z with
                  | Ask c => fun k =>
                      r ← on_krn (issue h c);
                      t0 ← gets (fun s => ticks (krn s));
                      back h i c k (retry h t0 c) r;; run fuel h
                  end k
              end
          | Some (TAsleep again c k) =>
              r ← on_krn (v ← again; finish h i v);
              back h i c k again r;; run fuel h
          end
      end
  end.
End Machine.
