(* ===== verification/UsertestsFs.v ===== *)
(** * The file system tests

    The tests of [fstests1] in [src/user/usertests.c], which the program runs by default,
    as trees of system calls.  [s] is the name of the test; a test ends by returning
    or by [exit].  The global [buf] starts out zero in the process of each test. *)

From stdpp Require Import base numbers list list_numbers strings.
From Stdlib Require Import ZArith Lia.
From ITree Require Import Core.ITreeDefinition.
From S2P Require Import Prelude Params Path Fsys Blocks Vfs Sysfile Printf Kernel Calls.

(** A message and [exit(1)] *)
Definition oops {A} (fmt : string) (args : list arg) : prog A := printf (line fmt) args;; uexit 1.
(** [if(c) { printf(...); exit(1); }] *)
Definition check (c : bool) (fmt : string) (args : list arg) : prog unit := if c then oops fmt args else mret tt.
(** [for(i = 0; i < n; i++)] *)
Definition upto (n : Z) (body : Z -> prog unit) : prog unit := each (seqZ 0 n) body.
(** [close(open(path, mode))] *)
Definition touch (path : list Z) (mode : Z) : prog unit := fd ← uopen path mode; uclose fd;; mret tt.
Definition unlink_ (path : string) : prog unit := uunlink (str path);; mret tt.
Abbreviation AS s := (AStr (Some s)).

Definition BUFSZ : Z := (MAXOPBLOCKS + 2) * BSIZE.
Definition buf0 : list Z := replicate (Z.to_nat BUFSZ) 0.
(** [O_CREATE|O_RDWR], [O_CREATE|O_WRONLY] and with [O_TRUNC] *)
Definition CREATE_RW : Z := Z.lor O_CREATE O_RDWR.
Definition CREATE_W : Z := Z.lor O_CREATE O_WRONLY.
Definition CREATE_WT : Z := Z.lor (Z.lor O_CREATE O_WRONLY) O_TRUNC.

Definition truncate1 (s : list Z) : prog unit :=
  unlink_ "truncfile";;
  fd1 ← uopen (str "truncfile") CREATE_WT;
  uwrite fd1 (str "abcd");;
  uclose fd1;;
  fd2 ← uopen (str "truncfile") O_RDONLY;
  '(n, _) ← uread fd2 32;
  check (negb (n =? 4)) "%s: read %d bytes, wanted 4" [AS s; AInt n];;
  fd1 ← uopen (str "truncfile") (Z.lor O_WRONLY O_TRUNC);
  fd3 ← uopen (str "truncfile") O_RDONLY;
  '(n, _) ← uread fd3 32;
  (if negb (n =? 0) then printf (line "aaa fd3=%d") [AInt fd3];; oops "%s: read %d bytes, wanted 0" [AS s; AInt n] else mret tt);;
  '(n, _) ← uread fd2 32;
  (if negb (n =? 0) then printf (line "bbb fd2=%d") [AInt fd2];; oops "%s: read %d bytes, wanted 0" [AS s; AInt n] else mret tt);;
  uwrite fd1 (str "abcdef");;
  '(n, _) ← uread fd3 32;
  check (negb (n =? 6)) "%s: read %d bytes, wanted 6" [AS s; AInt n];;
  '(n, _) ← uread fd2 32;
  check (negb (n =? 2)) "%s: read %d bytes, wanted 2" [AS s; AInt n];;
  unlink_ "truncfile";;
  uclose fd1;;
  uclose fd2;;
  uclose fd3;; mret tt.

Definition truncate2 (s : list Z) : prog unit :=
  unlink_ "truncfile";;
  fd1 ← uopen (str "truncfile") CREATE_WT;
  uwrite fd1 (str "abcd");;
  fd2 ← uopen (str "truncfile") (Z.lor O_TRUNC O_WRONLY);
  n ← uwrite fd1 (str "x");
  check (negb (n =? -1)) "%s: write returned %d, expected -1" [AS s; AInt n];;
  unlink_ "truncfile";;
  uclose fd1;;
  uclose fd2;; mret tt.

Definition truncate3_child (s : list Z) : prog unit :=
  upto 100 (fun _ =>
    fd ← uopen (str "truncfile") O_WRONLY;
    check (fd <? 0) "%s: open failed" [AS s];;
    n ← uwrite fd (str "1234567890");
    check (negb (n =? 10)) "%s: write got %d, expected 10" [AS s; AInt n];;
    uclose fd;;
    fd ← uopen (str "truncfile") O_RDONLY;
    uread fd 32;;
    uclose fd;; mret tt);;
  uexit 0.
Definition truncate3 (s : list Z) : prog unit :=
  touch (str "truncfile") CREATE_WT;;
  pid ← ufork;
  check (pid <? 0) "%s: fork failed" [AS s];;
  (if pid =? 0 then truncate3_child s else mret tt);;
  upto 150 (fun _ =>
    fd ← uopen (str "truncfile") CREATE_WT;
    check (fd <? 0) "%s: open failed" [AS s];;
    n ← uwrite fd (str "xxx");
    check (negb (n =? 3)) "%s: write got %d, expected 3" [AS s; AInt n];;
    uclose fd;; mret tt);;
  '(_, xstatus) ← uwait;
  unlink_ "truncfile";;
  uexit xstatus.

Definition iputtest (s : list Z) : prog unit :=
  r ← umkdir (str "iputdir");
  check (r <? 0) "%s: mkdir failed" [AS s];;
  r ← uchdir (str "iputdir");
  check (r <? 0) "%s: chdir iputdir failed" [AS s];;
  r ← uunlink (str "../iputdir");
  check (r <? 0) "%s: unlink ../iputdir failed" [AS s];;
  r ← uchdir (str "/");
  check (r <? 0) "%s: chdir / failed" [AS s].

Definition exitiputtest (s : list Z) : prog unit :=
  pid ← ufork;
  check (pid <? 0) "%s: fork failed" [AS s];;
  (if pid =? 0 then
     r ← umkdir (str "iputdir");
     check (r <? 0) "%s: mkdir failed" [AS s];;
     r ← uchdir (str "iputdir");
     check (r <? 0) "%s: child chdir failed" [AS s];;
     r ← uunlink (str "../iputdir");
     check (r <? 0) "%s: unlink ../iputdir failed" [AS s];;
     uexit 0
   else mret tt);;
  '(_, xstatus) ← uwait;
  uexit xstatus.

Definition openiputtest (s : list Z) : prog unit :=
  r ← umkdir (str "oidir");
  check (r <? 0) "%s: mkdir oidir failed" [AS s];;
  pid ← ufork;
  check (pid <? 0) "%s: fork failed" [AS s];;
  (if pid =? 0 then
     fd ← uopen (str "oidir") O_RDWR;
     check (0 <=? fd) "%s: open directory for write succeeded" [AS s];;
     uexit 0
   else mret tt);;
  usleep 1;;
  r ← uunlink (str "oidir");
  check (negb (r =? 0)) "%s: unlink failed" [AS s];;
  '(_, xstatus) ← uwait;
  uexit xstatus.

Definition opentest (s : list Z) : prog unit :=
  fd ← uopen (str "echo") 0;
  check (fd <? 0) "%s: open echo failed!" [AS s];;
  uclose fd;;
  fd ← uopen (str "doesnotexist") 0;
  check (0 <=? fd) "%s: open doesnotexist succeeded!" [AS s].

Definition writetest (s : list Z) : prog unit :=
  fd ← uopen (str "small") CREATE_RW;
  check (fd <? 0) "%s: error: creat small failed!" [AS s];;
  upto 100 (fun i =>
    r ← uwrite fd (replicate 10 97);
    check (negb (r =? 10)) "%s: error: write aa %d new file failed" [AS s; AInt i];;
    r ← uwrite fd (replicate 10 98);
    check (negb (r =? 10)) "%s: error: write bb %d new file failed" [AS s; AInt i]);;
  uclose fd;;
  fd ← uopen (str "small") O_RDONLY;
  check (fd <? 0) "%s: error: open small failed!" [AS s];;
  '(i, _) ← uread fd (100 * 10 * 2);
  check (negb (i =? 100 * 10 * 2)) "%s: read failed" [AS s];;
  uclose fd;;
  r ← uunlink (str "small");
  check (r <? 0) "%s: unlink small failed" [AS s].

(** [n] counts the blocks read. *)
Definition writebig_read (s : list Z) (fd : Z) : prog unit :=
  while (fun n : Z =>
    '(i, l) ← uread fd BSIZE;
    if i =? 0 then
      (if n =? MAXFILE - 1 then printf (str "%s: read only %d blocks from big") [AS s; AInt n];; uexit 1 else mret tt);;
      mret (inr tt)
    else if negb (i =? BSIZE) then oops "%s: read failed %d" [AS s; AInt i]
    else
      let v := int (load 4 l 0) in
      check (negb (v =? n)) "%s: read content of block %d is %d" [AS s; AInt n; AInt v];;
      mret (inl (int (n + 1)))) 0.
Definition writebig (s : list Z) : prog unit :=
  fd ← uopen (str "big") CREATE_RW;
  check (fd <? 0) "%s: error: creat big failed!" [AS s];;
  upto MAXFILE (fun i =>
    r ← uwrite fd (sub (store 4 buf0 0 i) 0 BSIZE);
    check (negb (r =? BSIZE)) "%s: error: write big file failed" [AS s; AInt i]);;
  uclose fd;;
  fd ← uopen (str "big") O_RDONLY;
  check (fd <? 0) "%s: error: open big failed!" [AS s];;
  writebig_read s fd;;
  uclose fd;;
  r ← uunlink (str "big");
  check (r <? 0) "%s: unlink big failed" [AS s].

Definition createtest (s : list Z) : prog unit :=
  upto 52 (fun i => touch [97; 48 + i] CREATE_RW);;
  upto 52 (fun i => uunlink [97; 48 + i];; mret tt).

Definition dirtest (s : list Z) : prog unit :=
  r ← umkdir (str "dir0");
  check (r <? 0) "%s: mkdir failed" [AS s];;
  r ← uchdir (str "dir0");
  check (r <? 0) "%s: chdir dir0 failed" [AS s];;
  r ← uchdir (str "..");
  check (r <? 0) "%s: chdir .. failed" [AS s];;
  r ← uunlink (str "dir0");
  check (r <? 0) "%s: unlink dir0 failed" [AS s].

Definition exectest (s : list Z) : prog unit :=
  unlink_ "echo-ok";;
  pid ← ufork;
  check (pid <? 0) "%s: fork failed" [AS s];;
  (if pid =? 0 then
     uclose 1;;
     fd ← uopen (str "echo-ok") CREATE_W;
     check (fd <? 0) "%s: create failed" [AS s];;
     check (negb (fd =? 1)) "%s: wrong fd" [AS s];;
     r ← uexec (str "echo") [str "echo"; str "OK"];
     check (r <? 0) "%s: exec echo failed" [AS s]
   else mret tt);;
  '(w, xstatus) ← uwait;
  (if negb (w =? pid) then printf (line "%s: wait failed!") [AS s] else mret tt);;
  (if negb (xstatus =? 0) then uexit xstatus else mret tt);;
  fd ← uopen (str "echo-ok") O_RDONLY;
  check (fd <? 0) "%s: open failed" [AS s];;
  '(n, buf) ← uread fd 2;
  check (negb (n =? 2)) "%s: read failed" [AS s];;
  unlink_ "echo-ok";;
  if (znth buf 0 =? 79) && (znth buf 1 =? 75) then uexit 0 else oops "%s: wrong output" [AS s].

(** [nc] and [np] count the characters of the child and of the parent in what is read. *)
Definition count_char (c : Z) (l : list Z) : Z := zlen (filter (fun x => x = c) l).
Definition sharedfd_count (fd : Z) (buf : list Z) : prog (Z * Z) :=
  while (fun st : list Z * (Z * Z) =>
    let '(buf, (nc, np)) := st in
    '(n, l) ← uread fd 10;
    if 0 <? n then
      let buf := splice buf 0 l in
      mret (inl (buf, (nc + count_char 99 buf, np + count_char 112 buf)))
    else mret (inr (nc, np))) (buf, (0, 0)).
Definition sharedfd (s : list Z) : prog unit :=
  unlink_ "sharedfd";;
  fd ← uopen (str "sharedfd") CREATE_RW;
  (if fd <? 0 then printf (str "%s: cannot open sharedfd for writing") [AS s];; uexit 1 else mret tt);;
  pid ← ufork;
  let buf := replicate 10 (if pid =? 0 then 99 else 112) in
  upto 1000 (fun _ =>
    r ← uwrite fd buf;
    check (negb (r =? 10)) "%s: write sharedfd failed" [AS s]);;
  (if pid =? 0 then uexit 0
   else
     '(_, xstatus) ← uwait;
     if negb (xstatus =? 0) then uexit xstatus else mret tt);;
  uclose fd;;
  fd ← uopen (str "sharedfd") 0;
  check (fd <? 0) "%s: cannot open sharedfd for reading" [AS s];;
  '(nc, np) ← sharedfd_count fd buf;
  uclose fd;;
  unlink_ "sharedfd";;
  if (nc =? 1000 * 10) && (np =? 1000 * 10) then uexit 0 else oops "%s: nc/np test fails" [AS s].

Definition fname (i : Z) : list Z := [102; 48 + i].
Definition fourfiles_child (s : list Z) (pi : Z) : prog unit :=
  fd ← uopen (fname pi) CREATE_RW;
  check (fd <? 0) "create failed" [AS s];;
  upto 12 (fun _ =>
    n ← uwrite fd (replicate 500 (48 + pi));
    check (negb (n =? 500)) "write failed %d" [AInt n]);;
  uexit 0.
(** The loop over what is read of a file; every byte must be [c]. *)
Definition fourfiles_read (s : list Z) (fd c : Z) : prog Z :=
  while (fun total : Z =>
    '(n, l) ← uread fd BUFSZ;
    if 0 <? n then
      check (negb (forallb (fun x => x =? c) (sub l 0 n))) "wrong char" [AS s];;
      mret (inl (int (total + n)))
    else mret (inr total)) 0.
Definition fourfiles (s : list Z) : prog unit :=
  upto 4 (fun pi =>
    uunlink (fname pi);;
    pid ← ufork;
    check (pid <? 0) "fork failed" [AS s];;
    if pid =? 0 then fourfiles_child s pi else mret tt);;
  upto 4 (fun _ =>
    '(_, xstatus) ← uwait;
    if negb (xstatus =? 0) then uexit xstatus else mret tt);;
  upto 4 (fun i =>
    fd ← uopen (fname i) 0;
    total ← fourfiles_read s fd (48 + i);
    uclose fd;;
    check (negb (total =? 12 * 500)) "wrong length %d" [AInt total];;
    uunlink (fname i);; mret tt).

Definition createdelete_child (s : list Z) (pi : Z) : prog unit :=
  upto 20 (fun i =>
    fd ← uopen [112 + pi; 48 + i] CREATE_RW;
    check (fd <? 0) "%s: create failed" [AS s];;
    uclose fd;;
    if (0 <? i) && (i mod 2 =? 0) then
      r ← uunlink [112 + pi; 48 + i / 2];
      check (r <? 0) "%s: unlink failed" [AS s]
    else mret tt);;
  uexit 0.
Definition createdelete (s : list Z) : prog unit :=
  upto 4 (fun pi =>
    pid ← ufork;
    check (pid <? 0) "fork failed" [AS s];;
    if pid =? 0 then createdelete_child s pi else mret tt);;
  upto 4 (fun _ =>
    '(_, xstatus) ← uwait;
    if negb (xstatus =? 0) then uexit 1 else mret tt);;
  upto 20 (fun i => upto 4 (fun pi =>
    let name := [112 + pi; 48 + i] in
    fd ← uopen name 0;
    (if ((i =? 0) || (20 / 2 <=? i)) && (fd <? 0) then oops "%s: oops createdelete %s didn't exist" [AS s; AS name]
     else if ((1 <=? i) && (i <? 20 / 2)) && (0 <=? fd) then oops "%s: oops createdelete %s did exist" [AS s; AS name]
     else mret tt);;
    if 0 <=? fd then uclose fd;; mret tt else mret tt));;
  upto 20 (fun i => upto 4 (fun pi => uunlink [112 + i; 48 + i];; mret tt)).

Definition unlinkread (s : list Z) : prog unit :=
  fd ← uopen (str "unlinkread") CREATE_RW;
  check (fd <? 0) "%s: create unlinkread failed" [AS s];;
  uwrite fd (str "hello");;
  uclose fd;;
  fd ← uopen (str "unlinkread") O_RDWR;
  check (fd <? 0) "%s: open unlinkread failed" [AS s];;
  r ← uunlink (str "unlinkread");
  check (negb (r =? 0)) "%s: unlink unlinkread failed" [AS s];;
  fd1 ← uopen (str "unlinkread") CREATE_RW;
  uwrite fd1 (str "yyy");;
  uclose fd1;;
  '(n, l) ← uread fd BUFSZ;
  (if negb (n =? 5) then printf (str "%s: unlinkread read failed") [AS s];; uexit 1 else mret tt);;
  let buf := splice buf0 0 l in
  check (negb (znth buf 0 =? 104)) "%s: unlinkread wrong data" [AS s];;
  r ← uwrite fd (sub buf 0 10);
  check (negb (r =? 10)) "%s: unlinkread write failed" [AS s];;
  uclose fd;;
  unlink_ "unlinkread".

Definition linktest (s : list Z) : prog unit :=
  unlink_ "lf1";;
  unlink_ "lf2";;
  fd ← uopen (str "lf1") CREATE_RW;
  check (fd <? 0) "%s: create lf1 failed" [AS s];;
  r ← uwrite fd (str "hello");
  check (negb (r =? 5)) "%s: write lf1 failed" [AS s];;
  uclose fd;;
  r ← ulink (str "lf1") (str "lf2");
  check (r <? 0) "%s: link lf1 lf2 failed" [AS s];;
  unlink_ "lf1";;
  r ← uopen (str "lf1") 0;
  check (0 <=? r) "%s: unlinked lf1 but it is still there!" [AS s];;
  fd ← uopen (str "lf2") 0;
  check (fd <? 0) "%s: open lf2 failed" [AS s];;
  '(n, _) ← uread fd BUFSZ;
  check (negb (n =? 5)) "%s: read lf2 failed" [AS s];;
  uclose fd;;
  r ← ulink (str "lf2") (str "lf2");
  check (0 <=? r) "%s: link lf2 lf2 succeeded! oops" [AS s];;
  unlink_ "lf2";;
  r ← ulink (str "lf2") (str "lf1");
  check (0 <=? r) "%s: link non-existent succeeded! oops" [AS s];;
  r ← ulink (str ".") (str "lf1");
  check (0 <=? r) "%s: link . lf1 succeeded! oops" [AS s].

Definition cfile (i : Z) : list Z := [67; 48 + i].
Definition concreate_make (i : Z) : prog unit :=
  let file := cfile i in
  uunlink file;;
  pid ← ufork;
  (if negb (pid =? 0) && (i mod 3 =? 1) then ulink (str "C0") file;; mret tt
   else if (pid =? 0) && (i mod 5 =? 1) then ulink (str "C0") file;; mret tt
   else
     fd ← uopen file CREATE_RW;
     check (fd <? 0) "concreate create %s failed" [AS file];;
     uclose fd;; mret tt);;
  if pid =? 0 then uexit 0
  else
    '(_, xstatus) ← uwait;
    if negb (xstatus =? 0) then uexit 1 else mret tt.
(** The scan of the directory: [de] is the last entry read, [fa] the files seen and [n] their number. *)
Definition concreate_scan (s : list Z) (fd : Z) : prog Z :=
  while (fun st : list Z * list Z * Z =>
    let '(de, fa, n) := st in
    '(r, l) ← uread fd 16;
    if 0 <? r then
      let de := splice de 0 l in
      if load 2 de 0 =? 0 then mret (inl (de, fa, n))
      else if (znth de 2 =? 67) && (znth de 4 =? 0) then
        let i := znth de 3 - 48 in
        let name := cstring (drop 2 de) in
        check ((i <? 0) || (40 <=? i)) "%s: concreate weird file %s" [AS s; AS name];;
        check (negb (znth fa i =? 0)) "%s: concreate duplicate file %s" [AS s; AS name];;
        mret (inl (de, zupd fa i 1, n + 1))
      else mret (inl (de, fa, n))
    else mret (inr n)) (replicate 16 0, replicate 40 0, 0).
Definition concreate_clean (s : list Z) (i : Z) : prog unit :=
  let file := cfile i in
  pid ← ufork;
  check (pid <? 0) "%s: fork failed" [AS s];;
  (if ((i mod 3 =? 0) && (pid =? 0)) || ((i mod 3 =? 1) && negb (pid =? 0)) then upto 6 (fun _ => touch file 0)
   else upto 6 (fun _ => uunlink file;; mret tt));;
  if pid =? 0 then uexit 0 else uwait0;; mret tt.
Definition concreate (s : list Z) : prog unit :=
  upto 40 concreate_make;;
  fd ← uopen (str ".") 0;
  n ← concreate_scan s fd;
  uclose fd;;
  check (negb (n =? 40)) "%s: concreate not enough files in directory listing" [AS s];;
  upto 40 (concreate_clean s).

(** [x] is the state of the random numbers. *)
Fixpoint linkunlink_loop (n : nat) (x : Z) : prog unit :=
  match n with
  | O => mret tt
  | S n =>
      let x := uint (x * 1103515245 + 12345) in
      (if x mod 3 =? 0 then touch (str "x") (Z.lor O_RDWR O_CREATE)
       else if x mod 3 =? 1 then ulink (str "cat") (str "x");; mret tt
       else unlink_ "x");;
      linkunlink_loop n x
  end.
Definition linkunlink (s : list Z) : prog unit :=
  unlink_ "x";;
  pid ← ufork;
  check (pid <? 0) "%s: fork failed" [AS s];;
  linkunlink_loop 100 (if negb (pid =? 0) then 1 else 97);;
  if negb (pid =? 0) then uwait0;; mret tt else uexit 0.

(** The calls of [subdir] that make its files *)
Definition subdir_make (s : list Z) : prog unit :=
  unlink_ "ff";;
  r ← umkdir (str "dd");
  check (negb (r =? 0)) "%s: mkdir dd failed" [AS s];;
  fd ← uopen (str "dd/ff") CREATE_RW;
  check (fd <? 0) "%s: create dd/ff failed" [AS s];;
  uwrite fd (str "ff");;
  uclose fd;;
  r ← uunlink (str "dd");
  check (0 <=? r) "%s: unlink dd (non-empty dir) succeeded!" [AS s];;
  r ← umkdir (str "/dd/dd");
  check (negb (r =? 0)) "subdir mkdir dd/dd failed" [AS s];;
  fd ← uopen (str "dd/dd/ff") CREATE_RW;
  check (fd <? 0) "%s: create dd/dd/ff failed" [AS s];;
  uwrite fd (str "FF");;
  uclose fd;;
  fd ← uopen (str "dd/dd/../ff") 0;
  check (fd <? 0) "%s: open dd/dd/../ff failed" [AS s];;
  '(cc, buf) ← uread fd BUFSZ;
  check (negb (cc =? 2) || negb (znth buf 0 =? 102)) "%s: dd/dd/../ff wrong content" [AS s];;
  uclose fd;;
  r ← ulink (str "dd/dd/ff") (str "dd/dd/ffff");
  check (negb (r =? 0)) "link dd/dd/ff dd/dd/ffff failed" [AS s];;
  r ← uunlink (str "dd/dd/ff");
  check (negb (r =? 0)) "%s: unlink dd/dd/ff failed" [AS s];;
  r ← uopen (str "dd/dd/ff") O_RDONLY;
  check (0 <=? r) "%s: open (unlinked) dd/dd/ff succeeded" [AS s].
(** A call on paths that must succeed, and one that must not *)
Definition must (r : prog Z) (s : list Z) (fmt : string) : prog unit := r ← r; check (negb (r =? 0)) fmt [AS s].
Definition must_not (r : prog Z) (s : list Z) (fmt : string) : prog unit := r ← r; check (r =? 0) fmt [AS s].
Definition no_open (path : string) (mode : Z) (s : list Z) (fmt : string) : prog unit := r ← uopen (str path) mode; check (0 <=? r) fmt [AS s].
Definition subdir_walk (s : list Z) : prog unit :=
  must (uchdir (str "dd")) s "%s: chdir dd failed";;
  must (uchdir (str "dd/../../dd")) s "%s: chdir dd/../../dd failed";;
  must (uchdir (str "dd/../../../dd")) s "chdir dd/../../dd failed";;
  must (uchdir (str "./..")) s "%s: chdir ./.. failed";;
  fd ← uopen (str "dd/dd/ffff") 0;
  check (fd <? 0) "%s: open dd/dd/ffff failed" [AS s];;
  '(n, _) ← uread fd BUFSZ;
  check (negb (n =? 2)) "%s: read dd/dd/ffff wrong len" [AS s];;
  uclose fd;;
  no_open "dd/dd/ff" O_RDONLY s "%s: open (unlinked) dd/dd/ff succeeded!".
Definition subdir_errors (s : list Z) : prog unit :=
  no_open "dd/ff/ff" CREATE_RW s "%s: create dd/ff/ff succeeded!";;
  no_open "dd/xx/ff" CREATE_RW s "%s: create dd/xx/ff succeeded!";;
  no_open "dd" O_CREATE s "%s: create dd succeeded!";;
  no_open "dd" O_RDWR s "%s: open dd rdwr succeeded!";;
  no_open "dd" O_WRONLY s "%s: open dd wronly succeeded!";;
  must_not (ulink (str "dd/ff/ff") (str "dd/dd/xx")) s "%s: link dd/ff/ff dd/dd/xx succeeded!";;
  must_not (ulink (str "dd/xx/ff") (str "dd/dd/xx")) s "%s: link dd/xx/ff dd/dd/xx succeeded!";;
  must_not (ulink (str "dd/ff") (str "dd/dd/ffff")) s "%s: link dd/ff dd/dd/ffff succeeded!";;
  must_not (umkdir (str "dd/ff/ff")) s "%s: mkdir dd/ff/ff succeeded!";;
  must_not (umkdir (str "dd/xx/ff")) s "%s: mkdir dd/xx/ff succeeded!";;
  must_not (umkdir (str "dd/dd/ffff")) s "%s: mkdir dd/dd/ffff succeeded!";;
  must_not (uunlink (str "dd/xx/ff")) s "%s: unlink dd/xx/ff succeeded!";;
  must_not (uunlink (str "dd/ff/ff")) s "%s: unlink dd/ff/ff succeeded!";;
  must_not (uchdir (str "dd/ff")) s "%s: chdir dd/ff succeeded!";;
  must_not (uchdir (str "dd/xx")) s "%s: chdir dd/xx succeeded!".
Definition subdir (s : list Z) : prog unit :=
  subdir_make s;;
  subdir_walk s;;
  subdir_errors s;;
  must (uunlink (str "dd/dd/ffff")) s "%s: unlink dd/dd/ff failed";;
  must (uunlink (str "dd/ff")) s "%s: unlink dd/ff failed";;
  must_not (uunlink (str "dd")) s "%s: unlink non-empty dd succeeded!";;
  r ← uunlink (str "dd/dd");
  check (r <? 0) "%s: unlink dd/dd failed" [AS s];;
  r ← uunlink (str "dd");
  check (r <? 0) "%s: unlink dd failed" [AS s].

(** The sizes from 499 to [BUFSZ] in steps of 471 *)
Definition bigwrite (s : list Z) : prog unit :=
  unlink_ "bigwrite";;
  while (fun sz : Z =>
    if sz <? BUFSZ then
      fd ← uopen (str "bigwrite") CREATE_RW;
      check (fd <? 0) "%s: cannot create bigwrite" [AS s];;
      upto 2 (fun _ =>
        cc ← uwrite fd (sub buf0 0 sz);
        check (negb (cc =? sz)) "%s: write(%d) ret %d" [AS s; AInt sz; AInt cc]);;
      uclose fd;;
      unlink_ "bigwrite";;
      mret (inl (sz + 471))
    else mret (inr tt)) 499.

(** [i] counts the reads and [total] their bytes. *)
Definition bigfile_read (s : list Z) (fd : Z) : prog Z :=
  while (fun st : Z * Z =>
    let '(i, total) := st in
    '(cc, buf) ← uread fd 300;
    check (cc <? 0) "%s: read bigfile failed" [AS s];;
    if cc =? 0 then mret (inr total)
    else
      check (negb (cc =? 300)) "%s: short read bigfile" [AS s];;
      check (negb (znth buf 0 =? i / 2) || negb (znth buf 299 =? i / 2)) "%s: read bigfile wrong data" [AS s];;
      mret (inl (i + 1, int (total + cc)))) (0, 0).
Definition bigfile (s : list Z) : prog unit :=
  unlink_ "bigfile.dat";;
  fd ← uopen (str "bigfile.dat") CREATE_RW;
  (if fd <? 0 then printf (str "%s: cannot create bigfile") [AS s];; uexit 1 else mret tt);;
  upto 20 (fun i =>
    r ← uwrite fd (replicate 600 (uchar i));
    check (negb (r =? 600)) "%s: write bigfile failed" [AS s]);;
  uclose fd;;
  fd ← uopen (str "bigfile.dat") 0;
  check (fd <? 0) "%s: cannot open bigfile" [AS s];;
  total ← bigfile_read s fd;
  uclose fd;;
  check (negb (total =? 20 * 600)) "%s: read bigfile wrong total" [AS s];;
  unlink_ "bigfile.dat".

Definition fourteen (s : list Z) : prog unit :=
  must (umkdir (str "12345678901234")) s "%s: mkdir 12345678901234 failed";;
  must (umkdir (str "12345678901234/123456789012345")) s "%s: mkdir 12345678901234/123456789012345 failed";;
  fd ← uopen (str "123456789012345/123456789012345/123456789012345") O_CREATE;
  check (fd <? 0) "%s: create 123456789012345/123456789012345/123456789012345 failed" [AS s];;
  uclose fd;;
  fd ← uopen (str "12345678901234/12345678901234/12345678901234") 0;
  check (fd <? 0) "%s: open 12345678901234/12345678901234/12345678901234 failed" [AS s];;
  uclose fd;;
  must_not (umkdir (str "12345678901234/12345678901234")) s "%s: mkdir 12345678901234/12345678901234 succeeded!";;
  must_not (umkdir (str "123456789012345/12345678901234")) s "%s: mkdir 12345678901234/123456789012345 succeeded!";;
  unlink_ "123456789012345/12345678901234";;
  unlink_ "12345678901234/12345678901234";;
  unlink_ "12345678901234/12345678901234/12345678901234";;
  unlink_ "123456789012345/123456789012345/123456789012345";;
  unlink_ "12345678901234/123456789012345";;
  unlink_ "12345678901234".

Definition rmdot (s : list Z) : prog unit :=
  must (umkdir (str "dots")) s "%s: mkdir dots failed";;
  must (uchdir (str "dots")) s "%s: chdir dots failed";;
  must_not (uunlink (str ".")) s "%s: rm . worked!";;
  must_not (uunlink (str "..")) s "%s: rm .. worked!";;
  must (uchdir (str "/")) s "%s: chdir / failed";;
  must_not (uunlink (str "dots/.")) s "%s: unlink dots/. worked!";;
  must_not (uunlink (str "dots/..")) s "%s: unlink dots/.. worked!";;
  must (uunlink (str "dots")) s "%s: unlink dots failed!".

Definition dirfile (s : list Z) : prog unit :=
  fd ← uopen (str "dirfile") O_CREATE;
  check (fd <? 0) "%s: create dirfile failed" [AS s];;
  uclose fd;;
  must_not (uchdir (str "dirfile")) s "%s: chdir dirfile succeeded!";;
  no_open "dirfile/xx" 0 s "%s: create dirfile/xx succeeded!";;
  no_open "dirfile/xx" O_CREATE s "%s: create dirfile/xx succeeded!";;
  must_not (umkdir (str "dirfile/xx")) s "%s: mkdir dirfile/xx succeeded!";;
  must_not (uunlink (str "dirfile/xx")) s "%s: unlink dirfile/xx succeeded!";;
  must_not (ulink (str "README") (str "dirfile/xx")) s "%s: link to dirfile/xx succeeded!";;
  must (uunlink (str "dirfile")) s "%s: unlink dirfile failed!";;
  no_open "." O_RDWR s "%s: open . for writing succeeded!";;
  fd ← uopen (str ".") 0;
  n ← uwrite fd (str "x");
  check (0 <? n) "%s: write . succeeded!" [AS s];;
  uclose fd;; mret tt.

Definition close_if (fd : Z) : prog unit := if 0 <=? fd then uclose fd;; mret tt else mret tt.
Definition iref (s : list Z) : prog unit :=
  upto (NINODE + 1) (fun _ =>
    must (umkdir (str "irefd")) s "%s: mkdir irefd failed";;
    must (uchdir (str "irefd")) s "%s: chdir irefd failed";;
    umkdir [];;
    ulink (str "README") [];;
    fd ← uopen [] O_CREATE;
    close_if fd;;
    fd ← uopen (str "xx") O_CREATE;
    close_if fd;;
    unlink_ "xx");;
  upto (NINODE + 1) (fun _ => uchdir (str "..");; unlink_ "irefd");;
  uchdir (str "/");; mret tt.

(** [*a = v] of an [int *a] *)
Definition ustore_int (a v : Z) : prog unit := each (imap (fun i b => (a + Z.of_nat i, b)) (le_encode 4 v)) (fun '(a, b) => ustore a b).
Definition textwrite (s : list Z) : prog unit :=
  pid ← ufork;
  (if pid =? 0 then ustore_int 0 10;; uexit 1
   else check (pid <? 0) "%s: fork failed" [AS s]);;
  '(_, xstatus) ← uwait;
  if xstatus =? -1 then uexit 0 else uexit xstatus.

Record test := mk_test { t_f : list Z -> prog unit; t_s : string }.
Definition fstests1 : list test :=
  [mk_test truncate1 "truncate1"; mk_test truncate2 "truncate2"; mk_test truncate3 "truncate3"; mk_test openiputtest "openiput";
   mk_test exitiputtest "exitiput"; mk_test iputtest "iput"; mk_test opentest "opentest"; mk_test writetest "writetest";
   mk_test writebig "writebig"; mk_test createtest "createtest"; mk_test dirtest "dirtest"; mk_test exectest "exectest";
   mk_test sharedfd "sharedfd"; mk_test fourfiles "fourfiles"; mk_test createdelete "createdelete"; mk_test unlinkread "unlinkread";
   mk_test linktest "linktest"; mk_test concreate "concreate"; mk_test linkunlink "linkunlink"; mk_test subdir "subdir";
   mk_test bigwrite "bigwrite"; mk_test bigfile "bigfile"; mk_test fourteen "fourteen"; mk_test rmdot "rmdot";
   mk_test dirfile "dirfile"; mk_test iref "iref"; mk_test textwrite "textwrite"].
