(* ===== verification/UsertestsMore.v ===== *)
(** * The other tests

    The tests of [quicktests] and [slowtests] in [src/user/usertests.c] that are not
    file system tests, as trees of system calls.  Where a test passes an address of its own
    making, or touches memory that it may not have, the call or the access has
    that address.  [local] is where the test keeps its own small buffers, [uninit] the address
    of the array of that name and [sp] the stack pointer. *)

From stdpp Require Import base numbers list list_numbers strings.
From Stdlib Require Import ZArith Lia.
From ITree Require Import Core.ITreeDefinition.
From S2P Require Import Prelude Params Path Fsys Blocks Vfs Kalloc Vm Printf Kernel Calls UsertestsFs.

Definition NOADDR : Z := 2 ^ 64 - 1.
Definition bad_addrs : list Z := [0x80000000; NOADDR].
(** [p[0] = l[0], ...], and the string at [p] *)
Definition store_bytes (p : Z) (l : list Z) : prog unit := each (imap (fun i b => (p + Z.of_nat i, b)) l) (fun '(a, b) => ustore a b).
Definition load_str (p : Z) : prog (list Z) :=
  while (fun st : Z * list Z => let '(p, l) := st in c ← uload p; if c =? 0 then mret (inr l) else mret (inl (uint64 (p + 1), l ++ [c]))) (p, []).
(** [if(c) { printf(...); exit(1); }] where the message does not end in a newline *)
Definition check' (c : bool) (fmt : string) (args : list arg) : prog unit := if c then printf (str fmt) args;; uexit 1 else mret tt.

Section Tests.
Context (local uninit sp : Z).

Definition copyin_addr (addr : Z) : prog unit :=
  fd ← uopen (str "copyin1") CREATE_W;
  check (fd <? 0) "open(copyin1) failed" [];;
  n ← uraw SYS_write fd addr 8192;
  check (0 <=? n) "write(fd, %p, 8192) returned %d, not -1" [ALong addr; AInt n];;
  uclose fd;;
  unlink_ "copyin1";;
  n ← uraw SYS_write 1 addr 8192;
  check (0 <? n) "write(1, %p, 8192) returned %d, not -1 or 0" [ALong addr; AInt n];;
  '(r, fd0, fd1) ← upipe;
  check (r <? 0) "pipe() failed" [];;
  n ← uraw SYS_write fd1 addr 8192;
  check (0 <? n) "write(pipe, %p, 8192) returned %d, not -1 or 0" [ALong addr; AInt n];;
  uclose fd0;;
  uclose fd1;; mret tt.
Definition ut_copyin (s : list Z) : prog unit := each bad_addrs copyin_addr.

Definition copyout_addr (addr : Z) : prog unit :=
  fd ← uopen (str "README") 0;
  check (fd <? 0) "open(README) failed" [];;
  n ← uraw SYS_read fd addr 8192;
  check (0 <? n) "read(fd, %p, 8192) returned %d, not -1 or 0" [ALong addr; AInt n];;
  uclose fd;;
  '(r, fd0, fd1) ← upipe;
  check (r <? 0) "pipe() failed" [];;
  n ← uwrite fd1 (str "x");
  check (negb (n =? 1)) "pipe write failed" [];;
  n ← uraw SYS_read fd0 addr 8192;
  check (0 <? n) "read(pipe, %p, 8192) returned %d, not -1 or 0" [ALong addr; AInt n];;
  uclose fd0;;
  uclose fd1;; mret tt.
Definition ut_copyout (s : list Z) : prog unit := each bad_addrs copyout_addr.

Definition copyinstr1 (s : list Z) : prog unit :=
  each bad_addrs (fun addr =>
    fd ← uraw SYS_open addr CREATE_W 0;
    check (0 <=? fd) "open(%p) returned %d, not -1" [ALong addr; AInt fd]).

Definition copyinstr2 (s : list Z) : prog unit :=
  let b := replicate (Z.to_nat MAXPATH) 120 in
  ret ← uunlink b;
  check (negb (ret =? -1)) "unlink(%s) returned %d, not -1" [AS b; AInt ret];;
  fd ← uopen b CREATE_W;
  check (negb (fd =? -1)) "open(%s) returned %d, not -1" [AS b; AInt fd];;
  ret ← ulink b b;
  check (negb (ret =? -1)) "link(%s, %s) returned %d, not -1" [AS b; AS b; AInt ret];;
  ret ← uexec b [str "xx"];
  check (negb (ret =? -1)) "exec(%s) returned %d, not -1" [AS b; AInt fd];;
  pid ← ufork;
  check (pid <? 0) "fork failed" [];;
  (if pid =? 0 then
     let big := replicate (Z.to_nat PGSIZE) 120 in
     ret ← uexec (str "echo") [big; big; big];
     check (negb (ret =? -1)) "exec(echo, BIG) returned %d, not -1" [AInt fd];;
     uexit 747
   else mret tt);;
  '(_, st) ← uwait;
  check (negb (st =? 747)) "exec(echo, BIG) succeeded, should have failed" [].

Definition copyinstr3 (s : list Z) : prog unit :=
  usbrk 8192;;
  top ← usbrk 0;
  (if negb (top mod PGSIZE =? 0) then usbrk (PGSIZE - top mod PGSIZE);; mret tt else mret tt);;
  top ← usbrk 0;
  check (negb (top mod PGSIZE =? 0)) "oops" [];;
  let b := top - 1 in
  ustore b 120;;
  ret ← uraw SYS_unlink b 0 0;
  (if negb (ret =? -1) then l ← load_str b; oops "unlink(%s) returned %d, not -1" [AS l; AInt ret] else mret tt);;
  fd ← uraw SYS_open b CREATE_W 0;
  (if negb (fd =? -1) then l ← load_str b; oops "open(%s) returned %d, not -1" [AS l; AInt fd] else mret tt);;
  ret ← uraw SYS_link b b 0;
  (if negb (ret =? -1) then l ← load_str b; oops "link(%s, %s) returned %d, not -1" [AS l; AS l; AInt ret] else mret tt);;
  store_bytes (local + 16) (str "xx" ++ [0]);;
  store_bytes local (le_encode 8 (local + 16) ++ le_encode 8 0);;
  ret ← uraw SYS_exec b local 0;
  if negb (ret =? -1) then l ← load_str b; oops "exec(%s) returned %d, not -1" [AS l; AInt fd] else mret tt.

Definition rwsbrk (s : list Z) : prog unit :=
  a ← usbrk 8192;
  check (a =? NOADDR) "sbrk(rwsbrk) failed" [];;
  r ← usbrk (-8192);
  check (r =? NOADDR) "sbrk(rwsbrk) shrink failed" [];;
  fd ← uopen (str "rwsbrk") CREATE_W;
  check (fd <? 0) "open(rwsbrk) failed" [];;
  n ← uraw SYS_write fd (a + 4096) 1024;
  check (0 <=? n) "write(fd, %p, 1024) returned %d, not -1" [ALong (a + 4096); AInt n];;
  uclose fd;;
  unlink_ "rwsbrk";;
  fd ← uopen (str "README") O_RDONLY;
  check (fd <? 0) "open(rwsbrk) failed" [];;
  n ← uraw SYS_read fd (a + 4096) 10;
  check (0 <=? n) "read(fd, %p, 10) returned %d, not -1" [ALong (a + 4096); AInt n];;
  uclose fd;;
  uexit 0.

(** The bytes of the sequence that the child writes in pieces of 1033 *)
Definition pipe1_child (s : list Z) (fd0 fd1 : Z) : prog unit :=
  uclose fd0;;
  upto 5 (fun n =>
    r ← uwrite fd1 ((fun i => uchar (n * 1033 + i)) <$> seqZ 0 1033);
    check (negb (r =? 1033)) "%s: pipe1 oops 1" [AS s]);;
  uexit 0.
(** The loop of the parent; [None] when it has found a wrong byte and returns. *)
Definition pipe1_read (s : list Z) (fd : Z) : prog (option Z) :=
  while (fun st : Z * Z * Z =>
    let '(seq, cc, total) := st in
    '(n, l) ← uread fd cc;
    if 0 <? n then
      if negb (forallb (fun '(i, b) => b =? uchar (seq + i)) (zip (seqZ 0 n) (sub l 0 n))) then
        printf (line "%s: pipe1 oops 2") [AS s];; mret (inr None)
      else mret (inl (seq + n, Z.min (cc * 2) BUFSZ, total + n))
    else mret (inr (Some total))) (0, 1, 0).
Definition pipe1 (s : list Z) : prog unit :=
  '(r, fd0, fd1) ← upipe;
  check (negb (r =? 0)) "%s: pipe() failed" [AS s];;
  pid ← ufork;
  if pid =? 0 then pipe1_child s fd0 fd1
  else if 0 <? pid then
    uclose fd1;;
    t ← pipe1_read s fd0;
    match t with
    | None => mret tt
    | Some total =>
        (if negb (total =? 5 * 1033) then oops "%s: pipe1 oops 3 total %d" [AInt total] else mret tt);;
        uclose fd0;;
        '(_, xstatus) ← uwait;
        uexit xstatus
    end
  else oops "%s: fork() failed" [AS s].

Definition killstatus (s : list Z) : prog unit :=
  upto 100 (fun _ =>
    pid1 ← ufork;
    check (pid1 <? 0) "%s: fork failed" [AS s];;
    (if pid1 =? 0 then forever (ugetpid;; mret tt) else mret tt);;
    usleep 1;;
    ukill pid1;;
    '(_, xst) ← uwait;
    check (negb (xst =? -1)) "%s: status should be -1" [AS s]);;
  uexit 0.

(** [for(;;) ;] *)
Definition preempt (s : list Z) : prog unit :=
  pid1 ← ufork;
  check' (pid1 <? 0) "%s: fork failed" [AS s];;
  (if pid1 =? 0 then never else mret tt);;
  pid2 ← ufork;
  check (pid2 <? 0) "%s: fork failed" [AS s];;
  (if pid2 =? 0 then never else mret tt);;
  '(_, p0, p1) ← upipe;
  pid3 ← ufork;
  check (pid3 <? 0) "%s: fork failed" [AS s];;
  (if pid3 =? 0 then
     uclose p0;;
     r ← uwrite p1 (str "x");
     (if negb (r =? 1) then printf (str "%s: preempt write error") [AS s] else mret tt);;
     uclose p1;;
     never
   else mret tt);;
  uclose p1;;
  '(n, _) ← uread p0 BUFSZ;
  if negb (n =? 1) then printf (str "%s: preempt read error") [AS s]
  else
    uclose p0;;
    printf (str "kill... ") [];;
    ukill pid1;;
    ukill pid2;;
    ukill pid3;;
    printf (str "wait... ") [];;
    uwait0;;
    uwait0;;
    uwait0;; mret tt.

Definition exitwait (s : list Z) : prog unit :=
  upto 100 (fun i =>
    pid ← ufork;
    check (pid <? 0) "%s: fork failed" [AS s];;
    if negb (pid =? 0) then
      '(w, xstate) ← uwait;
      check (negb (w =? pid)) "%s: wait wrong pid" [AS s];;
      check (negb (i =? xstate)) "%s: wait wrong exit status" [AS s]
    else uexit i).

Definition reparent_ (s : list Z) : prog unit :=
  master_pid ← ugetpid;
  upto 200 (fun _ =>
    pid ← ufork;
    check (pid <? 0) "%s: fork failed" [AS s];;
    if negb (pid =? 0) then
      w ← uwait0;
      check (negb (w =? pid)) "%s: wait wrong pid" [AS s]
    else
      pid2 ← ufork;
      (if pid2 <? 0 then ukill master_pid;; uexit 1 else mret tt);;
      uexit 0);;
  uexit 0.

Definition twochildren (s : list Z) : prog unit :=
  upto 1000 (fun _ =>
    pid1 ← ufork;
    check (pid1 <? 0) "%s: fork failed" [AS s];;
    if pid1 =? 0 then uexit 0
    else
      pid2 ← ufork;
      check (pid2 <? 0) "%s: fork failed" [AS s];;
      if pid2 =? 0 then uexit 0 else uwait0;; uwait0;; mret tt).

Definition forkfork_child : prog unit :=
  upto 200 (fun _ =>
    pid1 ← ufork;
    (if pid1 <? 0 then uexit 1 else mret tt);;
    (if pid1 =? 0 then uexit 0 else mret tt);;
    uwait0;; mret tt);;
  uexit 0.
Definition forkfork (s : list Z) : prog unit :=
  upto 2 (fun _ =>
    pid ← ufork;
    check' (pid <? 0) "%s: fork failed" [AS s];;
    if pid =? 0 then forkfork_child else mret tt);;
  upto 2 (fun _ =>
    '(_, xstatus) ← uwait;
    check' (negb (xstatus =? 0)) "%s: fork in child failed" [AS s]).

Definition forkforkfork (s : list Z) : prog unit :=
  unlink_ "stopforking";;
  pid ← ufork;
  check' (pid <? 0) "%s: fork failed" [AS s];;
  (if pid =? 0 then
     forever (
       fd ← uopen (str "stopforking") 0;
       (if 0 <=? fd then uexit 0 else mret tt);;
       r ← ufork;
       if r <? 0 then touch (str "stopforking") CREATE_RW else mret tt)
   else mret tt);;
  usleep 20;;
  touch (str "stopforking") CREATE_RW;;
  uwait0;;
  usleep 10;; mret tt.

Definition reparent2 (s : list Z) : prog unit :=
  upto 800 (fun _ =>
    pid1 ← ufork;
    check (pid1 <? 0) "fork failed" [];;
    (if pid1 =? 0 then ufork;; ufork;; uexit 0 else mret tt);;
    uwait0;; mret tt);;
  uexit 0.

(** How many children there are when [fork] fails, or [N] *)
Definition forktest_fork (N : Z) : prog Z :=
  while (fun n : Z =>
    if n <? N then
      pid ← ufork;
      if pid <? 0 then mret (inr n)
      else if pid =? 0 then uexit 0
      else mret (inl (n + 1))
    else mret (inr n)) 0.
Definition ut_forktest (s : list Z) : prog unit :=
  n ← forktest_fork 1000;
  check (n =? 0) "%s: no fork at all!" [AS s];;
  check (n =? 1000) "%s: fork claimed to work 1000 times!" [AS s];;
  upto n (fun _ => w ← uwait0; check (w <? 0) "%s: wait stopped early" [AS s]);;
  w ← uwait0;
  check (negb (w =? -1)) "%s: wait got too many" [AS s].

(** [for(b = a; b < e; b += 4096) *b = v;] *)
Definition touch_pages (a e v : Z) : prog unit := while (fun b : Z => if b <? e then ustore b v;; mret (inl (b + 4096)) else mret (inr tt)) a.
Definition TOOMUCH : Z := 1024 * 1024 * 1024.
(** The loop of 5000 calls; the result is where the next one should be. *)
Fixpoint sbrkbasic_loop (k : nat) (s : list Z) (i a : Z) : prog Z :=
  match k with
  | O => mret a
  | S k =>
      b ← usbrk 1;
      check (negb (b =? a)) "%s: sbrk test failed %d %x %x" [AS s; AInt i; ALong a; ALong b];;
      ustore b 1;;
      sbrkbasic_loop k s (i + 1) (b + 1)
  end.
Definition sbrkbasic (s : list Z) : prog unit :=
  pid ← ufork;
  check (pid <? 0) "fork failed in sbrkbasic" [];;
  (if pid =? 0 then
     a ← usbrk TOOMUCH;
     (if a =? NOADDR then uexit 0 else mret tt);;
     touch_pages a (a + TOOMUCH) 99;;
     uexit 1
   else mret tt);;
  '(_, xstatus) ← uwait;
  check (xstatus =? 1) "%s: too much memory allocated!" [AS s];;
  a ← usbrk 0;
  a ← sbrkbasic_loop 5000 s 0 a;
  pid ← ufork;
  check (pid <? 0) "%s: sbrk test fork failed" [AS s];;
  usbrk 1;;
  c ← usbrk 1;
  check (negb (c =? a + 1)) "%s: sbrk test failed post-fork" [AS s];;
  (if pid =? 0 then uexit 0 else mret tt);;
  '(_, xstatus) ← uwait;
  uexit xstatus.

Definition BIG : Z := 100 * 1024 * 1024.
Definition sbrkmuch (s : list Z) : prog unit :=
  oldbrk ← usbrk 0;
  a ← usbrk 0;
  p ← usbrk (int (BIG - a));
  check (negb (p =? a)) "%s: sbrk test failed to grow big address space; enough phys mem?" [AS s];;
  eee ← usbrk 0;
  touch_pages a eee 1;;
  ustore (BIG - 1) 99;;
  a ← usbrk 0;
  c ← usbrk (- PGSIZE);
  check (c =? NOADDR) "%s: sbrk could not deallocate" [AS s];;
  c ← usbrk 0;
  check (negb (c =? a - PGSIZE)) "%s: sbrk deallocation produced wrong address, a %x c %x" [AS s; ALong a; ALong c];;
  a ← usbrk 0;
  c ← usbrk PGSIZE;
  e ← (if negb (c =? a) then mret true else e ← usbrk 0; mret (negb (e =? a + PGSIZE)));
  check e "%s: sbrk re-allocation failed, a %x c %x" [AS s; ALong a; ALong c];;
  v ← uload (BIG - 1);
  check (v =? 99) "%s: sbrk de-allocation didn't really deallocate" [AS s];;
  a ← usbrk 0;
  e ← usbrk 0;
  c ← usbrk (int (- (e - oldbrk)));
  check (negb (c =? a)) "%s: sbrk downsize failed, a %x c %x" [AS s; ALong a; ALong c].

(** A child that must be killed *)
Definition killed_child (s : list Z) (child : prog unit) : prog unit :=
  pid ← ufork;
  check (pid <? 0) "%s: fork failed" [AS s];;
  (if pid =? 0 then child else mret tt);;
  '(_, xstatus) ← uwait;
  if negb (xstatus =? -1) then uexit 1 else mret tt.
Definition kernmem (s : list Z) : prog unit :=
  upto 40 (fun i =>
    let a := KERNBASE + 50000 * i in
    killed_child s (v ← uload a; oops "%s: oops could read %x = %x" [AS s; ALong a; AInt v])).
(** [a] runs through 2^38, ..., 2^63. *)
Definition MAXVAplus (s : list Z) : prog unit :=
  upto 26 (fun i =>
    let a := MAXVA * 2 ^ i in
    killed_child s (ustore a 99;; oops "%s: oops wrote %x" [AS s; ALong a])).

Fixpoint sbrkfail_fork (k : nat) (fd0 fd1 : Z) (pids : list Z) : prog (list Z) :=
  match k with
  | O => mret pids
  | S k =>
      pid ← ufork;
      (if pid =? 0 then
         a ← usbrk 0;
         usbrk (int (BIG - a));;
         uwrite fd1 (str "x");;
         forever (usleep 1000;; mret tt)
       else mret tt);;
      (if negb (pid =? -1) then uread fd0 1;; mret tt else mret tt);;
      sbrkfail_fork k fd0 fd1 (pids ++ [pid])
  end.
(** [for(i = 0; i < 10*BIG; i += PGSIZE) n += *(a+i);] *)
Definition sum_pages (a : Z) : prog Z :=
  while (fun st : Z * Z => let '(i, n) := st in if i <? 10 * BIG then v ← uload (a + i); mret (inl (i + PGSIZE, int (n + v))) else mret (inr n)) (0, 0).
Definition sbrkfail (s : list Z) : prog unit :=
  '(r, fd0, fd1) ← upipe;
  check (negb (r =? 0)) "%s: pipe() failed" [AS s];;
  pids ← sbrkfail_fork 10 fd0 fd1 [];
  c ← usbrk PGSIZE;
  each pids (fun pid => if pid =? -1 then mret tt else ukill pid;; uwait0;; mret tt);;
  check (c =? NOADDR) "%s: failed sbrk leaked memory" [AS s];;
  pid ← ufork;
  check (pid <? 0) "%s: fork failed" [AS s];;
  (if pid =? 0 then
     a ← usbrk 0;
     usbrk (10 * BIG);;
     n ← sum_pages a;
     oops "%s: allocate a lot of memory succeeded %d" [AS s; AInt n]
   else mret tt);;
  '(_, xstatus) ← uwait;
  if negb (xstatus =? -1) && negb (xstatus =? 2) then uexit 1 else mret tt.

Definition sbrkarg (s : list Z) : prog unit :=
  a ← usbrk PGSIZE;
  fd ← uopen (str "sbrk") CREATE_W;
  unlink_ "sbrk";;
  check (fd <? 0) "%s: open sbrk failed" [AS s];;
  n ← uraw SYS_write fd a PGSIZE;
  check (n <? 0) "%s: write sbrk failed" [AS s];;
  uclose fd;;
  a ← usbrk PGSIZE;
  r ← uraw SYS_pipe a 0 0;
  check (negb (r =? 0)) "%s: pipe() failed" [AS s].

Definition validatetest (s : list Z) : prog unit :=
  store_bytes local (str "nosuchfile" ++ [0]);;
  upto (1100 * 1024 / PGSIZE + 1) (fun i =>
    r ← uraw SYS_link local (PGSIZE * i) 0;
    check (negb (r =? -1)) "%s: link should not succeed" [AS s]).

Definition bsstest (s : list Z) : prog unit :=
  upto 10000 (fun i => v ← uload (uninit + i); check (negb (v =? 0)) "%s: bss test failed" [AS s]).

(** The argument of [bigargtest]: 21 characters and 199 spaces *)
Definition bigarg : list Z := line "bigargs test: failed" ++ replicate 199 32.
Definition bigargtest (s : list Z) : prog unit :=
  unlink_ "bigarg-ok";;
  pid ← ufork;
  (if pid =? 0 then
     uexec (str "echo") (replicate (Z.to_nat (MAXARG - 1)) bigarg);;
     touch (str "bigarg-ok") O_CREATE;;
     uexit 0
   else check (pid <? 0) "%s: bigargtest: fork failed" [AS s]);;
  '(_, xstatus) ← uwait;
  (if negb (xstatus =? 0) then uexit xstatus else mret tt);;
  fd ← uopen (str "bigarg-ok") 0;
  check (fd <? 0) "%s: bigarg test failed!" [AS s];;
  uclose fd;; mret tt.

(** [while(1) { cc = write(fd, buf, BSIZE); if(cc < BSIZE) break; total += cc; }] *)
Definition fill_file (fd : Z) : prog Z :=
  while (fun total : Z => cc ← uwrite fd (sub buf0 0 BSIZE); if cc <? BSIZE then mret (inr total) else mret (inl (int (total + cc)))) 0.
Definition full_name (n : Z) : list Z := [102; 48 + n / 1000; 48 + n mod 1000 / 100; 48 + n mod 100 / 10; 48 + n mod 10].
Definition fsfull : prog unit :=
  printf (line "fsfull test") [];;
  nfiles ← while (fun nfiles : Z =>
    let name := full_name nfiles in
    printf (line "writing %s") [AS name];;
    fd ← uopen name CREATE_RW;
    if fd <? 0 then printf (line "open %s failed") [AS name];; mret (inr nfiles)
    else
      total ← fill_file fd;
      printf (line "wrote %d bytes") [AInt total];;
      uclose fd;;
      if total =? 0 then mret (inr nfiles) else mret (inl (nfiles + 1))) 0;
  while (fun n : Z => if 0 <=? n then uunlink (full_name n);; mret (inl (n - 1)) else mret (inr tt)) nfiles;;
  printf (line "fsfull test finished") [].

Definition argptest (s : list Z) : prog unit :=
  fd ← uopen (str "init") O_RDONLY;
  check (fd <? 0) "%s: open failed" [AS s];;
  top ← usbrk 0;
  uraw SYS_read fd (top - 1) (-1);;
  uclose fd;; mret tt.

Definition stacktest (s : list Z) : prog unit :=
  pid ← ufork;
  (if pid =? 0 then v ← uload (sp - PGSIZE); oops "%s: stacktest: read below stack %p" [AS s; AInt v]
   else check (pid <? 0) "%s: fork failed" [AS s]);;
  '(_, xstatus) ← uwait;
  if xstatus =? -1 then uexit 0 else uexit xstatus.

Definition big : Z := 0xeaeb0b5b00002f5e.
Definition pgbug (s : list Z) : prog unit :=
  store_bytes local (le_encode 8 0);;
  uraw SYS_exec big local 0;;
  uraw SYS_pipe big 0 0;;
  uexit 0.

(** A child that moves the break, and the wait for it *)
Definition sbrk_child (child : prog unit) : prog unit :=
  pid ← ufork;
  check (pid <? 0) "fork failed" [];;
  (if pid =? 0 then child;; uexit 0 else mret tt);;
  uwait0;; mret tt.
(** After [sbrk(-sz)] the process has no memory to run in: its next instruction is a page fault. *)
Definition sbrkbugs (s : list Z) : prog unit :=
  sbrk_child (a ← usbrk 0; let sz := int a in usbrk (int (- sz));; uload 0;; mret tt);;
  sbrk_child (a ← usbrk 0; let sz := int a in usbrk (int (- (sz - 3500)));; mret tt);;
  sbrk_child (a ← usbrk 0; usbrk (int (10 * 4096 + 2048 - a));; usbrk (-10);; mret tt);;
  uexit 0.

Definition sbrklast (s : list Z) : prog unit :=
  top ← usbrk 0;
  (if negb (top mod 4096 =? 0) then usbrk (4096 - top mod 4096);; mret tt else mret tt);;
  usbrk 4096;;
  usbrk 10;;
  usbrk (-20);;
  top ← usbrk 0;
  let p := top - 64 in
  ustore p 120;;
  ustore (p + 1) 0;;
  fd ← uraw SYS_open p (Z.lor O_RDWR O_CREATE) 0;
  uraw SYS_write fd p 1;;
  uclose fd;;
  fd ← uraw SYS_open p O_RDWR 0;
  ustore p 0;;
  uraw SYS_read fd p 1;;
  v ← uload p;
  if negb (v =? 120) then uexit 1 else mret tt.

Definition sbrk8000 (s : list Z) : prog unit :=
  usbrk (int 0x80000004);;
  top ← usbrk 0;
  v ← uload (top - 1);
  ustore (top - 1) (uchar (v + 1)).

Definition badarg (s : list Z) : prog unit :=
  upto 50000 (fun _ =>
    store_bytes local (le_encode 8 0xffffffff ++ le_encode 8 0 ++ str "echo" ++ [0]);;
    uraw SYS_exec (local + 16) local 0;; mret tt);;
  uexit 0.

(** ** [slowtests] *)

Definition xname (i : Z) : list Z := [120; 48 + i / 64; 48 + i mod 64].
Definition bigdir (s : list Z) : prog unit :=
  unlink_ "bd";;
  fd ← uopen (str "bd") O_CREATE;
  check (fd <? 0) "%s: bigdir create failed" [AS s];;
  uclose fd;;
  upto 500 (fun i =>
    r ← ulink (str "bd") (xname i);
    check (negb (r =? 0)) "%s: bigdir link(bd, %s) failed" [AS s; AS (xname i)]);;
  unlink_ "bd";;
  upto 500 (fun i =>
    r ← uunlink (xname i);
    check' (negb (r =? 0)) "%s: bigdir unlink failed" [AS s]).

Definition manywrites_child (s : list Z) (ci : Z) : prog unit :=
  let name := [98; 97 + ci] in
  uunlink name;;
  upto 30 (fun _ =>
    upto (ci + 1) (fun _ =>
      fd ← uopen name CREATE_RW;
      check (fd <? 0) "%s: cannot create %s" [AS s; AS name];;
      cc ← uwrite fd buf0;
      check (negb (cc =? BUFSZ)) "%s: write(%d) ret %d" [AS s; AInt BUFSZ; AInt cc];;
      uclose fd;; mret tt);;
    uunlink name;; mret tt);;
  uunlink name;;
  uexit 0.
Definition manywrites (s : list Z) : prog unit :=
  upto 4 (fun ci =>
    pid ← ufork;
    check (pid <? 0) "fork failed" [];;
    if pid =? 0 then manywrites_child s ci else mret tt);;
  upto 4 (fun _ =>
    '(_, st) ← uwait;
    if negb (st =? 0) then uexit st else mret tt);;
  uexit 0.

Definition badwrite (s : list Z) : prog unit :=
  unlink_ "junk";;
  upto 600 (fun _ =>
    fd ← uopen (str "junk") CREATE_W;
    check (fd <? 0) "open junk failed" [];;
    uraw SYS_write fd 0xffffffffff 1;;
    uclose fd;;
    unlink_ "junk");;
  fd ← uopen (str "junk") CREATE_W;
  check (fd <? 0) "open junk failed" [];;
  r ← uwrite fd (str "x");
  check (negb (r =? 1)) "write failed" [];;
  uclose fd;;
  unlink_ "junk";;
  uexit 0.

(** [while(1) { a = sbrk(4096); if(a == -1) break; *(char* )(a + 4096 - 1) = 1; }] *)
Definition take_all : prog unit :=
  while (fun _ : unit => a ← usbrk 4096; if a =? NOADDR then mret (inr tt) else ustore (a + 4096 - 1) 1;; mret (inl tt)) tt.
Definition execout (s : list Z) : prog unit :=
  upto 15 (fun avail =>
    pid ← ufork;
    if pid <? 0 then oops "fork failed" []
    else if pid =? 0 then
      take_all;;
      upto avail (fun _ => usbrk (-4096);; mret tt);;
      uclose 1;;
      uexec (str "echo") [str "echo"; str "x"];;
      uexit 0
    else uwait0;; mret tt);;
  uexit 0.

Definition bname (i : Z) : list Z := str "big" ++ [uchar (48 + i)].
Definition zname (i : Z) : list Z := str "zz" ++ [48 + i / 32; 48 + i mod 32].
(** Up to [k] blocks, which the source takes from an array that it has not set; whether a write has fallen short, after which the file is closed *)
Fixpoint diskfull_write (k : nat) (fd : Z) : prog bool :=
  match k with
  | O => mret false
  | S k =>
      r ← uwrite fd (sub buf0 0 BSIZE);
      if negb (r =? BSIZE) then uclose fd;; mret true else diskfull_write k fd
  end.
(** The files made; the loop ends at the first that could not be made or filled. *)
Definition diskfull_fill (s : list Z) : prog Z :=
  while (fun fi : Z =>
    let name := bname fi in
    uunlink name;;
    fd ← uopen name (Z.lor CREATE_RW O_TRUNC);
    if fd <? 0 then printf (line "%s: could not create file %s") [AS s; AS name];; mret (inr fi)
    else
      full ← diskfull_write (Z.to_nat MAXFILE) fd;
      uclose fd;;
      if (full : bool) then mret (inr (fi + 1)) else mret (inl (fi + 1))) 0.
(** Empty files until one cannot be made *)
Definition make_zz (n : Z) : prog unit :=
  while (fun i : Z =>
    if i <? n then
      uunlink (zname i);;
      fd ← uopen (zname i) (Z.lor CREATE_RW O_TRUNC);
      if fd <? 0 then mret (inr tt) else uclose fd;; mret (inl (i + 1))
    else mret (inr tt)) 0.
Definition diskfull (s : list Z) : prog unit :=
  unlink_ "diskfulldir";;
  fi ← diskfull_fill s;
  make_zz 128;;
  r ← umkdir (str "diskfulldir");
  (if r =? 0 then printf (line "%s: mkdir(diskfulldir) unexpectedly succeeded!") [] else mret tt);;
  unlink_ "diskfulldir";;
  upto 128 (fun i => uunlink (zname i);; mret tt);;
  upto fi (fun i => uunlink (bname i);; mret tt).

Definition outofinodes (s : list Z) : prog unit :=
  make_zz (32 * 32);;
  upto (32 * 32) (fun i => uunlink (zname i);; mret tt).
End Tests.
