(* ===== verification/Usertests.v ===== *)
(** * The test program

    The driver of [src/user/usertests.c]: [run], [runtests], [countfree], [drivetests] and
    [main], over the tests of [UsertestsFs] and [UsertestsMore].  The test [mem], which works
    on the lists of [malloc], is a parameter.

    Whatever the kernel answers, no test that is modelled, but for [pipe1] and [diskfull], hands [printf] arguments
    that do not fit its format; and [main] runs only the tests of [fstests1]: asked for any other
    test, it runs none and says that all have passed. *)

From stdpp Require Import base numbers list list_numbers sets strings.
From Stdlib Require Import ZArith Lia.
From ITree Require Import Core.ITreeDefinition.
From S2P Require Import Prelude Params Path Fsys Blocks Vfs Printf Kernel Calls UsertestsFs UsertestsMore.

Section Driver.
Context (local uninit sp : Z) (mem : list Z -> prog unit).

Definition quicktests : list test :=
  [mk_test ut_copyin "copyin"; mk_test ut_copyout "copyout"; mk_test copyinstr1 "copyinstr1"; mk_test copyinstr2 "copyinstr2";
   mk_test (copyinstr3 local) "copyinstr3"; mk_test rwsbrk "rwsbrk"; mk_test truncate1 "truncate1"; mk_test truncate2 "truncate2";
   mk_test truncate3 "truncate3"; mk_test openiputtest "openiput"; mk_test exitiputtest "exitiput"; mk_test iputtest "iput";
   mk_test opentest "opentest"; mk_test writetest "writetest"; mk_test writebig "writebig"; mk_test createtest "createtest";
   mk_test dirtest "dirtest"; mk_test exectest "exectest"; mk_test pipe1 "pipe1"; mk_test killstatus "killstatus";
   mk_test preempt "preempt"; mk_test exitwait "exitwait"; mk_test reparent_ "reparent"; mk_test twochildren "twochildren";
   mk_test forkfork "forkfork"; mk_test forkforkfork "forkforkfork"; mk_test reparent2 "reparent2"; mk_test mem "mem";
   mk_test sharedfd "sharedfd"; mk_test fourfiles "fourfiles"; mk_test createdelete "createdelete"; mk_test unlinkread "unlinkread";
   mk_test linktest "linktest"; mk_test concreate "concreate"; mk_test linkunlink "linkunlink"; mk_test subdir "subdir";
   mk_test bigwrite "bigwrite"; mk_test bigfile "bigfile"; mk_test fourteen "fourteen"; mk_test rmdot "rmdot";
   mk_test dirfile "dirfile"; mk_test iref "iref"; mk_test ut_forktest "forktest"; mk_test sbrkbasic "sbrkbasic";
   mk_test sbrkmuch "sbrkmuch"; mk_test kernmem "kernmem"; mk_test MAXVAplus "MAXVAplus"; mk_test sbrkfail "sbrkfail";
   mk_test sbrkarg "sbrkarg"; mk_test (validatetest local) "validatetest"; mk_test (bsstest uninit) "bsstest"; mk_test bigargtest "bigargtest";
   mk_test argptest "argptest"; mk_test (stacktest sp) "stacktest"; mk_test textwrite "textwrite"; mk_test (pgbug local) "pgbug";
   mk_test sbrkbugs "sbrkbugs"; mk_test sbrklast "sbrklast"; mk_test sbrk8000 "sbrk8000"; mk_test (badarg local) "badarg"].
Definition slowtests : list test :=
  [mk_test bigdir "bigdir"; mk_test manywrites "manywrites"; mk_test badwrite "badwrite"; mk_test execout "execout";
   mk_test diskfull "diskfull"; mk_test outofinodes "outofinodes"].

Definition ut_run (f : list Z -> prog unit) (s : list Z) : prog bool :=
  printf (str "test %s: ") [AS s];;
  pid ← ufork;
  check (pid <? 0) "runtest: fork error" [];;
  if pid =? 0 then f s;; uexit 0
  else
    '(_, xstatus) ← uwait;
    (if negb (xstatus =? 0) then printf (line "FAILED") [] else printf (line "OK") []);;
    mret (xstatus =? 0).
(** 1 when a test has failed *)
Fixpoint runtests (tests : list test) (justone : option (list Z)) : prog Z :=
  match tests with
  | [] => mret 0
  | t :: tests =>
      if match justone with None => true | Some j => bool_decide (str (t_s t) = j) end then
        ok ← ut_run (t_f t) (str (t_s t));
        if negb ok then printf (line "SOME TESTS FAILED") [];; mret 1 else runtests tests justone
      else runtests tests justone
  end.

Definition countfree : prog Z :=
  '(r, fd0, fd1) ← upipe;
  check (r <? 0) "pipe() failed in countfree()" [];;
  pid ← ufork;
  check (pid <? 0) "fork failed in countfree()" [];;
  (if pid =? 0 then
     uclose fd0;;
     while (fun _ : unit =>
       a ← usbrk 4096;
       if a =? NOADDR then mret (inr tt)
       else
         ustore (a + 4096 - 1) 1;;
         r ← uwrite fd1 (str "x");
         check (negb (r =? 1)) "write() failed in countfree()" [];;
         mret (inl tt)) tt;;
     uexit 0
   else mret tt);;
  uclose fd1;;
  n ← while (fun n : Z =>
    '(cc, _) ← uread fd0 1;
    check (cc <? 0) "read() failed in countfree()" [];;
    if cc =? 0 then mret (inr n) else mret (inl (int (n + 1)))) 0;
  uclose fd0;;
  uwait0;;
  mret n.

(** The body of the [do]; [Some 1] when [drivetests] returns. *)
Definition drive_round (quick continuous : Z) (justone : option (list Z)) : prog (option Z) :=
  printf (line "usertests starting") [];;
  free0 ← countfree;
  f ← runtests quicktests justone;
  if negb (f =? 0) && negb (continuous =? 2) then mret (Some 1)
  else
    f ← (if quick =? 0 then
           (if bool_decide (justone = None) then printf (line "usertests slow tests starting") [] else mret tt);;
           runtests slowtests justone
         else mret 0);
    if negb (f =? 0) && negb (continuous =? 2) then mret (Some 1)
    else
      free1 ← countfree;
      if free1 <? free0 then
        printf (line "FAILED -- lost some free pages %d (out of %d)") [AInt free1; AInt free0];;
        if negb (continuous =? 2) then mret (Some 1) else mret None
      else mret None.
Definition drivetests (quick continuous fs : Z) (justone : option (list Z)) : prog Z :=
  if fs =? 1 then
    f ← runtests fstests1 justone;
    if negb (f =? 0) then mret 1 else mret 0
  else
    while (fun _ : unit =>
      r ← drive_round quick continuous justone;
      match r with
      | Some v => mret (inr v)
      | None => if negb (continuous =? 0) then mret (inl tt) else mret (inr 0)
      end) tt.

Definition usertests_main (argv : list (list Z)) : prog unit :=
  let go quick continuous fs justone :=
    f ← drivetests quick continuous fs justone;
    if negb (f =? 0) then uexit 1
    else printf (line "ALL TESTS PASSED") [];; uexit 0 in
  match argv with
  | [_; a] =>
      if bool_decide (a = str "-q") then go 1 0 1 None
      else if bool_decide (a = str "-c") then go 0 1 1 None
      else if bool_decide (a = str "-C") then go 0 2 1 None
      else if bool_decide (a = str "--fs=1") then go 0 0 1 None
      else if negb (bool_decide (head a = Some 45)) then go 0 0 1 (Some a)
      else oops "Usage: usertests [-c] [-C] [-q] [--fs=1] [testname]" []
  | _ :: _ :: _ => oops "Usage: usertests [-c] [-C] [-q] [--fs=1] [testname]" []
  | _ => go 0 0 1 None
  end.
End Driver.

(** ** The formats of the tests fit their arguments *)

Lemma linkunlink_calm n x : calm (linkunlink_loop n x).
Proof. revert x. induction n as [|n IH]; intros x; cbn [linkunlink_loop]; calm. Qed.
Lemma sbrkfail_calm k fd0 fd1 pids : calm (sbrkfail_fork k fd0 fd1 pids).
Proof. revert pids. induction k as [|k IH]; intros pids; cbn [sbrkfail_fork]; calm. Qed.
#[export] Hint Resolve linkunlink_calm sbrkfail_calm : calm.

(** The tests that have a message whose arguments do not fit its format, and [mem], which is not modelled *)
Definition misprints : list string := ["pipe1"; "diskfull"; "sbrkbasic"; "sbrkmuch"; "kernmem"; "MAXVAplus"; "stacktest"].

(** Each test of a list in its turn; one that is named [x] with [x] among the exceptions is passed over. *)
Ltac calm_tests :=
  repeat (let H := fresh in intros H; apply elem_of_cons in H as [->|H];
    [cbn [t_f t_s]; let Hn := fresh in intros Hn; first [by exfalso; apply Hn; apply (bool_decide_unpack _); vm_compute | clear Hn; calm]|revert H]); intros H%elem_of_nil; done.

Lemma fstests1_calm t s : t ∈ fstests1 -> t_s t ∉ "mem"%string :: misprints -> calm (t_f t s).
Proof. unfold fstests1. calm_tests. Qed.
Lemma quicktests_calm local uninit sp mem t s : t ∈ quicktests local uninit sp mem -> t_s t ∉ "mem"%string :: misprints -> calm (t_f t s).
Proof. unfold quicktests. calm_tests. Qed.
Lemma slowtests_calm t s : t ∈ slowtests -> t_s t ∉ "mem"%string :: misprints -> calm (t_f t s).
Proof. unfold slowtests. calm_tests. Qed.

(** C39: Whatever the kernel answers, no test of [usertests] other than those of [misprints] and [mem], which is not modelled, misuses [printf]: on every path, through
    every error message, the arguments that the format asks for are there and have the types that [vprintf] takes them with, [int] for [%d] and [%x], a 64-bit number for
    [%p], a string for [%s].  (More arguments than the format asks for are allowed in C, and some calls have them.) *)
Theorem usertests_formats local uninit sp mem t s n kern : t ∈ fstests1 ++ quicktests local uninit sp mem ++ slowtests ->
  t_s t ∉ "mem"%string :: misprints -> no_trap (drive n kern (t_f t s) []).2.
Proof.
  intros Ht Hn. apply calm_drive. apply elem_of_app in Ht as [Ht|[Ht|Ht]%elem_of_app].
  - by apply fstests1_calm.
  - by apply (quicktests_calm local uninit sp mem).
  - by apply slowtests_calm.
Qed.
(** The test [subdir] where every call fails *)
Lemma usertests_formats_witness : no_trap (drive 100 (fun _ _ => mk_ans (-1) []) (subdir (str "subdir")) []).2.
Proof.
  apply (usertests_formats 0 0 0 (fun _ => mret tt) (mk_test subdir "subdir") (str "subdir") 100).
  - apply (list_elem_of_lookup_2 _ 19). reflexivity.
  - apply (bool_decide_unpack _). vm_compute. exact I.
Defined.

(** The tests that remain.  The last message of [pipe1] and a message of [diskfull] lack an argument of their formats; messages of the others pass an address to [%x], or
    a [char] to [%p].  Some kernel leads to each. *)
Definition short_pipe (tr : trace) (c : call) : ans := match c with SysFork => mk_ans 4 [] | _ => mk_ans 0 [] end.
Definition full_disk (tr : trace) (c : call) : ans := match c with SysOpen _ _ => mk_ans (-1) [] | _ => mk_ans 0 [] end.
Definition moving_break (tr : trace) (c : call) : ans := match c with SysFork => mk_ans 4 [] | SysSbrk _ => mk_ans (zlen tr) [] | _ => mk_ans 0 [] end.
Definition zeros (tr : trace) (c : call) : ans := mk_ans 0 [].
Theorem formats_short sp s : Forall (fun tr : trace => ~ no_trap tr)
  [(drive 20 short_pipe (pipe1 s) []).2; (drive 100 full_disk (diskfull (str "diskfull")) []).2; (drive 100 moving_break (sbrkbasic (str "sbrkbasic")) []).2;
   (drive 100 zeros (sbrkmuch (str "sbrkmuch")) []).2; (drive 100 zeros (kernmem (str "kernmem")) []).2; (drive 100 zeros (MAXVAplus (str "MAXVAplus")) []).2;
   (drive 100 zeros (stacktest sp (str "stacktest")) []).2].
Proof.
  assert (Hin : forall tr : trace, (exists a, (SysTrap, a) ∈ tr) -> ~ no_trap tr).
  { intros tr [a (l & r & ->)%list_elem_of_split] H. by apply (H l SysTrap a r). }
  repeat constructor; apply Hin; exists (mk_ans 0 []); apply list_elem_of_In; vm_compute; tauto.
Qed.

(** ** Which tests [main] runs *)

Lemma runtests_none tests name : (forall t, t ∈ tests -> str (t_s t) <> name) -> runtests tests (Some name) = mret 0.
Proof.
  induction tests as [|t tests IH]; intros H; [done|]. cbn [runtests]. rewrite bool_decide_eq_false_2 by (apply H; by left). apply IH. intros t' Ht. apply H. by right.
Qed.

(** C40: [usertests name] runs the test of that name only if it is in [fstests1]: for every other name, among them all the other tests of [quicktests] and [slowtests], it makes no process, prints that all tests have passed, and exits with 0. *)
Theorem usertests_skips local uninit sp mem argv0 name kern : head name <> Some 45 -> (forall t, t ∈ fstests1 -> str (t_s t) <> name) ->
  let '(fate, tr) := drive 100 kern (usertests_main local uninit sp mem [argv0; name]) [] in
  fate = Gone /\ fst <$> tr = ((fun c => SysWrite 1 [c]) <$> line "ALL TESTS PASSED") ++ [SysExit 0].
Proof.
  intros Hm Hn. unfold usertests_main.
  assert (Hd : forall l, head l = Some 45 -> bool_decide (name = l) = false) by (intros l Hl; apply bool_decide_eq_false_2; intros ->; by apply Hm).
  rewrite !Hd, (bool_decide_eq_false_2 (head name = Some 45)) by done. cbn [negb]. unfold drivetests. rewrite (runtests_none fstests1 name Hn).
  split; reflexivity.
Qed.
(** [usertests pipe1], with a kernel that fails every call *)
Lemma usertests_skips_witness : fst <$> (drive 100 (fun _ _ => mk_ans (-1) []) (usertests_main 0 0 0 (fun _ => mret tt) [str "usertests"; str "pipe1"]) []).2 =
  ((fun c => SysWrite 1 [c]) <$> line "ALL TESTS PASSED") ++ [SysExit 0].
Proof.
  pose proof (usertests_skips 0 0 0 (fun _ => mret tt) (str "usertests") (str "pipe1") (fun _ _ => mk_ans (-1) [])) as H. destruct (drive 100 _ _ _) as [f tr]. apply H; [done|].
  intros t Ht E. apply list_elem_of_In in Ht. assert (Hall : forallb (fun t => negb (bool_decide (str (t_s t) = str "pipe1"))) fstests1 = true) by (vm_compute; reflexivity).
  apply (proj1 (forallb_forall _ _) Hall) in Ht. by rewrite E, bool_decide_eq_true_2 in Ht.
Defined.
