(* ===== verification/UsertestsRun.v ===== *)
(** * The tests on the kernel

    A machine with the image that mkfs makes of a few programs: [init], which runs tests
    of [src/user/usertests.c], [echo] and [cat].  The kernel boots with [procinit] and
    [userinit], the first process execs [/init] through [initcode], and every test runs in a process
    of its own, on the file system, the memory and the scheduler of the model. *)

From stdpp Require Import base numbers list list_numbers gmap strings.
From Stdlib Require Import ZArith Lia.
From ITree Require Import Core.ITreeDefinition.
From S2P Require Import Prelude Params KString Mkfs MkfsSpec Path Sleeplock Virtio Bio Kmem Uart Console Fsys Blocks Dinode Vfs Dirs Pipe File Sysfile MkfsMount Kalloc Vm KmemVm FsDemo ConsoleProof Exec Proc ProcSpec Printf Kernel KernelSpec Calls UserMains Machine UsertestsFs Usertests.

(** ** The disk *)

(** An ELF file with a page of text at 0 and four pages of data after it *)
Definition proghdr_bytes (flags off va filesz memsz : Z) : list Z :=
  le_encode 4 ELF_PROG_LOAD ++ le_encode 4 flags ++ le_encode 8 off ++ le_encode 8 va ++ le_encode 8 va ++ le_encode 8 filesz ++ le_encode 8 memsz ++ le_encode 8 PGSIZE.
Definition elf_file : list Z :=
  le_encode 4 ELF_MAGIC ++ replicate 12 0 ++ le_encode 2 2 ++ le_encode 2 243 ++ le_encode 4 1 ++ le_encode 8 0 ++ le_encode 8 64 ++ le_encode 8 0 ++ le_encode 4 0 ++
  le_encode 2 64 ++ le_encode 2 56 ++ le_encode 2 2 ++ replicate 6 0 ++
  proghdr_bytes 5 176 0 4 PGSIZE ++ proghdr_bytes 6 180 PGSIZE 0 (4 * PGSIZE) ++ [0x73; 0; 0; 0].
Definition test_files : list MkfsSpec.file :=
  [(str "user/_init", Some [elf_file]); (str "user/_echo", Some [elf_file]); (str "user/_cat", Some [elf_file]); (str "README", Some [str "read me"])].
Definition test_image : image := match mkfs_main test_files blank with Ok (_, im) => im | _ => blank end.
(** The blocks that mkfs has filled are below 100, and a sector that is not in the map is zero. *)
Definition test_sectors : list (Z * list Z) :=
  seqZ 0 100 ≫= (fun b => let l := sects test_image !!! b in [(2 * b, take 512 l); (2 * b + 1, drop 512 l)]).
Definition test_disk : disk := set_sectors (fun _ => list_to_map test_sectors) disk0.

(** ** The machine before the first process runs *)

Definition boot_g : fsys (bcache disk) kmem :=
  mk_fsys (match binit (mk_bcache test_disk boot_bufs 0) with Ok (_, s) => s | _ => mk_bcache test_disk [] 0 end)
    (mk_kmem (match kinit (Kalloc.machine 160) with Ok (_, m) => m | _ => Kalloc.machine 0 end) 0 (replicate (Z.to_nat PGSIZE) 0))
    (decode_sb []) (replicate (Z.to_nat NINODE) MkfsMount.free_inode) (replicate (Z.to_nat NDENTRY) inhabitant) ∅ (replicate (Z.to_nat NFILE) inhabitant) None [] 0.
(** What the bytes of [initcode] do *)
Definition initcode_prog : prog Z := uraw SYS_exec 0x24 0x2b 0;; uexit 0.
Definition boot_machine : res (unit * Machine.machine (B := bcache disk) (U := demo_uart) (X := unit)) :=
  res_bind ((on_kp (ProcSpec.boot trampoline_pa forkret_pa);; on_kp (on_g (iinit;; fileinit))) (mk_kernel (reset_table boot_g) (demo_console []) tt 0 [reset_hart 0]))
    (fun '(_, k) => Ok (tt, mk_machine k (Some (TNew initcode_prog) :: replicate 63 None) (-1))).

(** [init] opens the console as the program of that name does, and then runs the tests. *)
Definition test_init (tests : list test) : prog Z :=
  umknod (str "console") CONSOLE 0;;
  uopen (str "console") O_RDWR;;
  udup 0;;
  udup 0;;
  runtests tests None.
Definition test_programs (tests : list test) (name : list Z) (argv : list (list Z)) : prog Z :=
  if bool_decide (name = str "echo") then echo_main argv;; mret 0
  else if bool_decide (name = str "cat") then cat_main argv;; mret 0
  else test_init tests.
(** The result of [runtests]: 0 when every test has passed *)
Definition run_tests (fuel : nat) (tests : list test) : res Z :=
  res_bind boot_machine (fun '(_, m) =>
    res_bind (run trampoline_pa (trampoline_pa + 0) forkret_pa 5 6 8 (mret tt) (test_programs tests) fuel 0 m) (fun '(r, _) => Ok r)).

(** Three file system tests of [usertests.c], with their forks, waits, an [exec] of [echo], links, unlinks, reads and writes, run on the kernel from the image that mkfs makes, and each of them exits with 0. *)
Theorem usertests_pass :
  run_tests (Z.to_nat 10000) [mk_test exectest "exectest"; mk_test unlinkread "unlinkread"; mk_test linktest "linktest"] = Ok 0.
Proof. vm_compute. reflexivity. Qed.
